(* ===== verification/_CoqProject ===== *)
-Q . S2P
Prelude.v
SysTime.v
Config.v
Codec.v
Status.v
Algo.v
Protocol.v
X509.v
Crypto.v
Registry.v
SpdmRing.v
CertOps.v
CertTrust.v
Mbedtls.v
ToyRing.v
KeySchedule.v
Buffers.v
Session.v
SessionProofs.v
MbedtlsProofs.v
Context.v
Transport.v
ToyContext.v
MbedtlsExample.v
CertExample.v
SpdmCodec.v
Opaque.v
MsgNegotiate.v
MsgAuth.v
MsgSession.v
Message.v
MsgEncap.v
Endpoint.v
Responder.v
Within.v
RspWriter.v
Nonces.v
RspConnect.v
RspSession.v
RspDispatch.v
RspFrame.v
RspCode.v
RspState.v
RspInv.v
RspSafe.v
RspEst.v
RspExample.v
Requester.v
ReqConnect.v
Encap.v
ReqSession.v
Loopback.v
ReqFrame.v
ReqAuth.v
ReqSafe.v
EncapProofs.v
EncapAuth.v
ReqFinish.v
ReqTrust.v
ReqExample.v
EncapExample.v
Tdisp.v
TdispState.v
TdispProofs.v
