(* ===== verification/Prelude.v ===== *)
(** A verification of rust-spdm, an implementation of the SPDM protocol (DMTF DSP0274) in Rust.

    * The program

    SPDM lets a requester authenticate a device, the responder, and set up protected sessions with
    it.  Both roles are built on one context (spdmlib/src/common): negotiated parameters,
    transcripts of the messages for signatures, and a table of sessions with their keys.  Messages
    are encoded and read by codecs (codec, spdmlib/src/message, spdmlib/src/common/spdm_codec.rs);
    the responder (spdmlib/src/responder) receives packets over a transport binding
    (mctp_transport, pcidoe_transport), dispatches them on their code and answers; the requester
    (spdmlib/src/requester) sends requests and checks the answers.  Cryptography is called through
    tables of callbacks (spdmlib/src/crypto, spdmlib/src/secret) with an implementation over the
    ring and webpki libraries (spdmlib/src/crypto/spdm_ring) and one over mbedtls
    (spdmlib_crypto_mbedtls), part of it in C.  TDISP (tdisp) is a protocol for
    device interfaces carried in vendor-defined messages.

    * How it is modelled

    Integers are [Z] with their width in [is_uint] and [as_uint]; byte strings are lists of [Z];
    arrays with a length field are [sized].  Code that changes state or fails is a computation of
    the monad [M S E A] below: it maps a state to an outcome, [Ok], [Err] or [Panic], and a new
    state; the state after an error or a panic is kept.  Arithmetic that Rust checks in debug
    builds and wraps in release builds takes an [overflow_mode].  [let? x := c else bad in k] is
    the pattern in which a failure of [c] is answered by [bad].  The comment that begins
    with an at sign in front of a definition names the lines under src/ that it translates.

    The build is the default one: features spdm-ring, std and hashed-transcript-data; the files of
    mutual authentication are the ones that the feature mut-auth adds.

    * The files

    - [Prelude], this file: bytes, machine integers, the monad and their lemmas.  [Config]: the
      constants that spdmlib/build.rs generates and the checks it makes on them.  [Codec]: Reader,
      Writer and the codecs of integers, arrays and enumerations (codec/src), with the class
      [CodecOk] by which round trips are composed.  [Status]: spdmlib/src/error.rs.
    - [Algo], [Protocol]: spdmlib/src/protocol.  [SpdmCodec]: spdm_codec.rs.  [MsgNegotiate],
      [MsgAuth], [MsgSession], [Message]: the payloads of spdmlib/src/message and their union.
      [Opaque]: common/opaque.rs.
    - [Crypto]: the tables of callbacks as the classes [Crypto] and [Secret], with the laws that
      the clients rely on.  [Registry]: the cells in which tables are registered (the files mod.rs
      of crypto, secret and time).  [SpdmRing]: hash, HMAC, HKDF, AEAD, DHE and random numbers over an
      abstract [Ring] library, proved to satisfy these laws, and the table of digest handles.
      [X509]: the format check of certificates (crypto/x509v3.rs).  [CertOps]: cutting and verifying
      chains and signatures, over the class [Webpki].  [CertTrust]: whose signatures are accepted.
    - [Mbedtls], [MbedtlsProofs]: the callbacks of spdmlib_crypto_mbedtls with their C functions, a
      second instance of [Crypto], over the abstract library [MbedTls].  [SysTime]: the crate
      sys_time, over an abstract clock.
    - [KeySchedule], [Buffers], [Session], [SessionProofs], [Context]: spdmlib/src/common.
      [Transport]: the two bindings as instances of [SpdmTransportEncap].
    - [Endpoint], [Responder], [RspConnect], [RspSession], [RspDispatch]: spdmlib/src/responder,
      handler by handler.  [Within] is a logic for what a computation may do to its state;
      [RspWriter], [RspFrame], [RspCode], [RspState], [RspInv], [RspSafe], [RspEst] are the proofs.
      [Nonces]: under which nonces the messages of a session are sealed.
    - [Requester], [ReqConnect], [ReqSession]: spdmlib/src/requester, request by request.
      [Loopback]: a device that is a responder, so that both roles can be run against each other.
      [ReqFrame], [ReqAuth], [ReqSafe], [ReqFinish], [ReqTrust] are the proofs.
    - [MsgEncap], [Encap]: mutual authentication, that is message/encapsulated.rs and the files
      encap_*.rs and mutual_authenticate.rs of both roles; the state of the responder is the context
      together with [SpdmEncapContext].  [EncapProofs], [EncapAuth] are the proofs.
    - [Tdisp], [TdispState], [TdispProofs]: the crate tdisp, its messages, context, responder and
      requester, and the automaton of interface states that the responder implements.
    - [ToyRing], [ToyContext], [CertExample], [MbedtlsExample], [RspExample], [ReqExample],
      [EncapExample]: a concrete cryptography without strength and concrete contexts, on which the theorems are evaluated.

    * What is proved

    - Messages: every well-formed message is written as its wire format and read back, up to one
      value of MEASUREMENTS that the encoder replaces ([message_roundtrip],
      [tdisp_message_roundtrip], [bindings_invertible]), and reading arbitrary bytes never panics once algorithms are selected ([message_read_total]).
    - Sessions: two ends with the same keys deliver any list of messages unchanged and in order
      ([secured_stream_delivered]), the packets of a sender are sealed under distinct nonces
      ([nonces_distinct]) until the sequence numbers run out ([sequence_number_exhausted]),
      key updates keep both ends in step ([key_update_in_step]) and keys with different labels come from different inputs ([binconcat_separated]).
    - The responder, over every sequence of packets: connections go through the negotiation in order
      ([negotiation_precedes], [connection_order], [out_of_order_refused]), sessions are established
      only by requesters that prove the keys ([established_in_session], [established_in_clear]), the
      state stays well formed and session identifiers are unique ([context_well_typed],
      [session_ids_unique]) and sending terminates ([send_terminates]).
    - The requester, over every sequence of requests and against every peer: key exchanges,
      challenges and measurements succeed only with a valid signature over the transcript
      ([key_exchange_authenticated], [challenge_authenticated], [measurement_authenticated]) of the
      key of a certificate chain that was verified ([certificates_always_authentic],
      [peer_signature_trusted]); FINISH establishes the session or gives it up, except
      for a slot that cannot be used ([finish_establishes_or_gives_up]); identifiers are
      distinct ([session_ids_distinct]), the highest common version is selected ([select_version_highest]) and the loop that fetches
      certificates ends unless the peer sends empty portions ([certificate_loop_ends]).
    - Mutual authentication: through the acknowledgements and deliveries of both sides the chain of
      the requester arrives at the responder as it is, and is stored if it verifies; if not, the
      stored chains stay and the exchange does not end ([encap_chain_transferred]),
      and whatever is sent in sessions only chains that verified are stored ([encap_chains_authentic]); the checks in front of the handlers do not stop them
      ([encap_refusal_answered]).
    - Certificates: the format check is sound and complete for the grammar of [X509]
      ([x509_chain_sound], [x509_chain_complete]) up to malformed lengths
      ([x509_malformed_lengths]); signatures are converted to DER exactly ([ecdsa_signature_der]);
      certificates appended to a verified chain are used without being verified
      ([appended_certificate]).
    - Cryptography over mbedtls: two sides that compute a key compute the same one
      ([mbedtls_key_agreement]) and decryption
      undoes encryption ([mbedtls_aead_roundtrip]), but forged messages are accepted
      ([mbedtls_forgery_accepted]) and only the root of a chain is verified
      ([mbedtls_leaf_unverified]).  Whatever is registered, all functions of crypto/mod.rs are those
      of one instance of [Crypto], and those of secret/mod.rs of one of [Secret]
      ([registry_refines], [secrets_refine]).
    - The clock: a time that is read twice in a row is one of the clock ([read_rtc_stable]), and the
      hour comes back except that noon and midnight are swapped ([hour_read_back]).
    - TDISP: the responder refines its automaton ([tdisp_refines]), erases confidential data
      ([confidential_erased]) and can be brought to RUN ([interface_brought_up]); two defects of the
      crate are [report_never_answered] and [tdisp_requests_fail].

    * Bounds and fuel

    Sending an answer that is too large sends an error instead, recursively; the recursion has fuel
    two, and [send_terminates] shows that one level is enough.  The loop of GET_CERTIFICATE takes
    its number of turns as an argument and returns [None] when they do not suffice;
    [certificate_loop_ends] bounds the turns by the size of the buffer.  The loop over the
    acknowledgements of mutual authentication is modelled in the same way; the peer decides how long
    it runs, and for the chain one turn per 512 bytes is enough ([encap_chain_transferred]).  The format check takes one
    turn per certificate, so the length of the chain is enough ([x509_chain_sound]); the cutting of
    certificates advances by at least four bytes.  The loops over the instruction rdrand have seven
    turns: they end within six failures or never ([rdrand_hangs]).  Reading the clock repeats until
    two readings agree and takes its number of turns as an argument.

    * Not modelled

    - The bodies of ring, webpki, mbedtls and of the hash, AEAD and signature primitives: they are
      not part of the repository and are the parameters [Ring], [Webpki] and [MbedTls] with named
      laws.  Of spdmlib_crypto_mbedtls the declarations of foreign functions and the memory functions
      of platform_support.rs are left out.
    - The lines that the feature mut-auth adds to KEY_EXCHANGE and to start_session, and the build
      without hashed transcripts.
    - spdmlib/src/crypto/bytes_mut_scrubbed.rs (a buffer that is cleared when dropped, pointer code
      without functional behaviour).
    - Generating config.rs in build.rs, logging, and the emulators, tests and fuzz targets, which
      exercise the library over sockets and files. *)
From stdpp Require Export base tactics list list_numbers numbers option.
From Stdlib Require Export ZArith Lia.

(** ** Bytes and machine integers *)

Open Scope Z_scope.

Abbreviation bytes := (list Z).

Definition is_uint (w x : Z) : Prop := 0 ≤ x < 2 ^ w.
Abbreviation is_u8 := (is_uint 8).
Abbreviation is_u16 := (is_uint 16).
Abbreviation is_u32 := (is_uint 32).
Abbreviation is_u64 := (is_uint 64).

(** [x as uN]: truncation to the low [w] bits. *)
Definition as_uint (w x : Z) : Z := x `mod` 2 ^ w.
Abbreviation as_u8 := (as_uint 8).
Abbreviation as_u16 := (as_uint 16).
Abbreviation as_u32 := (as_uint 32).
Abbreviation as_u64 := (as_uint 64).

#[global] Instance is_uint_dec w x : Decision (is_uint w x).
Proof. unfold is_uint. apply _. Defined.

Lemma as_uint_bound w x : 0 ≤ w → is_uint w (as_uint w x).
Proof. intros Hw. unfold is_uint, as_uint. apply Z.mod_pos_bound. lia. Qed.

Lemma as_uint_id w x : is_uint w x → as_uint w x = x.
Proof. apply Z.mod_small. Qed.

Lemma is_uint_weaken w w' x : w ≤ w' → is_uint w x → is_uint w' x.
Proof.
  unfold is_uint. intros Hw Hx. split; [lia|].
  assert (2 ^ w ≤ 2 ^ w') by (apply Z.pow_le_mono_r; lia). lia.
Qed.

(** The two build profiles of the language: an integer operation that leaves its
    width panics in a checked build and wraps in a release build. *)
Inductive overflow_mode := Checked | Wrapping.

#[global] Instance overflow_mode_dec : EqDecision overflow_mode.
Proof. solve_decision. Defined.

(** ** Outcomes: [Result] extended with the abort of a panic *)

Inductive outcome (E A : Type) : Type :=
| Ok (a : A)
| Err (e : E)
| Panic.
Arguments Ok {E A} a.
Arguments Err {E A} e.
Arguments Panic {E A}.

Definition is_ok {E A} (o : outcome E A) : bool :=
  match o with Ok _ => true | _ => false end.
Definition is_panic {E A} (o : outcome E A) : bool :=
  match o with Panic => true | _ => false end.

(** ** A state monad with errors that keep the state *)

Definition M (S E A : Type) : Type := S → outcome E A * S.

Section Monad.
Context {S E A B : Type}.

Definition ret (a : A) : M S E A := λ s, (Ok a, s).
Definition throw (e : E) : M S E A := λ s, (Err e, s).
Definition panic : M S E A := λ s, (Panic, s).
Definition bind (c : M S E A) (k : A → M S E B) : M S E B := λ s,
  match c s with
  | (Ok a, s') => k a s'
  | (Err e, s') => (Err e, s')
  | (Panic, s') => (Panic, s')
  end.
Definition gets (f : S → A) : M S E A := λ s, (Ok (f s), s).
Definition of_outcome (o : outcome E A) : M S E A := λ s, (o, s).
Definition ok_or (e : E) (o : option A) : M S E A :=
  match o with Some a => ret a | None => throw e end.
Definition unwrap (o : option A) : M S E A :=
  match o with Some a => ret a | None => panic end.
Definition map_err {E'} (f : E → E') (c : M S E A) : M S E' A := λ s,
  match c s with
  | (Ok a, s') => (Ok a, s')
  | (Err e, s') => (Err (f e), s')
  | (Panic, s') => (Panic, s')
  end.
End Monad.

Definition modify {S E} (f : S → S) : M S E unit := λ s, (Ok tt, f s).

(** The result of a computation that uses no state. *)
Definition run {E A} (c : M unit E A) : outcome E A := (c tt).1.

Lemma outcome_state {S E A} (x : outcome E A * S) o : x.1 = o → x = (o, x.2).
Proof. intros <-. by destruct x. Qed.

(** [attempt c] turns the [Result] of [c] into a value; a panic is not caught. *)
Definition attempt {S E E' A} (c : M S E A) : M S E' (E + A) := λ s,
  match c s with
  | (Ok a, s') => (Ok (inr a), s')
  | (Err e, s') => (Ok (inl e), s')
  | (Panic, s') => (Panic, s')
  end.

(** [zoom get put c] runs [c] on a part of the state. *)
Definition zoom {S T E A} (get : S → T) (put : T → S → S) (c : M T E A) : M S E A := λ s,
  let '(r, t) := c (get s) in (r, put t s).
Abbreviation on_fst := (zoom fst (λ v s, (v, snd s))).
Abbreviation on_snd := (zoom snd (λ v s, (fst s, v))).

Declare Scope spdm_scope.
Delimit Scope spdm_scope with spdm.
Open Scope spdm_scope.

Notation "'let*' x ':=' c 'in' k" := (bind c (λ x, k))
  (at level 10, x pattern, c at level 200, k at level 200) : spdm_scope.
Notation "c1 ;; c2" := (bind c1 (λ _, c2))
  (at level 100, c2 at level 200, right associativity) : spdm_scope.
Notation "'assert!' b" := (if b then ret tt else panic) (at level 190) : spdm_scope.

Lemma bind_ret_l {S E A B} (a : A) (k : A → M S E B) s : bind (ret a) k s = k a s.
Proof. done. Qed.

Lemma bind_ok {S E A B} (c : M S E A) (k : A → M S E B) s s' b :
  bind c k s = (Ok b, s') ↔ ∃ a s1, c s = (Ok a, s1) ∧ k a s1 = (Ok b, s').
Proof.
  unfold bind. destruct (c s) as [[a|e|] s1]; split.
  1: eauto.
  all: try (intros (?&?&?&?); by simplify_eq).
  all: done.
Qed.

Lemma bind_step {S E A B} (c : M S E A) (k : A → M S E B) s s' a :
  c s = (Ok a, s') → bind c k s = k a s'.
Proof. intros Hc. unfold bind. by rewrite Hc. Qed.

Lemma bind_err {S E A B} (c : M S E A) (k : A → M S E B) s s' e :
  c s = (Err e, s') → bind c k s = (Err e, s').
Proof. intros Hc. unfold bind. by rewrite Hc. Qed.

Lemma bind_panic {S E A B} (c : M S E A) (k : A → M S E B) s s' :
  c s = (Panic, s') → bind c k s = (Panic, s').
Proof. intros Hc. unfold bind. by rewrite Hc. Qed.

Lemma bind_assoc {S E A B C} (c : M S E A) (k : A → M S E B) (h : B → M S E C) s :
  bind (bind c k) h s = bind c (λ a, bind (k a) h) s.
Proof. unfold bind. by destruct (c s) as [[a|e|] s1]. Qed.

Lemma ret_ok {S E A} (a b : A) (s s' : S) : ret (E:=E) a s = (Ok b, s') ↔ a = b ∧ s = s'.
Proof. unfold ret. split; [by intros [= -> ->]|by intros [-> ->]]. Qed.

Lemma of_outcome_ok {S E A} (o : outcome E A) b (s s' : S) :
  of_outcome o s = (Ok b, s') ↔ o = Ok b ∧ s = s'.
Proof. unfold of_outcome. split; [by intros [= Ho Hs]|by intros [-> ->]]. Qed.

Lemma ok_or_ok {S E A} (e : E) (o : option A) b (s s' : S) :
  ok_or e o s = (Ok b, s') ↔ o = Some b ∧ s = s'.
Proof.
  destruct o; simpl; [|split; [done|by intros [? _]]].
  rewrite ret_ok. split; intros [? ?]; simplify_eq; auto.
Qed.

Lemma unwrap_ok {S E A} (o : option A) b (s s' : S) :
  unwrap (E:=E) o s = (Ok b, s') ↔ o = Some b ∧ s = s'.
Proof.
  destruct o; simpl; [|split; [done|by intros [? _]]].
  rewrite ret_ok. split; intros [? ?]; simplify_eq; auto.
Qed.

Lemma map_err_ok {S E E' A} (f : E → E') (c : M S E A) b s s' :
  map_err f c s = (Ok b, s') ↔ c s = (Ok b, s').
Proof. unfold map_err. destruct (c s) as [[] ?]; split; intros; by simplify_eq. Qed.

Lemma gets_ok {S E A} (f : S → A) b (s s' : S) :
  gets (E:=E) f s = (Ok b, s') ↔ f s = b ∧ s = s'.
Proof. unfold gets. split; [by intros [= <- <-]|by intros [<- <-]]. Qed.

Lemma modify_ok {S E} (f : S → S) (s s' : S) u :
  modify (E:=E) f s = (Ok u, s') ↔ f s = s'.
Proof. unfold modify. destruct u. split; [by intros [= <-]|by intros <-]. Qed.

(** [minv] takes apart the hypotheses which say that a computation returned [Ok]. *)
Ltac minv_step :=
  match goal with
  | H : bind _ _ _ = (Ok _, _) |- _ => apply bind_ok in H as (?&?&?&H)
  | H : ret _ _ = (Ok _, _) |- _ => apply ret_ok in H as [? ?]
  | H : of_outcome _ _ = (Ok _, _) |- _ => apply of_outcome_ok in H as [? ?]
  | H : ok_or _ _ _ = (Ok _, _) |- _ => apply ok_or_ok in H as [? ?]
  | H : unwrap _ _ = (Ok _, _) |- _ => apply unwrap_ok in H as [? ?]
  | H : map_err _ _ _ = (Ok _, _) |- _ => apply map_err_ok in H
  | H : gets _ _ = (Ok _, _) |- _ => apply gets_ok in H as [? ?]
  | H : modify _ _ = (Ok _, _) |- _ => apply modify_ok in H
  | H : throw _ _ = (Ok _, _) |- _ => discriminate H
  | H : panic _ = (Ok _, _) |- _ => discriminate H
  | H : (if ?b then _ else _) _ = (Ok _, _) |- _ => destruct b eqn:?
  end; simplify_eq.
Ltac minv := repeat minv_step.

(** ** Computations that do not touch the state *)

Definition stateless {E A} (c : ∀ S, M S E A) : Prop :=
  ∀ S (st : S), c S st = (run (c unit), st).

Section Stateless.
Context {E A B : Type}.

Lemma stateless_ret (a : A) : stateless (E:=E) (λ S, ret a).
Proof. done. Qed.
Lemma stateless_throw (e : E) : stateless (A:=A) (λ S, throw e).
Proof. done. Qed.
Lemma stateless_panic : stateless (E:=E) (A:=A) (λ S, panic).
Proof. done. Qed.
Lemma stateless_of_outcome (o : outcome E A) : stateless (λ S, of_outcome o).
Proof. done. Qed.
Lemma stateless_ok_or (e : E) (o : option A) : stateless (λ S, ok_or e o).
Proof. by destruct o. Qed.
Lemma stateless_unwrap (o : option A) : stateless (E:=E) (λ S, unwrap o).
Proof. by destruct o. Qed.
Lemma stateless_bind (c : ∀ S, M S E A) (k : A → ∀ S, M S E B) :
  stateless c → (∀ a, stateless (k a)) → stateless (λ S, bind (c S) (λ a, k a S)).
Proof.
  intros Hc Hk S st. unfold run, bind. rewrite Hc. unfold run.
  destruct (c unit tt) as [[a|e|] u] eqn:Hu; cbn; [|done..]. rewrite Hk. by destruct u.
Qed.
Lemma stateless_if (b : bool) (c1 c2 : ∀ S, M S E A) :
  stateless c1 → stateless c2 → stateless (λ S, if b then c1 S else c2 S).
Proof. by destruct b. Qed.
Lemma stateless_dec {P} (d : Decision P) (c1 c2 : ∀ S, M S E A) :
  stateless c1 → stateless c2 → stateless (λ S, if d then c1 S else c2 S).
Proof. by destruct d. Qed.
End Stateless.

Lemma stateless_map_err {E E' A} (f : E → E') (c : ∀ S, M S E A) :
  stateless c → stateless (λ S, map_err f (c S)).
Proof.
  intros Hc S st. unfold run, map_err. rewrite Hc. unfold run.
  by destruct (c unit tt) as [[] u].
Qed.

Create HintDb stateless.
#[export] Hint Resolve stateless_ret stateless_throw stateless_panic stateless_of_outcome
  stateless_ok_or stateless_unwrap : stateless.

Ltac stateless_steps :=
  repeat first
    [ progress intros
    | solve [auto with stateless nocore]
    | apply stateless_bind
    | apply stateless_map_err
    | apply stateless_if
    | apply stateless_dec
    | match goal with |- stateless (λ _, match ?x with _ => _ end) => destruct x end ].

(** ** Record update

    [Settable R] lists the fields of [R] once; [Setter p] is then derived for each
    field that the code assigns, and [r <| p := v |>] is the updated record. *)

Class Settable (R : Type) := eta_record : R → R.
Class Setter {R E : Type} (p : R → E) := set : (E → E) → R → R.
Arguments set {R E} p {Setter} f r : assert.

Ltac solve_setter :=
  lazymatch goal with
  | |- @Setter ?R ?E ?p =>
      let e := eval hnf in (@eta_record R _) in
      exact (λ (f : E → E) (r : R), ltac:(
        let body := eval cbv beta in (e r) in
        let b := eval pattern (p r) in body in
        lazymatch b with
        | ?g _ => let t := eval cbv beta in (g (f (p r))) in exact t
        end))
  end.

Notation "r <| p := v |>" := (set p (λ _, v) r)
  (at level 12, left associativity, p at level 9, v at level 200) : spdm_scope.
Notation "r <| p ::= f |>" := (set p f r)
  (at level 12, left associativity, p at level 9, f at level 200) : spdm_scope.

(** ** Little-endian byte strings *)

Fixpoint le_bytes (n : nat) (v : Z) : bytes :=
  match n with
  | O => []
  | S n => as_u8 v :: le_bytes n (Z.shiftr v 8)
  end.

Fixpoint le_val (bs : bytes) : Z :=
  match bs with
  | [] => 0
  | b :: bs => Z.lor b (Z.shiftl (le_val bs) 8)
  end.

Lemma length_le_bytes n v : length (le_bytes n v) = n.
Proof. revert v. induction n; intros v; simpl; auto. Qed.

Lemma le_bytes_u8 n v : Forall is_u8 (le_bytes n v).
Proof.
  revert v. induction n; intros v; simpl; constructor; auto.
  apply as_uint_bound; lia.
Qed.

Lemma lor_shiftl_add lo hi k :
  0 ≤ k → is_uint k lo → Z.lor lo (Z.shiftl hi k) = lo + hi * 2 ^ k.
Proof.
  intros Hk Hlo. rewrite <- Z.add_nocarry_lor.
  - by rewrite Z.shiftl_mul_pow2 by lia.
  - apply Z.bits_inj'. intros i Hi. rewrite Z.land_spec, Z.bits_0.
    destruct (Z.lt_ge_cases i k).
    + by rewrite Z.shiftl_spec_low, andb_false_r by lia.
    + rewrite (proj1 (Z.bounded_iff_bits_nonneg' k lo Hk ltac:(apply Hlo)) Hlo i)
        by lia. done.
Qed.

Lemma le_val_le_bytes n v : le_val (le_bytes n v) = as_uint (8 * Z.of_nat n) v.
Proof.
  revert v. induction n as [|n IH]; intros v.
  { simpl. unfold as_uint. by rewrite Z.mod_1_r. }
  cbn [le_bytes le_val]. rewrite IH, lor_shiftl_add by (try apply as_uint_bound; lia).
  unfold as_uint. rewrite Z.shiftr_div_pow2 by lia.
  replace (8 * Z.of_nat (S n)) with (8 + 8 * Z.of_nat n) by lia.
  rewrite Z.pow_add_r, Z.rem_mul_r by lia. lia.
Qed.

Lemma le_val_bound bs : Forall is_u8 bs → is_uint (8 * Z.of_nat (length bs)) (le_val bs).
Proof.
  induction 1 as [|b bs Hb Hbs IH]; [split; simpl; lia|].
  cbn [le_val length]. rewrite lor_shiftl_add by (done || lia).
  unfold is_uint in *.
  replace (8 * Z.of_nat (S (length bs))) with (8 + 8 * Z.of_nat (length bs)) by lia.
  rewrite Z.pow_add_r by lia. nia.
Qed.

Lemma le_bytes_le_val bs : Forall is_u8 bs → le_bytes (length bs) (le_val bs) = bs.
Proof.
  induction 1 as [|b bs Hb Hbs IH]; [done|].
  cbn [length le_bytes le_val].
  pose proof (le_val_bound bs Hbs) as Hv.
  rewrite lor_shiftl_add by (done || lia). f_equal.
  - unfold as_uint. rewrite Z.mod_add by lia. by apply Z.mod_small.
  - rewrite Z.shiftr_div_pow2, Z.div_add by lia.
    by rewrite Z.div_small, Z.add_0_l by done.
Qed.

(** A decidable property of a small range, by evaluation. *)
Lemma small_range (P : Z → bool) (n : nat) (x : Z) :
  forallb (λ i, P (Z.of_nat i)) (seq 0 n) = true → 0 ≤ x < Z.of_nat n → P x = true.
Proof.
  intros Hall Hx. rewrite forallb_forall in Hall.
  specialize (Hall (Z.to_nat x)). rewrite Z2Nat.id in Hall by lia.
  apply Hall, in_seq. lia.
Qed.
