(* ===== verification/SysTime.v ===== *)
(** Model of sys_time: the time of day from the real time clock, which is read through two I/O
    ports.

    The ports are the class [Ports]; the conversion of a date into seconds is a function of the time
    library and an argument. *)

From S2P Require Import Prelude.

Class Ports := {
  ports : Type;
  write_to_port (port value : Z) : ports → ports;
  read_from_port (port : Z) : ports → Z * ports;
}.

(*@ sys_time/src/rtc.rs 36-44 DateTime *)
Record DateTime := MkDateTime {
  second : Z;
  minute : Z;
  hour : Z;
  day : Z;
  month : Z;
  year : Z;
}.
#[global] Instance DateTime_eq_dec : EqDecision DateTime.
Proof. solve_decision. Defined.

Definition CMOS_ADDRESS_PORT : Z := 0x70.
Definition CMOS_DATA_PORT : Z := 0x71.
Definition CMOS_SECOND_REGISTER : Z := 0x00.
Definition CMOS_MINUTE_REGISTER : Z := 0x02.
Definition CMOS_HOUR_REGISTER : Z := 0x04.
Definition CMOS_DAY_REGISTER : Z := 0x07.
Definition CMOS_MONTH_REGISTER : Z := 0x08.
Definition CMOS_YEAR_REGISTER : Z := 0x09.
Definition CMOS_STATUS_REGISTER_A : Z := 0x0A.
Definition CMOS_STATUS_REGISTER_B : Z := 0x0B.
Definition CMOS_NMI_DISABLE_BIT : Z := 0x80.
Definition CMOS_UPDATE_IN_PROGRESS_FLAG : Z := 0x80.
Definition CMOS_24_HOUR_FORMAT_FLAG : Z := 0x02.
Definition CMOS_BINARY_MODE_FLAG : Z := 0x04.
Definition CMOS_PM_BIT : Z := 0x80.
Definition CMOS_YEARS_OFFSET : Z := 2000.

(*@ sys_time/src/rtc.rs 70-72 bcd_to_binary *)
Definition bcd_to_binary (bcd : Z) : Z := Z.land bcd 0xF + bcd / 16 * 10.

(** The hour from the register, without the reads of the mode: [binary] and [full] say whether
    the clock counts in binary and whether it counts 24 hours. *)
(*@ sys_time/src/rtc.rs 107-118 read_hour_register *)
Definition hour_of (binary full : bool) (register : Z) : Z :=
  let hour :=
    if binary then register
    else Z.lor (Z.land register 0xF + Z.land register 0x7F / 16 * 10) (Z.land register CMOS_PM_BIT) in
  if negb full && negb (Z.land hour CMOS_PM_BIT =? 0)
  then (Z.land hour 0x7F + 12) `mod` 24 else hour.

Section SysTime.
Context `{io : Ports}.
Abbreviation IO A := (M ports Empty_set A) (only parsing).

(*@ sys_time/src/rtc.rs 84-89 read_cmos_register *)
Definition read_cmos_register (reg : Z) : IO Z := λ s,
  let '(v, s') := read_from_port CMOS_DATA_PORT
                    (write_to_port CMOS_ADDRESS_PORT (Z.lor CMOS_NMI_DISABLE_BIT reg) s) in
  (Ok v, s').

(*@ sys_time/src/rtc.rs 74-77 is_24_hour_format *)
Definition is_24_hour_format : IO bool :=
  let* b := read_cmos_register CMOS_STATUS_REGISTER_B in
  ret (0 <? Z.land b CMOS_24_HOUR_FORMAT_FLAG).

(*@ sys_time/src/rtc.rs 79-82 is_binary_mode *)
Definition is_binary_mode : IO bool :=
  let* b := read_cmos_register CMOS_STATUS_REGISTER_B in
  ret (0 <? Z.land b CMOS_BINARY_MODE_FLAG).

(*@ sys_time/src/rtc.rs 91-93 get_update_in_progress_flag *)
Definition get_update_in_progress_flag : IO Z :=
  let* a := read_cmos_register CMOS_STATUS_REGISTER_A in
  ret (Z.land a CMOS_UPDATE_IN_PROGRESS_FLAG).

(*@ sys_time/src/rtc.rs 95-103 read_datetime_register *)
Definition read_datetime_register (register : Z) : IO Z :=
  let* value := read_cmos_register register in
  let* binary := is_binary_mode in
  ret (if binary : bool then value else bcd_to_binary value).

(*@ sys_time/src/rtc.rs 105-119 read_hour_register *)
Definition read_hour_register : IO Z :=
  let* register := read_cmos_register CMOS_HOUR_REGISTER in
  let* binary := is_binary_mode in
  let* full := is_24_hour_format in
  ret (hour_of binary full register).

(*@ sys_time/src/rtc.rs 121-137 read_date_time *)
Definition read_date_time : IO DateTime :=
  let* year := read_datetime_register CMOS_YEAR_REGISTER in
  let* month := read_datetime_register CMOS_MONTH_REGISTER in
  let* day := read_datetime_register CMOS_DAY_REGISTER in
  let* minute := read_datetime_register CMOS_MINUTE_REGISTER in
  let* second := read_datetime_register CMOS_SECOND_REGISTER in
  let* hour := read_hour_register in
  ret {| second := second; minute := minute; hour := hour; day := day; month := month;
         year := CMOS_YEARS_OFFSET + year |}.

(** [while get_update_in_progress_flag() > 0 {}]; the clock decides how long it runs, [None] says
    that it has not ended after [turns]. *)
(*@ sys_time/src/rtc.rs 53-53 read_rtc *)
Fixpoint wait_for_update (turns : nat) : IO (option unit) :=
  match turns with
  | O => ret None
  | S turns =>
      let* flag := get_update_in_progress_flag in
      if 0 <? flag then wait_for_update turns else ret (Some tt)
  end.

(*@ sys_time/src/rtc.rs 46-67 read_rtc *)
Fixpoint read_rtc (turns : nat) : IO (option DateTime) :=
  match turns with
  | O => ret None
  | S turns =>
      let* waited := wait_for_update turns in
      match waited with
      | None => ret None
      | Some _ =>
          let* first_read := read_date_time in
          let* flag := get_update_in_progress_flag in
          if 0 <? flag then read_rtc turns else
          let* second_read := read_date_time in
          if decide (first_read = second_read) then ret (Some first_read) else read_rtc turns
      end
  end.

(** [timestamp] builds the date with the time library, which fails when it does not exist, and
    takes the seconds since 1970. *)
(*@ sys_time/src/lib.rs 15-28 get_sys_time *)
Definition get_sys_time (timestamp : DateTime → option Z) (turns : nat) : IO (option (option Z)) :=
  let* date_time := read_rtc turns in
  ret (timestamp <$> date_time).
End SysTime.

(** ** What is read *)

(** The encoding of an hour of the day, 0 to 23, in the register. *)
Definition to_bcd (n : Z) : Z := n / 10 * 16 + n `mod` 10.
Definition encoded_hour (binary full : bool) (h : Z) : Z :=
  let enc n := if binary then n else to_bcd n in
  if full then enc h else
  let twelve := if h `mod` 12 =? 0 then 12 else h `mod` 12 in
  Z.lor (enc twelve) (if 12 <=? h then CMOS_PM_BIT else 0).

(** Every hour is read as it is, except that a clock that counts twelve hours is read as midnight
    at noon and as noon at midnight. *)
Theorem hour_read_back binary full h :
  0 ≤ h < 24 →
  hour_of binary full (encoded_hour binary full h) =
  if negb full && (h `mod` 12 =? 0) then (h + 12) `mod` 24 else h.
Proof.
  intros Hh. assert (h ∈ seqZ 0 24) as Hin by (apply elem_of_seqZ; lia).
  assert (Forall (λ h, ∀ binary full, hour_of binary full (encoded_hour binary full h) =
    if negb full && (h `mod` 12 =? 0) then (h + 12) `mod` 24 else h) (seqZ 0 24)) as H.
  { repeat constructor; by intros [] []. }
  apply list_elem_of_lookup in Hin as [i Hi]. exact (Forall_lookup_1 _ _ _ _ H Hi binary full).
Qed.

Section Stable.
Context `{io : Ports}.

(** [d] is what was read after the flag was seen to be clear. *)
Definition read_clear (d : DateTime) (s s' : ports) : Prop :=
  ∃ flag s1, get_update_in_progress_flag s = (Ok flag, s1) ∧ flag ≤ 0 ∧ read_date_time s1 = (Ok d, s').

Lemma wait_clear turns s s' :
  wait_for_update turns s = (Ok (Some tt), s') →
  ∃ s1 flag, get_update_in_progress_flag s1 = (Ok flag, s') ∧ flag ≤ 0.
Proof.
  revert s. induction turns as [|turns IH]; intros s; [done|]. cbn [wait_for_update].
  intros (flag&s1&Hf&H)%bind_ok. destruct (Z.ltb_spec 0 flag); [by eapply IH|].
  injection H as <-. by exists s, flag.
Qed.

(** The time that is returned was read twice in a row with the same result, each time after the
    clock was seen not to be updating. *)
Theorem read_rtc_stable turns s d s' :
  read_rtc turns s = (Ok (Some d), s') → ∃ s1 s2, read_clear d s1 s2 ∧ read_clear d s2 s'.
Proof.
  revert s. induction turns as [|turns IH]; intros s; [done|]. cbn [read_rtc].
  intros (w&s1&Hw&H)%bind_ok. destruct w as [[]|]; [|done].
  apply wait_clear in Hw as (s0&flag0&Hf0&Hz0).
  apply bind_ok in H as (first&s2&Hr1&H). apply bind_ok in H as (flag&s3&Hf&H).
  destruct (Z.ltb_spec 0 flag); [by eapply IH|]. apply bind_ok in H as (second&s4&Hr2&H).
  case_decide as Heq; [|by eapply IH]. subst second. injection H as <- <-.
  exists s0, s2. split; [by exists flag0, s1|by exists flag, s3].
Qed.
End Stable.
