(* ===== verification/Config.v ===== *)
(** The build-time configuration.  spdmlib/src/config.rs is generated by
    spdmlib/build.rs from etc/config.json, so its constants are a parameter of the
    model; [Config_valid] is what [SpdmConfig::validate_content] of the build script
    asserts before it generates the file, and [default_config] is the configuration
    shipped in etc/config.json. *)

From S2P Require Import Prelude.

(*@ spdmlib/build.rs 12-21 SpdmConfig *)
Class Config := {
  MAX_SPDM_CERT_CHAIN_DATA_SIZE : nat;
  MAX_SPDM_MEASUREMENT_RECORD_SIZE : nat;
  MAX_SPDM_MEASUREMENT_VALUE_LEN : nat;
  MAX_SPDM_PSK_CONTEXT_SIZE : nat;
  MAX_SPDM_PSK_HINT_SIZE : nat;
  MAX_SPDM_SESSION_COUNT : nat;
  SENDER_BUFFER_SIZE : nat;
  RECEIVER_BUFFER_SIZE : nat;
  MAX_SPDM_MSG_SIZE : nat;
  HEARTBEAT_PERIOD : Z;
}.

(** The last line is the Rust type of the field in the build script. *)
(*@ spdmlib/build.rs 24-57 SpdmConfig::validate_content *)
Definition Config_valid (c : Config) : bool :=
  (42 <=? MAX_SPDM_MSG_SIZE)%nat
  && (MAX_SPDM_MSG_SIZE + 24 <? RECEIVER_BUFFER_SIZE)%nat
  && (MAX_SPDM_MSG_SIZE + 24 <? SENDER_BUFFER_SIZE)%nat
  && (Z.of_nat MAX_SPDM_CERT_CHAIN_DATA_SIZE <=? 0xFFFF)
  && (Z.of_nat MAX_SPDM_MEASUREMENT_RECORD_SIZE <=? 0xFFFFFF)
  && (Z.of_nat MAX_SPDM_MEASUREMENT_VALUE_LEN <=? 0xFFFF - 7)
  && (7 + MAX_SPDM_MEASUREMENT_VALUE_LEN <=? MAX_SPDM_MEASUREMENT_RECORD_SIZE)%nat
  && (32 <=? MAX_SPDM_MEASUREMENT_VALUE_LEN)%nat
  && (MAX_SPDM_MEASUREMENT_RECORD_SIZE <? MAX_SPDM_MSG_SIZE)%nat
  && (32 <=? MAX_SPDM_PSK_CONTEXT_SIZE)%nat
  && (Z.of_nat MAX_SPDM_PSK_CONTEXT_SIZE <=? 0xFFFF)
  && (Z.of_nat MAX_SPDM_PSK_HINT_SIZE <=? 0xFFFF)
  && (MAX_SPDM_PSK_CONTEXT_SIZE + MAX_SPDM_PSK_HINT_SIZE <? MAX_SPDM_MSG_SIZE)%nat
  && bool_decide (is_u8 HEARTBEAT_PERIOD).

Definition default_config : Config := {|
  MAX_SPDM_CERT_CHAIN_DATA_SIZE := 4096;
  MAX_SPDM_MEASUREMENT_RECORD_SIZE := 4000;
  MAX_SPDM_MEASUREMENT_VALUE_LEN := 1024;
  MAX_SPDM_PSK_CONTEXT_SIZE := 64;
  MAX_SPDM_PSK_HINT_SIZE := 32;
  MAX_SPDM_SESSION_COUNT := 4;
  SENDER_BUFFER_SIZE := 4160;
  RECEIVER_BUFFER_SIZE := 4160;
  MAX_SPDM_MSG_SIZE := 4096;
  HEARTBEAT_PERIOD := 0;
|}.

Lemma default_config_valid : Config_valid default_config = true.
Proof. vm_compute. reflexivity. Qed.

(** The bounds other files use. *)
Class ConfigValid `{c : Config} : Prop := config_valid : Config_valid c = true.

Definition default_valid : @ConfigValid default_config := default_config_valid.

Lemma psk_sizes_u16 `{cfg : Config} `{!ConfigValid} :
  Z.of_nat MAX_SPDM_PSK_CONTEXT_SIZE ≤ 0xFFFF ∧ Z.of_nat MAX_SPDM_PSK_HINT_SIZE ≤ 0xFFFF.
Proof.
  pose proof config_valid as Hv. unfold Config_valid in Hv.
  rewrite !andb_true_iff, !Z.leb_le in Hv. lia.
Qed.

Lemma min_msg_size `{cfg : Config} `{!ConfigValid} : (42 ≤ MAX_SPDM_MSG_SIZE)%nat.
Proof.
  pose proof config_valid as Hv. unfold Config_valid in Hv.
  rewrite !andb_true_iff, !Nat.leb_le in Hv. lia.
Qed.
