(* ===== verification/Codec.v ===== *)
(** Model of the [codec] crate (codec/src/codec.rs): the byte readers and writers
    every message goes through, the [Codec] trait and its integer instances.

    [Reader] and [Writer] are the source's structs, a buffer and an offset; every
    operation is a computation of the monad of [Prelude] on that state, with the
    indexing panics of the source as [Panic].  The second half is the specification
    the message files are proved against: [writes e c bs v] (the computation [c]
    appends exactly [bs] and returns [v], or fails with [e] after a proper prefix when
    the buffer is full), [reads c bs v] (on input that starts with [bs], [c] consumes
    exactly [bs] and returns [v]) and [parser c P] (on any input, [c] does not panic,
    stays inside the buffer, and what it returns satisfies [P]). *)

From S2P Require Import Prelude.

(** ** Reader *)

(*@ codec/src/codec.rs 8-11 Reader *)
Record Reader := { rd_buf : bytes; rd_offs : nat }.

(*@ codec/src/codec.rs 14-19 Reader::init *)
Definition Reader_init (bs : bytes) : Reader := {| rd_buf := bs; rd_offs := 0 |}.

(*@ codec/src/codec.rs 41-43 Reader::left *)
Definition Reader_left (r : Reader) : nat := (length (rd_buf r) - rd_offs r)%nat.

(*@ codec/src/codec.rs 45-47 Reader::used *)
Definition Reader_used (r : Reader) : nat := rd_offs r.

(*@ codec/src/codec.rs 37-39 Reader::any_left *)
Definition Reader_any_left (r : Reader) : bool := bool_decide (rd_offs r < length (rd_buf r))%nat.

(*@ codec/src/codec.rs 21-25 Reader::rest *)
Definition Reader_take_rest {E} : M Reader E bytes := λ r,
  (Ok (drop (rd_offs r) (rd_buf r)),
   {| rd_buf := rd_buf r; rd_offs := length (rd_buf r) |}).

(** [None] is an error without a value. *)
(*@ codec/src/codec.rs 27-35 Reader::take *)
Definition Reader_take (len : nat) : M Reader unit bytes := λ r,
  if decide (Reader_left r < len)%nat then (Err tt, r)
  else (Ok (take len (drop (rd_offs r) (rd_buf r))),
        {| rd_buf := rd_buf r; rd_offs := rd_offs r + len |}).

(*@ codec/src/codec.rs 49-51 Reader::sub *)
Definition Reader_sub (len : nat) : M Reader unit Reader :=
  let* bs := Reader_take len in ret (Reader_init bs).

(** ** Writer *)

(*@ codec/src/codec.rs 55-58 Writer *)
Record Writer := { wr_buf : bytes; wr_offs : nat }.

(*@ codec/src/codec.rs 61-66 Writer::init *)
Definition Writer_init (bs : bytes) : Writer := {| wr_buf := bs; wr_offs := 0 |}.

(*@ codec/src/codec.rs 89-91 Writer::left *)
Definition Writer_left (w : Writer) : nat := (length (wr_buf w) - wr_offs w)%nat.

(*@ codec/src/codec.rs 93-95 Writer::used *)
Definition Writer_used (w : Writer) : nat := wr_offs w.

(*@ codec/src/codec.rs 97-99 Writer::used_slice *)
Definition Writer_used_slice (w : Writer) : bytes := take (wr_offs w) (wr_buf w).

(** The loop [for (i, v) in value.iter().enumerate() { buf[offs + i] = v }]. *)
(*@ codec/src/codec.rs 73-75 Writer::extend_from_slice *)
Fixpoint copy_loop (buf : bytes) (pos : nat) (value : bytes) : bytes :=
  match value with
  | [] => buf
  | v :: value => copy_loop (<[pos := v]> buf) (S pos) value
  end.

(*@ codec/src/codec.rs 68-78 Writer::extend_from_slice *)
Definition Writer_extend_from_slice (value : bytes) : M Writer unit nat := λ w,
  if decide (Writer_left w < length value)%nat then (Err tt, w)
  else (Ok (length value),
        {| wr_buf := copy_loop (wr_buf w) (wr_offs w) value;
           wr_offs := wr_offs w + length value |}).

(*@ codec/src/codec.rs 80-87 Writer::push *)
Definition Writer_push (value : Z) : M Writer unit Z := λ w,
  if decide (Writer_left w < 1)%nat then (Err tt, w)
  else (Ok value,
        {| wr_buf := <[wr_offs w := value]> (wr_buf w); wr_offs := wr_offs w + 1 |}).

(** [mut_used_slice()[lo..lo+len].copy_from_slice(bs)]: a slice out of range, or of
    another length than the source, panics. *)
(*@ codec/src/codec.rs 101-103 Writer::mut_used_slice *)
Definition Writer_patch {E} (lo hi : nat) (bs : bytes) : M Writer E unit := λ w,
  if decide (lo ≤ hi ∧ hi ≤ wr_offs w ∧ length bs = (hi - lo)%nat)%nat
  then (Ok tt, {| wr_buf := copy_loop (wr_buf w) lo bs; wr_offs := wr_offs w |})
  else (Panic, w).

(** ** The [Codec] trait *)

(*@ codec/src/codec.rs 106-107 EncodeErr *)
Inductive EncodeErr := MkEncodeErr.

(*@ codec/src/codec.rs 110-117 Codec *)
Record Codec (A : Type) := {
  encode : A → M Writer EncodeErr nat;
  read : M Reader unit A;
}.
Arguments encode {A} c v : rename.
Arguments read {A} c : rename.

(*@ codec/src/codec.rs 121-124 Codec::read_bytes *)
Definition read_bytes {A} (c : Codec A) (bs : bytes) : outcome unit A :=
  (read c (Reader_init bs)).1.

(** *** Unsigned integers, little endian *)

(*@ codec/src/codec.rs 128-130 decode_u8 *)
Definition decode_u8 (bs : bytes) : outcome unit Z :=
  match bs with b0 :: _ => Ok b0 | _ => Panic end.

(*@ codec/src/codec.rs 147-149 decode_u16 *)
Definition decode_u16 (bs : bytes) : outcome unit Z :=
  match bs with
  | b0 :: b1 :: _ => Ok (Z.lor b0 (Z.shiftl b1 8))
  | _ => Panic
  end.

(*@ codec/src/codec.rs 179-183 u24::decode *)
Definition decode_u24 (bs : bytes) : outcome unit Z :=
  match bs with
  | b0 :: b1 :: b2 :: _ => Ok (Z.lor (Z.lor b0 (Z.shiftl b1 8)) (Z.shiftl b2 16))
  | _ => Panic
  end.

(*@ codec/src/codec.rs 199-206 decode_u32 *)
Definition decode_u32 (bs : bytes) : outcome unit Z :=
  match bs with
  | b0 :: b1 :: b2 :: b3 :: _ =>
      Ok (Z.lor (Z.lor (Z.lor b0 (Z.shiftl b1 8)) (Z.shiftl b2 16)) (Z.shiftl b3 24))
  | _ => Panic
  end.

(*@ codec/src/codec.rs 233-244 decode_u64 *)
Definition decode_u64 (bs : bytes) : outcome unit Z :=
  match bs with
  | b0 :: b1 :: b2 :: b3 :: b4 :: b5 :: b6 :: b7 :: _ =>
      Ok (Z.lor (Z.lor (Z.lor (Z.lor (Z.lor (Z.lor (Z.lor
        b0 (Z.shiftl b1 8)) (Z.shiftl b2 16)) (Z.shiftl b3 24)) (Z.shiftl b4 32))
        (Z.shiftl b5 40)) (Z.shiftl b6 48)) (Z.shiftl b7 56))
  | _ => Panic
  end.

Definition as_encode_err {S A} (c : M S unit A) : M S EncodeErr A :=
  map_err (λ _, MkEncodeErr) c.

(*@ codec/src/codec.rs 133-136 u8::encode *)
Definition encode_u8 (v : Z) : M Writer EncodeErr nat :=
  as_encode_err (Writer_push v);; ret 1%nat.

(*@ codec/src/codec.rs 137-139 u8::read *)
Definition read_u8 : M Reader unit Z :=
  let* bs := Reader_take 1 in of_outcome (decode_u8 bs).

(*@ codec/src/codec.rs 142-145 put_u16 *)
Definition put_u16 (v : Z) : bytes := [as_u8 v; as_u8 (Z.shiftr v 8)].

(*@ codec/src/codec.rs 152-157 u16::encode *)
Definition encode_u16 (v : Z) : M Writer EncodeErr nat :=
  as_encode_err (Writer_extend_from_slice (put_u16 v));; ret 2%nat.

(*@ codec/src/codec.rs 159-161 u16::read *)
Definition read_u16 : M Reader unit Z :=
  let* bs := Reader_take 2 in of_outcome (decode_u16 bs).

(*@ codec/src/codec.rs 170-173 u24::new *)
Definition u24_new {E} (v : Z) : outcome E Z :=
  if decide (Z.shiftr v 24 = 0) then Ok v else Panic.

(*@ codec/src/codec.rs 187-192 u24::encode *)
Definition encode_u24 (v : Z) : M Writer EncodeErr nat :=
  as_encode_err (Writer_push (as_u8 v));;
  as_encode_err (Writer_push (as_u8 (Z.shiftr v 8)));;
  as_encode_err (Writer_push (as_u8 (Z.shiftr v 16)));;
  ret 3%nat.

(*@ codec/src/codec.rs 194-196 u24::read *)
Definition read_u24 : M Reader unit Z :=
  let* bs := Reader_take 3 in of_outcome (decode_u24 bs).

(*@ codec/src/codec.rs 209-215 u32::encode *)
Definition encode_u32 (v : Z) : M Writer EncodeErr nat :=
  as_encode_err (Writer_push (as_u8 v));;
  as_encode_err (Writer_push (as_u8 (Z.shiftr v 8)));;
  as_encode_err (Writer_push (as_u8 (Z.shiftr v 16)));;
  as_encode_err (Writer_push (as_u8 (Z.shiftr v 24)));;
  ret 4%nat.

(*@ codec/src/codec.rs 217-219 u32::read *)
Definition read_u32 : M Reader unit Z :=
  let* bs := Reader_take 4 in of_outcome (decode_u32 bs).

(*@ codec/src/codec.rs 222-231 put_u64 *)
Definition put_u64 (v : Z) : bytes :=
  [as_u8 v; as_u8 (Z.shiftr v 8); as_u8 (Z.shiftr v 16); as_u8 (Z.shiftr v 24);
   as_u8 (Z.shiftr v 32); as_u8 (Z.shiftr v 40); as_u8 (Z.shiftr v 48);
   as_u8 (Z.shiftr v 56)].

(*@ codec/src/codec.rs 247-252 u64::encode *)
Definition encode_u64 (v : Z) : M Writer EncodeErr nat :=
  as_encode_err (Writer_extend_from_slice (put_u64 v));; ret 8%nat.

(*@ codec/src/codec.rs 254-256 u64::read *)
Definition read_u64 : M Reader unit Z :=
  let* bs := Reader_take 8 in of_outcome (decode_u64 bs).

(** [u128::to_le_bytes] and [u128::from_le_bytes] are the standard library's. *)
(*@ codec/src/codec.rs 260-265 u128::encode *)
Definition encode_u128 (v : Z) : M Writer EncodeErr nat :=
  as_encode_err (Writer_extend_from_slice (le_bytes 16 v));; ret 16%nat.

(*@ codec/src/codec.rs 267-272 u128::read *)
Definition read_u128 : M Reader unit Z :=
  let* bs := Reader_take 16 in ret (le_val bs).

(*@ codec/src/codec.rs 132-140 u8 *)
Definition u8_codec : Codec Z := {| encode := encode_u8; read := read_u8 |}.
(*@ codec/src/codec.rs 151-162 u16 *)
Definition u16_codec : Codec Z := {| encode := encode_u16; read := read_u16 |}.
(*@ codec/src/codec.rs 186-197 u24 *)
Definition u24_codec : Codec Z := {| encode := encode_u24; read := read_u24 |}.
(*@ codec/src/codec.rs 208-220 u32 *)
Definition u32_codec : Codec Z := {| encode := encode_u32; read := read_u32 |}.
(*@ codec/src/codec.rs 246-257 u64 *)
Definition u64_codec : Codec Z := {| encode := encode_u64; read := read_u64 |}.
(*@ codec/src/codec.rs 259-273 u128 *)
Definition u128_codec : Codec Z := {| encode := encode_u128; read := read_u128 |}.

(** ** Loops of the message codecs

    The source serializes a fixed array [a : [u8; N]] with
    [for d in a.iter().take(n) { d.encode(w)?; }] and reads it back with
    [for d in a.iter_mut().take(n) { *d = u8::read(r)?; }]. *)

Fixpoint encode_all {A E} (enc : A → M Writer E nat) (l : list A) : M Writer E nat :=
  match l with
  | [] => ret 0%nat
  | x :: l => let* n := enc x in let* m := encode_all enc l in ret (n + m)%nat
  end.

Fixpoint read_all {A S E} (rd : M S E A) (n : nat) : M S E (list A) :=
  match n with
  | O => ret []
  | S n => let* x := rd in let* l := read_all rd n in ret (x :: l)
  end.

(** [a[..n]] overwritten by the elements read, the tail of the array kept. *)
Definition read_into {A S E} (rd : M S E A) (n : nat) (arr : list A) : M S E (list A) :=
  let* l := read_all rd (n `min` length arr) in
  ret (l ++ drop (n `min` length arr) arr).

(** ** Specification: writers *)

Definition Writer_wf (w : Writer) : Prop := (wr_offs w ≤ length (wr_buf w))%nat.

Definition splice {A} (pos : nat) (bs l : list A) : list A :=
  take pos l ++ bs ++ drop (pos + length bs) l.

Definition Writer_append (w : Writer) (bs : bytes) : Writer :=
  {| wr_buf := splice (wr_offs w) bs (wr_buf w); wr_offs := wr_offs w + length bs |}.

Definition writes {E A} (e : E) (c : M Writer E A) (bs : bytes) (v : A) : Prop :=
  ∀ w, Writer_wf w →
    ((length bs ≤ Writer_left w)%nat → c w = (Ok v, Writer_append w bs)) ∧
    ((Writer_left w < length bs)%nat →
       ∃ k, (k < length bs)%nat ∧ (k ≤ Writer_left w)%nat ∧
            c w = (Err e, Writer_append w (take k bs))).

Lemma length_splice {A} pos (bs l : list A) :
  (pos + length bs ≤ length l)%nat → length (splice pos bs l) = length l.
Proof. intros. unfold splice. rewrite !length_app, length_take, length_drop. lia. Qed.

Lemma splice_nil {A} pos (l : list A) : splice pos [] l = l.
Proof. unfold splice. simpl. by rewrite Nat.add_0_r, take_drop. Qed.

Lemma splice_splice {A} pos (b1 b2 l : list A) :
  (pos + length b1 + length b2 ≤ length l)%nat →
  splice (pos + length b1) b2 (splice pos b1 l) = splice pos (b1 ++ b2) l.
Proof.
  intros Hl. unfold splice.
  assert (length (take pos l) = pos) as Hp by (rewrite length_take; lia).
  rewrite take_app, drop_app, Hp, (take_ge (take pos l)), (drop_ge (take pos l)) by lia.
  replace (pos + length b1 - pos)%nat with (length b1) by lia.
  rewrite take_app_length, drop_app, (drop_ge b1) by lia. simpl.
  rewrite drop_drop, length_app, <- !app_assoc.
  do 4 f_equal. lia.
Qed.

Lemma insert_splice {A} pos (v : A) l :
  (pos < length l)%nat → <[pos := v]> l = splice pos [v] l.
Proof.
  intros Hl. unfold splice. simpl.
  rewrite insert_take_drop by done. by replace (pos + 1)%nat with (S pos) by lia.
Qed.

Lemma copy_loop_splice buf pos value :
  (pos + length value ≤ length buf)%nat → copy_loop buf pos value = splice pos value buf.
Proof.
  revert buf pos. induction value as [|v value IH]; intros buf pos Hl; simpl in *.
  { by rewrite splice_nil. }
  rewrite IH by (rewrite length_insert; lia). rewrite insert_splice by lia.
  replace (S pos) with (pos + length [v])%nat by (simpl; lia).
  by rewrite splice_splice by (simpl; lia).
Qed.

Lemma Writer_append_nil w : Writer_append w [] = w.
Proof. destruct w. unfold Writer_append. simpl. by rewrite splice_nil, Nat.add_0_r. Qed.

Lemma Writer_append_wf w bs :
  (length bs ≤ Writer_left w)%nat → Writer_wf w → Writer_wf (Writer_append w bs).
Proof.
  unfold Writer_wf, Writer_left. simpl. intros. rewrite length_splice; lia.
Qed.

Lemma Writer_append_left w bs :
  (length bs ≤ Writer_left w)%nat → Writer_wf w →
  Writer_left (Writer_append w bs) = (Writer_left w - length bs)%nat.
Proof.
  unfold Writer_wf, Writer_left. simpl. intros. rewrite length_splice; lia.
Qed.

Lemma Writer_append_append w b1 b2 :
  (length b1 + length b2 ≤ Writer_left w)%nat → Writer_wf w →
  Writer_append (Writer_append w b1) b2 = Writer_append w (b1 ++ b2).
Proof.
  unfold Writer_wf, Writer_left, Writer_append. simpl. intros.
  rewrite splice_splice, length_app by lia. f_equal. lia.
Qed.

Lemma Writer_append_used_slice w bs :
  (length bs ≤ Writer_left w)%nat → Writer_wf w →
  Writer_used_slice (Writer_append w bs) = Writer_used_slice w ++ bs.
Proof.
  unfold Writer_wf, Writer_left, Writer_used_slice, Writer_append, splice. simpl. intros.
  rewrite app_assoc. rewrite take_app_le.
  - rewrite take_ge; [done|]. rewrite length_app, length_take. lia.
  - rewrite length_app, length_take. lia.
Qed.

Lemma writes_ret {E A} (e : E) (v : A) : writes e (ret v) [] v.
Proof.
  intros w Hw. split; simpl; [|lia]. intros _. by rewrite Writer_append_nil.
Qed.

Lemma writes_bind {E A B} (e : E) (c : M Writer E A) (k : A → M Writer E B) b1 b2 v1 v2 :
  writes e c b1 v1 → writes e (k v1) b2 v2 → writes e (bind c k) (b1 ++ b2) v2.
Proof.
  intros H1 H2 w Hw. specialize (H1 w Hw) as [Hok Herr]. unfold bind.
  rewrite length_app. destruct (decide (length b1 ≤ Writer_left w)%nat) as [Hle|Hgt].
  - rewrite Hok by done.
    destruct (H2 (Writer_append w b1)) as [Hok2 Herr2]; [by apply Writer_append_wf|].
    rewrite Writer_append_left in Hok2, Herr2 by done. split; intros Hl.
    + rewrite Hok2 by lia. by rewrite Writer_append_append by lia || done.
    + destruct Herr2 as (j&?&?&->); [lia|]. exists (length b1 + j)%nat.
      split_and!; [lia..|].
      rewrite Writer_append_append by (rewrite ?length_take; lia || done).
      by rewrite take_app_add.
  - split; intros Hl; [lia|]. destruct Herr as (j&?&?&->); [lia|].
    exists j. split_and!; [lia..|]. by rewrite take_app_le by lia.
Qed.

Lemma writes_map_err {E E' A} (f : E → E') e (c : M Writer E A) bs v :
  writes e c bs v → writes (f e) (map_err f c) bs v.
Proof.
  intros H w Hw. destruct (H w Hw) as [Hok Herr]. unfold map_err. split; intros Hl.
  - by rewrite Hok.
  - destruct (Herr Hl) as (j&?&?&->). eauto.
Qed.

Lemma writes_eq {E A} (e : E) (c : M Writer E A) bs bs' v v' :
  writes e c bs v → bs = bs' → v = v' → writes e c bs' v'.
Proof. by intros ? <- <-. Qed.

Lemma writes_extend bs : writes tt (Writer_extend_from_slice bs) bs (length bs).
Proof.
  intros w Hw. unfold Writer_extend_from_slice, Writer_append. split; intros Hl.
  - rewrite decide_False by lia. rewrite copy_loop_splice; [done|].
    unfold Writer_wf, Writer_left in *. lia.
  - rewrite decide_True by lia. exists 0%nat. split_and!; [lia..|].
    f_equal. symmetry. apply Writer_append_nil.
Qed.

(** The success half of [writes]: with enough room, [c] appends [bs]. *)
Definition appends {E A} (c : M Writer E A) (bs : bytes) (v : A) : Prop :=
  ∀ w, Writer_wf w → (length bs ≤ Writer_left w)%nat → c w = (Ok v, Writer_append w bs).

Lemma writes_appends {E A} (e : E) (c : M Writer E A) bs v : writes e c bs v → appends c bs v.
Proof. intros H w Hw. apply (H w Hw). Qed.

Lemma appends_ret {E A} (v : A) : appends (E:=E) (ret v) [] v.
Proof. intros w Hw _. by rewrite Writer_append_nil. Qed.

Lemma appends_bind {E A B} (c : M Writer E A) (k : A → M Writer E B) b1 b2 v1 v2 :
  appends c b1 v1 → appends (k v1) b2 v2 → appends (bind c k) (b1 ++ b2) v2.
Proof.
  intros H1 H2 w Hw. rewrite length_app. intros Hl. unfold bind. rewrite H1 by (done || lia).
  rewrite H2.
  - by rewrite Writer_append_append by (done || lia).
  - apply Writer_append_wf; [lia|done].
  - rewrite Writer_append_left by (done || lia). lia.
Qed.

Lemma appends_map_err {E E' A} (f : E → E') (c : M Writer E A) bs v :
  appends c bs v → appends (map_err f c) bs v.
Proof. intros H w Hw Hl. unfold map_err. by rewrite H. Qed.

(** A computation that writes [bs] appends it to what the writer holds. *)
Lemma writes_used_slice {E A} (e : E) (c : M Writer E A) bs v w :
  writes e c bs v → Writer_wf w → (length bs ≤ Writer_left w)%nat →
  ∃ w', c w = (Ok v, w') ∧ Writer_used_slice w' = Writer_used_slice w ++ bs.
Proof.
  intros H Hw Hl. destruct (H w Hw) as [Hok _]. rewrite Hok by done.
  eexists. split; [done|]. by apply Writer_append_used_slice.
Qed.

Lemma writes_push v : writes tt (Writer_push v) [v] v.
Proof.
  intros w Hw. unfold Writer_push. simpl. split; intros Hl.
  - rewrite decide_False by lia. unfold Writer_append. simpl.
    rewrite insert_splice; [done|]. unfold Writer_left in *. lia.
  - rewrite decide_True by lia. exists 0%nat. split_and!; [lia..|].
    f_equal. symmetry. apply Writer_append_nil.
Qed.

Lemma writes_encode_all {A E} (e : E) (enc : A → M Writer E nat) (wire : A → bytes) l :
  Forall (λ x, writes e (enc x) (wire x) (length (wire x))) l →
  writes e (encode_all enc l) (concat (map wire l)) (length (concat (map wire l))).
Proof.
  induction 1 as [|x l Hx Hl IH]; simpl; [apply writes_ret|].
  eapply writes_eq.
  - eapply writes_bind; [done|]. eapply writes_bind; [done|]. apply writes_ret.
  - by rewrite app_nil_r.
  - by rewrite length_app.
Qed.

(** ** Specification: readers *)

Definition Reader_wf (r : Reader) : Prop :=
  (rd_offs r ≤ length (rd_buf r))%nat ∧ Forall is_u8 (rd_buf r).

Definition Reader_input (r : Reader) : bytes := drop (rd_offs r) (rd_buf r).

Definition Reader_advance (r : Reader) (n : nat) : Reader :=
  {| rd_buf := rd_buf r; rd_offs := rd_offs r + n |}.

Definition reads {E A} (c : M Reader E A) (bs : bytes) (v : A) : Prop :=
  ∀ r tl, Reader_input r = bs ++ tl → c r = (Ok v, Reader_advance r (length bs)).

Definition parser {E A} (c : M Reader E A) (P : A → Prop) : Prop :=
  ∀ r, Reader_wf r → ∃ n o,
    c r = (o, Reader_advance r n) ∧ (n ≤ Reader_left r)%nat ∧
    match o with Ok v => P v | Err _ => True | Panic => False end.

Lemma Reader_advance_0 r : Reader_advance r 0 = r.
Proof. destruct r. unfold Reader_advance. simpl. by rewrite Nat.add_0_r. Qed.

Lemma Reader_advance_advance r n m :
  Reader_advance (Reader_advance r n) m = Reader_advance r (n + m).
Proof. unfold Reader_advance. simpl. f_equal. lia. Qed.

Lemma Reader_input_advance r bs tl :
  Reader_input r = bs ++ tl → Reader_input (Reader_advance r (length bs)) = tl.
Proof.
  unfold Reader_input, Reader_advance. simpl. intros H.
  by rewrite <- drop_drop, H, drop_app_length.
Qed.

Lemma Reader_advance_wf r n :
  Reader_wf r → (n ≤ Reader_left r)%nat → Reader_wf (Reader_advance r n).
Proof. unfold Reader_wf, Reader_left. simpl. intros [? ?] ?. split; [lia|done]. Qed.

Lemma Reader_advance_left r n : Reader_left (Reader_advance r n) = (Reader_left r - n)%nat.
Proof. unfold Reader_left. simpl. lia. Qed.

Lemma reads_ret {E A} (v : A) : reads (E:=E) (ret v) [] v.
Proof. intros r tl _. simpl. by rewrite Reader_advance_0. Qed.

Lemma reads_bind {E A B} (c : M Reader E A) (k : A → M Reader E B) b1 b2 v1 v2 :
  reads c b1 v1 → reads (k v1) b2 v2 → reads (bind c k) (b1 ++ b2) v2.
Proof.
  intros H1 H2 r tl Hr. rewrite <- app_assoc in Hr. unfold bind.
  rewrite (H1 _ _ Hr), (H2 _ tl) by (by apply Reader_input_advance).
  by rewrite Reader_advance_advance, length_app.
Qed.

Lemma reads_map_err {E E' A} (f : E → E') (c : M Reader E A) bs v :
  reads c bs v → reads (map_err f c) bs v.
Proof. intros H r tl Hr. unfold map_err. by rewrite (H r tl Hr). Qed.

Lemma reads_eq {E A} (c : M Reader E A) bs bs' v v' :
  reads c bs v → bs = bs' → v = v' → reads c bs' v'.
Proof. by intros ? <- <-. Qed.

Lemma reads_take n bs : length bs = n → reads (Reader_take n) bs bs.
Proof.
  intros <- r tl Hr. unfold Reader_take. rewrite decide_False.
  - unfold Reader_input in Hr. rewrite Hr, take_app_length. done.
  - unfold Reader_input in Hr. apply (f_equal length) in Hr.
    rewrite length_drop, length_app in Hr. unfold Reader_left. lia.
Qed.

Lemma reads_read_all {A E} (rd : M Reader E A) (wire : A → bytes) l :
  Forall (λ x, reads rd (wire x) x) l →
  reads (read_all rd (length l)) (concat (map wire l)) l.
Proof.
  induction 1 as [|x l Hx Hl IH]; simpl; [apply reads_ret|].
  eapply reads_bind; [done|]. rewrite <- (app_nil_r (concat _)).
  eapply reads_bind; [done|]. apply reads_ret.
Qed.

Lemma parser_ret {E A} (P : A → Prop) v : P v → parser (E:=E) (ret v) P.
Proof.
  intros HP r Hr. exists 0%nat, (Ok v). split_and!; [|lia|done].
  by rewrite Reader_advance_0.
Qed.

Lemma parser_throw {E A} (P : A → Prop) (e : E) : parser (throw e) P.
Proof.
  intros r Hr. exists 0%nat, (Err e). split_and!; [|lia|done].
  by rewrite Reader_advance_0.
Qed.

Lemma parser_bind {E A B} (c : M Reader E A) (k : A → M Reader E B) P Q :
  parser c P → (∀ v, P v → parser (k v) Q) → parser (bind c k) Q.
Proof.
  intros H1 H2 r Hr. destruct (H1 r Hr) as (n&o&Hc&Hn&Ho). unfold bind. rewrite Hc.
  destruct o as [v|e|]; [|by eexists _, (Err e)|done].
  destruct (H2 v Ho (Reader_advance r n)) as (m&o2&->&Hm&Ho2);
    [by apply Reader_advance_wf|].
  rewrite Reader_advance_left in Hm. rewrite Reader_advance_advance.
  exists (n + m)%nat, o2. split_and!; [done|lia|done].
Qed.

Lemma parser_weaken {E A} (c : M Reader E A) (P Q : A → Prop) :
  parser c P → (∀ v, P v → Q v) → parser c Q.
Proof.
  intros H HPQ r Hr. destruct (H r Hr) as (n&o&?&?&?). exists n, o.
  split_and!; [done..|]. destruct o; auto.
Qed.

Lemma parser_take n : parser (Reader_take n) (λ bs, length bs = n ∧ Forall is_u8 bs).
Proof.
  intros r [Ho Hb]. unfold Reader_take. destruct (decide _) as [Hlt|Hge].
  - exists 0%nat, (Err tt). split_and!; [|lia|done]. by rewrite Reader_advance_0.
  - eexists n, (Ok _). split_and!; [done|lia| |].
    + rewrite length_take, length_drop. unfold Reader_left in *. lia.
    + by apply Forall_take, Forall_drop.
Qed.

Lemma parser_read_all {E A} (rd : M Reader E A) (P : A → Prop) n :
  parser rd P → parser (read_all rd n) (λ l, length l = n ∧ Forall P l).
Proof.
  intros H. induction n as [|n IH]; simpl; [by apply parser_ret|].
  eapply parser_bind; [done|]. intros x Hx. eapply parser_bind; [done|].
  intros l [<- Hl]. apply parser_ret. auto.
Qed.

Lemma parser_if {E A} (b : bool) (c1 c2 : M Reader E A) P :
  (b = true → parser c1 P) → (b = false → parser c2 P) → parser (if b then c1 else c2) P.
Proof. destruct b; auto. Qed.

(** Whatever the input, a parser returns and does not panic. *)
Lemma parser_no_panic {E A} (c : M Reader E A) P bs :
  parser c P → Forall is_u8 bs → is_panic (c (Reader_init bs)).1 = false.
Proof.
  intros H Hbs. destruct (H (Reader_init bs)) as (n&o&->&_&Ho).
  { split; simpl; [lia|done]. }
  by destruct o.
Qed.

(** ** The interface of a codec

    [CodecOk c wf wire] states what a message codec relies on in the codecs of its
    fields: a value that satisfies [wf] is written as [wire v] or refused for lack of
    room, those bytes read back as [v], and on any input the reader returns (no panic)
    and what it accepts satisfies [wf]. *)

Class CodecOk {A} (c : Codec A) (wf : A → Prop) (wire : A → bytes) : Prop := {
  encode_ok v : wf v → writes MkEncodeErr (encode c v) (wire v) (length (wire v));
  read_ok v : wf v → reads (read c) (wire v) v;
  parse_ok : parser (read c) wf;
}.

Lemma codec_roundtrip {A} (c : Codec A) wf wire `{!CodecOk c wf wire} v buf :
  wf v → (length (wire v) ≤ length buf)%nat →
  ∃ w, encode c v (Writer_init buf) = (Ok (length (wire v)), w) ∧
       Writer_used_slice w = wire v ∧
       read_bytes c (Writer_used_slice w) = Ok v.
Proof.
  intros Hv Hl.
  destruct (writes_used_slice _ _ _ _ (Writer_init buf) (encode_ok v Hv)) as (w&Hw&Hs).
  { unfold Writer_wf. simpl. lia. }
  { unfold Writer_left. simpl. lia. }
  exists w. split_and!; [done|done|]. rewrite Hs. simpl. unfold read_bytes.
  by rewrite (read_ok v Hv (Reader_init (wire v)) []) by (by rewrite app_nil_r).
Qed.

(** ** The integer codecs satisfy the interface *)

Create HintDb codec.

(** [solve_writes], [solve_reads] and [solve_parser] decompose a codec along its
    sequence of fields; the lemmas on the fields come from the [codec] database. *)
Ltac solve_writes :=
  repeat first
    [ apply writes_ret
    | eapply writes_bind; [solve [eauto 3 with codec]|] ];
  eauto 3 with codec.
Ltac finish_wire := rewrite ?app_nil_r, ?length_app; simpl; rewrite ?app_assoc; auto; try lia.

Lemma put_u16_le v : put_u16 v = le_bytes 2 v.
Proof. done. Qed.

Lemma put_u64_le v : put_u64 v = le_bytes 8 v.
Proof. unfold put_u64. simpl. by rewrite !Z.shiftr_shiftr by lia. Qed.

Lemma decode_u16_le bs : length bs = 2%nat → decode_u16 bs = Ok (le_val bs).
Proof.
  destruct bs as [|b0 [|b1 [|]]]; try done. intros _.
  unfold decode_u16. cbn [le_val]. rewrite Z.shiftl_0_l, Z.lor_0_r. done.
Qed.

Ltac le_decode :=
  cbn [le_val]; rewrite ?Z.shiftl_lor, ?Z.shiftl_0_l, ?Z.lor_0_r, ?Z.shiftl_shiftl by lia;
  rewrite ?Z.lor_assoc; reflexivity.

Lemma decode_u24_le bs : length bs = 3%nat → decode_u24 bs = Ok (le_val bs).
Proof.
  destruct bs as [|b0 [|b1 [|b2 [|]]]]; try done. intros _. unfold decode_u24. le_decode.
Qed.

Lemma decode_u32_le bs : length bs = 4%nat → decode_u32 bs = Ok (le_val bs).
Proof.
  destruct bs as [|b0 [|b1 [|b2 [|b3 [|]]]]]; try done. intros _.
  unfold decode_u32. le_decode.
Qed.

Lemma decode_u64_le bs : length bs = 8%nat → decode_u64 bs = Ok (le_val bs).
Proof.
  destruct bs as [|b0 [|b1 [|b2 [|b3 [|b4 [|b5 [|b6 [|b7 [|]]]]]]]]]; try done. intros _.
  unfold decode_u64. le_decode.
Qed.

Lemma decode_u8_le bs : length bs = 1%nat → decode_u8 bs = Ok (le_val bs).
Proof.
  destruct bs as [|b0 [|]]; try done. intros _. unfold decode_u8. le_decode.
Qed.

(** A reader that takes [n] bytes and decodes them in little-endian order. *)
Lemma reads_le n (dec : bytes → outcome unit Z) v :
  (∀ bs, length bs = n → dec bs = Ok (le_val bs)) → is_uint (8 * Z.of_nat n) v →
  reads (let* bs := Reader_take n in of_outcome (dec bs)) (le_bytes n v) v.
Proof.
  intros Hdec Hv. rewrite <- (app_nil_r (le_bytes n v)).
  eapply reads_bind; [apply reads_take, length_le_bytes|].
  rewrite Hdec, le_val_le_bytes, as_uint_id by (done || apply length_le_bytes).
  apply reads_ret.
Qed.

Lemma parser_le n (dec : bytes → outcome unit Z) :
  (∀ bs, length bs = n → dec bs = Ok (le_val bs)) →
  parser (let* bs := Reader_take n in of_outcome (dec bs)) (is_uint (8 * Z.of_nat n)).
Proof.
  intros Hdec. eapply parser_bind; [apply parser_take|]. intros bs [Hl Hb].
  rewrite Hdec by done. apply (parser_ret (is_uint _)). rewrite <- Hl. by apply le_val_bound.
Qed.

Lemma writes_as_encode_err {A} (c : M Writer unit A) bs v :
  writes tt c bs v → writes MkEncodeErr (as_encode_err c) bs v.
Proof. apply (writes_map_err (λ _, MkEncodeErr)). Qed.

#[export] Hint Resolve writes_as_encode_err writes_push writes_extend : codec.

#[global] Instance u8_codec_ok : CodecOk u8_codec is_u8 (le_bytes 1).
Proof.
  constructor; simpl read; simpl encode.
  - intros v Hv. eapply writes_eq; [solve_writes| |done].
    simpl. by rewrite as_uint_id.
  - intros v Hv. apply (reads_le 1), Hv. apply decode_u8_le.
  - apply (parser_le 1), decode_u8_le.
Qed.

#[global] Instance u16_codec_ok : CodecOk u16_codec is_u16 (le_bytes 2).
Proof.
  constructor; simpl read; simpl encode.
  - intros v Hv. eapply writes_eq; [solve_writes|done..].
  - intros v Hv. apply (reads_le 2), Hv. apply decode_u16_le.
  - apply (parser_le 2), decode_u16_le.
Qed.

#[global] Instance u24_codec_ok : CodecOk u24_codec (is_uint 24) (le_bytes 3).
Proof.
  constructor; simpl read; simpl encode.
  - intros v Hv. eapply writes_eq; [unfold encode_u24; solve_writes| |done].
    simpl. by rewrite !Z.shiftr_shiftr by lia.
  - intros v Hv. apply (reads_le 3), Hv. apply decode_u24_le.
  - apply (parser_le 3), decode_u24_le.
Qed.

#[global] Instance u32_codec_ok : CodecOk u32_codec is_u32 (le_bytes 4).
Proof.
  constructor; simpl read; simpl encode.
  - intros v Hv. eapply writes_eq; [unfold encode_u32; solve_writes| |done].
    simpl. by rewrite !Z.shiftr_shiftr by lia.
  - intros v Hv. apply (reads_le 4), Hv. apply decode_u32_le.
  - apply (parser_le 4), decode_u32_le.
Qed.

#[global] Instance u64_codec_ok : CodecOk u64_codec is_u64 (le_bytes 8).
Proof.
  constructor; simpl read; simpl encode.
  - intros v Hv. unfold encode_u64. rewrite put_u64_le.
    eapply writes_eq; [solve_writes|done..].
  - intros v Hv. apply (reads_le 8), Hv. apply decode_u64_le.
  - apply (parser_le 8), decode_u64_le.
Qed.

#[global] Instance u128_codec_ok : CodecOk u128_codec (is_uint 128) (le_bytes 16).
Proof.
  constructor; simpl read; simpl encode.
  - intros v Hv. unfold encode_u128. eapply writes_eq; [solve_writes|done..].
  - intros v Hv. by apply (reads_le 16 (λ bs, Ok (le_val bs))).
  - by apply (parser_le 16 (λ bs, Ok (le_val bs))).
Qed.

(** ** Enumerations and flag sets

    [enum_builder!] (codec/src/macros.rs) gives an enumeration its wire codes, an
    [Unknown] constructor for every other code, and a codec that goes through the
    integer.  A [bitflags!] type is its integer of flags; its readers keep the bits of
    the type's [VALID_MASK]. *)

(*@ codec/src/macros.rs 29-41 enum_builder *)
Definition enum_codec {A} (base : Codec Z) (get : A → Z) (from : Z → A) : Codec A := {|
  encode v := encode base (get v);
  read := let* x := read base in ret (from x);
|}.

Definition flags_codec (base : Codec Z) (mask : Z) : Codec Z := {|
  encode v := encode base v;
  read := let* x := read base in ret (Z.land x mask);
|}.

(** [flags.contains(f)] and the single-flag test of the source. *)
Definition contains (flags f : Z) : bool := bool_decide (Z.land flags f = f).

(** A code of the enumeration's width that is not shadowed by a named constructor. *)
Definition enum_wf {A} (w : Z) (get : A → Z) (from : Z → A) (v : A) : Prop :=
  is_uint w (get v) ∧ from (get v) = v.

Definition flags_wf (w mask v : Z) : Prop := is_uint w v ∧ Z.land v mask = v.

#[global] Instance flags_wf_dec w mask v : Decision (flags_wf w mask v).
Proof. unfold flags_wf. apply _. Defined.

Lemma land_uint w x m : 0 ≤ w → is_uint w x → is_uint w (Z.land x m).
Proof.
  intros Hw [H0 H1]. split; [apply Z.land_nonneg; auto|].
  destruct (Z.eq_dec (Z.land x m) 0) as [->|Hnz]; [lia|].
  assert (0 ≤ Z.land x m) by (apply Z.land_nonneg; auto).
  apply Z.log2_lt_pow2; [lia|].
  destruct (Z.eq_dec x 0) as [->|Hx]; [by rewrite Z.land_0_l in *|].
  destruct (Z.le_gt_cases w (Z.log2 (Z.land x m))) as [Hle|]; [|done].
  pose proof (Z.bit_log2 (Z.land x m) ltac:(lia)) as Hb.
  rewrite Z.land_spec, andb_true_iff in Hb. destruct Hb as [Hb _].
  rewrite Z.bits_above_log2 in Hb; [done|done|].
  apply Z.lt_le_trans with w; [|done]. apply Z.log2_lt_pow2; lia.
Qed.

#[global] Instance enum_codec_ok {A} w base wire (get : A → Z) (from : Z → A) :
  CodecOk base (is_uint w) wire → (∀ x, is_uint w x → get (from x) = x) →
  CodecOk (enum_codec base get from) (enum_wf w get from) (λ v, wire (get v)).
Proof.
  intros Hbase Hget. constructor; simpl.
  - intros v [Hv _]. by apply encode_ok.
  - intros v [Hv Hf]. rewrite <- (app_nil_r (wire _)).
    eapply reads_bind; [by apply read_ok|]. simpl. rewrite Hf. apply reads_ret.
  - eapply parser_bind; [apply parse_ok|]. intros x Hx. apply parser_ret.
    unfold enum_wf. by rewrite Hget.
Qed.

#[global] Instance flags_codec_ok w base wire mask :
  0 ≤ w → CodecOk base (is_uint w) wire →
  CodecOk (flags_codec base mask) (flags_wf w mask) wire.
Proof.
  intros Hw Hbase. constructor; simpl.
  - intros v [Hv _]. by apply encode_ok.
  - intros v [Hv Hm]. rewrite <- (app_nil_r (wire _)).
    eapply reads_bind; [by apply read_ok|]. simpl. rewrite Hm. apply reads_ret.
  - eapply parser_bind; [apply parse_ok|]. intros x Hx. apply parser_ret.
    split; [by apply land_uint|]. by rewrite <- Z.land_assoc, Z.land_diag.
Qed.

#[export] Hint Resolve encode_ok read_ok parse_ok : codec.

(** [arr[pos..pos + bs.len()].copy_from_slice(bs)]: out of range is a panic. *)
Definition slice_copy {S E} (arr : bytes) (pos : nat) (bs : bytes) : M S E bytes :=
  if decide (pos + length bs ≤ length arr)%nat then ret (splice pos bs arr) else panic.

(** [arr[lo..hi]]. *)
Definition sub_slice {S E} (lo hi : nat) (arr : bytes) : M S E bytes :=
  if decide (lo ≤ hi ∧ hi ≤ length arr)%nat then ret (take (hi - lo) (drop lo arr)) else panic.

Lemma sub_slice_ok {S E} lo hi l (st : S) :
  (lo ≤ hi)%nat → (hi ≤ length l)%nat →
  sub_slice (E:=E) lo hi l st = (Ok (take (hi - lo) (drop lo l)), st).
Proof. intros. unfold sub_slice. by rewrite decide_True. Qed.

Lemma sub_slice_app {S E} lo hi pre m post (st : S) :
  lo = length pre → (hi - lo)%nat = length m → (lo ≤ hi)%nat →
  sub_slice (E:=E) lo hi (pre ++ m ++ post) st = (Ok m, st).
Proof.
  intros -> Hm Hle. rewrite sub_slice_ok by (rewrite ?length_app; lia).
  by rewrite drop_app_length, Hm, take_app_length.
Qed.

(** [u8] addition; a sum that does not fit is a panic (overflow checks on). *)
Definition add_u8 {S E} (a b : Z) : M S E Z :=
  if decide (is_u8 (a + b)) then ret (a + b) else panic.

(** ** Arrays of bytes *)

Definition encode_bytes (bs : bytes) : M Writer EncodeErr nat := encode_all (encode u8_codec) bs.

Lemma concat_singletons (bs : bytes) : Forall is_u8 bs → concat (map (le_bytes 1) bs) = bs.
Proof.
  induction 1 as [|b bs Hb _ IH]; [done|].
  cbn [map concat]. rewrite IH. simpl. by rewrite as_uint_id.
Qed.

Lemma writes_encode_bytes bs :
  Forall is_u8 bs → writes MkEncodeErr (encode_bytes bs) bs (length bs).
Proof.
  intros Hbs. eapply writes_eq.
  - apply (writes_encode_all _ _ (le_bytes 1)).
    eapply Forall_impl; [|exact Hbs]. intros b Hb. by apply (encode_ok (c:=u8_codec)).
  - by apply concat_singletons.
  - by rewrite concat_singletons.
Qed.

Lemma reads_read_bytes n bs :
  Forall is_u8 bs → length bs = n → reads (read_all (read u8_codec) n) bs bs.
Proof.
  intros Hbs <-. eapply reads_eq.
  - apply (reads_read_all (read u8_codec) (le_bytes 1)).
    eapply Forall_impl; [|exact Hbs]. intros b Hb. by apply read_ok.
  - by apply concat_singletons.
  - done.
Qed.

Lemma parser_read_bytes n :
  parser (read_all (read u8_codec) n) (λ bs, length bs = n ∧ Forall is_u8 bs).
Proof. apply parser_read_all, parse_ok. Qed.

(** Reading [n] bytes into an array of zeros of capacity [max]. *)
Definition read_array (n max : nat) : M Reader unit bytes :=
  read_into (read u8_codec) n (replicate max 0).

(** The arrays such a loop produces: capacity [max], zeros from [n] on. *)
Definition array_wf (n max : nat) (arr : bytes) : Prop :=
  length arr = max ∧ Forall is_u8 arr ∧ (n ≤ max)%nat ∧
  drop n arr = replicate (max - n) 0.

#[global] Instance array_wf_dec n max arr : Decision (array_wf n max arr).
Proof. unfold array_wf. apply _. Defined.

Lemma array_wf_take n max arr :
  array_wf n max arr → take n arr ++ replicate (max - n) 0 = arr.
Proof. intros (_&_&_&<-). apply take_drop. Qed.

Lemma replicate_u8 n : Forall is_u8 (replicate n 0).
Proof. apply Forall_replicate. split; lia. Qed.

Lemma array_wf_make bs max :
  Forall is_u8 bs → (length bs ≤ max)%nat →
  array_wf (length bs) max (bs ++ replicate (max - length bs) 0).
Proof.
  intros Hbs Hl. split_and!; [|by apply Forall_app_2, replicate_u8|done|].
  - rewrite length_app, length_replicate. lia.
  - by rewrite drop_app_length.
Qed.

Lemma read_array_eq n max r :
  (n ≤ max)%nat →
  read_array n max r =
  (let* l := read_all (read u8_codec) n in ret (l ++ replicate (max - n) 0)) r.
Proof.
  intros Hn. unfold read_array, read_into. rewrite length_replicate.
  rewrite Nat.min_l by done. by rewrite drop_replicate.
Qed.

Lemma reads_read_array n max arr :
  array_wf n max arr → reads (read_array n max) (take n arr) arr.
Proof.
  intros Ha r tl Hr. pose proof Ha as (Hl&Hu&Hn&_). rewrite read_array_eq by done.
  revert r tl Hr. rewrite <- (app_nil_r (take n arr)).
  apply (reads_bind (read_all (read u8_codec) n) _ _ _ (take n arr)).
  - apply reads_read_bytes; [by apply Forall_take|]. rewrite length_take. lia.
  - eapply reads_eq; [apply reads_ret|done|]. by apply array_wf_take.
Qed.

Lemma parser_read_array n max :
  (n ≤ max)%nat → parser (read_array n max) (array_wf n max).
Proof.
  intros Hn r Hr. rewrite read_array_eq by done. revert r Hr.
  apply (parser_bind _ _ _ _ (parser_read_bytes n)). intros bs [<- Hbs].
  apply parser_ret. by apply array_wf_make.
Qed.

Lemma writes_array n max arr :
  array_wf n max arr →
  writes MkEncodeErr (encode_bytes (take n arr)) (take n arr) n.
Proof.
  intros (Hl&Hu&Hn&_). eapply writes_eq.
  - by apply writes_encode_bytes, Forall_take.
  - done.
  - rewrite length_take. lia.
Qed.

Lemma parser_add_u8 {E} a b : is_u8 (a + b) → parser (E:=E) (add_u8 a b) (λ v, v = a + b).
Proof. intros H. unfold add_u8. rewrite decide_True by done. by apply parser_ret. Qed.

Lemma writes_add_u8 {E} (e : E) a b : is_u8 (a + b) → writes e (add_u8 a b) [] (a + b).
Proof. intros H. unfold add_u8. rewrite decide_True by done. apply writes_ret. Qed.

(** Enumerations: a reader of codes followed by the table of names. *)
Ltac solve_enum from := intros x ?; unfold from; repeat case_match; reflexivity.

Lemma reads_map {E A B} (c : M Reader E A) (f : A → B) bs a :
  reads c bs a → reads (let* x := c in ret (f x)) bs (f a).
Proof.
  intros H. rewrite <- (app_nil_r bs). eapply reads_bind; [done|apply reads_ret].
Qed.

Lemma parser_map {E A B} (c : M Reader E A) (f : A → B) (P : A → Prop) (Q : B → Prop) :
  parser c P → (∀ a, P a → Q (f a)) → parser (let* x := c in ret (f x)) Q.
Proof. intros Hc HQ. eapply parser_bind; [done|]. intros a Ha. apply parser_ret, HQ, Ha. Qed.

(** ** Proofs about codecs of structures

    [writes_steps] follows the sequence of fields of an encoder; [reads_with x] reads
    the next field, whose value is [x]; [parser_steps] follows a reader through its
    fields and early returns. *)

Ltac codec_side := solve [eauto 4 with codec | done | lia].

Ltac writes_steps :=
  repeat first
    [ apply writes_ret
    | eapply writes_bind; [first [apply encode_ok; codec_side | codec_side]|cbv beta] ].

Ltac reads_with x :=
  eapply (reads_bind _ _ _ _ x);
  [first [apply read_ok; codec_side | apply reads_map, read_ok; codec_side | codec_side]
  |cbv beta].

Ltac parser_steps :=
  repeat first
    [ apply parser_throw
    | eapply parser_bind; [first [apply parse_ok | solve [eauto 4 with codec]]|intros ? ?]
    | apply parser_if; intros ? ].

#[export] Hint Resolve writes_encode_bytes writes_array reads_read_bytes reads_read_array
  parser_read_bytes parser_read_array parser_add_u8 writes_add_u8 : codec.

(** ** Local writers and readers *)

(** A computation on a fresh writer over [buf], inside another computation. *)
Definition with_writer {S E A} (buf : bytes) (c : M Writer E A) : M S E (A * Writer) := λ s,
  match c (Writer_init buf) with
  | (Ok a, w) => (Ok (a, w), s)
  | (Err e, _) => (Err e, s)
  | (Panic, _) => (Panic, s)
  end.

(** A computation on a reader over [buf], inside another computation. *)
Definition with_reader {S E A} (buf : bytes) (c : M Reader E A) : M S E (A * Reader) := λ st,
  match c (Reader_init buf) with
  | (Ok a, r) => (Ok (a, r), st)
  | (Err e, _) => (Err e, st)
  | (Panic, _) => (Panic, st)
  end.

Lemma with_writer_append {S E A} buf (c : M Writer E A) bs v (st : S) :
  appends c bs v → (length bs ≤ length buf)%nat →
  with_writer buf c st = (Ok (v, Writer_append (Writer_init buf) bs), st).
Proof.
  intros Hc Hl. unfold with_writer.
  by rewrite Hc by (unfold Writer_wf, Writer_left; simpl; lia).
Qed.

Lemma Writer_init_append_used_slice buf bs :
  (length bs ≤ length buf)%nat → Writer_used_slice (Writer_append (Writer_init buf) bs) = bs.
Proof.
  intros Hl. rewrite Writer_append_used_slice; [done|..];
    unfold Writer_wf, Writer_left; simpl; lia.
Qed.

Lemma with_writer_ok {S E A} buf (c : M Writer E A) bs v (st : S) :
  appends c bs v → (length bs ≤ length buf)%nat →
  ∃ w, with_writer buf c st = (Ok (v, w), st) ∧ Writer_used_slice w = bs.
Proof.
  intros Hc Hl. rewrite (with_writer_append _ _ bs v) by done. eexists. split; [done|].
  by apply Writer_init_append_used_slice.
Qed.

Lemma with_reader_ok {S E A} buf (c : M Reader E A) bs tl v (st : S) :
  reads c bs v → buf = bs ++ tl →
  with_reader buf c st = (Ok (v, Reader_advance (Reader_init buf) (length bs)), st).
Proof. intros Hc ->. unfold with_reader. by rewrite (Hc _ tl) by done. Qed.

Lemma stateless_with_writer {E A} buf (c : M Writer E A) : stateless (λ S, with_writer buf c).
Proof. intros S st. unfold run, with_writer. by destruct (c _) as [[] ?]. Qed.
Lemma stateless_with_reader {E A} buf (c : M Reader E A) : stateless (λ S, with_reader buf c).
Proof. intros S st. unfold run, with_reader. by destruct (c _) as [[] ?]. Qed.
Lemma stateless_add_u8 {E} a b : stateless (E:=E) (λ S, add_u8 a b).
Proof. unfold add_u8. stateless_steps. Qed.
Lemma stateless_sub_slice {E} lo hi arr : stateless (E:=E) (λ S, sub_slice lo hi arr).
Proof. unfold sub_slice. stateless_steps. Qed.
Lemma stateless_slice_copy {E} arr pos bs : stateless (E:=E) (λ S, slice_copy arr pos bs).
Proof. unfold slice_copy. stateless_steps. Qed.

#[export] Hint Resolve stateless_with_writer stateless_with_reader stateless_add_u8
  stateless_sub_slice stateless_slice_copy : stateless.

(** ** Parts of buffers *)

Lemma sub_slice_inv {S E} lo hi (bs : bytes) (s s' : S) b :
  sub_slice (E:=E) lo hi bs s = (Ok b, s') → s' = s ∧ b = take (hi - lo) (drop lo bs) ∧ (lo ≤ hi ≤ length bs)%nat.
Proof. unfold sub_slice. case_decide; [|done]. by intros [= <- <-]. Qed.
Lemma slice_copy_inv {S E} arr pos bs (s s' : S) b :
  slice_copy (E:=E) arr pos bs s = (Ok b, s') →
  s' = s ∧ b = splice pos bs arr ∧ (pos + length bs ≤ length arr)%nat.
Proof. unfold slice_copy. case_decide; [|done]. by intros [= <- <-]. Qed.

Lemma splice_mid {A} pos (bs p m q : list A) :
  pos = length p → length m = length bs → splice pos bs (p ++ m ++ q) = p ++ bs ++ q.
Proof.
  intros -> Hm. unfold splice. rewrite take_app_length, <- drop_drop, drop_app_length.
  by rewrite <- Hm, drop_app_length.
Qed.

Lemma slice_copy_mid {S E} pos bs p m q (st : S) :
  pos = length p → length m = length bs →
  slice_copy (E:=E) (p ++ m ++ q) pos bs st = (Ok (p ++ bs ++ q), st).
Proof.
  intros Hp Hm. unfold slice_copy. rewrite decide_True by (rewrite !length_app; lia).
  by rewrite splice_mid.
Qed.

Lemma split_buffer (n1 n2 n3 : nat) (buf : bytes) :
  (n1 + n2 + n3 ≤ length buf)%nat →
  ∃ b1 b2 b3, buf = b1 ++ b2 ++ b3 ++ drop (n1 + n2 + n3) buf ∧
    length b1 = n1 ∧ length b2 = n2 ∧ length b3 = n3.
Proof.
  intros Hl. exists (take n1 buf), (take n2 (drop n1 buf)), (take n3 (drop (n1 + n2) buf)).
  split_and!; [|rewrite ?length_take, ?length_drop; lia..].
  rewrite <- (drop_drop buf n3 (n1 + n2)), (take_drop n3), <- (drop_drop buf n2 n1).
  by rewrite !take_drop.
Qed.

Lemma appends_encode {E A} (c : Codec A) wf wire `{!CodecOk c wf wire} (e : E) v :
  wf v → appends (map_err (λ _, e) (encode c v)) (wire v) (length (wire v)).
Proof. intros. eapply appends_map_err, (writes_appends MkEncodeErr), encode_ok; done. Qed.

(** Copying to the end of what has been written. *)
Lemma slice_copy_next {S E} pre bs rest (s : S) :
  (length bs ≤ length rest)%nat →
  slice_copy (E:=E) (pre ++ rest) (length pre) bs s = (Ok ((pre ++ bs) ++ drop (length bs) rest), s).
Proof.
  intros Hl. unfold slice_copy. rewrite decide_True by (rewrite length_app; lia).
  unfold splice. rewrite take_app_length, drop_app_ge by lia.
  replace (length pre + length bs - length pre)%nat with (length bs) by lia. by rewrite <- app_assoc.
Qed.

Lemma sub_slice_tail {S E} lo hi pre m (st : S) :
  lo = length pre → hi = (length pre + length m)%nat →
  sub_slice (E:=E) lo hi (pre ++ m) st = (Ok m, st).
Proof.
  intros -> ->. rewrite <- (app_nil_r m) at 2. apply sub_slice_app; lia.
Qed.

Lemma slice_copy_front {S E} out bs (st : S) :
  (length bs ≤ length out)%nat →
  slice_copy (E:=E) out 0 bs st = (Ok (bs ++ drop (length bs) out), st).
Proof. intros Hl. unfold slice_copy. by rewrite decide_True by lia. Qed.

Lemma with_writer_wire {S E A} buf (c : M Writer E A) bs v (st : S) :
  appends c bs v → (length bs ≤ length buf)%nat →
  with_writer buf c st =
  (Ok (v, {| wr_buf := bs ++ drop (length bs) buf; wr_offs := length bs |}), st).
Proof. intros Hc Hl. by rewrite (with_writer_append _ _ bs v). Qed.

(** What comes behind a prefix of a buffer can be overwritten. *)
Lemma slice_copy_behind {S E} hd bs buf (st : S) :
  (length hd + length bs ≤ length buf)%nat →
  slice_copy (E:=E) (hd ++ drop (length hd) buf) (length hd) bs st =
  (Ok (hd ++ bs ++ drop (length hd + length bs) buf), st).
Proof.
  intros Hl. rewrite <- (take_drop (length bs) (drop (length hd) buf)), drop_drop.
  apply slice_copy_mid; [done|]. rewrite length_take, length_drop. lia.
Qed.

Lemma with_writer_cases {S E A} (e : E) buf (c : M Writer E A) bs v (st : S) :
  writes e c bs v →
  with_writer buf c st =
  if decide (length bs ≤ length buf)%nat
  then (Ok (v, {| wr_buf := bs ++ drop (length bs) buf; wr_offs := length bs |}), st)
  else (Err e, st).
Proof.
  intros Hc. case_decide as Hl; [by apply with_writer_wire; [eapply writes_appends|]|].
  unfold with_writer. destruct (Hc (Writer_init buf)) as [_ Hf];
    [unfold Writer_wf; cbn; lia|].
  destruct Hf as (k&_&_&->); [unfold Writer_left; cbn; lia|done].
Qed.
