(* ===== verification/Status.v ===== *)
(** Model of spdmlib/src/error.rs: the status values every fallible function returns
    and their 32-bit encoding. *)

From S2P Require Import Prelude Codec.

(*@ spdmlib/src/error.rs 16-19 StatusSeverity *)
Inductive StatusSeverity := Severity_SUCCESS | Severity_ERROR.

(*@ spdmlib/src/error.rs 16-19 StatusSeverity *)
Definition StatusSeverity_as_u8 (s : StatusSeverity) : Z :=
  match s with Severity_SUCCESS => 0 | Severity_ERROR => 8 end.

(*@ spdmlib/src/error.rs 30-36 StatusSeverity::try_from *)
Definition StatusSeverity_try_from (value : Z) : option StatusSeverity :=
  match value with
  | 0 => Some Severity_SUCCESS
  | 8 => Some Severity_ERROR
  | _ => None
  end.

(*@ spdmlib/src/error.rs 43-65 StatusCodeCore *)
Inductive StatusCodeCore :=
| Core_SUCCESS | INVALID_PARAMETER | UNSUPPORTED_CAP | INVALID_STATE_LOCAL
| INVALID_STATE_PEER | INVALID_MSG_FIELD | INVALID_MSG_SIZE | NEGOTIATION_FAIL
| BUSY_PEER | NOT_READY_PEER | ERROR_PEER | RESYNCH_PEER | BUFFER_FULL
| BUFFER_TOO_SMALL | SESSION_NUMBER_EXCEED | SESSION_MSG_ERROR | ACQUIRE_FAIL
| SESSION_TRY_DISCARD_KEY_UPDATE | DECODE_AEAD_FAIL.

(*@ spdmlib/src/error.rs 43-65 StatusCodeCore *)
Definition StatusCodeCore_as_u16 (c : StatusCodeCore) : Z :=
  match c with
  | Core_SUCCESS => 0 | INVALID_PARAMETER => 1 | UNSUPPORTED_CAP => 2
  | INVALID_STATE_LOCAL => 3 | INVALID_STATE_PEER => 4 | INVALID_MSG_FIELD => 5
  | INVALID_MSG_SIZE => 6 | NEGOTIATION_FAIL => 7 | BUSY_PEER => 8
  | NOT_READY_PEER => 9 | ERROR_PEER => 10 | RESYNCH_PEER => 11 | BUFFER_FULL => 12
  | BUFFER_TOO_SMALL => 13 | SESSION_NUMBER_EXCEED => 14 | SESSION_MSG_ERROR => 15
  | ACQUIRE_FAIL => 16 | SESSION_TRY_DISCARD_KEY_UPDATE => 17
  | DECODE_AEAD_FAIL => 0xFE
  end.

(*@ spdmlib/src/error.rs 67-94 StatusCodeCore::try_from *)
Definition StatusCodeCore_try_from (value : Z) : option StatusCodeCore :=
  match value with
  | 0 => Some Core_SUCCESS
  | 1 => Some INVALID_PARAMETER
  | 2 => Some UNSUPPORTED_CAP
  | 3 => Some INVALID_STATE_LOCAL
  | 4 => Some INVALID_STATE_PEER
  | 5 => Some INVALID_MSG_FIELD
  | 6 => Some INVALID_MSG_SIZE
  | 7 => Some NEGOTIATION_FAIL
  | 8 => Some BUSY_PEER
  | 9 => Some NOT_READY_PEER
  | 10 => Some ERROR_PEER
  | 11 => Some RESYNCH_PEER
  | 12 => Some BUFFER_FULL
  | 13 => Some BUFFER_TOO_SMALL
  | 14 => Some SESSION_NUMBER_EXCEED
  | 15 => Some SESSION_MSG_ERROR
  | 16 => Some ACQUIRE_FAIL
  | 17 => Some SESSION_TRY_DISCARD_KEY_UPDATE
  | 0xFE => Some DECODE_AEAD_FAIL
  | _ => None
  end.

(*@ spdmlib/src/error.rs 106-111 StatusCodeCrypto *)
Inductive StatusCodeCrypto :=
| CRYPTO_ERROR | VERIF_FAIL | SEQUENCE_NUMBER_OVERFLOW | VERIF_NO_AUTHORITY.

(*@ spdmlib/src/error.rs 106-111 StatusCodeCrypto *)
Definition StatusCodeCrypto_as_u16 (c : StatusCodeCrypto) : Z :=
  match c with
  | CRYPTO_ERROR => 0 | VERIF_FAIL => 1 | SEQUENCE_NUMBER_OVERFLOW => 2
  | VERIF_NO_AUTHORITY => 3
  end.

(*@ spdmlib/src/error.rs 113-125 StatusCodeCrypto::try_from *)
Definition StatusCodeCrypto_try_from (value : Z) : option StatusCodeCrypto :=
  match value with
  | 0 => Some CRYPTO_ERROR
  | 1 => Some VERIF_FAIL
  | 2 => Some SEQUENCE_NUMBER_OVERFLOW
  | 3 => Some VERIF_NO_AUTHORITY
  | _ => None
  end.

(*@ spdmlib/src/error.rs 137-139 StatusCodeCertParse *)
Inductive StatusCodeCertParse := INVALID_CERT.

(*@ spdmlib/src/error.rs 144-149 StatusCodeCertParse::try_from *)
Definition StatusCodeCertParse_try_from (value : Z) : option StatusCodeCertParse :=
  match value with 0 => Some INVALID_CERT | _ => None end.

(*@ spdmlib/src/error.rs 162-171 StatusCodeTransport *)
Inductive StatusCodeTransport :=
| SEND_FAIL | RECEIVE_FAIL | DECAP_FAIL | DECAP_APP_FAIL | ENCAP_FAIL | ENCAP_APP_FAIL.

(*@ spdmlib/src/error.rs 162-171 StatusCodeTransport *)
Definition StatusCodeTransport_as_u16 (c : StatusCodeTransport) : Z :=
  match c with
  | SEND_FAIL => 0 | RECEIVE_FAIL => 1 | DECAP_FAIL => 0xFE | DECAP_APP_FAIL => 0xFD
  | ENCAP_FAIL => 0xFC | ENCAP_APP_FAIL => 0xFB
  end.

(*@ spdmlib/src/error.rs 173-187 StatusCodeTransport::try_from *)
Definition StatusCodeTransport_try_from (value : Z) : option StatusCodeTransport :=
  match value with
  | 0 => Some SEND_FAIL
  | 1 => Some RECEIVE_FAIL
  | 0xFE => Some DECAP_FAIL
  | 0xFD => Some DECAP_APP_FAIL
  | 0xFC => Some ENCAP_FAIL
  | 0xFB => Some ENCAP_APP_FAIL
  | _ => None
  end.

(*@ spdmlib/src/error.rs 199-202 StatusCodeMeasCollect *)
Inductive StatusCodeMeasCollect := MEAS_INVALID_INDEX | MEAS_INTERNAL_ERROR.

(*@ spdmlib/src/error.rs 199-202 StatusCodeMeasCollect *)
Definition StatusCodeMeasCollect_as_u16 (c : StatusCodeMeasCollect) : Z :=
  match c with MEAS_INVALID_INDEX => 0 | MEAS_INTERNAL_ERROR => 1 end.

(*@ spdmlib/src/error.rs 204-214 StatusCodeMeasCollect::try_from *)
Definition StatusCodeMeasCollect_try_from (value : Z) : option StatusCodeMeasCollect :=
  match value with
  | 0 => Some MEAS_INVALID_INDEX
  | 1 => Some MEAS_INTERNAL_ERROR
  | _ => None
  end.

(*@ spdmlib/src/error.rs 226-228 StatusCodeRNG *)
Inductive StatusCodeRNG := LOW_ENTROPY.

(*@ spdmlib/src/error.rs 233-238 StatusCodeRNG::try_from *)
Definition StatusCodeRNG_try_from (value : Z) : option StatusCodeRNG :=
  match value with 0 => Some LOW_ENTROPY | _ => None end.

(*@ spdmlib/src/error.rs 250-258 StatusCode *)
Inductive StatusCode :=
| StatusCode_SUCCESS
| CORE (c : StatusCodeCore)
| CRYPTO (c : StatusCodeCrypto)
| CERT_PARSE (c : StatusCodeCertParse)
| TRANSPORT (t : StatusCodeTransport)
| MEAS_COLLECT (m : StatusCodeMeasCollect)
| RNG (r : StatusCodeRNG).

(*@ spdmlib/src/error.rs 266-285 StatusCode::try_from *)
Definition StatusCode_try_from (value : Z) : option StatusCode :=
  let source := as_u8 (Z.shiftr (Z.land value 0xFF0000) 16) in
  let code := as_u16 (Z.land value 0x00FFFF) in
  match source with
  | 0 => Some StatusCode_SUCCESS
  | 1 => CORE <$> StatusCodeCore_try_from code
  | 2 => CRYPTO <$> StatusCodeCrypto_try_from code
  | 3 => CERT_PARSE <$> StatusCodeCertParse_try_from code
  | 4 => TRANSPORT <$> StatusCodeTransport_try_from code
  | 5 => MEAS_COLLECT <$> StatusCodeMeasCollect_try_from code
  | 6 => RNG <$> StatusCodeRNG_try_from code
  | _ => None
  end.

(** The conversion itself never fails; [u24::new] would panic above 24 bits. *)
(*@ spdmlib/src/error.rs 287-301 StatusCode::try_into *)
Definition StatusCode_try_into {E} (c : StatusCode) : outcome E Z :=
  match c with
  | StatusCode_SUCCESS => u24_new 0
  | CORE c => u24_new (Z.shiftl 1 16 + StatusCodeCore_as_u16 c)
  | CRYPTO c => u24_new (Z.shiftl 2 16 + StatusCodeCrypto_as_u16 c)
  | CERT_PARSE INVALID_CERT => u24_new (Z.shiftl 3 16 + 0)
  | TRANSPORT t => u24_new (Z.shiftl 4 16 + StatusCodeTransport_as_u16 t)
  | MEAS_COLLECT m => u24_new (Z.shiftl 5 16 + StatusCodeMeasCollect_as_u16 m)
  | RNG LOW_ENTROPY => u24_new (Z.shiftl 6 16 + 0)
  end.

(*@ spdmlib/src/error.rs 304-307 SpdmStatus *)
Record SpdmStatus := { severity : StatusSeverity; status_code : StatusCode }.

#[global] Instance StatusSeverity_eq_dec : EqDecision StatusSeverity.
Proof. solve_decision. Defined.
#[global] Instance StatusCodeCore_eq_dec : EqDecision StatusCodeCore.
Proof. solve_decision. Defined.
#[global] Instance StatusCodeCrypto_eq_dec : EqDecision StatusCodeCrypto.
Proof. solve_decision. Defined.
#[global] Instance StatusCodeCertParse_eq_dec : EqDecision StatusCodeCertParse.
Proof. solve_decision. Defined.
#[global] Instance StatusCodeTransport_eq_dec : EqDecision StatusCodeTransport.
Proof. solve_decision. Defined.
#[global] Instance StatusCodeMeasCollect_eq_dec : EqDecision StatusCodeMeasCollect.
Proof. solve_decision. Defined.
#[global] Instance StatusCodeRNG_eq_dec : EqDecision StatusCodeRNG.
Proof. solve_decision. Defined.
#[global] Instance StatusCode_eq_dec : EqDecision StatusCode.
Proof. solve_decision. Defined.
#[global] Instance SpdmStatus_eq_dec : EqDecision SpdmStatus.
Proof. solve_decision. Defined.

(*@ spdmlib/src/error.rs 310-318 SpdmStatus::encode *)
Definition SpdmStatus_encode (s : SpdmStatus) : M Writer EncodeErr nat :=
  let sc := Z.shiftl (Z.land (StatusSeverity_as_u8 (severity s)) 0x0F) 28 in
  let* code := of_outcome (StatusCode_try_into (status_code s)) in
  encode u32_codec (sc + code);;
  ret 4%nat.

(*@ spdmlib/src/error.rs 320-334 SpdmStatus::read *)
Definition SpdmStatus_read : M Reader unit SpdmStatus :=
  let* sc := read u32_codec in
  let* severity :=
    ok_or tt (StatusSeverity_try_from (as_u8 (Z.shiftr (Z.land sc 0xF0000000) 28))) in
  if negb (Z.land sc 0x0F000000 =? 0) then throw tt else
  let* status_code := of_outcome (u24_new (Z.land sc 0x00FFFFFF)) in
  let* status_code := ok_or tt (StatusCode_try_from status_code) in
  ret {| severity := severity; status_code := status_code |}.

(*@ spdmlib/src/error.rs 309-335 SpdmStatus *)
Definition SpdmStatus_codec : Codec SpdmStatus :=
  {| encode := SpdmStatus_encode; read := SpdmStatus_read |}.

Definition SpdmStatus_get_u32 (s : SpdmStatus) : Z :=
  le_val (wr_buf (encode SpdmStatus_codec s (Writer_init (replicate 4 0))).2).

(*@ spdmlib/src/error.rs 346-348 SpdmStatus::from_u32 *)
Definition SpdmStatus_from_u32 (status : Z) : outcome unit SpdmStatus :=
  read_bytes SpdmStatus_codec (le_bytes 4 status).

(*@ spdmlib/src/error.rs 351-353 SpdmStatus::spdm_status_is_success *)
Definition spdm_status_is_success (s : SpdmStatus) : bool :=
  match severity s with Severity_SUCCESS => true | Severity_ERROR => false end.

(*@ spdmlib/src/error.rs 356-358 SpdmStatus::spdm_status_is_error *)
Definition spdm_status_is_error (s : SpdmStatus) : bool :=
  match severity s with Severity_SUCCESS => false | Severity_ERROR => true end.

(*@ spdmlib/src/error.rs 397-405 spdm_return_status *)
Definition spdm_return_status (s : StatusSeverity) (c : StatusCode) : SpdmStatus :=
  {| severity := s; status_code := c |}.

Definition SPDM_STATUS_SUCCESS : SpdmStatus := spdm_return_status Severity_SUCCESS StatusCode_SUCCESS.
Definition SPDM_STATUS_INVALID_PARAMETER : SpdmStatus := spdm_return_status Severity_ERROR (CORE INVALID_STATE_LOCAL).
Definition SPDM_STATUS_UNSUPPORTED_CAP : SpdmStatus := spdm_return_status Severity_ERROR (CORE UNSUPPORTED_CAP).
Definition SPDM_STATUS_INVALID_STATE_LOCAL : SpdmStatus := spdm_return_status Severity_ERROR (CORE INVALID_STATE_LOCAL).
Definition SPDM_STATUS_INVALID_STATE_PEER : SpdmStatus := spdm_return_status Severity_ERROR (CORE INVALID_STATE_PEER).
Definition SPDM_STATUS_INVALID_MSG_FIELD : SpdmStatus := spdm_return_status Severity_ERROR (CORE INVALID_MSG_FIELD).
Definition SPDM_STATUS_INVALID_MSG_SIZE : SpdmStatus := spdm_return_status Severity_ERROR (CORE INVALID_MSG_SIZE).
Definition SPDM_STATUS_NEGOTIATION_FAIL : SpdmStatus := spdm_return_status Severity_ERROR (CORE NEGOTIATION_FAIL).
Definition SPDM_STATUS_BUSY_PEER : SpdmStatus := spdm_return_status Severity_ERROR (CORE BUSY_PEER).
Definition SPDM_STATUS_NOT_READY_PEER : SpdmStatus := spdm_return_status Severity_ERROR (CORE NOT_READY_PEER).
Definition SPDM_STATUS_ERROR_PEER : SpdmStatus := spdm_return_status Severity_ERROR (CORE ERROR_PEER).
Definition SPDM_STATUS_RESYNCH_PEER : SpdmStatus := spdm_return_status Severity_ERROR (CORE RESYNCH_PEER).
Definition SPDM_STATUS_BUFFER_FULL : SpdmStatus := spdm_return_status Severity_ERROR (CORE BUFFER_FULL).
Definition SPDM_STATUS_BUFFER_TOO_SMALL : SpdmStatus := spdm_return_status Severity_ERROR (CORE BUFFER_TOO_SMALL).
Definition SPDM_STATUS_SESSION_NUMBER_EXCEED : SpdmStatus := spdm_return_status Severity_ERROR (CORE SESSION_NUMBER_EXCEED).
Definition SPDM_STATUS_SESSION_MSG_ERROR : SpdmStatus := spdm_return_status Severity_ERROR (CORE SESSION_MSG_ERROR).
Definition SPDM_STATUS_ACQUIRE_FAIL : SpdmStatus := spdm_return_status Severity_ERROR (CORE ACQUIRE_FAIL).
Definition SPDM_STATUS_SESSION_TRY_DISCARD_KEY_UPDATE : SpdmStatus := spdm_return_status Severity_ERROR (CORE SESSION_TRY_DISCARD_KEY_UPDATE).
Definition SPDM_STATUS_DECODE_AEAD_FAIL : SpdmStatus := spdm_return_status Severity_ERROR (CORE DECODE_AEAD_FAIL).
Definition SPDM_STATUS_CRYPTO_ERROR : SpdmStatus := spdm_return_status Severity_ERROR (CRYPTO CRYPTO_ERROR).
Definition SPDM_STATUS_VERIF_FAIL : SpdmStatus := spdm_return_status Severity_ERROR (CRYPTO VERIF_FAIL).
Definition SPDM_STATUS_SEQUENCE_NUMBER_OVERFLOW : SpdmStatus := spdm_return_status Severity_ERROR (CRYPTO SEQUENCE_NUMBER_OVERFLOW).
Definition SPDM_STATUS_VERIF_NO_AUTHORITY : SpdmStatus := spdm_return_status Severity_ERROR (CRYPTO VERIF_NO_AUTHORITY).
Definition SPDM_STATUS_INVALID_CERT : SpdmStatus := spdm_return_status Severity_ERROR (CERT_PARSE INVALID_CERT).
Definition SPDM_STATUS_SEND_FAIL : SpdmStatus := spdm_return_status Severity_ERROR (TRANSPORT SEND_FAIL).
Definition SPDM_STATUS_RECEIVE_FAIL : SpdmStatus := spdm_return_status Severity_ERROR (TRANSPORT RECEIVE_FAIL).
Definition SPDM_STATUS_DECAP_FAIL : SpdmStatus := spdm_return_status Severity_ERROR (TRANSPORT DECAP_FAIL).
Definition SPDM_STATUS_DECAP_APP_FAIL : SpdmStatus := spdm_return_status Severity_ERROR (TRANSPORT DECAP_APP_FAIL).
Definition SPDM_STATUS_ENCAP_FAIL : SpdmStatus := spdm_return_status Severity_ERROR (TRANSPORT ENCAP_FAIL).
Definition SPDM_STATUS_ENCAP_APP_FAIL : SpdmStatus := spdm_return_status Severity_ERROR (TRANSPORT ENCAP_APP_FAIL).
Definition SPDM_STATUS_MEAS_INVALID_INDEX : SpdmStatus := spdm_return_status Severity_ERROR (MEAS_COLLECT MEAS_INVALID_INDEX).
Definition SPDM_STATUS_MEAS_INTERNAL_ERROR : SpdmStatus := spdm_return_status Severity_ERROR (MEAS_COLLECT MEAS_INTERNAL_ERROR).
Definition SPDM_STATUS_LOW_ENTROPY : SpdmStatus := spdm_return_status Severity_ERROR (RNG LOW_ENTROPY).

(** All of them, in the order of the source. *)
(*@ spdmlib/src/error.rs 408-616 SPDM_STATUS_SUCCESS .. SPDM_STATUS_LOW_ENTROPY *)
Definition SPDM_STATUSES : list SpdmStatus :=
  [SPDM_STATUS_SUCCESS; SPDM_STATUS_INVALID_PARAMETER; SPDM_STATUS_UNSUPPORTED_CAP;
   SPDM_STATUS_INVALID_STATE_LOCAL; SPDM_STATUS_INVALID_STATE_PEER;
   SPDM_STATUS_INVALID_MSG_FIELD; SPDM_STATUS_INVALID_MSG_SIZE;
   SPDM_STATUS_NEGOTIATION_FAIL; SPDM_STATUS_BUSY_PEER; SPDM_STATUS_NOT_READY_PEER;
   SPDM_STATUS_ERROR_PEER; SPDM_STATUS_RESYNCH_PEER; SPDM_STATUS_BUFFER_FULL;
   SPDM_STATUS_BUFFER_TOO_SMALL; SPDM_STATUS_SESSION_NUMBER_EXCEED;
   SPDM_STATUS_SESSION_MSG_ERROR; SPDM_STATUS_ACQUIRE_FAIL;
   SPDM_STATUS_SESSION_TRY_DISCARD_KEY_UPDATE; SPDM_STATUS_DECODE_AEAD_FAIL;
   SPDM_STATUS_CRYPTO_ERROR; SPDM_STATUS_VERIF_FAIL; SPDM_STATUS_SEQUENCE_NUMBER_OVERFLOW;
   SPDM_STATUS_VERIF_NO_AUTHORITY; SPDM_STATUS_INVALID_CERT; SPDM_STATUS_SEND_FAIL;
   SPDM_STATUS_RECEIVE_FAIL; SPDM_STATUS_DECAP_FAIL; SPDM_STATUS_DECAP_APP_FAIL;
   SPDM_STATUS_ENCAP_FAIL; SPDM_STATUS_ENCAP_APP_FAIL; SPDM_STATUS_MEAS_INVALID_INDEX;
   SPDM_STATUS_MEAS_INTERNAL_ERROR; SPDM_STATUS_LOW_ENTROPY].

(** The [?] operator on a status: only [SPDM_STATUS_SUCCESS] itself continues. *)
(*@ spdmlib/src/error.rs 388-394 SpdmStatus::branch *)
Definition SpdmStatus_branch {S} (s : SpdmStatus) : M S SpdmStatus unit :=
  if decide (s = SPDM_STATUS_SUCCESS) then ret tt else throw s.

(** [SpdmResult<T>] computations on a state. *)
Abbreviation SpdmM S := (M S SpdmStatus).

(** ** The encoding *)

(** The 32-bit value of a status: severity in the top nibble, then a reserved zero
    nibble, the source of the code and the code. *)
Definition status_word (s : SpdmStatus) : Z :=
  StatusSeverity_as_u8 (severity s) * 2 ^ 28 +
  match status_code s with
  | StatusCode_SUCCESS => 0
  | CORE c => 2 ^ 16 + StatusCodeCore_as_u16 c
  | CRYPTO c => 2 * 2 ^ 16 + StatusCodeCrypto_as_u16 c
  | CERT_PARSE _ => 3 * 2 ^ 16
  | TRANSPORT t => 4 * 2 ^ 16 + StatusCodeTransport_as_u16 t
  | MEAS_COLLECT m => 5 * 2 ^ 16 + StatusCodeMeasCollect_as_u16 m
  | RNG _ => 6 * 2 ^ 16
  end.

Ltac destruct_status s :=
  destruct s as [[] [|[]|[]|[]|[]|[]|[]]].

Lemma status_word_u32 s : is_u32 (status_word s).
Proof. by destruct_status s. Qed.

Lemma SpdmStatus_encode_word s :
  SpdmStatus_encode s = (λ w, (encode u32_codec (status_word s);; ret 4%nat) w).
Proof. by destruct_status s. Qed.

(** What [read] does with the 32-bit word it has read. *)
Definition status_of_word (sc : Z) : M Reader unit SpdmStatus :=
  let* severity :=
    ok_or tt (StatusSeverity_try_from (as_u8 (Z.shiftr (Z.land sc 0xF0000000) 28))) in
  if negb (Z.land sc 0x0F000000 =? 0) then throw tt else
  let* status_code := of_outcome (u24_new (Z.land sc 0x00FFFFFF)) in
  let* status_code := ok_or tt (StatusCode_try_from status_code) in
  ret {| severity := severity; status_code := status_code |}.

Lemma status_of_word_word s r : status_of_word (status_word s) r = (Ok s, r).
Proof. by destruct_status s. Qed.

Lemma u24_new_land {E} x : 0 ≤ x → @u24_new E (Z.land x 0xFFFFFF) = Ok (Z.land x 0xFFFFFF).
Proof.
  intros Hx. unfold u24_new. rewrite decide_True; [done|].
  rewrite Z.shiftr_land. change (Z.shiftr 0xFFFFFF 24) with 0. apply Z.land_0_r.
Qed.

Lemma parser_ok_or {A} (o : option A) : parser (ok_or tt o) (λ _, True).
Proof. destruct o; [by apply parser_ret|apply parser_throw]. Qed.

#[global] Instance SpdmStatus_codec_ok :
  CodecOk SpdmStatus_codec (λ _, True) (λ s, le_bytes 4 (status_word s)).
Proof.
  constructor; cbn [encode read SpdmStatus_codec].
  - intros s _. rewrite SpdmStatus_encode_word. eapply writes_eq.
    + eapply writes_bind; [apply encode_ok, status_word_u32|apply writes_ret].
    + by rewrite app_nil_r.
    + done.
  - intros s _. rewrite <- (app_nil_r (le_bytes 4 _)).
    apply (reads_bind (read u32_codec) status_of_word _ _ (status_word s)).
    + apply read_ok, status_word_u32.
    + intros r tl _. by rewrite status_of_word_word, Reader_advance_0.
  - eapply parser_bind; [apply parse_ok|]. intros sc Hsc.
    eapply parser_bind; [apply parser_ok_or|]. intros sev _.
    apply parser_if; intros _; [apply parser_throw|].
    rewrite u24_new_land by apply Hsc.
    eapply (parser_bind (ret _)); [by apply (parser_ret (λ _, True))|]. intros c _.
    eapply parser_bind; [apply parser_ok_or|]. intros ? _. by apply parser_ret.
Qed.
