(* ===== verification/Algo.v ===== *)
(** Model of spdmlib/src/protocol/algo.rs: the algorithm sets that are negotiated, their
    sizes and priorities, and the fixed-capacity buffers of the protocol (digests, keys,
    secrets, signatures, certificate chains).

    A [bitflags!] type is a module of the same name over [Z], its flags abbreviations.
    A struct [{ data_size: u16, data: [u8; N] }] is a [sized] value; the capacity [N] is
    the length of [data]. *)

From S2P Require Import Prelude Config Codec.

(** ** Sizes *)

Abbreviation SHA256_DIGEST_SIZE := 32%nat (only parsing).
Abbreviation SHA384_DIGEST_SIZE := 48%nat (only parsing).
Abbreviation SHA512_DIGEST_SIZE := 64%nat (only parsing).
Abbreviation RSASSA_2048_KEY_SIZE := 256%nat (only parsing).
Abbreviation RSASSA_3072_KEY_SIZE := 384%nat (only parsing).
Abbreviation RSASSA_4096_KEY_SIZE := 512%nat (only parsing).
Abbreviation RSAPSS_2048_KEY_SIZE := 256%nat (only parsing).
Abbreviation RSAPSS_3072_KEY_SIZE := 384%nat (only parsing).
Abbreviation RSAPSS_4096_KEY_SIZE := 512%nat (only parsing).
Abbreviation ECDSA_ECC_NIST_P256_KEY_SIZE := (32 * 2)%nat (only parsing).
Abbreviation ECDSA_ECC_NIST_P384_KEY_SIZE := (48 * 2)%nat (only parsing).
Abbreviation SECP_256_R1_KEY_SIZE := (32 * 2)%nat (only parsing).
Abbreviation SECP_384_R1_KEY_SIZE := (48 * 2)%nat (only parsing).
Abbreviation AEAD_AES_128_GCM_KEY_SIZE := 16%nat (only parsing).
Abbreviation AEAD_AES_256_GCM_KEY_SIZE := 32%nat (only parsing).
Abbreviation AEAD_CHACHA20_POLY1305_KEY_SIZE := 32%nat (only parsing).
Abbreviation AEAD_AES_128_GCM_IV_SIZE := 12%nat (only parsing).
Abbreviation AEAD_AES_256_GCM_IV_SIZE := 12%nat (only parsing).
Abbreviation AEAD_CHACHA20_POLY1305_IV_SIZE := 12%nat (only parsing).
Abbreviation AEAD_AES_128_GCM_TAG_SIZE := 16%nat (only parsing).
Abbreviation AEAD_AES_256_GCM_TAG_SIZE := 16%nat (only parsing).
Abbreviation AEAD_CHACHA20_POLY1305_TAG_SIZE := 16%nat (only parsing).
Abbreviation SPDM_NONCE_SIZE := 32%nat (only parsing).
Abbreviation SPDM_RANDOM_SIZE := 32%nat (only parsing).
Abbreviation SPDM_MAX_HASH_SIZE := 64%nat (only parsing).
Abbreviation SPDM_MAX_ASYM_KEY_SIZE := 512%nat (only parsing).
Abbreviation SPDM_MAX_DHE_KEY_SIZE := 96%nat (only parsing).
Abbreviation SPDM_MAX_AEAD_KEY_SIZE := 32%nat (only parsing).
Abbreviation SPDM_MAX_AEAD_IV_SIZE := 12%nat (only parsing).
Abbreviation SPDM_MAX_HKDF_OKM_SIZE := 64%nat (only parsing).
Abbreviation SPDM_MAX_SLOT_NUMBER := 8%nat (only parsing).

(** ** Algorithm sets

    The methods every algorithm set repeats, over its priority table and its mask. *)

Definition flags_or (l : list Z) : Z := foldr Z.lor 0 l.

(** The loop [*self &= peer; for v in prio_table { if self & v != 0 { *self = v;
    return } } *self = empty()]. *)
Fixpoint first_selected (table : list Z) (self : Z) : Z :=
  match table with
  | [] => 0
  | v :: table => if negb (Z.land self v =? 0) then v else first_selected table self
  end.

Definition prioritize_with (table : list Z) (self peer : Z) : Z :=
  first_selected table (Z.land self peer).

Definition is_no_more_than_one_selected (self : Z) : bool :=
  (self =? 0) || (Z.land self (self - 1) =? 0).

Definition is_valid (mask self : Z) : bool := negb (Z.land self mask =? 0).

Module SpdmMeasurementSpecification.

Abbreviation DMTF := 1 (only parsing).

(*@ spdmlib/src/protocol/algo.rs 56-62 SpdmMeasurementSpecification *)
Definition VALID_MASK : Z :=
  flags_or [DMTF].

(*@ spdmlib/src/protocol/algo.rs 64-75 SpdmMeasurementSpecification as Codec *)
Definition codec : Codec Z := flags_codec u8_codec VALID_MASK.

(*@ spdmlib/src/protocol/algo.rs 77-88 SpdmMeasurementSpecification::prioritize *)
Definition prioritize (self peer : Z) : Z :=
  prioritize_with [DMTF] self peer.

(*@ spdmlib/src/protocol/algo.rs 92-102 SpdmMeasurementSpecification::is_valid_one_select *)
Definition is_valid_one_select (self : Z) : bool :=
  is_no_more_than_one_selected self && is_valid VALID_MASK self.

End SpdmMeasurementSpecification.

Module SpdmMeasurementHashAlgo.

Abbreviation RAW_BIT_STREAM := 1 (only parsing).
Abbreviation TPM_ALG_SHA_256 := 2 (only parsing).
Abbreviation TPM_ALG_SHA_384 := 4 (only parsing).
Abbreviation TPM_ALG_SHA_512 := 8 (only parsing).
Abbreviation TPM_ALG_SHA3_256 := 16 (only parsing).
Abbreviation TPM_ALG_SHA3_384 := 32 (only parsing).
Abbreviation TPM_ALG_SHA3_512 := 64 (only parsing).
Abbreviation TPM_ALG_SM3 := 128 (only parsing).

(*@ spdmlib/src/protocol/algo.rs 105-125 SpdmMeasurementHashAlgo *)
Definition VALID_MASK : Z :=
  flags_or [RAW_BIT_STREAM; TPM_ALG_SHA_256; TPM_ALG_SHA_384; TPM_ALG_SHA_512;
    TPM_ALG_SHA3_256; TPM_ALG_SHA3_256; TPM_ALG_SHA3_256; TPM_ALG_SM3].

(*@ spdmlib/src/protocol/algo.rs 158-168 SpdmMeasurementHashAlgo as Codec *)
Definition codec : Codec Z := flags_codec u32_codec VALID_MASK.

(*@ spdmlib/src/protocol/algo.rs 128-142 SpdmMeasurementHashAlgo::get_size *)
Definition get_size {E} (self : Z) : outcome E nat :=
  if self =? RAW_BIT_STREAM then Ok 0%nat else
  if self =? TPM_ALG_SHA_256 then Ok SHA256_DIGEST_SIZE%nat else
  if self =? TPM_ALG_SHA_384 then Ok SHA384_DIGEST_SIZE%nat else
  if self =? TPM_ALG_SHA_512 then Ok SHA512_DIGEST_SIZE%nat else
  if self =? TPM_ALG_SHA3_256 then Ok 32%nat else
  if self =? TPM_ALG_SHA3_384 then Ok 48%nat else
  if self =? TPM_ALG_SHA3_512 then Ok 64%nat else
  if self =? TPM_ALG_SM3 then Ok 32%nat else
  Panic.

(*@ spdmlib/src/protocol/algo.rs 146-156 SpdmMeasurementHashAlgo::is_valid_one_select *)
Definition is_valid_one_select (self : Z) : bool :=
  is_no_more_than_one_selected self && is_valid VALID_MASK self.

End SpdmMeasurementHashAlgo.

Module SpdmBaseAsymAlgo.

Abbreviation TPM_ALG_RSASSA_2048 := 1 (only parsing).
Abbreviation TPM_ALG_RSAPSS_2048 := 2 (only parsing).
Abbreviation TPM_ALG_RSASSA_3072 := 4 (only parsing).
Abbreviation TPM_ALG_RSAPSS_3072 := 8 (only parsing).
Abbreviation TPM_ALG_ECDSA_ECC_NIST_P256 := 16 (only parsing).
Abbreviation TPM_ALG_RSASSA_4096 := 32 (only parsing).
Abbreviation TPM_ALG_RSAPSS_4096 := 64 (only parsing).
Abbreviation TPM_ALG_ECDSA_ECC_NIST_P384 := 128 (only parsing).

(*@ spdmlib/src/protocol/algo.rs 170-190 SpdmBaseAsymAlgo *)
Definition VALID_MASK : Z :=
  flags_or [TPM_ALG_RSASSA_2048; TPM_ALG_RSAPSS_2048; TPM_ALG_RSASSA_3072;
    TPM_ALG_RSAPSS_3072; TPM_ALG_ECDSA_ECC_NIST_P256; TPM_ALG_RSASSA_4096;
    TPM_ALG_RSAPSS_4096; TPM_ALG_ECDSA_ECC_NIST_P384].

(*@ spdmlib/src/protocol/algo.rs 245-255 SpdmBaseAsymAlgo as Codec *)
Definition codec : Codec Z := flags_codec u32_codec VALID_MASK.

(*@ spdmlib/src/protocol/algo.rs 193-213 SpdmBaseAsymAlgo::prioritize *)
Definition prioritize (self peer : Z) : Z :=
  prioritize_with [TPM_ALG_ECDSA_ECC_NIST_P384; TPM_ALG_ECDSA_ECC_NIST_P256;
    TPM_ALG_RSAPSS_4096; TPM_ALG_RSAPSS_3072; TPM_ALG_RSAPSS_2048;
    TPM_ALG_RSASSA_4096; TPM_ALG_RSASSA_3072; TPM_ALG_RSASSA_2048] self peer.

(*@ spdmlib/src/protocol/algo.rs 214-228 SpdmBaseAsymAlgo::get_size *)
Definition get_size {E} (self : Z) : outcome E nat :=
  if self =? TPM_ALG_RSASSA_2048 then Ok RSASSA_2048_KEY_SIZE%nat else
  if self =? TPM_ALG_RSAPSS_2048 then Ok RSAPSS_2048_KEY_SIZE%nat else
  if self =? TPM_ALG_RSASSA_3072 then Ok RSASSA_3072_KEY_SIZE%nat else
  if self =? TPM_ALG_RSAPSS_3072 then Ok RSAPSS_3072_KEY_SIZE%nat else
  if self =? TPM_ALG_RSASSA_4096 then Ok RSASSA_4096_KEY_SIZE%nat else
  if self =? TPM_ALG_RSAPSS_4096 then Ok RSAPSS_4096_KEY_SIZE%nat else
  if self =? TPM_ALG_ECDSA_ECC_NIST_P256 then Ok ECDSA_ECC_NIST_P256_KEY_SIZE%nat else
  if self =? TPM_ALG_ECDSA_ECC_NIST_P384 then Ok ECDSA_ECC_NIST_P384_KEY_SIZE%nat else
  Panic.

(*@ spdmlib/src/protocol/algo.rs 232-242 SpdmBaseAsymAlgo::is_valid_one_select *)
Definition is_valid_one_select (self : Z) : bool :=
  is_no_more_than_one_selected self && is_valid VALID_MASK self.

End SpdmBaseAsymAlgo.

Module SpdmBaseHashAlgo.

Abbreviation TPM_ALG_SHA_256 := 1 (only parsing).
Abbreviation TPM_ALG_SHA_384 := 2 (only parsing).
Abbreviation TPM_ALG_SHA_512 := 4 (only parsing).

(*@ spdmlib/src/protocol/algo.rs 257-267 SpdmBaseHashAlgo *)
Definition VALID_MASK : Z :=
  flags_or [TPM_ALG_SHA_256; TPM_ALG_SHA_384; TPM_ALG_SHA_512].

(*@ spdmlib/src/protocol/algo.rs 312-322 SpdmBaseHashAlgo as Codec *)
Definition codec : Codec Z := flags_codec u32_codec VALID_MASK.

(*@ spdmlib/src/protocol/algo.rs 270-285 SpdmBaseHashAlgo::prioritize *)
Definition prioritize (self peer : Z) : Z :=
  prioritize_with [TPM_ALG_SHA_512; TPM_ALG_SHA_384; TPM_ALG_SHA_256] self peer.

(*@ spdmlib/src/protocol/algo.rs 286-295 SpdmBaseHashAlgo::get_size *)
Definition get_size {E} (self : Z) : outcome E nat :=
  if self =? TPM_ALG_SHA_256 then Ok SHA256_DIGEST_SIZE%nat else
  if self =? TPM_ALG_SHA_384 then Ok SHA384_DIGEST_SIZE%nat else
  if self =? TPM_ALG_SHA_512 then Ok SHA512_DIGEST_SIZE%nat else
  Panic.

(*@ spdmlib/src/protocol/algo.rs 299-309 SpdmBaseHashAlgo::is_valid_one_select *)
Definition is_valid_one_select (self : Z) : bool :=
  is_no_more_than_one_selected self && is_valid VALID_MASK self.

End SpdmBaseHashAlgo.

Module SpdmDheAlgo.

Abbreviation SECP_256_R1 := 8 (only parsing).
Abbreviation SECP_384_R1 := 16 (only parsing).

(*@ spdmlib/src/protocol/algo.rs 340-348 SpdmDheAlgo *)
Definition VALID_MASK : Z :=
  flags_or [SECP_256_R1; SECP_384_R1].

(*@ spdmlib/src/protocol/algo.rs 388-398 SpdmDheAlgo as Codec *)
Definition codec : Codec Z := flags_codec u16_codec VALID_MASK.

(*@ spdmlib/src/protocol/algo.rs 351-362 SpdmDheAlgo::prioritize *)
Definition prioritize (self peer : Z) : Z :=
  prioritize_with [SECP_384_R1; SECP_256_R1] self peer.

(*@ spdmlib/src/protocol/algo.rs 363-371 SpdmDheAlgo::get_size *)
Definition get_size {E} (self : Z) : outcome E nat :=
  if self =? SECP_256_R1 then Ok SECP_256_R1_KEY_SIZE%nat else
  if self =? SECP_384_R1 then Ok SECP_384_R1_KEY_SIZE%nat else
  Panic.

(*@ spdmlib/src/protocol/algo.rs 375-385 SpdmDheAlgo::is_valid_one_select *)
Definition is_valid_one_select (self : Z) : bool :=
  is_no_more_than_one_selected self && is_valid VALID_MASK self.

End SpdmDheAlgo.

Module SpdmAeadAlgo.

Abbreviation AES_128_GCM := 1 (only parsing).
Abbreviation AES_256_GCM := 2 (only parsing).
Abbreviation CHACHA20_POLY1305 := 4 (only parsing).

(*@ spdmlib/src/protocol/algo.rs 400-410 SpdmAeadAlgo *)
Definition VALID_MASK : Z :=
  flags_or [AES_128_GCM; AES_256_GCM; CHACHA20_POLY1305].

(*@ spdmlib/src/protocol/algo.rs 475-485 SpdmAeadAlgo as Codec *)
Definition codec : Codec Z := flags_codec u16_codec VALID_MASK.

(*@ spdmlib/src/protocol/algo.rs 413-428 SpdmAeadAlgo::prioritize *)
Definition prioritize (self peer : Z) : Z :=
  prioritize_with [AES_256_GCM; AES_128_GCM; CHACHA20_POLY1305] self peer.

(*@ spdmlib/src/protocol/algo.rs 429-438 SpdmAeadAlgo::get_key_size *)
Definition get_key_size {E} (self : Z) : outcome E nat :=
  if self =? AES_128_GCM then Ok AEAD_AES_128_GCM_KEY_SIZE%nat else
  if self =? AES_256_GCM then Ok AEAD_AES_256_GCM_KEY_SIZE%nat else
  if self =? CHACHA20_POLY1305 then Ok AEAD_CHACHA20_POLY1305_KEY_SIZE%nat else
  Panic.

(*@ spdmlib/src/protocol/algo.rs 439-448 SpdmAeadAlgo::get_iv_size *)
Definition get_iv_size {E} (self : Z) : outcome E nat :=
  if self =? AES_128_GCM then Ok AEAD_AES_128_GCM_IV_SIZE%nat else
  if self =? AES_256_GCM then Ok AEAD_AES_256_GCM_IV_SIZE%nat else
  if self =? CHACHA20_POLY1305 then Ok AEAD_CHACHA20_POLY1305_IV_SIZE%nat else
  Panic.

(*@ spdmlib/src/protocol/algo.rs 449-458 SpdmAeadAlgo::get_tag_size *)
Definition get_tag_size {E} (self : Z) : outcome E nat :=
  if self =? AES_128_GCM then Ok AEAD_AES_128_GCM_TAG_SIZE%nat else
  if self =? AES_256_GCM then Ok AEAD_AES_256_GCM_TAG_SIZE%nat else
  if self =? CHACHA20_POLY1305 then Ok AEAD_CHACHA20_POLY1305_TAG_SIZE%nat else
  Panic.

(*@ spdmlib/src/protocol/algo.rs 462-472 SpdmAeadAlgo::is_valid_one_select *)
Definition is_valid_one_select (self : Z) : bool :=
  is_no_more_than_one_selected self && is_valid VALID_MASK self.

End SpdmAeadAlgo.

Module SpdmReqAsymAlgo.

Abbreviation TPM_ALG_RSASSA_2048 := 1 (only parsing).
Abbreviation TPM_ALG_RSAPSS_2048 := 2 (only parsing).
Abbreviation TPM_ALG_RSASSA_3072 := 4 (only parsing).
Abbreviation TPM_ALG_RSAPSS_3072 := 8 (only parsing).
Abbreviation TPM_ALG_ECDSA_ECC_NIST_P256 := 16 (only parsing).
Abbreviation TPM_ALG_RSASSA_4096 := 32 (only parsing).
Abbreviation TPM_ALG_RSAPSS_4096 := 64 (only parsing).
Abbreviation TPM_ALG_ECDSA_ECC_NIST_P384 := 128 (only parsing).

(*@ spdmlib/src/protocol/algo.rs 487-507 SpdmReqAsymAlgo *)
Definition VALID_MASK : Z :=
  flags_or [TPM_ALG_RSASSA_2048; TPM_ALG_RSAPSS_2048; TPM_ALG_RSASSA_3072;
    TPM_ALG_RSAPSS_3072; TPM_ALG_ECDSA_ECC_NIST_P256; TPM_ALG_RSASSA_4096;
    TPM_ALG_RSAPSS_4096; TPM_ALG_ECDSA_ECC_NIST_P384].

(*@ spdmlib/src/protocol/algo.rs 562-572 SpdmReqAsymAlgo as Codec *)
Definition codec : Codec Z := flags_codec u16_codec VALID_MASK.

(*@ spdmlib/src/protocol/algo.rs 510-530 SpdmReqAsymAlgo::prioritize *)
Definition prioritize (self peer : Z) : Z :=
  prioritize_with [TPM_ALG_ECDSA_ECC_NIST_P384; TPM_ALG_ECDSA_ECC_NIST_P256;
    TPM_ALG_RSAPSS_4096; TPM_ALG_RSAPSS_3072; TPM_ALG_RSAPSS_2048;
    TPM_ALG_RSASSA_4096; TPM_ALG_RSASSA_3072; TPM_ALG_RSASSA_2048] self peer.

(*@ spdmlib/src/protocol/algo.rs 531-545 SpdmReqAsymAlgo::get_size *)
Definition get_size {E} (self : Z) : outcome E nat :=
  if self =? TPM_ALG_RSASSA_2048 then Ok RSASSA_2048_KEY_SIZE%nat else
  if self =? TPM_ALG_RSAPSS_2048 then Ok RSAPSS_2048_KEY_SIZE%nat else
  if self =? TPM_ALG_RSASSA_3072 then Ok RSASSA_3072_KEY_SIZE%nat else
  if self =? TPM_ALG_RSAPSS_3072 then Ok RSAPSS_3072_KEY_SIZE%nat else
  if self =? TPM_ALG_RSASSA_4096 then Ok RSASSA_4096_KEY_SIZE%nat else
  if self =? TPM_ALG_RSAPSS_4096 then Ok RSAPSS_4096_KEY_SIZE%nat else
  if self =? TPM_ALG_ECDSA_ECC_NIST_P256 then Ok ECDSA_ECC_NIST_P256_KEY_SIZE%nat else
  if self =? TPM_ALG_ECDSA_ECC_NIST_P384 then Ok ECDSA_ECC_NIST_P384_KEY_SIZE%nat else
  Panic.

(*@ spdmlib/src/protocol/algo.rs 549-559 SpdmReqAsymAlgo::is_valid_one_select *)
Definition is_valid_one_select (self : Z) : bool :=
  is_no_more_than_one_selected self && is_valid VALID_MASK self.

End SpdmReqAsymAlgo.

Module SpdmKeyScheduleAlgo.

Abbreviation SPDM_KEY_SCHEDULE := 1 (only parsing).

(*@ spdmlib/src/protocol/algo.rs 574-580 SpdmKeyScheduleAlgo *)
Definition VALID_MASK : Z :=
  flags_or [SPDM_KEY_SCHEDULE].

(*@ spdmlib/src/protocol/algo.rs 611-621 SpdmKeyScheduleAlgo as Codec *)
Definition codec : Codec Z := flags_codec u16_codec VALID_MASK.

(*@ spdmlib/src/protocol/algo.rs 583-594 SpdmKeyScheduleAlgo::prioritize *)
Definition prioritize (self peer : Z) : Z :=
  prioritize_with [SPDM_KEY_SCHEDULE] self peer.

(*@ spdmlib/src/protocol/algo.rs 598-608 SpdmKeyScheduleAlgo::is_valid_one_select *)
Definition is_valid_one_select (self : Z) : bool :=
  is_no_more_than_one_selected self && is_valid VALID_MASK self.

End SpdmKeyScheduleAlgo.

(** ** Enumerations of algo.rs *)

(*@ spdmlib/src/protocol/algo.rs 324-338 SpdmStandardId *)
Inductive SpdmStandardId :=
| SpdmStandardIdDMTF
| SpdmStandardIdTCG
| SpdmStandardIdUSB
| SpdmStandardIdPCISIG
| SpdmStandardIdIANA
| SpdmStandardIdHDBaseT
| SpdmStandardIdMIPI
| SpdmStandardIdCXL
| SpdmStandardIdJDEC
| SpdmStandardId_Unknown (x : Z).

Definition SpdmStandardId_get_u8 (v : SpdmStandardId) : Z :=
  match v with
  | SpdmStandardIdDMTF => 0x0
  | SpdmStandardIdTCG => 0x1
  | SpdmStandardIdUSB => 0x2
  | SpdmStandardIdPCISIG => 0x3
  | SpdmStandardIdIANA => 0x4
  | SpdmStandardIdHDBaseT => 0x5
  | SpdmStandardIdMIPI => 0x6
  | SpdmStandardIdCXL => 0x7
  | SpdmStandardIdJDEC => 0x8
  | SpdmStandardId_Unknown x => x
  end.

Definition SpdmStandardId_from_u8 (x : Z) : SpdmStandardId :=
  match x with
  | 0x0 => SpdmStandardIdDMTF
  | 0x1 => SpdmStandardIdTCG
  | 0x2 => SpdmStandardIdUSB
  | 0x3 => SpdmStandardIdPCISIG
  | 0x4 => SpdmStandardIdIANA
  | 0x5 => SpdmStandardIdHDBaseT
  | 0x6 => SpdmStandardIdMIPI
  | 0x7 => SpdmStandardIdCXL
  | 0x8 => SpdmStandardIdJDEC
  | x => SpdmStandardId_Unknown x
  end.

(*@ spdmlib/src/protocol/algo.rs 324-338 SpdmStandardId as Codec *)
Definition SpdmStandardId_codec : Codec SpdmStandardId :=
  enum_codec u8_codec SpdmStandardId_get_u8 SpdmStandardId_from_u8.

#[global] Instance SpdmStandardId_eq_dec : EqDecision SpdmStandardId.
Proof. solve_decision. Defined.

Abbreviation SpdmStandardId_wf := (enum_wf 8 SpdmStandardId_get_u8 SpdmStandardId_from_u8).

#[global] Instance SpdmStandardId_codec_ok :
  CodecOk SpdmStandardId_codec SpdmStandardId_wf (λ v, le_bytes 1 (SpdmStandardId_get_u8 v)).
Proof. apply enum_codec_ok; [apply _|]. solve_enum SpdmStandardId_from_u8. Qed.

(*@ spdmlib/src/protocol/algo.rs 635-644 SpdmAlgType *)
Inductive SpdmAlgType :=
| SpdmAlgTypeDHE
| SpdmAlgTypeAEAD
| SpdmAlgTypeReqAsym
| SpdmAlgTypeKeySchedule
| SpdmAlgType_Unknown (x : Z).

Definition SpdmAlgType_get_u8 (v : SpdmAlgType) : Z :=
  match v with
  | SpdmAlgTypeDHE => 0x2
  | SpdmAlgTypeAEAD => 0x3
  | SpdmAlgTypeReqAsym => 0x4
  | SpdmAlgTypeKeySchedule => 0x5
  | SpdmAlgType_Unknown x => x
  end.

Definition SpdmAlgType_from_u8 (x : Z) : SpdmAlgType :=
  match x with
  | 0x2 => SpdmAlgTypeDHE
  | 0x3 => SpdmAlgTypeAEAD
  | 0x4 => SpdmAlgTypeReqAsym
  | 0x5 => SpdmAlgTypeKeySchedule
  | x => SpdmAlgType_Unknown x
  end.

(*@ spdmlib/src/protocol/algo.rs 635-644 SpdmAlgType as Codec *)
Definition SpdmAlgType_codec : Codec SpdmAlgType :=
  enum_codec u8_codec SpdmAlgType_get_u8 SpdmAlgType_from_u8.

#[global] Instance SpdmAlgType_eq_dec : EqDecision SpdmAlgType.
Proof. solve_decision. Defined.

Abbreviation SpdmAlgType_wf := (enum_wf 8 SpdmAlgType_get_u8 SpdmAlgType_from_u8).

#[global] Instance SpdmAlgType_codec_ok :
  CodecOk SpdmAlgType_codec SpdmAlgType_wf (λ v, le_bytes 1 (SpdmAlgType_get_u8 v)).
Proof. apply enum_codec_ok; [apply _|]. solve_enum SpdmAlgType_from_u8. Qed.

(*@ spdmlib/src/protocol/algo.rs 736-744 SpdmMeasurementSummaryHashType *)
Inductive SpdmMeasurementSummaryHashType :=
| SpdmMeasurementSummaryHashTypeNone
| SpdmMeasurementSummaryHashTypeTcb
| SpdmMeasurementSummaryHashTypeAll
| SpdmMeasurementSummaryHashType_Unknown (x : Z).

Definition SpdmMeasurementSummaryHashType_get_u8 (v : SpdmMeasurementSummaryHashType) : Z :=
  match v with
  | SpdmMeasurementSummaryHashTypeNone => 0x0
  | SpdmMeasurementSummaryHashTypeTcb => 0x1
  | SpdmMeasurementSummaryHashTypeAll => 0xFF
  | SpdmMeasurementSummaryHashType_Unknown x => x
  end.

Definition SpdmMeasurementSummaryHashType_from_u8 (x : Z) : SpdmMeasurementSummaryHashType :=
  match x with
  | 0x0 => SpdmMeasurementSummaryHashTypeNone
  | 0x1 => SpdmMeasurementSummaryHashTypeTcb
  | 0xFF => SpdmMeasurementSummaryHashTypeAll
  | x => SpdmMeasurementSummaryHashType_Unknown x
  end.

(*@ spdmlib/src/protocol/algo.rs 736-744 SpdmMeasurementSummaryHashType as Codec *)
Definition SpdmMeasurementSummaryHashType_codec : Codec SpdmMeasurementSummaryHashType :=
  enum_codec u8_codec SpdmMeasurementSummaryHashType_get_u8 SpdmMeasurementSummaryHashType_from_u8.

#[global] Instance SpdmMeasurementSummaryHashType_eq_dec : EqDecision SpdmMeasurementSummaryHashType.
Proof. solve_decision. Defined.

Abbreviation SpdmMeasurementSummaryHashType_wf := (enum_wf 8 SpdmMeasurementSummaryHashType_get_u8 SpdmMeasurementSummaryHashType_from_u8).

#[global] Instance SpdmMeasurementSummaryHashType_codec_ok :
  CodecOk SpdmMeasurementSummaryHashType_codec SpdmMeasurementSummaryHashType_wf (λ v, le_bytes 1 (SpdmMeasurementSummaryHashType_get_u8 v)).
Proof. apply enum_codec_ok; [apply _|]. solve_enum SpdmMeasurementSummaryHashType_from_u8. Qed.

(*@ spdmlib/src/protocol/algo.rs 903-916 SpdmDmtfMeasurementType *)
Inductive SpdmDmtfMeasurementType :=
| SpdmDmtfMeasurementRom
| SpdmDmtfMeasurementFirmware
| SpdmDmtfMeasurementHardwareConfig
| SpdmDmtfMeasurementFirmwareConfig
| SpdmDmtfMeasurementManifest
| SpdmDmtfMeasurementStructuredRepresentationMode
| SpdmDmtfMeasurementMutableFirmwareVersionNumber
| SpdmDmtfMeasurementMutableFirmwareSecurityVersionNumber
| SpdmDmtfMeasurementType_Unknown (x : Z).

Definition SpdmDmtfMeasurementType_get_u8 (v : SpdmDmtfMeasurementType) : Z :=
  match v with
  | SpdmDmtfMeasurementRom => 0x0
  | SpdmDmtfMeasurementFirmware => 0x1
  | SpdmDmtfMeasurementHardwareConfig => 0x2
  | SpdmDmtfMeasurementFirmwareConfig => 0x3
  | SpdmDmtfMeasurementManifest => 0x4
  | SpdmDmtfMeasurementStructuredRepresentationMode => 0x5
  | SpdmDmtfMeasurementMutableFirmwareVersionNumber => 0x6
  | SpdmDmtfMeasurementMutableFirmwareSecurityVersionNumber => 0x7
  | SpdmDmtfMeasurementType_Unknown x => x
  end.

Definition SpdmDmtfMeasurementType_from_u8 (x : Z) : SpdmDmtfMeasurementType :=
  match x with
  | 0x0 => SpdmDmtfMeasurementRom
  | 0x1 => SpdmDmtfMeasurementFirmware
  | 0x2 => SpdmDmtfMeasurementHardwareConfig
  | 0x3 => SpdmDmtfMeasurementFirmwareConfig
  | 0x4 => SpdmDmtfMeasurementManifest
  | 0x5 => SpdmDmtfMeasurementStructuredRepresentationMode
  | 0x6 => SpdmDmtfMeasurementMutableFirmwareVersionNumber
  | 0x7 => SpdmDmtfMeasurementMutableFirmwareSecurityVersionNumber
  | x => SpdmDmtfMeasurementType_Unknown x
  end.

(*@ spdmlib/src/protocol/algo.rs 903-916 SpdmDmtfMeasurementType as Codec *)
Definition SpdmDmtfMeasurementType_codec : Codec SpdmDmtfMeasurementType :=
  enum_codec u8_codec SpdmDmtfMeasurementType_get_u8 SpdmDmtfMeasurementType_from_u8.

#[global] Instance SpdmDmtfMeasurementType_eq_dec : EqDecision SpdmDmtfMeasurementType.
Proof. solve_decision. Defined.

Abbreviation SpdmDmtfMeasurementType_wf := (enum_wf 8 SpdmDmtfMeasurementType_get_u8 SpdmDmtfMeasurementType_from_u8).

#[global] Instance SpdmDmtfMeasurementType_codec_ok :
  CodecOk SpdmDmtfMeasurementType_codec SpdmDmtfMeasurementType_wf (λ v, le_bytes 1 (SpdmDmtfMeasurementType_get_u8 v)).
Proof. apply enum_codec_ok; [apply _|]. solve_enum SpdmDmtfMeasurementType_from_u8. Qed.

(*@ spdmlib/src/protocol/algo.rs 918-925 SpdmDmtfMeasurementRepresentation *)
Inductive SpdmDmtfMeasurementRepresentation :=
| SpdmDmtfMeasurementDigest
| SpdmDmtfMeasurementRawBit
| SpdmDmtfMeasurementRepresentation_Unknown (x : Z).

Definition SpdmDmtfMeasurementRepresentation_get_u8 (v : SpdmDmtfMeasurementRepresentation) : Z :=
  match v with
  | SpdmDmtfMeasurementDigest => 0x0
  | SpdmDmtfMeasurementRawBit => 0x80
  | SpdmDmtfMeasurementRepresentation_Unknown x => x
  end.

Definition SpdmDmtfMeasurementRepresentation_from_u8 (x : Z) : SpdmDmtfMeasurementRepresentation :=
  match x with
  | 0x0 => SpdmDmtfMeasurementDigest
  | 0x80 => SpdmDmtfMeasurementRawBit
  | x => SpdmDmtfMeasurementRepresentation_Unknown x
  end.

(*@ spdmlib/src/protocol/algo.rs 918-925 SpdmDmtfMeasurementRepresentation as Codec *)
Definition SpdmDmtfMeasurementRepresentation_codec : Codec SpdmDmtfMeasurementRepresentation :=
  enum_codec u8_codec SpdmDmtfMeasurementRepresentation_get_u8 SpdmDmtfMeasurementRepresentation_from_u8.

#[global] Instance SpdmDmtfMeasurementRepresentation_eq_dec : EqDecision SpdmDmtfMeasurementRepresentation.
Proof. solve_decision. Defined.

Abbreviation SpdmDmtfMeasurementRepresentation_wf := (enum_wf 8 SpdmDmtfMeasurementRepresentation_get_u8 SpdmDmtfMeasurementRepresentation_from_u8).

#[global] Instance SpdmDmtfMeasurementRepresentation_codec_ok :
  CodecOk SpdmDmtfMeasurementRepresentation_codec SpdmDmtfMeasurementRepresentation_wf (λ v, le_bytes 1 (SpdmDmtfMeasurementRepresentation_get_u8 v)).
Proof. apply enum_codec_ok; [apply _|]. solve_enum SpdmDmtfMeasurementRepresentation_from_u8. Qed.

(** ** Algorithm request structures *)

(*@ spdmlib/src/protocol/algo.rs 652-659 SpdmAlg *)
Inductive SpdmAlg :=
| SpdmAlgoDhe (a : Z)
| SpdmAlgoAead (a : Z)
| SpdmAlgoReqAsym (a : Z)
| SpdmAlgoKeySchedule (a : Z)
| SpdmAlgoUnknown.

(*@ spdmlib/src/protocol/algo.rs 667-670 SpdmAlgStruct *)
Record SpdmAlgStruct := { alg_type : SpdmAlgType; alg_supported : SpdmAlg }.

(** [SpdmUnknownAlgo] is written as no bytes. *)
(*@ spdmlib/src/protocol/algo.rs 673-699 SpdmAlgStruct::encode *)
Definition SpdmAlgStruct_encode (v : SpdmAlgStruct) : M Writer EncodeErr nat :=
  let alg_fixed_count := 2 in
  let* n1 := encode SpdmAlgType_codec (alg_type v) in
  let alg_count := as_u8 (Z.shiftl alg_fixed_count 4) in
  let* n2 := encode u8_codec alg_count in
  let* n3 :=
    match alg_supported v with
    | SpdmAlgoDhe a => encode SpdmDheAlgo.codec a
    | SpdmAlgoAead a => encode SpdmAeadAlgo.codec a
    | SpdmAlgoReqAsym a => encode SpdmReqAsymAlgo.codec a
    | SpdmAlgoKeySchedule a => encode SpdmKeyScheduleAlgo.codec a
    | SpdmAlgoUnknown => ret 0%nat
    end in
  ret (n1 + n2 + n3)%nat.

(*@ spdmlib/src/protocol/algo.rs 701-731 SpdmAlgStruct::read *)
Definition SpdmAlgStruct_read : M Reader unit SpdmAlgStruct :=
  let* alg_type := read SpdmAlgType_codec in
  let* alg_count := read u8_codec in
  let alg_fixed_count := Z.land (Z.shiftr alg_count 4) 0xF in
  let alg_ext_count := Z.land alg_count 0xF in
  if negb (alg_fixed_count =? 2) then throw tt else
  if negb (alg_ext_count =? 0) then throw tt else
  let* alg_supported :=
    match alg_type with
    | SpdmAlgTypeDHE => let* a := read SpdmDheAlgo.codec in ret (SpdmAlgoDhe a)
    | SpdmAlgTypeAEAD => let* a := read SpdmAeadAlgo.codec in ret (SpdmAlgoAead a)
    | SpdmAlgTypeReqAsym =>
        let* a := read SpdmReqAsymAlgo.codec in ret (SpdmAlgoReqAsym a)
    | SpdmAlgTypeKeySchedule =>
        let* a := read SpdmKeyScheduleAlgo.codec in ret (SpdmAlgoKeySchedule a)
    | _ => throw tt
    end in
  ret {| alg_type := alg_type; alg_supported := alg_supported |}.

(*@ spdmlib/src/protocol/algo.rs 672-732 SpdmAlgStruct as Codec *)
Definition SpdmAlgStruct_codec : Codec SpdmAlgStruct :=
  {| encode := SpdmAlgStruct_encode; read := SpdmAlgStruct_read |}.

(** ** Buffers of fixed capacity *)

(*@ spdmlib/src/protocol/algo.rs 1126-1132 create_sensitive_datatype *)
Record sized := { data_size : nat; data : bytes }.

#[global] Instance sized_eq_dec : EqDecision sized.
Proof. solve_decision. Defined.

(*@ spdmlib/src/protocol/algo.rs 1134-1141 create_sensitive_datatype *)
Definition sized_default (max : nat) : sized := {| data_size := 0; data := replicate max 0 |}.

(*@ spdmlib/src/protocol/algo.rs 1143-1147 create_sensitive_datatype *)
Definition sized_as_ref {S E} (s : sized) : M S E bytes :=
  if decide (data_size s ≤ length (data s))%nat
  then ret (take (data_size s) (data s)) else panic.

(*@ spdmlib/src/protocol/algo.rs 1159-1167 create_sensitive_datatype *)
Definition sized_from {S E} (max : nat) (value : bytes) : M S E sized :=
  if decide (length value ≤ max)%nat
  then ret {| data_size := length value;
              data := value ++ replicate (max - length value) 0 |}
  else panic.

(** The conversions of a key-derivation output into each kind of secret differ in
    their capacity only. *)
(*@ spdmlib/src/protocol/algo.rs 1366-1377 from_spdm_hkdf_okm *)
Definition from_spdm_hkdf (max : nat) (okm : sized) : option sized :=
  if decide (data_size okm = 0 ∨ max < data_size okm)%nat then None
  else Some {| data_size := data_size okm;
               data := take (data_size okm) (data okm)
                       ++ replicate (max - data_size okm) 0 |}.

Abbreviation SpdmDigestStruct := sized (only parsing).
Abbreviation SpdmSignatureStruct := sized (only parsing).
Abbreviation SpdmDheExchangeStruct := sized (only parsing).
Abbreviation SpdmDheFinalKeyStruct := sized (only parsing).
Abbreviation SpdmHandshakeSecretStruct := sized (only parsing).
Abbreviation SpdmDirectionHandshakeSecretStruct := sized (only parsing).
Abbreviation SpdmFinishedKeyStruct := sized (only parsing).
Abbreviation SpdmMasterSecretStruct := sized (only parsing).
Abbreviation SpdmDirectionDataSecretStruct := sized (only parsing).
Abbreviation SpdmAeadKeyStruct := sized (only parsing).
Abbreviation SpdmAeadIvStruct := sized (only parsing).
Abbreviation SpdmExportMasterSecretStruct := sized (only parsing).
Abbreviation SpdmHkdfPseudoRandomKey := sized (only parsing).
Abbreviation SpdmHkdfOutputKeyingMaterial := sized (only parsing).
Abbreviation SpdmPskContextStruct := sized (only parsing).
Abbreviation SpdmPskHintStruct := sized (only parsing).
Abbreviation SpdmCertChainData := sized (only parsing).
Abbreviation SpdmCertChainBuffer := sized (only parsing).

(*@ spdmlib/src/protocol/algo.rs 1243-1270 SpdmHandshakeSecretStruct::from_spdm_hkdf_okm *)
Definition SpdmHandshakeSecretStruct_from_spdm_hkdf := from_spdm_hkdf SPDM_MAX_HASH_SIZE.
(*@ spdmlib/src/protocol/algo.rs 1272-1303 SpdmDirectionHandshakeSecretStruct::from_spdm_hkdf_okm *)
Definition SpdmDirectionHandshakeSecretStruct_from_spdm_hkdf := from_spdm_hkdf SPDM_MAX_HASH_SIZE.
(*@ spdmlib/src/protocol/algo.rs 1305-1330 SpdmMasterSecretStruct::from_spdm_hkdf_okm *)
Definition SpdmMasterSecretStruct_from_spdm_hkdf := from_spdm_hkdf SPDM_MAX_HASH_SIZE.
(*@ spdmlib/src/protocol/algo.rs 1332-1363 SpdmDirectionDataSecretStruct::from_spdm_hkdf_okm *)
Definition SpdmDirectionDataSecretStruct_from_spdm_hkdf := from_spdm_hkdf SPDM_MAX_HASH_SIZE.
(*@ spdmlib/src/protocol/algo.rs 1365-1390 SpdmAeadKeyStruct::from_spdm_hkdf_okm *)
Definition SpdmAeadKeyStruct_from_spdm_hkdf := from_spdm_hkdf SPDM_MAX_AEAD_KEY_SIZE.
(*@ spdmlib/src/protocol/algo.rs 1392-1417 SpdmAeadIvStruct::from_spdm_hkdf_okm *)
Definition SpdmAeadIvStruct_from_spdm_hkdf := from_spdm_hkdf SPDM_MAX_AEAD_IV_SIZE.
(*@ spdmlib/src/protocol/algo.rs 1419-1444 SpdmFinishedKeyStruct::from_spdm_hkdf_okm *)
Definition SpdmFinishedKeyStruct_from_spdm_hkdf := from_spdm_hkdf SPDM_MAX_HASH_SIZE.
(*@ spdmlib/src/protocol/algo.rs 1446-1475 SpdmExportMasterSecretStruct::from_spdm_hkdf_okm *)
Definition SpdmExportMasterSecretStruct_from_spdm_hkdf := from_spdm_hkdf SPDM_MAX_HASH_SIZE.

(** Every kind of input keying material is a [sized] value, so the two matches of the
    source on its kind are the projections. *)
(*@ spdmlib/src/protocol/algo.rs 1477-1517 SpdmHkdfPseudoRandomKey::from_input_keying_material *)
Definition SpdmHkdfPseudoRandomKey_from_input_keying_material (ikm : sized) : option sized :=
  from_spdm_hkdf SPDM_MAX_HASH_SIZE ikm.

(** ** Nonces and random data *)

Definition array_codec (n : nat) : Codec bytes := {|
  encode data := encode_bytes data;; ret n;
  read := read_array n n;
|}.

(*@ spdmlib/src/protocol/algo.rs 756-770 SpdmNonceStruct as Codec *)
Definition SpdmNonceStruct_codec : Codec bytes := array_codec SPDM_NONCE_SIZE.

(*@ spdmlib/src/protocol/algo.rs 777-791 SpdmRandomStruct as Codec *)
Definition SpdmRandomStruct_codec : Codec bytes := array_codec SPDM_RANDOM_SIZE.

(** ** Certificate chains *)

Section CertChain.
Context `{cfg : Config}.

Definition MAX_CERT_CHAIN_BUFFER : nat := 4 + SPDM_MAX_HASH_SIZE + MAX_SPDM_CERT_CHAIN_DATA_SIZE.

(** The arguments are checked against the width of the length field only: a chain that
    does not fit the buffer is a panic of a slice copy. *)
(*@ spdmlib/src/protocol/algo.rs 868-900 SpdmCertChainBuffer::new *)
Definition SpdmCertChainBuffer_new {S} (cert_chain root_cert_hash : bytes)
    : M S unit SpdmCertChainBuffer :=
  if Z.of_nat (length cert_chain + 4 + length root_cert_hash) >? 65535 then throw tt else
  let total_len := Z.of_nat (length cert_chain + length root_cert_hash + 4) in
  let buff := replicate MAX_CERT_CHAIN_BUFFER 0 in
  let* buff := slice_copy buff 0 (le_bytes 2 total_len) in
  let* buff := slice_copy buff 2 [0; 0] in
  let* buff := slice_copy buff 4 root_cert_hash in
  let pos := (4 + length root_cert_hash)%nat in
  let* buff := slice_copy buff pos cert_chain in
  ret {| data_size := pos + length cert_chain; data := buff |}.

(** ** Measurements *)

(*@ spdmlib/src/protocol/algo.rs 928-933 SpdmDmtfMeasurementStructure *)
Record SpdmDmtfMeasurementStructure := {
  dmtf_type : SpdmDmtfMeasurementType;
  representation : SpdmDmtfMeasurementRepresentation;
  value_size : nat;
  value : bytes;
}.

(*@ spdmlib/src/protocol/algo.rs 945-959 SpdmDmtfMeasurementStructure::encode *)
Definition SpdmDmtfMeasurementStructure_encode (v : SpdmDmtfMeasurementStructure)
    : M Writer EncodeErr nat :=
  let type_value := SpdmDmtfMeasurementType_get_u8 (dmtf_type v) in
  let representation_value :=
    SpdmDmtfMeasurementRepresentation_get_u8 (representation v) in
  let* final_value := add_u8 type_value representation_value in
  let* n1 := encode u8_codec final_value in
  let* n2 := encode u16_codec (Z.of_nat (value_size v)) in
  let* n3 := encode_bytes (take (value_size v) (value v)) in
  ret (n1 + n2 + n3)%nat.

(** A raw-only type with the digest representation reads back as unknown. *)
(*@ spdmlib/src/protocol/algo.rs 960-994 SpdmDmtfMeasurementStructure::read *)
Definition dmtf_type_of (type_value : Z) (representation : SpdmDmtfMeasurementRepresentation)
    : SpdmDmtfMeasurementType :=
  match type_value with
  | 0 => SpdmDmtfMeasurementRom
  | 1 => SpdmDmtfMeasurementFirmware
  | 2 => SpdmDmtfMeasurementHardwareConfig
  | 3 => SpdmDmtfMeasurementFirmwareConfig
  | 4 => SpdmDmtfMeasurementManifest
  | 5 => match representation with
         | SpdmDmtfMeasurementRawBit => SpdmDmtfMeasurementStructuredRepresentationMode
         | _ => SpdmDmtfMeasurementType_Unknown 5
         end
  | 6 => match representation with
         | SpdmDmtfMeasurementRawBit => SpdmDmtfMeasurementMutableFirmwareVersionNumber
         | _ => SpdmDmtfMeasurementType_Unknown 6
         end
  | 7 => match representation with
         | SpdmDmtfMeasurementRawBit =>
             SpdmDmtfMeasurementMutableFirmwareSecurityVersionNumber
         | _ => SpdmDmtfMeasurementType_Unknown 7
         end
  | val => SpdmDmtfMeasurementType_Unknown val
  end.

(*@ spdmlib/src/protocol/algo.rs 960-1009 SpdmDmtfMeasurementStructure::read *)
Definition SpdmDmtfMeasurementStructure_read : M Reader unit SpdmDmtfMeasurementStructure :=
  let* final_value := read u8_codec in
  let type_value := Z.land final_value 0x7f in
  let representation_value := Z.land final_value 0x80 in
  let representation :=
    match representation_value with
    | 0 => SpdmDmtfMeasurementDigest
    | 0x80 => SpdmDmtfMeasurementRawBit
    | val => SpdmDmtfMeasurementRepresentation_Unknown val
    end in
  let type := dmtf_type_of type_value representation in
  let* value_size := read u16_codec in
  let* value := read_array (Z.to_nat value_size) MAX_SPDM_MEASUREMENT_VALUE_LEN in
  ret {| dmtf_type := type; representation := representation;
         value_size := Z.to_nat value_size; value := value |}.

(*@ spdmlib/src/protocol/algo.rs 944-1010 SpdmDmtfMeasurementStructure as Codec *)
Definition SpdmDmtfMeasurementStructure_codec : Codec SpdmDmtfMeasurementStructure :=
  {| encode := SpdmDmtfMeasurementStructure_encode;
     read := SpdmDmtfMeasurementStructure_read |}.

(*@ spdmlib/src/protocol/algo.rs 1013-1018 SpdmMeasurementBlockStructure *)
Record SpdmMeasurementBlockStructure := {
  mb_index : Z;
  measurement_specification : Z;
  measurement_size : Z;
  measurement : SpdmDmtfMeasurementStructure;
}.

(*@ spdmlib/src/protocol/algo.rs 1020-1027 SpdmMeasurementBlockStructure::encode *)
Definition SpdmMeasurementBlockStructure_encode (v : SpdmMeasurementBlockStructure)
    : M Writer EncodeErr nat :=
  let* n1 := encode u8_codec (mb_index v) in
  let* n2 := encode SpdmMeasurementSpecification.codec (measurement_specification v) in
  let* n3 := encode u16_codec (measurement_size v) in
  let* n4 := encode SpdmDmtfMeasurementStructure_codec (measurement v) in
  ret (n1 + n2 + n3 + n4)%nat.

(*@ spdmlib/src/protocol/algo.rs 1028-1039 SpdmMeasurementBlockStructure::read *)
Definition SpdmMeasurementBlockStructure_read : M Reader unit SpdmMeasurementBlockStructure :=
  let* index := read u8_codec in
  let* spec := read SpdmMeasurementSpecification.codec in
  let* size := read u16_codec in
  let* measurement := read SpdmDmtfMeasurementStructure_codec in
  ret {| mb_index := index; measurement_specification := spec;
         measurement_size := size; measurement := measurement |}.

(*@ spdmlib/src/protocol/algo.rs 1019-1040 SpdmMeasurementBlockStructure as Codec *)
Definition SpdmMeasurementBlockStructure_codec : Codec SpdmMeasurementBlockStructure :=
  {| encode := SpdmMeasurementBlockStructure_encode;
     read := SpdmMeasurementBlockStructure_read |}.

(*@ spdmlib/src/protocol/algo.rs 1043-1047 SpdmMeasurementRecordStructure *)
Record SpdmMeasurementRecordStructure := {
  number_of_blocks : Z;
  measurement_record_length : nat;
  measurement_record_data : bytes;
}.

(*@ spdmlib/src/protocol/algo.rs 1048-1056 SpdmMeasurementRecordStructure::default *)
Definition SpdmMeasurementRecordStructure_default : SpdmMeasurementRecordStructure := {|
  number_of_blocks := 0;
  measurement_record_length := 0;
  measurement_record_data := replicate MAX_SPDM_MEASUREMENT_RECORD_SIZE 0;
|}.

End CertChain.

(** ** Negotiation *)

Lemma first_selected_spec table self :
  let r := first_selected table self in
  (r = 0 ∧ Forall (λ v, Z.land self v = 0) table) ∨
  ∃ higher lower, table = higher ++ r :: lower ∧
    Z.land self r ≠ 0 ∧ Forall (λ v, Z.land self v = 0) higher.
Proof.
  induction table as [|v table IH]; simpl; [by left|].
  destruct (Z.eqb_spec (Z.land self v) 0) as [Hz|Hnz]; simpl.
  - destruct IH as [[-> Hall]|(hi&lo&Ht&Hsel&Hhi)]; [left; auto|].
    right. exists (v :: hi), lo. rewrite Ht at 1. auto.
  - right. exists [], table. auto.
Qed.

(** Both ends compute the same selection from the same two sets. *)
Lemma prioritize_with_comm table a b : prioritize_with table a b = prioritize_with table b a.
Proof. unfold prioritize_with. by rewrite Z.land_comm. Qed.

Lemma land_pow2 x k : 0 ≤ k → Z.land x (2 ^ k) = if Z.testbit x k then 2 ^ k else 0.
Proof.
  intros Hk. apply Z.bits_inj'. intros i Hi. rewrite Z.land_spec, Z.pow2_bits_eqb by lia.
  destruct (Z.eqb_spec k i) as [<-|Hne].
  - destruct (Z.testbit x k); simpl; [by rewrite Z.pow2_bits_true by lia|by rewrite Z.bits_0].
  - rewrite andb_false_r.
    destruct (Z.testbit x k); [by rewrite Z.pow2_bits_false by lia|by rewrite Z.bits_0].
Qed.

(** The bit trick of [is_no_more_than_one_selected] is right: at most one bit is set. *)
Lemma is_no_more_than_one_selected_spec x :
  0 ≤ x →
  is_no_more_than_one_selected x = true ↔ x = 0 ∨ ∃ k, 0 ≤ k ∧ x = 2 ^ k.
Proof.
  intros Hx. unfold is_no_more_than_one_selected.
  rewrite orb_true_iff, !Z.eqb_eq. split.
  - intros [->|Hl]; [by left|]. destruct (Z.eq_dec x 0) as [|Hnz]; [by left|]. right.
    exists (Z.log2 x). split; [apply Z.log2_nonneg|].
    pose proof (Z.log2_spec x ltac:(lia)) as [Hlo Hhi].
    pose proof (Z.log2_nonneg x) as Hk.
    destruct (Z.eq_dec x (2 ^ Z.log2 x)) as [|Hne]; [done|].
    exfalso. assert (Z.testbit (Z.land x (x - 1)) (Z.log2 x) = true) as Hb.
    { rewrite Z.land_spec, Z.bit_log2 by lia. simpl.
      replace (Z.log2 x) with (Z.log2 (x - 1)); [apply Z.bit_log2; lia|].
      apply Z.log2_unique; [lia|]. rewrite <- Z.add_1_r in *. lia. }
    by rewrite Hl, Z.bits_0 in Hb.
  - intros [->|(k&Hk&->)]; [by left|right].
    apply Z.bits_inj'. intros i Hi. rewrite Z.land_spec, Z.bits_0, Z.pow2_bits_eqb by lia.
    destruct (Z.eqb_spec k i) as [<-|]; [|done]. simpl.
    replace (2 ^ k - 1) with (Z.ones k) by (rewrite Z.ones_equiv; lia).
    by rewrite Z.ones_spec_high by lia.
Qed.

(** What a selection from the sets [a] and [b] must be: nothing when they share no
    algorithm of the mask, otherwise exactly one algorithm that both contain, and the
    first such one in the order of preference. *)
Definition negotiated (table : list Z) (mask a b r : Z) : Prop :=
  (r = 0 ∧ Z.land (Z.land a b) mask = 0) ∨
  (contains a r = true ∧ contains b r = true ∧
   is_no_more_than_one_selected r = true ∧ is_valid mask r = true ∧
   ∃ higher lower, table = higher ++ r :: lower ∧
     Forall (λ v, contains a v && contains b v = false) higher).

(** A priority table: single flags, which together make up the mask. *)
Definition prio_table_ok (mask : Z) (table : list Z) : bool :=
  forallb (λ v, bool_decide (0 < v) && is_no_more_than_one_selected v) table
  && (flags_or table =? mask).

Lemma land_flags_or x table :
  Forall (λ v, Z.land x v = 0) table → Z.land x (flags_or table) = 0.
Proof.
  induction 1 as [|v table Hv _ IH]; simpl; [apply Z.land_0_r|].
  by rewrite Z.land_lor_distr_r, Hv, IH.
Qed.

Lemma land_flags_or_elem v table :
  In v table → Z.land v (flags_or table) = v.
Proof.
  induction table as [|u table IH]; simpl; [done|]. intros [->|Hin].
  - rewrite Z.land_lor_distr_r, Z.land_diag. apply Z.bits_inj'. intros i _.
    rewrite Z.lor_spec, Z.land_spec. by destruct (Z.testbit v i).
  - rewrite Z.land_lor_distr_r, (IH Hin). apply Z.bits_inj'. intros i _.
    rewrite Z.lor_spec, Z.land_spec. by destruct (Z.testbit v i), (Z.testbit u i).
Qed.

Lemma single_flag v :
  bool_decide (0 < v) && is_no_more_than_one_selected v = true → ∃ k, 0 ≤ k ∧ v = 2 ^ k.
Proof.
  rewrite andb_true_iff, bool_decide_eq_true. intros [Hv Hone].
  apply is_no_more_than_one_selected_spec in Hone as [->|?]; [lia|done|lia].
Qed.

Lemma contains_pow2 x k : 0 ≤ k → contains x (2 ^ k) = Z.testbit x k.
Proof.
  intros Hk. unfold contains. rewrite land_pow2 by done.
  pose proof (Z.pow_pos_nonneg 2 k ltac:(lia) Hk).
  destruct (Z.testbit x k); [by rewrite bool_decide_true|rewrite bool_decide_false; lia].
Qed.

(** A single flag is selected from the intersection exactly if both sets contain it. *)
Lemma land_single a b v :
  (∃ k, 0 ≤ k ∧ v = 2 ^ k) → (Z.land (Z.land a b) v ≠ 0 ↔ contains a v && contains b v = true).
Proof.
  intros (k&Hk&->). rewrite !contains_pow2, land_pow2, Z.land_spec by done.
  pose proof (Z.pow_pos_nonneg 2 k ltac:(lia) Hk).
  destruct (Z.testbit a k && Z.testbit b k); split; lia || done.
Qed.

Lemma prioritize_with_negotiated mask table a b :
  prio_table_ok mask table = true → negotiated table mask a b (prioritize_with table a b).
Proof.
  unfold prio_table_ok. rewrite andb_true_iff, forallb_forall, Z.eqb_eq.
  intros [Hflags <-]. unfold prioritize_with.
  destruct (first_selected_spec table (Z.land a b)) as [[-> Hall]|(hi&lo&Ht&Hsel&Hhi)].
  { left. split; [done|]. by apply land_flags_or. }
  right. set (r := first_selected table (Z.land a b)) in *.
  assert (In r table) as Hr by (rewrite Ht; apply in_app_iff; simpl; auto).
  destruct (single_flag r (Hflags r Hr)) as (k&Hk&Hrk).
  pose proof (Z.pow_pos_nonneg 2 k ltac:(lia) Hk).
  apply land_single in Hsel; [|by exists k].
  apply andb_true_iff in Hsel as [Ha Hb]. split_and!; [done|done| | |].
  - by apply (andb_true_iff (bool_decide (0 < r))), Hflags.
  - unfold is_valid. rewrite land_flags_or_elem by done.
    destruct (Z.eqb_spec r 0); [lia|done].
  - exists hi, lo. split; [done|]. rewrite Forall_forall in *. intros v Hv.
    apply not_true_iff_false. rewrite <- land_single by
      (apply single_flag, Hflags; rewrite Ht; apply in_app_iff; left; done).
    intros Hn. apply Hn, Hhi, Hv.
Qed.

(** ** Codecs *)

#[global] Instance SpdmMeasurementSpecification_ok :
  CodecOk SpdmMeasurementSpecification.codec
    (flags_wf 8 SpdmMeasurementSpecification.VALID_MASK) (le_bytes 1).
Proof. apply flags_codec_ok; [lia|apply _]. Qed.
#[global] Instance SpdmMeasurementHashAlgo_ok :
  CodecOk SpdmMeasurementHashAlgo.codec
    (flags_wf 32 SpdmMeasurementHashAlgo.VALID_MASK) (le_bytes 4).
Proof. apply flags_codec_ok; [lia|apply _]. Qed.
#[global] Instance SpdmBaseAsymAlgo_ok :
  CodecOk SpdmBaseAsymAlgo.codec (flags_wf 32 SpdmBaseAsymAlgo.VALID_MASK) (le_bytes 4).
Proof. apply flags_codec_ok; [lia|apply _]. Qed.
#[global] Instance SpdmBaseHashAlgo_ok :
  CodecOk SpdmBaseHashAlgo.codec (flags_wf 32 SpdmBaseHashAlgo.VALID_MASK) (le_bytes 4).
Proof. apply flags_codec_ok; [lia|apply _]. Qed.
#[global] Instance SpdmDheAlgo_ok :
  CodecOk SpdmDheAlgo.codec (flags_wf 16 SpdmDheAlgo.VALID_MASK) (le_bytes 2).
Proof. apply flags_codec_ok; [lia|apply _]. Qed.
#[global] Instance SpdmAeadAlgo_ok :
  CodecOk SpdmAeadAlgo.codec (flags_wf 16 SpdmAeadAlgo.VALID_MASK) (le_bytes 2).
Proof. apply flags_codec_ok; [lia|apply _]. Qed.
#[global] Instance SpdmReqAsymAlgo_ok :
  CodecOk SpdmReqAsymAlgo.codec (flags_wf 16 SpdmReqAsymAlgo.VALID_MASK) (le_bytes 2).
Proof. apply flags_codec_ok; [lia|apply _]. Qed.
#[global] Instance SpdmKeyScheduleAlgo_ok :
  CodecOk SpdmKeyScheduleAlgo.codec (flags_wf 16 SpdmKeyScheduleAlgo.VALID_MASK) (le_bytes 2).
Proof. apply flags_codec_ok; [lia|apply _]. Qed.

(** An algorithm structure that a reader can produce: type and set of the same kind. *)
Definition SpdmAlgStruct_wf (v : SpdmAlgStruct) : Prop :=
  match alg_type v, alg_supported v with
  | SpdmAlgTypeDHE, SpdmAlgoDhe a => flags_wf 16 SpdmDheAlgo.VALID_MASK a
  | SpdmAlgTypeAEAD, SpdmAlgoAead a => flags_wf 16 SpdmAeadAlgo.VALID_MASK a
  | SpdmAlgTypeReqAsym, SpdmAlgoReqAsym a => flags_wf 16 SpdmReqAsymAlgo.VALID_MASK a
  | SpdmAlgTypeKeySchedule, SpdmAlgoKeySchedule a =>
      flags_wf 16 SpdmKeyScheduleAlgo.VALID_MASK a
  | _, _ => False
  end.

Definition SpdmAlg_bits (a : SpdmAlg) : Z :=
  match a with
  | SpdmAlgoDhe a | SpdmAlgoAead a | SpdmAlgoReqAsym a | SpdmAlgoKeySchedule a => a
  | SpdmAlgoUnknown => 0
  end.

Definition SpdmAlgStruct_wire (v : SpdmAlgStruct) : bytes :=
  le_bytes 1 (SpdmAlgType_get_u8 (alg_type v)) ++ le_bytes 1 0x20
  ++ le_bytes 2 (SpdmAlg_bits (alg_supported v)).

Lemma is_u8_0x20 : is_u8 0x20.
Proof. split; lia. Qed.
#[export] Hint Resolve is_u8_0x20 : codec.

#[global] Instance SpdmAlgStruct_codec_ok :
  CodecOk SpdmAlgStruct_codec SpdmAlgStruct_wf SpdmAlgStruct_wire.
Proof.
  constructor; cbn [encode read SpdmAlgStruct_codec].
  - intros [[] []] Hwf; try done; unfold SpdmAlgStruct_encode; cbn -[encode] in Hwf |- *;
      change (as_u8 (Z.shiftl 2 4)) with 0x20;
      (eapply writes_eq; [writes_steps|done..]).
  - intros [[] [a|a|a|a|]] Hwf; try done; cbn in Hwf; unfold SpdmAlgStruct_read.
    + eapply reads_eq; [reads_with SpdmAlgTypeDHE; reads_with 0x20;
        reads_with (SpdmAlgoDhe a); apply reads_ret|done|done].
    + eapply reads_eq; [reads_with SpdmAlgTypeAEAD; reads_with 0x20;
        reads_with (SpdmAlgoAead a); apply reads_ret|done|done].
    + eapply reads_eq; [reads_with SpdmAlgTypeReqAsym; reads_with 0x20;
        reads_with (SpdmAlgoReqAsym a); apply reads_ret|done|done].
    + eapply reads_eq; [reads_with SpdmAlgTypeKeySchedule; reads_with 0x20;
        reads_with (SpdmAlgoKeySchedule a); apply reads_ret|done|done].
  - unfold SpdmAlgStruct_read.
    eapply parser_bind; [apply parse_ok|]. intros ty _. parser_steps.
    apply (parser_bind _ _ (λ al, SpdmAlgStruct_wf {| alg_type := ty; alg_supported := al |}));
      [|intros al; apply parser_ret].
    destruct ty; try apply parser_throw; (eapply parser_map; [apply parse_ok|by intros a]).
Qed.

#[global] Instance array_codec_ok n : CodecOk (array_codec n) (array_wf n n) (λ bs, bs).
Proof.
  assert (∀ bs, array_wf n n bs → take n bs = bs) as Htake.
  { intros bs (Hl&_). apply take_ge. lia. }
  constructor; cbn [encode read array_codec].
  - intros bs Hbs. pose proof Hbs as (Hl&Hu&_).
    eapply writes_eq; [writes_steps|by rewrite app_nil_r|done].
  - intros bs Hbs. rewrite <- (Htake bs) at 1 by done. by apply reads_read_array.
  - by apply parser_read_array.
Qed.

(** ** Buffers of fixed capacity *)

Definition sized_wf (max : nat) (s : sized) : Prop := array_wf (data_size s) max (data s).

#[global] Instance sized_wf_dec max s : Decision (sized_wf max s).
Proof. unfold sized_wf. apply _. Defined.

(** The bytes a well-formed value holds; [as_ref] returns them. *)
Definition sized_bytes (s : sized) : bytes := take (data_size s) (data s).

Lemma length_sized_bytes max s : sized_wf max s → length (sized_bytes s) = data_size s.
Proof. intros (Hl&_&Hn&_). unfold sized_bytes. rewrite length_take. lia. Qed.

Lemma sized_bytes_u8 max s : sized_wf max s → Forall is_u8 (sized_bytes s).
Proof. intros (_&Hu&_). by apply Forall_take. Qed.

Lemma sized_as_ref_inv {S E} v (s s' : S) b :
  sized_as_ref (E:=E) v s = (Ok b, s') → s' = s ∧ b = sized_bytes v.
Proof. unfold sized_as_ref. case_decide; [|done]. by intros [= <- <-]. Qed.
Lemma sized_as_ref_ok {S E} max s (st : S) :
  sized_wf max s → sized_as_ref (E:=E) s st = (Ok (sized_bytes s), st).
Proof. intros (Hl&_&Hn&_). unfold sized_as_ref. by rewrite decide_True by lia. Qed.

Lemma sized_default_wf max : sized_wf max (sized_default max).
Proof.
  split_and!; simpl; [by rewrite length_replicate|apply replicate_u8|lia|].
  by rewrite drop_0, Nat.sub_0_r.
Qed.

(** A buffer made from [value] holds [value]; a longer one is refused by a panic. *)
Lemma sized_from_ok {S E} max value (st : S) :
  Forall is_u8 value → (length value ≤ max)%nat →
  ∃ s, sized_from (E:=E) max value st = (Ok s, st) ∧ sized_wf max s ∧ sized_bytes s = value.
Proof.
  intros Hu Hl. unfold sized_from. rewrite decide_True by done.
  eexists. split; [done|]. split; [by apply array_wf_make|].
  unfold sized_bytes. simpl. by rewrite take_app_length.
Qed.

Lemma from_spdm_hkdf_ok max max' okm s :
  sized_wf max' okm → from_spdm_hkdf max okm = Some s →
  sized_wf max s ∧ data_size s = data_size okm ∧ sized_bytes s = sized_bytes okm ∧
  (0 < data_size s)%nat.
Proof.
  intros Hwf. pose proof Hwf as (Hl&Hu&Hn&_). unfold from_spdm_hkdf.
  destruct (decide _) as [|Hd]; [done|]. intros [= <-]. simpl.
  assert (length (take (data_size okm) (data okm)) = data_size okm) as Ht
    by (rewrite length_take; lia).
  split_and!; [|done| |lia].
  - unfold sized_wf. simpl. rewrite <- Ht at 1 3.
    apply array_wf_make; [by apply Forall_take|lia].
  - unfold sized_bytes. simpl. by rewrite take_app_le, take_ge by lia.
Qed.

Lemma from_spdm_hkdf_some max okm :
  (0 < data_size okm ≤ max)%nat → is_Some (from_spdm_hkdf max okm).
Proof. intros Hd. unfold from_spdm_hkdf. rewrite decide_False by lia. eauto. Qed.

(** ** Certificate chain buffers *)

Section CertChainProofs.
Context `{cfg : Config}.

(** Copying behind [pre] into an array that is zero from there on. *)
Lemma slice_copy_zeros {S E} pre n pos bs (st : S) :
  pos = length pre → (length bs ≤ n)%nat →
  slice_copy (E:=E) (pre ++ replicate n 0) pos bs st =
    (Ok ((pre ++ bs) ++ replicate (n - length bs) 0), st).
Proof.
  intros -> Hl. unfold slice_copy.
  rewrite decide_True by (rewrite length_app, length_replicate; lia).
  unfold splice. rewrite take_app_length, drop_app, drop_ge, drop_replicate by lia.
  rewrite <- app_assoc. unfold ret. simpl. by rewrite Nat.add_comm, Nat.add_sub.
Qed.

Lemma slice_copy_panic {S E} arr pos bs (st : S) :
  (length arr < pos + length bs)%nat → slice_copy (E:=E) arr pos bs st = (Panic, st).
Proof. intros. unfold slice_copy. by rewrite decide_False by lia. Qed.

Ltac lens :=
  repeat (rewrite length_app || rewrite length_le_bytes || rewrite length_replicate);
  cbn [length]; lia.

(** The chain buffer holds the length, the reserved bytes, the root hash and the
    certificates, in order; too long for the length field is an error, too long for the
    buffer (but not for the length field) a panic. *)
Theorem SpdmCertChainBuffer_new_spec {S} cert root (st : S) :
  let total := (4 + length root + length cert)%nat in
  SpdmCertChainBuffer_new cert root st =
    if Z.of_nat total >? 65535 then (Err tt, st)
    else if decide (total ≤ MAX_CERT_CHAIN_BUFFER)%nat
    then (Ok {| data_size := total;
                data := (le_bytes 2 (Z.of_nat total) ++ [0; 0] ++ root ++ cert)
                        ++ replicate (MAX_CERT_CHAIN_BUFFER - total) 0 |}, st)
    else (Panic, st).
Proof.
  intros total. unfold SpdmCertChainBuffer_new.
  replace (length cert + 4 + length root)%nat with total by (subst total; lia).
  replace (length cert + length root + 4)%nat with total by (subst total; lia).
  destruct (_ >? _); [done|]. unfold bind.
  assert (4 ≤ MAX_CERT_CHAIN_BUFFER)%nat by (unfold MAX_CERT_CHAIN_BUFFER; lia).
  change (replicate MAX_CERT_CHAIN_BUFFER 0) with ([] ++ replicate MAX_CERT_CHAIN_BUFFER 0).
  rewrite slice_copy_zeros by lens. rewrite slice_copy_zeros by lens.
  destruct (decide (4 + length root ≤ MAX_CERT_CHAIN_BUFFER)%nat) as [Hfit|Hno].
  - rewrite slice_copy_zeros by lens.
    destruct (decide (total ≤ _)%nat) as [Ht|Ht]; subst total.
    + rewrite slice_copy_zeros by lens. rewrite length_le_bytes. unfold ret.
      cbn [app length]. rewrite <- !app_assoc. cbn [app].
      rewrite <- app_assoc. by rewrite <- !Nat.sub_add_distr.
    + rewrite slice_copy_panic; [done|lens].
  - rewrite slice_copy_panic; [by rewrite decide_False by (subst total; lia)|lens].
Qed.

End CertChainProofs.
