(* ===== verification/Protocol.v ===== *)
(** Model of spdmlib/src/protocol/version.rs and capability.rs: protocol versions, the
    signing contexts of SPDM 1.2 and the capability flags of requester and responder. *)

From S2P Require Import Prelude Codec Algo.

(*@ spdmlib/src/protocol/version.rs 8-16 SpdmVersion *)
Inductive SpdmVersion :=
| SpdmVersion10
| SpdmVersion11
| SpdmVersion12
| SpdmVersion_Unknown (x : Z).

Definition SpdmVersion_get_u8 (v : SpdmVersion) : Z :=
  match v with
  | SpdmVersion10 => 0x10
  | SpdmVersion11 => 0x11
  | SpdmVersion12 => 0x12
  | SpdmVersion_Unknown x => x
  end.

Definition SpdmVersion_from_u8 (x : Z) : SpdmVersion :=
  match x with
  | 0x10 => SpdmVersion10
  | 0x11 => SpdmVersion11
  | 0x12 => SpdmVersion12
  | x => SpdmVersion_Unknown x
  end.

(*@ spdmlib/src/protocol/version.rs 8-16 SpdmVersion as Codec *)
Definition SpdmVersion_codec : Codec SpdmVersion :=
  enum_codec u8_codec SpdmVersion_get_u8 SpdmVersion_from_u8.

#[global] Instance SpdmVersion_eq_dec : EqDecision SpdmVersion.
Proof. solve_decision. Defined.

Abbreviation SpdmVersion_wf := (enum_wf 8 SpdmVersion_get_u8 SpdmVersion_from_u8).

#[global] Instance SpdmVersion_codec_ok :
  CodecOk SpdmVersion_codec SpdmVersion_wf (λ v, le_bytes 1 (SpdmVersion_get_u8 v)).
Proof. apply enum_codec_ok; [apply _|]. solve_enum SpdmVersion_from_u8. Qed.

(** Versions are compared by their wire value. *)
Definition SpdmVersion_ge (a b : SpdmVersion) : bool :=
  SpdmVersion_get_u8 b <=? SpdmVersion_get_u8 a.

Abbreviation MAX_SPDM_VERSION_COUNT := 3%nat (only parsing).

(*@ spdmlib/src/protocol/version.rs 26-31 SPDM_VERSION_1_2_SIGNING_PREFIX_CONTEXT *)
Definition SPDM_VERSION_1_2_SIGNING_PREFIX_CONTEXT : bytes :=
  [0x64; 0x6d; 0x74; 0x66; 0x2d; 0x73; 0x70; 0x64; 0x6d; 0x2d; 0x76; 0x31; 0x2e; 0x32; 0x2e; 0x2a;
   0x64; 0x6d; 0x74; 0x66; 0x2d; 0x73; 0x70; 0x64; 0x6d; 0x2d; 0x76; 0x31; 0x2e; 0x32; 0x2e; 0x2a;
   0x64; 0x6d; 0x74; 0x66; 0x2d; 0x73; 0x70; 0x64; 0x6d; 0x2d; 0x76; 0x31; 0x2e; 0x32; 0x2e; 0x2a;
   0x64; 0x6d; 0x74; 0x66; 0x2d; 0x73; 0x70; 0x64; 0x6d; 0x2d; 0x76; 0x31; 0x2e; 0x32; 0x2e; 0x2a].

(*@ spdmlib/src/protocol/version.rs 33-36 SPDM_CHALLENGE_AUTH_SIGN_CONTEXT *)
Definition SPDM_CHALLENGE_AUTH_SIGN_CONTEXT : bytes :=
  [0x72; 0x65; 0x73; 0x70; 0x6f; 0x6e; 0x64; 0x65; 0x72; 0x2d; 0x63; 0x68; 0x61; 0x6c; 0x6c; 0x65;
   0x6e; 0x67; 0x65; 0x5f; 0x61; 0x75; 0x74; 0x68; 0x20; 0x73; 0x69; 0x67; 0x6e; 0x69; 0x6e; 0x67].

(*@ spdmlib/src/protocol/version.rs 38-41 SPDM_MUT_CHALLENGE_AUTH_SIGN_CONTEXT *)
Definition SPDM_MUT_CHALLENGE_AUTH_SIGN_CONTEXT : bytes :=
  [0x72; 0x65; 0x71; 0x75; 0x65; 0x73; 0x74; 0x65; 0x72; 0x2d; 0x63; 0x68; 0x61; 0x6c; 0x6c; 0x65;
   0x6e; 0x67; 0x65; 0x5f; 0x61; 0x75; 0x74; 0x68; 0x20; 0x73; 0x69; 0x67; 0x6e; 0x69; 0x6e; 0x67].

(*@ spdmlib/src/protocol/version.rs 43-46 SPDM_MEASUREMENTS_SIGN_CONTEXT *)
Definition SPDM_MEASUREMENTS_SIGN_CONTEXT : bytes :=
  [0x72; 0x65; 0x73; 0x70; 0x6f; 0x6e; 0x64; 0x65; 0x72; 0x2d; 0x6d; 0x65; 0x61; 0x73; 0x75; 0x72;
   0x65; 0x6d; 0x65; 0x6e; 0x74; 0x73; 0x20; 0x73; 0x69; 0x67; 0x6e; 0x69; 0x6e; 0x67].

(*@ spdmlib/src/protocol/version.rs 48-52 SPDM_KEY_EXCHANGE_RESPONSE_SIGN_CONTEXT *)
Definition SPDM_KEY_EXCHANGE_RESPONSE_SIGN_CONTEXT : bytes :=
  [0x72; 0x65; 0x73; 0x70; 0x6f; 0x6e; 0x64; 0x65; 0x72; 0x2d; 0x6b; 0x65; 0x79; 0x5f; 0x65; 0x78;
   0x63; 0x68; 0x61; 0x6e; 0x67; 0x65; 0x5f; 0x72; 0x73; 0x70; 0x20; 0x73; 0x69; 0x67; 0x6e; 0x69;
   0x6e; 0x67].

(*@ spdmlib/src/protocol/version.rs 54-57 SPDM_VERSION_1_2_KEY_EXCHANGE_REQUESTER_CONTEXT *)
Definition SPDM_VERSION_1_2_KEY_EXCHANGE_REQUESTER_CONTEXT : bytes :=
  [0x52; 0x65; 0x71; 0x75; 0x65; 0x73; 0x74; 0x65; 0x72; 0x2d; 0x4b; 0x45; 0x50; 0x2d; 0x64; 0x6d;
   0x74; 0x66; 0x2d; 0x73; 0x70; 0x64; 0x6d; 0x2d; 0x76; 0x31; 0x2e; 0x32].

(*@ spdmlib/src/protocol/version.rs 59-62 SPDM_VERSION_1_2_KEY_EXCHANGE_RESPONDER_CONTEXT *)
Definition SPDM_VERSION_1_2_KEY_EXCHANGE_RESPONDER_CONTEXT : bytes :=
  [0x52; 0x65; 0x73; 0x70; 0x6f; 0x6e; 0x64; 0x65; 0x72; 0x2d; 0x4b; 0x45; 0x50; 0x2d; 0x64; 0x6d;
   0x74; 0x66; 0x2d; 0x73; 0x70; 0x64; 0x6d; 0x2d; 0x76; 0x31; 0x2e; 0x32].

(*@ spdmlib/src/protocol/version.rs 64-67 SPDM_FINISH_SIGN_CONTEXT *)
Definition SPDM_FINISH_SIGN_CONTEXT : bytes :=
  [0x72; 0x65; 0x71; 0x75; 0x65; 0x73; 0x74; 0x65; 0x72; 0x2d; 0x66; 0x69; 0x6e; 0x69; 0x73; 0x68;
   0x20; 0x73; 0x69; 0x67; 0x6e; 0x69; 0x6e; 0x67].

(*@ spdmlib/src/protocol/version.rs 70-70 SPDM_VERSION_1_2_SIGNING_CONTEXT_ZEROPAD_2 *)
Definition SPDM_VERSION_1_2_SIGNING_CONTEXT_ZEROPAD_2 : bytes :=
  [0x0; 0x0].

(*@ spdmlib/src/protocol/version.rs 71-71 SPDM_VERSION_1_2_SIGNING_CONTEXT_ZEROPAD_4 *)
Definition SPDM_VERSION_1_2_SIGNING_CONTEXT_ZEROPAD_4 : bytes :=
  [0x0; 0x0; 0x0; 0x0].

(*@ spdmlib/src/protocol/version.rs 72-72 SPDM_VERSION_1_2_SIGNING_CONTEXT_ZEROPAD_6 *)
Definition SPDM_VERSION_1_2_SIGNING_CONTEXT_ZEROPAD_6 : bytes :=
  [0x0; 0x0; 0x0; 0x0; 0x0; 0x0].

(*@ spdmlib/src/protocol/version.rs 73-74 SPDM_VERSION_1_2_SIGNING_CONTEXT_ZEROPAD_8 *)
Definition SPDM_VERSION_1_2_SIGNING_CONTEXT_ZEROPAD_8 : bytes :=
  [0x0; 0x0; 0x0; 0x0; 0x0; 0x0; 0x0; 0x0].

(*@ spdmlib/src/protocol/version.rs 75-76 SPDM_VERSION_1_2_SIGNING_CONTEXT_ZEROPAD_12 *)
Definition SPDM_VERSION_1_2_SIGNING_CONTEXT_ZEROPAD_12 : bytes :=
  [0x0; 0x0; 0x0; 0x0; 0x0; 0x0; 0x0; 0x0; 0x0; 0x0; 0x0; 0x0].

Module SpdmRequestCapabilityFlags.

Abbreviation CERT_CAP := 0x2 (only parsing).
Abbreviation CHAL_CAP := 0x4 (only parsing).
Abbreviation ENCRYPT_CAP := 0x40 (only parsing).
Abbreviation MAC_CAP := 0x80 (only parsing).
Abbreviation MUT_AUTH_CAP := 0x100 (only parsing).
Abbreviation KEY_EX_CAP := 0x200 (only parsing).
Abbreviation PSK_CAP := 0x400 (only parsing).
Abbreviation PSK_RSVD := 0x800 (only parsing).
Abbreviation ENCAP_CAP := 0x1000 (only parsing).
Abbreviation HBEAT_CAP := 0x2000 (only parsing).
Abbreviation KEY_UPD_CAP := 0x4000 (only parsing).
Abbreviation HANDSHAKE_IN_THE_CLEAR_CAP := 0x8000 (only parsing).
Abbreviation PUB_KEY_ID_CAP := 0x10000 (only parsing).
Abbreviation CHUNK_CAP := 0x20000 (only parsing).

(*@ spdmlib/src/protocol/capability.rs 7-39 SpdmRequestCapabilityFlags *)
Definition VALID_MASK : Z :=
  flags_or [CERT_CAP; CHAL_CAP; ENCRYPT_CAP; MAC_CAP; MUT_AUTH_CAP; KEY_EX_CAP;
    PSK_CAP; PSK_RSVD; ENCAP_CAP; HBEAT_CAP; KEY_UPD_CAP; HANDSHAKE_IN_THE_CLEAR_CAP;
    PUB_KEY_ID_CAP; CHUNK_CAP].

(*@ spdmlib/src/protocol/capability.rs 41-51 SpdmRequestCapabilityFlags as Codec *)
Definition codec : Codec Z := flags_codec u32_codec VALID_MASK.

End SpdmRequestCapabilityFlags.

#[global] Instance SpdmRequestCapabilityFlags_ok :
  CodecOk SpdmRequestCapabilityFlags.codec (flags_wf 32 SpdmRequestCapabilityFlags.VALID_MASK) (le_bytes 4).
Proof. apply flags_codec_ok; [lia|apply _]. Qed.

Module SpdmResponseCapabilityFlags.

Abbreviation CACHE_CAP := 0x1 (only parsing).
Abbreviation CERT_CAP := 0x2 (only parsing).
Abbreviation CHAL_CAP := 0x4 (only parsing).
Abbreviation MEAS_CAP_NO_SIG := 0x8 (only parsing).
Abbreviation MEAS_CAP_SIG := 0x10 (only parsing).
Abbreviation MEAS_FRESH_CAP := 0x20 (only parsing).
Abbreviation ENCRYPT_CAP := 0x40 (only parsing).
Abbreviation MAC_CAP := 0x80 (only parsing).
Abbreviation MUT_AUTH_CAP := 0x100 (only parsing).
Abbreviation KEY_EX_CAP := 0x200 (only parsing).
Abbreviation PSK_CAP_WITHOUT_CONTEXT := 0x400 (only parsing).
Abbreviation PSK_CAP_WITH_CONTEXT := 0x800 (only parsing).
Abbreviation ENCAP_CAP := 0x1000 (only parsing).
Abbreviation HBEAT_CAP := 0x2000 (only parsing).
Abbreviation KEY_UPD_CAP := 0x4000 (only parsing).
Abbreviation HANDSHAKE_IN_THE_CLEAR_CAP := 0x8000 (only parsing).
Abbreviation PUB_KEY_ID_CAP := 0x10000 (only parsing).
Abbreviation CHUNK_CAP := 0x20000 (only parsing).
Abbreviation ALIAS_CERT_CAP := 0x40000 (only parsing).
Abbreviation SET_CERT_CAP := 0x80000 (only parsing).
Abbreviation CSR_CAP := 0x100000 (only parsing).
Abbreviation CERT_INSTALL_RESET_CAP := 0x200000 (only parsing).

(*@ spdmlib/src/protocol/capability.rs 53-101 SpdmResponseCapabilityFlags *)
Definition VALID_MASK : Z :=
  flags_or [CACHE_CAP; CERT_CAP; CHAL_CAP; MEAS_CAP_NO_SIG; MEAS_CAP_SIG;
    MEAS_FRESH_CAP; ENCRYPT_CAP; MAC_CAP; MUT_AUTH_CAP; KEY_EX_CAP;
    PSK_CAP_WITHOUT_CONTEXT; PSK_CAP_WITH_CONTEXT; ENCAP_CAP; HBEAT_CAP; KEY_UPD_CAP;
    HANDSHAKE_IN_THE_CLEAR_CAP; PUB_KEY_ID_CAP; CHUNK_CAP; ALIAS_CERT_CAP;
    SET_CERT_CAP; CSR_CAP; CERT_INSTALL_RESET_CAP].

(*@ spdmlib/src/protocol/capability.rs 103-113 SpdmResponseCapabilityFlags as Codec *)
Definition codec : Codec Z := flags_codec u32_codec VALID_MASK.

End SpdmResponseCapabilityFlags.

#[global] Instance SpdmResponseCapabilityFlags_ok :
  CodecOk SpdmResponseCapabilityFlags.codec (flags_wf 32 SpdmResponseCapabilityFlags.VALID_MASK) (le_bytes 4).
Proof. apply flags_codec_ok; [lia|apply _]. Qed.

