(* ===== verification/X509.v ===== *)
(** Model of spdmlib/src/crypto/x509v3.rs: the checks of the format of a certificate chain that
    run before a signature is verified with it.

    Lengths and positions are [usize] of a 64-bit machine, as [Z]: a length in a certificate can
    be any 64-bit number, so the sums that the code forms can leave the width, which panics in a
    checked build and wraps in a release build. *)

From S2P Require Import Prelude Codec Status Algo.

(** ** [usize] arithmetic and slices *)

Definition add_usize {S E} (mode : overflow_mode) (a b : Z) : M S E Z :=
  if bool_decide (is_u64 (a + b)) then ret (a + b)
  else match mode with Checked => panic | Wrapping => ret (as_u64 (a + b)) end.

Definition len (bs : bytes) : Z := Z.of_nat (length bs).

(** [&data[i..]]. *)
Definition from {S E} (i : Z) (data : bytes) : M S E bytes :=
  if i <=? len data then ret (drop (Z.to_nat i) data) else panic.

(** [data[i]] where [i] is in range. *)
Abbreviation byte data i := (nth i data 0) (only parsing).

Section X509.
Context (mode : overflow_mode).
Context {S : Type}.
Implicit Types data cert : bytes.

Abbreviation SpdmResult A := (M S SpdmStatus A) (only parsing).
Abbreviation fail := (throw SPDM_STATUS_VERIF_FAIL) (only parsing).

(** ** Tags and lengths *)

(*@ spdmlib/src/crypto/x509v3.rs 8-20 ASN1_TAG_SEQUENCE *)
Definition ASN1_TAG_SEQUENCE : Z := Z.lor (Z.lor 0x0 0x20) 0x10.

(*@ spdmlib/src/crypto/x509v3.rs 176-184 check_tag_is_sequence *)
Definition check_tag_is_sequence data : SpdmResult unit :=
  if len data =? 0 then fail
  else if byte data 0%nat =? ASN1_TAG_SEQUENCE then ret tt
  else fail.

(** The array [length] has eight bytes: writing a ninth is a panic. *)
(*@ spdmlib/src/crypto/x509v3.rs 189-207 check_length *)
Definition check_length data : SpdmResult (Z * Z) :=
  if len data <? 1 then fail
  else if Z.land (byte data 0%nat) 0x80 =? 0 then ret (byte data 0%nat, 1)
  else
    let length_count := byte data 0%nat - 0x80 in
    if (len data <? length_count + 1) || (length_count =? 0) then fail
    else if 8 <? length_count then panic
    else ret (le_val (reverse (take (Z.to_nat length_count) (drop 1 data))), length_count + 1).

(*@ spdmlib/src/crypto/x509v3.rs 209-226 check_version *)
Definition check_version data : SpdmResult Z :=
  if (len data <? 5) || negb (byte data 0%nat =? Z.lor 0x80 0x20) || negb (byte data 1%nat =? 3)
     || negb (byte data 2%nat =? 0x2) || negb (byte data 3%nat =? 1)
  then fail
  else if byte data 4%nat =? 2 then ret 5 else fail.

(*@ spdmlib/src/crypto/x509v3.rs 302-314 object_identifiers_are_same *)
Definition object_identifiers_are_same (a b : bytes) : bool :=
  if negb (len a =? len b) then false
  else forallb (λ '(x, y), x =? y) (combine a b).

(*@ spdmlib/src/crypto/x509v3.rs 228-246 check_object_identifier *)
Definition check_object_identifier data (oid : option bytes) : SpdmResult Z :=
  if (len data <? 2) || negb (byte data 0%nat =? 0x6) then fail
  else
    let oid_length := byte data 1%nat in
    if (len data <? oid_length + 2) || (0x80 <=? oid_length) then fail
    else match oid with
         | Some oid =>
             if object_identifiers_are_same (take (Z.to_nat oid_length) (drop 2 data)) oid
             then ret (oid_length + 2) else fail
         | None => ret (oid_length + 2)
         end.

(*@ spdmlib/src/crypto/x509v3.rs 274-286 check_and_skip_common_tag *)
Definition check_and_skip_common_tag data : SpdmResult Z :=
  if len data <? 1 then fail
  else
    let* rest := from 1 data in
    let* (payload_length, bytes_consumed) := check_length rest in
    let* n := add_usize mode (1 + bytes_consumed) payload_length in
    if len data <? n then fail else ret n.

(*@ spdmlib/src/crypto/x509v3.rs 260-272 check_and_skip_common_sequence *)
Definition check_and_skip_common_sequence data : SpdmResult Z :=
  if (len data <? 1) || negb (byte data 0%nat =? ASN1_TAG_SEQUENCE) then fail
  else
    let* rest := from 1 data in
    let* (payload_length, bytes_consumed) := check_length rest in
    let* n := add_usize mode (1 + bytes_consumed) payload_length in
    if len data <? n then fail else ret n.

(*@ spdmlib/src/crypto/x509v3.rs 24-30 OID_RSA_SHA256RSA *)
Definition OID_RSA (last : Z) : bytes := [0x2a; 0x86; 0x48; 0x86; 0xf7; 0x0d; 0x01; 0x01; last].
Definition OID_ECDSA (last : Z) : bytes := [0x2a; 0x86; 0x48; 0xce; 0x3d; 0x04; 0x03; last].

(*@ spdmlib/src/crypto/x509v3.rs 288-300 get_oid_by_base_asym_algo *)
Definition get_oid_by_base_asym_algo (base_asym_algo : Z) : option bytes :=
  match base_asym_algo with
  | SpdmBaseAsymAlgo.TPM_ALG_RSASSA_2048 | SpdmBaseAsymAlgo.TPM_ALG_RSAPSS_2048 =>
      Some (OID_RSA 0x0b)
  | SpdmBaseAsymAlgo.TPM_ALG_RSASSA_3072 | SpdmBaseAsymAlgo.TPM_ALG_RSAPSS_3072 =>
      Some (OID_RSA 0x0c)
  | SpdmBaseAsymAlgo.TPM_ALG_ECDSA_ECC_NIST_P256 => Some (OID_ECDSA 0x02)
  | SpdmBaseAsymAlgo.TPM_ALG_RSASSA_4096 | SpdmBaseAsymAlgo.TPM_ALG_RSAPSS_4096 =>
      Some (OID_RSA 0x0d)
  | SpdmBaseAsymAlgo.TPM_ALG_ECDSA_ECC_NIST_P384 => Some (OID_ECDSA 0x03)
  | _ => None
  end.

(** The identifier is compared in the leaf certificate only. *)
Definition expected_oid (base_asym_algo : Z) (is_leaf_cert : bool) : option bytes :=
  if is_leaf_cert then get_oid_by_base_asym_algo base_asym_algo else None.

(** ** Certificates *)

(*@ spdmlib/src/crypto/x509v3.rs 151-170 check_signature_algorithm *)
Definition check_signature_algorithm data (base_asym_algo : Z) (is_leaf_cert : bool)
    : SpdmResult Z :=
  check_tag_is_sequence data;;
  let* rest := from 1 data in
  let* (signature_id_length, bytes_consumed) := check_length rest in
  let s_walker := 1 + bytes_consumed in
  let* rest := from s_walker data in
  check_object_identifier rest (expected_oid base_asym_algo is_leaf_cert);;
  add_usize mode s_walker signature_id_length.

(*@ spdmlib/src/crypto/x509v3.rs 172-174 check_signature_value *)
Definition check_signature_value data : SpdmResult Z := check_and_skip_common_tag data.

(*@ spdmlib/src/crypto/x509v3.rs 89-149 check_tbs_certificate *)
Definition check_tbs_certificate data (base_asym_algo : Z) (is_leaf_cert : bool) : SpdmResult Z :=
  check_tag_is_sequence data;;
  let* rest := from 1 data in
  let* (tbs_length, bytes_consumed) := check_length rest in
  let length_before_tbs := 1 + bytes_consumed in
  let* tbs_end := add_usize mode length_before_tbs tbs_length in
  if len data <? tbs_end then fail else
  let* rest := from length_before_tbs data in
  let* bytes_consumed := check_version rest in
  let t_walker := length_before_tbs + bytes_consumed in
  let* rest := from t_walker data in
  let* bytes_consumed := check_and_skip_common_tag rest in
  let* t_walker := add_usize mode t_walker bytes_consumed in
  let* rest := from t_walker data in
  check_tag_is_sequence rest;;
  let* t_walker := add_usize mode t_walker 1 in
  let* rest := from t_walker data in
  let* (signature_id_length, bytes_consumed) := check_length rest in
  let* t_walker := add_usize mode t_walker bytes_consumed in
  let* rest := from t_walker data in
  check_object_identifier rest (expected_oid base_asym_algo is_leaf_cert);;
  let* t_walker := add_usize mode t_walker signature_id_length in
  let* rest := from t_walker data in
  let* bytes_consumed := check_and_skip_common_sequence rest in
  let* t_walker := add_usize mode t_walker bytes_consumed in
  let* rest := from t_walker data in
  let* bytes_consumed := check_and_skip_common_sequence rest in
  let* t_walker := add_usize mode t_walker bytes_consumed in
  let* rest := from t_walker data in
  let* bytes_consumed := check_and_skip_common_sequence rest in
  let* t_walker := add_usize mode t_walker bytes_consumed in
  let* rest := from t_walker data in
  check_and_skip_common_sequence rest;;
  add_usize mode length_before_tbs tbs_length.

(*@ spdmlib/src/crypto/x509v3.rs 62-87 check_cert_format *)
Definition check_cert_format cert (base_asym_algo : Z) : SpdmResult Z :=
  check_tag_is_sequence cert;;
  let* rest := from 1 cert in
  let* (body_size, bytes_consumed) := check_length rest in
  let c_walker := 1 + bytes_consumed in
  let* cert_end := add_usize mode c_walker body_size in
  let is_leaf_cert := len cert =? cert_end in
  let* rest := from c_walker cert in
  let* n := check_tbs_certificate rest base_asym_algo is_leaf_cert in
  let* c_walker := add_usize mode c_walker n in
  let* rest := from c_walker cert in
  let* n := check_signature_algorithm rest base_asym_algo is_leaf_cert in
  let* c_walker := add_usize mode c_walker n in
  let* rest := from c_walker cert in
  let* n := check_signature_value rest in
  let* c_walker := add_usize mode c_walker n in
  let* cert_end := add_usize mode (1 + bytes_consumed) body_size in
  if c_walker =? cert_end then ret c_walker else fail.

(** The loop over the certificates, for [fuel] turns; [None] when they do not suffice. *)
(*@ spdmlib/src/crypto/x509v3.rs 47-50 check_cert_chain_format *)
Fixpoint cert_chain_loop (fuel : nat) (cert_chain : bytes) (base_asym_algo cc_walker cert_count : Z)
    : SpdmResult (option (Z * Z)) :=
  if cc_walker <? len cert_chain then
    match fuel with
    | O => ret None
    | Datatypes.S fuel =>
        let* rest := from cc_walker cert_chain in
        let* n := check_cert_format rest base_asym_algo in
        let* cc_walker := add_usize mode cc_walker n in
        let* cert_count := add_usize mode cert_count 1 in
        cert_chain_loop fuel cert_chain base_asym_algo cc_walker cert_count
    end
  else ret (Some (cc_walker, cert_count)).

(*@ spdmlib/src/crypto/x509v3.rs 39-57 check_cert_chain_format *)
Definition check_cert_chain_format (fuel : nat) (cert_chain : bytes) (base_asym_algo : Z)
    : SpdmResult (option Z) :=
  let* r := cert_chain_loop fuel cert_chain base_asym_algo 0 0 in
  match r with
  | None => ret None
  | Some (cc_walker, cert_count) =>
      if cc_walker =? len cert_chain then ret (Some cert_count) else fail
  end.

End X509.

(** ** The grammar of certificates *)

(** [der_length o l]: the octets [o] stand for the length [l], in at most eight octets. *)
Inductive der_length : bytes → Z → Prop :=
| der_short b : 0 ≤ b < 0x80 → der_length [b] b
| der_long bs :
    (1 ≤ length bs ≤ 8)%nat → der_length (0x80 + len bs :: bs) (le_val (reverse bs)).

(** A tag, the length of the contents and the contents. *)
Definition tlv (tag : Z) (contents b : bytes) : Prop :=
  ∃ o, der_length o (len contents) ∧ b = tag :: o ++ contents.

Lemma top_bit_clear b : is_u8 b → (Z.land b 0x80 =? 0) = (b <? 0x80).
Proof.
  intros Hb. apply Bool.eqb_prop.
  by apply (small_range (λ b, Bool.eqb (Z.land b 0x80 =? 0) (b <? 0x80)) 256 b).
Qed.

Lemma der_length_octets o l : der_length o l → (1 ≤ length o ≤ 9)%nat.
Proof. intros [b Hb|bs Hbs]; simpl; lia. Qed.

Section Lengths.
Context {S : Type}.

Lemma check_length_complete o l rest (s : S) :
  der_length o l → check_length (o ++ rest) s = (Ok (l, len o), s).
Proof.
  intros [b Hb|bs Hbs].
  - unfold check_length. cbn [app nth]. rewrite top_bit_clear by (split; lia).
    destruct (Z.ltb_spec (len (b :: rest)) 1) as [Hl|_]; [unfold len in Hl; simpl in Hl; lia|].
    destruct (Z.ltb_spec b 0x80); [done|lia].
  - unfold check_length. cbn [app nth]. unfold len in *. cbn [length] in *.
    rewrite top_bit_clear by (split; lia).
    rewrite length_app.
    destruct (Z.ltb_spec (Z.of_nat (Datatypes.S (length bs + length rest))) 1); [lia|].
    destruct (Z.ltb_spec (0x80 + Z.of_nat (length bs)) 0x80); [lia|].
    replace (0x80 + Z.of_nat (length bs) - 0x80) with (Z.of_nat (length bs)) by lia.
    destruct (Z.ltb_spec (Z.of_nat (Datatypes.S (length bs + length rest))) (Z.of_nat (length bs) + 1)); [lia|].
    destruct (Z.eqb_spec (Z.of_nat (length bs)) 0); [lia|].
    destruct (Z.ltb_spec 8 (Z.of_nat (length bs))); [lia|]. cbn [orb].
    unfold ret. do 3 f_equal; [|lia]. do 2 f_equal. rewrite Nat2Z.id. cbn [skipn].
    by rewrite drop_0, take_app_length.
Qed.

Lemma check_length_sound data l k (s s' : S) :
  Forall is_u8 data → check_length data s = (Ok (l, k), s') →
  s = s' ∧ ∃ o rest, data = o ++ rest ∧ der_length o l ∧ k = len o.
Proof.
  intros Hd H. unfold check_length in H. destruct data as [|b data]; [done|].
  inversion Hd as [|? ? Hb Hd']; subst. cbn [nth] in H. rewrite top_bit_clear in H by done.
  destruct (Z.ltb_spec (len (b :: data)) 1); [done|].
  destruct (Z.ltb_spec b 0x80).
  - injection H as <- <- <-. split; [done|]. exists [b], data. split_and!; [done|constructor|done].
    unfold is_uint in Hb. lia.
  - destruct (Z.ltb_spec (len (b :: data)) (b - 0x80 + 1)); [done|].
    destruct (Z.eqb_spec (b - 0x80) 0); [done|]. cbn [orb] in H.
    destruct (Z.ltb_spec 8 (b - 0x80)); [done|]. injection H as <- <- <-. split; [done|].
    set (k := Z.to_nat (b - 0x80)). unfold len in *. cbn [length drop] in *.
    assert (Z.of_nat k = b - 0x80) as Hkz by (unfold k; lia). clearbody k.
    assert (length (take k data) = k) as Hk by (rewrite length_take; lia).
    exists (b :: take k data), (drop k data). split_and!.
    + cbn. by rewrite take_drop.
    + replace b with (0x80 + len (take k data)) at 1 by (unfold len; rewrite Hk; lia).
      rewrite drop_0. constructor. lia.
    + cbn [length]. lia.
Qed.
End Lengths.

(** ** What is accepted in a checked build *)

Definition version3 : bytes := [0xA0; 3; 2; 1; 2].

(** [signed_with oid data]: at some place of [data] there is an algorithm identifier with [oid]. *)
Definition signed_with (oid data : bytes) : Prop :=
  ∃ pre o tail, data = pre ++ ASN1_TAG_SEQUENCE :: o ++ [0x06; len oid] ++ oid ++ tail ∧
    ∃ l, der_length o l.

(** [certificates algo data n]: [data] is cut into [n] sequences, each of exactly the length that
    it declares, that begin with the fields of a certificate of version 3; the last one is signed
    with the algorithm [algo]. *)
Inductive certificates (algo : Z) : bytes → nat → Prop :=
| certificates_none : certificates algo [] 0
| certificates_next cert o1 o2 body rest tail l n :
    cert = ASN1_TAG_SEQUENCE :: o1 ++ body → der_length o1 (len body) →
    body ++ rest = ASN1_TAG_SEQUENCE :: o2 ++ version3 ++ tail → der_length o2 l →
    (∀ oid, rest = [] → get_oid_by_base_asym_algo algo = Some oid → signed_with oid body) →
    certificates algo rest n → certificates algo (cert ++ rest) (S n).

Section Sound.
Implicit Types s : unit.

Lemma add_usize_ok a b n s s' :
  add_usize (E:=SpdmStatus) Checked a b s = (Ok n, s') → n = a + b ∧ s = s'.
Proof. unfold add_usize. case_bool_decide; [by intros [= <- <-]|done]. Qed.

Lemma from_ok i data d s s' :
  0 ≤ i → from (E:=SpdmStatus) i data s = (Ok d, s') →
  s = s' ∧ ∃ pre, data = pre ++ d ∧ len pre = i.
Proof.
  unfold from. intros Hi. destruct (Z.leb_spec i (len data)); [|done]. intros [= <- <-].
  split; [done|]. exists (take (Z.to_nat i) data). rewrite take_drop. split; [done|].
  unfold len in *. rewrite length_take. lia.
Qed.

Lemma from_app_ok p i data d s s' :
  0 ≤ i → from (E:=SpdmStatus) (len p + i) (p ++ data) s = (Ok d, s') →
  s = s' ∧ ∃ q, data = q ++ d ∧ len q = i.
Proof.
  intros Hi H. apply from_ok in H as [<- (pre&Hpre&Hl)]; [|unfold len; lia]. split; [done|].
  exists (drop (length p) pre). unfold len in *. split; [|rewrite length_drop; lia].
  rewrite <- (drop_app_le pre) by lia. by rewrite <- Hpre, drop_app_length.
Qed.

Lemma tag_ok data s s' : check_tag_is_sequence data s = (Ok tt, s') → s = s' ∧ ∃ d, data = ASN1_TAG_SEQUENCE :: d.
Proof.
  unfold check_tag_is_sequence. destruct data as [|b d]; [done|].
  destruct (Z.eqb_spec (len (b :: d)) 0); [done|]. cbn [nth].
  destruct (Z.eqb_spec b ASN1_TAG_SEQUENCE) as [->|]; [|done]. intros [= <-]. by eauto.
Qed.

(** The head of a sequence: its tag and its length. *)
Lemma sequence_ok {A} data (k : Z * Z → M unit SpdmStatus A) a s s' :
  Forall is_u8 data →
  (check_tag_is_sequence data;; let* rest := from 1 data in bind (check_length rest) k) s = (Ok a, s') →
  ∃ o l d, data = ASN1_TAG_SEQUENCE :: o ++ d ∧ der_length o l ∧ k (l, len o) s = (Ok a, s').
Proof.
  intros Hd H. apply bind_ok in H as ([]&s1&H1&H). apply tag_ok in H1 as [<- [d ->]].
  apply bind_ok in H as (rest&s2&H2&H). apply from_ok in H2 as [<- (pre&Hpre&Hl)]; [|lia].
  destruct pre as [|t [|? ?]]; [done| |unfold len in Hl; simpl in Hl; lia].
  injection Hpre as <- ->. apply bind_ok in H as ([l k']&s3&H3&H).
  apply check_length_sound in H3 as [<- (o&d'&->&Ho&->)]; [|by inversion Hd]. by eauto 10.
Qed.

Lemma der_length_nonneg o l : Forall is_u8 o → der_length o l → 0 ≤ l.
Proof.
  intros Ho Hl. destruct Hl as [b Hb|bs Hbs]; [lia|]. apply le_val_bound, Forall_reverse. exact (Forall_inv_tail Ho).
Qed.

Lemma skip_tag_ok data n s s' :
  Forall is_u8 data → check_and_skip_common_tag Checked data s = (Ok n, s') →
  s = s' ∧ 2 ≤ n ≤ len data.
Proof.
  intros Hd H. unfold check_and_skip_common_tag in H. destruct (Z.ltb_spec (len data) 1); [done|].
  apply bind_ok in H as (rest&s1&H1&H). apply from_ok in H1 as [<- (pre&->&_)]; [|lia].
  apply Forall_app in Hd as [_ Hd].
  apply bind_ok in H as ([l k]&s2&H2&H).
  apply check_length_sound in H2 as [<- (o&d&->&Ho&->)]; [|done]. apply Forall_app in Hd as [Hd _].
  apply bind_ok in H as (m&s3&[-> <-]%add_usize_ok&H).
  destruct (Z.ltb_spec (len (pre ++ o ++ d)) (1 + len o + l)); [done|]. injection H as <- <-.
  apply der_length_nonneg in Ho as Hl; [|done]. apply der_length_octets in Ho. unfold len in *.
  split; [done|]. lia.
Qed.

Lemma skip_sequence_ok data n s s' :
  Forall is_u8 data → check_and_skip_common_sequence Checked data s = (Ok n, s') → s = s' ∧ 2 ≤ n ≤ len data.
Proof.
  intros Hd H. unfold check_and_skip_common_sequence in H.
  destruct (_ || _) eqn:Hc; [done|]. apply orb_false_iff in Hc as [Hc _].
  apply (skip_tag_ok data); [done|]. unfold check_and_skip_common_tag. by rewrite Hc.
Qed.

Lemma version_ok data n s s' :
  check_version data s = (Ok n, s') → s = s' ∧ n = 5 ∧ ∃ tail, data = version3 ++ tail.
Proof.
  unfold check_version. intros H. destruct data as [|b0 [|b1 [|b2 [|b3 [|b4 tail]]]]];
    try discriminate H.
  cbn [nth] in H. destruct (_ || _ || _ || _ || _) eqn:Hc; [done|].
  rewrite !orb_false_iff, !negb_false_iff, !Z.eqb_eq in Hc. destruct Hc as ((((_&->)&->)&->)&->).
  destruct (Z.eqb_spec b4 2) as [->|]; [|done]. injection H as <- <-. by eauto.
Qed.

Lemma same_identifiers a b : object_identifiers_are_same a b = true ↔ a = b.
Proof.
  unfold object_identifiers_are_same, len. destruct (Z.eqb_spec (Z.of_nat (length a)) (Z.of_nat (length b))) as [Hl|Hl]; cbn [negb].
  - apply Nat2Z.inj in Hl. revert b Hl. induction a as [|x a IH]; intros [|y b] Hl; try done.
    injection Hl as Hl. cbn. rewrite andb_true_iff, Z.eqb_eq, IH by done.
    split; [by intros [-> ->]|by intros [= -> ->]].
  - split; [done|]. by intros ->.
Qed.

Lemma identifier_ok data oid n s s' :
  Forall is_u8 data → check_object_identifier data oid s = (Ok n, s') →
  s = s' ∧ ∃ o tail, data = [0x06; len o] ++ o ++ tail ∧ (∀ o', oid = Some o' → o = o').
Proof.
  intros Hd H. unfold check_object_identifier in H. destruct data as [|t [|l data]]; [done| |].
  { destruct (Z.ltb_spec (len [t]) 2) as [|Hl]; [done|unfold len in Hl; simpl in Hl; lia]. }
  cbn [nth] in H. destruct (_ || _) eqn:Hc; [done|]. apply orb_false_iff in Hc as [_ Ht].
  apply negb_false_iff, Z.eqb_eq in Ht as ->. destruct (_ || _) eqn:Hc; [done|].
  apply orb_false_iff in Hc as [Hl%Z.ltb_ge Hs%Z.leb_gt].
  inversion Hd as [|? ? _ Hd1]; subst. inversion Hd1 as [|? ? Hl8 _]; subst. cbn [drop] in H.
  set (o := take (Z.to_nat l) data).
  assert (len o = l) as Ho by (unfold o, len in *; rewrite length_take; cbn [length] in Hl; unfold is_uint in Hl8; lia).
  assert (s = s' ∧ ∀ o', oid = Some o' → o = o') as [-> Hoid].
  { destruct oid as [o'|]; [|by injection H as _ <-]. rewrite drop_0 in H. fold o in H.
    destruct (object_identifiers_are_same o o') eqn:He; [|done]. apply same_identifiers in He as <-.
    injection H as _ <-. split; [done|]. by intros ? [= <-]. }
  split; [done|]. exists o, (drop (Z.to_nat l) data). split; [|done].
  rewrite Ho. unfold o. cbn. by rewrite take_drop.
Qed.

Lemma tbs_ok data algo leaf n s s' :
  Forall is_u8 data → check_tbs_certificate Checked data algo leaf s = (Ok n, s') →
  ∃ o l tail, data = ASN1_TAG_SEQUENCE :: o ++ version3 ++ tail ∧ der_length o l ∧ 2 ≤ n ≤ len data.
Proof.
  intros Hd H. apply sequence_ok in H as (o&l&d&->&Ho&H); [|done].
  apply bind_ok in H as (m&s1&[-> <-]%add_usize_ok&H).
  destruct (Z.ltb_spec (len (ASN1_TAG_SEQUENCE :: o ++ d)) (1 + len o + l)) as [|Hl]; [done|].
  pose proof (Forall_inv_tail Hd) as Hd1. apply Forall_app in Hd1 as [Ho8 _].
  apply der_length_nonneg in Ho as Hl0; [|done]. pose proof (der_length_octets _ _ Ho) as Hol.
  apply bind_ok in H as (rest&s2&H1&H). apply from_ok in H1 as [<- (pre&Hpre&Hp)]; [|unfold len; lia].
  change (ASN1_TAG_SEQUENCE :: o ++ d) with ((ASN1_TAG_SEQUENCE :: o) ++ d) in Hpre.
  apply app_inj_1 in Hpre as [<- <-]; [|unfold len in *; cbn [length] in *; lia].
  apply bind_ok in H as (k&s3&H2&H). apply version_ok in H2 as (<-&->&tail&->).
  repeat (apply bind_ok in H as ([? ?]&?&_&H) || apply bind_ok in H as (?&?&_&H)).
  apply add_usize_ok in H as [-> _]. exists o, l, tail. split_and!; [done|done| |lia].
  unfold len. lia.
Qed.

Lemma algorithm_ok data algo leaf n s s' :
  Forall is_u8 data → check_signature_algorithm Checked data algo leaf s = (Ok n, s') →
  0 ≤ n ∧ ∃ o l oid tail, data = ASN1_TAG_SEQUENCE :: o ++ [0x06; len oid] ++ oid ++ tail ∧
    der_length o l ∧ ∀ oid', expected_oid algo leaf = Some oid' → oid = oid'.
Proof.
  intros Hd H. apply sequence_ok in H as (o&l&d&->&Ho&H); [|done].
  pose proof (Forall_inv_tail Hd) as Hd1. apply Forall_app in Hd1 as [Ho8 Hd8].
  apply der_length_nonneg in Ho as Hl0; [|done]. pose proof (der_length_octets _ _ Ho) as Hol.
  apply bind_ok in H as (rest&s2&H1&H). apply from_ok in H1 as [<- (pre&Hpre&Hp)]; [|unfold len; lia].
  change (ASN1_TAG_SEQUENCE :: o ++ d) with ((ASN1_TAG_SEQUENCE :: o) ++ d) in Hpre.
  apply app_inj_1 in Hpre as [<- <-]; [|unfold len in *; cbn [length] in *; lia].
  apply bind_ok in H as (k&s3&H2&H). apply identifier_ok in H2 as (<-&oid&tail&->&Hoid); [|done].
  apply add_usize_ok in H as [-> _]. split; [unfold len; lia|]. by exists o, l, oid, tail.
Qed.

(** A certificate at the front of [cert]. *)
Lemma cert_ok cert algo n s s' :
  Forall is_u8 cert → check_cert_format Checked cert algo s = (Ok n, s') →
  ∃ o1 o2 body rest tail l,
    cert = ASN1_TAG_SEQUENCE :: o1 ++ body ++ rest ∧ n = 1 + len o1 + len body ∧
    der_length o1 (len body) ∧
    body ++ rest = ASN1_TAG_SEQUENCE :: o2 ++ version3 ++ tail ∧ der_length o2 l ∧
    ∀ oid, rest = [] → get_oid_by_base_asym_algo algo = Some oid → signed_with oid body.
Proof.
  intros Hd H. apply sequence_ok in H as (o1&l1&d&->&Ho1&H); [|done].
  pose proof (Forall_inv_tail Hd) as Hd1. apply Forall_app in Hd1 as [Ho8 Hd8].
  apply der_length_nonneg in Ho1 as Hl0; [|done]. pose proof (der_length_octets _ _ Ho1) as Hol.
  apply bind_ok in H as (cert_end&s1&[-> <-]%add_usize_ok&H). set (leaf := _ =? _) in H.
  apply bind_ok in H as (rest&s2&H1&H). apply from_ok in H1 as [<- (pre&Hpre&Hp)]; [|unfold len; lia].
  change (ASN1_TAG_SEQUENCE :: o1 ++ d) with ((ASN1_TAG_SEQUENCE :: o1) ++ d) in *.
  set (p := ASN1_TAG_SEQUENCE :: o1) in *.
  assert (1 + len o1 = len p) as Hlp by (unfold p, len; cbn [length]; lia). rewrite Hlp in *.
  apply app_inj_1 in Hpre as [<- <-]; [|unfold len in *; lia].
  apply bind_ok in H as (n1&s3&H2&H). apply tbs_ok in H2 as (o2&l&tail&Hd2&Ho2&Hn1); [|done].
  apply bind_ok in H as (w1&s4&[-> <-]%add_usize_ok&H).
  apply bind_ok in H as (r1&s5&H3&H). apply from_app_ok in H3 as [<- (tbs&->&<-)]; [|lia].
  apply Forall_app in Hd8 as [_ Hr1].
  apply bind_ok in H as (n2&s6&H4&H). apply algorithm_ok in H4 as (Hn2&o3&l3&oid&tail3&Hr&Ho3&Hoid); [|done].
  apply bind_ok in H as (w2&s7&[-> <-]%add_usize_ok&H).
  apply bind_ok in H as (r2&s8&H5&H). rewrite <- Z.add_assoc in H5.
  apply from_app_ok in H5 as [<- (q&Hq&Hlq)]; [|unfold len; lia].
  assert (Forall is_u8 r2) as Hr2
    by (apply Forall_app in Hd as [_ Hd]; rewrite Hq in Hd; by apply Forall_app in Hd as [_ ?]).
  apply bind_ok in H as (n3&s9&H6&H). apply skip_tag_ok in H6 as [<- Hn3]; [|done].
  apply bind_ok in H as (w3&s10&[-> <-]%add_usize_ok&H).
  apply bind_ok in H as (cert_end&s11&[-> <-]%add_usize_ok&H).
  destruct (Z.eqb_spec (len p + len tbs + n2 + n3) (len p + l1)) as [He|]; [|done]. injection H as <- <-.
  assert (len (tbs ++ r1) = len q + len r2) as Hlen by (rewrite Hq; unfold len; rewrite length_app; lia).
  set (k := Z.to_nat l1).
  assert (len (take k (tbs ++ r1)) = l1) as Hk
    by (unfold k, len in *; rewrite length_take; lia).
  exists o1, o2, (take k (tbs ++ r1)), (drop k (tbs ++ r1)), tail, l.
  rewrite take_drop, Hk. split_and!; [done|lia|done|done|done|].
  intros oid' Hnil Hoid'. apply (f_equal length) in Hnil. rewrite length_drop in Hnil. cbn in Hnil.
  assert (leaf = true) as Hleaf
    by (unfold leaf; apply Z.eqb_eq; unfold k, len in *; rewrite length_app; lia).
  rewrite (Hoid oid') in Hr by (by rewrite Hleaf).
  rewrite take_ge by lia. exists tbs, o3, tail3. split; [by rewrite Hr|by eauto].
Qed.

Lemma loop_ok fuel pre data algo count w' count' s s' :
  Forall is_u8 data →
  cert_chain_loop Checked fuel (pre ++ data) algo (len pre) count s = (Ok (Some (w', count')), s') →
  w' = len (pre ++ data) → ∃ n, certificates algo data n ∧ count' = count + Z.of_nat n.
Proof.
  revert pre data count s. induction fuel as [|fuel IH]; intros pre data count s Hd H Hend.
  all: cbn [cert_chain_loop] in H; destruct (Z.ltb_spec (len pre) (len (pre ++ data))) as [Hlt|Hge].
  all: try (destruct data; [|unfold len in Hge; rewrite length_app in Hge; cbn in Hge; lia];
    injection H as <- <- <-; exists 0%nat; split; [constructor|lia]).
  - done.
  - apply bind_ok in H as (d&s1&H1&H). rewrite <- (Z.add_0_r (len pre)) in H1.
    apply from_app_ok in H1 as [<- (q&->&Hq)]; [|lia].
    destruct q as [|]; [|unfold len in Hq; cbn in Hq; lia]. cbn [app] in *.
    apply bind_ok in H as (n&s2&H2&H).
    apply cert_ok in H2 as (o1&o2&body&rest&tail&l&->&->&Ho1&Hb&Ho2&Hoid); [|done].
    apply bind_ok in H as (w&s3&[-> <-]%add_usize_ok&H).
    apply bind_ok in H as (c&s4&[-> <-]%add_usize_ok&H).
    set (cert := ASN1_TAG_SEQUENCE :: o1 ++ body).
    assert (ASN1_TAG_SEQUENCE :: o1 ++ body ++ rest = cert ++ rest) as Hcert
      by (unfold cert; cbn; by rewrite <- app_assoc).
    rewrite Hcert, app_assoc in H, Hend. rewrite Hcert in Hd |- *. apply Forall_app in Hd as [_ Hd].
    replace (len pre + (1 + len o1 + len body)) with (len (pre ++ cert)) in H
      by (unfold cert, len; rewrite length_app; cbn [length]; rewrite length_app; lia).
    destruct (IH _ _ _ _ Hd H Hend) as (n&Hn&->). exists (S n). split; [|lia].
    by eapply certificates_next.
Qed.
End Sound.

(** ** What is accepted in every build *)

(** [algorithm_id oid b]: an algorithm identifier with parameters. *)
Definition algorithm_id (oid b : bytes) : Prop :=
  len oid < 0x80 ∧ ∃ params, tlv ASN1_TAG_SEQUENCE ([0x06; len oid] ++ oid ++ params) b.

(** [tbs_certificate oid b]: the signed part of a certificate, field by field. *)
Inductive tbs_certificate (oid : bytes) : bytes → Prop :=
| tbs_fields t c1 c2 c3 c4 c5 serial algorithm issuer validity subject key more b :
    tlv t c1 serial → algorithm_id oid algorithm → tlv ASN1_TAG_SEQUENCE c2 issuer →
    tlv ASN1_TAG_SEQUENCE c3 validity → tlv ASN1_TAG_SEQUENCE c4 subject →
    tlv ASN1_TAG_SEQUENCE c5 key →
    tlv ASN1_TAG_SEQUENCE
      (version3 ++ serial ++ algorithm ++ issuer ++ validity ++ subject ++ key ++ more) b →
    tbs_certificate oid b.

(** [certificate oid b]: a certificate that is signed with the algorithm [oid]. *)
Inductive certificate (oid : bytes) : bytes → Prop :=
| certificate_fields t c tbs algorithm signature b :
    tbs_certificate oid tbs → algorithm_id oid algorithm → tlv t c signature →
    tlv ASN1_TAG_SEQUENCE (tbs ++ algorithm ++ signature) b → certificate oid b.

Lemma len_app a b : len (a ++ b) = len a + len b.
Proof. unfold len. rewrite length_app. lia. Qed.
Lemma len_cons x a : len (x :: a) = 1 + len a.
Proof. unfold len. cbn [length]. lia. Qed.
Lemma len_nonneg a : 0 ≤ len a.
Proof. unfold len. lia. Qed.

Section Complete.
Context (mode : overflow_mode) {S : Type}.
Implicit Types s : S.

Lemma add_usize_fits a b s :
  is_u64 (a + b) → add_usize (E:=SpdmStatus) mode a b s = (Ok (a + b), s).
Proof. intros H. unfold add_usize. by rewrite bool_decide_true. Qed.

Lemma from_at i p data d s :
  i = len p → data = p ++ d → from (E:=SpdmStatus) i data s = (Ok d, s).
Proof.
  intros -> ->. unfold from. rewrite len_app. pose proof (len_nonneg d).
  destruct (Z.leb_spec (len p) (len p + len d)); [|lia]. unfold len. rewrite Nat2Z.id.
  by rewrite drop_app_length.
Qed.

Lemma tag_complete d s : check_tag_is_sequence (ASN1_TAG_SEQUENCE :: d) s = (Ok tt, s).
Proof.
  unfold check_tag_is_sequence. rewrite len_cons. pose proof (len_nonneg d).
  destruct (Z.eqb_spec (1 + len d) 0); [lia|done].
Qed.

Lemma tlv_size t c b : tlv t c b → ∃ o, b = t :: o ++ c ∧ der_length o (len c) ∧
  len b = 1 + len o + len c ∧ 1 ≤ len o.
Proof.
  intros (o&Ho&->). exists o. rewrite len_cons, len_app. apply der_length_octets in Ho as Hl.
  split_and!; [done|done|lia|unfold len; lia].
Qed.

Lemma skip_tag_complete t c b rest s :
  tlv t c b → is_u64 (len (b ++ rest)) →
  check_and_skip_common_tag mode (b ++ rest) s = (Ok (len b), s).
Proof.
  intros (o&->&Ho&Hlen&Ho1)%tlv_size Hb. unfold is_uint in Hb. rewrite len_app in Hb.
  pose proof (len_nonneg rest). pose proof (len_nonneg c).
  unfold check_and_skip_common_tag. rewrite len_app.
  destruct (Z.ltb_spec (len (t :: o ++ c) + len rest) 1); [lia|].
  rewrite (bind_step _ _ _ s (o ++ c ++ rest))
    by (apply (from_at _ [t]); [done|cbn; by rewrite <- app_assoc]).
  rewrite (bind_step _ _ _ _ _ (check_length_complete _ _ _ s Ho)).
  rewrite (bind_step _ _ _ s (1 + len o + len c)) by (apply add_usize_fits; split; lia).
  destruct (Z.ltb_spec (len (t :: o ++ c) + len rest) (1 + len o + len c)); [lia|]. by rewrite Hlen.
Qed.

Lemma skip_sequence_complete c b rest s :
  tlv ASN1_TAG_SEQUENCE c b → is_u64 (len (b ++ rest)) →
  check_and_skip_common_sequence mode (b ++ rest) s = (Ok (len b), s).
Proof.
  intros Htlv Hb. rewrite <- (skip_tag_complete _ c b rest s) by done.
  destruct Htlv as (o&_&->). unfold check_and_skip_common_sequence, check_and_skip_common_tag.
  cbn [app nth]. by rewrite Z.eqb_refl, orb_false_r.
Qed.

Lemma sequence_complete c b rest :
  tlv ASN1_TAG_SEQUENCE c b →
  ∃ o, b = ASN1_TAG_SEQUENCE :: o ++ c ∧ len b = 1 + len o + len c ∧ 1 ≤ len o ∧
    ∀ A (k : Z * Z → M S SpdmStatus A) s,
      (check_tag_is_sequence (b ++ rest);; let* r := from 1 (b ++ rest) in bind (check_length r) k) s =
      k (len c, len o) s.
Proof.
  intros (o&->&Ho&Hlen&Ho1)%tlv_size. exists o. split_and!; [done..|]. intros A k s.
  rewrite (bind_step _ _ _ s tt) by apply tag_complete.
  rewrite (bind_step _ _ _ s (o ++ c ++ rest))
    by (apply (from_at _ [ASN1_TAG_SEQUENCE]); [done|cbn; by rewrite <- app_assoc]).
  by rewrite (bind_step _ _ _ _ _ (check_length_complete _ _ _ s Ho)).
Qed.

Lemma identifier_complete oid expected rest s :
  len oid < 0x80 → (∀ e, expected = Some e → e = oid) →
  check_object_identifier ([0x06; len oid] ++ oid ++ rest) expected s = (Ok (len oid + 2), s).
Proof.
  intros Hl He. unfold check_object_identifier. cbn [app nth].
  pose proof (len_nonneg oid). pose proof (len_nonneg rest). rewrite !len_cons, len_app.
  destruct (Z.ltb_spec (1 + (1 + (len oid + len rest))) 2); [lia|]. cbn [orb negb].
  rewrite Z.eqb_refl. cbn [negb].
  destruct (Z.ltb_spec (1 + (1 + (len oid + len rest))) (len oid + 2)); [lia|].
  destruct (Z.leb_spec 0x80 (len oid)); [lia|]. cbn [orb].
  destruct expected as [e|]; [|done]. rewrite (He e) by done. cbn [drop]. rewrite drop_0.
  unfold len at 1. rewrite Nat2Z.id, take_app_length.
  by rewrite (proj2 (same_identifiers oid oid) eq_refl).
Qed.

Lemma algorithm_complete oid b rest algo leaf s :
  algorithm_id oid b → is_u64 (len (b ++ rest)) → (∀ e, expected_oid algo leaf = Some e → e = oid) →
  check_signature_algorithm mode (b ++ rest) algo leaf s = (Ok (len b), s).
Proof.
  intros (Hoid&params&Hb) Hu He. unfold check_signature_algorithm.
  destruct (sequence_complete _ b rest Hb) as (o&->&Hlen&Ho&Hseq). rewrite Hseq.
  unfold is_uint in Hu. rewrite len_app, Hlen in Hu. pose proof (len_nonneg rest).
  cbv beta iota zeta.
  rewrite (bind_step _ _ _ s ([0x06; len oid] ++ oid ++ params ++ rest))
    by (apply (from_at _ (ASN1_TAG_SEQUENCE :: o)); [by rewrite len_cons|cbn [app]; rewrite <- !app_assoc; cbn [app]; by rewrite <- ?app_assoc]).
  rewrite (bind_step _ _ _ _ _ (identifier_complete _ _ _ s Hoid He)).
  rewrite Hlen. apply add_usize_fits. split; [|lia]. pose proof (len_nonneg ([6; len oid] ++ oid ++ params)). lia.
Qed.

Lemma version_complete d s : check_version (version3 ++ d) s = (Ok 5, s).
Proof.
  unfold check_version, version3. cbn [app nth]. rewrite !len_cons. pose proof (len_nonneg d).
  by destruct (Z.ltb_spec (1 + (1 + (1 + (1 + (1 + len d))))) 5); [lia|].
Qed.

(** [moves_to p d] reads on behind [p], [adds] advances a position, [skips H d] skips a sequence before [d]. *)
Ltac moves_to p d :=
  rewrite (bind_step _ _ _ _ d)
    by (apply (from_at _ p);
        [rewrite ?len_app, ?len_cons; try change (len []) with 0; lia
        |repeat match goal with x := _ : bytes |- _ => subst x end;
         by do 5 (cbn [app]; rewrite <- ?app_assoc)]).
Ltac adds :=
  match goal with
  | |- bind (add_usize _ ?a ?b) _ ?s = _ =>
      rewrite (bind_step _ _ _ _ _ (add_usize_fits a b s ltac:(split; lia)))
  end.
Ltac skips H d :=
  rewrite (bind_step _ _ _ _ _ (skip_sequence_complete _ _ d _ H ltac:(split; rewrite ?len_app; lia))).

Lemma tbs_complete oid b rest algo leaf s :
  tbs_certificate oid b → is_u64 (len (b ++ rest)) →
  (∀ e, expected_oid algo leaf = Some e → e = oid) →
  check_tbs_certificate mode (b ++ rest) algo leaf s = (Ok (len b), s).
Proof.
  intros [t c1 c2 c3 c4 c5 serial algorithm issuer validity subject key more b' H1 H2 H3 H4 H5 H6 Hb]
    Hu He. unfold check_tbs_certificate.
  destruct (sequence_complete _ b' rest Hb) as (o&->&Hlen&Ho&Hseq). rewrite Hseq. cbv beta iota zeta.
  destruct H2 as (Hoid&params&(oa&->&Hoa&Hla&Hoa1)%tlv_size).
  set (d6 := more ++ rest). set (d5 := key ++ d6). set (d4 := subject ++ d5).
  set (d3 := validity ++ d4). set (d2 := issuer ++ d3).
  set (ca := [6; len oid] ++ oid ++ params) in *.
  set (alg := ASN1_TAG_SEQUENCE :: oa ++ ca) in *.
  set (p := ASN1_TAG_SEQUENCE :: o).
  set (data := _ ++ rest).
  assert (data = p ++ version3 ++ serial ++ alg ++ d2) as Hdata.
  { unfold data, p, d2, d3, d4, d5, d6. cbn [app]. by rewrite <- !app_assoc. }
  clearbody data. subst data. clear Hseq. unfold is_uint in Hu.
  assert (len p = 1 + len o) as Hp by apply len_cons.
  rewrite len_app, Hlen, !len_app, Hla in Hu. rewrite Hlen, !len_app, Hla.
  change (len version3) with 5 in *.
  pose proof (len_nonneg serial). pose proof (len_nonneg ca). pose proof (len_nonneg issuer).
  pose proof (len_nonneg validity). pose proof (len_nonneg subject). pose proof (len_nonneg key).
  pose proof (len_nonneg more). pose proof (len_nonneg rest).
  assert (len d6 = len more + len rest) as Hd6 by apply len_app.
  assert (len d5 = len key + len d6) as Hd5 by apply len_app.
  assert (len d4 = len subject + len d5) as Hd4 by apply len_app.
  assert (len d3 = len validity + len d4) as Hd3 by apply len_app.
  assert (len d2 = len issuer + len d3) as Hd2 by apply len_app.
  adds. destruct (Z.ltb_spec (len p + (5 + (len serial + (1 + len oa + len ca + len d2))))
                    (1 + len o + (5 + (len serial + (1 + len oa + len ca + (len issuer + (len validity + (len subject + (len key + len more))))))))); [lia|].
  moves_to p (version3 ++ serial ++ alg ++ d2).
  rewrite (bind_step _ _ _ _ _ (version_complete _ s)).
  assert (len version3 = 5) as Hv by done.
  moves_to (p ++ version3) (serial ++ alg ++ d2).
  rewrite (bind_step _ _ _ _ _ (skip_tag_complete _ _ _ (alg ++ d2) s H1 ltac:(split; rewrite ?len_app; lia))).
  adds. moves_to (p ++ version3 ++ serial) (alg ++ d2).
  rewrite (bind_step _ _ _ s tt) by apply tag_complete. adds.
  moves_to (p ++ version3 ++ serial ++ [ASN1_TAG_SEQUENCE]) (oa ++ ca ++ d2).
  rewrite (bind_step _ _ _ _ _ (check_length_complete _ _ _ s Hoa)). adds.
  moves_to (p ++ version3 ++ serial ++ ASN1_TAG_SEQUENCE :: oa) ([6; len oid] ++ oid ++ params ++ d2).
  rewrite (bind_step _ _ _ _ _ (identifier_complete _ _ _ s Hoid He)). adds.
  moves_to (p ++ version3 ++ serial ++ alg) d2. skips H3 d3. adds.
  moves_to (p ++ version3 ++ serial ++ alg ++ issuer) d3. skips H4 d4. adds.
  moves_to (p ++ version3 ++ serial ++ alg ++ issuer ++ validity) d4. skips H5 d5. adds.
  moves_to (p ++ version3 ++ serial ++ alg ++ issuer ++ validity ++ subject) d5. skips H6 d6.
  apply add_usize_fits. split; lia.
Qed.

Lemma cert_complete oid b rest algo s :
  certificate oid b → is_u64 (len (b ++ rest)) →
  (∀ e, rest = [] → get_oid_by_base_asym_algo algo = Some e → e = oid) →
  check_cert_format mode (b ++ rest) algo s = (Ok (len b), s).
Proof.
  intros [t c tbs alg sig b' Htbs Halg Hsig Hb] Hu He. unfold check_cert_format.
  destruct (sequence_complete _ b' rest Hb) as (o&->&Hlen&Ho&Hseq). rewrite Hseq. cbv beta iota zeta.
  set (p := ASN1_TAG_SEQUENCE :: o). set (data := _ ++ rest) in *.
  assert (data = p ++ tbs ++ alg ++ sig ++ rest) as Hdata
    by (unfold data, p; cbn [app]; by rewrite <- !app_assoc).
  assert (len data = 1 + len o + len (tbs ++ alg ++ sig) + len rest) as Hld
    by (unfold data; by rewrite len_app, Hlen).
  unfold is_uint in Hu. rewrite Hld in Hu |- *. rewrite Hdata. clear Hseq Hdata Hld data.
  assert (len p = 1 + len o) as Hp by apply len_cons.
  rewrite !len_app in Hu |- *.
  pose proof (len_nonneg tbs). pose proof (len_nonneg alg). pose proof (len_nonneg sig).
  pose proof (len_nonneg rest). adds. set (leaf := _ =? _).
  assert (∀ e, expected_oid algo leaf = Some e → e = oid) as He'.
  { unfold expected_oid. destruct leaf eqn:Hleaf; [|done]. apply Z.eqb_eq in Hleaf.
    intros e. apply He, nil_length_inv. unfold len in *. lia. }
  moves_to p (tbs ++ alg ++ sig ++ rest).
  rewrite (bind_step _ _ _ _ _ (tbs_complete _ _ (alg ++ sig ++ rest) _ _ s Htbs
             ltac:(split; rewrite ?len_app; lia) He')). adds.
  moves_to (p ++ tbs) (alg ++ sig ++ rest).
  rewrite (bind_step _ _ _ _ _ (algorithm_complete _ _ (sig ++ rest) _ _ s Halg
             ltac:(split; rewrite ?len_app; lia) He')). adds.
  moves_to (p ++ tbs ++ alg) (sig ++ rest).
  rewrite (bind_step _ _ _ _ _ (skip_tag_complete _ _ _ rest s Hsig
             ltac:(split; rewrite ?len_app; lia))). adds. adds.
  destruct (Z.eqb_spec (1 + len o + len tbs + len alg + len sig)
              (1 + len o + (len tbs + (len alg + len sig)))); [|lia].
  unfold ret. rewrite Hlen, !len_app. do 2 f_equal. lia.
Qed.

Lemma certificate_nonempty oid b : certificate oid b → 1 ≤ len b.
Proof.
  intros [t c tbs alg sig b' _ _ _ (o&->&_&Hl&Ho)%tlv_size]. rewrite Hl.
  pose proof (len_nonneg (tbs ++ alg ++ sig)). lia.
Qed.

(** Certificates one behind the other, the last one signed with the algorithm [algo]. *)
Definition chain_of (algo : Z) (certs : list bytes) : Prop :=
  Forall (λ b, ∃ oid, certificate oid b) certs ∧
  ∀ front b oid, certs = front ++ [b] → get_oid_by_base_asym_algo algo = Some oid →
    certificate oid b.

Lemma certificate_oid_unique algo b certs :
  chain_of algo (b :: certs) → ∃ oid, certificate oid b ∧
    ∀ e, certs = [] → get_oid_by_base_asym_algo algo = Some e → e = oid.
Proof.
  intros [Hc Hlast]. destruct (get_oid_by_base_asym_algo algo) as [e|] eqn:He.
  - destruct certs as [|b' certs].
    + exists e. split; [by apply (Hlast [])|]. congruence.
    + apply Forall_inv in Hc as [oid Hoid]. exists oid. by split.
  - apply Forall_inv in Hc as [oid Hoid]. exists oid. by split.
Qed.

Lemma loop_complete fuel pre certs algo count s :
  chain_of algo certs → (length certs ≤ fuel)%nat →
  is_u64 (len (pre ++ concat certs)) → is_u64 (count + Z.of_nat (length certs)) → 0 ≤ count →
  cert_chain_loop mode fuel (pre ++ concat certs) algo (len pre) count s =
  (Ok (Some (len (pre ++ concat certs), count + Z.of_nat (length certs))), s).
Proof.
  revert pre certs count. induction fuel as [|fuel IH]; intros pre certs count Hc Hf Hu Hn H0;
    cbn [cert_chain_loop].
  all: destruct certs as [|b certs]; [|cbn [length] in Hf; try lia].
  1,2: cbn [concat length]; rewrite app_nil_r, Z.ltb_irrefl; unfold ret; do 4 f_equal; lia.
  cbn [concat length] in *. destruct (certificate_oid_unique _ _ _ Hc) as (oid&Hb&He).
  pose proof (certificate_nonempty _ _ Hb) as Hb1. unfold is_uint in *. rewrite !len_app in Hu |- *.
  pose proof (len_nonneg pre). pose proof (len_nonneg (concat certs)).
  destruct (Z.ltb_spec (len pre) (len pre + (len b + len (concat certs)))); [|lia].
  rewrite (bind_step _ _ _ s (b ++ concat certs)) by (by apply (from_at _ pre)).
  rewrite (bind_step _ _ _ s (len b)).
  2: { apply (cert_complete oid); [done|split; rewrite ?len_app; lia|]. intros e Hnil. apply He.
       destruct certs as [|b' certs]; [done|]. destruct Hc as [Hc _].
       apply Forall_inv_tail, Forall_inv in Hc as [oid' Hb'%certificate_nonempty].
       cbn in Hnil. apply app_eq_nil in Hnil as [-> _]. by cbn in Hb'. }
  adds. adds. replace (len pre + len b) with (len (pre ++ b)) by apply len_app.
  rewrite app_assoc. rewrite IH; [|..].
  - rewrite !len_app. do 4 f_equal; lia.
  - destruct Hc as [Hc Hlast]. split; [by apply Forall_inv_tail in Hc|]. intros front b' o ->.
    by apply (Hlast (b :: front)).
  - lia.
  - split; rewrite ?len_app; lia.
  - lia.
  - lia.
Qed.
End Complete.

(** ** Properties *)

Lemma loop_turns fuel pre data algo count (s s' : unit) :
  Forall is_u8 data → (length data ≤ fuel)%nat →
  cert_chain_loop Checked fuel (pre ++ data) algo (len pre) count s ≠ (Ok None, s').
Proof.
  revert pre data count s. induction fuel as [|fuel IH]; intros pre data count s Hd Hf H.
  all: cbn [cert_chain_loop] in H; destruct (Z.ltb_spec (len pre) (len (pre ++ data))) as [Hlt|Hge];
    [|done].
  - rewrite len_app in Hlt. unfold len in Hlt. lia.
  - apply bind_ok in H as (d&s1&H1&H). rewrite <- (Z.add_0_r (len pre)) in H1.
    apply from_app_ok in H1 as [<- (q&->&Hq)]; [|lia].
    destruct q as [|]; [|unfold len in Hq; cbn in Hq; lia]. cbn [app] in *.
    apply bind_ok in H as (n&s2&H2&H).
    apply cert_ok in H2 as (o1&o2&body&rest&tail&l&->&->&_); [|done].
    apply bind_ok in H as (w&s3&[-> <-]%add_usize_ok&H).
    apply bind_ok in H as (c&s4&[-> <-]%add_usize_ok&H).
    set (cert := ASN1_TAG_SEQUENCE :: o1 ++ body) in *.
    assert (ASN1_TAG_SEQUENCE :: o1 ++ body ++ rest = cert ++ rest) as Hcert
      by (unfold cert; cbn; by rewrite <- app_assoc).
    rewrite Hcert in H, Hd, Hf. rewrite app_assoc in H. apply Forall_app in Hd as [_ Hd].
    replace (len pre + (1 + len o1 + len body)) with (len (pre ++ cert)) in H
      by (unfold cert, len; rewrite length_app; cbn [length]; rewrite length_app; lia).
    apply IH in H; [done|done|]. rewrite length_app in Hf. cbn [length cert] in Hf. lia.
Qed.

(** C29: In a checked build the format check is sound and ends.  On any bytes, with one turn per
    byte, it either fails, panics, or accepts a number of certificates; and what it accepts is cut
    without rest into that many sequences of exactly the length they declare, each beginning like
    a certificate of version 3, the last one signed with the negotiated algorithm. *)
Theorem x509_chain_sound (fuel : nat) (chain : bytes) (algo : Z) :
  Forall is_u8 chain → (length chain ≤ fuel)%nat →
  match run (check_cert_chain_format Checked fuel chain algo) with
  | Ok (Some n) => ∃ k, n = Z.of_nat k ∧ certificates algo chain k
  | Ok None => False
  | _ => True
  end.
Proof.
  intros Hc Hf. unfold run, check_cert_chain_format, bind.
  destruct (cert_chain_loop _ _ _ _ _ _ _) as [[[[w n]|]|e|] s] eqn:H; [|..|done|done].
  - destruct (Z.eqb_spec w (len chain)) as [Hw|]; [|done]. cbn.
    apply (loop_ok _ []) in H as (k&Hk&->); [by exists k|done|done].
  - by apply (loop_turns _ []) in H.
Qed.

(** C30: Every chain of well-formed certificates is accepted, in both kinds of build, with the
    number of its certificates: the fields may have any contents, lengths any encoding of up to
    eight octets, and the last certificate must be signed with the negotiated algorithm. *)
Theorem x509_chain_complete (mode : overflow_mode) (fuel : nat) (certs : list bytes) (algo : Z) :
  chain_of algo certs → (length certs ≤ fuel)%nat → len (concat certs) < 2 ^ 63 →
  run (check_cert_chain_format mode fuel (concat certs) algo) =
  Ok (Some (Z.of_nat (length certs))).
Proof.
  intros Hc Hf Hl.
  assert (Z.of_nat (length certs) ≤ len (concat certs)) as Hn.
  { destruct Hc as [Hc _]. clear Hf Hl. induction Hc as [|b certs [oid Hb] _ IH]; [done|].
    apply certificate_nonempty in Hb. cbn [concat length]. rewrite len_app. lia. }
  pose proof (len_nonneg (concat certs)).
  unfold run, check_cert_chain_format.
  rewrite (bind_step _ _ _ tt (Some (len (concat certs), 0 + Z.of_nat (length certs)))).
  - cbn [fst]. by rewrite Z.eqb_refl.
  - apply (loop_complete mode fuel []); [done|done|split; cbn; lia|split; lia|lia].
Qed.

(** A sequence that declares [2 ^ 64 - 10] bytes, with an algorithm identifier that leads back to
    its first byte. *)
Definition endless : bytes :=
  [0x30; 0x88; 255; 255; 255; 255; 255; 255; 255; 0xF6] ++
  [0x30; 0x13] ++ version3 ++ [0x02; 0; 0x30; 2; 0x06; 0; 0x30; 0; 0x30; 0; 0x30; 0; 0x30; 0] ++
  [0x30; 0x88; 255; 255; 255; 255; 255; 255; 255; 0xD7; 0x06; 0].

(** C39: Malformed lengths defeat the check.  In a release build, where sums wrap around, there are
    43 bytes on which the loop over the certificates takes no certificate and never ends; a
    checked build panics on them.  And a length of nine octets panics in both builds. *)
Theorem x509_malformed_lengths (algo : Z) :
  (∀ fuel, run (check_cert_chain_format Wrapping fuel endless algo) = Ok None) ∧
  (∀ fuel, run (check_cert_chain_format Checked (S fuel) endless algo) = Panic) ∧
  (∀ mode fuel, run (check_cert_chain_format mode (S fuel) ([0x30; 0x89] ++ replicate 9 1) algo) = Panic).
Proof.
  split_and!.
  - intros fuel. unfold run, check_cert_chain_format.
    assert (∀ count, cert_chain_loop Wrapping fuel endless algo 0 count tt = (Ok None, tt)) as H.
    { induction fuel as [|fuel IH]; intros count; [done|]. cbn [cert_chain_loop].
      change (0 <? len endless) with true. cbv iota.
      rewrite (bind_step _ _ _ tt endless) by done.
      rewrite (bind_step _ _ _ tt 0) by done.
      rewrite (bind_step _ _ _ tt 0) by done. unfold bind at 1, add_usize at 1.
      case_bool_decide; apply IH. }
    by rewrite (bind_step _ _ _ _ _ (H 0)).
  - done.
  - by intros [].
Qed.

(** ** Witnesses *)

Definition toy_algorithm : bytes := [0x30; 0x0A; 0x06; 8] ++ OID_ECDSA 0x03.
Definition toy_tbs : bytes :=
  [0x30; 0x1C] ++ version3 ++ [0x02; 1; 1] ++ toy_algorithm ++
  [0x30; 0; 0x30; 0; 0x30; 0; 0x30; 0].
Definition toy_cert : bytes := [0x30; 0x2D] ++ toy_tbs ++ toy_algorithm ++ [0x03; 1; 0].
Definition toy_chain : list bytes := [toy_cert; toy_cert].

Lemma short_tlv t c : len c < 0x80 → tlv t c (t :: len c :: c).
Proof. intros Hc. exists [len c]. split; [|done]. constructor. pose proof (len_nonneg c). lia. Qed.
Lemma toy_algorithm_id : algorithm_id (OID_ECDSA 0x03) toy_algorithm.
Proof.
  split; [by vm_compute|]. exists []. by apply (short_tlv _ ([0x06; 8] ++ OID_ECDSA 0x03 ++ [])).
Qed.
Lemma toy_certificate : certificate (OID_ECDSA 0x03) toy_cert.
Proof.
  apply (certificate_fields _ 0x03 [0] toy_tbs toy_algorithm [0x03; 1; 0]);
    [|apply toy_algorithm_id|by apply short_tlv|
      by apply (short_tlv _ (toy_tbs ++ toy_algorithm ++ [0x03; 1; 0]))].
  by apply (tbs_fields _ 0x02 [1] [] [] [] [] [0x02; 1; 1] toy_algorithm [0x30; 0] [0x30; 0]
           [0x30; 0] [0x30; 0] []);
    try apply (short_tlv _ []); try apply (short_tlv _ [1]); try apply toy_algorithm_id;
    try by apply (short_tlv _ (version3 ++ [0x02; 1; 1] ++ toy_algorithm ++
                            [0x30; 0; 0x30; 0; 0x30; 0; 0x30; 0])).
Qed.
Lemma toy_chain_of : chain_of SpdmBaseAsymAlgo.TPM_ALG_ECDSA_ECC_NIST_P384 toy_chain.
Proof.
  split.
  - repeat (apply Forall_cons_2; [eexists; apply toy_certificate|]). by apply Forall_nil_2.
  - intros front b oid Heq [= <-]. destruct front as [|? [|? [|]]]; try done.
    injection Heq as _ <-. apply toy_certificate.
Qed.

Lemma x509_chain_complete_witness :
  run (check_cert_chain_format Wrapping 2 (concat toy_chain)
         SpdmBaseAsymAlgo.TPM_ALG_ECDSA_ECC_NIST_P384) = Ok (Some 2).
Proof. apply (x509_chain_complete Wrapping 2 toy_chain); [apply toy_chain_of|done|done]. Defined.

Lemma x509_chain_sound_witness :
  ∃ k, 2 = Z.of_nat k ∧
    certificates SpdmBaseAsymAlgo.TPM_ALG_ECDSA_ECC_NIST_P384 (concat toy_chain) k.
Proof.
  assert (Forall is_u8 (concat toy_chain)) as H8 by (apply (bool_decide_unpack _); by vm_compute).
  exact (x509_chain_sound 94 (concat toy_chain) SpdmBaseAsymAlgo.TPM_ALG_ECDSA_ECC_NIST_P384 H8
           ltac:(apply Nat.leb_le; by vm_compute)).
Defined.
