(* ===== verification/Crypto.v ===== *)
(** The interface of the cryptographic and secret-store callbacks
    (spdmlib/src/crypto/crypto_callbacks.rs, spdmlib/src/secret/secret_callback.rs).

    The library calls cryptography only through tables of function pointers that an
    integrator may register, so the tables are a class, [Crypto], and every component
    above is proved for any instance of it.  A callback that returns [Option] is an
    [outcome unit], one that returns [SpdmResult] an [outcome SpdmStatus]; both may
    panic.  Callbacks whose result depends on more than their arguments (random numbers,
    key pairs, signatures, measurements) act on an abstract [world].

    [AeadLaws], [HashLaws] and [HkdfLaws] state the documented behaviour of the
    primitives that the proofs of the clients use; [SpdmRing] discharges them for the
    implementation of the repository on top of the ring library. *)

From S2P Require Import Prelude Config Codec Status Algo Protocol.

(** An [Option]-returning computation used with [.ok_or(e)?] or
    [if let Some(x) = .. else { return Err(e) }]. *)
Definition some_or {S A} (e : SpdmStatus) (c : M S unit A) : M S SpdmStatus A :=
  map_err (λ _, e) c.

(*@ spdmlib/src/crypto/crypto_callbacks.rs 23-126 SpdmHash, SpdmHmac, SpdmAead, SpdmAsymVerify, SpdmHkdf, SpdmCertOperation, SpdmDhe, SpdmDheKeyExchange, SpdmCryptoRandom *)
Class Crypto := {
  world : Type;
  (* SpdmHash *)
  hash_all : Z → bytes → outcome unit SpdmDigestStruct;
  SpdmHashCtx : Type;
  hash_ctx_init : Z → outcome unit SpdmHashCtx;
  hash_ctx_update : SpdmHashCtx → bytes → outcome SpdmStatus SpdmHashCtx;
  hash_ctx_finalize : SpdmHashCtx → outcome unit SpdmDigestStruct;
  (* SpdmHmac *)
  hmac : Z → bytes → bytes → outcome unit SpdmDigestStruct;
  hmac_verify : Z → bytes → bytes → SpdmDigestStruct → outcome SpdmStatus unit;
  (* SpdmAead: the mutable slices are passed in and returned *)
  aead_encrypt (aead_algo : Z) (key iv : sized) (aad plain_text tag cipher_text : bytes) :
    outcome SpdmStatus (nat * nat) * (bytes * bytes);
  aead_decrypt (aead_algo : Z) (key iv : sized) (aad cipher_text tag plain_text : bytes) :
    outcome SpdmStatus nat * bytes;
  (* SpdmAsymVerify *)
  asym_verify (hash_algo asym_algo : Z) (public_cert_der data : bytes)
    (signature : SpdmSignatureStruct) : outcome SpdmStatus unit;
  (* SpdmHkdf *)
  hkdf_extract : Z → bytes → sized → outcome unit SpdmHkdfPseudoRandomKey;
  hkdf_expand : Z → SpdmHkdfPseudoRandomKey → bytes → nat →
    outcome unit SpdmHkdfOutputKeyingMaterial;
  (* SpdmCertOperation *)
  get_cert_from_cert_chain : bytes → Z → outcome SpdmStatus (nat * nat);
  verify_cert_chain : bytes → outcome SpdmStatus unit;
  (* SpdmDhe *)
  DhePrivate : Type;
  generate_key_pair : Z → M world unit (SpdmDheExchangeStruct * DhePrivate);
  compute_final_key : DhePrivate → SpdmDheExchangeStruct →
    M world unit SpdmDheFinalKeyStruct;
  (* SpdmCryptoRandom: fills the slice *)
  get_random : bytes → M world SpdmStatus (nat * bytes);
}.

(*@ spdmlib/src/secret/secret_callback.rs 11-60 SpdmSecretMeasurement, SpdmSecretPsk, SpdmSecretAsymSign *)
Class Secret `{Crypto} := {
  measurement_collection : SpdmVersion → Z → Z → Z →
    M world unit SpdmMeasurementRecordStructure;
  generate_measurement_summary_hash : SpdmVersion → Z → Z → Z →
    SpdmMeasurementSummaryHashType → M world unit SpdmDigestStruct;
  handshake_secret_hkdf_expand : SpdmVersion → Z → SpdmPskHintStruct → bytes →
    outcome unit SpdmHkdfOutputKeyingMaterial;
  master_secret_hkdf_expand : SpdmVersion → Z → SpdmPskHintStruct → bytes →
    outcome unit SpdmHkdfOutputKeyingMaterial;
  asym_sign : Z → Z → bytes → M world unit SpdmSignatureStruct;
}.

(** ** Laws *)

(** A mutable slice keeps its length; what [aead_encrypt] produces, [aead_decrypt]
    accepts under the same key, nonce and associated data, and returns the plain text. *)
Class AeadLaws `{Crypto} := {
  aead_encrypt_length alg key iv aad pt tag ct o tag' ct' :
    aead_encrypt alg key iv aad pt tag ct = (o, (tag', ct')) →
    length tag' = length tag ∧ length ct' = length ct;
  aead_decrypt_length alg key iv aad ct tag pt o pt' :
    aead_decrypt alg key iv aad ct tag pt = (o, pt') → length pt' = length pt;
  aead_encrypt_result alg key iv aad pt tag ct c t tag' ct' :
    aead_encrypt alg key iv aad pt tag ct = (Ok (c, t), (tag', ct')) →
    c = length pt ∧ t = length tag;
  aead_correct alg key iv aad pt tag ct n tag' ct' buf :
    aead_encrypt alg key iv aad pt tag ct = (Ok n, (tag', ct')) →
    length buf = length ct' →
    aead_decrypt alg key iv aad ct' tag' buf = (Ok (length pt), pt);
}.

(** Digests have the size of their algorithm, and a digest context fed chunk by chunk
    computes the digest of the concatenation.  [hctx_data] is the ghost of a context:
    the algorithm and the data it has absorbed. *)
Class HashLaws `{Crypto} := {
  hctx_data : SpdmHashCtx → Z * bytes;
  hash_all_size alg data d :
    hash_all alg data = Ok d →
    sized_wf SPDM_MAX_HASH_SIZE d ∧ SpdmBaseHashAlgo.get_size (E:=unit) alg = Ok (data_size d);
  hash_ctx_init_data alg ctx : hash_ctx_init alg = Ok ctx → hctx_data ctx = (alg, []);
  hash_ctx_update_data ctx bs ctx' :
    hash_ctx_update ctx bs = Ok ctx' →
    hctx_data ctx' = ((hctx_data ctx).1, (hctx_data ctx).2 ++ bs);
  hash_ctx_finalize_data ctx :
    hash_ctx_finalize ctx = hash_all (hctx_data ctx).1 (hctx_data ctx).2;
}.

(** Key derivation returns keying material of the size asked for, pseudorandom keys of
    the size of the digest. *)
Class HkdfLaws `{Crypto} := {
  hkdf_extract_size alg salt ikm prk :
    hkdf_extract alg salt ikm = Ok prk →
    sized_wf SPDM_MAX_HASH_SIZE prk ∧
    SpdmBaseHashAlgo.get_size (E:=unit) alg = Ok (data_size prk);
  hkdf_expand_size alg prk info n okm :
    hkdf_expand alg prk info n = Ok okm →
    sized_wf SPDM_MAX_HKDF_OKM_SIZE okm ∧ data_size okm = n;
}.

(** A message authentication code is accepted exactly when it is the code of the data. *)
Class HmacLaws `{Crypto} := {
  hmac_size alg key bs d :
    hmac alg key bs = Ok d →
    sized_wf SPDM_MAX_HASH_SIZE d ∧ SpdmBaseHashAlgo.get_size (E:=unit) alg = Ok (data_size d);
  hmac_verify_ok alg key bs d :
    sized_wf SPDM_MAX_HASH_SIZE d →
    hmac_verify alg key bs d = Ok tt ↔
    ∃ d', hmac alg key bs = Ok d' ∧ sized_bytes d' = sized_bytes d;
}.

Arguments hctx_data {_ _} ctx.
