(* ===== verification/Registry.v ===== *)
(** Model of spdmlib/src/crypto/mod.rs, secret/mod.rs and time/mod.rs: the tables of callbacks are global cells that are set once,
    by the first registration or, with the default table, by the first use.

    [crypto_of] puts the tables together as the class [Crypto] that the rest of the development
    works with; [registry_refines] shows that the functions of the module, whatever was registered
    before, are those of one such instance, and [secrets_refine] shows the same of the secrets of the
    device; what was not registered there panics.  The cells are of the library conquer-once:
    [try_init_once] fails on a cell that is set, [try_get_or_init] sets a cell that is not. *)

From S2P Require Import Prelude Config Codec Status Algo Protocol Crypto.

(** * Cells that are set once *)
Section Cells.
Context {I : Type} `{!EqDecision I} {T : I → Type}.

(** One cell for every index. *)
Definition registry : Type := ∀ i, option (T i).
Definition set_cell (i : I) (t : T i) (r : registry) : registry := λ j,
  match decide (i = j) with
  | left e => Some (eq_rect i T t j e)
  | right _ => r j
  end.

Definition try_init_once {E} (i : I) (context : T i) : M registry E bool := λ r,
  match r i with Some _ => (Ok false, r) | None => (Ok true, set_cell i context r) end.
Definition try_get_or_init {E} (i : I) (context : T i) : M registry E (T i) := λ r,
  match r i with Some t => (Ok t, r) | None => (Ok context, set_cell i context r) end.

(** The tables of the build. *)
Context (DEFAULT : ∀ i, T i).
Definition use {E} (i : I) : M registry E (T i) := try_get_or_init i (DEFAULT i).

(** The tables in effect. *)
Definition effective (r : registry) (i : I) : T i := default (DEFAULT i) (r i).
Definition same_tables (r r' : registry) : Prop := ∀ i, effective r' i = effective r i.

Lemma set_cell_eq i t r : set_cell i t r i = Some t.
Proof. unfold set_cell. destruct (decide (i = i)) as [e|]; [|done]. by rewrite (proof_irrel e eq_refl). Qed.
Lemma set_cell_ne i t r j : i ≠ j → set_cell i t r j = r j.
Proof. intros H. unfold set_cell. by destruct (decide (i = j)). Qed.

(** A use answers with the table in effect, and changes none. *)
Lemma use_effective {E} m r : ∃ r', @use E m r = (Ok (effective r m), r') ∧ same_tables r r'.
Proof.
  unfold use, try_get_or_init, same_tables, effective.
  destruct (r m) as [t|] eqn:Hm; [by exists r|].
  eexists; split; [done|]. intros m'. destruct (decide (m = m')) as [->|Hne].
  - by rewrite set_cell_eq, Hm.
  - by rewrite set_cell_ne.
Qed.

(** What a call leaves: the answer, and a registry in which the same tables are in effect. *)
Definition answers {S E A} (r : registry) (run : outcome E A * (registry * S)) (want : outcome E A * S) : Prop :=
  ∃ r', run = (want.1, (r', want.2)) ∧ same_tables r r'.
Definition returns {E A} (r : registry) (run : outcome E A * registry) (want : outcome E A) : Prop :=
  ∃ r', run = (want, r') ∧ same_tables r r'.

Lemma use_returns {E A} m (k : T m → outcome E A) r :
  returns r ((let* t := use m in of_outcome (k t)) r) (k (effective r m)).
Proof.
  destruct (@use_effective E m r) as (r' & Hu & Hs).
  exists r'. split; [|done]. by rewrite (bind_step _ _ _ _ _ Hu).
Qed.
Lemma use_answers {S E A} m (k : T m → M S E A) r (s : S) :
  answers r ((let* t := on_fst (use m) in on_snd (k t)) (r, s)) (k (effective r m) s).
Proof.
  destruct (@use_effective E m r) as (r' & Hu & Hs).
  exists r'. split; [|done]. rewrite (bind_step _ _ _ (r', s) (effective r m)).
  - unfold zoom. cbn. by destruct (k _ s).
  - unfold zoom. cbn. by rewrite Hu.
Qed.

(** A registration takes effect just when the cell is not set: neither a second one nor one after
    the first use of the module does. *)
Lemma register_once {E} m t r :
  ∃ b r', @try_init_once E m t r = (Ok b, r') ∧ (b = true ↔ r m = None) ∧
    effective r' m = (if b then t else effective r m) ∧
    ∀ m', m ≠ m' → effective r' m' = effective r m'.
Proof.
  unfold try_init_once, effective. destruct (r m) as [t'|] eqn:Hm.
  - exists false, r. by rewrite Hm.
  - exists true, (set_cell m t r). rewrite set_cell_eq. split_and!; [done..|].
    intros m' Hne. by rewrite set_cell_ne.
Qed.
(** Use before registration keeps the default table. *)
Lemma use_then_register {E} m t r :
  r m = None → ∃ r', (use m;; @try_init_once E m t) r = (Ok false, r') ∧ effective r' m = DEFAULT m.
Proof.
  intros Hm. unfold use. cbv [bind try_get_or_init try_init_once].
  rewrite Hm, set_cell_eq. eexists; split; [done|]. unfold effective. by rewrite set_cell_eq.
Qed.
End Cells.

(** * Cryptography *)
Section Registry.
(** The state of the outside world, digest contexts and private keys. *)
Context (W Ctx Private : Type).

(*@ spdmlib/src/crypto/crypto_callbacks.rs 23-31 SpdmHash *)
Record SpdmHash := MkSpdmHash {
  hash_all_cb : Z → bytes → outcome unit SpdmDigestStruct;
  hash_ctx_init_cb : Z → outcome unit Ctx;
  hash_ctx_update_cb : Ctx → bytes → outcome SpdmStatus Ctx;
  hash_ctx_finalize_cb : Ctx → outcome unit SpdmDigestStruct;
}.
(*@ spdmlib/src/crypto/crypto_callbacks.rs 33-44 SpdmHmac *)
Record SpdmHmac := MkSpdmHmac {
  hmac_cb : Z → bytes → bytes → outcome unit SpdmDigestStruct;
  hmac_verify_cb : Z → bytes → bytes → SpdmDigestStruct → outcome SpdmStatus unit;
}.
(*@ spdmlib/src/crypto/crypto_callbacks.rs 46-71 SpdmAead *)
Record SpdmAead := MkSpdmAead {
  encrypt_cb : Z → sized → sized → bytes → bytes → bytes → bytes →
    outcome SpdmStatus (nat * nat) * (bytes * bytes);
  decrypt_cb : Z → sized → sized → bytes → bytes → bytes → bytes → outcome SpdmStatus nat * bytes;
}.
(*@ spdmlib/src/crypto/crypto_callbacks.rs 73-82 SpdmAsymVerify *)
Record SpdmAsymVerify := MkSpdmAsymVerify {
  verify_cb : Z → Z → bytes → bytes → SpdmSignatureStruct → outcome SpdmStatus unit;
}.
(*@ spdmlib/src/crypto/crypto_callbacks.rs 84-97 SpdmHkdf *)
Record SpdmHkdf := MkSpdmHkdf {
  hkdf_extract_cb : Z → bytes → sized → outcome unit SpdmHkdfPseudoRandomKey;
  hkdf_expand_cb : Z → SpdmHkdfPseudoRandomKey → bytes → nat →
    outcome unit SpdmHkdfOutputKeyingMaterial;
}.
(*@ spdmlib/src/crypto/crypto_callbacks.rs 99-106 SpdmCertOperation *)
Record SpdmCertOperation := MkSpdmCertOperation {
  get_cert_from_cert_chain_cb : bytes → Z → outcome SpdmStatus (nat * nat);
  verify_cert_chain_cb : bytes → outcome SpdmStatus unit;
}.
(** With the method of the trait [SpdmDheKeyExchange] of its keys. *)
(*@ spdmlib/src/crypto/crypto_callbacks.rs 108-121 SpdmDhe *)
Record SpdmDhe := MkSpdmDhe {
  generate_key_pair_cb : Z → M W unit (SpdmDheExchangeStruct * Private);
  compute_final_key_cb : Private → SpdmDheExchangeStruct → M W unit SpdmDheFinalKeyStruct;
}.
(*@ spdmlib/src/crypto/crypto_callbacks.rs 123-126 SpdmCryptoRandom *)
Record SpdmCryptoRandom := MkSpdmCryptoRandom {
  get_random_cb : bytes → M W SpdmStatus (nat * bytes);
}.

(** The modules of crypto/mod.rs, each with its cell. *)
Inductive module := HASH | HMAC | AEAD | ASYM_VERIFY | DHE | CERT_OPERATION | HKDF | RAND.
#[local] Instance module_eq_dec : EqDecision module.
Proof. solve_decision. Defined.
Definition table (m : module) : Type :=
  match m with
  | HASH => SpdmHash | HMAC => SpdmHmac | AEAD => SpdmAead | ASYM_VERIFY => SpdmAsymVerify
  | DHE => SpdmDhe | CERT_OPERATION => SpdmCertOperation | HKDF => SpdmHkdf | RAND => SpdmCryptoRandom
  end.

(** The tables of the build. *)
Context (DEFAULT : ∀ m, table m).
(*@ spdmlib/src/crypto/mod.rs 22-29 CRYPTO_HASH, CRYPTO_HMAC, CRYPTO_AEAD, CRYPTO_ASYM_VERIFY, CRYPTO_DHE, CRYPTO_CERT_OPERATION, CRYPTO_HKDF, CRYPTO_RAND *)
Definition crypto_cells : Type := registry (T:=table).
#[local] Abbreviation use := (use DEFAULT).
#[local] Abbreviation effective := (effective DEFAULT).

(** ** The functions of the modules *)

(** Every module registers in this way, except [asym_verify]. *)
(*@ spdmlib/src/crypto/mod.rs 55-57 hash::register *)
Definition register {E} (m : module) (context : table m) : M crypto_cells E bool :=
  try_init_once m context.
(*@ spdmlib/src/crypto/mod.rs 217-219 asym_verify::register *)
Definition asym_verify_register {E} (context : SpdmAsymVerify) : M crypto_cells E bool :=
  try_get_or_init ASYM_VERIFY context;; ret true.

(*@ spdmlib/src/crypto/mod.rs 59-64 hash::hash_all *)
Definition reg_hash_all (alg : Z) (bs : bytes) : M crypto_cells unit SpdmDigestStruct :=
  let* t := use HASH in of_outcome (hash_all_cb t alg bs).
(*@ spdmlib/src/crypto/mod.rs 87-93 hash::hash_ctx_init *)
Definition reg_hash_ctx_init (alg : Z) : M crypto_cells unit Ctx :=
  let* t := use HASH in of_outcome (hash_ctx_init_cb t alg).
(*@ spdmlib/src/crypto/mod.rs 95-102 hash::hash_ctx_update *)
Definition reg_hash_ctx_update (ctx : Ctx) (bs : bytes) : M crypto_cells SpdmStatus Ctx :=
  let* t := use HASH in of_outcome (hash_ctx_update_cb t ctx bs).
(*@ spdmlib/src/crypto/mod.rs 104-111 hash::hash_ctx_finalize *)
Definition reg_hash_ctx_finalize (ctx : Ctx) : M crypto_cells unit SpdmDigestStruct :=
  let* t := use HASH in of_outcome (hash_ctx_finalize_cb t ctx).
(*@ spdmlib/src/crypto/mod.rs 174-183 hmac::hmac *)
Definition reg_hmac (alg : Z) (key bs : bytes) : M crypto_cells unit SpdmDigestStruct :=
  let* t := use HMAC in of_outcome (hmac_cb t alg key bs).
(*@ spdmlib/src/crypto/mod.rs 185-195 hmac::hmac_verify *)
Definition reg_hmac_verify (alg : Z) (key bs : bytes) (d : SpdmDigestStruct) : M crypto_cells SpdmStatus unit :=
  let* t := use HMAC in of_outcome (hmac_verify_cb t alg key bs d).
(** The mutable slices are the second part of the state. *)
(*@ spdmlib/src/crypto/mod.rs 394-407 aead::encrypt *)
Definition reg_encrypt (alg : Z) (key iv : sized) (aad plain : bytes)
    : M (crypto_cells * (bytes * bytes)) SpdmStatus (nat * nat) :=
  let* t := on_fst (use AEAD) in on_snd (λ st, encrypt_cb t alg key iv aad plain st.1 st.2).
(*@ spdmlib/src/crypto/mod.rs 409-422 aead::decrypt *)
Definition reg_decrypt (alg : Z) (key iv : sized) (aad cipher tag : bytes)
    : M (crypto_cells * bytes) SpdmStatus nat :=
  let* t := on_fst (use AEAD) in on_snd (λ st, decrypt_cb t alg key iv aad cipher tag st).
(*@ spdmlib/src/crypto/mod.rs 221-238 asym_verify::verify *)
Definition reg_verify (h a : Z) (cert bs : bytes) (signature : SpdmSignatureStruct)
    : M crypto_cells SpdmStatus unit :=
  let* t := use ASYM_VERIFY in of_outcome (verify_cb t h a cert bs signature).
(*@ spdmlib/src/crypto/mod.rs 264-271 dhe::generate_key_pair *)
Definition reg_generate_key_pair (alg : Z) : M (crypto_cells * W) unit (SpdmDheExchangeStruct * Private) :=
  let* t := on_fst (use DHE) in on_snd (generate_key_pair_cb t alg).
(*@ spdmlib/src/crypto/mod.rs 294-299 cert_operation::get_cert_from_cert_chain *)
Definition reg_get_cert_from_cert_chain (chain : bytes) (index : Z) : M crypto_cells SpdmStatus (nat * nat) :=
  let* t := use CERT_OPERATION in of_outcome (get_cert_from_cert_chain_cb t chain index).
(*@ spdmlib/src/crypto/mod.rs 301-306 cert_operation::verify_cert_chain *)
Definition reg_verify_cert_chain (chain : bytes) : M crypto_cells SpdmStatus unit :=
  let* t := use CERT_OPERATION in of_outcome (verify_cert_chain_cb t chain).
(*@ spdmlib/src/crypto/mod.rs 337-346 hkdf::hkdf_extract *)
Definition reg_hkdf_extract (alg : Z) (salt : bytes) (ikm : sized) : M crypto_cells unit SpdmHkdfPseudoRandomKey :=
  let* t := use HKDF in of_outcome (hkdf_extract_cb t alg salt ikm).
(*@ spdmlib/src/crypto/mod.rs 348-358 hkdf::hkdf_expand *)
Definition reg_hkdf_expand (alg : Z) (prk : SpdmHkdfPseudoRandomKey) (info : bytes) (n : nat)
    : M crypto_cells unit SpdmHkdfOutputKeyingMaterial :=
  let* t := use HKDF in of_outcome (hkdf_expand_cb t alg prk info n).
(*@ spdmlib/src/crypto/mod.rs 442-447 rand::get_random *)
Definition reg_get_random (bs : bytes) : M (crypto_cells * W) SpdmStatus (nat * bytes) :=
  let* t := on_fst (use RAND) in on_snd (get_random_cb t bs).

(** ** The instance of [Crypto] *)

Definition crypto_of (t : ∀ m, table m) : Crypto := {|
  world := W;
  hash_all := hash_all_cb (t HASH);
  SpdmHashCtx := Ctx;
  hash_ctx_init := hash_ctx_init_cb (t HASH);
  hash_ctx_update := hash_ctx_update_cb (t HASH);
  hash_ctx_finalize := hash_ctx_finalize_cb (t HASH);
  hmac := hmac_cb (t HMAC);
  hmac_verify := hmac_verify_cb (t HMAC);
  aead_encrypt := encrypt_cb (t AEAD);
  aead_decrypt := decrypt_cb (t AEAD);
  asym_verify := verify_cb (t ASYM_VERIFY);
  hkdf_extract := hkdf_extract_cb (t HKDF);
  hkdf_expand := hkdf_expand_cb (t HKDF);
  get_cert_from_cert_chain := get_cert_from_cert_chain_cb (t CERT_OPERATION);
  verify_cert_chain := verify_cert_chain_cb (t CERT_OPERATION);
  DhePrivate := Private;
  generate_key_pair := generate_key_pair_cb (t DHE);
  compute_final_key := compute_final_key_cb (t DHE);
  get_random := get_random_cb (t RAND);
|}.

#[local] Abbreviation returns := (returns DEFAULT).
#[local] Abbreviation answers := (answers DEFAULT).
(** Whatever was registered before, every function of crypto/mod.rs is that of one instance of
    [Crypto], put together from the tables in effect; and no call of them changes the tables in
    effect, so that all the later calls are those of the same instance. *)
Theorem registry_refines r (K := crypto_of (effective r)) :
  (∀ alg bs, returns r (reg_hash_all alg bs r) (@hash_all K alg bs)) ∧
  (∀ alg, returns r (reg_hash_ctx_init alg r) (@hash_ctx_init K alg)) ∧
  (∀ c bs, returns r (reg_hash_ctx_update c bs r) (@hash_ctx_update K c bs)) ∧
  (∀ c, returns r (reg_hash_ctx_finalize c r) (@hash_ctx_finalize K c)) ∧
  (∀ alg key bs, returns r (reg_hmac alg key bs r) (@hmac K alg key bs)) ∧
  (∀ alg key bs d, returns r (reg_hmac_verify alg key bs d r) (@hmac_verify K alg key bs d)) ∧
  (∀ alg key iv aad plain out,
     answers r (reg_encrypt alg key iv aad plain (r, out))
       (@aead_encrypt K alg key iv aad plain out.1 out.2)) ∧
  (∀ alg key iv aad cipher tag out,
     answers r (reg_decrypt alg key iv aad cipher tag (r, out))
       (@aead_decrypt K alg key iv aad cipher tag out)) ∧
  (∀ h a cert bs sig, returns r (reg_verify h a cert bs sig r) (@asym_verify K h a cert bs sig)) ∧
  (∀ alg w, answers r (reg_generate_key_pair alg (r, w)) (@generate_key_pair K alg w)) ∧
  (∀ chain i, returns r (reg_get_cert_from_cert_chain chain i r) (@get_cert_from_cert_chain K chain i)) ∧
  (∀ chain, returns r (reg_verify_cert_chain chain r) (@verify_cert_chain K chain)) ∧
  (∀ alg salt ikm, returns r (reg_hkdf_extract alg salt ikm r) (@hkdf_extract K alg salt ikm)) ∧
  (∀ alg prk info n, returns r (reg_hkdf_expand alg prk info n r) (@hkdf_expand K alg prk info n)) ∧
  (∀ bs w, answers r (reg_get_random bs (r, w)) (@get_random K bs w)).
Proof.
  repeat match goal with |- _ ∧ _ => split end; intros.
  all: first [exact (use_returns DEFAULT _ (λ t, _) r) | exact (use_answers DEFAULT _ (λ t, _) r _)].
Qed.

(** [asym_verify::register] reports success on a cell that is set, too. *)
Lemma asym_verify_register_reports {E} t r :
  ∃ r', @asym_verify_register E t r = (Ok true, r') ∧
    (r ASYM_VERIFY ≠ None → r' = r) ∧
    (r ASYM_VERIFY = None → effective r' ASYM_VERIFY = t).
Proof.
  unfold asym_verify_register. cbv [bind try_get_or_init].
  destruct (r ASYM_VERIFY) as [t'|] eqn:Hm; cbn; eexists; (split; [reflexivity|]); [done|].
  split; [done|]. intros _. unfold effective. by rewrite set_cell_eq.
Qed.
End Registry.

(** * Secrets of the device and time *)
Section Secrets.
Context `{Crypto}.

(*@ spdmlib/src/secret/secret_callback.rs 39-44 SpdmSecretMeasurement *)
Record SpdmSecretMeasurement := MkSpdmSecretMeasurement {
  measurement_collection_cb : SpdmVersion → Z → Z → Z → M world unit SpdmMeasurementRecordStructure;
  generate_measurement_summary_hash_cb : SpdmVersion → Z → Z → Z →
    SpdmMeasurementSummaryHashType → M world unit SpdmDigestStruct;
}.
(*@ spdmlib/src/secret/secret_callback.rs 46-51 SpdmSecretPsk *)
Record SpdmSecretPsk := MkSpdmSecretPsk {
  handshake_secret_hkdf_expand_cb : SpdmVersion → Z → SpdmPskHintStruct → bytes →
    outcome unit SpdmHkdfOutputKeyingMaterial;
  master_secret_hkdf_expand_cb : SpdmVersion → Z → SpdmPskHintStruct → bytes →
    outcome unit SpdmHkdfOutputKeyingMaterial;
}.
(*@ spdmlib/src/secret/secret_callback.rs 53-60 SpdmSecretAsymSign *)
Record SpdmSecretAsymSign := MkSpdmSecretAsymSign {
  sign_cb : Z → Z → bytes → M world unit SpdmSignatureStruct;
}.
(*@ spdmlib/src/time/time_callbacks.rs 5-8 SpdmTime *)
Record SpdmTime := MkSpdmTime { sleep_cb : Z → M world Empty_set unit }.

Inductive secret := MEASUREMENT | PSK | ASYM_SIGN | TIME.
#[local] Instance secret_eq_dec : EqDecision secret.
Proof. solve_decision. Defined.
Definition secret_table (m : secret) : Type :=
  match m with
  | MEASUREMENT => SpdmSecretMeasurement | PSK => SpdmSecretPsk | ASYM_SIGN => SpdmSecretAsymSign
  | TIME => SpdmTime
  end.

(** [unimplemented!()] panics. *)
(*@ spdmlib/src/secret/mod.rs 23-39 measurement::UNIMPLETEMTED *)
Definition unregistered_measurement : SpdmSecretMeasurement :=
  MkSpdmSecretMeasurement (λ _ _ _ _, panic) (λ _ _ _ _ _, panic).
(*@ spdmlib/src/secret/mod.rs 97-113 psk::UNIMPLETEMTED *)
Definition unregistered_psk : SpdmSecretPsk := MkSpdmSecretPsk (λ _ _ _ _, Panic) (λ _ _ _ _, Panic).
(*@ spdmlib/src/secret/mod.rs 149-154 asym_sign::DEFAULT *)
Definition unregistered_asym_sign : SpdmSecretAsymSign := MkSpdmSecretAsymSign (λ _ _ _, panic).
(*@ spdmlib/src/time/mod.rs 13-15 DEFAULT *)
Definition unregistered_time : SpdmTime := MkSpdmTime (λ _, panic).
Definition unregistered (m : secret) : secret_table m :=
  match m with
  | MEASUREMENT => unregistered_measurement | PSK => unregistered_psk
  | ASYM_SIGN => unregistered_asym_sign | TIME => unregistered_time
  end.

(*@ spdmlib/src/secret/mod.rs 9-11 SECRET_MEASUREMENT_INSTANCE, SECRET_PSK_INSTANCE, SECRET_ASYM_INSTANCE *)
Definition secret_cells : Type := registry (T:=secret_table).
#[local] Abbreviation use := (use unregistered).

(*@ spdmlib/src/secret/mod.rs 17-21 measurement::register *)
Definition secret_register {E} (m : secret) (context : secret_table m) : M secret_cells E bool :=
  try_init_once m context.
(*@ spdmlib/src/secret/mod.rs 55-70 measurement::measurement_collection *)
Definition reg_measurement_collection (v : SpdmVersion) (spec hash index : Z)
    : M (secret_cells * world) unit SpdmMeasurementRecordStructure :=
  let* t := on_fst (use MEASUREMENT) in on_snd (measurement_collection_cb t v spec hash index).
(*@ spdmlib/src/secret/mod.rs 71-88 measurement::generate_measurement_summary_hash *)
Definition reg_generate_measurement_summary_hash (v : SpdmVersion) (base spec hash : Z)
    (kind : SpdmMeasurementSummaryHashType) : M (secret_cells * world) unit SpdmDigestStruct :=
  let* t := on_fst (use MEASUREMENT) in
  on_snd (generate_measurement_summary_hash_cb t v base spec hash kind).
(*@ spdmlib/src/secret/mod.rs 115-125 psk::handshake_secret_hkdf_expand *)
Definition reg_handshake_secret_hkdf_expand (v : SpdmVersion) (hash : Z) (hint : SpdmPskHintStruct)
    (info : bytes) : M secret_cells unit SpdmHkdfOutputKeyingMaterial :=
  let* t := use PSK in of_outcome (handshake_secret_hkdf_expand_cb t v hash hint info).
(*@ spdmlib/src/secret/mod.rs 127-137 psk::master_secret_hkdf_expand *)
Definition reg_master_secret_hkdf_expand (v : SpdmVersion) (hash : Z) (hint : SpdmPskHintStruct)
    (info : bytes) : M secret_cells unit SpdmHkdfOutputKeyingMaterial :=
  let* t := use PSK in of_outcome (master_secret_hkdf_expand_cb t v hash hint info).
(*@ spdmlib/src/secret/mod.rs 156-165 asym_sign::sign *)
Definition reg_sign (hash asym : Z) (bs : bytes) : M (secret_cells * world) unit SpdmSignatureStruct :=
  let* t := on_fst (use ASYM_SIGN) in on_snd (sign_cb t hash asym bs).
(*@ spdmlib/src/time/mod.rs 21-27 sleep *)
Definition reg_sleep (us : Z) : M (secret_cells * world) Empty_set unit :=
  let* t := on_fst (use TIME) in on_snd (sleep_cb t us).

(** The instance of [Secret] of the tables in effect. *)
Definition secret_of (t : ∀ m, secret_table m) : Secret := {|
  measurement_collection := measurement_collection_cb (t MEASUREMENT);
  generate_measurement_summary_hash := generate_measurement_summary_hash_cb (t MEASUREMENT);
  handshake_secret_hkdf_expand := handshake_secret_hkdf_expand_cb (t PSK);
  master_secret_hkdf_expand := master_secret_hkdf_expand_cb (t PSK);
  asym_sign := sign_cb (t ASYM_SIGN);
|}.

#[local] Abbreviation returns := (returns unregistered).
#[local] Abbreviation answers := (answers unregistered).

(** Whatever was registered before, the functions of secret/mod.rs are those of one instance of
    [Secret], and no call of them changes it. *)
Theorem secrets_refine r (K := secret_of (effective unregistered r)) :
  (∀ v spec hash i w, answers r (reg_measurement_collection v spec hash i (r, w))
     (@measurement_collection _ K v spec hash i w)) ∧
  (∀ v base spec hash kind w,
     answers r (reg_generate_measurement_summary_hash v base spec hash kind (r, w))
       (@generate_measurement_summary_hash _ K v base spec hash kind w)) ∧
  (∀ v hash hint info, returns r (reg_handshake_secret_hkdf_expand v hash hint info r)
     (@handshake_secret_hkdf_expand _ K v hash hint info)) ∧
  (∀ v hash hint info, returns r (reg_master_secret_hkdf_expand v hash hint info r)
     (@master_secret_hkdf_expand _ K v hash hint info)) ∧
  (∀ hash asym bs w, answers r (reg_sign hash asym bs (r, w)) (@asym_sign _ K hash asym bs w)).
Proof.
  repeat match goal with |- _ ∧ _ => split end; intros.
  all: first [exact (use_returns unregistered _ (λ t, _) r) | exact (use_answers unregistered _ (λ t, _) r _)].
Qed.

(** Sleeping when no clock was registered panics, and so does every later call: the cell then holds
    the default, and registering is too late. *)
Lemma sleep_unregistered us r w :
  r TIME = None →
  ∃ r', reg_sleep us (r, w) = (Panic, (r', w)) ∧
    ∀ t, @secret_register unit TIME t r' = (Ok false, r') ∧ reg_sleep us (r', w) = (Panic, (r', w)).
Proof.
  intros Hr. exists (set_cell TIME unregistered_time r). split.
  - unfold reg_sleep, bind, zoom, Registry.use, try_get_or_init. cbn. by rewrite Hr.
  - intros t. unfold secret_register, try_init_once, reg_sleep, bind, zoom, Registry.use, try_get_or_init.
    cbn. by rewrite set_cell_eq.
Qed.
End Secrets.
