(* ===== verification/SpdmRing.v ===== *)
(** The cryptographic callbacks that the repository ships
    (spdmlib/src/crypto/spdm_ring): hashes, message authentication codes, key derivation,
    authenticated encryption, key agreement and random numbers on top of the ring
    library.

    ring itself is not part of the repository: [Ring] lists the functions of it that the
    code calls and [RingLaws] the documented behaviour the proofs rely on.  [ring_crypto]
    is the instance of [Crypto] that the default tables provide, and the instances at the
    end discharge the laws which the clients of [Crypto] assume.  The digest contexts of
    the implementation are handles into a global table; [HandleTable] models that table
    and shows that programs on handles compute what programs on values compute, so that
    [Crypto] can offer digest contexts as values. *)

From stdpp Require Import gmap.
From S2P Require Import Prelude Config Codec Status Algo Protocol Crypto.

(** ** The ring library *)

Inductive ring_hash := SHA256 | SHA384 | SHA512.
Inductive ring_cipher := RING_AES_128_GCM | RING_AES_256_GCM | RING_CHACHA20_POLY1305.
Inductive ring_curve := ECDH_P256 | ECDH_P384.

(** [Algorithm::output_len]. *)
Definition output_len (h : ring_hash) : nat :=
  match h with SHA256 => 32 | SHA384 => 48 | SHA512 => 64 end.

Class Ring := {
  ring_world : Type;
  ring_digest : ring_hash → bytes → bytes;
  ring_ctx : Type;
  ring_ctx_new : ring_hash → ring_ctx;
  ring_ctx_update : ring_ctx → bytes → ring_ctx;
  ring_ctx_finish : ring_ctx → bytes;
  ring_hmac_sign (h : ring_hash) (key data : bytes) : bytes;
  ring_hmac_verify (h : ring_hash) (key data tag : bytes) : bool;
  ring_hkdf_expand (h : ring_hash) (prk info : bytes) (len : nat) : option bytes;
  ring_unbound_key (c : ring_cipher) (key : bytes) : bool;
  ring_seal (c : ring_cipher) (key nonce aad plain : bytes) : option bytes;
  ring_open (c : ring_cipher) (key nonce aad cipher : bytes) : option bytes;
  ring_private : Type;
  ring_private_generate : ring_curve → M ring_world unit ring_private;
  ring_public_key : ring_private → option bytes;
  ring_agree (k : ring_private) (c : ring_curve) (peer : bytes) : option bytes;
  ring_rand64 : M ring_world unit bytes;
}.

(** Digests and tags have their documented length; a context computes the digest of what
    it was fed; a code verifies when it is the code of the data; opening inverts sealing
    and a sealed message is its plain text plus sixteen bytes. *)
Class RingLaws `{Ring} := {
  ring_digest_length h bs : length (ring_digest h bs) = output_len h;
  ring_digest_u8 h bs : Forall is_u8 (ring_digest h bs);
  ring_ctx_data : ring_ctx → ring_hash * bytes;
  ring_ctx_new_data h : ring_ctx_data (ring_ctx_new h) = (h, []);
  ring_ctx_update_data c bs :
    ring_ctx_data (ring_ctx_update c bs) = ((ring_ctx_data c).1, (ring_ctx_data c).2 ++ bs);
  ring_ctx_finish_data c :
    ring_ctx_finish c = ring_digest (ring_ctx_data c).1 (ring_ctx_data c).2;
  ring_hmac_length h key bs : length (ring_hmac_sign h key bs) = output_len h;
  ring_hmac_u8 h key bs : Forall is_u8 (ring_hmac_sign h key bs);
  ring_hmac_verify_spec h key bs tag :
    ring_hmac_verify h key bs tag = bool_decide (ring_hmac_sign h key bs = tag);
  ring_hkdf_expand_length h prk info n okm :
    ring_hkdf_expand h prk info n = Some okm → length okm = n ∧ Forall is_u8 okm;
  ring_seal_length c key nonce aad pt out :
    ring_seal c key nonce aad pt = Some out → length out = (length pt + 16)%nat;
  ring_open_seal c key nonce aad pt out :
    ring_seal c key nonce aad pt = Some out → ring_open c key nonce aad out = Some pt;
}.

Section SpdmRing.
Context `{ring : Ring}.

(** ** Hashes *)

(** The table of algorithms which [hash_all], [hash_ctx_init], [hmac] and the key
    derivation match on. *)
(*@ spdmlib/src/crypto/spdm_ring/hash_impl.rs 25-30 hash_all *)
Definition ring_hash_of (base_hash_algo : Z) : option ring_hash :=
  if base_hash_algo =? SpdmBaseHashAlgo.TPM_ALG_SHA_256 then Some SHA256 else
  if base_hash_algo =? SpdmBaseHashAlgo.TPM_ALG_SHA_384 then Some SHA384 else
  if base_hash_algo =? SpdmBaseHashAlgo.TPM_ALG_SHA_512 then Some SHA512 else None.

(** [SpdmDigestStruct::from]. *)
Definition digest_from (bs : bytes) : outcome unit SpdmDigestStruct :=
  run (sized_from SPDM_MAX_HASH_SIZE bs).

(*@ spdmlib/src/crypto/spdm_ring/hash_impl.rs 24-33 hash_all *)
Definition ring_hash_all (base_hash_algo : Z) (bs : bytes) : outcome unit SpdmDigestStruct :=
  match ring_hash_of base_hash_algo with
  | Some h => digest_from (ring_digest h bs)
  | None => Err tt
  end.

(** ** Message authentication codes *)

(*@ spdmlib/src/crypto/spdm_ring/hmac_impl.rs 14-28 hmac *)
Definition ring_hmac (base_hash_algo : Z) (key bs : bytes) : outcome unit SpdmDigestStruct :=
  match ring_hash_of base_hash_algo with
  | Some h => digest_from (ring_hmac_sign h key bs)
  | None => Panic
  end.

(*@ spdmlib/src/crypto/spdm_ring/hmac_impl.rs 30-50 hmac_verify *)
Definition ring_hmac_verify_cb (base_hash_algo : Z) (key bs : bytes) (d : SpdmDigestStruct)
    : outcome SpdmStatus unit :=
  match ring_hash_of base_hash_algo with
  | Some h =>
      run (let* tag := sub_slice 0 (data_size d) (data d) in
         if ring_hmac_verify h key bs tag then ret tt else throw SPDM_STATUS_VERIF_FAIL)
  | None => Panic
  end.

(** ** Key derivation *)

(*@ spdmlib/src/crypto/spdm_ring/hkdf_impl.rs 16-34 hkdf_extract *)
Definition ring_hkdf_extract (hash_algo : Z) (salt : bytes) (ikm : sized)
    : outcome unit SpdmHkdfPseudoRandomKey :=
  match ring_hash_of hash_algo with
  | Some h =>
      run (let* bs := sized_as_ref ikm in
           of_outcome (digest_from (ring_hmac_sign h salt bs)))
  | None => Panic
  end.

(*@ spdmlib/src/crypto/spdm_ring/hkdf_impl.rs 36-72 hkdf_expand *)
Definition ring_hkdf_expand_cb (hash_algo : Z) (prk : SpdmHkdfPseudoRandomKey) (info : bytes)
    (out_size : nat) : outcome unit SpdmHkdfOutputKeyingMaterial :=
  if (SPDM_MAX_HKDF_OKM_SIZE <? out_size)%nat then Err tt else
  match ring_hash_of hash_algo with
  | None => Err tt
  | Some h =>
      if negb (data_size prk =? output_len h)%nat then Err tt else
      run (let* bs := sized_as_ref prk in
       match ring_hkdf_expand h bs info out_size with
       | None => throw tt
       | Some okm =>
           ret {| data_size := out_size;
                  data := splice 0 okm (replicate SPDM_MAX_HKDF_OKM_SIZE 0) |}
       end)
  end.

(** ** Authenticated encryption *)

(*@ spdmlib/src/crypto/spdm_ring/aead_impl.rs 134-156 make_key *)
Definition make_key {S} (aead_algo : Z) (key : SpdmAeadKeyStruct) : SpdmM S (ring_cipher * bytes) :=
  let* c :=
    if aead_algo =? SpdmAeadAlgo.AES_128_GCM then ret RING_AES_128_GCM else
    if aead_algo =? SpdmAeadAlgo.AES_256_GCM then ret RING_AES_256_GCM else
    if aead_algo =? SpdmAeadAlgo.CHACHA20_POLY1305 then ret RING_CHACHA20_POLY1305 else panic in
  let* k := sized_as_ref key in
  if ring_unbound_key c k then ret (c, k) else throw SPDM_STATUS_CRYPTO_ERROR.

(** The checks on the sizes of key, initialisation vector and tag, and the nonce. *)
(*@ spdmlib/src/crypto/spdm_ring/aead_impl.rs 25-47 encrypt *)
Definition aead_checks {S} (aead_algo : Z) (key iv : sized) (tag input output : bytes)
    : SpdmM S bytes :=
  let* key_size := of_outcome (SpdmAeadAlgo.get_key_size aead_algo) in
  if negb (data_size key =? key_size)%nat then throw SPDM_STATUS_CRYPTO_ERROR else
  let* iv_size := of_outcome (SpdmAeadAlgo.get_iv_size aead_algo) in
  if negb (data_size iv =? iv_size)%nat then throw SPDM_STATUS_CRYPTO_ERROR else
  let* tag_size := of_outcome (SpdmAeadAlgo.get_tag_size aead_algo) in
  if negb (length tag =? tag_size)%nat then throw SPDM_STATUS_CRYPTO_ERROR else
  if negb (length output =? length input)%nat then throw SPDM_STATUS_CRYPTO_ERROR else
  sub_slice 0 12 (data iv).

(** The state is the pair of mutable slices, tag and cipher text. *)
(*@ spdmlib/src/crypto/spdm_ring/aead_impl.rs 16-66 encrypt *)
Definition ring_encrypt (aead_algo : Z) (key iv : sized) (aad plain_text : bytes)
    : SpdmM (bytes * bytes) (nat * nat) :=
  let* (tag, cipher_text) := gets (λ st, st) in
  let* nonce := aead_checks aead_algo key iv tag plain_text cipher_text in
  let* (c, k) := make_key aead_algo key in
  match ring_seal c k nonce aad plain_text with
  | Some in_out =>
      let n := length plain_text in
      let* ct := sub_slice 0 n in_out in
      let* t := sub_slice n (n + length tag) in_out in
      modify (λ _, (t, ct));;
      ret (n, length tag)
  | None => throw SPDM_STATUS_CRYPTO_ERROR
  end.

(** The state is the mutable slice of the plain text. *)
(*@ spdmlib/src/crypto/spdm_ring/aead_impl.rs 68-116 decrypt *)
Definition ring_decrypt (aead_algo : Z) (key iv : sized) (aad cipher_text tag : bytes)
    : SpdmM bytes nat :=
  let* plain_text := gets (λ st, st) in
  let* nonce := aead_checks aead_algo key iv tag cipher_text plain_text in
  let* (c, k) := make_key aead_algo key in
  match ring_open c k nonce aad (cipher_text ++ tag) with
  | Some in_out =>
      let* pt := sub_slice 0 (length cipher_text) in_out in
      modify (λ _, pt);;
      ret (length cipher_text)
  | None => throw SPDM_STATUS_CRYPTO_ERROR
  end.

(** ** Key agreement *)

(*@ spdmlib/src/crypto/spdm_ring/dhe_impl.rs 58-72 SpdmDheKeyExchangeP256::generate_key_pair *)
Definition generate_key_pair_on (c : ring_curve)
    : M ring_world unit (SpdmDheExchangeStruct * (ring_curve * ring_private)) :=
  let* private_key := ring_private_generate c in
  let* public_key_old := ok_or tt (ring_public_key private_key) in
  let* public_key := sub_slice 1 (length public_key_old) public_key_old in
  let* exchange := sized_from SPDM_MAX_DHE_KEY_SIZE public_key in
  ret (exchange, (c, private_key)).

(*@ spdmlib/src/crypto/spdm_ring/dhe_impl.rs 17-25 generate_key_pair *)
Definition ring_generate_key_pair (dhe_algo : Z)
    : M ring_world unit (SpdmDheExchangeStruct * (ring_curve * ring_private)) :=
  if dhe_algo =? SpdmDheAlgo.SECP_256_R1 then generate_key_pair_on ECDH_P256 else
  if dhe_algo =? SpdmDheAlgo.SECP_384_R1 then generate_key_pair_on ECDH_P384 else throw tt.

(*@ spdmlib/src/crypto/spdm_ring/dhe_impl.rs 29-55 SpdmDheKeyExchangeP256::compute_final_key *)
Definition ring_compute_final_key (self : ring_curve * ring_private)
    (peer_pub_key : SpdmDheExchangeStruct) : M ring_world unit SpdmDheFinalKeyStruct :=
  let* peer := sized_as_ref peer_pub_key in
  match ring_agree self.2 self.1 (0x4 :: peer) with
  | Some final_key => sized_from SPDM_MAX_DHE_KEY_SIZE final_key
  | None => throw tt
  end.

(** ** Random numbers *)

(** The loop of [get_random]: [offset] bytes are written, [len] are left.  Each turn but
    the last writes 64 bytes, so [len] turns are enough. *)
(*@ spdmlib/src/crypto/spdm_ring/rand_impl.rs 16-31 get_random *)
Fixpoint get_random_loop (turns offset len : nat) (bs : bytes)
    : M ring_world SpdmStatus bytes :=
  match turns with
  | O => ret bs
  | S turns =>
      if (len =? 0)%nat then ret bs else
      let* rand_data := map_err (λ _, SPDM_STATUS_CRYPTO_ERROR) ring_rand64 in
      if (64 <? len)%nat then
        let* bs := slice_copy bs offset rand_data in
        get_random_loop turns (offset + 64) (len - 64) bs
      else
        let* chunk := sub_slice 0 len rand_data in
        slice_copy bs offset chunk
  end.

(*@ spdmlib/src/crypto/spdm_ring/rand_impl.rs 12-34 get_random *)
Definition ring_get_random (bs : bytes) : M ring_world SpdmStatus (nat * bytes) :=
  let* bs' := get_random_loop (length bs) 0 (length bs) bs in
  ret (length bs', bs').

(** ** The table of callbacks *)

(** Signatures and certificates are verified with the webpki library on top of the
    certificate parser of the repository; they are arguments here. *)
Definition ring_crypto
    (asym_verify : Z → Z → bytes → bytes → SpdmSignatureStruct → outcome SpdmStatus unit)
    (get_cert_from_cert_chain : bytes → Z → outcome SpdmStatus (nat * nat))
    (verify_cert_chain : bytes → outcome SpdmStatus unit) : Crypto := {|
  world := ring_world;
  hash_all := ring_hash_all;
  SpdmHashCtx := ring_ctx;
  hash_ctx_init alg :=
    match ring_hash_of alg with Some h => Ok (ring_ctx_new h) | None => Err tt end;
  hash_ctx_update c bs := Ok (ring_ctx_update c bs);
  hash_ctx_finalize c := digest_from (ring_ctx_finish c);
  hmac := ring_hmac;
  hmac_verify := ring_hmac_verify_cb;
  aead_encrypt alg key iv aad pt tag ct := ring_encrypt alg key iv aad pt (tag, ct);
  aead_decrypt alg key iv aad ct tag pt := ring_decrypt alg key iv aad ct tag pt;
  Crypto.asym_verify := asym_verify;
  hkdf_extract := ring_hkdf_extract;
  hkdf_expand := ring_hkdf_expand_cb;
  Crypto.get_cert_from_cert_chain := get_cert_from_cert_chain;
  Crypto.verify_cert_chain := verify_cert_chain;
  DhePrivate := (ring_curve * ring_private)%type;
  generate_key_pair := ring_generate_key_pair;
  compute_final_key := ring_compute_final_key;
  get_random := ring_get_random;
|}.

End SpdmRing.

(** ** The laws hold *)

Section Laws.
Context `{ring : Ring} {laws : RingLaws}.
Context (verify : Z → Z → bytes → bytes → SpdmSignatureStruct → outcome SpdmStatus unit)
  (get_cert : bytes → Z → outcome SpdmStatus (nat * nat))
  (chain : bytes → outcome SpdmStatus unit).
#[local] Abbreviation rc := (ring_crypto verify get_cert chain).

Lemma ring_hash_of_size alg h :
  ring_hash_of alg = Some h → SpdmBaseHashAlgo.get_size (E:=unit) alg = Ok (output_len h).
Proof.
  unfold ring_hash_of, SpdmBaseHashAlgo.get_size. intros Hh.
  repeat case_match; by simplify_eq.
Qed.

Lemma output_len_max h : (output_len h ≤ SPDM_MAX_HASH_SIZE)%nat.
Proof. destruct h; simpl; lia. Qed.

Lemma digest_from_ok h bs :
  length bs = output_len h → Forall is_u8 bs →
  ∃ d, digest_from bs = Ok d ∧ sized_wf SPDM_MAX_HASH_SIZE d ∧ data_size d = output_len h ∧
    sized_bytes d = bs.
Proof.
  intros Hl Hu. destruct (sized_from_ok (S:=unit) (E:=unit) SPDM_MAX_HASH_SIZE bs tt Hu)
    as (d&Hd&Hwf&Hbs).
  { rewrite Hl. apply output_len_max. }
  exists d. unfold digest_from, run. rewrite Hd. split_and!; [done..| |done].
  by rewrite <- (length_sized_bytes _ _ Hwf), Hbs, Hl.
Qed.

#[global] Instance ring_hash_laws : @HashLaws rc.
Proof.
  refine {| hctx_data := λ c : @SpdmHashCtx rc,
    let '(h, bs) := ring_ctx_data c in
    (match h with
     | SHA256 => SpdmBaseHashAlgo.TPM_ALG_SHA_256
     | SHA384 => SpdmBaseHashAlgo.TPM_ALG_SHA_384
     | SHA512 => SpdmBaseHashAlgo.TPM_ALG_SHA_512
     end, bs) |}.
  - intros alg bs d. cbn. unfold ring_hash_all.
    destruct (ring_hash_of alg) as [h|] eqn:Hh; [|done]. intros Hd.
    destruct (digest_from_ok h (ring_digest h bs)) as (d'&Hd'&?&Hs&_);
      [apply ring_digest_length|apply ring_digest_u8|].
    rewrite Hd in Hd'. injection Hd' as <-. split; [done|]. rewrite Hs.
    by apply ring_hash_of_size.
  - intros alg ctx. cbn. unfold ring_hash_of.
    repeat match goal with |- context [?a =? ?b] => destruct (Z.eqb_spec a b) as [->|] end;
      intros [= <-]; by rewrite ring_ctx_new_data.
  - intros ctx bs ctx'. cbn. intros [= <-]. rewrite ring_ctx_update_data.
    by destruct (ring_ctx_data ctx).
  - intros ctx. cbn. rewrite ring_ctx_finish_data.
    by destruct (ring_ctx_data ctx) as [[] bs].
Qed.

#[global] Instance ring_hmac_laws : @HmacLaws rc.
Proof.
  split; cbn.
  - intros alg key bs d. unfold ring_hmac.
    destruct (ring_hash_of alg) as [h|] eqn:Hh; [|done]. intros Hd.
    destruct (digest_from_ok h (ring_hmac_sign h key bs)) as (d'&Hd'&?&Hs&_);
      [apply ring_hmac_length|apply ring_hmac_u8|].
    rewrite Hd in Hd'. injection Hd' as <-. split; [done|]. rewrite Hs.
    by apply ring_hash_of_size.
  - intros alg key bs d Hwf. unfold ring_hmac_verify_cb, ring_hmac.
    destruct (ring_hash_of alg) as [h|] eqn:Hh; [|by split; [|intros (?&?&_)]].
    destruct (digest_from_ok h (ring_hmac_sign h key bs)) as (d'&Hd'&_&_&Hbs');
      [apply ring_hmac_length|apply ring_hmac_u8|]. rewrite Hd'.
    pose proof Hwf as (Hl&_&Hn&_). unfold run. erewrite bind_step by
      (apply sub_slice_ok; lia).
    rewrite drop_0, Nat.sub_0_r. fold (sized_bytes d). rewrite ring_hmac_verify_spec.
    case_bool_decide as He; cbn; (split; [|intros (?&[= <-]&?)]); try done.
    + intros _. exists d'. by rewrite Hbs'.
    + congruence.
Qed.

#[global] Instance ring_hkdf_laws : @HkdfLaws rc.
Proof.
  split; cbn.
  - intros alg salt ikm prk. unfold ring_hkdf_extract.
    destruct (ring_hash_of alg) as [h|] eqn:Hh; [|done].
    unfold run, sized_as_ref, bind. case_decide; [|done]. cbn. intros Hd.
    destruct (digest_from_ok h (ring_hmac_sign h salt (take (data_size ikm) (data ikm))))
      as (d'&Hd'&?&Hs&_); [apply ring_hmac_length|apply ring_hmac_u8|].
    rewrite Hd in Hd'. injection Hd' as <-. split; [done|]. rewrite Hs.
    by apply ring_hash_of_size.
  - intros alg prk info n okm. unfold ring_hkdf_expand_cb.
    destruct (Nat.ltb_spec SPDM_MAX_HKDF_OKM_SIZE n); [done|].
    destruct (ring_hash_of alg) as [h|] eqn:Hh; [|done].
    destruct (negb _); [done|]. unfold run, sized_as_ref, bind. case_decide; [|done].
    unfold ret. destruct (ring_hkdf_expand _ _ _ _) as [bs|] eqn:Hbs; [|done]. intros Hok.
    assert (okm = {| data_size := n;
      data := splice 0 bs (replicate SPDM_MAX_HKDF_OKM_SIZE 0) |}) as -> by (by inversion Hok).
    apply ring_hkdf_expand_length in Hbs as [Hl Hu]. split; [|done].
    unfold sized_wf. cbn [data_size data]. unfold splice.
    rewrite take_0, drop_replicate, app_nil_l, Nat.add_0_l, <- Hl.
    apply array_wf_make; [done|lia].
Qed.

(** The checks depend on the texts through their lengths only. *)
Lemma aead_checks_ok {S} alg key iv tag input output n (st st' : S) :
  aead_checks alg key iv tag input output st = (Ok n, st') →
  st' = st ∧ length output = length input ∧ length tag = 16%nat ∧
  ∀ {S'} tag' input' output' (st1 : S'), length tag' = 16%nat → length output' = length input' →
    aead_checks alg key iv tag' input' output' st1 = (Ok n, st1).
Proof.
  unfold aead_checks. intros Hc. minv.
  repeat match goal with
  | H : negb _ = false |- _ => apply negb_false_iff, Nat.eqb_eq in H
  end.
  assert (length tag = 16%nat) as Htag.
  { match goal with H : SpdmAeadAlgo.get_tag_size _ = Ok _ |- _ => revert H end.
    unfold SpdmAeadAlgo.get_tag_size. repeat case_match; congruence. }
  unfold sub_slice in *. case_decide; [|done]. minv. split_and!; [done..|].
  intros S' tag' input' output' st1 Ht Ho.
  unfold of_outcome, bind.
  repeat match goal with H : _ = Ok _ |- _ => rewrite H; clear H end.
  rewrite Ht, Ho, <- Htag.
  by rewrite !Nat.eqb_refl.
Qed.

Lemma aead_checks_state {S} alg key iv tag input output (st : S) :
  (aead_checks alg key iv tag input output st).2 = st.
Proof.
  unfold aead_checks, sub_slice, bind, of_outcome. repeat (case_match; simplify_eq; try done).
Qed.

Lemma make_key_run {S} alg key (st : S) : make_key alg key st = (run (make_key alg key), st).
Proof.
  unfold run, make_key, sized_as_ref.
  repeat match goal with
  | |- context [if ?b then _ else _] => destruct b; unfold bind; cbn; try done
  end.
Qed.

(** An encryption either fails and leaves the slices alone, or splits what ring sealed. *)
Lemma ring_encrypt_cases alg key iv aad pt tag ct :
  (∃ o, ring_encrypt alg key iv aad pt (tag, ct) = (o, (tag, ct)) ∧ is_ok o = false) ∨
  ∃ nonce c k out,
    aead_checks alg key iv tag pt ct (tag, ct) = (Ok nonce, (tag, ct)) ∧
    run (make_key alg key) = Ok (c, k) ∧ ring_seal c k nonce aad pt = Some out ∧
    ring_encrypt alg key iv aad pt (tag, ct) =
      (Ok (length pt, length tag), (drop (length pt) out, take (length pt) out)).
Proof.
  unfold ring_encrypt. erewrite !bind_step by done.
  destruct (aead_checks alg key iv tag pt ct (tag, ct)) as [r st] eqn:Hc.
  pose proof (aead_checks_state alg key iv tag pt ct (tag, ct)) as Hst.
  rewrite Hc in Hst. cbn in Hst. subst st. destruct r as [nonce|e|].
  2,3: left; eexists; erewrite ?bind_err, ?bind_panic by exact Hc; done.
  erewrite !(bind_step _ _ _ _ _ Hc). pose proof (make_key_run alg key (tag, ct)) as Hk.
  destruct (run (make_key alg key)) as [[c k]|e|].
  2,3: left; eexists; erewrite ?bind_err, ?bind_panic by exact Hk; done.
  erewrite !(bind_step _ _ _ _ _ Hk). cbv beta iota.
  destruct (ring_seal c k nonce aad pt) as [out|] eqn:Hseal; [|left; by eexists].
  right. exists nonce, c, k, out. split_and!; [done..|].
  apply aead_checks_ok in Hc as (_&_&Htag&_). apply ring_seal_length in Hseal as Hl.
  erewrite bind_step by (apply sub_slice_ok; lia).
  erewrite bind_step by (apply sub_slice_ok; lia).
  erewrite bind_step by done. cbv [ret]. rewrite drop_0, Nat.sub_0_r. repeat f_equal.
  rewrite take_ge; [done|]. rewrite length_drop. lia.
Qed.

(** When ring accepts the key and seals, keys and nonces of the right size are enough. *)
Lemma ring_encrypt_total alg key iv aad pt tag ct c k :
  SpdmAeadAlgo.get_key_size (E:=SpdmStatus) alg = Ok (data_size key) →
  SpdmAeadAlgo.get_iv_size (E:=SpdmStatus) alg = Ok (data_size iv) →
  (12 ≤ length (data iv))%nat → length tag = 16%nat → length ct = length pt →
  run (make_key alg key) = Ok (c, k) →
  is_Some (ring_seal c k (take 12 (data iv)) aad pt) →
  ∃ r, (ring_encrypt alg key iv aad pt (tag, ct)).1 = Ok r.
Proof.
  intros Hks His Hiv Htag Hct Hk [out Hout].
  assert (aead_checks alg key iv tag pt ct (tag, ct) = (Ok (take 12 (data iv)), (tag, ct))) as Hc.
  { unfold aead_checks. rewrite Hks, His, Hct, Htag.
    assert (SpdmAeadAlgo.get_tag_size (E:=SpdmStatus) alg = Ok 16%nat) as ->.
    { revert Hks. unfold SpdmAeadAlgo.get_key_size, SpdmAeadAlgo.get_tag_size.
      by repeat case_match. }
    unfold bind, of_outcome. rewrite !Nat.eqb_refl. by apply sub_slice_ok; lia. }
  destruct (ring_encrypt_cases alg key iv aad pt tag ct)
    as [(o&Ho&Hf)|(nonce&c'&k'&out'&_&_&_&->)]; [|by eexists].
  exfalso. unfold ring_encrypt in Ho. erewrite bind_step in Ho by done.
  cbv beta iota in Ho. erewrite (bind_step _ _ _ _ _ Hc) in Ho.
  erewrite bind_step in Ho by (rewrite make_key_run, Hk; done).
  cbv beta iota in Ho. rewrite Hout in Ho. apply ring_seal_length in Hout as Hl.
  erewrite bind_step in Ho by (apply sub_slice_ok; lia).
  erewrite bind_step in Ho by (apply sub_slice_ok; lia).
  erewrite bind_step in Ho by done. unfold ret in Ho. by simplify_eq.
Qed.

Lemma ring_decrypt_length alg key iv aad ct tag pt o pt' :
  ring_decrypt alg key iv aad ct tag pt = (o, pt') → length pt' = length pt.
Proof.
  unfold ring_decrypt. erewrite bind_step by done. unfold bind at 1.
  destruct (aead_checks _ _ _ _ _ _ _) as [r st] eqn:Hc.
  pose proof (aead_checks_state alg key iv tag ct pt pt) as Hst.
  rewrite Hc in Hst. cbn in Hst. subst st. destruct r as [nonce|e|]; [|by intros [= _ <-]..].
  unfold bind at 1. rewrite make_key_run. destruct (run _) as [[c k]|e|]; [|by intros [= _ <-]..].
  destruct (ring_open _ _ _ _ _) as [out|]; [|by intros [= _ <-]].
  apply aead_checks_ok in Hc as (_&Hl&_).
  unfold sub_slice, bind. case_decide; intros [= _ <-]; [|done].
  rewrite length_take, drop_0. lia.
Qed.

Lemma ring_decrypt_encrypt alg key iv aad pt tag ct n tag' ct' buf :
  ring_encrypt alg key iv aad pt (tag, ct) = (Ok n, (tag', ct')) →
  length buf = length ct' →
  ring_decrypt alg key iv aad ct' tag' buf = (Ok (length pt), pt).
Proof.
  intros He Hb. destruct (ring_encrypt_cases alg key iv aad pt tag ct)
    as [(o&Ho&Hf)|(nonce&c&k&out&Hc&Hk&Hs&Heq)]; [rewrite He in Ho; by simplify_eq|rewrite He in Heq].
  injection Heq as -> -> ->. apply ring_seal_length in Hs as Hl.
  apply aead_checks_ok in Hc as (_&_&_&Hc).
  assert (length (take (length pt) out) = length pt) as Ht by (rewrite length_take; lia).
  unfold ring_decrypt. erewrite bind_step by done.
  erewrite bind_step by (apply Hc; [rewrite length_drop; lia|done]).
  erewrite bind_step by (rewrite make_key_run, Hk; done).
  cbv beta iota. rewrite take_drop, (ring_open_seal _ _ _ _ _ _ Hs), Ht.
  erewrite bind_step by (apply sub_slice_ok; lia).
  erewrite bind_step by done. by rewrite drop_0, Nat.sub_0_r, take_ge.
Qed.

#[global] Instance ring_aead_laws : @AeadLaws rc.
Proof.
  split; cbn [aead_encrypt aead_decrypt ring_crypto].
  - intros alg key iv aad pt tag ct o tag' ct' He.
    destruct (ring_encrypt_cases alg key iv aad pt tag ct)
      as [(o'&Ho&_)|(nonce&c&k&out&Hc&_&Hs&Heq)];
      [rewrite He in Ho|rewrite He in Heq]; simplify_eq; [done|].
    apply aead_checks_ok in Hc as (_&Hl&Htag&_). apply ring_seal_length in Hs.
    rewrite length_drop, length_take. lia.
  - intros alg key iv aad ct tag pt o pt'. apply ring_decrypt_length.
  - intros alg key iv aad pt tag ct c t tag' ct' He.
    destruct (ring_encrypt_cases alg key iv aad pt tag ct)
      as [(o'&Ho&Hf)|(nonce&c'&k&out&_&_&_&Heq)];
      [rewrite He in Ho|rewrite He in Heq]; by simplify_eq.
  - intros. by eapply ring_decrypt_encrypt.
Qed.

End Laws.

(** ** Random numbers *)

Section Random.
Context `{ring : Ring}.

(** [ring_rand64] returns 64 bytes; then the loop overwrites the whole buffer. *)
Lemma get_random_loop_ok (rand_ok : ∀ w, ∃ bs w', ring_rand64 w = (Ok bs, w') ∧
    length bs = 64%nat ∧ Forall is_u8 bs) turns offset len bs w :
  (len ≤ turns)%nat → length bs = (offset + len)%nat →
  ∃ fresh w', get_random_loop turns offset len bs w = (Ok (take offset bs ++ fresh), w') ∧
    length fresh = len ∧ Forall is_u8 fresh.
Proof.
  revert offset len bs w. induction turns as [|turns IH]; intros offset len bs w Hle Hlen;
    cbn [get_random_loop].
  { exists [], w. assert (len = 0%nat) as -> by lia. rewrite app_nil_r, take_ge by lia. done. }
  destruct (Nat.eqb_spec len 0) as [->|Hne].
  { exists [], w. rewrite app_nil_r, take_ge by lia. done. }
  destruct (rand_ok w) as (r&w'&Hr&Hrl&Hru).
  erewrite bind_step by (unfold map_err; by rewrite Hr).
  destruct (Nat.ltb_spec 64 len) as [Hlt|Hge]; unfold slice_copy.
  - rewrite decide_True by lia. erewrite bind_step by done.
    destruct (IH (offset + 64)%nat (len - 64)%nat (splice offset r bs) w')
      as (f&w2&Hf&Hfl&Hfu); [lia|rewrite length_splice; lia|].
    exists (r ++ f), w2. rewrite Hf, length_app. split_and!; [|lia|by apply Forall_app].
    unfold splice. rewrite app_assoc, (app_assoc (take offset bs)), take_app_length'; [done|].
    rewrite length_app, length_take. lia.
  - erewrite bind_step by (apply sub_slice_ok; lia).
    assert (length (take (len - 0) (drop 0 r)) = len) as Ht
      by (rewrite length_take, drop_0; lia).
    rewrite decide_True by lia. unfold splice. rewrite Ht, (drop_ge bs), app_nil_r by lia.
    eexists _, w'. split_and!; [done|done|]. by apply Forall_take.
Qed.

(** A request for random bytes is filled completely.  When the generator of ring delivers
    its blocks of 64 bytes, [get_random] returns the length of the buffer it was given and
    replaces every byte of it, for buffers of any size. *)
Theorem ring_get_random_fills (rand_ok : ∀ w, ∃ bs w', ring_rand64 w = (Ok bs, w') ∧
    length bs = 64%nat ∧ Forall is_u8 bs) bs w :
  ∃ fresh w', ring_get_random bs w = (Ok (length bs, fresh), w') ∧
    length fresh = length bs ∧ Forall is_u8 fresh.
Proof.
  destruct (get_random_loop_ok rand_ok (length bs) 0 (length bs) bs w) as (fresh&w'&Hr&Hl&Hu);
    [done..|].
  exists fresh, w'. rewrite take_0, app_nil_l in Hr. unfold ring_get_random.
  erewrite bind_step by exact Hr. by rewrite <- Hl.
Qed.

End Random.

(** ** The table of digest contexts *)

(** [HASH_CTX_TABLE] maps a handle, the address of a boxed context, to the context.
    [box_addr] is the allocator: a box gets an address that no live box has, and not 0. *)
Module HandleTable.
Section Table.
Context `{ring : Ring}.

Abbreviation table := (gmap Z ring_ctx) (only parsing).
Context (box_addr : gmap Z ring_ctx → Z).

(*@ spdmlib/src/crypto/spdm_ring/hash_impl.rs 86-91 hash_ext::insert_to_table *)
Definition insert_to_table {E} (value : ring_ctx) : M table E Z := λ t,
  let handle := box_addr t in (Ok handle, <[handle := value]> t).

(*@ spdmlib/src/crypto/spdm_ring/hash_impl.rs 75-84 hash_ext::hash_ctx_init *)
Definition hash_ctx_init (base_hash_algo : Z) : M table unit Z :=
  match ring_hash_of base_hash_algo with
  | Some h => insert_to_table (ring_ctx_new h)
  | None => throw tt
  end.

(*@ spdmlib/src/crypto/spdm_ring/hash_impl.rs 52-57 hash_ext::hash_ctx_update *)
Definition hash_ctx_update (handle : Z) (bs : bytes) : SpdmM table unit :=
  let* ctx := gets (λ t : table, t !! handle) in
  let* ctx := ok_or SPDM_STATUS_CRYPTO_ERROR ctx in
  modify (λ t : table, <[handle := ring_ctx_update ctx bs]> t).

(*@ spdmlib/src/crypto/spdm_ring/hash_impl.rs 59-63 hash_ext::hash_ctx_finalize *)
Definition hash_ctx_finalize (handle : Z) : M table unit SpdmDigestStruct :=
  let* ctx := gets (λ t : table, t !! handle) in
  modify (λ t : table, delete handle t);;
  let* ctx := ok_or tt ctx in
  of_outcome (digest_from (ring_ctx_finish ctx)).

(*@ spdmlib/src/crypto/spdm_ring/hash_impl.rs 65-73 hash_ext::hash_ctx_dup *)
Definition hash_ctx_dup (handle : Z) : M table unit Z :=
  let* ctx := gets (λ t : table, t !! handle) in
  let* ctx_new := ok_or tt ctx in
  insert_to_table ctx_new.

(** *** Programs over digest contexts

    A client holds contexts in variables; [finalize] moves out of its variable, [clone]
    calls [hash_ctx_dup] and an overwritten or dropped variable is finalized. *)
Inductive command :=
| Init (x : nat) (base_hash_algo : Z)
| Update (x : nat) (bs : bytes)
| Clone (x y : nat)
| Finalize (x : nat)
| Drop (x : nat).

(** What the client observes: a digest, success, or a failure. *)
Inductive observation := Digest (d : outcome unit SpdmDigestStruct) | Done | Failed.

(** *** The client of handles *)

(** [impl Drop for SpdmHashCtx]. *)
(*@ spdmlib/src/crypto/mod.rs 79-85 SpdmHashCtx as Drop *)
Definition drop_handle (handle : option Z) (t : table) : table :=
  match handle with
  | Some h => if h =? 0 then t else (hash_ctx_finalize h t).2
  | None => t
  end.

(*@ spdmlib/src/crypto/mod.rs 69-119 SpdmHashCtx, hash_ctx_init, hash_ctx_update, hash_ctx_finalize, hash_ctx_dup *)
Definition handle_step (c : command) (st : gmap nat Z * table)
    : observation * (gmap nat Z * table) :=
  let '(env, t) := st in
  match c with
  | Init x alg =>
      match hash_ctx_init alg t with
      | (Ok h, t') => (Done, (<[x := h]> env, drop_handle (env !! x) t'))
      | (_, t') => (Failed, (env, t'))
      end
  | Update x bs =>
      match env !! x with
      | Some h =>
          match hash_ctx_update h bs t with
          | (Ok _, t') => (Done, (env, t'))
          | (_, t') => (Failed, (env, t'))
          end
      | None => (Failed, st)
      end
  | Clone x y =>
      match env !! x with
      | Some h =>
          match hash_ctx_dup h t with
          | (Ok h', t') => (Done, (<[y := h']> env, drop_handle (env !! y) t'))
          | (_, t') => (Failed, (env, t'))
          end
      | None => (Failed, st)
      end
  | Finalize x =>
      match env !! x with
      | Some h => let '(d, t') := hash_ctx_finalize h t in (Digest d, (delete x env, t'))
      | None => (Failed, st)
      end
  | Drop x => (Done, (delete x env, drop_handle (env !! x) t))
  end.

(** *** The client of values *)

Definition value_step (c : command) (env : gmap nat ring_ctx)
    : observation * gmap nat ring_ctx :=
  match c with
  | Init x alg =>
      match ring_hash_of alg with
      | Some h => (Done, <[x := ring_ctx_new h]> env)
      | None => (Failed, env)
      end
  | Update x bs =>
      match env !! x with
      | Some c => (Done, <[x := ring_ctx_update c bs]> env)
      | None => (Failed, env)
      end
  | Clone x y =>
      match env !! x with
      | Some c => (Done, <[y := c]> env)
      | None => (Failed, env)
      end
  | Finalize x =>
      match env !! x with
      | Some c => (Digest (digest_from (ring_ctx_finish c)), delete x env)
      | None => (Failed, env)
      end
  | Drop x => (Done, delete x env)
  end.

Fixpoint run_commands {St} (step : command → St → observation * St) (cs : list command)
    (st : St) : list observation :=
  match cs with
  | [] => []
  | c :: cs => let '(o, st') := step c st in o :: run_commands step cs st'
  end.

(** *** Refinement *)

(** The context of every variable is the one its handle leads to, and no two variables
    share a handle. *)
Record refines (st : gmap nat Z * table) (venv : gmap nat ring_ctx) : Prop := {
  refines_live x h : st.1 !! x = Some h → h ≠ 0 ∧ is_Some (st.2 !! h);
  refines_inj x y h : st.1 !! x = Some h → st.1 !! y = Some h → x = y;
  refines_value x : venv !! x = st.1 !! x ≫= λ h, st.2 !! h;
}.

Lemma drop_handle_spec h t : h ≠ 0 → drop_handle (Some h) t = delete h t.
Proof.
  intros Hh. unfold drop_handle. rewrite (proj2 (Z.eqb_neq h 0) Hh).
  unfold hash_ctx_finalize, bind. cbn. by destruct (t !! h).
Qed.

Lemma refines_remove x env t venv :
  refines (env, t) venv → refines (delete x env, drop_handle (env !! x) t) (delete x venv).
Proof.
  intros [Hlive Hinj Hval]. cbn in *. destruct (env !! x) as [hx|] eqn:Hx.
  2: { cbn [drop_handle]. rewrite (delete_id env) by done.
       rewrite (delete_id venv) by (by rewrite Hval, Hx). done. }
  rewrite drop_handle_spec by (by apply (Hlive x)).
  assert (∀ y h, y ≠ x → env !! y = Some h → h ≠ hx) as Hne
    by (intros y h Hy He ->; eauto).
  split; cbn.
  - intros y h [Hy He]%lookup_delete_Some. rewrite lookup_delete_ne; eauto.
    symmetry. eauto.
  - intros y z h [_ Hy]%lookup_delete_Some [_ Hz]%lookup_delete_Some. eauto.
  - intros y. destruct (decide (y = x)) as [->|Hy]; [by rewrite !lookup_delete_eq|].
    rewrite !lookup_delete_ne, Hval by done. destruct (env !! y) as [h|] eqn:He; [|done].
    cbn. rewrite lookup_delete_ne; [done|]. symmetry. eauto.
Qed.

Lemma refines_add x h c env t venv :
  refines (env, t) venv → env !! x = None → t !! h = None → h ≠ 0 →
  refines (<[x := h]> env, <[h := c]> t) (<[x := c]> venv).
Proof.
  intros [Hlive Hinj Hval] Hx Hh H0. cbn in *.
  assert (∀ y h', env !! y = Some h' → h ≠ h') as Hne.
  { intros y h' He ->. destruct (Hlive y h' He) as [_ [? ?]]. congruence. }
  split; cbn.
  - intros y h' [[<- <-]|[Hy He]]%lookup_insert_Some; [by rewrite lookup_insert_eq|].
    rewrite lookup_insert_ne by eauto. eauto.
  - intros y z h' [[<- <-]|[Hy He]]%lookup_insert_Some [[<- ?]|[Hz He']]%lookup_insert_Some;
      [done| | |eauto]; exfalso; simplify_eq; by eapply Hne.
  - intros y. destruct (decide (y = x)) as [->|Hy].
    + rewrite !lookup_insert_eq. cbn. by rewrite lookup_insert_eq.
    + rewrite !lookup_insert_ne, Hval by done. destruct (env !! y) as [h'|] eqn:He; [|done].
      cbn. rewrite lookup_insert_ne by eauto. done.
Qed.

Lemma refines_update x h c env t venv :
  refines (env, t) venv → env !! x = Some h → refines (env, <[h := c]> t) (<[x := c]> venv).
Proof.
  intros [Hlive Hinj Hval] Hx. cbn in *. split; cbn.
  - intros y h' He. destruct (Hlive y h' He) as [? ?]. split; [done|].
    destruct (decide (h' = h)) as [->|]; [rewrite lookup_insert_eq|rewrite lookup_insert_ne]; eauto.
  - eauto.
  - intros y. destruct (decide (y = x)) as [->|Hy].
    + rewrite lookup_insert_eq, Hx. cbn. by rewrite lookup_insert_eq.
    + rewrite lookup_insert_ne, Hval by done. destruct (env !! y) as [h'|] eqn:He; [|done].
      cbn. rewrite lookup_insert_ne; [done|]. intros ->. eauto.
Qed.

Lemma refines_assign x h c env t venv :
  refines (env, t) venv → t !! h = None → h ≠ 0 →
  refines (<[x := h]> env, drop_handle (env !! x) (<[h := c]> t)) (<[x := c]> venv).
Proof.
  intros Href Hh H0. apply (refines_remove x) in Href as Hrem.
  rewrite <- (insert_delete_eq env), <- (insert_delete_eq venv).
  assert (drop_handle (env !! x) (<[h := c]> t) = <[h := c]> (drop_handle (env !! x) t)) as ->.
  { destruct (env !! x) as [hx|] eqn:Hx; [|done].
    destruct (refines_live _ _ Href x hx Hx) as [Hx0 [? Hl]]. cbn in Hl.
    rewrite !drop_handle_spec, delete_insert_ne by (done || congruence). done. }
  apply refines_add; [done|by rewrite lookup_delete_eq| |done].
  destruct (env !! x) as [hx|] eqn:Hx; [|done].
  rewrite drop_handle_spec by (by apply (refines_live _ _ Href x)).
  apply lookup_delete_None. auto.
Qed.

Context (box_fresh : ∀ t, t !! box_addr t = None ∧ box_addr t ≠ 0).

Lemma step_refines c st venv :
  refines st venv →
  (handle_step c st).1 = (value_step c venv).1 ∧
  refines (handle_step c st).2 (value_step c venv).2.
Proof.
  destruct st as [env t]. intros Href. pose proof (refines_value _ _ Href) as Hval. cbn in Hval.
  assert (∀ x h, env !! x = Some h → ∃ c, t !! h = Some c ∧ venv !! x = Some c) as Hlive.
  { intros x h Hx. destruct (refines_live _ _ Href x h Hx) as [_ [c' Hc]].
    exists c'. by rewrite Hval, Hx. }
  assert (∀ x, env !! x = None → venv !! x = None) as Hdead
    by (intros x Hx; by rewrite Hval, Hx).
  destruct c as [x alg|x bs|x y|x|x]; cbn [handle_step value_step].
  - unfold hash_ctx_init. destruct (ring_hash_of alg) as [h|]; [|done]. cbn.
    split; [done|]. apply refines_assign; [done|apply box_fresh..].
  - destruct (env !! x) as [h|] eqn:Hx; [|by rewrite (Hdead x Hx)].
    destruct (Hlive x h Hx) as (c&Ht&Hv). rewrite Hv.
    unfold hash_ctx_update, bind. cbn. rewrite Ht. cbn. split; [done|]. by apply refines_update.
  - destruct (env !! x) as [h|] eqn:Hx; [|by rewrite (Hdead x Hx)].
    destruct (Hlive x h Hx) as (c&Ht&Hv). rewrite Hv.
    unfold hash_ctx_dup, bind. cbn. rewrite Ht. cbn. split; [done|].
    apply refines_assign; [done|apply box_fresh..].
  - destruct (env !! x) as [h|] eqn:Hx; [|by rewrite (Hdead x Hx)].
    destruct (Hlive x h Hx) as (c&Ht&Hv). rewrite Hv.
    unfold hash_ctx_finalize, bind. cbn. rewrite Ht. cbn. split; [done|].
    apply (refines_remove x) in Href as Hrem. rewrite Hx in Hrem.
    rewrite drop_handle_spec in Hrem by (by apply (refines_live _ _ Href x)). done.
  - split; [done|]. by apply refines_remove.
Qed.

Lemma run_refines cs st venv :
  refines st venv → run_commands handle_step cs st = run_commands value_step cs venv.
Proof.
  revert st venv. induction cs as [|c cs IH]; intros st venv Href; [done|]. cbn.
  destruct (step_refines c st venv Href) as [Ho Hr].
  destruct (handle_step c st), (value_step c venv). cbn in *. subst. f_equal. by apply IH.
Qed.

(** C32: Handles implement digest contexts.  A client that keeps digest contexts as handles
    into the global table, with [clone] and the [Drop] of Rust, makes exactly the
    observations of a client that keeps them as values: no operation through one handle is
    seen through another, and nothing is used after it was finalized.  This holds for every
    sequence of operations and every allocator that returns fresh addresses. *)
Theorem digest_handles_refine cs :
  run_commands handle_step cs (∅, ∅) = run_commands value_step cs ∅.
Proof. by apply run_refines; split; cbn; intros; rewrite ?lookup_empty in *. Qed.

End Table.
End HandleTable.
