(* ===== verification/CertOps.v ===== *)
(** Model of spdmlib/src/crypto/spdm_ring/cert_operation_impl.rs and asym_verify_impl.rs: cutting a
    certificate chain into certificates, verifying a chain and verifying a signature with its last
    certificate.

    Parsing and verifying single certificates is the work of the webpki library and of the DER
    reader of ring, which are the class [Webpki]; the time is an argument. *)

From S2P Require Import Prelude Config Codec Status Algo Protocol X509 Crypto SpdmRing.

(** ** Cutting a chain *)

(** The loop from [offset], at certificate [this_index], for [fuel] turns; [None] when they do not
    suffice. *)
(*@ spdmlib/src/crypto/spdm_ring/cert_operation_impl.rs 23-45 get_cert_from_cert_chain *)
Fixpoint get_cert_loop {S} (fuel : nat) (cert_chain : bytes) (index : Z) (offset : nat)
    (this_index : Z) : M S SpdmStatus (option (nat * nat)) :=
  match fuel with
  | O => ret None
  | Datatypes.S fuel =>
      let* rest := sub_slice offset (length cert_chain) cert_chain in
      match rest with
      | b0 :: b1 :: b2 :: b3 :: _ =>
          if negb (b0 =? 0x30) || negb (b1 =? 0x82) then throw SPDM_STATUS_INVALID_CERT else
          let this_cert_len := (Z.to_nat (Z.shiftl b2 8) + Z.to_nat b3 + 4)%nat in
          if (length cert_chain - offset <? this_cert_len)%nat then throw SPDM_STATUS_INVALID_CERT
          else if this_index =? index then ret (Some (offset, (offset + this_cert_len)%nat))
          else if (offset + this_cert_len =? length cert_chain)%nat && (index =? -1)
          then ret (Some (offset, (offset + this_cert_len)%nat))
          else get_cert_loop fuel cert_chain index (offset + this_cert_len) (this_index + 1)
      | _ => throw SPDM_STATUS_INVALID_CERT
      end
  end.

(** Every turn moves on by at least four bytes. *)
(*@ spdmlib/src/crypto/spdm_ring/cert_operation_impl.rs 19-46 get_cert_from_cert_chain *)
Definition get_cert_from_cert_chain (cert_chain : bytes) (index : Z)
    : outcome SpdmStatus (option (nat * nat)) :=
  run (get_cert_loop (Datatypes.S (length cert_chain)) cert_chain index 0 0).

(** ** The verifier *)

(** The algorithms of webpki that the code names. *)
Inductive SignatureAlgorithm :=
| ECDSA_P256_SHA256 | ECDSA_P384_SHA256 | ECDSA_P256_SHA384 | ECDSA_P384_SHA384
| RSA_PKCS1_2048_8192_SHA256 | RSA_PSS_2048_8192_SHA256_LEGACY_KEY
| RSA_PKCS1_2048_8192_SHA384 | RSA_PSS_2048_8192_SHA384_LEGACY_KEY
| RSA_PKCS1_2048_8192_SHA512 | RSA_PSS_2048_8192_SHA512_LEGACY_KEY.

Class Webpki := {
  (** [der::expect_tag_and_get_value(reader, Sequence)]: the number of bytes it takes. *)
  expect_sequence : bytes → option nat;
  TrustAnchor : Type;
  TrustAnchor_try_from_cert_der : bytes → option TrustAnchor;
  EndEntityCert : Type;
  EndEntityCert_try_from : bytes → option EndEntityCert;
  verify_cert_chain_with_eku :
    EndEntityCert → bytes → list SignatureAlgorithm → TrustAnchor → list bytes → Z → bool;
  verify_signature : EndEntityCert → SignatureAlgorithm → bytes → bytes → bool;
}.

Section CertOps.
Context `{pki : Webpki}.

(** The sequences at the front of the input, each with its header. *)
(*@ spdmlib/src/crypto/spdm_ring/cert_operation_impl.rs 64-78 verify_cert_chain *)
Fixpoint split_certs (fuel : nat) (input : bytes) : list bytes :=
  match fuel with
  | O => []
  | S fuel =>
      match expect_sequence input with
      | Some n => take n input :: split_certs fuel (drop n input)
      | None => []
      end
  end.

(*@ spdmlib/src/crypto/spdm_ring/cert_operation_impl.rs 48-142 verify_cert_chain *)
Definition verify_cert_chain (timestamp : option Z) (cert_chain : bytes) : outcome SpdmStatus unit :=
  let certs := split_certs (length cert_chain) cert_chain in
  match certs with
  | [] => Err SPDM_STATUS_INVALID_CERT
  | ca :: others =>
      let '(inters, ee) :=
        match reverse others with
        | [] => ([], ca)
        | ee :: front => (reverse front, ee)
        end in
      match TrustAnchor_try_from_cert_der ca with
      | None => Err SPDM_STATUS_INVALID_CERT
      | Some anchor =>
          match timestamp with
          | None => Err SPDM_STATUS_INVALID_STATE_LOCAL
          | Some time =>
              match EndEntityCert_try_from ee with
              | None => Err SPDM_STATUS_INVALID_CERT
              | Some cert =>
                  if verify_cert_chain_with_eku cert [43; 6; 1; 5; 5; 7; 3; 1]
                       [RSA_PKCS1_2048_8192_SHA256; RSA_PKCS1_2048_8192_SHA384;
                        RSA_PKCS1_2048_8192_SHA512; ECDSA_P256_SHA256; ECDSA_P256_SHA384;
                        ECDSA_P384_SHA256; ECDSA_P384_SHA384] anchor inters time
                  then Ok tt else Err SPDM_STATUS_INVALID_CERT
              end
          end
      end
  end.

(** *** ECDSA signatures in DER *)

(** [iter().position] of the first byte that is not zero, the length if there is none. *)
Fixpoint leading_zeros (bs : bytes) : nat :=
  match bs with
  | b :: bs => if b =? 0 then S (leading_zeros bs) else O
  | [] => O
  end.

(** Returns the size and the buffer. *)
(*@ spdmlib/src/crypto/spdm_ring/asym_verify_impl.rs 120-187 ecc_signature_bin_to_der *)
Definition ecc_signature_bin_to_der {St} (signature der_signature : bytes)
    : M St SpdmStatus (nat * bytes) :=
  let sign_size := length signature in
  let half_size := (sign_size / 2)%nat in
  let r_index := leading_zeros (take half_size signature) in
  let r_size := (half_size - r_index)%nat in
  let r := take r_size (drop r_index signature) in
  let s_index := leading_zeros (take half_size (drop half_size signature)) in
  let s_size := (half_size - s_index)%nat in
  let* s := sub_slice (half_size + s_index) sign_size signature in
  if (r_size =? 0)%nat || (s_size =? 0)%nat then ret (0%nat, der_signature) else
  let der_r_size := if nth 0 r 0 <? 0x80 then r_size else (r_size + 1)%nat in
  let der_s_size := if nth 0 s 0 <? 0x80 then s_size else (s_size + 1)%nat in
  let der_sign_size := (der_r_size + der_s_size + 6)%nat in
  if (length der_signature <? der_sign_size)%nat then throw SPDM_STATUS_VERIF_FAIL else
  if (0xFF <? der_r_size)%nat || (0xFF <? der_s_size)%nat || (0xFF <? der_sign_size)%nat
  then throw SPDM_STATUS_VERIF_FAIL else
  let* d := slice_copy der_signature 0
              [0x30; as_u8 (Z.of_nat (der_sign_size - 2)); 0x02; as_u8 (Z.of_nat der_r_size)] in
  let* d := if nth 0 r 0 <? 0x80 then slice_copy d 4 r
            else let* d := slice_copy d 4 [0] in slice_copy d 5 r in
  let* d := slice_copy d (4 + der_r_size) [0x02; as_u8 (Z.of_nat der_s_size)] in
  let* d := if nth 0 s 0 <? 0x80 then slice_copy d (6 + der_r_size) s
            else let* d := slice_copy d (6 + der_r_size) [0] in slice_copy d (7 + der_r_size) s in
  ret (der_sign_size, d).

(** *** Verifying a signature *)

(** The algorithm of webpki for the negotiated ones. *)
(*@ spdmlib/src/crypto/spdm_ring/asym_verify_impl.rs 25-71 asym_verify *)
Definition webpki_algorithm (base_hash_algo base_asym_algo : Z) : option SignatureAlgorithm :=
  let rsassa := bool_decide (base_asym_algo ∈ [SpdmBaseAsymAlgo.TPM_ALG_RSASSA_2048;
    SpdmBaseAsymAlgo.TPM_ALG_RSASSA_3072; SpdmBaseAsymAlgo.TPM_ALG_RSASSA_4096]) in
  let rsapss := bool_decide (base_asym_algo ∈ [SpdmBaseAsymAlgo.TPM_ALG_RSAPSS_2048;
    SpdmBaseAsymAlgo.TPM_ALG_RSAPSS_3072; SpdmBaseAsymAlgo.TPM_ALG_RSAPSS_4096]) in
  let p256 := base_asym_algo =? SpdmBaseAsymAlgo.TPM_ALG_ECDSA_ECC_NIST_P256 in
  let p384 := base_asym_algo =? SpdmBaseAsymAlgo.TPM_ALG_ECDSA_ECC_NIST_P384 in
  if base_hash_algo =? SpdmBaseHashAlgo.TPM_ALG_SHA_256 then
    if p256 then Some ECDSA_P256_SHA256
    else if p384 then Some ECDSA_P384_SHA256
    else if rsassa then Some RSA_PKCS1_2048_8192_SHA256
    else if rsapss then Some RSA_PSS_2048_8192_SHA256_LEGACY_KEY
    else None
  else if base_hash_algo =? SpdmBaseHashAlgo.TPM_ALG_SHA_384 then
    if p256 then Some ECDSA_P256_SHA384
    else if p384 then Some ECDSA_P384_SHA384
    else if rsassa then Some RSA_PKCS1_2048_8192_SHA384
    else if rsapss then Some RSA_PSS_2048_8192_SHA384_LEGACY_KEY
    else None
  else if base_hash_algo =? SpdmBaseHashAlgo.TPM_ALG_SHA_512 then
    if rsassa then Some RSA_PKCS1_2048_8192_SHA512
    else if rsapss then Some RSA_PSS_2048_8192_SHA512_LEGACY_KEY
    else None
  else None.

Abbreviation ECDSA_DER_SIZE := 104%nat (only parsing).

(** [fuel] is for the loop of the format check; [None] when it does not suffice. *)
(*@ spdmlib/src/crypto/spdm_ring/asym_verify_impl.rs 14-118 asym_verify *)
Definition asym_verify (mode : overflow_mode) (fuel : nat) (base_hash_algo base_asym_algo : Z)
    (public_cert_der data : bytes) (signature : SpdmSignatureStruct)
    : outcome SpdmStatus (option unit) :=
  run (let* size := of_outcome (SpdmBaseAsymAlgo.get_size base_asym_algo) in
       if negb (data_size signature =? size)%nat then throw SPDM_STATUS_VERIF_FAIL else
       let* algorithm := unwrap (webpki_algorithm base_hash_algo base_asym_algo) in
       let* checked := check_cert_chain_format mode fuel public_cert_der base_asym_algo in
       match checked with
       | None => ret None
       | Some _ =>
           let* leaf := of_outcome (get_cert_from_cert_chain public_cert_der (-1)) in
           let* (leaf_begin, leaf_end) := unwrap leaf in
           let* leaf_cert_der := sub_slice leaf_begin leaf_end public_cert_der in
           match EndEntityCert_try_from leaf_cert_der with
           | None => throw SPDM_STATUS_INVALID_CERT
           | Some cert =>
               let* sign := sized_as_ref signature in
               if bool_decide (base_asym_algo ∈ [SpdmBaseAsymAlgo.TPM_ALG_ECDSA_ECC_NIST_P256;
                                                 SpdmBaseAsymAlgo.TPM_ALG_ECDSA_ECC_NIST_P384])
               then
                 let* (der_sign_size, der) :=
                   ecc_signature_bin_to_der sign (replicate ECDSA_DER_SIZE 0) in
                 let* der := sub_slice 0 der_sign_size der in
                 if verify_signature cert algorithm data der then ret (Some tt)
                 else throw SPDM_STATUS_VERIF_FAIL
               else if verify_signature cert algorithm data sign then ret (Some tt)
               else throw SPDM_STATUS_VERIF_FAIL
           end
       end).

End CertOps.

(** ** The callbacks of the ring build *)

(** A call that never returns has no outcome; [Panic] stands for it. *)
Definition returned {E A} (o : outcome E (option A)) : outcome E A :=
  match o with Ok (Some a) => Ok a | Err e => Err e | Ok None | Panic => Panic end.

(** With overflow checks; one turn of the format check for every byte suffices. *)
Definition spdm_ring `{Ring} `{Webpki} (timestamp : option Z) : Crypto :=
  ring_crypto
    (λ h a chain message signature,
       returned (asym_verify Checked (length chain) h a chain message signature))
    (λ chain index, returned (get_cert_from_cert_chain chain index))
    (verify_cert_chain timestamp).

(** ** Where a certificate is found *)

(** A certificate whose length is given by two octets. *)
Definition der_cert (b : bytes) : Prop :=
  ∃ hi lo body, b = [0x30; 0x82; hi; lo] ++ body ∧
    length body = (Z.to_nat (Z.shiftl hi 8) + Z.to_nat lo)%nat.

Lemma der_cert_length b : der_cert b → (4 ≤ length b)%nat.
Proof. intros (hi&lo&body&->&_). cbn. lia. Qed.

(** There is at most one at the front of a string. *)
Lemma der_cert_unique b b' r r' : der_cert b → der_cert b' → b ++ r = b' ++ r' → b = b' ∧ r = r'.
Proof.
  intros (hi&lo&body&->&Hl) (hi'&lo'&body'&->&Hl') Heq. injection Heq as <- <- Heq.
  apply app_inj_1 in Heq as [<- <-]; [done|lia].
Qed.

Lemma der_cert_prefix data :
  (∃ b r, data = b ++ r ∧ der_cert b) ∨ (∀ b r, data = b ++ r → ¬ der_cert b).
Proof.
  destruct data as [|b0 [|b1 [|b2 [|b3 data]]]];
    try (right; intros b r Heq (hi&lo&body&->&_); discriminate Heq).
  set (n := (Z.to_nat (Z.shiftl b2 8) + Z.to_nat b3)%nat).
  destruct (decide (b0 = 0x30 ∧ b1 = 0x82 ∧ (n ≤ length data)%nat)) as [(->&->&Hn)|Hno].
  - left. exists (0x30 :: 0x82 :: b2 :: b3 :: take n data), (drop n data). split.
    + cbn. by rewrite take_drop.
    + exists b2, b3, (take n data). split; [done|]. rewrite length_take. unfold n in *. lia.
  - right. intros b r Heq (hi&lo&body&->&Hl). injection Heq as -> -> -> -> ->. apply Hno.
    rewrite length_app. unfold n. split_and!; [done|done|lia].
Qed.

Section Cut.
Context {S : Type}.
Implicit Types s : S.

Lemma loop_at_cert fuel pre cert rest index k s :
  der_cert cert →
  get_cert_loop (Datatypes.S fuel) (pre ++ cert ++ rest) index (length pre) k s =
  (if k =? index then (Ok (Some (length pre, (length pre + length cert)%nat)), s)
   else if bool_decide (rest = [] ∧ index = -1)
   then (Ok (Some (length pre, (length pre + length cert)%nat)), s)
   else get_cert_loop fuel ((pre ++ cert) ++ rest) index (length (pre ++ cert)) (k + 1) s).
Proof.
  intros (hi&lo&body&->&Hl). cbn [get_cert_loop].
  rewrite (bind_step _ _ _ s ([0x30; 0x82; hi; lo] ++ body ++ rest)).
  2: { rewrite sub_slice_ok by (rewrite length_app; lia). rewrite drop_app_length.
       rewrite take_ge; [done|]. rewrite !length_app. lia. }
  cbn [app]. rewrite !Z.eqb_refl. cbn [negb orb].
  assert ((Z.to_nat (Z.shiftl hi 8) + Z.to_nat lo + 4)%nat = length (0x30 :: 0x82 :: hi :: lo :: body)) as ->
    by (cbn [length]; lia).
  set (cert := 0x30 :: 0x82 :: hi :: lo :: body).
  change (pre ++ 0x30 :: 0x82 :: hi :: lo :: body ++ rest) with (pre ++ cert ++ rest).
  rewrite !length_app.
  destruct (Nat.ltb_spec (length pre + (length cert + length rest) - length pre) (length cert)); [lia|].
  destruct (k =? index); [done|].
  destruct (Nat.eqb_spec (length pre + length cert) (length pre + (length cert + length rest))) as [Hr|Hr];
    cbn [andb].
  - assert (rest = []) as -> by (apply nil_length_inv; lia).
    destruct (Z.eqb_spec index (-1)) as [->|]; [by rewrite bool_decide_true|].
    rewrite bool_decide_false by tauto. by rewrite app_assoc.
  - rewrite bool_decide_false by (intros [-> _]; cbn in Hr; lia). by rewrite app_assoc.
Qed.

Lemma loop_at_end fuel pre data index k s :
  (∀ b r, data = b ++ r → ¬ der_cert b) →
  get_cert_loop (Datatypes.S fuel) (pre ++ data) index (length pre) k s =
  (Err SPDM_STATUS_INVALID_CERT, s).
Proof.
  intros Hno. cbn [get_cert_loop]. rewrite (bind_step _ _ _ s data).
  2: { rewrite sub_slice_ok by (rewrite length_app; lia). rewrite drop_app_length.
       rewrite take_ge; [done|]. rewrite length_app. lia. }
  destruct data as [|b0 [|b1 [|b2 [|b3 data]]]]; try done.
  destruct (Z.eqb_spec b0 0x30) as [->|]; [|done]. destruct (Z.eqb_spec b1 0x82) as [->|]; [|done].
  cbn [negb orb]. rewrite length_app.
  destruct (Nat.ltb_spec (length pre + length (0x30 :: 0x82 :: b2 :: b3 :: data) - length pre)
              (Z.to_nat (Z.shiftl b2 8) + Z.to_nat b3 + 4)) as [|Hl]; [done|]. exfalso.
  set (n := (Z.to_nat (Z.shiftl b2 8) + Z.to_nat b3)%nat) in *. cbn [length] in Hl.
  apply (Hno (0x30 :: 0x82 :: b2 :: b3 :: take n data) (drop n data)).
  - cbn. by rewrite take_drop.
  - exists b2, b3, (take n data). split; [done|]. rewrite length_take. fold n. lia.
Qed.

(** [found data index k certs cert rest]: in [data], which follows [k] certificates, [cert] is the
    certificate [index]. *)
Definition found (data : bytes) (index k : Z) (certs : list bytes) (cert rest : bytes) : Prop :=
  data = concat certs ++ cert ++ rest ∧ Forall der_cert certs ∧ der_cert cert ∧
  (index = k + Z.of_nat (length certs) ∨ index = -1 ∧ rest = []).

Lemma found_next cert data index k certs c rest :
  der_cert cert → found data index (k + 1) certs c rest →
  found (cert ++ data) index k (cert :: certs) c rest.
Proof.
  intros Hcert (->&Hcs&Hc&Hi). split_and!.
  - cbn. by rewrite <- app_assoc.
  - by apply Forall_cons_2.
  - done.
  - cbn [length]. destruct Hi as [->|?]; [left; lia|by right].
Qed.

Lemma get_cert_loop_spec fuel pre data index k s :
  (length data < fuel)%nat → 0 ≤ k →
  (∃ certs cert rest, found data index k certs cert rest ∧
     get_cert_loop fuel (pre ++ data) index (length pre) k s =
     (Ok (Some ((length pre + length (concat certs))%nat,
                (length pre + length (concat certs) + length cert)%nat)), s)) ∨
  (get_cert_loop fuel (pre ++ data) index (length pre) k s = (Err SPDM_STATUS_INVALID_CERT, s) ∧
   ∀ certs cert rest, ¬ found data index k certs cert rest).
Proof.
  revert pre data k. induction fuel as [|fuel IH]; intros pre data k Hf Hk; [lia|].
  destruct (der_cert_prefix data) as [(cert&rest&->&Hcert)|Hno].
  2: { right. split; [by apply loop_at_end|]. intros [|c certs] cert rest (->&Hcs&Hc&_).
       - by apply (Hno cert rest).
       - apply (Hno c (concat certs ++ cert ++ rest)); [cbn; by rewrite <- app_assoc|].
         by apply Forall_inv in Hcs. }
  rewrite (loop_at_cert fuel pre cert rest index k s Hcert).
  pose proof (der_cert_length _ Hcert) as Hlen. rewrite length_app in Hf.
  destruct (Z.eqb_spec k index) as [<-|Hki].
  { left. exists [], cert, rest. cbn [concat length]. rewrite Nat.add_0_r. split; [|done].
    split_and!; [done|by apply Forall_nil_2|done|left; cbn; lia]. }
  case_bool_decide as Hlast.
  { left. destruct Hlast as [-> ->]. exists [], cert, []. cbn [concat length].
    rewrite Nat.add_0_r. split; [|done].
    split_and!; [done|by apply Forall_nil_2|done|by right]. }
  destruct (IH (pre ++ cert) rest (k + 1)) as [(certs&c&r&Hfound&->)|[-> Hno]]; [lia|lia| |].
  - left. exists (cert :: certs), c, r. split; [by apply found_next|].
    cbn [concat]. rewrite !length_app. do 4 f_equal; lia.
  - right. split; [done|]. intros [|c0 certs] c r (Heq&Hcs&Hc&Hi).
    + cbn in Heq. apply der_cert_unique in Heq as [<- <-]; [|done|done].
      destruct Hi as [->|[-> ->]]; [cbn in Hki; lia|by apply Hlast].
    + cbn in Heq. rewrite <- app_assoc in Heq.
      apply der_cert_unique in Heq as [<- ->]; [|done|by apply Forall_inv in Hcs].
      apply (Hno certs c r). split_and!; [done|by apply Forall_inv_tail in Hcs|done|].
      destruct Hi as [->|?]; [left; cbn [length]; lia|by right].
Qed.
End Cut.

(** Cutting a certificate out of a chain is exact.  The call returns the range of certificate
    [index], or for [-1] of the last one, when the chain begins with that many certificates of
    two-octet length, respectively consists of certificates only; in every other case it is an
    error.  It always ends and never panics. *)
Theorem certificate_cut (chain : bytes) (index : Z) :
  (∃ certs cert rest, found chain index 0 certs cert rest ∧
     get_cert_from_cert_chain chain index =
     Ok (Some (length (concat certs), (length (concat certs) + length cert)%nat))) ∨
  (get_cert_from_cert_chain chain index = Err SPDM_STATUS_INVALID_CERT ∧
   ∀ certs cert rest, ¬ found chain index 0 certs cert rest).
Proof.
  unfold get_cert_from_cert_chain, run.
  destruct (get_cert_loop_spec (Datatypes.S (length chain)) [] chain index 0 tt)
    as [(certs&cert&rest&Hfound&Heq)|[Heq Hno]]; [lia|lia| |].
  - left. exists certs, cert, rest. split; [done|]. cbn [app length] in Heq. by rewrite Heq.
  - right. cbn [app length] in Heq. by rewrite Heq.
Qed.

(** ** ECDSA signatures in DER *)

Definition be_val (bs : bytes) : Z := foldl (λ a b, a * 256 + b) 0 bs.

(** [der_integer bs v]: [bs] is the shortest big-endian encoding of the positive number [v] whose
    top bit is clear. *)
Definition der_integer (bs : bytes) (v : Z) : Prop :=
  be_val bs = v ∧
  match bs with
  | [] => False
  | [b] => 0 < b < 0x80
  | b :: b' :: _ => 0 < b < 0x80 ∨ (b = 0 ∧ 0x80 ≤ b')
  end.

Lemma be_val_zeros bs : be_val (drop (leading_zeros bs) bs) = be_val bs.
Proof.
  induction bs as [|b bs IH]; [done|]. cbn [leading_zeros]. destruct (Z.eqb_spec b 0) as [->|]; [|done].
  cbn [drop]. rewrite IH. done.
Qed.

Lemma leading_zeros_le bs : (leading_zeros bs ≤ length bs)%nat.
Proof. induction bs as [|b bs IH]; [done|]. cbn. destruct (b =? 0); lia. Qed.

Lemma be_val_acc a bs : foldl (λ a b, a * 256 + b) a bs = a * 256 ^ len bs + be_val bs.
Proof.
  unfold be_val. revert a. induction bs as [|b bs IH]; intros a; cbn [foldl].
  - unfold len. cbn. lia.
  - rewrite IH, (IH (0 * 256 + b)), len_cons, Z.pow_add_r by (try apply len_nonneg; lia). lia.
Qed.
Lemma be_val_nonneg bs : Forall is_u8 bs → 0 ≤ be_val bs.
Proof.
  intros H. unfold be_val. assert (∀ a, 0 ≤ a → 0 ≤ foldl (λ a b, a * 256 + b) a bs) as Hg; [|by apply Hg].
  induction H as [|b bs Hb _ IH]; intros a Ha; cbn [foldl]; [done|]. apply IH. unfold is_uint in Hb. lia.
Qed.

(** Without its leading zeros a number is zero or begins with a digit that is not. *)
Lemma significant bs :
  Forall is_u8 bs →
  let d := drop (leading_zeros bs) bs in
  (be_val bs = 0 ∧ d = []) ∨ (0 < be_val bs ∧ ∃ b t, d = b :: t ∧ 0 < b < 256).
Proof.
  intros H. rewrite <- (be_val_zeros bs). induction H as [|b bs Hb Hbs IH]; [by left|].
  cbn [leading_zeros]. destruct (Z.eqb_spec b 0) as [->|Hz]; [exact IH|]. right. cbn [drop].
  unfold is_uint in Hb. split; [|by exists b, bs; split; [done|lia]].
  unfold be_val. cbn [foldl]. rewrite be_val_acc. pose proof (be_val_nonneg bs Hbs).
  pose proof (len_nonneg bs). assert (0 < 256 ^ len bs) by (apply Z.pow_pos_nonneg; lia). nia.
Qed.

(** The encoding that the code writes. *)
Definition positive (bs : bytes) : bytes := if nth 0 bs 0 <? 0x80 then bs else 0 :: bs.

Lemma positive_integer b t v :
  0 < b < 256 → be_val (b :: t) = v → der_integer (positive (b :: t)) v.
Proof.
  intros Hb Hv. unfold positive. cbn [nth]. destruct (Z.ltb_spec b 0x80).
  - split; [done|]. destruct t; [lia|by left; lia].
  - split; [|right; lia]. rewrite <- Hv. done.
Qed.

Lemma copy_positive {S E} pre bs rest n (s : S) :
  n = length pre → (length (positive bs) ≤ length rest)%nat →
  (if nth 0 bs 0 <? 0x80 then slice_copy (pre ++ rest) n bs
   else let* d := slice_copy (pre ++ rest) n [0] in slice_copy (E:=E) d (1 + n) bs) s =
  (Ok ((pre ++ positive bs) ++ drop (length (positive bs)) rest), s).
Proof.
  intros -> Hl. unfold positive in *. destruct (nth 0 bs 0 <? 0x80).
  - by apply slice_copy_next.
  - cbn [length] in Hl. rewrite (bind_step _ _ _ _ _ (slice_copy_next pre [0] rest s ltac:(cbn; lia))).
    replace (1 + length pre)%nat with (length (pre ++ [0])) by (rewrite length_app; cbn; lia).
    rewrite slice_copy_next by (rewrite length_drop; cbn; lia). rewrite drop_drop.
    do 2 f_equal. by rewrite <- (app_assoc pre).
Qed.

(** The halves of a signature without their leading zeros. *)
Lemma ecc_halves {St} h signature der (s0 : St) :
  length signature = (2 * h)%nat →
  let r := drop (leading_zeros (take h signature)) (take h signature) in
  let s := drop (leading_zeros (drop h signature)) (drop h signature) in
  ecc_signature_bin_to_der signature der s0 =
  (if (length r =? 0)%nat || (length s =? 0)%nat then ret (0%nat, der) else
   let n := (length (positive r) + length (positive s) + 6)%nat in
   if (length der <? n)%nat then throw SPDM_STATUS_VERIF_FAIL else
   if (0xFF <? length (positive r))%nat || (0xFF <? length (positive s))%nat || (0xFF <? n)%nat
   then throw SPDM_STATUS_VERIF_FAIL else
   let* d := slice_copy der 0
               [0x30; as_u8 (Z.of_nat (n - 2)); 0x02; as_u8 (Z.of_nat (length (positive r)))] in
   let* d := if nth 0 r 0 <? 0x80 then slice_copy d 4 r
             else let* d := slice_copy d 4 [0] in slice_copy d (1 + 4) r in
   let* d := slice_copy d (4 + length (positive r))
               [0x02; as_u8 (Z.of_nat (length (positive s)))] in
   let* d := if nth 0 s 0 <? 0x80 then slice_copy d (6 + length (positive r)) s
             else let* d := slice_copy d (6 + length (positive r)) [0] in
                  slice_copy d (1 + (6 + length (positive r))) s in
   ret (n, d)) s0.
Proof.
  intros Hl r s. unfold ecc_signature_bin_to_der. rewrite Hl.
  replace (2 * h / 2)%nat with h by (rewrite Nat.mul_comm, Nat.div_mul; lia).
  rewrite (take_ge (drop h signature)) by (rewrite length_drop; lia).
  pose proof (leading_zeros_le (take h signature)) as Hr. pose proof (leading_zeros_le (drop h signature)) as Hs.
  rewrite length_take in Hr. rewrite length_drop in Hs.
  assert (take (h - leading_zeros (take h signature)) (drop (leading_zeros (take h signature)) signature) = r)
    as Er.
  { unfold r. rewrite take_drop_commute. do 2 f_equal. lia. }
  rewrite Er. unfold sub_slice. rewrite decide_True by lia.
  replace (take (2 * h - (h + leading_zeros (drop h signature)))
    (drop (h + leading_zeros (drop h signature)) signature)) with s
    by (unfold s; rewrite take_ge, drop_drop by (rewrite length_drop; lia); done).
  replace (h - leading_zeros (take h signature))%nat with (length r)
    by (unfold r; rewrite length_drop, length_take; lia).
  replace (h - leading_zeros (drop h signature))%nat with (length s)
    by (unfold s; rewrite length_drop, length_drop; lia).
  assert (∀ x, (if nth 0 x 0 <? 0x80 then length x else (length x + 1)%nat) = length (positive x)) as Hp.
  { intros x. unfold positive. destruct (nth 0 x 0 <? 0x80); cbn; lia. }
  rewrite bind_ret_l. cbv zeta. rewrite (Hp r), (Hp s). reflexivity.
Qed.

Lemma positive_length bs : (length (positive bs) ≤ 1 + length bs)%nat.
Proof. unfold positive. destruct (nth 0 bs 0 <? 0x80); cbn; lia. Qed.

(** The parts are written one after the other. *)
Lemma der_written {St E} r s hd mid der (s0 : St) :
  length hd = 4%nat → length mid = 2%nat →
  (6 + length (positive r) + length (positive s) ≤ length der)%nat →
  (let* d := slice_copy der 0 hd in
   let* d := if nth 0 r 0 <? 0x80 then slice_copy d 4 r
             else let* d := slice_copy d 4 [0] in slice_copy d (1 + 4) r in
   let* d := slice_copy d (4 + length (positive r)) mid in
   let* d := if nth 0 s 0 <? 0x80 then slice_copy d (6 + length (positive r)) s
             else let* d := slice_copy d (6 + length (positive r)) [0] in
                  slice_copy d (1 + (6 + length (positive r))) s in
   ret (E:=E) ((length (positive r) + length (positive s) + 6)%nat, d)) s0 =
  (Ok ((length (positive r) + length (positive s) + 6)%nat,
       (((hd ++ positive r) ++ mid) ++ positive s) ++
       drop (length (positive s)) (drop 2 (drop (length (positive r)) (drop 4 der)))), s0).
Proof.
  intros Hhd Hmid Hl.
  pose proof (slice_copy_next (E:=E) [] hd der s0 ltac:(lia)) as H. cbn [length app] in H.
  rewrite (bind_step _ _ _ _ _ H). rewrite Hhd.
  erewrite bind_step by (apply copy_positive; [done|rewrite length_drop; lia]).
  replace (4 + length (positive r))%nat with (length (hd ++ positive r)) by (rewrite length_app; lia).
  erewrite bind_step by (apply slice_copy_next; rewrite !length_drop; lia). rewrite Hmid.
  erewrite bind_step by (apply copy_positive; [rewrite !length_app; lia|rewrite !length_drop; lia]).
  done.
Qed.

(** C37: a signature of two halves of at most 48 bytes is turned into DER without an error or a
    panic: when both numbers are positive the result is the SEQUENCE of the two INTEGERs, each in
    its shortest form, and when one of them is zero the result is empty. *)
Theorem ecdsa_signature_der h signature :
  (1 ≤ h ≤ 48)%nat → length signature = (2 * h)%nat → Forall is_u8 signature →
  let r := be_val (take h signature) in
  let s := be_val (drop h signature) in
  match run (ecc_signature_bin_to_der signature (replicate 104 0)) with
  | Ok (n, der) =>
      if (r =? 0) || (s =? 0) then n = 0%nat
      else ∃ R S,
        take n der = [0x30; 4 + len R + len S; 0x02; len R] ++ R ++ [0x02; len S] ++ S ∧
        der_integer R r ∧ der_integer S s
  | _ => False
  end.
Proof.
  intros Hh Hl Hb. unfold run. rewrite (ecc_halves h) by done.
  pose proof (significant _ (Forall_take _ h _ Hb)) as Hr. pose proof (significant _ (Forall_drop _ h _ Hb)) as Hs.
  pose proof (be_val_zeros (take h signature)) as Vr. pose proof (be_val_zeros (drop h signature)) as Vs.
  assert (length (drop (leading_zeros (take h signature)) (take h signature)) ≤ h)%nat as Lr
    by (rewrite length_drop, length_take; lia).
  assert (length (drop (leading_zeros (drop h signature)) (drop h signature)) ≤ h)%nat as Ls
    by (rewrite !length_drop; lia).
  cbv zeta in *.
  set (r := drop (leading_zeros (take h signature)) (take h signature)) in *.
  set (s := drop (leading_zeros (drop h signature)) (drop h signature)) in *.
  clearbody r s.
  destruct Hr as [[-> ->]|[Hr (br&tr&->&Hbr)]]; [done|].
  destruct Hs as [[-> ->]|[Hs (bs&ts&->&Hbs)]]; [by rewrite !orb_true_r|].
  rewrite !(proj2 (Z.eqb_neq _ _)) by lia.
  pose proof (positive_integer br tr _ Hbr Vr) as Ir. pose proof (positive_integer bs ts _ Hbs Vs) as Is.
  pose proof (positive_length (br :: tr)) as Pr. pose proof (positive_length (bs :: ts)) as Ps.
  cbn [length Nat.eqb orb] in *. set (R := positive (br :: tr)) in *. set (S := positive (bs :: ts)) in *.
  rewrite length_replicate, !(proj2 (Nat.ltb_ge _ _)) by lia. cbn [orb].
  rewrite der_written by (try done; fold R S; rewrite length_replicate; lia). fold R S.
  exists R, S. split; [|done]. rewrite take_app_le, take_ge by (rewrite !length_app; cbn; lia).
  rewrite <- !app_assoc. unfold len. unfold as_uint. rewrite !Z.mod_small by lia.
  do 3 f_equal. lia.
Qed.

Lemma ecdsa_signature_der_witness :
  ∃ n der R S,
    run (ecc_signature_bin_to_der [0x01; 0x80; 0x00; 0x80] (replicate 104 0)) = Ok (n, der) ∧
    take n der = [0x30; 4 + len R + len S; 0x02; len R] ++ R ++ [0x02; len S] ++ S ∧
    der_integer R 0x0180 ∧ der_integer S 0x80.
Proof.
  eexists _, _. pose proof (ecdsa_signature_der 2 [0x01; 0x80; 0x00; 0x80] ltac:(lia) eq_refl
    ltac:(by apply (bool_decide_unpack (Forall is_u8 _)); vm_compute)) as (R&S&H).
  exists R, S. split; [reflexivity|exact H].
Defined.
