(* ===== verification/CertTrust.v ===== *)
(** Whose signature is accepted: what a certificate chain that verifies and a signature that
    verifies say together about the key that signed.

    The chain is verified on the sequences that the DER reader finds at its front, the signature
    with the last certificate of the chain.  The two agree when the reader takes the whole chain
    ([leaf_trusted]); nothing checks that it does ([appended_certificate]). *)

From S2P Require Import Prelude Config Codec Status Algo Protocol X509 Crypto SpdmRing CertOps.

(** The DER reader of ring, as documented: it takes a prefix of its input and looks at nothing
    behind it, a length of two octets is the one they encode, and it must not fit one octet. *)
Class WebpkiLaws `{Webpki} := {
  sequence_prefix input n : expect_sequence input = Some n → (0 < n ≤ length input)%nat;
  sequence_local input n rest : expect_sequence input = Some n → expect_sequence (input ++ rest) = Some n;
  sequence_length hi lo rest n :
    expect_sequence (0x30 :: 0x82 :: hi :: lo :: rest) = Some n →
    n = (4 + Z.to_nat (Z.shiftl hi 8) + Z.to_nat lo)%nat;
  sequence_minimal lo rest : expect_sequence (0x30 :: 0x82 :: 0 :: lo :: rest) = None;
}.

(** ** What the two checks accept *)

Section Trust.
Context `{pki : Webpki}.

(** webpki verified the last of the certificates against the first one. *)
Definition chain_verified (timestamp : option Z) (certs : list bytes) : Prop :=
  ∃ ca inters ee time anchor cert,
    (certs = ca :: inters ++ [ee] ∨ certs = [ca] ∧ inters = [] ∧ ee = ca) ∧
    timestamp = Some time ∧ TrustAnchor_try_from_cert_der ca = Some anchor ∧
    EndEntityCert_try_from ee = Some cert ∧
    verify_cert_chain_with_eku cert [43; 6; 1; 5; 5; 7; 3; 1]
      [RSA_PKCS1_2048_8192_SHA256; RSA_PKCS1_2048_8192_SHA384; RSA_PKCS1_2048_8192_SHA512;
       ECDSA_P256_SHA256; ECDSA_P256_SHA384; ECDSA_P384_SHA256; ECDSA_P384_SHA384]
      anchor inters time = true.

Lemma verify_cert_chain_ok timestamp chain :
  verify_cert_chain timestamp chain = Ok tt ↔
  chain_verified timestamp (split_certs (length chain) chain).
Proof.
  unfold verify_cert_chain. cbv zeta. generalize (split_certs (length chain) chain). clear chain. intros certs.
  split.
  - intros H. destruct certs as [|ca others]; [done|].
    destruct others as [|ee inters _] using rev_ind.
    + cbn in H. destruct (TrustAnchor_try_from_cert_der ca) as [anchor|] eqn:Ha; [|done].
      destruct timestamp as [time|]; [|done]. destruct (EndEntityCert_try_from ca) as [cert|] eqn:Hc; [|done].
      destruct (verify_cert_chain_with_eku _ _ _ _ _ _) eqn:Hv; [|done].
      exists ca, [], ca, time, anchor, cert. split_and!; [by right|done..].
    + rewrite reverse_snoc in H. cbn in H. rewrite reverse_involutive in H.
      destruct (TrustAnchor_try_from_cert_der ca) as [anchor|] eqn:Ha; [|done].
      destruct timestamp as [time|]; [|done]. destruct (EndEntityCert_try_from ee) as [cert|] eqn:Hc; [|done].
      destruct (verify_cert_chain_with_eku _ _ _ _ _ _) eqn:Hv; [|done].
      exists ca, inters, ee, time, anchor, cert. split_and!; [by left|done..].
  - intros (ca&inters&ee&time&anchor&cert&Hcs&->&Ha&Hc&Hv).
    destruct Hcs as [->|(->&->&->)]; [rewrite reverse_snoc, reverse_involutive|cbn];
      by rewrite Ha, Hc, Hv.
Qed.

(** webpki verified the signature with the key of [cert]. *)
Definition accepted (base_asym_algo : Z) (cert : EndEntityCert) (algorithm : SignatureAlgorithm)
    (message signature : bytes) : Prop :=
  if bool_decide (base_asym_algo ∈ [SpdmBaseAsymAlgo.TPM_ALG_ECDSA_ECC_NIST_P256;
                                    SpdmBaseAsymAlgo.TPM_ALG_ECDSA_ECC_NIST_P384])
  then ∃ n der, run (ecc_signature_bin_to_der signature (replicate 104 0)) = Ok (n, der) ∧
         (n ≤ length der)%nat ∧ verify_signature cert algorithm message (take n der) = true
  else verify_signature cert algorithm message signature = true.

(** The signature is accepted with the key of the certificate [leaf]. *)
Definition signed_with (leaf : bytes) (base_hash_algo base_asym_algo : Z) (message : bytes)
    (signature : SpdmSignatureStruct) : Prop :=
  ∃ cert algorithm,
    EndEntityCert_try_from leaf = Some cert ∧
    webpki_algorithm base_hash_algo base_asym_algo = Some algorithm ∧
    SpdmBaseAsymAlgo.get_size (E:=SpdmStatus) base_asym_algo = Ok (data_size signature) ∧
    (data_size signature ≤ length (data signature))%nat ∧
    accepted base_asym_algo cert algorithm message (sized_bytes signature).

Lemma leaf_found certs leaf :
  Forall der_cert certs → der_cert leaf →
  get_cert_from_cert_chain (concat certs ++ leaf) (-1) =
  Ok (Some (length (concat certs), (length (concat certs) + length leaf)%nat)).
Proof.
  intros Hcs Hl. unfold get_cert_from_cert_chain, run.
  destruct (get_cert_loop_spec (S (length (concat certs ++ leaf))) [] (concat certs ++ leaf) (-1) 0 tt)
    as [(certs'&leaf'&rest&(Heq&Hcs'&Hl'&Hi)&Hr)|[_ Hno]]; [lia|lia| |].
  - destruct Hi as [|[_ ->]]; [lia|]. cbn [app length] in Hr. rewrite Hr. cbn [fst].
    rewrite app_nil_r in Heq. clear Hr.
    assert (leaf = leaf' ∧ length (concat certs) = length (concat certs')) as [-> Hlen].
    2: { do 3 f_equal; lia. }
    revert certs' Hcs' Heq. induction Hcs as [|c certs Hc _ IH]; intros [|c' certs'] Hcs' Heq; cbn in Heq.
    + done.
    + exfalso. rewrite <- app_assoc in Heq. rewrite <- (app_nil_r leaf) in Heq.
      apply der_cert_unique in Heq as [_ Heq]; [|done|by apply Forall_inv in Hcs'].
      apply (f_equal length) in Heq. rewrite length_app in Heq. apply der_cert_length in Hl'. cbn in Heq. lia.
    + exfalso. rewrite <- app_assoc in Heq. rewrite <- (app_nil_r leaf') in Heq.
      apply der_cert_unique in Heq as [_ Heq]; [|done|done].
      apply (f_equal length) in Heq. rewrite length_app in Heq. apply der_cert_length in Hl. cbn in Heq. lia.
    + rewrite <- !app_assoc in Heq. apply der_cert_unique in Heq as [<- Heq]; [|done|by apply Forall_inv in Hcs'].
      destruct (IH certs' (Forall_inv_tail Hcs') Heq) as [-> Hlen]. split; [done|].
      cbn [concat]. rewrite !length_app. lia.
  - destruct (Hno certs leaf []). split_and!; [by rewrite app_nil_r|done|done|by right].
Qed.

Lemma root_found root rest :
  der_cert root → get_cert_from_cert_chain (root ++ rest) 0 = Ok (Some (0%nat, length root)).
Proof.
  intros Hr. unfold get_cert_from_cert_chain, run.
  pose proof (loop_at_cert (length (root ++ rest)) [] root rest 0 0 tt Hr) as H.
  cbn [app length] in H. by rewrite H.
Qed.

(** [asym_verify] on a chain whose last certificate is [leaf]. *)
Lemma asym_verify_leaf mode fuel h a chain message signature n certs leaf :
  run (check_cert_chain_format mode fuel chain a) = Ok (Some n) →
  chain = concat certs ++ leaf → Forall der_cert certs → der_cert leaf →
  asym_verify mode fuel h a chain message signature =
  run (let* size := of_outcome (SpdmBaseAsymAlgo.get_size a) in
       if negb (data_size signature =? size)%nat then throw SPDM_STATUS_VERIF_FAIL else
       let* algorithm := unwrap (webpki_algorithm h a) in
       match EndEntityCert_try_from leaf with
       | None => throw SPDM_STATUS_INVALID_CERT
       | Some cert =>
           let* sign := sized_as_ref signature in
           if bool_decide (a ∈ [SpdmBaseAsymAlgo.TPM_ALG_ECDSA_ECC_NIST_P256;
                                SpdmBaseAsymAlgo.TPM_ALG_ECDSA_ECC_NIST_P384])
           then
             let* (der_sign_size, der) := ecc_signature_bin_to_der sign (replicate 104 0) in
             let* der := sub_slice 0 der_sign_size der in
             if verify_signature cert algorithm message der then ret (Some tt)
             else throw SPDM_STATUS_VERIF_FAIL
           else if verify_signature cert algorithm message sign then ret (Some tt)
           else throw SPDM_STATUS_VERIF_FAIL
       end).
Proof.
  intros Hn -> Hcs Hl. unfold asym_verify, run. f_equal.
  unfold of_outcome at 1 3. destruct (SpdmBaseAsymAlgo.get_size a) as [size| |]; [|done|done].
  rewrite !(bind_step _ _ _ tt size) by done. destruct (negb _); [done|].
  destruct (webpki_algorithm h a) as [alg|]; [|done].
  rewrite !(bind_step (unwrap (Some alg)) _ _ tt alg) by done.
  rewrite (bind_step _ _ _ tt (Some n)).
  2: { unfold run in Hn. destruct (check_cert_chain_format _ _ _ _ _) as [o []]. cbn in Hn. by subst. }
  rewrite (bind_step _ _ _ tt (Some (length (concat certs), (length (concat certs) + length leaf)%nat)))
    by (unfold of_outcome; by rewrite leaf_found).
  rewrite (bind_step _ _ _ tt (length (concat certs), (length (concat certs) + length leaf)%nat)) by done.
  cbv beta iota. rewrite (bind_step _ _ _ tt leaf); [done|].
  by rewrite sub_slice_tail.
Qed.

Lemma asym_verify_signed mode fuel h a chain message signature n certs leaf :
  run (check_cert_chain_format mode fuel chain a) = Ok (Some n) →
  chain = concat certs ++ leaf → Forall der_cert certs → der_cert leaf →
  asym_verify mode fuel h a chain message signature = Ok (Some tt) ↔
  signed_with leaf h a message signature.
Proof.
  intros Hn Hch Hcs Hl. rewrite (asym_verify_leaf _ _ _ _ _ _ _ n certs leaf) by done.
  unfold signed_with, accepted, run. split.
  - intros H%outcome_state. apply bind_ok in H as (size&[]&[Hs _]%of_outcome_ok&H).
    destruct (Nat.eqb_spec (data_size signature) size) as [<-|]; [|done].
    apply bind_ok in H as (alg&[]&[Ha _]%unwrap_ok&H).
    destruct (EndEntityCert_try_from leaf) as [cert|]; [|done]. exists cert, alg.
    apply bind_ok in H as (sign&[]&Hsign&H).
    unfold sized_as_ref in Hsign. case_decide as Hle; [|done]. injection Hsign as <-.
    split_and!; [done..|]. case_bool_decide.
    + apply bind_ok in H as ([k der]&[]&He&H). apply bind_ok in H as (der'&[]&Hd&H).
      exists k, der. split; [unfold sized_bytes; by rewrite He|].
      unfold sub_slice in Hd. case_decide as Hk; [|done]. injection Hd as <-.
      rewrite Nat.sub_0_r, drop_0 in H. split; [lia|]. by destruct (verify_signature _ _ _ _).
    + by destruct (verify_signature _ _ _ _) eqn:Hv.
  - intros (cert&alg&->&Ha&Hs&Hle&H). erewrite bind_step by (unfold of_outcome; by rewrite Hs).
    rewrite Nat.eqb_refl. cbn [negb]. erewrite bind_step by (rewrite Ha; done).
    erewrite bind_step by (unfold sized_as_ref; rewrite decide_True by done; done).
    case_bool_decide; [|unfold sized_bytes in H; by rewrite H].
    destruct H as (k&der&He&Hk&Hv). unfold sized_bytes in He.
    erewrite bind_step by (destruct (ecc_signature_bin_to_der _ _ tt) as [o []]; cbn in He; by rewrite He).
    cbv beta iota. erewrite bind_step by (apply sub_slice_ok; lia). by rewrite Nat.sub_0_r, drop_0, Hv.
Qed.

(** A signature that is accepted is accepted with the last certificate of the chain. *)
Lemma asym_verify_found mode fuel h a chain message signature :
  asym_verify mode fuel h a chain message signature = Ok (Some tt) →
  ∃ certs leaf, chain = concat certs ++ leaf ∧ Forall der_cert certs ∧ der_cert leaf ∧
    signed_with leaf h a message signature.
Proof.
  intros H. pose proof H as H'. unfold asym_verify in H.
  apply outcome_state in H. apply bind_ok in H as (size&[]&_&H). destruct (negb _); [done|].
  apply bind_ok in H as (alg&[]&_&H). apply bind_ok in H as ([n|]&[]&Hn&H); [|done].
  apply bind_ok in H as (o&[]&[Ho _]%of_outcome_ok&_).
  unfold get_cert_from_cert_chain, run in Ho.
  destruct (get_cert_loop_spec (S (length chain)) [] chain (-1) 0 tt)
    as [(certs&leaf&rest&(->&Hcs&Hl&Hi)&Hr)|[Hr _]]; [lia|lia| |].
  - destruct Hi as [|[_ ->]]; [lia|]. rewrite app_nil_r in *. exists certs, leaf. split_and!; [done..|].
    eapply asym_verify_signed; [|done..|exact H']. unfold run. by rewrite Hn.
  - cbn [app length] in Hr. by rewrite Hr in Ho.
Qed.

(** ** The sequences of a chain *)

Context `{laws : !WebpkiLaws}.

Lemma split_certs_nil fuel : split_certs fuel [] = [].
Proof.
  destruct fuel; [done|]. cbn. destruct (expect_sequence []) eqn:H; [|done].
  apply sequence_prefix in H. cbn in H. lia.
Qed.

Lemma split_certs_count fuel input : (length (split_certs fuel input) ≤ fuel)%nat.
Proof.
  revert input. induction fuel as [|fuel IH]; intros input; [done|]. cbn.
  destruct (expect_sequence input) as [n|]; cbn; [|lia]. specialize (IH (drop n input)). lia.
Qed.

(** Bytes at which the reader fails are passed over in silence. *)
Lemma split_certs_rest fuel fuel' front rest :
  concat (split_certs fuel front) = front → (length (split_certs fuel front) ≤ fuel')%nat →
  expect_sequence rest = None → split_certs fuel' (front ++ rest) = split_certs fuel front.
Proof.
  intros Hc Hl Hr. assert (∀ f, split_certs f rest = []) as Hend by (intros [|f]; cbn; [|rewrite Hr]; done).
  revert fuel' front Hc Hl. induction fuel as [|fuel IH]; intros fuel' front Hc Hl.
  - cbn in Hc. subst front. apply Hend.
  - cbn [split_certs] in *. destruct (expect_sequence front) as [n|] eqn:Hn; cbn in Hc, Hl.
    + destruct fuel' as [|fuel']; [lia|]. cbn [split_certs]. rewrite (sequence_local _ _ rest Hn).
      apply sequence_prefix in Hn. rewrite take_app_le, drop_app_le by lia. f_equal.
      apply IH; [|lia]. eapply app_inv_head. rewrite Hc. symmetry. apply take_drop.
    + subst front. apply Hend.
Qed.

(** Where the reader takes everything, its sequences are the certificates. *)
Lemma split_certs_der fuel certs :
  Forall der_cert certs → (length (concat certs) ≤ fuel)%nat →
  concat (split_certs fuel (concat certs)) = concat certs → split_certs fuel (concat certs) = certs.
Proof.
  intros Hcs. revert fuel. induction Hcs as [|c certs Hc _ IH]; intros fuel Hf Heq; cbn [concat] in *.
  - apply split_certs_nil.
  - pose proof (der_cert_length _ Hc) as Hl. rewrite length_app in Hf. destruct fuel as [|fuel]; [lia|].
    cbn [split_certs] in *.
    destruct (expect_sequence (c ++ concat certs)) as [n|] eqn:Hn.
    2: { apply (f_equal length) in Heq. rewrite length_app in Heq. cbn in Heq. lia. }
    assert (n = length c) as ->.
    { destruct Hc as (hi&lo&body&->&Hb). apply sequence_length in Hn. cbn. lia. }
    rewrite take_app_length, drop_app_length in *. f_equal. apply IH; [lia|].
    cbn [concat] in Heq. by apply app_inv_head in Heq.
Qed.

Lemma split_certs_leaf certs leaf chain :
  chain = concat certs ++ leaf → Forall der_cert certs → der_cert leaf →
  concat (split_certs (length chain) chain) = chain → split_certs (length chain) chain = certs ++ [leaf].
Proof.
  intros Heq Hcs Hl Hw.
  assert (chain = concat (certs ++ [leaf])) as -> by (rewrite concat_app; cbn; by rewrite app_nil_r).
  apply split_certs_der; [|lia|done]. apply Forall_app_2; [done|]. by apply Forall_singleton.
Qed.

(** Signatures are accepted only from the holder of a verified certificate, when the DER reader
    takes the whole chain: if the chain verifies and a signature is accepted with it, then the
    signature was verified with the certificate that webpki verified, as the end entity, against
    the first certificate. *)
Theorem leaf_trusted mode fuel h a timestamp chain message signature :
  verify_cert_chain timestamp chain = Ok tt →
  concat (split_certs (length chain) chain) = chain →
  asym_verify mode fuel h a chain message signature = Ok (Some tt) →
  ∃ front leaf, split_certs (length chain) chain = front ++ [leaf] ∧
    chain_verified timestamp (front ++ [leaf]) ∧ signed_with leaf h a message signature.
Proof.
  intros Hv%verify_cert_chain_ok Hw (certs&leaf&Heq&Hcs&Hl&Hs)%asym_verify_found.
  exists certs, leaf. rewrite <- (split_certs_leaf certs leaf chain) by done. done.
Qed.

(** C25: The condition is not checked, and certificates can be appended.  Take any chain that
    verifies, append a certificate whose length is not encoded minimally, at which the DER reader
    stops, and then any other certificate.  The longer chain, if it has the format of a chain, still
    verifies and has the same root, and signatures made with the key of the appended certificate,
    which nobody verified, are accepted. *)
Theorem appended_certificate mode fuel h a timestamp front filler leaf message signature n :
  let certs := split_certs (length front) front in
  let chain := front ++ filler ++ leaf in
  verify_cert_chain timestamp front = Ok tt → concat certs = front → Forall der_cert certs →
  der_cert filler → filler !! 2%nat = Some 0 → der_cert leaf →
  run (check_cert_chain_format mode fuel chain a) = Ok (Some n) →
  signed_with leaf h a message signature →
  verify_cert_chain timestamp chain = Ok tt ∧
  get_cert_from_cert_chain chain 0 = get_cert_from_cert_chain front 0 ∧
  asym_verify mode fuel h a chain message signature = Ok (Some tt).
Proof.
  intros certs chain Hv Hc Hcs Hf Hmin Hl Hn Hs. split_and!.
  - rewrite verify_cert_chain_ok in *. unfold chain.
    rewrite (split_certs_rest (length front)); [done|done|..].
    + rewrite length_app. pose proof (split_certs_count (length front) front). lia.
    + destruct Hf as (hi&lo&body&->&_). injection Hmin as ->. apply sequence_minimal.
  - destruct certs as [|c rest] eqn:Hce.
    { exfalso. rewrite verify_cert_chain_ok in Hv. fold certs in Hv. rewrite Hce in Hv.
      by destruct Hv as (?&?&?&?&?&?&[|[? _]]&_). }
    subst chain. rewrite <- Hc. apply Forall_inv in Hcs. cbn [concat]. rewrite <- !app_assoc.
    by rewrite !root_found.
  - apply (asym_verify_signed _ _ _ _ _ _ _ n (certs ++ [filler]) leaf); [done| | |done|done].
    + subst chain. rewrite concat_app, Hc. cbn. by rewrite app_nil_r, <- app_assoc.
    + apply Forall_app_2; [done|]. by apply Forall_singleton.
Qed.
End Trust.
