(* ===== verification/Mbedtls.v ===== *)
(** The cryptographic callbacks over mbedtls (spdmlib_crypto_mbedtls/src): the Rust wrappers and the
    C functions they call.

    The library mbedtls itself is not part of the repository: [MbedTls] lists the functions of it
    that the code calls.  A C function that returns zero for success is an [option]; one that writes
    to its output also when it fails returns both.  What a wrapper would write outside a buffer is
    undefined behaviour, for which [Panic] stands. *)

From S2P Require Import Prelude Config Codec Status Algo Protocol Crypto SpdmRing CertOps.

(** ** The library *)

Definition MBEDTLS_MD_SHA256 : Z := 6.
Definition MBEDTLS_MD_SHA384 : Z := 7.
Definition MBEDTLS_MD_SHA512 : Z := 8.
(** The algorithms that the wrappers ask for. *)
Inductive md_info := MD_SHA256 | MD_SHA384 | MD_SHA512.
Inductive mbedtls_ecp_group_id := MBEDTLS_ECP_DP_SECP256R1 | MBEDTLS_ECP_DP_SECP384R1.

Class MbedTls := {
  mbed_world : Type;
  mbedtls_md_info_from_type : Z → option md_info;
  mbedtls_md_get_size : md_info → nat;
  mbedtls_sha256 (input : bytes) (is224 : Z) : option bytes;
  mbedtls_sha512 (input : bytes) (is384 : Z) : option bytes;
  (* a digest context and the algorithm it was set up for *)
  md_context : Type;
  md_context_info : md_context → md_info;
  mbedtls_md_setup : md_info → option md_context;
  mbedtls_md_starts : md_context → option md_context;
  mbedtls_md_update : md_context → bytes → option md_context;
  mbedtls_md_finish : md_context → option bytes;
  mbedtls_md_hmac : md_info → bytes → bytes → option bytes;
  mbedtls_hkdf_expand : md_info → bytes → bytes → nat → option bytes;
  (* success, and what was written: cipher text and tag, or plain text *)
  mbedtls_gcm_setkey : bytes → bool;
  mbedtls_gcm_crypt_and_tag (key iv aad input : bytes) (tag_len : nat) : bool * (bytes * bytes);
  mbedtls_gcm_auth_decrypt (key iv aad tag input : bytes) : bool * bytes;
  mbedtls_chachapoly_setkey : bytes → bool;
  mbedtls_chachapoly_encrypt_and_tag (key iv aad input : bytes) : bool * (bytes * bytes);
  mbedtls_chachapoly_auth_decrypt (key iv aad tag input : bytes) : bool * bytes;
  x509_crt : Type;
  mbedtls_x509_crt_parse_der : bytes → option x509_crt;
  (* the sizes of the header and of the content *)
  mbedtls_asn1_get_tag : bytes → option (nat * nat);
  mbedtls_x509_crt_verify : list x509_crt → option x509_crt → bool;
  mbedtls_pk_verify : x509_crt → Z → bytes → bytes → bool;
  mbedtls_pk_rsa : x509_crt → bool;
  mbedtls_rsa_rsassa_pss_verify : x509_crt → Z → bytes → bytes → bool;
  (* Large integers are [Z].  Operations on them need memory, and may fail. *)
  mbedtls_mpi_size : Z → nat;
  mbedtls_mpi_write_binary : Z → nat → M mbed_world unit bytes;
  mbedtls_mpi_read_binary : bytes → M mbed_world unit Z;
  ecp_group : Type;
  ecp_point : Type;
  mbedtls_ecp_group_load : mbedtls_ecp_group_id → M mbed_world unit ecp_group;
  mbedtls_ecp_point_write_binary : ecp_group → ecp_point → nat → M mbed_world unit bytes;
  mbedtls_ecp_point_read_binary : ecp_group → bytes → M mbed_world unit ecp_point;
  (* the argument in front is [random_fn]: it gives as many bytes as it is asked for *)
  mbedtls_ecdh_gen_public : (nat → M mbed_world unit bytes) → ecp_group →
    M mbed_world unit (Z * ecp_point);
  mbedtls_ecdh_compute_shared : (nat → M mbed_world unit bytes) → ecp_group → ecp_point → Z →
    M mbed_world unit Z;
  rdrand64_step : M mbed_world unit bytes;
}.

Section Mbedtls.
Context `{mbed : MbedTls}.

(** Writing through a pointer to the front of [buf]. *)
Definition write_ptr {S E} (bs buf : bytes) : M S E bytes :=
  if decide (length bs ≤ length buf)%nat then ret (splice 0 bs buf) else panic.
Definition zeros (n : nat) : bytes := replicate n 0.

(** ** Hashes *)

(*@ spdmlib_crypto_mbedtls/src/hash_impl.rs 33-38 hash_ctx_init *)
Definition md_type_of (base_hash_algo : Z) : option Z :=
  if base_hash_algo =? SpdmBaseHashAlgo.TPM_ALG_SHA_256 then Some MBEDTLS_MD_SHA256 else
  if base_hash_algo =? SpdmBaseHashAlgo.TPM_ALG_SHA_384 then Some MBEDTLS_MD_SHA384 else
  if base_hash_algo =? SpdmBaseHashAlgo.TPM_ALG_SHA_512 then Some MBEDTLS_MD_SHA512 else None.

(*@ spdmlib_crypto_mbedtls/src/hash_impl.rs 102-133 hash_all *)
Definition mbed_hash_all (base_hash_algo : Z) (bs : bytes) : outcome unit SpdmDigestStruct :=
  run (let* (digest, size) :=
         if base_hash_algo =? SpdmBaseHashAlgo.TPM_ALG_SHA_256
         then let* d := ok_or tt (mbedtls_sha256 bs 0) in ret (d, 32%nat) else
         if base_hash_algo =? SpdmBaseHashAlgo.TPM_ALG_SHA_384
         then let* d := ok_or tt (mbedtls_sha512 bs 1) in ret (d, 48%nat) else
         if base_hash_algo =? SpdmBaseHashAlgo.TPM_ALG_SHA_512
         then let* d := ok_or tt (mbedtls_sha512 bs 0) in ret (d, 64%nat) else throw tt in
       let* data := write_ptr digest (zeros SPDM_MAX_HASH_SIZE) in
       ret {| data_size := size; data := data |}).

(** [MbedtlsMdContextT::init] and [setup]. *)
(*@ spdmlib_crypto_mbedtls/src/ffi_ext.rs 28-41 MbedtlsMdContextT::setup *)
Definition md_context_setup (md_info_type : Z) : option md_context :=
  md_info ← mbedtls_md_info_from_type md_info_type;
  ctx ← mbedtls_md_setup md_info;
  mbedtls_md_starts ctx.

(** The size and the buffer. *)
(*@ spdmlib_crypto_mbedtls/src/ffi_ext.rs 47-59 MbedtlsMdContextT::finish *)
Definition md_context_finish {S} (ctx : md_context) (buf : bytes) : M S unit (nat * bytes) :=
  let md_size := mbedtls_md_get_size (md_context_info ctx) in
  if (length buf <? md_size)%nat then throw tt else
  let* d := ok_or tt (mbedtls_md_finish ctx) in
  let* buf := write_ptr d buf in
  ret (md_size, buf).

(*@ spdmlib_crypto_mbedtls/src/hash_impl.rs 32-45 hash_ctx_init *)
Definition mbed_hash_ctx_init (base_hash_algo : Z) : outcome unit md_context :=
  match md_type_of base_hash_algo with
  | Some md_type => match md_context_setup md_type with Some ctx => Ok ctx | None => Err tt end
  | None => Err tt
  end.

(*@ spdmlib_crypto_mbedtls/src/hash_impl.rs 47-55 hash_ctx_update *)
Definition mbed_hash_ctx_update (ctx : md_context) (bs : bytes) : outcome SpdmStatus md_context :=
  match mbedtls_md_update ctx bs with
  | Some ctx => Ok ctx
  | None => Err SPDM_STATUS_CRYPTO_ERROR
  end.

(*@ spdmlib_crypto_mbedtls/src/hash_impl.rs 57-66 hash_ctx_finalize *)
Definition mbed_hash_ctx_finalize (ctx : md_context) : outcome unit SpdmDigestStruct :=
  run (let* (digest_len, data) := md_context_finish ctx (zeros SPDM_MAX_HASH_SIZE) in
       if 0xFFFF <? Z.of_nat digest_len then throw tt
       else ret {| data_size := digest_len; data := data |}).

(** ** Message authentication codes and key derivation *)

(** The algorithm is not supported. *)
Definition md_info_or_panic {S} (base_hash_algo : Z) : M S unit md_info :=
  let* md_type := unwrap (md_type_of base_hash_algo) in
  ok_or tt (mbedtls_md_info_from_type md_type).

(*@ spdmlib_crypto_mbedtls/src/hmac_impl.rs 21-52 hmac *)
Definition mbed_hmac (base_hash_algo : Z) (key bs : bytes) : outcome unit SpdmDigestStruct :=
  run (let* md_info := md_info_or_panic base_hash_algo in
       let* d := ok_or tt (mbedtls_md_hmac md_info key bs) in
       let* data := write_ptr d (zeros SPDM_MAX_HASH_SIZE) in
       ret {| data_size := mbedtls_md_get_size md_info; data := data |}).

(*@ spdmlib_crypto_mbedtls/src/hmac_impl.rs 54-66 hmac_verify *)
Definition mbed_hmac_verify (base_hash_algo : Z) (key bs : bytes) (message_digest : SpdmDigestStruct)
    : outcome SpdmStatus unit :=
  run (let* digest := some_or SPDM_STATUS_CRYPTO_ERROR (of_outcome (mbed_hmac base_hash_algo key bs)) in
       let* d := sized_as_ref digest in
       let* d' := sized_as_ref message_digest in
       if decide (d = d') then ret tt else throw SPDM_STATUS_CRYPTO_ERROR).

(*@ spdmlib_crypto_mbedtls/src/hkdf_impl.rs 24-59 hkdf_extract *)
Definition mbed_hkdf_extract (hash_algo : Z) (salt : bytes) (ikm : sized)
    : outcome unit SpdmHkdfPseudoRandomKey :=
  run (let* md_info := md_info_or_panic hash_algo in
       let* ikm := sized_as_ref ikm in
       let* d := ok_or tt (mbedtls_md_hmac md_info salt ikm) in
       let* data := write_ptr d (zeros SPDM_MAX_HASH_SIZE) in
       ret {| data_size := mbedtls_md_get_size md_info; data := data |}).

(** Nothing compares [out_size] with the size of the buffer. *)
(*@ spdmlib_crypto_mbedtls/src/hkdf_impl.rs 61-94 hkdf_expand *)
Definition mbed_hkdf_expand (hash_algo : Z) (prk : SpdmHkdfPseudoRandomKey) (info : bytes)
    (out_size : nat) : outcome unit SpdmHkdfOutputKeyingMaterial :=
  run (let* algorithm := ok_or tt (md_type_of hash_algo) in
       let* md_info := ok_or tt (mbedtls_md_info_from_type algorithm) in
       let* key := sized_as_ref prk in
       let* okm := ok_or tt (mbedtls_hkdf_expand md_info key info out_size) in
       let* data := write_ptr okm (zeros SPDM_MAX_HKDF_OKM_SIZE) in
       ret {| data_size := out_size; data := data |}).

(** ** Authenticated encryption *)

Definition INT_MAX : Z := 0x7FFFFFFF.
Definition exceeds (bs : bytes) : bool := INT_MAX <? Z.of_nat (length bs).
(** [*data_out_size] can hold the output. *)
Definition out_fits (input out : bytes) : bool :=
  negb (exceeds out) && negb (length out <? length input)%nat.

(*@ spdmlib_crypto_mbedtls/src/aead_impl_gcm.c 46-79 spdm_aead_aes_gcm_encrypt *)
Definition gcm_sizes (key iv aad input tag out : bytes) : bool :=
  negb (exceeds input) && negb (exceeds aad) && (length iv =? 12)%nat &&
  bool_decide (length key ∈ [16; 24; 32]%nat) &&
  bool_decide (length tag ∈ [12; 13; 14; 15; 16]%nat) && out_fits input out.

(** The returned truth value, the output size, and the buffers of the tag and of the output. *)
(*@ spdmlib_crypto_mbedtls/src/aead_impl_gcm.c 36-106 spdm_aead_aes_gcm_encrypt *)
Definition spdm_aead_aes_gcm_encrypt (key iv aad input tag out : bytes)
    : bool * nat * (bytes * bytes) :=
  if negb (gcm_sizes key iv aad input tag out) then (false, length out, (tag, out)) else
  if negb (mbedtls_gcm_setkey key) then (false, length out, (tag, out)) else
  let '(ok, (ct, t)) := mbedtls_gcm_crypt_and_tag key iv aad input (length tag) in
  (ok, if ok : bool then length input else length out, (splice 0 t tag, splice 0 ct out)).

(*@ spdmlib_crypto_mbedtls/src/aead_impl_gcm.c 133-202 spdm_aead_aes_gcm_decrypt *)
Definition spdm_aead_aes_gcm_decrypt (key iv aad input tag out : bytes) : bool * nat * bytes :=
  if negb (gcm_sizes key iv aad input tag out) then (false, length out, out) else
  if negb (mbedtls_gcm_setkey key) then (false, length out, out) else
  let '(ok, pt) := mbedtls_gcm_auth_decrypt key iv aad tag input in
  (ok, if ok : bool then length input else length out, splice 0 pt out).

(*@ spdmlib_crypto_mbedtls/src/aead_impl_chacha20_poly1305.c 46-73 spdm_aead_chacha20_poly1305_encrypt *)
Definition chachapoly_sizes (key iv aad input tag out : bytes) : bool :=
  negb (exceeds input) && negb (exceeds aad) && (length iv =? 12)%nat &&
  (length key =? 32)%nat && (length tag =? 16)%nat && out_fits input out.

(*@ spdmlib_crypto_mbedtls/src/aead_impl_chacha20_poly1305.c 37-97 spdm_aead_chacha20_poly1305_encrypt *)
Definition spdm_aead_chacha20_poly1305_encrypt (key iv aad input tag out : bytes)
    : bool * nat * (bytes * bytes) :=
  if negb (chachapoly_sizes key iv aad input tag out) then (false, length out, (tag, out)) else
  if negb (mbedtls_chachapoly_setkey key) then (false, length out, (tag, out)) else
  let '(ok, (ct, t)) := mbedtls_chachapoly_encrypt_and_tag key iv aad input in
  (ok, if ok : bool then length input else length out, (splice 0 t tag, splice 0 ct out)).

(*@ spdmlib_crypto_mbedtls/src/aead_impl_chacha20_poly1305.c 124-184 spdm_aead_chacha20_poly1305_decrypt *)
Definition spdm_aead_chacha20_poly1305_decrypt (key iv aad input tag out : bytes)
    : bool * nat * bytes :=
  if negb (chachapoly_sizes key iv aad input tag out) then (false, length out, out) else
  if negb (mbedtls_chachapoly_setkey key) then (false, length out, out) else
  let '(ok, pt) := mbedtls_chachapoly_auth_decrypt key iv aad tag input in
  (ok, if ok : bool then length input else length out, splice 0 pt out).

Definition is_gcm (aead_algo : Z) : bool :=
  (aead_algo =? SpdmAeadAlgo.AES_128_GCM) || (aead_algo =? SpdmAeadAlgo.AES_256_GCM).

(** The state is the tag and the cipher text.  The result of the ChaCha20-Poly1305 function is
    dropped. *)
(*@ spdmlib_crypto_mbedtls/src/aead_impl.rs 20-71 encrypt *)
Definition mbed_encrypt (aead_algo : Z) (key iv : sized) (aad plain_text : bytes)
    : SpdmM (bytes * bytes) (nat * nat) :=
  let* st := gets (λ st, st) in
  if is_gcm aead_algo then
    let* k := sized_as_ref key in
    let* n := sized_as_ref iv in
    let '(res, cipher_len, st') := spdm_aead_aes_gcm_encrypt k n aad plain_text st.1 st.2 in
    modify (λ _, st');;
    if res then ret (cipher_len, length st.1) else panic
  else if aead_algo =? SpdmAeadAlgo.CHACHA20_POLY1305 then
    let* k := sized_as_ref key in
    let* n := sized_as_ref iv in
    let '(_, cipher_len, st') := spdm_aead_chacha20_poly1305_encrypt k n aad plain_text st.1 st.2 in
    modify (λ _, st');;
    ret (cipher_len, length st.1)
  else throw SPDM_STATUS_INVALID_PARAMETER.

(** The state is the plain text.  The results of both functions are dropped. *)
(*@ spdmlib_crypto_mbedtls/src/aead_impl.rs 73-123 decrypt *)
Definition mbed_decrypt (aead_algo : Z) (key iv : sized) (aad cipher_text tag : bytes)
    : SpdmM bytes nat :=
  let* out := gets (λ out, out) in
  if is_gcm aead_algo then
    let* k := sized_as_ref key in
    let* n := sized_as_ref iv in
    let '(_, plain_text_len, out) := spdm_aead_aes_gcm_decrypt k n aad cipher_text tag out in
    modify (λ _, out);;
    ret plain_text_len
  else if aead_algo =? SpdmAeadAlgo.CHACHA20_POLY1305 then
    let* k := sized_as_ref key in
    let* n := sized_as_ref iv in
    let '(_, plain_text_len, out) := spdm_aead_chacha20_poly1305_decrypt k n aad cipher_text tag out in
    modify (λ _, out);;
    ret plain_text_len
  else throw SPDM_STATUS_INVALID_PARAMETER.

(** ** Certificates and signatures *)

(** The certificates parsed from [p] on, until one does not parse or the end is reached; every turn
    takes the bytes of one. *)
(*@ spdmlib_crypto_mbedtls/src/cert_operation_impl.c 57-79 spdm_verify_cert_chain *)
Fixpoint parse_certs (fuel : nat) (certchain : bytes) : list x509_crt :=
  match fuel, certchain with
  | S fuel, _ :: _ =>
      match mbedtls_x509_crt_parse_der certchain with
      | Some crt =>
          crt :: match mbedtls_asn1_get_tag certchain with
                 | Some (header, len) => parse_certs fuel (drop (header + len) certchain)
                 | None => []
                 end
      | None => []
      end
  | _, _ => []
  end.

(** [ret] of the parsing is overwritten by that of the verification; parsing of the chain does not
    begin when the first certificate does not parse. *)
(*@ spdmlib_crypto_mbedtls/src/cert_operation_impl.c 23-89 spdm_verify_cert_chain *)
Definition spdm_verify_cert_chain (certchain : bytes) : bool :=
  let ca := mbedtls_x509_crt_parse_der certchain in
  let crts :=
    match ca, mbedtls_asn1_get_tag certchain with
    | Some _, Some _ => parse_certs (length certchain) certchain
    | _, _ => []
    end in
  mbedtls_x509_crt_verify crts ca.

(*@ spdmlib_crypto_mbedtls/src/cert_operation_impl.rs 46-53 verify_cert_chain *)
Definition mbed_verify_cert_chain (cert_chain : bytes) : outcome SpdmStatus unit :=
  if spdm_verify_cert_chain cert_chain then Ok tt else Err SPDM_STATUS_INVALID_CERT.

(** The text of the function is that of the ring version. *)
(*@ spdmlib_crypto_mbedtls/src/cert_operation_impl.rs 17-44 get_cert_from_cert_chain *)
Definition mbed_get_cert_from_cert_chain (cert_chain : bytes) (index : Z)
    : outcome SpdmStatus (nat * nat) :=
  returned (CertOps.get_cert_from_cert_chain cert_chain index).

(** As in the ring version, but every error, an integer that is zero included, is CRYPTO_ERROR. *)
(*@ spdmlib_crypto_mbedtls/src/asym_verify_impl.rs 104-168 ecc_signature_bin_to_der *)
Definition mbed_ecc_signature_bin_to_der {S} (signature der_signature : bytes)
    : SpdmM S (nat * bytes) :=
  let* (size, der) := map_err (λ _, SPDM_STATUS_CRYPTO_ERROR)
    (ecc_signature_bin_to_der signature der_signature) in
  if (size =? 0)%nat then throw SPDM_STATUS_CRYPTO_ERROR else ret (size, der).

(*@ spdmlib_crypto_mbedtls/src/asym_verify_impl.c 27-48 spdm_pk_verify *)
Definition spdm_pk_verify (md_type : Z) (cert data signature : bytes) : bool :=
  match mbedtls_x509_crt_parse_der cert with
  | Some crt => mbedtls_pk_verify crt md_type data signature
  | None => false
  end.

(*@ spdmlib_crypto_mbedtls/src/asym_verify_impl.c 68-104 spdm_rsa_pss_verify *)
Definition spdm_rsa_pss_verify (md_type : Z) (cert data signature : bytes) : bool :=
  match mbedtls_x509_crt_parse_der cert with
  | Some crt => mbedtls_pk_rsa crt && mbedtls_rsa_rsassa_pss_verify crt md_type data signature
  | None => false
  end.

Definition is_ecdsa (a : Z) : bool :=
  bool_decide (a ∈ [SpdmBaseAsymAlgo.TPM_ALG_ECDSA_ECC_NIST_P256;
                    SpdmBaseAsymAlgo.TPM_ALG_ECDSA_ECC_NIST_P384]).
Definition is_rsassa (a : Z) : bool :=
  bool_decide (a ∈ [SpdmBaseAsymAlgo.TPM_ALG_RSASSA_2048; SpdmBaseAsymAlgo.TPM_ALG_RSASSA_3072;
                    SpdmBaseAsymAlgo.TPM_ALG_RSASSA_4096]).
Definition is_rsapss (a : Z) : bool :=
  bool_decide (a ∈ [SpdmBaseAsymAlgo.TPM_ALG_RSAPSS_2048; SpdmBaseAsymAlgo.TPM_ALG_RSAPSS_3072;
                    SpdmBaseAsymAlgo.TPM_ALG_RSAPSS_4096]).

(** The last certificate of the chain. *)
(*@ spdmlib_crypto_mbedtls/src/asym_verify_impl.rs 58-60 asym_verify *)
Definition leaf_cert {S} (public_cert_der : bytes) : SpdmM S bytes :=
  let* (leaf_begin, leaf_end) := of_outcome (mbed_get_cert_from_cert_chain public_cert_der (-1)) in
  sub_slice leaf_begin leaf_end public_cert_der.

(*@ spdmlib_crypto_mbedtls/src/asym_verify_impl.rs 19-101 asym_verify *)
Definition mbed_asym_verify (base_hash_algo base_asym_algo : Z) (public_cert_der bs : bytes)
    (signature : SpdmSignatureStruct) : outcome SpdmStatus unit :=
  run (let* size := of_outcome (SpdmBaseAsymAlgo.get_size base_asym_algo) in
       if negb (data_size signature =? size)%nat then throw SPDM_STATUS_CRYPTO_ERROR else
       let* md_type :=
         if base_hash_algo =? SpdmBaseHashAlgo.TPM_ALG_SHA_384 then ret MBEDTLS_MD_SHA384 else
         if base_hash_algo =? SpdmBaseHashAlgo.TPM_ALG_SHA_256 then ret MBEDTLS_MD_SHA256 else
         throw SPDM_STATUS_CRYPTO_ERROR in
       let* sign :=
         if is_ecdsa base_asym_algo then
           let* sign := sized_as_ref signature in
           let* (der_sign_size, der) := mbed_ecc_signature_bin_to_der sign (zeros 104) in
           sub_slice 0 der_sign_size der
         else if is_rsapss base_asym_algo || is_rsassa base_asym_algo then sized_as_ref signature
         else throw SPDM_STATUS_CRYPTO_ERROR in
       let* leaf_cert_der := leaf_cert public_cert_der in
       let* data_hash := unwrap (match mbed_hash_all base_hash_algo bs with Ok d => Some d | _ => None end) in
       let* hash := sized_as_ref data_hash in
       let ok := if is_rsapss base_asym_algo
                 then spdm_rsa_pss_verify md_type leaf_cert_der hash sign
                 else spdm_pk_verify md_type leaf_cert_der hash sign in
       if ok then ret tt else throw SPDM_STATUS_CRYPTO_ERROR).

(** ** Random numbers *)

(** [while _rdrand64_step(..) != 1 || count > 5 { count += 1 }]: the count and the number; [None]
    when the loop has not ended after [turns]. *)
(*@ spdmlib_crypto_mbedtls/src/rand_impl.rs 27-29 f_rng *)
Fixpoint rdrand_loop (turns : nat) (count : Z) : M mbed_world Empty_set (option (Z * bytes)) :=
  match turns with
  | O => ret None
  | S turns =>
      let* r := attempt rdrand64_step in
      match r with
      | inr v => if 5 <? count then rdrand_loop turns (count + 1) else ret (Some (count, v))
      | inl _ => rdrand_loop turns (count + 1)
      end
  end.

(** Seven turns tell whether the loop ends, see [rdrand_hangs]; [Panic] stands for a loop that does
    not. *)
(*@ spdmlib_crypto_mbedtls/src/rand_impl.rs 25-33 f_rng *)
Definition rdrand : M mbed_world unit bytes :=
  let* r := map_err (λ e : Empty_set, match e with end) (rdrand_loop 7 0) in
  match r with
  | None => panic
  | Some (count, v) => if 5 <? count then throw tt else ret v
  end.

(** Eight bytes at a time from the end of the buffer. *)
(*@ spdmlib_crypto_mbedtls/src/rand_impl.rs 21-47 f_rng *)
Fixpoint f_rng (turns remain : nat) (output : bytes) : M mbed_world unit bytes :=
  match turns with
  | S turns =>
      if (8 <? remain)%nat then
        let* v := rdrand in
        let* output := slice_copy output (remain - 8) v in
        f_rng turns (remain - 8) output
      else
        let* v := rdrand in
        let* chunk := sub_slice 0 remain v in
        slice_copy output 0 chunk
  | O => ret output
  end.

(** A turn for every byte and the last one are enough. *)
(*@ spdmlib_crypto_mbedtls/src/rand_impl.rs 13-19 get_random *)
Definition mbed_get_random (bs : bytes) : M mbed_world SpdmStatus (nat * bytes) :=
  let* bs' := some_or SPDM_STATUS_CRYPTO_ERROR (f_rng (S (length bs)) (length bs) bs) in
  ret (length bs', bs').

(** ** Key agreement *)

Abbreviation MAX_KEY_LEN := 97%nat (only parsing).

(** The public key, of at most [publen] bytes, and the private key. *)
(*@ spdmlib_crypto_mbedtls/src/dhe_impl.c 28-71 spdm_ecdh_gen_public *)
Definition spdm_ecdh_gen_public (group_id : mbedtls_ecp_group_id) (publen : nat)
    (random_fn : nat → M mbed_world unit bytes) : M mbed_world unit (bytes * bytes) :=
  let* grp := mbedtls_ecp_group_load group_id in
  let* (pri, pub) := mbedtls_ecdh_gen_public random_fn grp in
  let* pubkey := mbedtls_ecp_point_write_binary grp pub publen in
  let* prikey := mbedtls_mpi_write_binary pri (mbedtls_mpi_size pri) in
  ret (pubkey, prikey).

(** The shared key, of at most [out_len] bytes; it is written without leading zeros. *)
(*@ spdmlib_crypto_mbedtls/src/dhe_impl.c 95-158 spdm_ecdh_compute_shared *)
Definition spdm_ecdh_compute_shared (group_id : mbedtls_ecp_group_id) (prikey peer_pubkey : bytes)
    (out_len : nat) (random_fn : nat → M mbed_world unit bytes) : M mbed_world unit bytes :=
  let* grp := mbedtls_ecp_group_load group_id in
  let* pub := mbedtls_ecp_point_read_binary grp peer_pubkey in
  let* pri := mbedtls_mpi_read_binary prikey in
  let* shared_key := mbedtls_ecdh_compute_shared random_fn grp pub pri in
  let bufferlen := mbedtls_mpi_size shared_key in
  if (out_len <? bufferlen)%nat then throw tt else
  mbedtls_mpi_write_binary shared_key bufferlen.

(** The text of [f_rng] is that of rand_impl.rs. *)
(*@ spdmlib_crypto_mbedtls/src/dhe_impl.rs 79-107 f_rng *)
Definition dhe_f_rng (len : nat) : M mbed_world unit bytes := f_rng (S len) len (zeros len).

(** The format of mbedtls has a byte in front of the coordinates. *)
(*@ spdmlib_crypto_mbedtls/src/dhe_impl.rs 35-46 MbedTlsDheExchangeStruct::from *)
Definition MbedTlsDheExchangeStruct_from {S E} (value : SpdmDheExchangeStruct) : M S E sized :=
  let* buf := slice_copy (zeros MAX_KEY_LEN) 0 [0x04] in
  let* buf := slice_copy buf 1 (data value) in
  ret {| data_size := data_size value + 1; data := buf |}.

(*@ spdmlib_crypto_mbedtls/src/dhe_impl.rs 48-63 SpdmDheExchangeStruct::from *)
Definition SpdmDheExchangeStruct_from_mbedtls {S E} (val : sized) : M S E SpdmDheExchangeStruct :=
  (assert! negb (data_size val =? 0)%nat);;
  let* bs := sized_as_ref val in
  let* coordinates := sub_slice 1 (length bs) bs in
  let* buf := slice_copy (zeros SPDM_MAX_DHE_KEY_SIZE) 0 coordinates in
  ret {| data_size := data_size val - 1; data := buf |}.

(** The private key is an [EphemeralPrivateKey] with its group.  [SpdmDheKeyExchangeP256] and
    [SpdmDheKeyExchangeP384] differ in the group. *)
(*@ spdmlib_crypto_mbedtls/src/dhe_impl.rs 124-151 SpdmDheKeyExchangeP256::generate_key_pair *)
Definition mbed_generate_key_pair_on (g : mbedtls_ecp_group_id)
    : M mbed_world unit (SpdmDheExchangeStruct * (mbedtls_ecp_group_id * sized)) :=
  let* (pubkey, prikey) := spdm_ecdh_gen_public g MAX_KEY_LEN dhe_f_rng in
  let* pub_buf := write_ptr pubkey (zeros MAX_KEY_LEN) in
  let* key := write_ptr prikey (zeros MAX_KEY_LEN) in
  let* public_key :=
    SpdmDheExchangeStruct_from_mbedtls {| data_size := length pubkey; data := pub_buf |} in
  ret (public_key, (g, {| data_size := length prikey; data := key |})).

(*@ spdmlib_crypto_mbedtls/src/dhe_impl.rs 69-77 generate_key_pair *)
Definition mbed_generate_key_pair (dhe_algo : Z)
    : M mbed_world unit (SpdmDheExchangeStruct * (mbedtls_ecp_group_id * sized)) :=
  if dhe_algo =? SpdmDheAlgo.SECP_256_R1 then mbed_generate_key_pair_on MBEDTLS_ECP_DP_SECP256R1 else
  if dhe_algo =? SpdmDheAlgo.SECP_384_R1 then mbed_generate_key_pair_on MBEDTLS_ECP_DP_SECP384R1 else
  throw tt.

(** The buffer of the final key has one byte less than the size that is passed for it. *)
(*@ spdmlib_crypto_mbedtls/src/dhe_impl.rs 153-180 SpdmDheKeyExchangeP256::compute_final_key *)
Definition mbed_compute_final_key (self : mbedtls_ecp_group_id * sized)
    (peer_pub_key : SpdmDheExchangeStruct) : M mbed_world unit SpdmDheFinalKeyStruct :=
  let* peer := MbedTlsDheExchangeStruct_from peer_pub_key in
  let* prikey := sized_as_ref self.2 in
  let* peer := sized_as_ref peer in
  let* key := spdm_ecdh_compute_shared self.1 prikey peer MAX_KEY_LEN dhe_f_rng in
  let* buf := write_ptr key (zeros SPDM_MAX_DHE_KEY_SIZE) in
  ret {| data_size := length key; data := buf |}.

(** ** The table of callbacks *)

Definition mbedtls_crypto : Crypto := {|
  world := mbed_world;
  hash_all := mbed_hash_all;
  SpdmHashCtx := md_context;
  hash_ctx_init := mbed_hash_ctx_init;
  hash_ctx_update := mbed_hash_ctx_update;
  hash_ctx_finalize := mbed_hash_ctx_finalize;
  hmac := mbed_hmac;
  hmac_verify := mbed_hmac_verify;
  aead_encrypt alg key iv aad pt tag ct := mbed_encrypt alg key iv aad pt (tag, ct);
  aead_decrypt alg key iv aad ct tag pt := mbed_decrypt alg key iv aad ct tag pt;
  Crypto.asym_verify := mbed_asym_verify;
  hkdf_extract := mbed_hkdf_extract;
  hkdf_expand := mbed_hkdf_expand;
  Crypto.get_cert_from_cert_chain := mbed_get_cert_from_cert_chain;
  Crypto.verify_cert_chain := mbed_verify_cert_chain;
  DhePrivate := (mbedtls_ecp_group_id * sized)%type;
  generate_key_pair := mbed_generate_key_pair;
  compute_final_key := mbed_compute_final_key;
  get_random := mbed_get_random;
|}.
End Mbedtls.
