(* ===== verification/ToyRing.v ===== *)
(** A concrete implementation of the [Ring] interface, without cryptographic strength, on
    which the theorems about the library are evaluated.  Digests are polynomial checksums,
    sealing combines each byte with one byte of the key and appends a checksum, the shared
    secret of two key pairs is their sum, and the random generator is a counter. *)

From stdpp Require Import gmap.
From S2P Require Import Prelude Config Codec Status Algo Protocol X509 Crypto SpdmRing CertOps CertTrust.

Definition checksum (n : nat) (bs : bytes) : bytes :=
  le_bytes n (foldl (λ acc b, (acc * 257 + b + 1) `mod` 2 ^ 31) 7 bs).

Lemma length_checksum n bs : length (checksum n bs) = n.
Proof. apply length_le_bytes. Qed.

Definition toy_mask (key : bytes) : Z := foldr Z.lxor 0 key.

Definition toy_seal (key nonce aad pt : bytes) : bytes :=
  (Z.lxor (toy_mask key) <$> pt) ++ checksum 16 (key ++ nonce ++ aad ++ pt).

Definition toy_open (key nonce aad ct : bytes) : option bytes :=
  let n := (length ct - 16)%nat in
  let pt := Z.lxor (toy_mask key) <$> take n ct in
  if decide (drop n ct = checksum 16 (key ++ nonce ++ aad ++ pt)) then Some pt else None.

Definition toy_ring : Ring := {|
  ring_world := Z;
  ring_digest h := checksum (output_len h);
  ring_ctx := (ring_hash * bytes)%type;
  ring_ctx_new h := (h, []);
  ring_ctx_update c bs := (c.1, c.2 ++ bs);
  ring_ctx_finish c := checksum (output_len c.1) c.2;
  ring_hmac_sign h key bs := checksum (output_len h) (key ++ bs);
  ring_hmac_verify h key bs tag := bool_decide (checksum (output_len h) (key ++ bs) = tag);
  ring_hkdf_expand h prk info n := Some (checksum n (prk ++ info));
  ring_unbound_key c key := true;
  ring_seal c key nonce aad pt := Some (toy_seal key nonce aad pt);
  ring_open c key nonce aad ct := toy_open key nonce aad ct;
  ring_private := (ring_curve * Z)%type;
  ring_private_generate c w := (Ok (c, w), w + 1);
  ring_public_key k :=
    Some (0x4 :: le_bytes (match k.1 with ECDH_P256 => 64 | ECDH_P384 => 96 end) k.2);
  ring_agree k c peer :=
    Some (le_bytes (match c with ECDH_P256 => 32 | ECDH_P384 => 48 end) (k.2 + le_val (tail peer)));
  ring_rand64 w := (Ok (checksum 64 [w]), w + 1);
|}.

Lemma toy_ring_laws : @RingLaws toy_ring.
Proof.
  refine {| ring_ctx_data := λ c : @ring_ctx toy_ring, c |}; cbn; try done.
  - intros. apply length_le_bytes.
  - intros. apply le_bytes_u8.
  - intros. apply length_le_bytes.
  - intros. apply le_bytes_u8.
  - intros h prk info n okm [= <-]. split; [apply length_le_bytes|apply le_bytes_u8].
  - intros c key nonce aad pt out [= <-]. unfold toy_seal.
    by rewrite length_app, length_fmap, length_checksum.
  - intros c key nonce aad pt out [= <-]. unfold toy_open, toy_seal.
    rewrite length_app, length_checksum, Nat.add_sub.
    rewrite take_app_length' by (by rewrite length_fmap).
    rewrite drop_app_length' by (by rewrite length_fmap).
    assert (Z.lxor (toy_mask key) <$> (Z.lxor (toy_mask key) <$> pt) = pt) as ->.
    { rewrite <- list_fmap_compose. rewrite <- (list_fmap_id pt) at 2.
      apply list_fmap_ext. intros i x _. cbn.
      by rewrite <- Z.lxor_assoc, Z.lxor_nilpotent, Z.lxor_0_l. }
    by rewrite decide_True.
Qed.

(** Certificates are as in [X509], with the last byte as the key pair.  A chain verifies when it
    is one certificate; a signature has the checksum of key and message in both halves. *)
Definition toy_sequence (input : bytes) : option nat :=
  match input with
  | b0 :: b1 :: hi :: lo :: _ =>
      let n := (4 + Z.to_nat (Z.shiftl hi 8) + Z.to_nat lo)%nat in
      if (b0 =? 0x30) && (b1 =? 0x82) && negb (hi =? 0) && (n <=? length input)%nat
      then Some n else None
  | _ => None
  end.
Definition toy_key (cert : bytes) : Z := List.last cert 0.
Definition toy_signature (key : Z) (message : bytes) : bytes :=
  checksum 48 (key :: message) ++ checksum 48 (key :: message).
Definition toy_der (signature : bytes) : bytes :=
  match run (ecc_signature_bin_to_der signature (replicate 104 0)) with
  | Ok (n, der) => take n der
  | _ => []
  end.
Definition toy_webpki : Webpki := {|
  expect_sequence := toy_sequence;
  TrustAnchor := bytes;
  TrustAnchor_try_from_cert_der := Some;
  EndEntityCert := bytes;
  EndEntityCert_try_from := Some;
  verify_cert_chain_with_eku cert _ _ anchor inters _ := bool_decide (inters = [] ∧ cert = anchor);
  verify_signature cert _ message signature :=
    bool_decide (signature = toy_der (toy_signature (toy_key cert) message));
|}.

Lemma toy_webpki_laws : @WebpkiLaws toy_webpki.
Proof.
  assert (∀ input n, toy_sequence input = Some n →
    ∃ hi lo rest, input = 0x30 :: 0x82 :: hi :: lo :: rest ∧ hi ≠ 0 ∧
      n = (4 + Z.to_nat (Z.shiftl hi 8) + Z.to_nat lo)%nat ∧ (n ≤ length input)%nat) as Hinv.
  { intros [|b0 [|b1 [|hi [|lo rest]]]] n H; try done. unfold toy_sequence in H. cbv zeta in H.
    destruct (_ && _) eqn:Hc; [|done]. injection H as <-. rewrite !andb_true_iff, negb_true_iff in Hc.
    destruct Hc as [[[->%Z.eqb_eq ->%Z.eqb_eq] Hh%Z.eqb_neq] Hl%Nat.leb_le]. by exists hi, lo, rest. }
  split; change (@expect_sequence toy_webpki) with toy_sequence.
  - intros input n (hi&lo&rest&->&_&Hn&Hl)%Hinv. lia.
  - intros input n rest (hi&lo&r&->&Hh&->&Hl)%Hinv. unfold toy_sequence. cbn [app]. cbv zeta.
    rewrite !Z.eqb_refl, (proj2 (Z.eqb_neq _ _) Hh), (proj2 (Nat.leb_le _ _)); [done|].
    cbn [length] in *. rewrite length_app. lia.
  - intros hi lo rest n (hi'&lo'&r&[= -> -> ->]&_&Hn&_)%Hinv. done.
  - done.
Qed.

Definition toy_time : option Z := Some 0.
Definition toy_crypto : Crypto := @spdm_ring toy_ring toy_webpki toy_time.

(** A secret store: checksums of the labels as keys, and fixed measurements and
    signatures. *)
Definition toy_sized (n max : nat) (bs : bytes) : sized :=
  {| data_size := n; data := checksum n bs ++ replicate (max - n) 0 |}.

Definition toy_secret : @Secret toy_crypto := {|
  measurement_collection _ _ _ _ :=
    ret (@SpdmMeasurementRecordStructure_default default_config);
  generate_measurement_summary_hash _ _ _ _ _ := ret (toy_sized 48 SPDM_MAX_HASH_SIZE []);
  handshake_secret_hkdf_expand _ _ hint bs :=
    Ok (toy_sized 48 SPDM_MAX_HKDF_OKM_SIZE (data hint ++ bs));
  master_secret_hkdf_expand _ _ hint bs :=
    Ok (toy_sized 48 SPDM_MAX_HKDF_OKM_SIZE (1 :: data hint ++ bs));
  asym_sign _ _ bs :=
    ret {| data_size := 96; data := toy_signature 7 bs ++ replicate (SPDM_MAX_ASYM_KEY_SIZE - 96) 0 |};
|}.

Definition toy_aead_laws : @AeadLaws toy_crypto := @ring_aead_laws toy_ring toy_ring_laws _ _ _.
Definition toy_hash_laws : @HashLaws toy_crypto := @ring_hash_laws toy_ring toy_ring_laws _ _ _.
Definition toy_hmac_laws : @HmacLaws toy_crypto := @ring_hmac_laws toy_ring toy_ring_laws _ _ _.
Definition toy_hkdf_laws : @HkdfLaws toy_crypto := @ring_hkdf_laws toy_ring toy_ring_laws _ _ _.

(** ** The theorems on the ring library, evaluated *)

Section Example.
#[local] Existing Instance toy_ring.

Lemma ring_get_random_fills_witness :
  ∃ fresh w', ring_get_random (replicate 130 0) 4 = (Ok (130%nat, fresh), w') ∧
    length fresh = 130%nat ∧ Forall is_u8 fresh.
Proof.
  apply (ring_get_random_fills (ring:=toy_ring)). intros w. exists (checksum 64 [w]), (w + 1).
  split_and!; [done|apply length_checksum|apply le_bytes_u8].
Defined.

Definition toy_box_addr (t : gmap Z ring_ctx) : Z := fresh (dom t ∪ {[0]} : gset Z).

Lemma digest_handles_refine_witness :
  let cs := [HandleTable.Init 0 SpdmBaseHashAlgo.TPM_ALG_SHA_256; HandleTable.Update 0 [1; 2];
             HandleTable.Clone 0 1; HandleTable.Update 1 [3]; HandleTable.Finalize 0;
             HandleTable.Finalize 1; HandleTable.Finalize 0] in
  HandleTable.run_commands (HandleTable.handle_step toy_box_addr) cs (∅, ∅) =
  HandleTable.run_commands HandleTable.value_step cs ∅.
Proof.
  apply (HandleTable.digest_handles_refine toy_box_addr). intros t.
  pose proof (is_fresh (dom t ∪ {[0]} : gset Z)) as Hf.
  rewrite elem_of_union, elem_of_singleton, elem_of_dom, eq_None_not_Some in *.
  unfold toy_box_addr. tauto.
Defined.

End Example.
