(* ===== verification/KeySchedule.v ===== *)
(** Model of spdmlib/src/common/key_schedule.rs: the derivation of every secret and key
    of a session from the DHE secret (or the pre-shared key) and the transcript hashes.

    The functions of the source return [Option] and do not change any state; here they
    are computations that fail with [tt].  [binconcat] is modelled through the [Writer]
    it uses, and characterized by [binconcat_spec]. *)

From Stdlib Require Import Ascii String.
From S2P Require Import Prelude Config Codec Status Algo Protocol Crypto.

(** The bytes of a byte-string literal. *)
Definition byte_string (s : string) : bytes :=
  map (λ c, Z.of_nat (nat_of_ascii c)) (list_ascii_of_string s).

Abbreviation MAX_BIN_CONCAT_BUF_SIZE := (2 + 8 + 12 + SPDM_MAX_HASH_SIZE)%nat (only parsing).

(*@ spdmlib/src/common/key_schedule.rs 14-14 BIN_STR0_LABEL *)
Definition BIN_STR0_LABEL : bytes := byte_string "derived".
(*@ spdmlib/src/common/key_schedule.rs 15-15 BIN_STR1_LABEL *)
Definition BIN_STR1_LABEL : bytes := byte_string "req hs data".
(*@ spdmlib/src/common/key_schedule.rs 16-16 BIN_STR2_LABEL *)
Definition BIN_STR2_LABEL : bytes := byte_string "rsp hs data".
(*@ spdmlib/src/common/key_schedule.rs 17-17 BIN_STR3_LABEL *)
Definition BIN_STR3_LABEL : bytes := byte_string "req app data".
(*@ spdmlib/src/common/key_schedule.rs 18-18 BIN_STR4_LABEL *)
Definition BIN_STR4_LABEL : bytes := byte_string "rsp app data".
(*@ spdmlib/src/common/key_schedule.rs 19-19 BIN_STR5_LABEL *)
Definition BIN_STR5_LABEL : bytes := byte_string "key".
(*@ spdmlib/src/common/key_schedule.rs 20-20 BIN_STR6_LABEL *)
Definition BIN_STR6_LABEL : bytes := byte_string "iv".
(*@ spdmlib/src/common/key_schedule.rs 21-21 BIN_STR7_LABEL *)
Definition BIN_STR7_LABEL : bytes := byte_string "finished".
(*@ spdmlib/src/common/key_schedule.rs 22-22 BIN_STR8_LABEL *)
Definition BIN_STR8_LABEL : bytes := byte_string "exp master".
(*@ spdmlib/src/common/key_schedule.rs 23-23 BIN_STR9_LABEL *)
Definition BIN_STR9_LABEL : bytes := byte_string "traffic upd".
(*@ spdmlib/src/common/key_schedule.rs 24-24 SPDM_VERSION_VALUE *)
Definition SPDM_VERSION_VALUE : bytes := byte_string "spdm .  ".

(** The results of [extend_from_slice] are ignored by the source. *)
Definition extend_ignoring (bs : bytes) : M Writer unit unit :=
  let* _ := attempt (Writer_extend_from_slice bs) in ret tt.

(*@ spdmlib/src/common/key_schedule.rs 418-449 SpdmKeySchedule::binconcat *)
Definition binconcat {S} (len : nat) (spdm_version : SpdmVersion) (label : bytes)
    (context : option bytes) : M S unit bytes :=
  let total := (length label + match context with Some c => length c | None => 0 end)%nat in
  if decide (MAX_BIN_CONCAT_BUF_SIZE - 2 - 8 < total)%nat then throw tt else
  let v := SpdmVersion_get_u8 spdm_version in
  let* major := add_u8 (Z.shiftr v 4) 48 in
  let* minor := add_u8 (Z.land v 0x0F) 48 in
  let version := <[6%nat := minor]> (<[4%nat := major]> SPDM_VERSION_VALUE) in
  let* r := with_writer (replicate MAX_BIN_CONCAT_BUF_SIZE 0)
    (map_err (λ _, tt) (encode u16_codec (Z.of_nat len));;
     extend_ignoring version;;
     extend_ignoring label;;
     match context with Some c => extend_ignoring c | None => ret tt end) in
  ret (Writer_used_slice r.2).

Section KeySchedule.
Context `{sec : Secret}.

(** [hkdf_expand(hash_algo, &Prk::from_input_keying_material(key)?, info, n)?] *)
Definition expand_key {S} (hash_algo : Z) (key : sized) (info : bytes) (n : nat)
    : M S unit SpdmHkdfOutputKeyingMaterial :=
  let* prk := ok_or tt (SpdmHkdfPseudoRandomKey_from_input_keying_material key) in
  of_outcome (hkdf_expand hash_algo prk info n).

(*@ spdmlib/src/common/key_schedule.rs 42-54 SpdmKeySchedule::derive_handshake_secret *)
Definition derive_handshake_secret {S} (hash_algo : Z) (key : SpdmDheFinalKeyStruct)
    : M S unit SpdmHandshakeSecretStruct :=
  let* n := of_outcome (SpdmBaseHashAlgo.get_size hash_algo) in
  let* prk := of_outcome (hkdf_extract hash_algo (replicate n 0) key) in
  ok_or tt (SpdmHandshakeSecretStruct_from_spdm_hkdf prk).

(*@ spdmlib/src/common/key_schedule.rs 56-90 SpdmKeySchedule::derive_master_secret *)
Definition derive_master_secret {S} (spdm_version : SpdmVersion) (hash_algo : Z)
    (key : SpdmHandshakeSecretStruct) : M S unit SpdmMasterSecretStruct :=
  let* n := of_outcome (SpdmBaseHashAlgo.get_size hash_algo) in
  let* bin_str0 := binconcat n spdm_version BIN_STR0_LABEL None in
  let* salt_1 := expand_key hash_algo key bin_str0 n in
  let* salt_1 := sized_as_ref salt_1 in
  let zero_filled := {| data_size := n; data := replicate SPDM_MAX_HASH_SIZE 0 |} in
  let* prk := of_outcome (hkdf_extract hash_algo salt_1 zero_filled) in
  ok_or tt (SpdmMasterSecretStruct_from_spdm_hkdf prk).

(*@ spdmlib/src/common/key_schedule.rs 92-132 SpdmKeySchedule::derive_request_handshake_secret *)
Definition derive_request_handshake_secret {S} (use_psk : bool) (spdm_version : SpdmVersion)
    (hash_algo : Z) (key : option SpdmHandshakeSecretStruct)
    (psk_hint : option SpdmPskHintStruct) (th1 : bytes)
    : M S unit SpdmDirectionHandshakeSecretStruct :=
  let* n := of_outcome (SpdmBaseHashAlgo.get_size hash_algo) in
  let* bin_str1 := binconcat n spdm_version BIN_STR1_LABEL (Some th1) in
  let* okm :=
    if negb use_psk then
      match key with
      | Some k => expand_key hash_algo k bin_str1 n
      | None => throw tt
      end
    else
      let* hint := unwrap psk_hint in
      of_outcome (handshake_secret_hkdf_expand spdm_version hash_algo hint bin_str1) in
  ok_or tt (SpdmDirectionHandshakeSecretStruct_from_spdm_hkdf okm).

(*@ spdmlib/src/common/key_schedule.rs 134-174 SpdmKeySchedule::derive_response_handshake_secret *)
Definition derive_response_handshake_secret {S} (use_psk : bool) (spdm_version : SpdmVersion)
    (hash_algo : Z) (key : option SpdmHandshakeSecretStruct)
    (psk_hint : option SpdmPskHintStruct) (th1 : bytes)
    : M S unit SpdmDirectionHandshakeSecretStruct :=
  let* n := of_outcome (SpdmBaseHashAlgo.get_size hash_algo) in
  let* bin_str2 := binconcat n spdm_version BIN_STR2_LABEL (Some th1) in
  let* okm :=
    if negb use_psk then
      match key with
      | Some k => expand_key hash_algo k bin_str2 n
      | None => throw tt
      end
    else
      let* hint := unwrap psk_hint in
      of_outcome (handshake_secret_hkdf_expand spdm_version hash_algo hint bin_str2) in
  ok_or tt (SpdmDirectionHandshakeSecretStruct_from_spdm_hkdf okm).

(*@ spdmlib/src/common/key_schedule.rs 176-200 SpdmKeySchedule::derive_finished_key *)
Definition derive_finished_key {S} (spdm_version : SpdmVersion) (hash_algo : Z)
    (key : SpdmDirectionHandshakeSecretStruct) : M S unit SpdmFinishedKeyStruct :=
  let* n := of_outcome (SpdmBaseHashAlgo.get_size hash_algo) in
  let* bin_str7 := binconcat n spdm_version BIN_STR7_LABEL None in
  let* okm := expand_key hash_algo key bin_str7 n in
  ok_or tt (SpdmFinishedKeyStruct_from_spdm_hkdf okm).

(** The two kinds of major secret are both [sized] values.  The amount of keying
    material asked for is the maximal size, whatever the algorithm. *)
(*@ spdmlib/src/common/key_schedule.rs 202-265 SpdmKeySchedule::derive_aead_key_iv *)
Definition derive_aead_key_iv {S} (spdm_version : SpdmVersion) (hash_algo aead_algo : Z)
    (key : sized) : M S unit (SpdmAeadKeyStruct * SpdmAeadIvStruct) :=
  let* key_size := of_outcome (SpdmAeadAlgo.get_key_size aead_algo) in
  let* bin_str5 := binconcat key_size spdm_version BIN_STR5_LABEL None in
  let* okm := expand_key hash_algo key bin_str5 SPDM_MAX_AEAD_KEY_SIZE in
  let* encrypt_key := ok_or tt (SpdmAeadKeyStruct_from_spdm_hkdf okm) in
  let* iv_size := of_outcome (SpdmAeadAlgo.get_iv_size aead_algo) in
  let* bin_str6 := binconcat iv_size spdm_version BIN_STR6_LABEL None in
  let* okm := expand_key hash_algo key bin_str6 SPDM_MAX_AEAD_IV_SIZE in
  let* iv := ok_or tt (SpdmAeadIvStruct_from_spdm_hkdf okm) in
  ret (encrypt_key, iv).

(*@ spdmlib/src/common/key_schedule.rs 267-307 SpdmKeySchedule::derive_request_data_secret *)
Definition derive_request_data_secret {S} (use_psk : bool) (spdm_version : SpdmVersion)
    (hash_algo : Z) (key : option SpdmMasterSecretStruct)
    (psk_hint : option SpdmPskHintStruct) (th2 : bytes)
    : M S unit SpdmDirectionDataSecretStruct :=
  let* n := of_outcome (SpdmBaseHashAlgo.get_size hash_algo) in
  let* bin_str3 := binconcat n spdm_version BIN_STR3_LABEL (Some th2) in
  let* okm :=
    if negb use_psk then
      match key with
      | Some k => expand_key hash_algo k bin_str3 n
      | None => throw tt
      end
    else
      let* hint := unwrap psk_hint in
      of_outcome (master_secret_hkdf_expand spdm_version hash_algo hint bin_str3) in
  ok_or tt (SpdmDirectionDataSecretStruct_from_spdm_hkdf okm).

(*@ spdmlib/src/common/key_schedule.rs 309-349 SpdmKeySchedule::derive_response_data_secret *)
Definition derive_response_data_secret {S} (use_psk : bool) (spdm_version : SpdmVersion)
    (hash_algo : Z) (key : option SpdmMasterSecretStruct)
    (psk_hint : option SpdmPskHintStruct) (th2 : bytes)
    : M S unit SpdmDirectionDataSecretStruct :=
  let* n := of_outcome (SpdmBaseHashAlgo.get_size hash_algo) in
  let* bin_str4 := binconcat n spdm_version BIN_STR4_LABEL (Some th2) in
  let* okm :=
    if negb use_psk then
      match key with
      | Some k => expand_key hash_algo k bin_str4 n
      | None => throw tt
      end
    else
      let* hint := unwrap psk_hint in
      of_outcome (master_secret_hkdf_expand spdm_version hash_algo hint bin_str4) in
  ok_or tt (SpdmDirectionDataSecretStruct_from_spdm_hkdf okm).

(*@ spdmlib/src/common/key_schedule.rs 351-390 SpdmKeySchedule::derive_export_master_secret *)
Definition derive_export_master_secret {S} (use_psk : bool) (spdm_version : SpdmVersion)
    (hash_algo : Z) (key : option SpdmMasterSecretStruct)
    (psk_hint : option SpdmPskHintStruct) : M S unit SpdmExportMasterSecretStruct :=
  let* n := of_outcome (SpdmBaseHashAlgo.get_size hash_algo) in
  let* bin_str8 := binconcat n spdm_version BIN_STR8_LABEL None in
  let* okm :=
    if negb use_psk then
      match key with
      | Some k => expand_key hash_algo k bin_str8 n
      | None => throw tt
      end
    else
      let* hint := unwrap psk_hint in
      of_outcome (master_secret_hkdf_expand spdm_version hash_algo hint bin_str8) in
  ok_or tt (SpdmExportMasterSecretStruct_from_spdm_hkdf okm).

(*@ spdmlib/src/common/key_schedule.rs 392-416 SpdmKeySchedule::derive_update_secret *)
Definition derive_update_secret {S} (spdm_version : SpdmVersion) (hash_algo : Z)
    (key : SpdmDirectionDataSecretStruct) : M S unit SpdmDirectionDataSecretStruct :=
  let* n := of_outcome (SpdmBaseHashAlgo.get_size hash_algo) in
  let* bin_str9 := binconcat n spdm_version BIN_STR9_LABEL None in
  let* okm := expand_key hash_algo key bin_str9 n in
  ok_or tt (SpdmDirectionDataSecretStruct_from_spdm_hkdf okm).

End KeySchedule.

(** ** [binconcat] *)

(** The string [binconcat] builds: length, version, label and context. *)
Definition bin_str (len : nat) (v : SpdmVersion) (label : bytes) (context : option bytes)
    : bytes :=
  let n := SpdmVersion_get_u8 v in
  le_bytes 2 (Z.of_nat len)
  ++ [0x73; 0x70; 0x64; 0x6d; Z.shiftr n 4 + 48; 0x2e; Z.land n 0x0F + 48; 0x20]
  ++ label ++ default [] context.

Lemma appends_extend_ignoring bs : appends (extend_ignoring bs) bs tt.
Proof.
  intros w Hw Hl. unfold extend_ignoring, bind, attempt.
  by rewrite (writes_appends _ _ _ _ (writes_extend bs) w Hw Hl).
Qed.

Lemma add_u8_ok {S E} a b (st : S) : is_u8 (a + b) → add_u8 (E:=E) a b st = (Ok (a + b), st).
Proof. intros. unfold add_u8. by rewrite decide_True. Qed.

Lemma version_digits v :
  SpdmVersion_wf v →
  is_u8 (Z.shiftr (SpdmVersion_get_u8 v) 4 + 48) ∧ is_u8 (Z.land (SpdmVersion_get_u8 v) 0x0F + 48).
Proof.
  intros [Hv _]. unfold is_uint in *. change 0x0F with (Z.ones 4).
  rewrite Z.shiftr_div_pow2, Z.land_ones by lia.
  pose proof (Z.mod_pos_bound (SpdmVersion_get_u8 v) (2 ^ 4)).
  assert (0 ≤ SpdmVersion_get_u8 v `div` 2 ^ 4 < 16).
  { split; [apply Z.div_pos; lia|apply Z.div_lt_upper_bound; lia]. }
  lia.
Qed.

(** [binconcat] fails exactly if label and context do not fit its buffer, and otherwise
    returns the concatenation; it neither panics nor truncates. *)
Lemma binconcat_spec {S} len v label context (st : S) :
  SpdmVersion_wf v → is_u16 (Z.of_nat len) →
  binconcat len v label context st =
    (if decide (length label + length (default [] context) ≤ 76)%nat
     then Ok (bin_str len v label context) else Err tt, st).
Proof.
  intros Hv Hlen. unfold binconcat.
  replace (match context with Some c => length c | None => 0%nat end)
    with (length (default [] context)) by (by destruct context).
  destruct (decide (_ ≤ 76)%nat) as [Hfit|Hno].
  2: { rewrite decide_True by lia. done. }
  rewrite decide_False by lia.
  destruct (version_digits v Hv) as [Hmaj Hmin].
  unfold bind at 1. rewrite add_u8_ok by done.
  unfold bind at 1. rewrite add_u8_ok by done.
  set (version := <[6%nat:=_]> _). unfold bind at 1.
  match goal with |- context [with_writer ?buf ?c] =>
    destruct (with_writer_ok buf c (bin_str len v label context) tt st) as (w&->&Hw)
  end.
  - eapply appends_bind; [apply appends_map_err, (writes_appends MkEncodeErr), encode_ok, Hlen|].
    eapply (appends_bind _ _ version); [apply appends_extend_ignoring|].
    eapply appends_bind; [apply appends_extend_ignoring|].
    destruct context; [apply appends_extend_ignoring|apply appends_ret].
  - unfold bin_str. rewrite !length_app, length_replicate, length_le_bytes. simpl length at 1. lia.
  - simpl. by rewrite Hw.
Qed.

(** ** Domain separation *)

(** [l1] and [l2] differ at a position that both have. *)
Fixpoint clash (l1 l2 : bytes) : bool :=
  match l1, l2 with
  | x :: l1, y :: l2 => negb (x =? y) || clash l1 l2
  | _, _ => false
  end.

Lemma clash_app l1 l2 c1 c2 : clash l1 l2 = true → l1 ++ c1 ≠ l2 ++ c2.
Proof.
  revert l2. induction l1 as [|x l1 IH]; intros [|y l2]; try done. simpl.
  rewrite orb_true_iff, negb_true_iff, Z.eqb_neq.
  intros [Hne|Hcl] [= Hxy Heq]; [done|]. by apply (IH l2).
Qed.

Definition labels : list bytes :=
  [BIN_STR0_LABEL; BIN_STR1_LABEL; BIN_STR2_LABEL; BIN_STR3_LABEL; BIN_STR4_LABEL;
   BIN_STR5_LABEL; BIN_STR6_LABEL; BIN_STR7_LABEL; BIN_STR8_LABEL; BIN_STR9_LABEL].

Lemma labels_clash i j l1 l2 :
  labels !! i = Some l1 → labels !! j = Some l2 → i ≠ j → clash l1 l2 = true.
Proof.
  intros H1 H2 Hij.
  do 10 (destruct i as [|i]; [do 10 (destruct j as [|j]; [simplify_eq/=; done|]); done|]).
  done.
Qed.

Lemma bin_str_separated n n' v l1 l2 c c' :
  clash l1 l2 = true → bin_str n v l1 c ≠ bin_str n' v l2 c'.
Proof.
  intros Hcl Heq. unfold bin_str in Heq.
  apply app_inj_1 in Heq as [_ Heq]; [|by rewrite !length_le_bytes].
  apply app_inv_head in Heq. by apply (clash_app l1 l2 (default [] c) (default [] c')).
Qed.

(** The key schedule separates its domains.  The strings that [binconcat] builds for two
    different labels of the key schedule are different, whatever lengths and transcript
    hashes they contain, so that no two keys are derived from the same input; and it builds
    a string whenever label and context fit the 76 bytes of its buffer that are left. *)
Theorem binconcat_separated i j l1 l2 n n' v c c' {S} (st : S) :
  labels !! i = Some l1 → labels !! j = Some l2 → i ≠ j →
  SpdmVersion_wf v → is_u16 (Z.of_nat n) → is_u16 (Z.of_nat n') →
  (length l1 + length (default [] c) ≤ 76)%nat → (length l2 + length (default [] c') ≤ 76)%nat →
  ∃ s1 s2, binconcat n v l1 c st = (Ok s1, st) ∧ binconcat n' v l2 c' st = (Ok s2, st) ∧ s1 ≠ s2.
Proof.
  intros H1 H2 Hij Hv Hn Hn' Hf1 Hf2. exists (bin_str n v l1 c), (bin_str n' v l2 c').
  rewrite !binconcat_spec, !decide_True by done. split_and!; [done..|].
  by apply bin_str_separated, (labels_clash i j).
Qed.

Lemma binconcat_separated_witness :
  ∃ s1 s2, binconcat 48 SpdmVersion12 BIN_STR1_LABEL (Some (replicate 48 1)) tt = (Ok s1, tt) ∧
    binconcat 48 SpdmVersion12 BIN_STR2_LABEL (Some (replicate 48 1)) tt = (Ok s2, tt) ∧ s1 ≠ s2.
Proof.
  apply (binconcat_separated 1 2); try done; try (by split); cbn; lia.
Defined.

(** ** Sizes of what is derived *)

Section Sizes.
Context `{sec : Secret} `{hkdf : !HkdfLaws}.

Lemma expand_key_ok {S} alg key info n (st st' : S) okm :
  expand_key alg key info n st = (Ok okm, st') →
  st' = st ∧ sized_wf SPDM_MAX_HKDF_OKM_SIZE okm ∧ data_size okm = n.
Proof.
  unfold expand_key. intros Hexp. minv. split; [done|]. eauto using hkdf_expand_size.
Qed.

(** The AEAD key and nonce that are derived have the maximal sizes, independently of
    the algorithm they are derived for. *)
Lemma derive_aead_key_iv_sizes {S} v hash_algo aead_algo key (st st' : S) k iv :
  derive_aead_key_iv v hash_algo aead_algo key st = (Ok (k, iv), st') →
  sized_wf SPDM_MAX_AEAD_KEY_SIZE k ∧ data_size k = SPDM_MAX_AEAD_KEY_SIZE ∧
  sized_wf SPDM_MAX_AEAD_IV_SIZE iv ∧ data_size iv = SPDM_MAX_AEAD_IV_SIZE.
Proof.
  unfold derive_aead_key_iv, SpdmAeadKeyStruct_from_spdm_hkdf, SpdmAeadIvStruct_from_spdm_hkdf.
  intros Hd.
  minv.
  repeat match goal with
  | He : expand_key _ _ _ _ _ = (Ok _, _) |- _ => apply expand_key_ok in He as (_&?&?)
  | Hf : from_spdm_hkdf _ _ = Some _ |- _ => eapply from_spdm_hkdf_ok in Hf as (?&?&_&_); [|done]
  end.
  split_and!; congruence || done.
Qed.

End Sizes.

(** ** Derivations depend on their arguments only *)

Lemma stateless_binconcat len v label context : stateless (λ S, binconcat len v label context).
Proof. unfold binconcat. stateless_steps. Qed.

#[export] Hint Resolve stateless_binconcat : stateless.

Section Stateless.
Context `{sec : Secret}.

Lemma stateless_expand_key h key info n : stateless (λ S, expand_key h key info n).
Proof. unfold expand_key. stateless_steps. Qed.

#[local] Hint Resolve stateless_expand_key : stateless.

Lemma stateless_derive_update_secret v h key : stateless (λ S, derive_update_secret v h key).
Proof. unfold derive_update_secret. stateless_steps. Qed.

Lemma stateless_derive_aead_key_iv v h a key : stateless (λ S, derive_aead_key_iv v h a key).
Proof. unfold derive_aead_key_iv. stateless_steps. Qed.

End Stateless.
