(* ===== verification/Buffers.v ===== *)
(** Model of the managed transcript buffers of spdmlib/src/common/mod.rs.

    The source repeats the same buffer type for ten capacities ([ManagedBufferA] to
    [ManagedBuffer12Sign]); here they are one record whose array has the capacity, with
    one constructor per type of the source.  The abstract view of a buffer is the byte
    string it holds, [mb_contents]: appending either extends it or leaves the buffer as
    it was. *)

From S2P Require Import Prelude Config Codec Algo.

(*@ spdmlib/src/common/mod.rs 1116-1116 ManagedBufferA *)
Record ManagedBuffer := { mb_used : nat; mb_buf : bytes }.

(** The writer is created on [self.1[used..]]; its bytes are those of the buffer. *)
(*@ spdmlib/src/common/mod.rs 1119-1125 ManagedBufferA::append_message *)
Definition append_message (bs : bytes) : M ManagedBuffer unit nat := λ b,
  let used := mb_used b in
  if decide (length (mb_buf b) < used)%nat then (Panic, b) else
  let '(r, w) := Writer_extend_from_slice bs (Writer_init (drop used (mb_buf b))) in
  let buf' := take used (mb_buf b) ++ wr_buf w in
  match r with
  | Ok write_len => (Ok (Writer_used w), {| mb_used := used + write_len; mb_buf := buf' |})
  | Err e => (Err e, {| mb_used := used; mb_buf := buf' |})
  | Panic => (Panic, b)
  end.

(*@ spdmlib/src/common/mod.rs 1126-1128 ManagedBufferA::reset_message *)
Definition reset_message (b : ManagedBuffer) : ManagedBuffer :=
  {| mb_used := 0; mb_buf := mb_buf b |}.

(*@ spdmlib/src/common/mod.rs 1131-1135 ManagedBufferA as AsRef *)
Definition mb_as_ref {S E} (b : ManagedBuffer) : M S E bytes :=
  if decide (mb_used b ≤ length (mb_buf b))%nat then ret (take (mb_used b) (mb_buf b))
  else panic.

(*@ spdmlib/src/common/mod.rs 1137-1141 ManagedBufferA as Default *)
Definition managed_buffer (capacity : nat) : ManagedBuffer :=
  {| mb_used := 0; mb_buf := replicate capacity 0 |}.

Abbreviation MAX_SPDM_OPAQUE_SIZE := 1024%nat (only parsing).

(** The capacities are those of the constants MAX_MANAGED_BUFFER_A_SIZE and so on. *)
Section Capacities.
Context `{cfg : Config}.

Definition MAX_MANAGED_BUFFER_A_SIZE : nat := 150 + 2 * 3.
Definition MAX_MANAGED_BUFFER_B_SIZE : nat :=
  24 + SPDM_MAX_HASH_SIZE * SPDM_MAX_SLOT_NUMBER + MAX_SPDM_CERT_CHAIN_DATA_SIZE.
Definition MAX_MANAGED_BUFFER_C_SIZE : nat :=
  78 + SPDM_MAX_HASH_SIZE * 2 + SPDM_MAX_ASYM_KEY_SIZE + MAX_SPDM_OPAQUE_SIZE.
Definition MAX_MANAGED_BUFFER_M_SIZE : nat :=
  47 + SPDM_NONCE_SIZE + MAX_SPDM_MEASUREMENT_RECORD_SIZE + SPDM_MAX_ASYM_KEY_SIZE
  + MAX_SPDM_OPAQUE_SIZE.
Definition MAX_MANAGED_BUFFER_K_SIZE : nat :=
  84 + SPDM_MAX_DHE_KEY_SIZE * 2 + SPDM_MAX_HASH_SIZE * 2 + SPDM_MAX_ASYM_KEY_SIZE
  + MAX_SPDM_OPAQUE_SIZE * 2.
Definition MAX_MANAGED_BUFFER_F_SIZE : nat := 8 + SPDM_MAX_HASH_SIZE * 2 + SPDM_MAX_ASYM_KEY_SIZE.
Definition MAX_MANAGED_BUFFER_M1M2_SIZE : nat :=
  MAX_MANAGED_BUFFER_A_SIZE + MAX_MANAGED_BUFFER_B_SIZE + MAX_MANAGED_BUFFER_C_SIZE.
Definition MAX_MANAGED_BUFFER_L1L2_SIZE : nat :=
  MAX_MANAGED_BUFFER_A_SIZE + MAX_MANAGED_BUFFER_M_SIZE.
Definition MAX_MANAGED_BUFFER_TH_SIZE : nat :=
  MAX_MANAGED_BUFFER_A_SIZE + MAX_SPDM_CERT_CHAIN_DATA_SIZE + MAX_MANAGED_BUFFER_K_SIZE
  + MAX_SPDM_CERT_CHAIN_DATA_SIZE + MAX_MANAGED_BUFFER_F_SIZE.
Definition MAX_MANAGED_BUFFER_12SIGN_SIZE : nat := 64 + 36 + SPDM_MAX_HASH_SIZE.

(*@ spdmlib/src/common/mod.rs 1115-1141 ManagedBufferA *)
Definition ManagedBufferA : ManagedBuffer := managed_buffer MAX_MANAGED_BUFFER_A_SIZE.
(*@ spdmlib/src/common/mod.rs 1143-1169 ManagedBufferB *)
Definition ManagedBufferB : ManagedBuffer := managed_buffer MAX_MANAGED_BUFFER_B_SIZE.
(*@ spdmlib/src/common/mod.rs 1171-1197 ManagedBufferC *)
Definition ManagedBufferC : ManagedBuffer := managed_buffer MAX_MANAGED_BUFFER_C_SIZE.
(*@ spdmlib/src/common/mod.rs 1199-1225 ManagedBufferM *)
Definition ManagedBufferM : ManagedBuffer := managed_buffer MAX_MANAGED_BUFFER_M_SIZE.
(*@ spdmlib/src/common/mod.rs 1227-1253 ManagedBufferK *)
Definition ManagedBufferK : ManagedBuffer := managed_buffer MAX_MANAGED_BUFFER_K_SIZE.
(*@ spdmlib/src/common/mod.rs 1255-1281 ManagedBufferF *)
Definition ManagedBufferF : ManagedBuffer := managed_buffer MAX_MANAGED_BUFFER_F_SIZE.
(*@ spdmlib/src/common/mod.rs 1283-1309 ManagedBufferM1M2 *)
Definition ManagedBufferM1M2 : ManagedBuffer := managed_buffer MAX_MANAGED_BUFFER_M1M2_SIZE.
(*@ spdmlib/src/common/mod.rs 1311-1337 ManagedBufferL1L2 *)
Definition ManagedBufferL1L2 : ManagedBuffer := managed_buffer MAX_MANAGED_BUFFER_L1L2_SIZE.
(*@ spdmlib/src/common/mod.rs 1339-1365 ManagedBufferTH *)
Definition ManagedBufferTH : ManagedBuffer := managed_buffer MAX_MANAGED_BUFFER_TH_SIZE.
(*@ spdmlib/src/common/mod.rs 1367-1393 ManagedBuffer12Sign *)
Definition ManagedBuffer12Sign : ManagedBuffer := managed_buffer MAX_MANAGED_BUFFER_12SIGN_SIZE.

End Capacities.

(** ** Refinement of a bounded byte log *)

Definition mb_wf (capacity : nat) (b : ManagedBuffer) : Prop :=
  length (mb_buf b) = capacity ∧ (mb_used b ≤ capacity)%nat.

Definition mb_contents (b : ManagedBuffer) : bytes := take (mb_used b) (mb_buf b).

Lemma length_mb_contents capacity b : mb_wf capacity b → length (mb_contents b) = mb_used b.
Proof. intros [Hl Hu]. unfold mb_contents. rewrite length_take. lia. Qed.

Lemma managed_buffer_wf capacity : mb_wf capacity (managed_buffer capacity).
Proof. split; simpl; [by rewrite length_replicate|lia]. Qed.

Lemma mb_as_ref_ok {S E} capacity b (st : S) :
  mb_wf capacity b → mb_as_ref (E:=E) b st = (Ok (mb_contents b), st).
Proof. intros [Hl Hu]. unfold mb_as_ref. by rewrite decide_True by lia. Qed.

Lemma append_message_spec capacity b bs :
  mb_wf capacity b →
  if decide (mb_used b + length bs ≤ capacity)%nat
  then ∃ b', append_message bs b = (Ok (length bs), b') ∧ mb_wf capacity b' ∧
             mb_contents b' = mb_contents b ++ bs
  else append_message bs b = (Err tt, b).
Proof.
  intros [Hl Hu]. set (w := Writer_init (drop (mb_used b) (mb_buf b))).
  assert (Writer_wf w) as Hw by (unfold Writer_wf; simpl; lia).
  assert (Writer_left w = capacity - mb_used b)%nat as Hleft.
  { unfold Writer_left. simpl. rewrite length_drop. lia. }
  destruct (decide _) as [Hfit|Hno]; unfold append_message; rewrite decide_False by lia;
    fold w.
  - rewrite (writes_appends _ _ _ _ (writes_extend bs) w Hw) by lia.
    cbn [Writer_append wr_buf wr_offs]. unfold splice. simpl. eexists. split; [done|].
    assert (length (take (mb_used b) (mb_buf b)) = mb_used b) as Ht
      by (rewrite length_take; lia).
    split; [split; simpl; [rewrite !length_app, !length_drop, Ht|]; lia|].
    unfold mb_contents at 1. simpl. rewrite app_assoc, take_app_le, take_ge; [done|..];
      rewrite length_app; lia.
  - unfold Writer_extend_from_slice. rewrite decide_True by lia. simpl.
    rewrite take_drop. by destruct b.
Qed.

Lemma append_message_ok capacity b bs n b' :
  mb_wf capacity b → append_message bs b = (Ok n, b') →
  n = length bs ∧ mb_wf capacity b' ∧ mb_contents b' = mb_contents b ++ bs.
Proof.
  intros Hb Happ. pose proof (append_message_spec capacity b bs Hb) as Hs.
  rewrite Happ in Hs. destruct (decide _); [destruct Hs as (b''&?&?&?)|]; by simplify_eq.
Qed.

Lemma reset_message_contents capacity b :
  mb_wf capacity b → mb_wf capacity (reset_message b) ∧ mb_contents (reset_message b) = [].
Proof. intros [Hl Hu]. split; [split; simpl; lia|done]. Qed.
