(* ===== verification/Session.v ===== *)
(** Model of spdmlib/src/common/session.rs: the state of one secure session, the
    derivation and update of its keys, and the protection of its messages.

    [SpdmSession] and its parts are the source's structs (the build with
    [hashed-transcript-data], the default).  Operations that change the session are
    computations on it; [encode_msg] and [decode_msg] only read it and are computations
    on the buffer they fill.  Sequence numbers are [u64] values: [mode] says whether an
    overflowing addition panics (checked build) or wraps (release build). *)

From S2P Require Import Prelude Config Codec Status Algo Protocol Crypto KeySchedule Buffers.

(*@ spdmlib/src/common/session.rs 23-35 SpdmSessionState *)
Inductive SpdmSessionState :=
| SpdmSessionNotStarted
| SpdmSessionHandshaking
| SpdmSessionEstablished
| SpdmSessionState_Unknown (x : Z).

Definition SpdmSessionState_get_u8 (v : SpdmSessionState) : Z :=
  match v with
  | SpdmSessionNotStarted => 0x0
  | SpdmSessionHandshaking => 0x1
  | SpdmSessionEstablished => 0x2
  | SpdmSessionState_Unknown x => x
  end.

Definition SpdmSessionState_from_u8 (x : Z) : SpdmSessionState :=
  match x with
  | 0x0 => SpdmSessionNotStarted
  | 0x1 => SpdmSessionHandshaking
  | 0x2 => SpdmSessionEstablished
  | x => SpdmSessionState_Unknown x
  end.

(*@ spdmlib/src/common/session.rs 23-35 SpdmSessionState as Codec *)
Definition SpdmSessionState_codec : Codec SpdmSessionState :=
  enum_codec u8_codec SpdmSessionState_get_u8 SpdmSessionState_from_u8.

#[global] Instance SpdmSessionState_eq_dec : EqDecision SpdmSessionState.
Proof. solve_decision. Defined.

Abbreviation SpdmSessionState_wf := (enum_wf 8 SpdmSessionState_get_u8 SpdmSessionState_from_u8).

#[global] Instance SpdmSessionState_codec_ok :
  CodecOk SpdmSessionState_codec SpdmSessionState_wf (λ v, le_bytes 1 (SpdmSessionState_get_u8 v)).
Proof. apply enum_codec_ok; [apply _|]. solve_enum SpdmSessionState_from_u8. Qed.


(*@ spdmlib/src/common/session.rs 43-48 SpdmSessionCryptoParam *)
Record SpdmSessionCryptoParam := MkSpdmSessionCryptoParam {
  cp_base_hash_algo : Z;
  cp_dhe_algo : Z;
  cp_aead_algo : Z;
  cp_key_schedule_algo : Z;
}.

#[global] Instance eta_SpdmSessionCryptoParam : Settable SpdmSessionCryptoParam :=
  λ r, MkSpdmSessionCryptoParam (cp_base_hash_algo r) (cp_dhe_algo r) (cp_aead_algo r)
    (cp_key_schedule_algo r).
#[global] Instance set_cp_base_hash_algo : Setter cp_base_hash_algo := ltac:(solve_setter).
#[global] Instance set_cp_dhe_algo : Setter cp_dhe_algo := ltac:(solve_setter).
#[global] Instance set_cp_aead_algo : Setter cp_aead_algo := ltac:(solve_setter).
#[global] Instance set_cp_key_schedule_algo : Setter cp_key_schedule_algo := ltac:(solve_setter).

(*@ spdmlib/src/common/session.rs 51-55 SpdmSessionDheSecretRoot *)
Record SpdmSessionDheSecretRoot := MkSpdmSessionDheSecretRoot {
  dhe_secret : SpdmDheFinalKeyStruct;
  root_handshake_secret : SpdmHandshakeSecretStruct;
  root_master_secret : SpdmMasterSecretStruct;
}.

#[global] Instance eta_SpdmSessionDheSecretRoot : Settable SpdmSessionDheSecretRoot :=
  λ r, MkSpdmSessionDheSecretRoot (dhe_secret r) (root_handshake_secret r)
    (root_master_secret r).
#[global] Instance set_dhe_secret : Setter dhe_secret := ltac:(solve_setter).
#[global] Instance set_root_handshake_secret : Setter root_handshake_secret := ltac:(solve_setter).
#[global] Instance set_root_master_secret : Setter root_master_secret := ltac:(solve_setter).

(*@ spdmlib/src/common/session.rs 58-62 SpdmSessionSecretParam *)
Record SpdmSessionSecretParam := MkSpdmSessionSecretParam {
  encryption_key : SpdmAeadKeyStruct;
  salt : SpdmAeadIvStruct;
  sequence_number : Z;
}.

#[global] Instance eta_SpdmSessionSecretParam : Settable SpdmSessionSecretParam :=
  λ r, MkSpdmSessionSecretParam (encryption_key r) (salt r) (sequence_number r).
#[global] Instance set_encryption_key : Setter encryption_key := ltac:(solve_setter).
#[global] Instance set_salt : Setter salt := ltac:(solve_setter).
#[global] Instance set_sequence_number : Setter sequence_number := ltac:(solve_setter).

(*@ spdmlib/src/common/session.rs 65-72 SpdmSessionHandshakeSecret *)
Record SpdmSessionHandshakeSecret := MkSpdmSessionHandshakeSecret {
  request_handshake_secret : SpdmDirectionHandshakeSecretStruct;
  response_handshake_secret : SpdmDirectionHandshakeSecretStruct;
  request_finished_key : SpdmFinishedKeyStruct;
  response_finished_key : SpdmFinishedKeyStruct;
  hs_request_direction : SpdmSessionSecretParam;
  hs_response_direction : SpdmSessionSecretParam;
}.

#[global] Instance eta_SpdmSessionHandshakeSecret : Settable SpdmSessionHandshakeSecret :=
  λ r, MkSpdmSessionHandshakeSecret (request_handshake_secret r)
    (response_handshake_secret r) (request_finished_key r) (response_finished_key r)
    (hs_request_direction r) (hs_response_direction r).
#[global] Instance set_request_handshake_secret : Setter request_handshake_secret := ltac:(solve_setter).
#[global] Instance set_response_handshake_secret : Setter response_handshake_secret := ltac:(solve_setter).
#[global] Instance set_request_finished_key : Setter request_finished_key := ltac:(solve_setter).
#[global] Instance set_response_finished_key : Setter response_finished_key := ltac:(solve_setter).
#[global] Instance set_hs_request_direction : Setter hs_request_direction := ltac:(solve_setter).
#[global] Instance set_hs_response_direction : Setter hs_response_direction := ltac:(solve_setter).

(*@ spdmlib/src/common/session.rs 75-81 SpdmSessionAppliationSecret *)
Record SpdmSessionAppliationSecret := MkSpdmSessionAppliationSecret {
  request_data_secret : SpdmDirectionDataSecretStruct;
  response_data_secret : SpdmDirectionDataSecretStruct;
  app_request_direction : SpdmSessionSecretParam;
  app_response_direction : SpdmSessionSecretParam;
  export_master_secret : SpdmExportMasterSecretStruct;
}.

#[global] Instance eta_SpdmSessionAppliationSecret : Settable SpdmSessionAppliationSecret :=
  λ r, MkSpdmSessionAppliationSecret (request_data_secret r) (response_data_secret r)
    (app_request_direction r) (app_response_direction r) (export_master_secret r).
#[global] Instance set_request_data_secret : Setter request_data_secret := ltac:(solve_setter).
#[global] Instance set_response_data_secret : Setter response_data_secret := ltac:(solve_setter).
#[global] Instance set_app_request_direction : Setter app_request_direction := ltac:(solve_setter).
#[global] Instance set_app_response_direction : Setter app_response_direction := ltac:(solve_setter).
#[global] Instance set_export_master_secret : Setter export_master_secret := ltac:(solve_setter).

(*@ spdmlib/src/common/session.rs 84-87 SpdmSessionTransportParam *)
Record SpdmSessionTransportParam := MkSpdmSessionTransportParam {
  sequence_number_count : nat;
  max_random_count : Z;
}.

#[global] Instance eta_SpdmSessionTransportParam : Settable SpdmSessionTransportParam :=
  λ r, MkSpdmSessionTransportParam (sequence_number_count r) (max_random_count r).
#[global] Instance set_sequence_number_count : Setter sequence_number_count := ltac:(solve_setter).
#[global] Instance set_max_random_count : Setter max_random_count := ltac:(solve_setter).

Abbreviation INVALID_SESSION_ID := 0 (only parsing).
Abbreviation DMTF_SECURE_SPDM_VERSION_11 := 0x11 (only parsing).

Section Session.
Context `{cfg : Config} `{sec : Secret}.

(*@ spdmlib/src/common/session.rs 103-111 SpdmSessionRuntimeInfo *)
Record SpdmSessionRuntimeInfo := MkSpdmSessionRuntimeInfo {
  psk_hint : option SpdmPskHintStruct;
  s_message_a : ManagedBuffer;
  message_f_initialized : bool;
  rsp_cert_hash : option SpdmDigestStruct;
  req_cert_hash : option SpdmDigestStruct;
  digest_context_th : option SpdmHashCtx;
  s_digest_context_l1l2 : option SpdmHashCtx;
}.

#[global] Instance eta_SpdmSessionRuntimeInfo : Settable SpdmSessionRuntimeInfo :=
  λ r, MkSpdmSessionRuntimeInfo (psk_hint r) (s_message_a r) (message_f_initialized r)
    (rsp_cert_hash r) (req_cert_hash r) (digest_context_th r) (s_digest_context_l1l2 r).
#[global] Instance set_psk_hint : Setter psk_hint := ltac:(solve_setter).
#[global] Instance set_s_message_a : Setter s_message_a := ltac:(solve_setter).
#[global] Instance set_message_f_initialized : Setter message_f_initialized := ltac:(solve_setter).
#[global] Instance set_rsp_cert_hash : Setter rsp_cert_hash := ltac:(solve_setter).
#[global] Instance set_req_cert_hash : Setter req_cert_hash := ltac:(solve_setter).
#[global] Instance set_digest_context_th : Setter digest_context_th := ltac:(solve_setter).
#[global] Instance set_s_digest_context_l1l2 : Setter s_digest_context_l1l2 := ltac:(solve_setter).

(*@ spdmlib/src/common/session.rs 114-130 SpdmSession *)
Record SpdmSession := MkSpdmSession {
  session_id : Z;
  use_psk : bool;
  mut_auth_requested : Z;
  session_state : SpdmSessionState;
  crypto_param : SpdmSessionCryptoParam;
  dhe_secret_root : SpdmSessionDheSecretRoot;
  handshake_secret : SpdmSessionHandshakeSecret;
  application_secret : SpdmSessionAppliationSecret;
  application_secret_backup : SpdmSessionAppliationSecret;
  transport_param : SpdmSessionTransportParam;
  s_runtime_info : SpdmSessionRuntimeInfo;
  slot_id : Z;
  heartbeat_period : Z;
  secure_spdm_version_sel : Z;
}.

#[global] Instance eta_SpdmSession : Settable SpdmSession :=
  λ r, MkSpdmSession (session_id r) (use_psk r) (mut_auth_requested r) (session_state r)
    (crypto_param r) (dhe_secret_root r) (handshake_secret r) (application_secret r)
    (application_secret_backup r) (transport_param r) (s_runtime_info r) (slot_id r)
    (heartbeat_period r) (secure_spdm_version_sel r).
#[global] Instance set_session_id : Setter session_id := ltac:(solve_setter).
#[global] Instance set_use_psk : Setter use_psk := ltac:(solve_setter).
#[global] Instance set_mut_auth_requested : Setter mut_auth_requested := ltac:(solve_setter).
#[global] Instance set_session_state : Setter session_state := ltac:(solve_setter).
#[global] Instance set_crypto_param : Setter crypto_param := ltac:(solve_setter).
#[global] Instance set_dhe_secret_root : Setter dhe_secret_root := ltac:(solve_setter).
#[global] Instance set_handshake_secret : Setter handshake_secret := ltac:(solve_setter).
#[global] Instance set_application_secret : Setter application_secret := ltac:(solve_setter).
#[global] Instance set_application_secret_backup : Setter application_secret_backup := ltac:(solve_setter).
#[global] Instance set_transport_param : Setter transport_param := ltac:(solve_setter).
#[global] Instance set_s_runtime_info : Setter s_runtime_info := ltac:(solve_setter).
#[global] Instance set_slot_id : Setter slot_id := ltac:(solve_setter).
#[global] Instance set_heartbeat_period : Setter heartbeat_period := ltac:(solve_setter).
#[global] Instance set_secure_spdm_version_sel : Setter secure_spdm_version_sel := ltac:(solve_setter).


Definition SecretParam_default : SpdmSessionSecretParam := {|
  encryption_key := sized_default SPDM_MAX_AEAD_KEY_SIZE;
  salt := sized_default SPDM_MAX_AEAD_IV_SIZE;
  sequence_number := 0;
|}.

Definition HandshakeSecret_default : SpdmSessionHandshakeSecret := {|
  request_handshake_secret := sized_default SPDM_MAX_HASH_SIZE;
  response_handshake_secret := sized_default SPDM_MAX_HASH_SIZE;
  request_finished_key := sized_default SPDM_MAX_HASH_SIZE;
  response_finished_key := sized_default SPDM_MAX_HASH_SIZE;
  hs_request_direction := SecretParam_default;
  hs_response_direction := SecretParam_default;
|}.

Definition ApplicationSecret_default : SpdmSessionAppliationSecret := {|
  request_data_secret := sized_default SPDM_MAX_HASH_SIZE;
  response_data_secret := sized_default SPDM_MAX_HASH_SIZE;
  app_request_direction := SecretParam_default;
  app_response_direction := SecretParam_default;
  export_master_secret := sized_default SPDM_MAX_HASH_SIZE;
|}.

Definition DheSecretRoot_default : SpdmSessionDheSecretRoot := {|
  dhe_secret := sized_default SPDM_MAX_DHE_KEY_SIZE;
  root_handshake_secret := sized_default SPDM_MAX_HASH_SIZE;
  root_master_secret := sized_default SPDM_MAX_HASH_SIZE;
|}.

Definition SessionRuntimeInfo_default : SpdmSessionRuntimeInfo := {|
  psk_hint := None;
  s_message_a := ManagedBufferA;
  message_f_initialized := false;
  rsp_cert_hash := None;
  req_cert_hash := None;
  digest_context_th := None;
  s_digest_context_l1l2 := None;
|}.

(*@ spdmlib/src/common/session.rs 139-157 SpdmSession::new *)
Definition SpdmSession_new : SpdmSession := {|
  session_id := INVALID_SESSION_ID;
  use_psk := false;
  mut_auth_requested := 0;
  session_state := SpdmSessionNotStarted;
  crypto_param := MkSpdmSessionCryptoParam 0 0 0 0;
  dhe_secret_root := DheSecretRoot_default;
  handshake_secret := HandshakeSecret_default;
  application_secret := ApplicationSecret_default;
  application_secret_backup := ApplicationSecret_default;
  transport_param := MkSpdmSessionTransportParam 0 0;
  s_runtime_info := SessionRuntimeInfo_default;
  slot_id := 0;
  heartbeat_period := 0;
  secure_spdm_version_sel := DMTF_SECURE_SPDM_VERSION_11;
|}.

(** The slot number is the one field that is not reset. *)
(*@ spdmlib/src/common/session.rs 175-190 SpdmSession::set_default *)
Definition SpdmSession_set_default (s : SpdmSession) : SpdmSession :=
  s <| session_id := INVALID_SESSION_ID |>
    <| use_psk := false |>
    <| session_state := SpdmSessionNotStarted |>
    <| crypto_param := MkSpdmSessionCryptoParam 0 0 0 0 |>
    <| dhe_secret_root := DheSecretRoot_default |>
    <| handshake_secret := HandshakeSecret_default |>
    <| application_secret := ApplicationSecret_default |>
    <| application_secret_backup := ApplicationSecret_default |>
    <| transport_param := MkSpdmSessionTransportParam 0 0 |>
    <| s_runtime_info := SessionRuntimeInfo_default |>
    <| heartbeat_period := 0 |>
    <| secure_spdm_version_sel := DMTF_SECURE_SPDM_VERSION_11 |>
    <| mut_auth_requested := 0 |>.

(*@ spdmlib/src/common/session.rs 196-204 SpdmSession::setup *)
Definition SpdmSession_setup (id : Z) : SpdmM SpdmSession unit :=
  let* s := gets (λ s, s) in
  if session_id s =? INVALID_SESSION_ID then
    modify SpdmSession_set_default;;
    modify (λ s, s <| session_id := id |>)
  else panic.

(*@ spdmlib/src/common/session.rs 206-213 SpdmSession::teardown *)
Definition SpdmSession_teardown (id : Z) : SpdmM SpdmSession unit :=
  let* s := gets (λ s, s) in
  if session_id s =? id then modify SpdmSession_set_default else panic.

(*@ spdmlib/src/common/session.rs 231-272 SpdmSession::set_dhe_secret *)
Definition SpdmSession_set_dhe_secret (spdm_version : SpdmVersion)
    (secret : SpdmDheFinalKeyStruct) : SpdmM SpdmSession unit :=
  modify (λ s, s <| dhe_secret_root ::= λ r, r <| dhe_secret := secret |> |>);;
  let* s := gets (λ s, s) in
  let alg := cp_base_hash_algo (crypto_param s) in
  let* hs := some_or SPDM_STATUS_CRYPTO_ERROR
    (derive_handshake_secret alg (dhe_secret (dhe_secret_root s))) in
  let* ms := some_or SPDM_STATUS_CRYPTO_ERROR (derive_master_secret spdm_version alg hs) in
  modify (λ s, s <| dhe_secret_root ::= λ r,
    r <| root_handshake_secret := hs |> <| root_master_secret := ms |> |>).

(*@ spdmlib/src/common/session.rs 278-289 SpdmSession::set_crypto_param *)
Definition SpdmSession_set_crypto_param (base_hash_algo dhe_algo aead_algo key_schedule_algo : Z)
    (s : SpdmSession) : SpdmSession :=
  s <| crypto_param :=
    MkSpdmSessionCryptoParam base_hash_algo dhe_algo aead_algo key_schedule_algo |>.

(*@ spdmlib/src/common/session.rs 291-294 SpdmSession::set_transport_param *)
Definition SpdmSession_set_transport_param (count : nat) (random : Z) (s : SpdmSession)
    : SpdmSession :=
  s <| transport_param := MkSpdmSessionTransportParam count random |>.

Definition master_key (s : SpdmSession) : option SpdmMasterSecretStruct :=
  if use_psk s then None else Some (root_master_secret (dhe_secret_root s)).

(*@ spdmlib/src/common/session.rs 312-447 SpdmSession::generate_handshake_secret *)
Definition SpdmSession_generate_handshake_secret (spdm_version : SpdmVersion)
    (th1 : SpdmDigestStruct) : SpdmM SpdmSession unit :=
  let* s := gets (λ s, s) in
  let hash_algo := cp_base_hash_algo (crypto_param s) in
  let aead_algo := cp_aead_algo (crypto_param s) in
  let key := if use_psk s then None else Some (root_handshake_secret (dhe_secret_root s)) in
  let hint := psk_hint (s_runtime_info s) in
  let* th1 := sized_as_ref th1 in
  let* rhs := some_or SPDM_STATUS_CRYPTO_ERROR
    (derive_request_handshake_secret (use_psk s) spdm_version hash_algo key hint th1) in
  modify (λ s, s <| handshake_secret ::= λ h, h <| request_handshake_secret := rhs |> |>);;
  let* rsp := some_or SPDM_STATUS_CRYPTO_ERROR
    (derive_response_handshake_secret (use_psk s) spdm_version hash_algo key hint th1) in
  modify (λ s, s <| handshake_secret ::= λ h, h <| response_handshake_secret := rsp |> |>);;
  let* rfk := some_or SPDM_STATUS_CRYPTO_ERROR
    (derive_finished_key spdm_version hash_algo rhs) in
  modify (λ s, s <| handshake_secret ::= λ h, h <| request_finished_key := rfk |> |>);;
  let* rfk := some_or SPDM_STATUS_CRYPTO_ERROR
    (derive_finished_key spdm_version hash_algo rsp) in
  modify (λ s, s <| handshake_secret ::= λ h, h <| response_finished_key := rfk |> |>);;
  let* (k, iv) := some_or SPDM_STATUS_CRYPTO_ERROR
    (derive_aead_key_iv spdm_version hash_algo aead_algo rhs) in
  modify (λ s, s <| handshake_secret ::= λ h, h <| hs_request_direction ::= λ d,
    d <| encryption_key := k |> <| salt := iv |> |> |>);;
  let* (k, iv) := some_or SPDM_STATUS_CRYPTO_ERROR
    (derive_aead_key_iv spdm_version hash_algo aead_algo rsp) in
  modify (λ s, s <| handshake_secret ::= λ h, h <| hs_response_direction ::= λ d,
    d <| encryption_key := k |> <| salt := iv |> |> |>).

(*@ spdmlib/src/common/session.rs 449-570 SpdmSession::generate_data_secret *)
Definition SpdmSession_generate_data_secret (spdm_version : SpdmVersion)
    (th2 : SpdmDigestStruct) : SpdmM SpdmSession unit :=
  let* s := gets (λ s, s) in
  let hash_algo := cp_base_hash_algo (crypto_param s) in
  let aead_algo := cp_aead_algo (crypto_param s) in
  let key := master_key s in
  let hint := psk_hint (s_runtime_info s) in
  let* th2 := sized_as_ref th2 in
  let* rds := some_or SPDM_STATUS_CRYPTO_ERROR
    (derive_request_data_secret (use_psk s) spdm_version hash_algo key hint th2) in
  modify (λ s, s <| application_secret ::= λ a, a <| request_data_secret := rds |> |>);;
  let* rsp := some_or SPDM_STATUS_CRYPTO_ERROR
    (derive_response_data_secret (use_psk s) spdm_version hash_algo key hint th2) in
  modify (λ s, s <| application_secret ::= λ a, a <| response_data_secret := rsp |> |>);;
  let* (k, iv) := some_or SPDM_STATUS_CRYPTO_ERROR
    (derive_aead_key_iv spdm_version hash_algo aead_algo rds) in
  modify (λ s, s <| application_secret ::= λ a, a <| app_request_direction ::= λ d,
    d <| encryption_key := k |> <| salt := iv |> |> |>);;
  let* (k, iv) := some_or SPDM_STATUS_CRYPTO_ERROR
    (derive_aead_key_iv spdm_version hash_algo aead_algo rsp) in
  modify (λ s, s <| application_secret ::= λ a, a <| app_response_direction ::= λ d,
    d <| encryption_key := k |> <| salt := iv |> |> |>);;
  let* ems := some_or SPDM_STATUS_CRYPTO_ERROR
    (derive_export_master_secret (use_psk s) spdm_version hash_algo key hint) in
  modify (λ s, s <| application_secret ::= λ a, a <| export_master_secret := ems |> |>).

(*@ spdmlib/src/common/session.rs 572-683 SpdmSession::create_data_secret_update *)
Definition SpdmSession_create_data_secret_update (spdm_version : SpdmVersion)
    (update_requester update_responder : bool) : SpdmM SpdmSession unit :=
  let* s := gets (λ s, s) in
  let hash_algo := cp_base_hash_algo (crypto_param s) in
  let aead_algo := cp_aead_algo (crypto_param s) in
  (if update_requester then
    modify (λ s, s <| application_secret_backup ::= λ b,
      b <| request_data_secret := request_data_secret (application_secret s) |>
        <| app_request_direction := app_request_direction (application_secret s) |> |>);;
    let* us := some_or SPDM_STATUS_CRYPTO_ERROR
      (derive_update_secret spdm_version hash_algo
         (request_data_secret (application_secret s))) in
    modify (λ s, s <| application_secret ::= λ a, a <| request_data_secret := us |> |>);;
    let* (k, iv) := some_or SPDM_STATUS_CRYPTO_ERROR
      (derive_aead_key_iv spdm_version hash_algo aead_algo us) in
    modify (λ s, s <| application_secret ::= λ a, a <| app_request_direction ::= λ d,
      d <| encryption_key := k |> <| salt := iv |> |> |>);;
    modify (λ s, s <| application_secret ::= λ a, a <| app_request_direction ::= λ d,
      d <| sequence_number := 0 |> |> |>)
   else ret tt);;
  (if update_responder then
    modify (λ s, s <| application_secret_backup ::= λ b,
      b <| response_data_secret := response_data_secret (application_secret s) |>
        <| app_response_direction := app_response_direction (application_secret s) |> |>);;
    let* us := some_or SPDM_STATUS_CRYPTO_ERROR
      (derive_update_secret spdm_version hash_algo
         (response_data_secret (application_secret s))) in
    modify (λ s, s <| application_secret ::= λ a, a <| response_data_secret := us |> |>);;
    let* (k, iv) := some_or SPDM_STATUS_CRYPTO_ERROR
      (derive_aead_key_iv spdm_version hash_algo aead_algo us) in
    modify (λ s, s <| application_secret ::= λ a, a <| app_response_direction ::= λ d,
      d <| encryption_key := k |> <| salt := iv |> |> |>);;
    modify (λ s, s <| application_secret ::= λ a, a <| app_response_direction ::= λ d,
      d <| sequence_number := 0 |> |> |>)
   else ret tt).

(*@ spdmlib/src/common/session.rs 685-720 SpdmSession::activate_data_secret_update *)
Definition SpdmSession_activate_data_secret_update
    (update_requester update_responder use_new_key : bool) (s : SpdmSession) : SpdmSession :=
  if negb use_new_key then
    let backup := application_secret_backup s in
    let s := if update_requester then
        s <| application_secret ::= λ a,
          a <| request_data_secret := request_data_secret backup |>
            <| app_request_direction := app_request_direction backup |> |>
      else s in
    if update_responder then
      s <| application_secret ::= λ a,
        a <| response_data_secret := response_data_secret backup |>
          <| app_response_direction := app_response_direction backup |> |>
    else s
  else
    let s := if update_requester then
        s <| application_secret_backup ::= λ b,
          b <| request_data_secret := sized_default SPDM_MAX_HASH_SIZE |>
            <| app_request_direction := SecretParam_default |> |>
      else s in
    if update_responder then
      s <| application_secret_backup ::= λ b,
        b <| response_data_secret := sized_default SPDM_MAX_HASH_SIZE |>
          <| app_response_direction := SecretParam_default |> |>
    else s.

(*@ spdmlib/src/common/session.rs 722-732 SpdmSession::generate_hmac_with_response_finished_key *)
Definition generate_hmac_with_response_finished_key {S} (s : SpdmSession)
    (message_hash : bytes) : SpdmM S SpdmDigestStruct :=
  let* key := sized_as_ref (response_finished_key (handshake_secret s)) in
  some_or SPDM_STATUS_CRYPTO_ERROR
    (of_outcome (hmac (cp_base_hash_algo (crypto_param s)) key message_hash)).

(*@ spdmlib/src/common/session.rs 734-744 SpdmSession::generate_hmac_with_request_finished_key *)
Definition generate_hmac_with_request_finished_key {S} (s : SpdmSession)
    (message_hash : bytes) : SpdmM S SpdmDigestStruct :=
  let* key := sized_as_ref (request_finished_key (handshake_secret s)) in
  some_or SPDM_STATUS_CRYPTO_ERROR
    (of_outcome (hmac (cp_base_hash_algo (crypto_param s)) key message_hash)).

(*@ spdmlib/src/common/session.rs 746-757 SpdmSession::verify_hmac_with_response_finished_key *)
Definition verify_hmac_with_response_finished_key {S} (s : SpdmSession)
    (message_hash : bytes) (h : SpdmDigestStruct) : SpdmM S unit :=
  let* key := sized_as_ref (response_finished_key (handshake_secret s)) in
  of_outcome (hmac_verify (cp_base_hash_algo (crypto_param s)) key message_hash h).

(*@ spdmlib/src/common/session.rs 759-770 SpdmSession::verify_hmac_with_request_finished_key *)
Definition verify_hmac_with_request_finished_key {S} (s : SpdmSession)
    (message_hash : bytes) (h : SpdmDigestStruct) : SpdmM S unit :=
  let* key := sized_as_ref (request_finished_key (handshake_secret s)) in
  of_outcome (hmac_verify (cp_base_hash_algo (crypto_param s)) key message_hash h).

(*@ spdmlib/src/common/session.rs 772-793 SpdmSession::export_keys *)
Definition SpdmSession_export_keys (s : SpdmSession)
    : SpdmSessionSecretParam * SpdmSessionSecretParam :=
  (app_request_direction (application_secret s),
   app_response_direction (application_secret s)).

(** ** Protection of messages *)

(** [sequence_number >> (8 * i)]: a shift by the width or more is a panic in a checked
    build and takes the amount modulo the width otherwise. *)
Definition shr_u64 {S E} (mode : overflow_mode) (x : Z) (k : Z) : M S E Z :=
  if k <? 64 then ret (Z.shiftr x k)
  else match mode with Checked => panic | Wrapping => ret (Z.shiftr x (k `mod` 64)) end.

Definition add_u16 {S E} (mode : overflow_mode) (a b : Z) : M S E Z :=
  if decide (is_u16 (a + b)) then ret (a + b)
  else match mode with Checked => panic | Wrapping => ret (as_u16 (a + b)) end.

(** [sequence_number += 1]. *)
Definition incr_u64 (mode : overflow_mode) (x : Z) : option Z :=
  if decide (is_u64 (x + 1)) then Some (x + 1)
  else match mode with Checked => None | Wrapping => Some (as_u64 (x + 1)) end.

(*@ spdmlib/src/common/session.rs 945-954 SpdmSession::encode_msg *)
Definition nonce (sp : SpdmSessionSecretParam) : SpdmAeadIvStruct := {|
  data_size := data_size (salt sp);
  data := imap (λ i b, if (i <? 8)%nat
      then Z.lxor b (as_u8 (Z.land (Z.shiftr (sequence_number sp) (8 * Z.of_nat i)) 0xFF))
      else b) (data (salt sp));
|}.

(** The loop [for i in 0..sequence_number_count] of [encode_msg]. *)
(*@ spdmlib/src/common/session.rs 920-927 SpdmSession::encode_msg *)
Fixpoint encode_sequence_number (mode : overflow_mode) (seq : Z) (i count : nat)
    : M Writer EncodeErr nat :=
  match count with
  | O => ret 0%nat
  | S count =>
      let* x := shr_u64 mode seq (8 * Z.of_nat i) in
      let* n := encode u8_codec (as_u8 (Z.land x 0xFF)) in
      let* m := encode_sequence_number mode seq (S i) count in
      ret (n + m)%nat
  end.

(*@ spdmlib/src/common/session.rs 895-973 SpdmSession::encode_msg *)
Definition encode_msg (mode : overflow_mode) (s : SpdmSession) (app_buffer : bytes)
    (sp : SpdmSessionSecretParam) : SpdmM bytes nat :=
  let aead_algo := cp_aead_algo (crypto_param s) in
  let count := sequence_number_count (transport_param s) in
  let cipher_text_size := (length app_buffer + 2)%nat in
  let* tag_size := of_outcome (SpdmAeadAlgo.get_tag_size aead_algo) in
  let app_length := as_u16 (Z.of_nat (length app_buffer)) in
  let* len := add_u16 mode (as_u16 (Z.of_nat cipher_text_size)) (as_u16 (Z.of_nat tag_size)) in
  if sequence_number sp =? 0xFFFFFFFFFFFFFFFF
  then throw SPDM_STATUS_SEQUENCE_NUMBER_OVERFLOW else
  let* r := with_writer (replicate 14 0) (map_err (λ _, SPDM_STATUS_BUFFER_TOO_SMALL)
    (encode u32_codec (session_id s);;
     encode_sequence_number mode (sequence_number sp) 0 count;;
     encode u16_codec len)) in
  let aad_size := Writer_used r.2 in
  (assert! (aad_size =? 6 + count)%nat);;
  let aad := Writer_used_slice r.2 in
  let* r := with_writer (replicate SENDER_BUFFER_SIZE 0)
    (map_err (λ _, SPDM_STATUS_BUFFER_TOO_SMALL) (encode u16_codec app_length)) in
  (assert! (Writer_used r.2 =? 2)%nat);;
  let* plain_text_buf := slice_copy (wr_buf r.2) 2 app_buffer in
  let* plain := sub_slice 0 cipher_text_size plain_text_buf in
  let* tag_slice := sub_slice 0 tag_size (replicate 16 0) in
  let* secured := gets (λ b, b) in
  let* cipher_slice := sub_slice aad_size (aad_size + cipher_text_size) secured in
  let '(res, (tag', ct')) :=
    aead_encrypt aead_algo (encryption_key sp) (nonce sp) aad plain tag_slice cipher_slice in
  modify (splice aad_size ct');;
  let* (ret_cipher_text_size, ret_tag_size) := of_outcome res in
  (assert! (ret_tag_size =? tag_size)%nat);;
  (assert! (ret_cipher_text_size =? cipher_text_size)%nat);;
  let* secured := gets (λ b, b) in
  let* secured := slice_copy secured 0 aad in
  let tag_buffer := splice 0 tag' (replicate 16 0) in
  let pos := (aad_size + cipher_text_size)%nat in
  let* _ := sub_slice pos (pos + tag_size) secured in
  (assert! (tag_size =? length tag_buffer)%nat);;
  let* secured := slice_copy secured pos tag_buffer in
  modify (λ _, secured);;
  ret (aad_size + cipher_text_size + tag_size)%nat.

(*@ spdmlib/src/common/session.rs 996-1005 SpdmSession::decode_msg *)
Fixpoint check_sequence_number (mode : overflow_mode) (seq : Z) (i count : nat)
    : SpdmM Reader unit :=
  match count with
  | O => ret tt
  | S count =>
      let* s := some_or SPDM_STATUS_DECODE_AEAD_FAIL (read u8_codec) in
      let* x := shr_u64 mode seq (8 * Z.of_nat i) in
      if negb (s =? as_u8 (Z.land x 0xFF)) then throw SPDM_STATUS_DECODE_AEAD_FAIL
      else check_sequence_number mode seq (S i) count
  end.

(*@ spdmlib/src/common/session.rs 975-1053 SpdmSession::decode_msg *)
Definition decode_msg (mode : overflow_mode) (s : SpdmSession) (secured_buffer : bytes)
    (sp : SpdmSessionSecretParam) : SpdmM bytes nat :=
  let aead_algo := cp_aead_algo (crypto_param s) in
  let count := sequence_number_count (transport_param s) in
  let* tag_size := of_outcome (SpdmAeadAlgo.get_tag_size aead_algo) in
  if sequence_number sp =? 0xFFFFFFFFFFFFFFFF
  then throw SPDM_STATUS_SEQUENCE_NUMBER_OVERFLOW else
  let* (len, reader) := with_reader secured_buffer
    (let* id := some_or SPDM_STATUS_DECODE_AEAD_FAIL (read u32_codec) in
     if negb (id =? session_id s) then throw SPDM_STATUS_DECODE_AEAD_FAIL else
     check_sequence_number mode (sequence_number sp) 0 count;;
     some_or SPDM_STATUS_DECODE_AEAD_FAIL (read u16_codec)) in
  let len := Z.to_nat len in
  let aad_size := Reader_used reader in
  (assert! (aad_size =? 6 + count)%nat);;
  if (length secured_buffer <? len + aad_size)%nat
  then throw SPDM_STATUS_DECODE_AEAD_FAIL else
  if (len <? tag_size)%nat then throw SPDM_STATUS_DECODE_AEAD_FAIL else
  let cipher_text_size := (len - tag_size)%nat in
  let plain_text_buf := replicate RECEIVER_BUFFER_SIZE 0 in
  let* aad := sub_slice 0 aad_size secured_buffer in
  let* cipher := sub_slice aad_size (aad_size + cipher_text_size) secured_buffer in
  let* tag := sub_slice (aad_size + cipher_text_size)
    (aad_size + cipher_text_size + tag_size) secured_buffer in
  let* plain_slice := sub_slice 0 cipher_text_size plain_text_buf in
  let '(res, pt') :=
    aead_decrypt aead_algo (encryption_key sp) (nonce sp) aad cipher tag plain_slice in
  let plain_text_buf := splice 0 pt' plain_text_buf in
  let* ret_plain_text_size := of_outcome res in
  let* (app_length, _) := with_reader plain_text_buf
    (some_or SPDM_STATUS_DECODE_AEAD_FAIL (read u16_codec)) in
  let app_length := Z.to_nat app_length in
  if (ret_plain_text_size <? app_length + 2)%nat
  then throw SPDM_STATUS_DECODE_AEAD_FAIL else
  let* app_buffer := gets (λ b, b) in
  let* app := sub_slice 2 (app_length + 2) plain_text_buf in
  let* app_buffer := slice_copy app_buffer 0 app in
  modify (λ _, app_buffer);;
  ret app_length.

(** Applies [c] to the keys of a direction and advances their sequence number, whatever
    the result of [c]. *)
Definition protect {A} (mode : overflow_mode) (get : SpdmSession → SpdmSessionSecretParam)
    (upd : (SpdmSessionSecretParam → SpdmSessionSecretParam) → SpdmSession → SpdmSession)
    (c : SpdmSession → SpdmSessionSecretParam → SpdmM bytes A)
    : SpdmM (SpdmSession * bytes) A := λ st,
  let '(s, buf) := st in
  match c s (get s) buf with
  | (Panic, buf') => (Panic, (s, buf'))
  | (r, buf') =>
      match incr_u64 mode (sequence_number (get s)) with
      | None => (Panic, (s, buf'))
      | Some n => (r, (upd (λ d, d <| sequence_number := n |>) s, buf'))
      end
  end.

Definition get_hs_request (s : SpdmSession) := hs_request_direction (handshake_secret s).
Definition get_hs_response (s : SpdmSession) := hs_response_direction (handshake_secret s).
Definition get_app_request (s : SpdmSession) := app_request_direction (application_secret s).
Definition get_app_response (s : SpdmSession) := app_response_direction (application_secret s).
Definition upd_hs_request (f : SpdmSessionSecretParam → SpdmSessionSecretParam) (s : SpdmSession) :=
  s <| handshake_secret ::= λ h, h <| hs_request_direction ::= f |> |>.
Definition upd_hs_response (f : SpdmSessionSecretParam → SpdmSessionSecretParam) (s : SpdmSession) :=
  s <| handshake_secret ::= λ h, h <| hs_response_direction ::= f |> |>.
Definition upd_app_request (f : SpdmSessionSecretParam → SpdmSessionSecretParam) (s : SpdmSession) :=
  s <| application_secret ::= λ a, a <| app_request_direction ::= f |> |>.
Definition upd_app_response (f : SpdmSessionSecretParam → SpdmSessionSecretParam) (s : SpdmSession) :=
  s <| application_secret ::= λ a, a <| app_response_direction ::= f |> |>.

(*@ spdmlib/src/common/session.rs 795-843 SpdmSession::encode_spdm_secured_message *)
Definition encode_spdm_secured_message (mode : overflow_mode) (app_buffer : bytes)
    (is_requester : bool) : SpdmM (SpdmSession * bytes) nat := λ st,
  let enc s sp := encode_msg mode s app_buffer sp in
  match session_state st.1 with
  | SpdmSessionNotStarted => throw SPDM_STATUS_INVALID_STATE_LOCAL st
  | SpdmSessionHandshaking =>
      if is_requester then protect mode get_hs_request upd_hs_request enc st
      else protect mode get_hs_response upd_hs_response enc st
  | SpdmSessionEstablished =>
      if is_requester then protect mode get_app_request upd_app_request enc st
      else protect mode get_app_response upd_app_response enc st
  | SpdmSessionState_Unknown _ => panic st
  end.

(*@ spdmlib/src/common/session.rs 845-893 SpdmSession::decode_spdm_secured_message *)
Definition decode_spdm_secured_message (mode : overflow_mode) (secured_buffer : bytes)
    (is_requester : bool) : SpdmM (SpdmSession * bytes) nat := λ st,
  let dec s sp := decode_msg mode s secured_buffer sp in
  match session_state st.1 with
  | SpdmSessionNotStarted => throw SPDM_STATUS_INVALID_STATE_LOCAL st
  | SpdmSessionHandshaking =>
      if is_requester then protect mode get_hs_request upd_hs_request dec st
      else protect mode get_hs_response upd_hs_response dec st
  | SpdmSessionEstablished =>
      if is_requester then protect mode get_app_request upd_app_request dec st
      else protect mode get_app_response upd_app_response dec st
  | SpdmSessionState_Unknown _ => throw SPDM_STATUS_INVALID_STATE_LOCAL st
  end.

End Session.

(** ** Nonces *)

Section SessionProofs.
Context `{cfg : Config} `{sec : Secret}.

Lemma land_ff x : Z.land x 0xFF = as_u8 x.
Proof. change 0xFF with (Z.ones 8). by rewrite Z.land_ones. Qed.

Lemma seq_byte s i : as_u8 (Z.land (Z.shiftr s (8 * Z.of_nat i)) 0xFF) =
  as_u8 (Z.shiftr s (8 * Z.of_nat i)).
Proof. rewrite land_ff. apply as_uint_id, as_uint_bound. lia. Qed.

(** Two 64-bit numbers with the same eight bytes are equal. *)
Lemma le_bytes_inj n x y :
  is_uint (8 * Z.of_nat n) x → is_uint (8 * Z.of_nat n) y →
  le_bytes n x = le_bytes n y → x = y.
Proof.
  intros Hx Hy He. rewrite <- (as_uint_id _ x Hx), <- (as_uint_id _ y Hy).
  by rewrite <- !le_val_le_bytes, He.
Qed.

Lemma lookup_le_bytes n x i :
  (i < n)%nat → le_bytes n x !! i = Some (as_u8 (Z.shiftr x (8 * Z.of_nat i))).
Proof.
  revert x i. induction n as [|n IH]; intros x i Hi; [lia|]. destruct i as [|i]; simpl.
  - by rewrite Z.shiftr_0_r.
  - rewrite IH, Z.shiftr_shiftr by lia. do 3 f_equal. lia.
Qed.

(** Under one salt, distinct sequence numbers give distinct nonces. *)
Lemma nonce_inj sp1 sp2 :
  salt sp1 = salt sp2 → (8 ≤ length (data (salt sp1)))%nat →
  is_u64 (sequence_number sp1) → is_u64 (sequence_number sp2) →
  nonce sp1 = nonce sp2 → sequence_number sp1 = sequence_number sp2.
Proof.
  intros Hs Hl H1 H2 Hn. apply (le_bytes_inj 8); [done..|].
  apply list_eq. intros i. destruct (decide (i < 8)%nat) as [Hi|Hi].
  2: { rewrite !lookup_ge_None_2 by (rewrite length_le_bytes; lia). done. }
  rewrite !lookup_le_bytes by done. f_equal.
  assert (is_Some (data (salt sp1) !! i)) as [b Hb] by (apply lookup_lt_is_Some; lia).
  unfold nonce in Hn. rewrite <- Hs in Hn. injection Hn as Hn.
  apply (f_equal (.!! i)) in Hn. rewrite !list_lookup_imap, Hb in Hn. simpl in Hn.
  rewrite (proj2 (Nat.ltb_lt i 8)) in Hn by done. injection Hn as Hn.
  rewrite !seq_byte in Hn. apply (f_equal (Z.lxor b)) in Hn.
  by rewrite <- !Z.lxor_assoc, Z.lxor_nilpotent, !Z.lxor_0_l in Hn.
Qed.

End SessionProofs.
