(* ===== verification/SessionProofs.v ===== *)
(** Proofs about sessions ([Session]): the protection of messages (round trip,
    sequence numbers) and the update of keys. *)

From S2P Require Import Prelude Config Codec Status Algo Protocol Crypto SpdmRing ToyRing KeySchedule Buffers Session.

Section Protection.
Context `{cfg : Config} `{sec : Secret}.

(** ** The layout of a secured message *)

Definition secured_aad (s : SpdmSession) (sp : SpdmSessionSecretParam) (app_len : nat) : bytes :=
  le_bytes 4 (session_id s)
  ++ le_bytes (sequence_number_count (transport_param s)) (sequence_number sp)
  ++ le_bytes 2 (Z.of_nat (app_len + 18)).

Definition secured_plain (app : bytes) : bytes := le_bytes 2 (Z.of_nat (length app)) ++ app.

(** What the library relies on to protect a message of [n] bytes: a negotiated AEAD
    algorithm, a session identifier and sequence number in range, a sequence number that
    is not exhausted, and a message that fits the length fields and the buffers. *)
Record can_protect (s : SpdmSession) (sp : SpdmSessionSecretParam) (n : nat) : Prop := {
  cp_tag : SpdmAeadAlgo.get_tag_size (E:=SpdmStatus) (cp_aead_algo (crypto_param s)) = Ok 16%nat;
  cp_id : is_u32 (session_id s);
  cp_count : (sequence_number_count (transport_param s) ≤ 8)%nat;
  cp_seq : 0 ≤ sequence_number sp < 2 ^ 64 - 1;
  cp_len : Z.of_nat (n + 18) < 65536;
  cp_sender : (n + 2 ≤ SENDER_BUFFER_SIZE)%nat;
  cp_receiver : (n + 2 ≤ RECEIVER_BUFFER_SIZE)%nat;
}.

Lemma length_secured_aad s sp n :
  length (secured_aad s sp n) = (6 + sequence_number_count (transport_param s))%nat.
Proof. unfold secured_aad. rewrite !length_app, !length_le_bytes. lia. Qed.

Lemma length_secured_plain app : length (secured_plain app) = (length app + 2)%nat.
Proof. unfold secured_plain. rewrite length_app, length_le_bytes. lia. Qed.

Lemma shr_u64_ok {S E} mode x k (st : S) :
  k < 64 → shr_u64 (E:=E) mode x k st = (Ok (Z.shiftr x k), st).
Proof. intros Hk. unfold shr_u64. by rewrite (proj2 (Z.ltb_lt k 64)) by done. Qed.

Lemma appends_encode_sequence_number mode seq i count :
  (i + count ≤ 8)%nat →
  appends (encode_sequence_number mode seq i count)
    (le_bytes count (Z.shiftr seq (8 * Z.of_nat i))) count.
Proof.
  revert i. induction count as [|count IH]; intros i Hi; [apply appends_ret|].
  cbn [encode_sequence_number le_bytes].
  set (b := as_u8 (Z.shiftr seq (8 * Z.of_nat i))).
  apply (appends_bind _ _ [] _ (Z.shiftr seq (8 * Z.of_nat i))).
  { intros w _ _. rewrite shr_u64_ok, Writer_append_nil by lia. done. }
  rewrite seq_byte. fold b. apply (appends_bind _ _ [b] _ 1%nat).
  { apply (writes_appends MkEncodeErr).
    eapply writes_eq; [apply encode_ok, as_uint_bound; lia| |done].
    simpl. by rewrite as_uint_id by (apply as_uint_bound; lia). }
  rewrite <- (app_nil_r (le_bytes count _)), Z.shiftr_shiftr by lia.
  eapply appends_bind.
  { replace (8 * Z.of_nat i + 8) with (8 * Z.of_nat (S i)) by lia. apply IH. lia. }
  apply appends_ret.
Qed.

Lemma reads_check_sequence_number mode seq i count :
  (i + count ≤ 8)%nat →
  reads (check_sequence_number mode seq i count)
    (le_bytes count (Z.shiftr seq (8 * Z.of_nat i))) tt.
Proof.
  revert i. induction count as [|count IH]; intros i Hi; [apply reads_ret|].
  cbn [check_sequence_number le_bytes].
  set (b := as_u8 (Z.shiftr seq (8 * Z.of_nat i))).
  assert (is_u8 b) as Hb by (apply as_uint_bound; lia).
  apply (reads_bind _ _ [b] _ b).
  { intros r tl Hr. unfold some_or, map_err.
    rewrite (read_ok (c:=u8_codec) b Hb r tl); [done|]. simpl. by rewrite as_uint_id. }
  rewrite <- (app_nil_l (le_bytes count _)).
  apply (reads_bind _ _ _ _ (Z.shiftr seq (8 * Z.of_nat i))).
  { intros r tl _. by rewrite shr_u64_ok, Reader_advance_0 by lia. }
  rewrite seq_byte. fold b. rewrite Z.eqb_refl. cbn [negb]. rewrite Z.shiftr_shiftr by lia.
  replace (8 * Z.of_nat i + 8) with (8 * Z.of_nat (S i)) by lia. apply IH. lia.
Qed.

Lemma add_u16_ok {S E} mode a b (st : S) :
  is_u16 (a + b) → add_u16 (E:=E) mode a b st = (Ok (a + b), st).
Proof. intros. unfold add_u16. by rewrite decide_True. Qed.

(** The associated data that [encode_msg] writes. *)
Lemma appends_aad mode s sp n :
  can_protect s sp n →
  appends (map_err (λ _, SPDM_STATUS_BUFFER_TOO_SMALL)
    (encode u32_codec (session_id s);;
     encode_sequence_number mode (sequence_number sp) 0
       (sequence_number_count (transport_param s));;
     encode u16_codec (Z.of_nat (n + 18)))) (secured_aad s sp n) 2%nat.
Proof.
  intros Hp. apply appends_map_err. eapply appends_bind.
  { apply (writes_appends MkEncodeErr), encode_ok, Hp. }
  eapply appends_bind.
  { pose proof (appends_encode_sequence_number mode (sequence_number sp) 0
      (sequence_number_count (transport_param s)) (cp_count _ _ _ Hp)) as Ha.
    by rewrite Z.shiftr_0_r in Ha. }
  apply (writes_appends MkEncodeErr), (encode_ok (c:=u16_codec) (wire:=le_bytes 2)).
  pose proof (cp_len _ _ _ Hp). unfold is_uint. lia.
Qed.

Lemma length_field mode s sp n (st : bytes) :
  can_protect s sp n →
  add_u16 (E:=SpdmStatus) mode (as_u16 (Z.of_nat (n + 2))) (as_u16 (Z.of_nat 16)) st =
    (Ok (Z.of_nat (n + 18)), st).
Proof.
  intros Hp. pose proof (cp_len _ _ _ Hp).
  rewrite !as_uint_id by (unfold is_uint; lia).
  rewrite add_u16_ok by (unfold is_uint; lia). do 2 f_equal. lia.
Qed.

(** The plain text that is encrypted: the length of the message and the message. *)
Lemma plain_text app buf (st : bytes) :
  (length app + 2 ≤ length buf)%nat →
  (let* b := slice_copy (le_bytes 2 (Z.of_nat (length app)) ++ drop 2 buf) 2 app in
   sub_slice (E:=SpdmStatus) 0 (length app + 2) b) st = (Ok (secured_plain app), st).
Proof.
  intros Hl. unfold bind, slice_copy.
  rewrite decide_True by (rewrite length_app, length_le_bytes, length_drop; lia).
  unfold ret. rewrite sub_slice_ok; [|lia|].
  2: { rewrite length_splice; rewrite length_app, length_le_bytes, length_drop; lia. }
  rewrite drop_0, Nat.sub_0_r. unfold splice.
  rewrite (take_app_length' (le_bytes 2 _)), app_assoc by (by rewrite length_le_bytes).
  rewrite take_app_length' by (symmetry; apply length_secured_plain). done.
Qed.


(** The functional behaviour of [encode_msg] on the messages it can protect: nothing but
    the AEAD can fail, and on success the message is the associated data, the cipher
    text and the tag, in front of what the buffer held behind them. *)
Lemma encode_msg_spec `{!AeadLaws} mode s app sp buf :
  can_protect s sp (length app) →
  (6 + sequence_number_count (transport_param s) + length app + 18 ≤ length buf)%nat →
  let aad := secured_aad s sp (length app) in
  let total := (length aad + length app + 18)%nat in
  ∃ slice, length slice = (length app + 2)%nat ∧
  encode_msg mode s app sp buf =
    match aead_encrypt (cp_aead_algo (crypto_param s)) (encryption_key sp) (nonce sp) aad
            (secured_plain app) (replicate 16 0) slice with
    | (Ok _, (tag, ct)) => (Ok total, (aad ++ ct ++ tag) ++ drop total buf)
    | (Err e, (tag, ct)) => (Err e, splice (length aad) ct buf)
    | (Panic, (tag, ct)) => (Panic, splice (length aad) ct buf)
    end.
Proof.
  intros Hp Hbuf aad total. pose proof (length_secured_aad s sp (length app)) as Hl. fold aad in Hl.
  set (slice := take (length app + 2) (drop (length aad) buf)).
  assert (length slice = length app + 2)%nat as Hslice
    by (unfold slice; rewrite length_take, length_drop; lia).
  exists slice. split; [done|]. unfold encode_msg.
  erewrite bind_step by (by rewrite (cp_tag _ _ _ Hp)).
  erewrite bind_step by (by apply (length_field mode s sp)).
  destruct (Z.eqb_spec (sequence_number sp) 0xFFFFFFFFFFFFFFFF) as [Hs|_].
  { pose proof (cp_seq _ _ _ Hp). lia. }
  pose proof (cp_count _ _ _ Hp) as Hcount. pose proof (cp_sender _ _ _ Hp) as Hsend.
  erewrite bind_step by (apply with_writer_append;
    [by apply appends_aad|rewrite length_secured_aad, length_replicate; lia]).
  cbn [snd Writer_used Writer_append Writer_init wr_offs].
  fold aad. change (0 + length aad)%nat with (length aad).
  rewrite Hl, Nat.eqb_refl, <- Hl. erewrite bind_step by done.
  rewrite Writer_init_append_used_slice by (rewrite length_replicate; lia).
  erewrite bind_step by (apply with_writer_append;
    [apply appends_encode with (wf := is_u16); [apply _|apply as_uint_bound; lia]
    |rewrite length_le_bytes, length_replicate; lia]).
  cbn [snd Writer_used Writer_append Writer_init wr_offs wr_buf].
  rewrite length_le_bytes. erewrite bind_step by done.
  rewrite as_uint_id by (pose proof (cp_len _ _ _ Hp); unfold is_uint; lia).
  unfold splice at 1. rewrite take_0, app_nil_l, length_le_bytes.
  rewrite <- (bind_assoc (slice_copy _ _ _)).
  erewrite bind_step by (apply plain_text; rewrite length_replicate; lia).
  erewrite bind_step by (by rewrite sub_slice_ok by (rewrite ?length_replicate; lia)).
  erewrite bind_step by done.
  erewrite bind_step by (by rewrite sub_slice_ok by lia).
  replace (length aad + (length app + 2) - length aad)%nat with (length app + 2)%nat by lia.
  fold slice. change (take (16 - 0) (drop 0 (replicate 16 0))) with (replicate 16 0).
  destruct (aead_encrypt _ _ _ _ _ _ _) as [res [tag ct]] eqn:Henc.
  apply aead_encrypt_length in Henc as Hlen. destruct Hlen as [Htag Hct].
  rewrite length_replicate in Htag.
  erewrite bind_step by done. destruct res as [[c t]|e|]; [|done|done].
  apply aead_encrypt_result in Henc as [-> ->].
  erewrite bind_step by done. cbv beta iota.
  rewrite length_replicate, length_secured_plain, !Nat.eqb_refl.
  do 3 (erewrite bind_step by done).
  destruct (split_buffer (length aad) (length ct) 16 buf) as (b1&b2&b3&Hsplit&H1&H2&H3); [lia|].
  rewrite Hsplit at 1. rewrite splice_mid by done.
  erewrite bind_step by (apply (slice_copy_mid 0 aad [] b1); done).
  replace (splice 0 tag (replicate 16 0)) with tag.
  2: { symmetry. rewrite <- (app_nil_r tag) at 2.
       by apply (splice_mid 0 tag [] (replicate 16 0) []). }
  erewrite bind_step by (apply sub_slice_ok; [lia|rewrite !length_app; lia]).
  rewrite Htag, Nat.eqb_refl. erewrite bind_step by done.
  rewrite app_nil_l, (app_assoc aad).
  erewrite bind_step by (apply slice_copy_mid; [rewrite length_app; lia|lia]).
  erewrite bind_step by done. unfold ret. rewrite <- !app_assoc. f_equal.
  - f_equal. unfold total. lia.
  - do 4 f_equal. unfold total. lia.
Qed.

(** The header of a secured message, as [decode_msg] reads it. *)
Lemma reads_aad mode s sp n :
  can_protect s sp n →
  reads
    (let* id := some_or SPDM_STATUS_DECODE_AEAD_FAIL (read u32_codec) in
     if negb (id =? session_id s) then throw SPDM_STATUS_DECODE_AEAD_FAIL else
     check_sequence_number mode (sequence_number sp) 0
       (sequence_number_count (transport_param s));;
     some_or SPDM_STATUS_DECODE_AEAD_FAIL (read u16_codec))
    (secured_aad s sp n) (Z.of_nat (n + 18)).
Proof.
  intros Hp. pose proof (cp_len _ _ _ Hp).
  apply (reads_bind _ _ _ _ (session_id s)).
  { apply reads_map_err, read_ok, Hp. }
  rewrite Z.eqb_refl. cbn [negb]. apply (reads_bind _ _ _ _ tt).
  { pose proof (reads_check_sequence_number mode (sequence_number sp) 0
      (sequence_number_count (transport_param s)) (cp_count _ _ _ Hp)) as Ha.
    by rewrite Z.shiftr_0_r in Ha. }
  apply reads_map_err, read_ok. unfold is_uint. lia.
Qed.

(** [decode_msg] accepts a message with the layout of [encode_msg] if the AEAD does, and
    returns the message inside; what follows it in the buffer is ignored. *)
Lemma decode_msg_spec mode s app sp ct tag rest out :
  can_protect s sp (length app) →
  length ct = (length app + 2)%nat → length tag = 16%nat → (length app ≤ length out)%nat →
  let aad := secured_aad s sp (length app) in
  aead_decrypt (cp_aead_algo (crypto_param s)) (encryption_key sp) (nonce sp) aad ct tag
    (replicate (length app + 2) 0) = (Ok (length app + 2)%nat, secured_plain app) →
  decode_msg mode s (aad ++ ct ++ tag ++ rest) sp out =
    (Ok (length app), app ++ drop (length app) out).
Proof.
  intros Hp Hct Htag Hout aad Hdec. pose proof (cp_len _ _ _ Hp) as Hlen.
  pose proof (cp_receiver _ _ _ Hp) as Hrecv.
  pose proof (length_secured_aad s sp (length app)) as Hl. fold aad in Hl.
  unfold decode_msg. erewrite bind_step by (by rewrite (cp_tag _ _ _ Hp)).
  destruct (Z.eqb_spec (sequence_number sp) 0xFFFFFFFFFFFFFFFF) as [Hs|_].
  { pose proof (cp_seq _ _ _ Hp). lia. }
  erewrite bind_step by (eapply with_reader_ok; [by apply reads_aad|done]).
  cbv beta iota. cbn [Reader_used Reader_advance Reader_init rd_offs].
  fold aad. change (0 + length aad)%nat with (length aad).
  rewrite Hl, Nat.eqb_refl, <- Hl, Nat2Z.id. erewrite bind_step by done.
  rewrite (proj2 (Nat.ltb_ge _ _)) by (rewrite !length_app; lia).
  rewrite (proj2 (Nat.ltb_ge _ _)) by lia.
  replace (length app + 18 - 16)%nat with (length app + 2)%nat by lia.
  erewrite bind_step by (apply (sub_slice_app 0 (length aad) [] aad); simpl; lia).
  erewrite bind_step by (apply (sub_slice_app _ _ aad ct); lia).
  rewrite (app_assoc aad).
  erewrite bind_step by (apply (sub_slice_app _ _ (aad ++ ct) tag); rewrite ?length_app; lia).
  erewrite bind_step by (apply sub_slice_ok; rewrite ?length_replicate; lia).
  rewrite drop_0, Nat.sub_0_r, take_replicate, Nat.min_l by lia. rewrite Hdec.
  erewrite bind_step by done.
  set (plain := splice 0 _ _).
  assert (plain = le_bytes 2 (Z.of_nat (length app)) ++ app
          ++ drop (length app + 2) (replicate RECEIVER_BUFFER_SIZE 0)) as Hplain.
  { unfold plain, splice. rewrite take_0, app_nil_l, Nat.add_0_l, length_secured_plain.
    unfold secured_plain. by rewrite <- app_assoc. }
  erewrite bind_step by (eapply with_reader_ok; [|exact Hplain];
    apply reads_map_err, read_ok; unfold is_uint; lia).
  cbv beta iota. rewrite Nat2Z.id, Nat.ltb_irrefl. erewrite bind_step by done.
  rewrite Hplain. erewrite bind_step by (apply sub_slice_app; rewrite ?length_le_bytes; lia).
  rewrite <- (take_drop (length app) out) at 1.
  erewrite bind_step by (apply (slice_copy_mid 0 app [] (take (length app) out));
    [done|rewrite length_take; lia]).
  done.
Qed.

(** ** Round trip

    A message that one side protects, the other side accepts and recovers, when both
    hold the same keys and sequence number and agree on the session. *)
Lemma msg_roundtrip `{!AeadLaws} mode s s' app sp buf n buf' out :
  can_protect s sp (length app) →
  session_id s' = session_id s → crypto_param s' = crypto_param s →
  transport_param s' = transport_param s →
  (6 + sequence_number_count (transport_param s) + length app + 18 ≤ length buf)%nat →
  (length app ≤ length out)%nat →
  encode_msg mode s app sp buf = (Ok n, buf') →
  decode_msg mode s' (take n buf') sp out = (Ok (length app), app ++ drop (length app) out) ∧
  decode_msg mode s' buf' sp out = (Ok (length app), app ++ drop (length app) out).
Proof.
  intros Hp Hid Hcp Htp Hbuf Hout Henc.
  destruct (encode_msg_spec mode s app sp buf Hp Hbuf) as (slice&Hslice&Hspec).
  rewrite Hspec in Henc. clear Hspec.
  destruct (aead_encrypt _ _ _ _ _ _ _) as [[r|e|] [tag ct]] eqn:Hae; try done.
  match type of Henc with (Ok ?t, ?b) = _ =>
    assert (n = t ∧ buf' = b) as [-> ->] by (split; congruence)
  end.
  apply aead_encrypt_length in Hae as Hlen. destruct Hlen as [Htag Hct].
  rewrite length_replicate in Htag. rewrite Hslice in Hct.
  assert (can_protect s' sp (length app)) as Hp'.
  { destruct Hp. split; rewrite ?Hid, ?Hcp, ?Htp; done. }
  assert (secured_aad s' sp (length app) = secured_aad s sp (length app)) as Haad
    by (unfold secured_aad; by rewrite Hid, Htp).
  assert (∀ rest, decode_msg mode s' ((secured_aad s sp (length app) ++ ct ++ tag) ++ rest)
            sp out = (Ok (length app), app ++ drop (length app) out)) as Hdec.
  { intros rest. rewrite <- !app_assoc, <- Haad. apply decode_msg_spec; [done..|].
    rewrite Haad, Hcp, <- length_secured_plain.
    eapply aead_correct; [exact Hae|by rewrite length_replicate, length_secured_plain]. }
  split; [|apply Hdec].
  rewrite (take_app_length' (secured_aad s sp (length app) ++ ct ++ tag))
    by (rewrite !length_app; lia).
  rewrite <- (app_nil_r (_ ++ ct ++ tag)). apply Hdec.
Qed.

(** ** Sessions in step *)

(** The keys a session uses for the messages of the requester, or of the responder. *)
Definition direction (is_requester : bool) (s : SpdmSession) : SpdmSessionSecretParam :=
  match session_state s with
  | SpdmSessionHandshaking => if is_requester then get_hs_request s else get_hs_response s
  | _ => if is_requester then get_app_request s else get_app_response s
  end.

Definition session_active (s : SpdmSession) : bool :=
  match session_state s with
  | SpdmSessionHandshaking | SpdmSessionEstablished => true
  | _ => false
  end.

(** What two ends of a session share when one can read what the other sends. *)
Record in_step (is_requester : bool) (s s' : SpdmSession) : Prop := {
  step_id : session_id s' = session_id s;
  step_crypto : crypto_param s' = crypto_param s;
  step_transport : transport_param s' = transport_param s;
  step_state : session_state s' = session_state s;
  step_keys : direction is_requester s' = direction is_requester s;
}.

(** The session with the sequence number of the direction set to [n], otherwise the same;
    after one message it is one further. *)
Definition moved (is_requester : bool) (n : Z) (s s' : SpdmSession) : Prop :=
  session_id s' = session_id s ∧ crypto_param s' = crypto_param s ∧
  transport_param s' = transport_param s ∧ session_state s' = session_state s ∧
  direction is_requester s' = direction is_requester s <| sequence_number := n |>.

Definition advanced (is_requester : bool) (s s' : SpdmSession) : Prop :=
  moved is_requester (sequence_number (direction is_requester s) + 1) s s'.

Lemma incr_u64_ok mode x : 0 ≤ x < 2 ^ 64 - 1 → incr_u64 mode x = Some (x + 1).
Proof. intros Hx. unfold incr_u64. rewrite decide_True; [done|]. unfold is_uint. lia. Qed.

(** [encode_spdm_secured_message] and [decode_spdm_secured_message] are [protect] on the
    direction that the session's state selects. *)
Definition protect_direction {A} (mode : overflow_mode) (is_requester : bool)
    (c : SpdmSession → SpdmSessionSecretParam → SpdmM bytes A)
    : SpdmM (SpdmSession * bytes) A := λ st,
  match session_state st.1 with
  | SpdmSessionHandshaking =>
      if is_requester then protect mode get_hs_request upd_hs_request c st
      else protect mode get_hs_response upd_hs_response c st
  | _ =>
      if is_requester then protect mode get_app_request upd_app_request c st
      else protect mode get_app_response upd_app_response c st
  end.

Lemma encode_protect mode is_requester app s buf :
  session_active s = true →
  encode_spdm_secured_message mode app is_requester (s, buf) =
  protect_direction mode is_requester (λ s sp, encode_msg mode s app sp) (s, buf).
Proof. unfold session_active, protect_direction, encode_spdm_secured_message. cbn.
  by destruct (session_state s). Qed.

Lemma decode_protect mode is_requester secured s buf :
  session_active s = true →
  decode_spdm_secured_message mode secured is_requester (s, buf) =
  protect_direction mode is_requester (λ s sp, decode_msg mode s secured sp) (s, buf).
Proof. unfold session_active, protect_direction, decode_spdm_secured_message. cbn.
  by destruct (session_state s). Qed.

Lemma protect_moved {A} mode is_requester n s buf (c : SpdmSession → _ → SpdmM bytes A) :
  session_active s = true →
  incr_u64 mode (sequence_number (direction is_requester s)) = Some n →
  ∃ s', moved is_requester n s s' ∧
    protect_direction mode is_requester c (s, buf) =
    match c s (direction is_requester s) buf with
    | (Panic, buf') => (Panic, (s, buf'))
    | (r, buf') => (r, (s', buf'))
    end.
Proof.
  unfold session_active, direction, moved, direction, protect_direction. cbn [fst].
  destruct (session_state s) eqn:Hst, is_requester; try done; intros _ Hseq; unfold protect;
    rewrite Hseq; eexists; (split; [|reflexivity]); cbn; rewrite Hst; done.
Qed.

Lemma protect_overflow {A} mode is_requester s buf (c : SpdmSession → _ → SpdmM bytes A) :
  session_active s = true →
  incr_u64 mode (sequence_number (direction is_requester s)) = None →
  (protect_direction mode is_requester c (s, buf)).1 = Panic.
Proof.
  unfold session_active, direction, direction, protect_direction. cbn [fst].
  destruct (session_state s) eqn:Hst, is_requester; try done; intros _ Hseq; unfold protect;
    rewrite Hseq; by destruct (c _ _ _) as [[] ?].
Qed.

Lemma encode_secured_step mode is_requester app s buf :
  session_active s = true → 0 ≤ sequence_number (direction is_requester s) < 2 ^ 64 - 1 →
  ∃ s', advanced is_requester s s' ∧
    encode_spdm_secured_message mode app is_requester (s, buf) =
    match encode_msg mode s app (direction is_requester s) buf with
    | (Panic, buf') => (Panic, (s, buf'))
    | (r, buf') => (r, (s', buf'))
    end.
Proof.
  intros Hact Hseq. rewrite encode_protect by done.
  exact (protect_moved mode is_requester _ s buf (λ s sp, encode_msg mode s app sp)
    Hact (incr_u64_ok mode _ Hseq)).
Qed.

Lemma decode_secured_step mode is_requester secured s buf :
  session_active s = true → 0 ≤ sequence_number (direction is_requester s) < 2 ^ 64 - 1 →
  ∃ s', advanced is_requester s s' ∧
    decode_spdm_secured_message mode secured is_requester (s, buf) =
    match decode_msg mode s secured (direction is_requester s) buf with
    | (Panic, buf') => (Panic, (s, buf'))
    | (r, buf') => (r, (s', buf'))
    end.
Proof.
  intros Hact Hseq. rewrite decode_protect by done.
  exact (protect_moved mode is_requester _ s buf (λ s sp, decode_msg mode s secured sp)
    Hact (incr_u64_ok mode _ Hseq)).
Qed.

Lemma in_step_advanced is_requester s1 s1' s2 s2' :
  in_step is_requester s1 s2 → advanced is_requester s1 s1' → advanced is_requester s2 s2' →
  in_step is_requester s1' s2'.
Proof.
  intros [? ? ? ? Hk] (?&?&?&?&Hd1) (?&?&?&?&Hd2). split; try congruence.
  by rewrite Hd1, Hd2, Hk.
Qed.

(** ** Streams of messages *)

(** One message from a sender to a receiver, each with fresh buffers of the library's
    sizes. *)
Definition deliver (mode : overflow_mode) (is_requester : bool) (app : bytes)
    (st : SpdmSession * SpdmSession) : option (bytes * (SpdmSession * SpdmSession)) :=
  match encode_spdm_secured_message mode app is_requester
          (st.1, replicate SENDER_BUFFER_SIZE 0) with
  | (Ok n, (s, secured)) =>
      match decode_spdm_secured_message mode (take n secured) is_requester
              (st.2, replicate RECEIVER_BUFFER_SIZE 0) with
      | (Ok k, (s', out)) => Some (take k out, (s, s'))
      | _ => None
      end
  | _ => None
  end.

Fixpoint deliver_all (mode : overflow_mode) (is_requester : bool) (apps : list bytes)
    (st : SpdmSession * SpdmSession) : option (list bytes * (SpdmSession * SpdmSession)) :=
  match apps with
  | [] => Some ([], st)
  | app :: apps =>
      match deliver mode is_requester app st with
      | Some (m, st') =>
          match deliver_all mode is_requester apps st' with
          | Some (ms, st'') => Some (m :: ms, st'')
          | None => None
          end
      | None => None
      end
  end.

(** The cipher accepts every message under the keys [sp], at any sequence number. *)
Definition aead_total (alg : Z) (sp : SpdmSessionSecretParam) : Prop :=
  ∀ seq aad pt slice, length slice = length pt →
    ∃ r, (aead_encrypt alg (encryption_key sp) (nonce (sp <| sequence_number := seq |>))
            aad pt (replicate 16 0) slice).1 = Ok r.

Definition fits (s : SpdmSession) (app : bytes) : Prop :=
  (6 + sequence_number_count (transport_param s) + length app + 18 ≤ SENDER_BUFFER_SIZE)%nat
  ∧ (length app + 2 ≤ RECEIVER_BUFFER_SIZE)%nat ∧ Z.of_nat (length app + 18) < 65536.

#[global] Instance fits_dec s app : Decision (fits s app).
Proof. unfold fits. apply _. Defined.

(** The part of [can_protect] that does not change with the messages. *)
Definition protectable (s : SpdmSession) : Prop :=
  session_active s = true ∧
  SpdmAeadAlgo.get_tag_size (E:=SpdmStatus) (cp_aead_algo (crypto_param s)) = Ok 16%nat ∧
  is_u32 (session_id s) ∧ (sequence_number_count (transport_param s) ≤ 8)%nat.

Lemma can_protect_intro is_requester s app :
  protectable s → fits s app →
  0 ≤ sequence_number (direction is_requester s) < 2 ^ 64 - 1 →
  can_protect s (direction is_requester s) (length app).
Proof. intros (_&?&?&?) (?&?&?) ?. split; try done. lia. Qed.

Lemma protectable_advanced is_requester s s' :
  advanced is_requester s s' → protectable s → protectable s'.
Proof.
  intros (Hid&Hcp&Htp&Hst&_). unfold protectable, session_active.
  by rewrite Hid, Hcp, Htp, Hst.
Qed.

Lemma fits_advanced is_requester s s' app : advanced is_requester s s' → fits s app → fits s' app.
Proof. intros (_&_&Htp&_). unfold fits. by rewrite Htp. Qed.

Lemma deliver_ok `{!AeadLaws} mode is_requester app s s' :
  protectable s → fits s app → in_step is_requester s s' →
  0 ≤ sequence_number (direction is_requester s) < 2 ^ 64 - 1 →
  aead_total (cp_aead_algo (crypto_param s)) (direction is_requester s) →
  ∃ s1 s1', deliver mode is_requester app (s, s') = Some (app, (s1, s1')) ∧
    advanced is_requester s s1 ∧ advanced is_requester s' s1'.
Proof.
  intros Hp Hf Hin Hseq Htot. pose proof (can_protect_intro _ _ _ Hp Hf Hseq) as Hcp.
  pose proof Hf as (Hs&Hr&_). pose proof Hp as (Hact&_).
  set (buf := replicate SENDER_BUFFER_SIZE 0). set (out := replicate RECEIVER_BUFFER_SIZE 0).
  assert (length buf = SENDER_BUFFER_SIZE) as Hlb by apply length_replicate.
  assert (length out = RECEIVER_BUFFER_SIZE) as Hlo by apply length_replicate.
  destruct (encode_secured_step mode is_requester app s buf Hact Hseq) as (s1&Hadv&Henc).
  destruct (encode_msg_spec mode s app (direction is_requester s) buf Hcp) as (slice&Hsl&Hspec);
    [lia|].
  destruct (Htot (sequence_number (direction is_requester s))
    (secured_aad s (direction is_requester s) (length app)) (secured_plain app) slice)
    as [r Hok]; [by rewrite length_secured_plain|].
  destruct (aead_encrypt _ _ _ _ _ _ _) as [res [tag ct]]. simpl in Hok. subst res.
  destruct (encode_msg mode s app (direction is_requester s) buf) as [[n|e|] buf'] eqn:Hmsg;
    try done.
  destruct Hin as [Hid Hcr Htp Hst Hk].
  destruct (msg_roundtrip mode s s' app _ buf n buf' out Hcp Hid Hcr Htp) as [Hdec _];
    [lia|lia|done|].
  assert (session_active s' = true) as Hact' by (unfold session_active; by rewrite Hst).
  destruct (decode_secured_step mode is_requester (take n buf') s' out Hact') as (s1'&Hadv'&Hd);
    [by rewrite Hk|].
  exists s1, s1'. split_and!; [|done|done]. unfold deliver. cbn [fst snd]. fold buf out.
  rewrite Henc, Hd, Hk, Hdec. by rewrite take_app_length.
Qed.

Lemma deliver_all_ok `{!AeadLaws} mode is_requester apps s s' :
  protectable s → Forall (fits s) apps → in_step is_requester s s' →
  0 ≤ sequence_number (direction is_requester s) →
  sequence_number (direction is_requester s) + Z.of_nat (length apps) < 2 ^ 64 →
  aead_total (cp_aead_algo (crypto_param s)) (direction is_requester s) →
  ∃ s1 s1', deliver_all mode is_requester apps (s, s') = Some (apps, (s1, s1')) ∧
    in_step is_requester s1 s1'.
Proof.
  revert s s'. induction apps as [|app apps IH]; intros s s' Hp Hf Hin Hpos Hseq Htot.
  { by exists s, s'. }
  inversion_clear Hf as [|? ? Hfa Hf']. rename Hf' into Hf. cbn [length] in Hseq.
  destruct (deliver_ok mode is_requester app s s') as (s1&s1'&Hd&Ha&Ha'); [done..|lia|done|].
  pose proof Ha as (_&Hcp&_&_&Hdir).
  destruct (IH s1 s1') as (s2&s2'&Hall&Hin2).
  - by eapply protectable_advanced.
  - eapply Forall_impl; [|exact Hf]. intros a. by apply (fits_advanced is_requester).
  - by eapply in_step_advanced.
  - rewrite Hdir. cbn. lia.
  - rewrite Hdir. cbn. lia.
  - rewrite Hcp, Hdir. exact Htot.
  - exists s2, s2'. split; [|done]. cbn [deliver_all]. by rewrite Hd, Hall.
Qed.

(** ** Theorems *)

(** C2: What one end of a session sends, the other end receives.  Two sessions that hold the
    same keys, parameters and sequence number for a direction exchange any list of messages
    that fit the buffers: every message is protected by [encode_spdm_secured_message],
    accepted by [decode_spdm_secured_message] and delivered unchanged and in order, and the
    sessions still agree at the end.  It holds for every AEAD that satisfies [AeadLaws] and
    accepts the key, as long as the sequence number does not run out. *)
Theorem secured_stream_delivered `{!AeadLaws} mode is_requester apps s s' :
  protectable s → Forall (fits s) apps → in_step is_requester s s' →
  0 ≤ sequence_number (direction is_requester s) →
  sequence_number (direction is_requester s) + Z.of_nat (length apps) < 2 ^ 64 →
  aead_total (cp_aead_algo (crypto_param s)) (direction is_requester s) →
  ∃ s1 s1', deliver_all mode is_requester apps (s, s') = Some (apps, (s1, s1')) ∧
    in_step is_requester s1 s1'.
Proof. intros. by apply deliver_all_ok. Qed.

(** C38: At the last sequence number a sender reports [SEQUENCE_NUMBER_OVERFLOW] and
    protects nothing, but the counter is incremented all the same.  A release build wraps to
    sequence number 0 under the same key, so that the next message reuses the first nonce;
    a build with overflow checks panics instead of returning the error. *)
Theorem sequence_number_exhausted is_requester app s buf tag_size :
  session_active s = true →
  sequence_number (direction is_requester s) = 0xFFFFFFFFFFFFFFFF →
  SpdmAeadAlgo.get_tag_size (E:=SpdmStatus) (cp_aead_algo (crypto_param s)) = Ok tag_size →
  (encode_spdm_secured_message Checked app is_requester (s, buf)).1 = Panic ∧
  ∃ s', encode_spdm_secured_message Wrapping app is_requester (s, buf) =
      (Err SPDM_STATUS_SEQUENCE_NUMBER_OVERFLOW, (s', buf)) ∧
    direction is_requester s' = direction is_requester s <| sequence_number := 0 |>.
Proof.
  intros Hact Hseq Htag. rewrite !encode_protect by done. split.
  - apply protect_overflow; [done|]. by rewrite Hseq.
  - destruct (protect_moved Wrapping is_requester 0 s buf
      (λ s sp, encode_msg Wrapping s app sp) Hact) as (s'&(_&_&_&_&Hd)&Heq); [by rewrite Hseq|].
    exists s'. split; [|done]. rewrite Heq. unfold encode_msg. rewrite Htag.
    erewrite bind_step by done. rewrite Hseq. unfold add_u16, bind. by case_decide.
Qed.

End Protection.

(** ** Key update *)

Section KeyUpdate.
Context `{cfg : Config} `{sec : Secret}.

(** The secret and the keys that follow [secret] in a direction of the session [s]. *)
Definition next_direction (v : SpdmVersion) (s : SpdmSession) (secret : sized)
    : outcome unit (sized * SpdmSessionSecretParam) :=
  let hash_algo := cp_base_hash_algo (crypto_param s) in
  run (let* us := derive_update_secret v hash_algo secret in
       let* (k, iv) := derive_aead_key_iv v hash_algo (cp_aead_algo (crypto_param s)) us in
       ret (us, {| encryption_key := k; salt := iv; sequence_number := 0 |})).

Lemma next_direction_intro v s secret us k iv {S} (st st1 st2 st3 : S) :
  derive_update_secret v (cp_base_hash_algo (crypto_param s)) secret st = (Ok us, st1) →
  derive_aead_key_iv v (cp_base_hash_algo (crypto_param s)) (cp_aead_algo (crypto_param s)) us st2
    = (Ok (k, iv), st3) →
  st1 = st ∧ st3 = st2 ∧
  next_direction v s secret =
    Ok (us, {| encryption_key := k; salt := iv; sequence_number := 0 |}).
Proof.
  rewrite (stateless_derive_update_secret v _ secret S st).
  rewrite (stateless_derive_aead_key_iv v _ _ us S st2). intros [= Hu <-] [= Hk <-].
  split_and!; [done..|]. unfold next_direction, run.
  erewrite bind_step by (rewrite (stateless_derive_update_secret v _ secret), Hu; done).
  erewrite bind_step by (rewrite (stateless_derive_aead_key_iv v _ _ us), Hk; done). done.
Qed.

(** What a successful update does to a direction: new keys if it was chosen, nothing else. *)
Definition direction_updated (v : SpdmVersion) (s : SpdmSession) (chosen : bool)
    (secret secret' : sized) (sp sp' : SpdmSessionSecretParam) : Prop :=
  if chosen then next_direction v s secret = Ok (secret', sp') else secret' = secret ∧ sp' = sp.

(** The backup of a direction after the update: the old keys if it was chosen. *)
Definition direction_saved (chosen : bool) {A} (old backup backup' : A) : Prop :=
  if chosen then backup' = old else backup' = backup.

Record updated (v : SpdmVersion) (ur up : bool) (s s' : SpdmSession) : Prop := {
  upd_request : direction_updated v s ur
    (request_data_secret (application_secret s)) (request_data_secret (application_secret s'))
    (app_request_direction (application_secret s)) (app_request_direction (application_secret s'));
  upd_response : direction_updated v s up
    (response_data_secret (application_secret s)) (response_data_secret (application_secret s'))
    (app_response_direction (application_secret s)) (app_response_direction (application_secret s'));
  upd_export : export_master_secret (application_secret s') = export_master_secret (application_secret s);
  upd_backup_request :
    direction_saved ur (request_data_secret (application_secret s),
        app_request_direction (application_secret s))
      (request_data_secret (application_secret_backup s),
        app_request_direction (application_secret_backup s))
      (request_data_secret (application_secret_backup s'),
        app_request_direction (application_secret_backup s'));
  upd_backup_response :
    direction_saved up (response_data_secret (application_secret s),
        app_response_direction (application_secret s))
      (response_data_secret (application_secret_backup s),
        app_response_direction (application_secret_backup s))
      (response_data_secret (application_secret_backup s'),
        app_response_direction (application_secret_backup s'));
  upd_rest : session_id s' = session_id s ∧ session_state s' = session_state s ∧
    crypto_param s' = crypto_param s ∧ transport_param s' = transport_param s ∧
    handshake_secret s' = handshake_secret s;
}.

Lemma create_updated v ur up s s' :
  SpdmSession_create_data_secret_update v ur up s = (Ok tt, s') → updated v ur up s s'.
Proof.
  intros Hc. unfold SpdmSession_create_data_secret_update, some_or in Hc.
  destruct ur, up; minv;
    repeat match goal with
    | x : (_ * _)%type |- _ => destruct x
    | H1 : derive_update_secret _ (cp_base_hash_algo (crypto_param ?s)) _ _ = (Ok ?us, _),
      H2 : derive_aead_key_iv _ _ _ ?us _ = (Ok (_, _), _) |- _ =>
        destruct (next_direction_intro v s _ us _ _ _ _ _ _ H1 H2) as (?&?&?); clear H1 H2
    end; subst; minv; by split.
Qed.

(** A key update can be rolled back.  After [create_data_secret_update] has derived new
    keys for the chosen directions, [activate_data_secret_update] without [use_new_key]
    restores exactly the application secrets of before: the data secrets, keys, salts and
    sequence numbers of both directions. *)
Theorem key_update_rollback v ur up s s' :
  SpdmSession_create_data_secret_update v ur up s = (Ok tt, s') →
  application_secret (SpdmSession_activate_data_secret_update ur up false s') =
  application_secret s.
Proof.
  intros [Hreq Hrsp Hexp Hbreq Hbrsp _]%create_updated.
  unfold SpdmSession_activate_data_secret_update, direction_updated, direction_saved in *.
  destruct (application_secret s), (application_secret s') eqn:Ha.
  destruct ur, up; cbn in *; rewrite ?Ha; cbn; destruct_and?; simplify_eq; done.
Qed.

(** C22: Both ends of a session update their keys alike.  If the ends agree on a direction
    and on its data secret, and each derives new keys for the direction (or neither does),
    they agree on the direction afterwards: on the new key and salt, with the sequence
    number back at zero, or on the old ones. *)
Theorem key_update_in_step v ur up s1 s1' s2 s2' :
  session_state s1 = SpdmSessionEstablished →
  in_step true s1 s2 → in_step false s1 s2 →
  request_data_secret (application_secret s1) = request_data_secret (application_secret s2) →
  response_data_secret (application_secret s1) = response_data_secret (application_secret s2) →
  SpdmSession_create_data_secret_update v ur up s1 = (Ok tt, s1') →
  SpdmSession_create_data_secret_update v ur up s2 = (Ok tt, s2') →
  (in_step true s1' s2' ∧ in_step false s1' s2') ∧
  (ur = true → sequence_number (direction true s1') = 0) ∧
  (up = true → sequence_number (direction false s1') = 0).
Proof.
  intros Hst [Hid Hcr Htp Hst2 Hreq] [_ _ _ _ Hrsp] Hsr Hsp
    [Hq1 Hp1 _ _ _ (?&?&?&?&?)]%create_updated [Hq2 Hp2 _ _ _ (?&?&?&?&?)]%create_updated.
  assert (∀ secret, next_direction v s2 secret = next_direction v s1 secret) as Hnext
    by (intros; unfold next_direction; by rewrite Hcr).
  assert (∀ secret sp k, next_direction v s1 secret = Ok (k, sp) → sequence_number sp = 0) as Hzero.
  { intros secret sp k. unfold next_direction, run.
    destruct (bind _ _ tt) as [o u] eqn:Hb. cbn. intros ->. minv.
    match goal with x : (_ * _)%type |- _ => destruct x end. by minv. }
  unfold direction_updated in *.
  assert (session_state s1' = SpdmSessionEstablished) as Hs1 by congruence.
  assert (session_state s2' = SpdmSessionEstablished) as Hs2 by congruence.
  unfold direction in *. rewrite Hst2, Hst in Hreq, Hrsp. cbn in Hreq, Hrsp.
  unfold get_app_request, get_app_response in *.
  assert (app_request_direction (application_secret s2') =
    app_request_direction (application_secret s1')) as Hreq'.
  { destruct ur; rewrite ?Hnext, <- ?Hsr in Hq2; destruct_and?; congruence. }
  assert (app_response_direction (application_secret s2') =
    app_response_direction (application_secret s1')) as Hrsp'.
  { destruct up; rewrite ?Hnext, <- ?Hsp in Hp2; destruct_and?; congruence. }
  rewrite Hs1. split_and!.
  - split; try congruence. unfold direction. by rewrite Hs1, Hs2.
  - split; try congruence. unfold direction. by rewrite Hs1, Hs2.
  - intros ->. by eapply Hzero.
  - intros ->. by eapply Hzero.
Qed.

End KeyUpdate.

(** ** A concrete session *)

Section Example.
#[local] Existing Instances default_config toy_crypto toy_secret toy_aead_laws.

Definition toy_param (seq : Z) : SpdmSessionSecretParam := {|
  encryption_key := {| data_size := 32; data := replicate 32 5 |};
  salt := {| data_size := 12; data := replicate 12 9 |};
  sequence_number := seq;
|}.

(** An established session over AES-256-GCM with eight bytes of sequence number. *)
Definition toy_session (seq : Z) : SpdmSession :=
  SpdmSession_new
    <| session_id := 0xFFFEFFFE |>
    <| crypto_param ::= λ c, c <| cp_aead_algo := SpdmAeadAlgo.AES_256_GCM |>
         <| cp_base_hash_algo := SpdmBaseHashAlgo.TPM_ALG_SHA_384 |> |>
    <| transport_param := {| sequence_number_count := 8; max_random_count := 32 |} |>
    <| session_state := SpdmSessionEstablished |>
    <| application_secret ::= λ a, a <| app_request_direction := toy_param seq |>
         <| app_response_direction := toy_param seq |> |>.

Lemma toy_aead_total seq : aead_total SpdmAeadAlgo.AES_256_GCM (toy_param seq).
Proof.
  intros q aad pt slice Hl.
  eapply (ring_encrypt_total (ring:=toy_ring) (laws:=toy_ring_laws)); try done.
Qed.

Lemma toy_fits : Forall (fits (toy_session 41)) [[0x10; 0x84; 0; 0]; []; [1; 2; 3]].
Proof. apply (bool_decide_unpack _). vm_compute. exact I. Qed.

Lemma secured_stream_delivered_witness :
  ∃ s1 s1', deliver_all Checked true [[0x10; 0x84; 0; 0]; []; [1; 2; 3]]
      (toy_session 41, toy_session 41) = Some ([[0x10; 0x84; 0; 0]; []; [1; 2; 3]], (s1, s1')) ∧
    in_step true s1 s1'.
Proof.
  apply (secured_stream_delivered Checked true).
  - split_and!; [done..|unfold is_uint; cbn; lia|cbn; lia].
  - exact toy_fits.
  - by split.
  - cbn. lia.
  - cbn. lia.
  - apply (toy_aead_total 41).
Defined.

Lemma sequence_number_exhausted_witness :
  (encode_spdm_secured_message Checked [7] true (toy_session (2 ^ 64 - 1), [])).1 = Panic ∧
  ∃ s', encode_spdm_secured_message Wrapping [7] true (toy_session (2 ^ 64 - 1), []) =
      (Err SPDM_STATUS_SEQUENCE_NUMBER_OVERFLOW, (s', [])) ∧
    direction true s' = toy_param 0.
Proof. by apply (sequence_number_exhausted true [7] (toy_session (2 ^ 64 - 1)) [] 16). Defined.

(** The toy session with data secrets, and after an update of the requester's keys. *)
Definition toy_established : SpdmSession :=
  toy_session 5 <| application_secret ::= λ a, a
    <| request_data_secret := toy_sized 48 64 [1] |>
    <| response_data_secret := toy_sized 48 64 [2] |> |>.

Definition toy_updated : SpdmSession :=
  (SpdmSession_create_data_secret_update SpdmVersion12 true false toy_established).2.

Lemma toy_update_ok :
  SpdmSession_create_data_secret_update SpdmVersion12 true false toy_established =
  (Ok tt, toy_updated).
Proof. unfold toy_updated. apply outcome_state. vm_compute. reflexivity. Qed.

Lemma key_update_rollback_witness :
  application_secret (SpdmSession_activate_data_secret_update true false false toy_updated) =
  application_secret toy_established.
Proof. exact (key_update_rollback _ _ _ _ _ toy_update_ok). Defined.

Lemma in_step_refl is_requester s : in_step is_requester s s.
Proof. by split. Qed.

Lemma key_update_in_step_witness :
  (in_step true toy_updated toy_updated ∧ in_step false toy_updated toy_updated) ∧
  (true = true → sequence_number (direction true toy_updated) = 0) ∧
  (false = true → sequence_number (direction false toy_updated) = 0).
Proof.
  exact (key_update_in_step SpdmVersion12 true false toy_established toy_updated
    toy_established toy_updated eq_refl (in_step_refl true _) (in_step_refl false _)
    eq_refl eq_refl toy_update_ok toy_update_ok).
Defined.

End Example.
