(* ===== verification/MbedtlsProofs.v ===== *)
(** The callbacks over mbedtls: the laws of hashes, authentication codes and key derivation hold,
    sealing and key agreement work, and what the wrappers do not check.

    The classes of laws state the documented behaviour of the library. *)

From S2P Require Import Prelude Config Codec Status Algo Protocol Crypto SpdmRing CertOps CertTrust KeySchedule Buffers Session SessionProofs Mbedtls.

(** ** Laws of the library *)

Definition md_size (i : md_info) : nat :=
  match i with MD_SHA256 => 32 | MD_SHA384 => 48 | MD_SHA512 => 64 end.
Definition md_algo (i : md_info) : Z :=
  match i with
  | MD_SHA256 => SpdmBaseHashAlgo.TPM_ALG_SHA_256
  | MD_SHA384 => SpdmBaseHashAlgo.TPM_ALG_SHA_384
  | MD_SHA512 => SpdmBaseHashAlgo.TPM_ALG_SHA_512
  end.

(** Hash functions do not fail; a context computes the hash of what it was fed. *)
Class MbedHashLaws `{MbedTls} := {
  md_info_sha256 : mbedtls_md_info_from_type MBEDTLS_MD_SHA256 = Some MD_SHA256;
  md_info_sha384 : mbedtls_md_info_from_type MBEDTLS_MD_SHA384 = Some MD_SHA384;
  md_info_sha512 : mbedtls_md_info_from_type MBEDTLS_MD_SHA512 = Some MD_SHA512;
  md_get_size i : mbedtls_md_get_size i = md_size i;
  mbed_digest : md_info → bytes → bytes;
  mbed_digest_length i bs : length (mbed_digest i bs) = md_size i;
  mbed_digest_u8 i bs : Forall is_u8 (mbed_digest i bs);
  sha256_digest bs : mbedtls_sha256 bs 0 = Some (mbed_digest MD_SHA256 bs);
  sha384_digest bs : mbedtls_sha512 bs 1 = Some (mbed_digest MD_SHA384 bs);
  sha512_digest bs : mbedtls_sha512 bs 0 = Some (mbed_digest MD_SHA512 bs);
  md_data : md_context → bytes;
  md_setup_info i c : mbedtls_md_setup i = Some c → md_context_info c = i;
  md_starts_data c c' :
    mbedtls_md_starts c = Some c' → md_context_info c' = md_context_info c ∧ md_data c' = [];
  md_update_data c bs c' :
    mbedtls_md_update c bs = Some c' →
    md_context_info c' = md_context_info c ∧ md_data c' = md_data c ++ bs;
  md_finish_data c : mbedtls_md_finish c = Some (mbed_digest (md_context_info c) (md_data c));
  md_hmac_length i key bs d :
    mbedtls_md_hmac i key bs = Some d → length d = md_size i ∧ Forall is_u8 d;
  hkdf_expand_length i prk info n okm :
    mbedtls_hkdf_expand i prk info n = Some okm → length okm = n ∧ Forall is_u8 okm;
}.

(** Decryption inverts encryption; a failed decryption leaves zeros. *)
Class MbedAeadLaws `{MbedTls} := {
  gcm_correct key iv aad pt n ct tag :
    mbedtls_gcm_crypt_and_tag key iv aad pt n = (true, (ct, tag)) →
    length ct = length pt ∧ length tag = n ∧
    mbedtls_gcm_auth_decrypt key iv aad tag ct = (true, pt);
  gcm_failed key iv aad tag ct out :
    mbedtls_gcm_auth_decrypt key iv aad tag ct = (false, out) → out = zeros (length ct);
  chachapoly_setkey_ok key : length key = 32%nat → mbedtls_chachapoly_setkey key = true;
  chachapoly_correct key iv aad pt :
    length key = 32%nat → length iv = 12%nat →
    ∃ ct tag, mbedtls_chachapoly_encrypt_and_tag key iv aad pt = (true, (ct, tag)) ∧
      length ct = length pt ∧ length tag = 16%nat ∧
      mbedtls_chachapoly_auth_decrypt key iv aad tag ct = (true, pt);
  chachapoly_failed key iv aad tag ct out :
    mbedtls_chachapoly_auth_decrypt key iv aad tag ct = (false, out) → out = zeros (length ct);
}.

Definition coordinates_size (g : mbedtls_ecp_group_id) : nat :=
  match g with MBEDTLS_ECP_DP_SECP256R1 => 64 | MBEDTLS_ECP_DP_SECP384R1 => 96 end.

(** Points are written uncompressed, with the byte 4 in front, and read back; key agreement is
    symmetric; the shared key is a coordinate. *)
Class MbedEcdhLaws `{MbedTls} := {
  (* the private and the public key are a pair *)
  ecp_pair : ecp_group → Z → ecp_point → Prop;
  group_loaded g w grp w' v grp' v' :
    mbedtls_ecp_group_load g w = (Ok grp, w') → mbedtls_ecp_group_load g v = (Ok grp', v') → grp' = grp;
  mpi_written x n w bs w' v bs' v' :
    mbedtls_mpi_write_binary x n w = (Ok bs, w') → mbedtls_mpi_write_binary x n v = (Ok bs', v') →
    bs' = bs;
  mpi_read x n w bs w' v y v' :
    mbedtls_mpi_write_binary x n w = (Ok bs, w') → mbedtls_mpi_read_binary bs v = (Ok y, v') → y = x;
  (* the uncompressed format: 4 and the two coordinates *)
  ecp_point_written g w grp w' p n v bs v' :
    mbedtls_ecp_group_load g w = (Ok grp, w') →
    mbedtls_ecp_point_write_binary grp p n v = (Ok bs, v') →
    ∃ xy, bs = 0x04 :: xy ∧ length xy = coordinates_size g;
  ecp_point_read grp p n w bs w' v q v' :
    mbedtls_ecp_point_write_binary grp p n w = (Ok bs, w') →
    mbedtls_ecp_point_read_binary grp bs v = (Ok q, v') → q = p;
  ecdh_gen_pair rng grp w pri pub w' :
    mbedtls_ecdh_gen_public rng grp w = (Ok (pri, pub), w') → ecp_pair grp pri pub;
  (* the secret of two pairs is the same from both sides *)
  ecdh_shared rng grp pri1 pub1 pri2 pub2 w z w' v z' v' :
    ecp_pair grp pri1 pub1 → ecp_pair grp pri2 pub2 →
    mbedtls_ecdh_compute_shared rng grp pub2 pri1 w = (Ok z, w') →
    mbedtls_ecdh_compute_shared rng grp pub1 pri2 v = (Ok z', v') → z' = z;
}.

(** ** Hashes *)

Section Laws.
Context `{mbed : MbedTls} {laws : MbedHashLaws}.
#[local] Abbreviation mc := mbedtls_crypto.

Lemma md_size_max i : (md_size i ≤ SPDM_MAX_HASH_SIZE)%nat.
Proof. destruct i; simpl; lia. Qed.
Lemma md_algo_size i : SpdmBaseHashAlgo.get_size (E:=unit) (md_algo i) = Ok (md_size i).
Proof. by destruct i. Qed.
(** The algorithms that are supported. *)
Lemma md_type_of_cases alg :
  (∃ i t, alg = md_algo i ∧ md_type_of alg = Some t ∧ mbedtls_md_info_from_type t = Some i) ∨
  md_type_of alg = None.
Proof.
  unfold md_type_of.
  repeat match goal with |- context [?a =? ?b] => destruct (Z.eqb_spec a b) as [->|] end; [left..|by right].
  - exists MD_SHA256, MBEDTLS_MD_SHA256. split_and!; [done..|apply md_info_sha256].
  - exists MD_SHA384, MBEDTLS_MD_SHA384. split_and!; [done..|apply md_info_sha384].
  - exists MD_SHA512, MBEDTLS_MD_SHA512. split_and!; [done..|apply md_info_sha512].
Qed.

Lemma write_ptr_ok {S E} bs n (s : S) :
  (length bs ≤ n)%nat → write_ptr (E:=E) bs (zeros n) s = (Ok (bs ++ zeros (n - length bs)), s).
Proof.
  intros H. unfold write_ptr, zeros. rewrite decide_True by (by rewrite length_replicate).
  unfold splice. by rewrite take_0, drop_replicate.
Qed.
Lemma written_wf bs n : Forall is_u8 bs → (length bs ≤ n)%nat → Z.of_nat n ≤ 0xFFFF →
  sized_wf n {| data_size := length bs; data := bs ++ zeros (n - length bs) |}.
Proof.
  intros Hu Hl Hn. split_and!; cbn [data_size data].
  - rewrite length_app. unfold zeros. rewrite length_replicate. lia.
  - apply Forall_app_2; [done|]. by apply Forall_replicate.
  - done.
  - by rewrite drop_app_length.
Qed.

Definition digest_struct (d : bytes) : SpdmDigestStruct :=
  {| data_size := length d; data := d ++ zeros (SPDM_MAX_HASH_SIZE - length d) |}.

Lemma digest_struct_wf i d :
  length d = md_size i → Forall is_u8 d →
  sized_wf SPDM_MAX_HASH_SIZE (digest_struct d) ∧
  SpdmBaseHashAlgo.get_size (E:=unit) (md_algo i) = Ok (data_size (digest_struct d)).
Proof.
  intros Hl Hu. pose proof (md_size_max i). split; [apply written_wf; [done|lia..]|].
  cbn [digest_struct data_size]. rewrite Hl. apply md_algo_size.
Qed.
Lemma hash_all_spec i bs : mbed_hash_all (md_algo i) bs = Ok (digest_struct (mbed_digest i bs)).
Proof.
  unfold mbed_hash_all, run. pose proof (md_size_max i). pose proof (mbed_digest_length i bs) as Hl.
  destruct i; cbn [md_algo]; rewrite ?sha256_digest, ?sha384_digest, ?sha512_digest;
    repeat match goal with |- context [Z.eqb ?a ?b] => change (Z.eqb a b) with false || change (Z.eqb a b) with true end;
    unfold bind, ok_or, ret; cbv beta iota; (rewrite write_ptr_ok by (rewrite Hl; done));
    unfold digest_struct; by rewrite Hl.
Qed.
Lemma hash_all_unsupported alg bs : md_type_of alg = None → mbed_hash_all alg bs = Err tt.
Proof. unfold mbed_hash_all, md_type_of. intros H. repeat case_match; done. Qed.

#[global] Instance mbed_hash_laws : @HashLaws mc.
Proof.
  refine {| hctx_data := λ c : @SpdmHashCtx mc, (md_algo (md_context_info c), md_data c) |}.
  - intros alg bs d. cbn. destruct (md_type_of_cases alg) as [(i&t&->&_&_)|Hn].
    + rewrite hash_all_spec. intros [= <-]. apply digest_struct_wf; [apply mbed_digest_length|apply mbed_digest_u8].
    + by rewrite hash_all_unsupported.
  - intros alg ctx. cbn. unfold mbed_hash_ctx_init, md_context_setup.
    destruct (md_type_of_cases alg) as [(i&t&->&->&Hi)| ->]; [|done]. rewrite Hi. cbn.
    destruct (mbedtls_md_setup i) as [c|] eqn:Hc; [|done]. cbn.
    destruct (mbedtls_md_starts c) as [c'|] eqn:Hs; [|done]. intros [= <-].
    apply md_setup_info in Hc. apply md_starts_data in Hs as [-> ->]. by rewrite Hc.
  - intros ctx bs ctx'. cbn. unfold mbed_hash_ctx_update.
    destruct (mbedtls_md_update ctx bs) as [c|] eqn:Hc; [|done]. intros [= <-].
    by apply md_update_data in Hc as [-> ->].
  - intros ctx. cbn. rewrite hash_all_spec. unfold mbed_hash_ctx_finalize, md_context_finish, run.
    pose proof (md_size_max (md_context_info ctx)).
    rewrite md_get_size, md_finish_data. cbn [zeros]. unfold zeros at 1. rewrite length_replicate.
    rewrite (proj2 (Nat.ltb_ge _ _)) by done. unfold bind, ok_or, ret. cbv beta iota.
    rewrite write_ptr_ok by (by rewrite mbed_digest_length). cbv beta iota.
    rewrite (proj2 (Z.ltb_ge _ _)) by lia. unfold digest_struct. by rewrite mbed_digest_length.
Qed.

(** ** Authentication codes and key derivation *)

Lemma hmac_spec alg key bs d :
  mbed_hmac alg key bs = Ok d →
  ∃ i h, alg = md_algo i ∧ mbedtls_md_hmac i key bs = Some h ∧ d = digest_struct h.
Proof.
  unfold mbed_hmac, md_info_or_panic, run.
  destruct (md_type_of_cases alg) as [(i&t&->&->&Hi)| ->]; [|done].
  unfold bind, unwrap, ok_or, ret. cbv beta iota. rewrite Hi.
  destruct (mbedtls_md_hmac i key bs) as [h|] eqn:Hh; [|done].
  pose proof (md_hmac_length _ _ _ _ Hh) as [Hl _]. pose proof (md_size_max i).
  rewrite write_ptr_ok by lia. rewrite md_get_size. intros [= <-].
  exists i, h. split_and!; [done..|]. unfold digest_struct. by rewrite Hl.
Qed.

#[global] Instance mbed_hmac_laws : @HmacLaws mc.
Proof.
  assert (∀ alg key bs d, mbed_hmac alg key bs = Ok d →
    sized_wf SPDM_MAX_HASH_SIZE d ∧ SpdmBaseHashAlgo.get_size (E:=unit) alg = Ok (data_size d)) as Hsz.
  { intros alg key bs d (i&h&->&Hh&->)%hmac_spec. apply md_hmac_length in Hh as [? ?]. by apply digest_struct_wf. }
  split; [exact Hsz|]. intros alg key bs d Hd. cbn. unfold mbed_hmac_verify, run, some_or, map_err, of_outcome, bind.
  destruct (mbed_hmac alg key bs) as [d'| |] eqn:Hh; [|split; [done|by intros (?&?&_)]..].
  destruct (Hsz _ _ _ _ Hh) as [Hd' _]. rewrite (sized_as_ref_ok _ _ _ Hd'), (sized_as_ref_ok _ _ _ Hd).
  case_decide as Heq; (split; [|intros (d2&[= <-]&?); done]); [|done]. by exists d'.
Qed.

#[global] Instance mbed_hkdf_laws : @HkdfLaws mc.
Proof.
  split.
  - intros alg salt ikm prk. cbn. unfold mbed_hkdf_extract, md_info_or_panic, run.
    destruct (md_type_of_cases alg) as [(i&t&->&->&Hi)| ->]; [|done].
    unfold bind, unwrap, ok_or, ret. cbv beta iota. rewrite Hi.
    unfold sized_as_ref. case_decide; [|done]. cbn [ret].
    destruct (mbedtls_md_hmac i salt _) as [h|] eqn:Hh; [|done].
    apply md_hmac_length in Hh as [Hl Hu]. pose proof (md_size_max i).
    unfold ret. rewrite write_ptr_ok by lia. rewrite md_get_size. intros [= <-].
    rewrite <- Hl. by apply digest_struct_wf.
  - intros alg prk info n okm. cbn. unfold mbed_hkdf_expand, run.
    destruct (md_type_of_cases alg) as [(i&t&->&->&Hi)| ->]; [|done].
    unfold bind, ok_or, ret. cbv beta iota. rewrite Hi.
    unfold sized_as_ref. case_decide; [|done]. unfold ret.
    destruct (mbedtls_hkdf_expand i _ info n) as [k|] eqn:Hk; [|done].
    apply hkdf_expand_length in Hk as [Hl Hu].
    destruct (decide (length k ≤ 64)%nat) as [Hle|Hgt].
    + rewrite write_ptr_ok by done. intros [= <-]. rewrite <- Hl. split; [|done].
      by apply written_wf.
    + unfold write_ptr. rewrite decide_False by (unfold zeros; by rewrite length_replicate). done.
Qed.
End Laws.

(** ** Authenticated encryption *)

Section Aead.
Context `{mbed : MbedTls} {laws : MbedAeadLaws}.
#[local] Existing Instance mbedtls_crypto.

(** Sizes for which the wrappers call the library: the cipher text is as long as the plain text. *)
Lemma sizes_swap key iv aad pt tag ct (tag' ct' buf : bytes) :
  length tag' = length tag → length ct' = length pt → length ct = length pt → length buf = length ct' →
  gcm_sizes key iv aad pt tag ct = gcm_sizes key iv aad ct' tag' buf ∧
  chachapoly_sizes key iv aad pt tag ct = chachapoly_sizes key iv aad ct' tag' buf.
Proof.
  intros Ht Hc Hp Hb. unfold gcm_sizes, chachapoly_sizes, out_fits, exceeds.
  by rewrite Ht, Hb, Hc, Hp.
Qed.

Lemma splice_whole {A} (bs l : list A) : length bs = length l → splice 0 bs l = bs.
Proof. intros H. unfold splice. rewrite take_0, drop_ge by lia. by rewrite app_nil_r. Qed.

Lemma as_ref_cases v :
  (∀ S E (s : S), sized_as_ref (E:=E) v s = (Ok (sized_bytes v), s)) ∨
  (∀ S E (s : S), sized_as_ref (E:=E) v s = (Panic, s)).
Proof. unfold sized_as_ref. case_decide; [left|right]; done. Qed.

(** What a successful encryption leaves is decrypted. *)
Lemma gcm_opens key iv aad pt tag ct len tag' ct' buf :
  spdm_aead_aes_gcm_encrypt key iv aad pt tag ct = (true, len, (tag', ct')) →
  length ct = length pt → length buf = length ct' →
  spdm_aead_aes_gcm_decrypt key iv aad ct' tag' buf = (true, length pt, pt).
Proof.
  intros He Hct Hbuf. unfold spdm_aead_aes_gcm_encrypt in He.
  destruct (gcm_sizes key iv aad pt tag ct) eqn:Hs; [|done]. cbn [negb] in He.
  destruct (mbedtls_gcm_setkey key) eqn:Hk; [|done]. cbn [negb] in He.
  destruct (mbedtls_gcm_crypt_and_tag _ _ _ _ _) as [ok [c t]] eqn:Hc.
  destruct ok; [|done]. apply gcm_correct in Hc as (Hlc&Hlt&Hd). injection He as <- <- <-.
  rewrite (splice_whole c) in Hbuf |- * by congruence. rewrite (splice_whole t) by congruence.
  destruct (sizes_swap key iv aad pt tag ct t c buf) as [Hz _]; [congruence..|].
  unfold spdm_aead_aes_gcm_decrypt. rewrite <- Hz, Hs, Hk, Hd. cbn [negb].
  by rewrite splice_whole, Hlc by congruence.
Qed.
Lemma chachapoly_opens key iv aad pt tag ct buf :
  chachapoly_sizes key iv aad pt tag ct = true → length ct = length pt → length buf = length pt →
  ∃ tag' ct', spdm_aead_chacha20_poly1305_encrypt key iv aad pt tag ct = (true, length pt, (tag', ct')) ∧
    length ct' = length pt ∧
    spdm_aead_chacha20_poly1305_decrypt key iv aad ct' tag' buf = (true, length pt, pt).
Proof.
  intros Hs Hct Hbuf. assert (length iv = 12%nat ∧ length key = 32%nat ∧ length tag = 16%nat) as (Hi&Hk&Ht).
  { unfold chachapoly_sizes in Hs. rewrite !andb_true_iff, !Nat.eqb_eq in Hs. tauto. }
  destruct (chachapoly_correct key iv aad pt Hk Hi) as (c&t&Hc&Hlc&Hlt&Hd).
  destruct (sizes_swap key iv aad pt tag ct t c buf) as [_ Hz]; [congruence..|].
  exists t, c. unfold spdm_aead_chacha20_poly1305_encrypt, spdm_aead_chacha20_poly1305_decrypt.
  rewrite <- Hz, Hs, (chachapoly_setkey_ok _ Hk), Hc, Hd. cbn [negb].
  rewrite !splice_whole by congruence. by rewrite Hlc.
Qed.

(** The sizes that the ChaCha20-Poly1305 wrapper demands; the AES-GCM wrapper fails on others. *)
Definition supported (aead_algo : Z) (key iv : sized) (aad pt tag ct : bytes) : Prop :=
  is_gcm aead_algo = true ∨
  chachapoly_sizes (sized_bytes key) (sized_bytes iv) aad pt tag ct = true.

(** With mbedtls, too, opening inverts sealing: what encryption with AES-GCM produces when it
    returns, or encryption with ChaCha20-Poly1305 on keys, nonces and tags of the right sizes,
    is decrypted, with the same key, nonce and associated data, to the plain text. *)
Theorem mbedtls_aead_roundtrip aead_algo key iv aad pt tag ct n tag' ct' buf :
  aead_encrypt aead_algo key iv aad pt tag ct = (Ok n, (tag', ct')) →
  supported aead_algo key iv aad pt tag ct →
  length ct = length pt → length buf = length ct' →
  aead_decrypt aead_algo key iv aad ct' tag' buf = (Ok (length pt), pt).
Proof.
  change (mbed_encrypt aead_algo key iv aad pt (tag, ct) = (Ok n, (tag', ct')) → supported aead_algo key iv aad pt tag ct →
    length ct = length pt → length buf = length ct' → mbed_decrypt aead_algo key iv aad ct' tag' buf = (Ok (length pt), pt)).
  intros He Hs Hct Hbuf. unfold mbed_encrypt in He. unfold mbed_decrypt.
  erewrite bind_step in He by reflexivity. erewrite bind_step by reflexivity.
  destruct (is_gcm aead_algo) eqn:Hg; [|destruct (aead_algo =? _); [|done]].
  all: destruct (as_ref_cases key) as [Hk|Hk]; [|unfold bind in He; by rewrite Hk in He].
  all: rewrite (bind_step _ _ _ _ _ (Hk _ _ _)) in He; rewrite (bind_step _ _ _ _ _ (Hk _ _ _)).
  all: destruct (as_ref_cases iv) as [Hiv|Hiv]; [|unfold bind in He; by rewrite Hiv in He].
  all: rewrite (bind_step _ _ _ _ _ (Hiv _ _ _)) in He; rewrite (bind_step _ _ _ _ _ (Hiv _ _ _)).
  all: cbn [fst snd] in He.
  - destruct (spdm_aead_aes_gcm_encrypt _ _ _ _ _ _) as [[res len] st] eqn:Hc.
    destruct res; [|done]. injection He as <- ->.
    by rewrite (gcm_opens _ _ _ _ _ _ _ _ _ _ Hc Hct Hbuf).
  - destruct Hs as [Hs|Hs]; [by rewrite Hg in Hs|].
    destruct (chachapoly_opens _ _ _ _ _ _ (zeros (length pt)) Hs Hct) as (t&c&Hc&Hlc&_);
      [unfold zeros; by rewrite length_replicate|].
    rewrite Hc in He. injection He as <- <- <-.
    destruct (chachapoly_opens _ _ _ _ _ _ buf Hs Hct) as (t'&c'&Hc'&_&Hd); [congruence|].
    rewrite Hc in Hc'. injection Hc' as <- <-. by rewrite Hd.
Qed.
End Aead.

(** ** What is not checked *)

Section Forgery.
Context `{cfg : Config} `{mbed : MbedTls} {laws : MbedAeadLaws}.
#[local] Existing Instance mbedtls_crypto.
Context {sec : Secret}.

(** The library does not accept the tag. *)
Definition unauthentic (aead_algo : Z) (key iv : sized) (aad ct tag : bytes) : Prop :=
  if is_gcm aead_algo
  then (mbedtls_gcm_auth_decrypt (sized_bytes key) (sized_bytes iv) aad tag ct).1 = false
  else (mbedtls_chachapoly_auth_decrypt (sized_bytes key) (sized_bytes iv) aad tag ct).1 = false.

Lemma gcm_rejected key iv aad ct tag n :
  (mbedtls_gcm_auth_decrypt key iv aad tag ct).1 = false → length ct = n →
  (spdm_aead_aes_gcm_decrypt key iv aad ct tag (zeros n)).1.2 = n ∧
  (spdm_aead_aes_gcm_decrypt key iv aad ct tag (zeros n)).2 = zeros n.
Proof.
  intros Hf Hn. assert (length (zeros n) = n) as Hz by (unfold zeros; apply length_replicate).
  unfold spdm_aead_aes_gcm_decrypt. destruct (negb (gcm_sizes _ _ _ _ _ _)); [by cbn; rewrite Hz|].
  destruct (negb (mbedtls_gcm_setkey key)); [by cbn; rewrite Hz|].
  destruct (mbedtls_gcm_auth_decrypt _ _ _ _ _) as [ok out] eqn:Hd. cbn in Hf. subst ok.
  apply gcm_failed in Hd as ->. cbn. rewrite Hz, Hn. split; [done|]. by apply splice_whole.
Qed.
Lemma chachapoly_rejected key iv aad ct tag n :
  (mbedtls_chachapoly_auth_decrypt key iv aad tag ct).1 = false → length ct = n →
  (spdm_aead_chacha20_poly1305_decrypt key iv aad ct tag (zeros n)).1.2 = n ∧
  (spdm_aead_chacha20_poly1305_decrypt key iv aad ct tag (zeros n)).2 = zeros n.
Proof.
  intros Hf Hn. assert (length (zeros n) = n) as Hz by (unfold zeros; apply length_replicate).
  unfold spdm_aead_chacha20_poly1305_decrypt.
  destruct (negb (chachapoly_sizes _ _ _ _ _ _)); [by cbn; rewrite Hz|].
  destruct (negb (mbedtls_chachapoly_setkey key)); [by cbn; rewrite Hz|].
  destruct (mbedtls_chachapoly_auth_decrypt _ _ _ _ _) as [ok out] eqn:Hd. cbn in Hf. subst ok.
  apply chachapoly_failed in Hd as ->. cbn. rewrite Hz, Hn. split; [done|]. by apply splice_whole.
Qed.

(** A cipher text whose tag is wrong is reported as decrypted. *)
Lemma rejected_accepted aead_algo key iv aad ct tag :
  SpdmAeadAlgo.get_tag_size (E:=SpdmStatus) aead_algo = Ok 16%nat →
  sized_wf SPDM_MAX_AEAD_KEY_SIZE key → sized_wf SPDM_MAX_AEAD_IV_SIZE iv →
  unauthentic aead_algo key iv aad ct tag →
  aead_decrypt aead_algo key iv aad ct tag (zeros (length ct)) = (Ok (length ct), zeros (length ct)).
Proof.
  intros Halg Hk Hiv Hu.
  change (mbed_decrypt aead_algo key iv aad ct tag (zeros (length ct)) = (Ok (length ct), zeros (length ct))).
  unfold mbed_decrypt. erewrite bind_step by reflexivity. unfold unauthentic in Hu.
  destruct (is_gcm aead_algo) eqn:Hg.
  2: destruct (aead_algo =? SpdmAeadAlgo.CHACHA20_POLY1305) eqn:Hc.
  3: { unfold is_gcm in Hg. unfold SpdmAeadAlgo.get_tag_size in Halg. apply orb_false_iff in Hg as [H1 H2].
       rewrite H1, H2, Hc in Halg. done. }
  all: erewrite bind_step by (by eapply sized_as_ref_ok); erewrite bind_step by (by eapply sized_as_ref_ok).
  - destruct (gcm_rejected _ _ _ _ _ (length ct) Hu eq_refl) as [Hn Ho].
    destruct (spdm_aead_aes_gcm_decrypt _ _ _ _ _ _) as [[ok n] out]. cbn in Hn, Ho. by subst.
  - destruct (chachapoly_rejected _ _ _ _ _ (length ct) Hu eq_refl) as [Hn Ho].
    destruct (spdm_aead_chacha20_poly1305_decrypt _ _ _ _ _ _) as [[ok n] out]. cbn in Hn, Ho. by subst.
Qed.

(** C27: With mbedtls the protection of sessions does not detect forgeries: a packet with the
    identifier and the sequence number of a session, two arbitrary bytes and a tag that does not
    verify is accepted as an empty message, and the sequence number advances. *)
Theorem mbedtls_forgery_accepted mode is_requester s ct tag rest out :
  let sp := direction is_requester s in
  session_active s = true → can_protect s sp 0 →
  sized_wf SPDM_MAX_AEAD_KEY_SIZE (encryption_key sp) → sized_wf SPDM_MAX_AEAD_IV_SIZE (nonce sp) →
  length ct = 2%nat → length tag = 16%nat →
  unauthentic (cp_aead_algo (crypto_param s)) (encryption_key sp) (nonce sp) (secured_aad s sp 0) ct tag →
  ∃ s', decode_spdm_secured_message mode (secured_aad s sp 0 ++ ct ++ tag ++ rest) is_requester (s, out) =
    (Ok 0%nat, (s', out)) ∧ advanced is_requester s s'.
Proof.
  intros sp Hact Hp Hk Hiv Hct Htag Hu.
  destruct (decode_secured_step mode is_requester (secured_aad s sp 0 ++ ct ++ tag ++ rest) s out Hact (cp_seq _ _ _ Hp))
    as (s'&Hadv&Hdec).
  exists s'. split; [|done]. rewrite Hdec. fold sp.
  pose proof (rejected_accepted _ _ _ _ _ _ (cp_tag _ _ _ Hp) Hk Hiv Hu) as Hd. rewrite Hct in Hd.
  pose proof (decode_msg_spec mode s [] sp ct tag rest out Hp Hct Htag (Nat.le_0_l _) Hd) as Hmsg.
  cbn [length] in Hmsg. by rewrite Hmsg.
Qed.
End Forgery.

(** *** Certificates *)

(** Parsing looks at the first certificate only, and the header of a sequence says how long it is.
    A certificate that verifies with itself as the trusted one does so whatever follows it. *)
Class MbedX509Laws `{MbedTls} := {
  crt_parse_local cert crt rest :
    mbedtls_x509_crt_parse_der cert = Some crt → mbedtls_x509_crt_parse_der (cert ++ rest) = Some crt;
  asn1_tag_local cert tag rest :
    mbedtls_asn1_get_tag cert = Some tag → mbedtls_asn1_get_tag (cert ++ rest) = Some tag;
  asn1_tag_value hi lo body tag :
    mbedtls_asn1_get_tag ([0x30; 0x82; hi; lo] ++ body) = Some tag →
    tag = (4, Z.to_nat (Z.shiftl hi 8) + Z.to_nat lo)%nat;
  crt_verify_trusted ca rest :
    mbedtls_x509_crt_verify [ca] (Some ca) = true →
    mbedtls_x509_crt_verify (ca :: rest) (Some ca) = true;
  crt_verify_none : mbedtls_x509_crt_verify [] None = false;
}.

Section Chains.
Context `{mbed : MbedTls} {laws : MbedX509Laws}.
#[local] Existing Instance mbedtls_crypto.

(** The certificates that are parsed begin with the trusted one. *)
Lemma parse_certs_first n chain ca tag :
  mbedtls_x509_crt_parse_der chain = Some ca → mbedtls_asn1_get_tag chain = Some tag → chain ≠ [] →
  parse_certs (S n) chain = ca :: parse_certs n (drop (tag.1 + tag.2) chain).
Proof. intros Hca Htag Hne. destruct chain, tag; [done..|]. cbn [parse_certs]. by rewrite Hca, Htag. Qed.
Lemma parse_certs_nil n : parse_certs n [] = [].
Proof. by destruct n. Qed.
Lemma verify_chain_parsed chain ca tag :
  mbedtls_x509_crt_parse_der chain = Some ca → mbedtls_asn1_get_tag chain = Some tag → chain ≠ [] →
  ∃ n, spdm_verify_cert_chain chain =
    mbedtls_x509_crt_verify (ca :: parse_certs n (drop (tag.1 + tag.2) chain)) (Some ca).
Proof.
  intros Hca Htag Hne. unfold spdm_verify_cert_chain. rewrite Hca, Htag.
  destruct (length chain) as [|n] eqn:Hl; [by destruct chain|]. exists n.
  by rewrite (parse_certs_first _ _ _ _ Hca Htag Hne).
Qed.
Lemma der_cert_tag cert tag :
  der_cert cert → mbedtls_asn1_get_tag cert = Some tag → drop (tag.1 + tag.2) cert = [].
Proof.
  intros (hi&lo&body&->&Hb) ->%asn1_tag_value. apply drop_ge. cbn [fst snd]. rewrite length_app. cbn. lia.
Qed.
Lemma leaf_cert_last {S} certs leaf (s : S) :
  Forall der_cert certs → der_cert leaf → leaf_cert (concat certs ++ leaf) s = (Ok leaf, s).
Proof.
  intros Hcs Hl. unfold leaf_cert, mbed_get_cert_from_cert_chain. rewrite leaf_found by done.
  erewrite bind_step by done. cbv beta iota. rewrite sub_slice_ok by (rewrite ?length_app; lia).
  rewrite drop_app_length, take_ge by lia. done.
Qed.

(** The chain matters through its last certificate only. *)
Lemma mbed_asym_verify_leaf h a chain chain' message signature :
  (∀ u : unit, leaf_cert chain u = leaf_cert chain' u) →
  mbed_asym_verify h a chain message signature = mbed_asym_verify h a chain' message signature.
Proof.
  intros H. unfold mbed_asym_verify, run, bind.
  repeat match goal with
  | |- context [match ?x with _ => _ end] =>
      lazymatch x with context [match _ with _ => _ end] => fail | context [leaf_cert] => fail
      | _ => destruct x end; try done
  end.
  all: by rewrite H.
Qed.

(** C28: With mbedtls the certificates behind the root are not verified.  Whatever is appended to a
    root certificate that verifies, the chain verifies, and signatures are checked with the last
    certificate that was appended. *)
Theorem mbedtls_leaf_unverified root tag certs leaf h a message signature :
  Crypto.verify_cert_chain root = Ok tt → mbedtls_asn1_get_tag root = Some tag → der_cert root →
  Forall der_cert certs → der_cert leaf →
  let chain := root ++ concat certs ++ leaf in
  Crypto.verify_cert_chain chain = Ok tt ∧
  Crypto.asym_verify h a chain message signature = Crypto.asym_verify h a leaf message signature.
Proof.
  intros Hv Htag Hr Hcs Hl chain. pose proof (der_cert_length _ Hr) as Hlen.
  assert (root ≠ []) as Hne by (intros ->; cbn in Hlen; lia). split.
  - cbn in Hv |- *. unfold mbed_verify_cert_chain in *.
    destruct (mbedtls_x509_crt_parse_der root) as [ca|] eqn:Hca.
    + destruct (verify_chain_parsed _ _ _ Hca Htag Hne) as [n Hn].
      rewrite Hn, (der_cert_tag _ _ Hr Htag), parse_certs_nil in Hv.
      destruct (verify_chain_parsed chain ca tag) as [m ->];
        [by apply crt_parse_local|by apply asn1_tag_local|unfold chain; by destruct root|].
      rewrite crt_verify_trusted; [done|]. by destruct (mbedtls_x509_crt_verify [ca] _).
    + unfold spdm_verify_cert_chain in Hv. by rewrite Hca, crt_verify_none in Hv.
  - apply mbed_asym_verify_leaf. intros u. unfold chain.
    pose proof (leaf_cert_last (root :: certs) leaf u) as H1. cbn [concat] in H1. rewrite <- app_assoc in H1.
    rewrite H1 by first [done|by apply Forall_cons_2].
    symmetry. by apply (leaf_cert_last []); [apply Forall_nil_2|].
Qed.
End Chains.

(** ** Key agreement *)

Section Agreement.
Context `{mbed : MbedTls} {laws : MbedEcdhLaws}.
#[local] Existing Instance mbedtls_crypto.

(** A key that was generated on the group: the pair, its public key as the exchange data and its
    private key. *)
Definition public_of (g : mbedtls_ecp_group_id) (grp : ecp_group) (pub : ecp_point)
    (exchange : SpdmDheExchangeStruct) : Prop :=
  ∃ xy n w w', mbedtls_ecp_point_write_binary grp pub n w = (Ok (0x04 :: xy), w') ∧
    length xy = coordinates_size g ∧
    exchange = {| data_size := length xy; data := xy ++ zeros (SPDM_MAX_DHE_KEY_SIZE - length xy) |}.
Definition private_of (g : mbedtls_ecp_group_id) (pri : Z) (private : mbedtls_ecp_group_id * sized)
    : Prop :=
  ∃ bs n w w', mbedtls_mpi_write_binary pri n w = (Ok bs, w') ∧
    private = (g, {| data_size := length bs; data := bs ++ zeros (97 - length bs) |}).
Definition is_group (g : mbedtls_ecp_group_id) (grp : ecp_group) : Prop :=
  ∃ w w', mbedtls_ecp_group_load g w = (Ok grp, w').

Lemma coordinates_fit g : (coordinates_size g ≤ SPDM_MAX_DHE_KEY_SIZE)%nat.
Proof. destruct g; simpl; lia. Qed.

Lemma exchange_from {S E} xy (s : S) :
  (length xy ≤ SPDM_MAX_DHE_KEY_SIZE)%nat →
  SpdmDheExchangeStruct_from_mbedtls (E:=E) {| data_size := length (0x04 :: xy);
    data := (0x04 :: xy) ++ zeros (97 - length (0x04 :: xy)) |} s =
  (Ok {| data_size := length xy; data := xy ++ zeros (SPDM_MAX_DHE_KEY_SIZE - length xy) |}, s).
Proof.
  intros Hl. unfold SpdmDheExchangeStruct_from_mbedtls. cbn [data_size data].
  erewrite bind_step by done.
  rewrite (bind_step _ _ _ s (0x04 :: xy)).
  2: { unfold sized_as_ref. cbn [data_size data].
       rewrite decide_True by (rewrite length_app; lia). by rewrite take_app_length. }
  rewrite (bind_step _ _ _ s xy).
  2: { rewrite sub_slice_ok by (cbn [length]; lia). rewrite skipn_cons, drop_0, take_ge; [done|cbn [length]; lia]. }
  pose proof (slice_copy_next (E:=E) [] xy (zeros SPDM_MAX_DHE_KEY_SIZE) s) as Hc.
  cbn [app length] in Hc. unfold zeros in Hc at 1 3. rewrite length_replicate, drop_replicate in Hc.
  rewrite (bind_step _ _ _ _ _ (Hc Hl)). unfold ret. do 3 f_equal. cbn [length]. lia.
Qed.
Lemma from_exchange {S E} xy (s : S) :
  (length xy ≤ SPDM_MAX_DHE_KEY_SIZE)%nat →
  MbedTlsDheExchangeStruct_from (E:=E)
    {| data_size := length xy; data := xy ++ zeros (SPDM_MAX_DHE_KEY_SIZE - length xy) |} s =
  (Ok {| data_size := length xy + 1; data := 0x04 :: xy ++ zeros (SPDM_MAX_DHE_KEY_SIZE - length xy) |}, s).
Proof.
  intros Hl. unfold MbedTlsDheExchangeStruct_from. cbn [data_size data].
  set (v := xy ++ zeros _). assert (length v = SPDM_MAX_DHE_KEY_SIZE) as Hv.
  { unfold v, zeros. rewrite length_app, length_replicate. lia. }
  erewrite bind_step by done.
  pose proof (slice_copy_next (E:=E) [0x04] v (zeros SPDM_MAX_DHE_KEY_SIZE) s) as Hc.
  unfold zeros in Hc at 1 3. rewrite length_replicate, drop_replicate, Hv, Nat.sub_diag, app_nil_r in Hc.
  by rewrite (bind_step _ _ _ _ _ (Hc (le_n _))).
Qed.

Lemma write_ptr_inv {S E} bs n (s s' : S) buf :
  write_ptr (E:=E) bs (zeros n) s = (Ok buf, s') →
  (length bs ≤ n)%nat ∧ buf = bs ++ zeros (n - length bs) ∧ s' = s.
Proof.
  unfold write_ptr. case_decide as Hl; [|done]. unfold zeros in Hl. rewrite length_replicate in Hl.
  intros H. assert ((write_ptr (E:=E) bs (zeros n) s) = (Ok (bs ++ zeros (n - length bs)), s)) as Hw
    by (apply write_ptr_ok; unfold zeros; by rewrite ?length_replicate).
  unfold write_ptr, zeros in Hw. rewrite length_replicate, decide_True in Hw by done.
  unfold ret, zeros in *. by simplify_eq.
Qed.
Lemma generated g w exchange private w' :
  mbed_generate_key_pair_on g w = (Ok (exchange, private), w') →
  ∃ grp pri pub, is_group g grp ∧ ecp_pair grp pri pub ∧
    public_of g grp pub exchange ∧ private_of g pri private.
Proof.
  unfold mbed_generate_key_pair_on, spdm_ecdh_gen_public. rewrite bind_assoc.
  intros (grp&w1&Hg&H)%bind_ok. cbv beta in H. rewrite bind_assoc in H.
  apply bind_ok in H as ([pri pub]&w2&Hpair&H). cbv beta iota in H. rewrite bind_assoc in H.
  apply bind_ok in H as (pubkey&w3&Hpub&H). cbv beta in H. rewrite bind_assoc in H.
  apply bind_ok in H as (prikey&w4&Hpri&H). cbv beta in H. erewrite bind_step in H by done. cbv beta iota in H.
  apply bind_ok in H as (b1&w5&(Hl1&->&->)%write_ptr_inv&H).
  apply bind_ok in H as (b2&w6&(Hl2&->&->)%write_ptr_inv&H).
  destruct (ecp_point_written _ _ _ _ _ _ _ _ _ Hg Hpub) as (xy&->&Hxy). pose proof (coordinates_fit g).
  erewrite bind_step in H by (by apply exchange_from; lia). injection H as <- <- <-.
  exists grp, pri, pub. split_and!; [by eexists _, _|by eapply ecdh_gen_pair| |].
  - by eexists xy, _, _, _.
  - by eexists prikey, _, _, _.
Qed.

(** What goes into a final key that is computed. *)
Lemma final_key g grp pri private pub exchange w key w' :
  is_group g grp → private_of g pri private → public_of g grp pub exchange →
  mbed_compute_final_key private exchange w = (Ok key, w') →
  ∃ z v v' bs u u', mbedtls_ecdh_compute_shared dhe_f_rng grp pub pri v = (Ok z, v') ∧
    mbedtls_mpi_write_binary z (mbedtls_mpi_size z) u = (Ok bs, u') ∧
    key = {| data_size := length bs; data := bs ++ zeros (SPDM_MAX_DHE_KEY_SIZE - length bs) |}.
Proof.
  intros (v0&v0'&Hload) (bs1&n1&v1&v1'&Hm1&->) (xy2&n2&v2&v2'&Hp2&Hs2&->).
  pose proof (coordinates_fit g) as Hfit. unfold mbed_compute_final_key.
  erewrite bind_step by (by apply from_exchange; lia). cbn [fst snd].
  intros (b1&w1&[-> ->]%sized_as_ref_inv&H)%bind_ok.
  apply bind_ok in H as (b2&w2&[-> ->]%sized_as_ref_inv&H). unfold sized_bytes in H. cbn [data_size data] in H.
  rewrite take_app_length, Nat.add_1_r in H. cbn [take] in H. rewrite take_app_length in H.
  apply bind_ok in H as (bs&w3&Hk&H). apply bind_ok in H as (buf&w4&(_&->&->)%write_ptr_inv&[= <- <-]).
  unfold spdm_ecdh_compute_shared in Hk. apply bind_ok in Hk as (grp'&u1&Hl&Hk).
  pose proof (group_loaded _ _ _ _ _ _ _ Hload Hl) as ->.
  apply bind_ok in Hk as (q&u2&Hq&Hk). pose proof (ecp_point_read _ _ _ _ _ _ _ _ _ Hp2 Hq) as ->.
  apply bind_ok in Hk as (y&u3&Hy&Hk). pose proof (mpi_read _ _ _ _ _ _ _ _ Hm1 Hy) as ->.
  apply bind_ok in Hk as (z&u4&Hz&Hk). cbv zeta in Hk. destruct (97 <? _)%nat; [done|].
  by exists z, u3, u4, bs, u4, w3.
Qed.

(** C26: Key agreement over mbedtls works: two sides that generated their keys for the same
    algorithm and exchanged them in the format of the protocol compute the same final key, whenever
    both computations succeed. *)
Theorem mbedtls_key_agreement dhe_algo w1 exchange1 private1 w1' w2 exchange2 private2 w2'
    w3 key1 w3' w4 key2 w4' :
  mbed_generate_key_pair dhe_algo w1 = (Ok (exchange1, private1), w1') →
  mbed_generate_key_pair dhe_algo w2 = (Ok (exchange2, private2), w2') →
  mbed_compute_final_key private1 exchange2 w3 = (Ok key1, w3') →
  mbed_compute_final_key private2 exchange1 w4 = (Ok key2, w4') →
  key1 = key2.
Proof.
  intros H1 H2 H3 H4.
  assert (∃ g, mbed_generate_key_pair_on g w1 = (Ok (exchange1, private1), w1') ∧
               mbed_generate_key_pair_on g w2 = (Ok (exchange2, private2), w2')) as (g&Hg1&Hg2).
  { unfold mbed_generate_key_pair in H1, H2.
    destruct (dhe_algo =? _); [by eexists|]. destruct (dhe_algo =? _); [by eexists|done]. }
  apply generated in Hg1 as (grp&pri1&pub1&G1&P1&E1&K1).
  apply generated in Hg2 as (grp'&pri2&pub2&(v&v'&G2)&P2&E2&K2).
  assert (grp' = grp) as -> by (destruct G1 as (u&u'&G1); by eapply group_loaded).
  apply (final_key _ _ _ _ _ _ _ _ _ G1 K1 E2) in H3 as (z&?&?&bs&?&?&Hz&Hb&->).
  apply (final_key _ _ _ _ _ _ _ _ _ G1 K2 E1) in H4 as (z'&?&?&bs'&?&?&Hz'&Hb'&->).
  pose proof (ecdh_shared _ _ _ _ _ _ _ _ _ _ _ _ P1 P2 Hz Hz') as ->.
  by rewrite (mpi_written _ _ _ _ _ _ _ _ Hb Hb').
Qed.
End Agreement.

(** ** Random numbers *)

Section Rdrand.
Context `{mbed : MbedTls}.

(** When the counter has passed five, the loop goes on whatever the processor returns. *)
Lemma rdrand_spins turns count w : 5 < count → (∀ v, (rdrand64_step v).1 ≠ Panic) →
  ∃ w', rdrand_loop turns count w = (Ok None, w').
Proof.
  intros Hc Hp. revert count w Hc. induction turns as [|turns IH]; intros count w Hc; [by eexists|].
  cbn [rdrand_loop]. unfold bind, attempt. specialize (Hp w).
  destruct (rdrand64_step w) as [[v|[]|] w1]; [|apply IH; lia|done].
  rewrite (proj2 (Z.ltb_lt _ _)) by done. apply IH. lia.
Qed.

(** [n] failures in a row. *)
Fixpoint rdrand_fails (n : nat) (w : mbed_world) : Prop :=
  match n with O => True | S n => ∃ w', rdrand64_step w = (Err tt, w') ∧ rdrand_fails n w' end.

(** After six failures in a row the loop does not end, until the counter overflows. *)
Lemma rdrand_hangs turns w :
  rdrand_fails 6 w → (∀ v, (rdrand64_step v).1 ≠ Panic) → ∃ w', rdrand_loop turns 0 w = (Ok None, w').
Proof.
  intros Hf Hp.
  assert (∀ n count w, rdrand_fails n w → 5 < count + Z.of_nat n → ∀ turns,
    ∃ w', rdrand_loop turns count w = (Ok None, w')) as H; [|by apply (H 6%nat)].
  clear turns w Hf. induction n as [|n IH]; intros count w Hf Hc turns.
  - apply rdrand_spins; [lia|done].
  - destruct Hf as (w1&Hw&Hf). destruct turns as [|turns]; [by eexists|].
    cbn [rdrand_loop]. unfold bind, attempt. rewrite Hw. apply IH; [done|lia].
Qed.
End Rdrand.
