(* ===== verification/Context.v ===== *)
(** Model of the context of spdmlib/src/common/mod.rs: the configuration, what was
    negotiated, the transcripts, the certificate chains and the table of sessions, with the
    operations on them.

    The device and the transport binding are trait objects in the source; they are the
    classes [SpdmDeviceIo] and [SpdmTransportEncap].  The build modelled is the default one,
    with the feature hashed-transcript-data (transcripts are kept as digest contexts) and
    without mut-auth. *)

From S2P Require Import Prelude Config Codec Status Algo Protocol Crypto KeySchedule Buffers Session.

(*@ spdmlib/src/message/mod.rs 54-100 SpdmRequestResponseCode *)
Inductive SpdmRequestResponseCode :=
| SpdmResponseDigests
| SpdmResponseCertificate
| SpdmResponseChallengeAuth
| SpdmResponseVersion
| SpdmResponseMeasurements
| SpdmResponseCapabilities
| SpdmResponseAlgorithms
| SpdmResponseVendorDefinedResponse
| SpdmResponseError
| SpdmResponseKeyExchangeRsp
| SpdmResponseFinishRsp
| SpdmResponsePskExchangeRsp
| SpdmResponsePskFinishRsp
| SpdmResponseHeartbeatAck
| SpdmResponseKeyUpdateAck
| SpdmResponseEncapsulatedRequest
| SpdmResponseEncapsulatedResponseAck
| SpdmResponseEndSessionAck
| SpdmRequestGetDigests
| SpdmRequestGetCertificate
| SpdmRequestChallenge
| SpdmRequestGetVersion
| SpdmRequestGetMeasurements
| SpdmRequestGetCapabilities
| SpdmRequestNegotiateAlgorithms
| SpdmRequestVendorDefinedRequest
| SpdmRequestResponseIfReady
| SpdmRequestKeyExchange
| SpdmRequestFinish
| SpdmRequestPskExchange
| SpdmRequestPskFinish
| SpdmRequestHeartbeat
| SpdmRequestKeyUpdate
| SpdmRequestGetEncapsulatedRequest
| SpdmRequestDeliverEncapsulatedResponse
| SpdmRequestEndSession
| SpdmRequestResponseCode_Unknown (x : Z).

Definition SpdmRequestResponseCode_get_u8 (v : SpdmRequestResponseCode) : Z :=
  match v with
  | SpdmResponseDigests => 0x01
  | SpdmResponseCertificate => 0x02
  | SpdmResponseChallengeAuth => 0x03
  | SpdmResponseVersion => 0x04
  | SpdmResponseMeasurements => 0x60
  | SpdmResponseCapabilities => 0x61
  | SpdmResponseAlgorithms => 0x63
  | SpdmResponseVendorDefinedResponse => 0x7E
  | SpdmResponseError => 0x7F
  | SpdmResponseKeyExchangeRsp => 0x64
  | SpdmResponseFinishRsp => 0x65
  | SpdmResponsePskExchangeRsp => 0x66
  | SpdmResponsePskFinishRsp => 0x67
  | SpdmResponseHeartbeatAck => 0x68
  | SpdmResponseKeyUpdateAck => 0x69
  | SpdmResponseEncapsulatedRequest => 0x6A
  | SpdmResponseEncapsulatedResponseAck => 0x6B
  | SpdmResponseEndSessionAck => 0x6C
  | SpdmRequestGetDigests => 0x81
  | SpdmRequestGetCertificate => 0x82
  | SpdmRequestChallenge => 0x83
  | SpdmRequestGetVersion => 0x84
  | SpdmRequestGetMeasurements => 0xE0
  | SpdmRequestGetCapabilities => 0xE1
  | SpdmRequestNegotiateAlgorithms => 0xE3
  | SpdmRequestVendorDefinedRequest => 0xFE
  | SpdmRequestResponseIfReady => 0xFF
  | SpdmRequestKeyExchange => 0xE4
  | SpdmRequestFinish => 0xE5
  | SpdmRequestPskExchange => 0xE6
  | SpdmRequestPskFinish => 0xE7
  | SpdmRequestHeartbeat => 0xE8
  | SpdmRequestKeyUpdate => 0xE9
  | SpdmRequestGetEncapsulatedRequest => 0xEA
  | SpdmRequestDeliverEncapsulatedResponse => 0xEB
  | SpdmRequestEndSession => 0xEC
  | SpdmRequestResponseCode_Unknown x => x
  end.

Definition SpdmRequestResponseCode_from_u8 (x : Z) : SpdmRequestResponseCode :=
  match x with
  | 0x01 => SpdmResponseDigests
  | 0x02 => SpdmResponseCertificate
  | 0x03 => SpdmResponseChallengeAuth
  | 0x04 => SpdmResponseVersion
  | 0x60 => SpdmResponseMeasurements
  | 0x61 => SpdmResponseCapabilities
  | 0x63 => SpdmResponseAlgorithms
  | 0x7E => SpdmResponseVendorDefinedResponse
  | 0x7F => SpdmResponseError
  | 0x64 => SpdmResponseKeyExchangeRsp
  | 0x65 => SpdmResponseFinishRsp
  | 0x66 => SpdmResponsePskExchangeRsp
  | 0x67 => SpdmResponsePskFinishRsp
  | 0x68 => SpdmResponseHeartbeatAck
  | 0x69 => SpdmResponseKeyUpdateAck
  | 0x6A => SpdmResponseEncapsulatedRequest
  | 0x6B => SpdmResponseEncapsulatedResponseAck
  | 0x6C => SpdmResponseEndSessionAck
  | 0x81 => SpdmRequestGetDigests
  | 0x82 => SpdmRequestGetCertificate
  | 0x83 => SpdmRequestChallenge
  | 0x84 => SpdmRequestGetVersion
  | 0xE0 => SpdmRequestGetMeasurements
  | 0xE1 => SpdmRequestGetCapabilities
  | 0xE3 => SpdmRequestNegotiateAlgorithms
  | 0xFE => SpdmRequestVendorDefinedRequest
  | 0xFF => SpdmRequestResponseIfReady
  | 0xE4 => SpdmRequestKeyExchange
  | 0xE5 => SpdmRequestFinish
  | 0xE6 => SpdmRequestPskExchange
  | 0xE7 => SpdmRequestPskFinish
  | 0xE8 => SpdmRequestHeartbeat
  | 0xE9 => SpdmRequestKeyUpdate
  | 0xEA => SpdmRequestGetEncapsulatedRequest
  | 0xEB => SpdmRequestDeliverEncapsulatedResponse
  | 0xEC => SpdmRequestEndSession
  | x => SpdmRequestResponseCode_Unknown x
  end.

(*@ spdmlib/src/message/mod.rs 54-100 SpdmRequestResponseCode as Codec *)
Definition SpdmRequestResponseCode_codec : Codec SpdmRequestResponseCode :=
  enum_codec u8_codec SpdmRequestResponseCode_get_u8 SpdmRequestResponseCode_from_u8.

#[global] Instance SpdmRequestResponseCode_eq_dec : EqDecision SpdmRequestResponseCode.
Proof. solve_decision. Defined.

Abbreviation SpdmRequestResponseCode_wf := (enum_wf 8 SpdmRequestResponseCode_get_u8 SpdmRequestResponseCode_from_u8).

#[global] Instance SpdmRequestResponseCode_codec_ok :
  CodecOk SpdmRequestResponseCode_codec SpdmRequestResponseCode_wf
    (λ v, le_bytes 1 (SpdmRequestResponseCode_get_u8 v)).
Proof. apply enum_codec_ok; [apply _|]. solve_enum SpdmRequestResponseCode_from_u8. Qed.

(*@ spdmlib/src/common/mod.rs 27-47 SpdmConnectionState *)
Inductive SpdmConnectionState :=
| SpdmConnectionNotStarted
| SpdmConnectionAfterVersion
| SpdmConnectionAfterCapabilities
| SpdmConnectionNegotiated
| SpdmConnectionAfterDigest
| SpdmConnectionAfterCertificate
| SpdmConnectionAuthenticated
| SpdmConnectionState_Unknown (x : Z).

Definition SpdmConnectionState_get_u8 (v : SpdmConnectionState) : Z :=
  match v with
  | SpdmConnectionNotStarted => 0x0
  | SpdmConnectionAfterVersion => 0x1
  | SpdmConnectionAfterCapabilities => 0x2
  | SpdmConnectionNegotiated => 0x3
  | SpdmConnectionAfterDigest => 0x4
  | SpdmConnectionAfterCertificate => 0x5
  | SpdmConnectionAuthenticated => 0x5
  | SpdmConnectionState_Unknown x => x
  end.

Definition SpdmConnectionState_from_u8 (x : Z) : SpdmConnectionState :=
  match x with
  | 0x0 => SpdmConnectionNotStarted
  | 0x1 => SpdmConnectionAfterVersion
  | 0x2 => SpdmConnectionAfterCapabilities
  | 0x3 => SpdmConnectionNegotiated
  | 0x4 => SpdmConnectionAfterDigest
  | 0x5 => SpdmConnectionAfterCertificate
  | x => SpdmConnectionState_Unknown x
  end.

(*@ spdmlib/src/common/mod.rs 27-47 SpdmConnectionState as Codec *)
Definition SpdmConnectionState_codec : Codec SpdmConnectionState :=
  enum_codec u8_codec SpdmConnectionState_get_u8 SpdmConnectionState_from_u8.

#[global] Instance SpdmConnectionState_eq_dec : EqDecision SpdmConnectionState.
Proof. solve_decision. Defined.

Abbreviation SpdmConnectionState_wf := (enum_wf 8 SpdmConnectionState_get_u8 SpdmConnectionState_from_u8).

(*@ spdmlib/src/common/mod.rs 1062-1082 SpdmNegotiateInfo *)
Record SpdmNegotiateInfo := MkSpdmNegotiateInfo {
  spdm_version_sel : SpdmVersion;
  req_capabilities_sel : Z;
  rsp_capabilities_sel : Z;
  req_ct_exponent_sel : Z;
  rsp_ct_exponent_sel : Z;
  measurement_specification_sel : Z;
  measurement_hash_sel : Z;
  base_hash_sel : Z;
  base_asym_sel : Z;
  dhe_sel : Z;
  aead_sel : Z;
  req_asym_sel : Z;
  key_schedule_sel : Z;
  opaque_data_support : Z;
  termination_policy_set : bool;
  req_data_transfer_size_sel : Z;
  req_max_spdm_msg_size_sel : Z;
  rsp_data_transfer_size_sel : Z;
  rsp_max_spdm_msg_size_sel : Z;
}.

#[global] Instance eta_SpdmNegotiateInfo : Settable SpdmNegotiateInfo :=
  λ r, MkSpdmNegotiateInfo (spdm_version_sel r) (req_capabilities_sel r)
    (rsp_capabilities_sel r) (req_ct_exponent_sel r) (rsp_ct_exponent_sel r)
    (measurement_specification_sel r) (measurement_hash_sel r) (base_hash_sel r)
    (base_asym_sel r) (dhe_sel r) (aead_sel r) (req_asym_sel r) (key_schedule_sel r)
    (opaque_data_support r) (termination_policy_set r) (req_data_transfer_size_sel r)
    (req_max_spdm_msg_size_sel r) (rsp_data_transfer_size_sel r)
    (rsp_max_spdm_msg_size_sel r).
#[global] Instance set_spdm_version_sel : Setter spdm_version_sel := ltac:(solve_setter).
#[global] Instance set_req_capabilities_sel : Setter req_capabilities_sel := ltac:(solve_setter).
#[global] Instance set_rsp_capabilities_sel : Setter rsp_capabilities_sel := ltac:(solve_setter).
#[global] Instance set_req_ct_exponent_sel : Setter req_ct_exponent_sel := ltac:(solve_setter).
#[global] Instance set_rsp_ct_exponent_sel : Setter rsp_ct_exponent_sel := ltac:(solve_setter).
#[global] Instance set_measurement_specification_sel : Setter measurement_specification_sel := ltac:(solve_setter).
#[global] Instance set_measurement_hash_sel : Setter measurement_hash_sel := ltac:(solve_setter).
#[global] Instance set_base_hash_sel : Setter base_hash_sel := ltac:(solve_setter).
#[global] Instance set_base_asym_sel : Setter base_asym_sel := ltac:(solve_setter).
#[global] Instance set_dhe_sel : Setter dhe_sel := ltac:(solve_setter).
#[global] Instance set_aead_sel : Setter aead_sel := ltac:(solve_setter).
#[global] Instance set_req_asym_sel : Setter req_asym_sel := ltac:(solve_setter).
#[global] Instance set_key_schedule_sel : Setter key_schedule_sel := ltac:(solve_setter).
#[global] Instance set_opaque_data_support : Setter opaque_data_support := ltac:(solve_setter).
#[global] Instance set_termination_policy_set : Setter termination_policy_set := ltac:(solve_setter).
#[global] Instance set_req_data_transfer_size_sel : Setter req_data_transfer_size_sel := ltac:(solve_setter).
#[global] Instance set_req_max_spdm_msg_size_sel : Setter req_max_spdm_msg_size_sel := ltac:(solve_setter).
#[global] Instance set_rsp_data_transfer_size_sel : Setter rsp_data_transfer_size_sel := ltac:(solve_setter).
#[global] Instance set_rsp_max_spdm_msg_size_sel : Setter rsp_max_spdm_msg_size_sel := ltac:(solve_setter).

(*@ spdmlib/src/common/mod.rs 1038-1059 SpdmConfigInfo *)
Record SpdmConfigInfo := MkSpdmConfigInfo {
  config_spdm_version : list SpdmVersion;
  config_req_capabilities : Z;
  config_rsp_capabilities : Z;
  config_req_ct_exponent : Z;
  config_rsp_ct_exponent : Z;
  config_measurement_specification : Z;
  config_measurement_hash_algo : Z;
  config_base_hash_algo : Z;
  config_base_asym_algo : Z;
  config_dhe_algo : Z;
  config_aead_algo : Z;
  config_req_asym_algo : Z;
  config_key_schedule_algo : Z;
  config_opaque_support : Z;
  config_session_policy : Z;
  config_runtime_content_change_support : bool;
  config_data_transfer_size : Z;
  config_max_spdm_msg_size : Z;
  config_heartbeat_period : Z;
  config_secure_spdm_version : list Z;
}.


(*@ spdmlib/src/common/mod.rs 1472-1476 SpdmProvisionInfo *)
Record SpdmProvisionInfo := MkSpdmProvisionInfo {
  my_cert_chain_data : list (option SpdmCertChainData);
  my_cert_chain : list (option SpdmCertChainBuffer);
  peer_root_cert_data : option SpdmCertChainData;
}.

#[global] Instance eta_SpdmProvisionInfo : Settable SpdmProvisionInfo :=
  λ r, MkSpdmProvisionInfo (my_cert_chain_data r) (my_cert_chain r)
    (peer_root_cert_data r).
#[global] Instance set_my_cert_chain_data : Setter my_cert_chain_data := ltac:(solve_setter).
#[global] Instance set_my_cert_chain : Setter my_cert_chain := ltac:(solve_setter).
#[global] Instance set_peer_root_cert_data : Setter peer_root_cert_data := ltac:(solve_setter).

(*@ spdmlib/src/common/mod.rs 1479-1482 SpdmPeerInfo *)
Record SpdmPeerInfo := MkSpdmPeerInfo {
  peer_cert_chain : list (option SpdmCertChainBuffer);
  peer_cert_chain_temp : option SpdmCertChainBuffer;
}.

#[global] Instance eta_SpdmPeerInfo : Settable SpdmPeerInfo :=
  λ r, MkSpdmPeerInfo (peer_cert_chain r) (peer_cert_chain_temp r).
#[global] Instance set_peer_cert_chain : Setter peer_cert_chain := ltac:(solve_setter).
#[global] Instance set_peer_cert_chain_temp : Setter peer_cert_chain_temp := ltac:(solve_setter).

(** ** The device and the transport binding *)

(** [receive] fills the buffer and returns the number of bytes, or an error that also
    carries a number of bytes. *)
(*@ spdmlib/src/common/mod.rs 75-84 SpdmDeviceIo *)
Class SpdmDeviceIo := {
  io : Type;
  io_send : bytes → SpdmM io unit;
  io_receive : Z → M (io * bytes) nat nat;
  io_flush_all : SpdmM io unit;
}.

(** The state of the four operations is the output buffer. *)
(*@ spdmlib/src/common/mod.rs 94-121 SpdmTransportEncap *)
Class SpdmTransportEncap := {
  t_encap (spdm_buffer : bytes) (secured_message : bool) : SpdmM bytes nat;
  t_decap (transport_buffer : bytes) : SpdmM bytes (nat * bool);
  t_encap_app (spdm_buffer : bytes) (is_app_message : bool) : SpdmM bytes nat;
  t_decap_app (app_buffer : bytes) : SpdmM bytes (nat * bool);
  t_get_sequence_number_count : nat;
  t_get_max_random_count : Z;
}.

Abbreviation INITIAL_SESSION_ID := 0xFFFD (only parsing).
Abbreviation INVALID_HALF_SESSION_ID := 0 (only parsing).

Section Context.
Context `{cfg : Config} `{sec : Secret} `{dev : SpdmDeviceIo} `{tr : SpdmTransportEncap}.

(** ** The state *)

(*@ spdmlib/src/common/mod.rs 1421-1435 SpdmRuntimeInfo *)
Record SpdmRuntimeInfo := MkSpdmRuntimeInfo {
  connection_state : SpdmConnectionState;
  last_session_id : option Z;
  local_used_cert_chain_slot_id : Z;
  peer_used_cert_chain_slot_id : Z;
  need_measurement_summary_hash : bool;
  need_measurement_signature : bool;
  message_a : ManagedBuffer;
  digest_context_m1m2 : option SpdmHashCtx;
  digest_context_l1l2 : option SpdmHashCtx;
  content_changed : Z;
}.

#[global] Instance eta_SpdmRuntimeInfo : Settable SpdmRuntimeInfo :=
  λ r, MkSpdmRuntimeInfo (connection_state r) (last_session_id r)
    (local_used_cert_chain_slot_id r) (peer_used_cert_chain_slot_id r)
    (need_measurement_summary_hash r) (need_measurement_signature r) (message_a r)
    (digest_context_m1m2 r) (digest_context_l1l2 r) (content_changed r).
#[global] Instance set_connection_state : Setter connection_state := ltac:(solve_setter).
#[global] Instance set_last_session_id : Setter last_session_id := ltac:(solve_setter).
#[global] Instance set_local_used_cert_chain_slot_id : Setter local_used_cert_chain_slot_id := ltac:(solve_setter).
#[global] Instance set_peer_used_cert_chain_slot_id : Setter peer_used_cert_chain_slot_id := ltac:(solve_setter).
#[global] Instance set_need_measurement_summary_hash : Setter need_measurement_summary_hash := ltac:(solve_setter).
#[global] Instance set_need_measurement_signature : Setter need_measurement_signature := ltac:(solve_setter).
#[global] Instance set_message_a : Setter message_a := ltac:(solve_setter).
#[global] Instance set_digest_context_m1m2 : Setter digest_context_m1m2 := ltac:(solve_setter).
#[global] Instance set_digest_context_l1l2 : Setter digest_context_l1l2 := ltac:(solve_setter).
#[global] Instance set_content_changed : Setter content_changed := ltac:(solve_setter).

(*@ spdmlib/src/common/mod.rs 129-144 SpdmContext *)
Record SpdmContext := MkSpdmContext {
  device_io : io;
  crypto_world : world;
  config_info : SpdmConfigInfo;
  negotiate_info : SpdmNegotiateInfo;
  runtime_info : SpdmRuntimeInfo;
  provision_info : SpdmProvisionInfo;
  peer_info : SpdmPeerInfo;
  session : list SpdmSession;
}.

#[global] Instance eta_SpdmContext : Settable SpdmContext :=
  λ r, MkSpdmContext (device_io r) (crypto_world r) (config_info r) (negotiate_info r)
    (runtime_info r) (provision_info r) (peer_info r) (session r).
#[global] Instance set_device_io : Setter device_io := ltac:(solve_setter).
#[global] Instance set_crypto_world : Setter crypto_world := ltac:(solve_setter).
#[global] Instance set_config_info : Setter config_info := ltac:(solve_setter).
#[global] Instance set_negotiate_info : Setter negotiate_info := ltac:(solve_setter).
#[global] Instance set_runtime_info : Setter runtime_info := ltac:(solve_setter).
#[global] Instance set_provision_info : Setter provision_info := ltac:(solve_setter).
#[global] Instance set_peer_info : Setter peer_info := ltac:(solve_setter).
#[global] Instance set_session : Setter session := ltac:(solve_setter).


(*@ spdmlib/src/common/mod.rs 1061-1082 SpdmNegotiateInfo::default *)
Definition SpdmNegotiateInfo_default : SpdmNegotiateInfo :=
  MkSpdmNegotiateInfo (SpdmVersion_Unknown 0) 0 0 0 0 0 0 0 0 0 0 0 0 0 false 0 0 0 0.

(*@ spdmlib/src/common/mod.rs 1421-1435 SpdmRuntimeInfo::default *)
Definition SpdmRuntimeInfo_default : SpdmRuntimeInfo :=
  MkSpdmRuntimeInfo SpdmConnectionNotStarted None 0 0 false false ManagedBufferA None None 0.

(*@ spdmlib/src/common/mod.rs 1478-1482 SpdmPeerInfo::default *)
Definition SpdmPeerInfo_default : SpdmPeerInfo :=
  MkSpdmPeerInfo (replicate SPDM_MAX_SLOT_NUMBER None) None.

(*@ spdmlib/src/common/mod.rs 147-165 SpdmContext::new *)
Definition SpdmContext_new (device : io) (w : world) (config : SpdmConfigInfo)
    (provision : SpdmProvisionInfo) : SpdmContext := {|
  device_io := device;
  crypto_world := w;
  config_info := config;
  negotiate_info := SpdmNegotiateInfo_default;
  runtime_info := SpdmRuntimeInfo_default;
  provision_info := provision;
  peer_info := SpdmPeerInfo_default;
  session := replicate MAX_SPDM_SESSION_COUNT SpdmSession_new;
|}.

(*@ spdmlib/src/common/mod.rs 167-175 SpdmContext::get_hash_size, get_asym_key_size, get_dhe_key_size *)
Definition get_hash_size {E} (c : SpdmContext) : outcome E nat :=
  SpdmBaseHashAlgo.get_size (base_hash_sel (negotiate_info c)).
Definition get_asym_key_size {E} (c : SpdmContext) : outcome E nat :=
  SpdmBaseAsymAlgo.get_size (base_asym_sel (negotiate_info c)).
Definition get_dhe_key_size {E} (c : SpdmContext) : outcome E nat :=
  SpdmDheAlgo.get_size (dhe_sel (negotiate_info c)).

(*@ spdmlib/src/common/mod.rs 177-179 SpdmContext::reset_runtime_info *)
Definition reset_runtime_info (c : SpdmContext) : SpdmContext :=
  c <| runtime_info := SpdmRuntimeInfo_default |>.
(*@ spdmlib/src/common/mod.rs 181-183 SpdmContext::reset_negotiate_info *)
Definition reset_negotiate_info (c : SpdmContext) : SpdmContext :=
  c <| negotiate_info := SpdmNegotiateInfo_default |>.
(*@ spdmlib/src/common/mod.rs 185-187 SpdmContext::reset_peer_info *)
Definition reset_peer_info (c : SpdmContext) : SpdmContext :=
  c <| peer_info := SpdmPeerInfo_default |>.
(*@ spdmlib/src/common/mod.rs 189-197 SpdmContext::reset_context *)
Definition reset_context (c : SpdmContext) : SpdmContext :=
  reset_peer_info (reset_negotiate_info (reset_runtime_info c))
    <| session ::= fmap SpdmSession_set_default |>.

(** ** The table of sessions *)

(** The index of the first session with the given identifier. *)
Definition session_index (id : Z) (c : SpdmContext) : option nat :=
  fst <$> list_find (λ s, session_id s = id) (session c).

(*@ spdmlib/src/common/mod.rs 199-203 SpdmContext::get_immutable_session_via_id *)
Definition get_immutable_session_via_id (id : Z) (c : SpdmContext) : option SpdmSession :=
  snd <$> list_find (λ s, session_id s = id) (session c).

(** A mutable borrow of a session: [body] runs on the first session with the identifier and
    its effect is written back; [otherwise] runs when there is none. *)
(*@ spdmlib/src/common/mod.rs 205-209 SpdmContext::get_session_via_id *)
Definition with_session {E A} (id : Z) (otherwise : M SpdmContext E A) (body : M SpdmSession E A)
    : M SpdmContext E A := λ c,
  match list_find (λ s, session_id s = id) (session c) with
  | Some (i, s) => let '(r, s') := body s in (r, c <| session ::= <[i := s']> |>)
  | None => otherwise c
  end.

(*@ spdmlib/src/common/mod.rs 211-213 SpdmContext::get_next_avaiable_session *)
Definition with_next_avaiable_session {E A} (otherwise : M SpdmContext E A)
    (body : M SpdmSession E A) : M SpdmContext E A :=
  with_session INVALID_SESSION_ID otherwise body.

(*@ spdmlib/src/common/mod.rs 215-227 SpdmContext::get_session_status *)
Definition get_session_status (c : SpdmContext) : list (Z * SpdmSessionState) :=
  (λ s, (session_id s, session_state s)) <$> session c.

(** The requester's half of a session identifier, or the responder's. *)
Definition half_session_id (is_requester : bool) (id : Z) : Z :=
  let shift := if is_requester then 0 else 16 in
  as_u16 (Z.shiftr (Z.land id (Z.shiftl 0xFFFF shift)) shift).

(*@ spdmlib/src/common/mod.rs 229-240 SpdmContext::get_next_half_session_id *)
Definition get_next_half_session_id (is_requester : bool) (c : SpdmContext)
    : outcome SpdmStatus Z :=
  match list_find (λ s, half_session_id is_requester (session_id s) = INVALID_HALF_SESSION_ID)
          (session c) with
  | Some (index, _) => Ok (INITIAL_SESSION_ID - Z.of_nat index)
  | None => Err SPDM_STATUS_SESSION_NUMBER_EXCEED
  end.

(** ** The certificate chain of the device *)

(** One turn of the loop over the slots. *)
(*@ spdmlib/src/common/mod.rs 242-279 SpdmContext::construct_my_cert_chain *)
Definition construct_slot (mode : overflow_mode) (slot_id : nat) : SpdmM SpdmContext unit :=
  let* c := gets (λ c, c) in
  let* chain := unwrap (my_cert_chain (provision_info c) !! slot_id) in
  let* cert := unwrap (my_cert_chain_data (provision_info c) !! slot_id) in
  match chain, cert with
  | None, Some cert_chain =>
      let* der := sub_slice 0 (data_size cert_chain) (data cert_chain) in
      let* (root_begin, root_end) :=
        match get_cert_from_cert_chain der 0 with Ok r => ret r | _ => panic end in
      let* root_cert := sub_slice root_begin root_end (data cert_chain) in
      let* root_hash := some_or SPDM_STATUS_CRYPTO_ERROR
        (of_outcome (hash_all (base_hash_sel (negotiate_info c)) root_cert)) in
      let* size := add_u16 mode 4 (Z.of_nat (data_size root_hash)) in
      let* size := add_u16 mode size (Z.of_nat (data_size cert_chain)) in
      let buf := replicate (4 + SPDM_MAX_HASH_SIZE + MAX_SPDM_CERT_CHAIN_DATA_SIZE) 0 in
      let buf := <[1%nat := as_u8 (Z.shiftr size 8)]> (<[0%nat := as_u8 (Z.land size 0xFF)]> buf) in
      let* hash := sub_slice 0 (data_size root_hash) (data root_hash) in
      let* buf := slice_copy buf 4 hash in
      let* _ := sub_slice (4 + data_size root_hash) (Z.to_nat size) buf in
      (assert! (Z.to_nat size - (4 + data_size root_hash) =? length der)%nat);;
      let* buf := slice_copy buf (4 + data_size root_hash) der in
      modify (λ c, c <| provision_info ::= λ p, p <| my_cert_chain ::=
        <[slot_id := Some {| data_size := Z.to_nat size; data := buf |}]> |> |>)
  | _, _ => ret tt
  end.

Fixpoint construct_slots (mode : overflow_mode) (slots : list nat) : SpdmM SpdmContext unit :=
  match slots with
  | [] => ret tt
  | slot :: slots => construct_slot mode slot;; construct_slots mode slots
  end.

(*@ spdmlib/src/common/mod.rs 242-279 SpdmContext::construct_my_cert_chain *)
Definition construct_my_cert_chain (mode : overflow_mode) : SpdmM SpdmContext unit :=
  construct_slots mode (seq 0 SPDM_MAX_SLOT_NUMBER).

(** ** Transcripts *)

(** Start a digest context; [e] is the error when there is no such algorithm. *)
Definition hash_start (alg : Z) (e : SpdmStatus) : SpdmM (option SpdmHashCtx) unit :=
  let* h := some_or e (of_outcome (hash_ctx_init alg)) in
  modify (λ _, Some h).

(** [hash_ctx_update(ctx.as_mut().unwrap(), bs)?] *)
Definition hash_absorb (bs : bytes) : SpdmM (option SpdmHashCtx) unit :=
  let* o := gets (λ o, o) in
  let* h := unwrap o in
  let* h' := of_outcome (hash_ctx_update h bs) in
  modify (λ _, Some h').

Definition on_m1m2 {E A} : M (option SpdmHashCtx) E A → M SpdmContext E A :=
  zoom (λ c, digest_context_m1m2 (runtime_info c))
    (λ v c, c <| runtime_info ::= λ r, r <| digest_context_m1m2 := v |> |>).
Definition on_l1l2 {E A} : M (option SpdmHashCtx) E A → M SpdmContext E A :=
  zoom (λ c, digest_context_l1l2 (runtime_info c))
    (λ v c, c <| runtime_info ::= λ r, r <| digest_context_l1l2 := v |> |>).
Definition on_session_l1l2 {E A} : M (option SpdmHashCtx) E A → M SpdmSession E A :=
  zoom (λ s, s_digest_context_l1l2 (s_runtime_info s))
    (λ v s, s <| s_runtime_info ::= λ r, r <| s_digest_context_l1l2 := v |> |>).
Definition on_th {E A} : M (option SpdmHashCtx) E A → M SpdmSession E A :=
  zoom (λ s, digest_context_th (s_runtime_info s))
    (λ v s, s <| s_runtime_info ::= λ r, r <| digest_context_th := v |> |>).

(*@ spdmlib/src/common/mod.rs 281-287 SpdmContext::append_message_a *)
Definition append_message_a (new_message : bytes) : SpdmM SpdmContext unit :=
  zoom (λ c, message_a (runtime_info c))
    (λ b c, c <| runtime_info ::= λ r, r <| message_a := b |> |>)
    (some_or SPDM_STATUS_BUFFER_FULL (append_message new_message));;
  ret tt.

(*@ spdmlib/src/common/mod.rs 288-290 SpdmContext::reset_message_a *)
Definition reset_message_a (c : SpdmContext) : SpdmContext :=
  c <| runtime_info ::= λ r, r <| message_a ::= reset_message |> |>.

Definition append_m1m2 (e : SpdmStatus) (new_message : bytes) : SpdmM SpdmContext unit :=
  let* c := gets (λ c, c) in
  (match digest_context_m1m2 (runtime_info c) with
   | None =>
       on_m1m2 (hash_start (base_hash_sel (negotiate_info c)) e);;
       let* a := mb_as_ref (message_a (runtime_info c)) in
       on_m1m2 (hash_absorb a)
   | Some _ => ret tt
   end);;
  on_m1m2 (hash_absorb new_message).

(*@ spdmlib/src/common/mod.rs 292-323 SpdmContext::append_message_b *)
Definition append_message_b : bytes → SpdmM SpdmContext unit :=
  append_m1m2 SPDM_STATUS_INVALID_STATE_LOCAL.
(*@ spdmlib/src/common/mod.rs 336-367 SpdmContext::append_message_c *)
Definition append_message_c : bytes → SpdmM SpdmContext unit :=
  append_m1m2 SPDM_STATUS_CRYPTO_ERROR.

(*@ spdmlib/src/common/mod.rs 324-334 SpdmContext::reset_message_b *)
Definition reset_message_b (c : SpdmContext) : SpdmContext :=
  c <| runtime_info ::= λ r, r <| digest_context_m1m2 := None |> |>.
(*@ spdmlib/src/common/mod.rs 368-378 SpdmContext::reset_message_c *)
Definition reset_message_c (c : SpdmContext) : SpdmContext :=
  c <| runtime_info ::= λ r, r <| digest_context_m1m2 := None |> |>.

(** The branches of [append_message_m] in and out of a session differ in where the digest
    context is kept. *)
Definition append_l1l2 {S} (on : ∀ A, SpdmM (option SpdmHashCtx) A → SpdmM S A)
    (old : option SpdmHashCtx) (n : SpdmNegotiateInfo) (a : ManagedBuffer) (new_message : bytes)
    : SpdmM S unit :=
  (match old with
   | None =>
       on _ (hash_start (base_hash_sel n) SPDM_STATUS_CRYPTO_ERROR);;
       if SpdmVersion_ge (spdm_version_sel n) SpdmVersion12 then
         let* a := mb_as_ref a in on _ (hash_absorb a)
       else ret tt
   | Some _ => ret tt
   end);;
  on _ (hash_absorb new_message).

(*@ spdmlib/src/common/mod.rs 380-462 SpdmContext::append_message_m *)
Definition append_message_m (session_id : option Z) (new_message : bytes)
    : SpdmM SpdmContext unit :=
  let* c := gets (λ c, c) in
  let n := negotiate_info c in
  let a := message_a (runtime_info c) in
  match session_id with
  | Some id =>
      with_session id (throw SPDM_STATUS_INVALID_STATE_LOCAL)
        (let* s := gets (λ s, s) in
         append_l1l2 (λ _, on_session_l1l2) (s_digest_context_l1l2 (s_runtime_info s))
           n a new_message)
  | None =>
      append_l1l2 (λ _, on_l1l2) (digest_context_l1l2 (runtime_info c)) n a new_message
  end.

(*@ spdmlib/src/common/mod.rs 463-493 SpdmContext::reset_message_m *)
Definition reset_message_m (session_id : option Z) (c : SpdmContext) : SpdmContext :=
  match session_id with
  | Some id =>
      (with_session (E:=SpdmStatus) id (ret tt)
        (modify (λ s, s <| s_runtime_info ::= λ r, r <| s_digest_context_l1l2 := None |> |>)) c).2
  | None => c <| runtime_info ::= λ r, r <| digest_context_l1l2 := None |> |>
  end.

(*@ spdmlib/src/common/mod.rs 495-539 SpdmContext::append_message_k *)
Definition append_message_k (session_id : Z) (new_message : bytes) : SpdmM SpdmContext unit :=
  with_session session_id panic
    (let* s := gets (λ s, s) in
     let r := s_runtime_info s in
     (match digest_context_th r with
      | None =>
          on_th (hash_start (cp_base_hash_algo (crypto_param s)) SPDM_STATUS_CRYPTO_ERROR);;
          let* a := mb_as_ref (s_message_a r) in
          on_th (hash_absorb a);;
          match rsp_cert_hash r with
          | Some h => let* h := sized_as_ref h in on_th (hash_absorb h)
          | None => ret tt
          end
      | Some _ => ret tt
      end);;
     on_th (hash_absorb new_message)).

(*@ spdmlib/src/common/mod.rs 540-552 SpdmContext::reset_message_k *)
Definition reset_message_k (session_id : Z) : SpdmM SpdmContext unit :=
  with_session session_id panic
    (modify (λ s, s <| s_runtime_info ::= λ r, r <| digest_context_th := None |> |>)).

(** The digest of the certificate chain that authenticates the requester, when the session
    asks for mutual authentication. *)
(*@ spdmlib/src/common/mod.rs 582-615 SpdmContext::append_message_f *)
Definition mut_cert_digest (is_requester : bool) (s : SpdmSession)
    : SpdmM SpdmContext (option SpdmDigestStruct) :=
  let* c := gets (λ c, c) in
  if negb (use_psk s) && negb (mut_auth_requested s =? 0) then
    let* chain :=
      if is_requester then
        unwrap (my_cert_chain (provision_info c)
          !! Z.to_nat (local_used_cert_chain_slot_id (runtime_info c)))
      else
        unwrap (peer_cert_chain (peer_info c)
          !! Z.to_nat (peer_used_cert_chain_slot_id (runtime_info c))) in
    match chain with
    | Some cert_chain =>
        let* bs := sub_slice 0 (data_size cert_chain) (data cert_chain) in
        let* d := some_or SPDM_STATUS_CRYPTO_ERROR
          (of_outcome (hash_all (base_hash_sel (negotiate_info c)) bs)) in
        ret (Some d)
    | None => throw SPDM_STATUS_INVALID_STATE_LOCAL
    end
  else ret None.

(*@ spdmlib/src/common/mod.rs 570-634 SpdmContext::append_message_f *)
Definition append_message_f (is_requester : bool) (session_id : Z) (new_message : bytes)
    : SpdmM SpdmContext unit :=
  let* c := gets (λ c, c) in
  let* s := unwrap (get_immutable_session_via_id session_id c) in
  match digest_context_th (s_runtime_info s) with
  | None => throw SPDM_STATUS_INVALID_STATE_LOCAL
  | Some _ =>
      (if negb (message_f_initialized (s_runtime_info s)) then
         let* d := mut_cert_digest is_requester s in
         (match d with
          | Some d =>
              with_session session_id panic
                (let* bs := sub_slice 0 (data_size d) (data d) in on_th (hash_absorb bs))
          | None => ret tt
          end);;
         with_session session_id panic
           (modify (λ s, s <| s_runtime_info ::= λ r, r <| message_f_initialized := true |> |>))
       else ret tt);;
      with_session session_id panic (on_th (hash_absorb new_message))
  end.

(*@ spdmlib/src/common/mod.rs 636-648 SpdmContext::reset_message_f *)
Definition reset_message_f (session_id : Z) : SpdmM SpdmContext unit :=
  with_session session_id panic
    (modify (λ s, s <| s_runtime_info ::= λ r, r <| digest_context_th := None |> |>)).

(** The transcript hash of a session; requester and responder compute it alike, and the
    arguments about the certificates are not used in this build. *)
(*@ spdmlib/src/common/mod.rs 830-848 SpdmContext::calc_req_transcript_hash *)
Definition calc_req_transcript_hash {S} (s : SpdmSession) : SpdmM S SpdmDigestStruct :=
  let* h := ok_or SPDM_STATUS_INVALID_STATE_LOCAL (digest_context_th (s_runtime_info s)) in
  some_or SPDM_STATUS_CRYPTO_ERROR (of_outcome (hash_ctx_finalize h)).
(*@ spdmlib/src/common/mod.rs 850-868 SpdmContext::calc_rsp_transcript_hash *)
Definition calc_rsp_transcript_hash {S} (s : SpdmSession) : SpdmM S SpdmDigestStruct :=
  let* h := ok_or SPDM_STATUS_INVALID_STATE_LOCAL (digest_context_th (s_runtime_info s)) in
  some_or SPDM_STATUS_CRYPTO_ERROR (of_outcome (hash_ctx_finalize h)).

Definition certchain_hash (c : SpdmContext) (chain : option (option sized))
    : outcome unit SpdmDigestStruct :=
  run (let* chain := unwrap chain in
       let* chain := ok_or tt chain in
       let* bs := sub_slice 0 (data_size chain) (data chain) in
       let* h := of_outcome (hash_all (base_hash_sel (negotiate_info c)) bs) in
       let* h := sized_as_ref h in
       sized_from SPDM_MAX_HASH_SIZE h).

(*@ spdmlib/src/common/mod.rs 870-894 SpdmContext::get_certchain_hash_local *)
Definition get_certchain_hash_local (use_psk : bool) (slot_id : nat) (c : SpdmContext)
    : outcome unit SpdmDigestStruct :=
  if use_psk then Err tt else certchain_hash c (my_cert_chain (provision_info c) !! slot_id).
(*@ spdmlib/src/common/mod.rs 896-921 SpdmContext::get_certchain_hash_peer *)
Definition get_certchain_hash_peer (use_psk : bool) (slot_id : nat) (c : SpdmContext)
    : outcome unit SpdmDigestStruct :=
  if use_psk then Err tt else certchain_hash c (peer_cert_chain (peer_info c) !! slot_id).

(*@ spdmlib/src/common/mod.rs 923-952 SpdmContext::reset_buffer_via_request_code *)
Definition reset_buffer_via_request_code (opcode : SpdmRequestResponseCode)
    (session_id : option Z) (c : SpdmContext) : SpdmContext :=
  let c :=
    if decide (opcode ≠ SpdmRequestGetMeasurements) then reset_message_m session_id c else c in
  match opcode with
  | SpdmRequestGetMeasurements | SpdmRequestKeyExchange | SpdmRequestFinish
  | SpdmRequestPskExchange | SpdmRequestPskFinish | SpdmRequestKeyUpdate
  | SpdmRequestHeartbeat | SpdmRequestEndSession =>
      if SpdmConnectionState_get_u8 (connection_state (runtime_info c)) <?
           SpdmConnectionState_get_u8 SpdmConnectionAuthenticated
      then reset_message_c (reset_message_b c) else c
  | SpdmRequestGetDigests => reset_message_b c
  | _ => c
  end.

(** ** Sending and receiving *)

(** The state is the context and the output buffer. *)
(*@ spdmlib/src/common/mod.rs 954-957 SpdmContext::encap *)
Definition encap (send_buffer : bytes) : SpdmM (SpdmContext * bytes) nat :=
  on_snd (t_encap send_buffer false).

(** [session.encode_spdm_secured_message(app, &mut buffer, ..)] with a local buffer. *)
Definition session_encode (mode : overflow_mode) (app : bytes) (is_requester : bool)
    : SpdmM SpdmSession bytes := λ s,
  match encode_spdm_secured_message mode app is_requester
          (s, replicate SENDER_BUFFER_SIZE 0) with
  | (Ok n, (s', buf)) => (sub_slice 0 n buf) s'
  | (Err e, (s', _)) => (Err e, s')
  | (Panic, (s', _)) => (Panic, s')
  end.
Definition session_decode (mode : overflow_mode) (secured : bytes) (is_requester : bool)
    : SpdmM SpdmSession bytes := λ s,
  match decode_spdm_secured_message mode secured is_requester
          (s, replicate RECEIVER_BUFFER_SIZE 0) with
  | (Ok n, (s', buf)) => (sub_slice 0 n buf) s'
  | (Err e, (s', _)) => (Err e, s')
  | (Panic, (s', _)) => (Panic, s')
  end.

(** A transport operation on a fresh local buffer of [size] bytes. *)
Definition with_buffer {S A} (size : nat) (c : SpdmM bytes A) : SpdmM S (A * bytes) := λ st,
  match c (replicate size 0) with
  | (Ok a, buf) => (Ok (a, buf), st)
  | (Err e, _) => (Err e, st)
  | (Panic, _) => (Panic, st)
  end.

(*@ spdmlib/src/common/mod.rs 959-985 SpdmContext::encode_secured_message *)
Definition encode_secured_message (mode : overflow_mode) (session_id : Z) (send_buffer : bytes)
    (is_requester is_app_message : bool) : SpdmM (SpdmContext * bytes) nat :=
  let* (used, app_buffer) :=
    with_buffer SENDER_BUFFER_SIZE (t_encap_app send_buffer is_app_message) in
  let* app := sub_slice 0 used app_buffer in
  let* secured := on_fst (with_session session_id (throw SPDM_STATUS_INVALID_PARAMETER)
    (session_encode mode app is_requester)) in
  on_snd (t_encap secured true).

(*@ spdmlib/src/common/mod.rs 987-1001 SpdmContext::decap *)
Definition decap (transport_buffer : bytes) : SpdmM (SpdmContext * bytes) nat :=
  let* (used, secured_message) := on_snd (t_decap transport_buffer) in
  if (secured_message : bool) then throw SPDM_STATUS_DECAP_FAIL else ret used.

(*@ spdmlib/src/common/mod.rs 1003-1034 SpdmContext::decode_secured_message *)
Definition decode_secured_message (mode : overflow_mode) (session_id : Z)
    (transport_buffer : bytes) : SpdmM (SpdmContext * bytes) nat :=
  let* (r, encoded) := with_buffer RECEIVER_BUFFER_SIZE (t_decap transport_buffer) in
  let '(used, secured_message) := r in
  if negb secured_message then throw SPDM_STATUS_DECAP_FAIL else
  let* secured := sub_slice 0 used encoded in
  let* app := on_fst (with_session session_id (throw SPDM_STATUS_INVALID_PARAMETER)
    (session_decode mode secured false)) in
  let* (used, _) := on_snd (t_decap_app app) in
  ret used.

End Context.
