(* ===== verification/Transport.v ===== *)
(** The transport bindings of the repository: MCTP (mctp_transport/src/header.rs) and PCI DOE
    (pcidoe_transport/src/header.rs), as instances of [SpdmTransportEncap].

    [TransportLaws] is what the library above relies on: what is encapsulated is decapsulated
    again.  MCTP prepends one byte; DOE prepends a header of eight bytes and pads the payload
    to a multiple of four bytes, so that the payload comes back with up to three bytes of
    padding behind it. *)

From S2P Require Import Prelude Config Codec Status Algo Protocol Crypto KeySchedule Buffers Session Context.

(** The operations of a binding write their output buffer, which is the state. *)

(** ** MCTP *)

(*@ mctp_transport/src/header.rs 13-27 MctpMessageType *)
Inductive MctpMessageType :=
| MctpMessageTypeMctpControl
| MctpMessageTypePldm
| MctpMessageTypeNcsi
| MctpMessageTypeEthernet
| MctpMessageTypeNvme
| MctpMessageTypeSpdm
| MctpMessageTypeSecuredMctp
| MctpMessageTypeVendorDefinedPci
| MctpMessageTypeVendorDefinedIana
| MctpMessageType_Unknown (x : Z).

Definition MctpMessageType_get_u8 (v : MctpMessageType) : Z :=
  match v with
  | MctpMessageTypeMctpControl => 0x00
  | MctpMessageTypePldm => 0x01
  | MctpMessageTypeNcsi => 0x02
  | MctpMessageTypeEthernet => 0x03
  | MctpMessageTypeNvme => 0x04
  | MctpMessageTypeSpdm => 0x05
  | MctpMessageTypeSecuredMctp => 0x06
  | MctpMessageTypeVendorDefinedPci => 0x7E
  | MctpMessageTypeVendorDefinedIana => 0x7F
  | MctpMessageType_Unknown x => x
  end.

Definition MctpMessageType_from_u8 (x : Z) : MctpMessageType :=
  match x with
  | 0x00 => MctpMessageTypeMctpControl
  | 0x01 => MctpMessageTypePldm
  | 0x02 => MctpMessageTypeNcsi
  | 0x03 => MctpMessageTypeEthernet
  | 0x04 => MctpMessageTypeNvme
  | 0x05 => MctpMessageTypeSpdm
  | 0x06 => MctpMessageTypeSecuredMctp
  | 0x7E => MctpMessageTypeVendorDefinedPci
  | 0x7F => MctpMessageTypeVendorDefinedIana
  | x => MctpMessageType_Unknown x
  end.

(*@ mctp_transport/src/header.rs 13-27 MctpMessageType as Codec *)
Definition MctpMessageType_codec : Codec MctpMessageType :=
  enum_codec u8_codec MctpMessageType_get_u8 MctpMessageType_from_u8.

#[global] Instance MctpMessageType_eq_dec : EqDecision MctpMessageType.
Proof. solve_decision. Defined.

Abbreviation MctpMessageType_wf := (enum_wf 8 MctpMessageType_get_u8 MctpMessageType_from_u8).

#[global] Instance MctpMessageType_codec_ok :
  CodecOk MctpMessageType_codec MctpMessageType_wf 
    (λ v, le_bytes 1 (MctpMessageType_get_u8 v)).
Proof. apply enum_codec_ok; [apply _|]. solve_enum MctpMessageType_from_u8. Qed.

(** The header is its one field. *)
(*@ mctp_transport/src/header.rs 39-48 MctpMessageHeader as Codec *)
Definition MctpMessageHeader_codec : Codec MctpMessageType := MctpMessageType_codec.

(** Writes the header of the given type and the payload behind it. *)
Definition mctp_wrap (e : SpdmStatus) (t : MctpMessageType) (payload : bytes) : SpdmM bytes nat :=
  let* buf := gets (λ b, b) in
  let* (_, w) := with_writer buf (map_err (λ _, e) (encode MctpMessageHeader_codec t)) in
  modify (λ _, wr_buf w);;
  let header_size := Writer_used w in
  if (length buf <? header_size + length payload)%nat then throw e else
  let* buf := slice_copy (wr_buf w) header_size payload in
  modify (λ _, buf);;
  ret (header_size + length payload)%nat.

(** Reads the header, classifies its type and copies the payload out. *)
Definition mctp_unwrap {A} (e : SpdmStatus) (classify : MctpMessageType → option A)
    (buffer : bytes) : SpdmM bytes (nat * A) :=
  let* (t, r) := with_reader buffer (some_or e (read MctpMessageHeader_codec)) in
  let* a := ok_or e (classify t) in
  let header_size := Reader_used r in
  let payload_size := (length buffer - header_size)%nat in
  let* out := gets (λ b, b) in
  if (length out <? payload_size)%nat then throw e else
  let* payload := sub_slice header_size (length buffer) buffer in
  let* out := slice_copy out 0 payload in
  modify (λ _, out);;
  ret (payload_size, a).

(*@ mctp_transport/src/header.rs 54-78 MctpTransportEncap::encap *)
Definition mctp_encap (spdm_buffer : bytes) (secured_message : bool) : SpdmM bytes nat :=
  mctp_wrap SPDM_STATUS_ENCAP_FAIL
    (if secured_message then MctpMessageTypeSecuredMctp else MctpMessageTypeSpdm) spdm_buffer.

(** Whether a message is secured, or an application message, by its type. *)
Definition mctp_secured (t : MctpMessageType) : option bool :=
  match t with
  | MctpMessageTypeSpdm => Some false
  | MctpMessageTypeSecuredMctp => Some true
  | _ => None
  end.
Definition mctp_app (t : MctpMessageType) : option bool :=
  match t with
  | MctpMessageTypeSpdm => Some false
  | MctpMessageTypePldm => Some true
  | _ => None
  end.

(*@ mctp_transport/src/header.rs 80-107 MctpTransportEncap::decap *)
Definition mctp_decap (transport_buffer : bytes) : SpdmM bytes (nat * bool) :=
  mctp_unwrap SPDM_STATUS_DECAP_FAIL mctp_secured transport_buffer.

(*@ mctp_transport/src/header.rs 109-135 MctpTransportEncap::encap_app *)
Definition mctp_encap_app (spdm_buffer : bytes) (is_app_message : bool) : SpdmM bytes nat :=
  mctp_wrap SPDM_STATUS_ENCAP_APP_FAIL
    (if is_app_message then MctpMessageTypePldm else MctpMessageTypeSpdm) spdm_buffer.

(*@ mctp_transport/src/header.rs 137-162 MctpTransportEncap::decap_app *)
Definition mctp_decap_app (app_buffer : bytes) : SpdmM bytes (nat * bool) :=
  mctp_unwrap SPDM_STATUS_DECAP_APP_FAIL mctp_app app_buffer.

(*@ mctp_transport/src/header.rs 53-170 MctpTransportEncap as SpdmTransportEncap *)
Definition MctpTransportEncap : SpdmTransportEncap := {|
  t_encap := mctp_encap;
  t_decap := mctp_decap;
  t_encap_app := mctp_encap_app;
  t_decap_app := mctp_decap_app;
  t_get_sequence_number_count := 2;
  t_get_max_random_count := 32;
|}.

(** ** PCI DOE *)

(*@ pcidoe_transport/src/header.rs 10-16 PciDoeVendorId *)
Inductive PciDoeVendorId :=
| PciDoeVendorIdPciSig
| PciDoeVendorId_Unknown (x : Z).

Definition PciDoeVendorId_get_u16 (v : PciDoeVendorId) : Z :=
  match v with
  | PciDoeVendorIdPciSig => 0x0001
  | PciDoeVendorId_Unknown x => x
  end.

Definition PciDoeVendorId_from_u16 (x : Z) : PciDoeVendorId :=
  match x with
  | 0x0001 => PciDoeVendorIdPciSig
  | x => PciDoeVendorId_Unknown x
  end.

(*@ pcidoe_transport/src/header.rs 10-16 PciDoeVendorId as Codec *)
Definition PciDoeVendorId_codec : Codec PciDoeVendorId :=
  enum_codec u16_codec PciDoeVendorId_get_u16 PciDoeVendorId_from_u16.

#[global] Instance PciDoeVendorId_eq_dec : EqDecision PciDoeVendorId.
Proof. solve_decision. Defined.

Abbreviation PciDoeVendorId_wf := (enum_wf 16 PciDoeVendorId_get_u16 PciDoeVendorId_from_u16).

#[global] Instance PciDoeVendorId_codec_ok :
  CodecOk PciDoeVendorId_codec PciDoeVendorId_wf 
    (λ v, le_bytes 2 (PciDoeVendorId_get_u16 v)).
Proof. apply enum_codec_ok; [apply _|]. solve_enum PciDoeVendorId_from_u16. Qed.

(*@ pcidoe_transport/src/header.rs 23-31 PciDoeDataObjectType *)
Inductive PciDoeDataObjectType :=
| PciDoeDataObjectTypeDoeDiscovery
| PciDoeDataObjectTypeSpdm
| PciDoeDataObjectTypeSecuredSpdm
| PciDoeDataObjectType_Unknown (x : Z).

Definition PciDoeDataObjectType_get_u8 (v : PciDoeDataObjectType) : Z :=
  match v with
  | PciDoeDataObjectTypeDoeDiscovery => 0x00
  | PciDoeDataObjectTypeSpdm => 0x01
  | PciDoeDataObjectTypeSecuredSpdm => 0x02
  | PciDoeDataObjectType_Unknown x => x
  end.

Definition PciDoeDataObjectType_from_u8 (x : Z) : PciDoeDataObjectType :=
  match x with
  | 0x00 => PciDoeDataObjectTypeDoeDiscovery
  | 0x01 => PciDoeDataObjectTypeSpdm
  | 0x02 => PciDoeDataObjectTypeSecuredSpdm
  | x => PciDoeDataObjectType_Unknown x
  end.

(*@ pcidoe_transport/src/header.rs 23-31 PciDoeDataObjectType as Codec *)
Definition PciDoeDataObjectType_codec : Codec PciDoeDataObjectType :=
  enum_codec u8_codec PciDoeDataObjectType_get_u8 PciDoeDataObjectType_from_u8.

#[global] Instance PciDoeDataObjectType_eq_dec : EqDecision PciDoeDataObjectType.
Proof. solve_decision. Defined.

Abbreviation PciDoeDataObjectType_wf := (enum_wf 8 PciDoeDataObjectType_get_u8 PciDoeDataObjectType_from_u8).

#[global] Instance PciDoeDataObjectType_codec_ok :
  CodecOk PciDoeDataObjectType_codec PciDoeDataObjectType_wf 
    (λ v, le_bytes 1 (PciDoeDataObjectType_get_u8 v)).
Proof. apply enum_codec_ok; [apply _|]. solve_enum PciDoeDataObjectType_from_u8. Qed.

(*@ pcidoe_transport/src/header.rs 39-43 PciDoeMessageHeader *)
Record PciDoeMessageHeader := {
  vendor_id : PciDoeVendorId;
  data_object_type : PciDoeDataObjectType;
  payload_length : Z;
}.

(** [payload_length + 8] is an addition on [u32]. *)
(*@ pcidoe_transport/src/header.rs 46-60 PciDoeMessageHeader::encode *)
Definition PciDoeMessageHeader_encode (mode : overflow_mode) (h : PciDoeMessageHeader)
    : M Writer EncodeErr nat :=
  let* a := encode PciDoeVendorId_codec (vendor_id h) in
  let* b := encode PciDoeDataObjectType_codec (data_object_type h) in
  let* c := encode u8_codec 0 in
  let* sum :=
    if decide (is_u32 (payload_length h + 8)) then ret (payload_length h + 8)
    else match mode with Checked => panic | Wrapping => ret (as_u32 (payload_length h + 8)) end in
  let len := Z.shiftr sum 2 in
  if 0x40000 <? len then panic else
  let len := if len =? 0x40000 then 0 else len in
  let* d := encode u32_codec len in
  ret (a + b + c + d)%nat.

(*@ pcidoe_transport/src/header.rs 62-80 PciDoeMessageHeader::read *)
Definition PciDoeMessageHeader_read : M Reader unit PciDoeMessageHeader :=
  let* v := read PciDoeVendorId_codec in
  let* t := read PciDoeDataObjectType_codec in
  let* _ := read u8_codec in
  let* len := read u32_codec in
  let len := Z.land len 0x3ffff in
  let len := if len =? 0 then 0x40000 else len in
  if len <? 2 then throw tt else
  let* n := ok_or tt (if 8 <=? as_u32 (Z.shiftl len 2) then Some (as_u32 (Z.shiftl len 2) - 8)
                      else None) in
  ret {| vendor_id := v; data_object_type := t; payload_length := n |}.

(*@ pcidoe_transport/src/header.rs 87-114 PciDoeTransportEncap::encap *)
Definition doe_encap (mode : overflow_mode) (spdm_buffer : bytes) (secured_message : bool)
    : SpdmM bytes nat :=
  let payload_len := length spdm_buffer in
  let aligned_payload_len := ((payload_len + 3) / 4 * 4)%nat in
  let* buf := gets (λ b, b) in
  let header := {|
    vendor_id := PciDoeVendorIdPciSig;
    data_object_type := if secured_message then PciDoeDataObjectTypeSecuredSpdm
                        else PciDoeDataObjectTypeSpdm;
    payload_length := as_u32 (Z.of_nat aligned_payload_len) |} in
  let* (_, w) := with_writer buf
    (map_err (λ _, SPDM_STATUS_ENCAP_FAIL) (PciDoeMessageHeader_encode mode header)) in
  modify (λ _, wr_buf w);;
  let header_size := Writer_used w in
  if (length buf <? header_size + aligned_payload_len)%nat then throw SPDM_STATUS_ENCAP_FAIL else
  let* buf := slice_copy (wr_buf w) header_size spdm_buffer in
  modify (λ _, buf);;
  ret (header_size + aligned_payload_len)%nat.

(*@ pcidoe_transport/src/header.rs 116-144 PciDoeTransportEncap::decap *)
Definition doe_decap (transport_buffer : bytes) : SpdmM bytes (nat * bool) :=
  let* (header, r) := with_reader transport_buffer
    (some_or SPDM_STATUS_DECAP_FAIL PciDoeMessageHeader_read) in
  match vendor_id header with
  | PciDoeVendorIdPciSig =>
      let* secured_message :=
        match data_object_type header with
        | PciDoeDataObjectTypeSpdm => ret false
        | PciDoeDataObjectTypeSecuredSpdm => ret true
        | _ => throw SPDM_STATUS_DECAP_FAIL
        end in
      let header_size := Reader_used r in
      let payload_size := Z.to_nat (payload_length header) in
      if (length transport_buffer <? header_size + payload_size)%nat
      then throw SPDM_STATUS_DECAP_FAIL else
      let* out := gets (λ b, b) in
      if (length out <? payload_size)%nat then throw SPDM_STATUS_DECAP_FAIL else
      let* payload := sub_slice header_size (header_size + payload_size) transport_buffer in
      let* out := slice_copy out 0 payload in
      modify (λ _, out);;
      ret (payload_size, secured_message)
  | _ => throw SPDM_STATUS_DECAP_FAIL
  end.

(*@ pcidoe_transport/src/header.rs 146-154 PciDoeTransportEncap::encap_app *)
Definition doe_encap_app (spdm_buffer : bytes) (is_app_message : bool) : SpdmM bytes nat :=
  let* out := gets (λ b, b) in
  let* out := slice_copy out 0 spdm_buffer in
  modify (λ _, out);;
  ret (length spdm_buffer).

(*@ pcidoe_transport/src/header.rs 156-163 PciDoeTransportEncap::decap_app *)
Definition doe_decap_app (app_buffer : bytes) : SpdmM bytes (nat * bool) :=
  let* out := gets (λ b, b) in
  let* out := slice_copy out 0 app_buffer in
  modify (λ _, out);;
  ret (length app_buffer, false).

(*@ pcidoe_transport/src/header.rs 86-171 PciDoeTransportEncap as SpdmTransportEncap *)
Definition PciDoeTransportEncap (mode : overflow_mode) : SpdmTransportEncap := {|
  t_encap := doe_encap mode;
  t_decap := doe_decap;
  t_encap_app := doe_encap_app;
  t_decap_app := doe_decap_app;
  t_get_sequence_number_count := 0;
  t_get_max_random_count := 0;
|}.

(** ** What a binding promises *)

(** A message that was encapsulated is decapsulated with the same kind and [padded] to a size of
    the binding; application data comes back exactly, with what the binding keeps of its flag.  The
    buffers of the library are far below the half mebibyte that is assumed. *)
Class TransportLaws (tr : SpdmTransportEncap) := {
  padded : nat → nat;
  app_flag : bool → bool;
  encap_decap msg secured buf n buf' out :
    Z.of_nat (length buf) < 2 ^ 19 → t_encap msg secured buf = (Ok n, buf') → (n ≤ length out)%nat →
    ∃ out', t_decap (take n buf') out = (Ok (padded (length msg), secured), out') ∧
      take (length msg) out' = msg ∧ length out' = length out;
  encap_app_decap_app msg is_app buf n buf' out :
    t_encap_app msg is_app buf = (Ok n, buf') → (n ≤ length out)%nat →
    ∃ out', t_decap_app (take n buf') out = (Ok (length msg, app_flag is_app), out') ∧
      take (length msg) out' = msg ∧ length out' = length out;
}.

(** ** MCTP is a transport *)

Lemma mctp_wrap_ok e t payload buf :
  MctpMessageType_wf t → (1 + length payload ≤ length buf)%nat →
  mctp_wrap e t payload buf =
  (Ok (1 + length payload)%nat,
   le_bytes 1 (MctpMessageType_get_u8 t) ++ payload ++ drop (1 + length payload) buf).
Proof.
  intros Ht Hl. unfold mctp_wrap. erewrite bind_step by done.
  pose proof (appends_encode MctpMessageType_codec _ _ e t Ht) as Happ. cbv beta in Happ.
  set (hd := le_bytes 1 (MctpMessageType_get_u8 t)).
  assert (length hd = 1%nat) as Hhd by apply length_le_bytes. fold hd in Happ.
  erewrite bind_step by (apply (with_writer_wire _ _ hd 1%nat);
    [exact Happ|lia]).
  cbv beta iota. erewrite bind_step by done. unfold Writer_used. cbn [wr_offs wr_buf].
  rewrite (proj2 (Nat.ltb_ge _ _)) by lia.
  erewrite bind_step by (apply slice_copy_behind; lia).
  erewrite bind_step by done. by rewrite Hhd.
Qed.

Lemma mctp_unwrap_ok {A} e (classify : MctpMessageType → option A) t a payload out :
  MctpMessageType_wf t → classify t = Some a → (length payload ≤ length out)%nat →
  mctp_unwrap e classify (le_bytes 1 (MctpMessageType_get_u8 t) ++ payload) out =
  (Ok (length payload, a), payload ++ drop (length payload) out).
Proof.
  intros Ht Ha Hl. unfold mctp_unwrap.
  pose proof (reads_map_err (λ _ : unit, e) _ _ _
    (read_ok (c:=MctpMessageType_codec) t Ht)) as Hread. cbv beta in Hread.
  set (hd := le_bytes 1 (MctpMessageType_get_u8 t)) in *.
  assert (length hd = 1%nat) as Hhd by apply length_le_bytes.
  erewrite bind_step by (by apply with_reader_ok with (bs := hd) (tl := payload)).
  cbv beta iota. rewrite Ha. erewrite bind_step by done.
  unfold Reader_used, Reader_advance. cbn [rd_offs Reader_init].
  erewrite bind_step by done. rewrite length_app, Hhd.
  replace (1 + length payload - (0 + 1))%nat with (length payload) by lia.
  rewrite (proj2 (Nat.ltb_ge _ _)) by lia.
  erewrite bind_step by (apply sub_slice_tail; lia).
  erewrite bind_step by (by apply slice_copy_front).
  erewrite bind_step by done. done.
Qed.

Lemma mctp_wrap_full e t payload buf :
  MctpMessageType_wf t → (length buf < 1 + length payload)%nat →
  is_ok (mctp_wrap e t payload buf).1 = false.
Proof.
  intros Ht Hl. unfold mctp_wrap. erewrite bind_step by done.
  destruct buf as [|b buf]; [done|].
  pose proof (appends_encode MctpMessageType_codec _ _ e t Ht) as Happ. cbv beta in Happ.
  erewrite bind_step by (eapply with_writer_wire; [exact Happ|cbn; lia]).
  cbv beta iota. erewrite bind_step by done.
  by rewrite (proj2 (Nat.ltb_lt _ _)) by (cbn in *; lia).
Qed.

Lemma mctp_wrap_inv e t payload buf n buf' :
  MctpMessageType_wf t → mctp_wrap e t payload buf = (Ok n, buf') →
  n = (1 + length payload)%nat ∧
  take n buf' = le_bytes 1 (MctpMessageType_get_u8 t) ++ payload.
Proof.
  intros Ht Hw. destruct (decide (1 + length payload ≤ length buf)%nat) as [Hl|Hl].
  - rewrite mctp_wrap_ok in Hw by done.
    assert (n = (1 + length payload)%nat ∧ buf' = le_bytes 1 (MctpMessageType_get_u8 t)
      ++ payload ++ drop (1 + length payload) buf) as [-> ->] by (split; congruence).
    split; [done|]. rewrite app_assoc, take_app_length'; [done|].
    by rewrite length_app, length_le_bytes.
  - pose proof (mctp_wrap_full e t payload buf Ht) as Hf. rewrite Hw in Hf.
    by specialize (Hf ltac:(lia)).
Qed.

Lemma mctp_wrap_unwrap {A} e e' (classify : MctpMessageType → option A) t a msg buf n buf' out :
  MctpMessageType_wf t → classify t = Some a →
  mctp_wrap e t msg buf = (Ok n, buf') → (n ≤ length out)%nat →
  ∃ out', mctp_unwrap e' classify (take n buf') out = (Ok (length msg, a), out') ∧
    (n = 1 + length msg)%nat ∧ take (length msg) out' = msg ∧ length out' = length out.
Proof.
  intros Ht Ha Hw Hn. destruct (mctp_wrap_inv _ _ _ _ _ _ Ht Hw) as [-> ->].
  eexists. split; [apply mctp_unwrap_ok; [done|done|lia]|].
  split_and!; [done|by rewrite take_app_length|].
  rewrite length_app, length_drop. lia.
Qed.

Lemma mctp_spdm_wf (secured : bool) :
  MctpMessageType_wf (if secured then MctpMessageTypeSecuredMctp else MctpMessageTypeSpdm).
Proof. by destruct secured. Qed.
Lemma mctp_secured_type (secured : bool) :
  mctp_secured (if secured then MctpMessageTypeSecuredMctp else MctpMessageTypeSpdm)
  = Some secured.
Proof. by destruct secured. Qed.
Lemma mctp_app_wf (is_app : bool) :
  MctpMessageType_wf (if is_app then MctpMessageTypePldm else MctpMessageTypeSpdm).
Proof. by destruct is_app. Qed.
Lemma mctp_app_type (is_app : bool) :
  mctp_app (if is_app then MctpMessageTypePldm else MctpMessageTypeSpdm) = Some is_app.
Proof. by destruct is_app. Qed.

#[global] Instance mctp_transport_laws : TransportLaws MctpTransportEncap.
Proof.
  refine {| padded := λ n, n; app_flag := λ b, b |};
    cbn [t_encap t_decap t_encap_app t_decap_app MctpTransportEncap].
  - intros msg secured buf n buf' out _ He Hn. unfold mctp_encap, mctp_decap in *.
    destruct (mctp_wrap_unwrap _ SPDM_STATUS_DECAP_FAIL mctp_secured _ secured msg buf n buf' out
      (mctp_spdm_wf secured) (mctp_secured_type secured) He Hn) as (out'&Hd&->&Ht&Hl).
    exists out'. split_and!; [exact Hd|done|done].
  - intros msg is_app buf n buf' out He Hn. unfold mctp_encap_app, mctp_decap_app in *.
    destruct (mctp_wrap_unwrap _ SPDM_STATUS_DECAP_APP_FAIL mctp_app _ is_app msg buf n buf' out
      (mctp_app_wf is_app) (mctp_app_type is_app) He Hn) as (out'&Hd&->&Ht&Hl).
    exists out'. split_and!; [exact Hd|done|done].
Defined.

(** ** PCI DOE is a transport *)

(** Payload lengths are multiples of four bytes, at most the 2^18 words minus the header. *)
Definition doe_wf (h : PciDoeMessageHeader) : Prop :=
  PciDoeVendorId_wf (vendor_id h) ∧ PciDoeDataObjectType_wf (data_object_type h) ∧
  0 ≤ payload_length h ≤ 0xFFFF8 ∧ payload_length h `mod` 4 = 0.

(** The length field counts words, header included; 2^18 words are written as zero. *)
Definition doe_words (h : PciDoeMessageHeader) : Z := ((payload_length h + 8) / 4) `mod` 2 ^ 18.

Definition doe_wire (h : PciDoeMessageHeader) : bytes :=
  le_bytes 2 (PciDoeVendorId_get_u16 (vendor_id h))
  ++ le_bytes 1 (PciDoeDataObjectType_get_u8 (data_object_type h))
  ++ le_bytes 1 0 ++ le_bytes 4 (doe_words h).

Lemma doe_words_spec h :
  doe_wf h →
  (if Z.shiftr (payload_length h + 8) 2 =? 0x40000 then 0
   else Z.shiftr (payload_length h + 8) 2) = doe_words h ∧
  Z.shiftr (payload_length h + 8) 2 ≤ 0x40000 ∧ is_u32 (doe_words h) ∧
  Z.land (doe_words h) 0x3ffff = doe_words h ∧
  (if doe_words h =? 0 then 0x40000 else doe_words h) * 4 = payload_length h + 8.
Proof.
  intros (_&_&Hp&Hm). unfold doe_words. rewrite Z.shiftr_div_pow2 by lia.
  change (2 ^ 2) with 4. change 0x3ffff with (Z.ones 18). rewrite Z.land_ones by lia.
  assert (payload_length h + 8 = 4 * ((payload_length h + 8) / 4)) as Hd.
  { rewrite (Z.div_mod (payload_length h + 8) 4) at 1 by lia.
    rewrite Z.add_mod, Hm by lia. change ((0 + 8 `mod` 4) `mod` 4) with 0. lia. }
  set (q := (payload_length h + 8) / 4) in *.
  assert (2 ≤ q ≤ 0x40000) as Hq by lia.
  rewrite Z.mod_mod by lia. unfold is_uint.
  destruct (Z.eqb_spec q 0x40000) as [->|Hne].
  - change (262144 `mod` 2 ^ 18) with 0. cbn. lia.
  - rewrite (Z.mod_small q) by lia. rewrite (proj2 (Z.eqb_neq q 0)) by lia. lia.
Qed.

Lemma is_u8_0 : is_u8 0.
Proof. unfold is_uint. lia. Qed.
#[local] Hint Resolve is_u8_0 : codec.

Lemma writes_doe_header mode h :
  doe_wf h → writes MkEncodeErr (PciDoeMessageHeader_encode mode h) (doe_wire h) 8%nat.
Proof.
  intros Hh. destruct (doe_words_spec h Hh) as (Hw&Hle&Hu&_).
  pose proof Hh as (Hv&Ht&Hp&_). unfold PciDoeMessageHeader_encode, doe_wire.
  rewrite decide_True by (unfold is_uint; lia). eapply writes_eq.
  { do 3 (eapply writes_bind; [apply encode_ok; codec_side|cbv beta]).
    eapply writes_bind; [apply writes_ret|cbv beta].
    rewrite (proj2 (Z.ltb_ge _ _)), Hw by lia. writes_steps. }
  - cbn [app]. by rewrite app_nil_r.
  - by rewrite !length_le_bytes.
Qed.

Lemma reads_doe_header h : doe_wf h → reads PciDoeMessageHeader_read (doe_wire h) h.
Proof.
  intros Hh. destruct (doe_words_spec h Hh) as (_&_&Hu&Hl&Hb).
  pose proof Hh as (Hv&Ht&Hp&_). unfold PciDoeMessageHeader_read, doe_wire.
  eapply reads_eq.
  { reads_with (vendor_id h). reads_with (data_object_type h). reads_with 0.
    reads_with (doe_words h). rewrite Hl.
    set (w := if doe_words h =? 0 then 0x40000 else doe_words h) in *.
    rewrite (proj2 (Z.ltb_ge w 2)), Z.shiftl_mul_pow2 by lia. change (2 ^ 2) with 4.
    rewrite Hb, as_uint_id by (unfold is_uint; lia).
    rewrite (proj2 (Z.leb_le _ _)) by lia. cbn [ok_or].
    eapply reads_bind; [apply reads_ret|]. apply reads_ret. }
  - cbn [app]. by rewrite app_nil_r.
  - destruct h. cbn. f_equal. lia.
Qed.

Lemma aligned_bounds n : (n ≤ (n + 3) / 4 * 4 ≤ n + 3)%nat ∧ Z.of_nat ((n + 3) / 4 * 4) `mod` 4 = 0.
Proof.
  pose proof (Nat.div_mod (n + 3) 4) as Hd. pose proof (Nat.mod_upper_bound (n + 3) 4) as Hm.
  split; [lia|]. rewrite Nat2Z.inj_mul. apply Z.mod_mul. lia.
Qed.

Definition doe_header (secured_message : bool) (payload_len : nat) : PciDoeMessageHeader := {|
  vendor_id := PciDoeVendorIdPciSig;
  data_object_type := if secured_message then PciDoeDataObjectTypeSecuredSpdm
                      else PciDoeDataObjectTypeSpdm;
  payload_length := Z.of_nat ((payload_len + 3) / 4 * 4) |}.

Lemma doe_header_wf secured n :
  Z.of_nat ((n + 3) / 4 * 4) ≤ 0xFFFF8 → doe_wf (doe_header secured n).
Proof.
  intros Hn. destruct (aligned_bounds n) as [_ Hm].
  unfold doe_wf, doe_header. cbn [vendor_id data_object_type payload_length].
  split_and!; [done|by destruct secured|lia|lia|done].
Qed.

Lemma length_doe_wire h : length (doe_wire h) = 8%nat.
Proof. unfold doe_wire. by rewrite !length_app, !length_le_bytes. Qed.

(** The result of an encapsulation that fits: header, payload, and the padding that was in the
    buffer. *)
Lemma doe_encap_ok mode msg secured buf :
  (8 + (length msg + 3) / 4 * 4 ≤ length buf)%nat → Z.of_nat (length buf) < 2 ^ 19 →
  doe_encap mode msg secured buf =
  (Ok (8 + (length msg + 3) / 4 * 4)%nat,
   doe_wire (doe_header secured (length msg)) ++ msg ++ drop (8 + length msg) buf).
Proof.
  intros Hl Hb. destruct (aligned_bounds (length msg)) as [Ha _].
  set (h := doe_header secured (length msg)). assert (doe_wf h) as Hh by (apply doe_header_wf; lia).
  unfold doe_encap. erewrite bind_step by done. rewrite as_uint_id by (unfold is_uint; lia).
  fold (doe_header secured (length msg)). fold h.
  erewrite bind_step by (apply (with_writer_wire _ _ (doe_wire h) 8%nat);
    [by eapply appends_map_err, writes_appends, writes_doe_header|rewrite length_doe_wire; lia]).
  cbv beta iota. erewrite bind_step by done. unfold Writer_used. cbn [wr_offs wr_buf].
  pose proof (length_doe_wire h) as Hw.
  rewrite (proj2 (Nat.ltb_ge (length buf) _)) by lia.
  erewrite bind_step by (apply slice_copy_behind; lia).
  erewrite bind_step by done. by rewrite Hw.
Qed.

Lemma doe_encap_inv mode msg secured buf n buf' :
  Z.of_nat (length buf) < 2 ^ 19 → doe_encap mode msg secured buf = (Ok n, buf') →
  (8 + (length msg + 3) / 4 * 4 ≤ length buf)%nat.
Proof.
  intros Hb He. pose proof He as Hc. unfold doe_encap in Hc. minv.
  match goal with x : (_ * Writer)%type |- _ => destruct x as [k w] end. minv.
  apply Nat.ltb_ge in Heqb. rewrite as_uint_id in * by (unfold is_uint; lia).
  assert (doe_wf (doe_header secured (length msg))) as Hwf.
  { apply doe_header_wf. destruct (aligned_bounds (length msg)). lia. }
  match goal with H : with_writer ?buf ?c _ = _ |- _ =>
    erewrite (with_writer_cases _ buf c) in H
      by (eapply writes_map_err, (writes_doe_header mode _ Hwf)); case_decide as Hl; [|done];
    injection H as _ <-
  end.
  rewrite length_doe_wire in Hl. unfold Writer_used in Heqb. cbn [wr_offs] in Heqb.
  exact Heqb.
Qed.

Lemma doe_decap_ok h (secured : bool) msg rest out :
  doe_wf h → vendor_id h = PciDoeVendorIdPciSig →
  data_object_type h = (if secured then PciDoeDataObjectTypeSecuredSpdm
                        else PciDoeDataObjectTypeSpdm) →
  length msg = Z.to_nat (payload_length h) → (length msg ≤ length out)%nat →
  doe_decap (doe_wire h ++ msg ++ rest) out =
  (Ok (length msg, secured), msg ++ drop (length msg) out).
Proof.
  intros Hh Hv Ht Hm Hl. unfold doe_decap.
  erewrite bind_step by (apply with_reader_ok with (bs := doe_wire h) (tl := msg ++ rest);
    [by apply reads_map_err, reads_doe_header|done]).
  cbv beta iota. rewrite Hv, Ht, <- Hm.
  assert (Reader_used (Reader_advance (Reader_init (doe_wire h ++ msg ++ rest))
    (length (doe_wire h))) = length (doe_wire h)) as Hu by done.
  rewrite Hu, (bind_step _ _ out out secured) by (by destruct secured).
  rewrite (proj2 (Nat.ltb_ge _ _)) by (rewrite !length_app; lia).
  erewrite bind_step by done. rewrite (proj2 (Nat.ltb_ge _ _)) by lia.
  erewrite bind_step by (apply sub_slice_app; lia).
  erewrite bind_step by (by apply slice_copy_front).
  erewrite bind_step by done. done.
Qed.

Lemma doe_encap_decap mode msg secured buf n buf' out :
  Z.of_nat (length buf) < 2 ^ 19 → doe_encap mode msg secured buf = (Ok n, buf') →
  (n ≤ length out)%nat →
  ∃ out', doe_decap (take n buf') out = (Ok (((length msg + 3) / 4 * 4)%nat, secured), out') ∧
    take (length msg) out' = msg ∧ length out' = length out.
Proof.
  intros Hb He Hn. pose proof (doe_encap_inv _ _ _ _ _ _ Hb He) as Hl.
  destruct (aligned_bounds (length msg)) as [Ha _].
  rewrite (doe_encap_ok mode msg secured buf Hl) in He by lia.
  set (k := ((length msg + 3) / 4 * 4)%nat) in *. set (h := doe_header secured (length msg)) in *.
  assert (n = (8 + k)%nat ∧ buf' = doe_wire h ++ msg ++ drop (8 + length msg) buf)
    as [-> ->] by (split; congruence).
  pose proof (length_doe_wire h) as Hw.
  set (pad := take (k - length msg) (drop (8 + length msg) buf)).
  assert (length pad = k - length msg)%nat as Hp by (unfold pad; rewrite length_take, length_drop; lia).
  assert (take (8 + k) (doe_wire h ++ msg ++ drop (8 + length msg) buf) =
    doe_wire h ++ (msg ++ pad) ++ []) as ->.
  { rewrite app_nil_r, take_app_ge, Hw by lia. f_equal.
    rewrite take_app_ge by lia. unfold pad. do 2 f_equal. lia. }
  assert (length (msg ++ pad) = k) as Hk by (rewrite length_app; lia).
  exists ((msg ++ pad) ++ drop k out).
  split_and!; [|by rewrite <- app_assoc, take_app_length
    |rewrite length_app, Hk, length_drop; lia].
  rewrite <- Hk at 1 2. apply doe_decap_ok; [apply doe_header_wf; fold k; lia|done|done| |lia].
  rewrite Hk. cbn [payload_length h doe_header]. fold k. lia.
Qed.

#[global] Instance doe_transport_laws mode : TransportLaws (PciDoeTransportEncap mode).
Proof.
  refine {| padded := λ n, ((n + 3) / 4 * 4)%nat; app_flag := λ _, false |};
    cbn [t_encap t_decap t_encap_app t_decap_app PciDoeTransportEncap].
  - intros msg secured buf n buf' out. apply doe_encap_decap.
  - intros msg is_app buf n buf' out He Hn. unfold doe_encap_app, slice_copy in He.
    erewrite bind_step in He by done. case_decide as Hl; [|done].
    erewrite !bind_step in He by done.
    assert (n = length msg ∧ buf' = splice 0 msg buf) as [-> ->]
      by (unfold ret in He; split; congruence).
    unfold splice. rewrite take_0, app_nil_l, take_app_length. unfold doe_decap_app.
    erewrite bind_step by done. erewrite bind_step by (by apply slice_copy_front).
    eexists. split; [done|]. split; [by rewrite take_app_length|].
    rewrite length_app, length_drop. lia.
Defined.

(** The bindings, what they put in front of and behind a message, and what they keep of the flag of
    application data. *)
Inductive binding := Mctp | PciDoe (mode : overflow_mode).
Definition transport_of (b : binding) : SpdmTransportEncap :=
  match b with Mctp => MctpTransportEncap | PciDoe mode => PciDoeTransportEncap mode end.
Definition payload_size (b : binding) (n : nat) : nat :=
  match b with Mctp => n | PciDoe _ => ((n + 3) / 4 * 4)%nat end.
Definition flag_kept (b : binding) (is_app : bool) : bool :=
  match b with Mctp => is_app | PciDoe _ => false end.

(** C31: The transport bindings are invertible, for buffers of less than 512 KiB.  What [encap] puts
    into a buffer [decap] takes out again: the same kind of message, and the message, over MCTP
    exactly and over PCI DOE padded to the next multiple of four bytes; [decap_app] undoes
    [encap_app] exactly, and returns the flag of application data over MCTP, and false over PCI DOE,
    which does not transmit it. *)
Theorem bindings_invertible (b : binding) msg flag buf n buf' abuf k abuf' out :
  Z.of_nat (length buf) < 2 ^ 19 → (n ≤ length out)%nat → (k ≤ length out)%nat →
  @t_encap (transport_of b) msg flag buf = (Ok n, buf') →
  @t_encap_app (transport_of b) msg flag abuf = (Ok k, abuf') →
  (∃ out', @t_decap (transport_of b) (take n buf') out = (Ok (payload_size b (length msg), flag), out') ∧
     take (length msg) out' = msg) ∧
  (∃ out', @t_decap_app (transport_of b) (take k abuf') out =
       (Ok (length msg, flag_kept b flag), out') ∧ take (length msg) out' = msg).
Proof.
  intros Hb Hn Hk He Ha. destruct b; cbn [transport_of payload_size flag_kept] in *.
  all: split; [destruct (encap_decap _ _ _ _ _ out Hb He Hn) as (out'&?&?&?)
              |destruct (encap_app_decap_app _ _ _ _ _ out Ha Hk) as (out'&?&?&?)]; by exists out'.
Qed.

Lemma bindings_invertible_witness :
  (∃ out', @t_decap (PciDoeTransportEncap Checked)
       [1; 0; 2; 0; 4; 0; 0; 0; 0x12; 0x84; 0; 0; 7; 0; 0; 0] (replicate 20 0) =
     (Ok (8%nat, true), out') ∧ take 5 out' = [0x12; 0x84; 0; 0; 7]) ∧
  (∃ out', @t_decap_app (PciDoeTransportEncap Checked) [0x12; 0x84; 0; 0; 7] (replicate 20 0) =
     (Ok (5%nat, false), out') ∧ take 5 out' = [0x12; 0x84; 0; 0; 7]).
Proof.
  apply (bindings_invertible (PciDoe Checked) [0x12; 0x84; 0; 0; 7] true
    (replicate 16 0) 16 [1; 0; 2; 0; 4; 0; 0; 0; 0x12; 0x84; 0; 0; 7; 0; 0; 0]
    (replicate 5 0) 5 [0x12; 0x84; 0; 0; 7] (replicate 20 0));
    [cbn; lia|cbn; lia|cbn; lia|vm_compute; reflexivity..].
Defined.
