(* ===== verification/ToyContext.v ===== *)
(** A concrete responder on which the theorems about contexts are evaluated: a device that
    keeps the packets it is sent and delivers the ones it was given, the configuration of a
    device with all the capabilities that the theorems need, and a context after the
    negotiation of version 1.2. *)

From S2P Require Import Prelude Config Codec Status Algo Protocol Crypto SpdmRing ToyRing KeySchedule Buffers Session Context.

(** The packets that will be received and those that were sent. *)
Definition toy_device : SpdmDeviceIo := {|
  io := (list bytes * list bytes)%type;
  io_send bs := modify (λ d, (d.1, d.2 ++ [bs]));
  io_receive _ := λ st,
    match st.1.1 with
    | [] => (Err 0%nat, st)
    | bs :: inbox =>
        if decide (length bs ≤ length st.2)%nat
        then (Ok (length bs), ((inbox, st.1.2), splice 0 (as_u8 <$> bs) st.2))
        else (Err 0%nat, ((inbox, st.1.2), st.2))
    end;
  io_flush_all := ret tt;
|}.

Section Toy.
#[local] Existing Instances default_config toy_crypto toy_secret toy_device.

Definition toy_rsp_capabilities : Z :=
  fold_right Z.lor 0
    [SpdmResponseCapabilityFlags.CERT_CAP; SpdmResponseCapabilityFlags.CHAL_CAP;
     SpdmResponseCapabilityFlags.MEAS_CAP_SIG; SpdmResponseCapabilityFlags.ENCRYPT_CAP;
     SpdmResponseCapabilityFlags.MAC_CAP; SpdmResponseCapabilityFlags.KEY_EX_CAP;
     SpdmResponseCapabilityFlags.PSK_CAP_WITH_CONTEXT; SpdmResponseCapabilityFlags.KEY_UPD_CAP].
Definition toy_req_capabilities : Z :=
  fold_right Z.lor 0
    [SpdmRequestCapabilityFlags.ENCRYPT_CAP; SpdmRequestCapabilityFlags.MAC_CAP;
     SpdmRequestCapabilityFlags.KEY_EX_CAP; SpdmRequestCapabilityFlags.PSK_CAP;
     SpdmRequestCapabilityFlags.KEY_UPD_CAP].

Definition toy_config_info : SpdmConfigInfo := {|
  config_spdm_version := [SpdmVersion10; SpdmVersion11; SpdmVersion12];
  config_req_capabilities := toy_req_capabilities;
  config_rsp_capabilities := toy_rsp_capabilities;
  config_req_ct_exponent := 0;
  config_rsp_ct_exponent := 0;
  config_measurement_specification := SpdmMeasurementSpecification.DMTF;
  config_measurement_hash_algo := SpdmMeasurementHashAlgo.TPM_ALG_SHA_384;
  config_base_hash_algo := SpdmBaseHashAlgo.TPM_ALG_SHA_384;
  config_base_asym_algo := SpdmBaseAsymAlgo.TPM_ALG_ECDSA_ECC_NIST_P384;
  config_dhe_algo := SpdmDheAlgo.SECP_384_R1;
  config_aead_algo := SpdmAeadAlgo.AES_256_GCM;
  config_req_asym_algo := SpdmReqAsymAlgo.TPM_ALG_RSAPSS_2048;
  config_key_schedule_algo := SpdmKeyScheduleAlgo.SPDM_KEY_SCHEDULE;
  config_opaque_support := 2;
  config_session_policy := 1;
  config_runtime_content_change_support := true;
  config_data_transfer_size := 4096;
  config_max_spdm_msg_size := 4096;
  config_heartbeat_period := 0;
  config_secure_spdm_version := [0x10; 0x11];
|}.

(** A certificate of 292 bytes in the format that is checked. *)
Definition toy_cert (key : Z) : bytes :=
  let ecdsa := [0x30; 0x0A; 0x06; 8; 0x2A; 0x86; 0x48; 0xCE; 0x3D; 0x04; 0x03; 0x03] in
  [0x30; 0x82; 0x01; 0x20] ++
    [0x30; 0x82; 0x01; 0x0D; 0xA0; 0x03; 0x02; 0x01; 0x02; 0x02; 1; 1] ++ ecdsa ++
      [0x30; 0; 0x30; 0; 0x30; 0; 0x30; 0x81; 0xF0] ++ replicate 240 0 ++
    ecdsa ++ [0x03; 1; key].
Definition toy_chain : SpdmCertChainData :=
  {| data_size := 292; data := toy_cert 7 ++ replicate (MAX_SPDM_CERT_CHAIN_DATA_SIZE - 292) 0 |}.

Definition toy_provision : SpdmProvisionInfo := {|
  my_cert_chain_data := Some toy_chain :: replicate 7 None;
  my_cert_chain := replicate 8 None;
  peer_root_cert_data := None;
|}.

(** A fresh responder that will receive [inbox]. *)
Definition toy_start (inbox : list bytes) : SpdmContext :=
  SpdmContext_new (inbox, []) 1 toy_config_info toy_provision.

(** What is agreed when both sides follow the configuration. *)
Definition toy_negotiated : SpdmNegotiateInfo := {|
  spdm_version_sel := SpdmVersion12;
  req_capabilities_sel := toy_req_capabilities;
  rsp_capabilities_sel := toy_rsp_capabilities;
  req_ct_exponent_sel := 0;
  rsp_ct_exponent_sel := 0;
  measurement_specification_sel := SpdmMeasurementSpecification.DMTF;
  measurement_hash_sel := SpdmMeasurementHashAlgo.TPM_ALG_SHA_384;
  base_hash_sel := SpdmBaseHashAlgo.TPM_ALG_SHA_384;
  base_asym_sel := SpdmBaseAsymAlgo.TPM_ALG_ECDSA_ECC_NIST_P384;
  dhe_sel := SpdmDheAlgo.SECP_384_R1;
  aead_sel := SpdmAeadAlgo.AES_256_GCM;
  req_asym_sel := 0;
  key_schedule_sel := SpdmKeyScheduleAlgo.SPDM_KEY_SCHEDULE;
  opaque_data_support := 2;
  termination_policy_set := false;
  req_data_transfer_size_sel := 4096;
  req_max_spdm_msg_size_sel := 4096;
  rsp_data_transfer_size_sel := 4096;
  rsp_max_spdm_msg_size_sel := 4096;
|}.

(** A context after the negotiation, with one certificate chain in place. *)
Definition toy_context : SpdmContext :=
  toy_start [] <| negotiate_info := toy_negotiated |>
    <| runtime_info ::= λ r, r <| connection_state := SpdmConnectionNegotiated |> |>
    <| provision_info ::= λ p, p <| my_cert_chain :=
         Some {| data_size := 344;
                 data := [88; 1; 0; 0] ++ replicate 48 9 ++ toy_cert 7 ++ replicate 3820 0 |}
         :: replicate 7 None |> |>.

End Toy.
