(* ===== verification/MbedtlsExample.v ===== *)
(** A concrete implementation of the [MbedTls] interface, without cryptographic strength, on which
    the theorems about the callbacks over mbedtls are evaluated. *)

From S2P Require Import Prelude Config Codec Status Algo Protocol Crypto SpdmRing CertOps CertTrust ToyRing KeySchedule Buffers Session SessionProofs Context ToyContext Mbedtls MbedtlsProofs.

Definition toy_auth_decrypt (key iv aad tag ct : bytes) : bool * bytes :=
  let pt := Z.lxor (toy_mask key) <$> ct in
  if decide (tag = checksum (length tag) (key ++ iv ++ aad ++ pt)) then (true, pt)
  else (false, zeros (length ct)).

Definition toy_mbedtls : MbedTls := {|
  mbed_world := nat;
  mbedtls_md_info_from_type t :=
    if t =? 6 then Some MD_SHA256 else if t =? 7 then Some MD_SHA384 else
    if t =? 8 then Some MD_SHA512 else None;
  mbedtls_md_get_size := md_size;
  mbedtls_sha256 bs _ := Some (checksum 32 bs);
  mbedtls_sha512 bs is384 := Some (checksum (if is384 =? 1 then 48 else 64) bs);
  md_context := (md_info * bytes)%type;
  md_context_info := fst;
  mbedtls_md_setup i := Some (i, []);
  mbedtls_md_starts c := Some (c.1, []);
  mbedtls_md_update c bs := Some (c.1, c.2 ++ bs);
  mbedtls_md_finish c := Some (checksum (md_size c.1) c.2);
  mbedtls_md_hmac i key bs := Some (checksum (md_size i) (key ++ bs));
  mbedtls_hkdf_expand i prk info n := Some (checksum n (prk ++ info));
  mbedtls_gcm_setkey _ := true;
  mbedtls_gcm_crypt_and_tag key iv aad pt n :=
    (true, (Z.lxor (toy_mask key) <$> pt, checksum n (key ++ iv ++ aad ++ pt)));
  mbedtls_gcm_auth_decrypt := toy_auth_decrypt;
  mbedtls_chachapoly_setkey _ := true;
  mbedtls_chachapoly_encrypt_and_tag key iv aad pt :=
    (true, (Z.lxor (toy_mask key) <$> pt, checksum 16 (key ++ iv ++ aad ++ pt)));
  mbedtls_chachapoly_auth_decrypt := toy_auth_decrypt;
  x509_crt := bytes;
  mbedtls_x509_crt_parse_der bs := n ← toy_sequence bs; Some (take n bs);
  mbedtls_asn1_get_tag bs := n ← toy_sequence bs; Some (4%nat, (n - 4)%nat);
  mbedtls_x509_crt_verify crts ca :=
    match crts, ca with crt :: _, Some ca => bool_decide (crt = ca) | _, _ => false end;
  mbedtls_pk_verify crt _ hash signature := bool_decide (signature = checksum 8 (crt ++ hash));
  mbedtls_pk_rsa _ := true;
  mbedtls_rsa_rsassa_pss_verify crt _ hash signature := bool_decide (signature = checksum 8 (crt ++ hash));
  mbedtls_mpi_size x := if x =? 0 then 0%nat else Z.to_nat (Z.log2 x / 8 + 1);
  mbedtls_mpi_write_binary x n :=
    if decide (is_uint (8 * Z.of_nat n) x) then ret (reverse (le_bytes n x)) else throw tt;
  mbedtls_mpi_read_binary bs := ret (le_val (reverse bs));
  ecp_group := mbedtls_ecp_group_id;
  ecp_point := Z;
  mbedtls_ecp_group_load := ret;
  mbedtls_ecp_point_write_binary g p _ :=
    if decide (is_uint (8 * Z.of_nat (coordinates_size g)) p)
    then ret (0x04 :: le_bytes (coordinates_size g) p) else throw tt;
  mbedtls_ecp_point_read_binary _ bs := ret (le_val (tail bs));
  mbedtls_ecdh_gen_public rng _ := let* bs := rng 16%nat in ret (le_val bs, le_val bs);
  mbedtls_ecdh_compute_shared rng _ pub pri := rng 8%nat;; ret (pub * pri);
  rdrand64_step w := (Ok (checksum 8 [Z.of_nat w]), S w);
|}.

Lemma toy_mbed_hash_laws : @MbedHashLaws toy_mbedtls.
Proof.
  refine {| mbed_digest := λ i bs, checksum (md_size i) bs; md_data := λ c : @md_context toy_mbedtls, c.2 |};
    cbn; try done; intros.
  - apply length_checksum.
  - apply le_bytes_u8.
  - by simplify_eq.
  - by simplify_eq.
  - by simplify_eq.
  - simplify_eq. split; [apply length_checksum|apply le_bytes_u8].
  - simplify_eq. split; [apply length_checksum|apply le_bytes_u8].
Qed.

Lemma toy_unmask key (pt : bytes) : Z.lxor (toy_mask key) <$> (Z.lxor (toy_mask key) <$> pt) = pt.
Proof.
  rewrite <- list_fmap_compose. rewrite <- (list_fmap_id pt) at 2. apply list_fmap_ext.
  intros _ b _. cbn. by rewrite <- Z.lxor_assoc, Z.lxor_nilpotent.
Qed.
Lemma toy_auth_decrypt_ok key iv aad pt n :
  toy_auth_decrypt key iv aad (checksum n (key ++ iv ++ aad ++ pt)) (Z.lxor (toy_mask key) <$> pt) = (true, pt).
Proof. unfold toy_auth_decrypt. rewrite toy_unmask, length_checksum. by rewrite decide_True. Qed.
Lemma toy_auth_decrypt_failed key iv aad tag ct out :
  toy_auth_decrypt key iv aad tag ct = (false, out) → out = zeros (length ct).
Proof. unfold toy_auth_decrypt. case_decide; [done|]. by intros [= <-]. Qed.
Lemma toy_mbed_aead_laws : @MbedAeadLaws toy_mbedtls.
Proof.
  split; cbn; try done.
  - intros key iv aad pt n ct tag [= <- <-]. rewrite length_fmap, length_checksum. split_and!; [done..|].
    apply toy_auth_decrypt_ok.
  - intros *. apply toy_auth_decrypt_failed.
  - intros key iv aad pt _ _. exists (Z.lxor (toy_mask key) <$> pt), (checksum 16 (key ++ iv ++ aad ++ pt)).
    split_and!; [done|apply length_fmap|apply length_checksum|apply toy_auth_decrypt_ok].
  - intros *. apply toy_auth_decrypt_failed.
Qed.

Lemma toy_sequence_front cert n rest :
  toy_sequence cert = Some n → (n ≤ length cert)%nat ∧ toy_sequence (cert ++ rest) = Some n.
Proof.
  intros Hn. split; [apply (@sequence_prefix toy_webpki toy_webpki_laws cert n Hn)|].
  exact (@sequence_local toy_webpki toy_webpki_laws cert n rest Hn).
Qed.
Lemma toy_mbed_x509_laws : @MbedX509Laws toy_mbedtls.
Proof.
  split; cbn; try done.
  - intros cert crt rest. destruct (toy_sequence cert) as [n|] eqn:Hn; [|done]. intros [= <-].
    destruct (toy_sequence_front cert n rest Hn) as [Hl ->]. cbn. by rewrite take_app_le.
  - intros cert tag rest. destruct (toy_sequence cert) as [n|] eqn:Hn; [|done]. intros [= <-].
    by destruct (toy_sequence_front cert n rest Hn) as [_ ->].
  - intros hi lo body tag. unfold toy_sequence. cbn [app]. cbv zeta.
    destruct (_ && _); [|done]. intros [= <-]. f_equal. lia.
Qed.

Lemma toy_mbed_ecdh_laws : @MbedEcdhLaws toy_mbedtls.
Proof.
  refine {| ecp_pair := λ _ pri (pub : @ecp_point toy_mbedtls), pub = pri |}; cbn.
  - intros *. unfold ret. by intros [= <- _] [= <- _].
  - intros x n w bs w' v bs' v'. case_decide; [|done]. by intros [= <- _] [= <- _].
  - intros x n w bs w' v y v'. case_decide as Hx; [|done]. intros [= <- _] [= <- _].
    by rewrite reverse_involutive, le_val_le_bytes, as_uint_id.
  - intros g w grp w' p n v bs v' [= <- _]. case_decide as Hp; [|done]. intros [= <- _].
    exists (le_bytes (coordinates_size g) p). split; [done|apply length_le_bytes].
  - intros g p n w bs w' v q v'. case_decide as Hp; [|done]. intros [= <- _] [= <- _].
    cbn. by rewrite le_val_le_bytes, as_uint_id.
  - intros rng g w pri pub w' (bs&w1&_&[= <- <- _])%bind_ok. done.
  - intros rng g pri1 pub1 pri2 pub2 w z w' v z' v' -> ->.
    intros (?&?&_&[= <- _])%bind_ok (?&?&_&[= <- _])%bind_ok. lia.
Qed.

Section Example.
#[local] Existing Instances default_config toy_mbedtls mbedtls_crypto toy_mbed_aead_laws toy_mbed_x509_laws toy_mbed_ecdh_laws.

Definition toy_mbed_secret : Secret := {|
  measurement_collection _ _ _ _ := throw tt;
  generate_measurement_summary_hash _ _ _ _ _ := throw tt;
  handshake_secret_hkdf_expand _ _ _ _ := Err tt;
  master_secret_hkdf_expand _ _ _ _ := Err tt;
  asym_sign _ _ _ := throw tt;
|}.
#[local] Existing Instance toy_mbed_secret.

Definition toy_mbed_session : SpdmSession :=
  SpdmSession_new
    <| session_id := 0xFFFEFFFE |>
    <| crypto_param ::= λ c, c <| cp_aead_algo := SpdmAeadAlgo.AES_256_GCM |> |>
    <| transport_param := {| sequence_number_count := 8; max_random_count := 32 |} |>
    <| session_state := SpdmSessionEstablished |>
    <| application_secret ::= λ a, a <| app_request_direction := toy_param 41 |> |>.

Lemma mbedtls_forgery_accepted_witness :
  ∃ s', decode_spdm_secured_message Checked
      (secured_aad toy_mbed_session (toy_param 41) 0 ++ [0xAB; 0xCD] ++ replicate 16 0xEE ++ []) true
      (toy_mbed_session, replicate 64 0) = (Ok 0%nat, (s', replicate 64 0)) ∧
    advanced true toy_mbed_session s'.
Proof.
  apply (mbedtls_forgery_accepted Checked true toy_mbed_session [0xAB; 0xCD] (replicate 16 0xEE) []);
    try reflexivity.
  - split; try done; try (cbn; lia); unfold is_uint; cbn; lia.
  - apply (bool_decide_unpack _). vm_compute. exact I.
  - apply (bool_decide_unpack _). vm_compute. exact I.
Defined.

Lemma mbedtls_leaf_unverified_witness :
  let chain := toy_cert 7 ++ concat [] ++ toy_cert 9 in
  Crypto.verify_cert_chain chain = Ok tt ∧
  Crypto.asym_verify SpdmBaseHashAlgo.TPM_ALG_SHA_384 SpdmBaseAsymAlgo.TPM_ALG_ECDSA_ECC_NIST_P384
    chain [1; 2; 3] (toy_sized 96 512 []) =
  Crypto.asym_verify SpdmBaseHashAlgo.TPM_ALG_SHA_384 SpdmBaseAsymAlgo.TPM_ALG_ECDSA_ECC_NIST_P384
    (toy_cert 9) [1; 2; 3] (toy_sized 96 512 []).
Proof.
  assert (∀ key, der_cert (toy_cert key)) as Hder.
  { intros key. eexists 0x01, 0x20, _. split; [reflexivity|]. reflexivity. }
  apply (mbedtls_leaf_unverified (toy_cert 7) (4, 288)%nat [] (toy_cert 9));
    [vm_compute; reflexivity|vm_compute; reflexivity|apply Hder|apply Forall_nil_2|apply Hder].
Defined.

Lemma mbedtls_key_agreement_witness :
  ∃ e1 p1 e2 p2 w3 key1 w4 key2 w5,
    mbed_generate_key_pair (mbed:=toy_mbedtls) SpdmDheAlgo.SECP_384_R1 0%nat = (Ok (e1, p1), 2%nat) ∧
    mbed_generate_key_pair (mbed:=toy_mbedtls) SpdmDheAlgo.SECP_384_R1 2%nat = (Ok (e2, p2), w3) ∧
    mbed_compute_final_key p1 e2 w3 = (Ok key1, w4) ∧
    mbed_compute_final_key p2 e1 w4 = (Ok key2, w5) ∧ key1 = key2.
Proof.
  eexists _, _, _, _, _, _, _, _, _.
  eassert (H1 : mbed_generate_key_pair (mbed:=toy_mbedtls) SpdmDheAlgo.SECP_384_R1 0%nat = (Ok (_, _), 2%nat))
    by (vm_compute; reflexivity).
  eassert (H2 : mbed_generate_key_pair (mbed:=toy_mbedtls) SpdmDheAlgo.SECP_384_R1 2%nat = (Ok (_, _), _))
    by (vm_compute; reflexivity).
  eassert (H3 : mbed_compute_final_key _ _ _ = (Ok _, _)).
  2: eassert (H4 : mbed_compute_final_key _ _ _ = (Ok _, _)).
  3: exact (conj H1 (conj H2 (conj H3 (conj H4
       (mbedtls_key_agreement (mbed:=toy_mbedtls) _ _ _ _ _ _ _ _ _ _ _ _ _ _ _ H1 H2 H3 H4))))).
  all: vm_compute; reflexivity.
Defined.
End Example.
