(* ===== verification/CertExample.v ===== *)
(** The theorems about certificate chains, evaluated on the certificates of [ToyContext]: a chain
    that is trusted, and the same chain with a certificate appended that nobody verified. *)

From S2P Require Import Prelude Config Codec Status Algo Protocol X509 Crypto SpdmRing CertOps CertTrust ToyRing ToyContext.

Section Example.
#[local] Existing Instances default_config toy_webpki toy_webpki_laws.

Abbreviation SHA_384 := SpdmBaseHashAlgo.TPM_ALG_SHA_384.
Abbreviation P384 := SpdmBaseAsymAlgo.TPM_ALG_ECDSA_ECC_NIST_P384.

Definition signed_by (key : Z) (message : bytes) : SpdmSignatureStruct := {|
  data_size := 96;
  data := toy_signature key message ++ replicate (SPDM_MAX_ASYM_KEY_SIZE - 96) 0;
|}.

Lemma leaf_trusted_witness :
  ∃ front leaf, split_certs 292 (toy_cert 7) = front ++ [leaf] ∧
    chain_verified toy_time (front ++ [leaf]) ∧
    signed_with leaf SHA_384 P384 [1; 2; 3] (signed_by 7 [1; 2; 3]).
Proof.
  apply (leaf_trusted Checked 292 SHA_384 P384 toy_time (toy_cert 7)); by vm_compute.
Defined.

(** 49 bytes, with a length in two octets that fits one. *)
Definition toy_filler : bytes := [0x30; 0x82; 0; 0x2D] ++ toy_tbs ++ toy_algorithm ++ [0x03; 1; 0].

Lemma der_cert_dec hi lo body :
  (length body =? Z.to_nat (Z.shiftl hi 8) + Z.to_nat lo)%nat = true →
  der_cert ([0x30; 0x82; hi; lo] ++ body).
Proof. intros H%Nat.eqb_eq. by exists hi, lo, body. Qed.
Lemma toy_cert_der key : der_cert (toy_cert key).
Proof. by apply der_cert_dec. Qed.

Lemma appended_certificate_witness :
  CertOps.verify_cert_chain toy_time (toy_cert 7 ++ toy_filler ++ toy_cert 9) = Ok tt ∧
  CertOps.get_cert_from_cert_chain (toy_cert 7 ++ toy_filler ++ toy_cert 9) 0 =
  CertOps.get_cert_from_cert_chain (toy_cert 7) 0 ∧
  CertOps.asym_verify Checked 633 SHA_384 P384 (toy_cert 7 ++ toy_filler ++ toy_cert 9) [1; 2; 3]
    (signed_by 9 [1; 2; 3]) = Ok (Some tt).
Proof.
  apply (appended_certificate Checked 633 SHA_384 P384 toy_time (toy_cert 7) toy_filler (toy_cert 9)
           [1; 2; 3] (signed_by 9 [1; 2; 3]) 3).
  - by vm_compute.
  - by vm_compute.
  - replace (split_certs (length (toy_cert 7)) (toy_cert 7)) with [toy_cert 7] by (by vm_compute).
    apply Forall_singleton, toy_cert_der.
  - by apply der_cert_dec.
  - done.
  - apply toy_cert_der.
  - by vm_compute.
  - eexists _, _. split_and!; [reflexivity|reflexivity|reflexivity|apply Nat.leb_le; by vm_compute|].
    eexists _, _. split_and!; [vm_compute; reflexivity|apply Nat.leb_le; by vm_compute|by vm_compute].
Defined.

End Example.
