(* ===== verification/SpdmCodec.v ===== *)
(** Model of spdmlib/src/common/spdm_codec.rs and spdmlib/src/common/opaque.rs: the codec
    interface of messages, whose formats depend on what has been negotiated, and the formats
    of digests, signatures, key shares, measurement records and opaque data.

    The source passes the context by mutable reference but no codec assigns to it, so here a
    codec is a function of the context.  [SpdmCodecOk] states that a codec writes exactly
    [wire v], or fails with [SPDM_STATUS_BUFFER_FULL] when the buffer is too small, and reads
    [v] back; [SpdmParseOk] states that reading arbitrary bytes does not panic and yields
    values that satisfy a predicate. *)

From S2P Require Import Prelude Config Codec Status Algo Protocol Crypto SpdmRing ToyRing KeySchedule Buffers Session Context ToyContext.

(*@ spdmlib/src/common/spdm_codec.rs 19-34 SpdmCodec *)
Record SpdmCodec (A : Type) := {
  spdm_encode : A → M Writer SpdmStatus nat;
  spdm_read : M Reader unit A;
}.
Arguments spdm_encode {A} c v : rename.
Arguments spdm_read {A} c : rename.

Definition spdm_read_bytes {A} (c : SpdmCodec A) (bs : bytes) : outcome unit A :=
  (spdm_read c (Reader_init bs)).1.

(** [v.encode(bytes).map_err(|_| SPDM_STATUS_BUFFER_FULL)?] *)
Definition enc {A} (c : Codec A) (v : A) : M Writer SpdmStatus nat :=
  map_err (λ _, SPDM_STATUS_BUFFER_FULL) (encode c v).
Definition enc_bytes (bs : bytes) : M Writer SpdmStatus nat :=
  map_err (λ _, SPDM_STATUS_BUFFER_FULL) (encode_bytes bs).

Class SpdmCodecOk {A} (c : SpdmCodec A) (wf : A → Prop) (wire : A → bytes) : Prop := {
  spdm_encode_ok v :
    wf v → writes SPDM_STATUS_BUFFER_FULL (spdm_encode c v) (wire v) (length (wire v));
  spdm_read_ok v : wf v → reads (spdm_read c) (wire v) v;
}.

Class SpdmParseOk {A} (c : SpdmCodec A) (P : A → Prop) : Prop :=
  spdm_parse_ok : parser (spdm_read c) P.

Lemma writes_enc {A} (c : Codec A) wf wire `{!CodecOk c wf wire} v :
  wf v → writes SPDM_STATUS_BUFFER_FULL (enc c v) (wire v) (length (wire v)).
Proof. intros Hv. by eapply (writes_map_err (λ _, SPDM_STATUS_BUFFER_FULL)), encode_ok. Qed.

Lemma writes_enc_bytes bs :
  Forall is_u8 bs → writes SPDM_STATUS_BUFFER_FULL (enc_bytes bs) bs (length bs).
Proof.
  intros Hb. by eapply (writes_map_err (λ _, SPDM_STATUS_BUFFER_FULL)), writes_encode_bytes.
Qed.

(** [c.map_err(|_| SPDM_STATUS_BUFFER_FULL)] *)
Lemma writes_full {A} (c : M Writer SpdmStatus A) bs v :
  writes SPDM_STATUS_BUFFER_FULL c bs v →
  writes SPDM_STATUS_BUFFER_FULL (map_err (λ _, SPDM_STATUS_BUFFER_FULL) c) bs v.
Proof. apply (writes_map_err (λ _, SPDM_STATUS_BUFFER_FULL) SPDM_STATUS_BUFFER_FULL). Qed.

#[export] Hint Resolve writes_enc_bytes writes_full : codec.

(** [spdm_writes_steps] follows the fields of an encoder as [writes_steps] does, through
    groups of fields as well. *)
Ltac spdm_writes_field :=
  first [ apply writes_ret
        | eapply writes_enc; [apply _|codec_side]
        | apply spdm_encode_ok; codec_side
        | codec_side
        | eapply writes_bind; [spdm_writes_field|cbv beta; spdm_writes_field] ].

Ltac spdm_writes_steps :=
  repeat first
    [ apply writes_ret
    | eapply writes_bind; [solve [spdm_writes_field]|cbv beta] ].

Ltac spdm_reads_with x :=
  eapply (reads_bind _ _ _ _ x);
  [first [apply read_ok; codec_side | apply spdm_read_ok; codec_side | codec_side]
  |cbv beta].

Ltac spdm_parser_steps :=
  repeat first
    [ apply parser_throw
    | eapply parser_bind;
        [first [apply parse_ok | apply spdm_parse_ok | solve [eauto 4 with codec]]|intros ? ?]
    | apply parser_if; intros ? ].

Section SpdmCodec.
Context `{cfg : Config} `{sec : Secret} `{dev : SpdmDeviceIo}.
Context (context : SpdmContext).

(** ** Digests, signatures and key shares *)

(** A value whose size is given by an algorithm; the size is checked by an assertion. *)
Definition negotiated_codec (get_size : ∀ E : Type, outcome E nat) (max : nat) : SpdmCodec sized := {|
  spdm_encode v :=
    let* n := of_outcome (get_size SpdmStatus) in
    (assert! (data_size v =? n)%nat);;
    enc_bytes (take (data_size v) (data v));;
    ret (data_size v);
  spdm_read :=
    let* n := of_outcome (get_size unit) in
    let* bs := read_array n max in
    ret {| data_size := n; data := bs |};
|}.

(*@ spdmlib/src/common/spdm_codec.rs 36-56 SpdmDigestStruct as SpdmCodec *)
Definition SpdmDigestStruct_codec : SpdmCodec SpdmDigestStruct :=
  negotiated_codec (λ _, get_hash_size context) SPDM_MAX_HASH_SIZE.

(*@ spdmlib/src/common/spdm_codec.rs 58-78 SpdmSignatureStruct as SpdmCodec *)
Definition SpdmSignatureStruct_codec : SpdmCodec SpdmSignatureStruct :=
  negotiated_codec (λ _, get_asym_key_size context) SPDM_MAX_ASYM_KEY_SIZE.

(*@ spdmlib/src/common/spdm_codec.rs 160-179 SpdmDheExchangeStruct as SpdmCodec *)
Definition SpdmDheExchangeStruct_codec : SpdmCodec SpdmDheExchangeStruct := {|
  spdm_encode v := enc_bytes (take (data_size v) (data v));; ret (data_size v);
  spdm_read :=
    let* n := of_outcome (get_dhe_key_size context) in
    let* bs := read_array n SPDM_MAX_DHE_KEY_SIZE in
    ret {| data_size := n; data := bs |};
|}.

(** ** Measurements *)

(*@ spdmlib/src/common/spdm_codec.rs 182-205 SpdmDmtfMeasurementStructure::spdm_encode *)
Definition SpdmDmtfMeasurementStructure_spdm_encode (v : SpdmDmtfMeasurementStructure)
    : M Writer SpdmStatus nat :=
  let* final_value := add_u8 (SpdmDmtfMeasurementType_get_u8 (dmtf_type v))
    (SpdmDmtfMeasurementRepresentation_get_u8 (representation v)) in
  let* n1 := enc u8_codec final_value in
  let* n2 := enc u16_codec (Z.of_nat (value_size v)) in
  let* n3 := enc_bytes (take (value_size v) (value v)) in
  ret (n1 + n2 + n3)%nat.

(** Types 5 to 7 exist as raw bits only. *)
(*@ spdmlib/src/common/spdm_codec.rs 206-268 SpdmDmtfMeasurementStructure::spdm_read *)
Definition read_dmtf_kind (final_value : Z)
    : M Reader unit (SpdmDmtfMeasurementType * SpdmDmtfMeasurementRepresentation) :=
  let type_value := Z.land final_value 0x7f in
  let* representation :=
    match Z.land final_value 0x80 with
    | 0 => ret SpdmDmtfMeasurementDigest
    | 0x80 => ret SpdmDmtfMeasurementRawBit
    | _ => throw tt
    end in
  let raw_only t :=
    match representation with
    | SpdmDmtfMeasurementRawBit => ret t
    | _ => throw tt
    end in
  let* type :=
    match type_value with
    | 0 => ret SpdmDmtfMeasurementRom
    | 1 => ret SpdmDmtfMeasurementFirmware
    | 2 => ret SpdmDmtfMeasurementHardwareConfig
    | 3 => ret SpdmDmtfMeasurementFirmwareConfig
    | 4 => ret SpdmDmtfMeasurementManifest
    | 5 => raw_only SpdmDmtfMeasurementStructuredRepresentationMode
    | 6 => raw_only SpdmDmtfMeasurementMutableFirmwareVersionNumber
    | 7 => raw_only SpdmDmtfMeasurementMutableFirmwareSecurityVersionNumber
    | val => ret (SpdmDmtfMeasurementType_Unknown val)
    end in
  ret (type, representation).

(*@ spdmlib/src/common/spdm_codec.rs 206-268 SpdmDmtfMeasurementStructure::spdm_read *)
Definition SpdmDmtfMeasurementStructure_spdm_read : M Reader unit SpdmDmtfMeasurementStructure :=
  let* final_value := read u8_codec in
  let* (type, representation) := read_dmtf_kind final_value in
  let* value_size := read u16_codec in
  if (MAX_SPDM_MEASUREMENT_VALUE_LEN <? Z.to_nat value_size)%nat then throw tt else
  let algo := measurement_hash_sel (negotiate_info context) in
  let* bad :=
    if decide (representation = SpdmDmtfMeasurementDigest) then
      let* n := of_outcome (SpdmMeasurementHashAlgo.get_size algo) in
      ret (negb (Z.to_nat value_size =? n)%nat || (algo =? SpdmMeasurementHashAlgo.RAW_BIT_STREAM))
    else ret false in
  if (bad : bool) then throw tt else
  let* value := read_array (Z.to_nat value_size) MAX_SPDM_MEASUREMENT_VALUE_LEN in
  ret {| dmtf_type := type; representation := representation;
         value_size := Z.to_nat value_size; value := value |}.

(*@ spdmlib/src/common/spdm_codec.rs 271-320 SpdmMeasurementBlockStructure as SpdmCodec *)
Definition SpdmMeasurementBlockStructure_spdm_codec : SpdmCodec SpdmMeasurementBlockStructure := {|
  spdm_encode v :=
    let* n1 := enc u8_codec (mb_index v) in
    let* n2 := enc SpdmMeasurementSpecification.codec (measurement_specification v) in
    let* n3 := enc u16_codec (measurement_size v) in
    let* n4 := map_err (λ _, SPDM_STATUS_BUFFER_FULL)
      (SpdmDmtfMeasurementStructure_spdm_encode (measurement v)) in
    ret (n1 + n2 + n3 + n4)%nat;
  spdm_read :=
    let* index := read u8_codec in
    let* spec := read SpdmMeasurementSpecification.codec in
    if negb (spec =? SpdmMeasurementSpecification.DMTF) then throw tt else
    let* size := read u16_codec in
    if (3 + MAX_SPDM_MEASUREMENT_VALUE_LEN <? Z.to_nat size)%nat then throw tt else
    let* m := SpdmDmtfMeasurementStructure_spdm_read in
    if negb (size =? 3 + Z.of_nat (value_size m)) then throw tt else
    ret {| mb_index := index; measurement_specification := spec;
           measurement_size := size; measurement := m |};
|}.

(** The loop of [verify_measurement_record] over the blocks that are left: indices must
    increase and nothing may follow the last block. *)
(*@ spdmlib/src/common/spdm_codec.rs 81-101 SpdmMeasurementRecordStructure::verify_measurement_record *)
Fixpoint verify_blocks (blocks : nat) (cur_index : Z) : M Reader unit bool :=
  match blocks with
  | O => gets (λ r, negb (Reader_any_left r))
  | S blocks =>
      let* b := attempt (spdm_read SpdmMeasurementBlockStructure_spdm_codec) in
      match b with
      | inl _ => ret false
      | inr b =>
          if mb_index b <=? cur_index then ret false else verify_blocks blocks (mb_index b)
      end
  end.

Definition verify_measurement_record {S} (v : SpdmMeasurementRecordStructure)
    : M S unit bool :=
  let* bs := sub_slice 0 (measurement_record_length v) (measurement_record_data v) in
  let* (ok, _) := with_reader bs (verify_blocks (Z.to_nat (number_of_blocks v)) 0) in
  ret ok.

(*@ spdmlib/src/common/spdm_codec.rs 104-158 SpdmMeasurementRecordStructure as SpdmCodec *)
Definition SpdmMeasurementRecordStructure_codec : SpdmCodec SpdmMeasurementRecordStructure := {|
  spdm_encode v :=
    let* n1 := enc u8_codec (number_of_blocks v) in
    let* n2 := enc u24_codec (Z.of_nat (measurement_record_length v)) in
    let* n3 := enc_bytes (take (measurement_record_length v) (measurement_record_data v)) in
    ret (n1 + n2 + n3)%nat;
  spdm_read :=
    let* number_of_blocks := read u8_codec in
    let* len := read u24_codec in
    if (MAX_SPDM_MEASUREMENT_RECORD_SIZE <? Z.to_nat len)%nat then throw tt else
    let* bs := read_array (Z.to_nat len) MAX_SPDM_MEASUREMENT_RECORD_SIZE in
    let v := {| number_of_blocks := number_of_blocks; measurement_record_length := Z.to_nat len;
                measurement_record_data := bs |} in
    let* ok := verify_measurement_record v in
    if negb ok then throw tt else ret v;
|}.

(** ** Properties *)

Lemma writes_of_outcome {E A} (e : E) (o : outcome E A) v :
  o = Ok v → writes e (of_outcome o) [] v.
Proof. intros ->. apply writes_ret. Qed.
Lemma reads_of_outcome {E A} (o : outcome E A) v : o = Ok v → reads (of_outcome o) [] v.
Proof. intros ->. apply reads_ret. Qed.
Lemma parser_of_outcome {E A} (o : outcome E A) v :
  o = Ok v → parser (of_outcome o) (λ x, x = v).
Proof. intros ->. by apply parser_ret. Qed.

(** A value of the negotiated size. *)
Definition negotiated_wf (get_size : ∀ E : Type, outcome E nat) (max : nat) (v : sized) : Prop :=
  (∀ E, get_size E = Ok (data_size v)) ∧ sized_wf max v.

#[local] Instance negotiated_codec_ok (get_size : ∀ E : Type, outcome E nat) max :
  SpdmCodecOk (negotiated_codec get_size max) (negotiated_wf get_size max) sized_bytes.
Proof.
  split; intros v [Hn Hv].
  - eapply writes_eq.
    + eapply writes_bind; [by apply writes_of_outcome|]. cbv beta.
      rewrite Nat.eqb_refl. eapply writes_bind; [apply writes_ret|].
      eapply writes_bind; [apply writes_enc_bytes, (sized_bytes_u8 max _ Hv)|].
      apply writes_ret.
    + by rewrite !app_nil_r.
    + by rewrite (length_sized_bytes max).
  - eapply reads_eq.
    + eapply reads_bind; [by apply reads_of_outcome|].
      spdm_reads_with (data v). apply reads_ret.
    + by rewrite app_nil_r.
    + by destruct v.
Qed.

(** The size is known, and fits. *)
Definition size_known (get_size : ∀ E : Type, outcome E nat) (max : nat) : Prop :=
  ∃ n, (n ≤ max)%nat ∧ ∀ E, get_size E = Ok n.

Lemma negotiated_parse_ok (get_size : ∀ E : Type, outcome E nat) max :
  size_known get_size max →
  SpdmParseOk (negotiated_codec get_size max) (negotiated_wf get_size max).
Proof.
  intros (n&Hle&Hn).
  eapply parser_bind; [by apply parser_of_outcome|]. intros ? ->.
  eapply parser_bind; [by apply parser_read_array|]. intros bs Hbs.
  by apply parser_ret.
Qed.

Definition Digest_wf : SpdmDigestStruct → Prop :=
  negotiated_wf (λ _, get_hash_size context) SPDM_MAX_HASH_SIZE.
Definition Signature_wf : SpdmSignatureStruct → Prop :=
  negotiated_wf (λ _, get_asym_key_size context) SPDM_MAX_ASYM_KEY_SIZE.
Definition Dhe_wf : SpdmDheExchangeStruct → Prop :=
  negotiated_wf (λ _, get_dhe_key_size context) SPDM_MAX_DHE_KEY_SIZE.

#[export] Instance SpdmDigestStruct_ok :
  SpdmCodecOk SpdmDigestStruct_codec Digest_wf sized_bytes.
Proof. apply _. Qed.
#[export] Instance SpdmSignatureStruct_ok :
  SpdmCodecOk SpdmSignatureStruct_codec Signature_wf sized_bytes.
Proof. apply _. Qed.
#[export] Instance SpdmDheExchangeStruct_ok :
  SpdmCodecOk SpdmDheExchangeStruct_codec Dhe_wf sized_bytes.
Proof.
  destruct (negotiated_codec_ok (λ _, get_dhe_key_size context) SPDM_MAX_DHE_KEY_SIZE)
    as [_ Hrd].
  split; [|exact Hrd]. intros v [Hn Hv]. eapply writes_eq.
  - eapply writes_bind; [apply writes_enc_bytes, (sized_bytes_u8 _ _ Hv)|]. apply writes_ret.
  - by rewrite app_nil_r.
  - by rewrite (length_sized_bytes _ _ Hv).
Qed.

(** An algorithm is selected; before that, reading a digest, a signature or a key share
    panics. *)
Class HashSelected : Prop :=
  hash_selected : size_known (λ _, get_hash_size context) SPDM_MAX_HASH_SIZE.
Class AsymSelected : Prop :=
  asym_selected : size_known (λ _, get_asym_key_size context) SPDM_MAX_ASYM_KEY_SIZE.
Class DheSelected : Prop :=
  dhe_selected : size_known (λ _, get_dhe_key_size context) SPDM_MAX_DHE_KEY_SIZE.

#[export] Instance SpdmDigestStruct_parse `{!HashSelected} :
  SpdmParseOk SpdmDigestStruct_codec Digest_wf.
Proof. by apply negotiated_parse_ok. Qed.
#[export] Instance SpdmSignatureStruct_parse `{!AsymSelected} :
  SpdmParseOk SpdmSignatureStruct_codec Signature_wf.
Proof. by apply negotiated_parse_ok. Qed.
#[export] Instance SpdmDheExchangeStruct_parse `{!DheSelected} :
  SpdmParseOk SpdmDheExchangeStruct_codec Dhe_wf.
Proof. by apply (negotiated_parse_ok (λ _, get_dhe_key_size context)). Qed.

(** *** Measurement blocks *)

(** A kind a reader accepts: seven bits of type; types 5 to 7 are raw bits. *)
Definition dmtf_kind_wf (t : SpdmDmtfMeasurementType) (rep : SpdmDmtfMeasurementRepresentation)
    : Prop :=
  enum_wf 7 SpdmDmtfMeasurementType_get_u8 SpdmDmtfMeasurementType_from_u8 t ∧
  (rep = SpdmDmtfMeasurementRawBit ∨
   rep = SpdmDmtfMeasurementDigest ∧ ¬ (5 ≤ SpdmDmtfMeasurementType_get_u8 t ≤ 7)).

Definition Dmtf_wf (v : SpdmDmtfMeasurementStructure) : Prop :=
  dmtf_kind_wf (dmtf_type v) (representation v) ∧
  array_wf (value_size v) MAX_SPDM_MEASUREMENT_VALUE_LEN (value v) ∧
  is_u16 (Z.of_nat (value_size v)) ∧
  (representation v = SpdmDmtfMeasurementDigest →
   (∀ E : Type, SpdmMeasurementHashAlgo.get_size (E:=E) (measurement_hash_sel (negotiate_info context))
     = Ok (value_size v)) ∧
   measurement_hash_sel (negotiate_info context) ≠ SpdmMeasurementHashAlgo.RAW_BIT_STREAM).

Definition dmtf_byte (v : SpdmDmtfMeasurementStructure) : Z :=
  SpdmDmtfMeasurementType_get_u8 (dmtf_type v)
  + SpdmDmtfMeasurementRepresentation_get_u8 (representation v).

Definition Dmtf_wire (v : SpdmDmtfMeasurementStructure) : bytes :=
  le_bytes 1 (dmtf_byte v) ++ le_bytes 2 (Z.of_nat (value_size v)) ++ take (value_size v) (value v).

Lemma dmtf_kind_u8 v : dmtf_kind_wf (dmtf_type v) (representation v) → is_u8 (dmtf_byte v).
Proof.
  intros [[Ht _] Hr]. unfold dmtf_byte. revert Ht. unfold is_uint.
  destruct Hr as [->|[-> _]]; simpl; lia.
Qed.

Lemma dmtf_bits t rep :
  dmtf_kind_wf t rep →
  let b := SpdmDmtfMeasurementType_get_u8 t + SpdmDmtfMeasurementRepresentation_get_u8 rep in
  Z.land b 0x7f = SpdmDmtfMeasurementType_get_u8 t ∧
  Z.land b 0x80 = SpdmDmtfMeasurementRepresentation_get_u8 rep.
Proof.
  intros [[Ht _] Hr]; simpl.
  assert (Hall := small_range (λ x, (Z.land (x + 0) 0x7f =? x) && (Z.land (x + 0) 0x80 =? 0)
    && (Z.land (x + 0x80) 0x7f =? x) && (Z.land (x + 0x80) 0x80 =? 0x80)) 128 _ eq_refl Ht).
  rewrite !andb_true_iff, !Z.eqb_eq in Hall. destruct Hall as [[[? ?] ?] ?].
  by destruct Hr as [->|[-> _]].
Qed.

Lemma reads_dmtf_kind t rep :
  dmtf_kind_wf t rep →
  reads (read_dmtf_kind
    (SpdmDmtfMeasurementType_get_u8 t + SpdmDmtfMeasurementRepresentation_get_u8 rep))
    [] (t, rep).
Proof.
  intros Hk. destruct (dmtf_bits _ _ Hk) as [Ht Hr]. unfold read_dmtf_kind.
  rewrite Ht, Hr. destruct Hk as [[_ Hfrom] Hrep].
  eapply (reads_bind _ _ [] [] rep).
  { destruct Hrep as [->|[-> _]]; apply reads_ret. }
  eapply (reads_bind _ _ [] [] t); [|apply reads_ret].
  destruct Hrep as [->|[-> Hraw]]; destruct t; simpl in *;
    try apply reads_ret; try lia;
    revert Hfrom; repeat case_match; intros; simplify_eq; try apply reads_ret; lia.
Qed.

Lemma parser_dmtf_kind b :
  is_u8 b → parser (read_dmtf_kind b) (λ '(t, rep), dmtf_kind_wf t rep).
Proof.
  intros Hb. unfold read_dmtf_kind.
  apply (parser_bind _ _ (λ rep, rep = SpdmDmtfMeasurementRawBit ∨ rep = SpdmDmtfMeasurementDigest)).
  { repeat case_match; try apply parser_throw; apply parser_ret; auto. }
  intros rep Hrep.
  assert (Hl : is_uint 7 (Z.land b 0x7f)).
  { change 0x7f with (Z.ones 7). rewrite Z.land_ones by lia. apply Z.mod_pos_bound. lia. }
  eapply (parser_bind _ _ (λ t, dmtf_kind_wf t rep)); [|by intros; apply parser_ret].
  set (x := Z.land b 0x7f) in *. clearbody x.
  destruct Hrep as [-> | ->];
    repeat case_match; subst; try apply parser_throw; apply parser_ret;
    (split; [split; [done|reflexivity]|]); simpl; first [by left|right; split; [done|lia]].
Qed.

#[local] Hint Resolve reads_dmtf_kind parser_dmtf_kind dmtf_kind_u8 : codec.

Lemma writes_dmtf v :
  Dmtf_wf v →
  writes SPDM_STATUS_BUFFER_FULL (SpdmDmtfMeasurementStructure_spdm_encode v)
    (Dmtf_wire v) (length (Dmtf_wire v)).
Proof.
  intros (Hk&Ha&Hs&_). pose proof (dmtf_kind_u8 v Hk) as Hb.
  pose proof Ha as (Hl&Hu&Hn&_).
  assert (Forall is_u8 (take (value_size v) (value v))) by by apply Forall_take.
  unfold SpdmDmtfMeasurementStructure_spdm_encode, Dmtf_wire. eapply writes_eq.
  - eapply writes_bind; [by apply writes_add_u8|]. spdm_writes_steps.
  - by rewrite app_nil_r.
  - rewrite !length_app, !length_le_bytes. lia.
Qed.

Lemma reads_dmtf v :
  Dmtf_wf v → reads SpdmDmtfMeasurementStructure_spdm_read (Dmtf_wire v) v.
Proof.
  intros (Hk&Ha&Hs&Hd). pose proof (dmtf_kind_u8 v Hk) as Hb. pose proof Ha as (Hl&Hu&Hn&_).
  unfold SpdmDmtfMeasurementStructure_spdm_read, Dmtf_wire. eapply reads_eq.
  - spdm_reads_with (dmtf_byte v). spdm_reads_with (dmtf_type v, representation v).
    cbv beta iota. spdm_reads_with (Z.of_nat (value_size v)).
    rewrite Nat2Z.id, (proj2 (Nat.ltb_ge _ _)) by done.
    eapply (reads_bind _ _ [] _ false).
    + destruct (decide (representation v = SpdmDmtfMeasurementDigest)) as [Hr|]; [|apply reads_ret].
      destruct (Hd Hr) as [Hsz Hraw].
      eapply (reads_bind _ _ [] []); [by apply reads_of_outcome|].
      rewrite Nat.eqb_refl, (proj2 (Z.eqb_neq _ _)) by done. apply reads_ret.
    + spdm_reads_with (value v). apply reads_ret.
  - simpl. by rewrite app_nil_r.
  - by destruct v.
Qed.

Class MeasurementHashSelected : Prop :=
  measurement_hash_selected : ∃ n, ∀ E : Type, SpdmMeasurementHashAlgo.get_size (E:=E)
    (measurement_hash_sel (negotiate_info context)) = Ok n.

Lemma parser_dmtf `{!MeasurementHashSelected} :
  parser SpdmDmtfMeasurementStructure_spdm_read Dmtf_wf.
Proof.
  destruct measurement_hash_selected as [n Hn]. unfold SpdmDmtfMeasurementStructure_spdm_read.
  eapply parser_bind; [apply parse_ok|]. intros b Hb.
  eapply parser_bind; [by apply parser_dmtf_kind|]. intros [t rep] Hk.
  eapply parser_bind; [apply parse_ok|]. intros size Hsz.
  apply parser_if; [intros; apply parser_throw|]. intros Hle%Nat.ltb_ge.
  apply (parser_bind _ _ (λ bad, bad = false → rep = SpdmDmtfMeasurementDigest →
    n = Z.to_nat size ∧
    measurement_hash_sel (negotiate_info context) ≠ SpdmMeasurementHashAlgo.RAW_BIT_STREAM)).
  { destruct (decide _) as [->|]; [|by apply parser_ret].
    eapply parser_bind; [by apply parser_of_outcome|]. intros ? ->. apply parser_ret.
    intros [Hs Hr]%orb_false_iff _. apply negb_false_iff, Nat.eqb_eq in Hs.
    split; [done|]. by apply Z.eqb_neq. }
  intros [] Hbad; [apply parser_throw|].
  eapply parser_bind; [by apply parser_read_array|]. intros bs Hbs. apply parser_ret.
  split_and!; [done|done| |].
  - simpl. rewrite Z2Nat.id by (destruct Hsz; lia). done.
  - intros Hr. destruct (Hbad eq_refl Hr) as [-> Hraw]. done.
Qed.

Definition Block_wf (b : SpdmMeasurementBlockStructure) : Prop :=
  is_u8 (mb_index b) ∧ measurement_specification b = SpdmMeasurementSpecification.DMTF ∧
  measurement_size b = 3 + Z.of_nat (value_size (measurement b)) ∧
  is_u16 (measurement_size b) ∧ Dmtf_wf (measurement b).

Definition Block_wire (b : SpdmMeasurementBlockStructure) : bytes :=
  le_bytes 1 (mb_index b) ++ le_bytes 1 (measurement_specification b)
  ++ le_bytes 2 (measurement_size b) ++ Dmtf_wire (measurement b).

#[local] Hint Resolve writes_dmtf reads_dmtf parser_dmtf : codec.

Lemma DMTF_wf : flags_wf 8 SpdmMeasurementSpecification.VALID_MASK SpdmMeasurementSpecification.DMTF.
Proof. by vm_compute. Qed.

#[export] Instance SpdmMeasurementBlockStructure_spdm_ok :
  SpdmCodecOk SpdmMeasurementBlockStructure_spdm_codec Block_wf Block_wire.
Proof.
  pose proof DMTF_wf as Hspec.
  split; intros v (Hi&Hdmtf&Hsz&Hu&Hm).
  - cbn [spdm_encode SpdmMeasurementBlockStructure_spdm_codec]. unfold Block_wire.
    rewrite Hdmtf. eapply writes_eq.
    + spdm_writes_steps.
    + by rewrite app_nil_r.
    + rewrite !length_app, !length_le_bytes. lia.
  - cbn [spdm_read SpdmMeasurementBlockStructure_spdm_codec]. unfold Block_wire.
    rewrite Hdmtf. pose proof Hm as (_&(_&_&Hn&_)&_). eapply reads_eq.
    + spdm_reads_with (mb_index v). spdm_reads_with 1.
      cbn [negb Z.eqb Pos.eqb]. spdm_reads_with (measurement_size v).
      rewrite (proj2 (Nat.ltb_ge _ _)) by (rewrite Hsz; lia).
      spdm_reads_with (measurement v). rewrite Hsz, Z.eqb_refl. apply reads_ret.
    + by rewrite app_nil_r.
    + rewrite <- Hsz, <- Hdmtf. by destruct v.
Qed.

#[export] Instance SpdmMeasurementBlockStructure_parse `{!MeasurementHashSelected} :
  SpdmParseOk SpdmMeasurementBlockStructure_spdm_codec Block_wf.
Proof.
  cbv [SpdmParseOk]. cbn [spdm_read SpdmMeasurementBlockStructure_spdm_codec].
  eapply parser_bind; [apply parse_ok|]. intros i Hi.
  eapply parser_bind; [apply parse_ok|]. intros spec _.
  apply parser_if; [intros; apply parser_throw|]. intros Hspec%negb_false_iff%Z.eqb_eq.
  eapply parser_bind; [apply parse_ok|]. intros size Hsize.
  apply parser_if; [intros; apply parser_throw|]. intros _.
  eapply parser_bind; [apply parser_dmtf|]. intros m Hm.
  apply parser_if; [intros; apply parser_throw|]. intros Hs%negb_false_iff%Z.eqb_eq.
  apply parser_ret. done.
Qed.

(** *** Measurement records *)

Fixpoint increasing (cur : Z) (blocks : list SpdmMeasurementBlockStructure) : Prop :=
  match blocks with
  | [] => True
  | b :: blocks => cur < mb_index b ∧ increasing (mb_index b) blocks
  end.

(** The record check accepts exactly the sequences of blocks with increasing indices and
    nothing behind them. *)
Lemma verify_blocks_iff n cur r :
  (verify_blocks n cur r).1 = Ok true ↔
  ∃ blocks r', read_all (spdm_read SpdmMeasurementBlockStructure_spdm_codec) n r = (Ok blocks, r')
    ∧ increasing cur blocks ∧ Reader_any_left r' = false.
Proof.
  revert cur r. induction n as [|n IH]; intros cur r; cbn [verify_blocks read_all].
  { unfold gets, ret. split.
    - intros [= Hl%negb_true_iff]. by exists [], r.
    - intros (?&?&[= <- <-]&_&Hl). simpl. by rewrite Hl. }
  unfold bind, attempt, ret.
  destruct (spdm_read SpdmMeasurementBlockStructure_spdm_codec r) as [[b|e|] r1].
  - destruct (Z.leb_spec (mb_index b) cur) as [Hle|Hlt].
    + split; [done|]. intros (blocks&r'&Hr&Hinc&_). destruct (read_all _ n r1) as [[bs| |] ?];
        simplify_eq. destruct Hinc. lia.
    + rewrite IH. split.
      * intros (blocks&r'&->&Hinc&Hl). exists (b :: blocks), r'. done.
      * intros (blocks&r'&Hr&Hinc&Hl).
        destruct (read_all _ n r1) as [[bs| |] r2]; simplify_eq. destruct Hinc. eauto.
  - split; [done|]. by intros (?&?&?&_).
  - split; [done|]. by intros (?&?&?&_).
Qed.

(** On any bytes the check returns a verdict. *)
Lemma verify_blocks_total `{!MeasurementHashSelected} n cur r :
  Reader_wf r → ∃ b, (verify_blocks n cur r).1 = Ok b.
Proof.
  revert cur r. induction n as [|n IH]; intros cur r Hr; cbn [verify_blocks]; [by eexists|].
  destruct (spdm_parse_ok (P:=Block_wf) r Hr) as (k&o&Ho&Hk&Hp).
  unfold bind, attempt. rewrite Ho. destruct o as [b|e|]; [|by eexists|done].
  case_match; [by eexists|]. apply IH. by apply Reader_advance_wf.
Qed.

Definition Record_wf (v : SpdmMeasurementRecordStructure) : Prop :=
  is_u8 (number_of_blocks v) ∧ is_uint 24 (Z.of_nat (measurement_record_length v)) ∧
  array_wf (measurement_record_length v) MAX_SPDM_MEASUREMENT_RECORD_SIZE (measurement_record_data v) ∧
  run (verify_measurement_record v) = Ok true.

Definition Record_wire (v : SpdmMeasurementRecordStructure) : bytes :=
  le_bytes 1 (number_of_blocks v) ++ le_bytes 3 (Z.of_nat (measurement_record_length v))
  ++ take (measurement_record_length v) (measurement_record_data v).

Lemma stateless_verify v : stateless (λ S, verify_measurement_record (S:=S) v).
Proof. unfold verify_measurement_record. stateless_steps. Qed.

#[export] Instance SpdmMeasurementRecordStructure_ok :
  SpdmCodecOk SpdmMeasurementRecordStructure_codec Record_wf Record_wire.
Proof.
  split; intros v (Hb&Hl&Ha&Hv); pose proof Ha as (Hlen&Hu&Hn&_); unfold Record_wire.
  - assert (Forall is_u8 (take (measurement_record_length v) (measurement_record_data v)))
      by by apply Forall_take.
    cbn [spdm_encode SpdmMeasurementRecordStructure_codec]. eapply writes_eq.
    + spdm_writes_steps.
    + by rewrite app_nil_r.
    + rewrite !length_app, !length_le_bytes. lia.
  - cbn [spdm_read SpdmMeasurementRecordStructure_codec]. eapply reads_eq.
    + spdm_reads_with (number_of_blocks v).
      spdm_reads_with (Z.of_nat (measurement_record_length v)).
      rewrite Nat2Z.id, (proj2 (Nat.ltb_ge _ _)) by done.
      spdm_reads_with (measurement_record_data v).
      eapply (reads_bind _ _ [] [] true); [|apply reads_ret].
      intros r tl _. rewrite stateless_verify, Reader_advance_0. f_equal.
      by destruct v.
    + by rewrite app_nil_r.
    + by destruct v.
Qed.

#[export] Instance SpdmMeasurementRecordStructure_parse `{!MeasurementHashSelected} :
  SpdmParseOk SpdmMeasurementRecordStructure_codec Record_wf.
Proof.
  cbv [SpdmParseOk]. cbn [spdm_read SpdmMeasurementRecordStructure_codec].
  eapply parser_bind; [apply parse_ok|]. intros n Hn.
  eapply parser_bind; [apply parse_ok|]. intros len Hlen.
  apply parser_if; [intros; apply parser_throw|]. intros Hle%Nat.ltb_ge.
  eapply parser_bind; [by apply parser_read_array|]. intros bs Hbs. cbv zeta.
  set (v := {| number_of_blocks := n; measurement_record_length := Z.to_nat len;
              measurement_record_data := bs |}).
  assert (∃ b, run (verify_measurement_record v) = Ok b) as [b Hb].
  { destruct Hbs as (Hl&Hu&_). unfold run, verify_measurement_record.
    erewrite bind_step by (apply sub_slice_ok; simpl; lia).
    set (bs' := take _ _). assert (Forall is_u8 bs') by by apply Forall_take, Forall_drop.
    destruct (verify_blocks_total (Z.to_nat n) 0 (Reader_init bs')) as [b Hb].
    { split; [simpl; lia|done]. }
    exists b. unfold bind, with_reader. cbn [number_of_blocks v].
    destruct (verify_blocks _ _ _) as [o ?]. simpl in Hb. by subst o. }
  eapply (parser_bind _ _ (λ b', b' = b)).
  { intros r _. exists 0%nat, (Ok b). rewrite stateless_verify, Hb, Reader_advance_0.
    split_and!; [done|lia|done]. }
  intros ? ->. apply parser_if; [intros; apply parser_throw|].
  intros ->%negb_false_iff. apply parser_ret.
  split_and!; [done| |done|done]. simpl. rewrite Z2Nat.id by (destruct Hlen; lia). done.
Qed.

(** The record that holds a sequence of blocks. *)
Definition record_of (blocks : list SpdmMeasurementBlockStructure)
    : SpdmMeasurementRecordStructure :=
  let bs := concat (map Block_wire blocks) in {|
  number_of_blocks := Z.of_nat (length blocks);
  measurement_record_length := length bs;
  measurement_record_data := bs ++ replicate (MAX_SPDM_MEASUREMENT_RECORD_SIZE - length bs) 0;
|}.

Lemma Block_wire_u8 b : Block_wf b → Forall is_u8 (Block_wire b).
Proof.
  intros (_&_&_&_&_&(_&Hu&_)&_). repeat apply Forall_app_2; try apply le_bytes_u8.
  by apply Forall_take.
Qed.

Lemma record_of_wf blocks :
  Forall Block_wf blocks → increasing 0 blocks → (length blocks < 256)%nat →
  (length (concat (map Block_wire blocks)) ≤ MAX_SPDM_MEASUREMENT_RECORD_SIZE)%nat →
  Config_valid cfg = true →
  Record_wf (record_of blocks).
Proof.
  intros Hb Hinc Hn Hl Hcfg. set (bs := concat (map Block_wire blocks)) in *.
  assert (Hu : Forall is_u8 bs).
  { apply Forall_concat, Forall_map. eapply Forall_impl; [|exact Hb]. apply Block_wire_u8. }
  split_and!; simpl; [split; lia| |by apply array_wf_make|].
  { unfold Config_valid in Hcfg. rewrite !andb_true_iff, !Z.leb_le in Hcfg. fold bs. split; lia. }
  unfold run, verify_measurement_record. simpl. fold bs.
  erewrite bind_step by (apply sub_slice_ok; rewrite ?length_app; lia).
  rewrite drop_0, Nat.sub_0_r, take_app_length, Nat2Z.id.
  assert (Hv : (verify_blocks (length blocks) 0 (Reader_init bs)).1 = Ok true).
  { apply verify_blocks_iff. exists blocks, (Reader_advance (Reader_init bs) (length bs)).
    split_and!; [|done|by apply bool_decide_eq_false; simpl; lia].
    apply (reads_read_all _ Block_wire) with (tl := []); [|by rewrite app_nil_r].
    eapply Forall_impl; [|exact Hb]. intros b Hwf. by apply spdm_read_ok. }
  unfold bind, with_reader. destruct (verify_blocks _ _ _) as [o ?]. simpl in Hv. by subst o.
Qed.

(** C36: The check of a measurement record accepts exactly the records whose bytes are the
    announced number of blocks, each in the format of DSP0274, with indices that strictly
    increase from one on, and nothing behind the last block. *)
Theorem verify_measurement_record_iff v :
  (measurement_record_length v ≤ length (measurement_record_data v))%nat →
  run (verify_measurement_record v) = Ok true ↔
  ∃ blocks r', read_all (spdm_read SpdmMeasurementBlockStructure_spdm_codec)
      (Z.to_nat (number_of_blocks v))
      (Reader_init (take (measurement_record_length v) (measurement_record_data v))) =
      (Ok blocks, r') ∧
    increasing 0 blocks ∧ Reader_any_left r' = false.
Proof.
  intros Hl. rewrite <- verify_blocks_iff. unfold run, verify_measurement_record.
  erewrite bind_step by (by apply sub_slice_ok; lia). rewrite drop_0, Nat.sub_0_r.
  unfold bind, with_reader. by destruct (verify_blocks _ _ _) as [[] ?].
Qed.

End SpdmCodec.

Lemma spdm_codec_roundtrip {A} (c : SpdmCodec A) wf wire `{!SpdmCodecOk c wf wire} v buf :
  wf v → (length (wire v) ≤ length buf)%nat →
  ∃ w, spdm_encode c v (Writer_init buf) = (Ok (length (wire v)), w) ∧
       Writer_used_slice w = wire v ∧
       spdm_read_bytes c (Writer_used_slice w) = Ok v.
Proof.
  intros Hv Hl.
  destruct (writes_used_slice _ _ _ _ (Writer_init buf) (spdm_encode_ok v Hv)) as (w&Hw&Hs).
  { unfold Writer_wf. simpl. lia. }
  { unfold Writer_left. simpl. lia. }
  exists w. split_and!; [done|done|]. rewrite Hs. simpl. unfold spdm_read_bytes.
  by rewrite (spdm_read_ok v Hv (Reader_init (wire v)) []) by (by rewrite app_nil_r).
Qed.

(** ** Evaluated *)

Section Example.
#[local] Existing Instances default_config toy_crypto toy_secret toy_device.

(** Two blocks, with raw measurements of one byte. *)
Definition toy_record : SpdmMeasurementRecordStructure := {|
  number_of_blocks := 2;
  measurement_record_length := 16;
  measurement_record_data := [1; 1; 4; 0; 0x80; 1; 0; 9; 3; 1; 4; 0; 0x81; 1; 0; 8];
|}.

Lemma verify_measurement_record_iff_witness :
  run (verify_measurement_record toy_context toy_record) = Ok true ↔
  ∃ blocks r', read_all (spdm_read (SpdmMeasurementBlockStructure_spdm_codec toy_context)) 2
      (Reader_init (measurement_record_data toy_record)) = (Ok blocks, r') ∧
    increasing 0 blocks ∧ Reader_any_left r' = false.
Proof. exact (verify_measurement_record_iff toy_context toy_record (le_n 16)). Defined.

End Example.
