(* ===== verification/Opaque.v ===== *)
(** Model of spdmlib/src/common/opaque.rs: the opaque data of KEY_EXCHANGE, PSK_EXCHANGE,
    CHALLENGE and MEASUREMENTS messages, in which requester and responder agree on the
    version of secured messages. *)

From S2P Require Import Prelude Config Codec Status Algo Protocol Crypto SpdmRing ToyRing KeySchedule Buffers Session Context ToyContext SpdmCodec.

Abbreviation MAX_SPDM_OPAQUE_SIZE := 1024%nat (only parsing).
Abbreviation MAX_SECURE_SPDM_VERSION_COUNT := 2%nat (only parsing).
Abbreviation MAX_OPAQUE_LIST_ELEMENTS_COUNT := 3%nat (only parsing).
Abbreviation DMTF_SPEC_ID := 0x444D546 (only parsing).
Abbreviation DMTF_OPAQUE_VERSION := 0x01 (only parsing).
Abbreviation SM_DATA_VERSION := 0x01 (only parsing).
Abbreviation DMTF_ID := 0x00 (only parsing).
Abbreviation DMTF_VENDOR_LEN := 0x00 (only parsing).
Abbreviation OPAQUE_LIST_TOTAL_ELEMENTS := 0x01 (only parsing).
Abbreviation VERSION_SELECTION_SM_DATA_ID := 0x00 (only parsing).
Abbreviation SUPPORTED_VERSION_LIST_SM_DATA_ID := 0x01 (only parsing).
Abbreviation DMTF_SECURE_SPDM_VERSION_10 := 0x10 (only parsing).
Abbreviation DMTF_SECURE_SPDM_VERSION_11 := 0x11 (only parsing).
Abbreviation MAX_SPDM_VENDOR_DEFINED_VENDOR_ID_LEN := 0xFF%nat (only parsing).

(*@ spdmlib/src/common/opaque.rs 40-61 REQ_DMTF_OPAQUE_DATA_SUPPORT_VERSION_LIST_DSP0277 *)
Definition REQ_DMTF_OPAQUE_DATA_SUPPORT_VERSION_LIST_DSP0277 : bytes :=
  [0x46; 0x54; 0x4d; 0x44; DMTF_OPAQUE_VERSION; OPAQUE_LIST_TOTAL_ELEMENTS; 0x00; 0x00;
   DMTF_ID; DMTF_VENDOR_LEN; 0x07; 0x00; SM_DATA_VERSION; SUPPORTED_VERSION_LIST_SM_DATA_ID;
   0x02; 0x00; DMTF_SECURE_SPDM_VERSION_10; 0x00; DMTF_SECURE_SPDM_VERSION_11; 0x00].

(*@ spdmlib/src/common/opaque.rs 63-80 RSP_DMTF_OPAQUE_DATA_VERSION_SELECTION_DSP0277 *)
Definition RSP_DMTF_OPAQUE_DATA_VERSION_SELECTION_DSP0277 : bytes :=
  [0x46; 0x54; 0x4d; 0x44; DMTF_OPAQUE_VERSION; OPAQUE_LIST_TOTAL_ELEMENTS; 0x00; 0x00;
   DMTF_ID; DMTF_VENDOR_LEN; 0x04; 0x00; SM_DATA_VERSION; VERSION_SELECTION_SM_DATA_ID;
   0x00; DMTF_SECURE_SPDM_VERSION_11].

(*@ spdmlib/src/common/opaque.rs 82-99 REQ_DMTF_OPAQUE_DATA_SUPPORT_VERSION_LIST_DSP0274_FMT1 *)
Definition REQ_DMTF_OPAQUE_DATA_SUPPORT_VERSION_LIST_DSP0274_FMT1 : bytes :=
  [OPAQUE_LIST_TOTAL_ELEMENTS; 0x00; 0x00; 0x00; DMTF_ID; DMTF_VENDOR_LEN; 0x07; 0x00;
   SM_DATA_VERSION; SUPPORTED_VERSION_LIST_SM_DATA_ID; 0x02; 0x00;
   DMTF_SECURE_SPDM_VERSION_10; 0x00; DMTF_SECURE_SPDM_VERSION_11; 0x00].

(*@ spdmlib/src/common/opaque.rs 101-114 RSP_DMTF_OPAQUE_DATA_VERSION_SELECTION_DSP0274_FMT1 *)
Definition RSP_DMTF_OPAQUE_DATA_VERSION_SELECTION_DSP0274_FMT1 : bytes :=
  [OPAQUE_LIST_TOTAL_ELEMENTS; 0x00; 0x00; 0x00; DMTF_ID; DMTF_VENDOR_LEN; 0x04; 0x00;
   SM_DATA_VERSION; VERSION_SELECTION_SM_DATA_ID; 0x00; DMTF_SECURE_SPDM_VERSION_11].

Module SpdmOpaqueSupport.

Abbreviation OPAQUE_DATA_FMT1 := 2 (only parsing).

(*@ spdmlib/src/common/opaque.rs 605-611 SpdmOpaqueSupport *)
Definition VALID_MASK : Z := flags_or [OPAQUE_DATA_FMT1].

(** Unlike the algorithm sets, unknown bits are refused. *)
(*@ spdmlib/src/common/opaque.rs 613-623 SpdmOpaqueSupport as Codec *)
Definition codec : Codec Z := {|
  encode v := encode u8_codec v;
  read := let* bits := read u8_codec in
          if Z.land bits (Z.lnot VALID_MASK) =? 0 then ret bits else throw tt;
|}.

(*@ spdmlib/src/common/opaque.rs 628-638 SpdmOpaqueSupport::is_valid_one_select *)
Definition is_valid_one_select (self : Z) : bool :=
  is_no_more_than_one_selected self && is_valid VALID_MASK self.

End SpdmOpaqueSupport.

(*@ spdmlib/src/common/opaque.rs 116-122 SecuredMessageVersion *)
Record SecuredMessageVersion := MkSecuredMessageVersion {
  major_version : Z;
  minor_version : Z;
  update_version_number : Z;
  alpha : Z;
}.

Definition SecuredMessageVersion_default : SecuredMessageVersion :=
  MkSecuredMessageVersion 0 0 0 0.

#[global] Instance SecuredMessageVersion_eq_dec : EqDecision SecuredMessageVersion.
Proof. solve_decision. Defined.

(** [(hi << 4) + lo] on [u8]: the shift drops bits, the sum is checked. *)
Definition nibbles {S E} (hi lo : Z) : M S E Z := add_u8 (as_u8 (Z.shiftl hi 4)) lo.

(*@ spdmlib/src/common/opaque.rs 124-154 SecuredMessageVersion as SpdmCodec *)
Definition SecuredMessageVersion_codec : SpdmCodec SecuredMessageVersion := {|
  spdm_encode v :=
    let* b1 := nibbles (update_version_number v) (alpha v) in
    let* n1 := enc u8_codec b1 in
    let* b2 := nibbles (major_version v) (minor_version v) in
    let* n2 := enc u8_codec b2 in
    ret (n1 + n2)%nat;
  spdm_read :=
    let* update_alpha := read u8_codec in
    let* major_minor := read u8_codec in
    ret {| major_version := Z.shiftr major_minor 4; minor_version := Z.land major_minor 0x0F;
           update_version_number := Z.shiftr update_alpha 4; alpha := Z.land update_alpha 0x0F |};
|}.

(*@ spdmlib/src/common/opaque.rs 157-159 SecuredMessageVersion::get_secure_spdm_version *)
Definition get_secure_spdm_version {S E} (v : SecuredMessageVersion) : M S E Z :=
  nibbles (major_version v) (minor_version v).

(*@ spdmlib/src/common/opaque.rs 161-170 SecuredMessageVersion::from_secure_spdm_version *)
Definition from_secure_spdm_version (secure_spdm_version : Z) : SecuredMessageVersion := {|
  major_version := Z.shiftr secure_spdm_version 4;
  minor_version := Z.land secure_spdm_version 0x0F;
  update_version_number := 0;
  alpha := 0;
|}.

(*@ spdmlib/src/common/opaque.rs 32-38 DMTF_SUPPORTED_SECURE_SPDM_VERSION_LIST *)
Definition DMTF_SUPPORTED_SECURE_SPDM_VERSION_LIST : list SecuredMessageVersion :=
  [from_secure_spdm_version DMTF_SECURE_SPDM_VERSION_10;
   from_secure_spdm_version DMTF_SECURE_SPDM_VERSION_11].

(*@ spdmlib/src/common/opaque.rs 173-177 SecuredMessageVersionList *)
Record SecuredMessageVersionList := {
  version_count : Z;
  versions_list : list SecuredMessageVersion;
}.

Definition SecuredMessageVersionList_default : SecuredMessageVersionList := {|
  version_count := 0;
  versions_list := replicate MAX_SECURE_SPDM_VERSION_COUNT SecuredMessageVersion_default;
|}.

(** [for index in 0..n { cnt += l[index].encode(w)? }]: an index out of range is a panic. *)
Fixpoint encode_first {A E} (enc : A → M Writer E nat) (n : nat) (l : list A)
    : M Writer E nat :=
  match n, l with
  | O, _ => ret 0%nat
  | S n, x :: l => let* k := enc x in let* m := encode_first enc n l in ret (k + m)%nat
  | S _, [] => panic
  end.

Definition full {A} (c : M Writer SpdmStatus A) : M Writer SpdmStatus A :=
  map_err (λ _, SPDM_STATUS_BUFFER_FULL) c.

(*@ spdmlib/src/common/opaque.rs 179-209 SecuredMessageVersionList as SpdmCodec *)
Definition SecuredMessageVersionList_codec : SpdmCodec SecuredMessageVersionList := {|
  spdm_encode v :=
    let* n1 := enc u8_codec (version_count v) in
    let* n2 := encode_first (λ x, full (spdm_encode SecuredMessageVersion_codec x))
      (Z.to_nat (version_count v)) (versions_list v) in
    ret (n1 + n2)%nat;
  spdm_read :=
    let* count := read u8_codec in
    let* l := read_into (spdm_read SecuredMessageVersion_codec) (Z.to_nat count)
      (replicate MAX_SECURE_SPDM_VERSION_COUNT SecuredMessageVersion_default) in
    ret {| version_count := count; versions_list := l |};
|}.

(*@ spdmlib/src/common/opaque.rs 211-216 OpaqueElementHeader *)
Record OpaqueElementHeader := { oe_id : Z; vendor_len : Z; vendor_id : bytes }.

(*@ spdmlib/src/common/opaque.rs 228-261 OpaqueElementHeader as SpdmCodec *)
Definition OpaqueElementHeader_codec : SpdmCodec OpaqueElementHeader := {|
  spdm_encode v :=
    let* n1 := enc u8_codec (oe_id v) in
    let* n2 := enc u8_codec (vendor_len v) in
    let* n3 := encode_first (enc u8_codec) (Z.to_nat (vendor_len v)) (vendor_id v) in
    ret (n1 + n2 + n3)%nat;
  spdm_read :=
    let* id := read u8_codec in
    let* len := read u8_codec in
    let* vendor_id := read_array (Z.to_nat len) MAX_SPDM_VENDOR_DEFINED_VENDOR_ID_LEN in
    ret {| oe_id := id; vendor_len := len; vendor_id := vendor_id |};
|}.

(** The bytes up to the next multiple of four. *)
Definition align_padding (used : nat) : nat :=
  Z.to_nat (Z.land (Z.of_nat used + 3) (Z.lnot 3) - Z.of_nat used).

(*@ spdmlib/src/common/opaque.rs 368-371 OpaqueElementDMTFSupportedVersion *)
Record OpaqueElementDMTFSupportedVersion := { secured_msg_vers : SecuredMessageVersionList }.

(*@ spdmlib/src/common/opaque.rs 373-420 OpaqueElementDMTFSupportedVersion as SpdmCodec *)
Definition OpaqueElementDMTFSupportedVersion_codec
    : SpdmCodec OpaqueElementDMTFSupportedVersion := {|
  spdm_encode v :=
    let* n1 := enc u8_codec 0 in
    let* n2 := enc u8_codec 0 in
    let* n3 := enc u16_codec (3 + 2 * version_count (secured_msg_vers v)) in
    let* n4 := enc u8_codec 1 in
    let* n5 := enc u8_codec 1 in
    let* n6 := spdm_encode SecuredMessageVersionList_codec (secured_msg_vers v) in
    let* filled := gets Writer_used in
    let* n7 := encode_all (enc u8_codec) (replicate (align_padding filled) 0) in
    ret (n1 + n2 + n3 + n4 + n5 + n6 + n7)%nat;
  spdm_read :=
    read u8_codec;; read u8_codec;; read u16_codec;; read u8_codec;; read u8_codec;;
    let* l := spdm_read SecuredMessageVersionList_codec in
    let* used := gets Reader_used in
    read_all (read u8_codec) (align_padding used);;
    ret {| secured_msg_vers := l |};
|}.

(*@ spdmlib/src/common/opaque.rs 330-333 OpaqueElementDMTFVersionSelection *)
Record OpaqueElementDMTFVersionSelection := { selected_version : SecuredMessageVersion }.

(*@ spdmlib/src/common/opaque.rs 335-366 OpaqueElementDMTFVersionSelection as SpdmCodec *)
Definition OpaqueElementDMTFVersionSelection_codec
    : SpdmCodec OpaqueElementDMTFVersionSelection := {|
  spdm_encode v :=
    let* n1 := enc u8_codec 0 in
    let* n2 := enc u8_codec 0 in
    let* n3 := enc u16_codec 4 in
    let* n4 := enc u8_codec 1 in
    let* n5 := enc u8_codec 0 in
    let* n6 := full (spdm_encode SecuredMessageVersion_codec (selected_version v)) in
    ret (n1 + n2 + n3 + n4 + n5 + n6)%nat;
  spdm_read :=
    read u8_codec;; read u8_codec;; read u16_codec;; read u8_codec;; read u8_codec;;
    let* v := spdm_read SecuredMessageVersion_codec in
    ret {| selected_version := v |};
|}.

(*@ spdmlib/src/common/opaque.rs 263-266 SecuredMessageGeneralOpaqueDataHeader *)
Record SecuredMessageGeneralOpaqueDataHeader := { total_elements : Z }.

(*@ spdmlib/src/common/opaque.rs 422-427 SecuredMessageDMTFVersionSelection *)
Record SecuredMessageDMTFVersionSelection := {
  vs_header : SecuredMessageGeneralOpaqueDataHeader;
  version_selection_list : list OpaqueElementDMTFVersionSelection;
}.

(*@ spdmlib/src/common/opaque.rs 474-479 SecuredMessageDMTFSupportedVersion *)
Record SecuredMessageDMTFSupportedVersion := {
  sv_header : SecuredMessageGeneralOpaqueDataHeader;
  supported_version_list : list OpaqueElementDMTFSupportedVersion;
}.

Abbreviation SpdmOpaqueStruct := sized (only parsing).

Section Opaque.
Context `{cfg : Config} `{sec : Secret} `{dev : SpdmDeviceIo}.
Context (context : SpdmContext).

(** The general header differs between versions before 1.2 and the format 1 of 1.2. *)
Definition before_12 : bool :=
  SpdmVersion_get_u8 (spdm_version_sel (negotiate_info context)) <?
  SpdmVersion_get_u8 SpdmVersion12.
Definition fmt1 : bool :=
  opaque_data_support (negotiate_info context) =? SpdmOpaqueSupport.OPAQUE_DATA_FMT1.

(*@ spdmlib/src/common/opaque.rs 268-328 SecuredMessageGeneralOpaqueDataHeader as SpdmCodec *)
Definition SecuredMessageGeneralOpaqueDataHeader_codec
    : SpdmCodec SecuredMessageGeneralOpaqueDataHeader := {|
  spdm_encode v :=
    let* n :=
      if before_12 then
        let* n1 := enc u32_codec DMTF_SPEC_ID in
        let* n2 := enc u8_codec DMTF_OPAQUE_VERSION in
        let* n3 := enc u8_codec (total_elements v) in
        ret (n1 + n2 + n3)%nat
      else if fmt1 then
        let* n1 := enc u8_codec (total_elements v) in
        let* n2 := enc u8_codec 0 in
        ret (n1 + n2)%nat
      else throw SPDM_STATUS_UNSUPPORTED_CAP in
    let* m := enc u16_codec 0 in
    ret (n + m)%nat;
  spdm_read :=
    if before_12 then
      let* spec_id := read u32_codec in
      if negb (spec_id =? DMTF_SPEC_ID) then throw tt else
      let* opaque_version := read u8_codec in
      if negb (opaque_version =? DMTF_OPAQUE_VERSION) then throw tt else
      let* total := read u8_codec in
      read u16_codec;;
      ret {| total_elements := total |}
    else if fmt1 then
      let* total := read u8_codec in
      read u8_codec;; read u8_codec;; read u8_codec;;
      ret {| total_elements := total |}
    else throw tt;
|}.

(*@ spdmlib/src/common/opaque.rs 429-472 SecuredMessageDMTFVersionSelection as SpdmCodec *)
Definition SecuredMessageDMTFVersionSelection_codec
    : SpdmCodec SecuredMessageDMTFVersionSelection := {|
  spdm_encode v :=
    let* n := full (spdm_encode SecuredMessageGeneralOpaqueDataHeader_codec (vs_header v)) in
    let* m := encode_first
      (λ x, full (spdm_encode OpaqueElementDMTFVersionSelection_codec x))
      (Z.to_nat (total_elements (vs_header v))) (version_selection_list v) in
    ret (n + m)%nat;
  spdm_read :=
    let* header := spdm_read SecuredMessageGeneralOpaqueDataHeader_codec in
    let* l := read_into (spdm_read OpaqueElementDMTFVersionSelection_codec)
      (Z.to_nat (total_elements header))
      (replicate MAX_OPAQUE_LIST_ELEMENTS_COUNT
         {| selected_version := SecuredMessageVersion_default |}) in
    ret {| vs_header := header; version_selection_list := l |};
|}.

(*@ spdmlib/src/common/opaque.rs 481-529 SecuredMessageDMTFSupportedVersion as SpdmCodec *)
Definition SecuredMessageDMTFSupportedVersion_codec
    : SpdmCodec SecuredMessageDMTFSupportedVersion := {|
  spdm_encode v :=
    let* n := full (spdm_encode SecuredMessageGeneralOpaqueDataHeader_codec (sv_header v)) in
    let* m := encode_first
      (λ x, full (spdm_encode OpaqueElementDMTFSupportedVersion_codec x))
      (Z.to_nat (total_elements (sv_header v))) (supported_version_list v) in
    ret (n + m)%nat;
  spdm_read :=
    let* header := spdm_read SecuredMessageGeneralOpaqueDataHeader_codec in
    if Z.of_nat MAX_OPAQUE_LIST_ELEMENTS_COUNT <? total_elements header then throw tt else
    let* l := read_into (spdm_read OpaqueElementDMTFSupportedVersion_codec)
      (Z.to_nat (total_elements header))
      (replicate MAX_OPAQUE_LIST_ELEMENTS_COUNT
         {| secured_msg_vers := SecuredMessageVersionList_default |}) in
    ret {| sv_header := header; supported_version_list := l |};
|}.

(*@ spdmlib/src/common/opaque.rs 545-573 SpdmOpaqueStruct as SpdmCodec *)
Definition SpdmOpaqueStruct_codec : SpdmCodec SpdmOpaqueStruct := {|
  spdm_encode v :=
    let* n1 := enc u16_codec (Z.of_nat (data_size v)) in
    let* n2 := enc_bytes (take (data_size v) (data v)) in
    ret (n1 + n2)%nat;
  spdm_read :=
    let* size := read u16_codec in
    if (MAX_SPDM_OPAQUE_SIZE <? Z.to_nat size)%nat then throw tt else
    let* bs := read_array (Z.to_nat size) MAX_SPDM_OPAQUE_SIZE in
    ret {| data_size := Z.to_nat size; data := bs |};
|}.

(*@ spdmlib/src/common/opaque.rs 576-588 SpdmOpaqueStruct::rsp_get_dmtf_supported_secure_spdm_version_list *)
Definition rsp_get_dmtf_supported_secure_spdm_version_list {S} (v : SpdmOpaqueStruct)
    : M S unit SecuredMessageVersionList :=
  let* bs := sub_slice 0 (data_size v) (data v) in
  let* (sv, _) := with_reader bs (spdm_read SecuredMessageDMTFSupportedVersion_codec) in
  let* e := unwrap (supported_version_list sv !! 0%nat) in
  ret (secured_msg_vers e).

(*@ spdmlib/src/common/opaque.rs 590-602 SpdmOpaqueStruct::req_get_dmtf_secure_spdm_version_selection *)
Definition req_get_dmtf_secure_spdm_version_selection {S} (v : SpdmOpaqueStruct)
    : M S unit SecuredMessageVersion :=
  let* bs := sub_slice 0 (data_size v) (data v) in
  let* (vs, _) := with_reader bs (spdm_read SecuredMessageDMTFVersionSelection_codec) in
  let* e := unwrap (version_selection_list vs !! 0%nat) in
  ret (selected_version e).

End Opaque.

(** ** Properties *)

Lemma parser_gets {E A} (f : Reader → A) : parser (E:=E) (gets f) (λ _, True).
Proof.
  intros r Hr. exists 0%nat, (Ok (f r)). rewrite Reader_advance_0. split_and!; [done|lia|done].
Qed.

Lemma parser_read_into {E A} (rd : M Reader E A) (P : A → Prop) n arr :
  parser rd P → Forall P arr →
  parser (read_into rd n arr) (λ l, length l = length arr ∧ Forall P l).
Proof.
  intros Hrd Harr. unfold read_into. eapply parser_bind; [by apply parser_read_all|].
  intros l [Hl HP]. apply parser_ret. split.
  - rewrite length_app, length_drop. lia.
  - apply Forall_app_2; [done|by apply Forall_drop].
Qed.

#[export] Hint Resolve parser_gets : codec.

Definition version_wf (v : SecuredMessageVersion) : Prop :=
  is_uint 4 (major_version v) ∧ is_uint 4 (minor_version v) ∧
  is_uint 4 (update_version_number v) ∧ is_uint 4 (alpha v).

Definition version_wire (v : SecuredMessageVersion) : bytes :=
  le_bytes 1 (16 * update_version_number v + alpha v)
  ++ le_bytes 1 (16 * major_version v + minor_version v).

Lemma nibbles_eq {S E} hi lo :
  is_uint 4 hi → is_uint 4 lo → nibbles (S:=S) (E:=E) hi lo = ret (16 * hi + lo).
Proof.
  intros [Hh1 Hh2] [Hl1 Hl2]. unfold nibbles, add_u8.
  rewrite Z.shiftl_mul_pow2 by lia. rewrite as_uint_id by (split; lia).
  change (2 ^ 4) with 16 in *. rewrite decide_True by (split; lia). by rewrite (Z.mul_comm hi).
Qed.

Lemma nibbles_split b : is_u8 b → is_uint 4 (Z.shiftr b 4) ∧ is_uint 4 (Z.land b 0x0F).
Proof.
  intros [H1 H2]. change 0x0F with (Z.ones 4). rewrite Z.land_ones, Z.shiftr_div_pow2 by lia.
  split; [|by apply Z.mod_pos_bound]. change (2 ^ 8) with 256 in *.
  change (2 ^ 4) with 16. split; [apply Z.div_pos; lia|]. change (2 ^ 4) with 16.
  apply Z.div_lt_upper_bound; lia.
Qed.

Lemma nibbles_join hi lo :
  is_uint 4 hi → is_uint 4 lo →
  Z.shiftr (16 * hi + lo) 4 = hi ∧ Z.land (16 * hi + lo) 0x0F = lo.
Proof.
  intros [Hh1 Hh2] [Hl1 Hl2]. change 0x0F with (Z.ones 4).
  rewrite Z.land_ones, Z.shiftr_div_pow2 by lia. change (2 ^ 4) with 16 in *. split.
  - symmetry. apply (Z.div_unique _ _ _ lo); lia.
  - symmetry. apply (Z.mod_unique _ _ hi); lia.
Qed.

Lemma nibbles_u8 hi lo : is_uint 4 hi → is_uint 4 lo → is_u8 (16 * hi + lo).
Proof. intros [] []. split; lia. Qed.
#[export] Hint Resolve nibbles_u8 : codec.

#[export] Instance SecuredMessageVersion_ok :
  SpdmCodecOk SecuredMessageVersion_codec version_wf version_wire.
Proof.
  split; intros v (Hma&Hmi&Hup&Hal); unfold version_wire.
  - cbn [spdm_encode SecuredMessageVersion_codec]. rewrite !nibbles_eq by done.
    eapply writes_eq.
    + spdm_writes_steps.
    + done.
    + done.
  - cbn [spdm_read SecuredMessageVersion_codec]. eapply reads_eq.
    + spdm_reads_with (16 * update_version_number v + alpha v).
      spdm_reads_with (16 * major_version v + minor_version v). apply reads_ret.
    + done.
    + destruct (nibbles_join _ _ Hma Hmi) as [-> ->], (nibbles_join _ _ Hup Hal) as [-> ->].
      by destruct v.
Qed.

#[export] Instance SecuredMessageVersion_parse :
  SpdmParseOk SecuredMessageVersion_codec version_wf.
Proof.
  cbv [SpdmParseOk]. cbn [spdm_read SecuredMessageVersion_codec].
  eapply parser_bind; [apply parse_ok|]. intros b1 Hb1.
  eapply parser_bind; [apply parse_ok|]. intros b2 Hb2. apply parser_ret.
  destruct (nibbles_split _ Hb1), (nibbles_split _ Hb2). done.
Qed.

Definition versions_parsed (l : SecuredMessageVersionList) : Prop :=
  is_u8 (version_count l) ∧ length (versions_list l) = MAX_SECURE_SPDM_VERSION_COUNT ∧
  Forall version_wf (versions_list l).

Lemma version_default_wf : version_wf SecuredMessageVersion_default.
Proof. by repeat split. Qed.

#[export] Instance SecuredMessageVersionList_parse :
  SpdmParseOk SecuredMessageVersionList_codec versions_parsed.
Proof.
  cbv [SpdmParseOk]. cbn [spdm_read SecuredMessageVersionList_codec].
  eapply parser_bind; [apply parse_ok|]. intros n Hn.
  eapply parser_bind.
  { apply (parser_read_into _ version_wf); [apply spdm_parse_ok|].
    apply Forall_replicate, version_default_wf. }
  intros l [Hl Hv]. apply parser_ret. split_and!; [done|exact Hl|done].
Qed.

#[export] Instance OpaqueElementHeader_parse :
  SpdmParseOk OpaqueElementHeader_codec
    (λ v, is_u8 (oe_id v) ∧ is_u8 (vendor_len v) ∧
          array_wf (Z.to_nat (vendor_len v)) MAX_SPDM_VENDOR_DEFINED_VENDOR_ID_LEN (vendor_id v)).
Proof.
  cbv [SpdmParseOk]. cbn [spdm_read OpaqueElementHeader_codec].
  eapply parser_bind; [apply parse_ok|]. intros id Hid.
  eapply parser_bind; [apply parse_ok|]. intros n Hn.
  eapply parser_bind; [apply parser_read_array; destruct Hn; lia|]. intros bs Hbs.
  by apply parser_ret.
Qed.

#[export] Instance OpaqueElementDMTFSupportedVersion_parse :
  SpdmParseOk OpaqueElementDMTFSupportedVersion_codec (λ v, versions_parsed (secured_msg_vers v)).
Proof.
  cbv [SpdmParseOk]. cbn [spdm_read OpaqueElementDMTFSupportedVersion_codec].
  do 5 (eapply parser_bind; [apply parse_ok|]; intros ? _).
  eapply parser_bind; [apply spdm_parse_ok|]. intros l Hl.
  eapply parser_bind; [apply parser_gets|]. intros used _.
  eapply parser_bind; [apply parser_read_bytes|]. intros ? _. by apply parser_ret.
Qed.

#[export] Instance OpaqueElementDMTFVersionSelection_parse :
  SpdmParseOk OpaqueElementDMTFVersionSelection_codec (λ v, version_wf (selected_version v)).
Proof.
  cbv [SpdmParseOk]. cbn [spdm_read OpaqueElementDMTFVersionSelection_codec].
  do 5 (eapply parser_bind; [apply parse_ok|]; intros ? _).
  eapply parser_bind; [apply spdm_parse_ok|]. intros l Hl. by apply parser_ret.
Qed.

Section OpaqueProofs.
Context `{cfg : Config} `{sec : Secret} `{dev : SpdmDeviceIo}.
Context (context : SpdmContext).

#[export] Instance SecuredMessageGeneralOpaqueDataHeader_parse :
  SpdmParseOk (SecuredMessageGeneralOpaqueDataHeader_codec context) (λ v, is_u8 (total_elements v)).
Proof.
  cbv [SpdmParseOk]. cbn [spdm_read SecuredMessageGeneralOpaqueDataHeader_codec].
  destruct (before_12 context); [|destruct (fmt1 context)]; parser_steps; by apply parser_ret.
Qed.

#[export] Instance SecuredMessageDMTFVersionSelection_parse :
  SpdmParseOk (SecuredMessageDMTFVersionSelection_codec context)
    (λ v, length (version_selection_list v) = MAX_OPAQUE_LIST_ELEMENTS_COUNT ∧
          Forall (λ e, version_wf (selected_version e)) (version_selection_list v)).
Proof.
  cbv [SpdmParseOk]. cbn [spdm_read SecuredMessageDMTFVersionSelection_codec].
  eapply parser_bind; [apply spdm_parse_ok|]. intros h Hh.
  eapply parser_bind.
  { eapply parser_read_into; [apply spdm_parse_ok|]. apply Forall_replicate, version_default_wf. }
  intros l Hl. by apply parser_ret.
Qed.

#[export] Instance SecuredMessageDMTFSupportedVersion_parse :
  SpdmParseOk (SecuredMessageDMTFSupportedVersion_codec context)
    (λ v, length (supported_version_list v) = MAX_OPAQUE_LIST_ELEMENTS_COUNT ∧
          Forall (λ e, versions_parsed (secured_msg_vers e)) (supported_version_list v)).
Proof.
  cbv [SpdmParseOk]. cbn [spdm_read SecuredMessageDMTFSupportedVersion_codec].
  eapply parser_bind; [apply spdm_parse_ok|]. intros h Hh.
  apply parser_if; [intros; apply parser_throw|]. intros _.
  eapply parser_bind.
  { eapply parser_read_into; [apply spdm_parse_ok|]. apply Forall_replicate.
    split_and!; [by split|done|]. apply Forall_replicate, version_default_wf. }
  intros l Hl. by apply parser_ret.
Qed.

Definition Opaque_wf (v : SpdmOpaqueStruct) : Prop := sized_wf MAX_SPDM_OPAQUE_SIZE v.
Definition Opaque_wire (v : SpdmOpaqueStruct) : bytes :=
  le_bytes 2 (Z.of_nat (data_size v)) ++ sized_bytes v.

#[export] Instance SpdmOpaqueStruct_ok : SpdmCodecOk SpdmOpaqueStruct_codec Opaque_wf Opaque_wire.
Proof.
  split; intros v Hv; pose proof Hv as (Hl&Hu&Hn&_); unfold Opaque_wire;
    assert (is_u16 (Z.of_nat (data_size v))) by (split; lia).
  - pose proof (sized_bytes_u8 _ _ Hv) as Hb. unfold sized_bytes in *.
    cbn [spdm_encode SpdmOpaqueStruct_codec]. eapply writes_eq.
    + spdm_writes_steps.
    + by rewrite app_nil_r.
    + by rewrite !length_app, !length_le_bytes.
  - cbn [spdm_read SpdmOpaqueStruct_codec]. eapply reads_eq.
    + spdm_reads_with (Z.of_nat (data_size v)). rewrite Nat2Z.id, (proj2 (Nat.ltb_ge _ _)) by done.
      spdm_reads_with (data v). apply reads_ret.
    + by rewrite app_nil_r.
    + by destruct v.
Qed.

#[export] Instance SpdmOpaqueStruct_parse : SpdmParseOk SpdmOpaqueStruct_codec Opaque_wf.
Proof.
  cbv [SpdmParseOk]. cbn [spdm_read SpdmOpaqueStruct_codec].
  eapply parser_bind; [apply parse_ok|]. intros size _.
  apply parser_if; [intros; apply parser_throw|]. intros Hle%Nat.ltb_ge.
  eapply parser_bind; [by apply parser_read_array|]. intros bs Hbs. by apply parser_ret.
Qed.

(** The opaque data with the given content. *)
Definition opaque_of (bs : bytes) : SpdmOpaqueStruct := {|
  data_size := length bs;
  data := bs ++ replicate (MAX_SPDM_OPAQUE_SIZE - length bs) 0;
|}.

Lemma rsp_get_versions_cases {S} (v : SpdmOpaqueStruct) (st : S) :
  Opaque_wf v →
  (∃ l, rsp_get_dmtf_supported_secure_spdm_version_list context v st = (Ok l, st) ∧
        versions_parsed l) ∨
  rsp_get_dmtf_supported_secure_spdm_version_list context v st = (Err tt, st).
Proof.
  intros (Hl&Hu&Hn&_). unfold rsp_get_dmtf_supported_secure_spdm_version_list.
  erewrite bind_step by (apply sub_slice_ok; lia). set (bs := take _ _).
  assert (Hbs : Forall is_u8 bs) by by apply Forall_take, Forall_drop.
  destruct (SecuredMessageDMTFSupportedVersion_parse (Reader_init bs)) as (k&o&Ho&_&Hp).
  { split; [simpl; lia|done]. }
  unfold bind, with_reader. rewrite Ho. destruct o as [sv|[]|]; [|by right|done].
  left. destruct Hp as [Hlen Hall].
  destruct (supported_version_list sv) as [|e es]; [done|].
  exists (secured_msg_vers e). split; [done|]. by inversion_clear Hall.
Qed.

(** In version 1.2 the two sides understand each other's opaque data.  The list of
    secured message versions that a requester sends is read by the responder as the versions
    1.0 and 1.1, and the selection that a responder sends is read by the requester as 1.1. *)
Theorem opaque_fmt1 :
  before_12 context = false → fmt1 context = true →
  run (rsp_get_dmtf_supported_secure_spdm_version_list context
        (opaque_of REQ_DMTF_OPAQUE_DATA_SUPPORT_VERSION_LIST_DSP0274_FMT1)) =
    Ok {| version_count := 2; versions_list := DMTF_SUPPORTED_SECURE_SPDM_VERSION_LIST |} ∧
  run (req_get_dmtf_secure_spdm_version_selection context
        (opaque_of RSP_DMTF_OPAQUE_DATA_VERSION_SELECTION_DSP0274_FMT1)) =
    Ok (from_secure_spdm_version DMTF_SECURE_SPDM_VERSION_11).
Proof.
  intros Hb Hf. unfold rsp_get_dmtf_supported_secure_spdm_version_list,
    req_get_dmtf_secure_spdm_version_selection, SecuredMessageDMTFSupportedVersion_codec,
    SecuredMessageDMTFVersionSelection_codec, SecuredMessageGeneralOpaqueDataHeader_codec.
  rewrite Hb, Hf. split; vm_compute; reflexivity.
Qed.

(** Before version 1.2 they do not: the identifier of the format in the constants that are
    sent is not the one the reader compares with, which lacks a digit, so that both sides
    reject the opaque data that the other one sends. *)
Theorem opaque_dsp0277 :
  before_12 context = true →
  run (rsp_get_dmtf_supported_secure_spdm_version_list context
        (opaque_of REQ_DMTF_OPAQUE_DATA_SUPPORT_VERSION_LIST_DSP0277)) = Err tt ∧
  run (req_get_dmtf_secure_spdm_version_selection context
        (opaque_of RSP_DMTF_OPAQUE_DATA_VERSION_SELECTION_DSP0277)) = Err tt.
Proof.
  intros Hb. unfold rsp_get_dmtf_supported_secure_spdm_version_list,
    req_get_dmtf_secure_spdm_version_selection, SecuredMessageDMTFSupportedVersion_codec,
    SecuredMessageDMTFVersionSelection_codec, SecuredMessageGeneralOpaqueDataHeader_codec.
  rewrite Hb. split; vm_compute; reflexivity.
Qed.

End OpaqueProofs.

(** ** Evaluated *)

Section Example.
#[local] Existing Instances default_config toy_crypto toy_secret toy_device.

Lemma opaque_fmt1_witness :
  run (rsp_get_dmtf_supported_secure_spdm_version_list toy_context
        (opaque_of REQ_DMTF_OPAQUE_DATA_SUPPORT_VERSION_LIST_DSP0274_FMT1)) =
    Ok {| version_count := 2; versions_list := DMTF_SUPPORTED_SECURE_SPDM_VERSION_LIST |} ∧
  run (req_get_dmtf_secure_spdm_version_selection toy_context
        (opaque_of RSP_DMTF_OPAQUE_DATA_VERSION_SELECTION_DSP0274_FMT1)) =
    Ok (from_secure_spdm_version DMTF_SECURE_SPDM_VERSION_11).
Proof. exact (opaque_fmt1 toy_context eq_refl eq_refl). Defined.

Definition toy_context_11 : SpdmContext :=
  toy_context <| negotiate_info ::= λ n, n <| spdm_version_sel := SpdmVersion11 |> |>.

Lemma opaque_dsp0277_witness :
  run (rsp_get_dmtf_supported_secure_spdm_version_list toy_context_11
        (opaque_of REQ_DMTF_OPAQUE_DATA_SUPPORT_VERSION_LIST_DSP0277)) = Err tt ∧
  run (req_get_dmtf_secure_spdm_version_selection toy_context_11
        (opaque_of RSP_DMTF_OPAQUE_DATA_VERSION_SELECTION_DSP0277)) = Err tt.
Proof. exact (opaque_dsp0277 toy_context_11 eq_refl). Defined.

End Example.
