(* ===== verification/MsgNegotiate.v ===== *)
(** Model of the messages of the first phase, spdmlib/src/message/version.rs, capability.rs and
    algorithm.rs: formats and the checks made when they are read. *)

From S2P Require Import Prelude Config Codec Status Algo Protocol Crypto KeySchedule Buffers Session Context SpdmCodec Opaque.

(** ** Versions *)

(** Payloads of two parameters and no data. *)
Definition empty_codec {A} (v : A) : SpdmCodec A := {|
  spdm_encode _ := enc u8_codec 0;; enc u8_codec 0;; ret 2%nat;
  spdm_read := read u8_codec;; read u8_codec;; ret v;
|}.

(*@ spdmlib/src/message/version.rs 12-12 SpdmGetVersionRequestPayload *)
Inductive SpdmGetVersionRequestPayload := MkSpdmGetVersionRequestPayload.

(*@ spdmlib/src/message/version.rs 14-34 SpdmGetVersionRequestPayload as SpdmCodec *)
Definition SpdmGetVersionRequestPayload_codec : SpdmCodec SpdmGetVersionRequestPayload :=
  empty_codec MkSpdmGetVersionRequestPayload.

(*@ spdmlib/src/message/version.rs 36-40 SpdmVersionStruct *)
Record SpdmVersionStruct := { vs_update : Z; vs_version : SpdmVersion }.

(*@ spdmlib/src/message/version.rs 42-54 SpdmVersionStruct as Codec *)
Definition SpdmVersionStruct_codec : Codec SpdmVersionStruct := {|
  encode v :=
    let* n1 := encode u8_codec (vs_update v) in
    let* n2 := encode SpdmVersion_codec (vs_version v) in
    ret (n1 + n2)%nat;
  read :=
    let* u := read u8_codec in
    let* v := read SpdmVersion_codec in
    ret {| vs_update := u; vs_version := v |};
|}.

(*@ spdmlib/src/message/version.rs 56-60 SpdmVersionResponsePayload *)
Record SpdmVersionResponsePayload := {
  version_number_entry_count : Z;
  versions : list SpdmVersionStruct;
}.

Definition SpdmVersionStruct_10 : SpdmVersionStruct :=
  {| vs_update := 0; vs_version := SpdmVersion10 |}.

(*@ spdmlib/src/message/version.rs 62-122 SpdmVersionResponsePayload as SpdmCodec *)
Definition SpdmVersionResponsePayload_codec : SpdmCodec SpdmVersionResponsePayload := {|
  spdm_encode v :=
    let* n1 := enc u8_codec 0 in
    let* n2 := enc u8_codec 0 in
    let* n3 := enc u8_codec 0 in
    let* n4 := enc u8_codec (version_number_entry_count v) in
    let* n5 := encode_all (enc SpdmVersionStruct_codec)
      (take (Z.to_nat (version_number_entry_count v)) (versions v)) in
    ret (n1 + n2 + n3 + n4 + n5)%nat;
  spdm_read :=
    read u8_codec;; read u8_codec;; read u8_codec;;
    let* count := read u8_codec in
    if (count <? 1) || (Z.of_nat MAX_SPDM_VERSION_COUNT <? count) then throw tt else
    let* l := read_into (read SpdmVersionStruct_codec) (Z.to_nat count)
      (replicate MAX_SPDM_VERSION_COUNT SpdmVersionStruct_10) in
    ret {| version_number_entry_count := count; versions := l |};
|}.

(** ** Capabilities *)

(*@ spdmlib/src/message/capability.rs 11-18 SpdmGetCapabilitiesRequestPayload *)
Record SpdmGetCapabilitiesRequestPayload := {
  cq_ct_exponent : Z;
  cq_flags : Z;
  cq_data_transfer_size : Z;
  cq_max_spdm_msg_size : Z;
}.

(*@ spdmlib/src/message/capability.rs 145-151 SpdmCapabilitiesResponsePayload *)
Record SpdmCapabilitiesResponsePayload := {
  cp_ct_exponent : Z;
  cp_flags : Z;
  cp_data_transfer_size : Z;
  cp_max_spdm_msg_size : Z;
}.

(** The early returns of the reader on the requester's flags, version 1.1 and later. *)
(*@ spdmlib/src/message/capability.rs 71-120 SpdmGetCapabilitiesRequestPayload::spdm_read *)
Definition check_req_capability (version : SpdmVersion) (flags : Z) : bool :=
  let has f := contains flags f in
  if has SpdmRequestCapabilityFlags.PSK_RSVD then false else
  if (if has SpdmRequestCapabilityFlags.KEY_EX_CAP || has SpdmRequestCapabilityFlags.PSK_CAP
      then negb (has SpdmRequestCapabilityFlags.MAC_CAP)
      else has SpdmRequestCapabilityFlags.MAC_CAP || has SpdmRequestCapabilityFlags.ENCRYPT_CAP
           || has SpdmRequestCapabilityFlags.HANDSHAKE_IN_THE_CLEAR_CAP
           || has SpdmRequestCapabilityFlags.HBEAT_CAP
           || has SpdmRequestCapabilityFlags.KEY_UPD_CAP) then false else
  if negb (has SpdmRequestCapabilityFlags.KEY_EX_CAP) && has SpdmRequestCapabilityFlags.PSK_CAP
     && has SpdmRequestCapabilityFlags.HANDSHAKE_IN_THE_CLEAR_CAP then false else
  if (if has SpdmRequestCapabilityFlags.CERT_CAP || has SpdmRequestCapabilityFlags.PUB_KEY_ID_CAP
      then (has SpdmRequestCapabilityFlags.CERT_CAP
            && has SpdmRequestCapabilityFlags.PUB_KEY_ID_CAP)
           || (negb (has SpdmRequestCapabilityFlags.CHAL_CAP)
               && negb (has SpdmRequestCapabilityFlags.KEY_EX_CAP))
      else has SpdmRequestCapabilityFlags.CHAL_CAP
           || has SpdmRequestCapabilityFlags.MUT_AUTH_CAP) then false else
  negb ((SpdmVersion_get_u8 version =? SpdmVersion_get_u8 SpdmVersion11)
        && has SpdmRequestCapabilityFlags.MUT_AUTH_CAP
        && negb (has SpdmRequestCapabilityFlags.ENCAP_CAP)).

(** The early returns of the reader on the responder's flags. *)
(*@ spdmlib/src/message/capability.rs 200-296 SpdmCapabilitiesResponsePayload::spdm_read *)
Definition check_rsp_capability (version : SpdmVersion) (flags : Z) : bool :=
  let has f := contains flags f in
  if has SpdmResponseCapabilityFlags.MEAS_CAP_NO_SIG
     && has SpdmResponseCapabilityFlags.MEAS_CAP_SIG then false else
  if (negb (has SpdmResponseCapabilityFlags.MEAS_CAP_NO_SIG)
      && negb (has SpdmResponseCapabilityFlags.MEAS_CAP_SIG))
     && has SpdmResponseCapabilityFlags.MEAS_FRESH_CAP then false else
  if (if negb (SpdmVersion_ge version SpdmVersion11) then
        if negb (has SpdmResponseCapabilityFlags.MEAS_CAP_SIG)
        then negb (eqb (has SpdmResponseCapabilityFlags.CERT_CAP)
                       (has SpdmResponseCapabilityFlags.CHAL_CAP))
        else negb (has SpdmResponseCapabilityFlags.CERT_CAP)
      else
        (has SpdmResponseCapabilityFlags.PSK_CAP_WITHOUT_CONTEXT
         && has SpdmResponseCapabilityFlags.PSK_CAP_WITH_CONTEXT)
        || (if has SpdmResponseCapabilityFlags.KEY_EX_CAP
               || has SpdmResponseCapabilityFlags.PSK_CAP_WITHOUT_CONTEXT
               || has SpdmResponseCapabilityFlags.PSK_CAP_WITH_CONTEXT
            then negb (has SpdmResponseCapabilityFlags.MAC_CAP)
            else has SpdmResponseCapabilityFlags.MAC_CAP
                 || has SpdmResponseCapabilityFlags.ENCRYPT_CAP
                 || has SpdmResponseCapabilityFlags.HANDSHAKE_IN_THE_CLEAR_CAP
                 || has SpdmResponseCapabilityFlags.HBEAT_CAP
                 || has SpdmResponseCapabilityFlags.KEY_UPD_CAP)
        || (negb (has SpdmResponseCapabilityFlags.KEY_EX_CAP)
            && (has SpdmResponseCapabilityFlags.PSK_CAP_WITHOUT_CONTEXT
                || has SpdmResponseCapabilityFlags.PSK_CAP_WITH_CONTEXT)
            && has SpdmResponseCapabilityFlags.HANDSHAKE_IN_THE_CLEAR_CAP)
        || (if has SpdmResponseCapabilityFlags.CERT_CAP
               || has SpdmResponseCapabilityFlags.PUB_KEY_ID_CAP
            then (has SpdmResponseCapabilityFlags.CERT_CAP
                  && has SpdmResponseCapabilityFlags.PUB_KEY_ID_CAP)
                 || (negb (has SpdmResponseCapabilityFlags.CHAL_CAP)
                     && negb (has SpdmResponseCapabilityFlags.KEY_EX_CAP)
                     && negb (has SpdmResponseCapabilityFlags.MEAS_CAP_SIG))
            else has SpdmResponseCapabilityFlags.CHAL_CAP
                 || has SpdmResponseCapabilityFlags.KEY_EX_CAP
                 || has SpdmResponseCapabilityFlags.MEAS_CAP_SIG
                 || has SpdmResponseCapabilityFlags.MUT_AUTH_CAP)) then false else
  if (SpdmVersion_get_u8 version =? SpdmVersion_get_u8 SpdmVersion11)
     && has SpdmResponseCapabilityFlags.MUT_AUTH_CAP
     && negb (has SpdmResponseCapabilityFlags.ENCAP_CAP) then false else
  if SpdmVersion_ge version SpdmVersion12 then
    if negb (has SpdmResponseCapabilityFlags.CERT_CAP)
       && (has SpdmResponseCapabilityFlags.ALIAS_CERT_CAP
           || has SpdmResponseCapabilityFlags.SET_CERT_CAP) then false else
    if has SpdmResponseCapabilityFlags.CSR_CAP
       && negb (has SpdmResponseCapabilityFlags.SET_CERT_CAP) then false else
    negb (has SpdmResponseCapabilityFlags.CERT_INSTALL_RESET_CAP
          && negb (has SpdmResponseCapabilityFlags.CSR_CAP)
          && negb (has SpdmResponseCapabilityFlags.SET_CERT_CAP))
  else true.

(** ** Algorithms *)

(*@ spdmlib/src/message/algorithm.rs 14-22 SpdmNegotiateAlgorithmsRequestPayload *)
Record SpdmNegotiateAlgorithmsRequestPayload := {
  nq_measurement_specification : Z;
  nq_other_params_support : Z;
  nq_base_asym_algo : Z;
  nq_base_hash_algo : Z;
  nq_alg_struct_count : Z;
  nq_alg_struct : list SpdmAlgStruct;
}.

(*@ spdmlib/src/message/algorithm.rs 206-215 SpdmAlgorithmsResponsePayload *)
Record SpdmAlgorithmsResponsePayload := {
  np_measurement_specification_sel : Z;
  np_other_params_selection : Z;
  np_measurement_hash_algo : Z;
  np_base_asym_sel : Z;
  np_base_hash_sel : Z;
  np_alg_struct_count : Z;
  np_alg_struct : list SpdmAlgStruct;
}.

Definition SpdmAlgStruct_default : SpdmAlgStruct :=
  {| alg_type := SpdmAlgType_Unknown 0; alg_supported := SpdmAlgoUnknown |}.

(** [((2 + alg_fixed_count) * alg_struct_count) as u16], the product on [u8]. *)
Definition alg_struct_size {S E} (count : Z) : M S E Z :=
  if decide (is_u8 (4 * count)) then ret (4 * count) else panic.

(** Which kinds have been seen: dhe, aead, req_asym, key_schedule. *)
Record algs_present := {
  dhe_present : bool; aead_present : bool; req_asym_present : bool; key_schedule_present : bool
}.

(** The check on one structure: its kind has not been seen and [check] accepts it. *)
(*@ spdmlib/src/message/algorithm.rs 149-177 SpdmNegotiateAlgorithmsRequestPayload::spdm_read *)
Definition see_alg (seen : algs_present) (a : SpdmAlg) : option algs_present :=
  let '{| dhe_present := d; aead_present := e; req_asym_present := r;
          key_schedule_present := k |} := seen in
  match a with
  | SpdmAlgoDhe _ => if d then None else Some {| dhe_present := true; aead_present := e;
      req_asym_present := r; key_schedule_present := k |}
  | SpdmAlgoAead _ => if e then None else Some {| dhe_present := d; aead_present := true;
      req_asym_present := r; key_schedule_present := k |}
  | SpdmAlgoReqAsym _ => if r then None else Some {| dhe_present := d; aead_present := e;
      req_asym_present := true; key_schedule_present := k |}
  | SpdmAlgoKeySchedule _ => if k then None else Some {| dhe_present := d; aead_present := e;
      req_asym_present := r; key_schedule_present := true |}
  | SpdmAlgoUnknown => None
  end.

(** The loop over the structures; request and response differ in [check]. *)
(*@ spdmlib/src/message/algorithm.rs 138-179 SpdmNegotiateAlgorithmsRequestPayload::spdm_read *)
Fixpoint read_algs (check : SpdmAlg → bool) (n : nat) (current_type : SpdmAlgType)
    (seen : algs_present) : M Reader unit (list SpdmAlgStruct) :=
  match n with
  | O => ret []
  | S n =>
      let* a := read SpdmAlgStruct_codec in
      if SpdmAlgType_get_u8 (alg_type a) <=? SpdmAlgType_get_u8 current_type then throw tt else
      match see_alg seen (alg_supported a) with
      | None => throw tt
      | Some seen =>
          if negb (check (alg_supported a)) then throw tt else
          let* l := read_algs check n (alg_type a) seen in
          ret (a :: l)
      end
  end.

Definition none_present : algs_present := {| dhe_present := false; aead_present := false;
  req_asym_present := false; key_schedule_present := false |}.

(** The structures go to the front of an array of four. *)
Definition read_alg_struct (check : SpdmAlg → bool) (count : Z)
    : M Reader unit (list SpdmAlgStruct) :=
  let n := Nat.min (Z.to_nat count) 4 in
  let* l := read_algs check n (SpdmAlgType_Unknown 0) none_present in
  ret (l ++ replicate (4 - n) SpdmAlgStruct_default).

Section MsgNegotiate.
Context `{cfg : Config} `{sec : Secret} `{dev : SpdmDeviceIo}.
Context (context : SpdmContext).

Definition sel_version : SpdmVersion := spdm_version_sel (negotiate_info context).
Definition sel_ge11 : bool := SpdmVersion_ge sel_version SpdmVersion11.
Definition sel_ge12 : bool := SpdmVersion_ge sel_version SpdmVersion12.
Definition rsp_has (f : Z) : bool := contains (rsp_capabilities_sel (negotiate_info context)) f.
Definition req_has (f : Z) : bool := contains (req_capabilities_sel (negotiate_info context)) f.

(** The sizes added by version 1.2. *)
Definition read_sizes : M Reader unit (Z * Z) :=
  let* data_transfer_size := read u32_codec in
  let* max_spdm_msg_size := read u32_codec in
  if (data_transfer_size <? 42) || (max_spdm_msg_size <? data_transfer_size) then throw tt else
  ret (data_transfer_size, max_spdm_msg_size).

(*@ spdmlib/src/message/capability.rs 20-143 SpdmGetCapabilitiesRequestPayload as SpdmCodec *)
Definition SpdmGetCapabilitiesRequestPayload_codec
    : SpdmCodec SpdmGetCapabilitiesRequestPayload := {|
  spdm_encode v :=
    let* n1 := enc u8_codec 0 in
    let* n2 := enc u8_codec 0 in
    let* n3 :=
      if sel_ge11 then
        let* n1 := enc u8_codec 0 in
        let* n2 := enc u8_codec (cq_ct_exponent v) in
        let* n3 := enc u16_codec 0 in
        let* n4 := enc SpdmRequestCapabilityFlags.codec (cq_flags v) in
        ret (n1 + n2 + n3 + n4)%nat
      else ret 0%nat in
    let* n4 :=
      if sel_ge12 then
        let* n1 := enc u32_codec (cq_data_transfer_size v) in
        let* n2 := enc u32_codec (cq_max_spdm_msg_size v) in
        ret (n1 + n2)%nat
      else ret 0%nat in
    ret (n1 + n2 + n3 + n4)%nat;
  spdm_read :=
    read u8_codec;; read u8_codec;;
    let* (ct_exponent, flags) :=
      if sel_ge11 then
        read u8_codec;;
        let* ct_exponent := read u8_codec in
        read u16_codec;;
        let* flags := read SpdmRequestCapabilityFlags.codec in
        if negb (check_req_capability sel_version flags) then throw tt else
        ret (ct_exponent, flags)
      else ret (0, 0) in
    let* (data_transfer_size, max_spdm_msg_size) := if sel_ge12 then read_sizes else ret (0, 0) in
    ret {| cq_ct_exponent := ct_exponent; cq_flags := flags;
           cq_data_transfer_size := data_transfer_size;
           cq_max_spdm_msg_size := max_spdm_msg_size |};
|}.

(*@ spdmlib/src/message/capability.rs 153-322 SpdmCapabilitiesResponsePayload as SpdmCodec *)
Definition SpdmCapabilitiesResponsePayload_codec
    : SpdmCodec SpdmCapabilitiesResponsePayload := {|
  spdm_encode v :=
    let* n1 := enc u8_codec 0 in
    let* n2 := enc u8_codec 0 in
    let* n3 := enc u8_codec 0 in
    let* n4 := enc u8_codec (cp_ct_exponent v) in
    let* n5 := enc u16_codec 0 in
    let* n6 := enc SpdmResponseCapabilityFlags.codec (cp_flags v) in
    let* n7 :=
      if sel_ge12 then
        let* n1 := enc u32_codec (cp_data_transfer_size v) in
        let* n2 := enc u32_codec (cp_max_spdm_msg_size v) in
        ret (n1 + n2)%nat
      else ret 0%nat in
    ret (n1 + n2 + n3 + n4 + n5 + n6 + n7)%nat;
  spdm_read :=
    read u8_codec;; read u8_codec;; read u8_codec;;
    let* ct_exponent := read u8_codec in
    read u16_codec;;
    let* flags := read SpdmResponseCapabilityFlags.codec in
    if negb (check_rsp_capability sel_version flags) then throw tt else
    let* (data_transfer_size, max_spdm_msg_size) := if sel_ge12 then read_sizes else ret (0, 0) in
    ret {| cp_ct_exponent := ct_exponent; cp_flags := flags;
           cp_data_transfer_size := data_transfer_size;
           cp_max_spdm_msg_size := max_spdm_msg_size |};
|}.
(** [OtherParamsSupport] is a reserved byte before version 1.2. *)
Definition enc_opaque_support (v : Z) : M Writer SpdmStatus nat :=
  if sel_ge12 then enc SpdmOpaqueSupport.codec v else enc u8_codec 0.
Definition read_opaque_support : M Reader unit Z :=
  if sel_ge12 then read SpdmOpaqueSupport.codec else read u8_codec;; ret 0.

(** [param1]: the number of structures, from version 1.1 on. *)
Definition enc_alg_count (count : Z) : M Writer SpdmStatus nat :=
  if sel_ge11 then enc u8_codec count else enc u8_codec 0.
Definition read_alg_count : M Reader unit Z :=
  if sel_ge11 then
    let* count := read u8_codec in
    if 4 <? count then throw tt else ret count
  else read u8_codec;; ret 0.

(** The length field: [base] bytes and four bytes per structure. *)
Definition alg_length {S E} (base count : Z) : M S E Z :=
  if sel_ge11 then let* n := alg_struct_size count in ret (base + n) else ret base.

(*@ spdmlib/src/message/algorithm.rs 25-88 SpdmNegotiateAlgorithmsRequestPayload::spdm_encode *)
Definition SpdmNegotiateAlgorithmsRequestPayload_encode
    (v : SpdmNegotiateAlgorithmsRequestPayload) : M Writer SpdmStatus nat :=
  let* n1 := enc_alg_count (nq_alg_struct_count v) in
  let* n2 := enc u8_codec 0 in
  let* length := alg_length 32 (nq_alg_struct_count v) in
  let* n3 := enc u16_codec length in
  let* n4 := enc SpdmMeasurementSpecification.codec (nq_measurement_specification v) in
  let* n5 := enc_opaque_support (nq_other_params_support v) in
  let* n6 := enc SpdmBaseAsymAlgo.codec (nq_base_asym_algo v) in
  let* n7 := enc SpdmBaseHashAlgo.codec (nq_base_hash_algo v) in
  let* n8 := enc_bytes (replicate 12 0) in
  let* n9 := enc u8_codec 0 in
  let* n10 := enc u8_codec 0 in
  let* n11 := enc u16_codec 0 in
  let* n12 :=
    if sel_ge11 then
      encode_all (enc SpdmAlgStruct_codec)
        (take (Z.to_nat (nq_alg_struct_count v)) (nq_alg_struct v))
    else ret 0%nat in
  ret (n1 + n2 + n3 + n4 + n5 + n6 + n7 + n8 + n9 + n10 + n11 + n12)%nat.

(*@ spdmlib/src/message/algorithm.rs 90-203 SpdmNegotiateAlgorithmsRequestPayload::spdm_read *)
Definition SpdmNegotiateAlgorithmsRequestPayload_read
    : M Reader unit SpdmNegotiateAlgorithmsRequestPayload :=
  let* count := read_alg_count in
  read u8_codec;;
  let* length := read u16_codec in
  let* spec := read SpdmMeasurementSpecification.codec in
  let* other := read_opaque_support in
  let* asym := read SpdmBaseAsymAlgo.codec in
  let* hash := read SpdmBaseHashAlgo.codec in
  read_all (read u8_codec) 12;;
  let* ext_asym_count := read u8_codec in
  if negb (ext_asym_count =? 0) then throw tt else
  let* ext_hash_count := read u8_codec in
  if negb (ext_hash_count =? 0) then throw tt else
  read u16_codec;;
  let* algs :=
    if sel_ge11 then read_alg_struct (λ _, true) count
    else ret (replicate 4 SpdmAlgStruct_default) in
  let* calc_length := alg_length 32 count in
  if negb (length =? calc_length) then throw tt else
  ret {| nq_measurement_specification := spec; nq_other_params_support := other;
         nq_base_asym_algo := asym; nq_base_hash_algo := hash;
         nq_alg_struct_count := count; nq_alg_struct := algs |}.

(*@ spdmlib/src/message/algorithm.rs 24-204 SpdmNegotiateAlgorithmsRequestPayload as SpdmCodec *)
Definition SpdmNegotiateAlgorithmsRequestPayload_codec
    : SpdmCodec SpdmNegotiateAlgorithmsRequestPayload := {|
  spdm_encode := SpdmNegotiateAlgorithmsRequestPayload_encode;
  spdm_read := SpdmNegotiateAlgorithmsRequestPayload_read;
|}.

(*@ spdmlib/src/message/algorithm.rs 218-285 SpdmAlgorithmsResponsePayload::spdm_encode *)
Definition SpdmAlgorithmsResponsePayload_encode (v : SpdmAlgorithmsResponsePayload)
    : M Writer SpdmStatus nat :=
  let* n1 := enc_alg_count (np_alg_struct_count v) in
  let* n2 := enc u8_codec 0 in
  let* length := alg_length 36 (np_alg_struct_count v) in
  let* n3 := enc u16_codec length in
  let* n4 := enc SpdmMeasurementSpecification.codec (np_measurement_specification_sel v) in
  let* n5 := enc_opaque_support (np_other_params_selection v) in
  let* n6 := enc SpdmMeasurementHashAlgo.codec (np_measurement_hash_algo v) in
  let* n7 := enc SpdmBaseAsymAlgo.codec (np_base_asym_sel v) in
  let* n8 := enc SpdmBaseHashAlgo.codec (np_base_hash_sel v) in
  let* n9 := enc_bytes (replicate 12 0) in
  let* n10 := enc u8_codec 0 in
  let* n11 := enc u8_codec 0 in
  let* n12 := enc u16_codec 0 in
  let* n13 :=
    if sel_ge11 then
      encode_all (enc SpdmAlgStruct_codec)
        (take (Z.to_nat (np_alg_struct_count v)) (np_alg_struct v))
    else ret 0%nat in
  ret (n1 + n2 + n3 + n4 + n5 + n6 + n7 + n8 + n9 + n10 + n11 + n12 + n13)%nat.

(** Conditions on capabilities that recur in the reader. *)
Definition both_key_ex : bool :=
  rsp_has SpdmResponseCapabilityFlags.KEY_EX_CAP && req_has SpdmRequestCapabilityFlags.KEY_EX_CAP.
Definition rsp_psk : bool :=
  rsp_has SpdmResponseCapabilityFlags.PSK_CAP_WITHOUT_CONTEXT
  || rsp_has SpdmResponseCapabilityFlags.PSK_CAP_WITH_CONTEXT.
Definition both_psk : bool := rsp_psk && req_has SpdmRequestCapabilityFlags.PSK_CAP.
Definition rsp_meas : bool :=
  rsp_has SpdmResponseCapabilityFlags.MEAS_CAP_NO_SIG
  || rsp_has SpdmResponseCapabilityFlags.MEAS_CAP_SIG.
Definition rsp_signs : bool :=
  rsp_has SpdmResponseCapabilityFlags.CERT_CAP || rsp_has SpdmResponseCapabilityFlags.CHAL_CAP
  || rsp_has SpdmResponseCapabilityFlags.MEAS_CAP_SIG || both_key_ex.

(** At most one algorithm, and one when [needed]. *)
Definition selection_ok (mask sel : Z) (needed : bool) : bool :=
  is_no_more_than_one_selected sel
  && negb (needed && negb (is_no_more_than_one_selected sel && is_valid mask sel)).

(*@ spdmlib/src/message/algorithm.rs 466-578 SpdmAlgorithmsResponsePayload::spdm_read *)
Definition rsp_alg_check (a : SpdmAlg) : bool :=
  match a with
  | SpdmAlgoDhe v => selection_ok SpdmDheAlgo.VALID_MASK v both_key_ex
  | SpdmAlgoAead v =>
      selection_ok SpdmAeadAlgo.VALID_MASK v
        ((rsp_has SpdmResponseCapabilityFlags.ENCRYPT_CAP
          && req_has SpdmRequestCapabilityFlags.ENCRYPT_CAP)
         || (rsp_has SpdmResponseCapabilityFlags.MAC_CAP
             && req_has SpdmRequestCapabilityFlags.MAC_CAP))
  | SpdmAlgoReqAsym v =>
      selection_ok SpdmReqAsymAlgo.VALID_MASK v
        (rsp_has SpdmResponseCapabilityFlags.MUT_AUTH_CAP
         && req_has SpdmRequestCapabilityFlags.MUT_AUTH_CAP)
  | SpdmAlgoKeySchedule v =>
      selection_ok SpdmKeyScheduleAlgo.VALID_MASK v (both_key_ex || both_psk)
  | SpdmAlgoUnknown => false
  end.

(*@ spdmlib/src/message/algorithm.rs 287-602 SpdmAlgorithmsResponsePayload::spdm_read *)
Definition SpdmAlgorithmsResponsePayload_read : M Reader unit SpdmAlgorithmsResponsePayload :=
  let* count := read_alg_count in
  read u8_codec;;
  let* length := read u16_codec in
  let* spec := read SpdmMeasurementSpecification.codec in
  if negb (selection_ok SpdmMeasurementSpecification.VALID_MASK spec rsp_meas) then throw tt else
  let* other := read_opaque_support in
  if negb (selection_ok SpdmOpaqueSupport.VALID_MASK other
      (sel_ge12 && (rsp_has SpdmResponseCapabilityFlags.KEY_EX_CAP || rsp_psk)))
  then throw tt else
  let* mhash := read SpdmMeasurementHashAlgo.codec in
  if negb (selection_ok SpdmMeasurementHashAlgo.VALID_MASK mhash rsp_meas) then throw tt else
  let* asym := read SpdmBaseAsymAlgo.codec in
  if negb (selection_ok SpdmBaseAsymAlgo.VALID_MASK asym rsp_signs) then throw tt else
  let* hash := read SpdmBaseHashAlgo.codec in
  if negb (selection_ok SpdmBaseHashAlgo.VALID_MASK hash (rsp_signs || both_psk)) then throw tt else
  read_all (read u8_codec) 12;;
  let* ext_asym_count := read u8_codec in
  if negb (ext_asym_count =? 0) then throw tt else
  let* ext_hash_count := read u8_codec in
  if negb (ext_hash_count =? 0) then throw tt else
  read u16_codec;;
  let* algs :=
    if sel_ge11 then read_alg_struct rsp_alg_check count
    else ret (replicate 4 SpdmAlgStruct_default) in
  let* calc_length := alg_length 36 count in
  if negb (length =? calc_length) then throw tt else
  ret {| np_measurement_specification_sel := spec; np_other_params_selection := other;
         np_measurement_hash_algo := mhash; np_base_asym_sel := asym;
         np_base_hash_sel := hash; np_alg_struct_count := count; np_alg_struct := algs |}.

(*@ spdmlib/src/message/algorithm.rs 217-603 SpdmAlgorithmsResponsePayload as SpdmCodec *)
Definition SpdmAlgorithmsResponsePayload_codec : SpdmCodec SpdmAlgorithmsResponsePayload := {|
  spdm_encode := SpdmAlgorithmsResponsePayload_encode;
  spdm_read := SpdmAlgorithmsResponsePayload_read;
|}.

End MsgNegotiate.

(** ** Properties *)

(** An array of capacity [max] whose first [n] places are in use. *)
Definition filled {A} (def : A) (n max : nat) (l : list A) : Prop :=
  length l = max ∧ (n ≤ max)%nat ∧ drop n l = replicate (max - n) def.

Lemma filled_take {A} (def : A) n max l : filled def n max l → length (take n l) = n.
Proof. intros (Hl&Hn&_). rewrite length_take. lia. Qed.

Lemma filled_make {A} (def : A) l max :
  (length l ≤ max)%nat → filled def (length l) max (l ++ replicate (max - length l) def).
Proof.
  intros Hl. split_and!; [|done|by rewrite drop_app_length].
  rewrite length_app, length_replicate. lia.
Qed.

Lemma reads_read_into {A E} (rd : M Reader E A) (wire : A → bytes) def n max l :
  filled def n max l → Forall (λ x, reads rd (wire x) x) (take n l) →
  reads (read_into rd n (replicate max def)) (concat (map wire (take n l))) l.
Proof.
  intros Hf Hrd. pose proof Hf as (Hl&Hn&Hd). unfold read_into.
  rewrite length_replicate, Nat.min_l, drop_replicate by lia.
  eapply reads_eq.
  - eapply (reads_bind _ _ _ [] (take n l)); [|apply reads_ret].
    pose proof (reads_read_all rd wire _ Hrd) as H. by rewrite (filled_take def n max) in H.
  - by rewrite app_nil_r.
  - by rewrite <- Hd, take_drop.
Qed.

Lemma parser_filled {A E} (rd : M Reader E A) (P : A → Prop) def n max :
  parser rd P → (n ≤ max)%nat →
  parser (read_into rd n (replicate max def)) (λ l, filled def n max l ∧ Forall P (take n l)).
Proof.
  intros Hrd Hn. unfold read_into. rewrite length_replicate, Nat.min_l, drop_replicate by lia.
  eapply parser_bind; [by apply parser_read_all|]. intros l [<- Hl]. apply parser_ret.
  split; [by apply filled_make|]. by rewrite take_app_length.
Qed.

Lemma writes_fields {A} (c : Codec A) wf wire `{!CodecOk c wf wire} l :
  Forall wf l →
  writes SPDM_STATUS_BUFFER_FULL (encode_all (enc c) l)
    (concat (map wire l)) (length (concat (map wire l))).
Proof.
  intros Hl. apply writes_encode_all. eapply Forall_impl; [|exact Hl].
  intros x Hx. by eapply writes_enc.
Qed.

#[export] Instance empty_codec_ok {A} (v : A) :
  SpdmCodecOk (empty_codec v) (λ x, x = v) (λ _, [0; 0]).
Proof.
  split; intros ? ->.
  - eapply writes_eq; [cbn [spdm_encode empty_codec]; spdm_writes_steps|done|done].
  - cbn [spdm_read empty_codec]. eapply reads_eq;
      [spdm_reads_with 0; spdm_reads_with 0; apply reads_ret|done|done].
Qed.

#[export] Instance empty_codec_parse {A} (v : A) : SpdmParseOk (empty_codec v) (λ x, x = v).
Proof. cbv [SpdmParseOk]. cbn [spdm_read empty_codec]. parser_steps. by apply parser_ret. Qed.

Definition SpdmVersionStruct_wf (v : SpdmVersionStruct) : Prop :=
  is_u8 (vs_update v) ∧ SpdmVersion_wf (vs_version v).
Definition SpdmVersionStruct_wire (v : SpdmVersionStruct) : bytes :=
  le_bytes 1 (vs_update v) ++ le_bytes 1 (SpdmVersion_get_u8 (vs_version v)).

#[export] Instance SpdmVersionStruct_ok :
  CodecOk SpdmVersionStruct_codec SpdmVersionStruct_wf SpdmVersionStruct_wire.
Proof.
  constructor; cbn [encode read SpdmVersionStruct_codec].
  - intros v [Hu Hv]. eapply writes_eq; [writes_steps|done|done].
  - intros v [Hu Hv]. eapply reads_eq;
      [reads_with (vs_update v); reads_with (vs_version v); apply reads_ret|done|by destruct v].
  - parser_steps. by apply parser_ret.
Qed.

Definition VersionResponse_wf (v : SpdmVersionResponsePayload) : Prop :=
  1 ≤ version_number_entry_count v ≤ Z.of_nat MAX_SPDM_VERSION_COUNT ∧
  filled SpdmVersionStruct_10 (Z.to_nat (version_number_entry_count v)) MAX_SPDM_VERSION_COUNT
    (versions v) ∧
  Forall SpdmVersionStruct_wf (take (Z.to_nat (version_number_entry_count v)) (versions v)).
Definition VersionResponse_wire (v : SpdmVersionResponsePayload) : bytes :=
  [0; 0; 0] ++ le_bytes 1 (version_number_entry_count v)
  ++ concat (map SpdmVersionStruct_wire
       (take (Z.to_nat (version_number_entry_count v)) (versions v))).

#[export] Instance SpdmVersionResponsePayload_ok :
  SpdmCodecOk SpdmVersionResponsePayload_codec VersionResponse_wf VersionResponse_wire.
Proof.
  split; intros v (Hc&Hf&Hv); unfold VersionResponse_wire;
    assert (is_u8 (version_number_entry_count v)) by (split; lia).
  - cbn [spdm_encode SpdmVersionResponsePayload_codec]. eapply writes_eq.
    + spdm_writes_steps. eapply writes_bind; [by eapply writes_fields; [apply _|]|apply writes_ret].
    + by rewrite app_nil_r.
    + rewrite !length_app, !length_le_bytes. simpl. lia.
  - cbn [spdm_read SpdmVersionResponsePayload_codec]. eapply reads_eq.
    + spdm_reads_with 0. spdm_reads_with 0. spdm_reads_with 0.
      spdm_reads_with (version_number_entry_count v).
      rewrite (proj2 (Z.ltb_ge _ _)), (proj2 (Z.ltb_ge _ _)) by lia. simpl orb.
      eapply (reads_bind _ _ _ [] (versions v)); [|apply reads_ret].
      apply (reads_read_into _ SpdmVersionStruct_wire); [done|].
      eapply Forall_impl; [|exact Hv]. intros x Hx. by apply read_ok.
    + by rewrite app_nil_r.
    + by destruct v.
Qed.

#[export] Instance SpdmVersionResponsePayload_parse :
  SpdmParseOk SpdmVersionResponsePayload_codec VersionResponse_wf.
Proof.
  cbv [SpdmParseOk]. cbn [spdm_read SpdmVersionResponsePayload_codec]. parser_steps.
  apply orb_false_iff in H3 as [?%Z.ltb_ge ?%Z.ltb_ge].
  eapply parser_bind; [apply (parser_filled _ SpdmVersionStruct_wf); [apply parse_ok|lia]|].
  intros l [Hf Hl]. apply parser_ret. done.
Qed.

Section NegotiateProofs.
Context `{cfg : Config} `{sec : Secret} `{dev : SpdmDeviceIo}.
Context (context : SpdmContext).

(** The transfer sizes of version 1.2; zero before. *)
Definition sizes_wf (d m : Z) : Prop :=
  if sel_ge12 context then is_u32 d ∧ is_u32 m ∧ 42 ≤ d ≤ m else d = 0 ∧ m = 0.
Definition sizes_wire (d m : Z) : bytes :=
  if sel_ge12 context then le_bytes 4 d ++ le_bytes 4 m else [].

Lemma reads_sizes d m :
  sizes_wf d m →
  reads (if sel_ge12 context then read_sizes else ret (0, 0)) (sizes_wire d m) (d, m).
Proof.
  unfold sizes_wf, sizes_wire. destruct (sel_ge12 context); [|by intros [-> ->]; apply reads_ret].
  intros (Hd&Hm&Hle). unfold read_sizes. eapply reads_eq.
  - spdm_reads_with d. spdm_reads_with m.
    rewrite (proj2 (Z.ltb_ge d _)), (proj2 (Z.ltb_ge m _)) by lia. apply reads_ret.
  - by rewrite app_nil_r.
  - done.
Qed.

Lemma parser_sizes :
  parser (if sel_ge12 context then read_sizes else ret (0, 0)) (λ '(d, m), sizes_wf d m).
Proof.
  unfold sizes_wf. destruct (sel_ge12 context); [|by apply parser_ret].
  unfold read_sizes. parser_steps. apply orb_false_iff in H2 as [?%Z.ltb_ge ?%Z.ltb_ge].
  apply parser_ret. split_and!; [done|done|lia..].
Qed.

Definition GetCapabilities_wf (v : SpdmGetCapabilitiesRequestPayload) : Prop :=
  (if sel_ge11 context then
     is_u8 (cq_ct_exponent v) ∧ flags_wf 32 SpdmRequestCapabilityFlags.VALID_MASK (cq_flags v) ∧
     check_req_capability (sel_version context) (cq_flags v) = true
   else cq_ct_exponent v = 0 ∧ cq_flags v = 0) ∧
  sizes_wf (cq_data_transfer_size v) (cq_max_spdm_msg_size v).

Definition GetCapabilities_wire (v : SpdmGetCapabilitiesRequestPayload) : bytes :=
  [0; 0]
  ++ (if sel_ge11 context
      then [0] ++ le_bytes 1 (cq_ct_exponent v) ++ [0; 0] ++ le_bytes 4 (cq_flags v) else [])
  ++ sizes_wire (cq_data_transfer_size v) (cq_max_spdm_msg_size v).

#[export] Instance SpdmGetCapabilitiesRequestPayload_ok :
  SpdmCodecOk (SpdmGetCapabilitiesRequestPayload_codec context)
    GetCapabilities_wf GetCapabilities_wire.
Proof.
  split; intros v (Hf&Hs); unfold GetCapabilities_wire.
  - cbn [spdm_encode SpdmGetCapabilitiesRequestPayload_codec].
    unfold sizes_wf, sizes_wire in *.
    destruct (sel_ge11 context), (sel_ge12 context); destruct_and!;
      (eapply writes_eq; [spdm_writes_steps|by rewrite ?app_nil_r|done]).
  - cbn [spdm_read SpdmGetCapabilitiesRequestPayload_codec]. eapply reads_eq.
    + spdm_reads_with 0. spdm_reads_with 0.
      eapply (reads_bind _ _ _ _ (cq_ct_exponent v, cq_flags v)).
      * instantiate (1 := if sel_ge11 context
          then [0] ++ le_bytes 1 (cq_ct_exponent v) ++ [0; 0] ++ le_bytes 4 (cq_flags v) else []).
        destruct (sel_ge11 context); [|by destruct Hf as [-> ->]; apply reads_ret].
        destruct Hf as (Hct&Hfl&Hc). eapply reads_eq.
        -- spdm_reads_with 0. spdm_reads_with (cq_ct_exponent v). spdm_reads_with 0.
           spdm_reads_with (cq_flags v). rewrite Hc. apply reads_ret.
        -- done.
        -- done.
      * eapply (reads_bind _ _ _ [] (_, _)); [by apply reads_sizes|apply reads_ret].
    + by rewrite app_nil_r.
    + by destruct v.
Qed.

#[export] Instance SpdmGetCapabilitiesRequestPayload_parse :
  SpdmParseOk (SpdmGetCapabilitiesRequestPayload_codec context) GetCapabilities_wf.
Proof.
  cbv [SpdmParseOk]. cbn [spdm_read SpdmGetCapabilitiesRequestPayload_codec]. parser_steps.
  eapply (parser_bind _ _ (λ '(ct, fl), if sel_ge11 context then
     is_u8 ct ∧ flags_wf 32 SpdmRequestCapabilityFlags.VALID_MASK fl ∧
     check_req_capability (sel_version context) fl = true else ct = 0 ∧ fl = 0)).
  { destruct (sel_ge11 context); [|by apply parser_ret]. parser_steps.
    apply parser_ret. split_and!; [done|done|]. by apply negb_false_iff. }
  intros [ct fl] Hcf. eapply parser_bind; [apply parser_sizes|]. intros [d m] Hs.
  by apply parser_ret.
Qed.

Definition Capabilities_wf (v : SpdmCapabilitiesResponsePayload) : Prop :=
  is_u8 (cp_ct_exponent v) ∧ flags_wf 32 SpdmResponseCapabilityFlags.VALID_MASK (cp_flags v) ∧
  check_rsp_capability (sel_version context) (cp_flags v) = true ∧
  sizes_wf (cp_data_transfer_size v) (cp_max_spdm_msg_size v).

Definition Capabilities_wire (v : SpdmCapabilitiesResponsePayload) : bytes :=
  [0; 0; 0] ++ le_bytes 1 (cp_ct_exponent v) ++ [0; 0] ++ le_bytes 4 (cp_flags v)
  ++ sizes_wire (cp_data_transfer_size v) (cp_max_spdm_msg_size v).

#[export] Instance SpdmCapabilitiesResponsePayload_ok :
  SpdmCodecOk (SpdmCapabilitiesResponsePayload_codec context) Capabilities_wf Capabilities_wire.
Proof.
  split; intros v (Hct&Hfl&Hc&Hs); unfold Capabilities_wire.
  - cbn [spdm_encode SpdmCapabilitiesResponsePayload_codec]. unfold sizes_wf, sizes_wire in *.
    destruct (sel_ge12 context); destruct_and!;
      (eapply writes_eq; [spdm_writes_steps|by rewrite ?app_nil_r|done]).
  - cbn [spdm_read SpdmCapabilitiesResponsePayload_codec]. eapply reads_eq.
    + spdm_reads_with 0. spdm_reads_with 0. spdm_reads_with 0.
      spdm_reads_with (cp_ct_exponent v). spdm_reads_with 0. spdm_reads_with (cp_flags v).
      rewrite Hc. cbn [negb].
      eapply (reads_bind _ _ _ [] (_, _)); [by apply reads_sizes|apply reads_ret].
    + by rewrite app_nil_r.
    + by destruct v.
Qed.

#[export] Instance SpdmCapabilitiesResponsePayload_parse :
  SpdmParseOk (SpdmCapabilitiesResponsePayload_codec context) Capabilities_wf.
Proof.
  cbv [SpdmParseOk]. cbn [spdm_read SpdmCapabilitiesResponsePayload_codec]. parser_steps.
  eapply parser_bind; [apply parser_sizes|]. intros [d m] Hs. apply parser_ret.
  split_and!; [done|done|by apply negb_false_iff|done].
Qed.

(** *** Algorithm structures *)

(** Well-formed structures in increasing order of type. *)
Fixpoint algs_ok (check : SpdmAlg → bool) (cur : Z) (l : list SpdmAlgStruct) : Prop :=
  match l with
  | [] => True
  | a :: l =>
      cur < SpdmAlgType_get_u8 (alg_type a) ∧ SpdmAlgStruct_wf a ∧
      check (alg_supported a) = true ∧ algs_ok check (SpdmAlgType_get_u8 (alg_type a)) l
  end.

(** The kinds seen have types up to the current one. *)
Definition seen_below (seen : algs_present) (cur : Z) : Prop :=
  (dhe_present seen = true → SpdmAlgType_get_u8 SpdmAlgTypeDHE ≤ cur) ∧
  (aead_present seen = true → SpdmAlgType_get_u8 SpdmAlgTypeAEAD ≤ cur) ∧
  (req_asym_present seen = true → SpdmAlgType_get_u8 SpdmAlgTypeReqAsym ≤ cur) ∧
  (key_schedule_present seen = true → SpdmAlgType_get_u8 SpdmAlgTypeKeySchedule ≤ cur).

(** In increasing order no kind repeats, so the flags of the source never refuse. *)
Lemma see_alg_some seen cur a :
  seen_below seen cur → cur < SpdmAlgType_get_u8 (alg_type a) → SpdmAlgStruct_wf a →
  ∃ seen', see_alg seen (alg_supported a) = Some seen' ∧
           seen_below seen' (SpdmAlgType_get_u8 (alg_type a)).
Proof.
  destruct seen as [d e r k], a as [[] []]; try done; unfold seen_below; cbn;
    intros (Hd&He&Hr&Hk) Hlt _;
    first [destruct d; [specialize (Hd eq_refl); lia|]
          |destruct e; [specialize (He eq_refl); lia|]
          |destruct r; [specialize (Hr eq_refl); lia|]
          |destruct k; [specialize (Hk eq_refl); lia|]];
    eexists; (split; [done|]); cbn; split_and!; intros; try lia; naive_solver lia.
Qed.

Lemma reads_algs check cur seen l :
  algs_ok check (SpdmAlgType_get_u8 cur) l → seen_below seen (SpdmAlgType_get_u8 cur) →
  reads (read_algs check (length l) cur seen) (concat (map SpdmAlgStruct_wire l)) l.
Proof.
  revert cur seen. induction l as [|a l IH]; intros cur seen Hok Hseen; [apply reads_ret|].
  destruct Hok as (Hlt&Hwf&Hc&Hok). cbn [read_algs length map concat].
  destruct (see_alg_some _ _ _ Hseen Hlt Hwf) as (seen'&Hsee&Hseen'). eapply reads_eq.
  - spdm_reads_with a. rewrite (proj2 (Z.leb_gt _ _)) by done. rewrite Hsee, Hc. cbn [negb].
    eapply (reads_bind _ _ _ []); [by apply IH|apply reads_ret].
  - by rewrite app_nil_r.
  - done.
Qed.

Lemma parser_algs check n cur seen :
  parser (read_algs check n cur seen)
    (λ l, length l = n ∧ algs_ok check (SpdmAlgType_get_u8 cur) l).
Proof.
  revert cur seen. induction n as [|n IH]; intros cur seen; cbn [read_algs]; [by apply parser_ret|].
  eapply parser_bind; [apply parse_ok|]. intros a Ha.
  apply parser_if; [intros; apply parser_throw|]. intros Hlt%Z.leb_gt.
  destruct (see_alg seen _) as [seen'|]; [|apply parser_throw].
  apply parser_if; [intros; apply parser_throw|]. intros Hc%negb_false_iff.
  eapply parser_bind; [apply IH|]. intros l [<- Hl]. by apply parser_ret.
Qed.

(** The array of a message: the structures, then defaults. *)
Definition alg_array_ok (check : SpdmAlg → bool) (count : Z) (l : list SpdmAlgStruct) : Prop :=
  if sel_ge11 context then
    0 ≤ count ≤ 4 ∧ filled SpdmAlgStruct_default (Z.to_nat count) 4 l ∧
    algs_ok check 0 (take (Z.to_nat count) l)
  else count = 0 ∧ l = replicate 4 SpdmAlgStruct_default.

Definition alg_array_wire (count : Z) (l : list SpdmAlgStruct) : bytes :=
  if sel_ge11 context then concat (map SpdmAlgStruct_wire (take (Z.to_nat count) l)) else [].

Lemma reads_alg_array check count l :
  alg_array_ok check count l →
  reads (if sel_ge11 context then read_alg_struct check count
         else ret (replicate 4 SpdmAlgStruct_default)) (alg_array_wire count l) l.
Proof.
  unfold alg_array_ok, alg_array_wire.
  destruct (sel_ge11 context); [|by intros [_ ->]; apply reads_ret].
  intros (Hc&Hf&Hok). pose proof Hf as (Hl&Hn&Hd). unfold read_alg_struct.
  rewrite Nat.min_l by lia. eapply reads_eq.
  - eapply (reads_bind _ _ _ [] (take (Z.to_nat count) l)); [|apply reads_ret].
    rewrite <- (filled_take _ _ _ _ Hf) at 1. apply reads_algs; [done|]. by repeat split.
  - by rewrite app_nil_r.
  - by rewrite <- Hd, take_drop.
Qed.

Lemma parser_alg_array check count :
  (if sel_ge11 context then 0 ≤ count ≤ 4 else count = 0) →
  parser (if sel_ge11 context then read_alg_struct check count
          else ret (replicate 4 SpdmAlgStruct_default)) (alg_array_ok check count).
Proof.
  unfold alg_array_ok. destruct (sel_ge11 context); [|by intros ->; apply parser_ret].
  intros Hc. unfold read_alg_struct. rewrite Nat.min_l by lia.
  eapply parser_bind; [apply parser_algs|]. intros l [Hlen Hl]. apply parser_ret.
  split; [done|]. rewrite <- Hlen. split; [apply filled_make; lia|by rewrite take_app_length].
Qed.

Lemma algs_ok_wf check cur l : algs_ok check cur l → Forall SpdmAlgStruct_wf l.
Proof. revert cur. induction l as [|a l IH]; intros cur; [done|]. intros (?&?&?&?). eauto. Qed.

Lemma writes_alg_array check count l :
  alg_array_ok check count l →
  writes SPDM_STATUS_BUFFER_FULL
    (if sel_ge11 context then encode_all (enc SpdmAlgStruct_codec) (take (Z.to_nat count) l)
     else ret 0%nat)
    (alg_array_wire count l) (length (alg_array_wire count l)).
Proof.
  unfold alg_array_ok, alg_array_wire. destruct (sel_ge11 context); [|intros; apply writes_ret].
  intros (_&_&Hok). eapply writes_fields; [apply _|]. by eapply algs_ok_wf.
Qed.

Definition count_wf (count : Z) : Prop :=
  if sel_ge11 context then 0 ≤ count ≤ 4 else count = 0.

Lemma alg_length_ok {S E} base count :
  count_wf count → alg_length (S:=S) (E:=E) context base count = ret (base + 4 * count).
Proof.
  unfold count_wf, alg_length. destruct (sel_ge11 context); intros Hc.
  - unfold alg_struct_size. rewrite decide_True by (split; lia). done.
  - subst. by rewrite Z.add_0_r.
Qed.

Lemma alg_array_count check count l : alg_array_ok check count l → count_wf count.
Proof. unfold alg_array_ok, count_wf. by destruct (sel_ge11 context); intros [? _]. Qed.

Lemma count_wf_u8 count : count_wf count → is_u8 count.
Proof. unfold count_wf. destruct (sel_ge11 context); intros; split; lia. Qed.

Lemma writes_alg_count count :
  count_wf count →
  writes SPDM_STATUS_BUFFER_FULL (enc_alg_count context count) (le_bytes 1 count) 1%nat.
Proof.
  intros Hc. pose proof (count_wf_u8 count Hc). unfold enc_alg_count, count_wf in *.
  destruct (sel_ge11 context); subst;
    (eapply writes_eq; [eapply (writes_enc u8_codec); [apply _|done]|done|done]).
Qed.

Lemma reads_alg_count count :
  count_wf count → reads (read_alg_count context) (le_bytes 1 count) count.
Proof.
  intros Hc. pose proof (count_wf_u8 count Hc). unfold read_alg_count, count_wf in *.
  destruct (sel_ge11 context); (eapply reads_eq; [spdm_reads_with count|by rewrite app_nil_r|done]).
  - rewrite (proj2 (Z.ltb_ge _ _)) by lia. apply reads_ret.
  - subst. apply reads_ret.
Qed.

Lemma parser_alg_count : parser (read_alg_count context) count_wf.
Proof.
  unfold read_alg_count, count_wf. destruct (sel_ge11 context).
  - eapply parser_bind; [apply parse_ok|]. intros n [Hn _].
    apply parser_if; [intros; apply parser_throw|]. intros ?%Z.ltb_ge. apply parser_ret. lia.
  - parser_steps. by apply parser_ret.
Qed.

(** The byte of opaque data formats; zero before version 1.2. *)
Definition opaque_support_wf (v : Z) : Prop :=
  if sel_ge12 context then v = 0 ∨ v = SpdmOpaqueSupport.OPAQUE_DATA_FMT1 else v = 0.

Lemma opaque_support_u8 v : opaque_support_wf v → is_u8 v.
Proof. unfold opaque_support_wf. destruct (sel_ge12 context); intros; split; lia. Qed.

Lemma writes_opaque_support v :
  opaque_support_wf v →
  writes SPDM_STATUS_BUFFER_FULL (enc_opaque_support context v) (le_bytes 1 v) 1%nat.
Proof.
  intros Hv. pose proof (opaque_support_u8 v Hv). unfold enc_opaque_support, opaque_support_wf in *.
  destruct (sel_ge12 context); subst;
    (eapply writes_eq; [eapply (writes_enc u8_codec); [apply _|done]|done|done]).
Qed.

Lemma reads_opaque_support v :
  opaque_support_wf v → reads (read_opaque_support context) (le_bytes 1 v) v.
Proof.
  intros Hv. pose proof (opaque_support_u8 v Hv). unfold read_opaque_support, opaque_support_wf in *.
  destruct (sel_ge12 context); (eapply reads_eq; [spdm_reads_with v|by rewrite app_nil_r|done]).
  - by destruct Hv as [-> | ->]; apply reads_ret.
  - subst. apply reads_ret.
Qed.

Lemma opaque_bits v :
  is_u8 v → Z.land v (Z.lnot SpdmOpaqueSupport.VALID_MASK) = 0 →
  v = 0 ∨ v = SpdmOpaqueSupport.OPAQUE_DATA_FMT1.
Proof.
  intros Hv Hnot. assert (Z.land v 2 = v) as Hl.
  { rewrite <- Z.ldiff_land in Hnot. change SpdmOpaqueSupport.VALID_MASK with 2 in Hnot.
    apply Z.bits_inj'. intros i Hi. rewrite Z.land_spec.
    assert (Z.testbit (Z.ldiff v 2) i = false) as Hb by by rewrite Hnot, Z.bits_0.
    rewrite Z.ldiff_spec in Hb. by destruct (Z.testbit v i), (Z.testbit 2 i). }
  change 2 with (2 ^ 1) in Hl. rewrite land_pow2 in Hl by lia.
  destruct (Z.testbit v 1); [by right|by left].
Qed.

Lemma parser_opaque_support : parser (read_opaque_support context) opaque_support_wf.
Proof.
  unfold read_opaque_support, opaque_support_wf. destruct (sel_ge12 context).
  - eapply parser_bind; [apply parse_ok|]. intros v Hv.
    apply parser_if; [|intros; apply parser_throw]. intros Hb%Z.eqb_eq. apply parser_ret.
    by apply opaque_bits.
  - parser_steps. by apply parser_ret.
Qed.

#[local] Hint Resolve writes_alg_count reads_alg_count writes_opaque_support reads_opaque_support
  writes_alg_array reads_alg_array : codec.

Definition NegotiateAlgorithms_wf (v : SpdmNegotiateAlgorithmsRequestPayload) : Prop :=
  flags_wf 8 SpdmMeasurementSpecification.VALID_MASK (nq_measurement_specification v) ∧
  opaque_support_wf (nq_other_params_support v) ∧
  flags_wf 32 SpdmBaseAsymAlgo.VALID_MASK (nq_base_asym_algo v) ∧
  flags_wf 32 SpdmBaseHashAlgo.VALID_MASK (nq_base_hash_algo v) ∧
  alg_array_ok (λ _, true) (nq_alg_struct_count v) (nq_alg_struct v).

Definition NegotiateAlgorithms_wire (v : SpdmNegotiateAlgorithmsRequestPayload) : bytes :=
  le_bytes 1 (nq_alg_struct_count v) ++ [0] ++ le_bytes 2 (32 + 4 * nq_alg_struct_count v)
  ++ le_bytes 1 (nq_measurement_specification v) ++ le_bytes 1 (nq_other_params_support v)
  ++ le_bytes 4 (nq_base_asym_algo v) ++ le_bytes 4 (nq_base_hash_algo v)
  ++ replicate 12 0 ++ [0] ++ [0] ++ [0; 0]
  ++ alg_array_wire (nq_alg_struct_count v) (nq_alg_struct v).

Lemma zeros_u8 n : Forall is_u8 (replicate n 0).
Proof. apply replicate_u8. Qed.
#[local] Hint Resolve zeros_u8 : codec.

#[export] Instance SpdmNegotiateAlgorithmsRequestPayload_ok :
  SpdmCodecOk (SpdmNegotiateAlgorithmsRequestPayload_codec context)
    NegotiateAlgorithms_wf NegotiateAlgorithms_wire.
Proof.
  split; intros v (Hs&Ho&Ha&Hh&Hal); pose proof (alg_array_count _ _ _ Hal) as Hc;
    pose proof (count_wf_u8 _ Hc);
    assert (is_u16 (32 + 4 * nq_alg_struct_count v))
      by (revert Hc; unfold count_wf; destruct (sel_ge11 context); intros; split; lia);
    unfold NegotiateAlgorithms_wire.
  - cbn [spdm_encode SpdmNegotiateAlgorithmsRequestPayload_codec].
    unfold SpdmNegotiateAlgorithmsRequestPayload_encode. rewrite alg_length_ok by done.
    eapply writes_eq; [spdm_writes_steps|by rewrite app_nil_r|].
    rewrite !length_app, !length_le_bytes, length_replicate. simpl. lia.
  - cbn [spdm_read SpdmNegotiateAlgorithmsRequestPayload_codec].
    unfold SpdmNegotiateAlgorithmsRequestPayload_read. eapply reads_eq.
    + spdm_reads_with (nq_alg_struct_count v). spdm_reads_with 0.
      spdm_reads_with (32 + 4 * nq_alg_struct_count v).
      spdm_reads_with (nq_measurement_specification v).
      spdm_reads_with (nq_other_params_support v). spdm_reads_with (nq_base_asym_algo v).
      spdm_reads_with (nq_base_hash_algo v). spdm_reads_with (replicate 12 0).
      spdm_reads_with 0. spdm_reads_with 0. spdm_reads_with 0.
      spdm_reads_with (nq_alg_struct v). rewrite alg_length_ok by done.
      eapply (reads_bind _ _ [] []); [apply reads_ret|]. cbv beta.
      rewrite Z.eqb_refl. apply reads_ret.
    + by rewrite !app_nil_r.
    + by destruct v.
Qed.

Ltac parser_field := eapply parser_bind; [first [apply parse_ok|apply parser_read_bytes]|].
Ltac parser_guard H :=
  apply parser_if; [intros; apply parser_throw|]; intros H%negb_false_iff.

#[export] Instance SpdmNegotiateAlgorithmsRequestPayload_parse :
  SpdmParseOk (SpdmNegotiateAlgorithmsRequestPayload_codec context) NegotiateAlgorithms_wf.
Proof.
  cbv [SpdmParseOk]. cbn [spdm_read SpdmNegotiateAlgorithmsRequestPayload_codec].
  unfold SpdmNegotiateAlgorithmsRequestPayload_read.
  eapply parser_bind; [apply parser_alg_count|]. intros count Hc.
  parser_field; intros ? _. parser_field; intros len Hlen. parser_field; intros spec Hspec.
  eapply parser_bind; [apply parser_opaque_support|]. intros other Hother.
  parser_field; intros asym Hasym. parser_field; intros hash Hhash. parser_field; intros ? _.
  parser_field; intros ext Hext. parser_guard Hg1.
  parser_field; intros ext2 Hext2. parser_guard Hg2. parser_field; intros ? _.
  eapply parser_bind; [by apply parser_alg_array|]. intros algs Halgs.
  rewrite alg_length_ok by done.
  apply (parser_bind _ _ (λ _, True)); [by apply parser_ret|]. intros ? _.
  parser_guard Hg3. by apply parser_ret.
Qed.

(** A response selects at most one algorithm of each kind, and one where the capabilities
    need it. *)
Definition Algorithms_wf (v : SpdmAlgorithmsResponsePayload) : Prop :=
  flags_wf 8 SpdmMeasurementSpecification.VALID_MASK (np_measurement_specification_sel v) ∧
  selection_ok SpdmMeasurementSpecification.VALID_MASK (np_measurement_specification_sel v)
    (rsp_meas context) = true ∧
  opaque_support_wf (np_other_params_selection v) ∧
  selection_ok SpdmOpaqueSupport.VALID_MASK (np_other_params_selection v)
    (sel_ge12 context && (rsp_has context SpdmResponseCapabilityFlags.KEY_EX_CAP
                          || rsp_psk context)) = true ∧
  flags_wf 32 SpdmMeasurementHashAlgo.VALID_MASK (np_measurement_hash_algo v) ∧
  selection_ok SpdmMeasurementHashAlgo.VALID_MASK (np_measurement_hash_algo v)
    (rsp_meas context) = true ∧
  flags_wf 32 SpdmBaseAsymAlgo.VALID_MASK (np_base_asym_sel v) ∧
  selection_ok SpdmBaseAsymAlgo.VALID_MASK (np_base_asym_sel v) (rsp_signs context) = true ∧
  flags_wf 32 SpdmBaseHashAlgo.VALID_MASK (np_base_hash_sel v) ∧
  selection_ok SpdmBaseHashAlgo.VALID_MASK (np_base_hash_sel v)
    (rsp_signs context || both_psk context) = true ∧
  alg_array_ok (rsp_alg_check context) (np_alg_struct_count v) (np_alg_struct v).

Definition Algorithms_wire (v : SpdmAlgorithmsResponsePayload) : bytes :=
  le_bytes 1 (np_alg_struct_count v) ++ [0] ++ le_bytes 2 (36 + 4 * np_alg_struct_count v)
  ++ le_bytes 1 (np_measurement_specification_sel v) ++ le_bytes 1 (np_other_params_selection v)
  ++ le_bytes 4 (np_measurement_hash_algo v) ++ le_bytes 4 (np_base_asym_sel v)
  ++ le_bytes 4 (np_base_hash_sel v) ++ replicate 12 0 ++ [0] ++ [0] ++ [0; 0]
  ++ alg_array_wire (np_alg_struct_count v) (np_alg_struct v).

#[export] Instance SpdmAlgorithmsResponsePayload_ok :
  SpdmCodecOk (SpdmAlgorithmsResponsePayload_codec context) Algorithms_wf Algorithms_wire.
Proof.
  split; intros v (Hs&Hs'&Ho&Ho'&Hm&Hm'&Ha&Ha'&Hh&Hh'&Hal);
    pose proof (alg_array_count _ _ _ Hal) as Hc; pose proof (count_wf_u8 _ Hc);
    assert (is_u16 (36 + 4 * np_alg_struct_count v))
      by (revert Hc; unfold count_wf; destruct (sel_ge11 context); intros; split; lia);
    unfold Algorithms_wire.
  - cbn [spdm_encode SpdmAlgorithmsResponsePayload_codec].
    unfold SpdmAlgorithmsResponsePayload_encode. rewrite alg_length_ok by done.
    eapply writes_eq; [spdm_writes_steps|by rewrite app_nil_r|].
    rewrite !length_app, !length_le_bytes, length_replicate. simpl. lia.
  - cbn [spdm_read SpdmAlgorithmsResponsePayload_codec].
    unfold SpdmAlgorithmsResponsePayload_read. eapply reads_eq.
    + spdm_reads_with (np_alg_struct_count v). spdm_reads_with 0.
      spdm_reads_with (36 + 4 * np_alg_struct_count v).
      spdm_reads_with (np_measurement_specification_sel v). rewrite Hs'. cbn [negb].
      spdm_reads_with (np_other_params_selection v). rewrite Ho'. cbn [negb].
      spdm_reads_with (np_measurement_hash_algo v). rewrite Hm'. cbn [negb].
      spdm_reads_with (np_base_asym_sel v). rewrite Ha'. cbn [negb].
      spdm_reads_with (np_base_hash_sel v). rewrite Hh'. cbn [negb].
      spdm_reads_with (replicate 12 0). spdm_reads_with 0. spdm_reads_with 0. spdm_reads_with 0.
      spdm_reads_with (np_alg_struct v). rewrite alg_length_ok by done.
      eapply (reads_bind _ _ [] []); [apply reads_ret|]. cbv beta.
      rewrite Z.eqb_refl. apply reads_ret.
    + by rewrite !app_nil_r.
    + by destruct v.
Qed.

#[export] Instance SpdmAlgorithmsResponsePayload_parse :
  SpdmParseOk (SpdmAlgorithmsResponsePayload_codec context) Algorithms_wf.
Proof.
  cbv [SpdmParseOk]. cbn [spdm_read SpdmAlgorithmsResponsePayload_codec].
  unfold SpdmAlgorithmsResponsePayload_read.
  eapply parser_bind; [apply parser_alg_count|]. intros count Hc.
  parser_field; intros ? _. parser_field; intros len Hlen.
  parser_field; intros spec Hspec. parser_guard Hspec'.
  eapply parser_bind; [apply parser_opaque_support|]. intros other Hother. parser_guard Hother'.
  parser_field; intros mhash Hmhash. parser_guard Hmhash'.
  parser_field; intros asym Hasym. parser_guard Hasym'.
  parser_field; intros hash Hhash. parser_guard Hhash'. parser_field; intros ? _.
  parser_field; intros ext Hext. parser_guard Hg1.
  parser_field; intros ext2 Hext2. parser_guard Hg2. parser_field; intros ? _.
  eapply parser_bind; [by apply parser_alg_array|]. intros algs Halgs.
  rewrite alg_length_ok by done.
  apply (parser_bind _ _ (λ _, True)); [by apply parser_ret|]. intros ? _.
  parser_guard Hg3. by apply parser_ret.
Qed.

End NegotiateProofs.
