(* ===== verification/MsgAuth.v ===== *)
(** Model of the messages of authentication and attestation, spdmlib/src/message/digest.rs,
    certificate.rs, challenge.rs and measurement.rs. *)

From S2P Require Import Prelude Config Codec Status Algo Protocol Crypto KeySchedule Buffers Session Context SpdmCodec Opaque MsgNegotiate.

(** A field that is present under a condition; its default value otherwise. *)
Definition opt_codec {A} (b : bool) (c : SpdmCodec A) (def : A) : SpdmCodec A := {|
  spdm_encode v := if b then spdm_encode c v else ret 0%nat;
  spdm_read := if b then spdm_read c else ret def;
|}.

(** A plain codec as a field of a message. *)
Definition plain {A} (c : Codec A) : SpdmCodec A := {|
  spdm_encode := enc c;
  spdm_read := read c;
|}.

(** Flags of one byte whose unknown bits are refused. *)
Definition strict_flags_codec (mask : Z) : Codec Z := {|
  encode v := encode u8_codec v;
  read := let* bits := read u8_codec in
          if Z.land bits (Z.lnot mask) =? 0 then ret bits else throw tt;
|}.

(** ** Digests *)

(*@ spdmlib/src/message/digest.rs 12-12 SpdmGetDigestsRequestPayload *)
Inductive SpdmGetDigestsRequestPayload := MkSpdmGetDigestsRequestPayload.

(*@ spdmlib/src/message/digest.rs 14-35 SpdmGetDigestsRequestPayload as SpdmCodec *)
Definition SpdmGetDigestsRequestPayload_codec : SpdmCodec SpdmGetDigestsRequestPayload :=
  empty_codec MkSpdmGetDigestsRequestPayload.

(*@ spdmlib/src/message/digest.rs 37-41 SpdmDigestsResponsePayload *)
Record SpdmDigestsResponsePayload := {
  dg_slot_mask : Z;
  dg_digests : list SpdmDigestStruct;
}.

(** The number of slots in the mask. *)
Definition slot_count (mask : Z) : nat :=
  length (filter (λ i, Z.land mask (Z.shiftl 1 i) ≠ 0) [0; 1; 2; 3; 4; 5; 6; 7]).

(** ** Certificates *)

Abbreviation MAX_SPDM_CERT_PORTION_LEN := 512%nat (only parsing).

(*@ spdmlib/src/message/certificate.rs 12-17 SpdmGetCertificateRequestPayload *)
Record SpdmGetCertificateRequestPayload := {
  gc_slot_id : Z;
  gc_offset : Z;
  gc_length : Z;
}.

(*@ spdmlib/src/message/certificate.rs 19-57 SpdmGetCertificateRequestPayload as SpdmCodec *)
Definition SpdmGetCertificateRequestPayload_codec : SpdmCodec SpdmGetCertificateRequestPayload := {|
  spdm_encode v :=
    let* n1 := enc u8_codec (gc_slot_id v) in
    let* n2 := enc u8_codec 0 in
    let* n3 := enc u16_codec (gc_offset v) in
    let* n4 := enc u16_codec (gc_length v) in
    ret (n1 + n2 + n3 + n4)%nat;
  spdm_read :=
    let* slot_id := read u8_codec in
    read u8_codec;;
    let* offset := read u16_codec in
    let* length := read u16_codec in
    ret {| gc_slot_id := slot_id; gc_offset := offset; gc_length := length |};
|}.

(*@ spdmlib/src/message/certificate.rs 59-65 SpdmCertificateResponsePayload *)
Record SpdmCertificateResponsePayload := {
  cr_slot_id : Z;
  cr_portion_length : Z;
  cr_remainder_length : Z;
  cr_cert_chain : bytes;
}.

(** The portion length is not checked against the capacity of the array. *)
(*@ spdmlib/src/message/certificate.rs 77-124 SpdmCertificateResponsePayload as SpdmCodec *)
Definition SpdmCertificateResponsePayload_codec : SpdmCodec SpdmCertificateResponsePayload := {|
  spdm_encode v :=
    let* n1 := enc u8_codec (cr_slot_id v) in
    let* n2 := enc u8_codec 0 in
    let* n3 := enc u16_codec (cr_portion_length v) in
    let* n4 := enc u16_codec (cr_remainder_length v) in
    let* n5 := enc_bytes (take (Z.to_nat (cr_portion_length v)) (cr_cert_chain v)) in
    ret (n1 + n2 + n3 + n4 + n5)%nat;
  spdm_read :=
    let* slot_id := read u8_codec in
    read u8_codec;;
    let* portion_length := read u16_codec in
    let* remainder_length := read u16_codec in
    let* cert_chain := read_array (Z.to_nat portion_length) MAX_SPDM_CERT_PORTION_LEN in
    ret {| cr_slot_id := slot_id; cr_portion_length := portion_length;
           cr_remainder_length := remainder_length; cr_cert_chain := cert_chain |};
|}.

(** ** Challenges *)

(*@ spdmlib/src/message/challenge.rs 15-20 SpdmChallengeRequestPayload *)
Record SpdmChallengeRequestPayload := {
  ch_slot_id : Z;
  ch_measurement_summary_hash_type : SpdmMeasurementSummaryHashType;
  ch_nonce : bytes;
}.

Module SpdmChallengeAuthAttribute.
Abbreviation BASIC_MUT_AUTH_REQ := 0x80 (only parsing).
End SpdmChallengeAuthAttribute.

(*@ spdmlib/src/message/challenge.rs 85-95 SpdmChallengeAuthResponsePayload *)
Record SpdmChallengeAuthResponsePayload := {
  ca_slot_id : Z;
  ca_slot_mask : Z;
  ca_challenge_auth_attribute : Z;
  ca_cert_chain_hash : SpdmDigestStruct;
  ca_nonce : bytes;
  ca_measurement_summary_hash : SpdmDigestStruct;
  ca_opaque : SpdmOpaqueStruct;
  ca_signature : SpdmSignatureStruct;
}.

(** ** Measurements *)

Module SpdmMeasurementAttributes.
Abbreviation SIGNATURE_REQUESTED := 1 (only parsing).
Abbreviation RAW_BIT_STREAM_REQUESTED := 2 (only parsing).

(*@ spdmlib/src/message/measurement.rs 20-38 SpdmMeasurementAttributes *)
Definition codec : Codec Z :=
  strict_flags_codec (flags_or [SIGNATURE_REQUESTED; RAW_BIT_STREAM_REQUESTED]).
End SpdmMeasurementAttributes.

(*@ spdmlib/src/message/measurement.rs 40-47 SpdmMeasurementOperation *)
Inductive SpdmMeasurementOperation :=
| SpdmMeasurementQueryTotalNumber
| SpdmMeasurementRequestAll
| SpdmMeasurementOperation_Unknown (x : Z).

Definition SpdmMeasurementOperation_get_u8 (v : SpdmMeasurementOperation) : Z :=
  match v with
  | SpdmMeasurementQueryTotalNumber => 0x0
  | SpdmMeasurementRequestAll => 0xFF
  | SpdmMeasurementOperation_Unknown x => x
  end.

Definition SpdmMeasurementOperation_from_u8 (x : Z) : SpdmMeasurementOperation :=
  match x with
  | 0x0 => SpdmMeasurementQueryTotalNumber
  | 0xFF => SpdmMeasurementRequestAll
  | x => SpdmMeasurementOperation_Unknown x
  end.

(*@ spdmlib/src/message/measurement.rs 40-47 SpdmMeasurementOperation as Codec *)
Definition SpdmMeasurementOperation_codec : Codec SpdmMeasurementOperation :=
  enum_codec u8_codec SpdmMeasurementOperation_get_u8 SpdmMeasurementOperation_from_u8.

#[global] Instance SpdmMeasurementOperation_eq_dec : EqDecision SpdmMeasurementOperation.
Proof. solve_decision. Defined.

Abbreviation SpdmMeasurementOperation_wf := (enum_wf 8 SpdmMeasurementOperation_get_u8 SpdmMeasurementOperation_from_u8).

#[global] Instance SpdmMeasurementOperation_codec_ok :
  CodecOk SpdmMeasurementOperation_codec SpdmMeasurementOperation_wf 
    (λ v, le_bytes 1 (SpdmMeasurementOperation_get_u8 v)).
Proof. apply enum_codec_ok; [apply _|]. solve_enum SpdmMeasurementOperation_from_u8. Qed.

(*@ spdmlib/src/message/measurement.rs 54-60 SpdmGetMeasurementsRequestPayload *)
Record SpdmGetMeasurementsRequestPayload := {
  gm_measurement_attributes : Z;
  gm_measurement_operation : SpdmMeasurementOperation;
  gm_nonce : bytes;
  gm_slot_id : Z;
}.

(*@ spdmlib/src/message/measurement.rs 131-140 SpdmMeasurementsResponsePayload *)
Record SpdmMeasurementsResponsePayload := {
  mr_number_of_measurement : Z;
  mr_content_changed : Z;
  mr_slot_id : Z;
  mr_measurement_record : SpdmMeasurementRecordStructure;
  mr_nonce : bytes;
  mr_opaque : SpdmOpaqueStruct;
  mr_signature : SpdmSignatureStruct;
}.

Abbreviation MEASUREMENT_RESPONDER_PARAM2_SLOT_ID_MASK := 0x0F (only parsing).
Abbreviation MEASUREMENT_RESPONDER_PARAM2_CONTENT_CHANGED_MASK := 0x30 (only parsing).

Section MsgAuth.
Context `{cfg : Config} `{sec : Secret} `{dev : SpdmDeviceIo}.
Context (context : SpdmContext).

Definition SpdmDigestStruct_default : SpdmDigestStruct := sized_default SPDM_MAX_HASH_SIZE.
Definition SpdmSignatureStruct_default : SpdmSignatureStruct := sized_default SPDM_MAX_ASYM_KEY_SIZE.

(*@ spdmlib/src/message/digest.rs 43-89 SpdmDigestsResponsePayload as SpdmCodec *)
Definition SpdmDigestsResponsePayload_codec : SpdmCodec SpdmDigestsResponsePayload := {|
  spdm_encode v :=
    let* n1 := enc u8_codec 0 in
    let* n2 := enc u8_codec (dg_slot_mask v) in
    let* n3 := encode_all (spdm_encode (SpdmDigestStruct_codec context))
      (take (slot_count (dg_slot_mask v)) (dg_digests v)) in
    ret (n1 + n2 + n3)%nat;
  spdm_read :=
    read u8_codec;;
    let* slot_mask := read u8_codec in
    let* digests := read_into (spdm_read (SpdmDigestStruct_codec context)) (slot_count slot_mask)
      (replicate SPDM_MAX_SLOT_NUMBER SpdmDigestStruct_default) in
    ret {| dg_slot_mask := slot_mask; dg_digests := digests |};
|}.

(** A summary may be asked for only if the responder can measure. *)
Definition summary_hash_type_ok (t : SpdmMeasurementSummaryHashType) : bool :=
  match t with
  | SpdmMeasurementSummaryHashTypeNone => true
  | SpdmMeasurementSummaryHashTypeAll | SpdmMeasurementSummaryHashTypeTcb =>
      negb (negb (rsp_has context SpdmResponseCapabilityFlags.MEAS_CAP_SIG)
            && negb (rsp_has context SpdmResponseCapabilityFlags.MEAS_CAP_NO_SIG))
  | SpdmMeasurementSummaryHashType_Unknown _ => false
  end.

(*@ spdmlib/src/message/challenge.rs 22-76 SpdmChallengeRequestPayload as SpdmCodec *)
Definition SpdmChallengeRequestPayload_codec : SpdmCodec SpdmChallengeRequestPayload := {|
  spdm_encode v :=
    let* n1 := enc u8_codec (ch_slot_id v) in
    let* n2 := enc SpdmMeasurementSummaryHashType_codec (ch_measurement_summary_hash_type v) in
    let* n3 := enc SpdmNonceStruct_codec (ch_nonce v) in
    ret (n1 + n2 + n3)%nat;
  spdm_read :=
    let* slot_id := read u8_codec in
    let* t := read SpdmMeasurementSummaryHashType_codec in
    if negb (summary_hash_type_ok t) then throw tt else
    let* nonce := read SpdmNonceStruct_codec in
    ret {| ch_slot_id := slot_id; ch_measurement_summary_hash_type := t; ch_nonce := nonce |};
|}.

(** The measurement summary hash of CHALLENGE_AUTH, KEY_EXCHANGE_RSP and PSK_EXCHANGE_RSP. *)
Definition summary_hash_codec : SpdmCodec SpdmDigestStruct :=
  opt_codec (need_measurement_summary_hash (runtime_info context))
    (SpdmDigestStruct_codec context) SpdmDigestStruct_default.

(*@ spdmlib/src/message/challenge.rs 97-151 SpdmChallengeAuthResponsePayload as SpdmCodec *)
Definition SpdmChallengeAuthResponsePayload_codec : SpdmCodec SpdmChallengeAuthResponsePayload := {|
  spdm_encode v :=
    let* param1 := add_u8 (ca_slot_id v) (ca_challenge_auth_attribute v) in
    let* n1 := enc u8_codec param1 in
    let* n2 := enc u8_codec (ca_slot_mask v) in
    let* n3 := spdm_encode (SpdmDigestStruct_codec context) (ca_cert_chain_hash v) in
    let* n4 := enc SpdmNonceStruct_codec (ca_nonce v) in
    let* n5 := spdm_encode summary_hash_codec (ca_measurement_summary_hash v) in
    let* n6 := spdm_encode SpdmOpaqueStruct_codec (ca_opaque v) in
    let* n7 := spdm_encode (SpdmSignatureStruct_codec context) (ca_signature v) in
    ret (n1 + n2 + n3 + n4 + n5 + n6 + n7)%nat;
  spdm_read :=
    let* param1 := read u8_codec in
    let attribute := Z.land param1 0xF0 in
    if negb (Z.land attribute (Z.lnot SpdmChallengeAuthAttribute.BASIC_MUT_AUTH_REQ) =? 0)
    then throw tt else
    let* slot_mask := read u8_codec in
    let* cert_chain_hash := spdm_read (SpdmDigestStruct_codec context) in
    let* nonce := read SpdmNonceStruct_codec in
    let* summary := spdm_read summary_hash_codec in
    let* opaque := spdm_read SpdmOpaqueStruct_codec in
    let* signature := spdm_read (SpdmSignatureStruct_codec context) in
    ret {| ca_slot_id := Z.land param1 0xF; ca_slot_mask := slot_mask;
           ca_challenge_auth_attribute := attribute; ca_cert_chain_hash := cert_chain_hash;
           ca_nonce := nonce; ca_measurement_summary_hash := summary;
           ca_opaque := opaque; ca_signature := signature |};
|}.

(** The nonce and, from version 1.1, the slot are sent when a signature is asked for. *)
Definition signature_requested (attributes : Z) : bool :=
  contains attributes SpdmMeasurementAttributes.SIGNATURE_REQUESTED.
Definition nonce_codec (attributes : Z) : SpdmCodec bytes :=
  opt_codec (signature_requested attributes) (plain SpdmNonceStruct_codec)
    (replicate SPDM_NONCE_SIZE 0).
Definition slot_codec (attributes : Z) : SpdmCodec Z :=
  opt_codec (signature_requested attributes) (opt_codec (sel_ge11 context) (plain u8_codec) 0) 0.

(*@ spdmlib/src/message/measurement.rs 62-129 SpdmGetMeasurementsRequestPayload as SpdmCodec *)
Definition SpdmGetMeasurementsRequestPayload_codec
    : SpdmCodec SpdmGetMeasurementsRequestPayload := {|
  spdm_encode v :=
    let* n1 := enc SpdmMeasurementAttributes.codec (gm_measurement_attributes v) in
    let* n2 := enc SpdmMeasurementOperation_codec (gm_measurement_operation v) in
    let* n3 := spdm_encode (nonce_codec (gm_measurement_attributes v)) (gm_nonce v) in
    let* n4 := spdm_encode (slot_codec (gm_measurement_attributes v)) (gm_slot_id v) in
    ret (n1 + n2 + n3 + n4)%nat;
  spdm_read :=
    let* attributes := read SpdmMeasurementAttributes.codec in
    let* operation := read SpdmMeasurementOperation_codec in
    let* nonce := spdm_read (nonce_codec attributes) in
    let* slot_id := spdm_read (slot_codec attributes) in
    ret {| gm_measurement_attributes := attributes; gm_measurement_operation := operation;
           gm_nonce := nonce; gm_slot_id := slot_id |};
|}.

Definition need_signature : bool := need_measurement_signature (runtime_info context).

(** Param1 and param2 of MEASUREMENTS; a count of one is written as zero. *)
Definition measurements_param1 (n : Z) : Z := if n =? 1 then 0 else n.
Definition measurements_param2 (slot_id changed : Z) : Z :=
  if sel_ge12 context && need_signature then Z.lor slot_id changed
  else if sel_ge11 context && need_signature then slot_id
  else 0.

Definition measurements_signature_codec : SpdmCodec SpdmSignatureStruct :=
  opt_codec need_signature (SpdmSignatureStruct_codec context) SpdmSignatureStruct_default.

(*@ spdmlib/src/message/measurement.rs 142-216 SpdmMeasurementsResponsePayload as SpdmCodec *)
Definition SpdmMeasurementsResponsePayload_codec : SpdmCodec SpdmMeasurementsResponsePayload := {|
  spdm_encode v :=
    let* n1 := enc u8_codec (measurements_param1 (mr_number_of_measurement v)) in
    let* n2 := enc u8_codec (measurements_param2 (mr_slot_id v) (mr_content_changed v)) in
    let* n3 := spdm_encode (SpdmMeasurementRecordStructure_codec context)
      (mr_measurement_record v) in
    let* n4 := enc SpdmNonceStruct_codec (mr_nonce v) in
    let* n5 := spdm_encode SpdmOpaqueStruct_codec (mr_opaque v) in
    let* n6 := spdm_encode measurements_signature_codec (mr_signature v) in
    ret (n1 + n2 + n3 + n4 + n5 + n6)%nat;
  spdm_read :=
    let* number := read u8_codec in
    let* param2 := read u8_codec in
    let slot_id := Z.land param2 MEASUREMENT_RESPONDER_PARAM2_SLOT_ID_MASK in
    let changed := Z.land param2 MEASUREMENT_RESPONDER_PARAM2_CONTENT_CHANGED_MASK in
    if negb (Z.land changed (Z.lnot 0x30) =? 0) then throw tt else
    let* record := spdm_read (SpdmMeasurementRecordStructure_codec context) in
    let* nonce := read SpdmNonceStruct_codec in
    let* opaque := spdm_read SpdmOpaqueStruct_codec in
    let* signature := spdm_read measurements_signature_codec in
    ret {| mr_number_of_measurement := number; mr_content_changed := changed;
           mr_slot_id := slot_id; mr_measurement_record := record; mr_nonce := nonce;
           mr_opaque := opaque; mr_signature := signature |};
|}.

End MsgAuth.

(** ** Properties *)

#[export] Instance opt_codec_ok {A} b (c : SpdmCodec A) def wf wire :
  SpdmCodecOk c wf wire →
  SpdmCodecOk (opt_codec b c def) (λ v, if b then wf v else v = def)
    (λ v, if b then wire v else []).
Proof.
  intros Hc. split; intros v Hv; unfold opt_codec; cbn [spdm_encode spdm_read]; destruct b.
  - by apply spdm_encode_ok.
  - apply writes_ret.
  - by apply spdm_read_ok.
  - subst. apply reads_ret.
Qed.

#[export] Instance opt_codec_parse {A} b (c : SpdmCodec A) def P :
  SpdmParseOk c P → SpdmParseOk (opt_codec b c def) (λ v, if b then P v else v = def).
Proof.
  intros Hc. cbv [SpdmParseOk opt_codec]. cbn [spdm_read].
  destruct b; [apply Hc|by apply parser_ret].
Qed.

#[export] Instance plain_ok {A} (c : Codec A) wf wire :
  CodecOk c wf wire → SpdmCodecOk (plain c) wf wire.
Proof.
  intros Hc. split; intros v Hv; unfold plain; cbn [spdm_encode spdm_read].
  - by eapply writes_enc.
  - by apply read_ok.
Qed.

#[export] Instance plain_parse {A} (c : Codec A) wf wire :
  CodecOk c wf wire → SpdmParseOk (plain c) wf.
Proof. intros Hc. cbv [SpdmParseOk plain]. cbn [spdm_read]. apply parse_ok. Qed.

Lemma land_lnot_0 v mask : Z.land v (Z.lnot mask) = 0 ↔ Z.land v mask = v.
Proof.
  rewrite <- Z.ldiff_land. split; intros Hv; apply Z.bits_inj'; intros i Hi.
  - assert (Z.testbit (Z.ldiff v mask) i = false) as Hb by by rewrite Hv, Z.bits_0.
    rewrite Z.ldiff_spec in Hb. rewrite Z.land_spec.
    by destruct (Z.testbit v i), (Z.testbit mask i).
  - rewrite <- Hv, Z.ldiff_spec, Z.land_spec, Z.bits_0.
    by destruct (Z.testbit v i), (Z.testbit mask i).
Qed.

#[export] Instance strict_flags_codec_ok mask :
  CodecOk (strict_flags_codec mask) (flags_wf 8 mask) (le_bytes 1).
Proof.
  constructor; cbn [encode read strict_flags_codec].
  - intros v [Hv _]. by apply (encode_ok (c:=u8_codec)).
  - intros v [Hv Hm%land_lnot_0].
    eapply reads_eq; [reads_with v; rewrite Hm; apply reads_ret|by rewrite app_nil_r|done].
  - eapply parser_bind; [apply parse_ok|]. intros v Hv.
    apply parser_if; [|intros; apply parser_throw]. intros Hm%Z.eqb_eq%land_lnot_0.
    by apply parser_ret.
Qed.

#[export] Instance SpdmGetDigestsRequestPayload_ok :
  SpdmCodecOk SpdmGetDigestsRequestPayload_codec (λ v, v = MkSpdmGetDigestsRequestPayload)
    (λ _, [0; 0]).
Proof. apply empty_codec_ok. Qed.

Definition GetCertificate_wf (v : SpdmGetCertificateRequestPayload) : Prop :=
  is_u8 (gc_slot_id v) ∧ is_u16 (gc_offset v) ∧ is_u16 (gc_length v).
Definition GetCertificate_wire (v : SpdmGetCertificateRequestPayload) : bytes :=
  le_bytes 1 (gc_slot_id v) ++ [0] ++ le_bytes 2 (gc_offset v) ++ le_bytes 2 (gc_length v).

#[export] Instance SpdmGetCertificateRequestPayload_ok :
  SpdmCodecOk SpdmGetCertificateRequestPayload_codec GetCertificate_wf GetCertificate_wire.
Proof.
  split; intros v (Hs&Ho&Hl).
  - cbn [spdm_encode SpdmGetCertificateRequestPayload_codec].
    eapply writes_eq; [spdm_writes_steps|done|done].
  - cbn [spdm_read SpdmGetCertificateRequestPayload_codec]. eapply reads_eq.
    + spdm_reads_with (gc_slot_id v). spdm_reads_with 0. spdm_reads_with (gc_offset v).
      spdm_reads_with (gc_length v). apply reads_ret.
    + done.
    + by destruct v.
Qed.

#[export] Instance SpdmGetCertificateRequestPayload_parse :
  SpdmParseOk SpdmGetCertificateRequestPayload_codec GetCertificate_wf.
Proof.
  cbv [SpdmParseOk]. cbn [spdm_read SpdmGetCertificateRequestPayload_codec]. parser_steps.
  by apply parser_ret.
Qed.

Definition Certificate_wf (v : SpdmCertificateResponsePayload) : Prop :=
  is_u8 (cr_slot_id v) ∧ is_u16 (cr_portion_length v) ∧ is_u16 (cr_remainder_length v) ∧
  array_wf (Z.to_nat (cr_portion_length v)) MAX_SPDM_CERT_PORTION_LEN (cr_cert_chain v).
Definition Certificate_wire (v : SpdmCertificateResponsePayload) : bytes :=
  le_bytes 1 (cr_slot_id v) ++ [0] ++ le_bytes 2 (cr_portion_length v)
  ++ le_bytes 2 (cr_remainder_length v) ++ take (Z.to_nat (cr_portion_length v)) (cr_cert_chain v).

#[export] Instance SpdmCertificateResponsePayload_ok :
  SpdmCodecOk SpdmCertificateResponsePayload_codec Certificate_wf Certificate_wire.
Proof.
  split; intros v (Hs&Hp&Hr&Ha); unfold Certificate_wire.
  - pose proof Ha as (Hl&Hu&Hn&_).
    assert (Forall is_u8 (take (Z.to_nat (cr_portion_length v)) (cr_cert_chain v)))
      by by apply Forall_take.
    cbn [spdm_encode SpdmCertificateResponsePayload_codec].
    eapply writes_eq; [spdm_writes_steps|by rewrite app_nil_r|].
    by rewrite !length_app, !length_le_bytes.
  - cbn [spdm_read SpdmCertificateResponsePayload_codec]. eapply reads_eq.
    + spdm_reads_with (cr_slot_id v). spdm_reads_with 0. spdm_reads_with (cr_portion_length v).
      spdm_reads_with (cr_remainder_length v). spdm_reads_with (cr_cert_chain v). apply reads_ret.
    + by rewrite app_nil_r.
    + by destruct v.
Qed.

Lemma parser_read_array_any n max :
  parser (read_array n max) (λ arr, length arr = max ∧ Forall is_u8 arr).
Proof.
  unfold read_array. eapply parser_weaken.
  - apply (parser_read_into _ is_u8); [apply parse_ok|apply replicate_u8].
  - intros arr [Hl Hu]. by rewrite length_replicate in Hl.
Qed.

(** What is read may claim a portion longer than the array. *)
#[export] Instance SpdmCertificateResponsePayload_parse :
  SpdmParseOk SpdmCertificateResponsePayload_codec
    (λ v, is_u16 (cr_portion_length v) ∧ is_u16 (cr_remainder_length v) ∧
          length (cr_cert_chain v) = MAX_SPDM_CERT_PORTION_LEN ∧ Forall is_u8 (cr_cert_chain v)).
Proof.
  cbv [SpdmParseOk]. cbn [spdm_read SpdmCertificateResponsePayload_codec].
  do 4 (eapply parser_bind; [apply parse_ok|]; intros ? ?).
  eapply parser_bind; [apply parser_read_array_any|]. intros arr [Hl Hu]. by apply parser_ret.
Qed.

Section AuthProofs.
Context `{cfg : Config} `{sec : Secret} `{dev : SpdmDeviceIo}.
Context (context : SpdmContext).

Definition Digests_wf (v : SpdmDigestsResponsePayload) : Prop :=
  is_u8 (dg_slot_mask v) ∧
  filled SpdmDigestStruct_default (slot_count (dg_slot_mask v)) SPDM_MAX_SLOT_NUMBER (dg_digests v) ∧
  Forall (Digest_wf context) (take (slot_count (dg_slot_mask v)) (dg_digests v)).
Definition Digests_wire (v : SpdmDigestsResponsePayload) : bytes :=
  [0] ++ le_bytes 1 (dg_slot_mask v)
  ++ concat (map sized_bytes (take (slot_count (dg_slot_mask v)) (dg_digests v))).

Lemma slot_count_le mask : (slot_count mask ≤ SPDM_MAX_SLOT_NUMBER)%nat.
Proof. unfold slot_count. etrans; [apply length_filter|done]. Qed.

#[export] Instance SpdmDigestsResponsePayload_ok :
  SpdmCodecOk (SpdmDigestsResponsePayload_codec context) Digests_wf Digests_wire.
Proof.
  split; intros v (Hm&Hf&Hd); unfold Digests_wire.
  - cbn [spdm_encode SpdmDigestsResponsePayload_codec]. eapply writes_eq.
    + spdm_writes_steps. eapply writes_bind; [|apply writes_ret].
      apply (writes_encode_all _ _ sized_bytes). eapply Forall_impl; [|exact Hd].
      intros d Hwf. by apply spdm_encode_ok.
    + by rewrite app_nil_r.
    + by rewrite !length_app, !length_le_bytes.
  - cbn [spdm_read SpdmDigestsResponsePayload_codec]. eapply reads_eq.
    + spdm_reads_with 0. spdm_reads_with (dg_slot_mask v).
      eapply (reads_bind _ _ _ [] (dg_digests v)); [|apply reads_ret].
      apply (reads_read_into _ sized_bytes); [done|]. eapply Forall_impl; [|exact Hd].
      intros d Hwf. by apply spdm_read_ok.
    + by rewrite app_nil_r.
    + by destruct v.
Qed.

#[export] Instance SpdmDigestsResponsePayload_parse `{!HashSelected context} :
  SpdmParseOk (SpdmDigestsResponsePayload_codec context) Digests_wf.
Proof.
  cbv [SpdmParseOk]. cbn [spdm_read SpdmDigestsResponsePayload_codec].
  eapply parser_bind; [apply parse_ok|]. intros ? _.
  eapply parser_bind; [apply parse_ok|]. intros mask Hm.
  eapply parser_bind.
  { apply (parser_filled _ (Digest_wf context)); [apply spdm_parse_ok|apply slot_count_le]. }
  intros l [Hf Hl]. by apply parser_ret.
Qed.

Definition Challenge_wf (v : SpdmChallengeRequestPayload) : Prop :=
  is_u8 (ch_slot_id v) ∧ SpdmMeasurementSummaryHashType_wf (ch_measurement_summary_hash_type v) ∧
  summary_hash_type_ok context (ch_measurement_summary_hash_type v) = true ∧
  array_wf SPDM_NONCE_SIZE SPDM_NONCE_SIZE (ch_nonce v).
Definition Challenge_wire (v : SpdmChallengeRequestPayload) : bytes :=
  le_bytes 1 (ch_slot_id v)
  ++ le_bytes 1 (SpdmMeasurementSummaryHashType_get_u8 (ch_measurement_summary_hash_type v))
  ++ ch_nonce v.

#[export] Instance SpdmNonceStruct_ok :
  CodecOk SpdmNonceStruct_codec (array_wf SPDM_NONCE_SIZE SPDM_NONCE_SIZE) (λ bs, bs).
Proof. apply array_codec_ok. Qed.
#[export] Instance SpdmRandomStruct_ok :
  CodecOk SpdmRandomStruct_codec (array_wf SPDM_RANDOM_SIZE SPDM_RANDOM_SIZE) (λ bs, bs).
Proof. apply array_codec_ok. Qed.

#[export] Instance SpdmChallengeRequestPayload_ok :
  SpdmCodecOk (SpdmChallengeRequestPayload_codec context) Challenge_wf Challenge_wire.
Proof.
  split; intros v (Hs&Ht&Hok&Hn).
  - cbn [spdm_encode SpdmChallengeRequestPayload_codec].
    eapply writes_eq; [spdm_writes_steps|by rewrite app_nil_r|].
    by unfold Challenge_wire; rewrite !length_app, !length_le_bytes.
  - cbn [spdm_read SpdmChallengeRequestPayload_codec]. eapply reads_eq.
    + spdm_reads_with (ch_slot_id v). spdm_reads_with (ch_measurement_summary_hash_type v).
      rewrite Hok. cbn [negb]. spdm_reads_with (ch_nonce v). apply reads_ret.
    + by rewrite app_nil_r.
    + by destruct v.
Qed.

#[export] Instance SpdmChallengeRequestPayload_parse :
  SpdmParseOk (SpdmChallengeRequestPayload_codec context) Challenge_wf.
Proof.
  cbv [SpdmParseOk]. cbn [spdm_read SpdmChallengeRequestPayload_codec].
  eapply parser_bind; [apply parse_ok|]. intros slot Hslot.
  eapply parser_bind; [apply parse_ok|]. intros t Ht.
  apply parser_if; [intros; apply parser_throw|]. intros Hok%negb_false_iff.
  eapply parser_bind; [apply parse_ok|]. intros nonce Hn. by apply parser_ret.
Qed.

Definition summary_wf (v : SpdmDigestStruct) : Prop :=
  if need_measurement_summary_hash (runtime_info context) then Digest_wf context v
  else v = SpdmDigestStruct_default.
Definition summary_wire (v : SpdmDigestStruct) : bytes :=
  if need_measurement_summary_hash (runtime_info context) then sized_bytes v else [].

#[export] Instance summary_hash_ok :
  SpdmCodecOk (summary_hash_codec context) summary_wf summary_wire.
Proof. apply opt_codec_ok, _. Qed.
#[export] Instance summary_hash_parse `{!HashSelected context} :
  SpdmParseOk (summary_hash_codec context) summary_wf.
Proof. apply opt_codec_parse, _. Qed.

Definition ChallengeAuth_wf (v : SpdmChallengeAuthResponsePayload) : Prop :=
  is_uint 4 (ca_slot_id v) ∧ is_u8 (ca_slot_mask v) ∧
  (ca_challenge_auth_attribute v = 0 ∨
   ca_challenge_auth_attribute v = SpdmChallengeAuthAttribute.BASIC_MUT_AUTH_REQ) ∧
  Digest_wf context (ca_cert_chain_hash v) ∧
  array_wf SPDM_NONCE_SIZE SPDM_NONCE_SIZE (ca_nonce v) ∧
  summary_wf (ca_measurement_summary_hash v) ∧ Opaque_wf (ca_opaque v) ∧
  Signature_wf context (ca_signature v).

Definition ChallengeAuth_wire (v : SpdmChallengeAuthResponsePayload) : bytes :=
  le_bytes 1 (ca_slot_id v + ca_challenge_auth_attribute v) ++ le_bytes 1 (ca_slot_mask v)
  ++ sized_bytes (ca_cert_chain_hash v) ++ ca_nonce v
  ++ summary_wire (ca_measurement_summary_hash v) ++ Opaque_wire (ca_opaque v)
  ++ sized_bytes (ca_signature v).

Lemma slot_attribute_bits slot attr :
  is_uint 4 slot → attr = 0 ∨ attr = 0x80 →
  is_u8 (slot + attr) ∧ Z.land (slot + attr) 0xF = slot ∧ Z.land (slot + attr) 0xF0 = attr ∧
  Z.land attr (Z.lnot 0x80) = 0.
Proof.
  intros Hs Ha. split; [destruct Hs, Ha as [-> | ->]; split; lia|].
  assert (Hall := small_range (λ x, (Z.land (x + 0) 0xF =? x) && (Z.land (x + 0) 0xF0 =? 0)
    && (Z.land (x + 0x80) 0xF =? x) && (Z.land (x + 0x80) 0xF0 =? 0x80)) 16 _ eq_refl Hs).
  rewrite !andb_true_iff, !Z.eqb_eq in Hall. destruct Hall as [[[? ?] ?] ?].
  by destruct Ha as [-> | ->].
Qed.

#[export] Instance SpdmChallengeAuthResponsePayload_ok :
  SpdmCodecOk (SpdmChallengeAuthResponsePayload_codec context)
    ChallengeAuth_wf ChallengeAuth_wire.
Proof.
  split; intros v (Hs&Hm&Ha&Hc&Hn&Hsum&Ho&Hsig);
    destruct (slot_attribute_bits _ _ Hs Ha) as (Hu&H1&H2&H3).
  - cbn [spdm_encode SpdmChallengeAuthResponsePayload_codec]. unfold ChallengeAuth_wire.
    eapply writes_eq; [spdm_writes_steps|by rewrite app_nil_r|].
    rewrite !length_app, !length_le_bytes. lia.
  - cbn [spdm_read SpdmChallengeAuthResponsePayload_codec]. unfold ChallengeAuth_wire.
    eapply reads_eq.
    + spdm_reads_with (ca_slot_id v + ca_challenge_auth_attribute v). rewrite H1, H2, H3.
      cbn [negb Z.eqb]. spdm_reads_with (ca_slot_mask v).
      spdm_reads_with (ca_cert_chain_hash v). spdm_reads_with (ca_nonce v).
      spdm_reads_with (ca_measurement_summary_hash v). spdm_reads_with (ca_opaque v).
      spdm_reads_with (ca_signature v). apply reads_ret.
    + by rewrite app_nil_r.
    + by destruct v.
Qed.

Lemma attribute_of_bits b :
  is_u8 b → Z.land (Z.land b 0xF0) (Z.lnot 0x80) = 0 →
  is_uint 4 (Z.land b 0xF) ∧ (Z.land b 0xF0 = 0 ∨ Z.land b 0xF0 = 0x80).
Proof.
  intros Hb Hz.
  assert (Hall := small_range (λ b, bool_decide (0 ≤ Z.land b 0xF < 16)
    && (negb (Z.land (Z.land b 0xF0) (Z.lnot 0x80) =? 0)
        || (Z.land b 0xF0 =? 0) || (Z.land b 0xF0 =? 0x80))) 256 _ eq_refl Hb).
  rewrite andb_true_iff, !orb_true_iff, bool_decide_eq_true, Hz, !Z.eqb_eq in Hall.
  destruct Hall as [? [[?|?]|?]]; [done|auto..].
Qed.

#[export] Instance SpdmChallengeAuthResponsePayload_parse
    `{!HashSelected context} `{!AsymSelected context} :
  SpdmParseOk (SpdmChallengeAuthResponsePayload_codec context) ChallengeAuth_wf.
Proof.
  cbv [SpdmParseOk]. cbn [spdm_read SpdmChallengeAuthResponsePayload_codec].
  eapply parser_bind; [apply parse_ok|]. intros b Hb. cbv zeta.
  apply parser_if; [intros; apply parser_throw|]. intros Hz%negb_false_iff%Z.eqb_eq.
  destruct (attribute_of_bits b Hb Hz).
  eapply parser_bind; [apply parse_ok|]. intros mask Hm.
  eapply parser_bind; [apply spdm_parse_ok|]. intros h Hh.
  eapply parser_bind; [apply parse_ok|]. intros n Hn.
  eapply parser_bind; [apply spdm_parse_ok|]. intros s Hs.
  eapply parser_bind; [apply spdm_parse_ok|]. intros o Ho.
  eapply parser_bind; [apply spdm_parse_ok|]. intros sg Hsg. by apply parser_ret.
Qed.

Definition nonce_field_wf (attributes : Z) (nonce : bytes) : Prop :=
  if signature_requested attributes then array_wf SPDM_NONCE_SIZE SPDM_NONCE_SIZE nonce
  else nonce = replicate SPDM_NONCE_SIZE 0.
Definition slot_field_wf (attributes slot : Z) : Prop :=
  if signature_requested attributes
  then (if sel_ge11 context then is_u8 slot else slot = 0) else slot = 0.

Definition GetMeasurements_wf (v : SpdmGetMeasurementsRequestPayload) : Prop :=
  flags_wf 8 3 (gm_measurement_attributes v) ∧
  SpdmMeasurementOperation_wf (gm_measurement_operation v) ∧
  nonce_field_wf (gm_measurement_attributes v) (gm_nonce v) ∧
  slot_field_wf (gm_measurement_attributes v) (gm_slot_id v).

Definition GetMeasurements_wire (v : SpdmGetMeasurementsRequestPayload) : bytes :=
  le_bytes 1 (gm_measurement_attributes v)
  ++ le_bytes 1 (SpdmMeasurementOperation_get_u8 (gm_measurement_operation v))
  ++ (if signature_requested (gm_measurement_attributes v) then gm_nonce v else [])
  ++ (if signature_requested (gm_measurement_attributes v)
      then (if sel_ge11 context then le_bytes 1 (gm_slot_id v) else []) else []).

#[local] Instance nonce_codec_ok attributes :
  SpdmCodecOk (nonce_codec attributes) (nonce_field_wf attributes)
    (λ bs, if signature_requested attributes then bs else []).
Proof. apply (opt_codec_ok _ _ _ _ (λ bs, bs)), _. Qed.
#[local] Instance slot_codec_ok attributes :
  SpdmCodecOk (slot_codec context attributes) (slot_field_wf attributes)
    (λ s, if signature_requested attributes
          then (if sel_ge11 context then le_bytes 1 s else []) else []).
Proof. apply opt_codec_ok, opt_codec_ok, _. Qed.

#[local] Instance SpdmMeasurementAttributes_ok :
  CodecOk SpdmMeasurementAttributes.codec (flags_wf 8 3) (le_bytes 1).
Proof. apply (strict_flags_codec_ok 3). Qed.

#[export] Instance SpdmGetMeasurementsRequestPayload_ok :
  SpdmCodecOk (SpdmGetMeasurementsRequestPayload_codec context)
    GetMeasurements_wf GetMeasurements_wire.
Proof.
  split; intros v (Ha&Ho&Hn&Hs).
  - cbn [spdm_encode SpdmGetMeasurementsRequestPayload_codec].
    eapply writes_eq; [spdm_writes_steps|by rewrite app_nil_r|].
    unfold GetMeasurements_wire. rewrite !length_app, !length_le_bytes. lia.
  - cbn [spdm_read SpdmGetMeasurementsRequestPayload_codec]. unfold GetMeasurements_wire.
    eapply reads_eq.
    + spdm_reads_with (gm_measurement_attributes v).
      spdm_reads_with (gm_measurement_operation v). spdm_reads_with (gm_nonce v).
      spdm_reads_with (gm_slot_id v). apply reads_ret.
    + by rewrite app_nil_r.
    + by destruct v.
Qed.

#[export] Instance SpdmGetMeasurementsRequestPayload_parse :
  SpdmParseOk (SpdmGetMeasurementsRequestPayload_codec context) GetMeasurements_wf.
Proof.
  cbv [SpdmParseOk]. cbn [spdm_read SpdmGetMeasurementsRequestPayload_codec].
  eapply parser_bind; [apply parse_ok|]. intros a Ha.
  eapply parser_bind; [apply parse_ok|]. intros o Ho.
  eapply parser_bind; [apply (opt_codec_parse _ _ _ _ (plain_parse SpdmNonceStruct_codec _ _ _))|].
  intros n Hn. eapply parser_bind.
  { apply opt_codec_parse, opt_codec_parse, (plain_parse u8_codec _ _ _). }
  intros s Hs. by apply parser_ret.
Qed.

(** The second parameter of MEASUREMENTS holds what its reader takes out of it. *)
Definition param2_wf (slot changed : Z) : Prop :=
  if need_signature context then
    if sel_ge12 context then is_uint 4 slot ∧ (changed ∈ [0; 0x10; 0x20; 0x30])
    else if sel_ge11 context then is_uint 4 slot ∧ changed = 0
    else slot = 0 ∧ changed = 0
  else slot = 0 ∧ changed = 0.

Lemma param2_bits slot changed :
  param2_wf slot changed →
  let b := measurements_param2 context slot changed in
  is_u8 b ∧ Z.land b 0x0F = slot ∧ Z.land b 0x30 = changed ∧ Z.land changed (Z.lnot 0x30) = 0.
Proof.
  unfold param2_wf, measurements_param2. intros Hw; simpl.
  assert (is_uint 4 slot ∧ changed ∈ [0; 0x10; 0x20; 0x30]) as [Hs Hc].
  { destruct (need_signature context), (sel_ge12 context), (sel_ge11 context);
      destruct Hw as [Hs Hc]; subst; (split; [first [done|by split]|first [done|by constructor]]). }
  assert (Hall := small_range (λ x, forallb (λ c, bool_decide (is_u8 (Z.lor x c))
    && (Z.land (Z.lor x c) 0xF =? x) && (Z.land (Z.lor x c) 0x30 =? c)
    && (Z.land c (Z.lnot 0x30) =? 0)) [0; 0x10; 0x20; 0x30]) 16 _ eq_refl Hs).
  rewrite forallb_forall in Hall. specialize (Hall changed ltac:(by apply list_elem_of_In)).
  rewrite !andb_true_iff, bool_decide_eq_true, !Z.eqb_eq in Hall.
  destruct Hall as [[[? ?] ?] ?].
  destruct (need_signature context), (sel_ge12 context), (sel_ge11 context);
    destruct Hw as [? ?]; subst; rewrite ?Z.lor_0_r in *; done.
Qed.

Definition measurements_signature_wf (v : SpdmSignatureStruct) : Prop :=
  if need_signature context then Signature_wf context v else v = SpdmSignatureStruct_default.
Definition measurements_signature_wire (v : SpdmSignatureStruct) : bytes :=
  if need_signature context then sized_bytes v else [].

#[export] Instance measurements_signature_ok :
  SpdmCodecOk (measurements_signature_codec context)
    measurements_signature_wf measurements_signature_wire.
Proof. apply opt_codec_ok, _. Qed.

Definition Measurements_wf (v : SpdmMeasurementsResponsePayload) : Prop :=
  is_u8 (mr_number_of_measurement v) ∧ param2_wf (mr_slot_id v) (mr_content_changed v) ∧
  Record_wf context (mr_measurement_record v) ∧
  array_wf SPDM_NONCE_SIZE SPDM_NONCE_SIZE (mr_nonce v) ∧ Opaque_wf (mr_opaque v) ∧
  measurements_signature_wf (mr_signature v).

Definition Measurements_wire (v : SpdmMeasurementsResponsePayload) : bytes :=
  le_bytes 1 (measurements_param1 (mr_number_of_measurement v))
  ++ le_bytes 1 (measurements_param2 context (mr_slot_id v) (mr_content_changed v))
  ++ Record_wire (mr_measurement_record v) ++ mr_nonce v ++ Opaque_wire (mr_opaque v)
  ++ measurements_signature_wire (mr_signature v).

(** What the receiver reads: one measurement is written as none. *)
Definition measurements_received (v : SpdmMeasurementsResponsePayload)
    : SpdmMeasurementsResponsePayload :=
  {| mr_number_of_measurement := measurements_param1 (mr_number_of_measurement v);
     mr_content_changed := mr_content_changed v; mr_slot_id := mr_slot_id v;
     mr_measurement_record := mr_measurement_record v; mr_nonce := mr_nonce v;
     mr_opaque := mr_opaque v; mr_signature := mr_signature v |}.

Lemma measurements_param1_u8 n : is_u8 n → is_u8 (measurements_param1 n).
Proof. unfold measurements_param1. by destruct (n =? 1). Qed.

Lemma writes_measurements v :
  Measurements_wf v →
  writes SPDM_STATUS_BUFFER_FULL (spdm_encode (SpdmMeasurementsResponsePayload_codec context) v)
    (Measurements_wire v) (length (Measurements_wire v)).
Proof.
  intros (Hn%measurements_param1_u8&Hp&Hr&Hno&Ho&Hs); destruct (param2_bits _ _ Hp) as (Hu&H1&H2&H3).
  cbn [spdm_encode SpdmMeasurementsResponsePayload_codec]. unfold Measurements_wire.
  eapply writes_eq; [spdm_writes_steps|by rewrite app_nil_r|].
  rewrite !length_app, !length_le_bytes. lia.
Qed.
Lemma reads_measurements v :
  Measurements_wf v →
  reads (spdm_read (SpdmMeasurementsResponsePayload_codec context)) (Measurements_wire v)
    (measurements_received v).
Proof.
  intros (Hn%measurements_param1_u8&Hp&Hr&Hno&Ho&Hs); destruct (param2_bits _ _ Hp) as (Hu&H1&H2&H3).
  cbn [spdm_read SpdmMeasurementsResponsePayload_codec]. unfold Measurements_wire.
  eapply reads_eq.
  + spdm_reads_with (measurements_param1 (mr_number_of_measurement v)).
    spdm_reads_with (measurements_param2 context (mr_slot_id v) (mr_content_changed v)).
    rewrite H1, H2, H3. cbn [negb Z.eqb]. spdm_reads_with (mr_measurement_record v).
    spdm_reads_with (mr_nonce v). spdm_reads_with (mr_opaque v).
    spdm_reads_with (mr_signature v). apply reads_ret.
  + by rewrite app_nil_r.
  + done.
Qed.

#[export] Instance SpdmMeasurementsResponsePayload_parse
    `{!MeasurementHashSelected context} `{!AsymSelected context} :
  SpdmParseOk (SpdmMeasurementsResponsePayload_codec context)
    (λ v, is_u8 (mr_number_of_measurement v) ∧ Record_wf context (mr_measurement_record v) ∧
          array_wf SPDM_NONCE_SIZE SPDM_NONCE_SIZE (mr_nonce v) ∧ Opaque_wf (mr_opaque v) ∧
          measurements_signature_wf (mr_signature v)).
Proof.
  cbv [SpdmParseOk]. cbn [spdm_read SpdmMeasurementsResponsePayload_codec].
  eapply parser_bind; [apply parse_ok|]. intros n Hn.
  eapply parser_bind; [apply parse_ok|]. intros p2 Hp2. cbv zeta.
  apply parser_if; [intros; apply parser_throw|]. intros _.
  eapply parser_bind; [apply spdm_parse_ok|]. intros rc Hrc.
  eapply parser_bind; [apply parse_ok|]. intros no Hno.
  eapply parser_bind; [apply spdm_parse_ok|]. intros o Ho.
  eapply parser_bind; [apply opt_codec_parse, _|]. intros sg Hsg. by apply parser_ret.
Qed.

End AuthProofs.
