(* ===== verification/MsgSession.v ===== *)
(** Model of the messages of sessions, spdmlib/src/message/key_exchange.rs, finish.rs,
    psk_exchange.rs, psk_finish.rs, heartbeat.rs, key_update.rs, end_session.rs and
    respond_if_ready.rs, and of error.rs and vendor.rs. *)

From S2P Require Import Prelude Config Codec Status Algo Protocol Crypto KeySchedule Buffers Session Context SpdmCodec Opaque MsgNegotiate MsgAuth.

(** ** Key exchange *)

Abbreviation KEY_EXCHANGE_REQUESTER_SESSION_POLICY_TERMINATION_POLICY_MASK := 1 (only parsing).
Abbreviation KEY_EXCHANGE_REQUESTER_SESSION_POLICY_TERMINATION_POLICY_VALUE := 1 (only parsing).

(*@ spdmlib/src/message/key_exchange.rs 20-29 SpdmKeyExchangeRequestPayload *)
Record SpdmKeyExchangeRequestPayload := {
  kq_measurement_summary_hash_type : SpdmMeasurementSummaryHashType;
  kq_slot_id : Z;
  kq_req_session_id : Z;
  kq_session_policy : Z;
  kq_random : bytes;
  kq_exchange : SpdmDheExchangeStruct;
  kq_opaque : SpdmOpaqueStruct;
}.

Module SpdmKeyExchangeMutAuthAttributes.
Abbreviation MUT_AUTH_REQ := 1 (only parsing).
Abbreviation MUT_AUTH_REQ_WITH_ENCAP_REQUEST := 2 (only parsing).
Abbreviation MUT_AUTH_REQ_WITH_GET_DIGESTS := 4 (only parsing).

(*@ spdmlib/src/message/key_exchange.rs 115-134 SpdmKeyExchangeMutAuthAttributes *)
Definition codec : Codec Z :=
  strict_flags_codec (flags_or [MUT_AUTH_REQ; MUT_AUTH_REQ_WITH_ENCAP_REQUEST;
    MUT_AUTH_REQ_WITH_GET_DIGESTS]).
End SpdmKeyExchangeMutAuthAttributes.

(*@ spdmlib/src/message/key_exchange.rs 136-148 SpdmKeyExchangeResponsePayload *)
Record SpdmKeyExchangeResponsePayload := {
  kp_heartbeat_period : Z;
  kp_rsp_session_id : Z;
  kp_mut_auth_req : Z;
  kp_req_slot_id : Z;
  kp_random : bytes;
  kp_exchange : SpdmDheExchangeStruct;
  kp_measurement_summary_hash : SpdmDigestStruct;
  kp_opaque : SpdmOpaqueStruct;
  kp_signature : SpdmSignatureStruct;
  kp_verify_data : SpdmDigestStruct;
}.

(** ** Finish *)

Module SpdmFinishRequestAttributes.
Abbreviation SIGNATURE_INCLUDED := 1 (only parsing).

(*@ spdmlib/src/message/finish.rs 13-30 SpdmFinishRequestAttributes *)
Definition codec : Codec Z := strict_flags_codec SIGNATURE_INCLUDED.
End SpdmFinishRequestAttributes.

(*@ spdmlib/src/message/finish.rs 32-38 SpdmFinishRequestPayload *)
Record SpdmFinishRequestPayload := {
  fq_finish_request_attributes : Z;
  fq_req_slot_id : Z;
  fq_signature : SpdmSignatureStruct;
  fq_verify_data : SpdmDigestStruct;
}.

(*@ spdmlib/src/message/finish.rs 86-89 SpdmFinishResponsePayload *)
Record SpdmFinishResponsePayload := { fp_verify_data : SpdmDigestStruct }.

(** ** Pre-shared keys *)

(*@ spdmlib/src/message/psk_exchange.rs 16-23 SpdmPskExchangeRequestPayload *)
Record SpdmPskExchangeRequestPayload := {
  pq_measurement_summary_hash_type : SpdmMeasurementSummaryHashType;
  pq_req_session_id : Z;
  pq_psk_hint : SpdmPskHintStruct;
  pq_psk_context : SpdmPskContextStruct;
  pq_opaque : SpdmOpaqueStruct;
}.

(*@ spdmlib/src/message/psk_exchange.rs 147-155 SpdmPskExchangeResponsePayload *)
Record SpdmPskExchangeResponsePayload := {
  pp_heartbeat_period : Z;
  pp_rsp_session_id : Z;
  pp_measurement_summary_hash : SpdmDigestStruct;
  pp_psk_context : SpdmPskContextStruct;
  pp_opaque : SpdmOpaqueStruct;
  pp_verify_data : SpdmDigestStruct;
}.

(*@ spdmlib/src/message/psk_finish.rs 11-14 SpdmPskFinishRequestPayload *)
Record SpdmPskFinishRequestPayload := { pf_verify_data : SpdmDigestStruct }.

(*@ spdmlib/src/message/psk_finish.rs 42-42 SpdmPskFinishResponsePayload *)
Inductive SpdmPskFinishResponsePayload := MkSpdmPskFinishResponsePayload.

(*@ spdmlib/src/message/psk_finish.rs 44-64 SpdmPskFinishResponsePayload as SpdmCodec *)
Definition SpdmPskFinishResponsePayload_codec : SpdmCodec SpdmPskFinishResponsePayload := empty_codec MkSpdmPskFinishResponsePayload.

(** ** Heartbeat, key update, end of session *)

(*@ spdmlib/src/message/heartbeat.rs 11-11 SpdmHeartbeatRequestPayload *)
Inductive SpdmHeartbeatRequestPayload := MkSpdmHeartbeatRequestPayload.

(*@ spdmlib/src/message/heartbeat.rs 13-33 SpdmHeartbeatRequestPayload as SpdmCodec *)
Definition SpdmHeartbeatRequestPayload_codec : SpdmCodec SpdmHeartbeatRequestPayload := empty_codec MkSpdmHeartbeatRequestPayload.

(*@ spdmlib/src/message/heartbeat.rs 36-36 SpdmHeartbeatResponsePayload *)
Inductive SpdmHeartbeatResponsePayload := MkSpdmHeartbeatResponsePayload.

(*@ spdmlib/src/message/heartbeat.rs 38-58 SpdmHeartbeatResponsePayload as SpdmCodec *)
Definition SpdmHeartbeatResponsePayload_codec : SpdmCodec SpdmHeartbeatResponsePayload := empty_codec MkSpdmHeartbeatResponsePayload.

(*@ spdmlib/src/message/key_update.rs 11-19 SpdmKeyUpdateOperation *)
Inductive SpdmKeyUpdateOperation :=
| SpdmUpdateSingleKey
| SpdmUpdateAllKeys
| SpdmVerifyNewKey
| SpdmKeyUpdateOperation_Unknown (x : Z).

Definition SpdmKeyUpdateOperation_get_u8 (v : SpdmKeyUpdateOperation) : Z :=
  match v with
  | SpdmUpdateSingleKey => 0x1
  | SpdmUpdateAllKeys => 0x2
  | SpdmVerifyNewKey => 0x3
  | SpdmKeyUpdateOperation_Unknown x => x
  end.

Definition SpdmKeyUpdateOperation_from_u8 (x : Z) : SpdmKeyUpdateOperation :=
  match x with
  | 0x1 => SpdmUpdateSingleKey
  | 0x2 => SpdmUpdateAllKeys
  | 0x3 => SpdmVerifyNewKey
  | x => SpdmKeyUpdateOperation_Unknown x
  end.

(*@ spdmlib/src/message/key_update.rs 11-19 SpdmKeyUpdateOperation as Codec *)
Definition SpdmKeyUpdateOperation_codec : Codec SpdmKeyUpdateOperation :=
  enum_codec u8_codec SpdmKeyUpdateOperation_get_u8 SpdmKeyUpdateOperation_from_u8.

#[global] Instance SpdmKeyUpdateOperation_eq_dec : EqDecision SpdmKeyUpdateOperation.
Proof. solve_decision. Defined.

Abbreviation SpdmKeyUpdateOperation_wf := (enum_wf 8 SpdmKeyUpdateOperation_get_u8 SpdmKeyUpdateOperation_from_u8).

#[global] Instance SpdmKeyUpdateOperation_codec_ok :
  CodecOk SpdmKeyUpdateOperation_codec SpdmKeyUpdateOperation_wf 
    (λ v, le_bytes 1 (SpdmKeyUpdateOperation_get_u8 v)).
Proof. apply enum_codec_ok; [apply _|]. solve_enum SpdmKeyUpdateOperation_from_u8. Qed.

(*@ spdmlib/src/message/key_update.rs 26-30 SpdmKeyUpdateRequestPayload *)
Record SpdmKeyUpdateRequestPayload := {
  uq_key_update_operation : SpdmKeyUpdateOperation;
  uq_tag : Z;
}.

Definition key_update_known (op : SpdmKeyUpdateOperation) : bool :=
  match op with
  | SpdmUpdateSingleKey | SpdmUpdateAllKeys | SpdmVerifyNewKey => true
  | _ => false
  end.

(*@ spdmlib/src/message/key_update.rs 32-69 SpdmKeyUpdateRequestPayload as SpdmCodec *)
Definition SpdmKeyUpdateRequestPayload_codec : SpdmCodec SpdmKeyUpdateRequestPayload := {|
  spdm_encode v :=
    let* n1 := enc SpdmKeyUpdateOperation_codec (uq_key_update_operation v) in
    let* n2 := enc u8_codec (uq_tag v) in
    ret (n1 + n2)%nat;
  spdm_read :=
    let* op := read SpdmKeyUpdateOperation_codec in
    let* tag := read u8_codec in
    if negb (key_update_known op) then throw tt else
    ret {| uq_key_update_operation := op; uq_tag := tag |};
|}.

(*@ spdmlib/src/message/key_update.rs 71-75 SpdmKeyUpdateResponsePayload *)
Record SpdmKeyUpdateResponsePayload := {
  up_key_update_operation : SpdmKeyUpdateOperation;
  up_tag : Z;
}.

(*@ spdmlib/src/message/key_update.rs 77-114 SpdmKeyUpdateResponsePayload as SpdmCodec *)
Definition SpdmKeyUpdateResponsePayload_codec : SpdmCodec SpdmKeyUpdateResponsePayload := {|
  spdm_encode v :=
    let* n1 := enc SpdmKeyUpdateOperation_codec (up_key_update_operation v) in
    let* n2 := enc u8_codec (up_tag v) in
    ret (n1 + n2)%nat;
  spdm_read :=
    let* op := read SpdmKeyUpdateOperation_codec in
    let* tag := read u8_codec in
    if negb (key_update_known op) then throw tt else
    ret {| up_key_update_operation := op; up_tag := tag |};
|}.

Module SpdmEndSessionRequestAttributes.
Abbreviation PRESERVE_NEGOTIATED_STATE := 1 (only parsing).

(*@ spdmlib/src/message/end_session.rs 10-27 SpdmEndSessionRequestAttributes *)
Definition codec : Codec Z := strict_flags_codec PRESERVE_NEGOTIATED_STATE.
End SpdmEndSessionRequestAttributes.

(*@ spdmlib/src/message/end_session.rs 29-32 SpdmEndSessionRequestPayload *)
Record SpdmEndSessionRequestPayload := { es_attributes : Z }.

(*@ spdmlib/src/message/end_session.rs 34-60 SpdmEndSessionRequestPayload as SpdmCodec *)
Definition SpdmEndSessionRequestPayload_codec : SpdmCodec SpdmEndSessionRequestPayload := {|
  spdm_encode v :=
    let* n1 := enc SpdmEndSessionRequestAttributes.codec (es_attributes v) in
    let* n2 := enc u8_codec 0 in
    ret (n1 + n2)%nat;
  spdm_read :=
    let* a := read SpdmEndSessionRequestAttributes.codec in
    read u8_codec;;
    ret {| es_attributes := a |};
|}.

(*@ spdmlib/src/message/end_session.rs 63-63 SpdmEndSessionResponsePayload *)
Inductive SpdmEndSessionResponsePayload := MkSpdmEndSessionResponsePayload.

(*@ spdmlib/src/message/end_session.rs 65-85 SpdmEndSessionResponsePayload as SpdmCodec *)
Definition SpdmEndSessionResponsePayload_codec : SpdmCodec SpdmEndSessionResponsePayload := empty_codec MkSpdmEndSessionResponsePayload.

(*@ spdmlib/src/message/respond_if_ready.rs 12-12 SpdmRespondIfReadyRequestPayload *)
Inductive SpdmRespondIfReadyRequestPayload := MkSpdmRespondIfReadyRequestPayload.

(*@ spdmlib/src/message/respond_if_ready.rs 14-34 SpdmRespondIfReadyRequestPayload as SpdmCodec *)
Definition SpdmRespondIfReadyRequestPayload_codec : SpdmCodec SpdmRespondIfReadyRequestPayload := empty_codec MkSpdmRespondIfReadyRequestPayload.

(** ** Errors *)

(*@ spdmlib/src/message/error.rs 11-35 SpdmErrorCode *)
Inductive SpdmErrorCode :=
| SpdmErrorInvalidRequest
| SpdmErrorBusy
| SpdmErrorUnexpectedRequest
| SpdmErrorUnspecified
| SpdmErrorDecryptError
| SpdmErrorUnsupportedRequest
| SpdmErrorRequestInFlight
| SpdmErrorInvalidResponseCode
| SpdmErrorSessionLimitExceeded
| SpdmErrorSessionRequired
| SpdmErrorResetRequired
| SpdmErrorResponseTooLarge
| SpdmErrorRequestTooLarge
| SpdmErrorLargeResponse
| SpdmErrorMessageLost
| SpdmErrorVersionMismatch
| SpdmErrorResponseNotReady
| SpdmErrorRequestResynch
| SpdmErrorVendorDefined
| SpdmErrorCode_Unknown (x : Z).

Definition SpdmErrorCode_get_u8 (v : SpdmErrorCode) : Z :=
  match v with
  | SpdmErrorInvalidRequest => 0x1
  | SpdmErrorBusy => 0x3
  | SpdmErrorUnexpectedRequest => 0x4
  | SpdmErrorUnspecified => 0x5
  | SpdmErrorDecryptError => 0x6
  | SpdmErrorUnsupportedRequest => 0x7
  | SpdmErrorRequestInFlight => 0x8
  | SpdmErrorInvalidResponseCode => 0x9
  | SpdmErrorSessionLimitExceeded => 0xA
  | SpdmErrorSessionRequired => 0xB
  | SpdmErrorResetRequired => 0xC
  | SpdmErrorResponseTooLarge => 0xD
  | SpdmErrorRequestTooLarge => 0xE
  | SpdmErrorLargeResponse => 0xF
  | SpdmErrorMessageLost => 0x10
  | SpdmErrorVersionMismatch => 0x41
  | SpdmErrorResponseNotReady => 0x42
  | SpdmErrorRequestResynch => 0x43
  | SpdmErrorVendorDefined => 0xFF
  | SpdmErrorCode_Unknown x => x
  end.

Definition SpdmErrorCode_from_u8 (x : Z) : SpdmErrorCode :=
  match x with
  | 0x1 => SpdmErrorInvalidRequest
  | 0x3 => SpdmErrorBusy
  | 0x4 => SpdmErrorUnexpectedRequest
  | 0x5 => SpdmErrorUnspecified
  | 0x6 => SpdmErrorDecryptError
  | 0x7 => SpdmErrorUnsupportedRequest
  | 0x8 => SpdmErrorRequestInFlight
  | 0x9 => SpdmErrorInvalidResponseCode
  | 0xA => SpdmErrorSessionLimitExceeded
  | 0xB => SpdmErrorSessionRequired
  | 0xC => SpdmErrorResetRequired
  | 0xD => SpdmErrorResponseTooLarge
  | 0xE => SpdmErrorRequestTooLarge
  | 0xF => SpdmErrorLargeResponse
  | 0x10 => SpdmErrorMessageLost
  | 0x41 => SpdmErrorVersionMismatch
  | 0x42 => SpdmErrorResponseNotReady
  | 0x43 => SpdmErrorRequestResynch
  | 0xFF => SpdmErrorVendorDefined
  | x => SpdmErrorCode_Unknown x
  end.

(*@ spdmlib/src/message/error.rs 11-35 SpdmErrorCode as Codec *)
Definition SpdmErrorCode_codec : Codec SpdmErrorCode :=
  enum_codec u8_codec SpdmErrorCode_get_u8 SpdmErrorCode_from_u8.

#[global] Instance SpdmErrorCode_eq_dec : EqDecision SpdmErrorCode.
Proof. solve_decision. Defined.

Abbreviation SpdmErrorCode_wf := (enum_wf 8 SpdmErrorCode_get_u8 SpdmErrorCode_from_u8).

#[global] Instance SpdmErrorCode_codec_ok :
  CodecOk SpdmErrorCode_codec SpdmErrorCode_wf 
    (λ v, le_bytes 1 (SpdmErrorCode_get_u8 v)).
Proof. apply enum_codec_ok; [apply _|]. solve_enum SpdmErrorCode_from_u8. Qed.

Abbreviation SPDM_ERROR_VENDOR_EXT_DATA_SIZE := 32%nat (only parsing).

(*@ spdmlib/src/message/error.rs 64-70 SpdmErrorResponseNotReadyExtData *)
Record SpdmErrorResponseNotReadyExtData := {
  rdt_exponent : Z;
  nr_request_code : Z;
  nr_token : Z;
  rdtm : Z;
}.

(*@ spdmlib/src/message/error.rs 182-192 SpdmErrorResponseExtData *)
Inductive SpdmErrorResponseExtData :=
| SpdmErrorExtDataNone
| SpdmErrorExtDataNotReady (d : SpdmErrorResponseNotReadyExtData)
| SpdmErrorExtDataVendorDefined (d : sized).

(*@ spdmlib/src/message/error.rs 194-199 SpdmErrorResponsePayload *)
Record SpdmErrorResponsePayload := {
  er_error_code : SpdmErrorCode;
  er_error_data : Z;
  er_extended_data : SpdmErrorResponseExtData;
}.

(*@ spdmlib/src/message/error.rs 96-138 SpdmErrorResponseNotReadyExtData as SpdmCodec *)
Definition SpdmErrorResponseNotReadyExtData_codec
    : SpdmCodec SpdmErrorResponseNotReadyExtData := {|
  spdm_encode v :=
    let* n1 := enc u8_codec (rdt_exponent v) in
    let* n2 := enc u8_codec (nr_request_code v) in
    let* n3 := enc u8_codec (nr_token v) in
    let* n4 := enc u8_codec (rdtm v) in
    ret (n1 + n2 + n3 + n4)%nat;
  spdm_read :=
    let* e := read u8_codec in
    let* c := read u8_codec in
    let* t := read u8_codec in
    let* m := read u8_codec in
    ret {| rdt_exponent := e; nr_request_code := c; nr_token := t; rdtm := m |};
|}.

(** The vendor data is what is left of the message, up to 32 bytes. *)
Fixpoint read_up_to (n : nat) : M Reader unit bytes :=
  match n with
  | O => ret []
  | S n =>
      let* b := attempt (read u8_codec) in
      match b with
      | inl _ => ret []
      | inr b => let* l := read_up_to n in ret (b :: l)
      end
  end.

(*@ spdmlib/src/message/error.rs 146-180 SpdmErrorResponseVendorExtData as SpdmCodec *)
Definition SpdmErrorResponseVendorExtData_codec : SpdmCodec sized := {|
  spdm_encode v := enc_bytes (take (data_size v) (data v));; ret (data_size v);
  spdm_read :=
    let* l := read_up_to SPDM_ERROR_VENDOR_EXT_DATA_SIZE in
    ret {| data_size := length l;
           data := l ++ replicate (SPDM_ERROR_VENDOR_EXT_DATA_SIZE - length l) 0 |};
|}.

(*@ spdmlib/src/message/error.rs 201-263 SpdmErrorResponsePayload as SpdmCodec *)
Definition SpdmErrorResponsePayload_codec : SpdmCodec SpdmErrorResponsePayload := {|
  spdm_encode v :=
    let* n1 := enc SpdmErrorCode_codec (er_error_code v) in
    let* n2 := enc u8_codec (er_error_data v) in
    let* n3 :=
      match er_extended_data v with
      | SpdmErrorExtDataNotReady d => spdm_encode SpdmErrorResponseNotReadyExtData_codec d
      | SpdmErrorExtDataVendorDefined d => spdm_encode SpdmErrorResponseVendorExtData_codec d
      | SpdmErrorExtDataNone => ret 0%nat
      end in
    ret (n1 + n2 + n3)%nat;
  spdm_read :=
    let* code := read SpdmErrorCode_codec in
    let* d := read u8_codec in
    let* ext :=
      match code with
      | SpdmErrorResponseNotReady =>
          let* d := spdm_read SpdmErrorResponseNotReadyExtData_codec in
          ret (SpdmErrorExtDataNotReady d)
      | SpdmErrorVendorDefined =>
          let* d := spdm_read SpdmErrorResponseVendorExtData_codec in
          ret (SpdmErrorExtDataVendorDefined d)
      | _ => ret SpdmErrorExtDataNone
      end in
    ret {| er_error_code := code; er_error_data := d; er_extended_data := ext |};
|}.

(** ** Vendor defined messages *)

(*@ spdmlib/src/message/vendor.rs 21-35 RegistryOrStandardsBodyID *)
Inductive RegistryOrStandardsBodyID :=
| Registry_DMTF
| Registry_TCG
| Registry_USB
| Registry_PCISIG
| Registry_IANA
| Registry_HDBASET
| Registry_MIPI
| Registry_CXL
| Registry_JEDEC
| RegistryOrStandardsBodyID_Unknown (x : Z).

Definition RegistryOrStandardsBodyID_get_u16 (v : RegistryOrStandardsBodyID) : Z :=
  match v with
  | Registry_DMTF => 0x00
  | Registry_TCG => 0x01
  | Registry_USB => 0x02
  | Registry_PCISIG => 0x03
  | Registry_IANA => 0x04
  | Registry_HDBASET => 0x05
  | Registry_MIPI => 0x06
  | Registry_CXL => 0x07
  | Registry_JEDEC => 0x08
  | RegistryOrStandardsBodyID_Unknown x => x
  end.

Definition RegistryOrStandardsBodyID_from_u16 (x : Z) : RegistryOrStandardsBodyID :=
  match x with
  | 0x00 => Registry_DMTF
  | 0x01 => Registry_TCG
  | 0x02 => Registry_USB
  | 0x03 => Registry_PCISIG
  | 0x04 => Registry_IANA
  | 0x05 => Registry_HDBASET
  | 0x06 => Registry_MIPI
  | 0x07 => Registry_CXL
  | 0x08 => Registry_JEDEC
  | x => RegistryOrStandardsBodyID_Unknown x
  end.

(*@ spdmlib/src/message/vendor.rs 21-35 RegistryOrStandardsBodyID as Codec *)
Definition RegistryOrStandardsBodyID_codec : Codec RegistryOrStandardsBodyID :=
  enum_codec u16_codec RegistryOrStandardsBodyID_get_u16 RegistryOrStandardsBodyID_from_u16.

#[global] Instance RegistryOrStandardsBodyID_eq_dec : EqDecision RegistryOrStandardsBodyID.
Proof. solve_decision. Defined.

Abbreviation RegistryOrStandardsBodyID_wf := (enum_wf 16 RegistryOrStandardsBodyID_get_u16 RegistryOrStandardsBodyID_from_u16).

#[global] Instance RegistryOrStandardsBodyID_codec_ok :
  CodecOk RegistryOrStandardsBodyID_codec RegistryOrStandardsBodyID_wf 
    (λ v, le_bytes 2 (RegistryOrStandardsBodyID_get_u16 v)).
Proof. apply enum_codec_ok; [apply _|]. solve_enum RegistryOrStandardsBodyID_from_u16. Qed.

(*@ spdmlib/src/message/vendor.rs 38-51 RegistryOrStandardsBodyID::get_default_vendor_id_len *)
Definition get_default_vendor_id_len (id : RegistryOrStandardsBodyID) : Z :=
  match id with
  | Registry_DMTF => 0
  | Registry_TCG | Registry_USB | Registry_PCISIG => 2
  | Registry_IANA | Registry_HDBASET => 4
  | Registry_MIPI | Registry_CXL | Registry_JEDEC => 2
  | RegistryOrStandardsBodyID_Unknown _ => 0
  end.

(*@ spdmlib/src/message/vendor.rs 60-83 VendorIDStruct as Codec *)
Definition VendorIDStruct_codec : Codec sized := {|
  encode v :=
    let* n1 := encode u8_codec (Z.of_nat (data_size v)) in
    let* n2 := encode_bytes (take (data_size v) (data v)) in
    ret (n1 + n2)%nat;
  read :=
    let* len := read u8_codec in
    let* vendor_id := read_array (Z.to_nat len) MAX_SPDM_VENDOR_DEFINED_VENDOR_ID_LEN in
    ret {| data_size := Z.to_nat len; data := vendor_id |};
|}.

Section MsgSession.
Context `{cfg : Config} `{sec : Secret} `{dev : SpdmDeviceIo}.

(*@ spdmlib/src/message/vendor.rs 15-17 MAX_SPDM_VENDOR_DEFINED_PAYLOAD_SIZE *)
Definition MAX_SPDM_VENDOR_DEFINED_PAYLOAD_SIZE : nat := MAX_SPDM_MSG_SIZE - 7 - 2.

(** The request and the response payload have the same layout; the length is not checked
    against the capacity of the array. *)
(*@ spdmlib/src/message/vendor.rs 90-118 VendorDefinedReqPayloadStruct as Codec *)
Definition VendorDefinedReqPayloadStruct_codec : Codec sized := {|
  encode v :=
    let* n1 := encode u16_codec (Z.of_nat (data_size v)) in
    let* n2 := encode_bytes (take (data_size v) (data v)) in
    ret (n1 + n2)%nat;
  read :=
    let* len := read u16_codec in
    let* payload := read_array (Z.to_nat len) MAX_SPDM_VENDOR_DEFINED_PAYLOAD_SIZE in
    ret {| data_size := Z.to_nat len; data := payload |};
|}.

(*@ spdmlib/src/message/vendor.rs 126-154 VendorDefinedRspPayloadStruct as Codec *)
Definition VendorDefinedRspPayloadStruct_codec : Codec sized :=
  VendorDefinedReqPayloadStruct_codec.

(*@ spdmlib/src/message/vendor.rs 156-161 SpdmVendorDefinedRequestPayload *)
Record SpdmVendorDefinedRequestPayload := {
  vq_standard_id : RegistryOrStandardsBodyID;
  vq_vendor_id : sized;
  vq_req_payload : sized;
}.

(*@ spdmlib/src/message/vendor.rs 163-203 SpdmVendorDefinedRequestPayload as SpdmCodec *)
Definition SpdmVendorDefinedRequestPayload_codec : SpdmCodec SpdmVendorDefinedRequestPayload := {|
  spdm_encode v :=
    let* n1 := enc u8_codec 0 in
    let* n2 := enc u8_codec 0 in
    let* n3 := enc RegistryOrStandardsBodyID_codec (vq_standard_id v) in
    let* n4 := enc VendorIDStruct_codec (vq_vendor_id v) in
    let* n5 := enc VendorDefinedReqPayloadStruct_codec (vq_req_payload v) in
    ret (n1 + n2 + n3 + n4 + n5)%nat;
  spdm_read :=
    read u8_codec;; read u8_codec;;
    let* id := read RegistryOrStandardsBodyID_codec in
    let* vendor := read VendorIDStruct_codec in
    let* payload := read VendorDefinedReqPayloadStruct_codec in
    ret {| vq_standard_id := id; vq_vendor_id := vendor; vq_req_payload := payload |};
|}.

(*@ spdmlib/src/message/vendor.rs 205-210 SpdmVendorDefinedResponsePayload *)
Record SpdmVendorDefinedResponsePayload := {
  vp_standard_id : RegistryOrStandardsBodyID;
  vp_vendor_id : sized;
  vp_rsp_payload : sized;
}.

(*@ spdmlib/src/message/vendor.rs 212-252 SpdmVendorDefinedResponsePayload as SpdmCodec *)
Definition SpdmVendorDefinedResponsePayload_codec : SpdmCodec SpdmVendorDefinedResponsePayload := {|
  spdm_encode v :=
    let* n1 := enc u8_codec 0 in
    let* n2 := enc u8_codec 0 in
    let* n3 := enc RegistryOrStandardsBodyID_codec (vp_standard_id v) in
    let* n4 := enc VendorIDStruct_codec (vp_vendor_id v) in
    let* n5 := enc VendorDefinedRspPayloadStruct_codec (vp_rsp_payload v) in
    ret (n1 + n2 + n3 + n4 + n5)%nat;
  spdm_read :=
    read u8_codec;; read u8_codec;;
    let* id := read RegistryOrStandardsBodyID_codec in
    let* vendor := read VendorIDStruct_codec in
    let* payload := read VendorDefinedRspPayloadStruct_codec in
    ret {| vp_standard_id := id; vp_vendor_id := vendor; vp_rsp_payload := payload |};
|}.

Context (context : SpdmContext).

(** ** Formats that depend on the negotiation *)

(*@ spdmlib/src/message/key_exchange.rs 31-113 SpdmKeyExchangeRequestPayload as SpdmCodec *)
Definition SpdmKeyExchangeRequestPayload_codec : SpdmCodec SpdmKeyExchangeRequestPayload := {|
  spdm_encode v :=
    let* n1 := enc SpdmMeasurementSummaryHashType_codec (kq_measurement_summary_hash_type v) in
    let* n2 := enc u8_codec (kq_slot_id v) in
    let* n3 := enc u16_codec (kq_req_session_id v) in
    let* n4 := enc u8_codec (if sel_ge12 context then kq_session_policy v else 0) in
    let* n5 := enc u8_codec 0 in
    let* n6 := enc SpdmRandomStruct_codec (kq_random v) in
    let* n7 := spdm_encode (SpdmDheExchangeStruct_codec context) (kq_exchange v) in
    let* n8 := spdm_encode SpdmOpaqueStruct_codec (kq_opaque v) in
    ret (n1 + n2 + n3 + n4 + n5 + n6 + n7 + n8)%nat;
  spdm_read :=
    let* t := read SpdmMeasurementSummaryHashType_codec in
    if negb (summary_hash_type_ok context t) then throw tt else
    let* slot_id := read u8_codec in
    let* req_session_id := read u16_codec in
    let* session_policy := read u8_codec in
    read u8_codec;;
    let* random := read SpdmRandomStruct_codec in
    let* exchange := spdm_read (SpdmDheExchangeStruct_codec context) in
    let* opaque := spdm_read SpdmOpaqueStruct_codec in
    ret {| kq_measurement_summary_hash_type := t; kq_slot_id := slot_id;
           kq_req_session_id := req_session_id; kq_session_policy := session_policy;
           kq_random := random; kq_exchange := exchange; kq_opaque := opaque |};
|}.

Definition in_clear_text : bool :=
  req_has context SpdmRequestCapabilityFlags.HANDSHAKE_IN_THE_CLEAR_CAP
  && rsp_has context SpdmResponseCapabilityFlags.HANDSHAKE_IN_THE_CLEAR_CAP.

(** Verify data is in KEY_EXCHANGE_RSP, or in FINISH_RSP if the handshake is in the clear. *)
Definition kp_verify_data_codec : SpdmCodec SpdmDigestStruct :=
  opt_codec (negb in_clear_text) (SpdmDigestStruct_codec context) SpdmDigestStruct_default.
Definition fp_verify_data_codec : SpdmCodec SpdmDigestStruct :=
  opt_codec in_clear_text (SpdmDigestStruct_codec context) SpdmDigestStruct_default.

Definition mut_auth_req_ok (a : Z) : bool :=
  (a =? 0) || (a =? SpdmKeyExchangeMutAuthAttributes.MUT_AUTH_REQ)
  || (a =? SpdmKeyExchangeMutAuthAttributes.MUT_AUTH_REQ_WITH_ENCAP_REQUEST)
  || (a =? SpdmKeyExchangeMutAuthAttributes.MUT_AUTH_REQ_WITH_GET_DIGESTS).

(*@ spdmlib/src/message/key_exchange.rs 150-255 SpdmKeyExchangeResponsePayload as SpdmCodec *)
Definition SpdmKeyExchangeResponsePayload_codec : SpdmCodec SpdmKeyExchangeResponsePayload := {|
  spdm_encode v :=
    let* n1 := enc u8_codec (kp_heartbeat_period v) in
    let* n2 := enc u8_codec 0 in
    let* n3 := enc u16_codec (kp_rsp_session_id v) in
    let* n4 := enc SpdmKeyExchangeMutAuthAttributes.codec (kp_mut_auth_req v) in
    let* n5 := enc u8_codec (kp_req_slot_id v) in
    let* n6 := enc SpdmRandomStruct_codec (kp_random v) in
    let* n7 := spdm_encode (SpdmDheExchangeStruct_codec context) (kp_exchange v) in
    let* n8 := spdm_encode (summary_hash_codec context) (kp_measurement_summary_hash v) in
    let* n9 := spdm_encode SpdmOpaqueStruct_codec (kp_opaque v) in
    let* n10 := spdm_encode (SpdmSignatureStruct_codec context) (kp_signature v) in
    let* n11 := spdm_encode kp_verify_data_codec (kp_verify_data v) in
    ret (n1 + n2 + n3 + n4 + n5 + n6 + n7 + n8 + n9 + n10 + n11)%nat;
  spdm_read :=
    let* heartbeat_period := read u8_codec in
    read u8_codec;;
    let* rsp_session_id := read u16_codec in
    let* mut_auth_req := read SpdmKeyExchangeMutAuthAttributes.codec in
    let* req_slot_id := read u8_codec in
    if negb (mut_auth_req_ok mut_auth_req) then throw tt else
    let* random := read SpdmRandomStruct_codec in
    let* exchange := spdm_read (SpdmDheExchangeStruct_codec context) in
    let* summary := spdm_read (summary_hash_codec context) in
    let* opaque := spdm_read SpdmOpaqueStruct_codec in
    let* signature := spdm_read (SpdmSignatureStruct_codec context) in
    let* verify_data := spdm_read kp_verify_data_codec in
    ret {| kp_heartbeat_period := heartbeat_period; kp_rsp_session_id := rsp_session_id;
           kp_mut_auth_req := mut_auth_req; kp_req_slot_id := req_slot_id;
           kp_random := random; kp_exchange := exchange;
           kp_measurement_summary_hash := summary; kp_opaque := opaque;
           kp_signature := signature; kp_verify_data := verify_data |};
|}.

Definition finish_signature_codec (attributes : Z) : SpdmCodec SpdmSignatureStruct :=
  opt_codec (contains attributes SpdmFinishRequestAttributes.SIGNATURE_INCLUDED)
    (SpdmSignatureStruct_codec context) SpdmSignatureStruct_default.

(*@ spdmlib/src/message/finish.rs 40-84 SpdmFinishRequestPayload as SpdmCodec *)
Definition SpdmFinishRequestPayload_codec : SpdmCodec SpdmFinishRequestPayload := {|
  spdm_encode v :=
    let* n1 := enc SpdmFinishRequestAttributes.codec (fq_finish_request_attributes v) in
    let* n2 := enc u8_codec (fq_req_slot_id v) in
    let* n3 := spdm_encode (finish_signature_codec (fq_finish_request_attributes v))
      (fq_signature v) in
    let* n4 := spdm_encode (SpdmDigestStruct_codec context) (fq_verify_data v) in
    ret (n1 + n2 + n3 + n4)%nat;
  spdm_read :=
    let* attributes := read SpdmFinishRequestAttributes.codec in
    let* req_slot_id := read u8_codec in
    let* signature := spdm_read (finish_signature_codec attributes) in
    let* verify_data := spdm_read (SpdmDigestStruct_codec context) in
    ret {| fq_finish_request_attributes := attributes; fq_req_slot_id := req_slot_id;
           fq_signature := signature; fq_verify_data := verify_data |};
|}.

(*@ spdmlib/src/message/finish.rs 91-138 SpdmFinishResponsePayload as SpdmCodec *)
Definition SpdmFinishResponsePayload_codec : SpdmCodec SpdmFinishResponsePayload := {|
  spdm_encode v :=
    let* n1 := enc u8_codec 0 in
    let* n2 := enc u8_codec 0 in
    let* n3 := spdm_encode fp_verify_data_codec (fp_verify_data v) in
    ret (n1 + n2 + n3)%nat;
  spdm_read :=
    read u8_codec;; read u8_codec;;
    let* verify_data := spdm_read fp_verify_data_codec in
    ret {| fp_verify_data := verify_data |};
|}.

(** [size > max as u16] *)
Definition read_size (max : nat) : M Reader unit nat :=
  let* size := read u16_codec in
  if as_u16 (Z.of_nat max) <? size then throw tt else ret (Z.to_nat size).

Definition enc_data (v : sized) : M Writer SpdmStatus nat :=
  enc_bytes (take (data_size v) (data v)).
Definition read_data (n max : nat) : M Reader unit sized :=
  let* bs := read_array n max in
  ret {| data_size := n; data := bs |}.

(*@ spdmlib/src/message/psk_exchange.rs 25-145 SpdmPskExchangeRequestPayload as SpdmCodec *)
Definition SpdmPskExchangeRequestPayload_codec : SpdmCodec SpdmPskExchangeRequestPayload := {|
  spdm_encode v :=
    let* n1 := enc SpdmMeasurementSummaryHashType_codec (pq_measurement_summary_hash_type v) in
    let* n2 := enc u8_codec 0 in
    let* n3 := enc u16_codec (pq_req_session_id v) in
    let* n4 := enc u16_codec (Z.of_nat (data_size (pq_psk_hint v))) in
    let* n5 := enc u16_codec (Z.of_nat (data_size (pq_psk_context v))) in
    let* n6 := enc u16_codec (Z.of_nat (data_size (pq_opaque v))) in
    let* n7 := enc_data (pq_psk_hint v) in
    let* n8 := enc_data (pq_psk_context v) in
    let* n9 := enc_data (pq_opaque v) in
    ret (n1 + n2 + n3 + n4 + n5 + n6 + n7 + n8 + n9)%nat;
  spdm_read :=
    let* t := read SpdmMeasurementSummaryHashType_codec in
    if negb (summary_hash_type_ok context t) then throw tt else
    read u8_codec;;
    let* req_session_id := read u16_codec in
    let* hint_size := read_size MAX_SPDM_PSK_HINT_SIZE in
    let* context_size := read_size MAX_SPDM_PSK_CONTEXT_SIZE in
    let* opaque_size := read_size MAX_SPDM_OPAQUE_SIZE in
    let* hint := read_data hint_size MAX_SPDM_PSK_HINT_SIZE in
    let* psk_context := read_data context_size MAX_SPDM_PSK_CONTEXT_SIZE in
    let* opaque := read_data opaque_size MAX_SPDM_OPAQUE_SIZE in
    ret {| pq_measurement_summary_hash_type := t; pq_req_session_id := req_session_id;
           pq_psk_hint := hint; pq_psk_context := psk_context; pq_opaque := opaque |};
|}.

Definition psk_without_context : bool :=
  rsp_has context SpdmResponseCapabilityFlags.PSK_CAP_WITHOUT_CONTEXT.

(*@ spdmlib/src/message/psk_exchange.rs 157-273 SpdmPskExchangeResponsePayload as SpdmCodec *)
Definition SpdmPskExchangeResponsePayload_codec : SpdmCodec SpdmPskExchangeResponsePayload := {|
  spdm_encode v :=
    let* n1 := enc u8_codec (pp_heartbeat_period v) in
    let* n2 := enc u8_codec 0 in
    let* n3 := enc u16_codec (pp_rsp_session_id v) in
    let* n4 := enc u16_codec 0 in
    let* n5 := enc u16_codec
      (if psk_without_context then 0 else Z.of_nat (data_size (pp_psk_context v))) in
    let* n6 := enc u16_codec (Z.of_nat (data_size (pp_opaque v))) in
    let* n7 := spdm_encode (summary_hash_codec context) (pp_measurement_summary_hash v) in
    let* n8 := if negb psk_without_context then enc_data (pp_psk_context v) else ret 0%nat in
    let* n9 := enc_data (pp_opaque v) in
    let* n10 := spdm_encode (SpdmDigestStruct_codec context) (pp_verify_data v) in
    ret (n1 + n2 + n3 + n4 + n5 + n6 + n7 + n8 + n9 + n10)%nat;
  spdm_read :=
    let* heartbeat_period := read u8_codec in
    read u8_codec;;
    let* rsp_session_id := read u16_codec in
    read u16_codec;;
    let* size := read u16_codec in
    if (psk_without_context && negb (size =? 0)) || (negb psk_without_context && (size =? 0))
    then throw tt else
    if as_u16 (Z.of_nat MAX_SPDM_PSK_CONTEXT_SIZE) <? size then throw tt else
    let* opaque_size := read_size MAX_SPDM_OPAQUE_SIZE in
    let* summary := spdm_read (summary_hash_codec context) in
    let* psk_context := read_data (Z.to_nat size) MAX_SPDM_PSK_CONTEXT_SIZE in
    let* opaque := read_data opaque_size MAX_SPDM_OPAQUE_SIZE in
    let* verify_data := spdm_read (SpdmDigestStruct_codec context) in
    ret {| pp_heartbeat_period := heartbeat_period; pp_rsp_session_id := rsp_session_id;
           pp_measurement_summary_hash := summary; pp_psk_context := psk_context;
           pp_opaque := opaque; pp_verify_data := verify_data |};
|}.

(*@ spdmlib/src/message/psk_finish.rs 16-39 SpdmPskFinishRequestPayload as SpdmCodec *)
Definition SpdmPskFinishRequestPayload_codec : SpdmCodec SpdmPskFinishRequestPayload := {|
  spdm_encode v :=
    let* n1 := enc u8_codec 0 in
    let* n2 := enc u8_codec 0 in
    let* n3 := spdm_encode (SpdmDigestStruct_codec context) (pf_verify_data v) in
    ret (n1 + n2 + n3)%nat;
  spdm_read :=
    read u8_codec;; read u8_codec;;
    let* verify_data := spdm_read (SpdmDigestStruct_codec context) in
    ret {| pf_verify_data := verify_data |};
|}.

End MsgSession.

(** ** Properties *)

Ltac encoded :=
  eapply writes_eq;
  [spdm_writes_steps|by rewrite ?app_nil_r|rewrite ?length_app, ?length_le_bytes; simpl; lia].

Ltac parse_plain := eapply parser_bind; [apply parse_ok|].
Ltac parse_spdm := eapply parser_bind; [apply spdm_parse_ok|].
Ltac parse_guard H := apply parser_if; [intros; apply parser_throw|]; intros H%negb_false_iff.

Definition KeyUpdateRequest_wf (v : SpdmKeyUpdateRequestPayload) : Prop :=
  key_update_known (uq_key_update_operation v) = true ∧ is_u8 (uq_tag v).
Definition KeyUpdateRequest_wire (v : SpdmKeyUpdateRequestPayload) : bytes :=
  le_bytes 1 (SpdmKeyUpdateOperation_get_u8 (uq_key_update_operation v)) ++ le_bytes 1 (uq_tag v).
Definition KeyUpdateResponse_wf (v : SpdmKeyUpdateResponsePayload) : Prop :=
  key_update_known (up_key_update_operation v) = true ∧ is_u8 (up_tag v).
Definition KeyUpdateResponse_wire (v : SpdmKeyUpdateResponsePayload) : bytes :=
  le_bytes 1 (SpdmKeyUpdateOperation_get_u8 (up_key_update_operation v)) ++ le_bytes 1 (up_tag v).

Lemma key_update_known_wf op : key_update_known op = true → SpdmKeyUpdateOperation_wf op.
Proof. by destruct op. Qed.
#[local] Hint Resolve key_update_known_wf : codec.

#[export] Instance SpdmKeyUpdateRequestPayload_ok :
  SpdmCodecOk SpdmKeyUpdateRequestPayload_codec KeyUpdateRequest_wf KeyUpdateRequest_wire.
Proof.
  split; intros v [Ho Ht]; pose proof (key_update_known_wf _ Ho).
  - cbn [spdm_encode SpdmKeyUpdateRequestPayload_codec]. unfold KeyUpdateRequest_wire. encoded.
  - cbn [spdm_read SpdmKeyUpdateRequestPayload_codec]. eapply reads_eq.
    + spdm_reads_with (uq_key_update_operation v). spdm_reads_with (uq_tag v). rewrite Ho.
      apply reads_ret.
    + done.
    + by destruct v.
Qed.

#[export] Instance SpdmKeyUpdateRequestPayload_parse :
  SpdmParseOk SpdmKeyUpdateRequestPayload_codec KeyUpdateRequest_wf.
Proof.
  cbv [SpdmParseOk]. cbn [spdm_read SpdmKeyUpdateRequestPayload_codec].
  parse_plain; intros op Hop. parse_plain; intros t Ht. parse_guard Hk. by apply parser_ret.
Qed.

#[export] Instance SpdmKeyUpdateResponsePayload_ok :
  SpdmCodecOk SpdmKeyUpdateResponsePayload_codec KeyUpdateResponse_wf KeyUpdateResponse_wire.
Proof.
  split; intros v [Ho Ht]; pose proof (key_update_known_wf _ Ho).
  - cbn [spdm_encode SpdmKeyUpdateResponsePayload_codec]. unfold KeyUpdateResponse_wire. encoded.
  - cbn [spdm_read SpdmKeyUpdateResponsePayload_codec]. eapply reads_eq.
    + spdm_reads_with (up_key_update_operation v). spdm_reads_with (up_tag v). rewrite Ho.
      apply reads_ret.
    + done.
    + by destruct v.
Qed.

#[export] Instance SpdmKeyUpdateResponsePayload_parse :
  SpdmParseOk SpdmKeyUpdateResponsePayload_codec KeyUpdateResponse_wf.
Proof.
  cbv [SpdmParseOk]. cbn [spdm_read SpdmKeyUpdateResponsePayload_codec].
  parse_plain; intros op Hop. parse_plain; intros t Ht. parse_guard Hk. by apply parser_ret.
Qed.

#[export] Instance SpdmEndSessionRequestPayload_ok :
  SpdmCodecOk SpdmEndSessionRequestPayload_codec (λ v, flags_wf 8 1 (es_attributes v))
    (λ v, le_bytes 1 (es_attributes v) ++ [0]).
Proof.
  split; intros v Ha.
  - cbn [spdm_encode SpdmEndSessionRequestPayload_codec]. encoded.
  - cbn [spdm_read SpdmEndSessionRequestPayload_codec]. eapply reads_eq.
    + spdm_reads_with (es_attributes v). spdm_reads_with 0. apply reads_ret.
    + done.
    + by destruct v.
Qed.

#[export] Instance SpdmEndSessionRequestPayload_parse :
  SpdmParseOk SpdmEndSessionRequestPayload_codec (λ v, flags_wf 8 1 (es_attributes v)).
Proof.
  cbv [SpdmParseOk]. cbn [spdm_read SpdmEndSessionRequestPayload_codec].
  parse_plain; intros a Ha. parse_plain; intros ? _. by apply parser_ret.
Qed.

(** *** Errors *)

Lemma reads_up_to bs : Forall is_u8 bs → reads (read_up_to (length bs)) bs bs.
Proof.
  induction 1 as [|b bs Hb Hbs IH]; cbn [read_up_to length]; [apply reads_ret|].
  eapply reads_eq.
  - eapply (reads_bind _ _ _ _ (inr b)).
    + intros r tl Hr. unfold attempt. by rewrite (read_ok (c:=u8_codec) b Hb r tl).
    + cbv beta iota. eapply (reads_bind _ _ _ []); [exact IH|apply reads_ret].
  - rewrite app_nil_r. simpl. by rewrite as_uint_id.
  - done.
Qed.

Lemma parser_up_to n : parser (read_up_to n) (λ bs, (length bs ≤ n)%nat ∧ Forall is_u8 bs).
Proof.
  induction n as [|n IH]; cbn [read_up_to]; [apply parser_ret; auto|].
  apply (parser_bind _ _ (λ r, match r with inl _ => True | inr b => is_u8 b end)).
  { intros r Hr. destruct (parse_ok (c:=u8_codec) r Hr) as (k&o&Ho&Hk&Hp).
    unfold attempt. rewrite Ho. destruct o as [b|e|]; [| |done].
    - by exists k, (Ok (inr b)).
    - by exists k, (Ok (inl e)). }
  intros [e|b] Hb; [apply parser_ret; simpl; split; [lia|done]|].
  eapply parser_bind; [exact IH|]. intros l [Hl Hu]. apply parser_ret. simpl. split; [lia|auto].
Qed.

Definition NotReady_wf (d : SpdmErrorResponseNotReadyExtData) : Prop :=
  is_u8 (rdt_exponent d) ∧ is_u8 (nr_request_code d) ∧ is_u8 (nr_token d) ∧ is_u8 (rdtm d).
Definition NotReady_wire (d : SpdmErrorResponseNotReadyExtData) : bytes :=
  le_bytes 1 (rdt_exponent d) ++ le_bytes 1 (nr_request_code d) ++ le_bytes 1 (nr_token d)
  ++ le_bytes 1 (rdtm d).

#[export] Instance SpdmErrorResponseNotReadyExtData_ok :
  SpdmCodecOk SpdmErrorResponseNotReadyExtData_codec NotReady_wf NotReady_wire.
Proof.
  split; intros v (H1&H2&H3&H4).
  - cbn [spdm_encode SpdmErrorResponseNotReadyExtData_codec]. unfold NotReady_wire. encoded.
  - cbn [spdm_read SpdmErrorResponseNotReadyExtData_codec]. eapply reads_eq.
    + spdm_reads_with (rdt_exponent v). spdm_reads_with (nr_request_code v).
      spdm_reads_with (nr_token v). spdm_reads_with (rdtm v). apply reads_ret.
    + done.
    + by destruct v.
Qed.

#[export] Instance SpdmErrorResponseNotReadyExtData_parse :
  SpdmParseOk SpdmErrorResponseNotReadyExtData_codec NotReady_wf.
Proof.
  cbv [SpdmParseOk]. cbn [spdm_read SpdmErrorResponseNotReadyExtData_codec].
  do 4 (parse_plain; intros ? ?). by apply parser_ret.
Qed.

(** Vendor data shorter than 32 bytes has no end mark; it ends with the message. *)
#[export] Instance SpdmErrorResponseVendorExtData_ok :
  SpdmCodecOk SpdmErrorResponseVendorExtData_codec
    (λ v, data_size v = SPDM_ERROR_VENDOR_EXT_DATA_SIZE ∧ sized_wf SPDM_ERROR_VENDOR_EXT_DATA_SIZE v)
    sized_bytes.
Proof.
  split; intros v [Hs Hv]; pose proof Hv as (Hl&Hu&_).
  - pose proof (sized_bytes_u8 _ _ Hv) as Hb. unfold sized_bytes in Hb.
    pose proof (length_sized_bytes _ _ Hv) as Hlen. unfold sized_bytes in *.
    cbn [spdm_encode SpdmErrorResponseVendorExtData_codec].
    eapply writes_eq; [spdm_writes_steps|by rewrite app_nil_r|done].
  - assert (sized_bytes v = data v) as Hd by (unfold sized_bytes; apply take_ge; lia).
    rewrite Hd. cbn [spdm_read SpdmErrorResponseVendorExtData_codec]. eapply reads_eq.
    + eapply (reads_bind _ _ _ [] (data v)); [|apply reads_ret].
      rewrite <- Hl at 1. by apply reads_up_to.
    + by rewrite app_nil_r.
    + rewrite Hl, Nat.sub_diag, app_nil_r. by destruct v; simpl in *; subst.
Qed.

#[export] Instance SpdmErrorResponseVendorExtData_parse :
  SpdmParseOk SpdmErrorResponseVendorExtData_codec (sized_wf SPDM_ERROR_VENDOR_EXT_DATA_SIZE).
Proof.
  cbv [SpdmParseOk]. cbn [spdm_read SpdmErrorResponseVendorExtData_codec].
  eapply parser_bind; [apply parser_up_to|]. intros l [Hl Hu]. apply parser_ret.
  by apply array_wf_make.
Qed.

Definition error_ext_wf (code : SpdmErrorCode) (ext : SpdmErrorResponseExtData) : Prop :=
  match code, ext with
  | SpdmErrorResponseNotReady, SpdmErrorExtDataNotReady d => NotReady_wf d
  | SpdmErrorVendorDefined, SpdmErrorExtDataVendorDefined d =>
      data_size d = SPDM_ERROR_VENDOR_EXT_DATA_SIZE ∧ sized_wf SPDM_ERROR_VENDOR_EXT_DATA_SIZE d
  | SpdmErrorResponseNotReady, _ | SpdmErrorVendorDefined, _ => False
  | _, SpdmErrorExtDataNone => True
  | _, _ => False
  end.
Definition error_ext_wire (ext : SpdmErrorResponseExtData) : bytes :=
  match ext with
  | SpdmErrorExtDataNone => []
  | SpdmErrorExtDataNotReady d => NotReady_wire d
  | SpdmErrorExtDataVendorDefined d => sized_bytes d
  end.

Definition Error_wf (v : SpdmErrorResponsePayload) : Prop :=
  SpdmErrorCode_wf (er_error_code v) ∧ is_u8 (er_error_data v) ∧
  error_ext_wf (er_error_code v) (er_extended_data v).
Definition Error_wire (v : SpdmErrorResponsePayload) : bytes :=
  le_bytes 1 (SpdmErrorCode_get_u8 (er_error_code v)) ++ le_bytes 1 (er_error_data v)
  ++ error_ext_wire (er_extended_data v).

#[export] Instance SpdmErrorResponsePayload_ok :
  SpdmCodecOk SpdmErrorResponsePayload_codec Error_wf Error_wire.
Proof.
  split; intros v (Hc&Hd&He).
  - cbn [spdm_encode SpdmErrorResponsePayload_codec]. unfold Error_wire.
    destruct v as [code d ext]; cbn [er_error_code er_error_data er_extended_data] in *.
    assert (writes SPDM_STATUS_BUFFER_FULL
      match ext with
      | SpdmErrorExtDataNotReady d => spdm_encode SpdmErrorResponseNotReadyExtData_codec d
      | SpdmErrorExtDataVendorDefined d => spdm_encode SpdmErrorResponseVendorExtData_codec d
      | SpdmErrorExtDataNone => ret 0%nat
      end (error_ext_wire ext) (length (error_ext_wire ext))) as Hext.
    { destruct code, ext; try done; try apply writes_ret;
        cbn [error_ext_wire]; by apply spdm_encode_ok. }
    eapply writes_eq.
    + spdm_writes_steps.
    + by rewrite app_nil_r.
    + by rewrite !length_app, !length_le_bytes.
  - cbn [spdm_read SpdmErrorResponsePayload_codec]. unfold Error_wire.
    destruct v as [code d ext]; cbn [er_error_code er_error_data er_extended_data] in *.
    eapply reads_eq.
    + spdm_reads_with code. spdm_reads_with d.
      eapply (reads_bind _ _ (error_ext_wire ext) [] ext); [|apply reads_ret].
      destruct code, ext; try done; try apply reads_ret;
        (eapply reads_eq; [eapply (reads_bind _ _ _ []); [by apply spdm_read_ok|apply reads_ret]
                          |by rewrite app_nil_r|done]).
    + by rewrite app_nil_r.
    + done.
Qed.

#[export] Instance SpdmErrorResponsePayload_parse :
  SpdmParseOk SpdmErrorResponsePayload_codec
    (λ v, SpdmErrorCode_wf (er_error_code v) ∧ is_u8 (er_error_data v)).
Proof.
  cbv [SpdmParseOk]. cbn [spdm_read SpdmErrorResponsePayload_codec].
  parse_plain; intros code Hcode. parse_plain; intros d Hd.
  apply (parser_bind _ _ (λ _, True)); [|by intros ext _; apply parser_ret].
  destruct code; try (by apply parser_ret); (parse_spdm; intros; by apply parser_ret).
Qed.

(** *** Vendor defined messages *)

Lemma sized_codec_ok (c : Codec Z) w wire (max : nat) :
  CodecOk c (is_uint w) wire →
  CodecOk {| encode v :=
      let* n1 := encode c (Z.of_nat (data_size v)) in
      let* n2 := encode_bytes (take (data_size v) (data v)) in ret (n1 + n2)%nat;
    read :=
      let* len := read c in
      let* bs := read_array (Z.to_nat len) max in
      ret {| data_size := Z.to_nat len; data := bs |} |}
    (λ v, is_uint w (Z.of_nat (data_size v)) ∧ length (data v) = max ∧ Forall is_u8 (data v) ∧
          drop (data_size v) (data v) = replicate (max - data_size v) 0)
    (λ v, wire (Z.of_nat (data_size v)) ++ sized_bytes v).
Proof.
  assert (Hcap : ∀ n r, (max < n)%nat → read_array n max r = read_array max max r).
  { intros n r Hn. unfold read_array, read_into. rewrite length_replicate.
    by rewrite Nat.min_r, Nat.min_id by lia. }
  intros Hc. constructor; cbn [encode read].
  - intros v (Hs&Hl&Hu&Hd). assert (Forall is_u8 (take (data_size v) (data v))) by by apply Forall_take.
    eapply writes_eq; [writes_steps|by rewrite app_nil_r|]. by rewrite length_app.
  - intros v (Hs&Hl&Hu&Hd). eapply reads_eq.
    + reads_with (Z.of_nat (data_size v)). rewrite Nat2Z.id.
      eapply (reads_bind _ _ (sized_bytes v) [] (data v)); [|apply reads_ret].
      destruct (decide (max < data_size v)%nat) as [Hlt|Hge].
      * intros r tl Hr. rewrite Hcap by done. revert r tl Hr. unfold sized_bytes.
        replace (take (data_size v) (data v)) with (take max (data v))
          by (rewrite !take_ge by lia; done).
        apply reads_read_array. split_and!; [done|done|lia|].
        rewrite drop_ge by lia. by rewrite Nat.sub_diag.
      * apply reads_read_array. split_and!; [done|done|lia|done].
    + by rewrite app_nil_r.
    + by destruct v.
  - eapply parser_bind; [apply parse_ok|]. intros len Hlen.
    destruct (decide (max < Z.to_nat len)%nat) as [Hlt|Hge].
    + eapply (parser_bind _ _ (array_wf max max)).
      { intros r Hr. rewrite Hcap by done. by apply parser_read_array. }
      intros bs (Hl&Hu&_). apply parser_ret. simpl. rewrite Z2Nat.id by (destruct Hlen; lia).
      split_and!; [done|done|done|]. rewrite drop_ge by lia.
      by replace (max - Z.to_nat len)%nat with 0%nat by lia.
    + eapply parser_bind; [apply parser_read_array; lia|].
      intros bs (Hl&Hu&_&Hd). apply parser_ret. simpl. rewrite Z2Nat.id by (destruct Hlen; lia).
      done.
Qed.

(** A sized array whose length field may exceed its capacity. *)
Definition loose_wf (w : Z) (max : nat) (v : sized) : Prop :=
  is_uint w (Z.of_nat (data_size v)) ∧ length (data v) = max ∧ Forall is_u8 (data v) ∧
  drop (data_size v) (data v) = replicate (max - data_size v) 0.

#[export] Instance VendorIDStruct_ok :
  CodecOk VendorIDStruct_codec (loose_wf 8 MAX_SPDM_VENDOR_DEFINED_VENDOR_ID_LEN)
    (λ v, le_bytes 1 (Z.of_nat (data_size v)) ++ sized_bytes v).
Proof. apply (sized_codec_ok u8_codec), _. Qed.

Section SessionMsgProofs.
Context `{cfg : Config} `{sec : Secret} `{dev : SpdmDeviceIo}.

#[export] Instance VendorDefinedReqPayloadStruct_ok :
  CodecOk VendorDefinedReqPayloadStruct_codec (loose_wf 16 MAX_SPDM_VENDOR_DEFINED_PAYLOAD_SIZE)
    (λ v, le_bytes 2 (Z.of_nat (data_size v)) ++ sized_bytes v).
Proof. apply (sized_codec_ok u16_codec), _. Qed.

Definition VendorRequest_wf (v : SpdmVendorDefinedRequestPayload) : Prop :=
  RegistryOrStandardsBodyID_wf (vq_standard_id v) ∧
  loose_wf 8 MAX_SPDM_VENDOR_DEFINED_VENDOR_ID_LEN (vq_vendor_id v) ∧
  loose_wf 16 MAX_SPDM_VENDOR_DEFINED_PAYLOAD_SIZE (vq_req_payload v).
Definition VendorRequest_wire (v : SpdmVendorDefinedRequestPayload) : bytes :=
  [0; 0] ++ le_bytes 2 (RegistryOrStandardsBodyID_get_u16 (vq_standard_id v))
  ++ (le_bytes 1 (Z.of_nat (data_size (vq_vendor_id v))) ++ sized_bytes (vq_vendor_id v))
  ++ (le_bytes 2 (Z.of_nat (data_size (vq_req_payload v))) ++ sized_bytes (vq_req_payload v)).

#[export] Instance SpdmVendorDefinedRequestPayload_ok :
  SpdmCodecOk SpdmVendorDefinedRequestPayload_codec VendorRequest_wf VendorRequest_wire.
Proof.
  split; intros v (Hi&Hv&Hp).
  - cbn [spdm_encode SpdmVendorDefinedRequestPayload_codec]. unfold VendorRequest_wire. encoded.
  - cbn [spdm_read SpdmVendorDefinedRequestPayload_codec]. unfold VendorRequest_wire.
    eapply reads_eq.
    + spdm_reads_with 0. spdm_reads_with 0. spdm_reads_with (vq_standard_id v).
      spdm_reads_with (vq_vendor_id v). spdm_reads_with (vq_req_payload v). apply reads_ret.
    + by rewrite app_nil_r.
    + by destruct v.
Qed.

#[export] Instance SpdmVendorDefinedRequestPayload_parse :
  SpdmParseOk SpdmVendorDefinedRequestPayload_codec VendorRequest_wf.
Proof.
  cbv [SpdmParseOk]. cbn [spdm_read SpdmVendorDefinedRequestPayload_codec].
  do 5 (parse_plain; intros ? ?). by apply parser_ret.
Qed.

Definition VendorResponse_wf (v : SpdmVendorDefinedResponsePayload) : Prop :=
  RegistryOrStandardsBodyID_wf (vp_standard_id v) ∧
  loose_wf 8 MAX_SPDM_VENDOR_DEFINED_VENDOR_ID_LEN (vp_vendor_id v) ∧
  loose_wf 16 MAX_SPDM_VENDOR_DEFINED_PAYLOAD_SIZE (vp_rsp_payload v).
Definition VendorResponse_wire (v : SpdmVendorDefinedResponsePayload) : bytes :=
  [0; 0] ++ le_bytes 2 (RegistryOrStandardsBodyID_get_u16 (vp_standard_id v))
  ++ (le_bytes 1 (Z.of_nat (data_size (vp_vendor_id v))) ++ sized_bytes (vp_vendor_id v))
  ++ (le_bytes 2 (Z.of_nat (data_size (vp_rsp_payload v))) ++ sized_bytes (vp_rsp_payload v)).

#[export] Instance SpdmVendorDefinedResponsePayload_ok :
  SpdmCodecOk SpdmVendorDefinedResponsePayload_codec VendorResponse_wf VendorResponse_wire.
Proof.
  split; intros v (Hi&Hv&Hp).
  - cbn [spdm_encode SpdmVendorDefinedResponsePayload_codec]. unfold VendorResponse_wire,
      VendorDefinedRspPayloadStruct_codec. encoded.
  - cbn [spdm_read SpdmVendorDefinedResponsePayload_codec]. unfold VendorResponse_wire,
      VendorDefinedRspPayloadStruct_codec.
    eapply reads_eq.
    + spdm_reads_with 0. spdm_reads_with 0. spdm_reads_with (vp_standard_id v).
      spdm_reads_with (vp_vendor_id v). spdm_reads_with (vp_rsp_payload v). apply reads_ret.
    + by rewrite app_nil_r.
    + by destruct v.
Qed.

Context (context : SpdmContext).

(** *** Key exchange *)

Definition KeyExchange_wf (v : SpdmKeyExchangeRequestPayload) : Prop :=
  SpdmMeasurementSummaryHashType_wf (kq_measurement_summary_hash_type v) ∧
  summary_hash_type_ok context (kq_measurement_summary_hash_type v) = true ∧
  is_u8 (kq_slot_id v) ∧ is_u16 (kq_req_session_id v) ∧ is_u8 (kq_session_policy v) ∧
  array_wf SPDM_RANDOM_SIZE SPDM_RANDOM_SIZE (kq_random v) ∧
  Dhe_wf context (kq_exchange v) ∧ Opaque_wf (kq_opaque v).

(** Before version 1.2 the policy is a reserved byte, written as zero. *)
Definition KeyExchange_writable (v : SpdmKeyExchangeRequestPayload) : Prop :=
  KeyExchange_wf v ∧ (sel_ge12 context = false → kq_session_policy v = 0).

Definition KeyExchange_wire (v : SpdmKeyExchangeRequestPayload) : bytes :=
  le_bytes 1 (SpdmMeasurementSummaryHashType_get_u8 (kq_measurement_summary_hash_type v))
  ++ le_bytes 1 (kq_slot_id v) ++ le_bytes 2 (kq_req_session_id v)
  ++ le_bytes 1 (kq_session_policy v) ++ [0] ++ kq_random v ++ sized_bytes (kq_exchange v)
  ++ Opaque_wire (kq_opaque v).

#[export] Instance SpdmKeyExchangeRequestPayload_ok :
  SpdmCodecOk (SpdmKeyExchangeRequestPayload_codec context) KeyExchange_writable KeyExchange_wire.
Proof.
  split; intros v ((Ht&Hok&Hs&Hi&Hp&Hr&Hx&Ho)&Hpol).
  - cbn [spdm_encode SpdmKeyExchangeRequestPayload_codec]. unfold KeyExchange_wire.
    assert ((if sel_ge12 context then kq_session_policy v else 0) = kq_session_policy v) as ->.
    { destruct (sel_ge12 context); [done|]. by rewrite Hpol. }
    encoded.
  - cbn [spdm_read SpdmKeyExchangeRequestPayload_codec]. unfold KeyExchange_wire. eapply reads_eq.
    + spdm_reads_with (kq_measurement_summary_hash_type v). rewrite Hok. cbn [negb].
      spdm_reads_with (kq_slot_id v). spdm_reads_with (kq_req_session_id v).
      spdm_reads_with (kq_session_policy v). spdm_reads_with 0. spdm_reads_with (kq_random v).
      spdm_reads_with (kq_exchange v). spdm_reads_with (kq_opaque v). apply reads_ret.
    + by rewrite app_nil_r.
    + by destruct v.
Qed.

#[export] Instance SpdmKeyExchangeRequestPayload_parse `{!DheSelected context} :
  SpdmParseOk (SpdmKeyExchangeRequestPayload_codec context) KeyExchange_wf.
Proof.
  cbv [SpdmParseOk]. cbn [spdm_read SpdmKeyExchangeRequestPayload_codec].
  parse_plain; intros t Ht. parse_guard Hok. do 5 (parse_plain; intros ? ?).
  parse_spdm; intros x Hx. parse_spdm; intros o Ho. by apply parser_ret.
Qed.

#[local] Instance mut_auth_attributes_ok :
  CodecOk SpdmKeyExchangeMutAuthAttributes.codec (flags_wf 8 7) (le_bytes 1).
Proof. apply (strict_flags_codec_ok 7). Qed.
#[local] Instance finish_attributes_ok :
  CodecOk SpdmFinishRequestAttributes.codec (flags_wf 8 1) (le_bytes 1).
Proof. apply (strict_flags_codec_ok 1). Qed.

Definition verify_wf (present : bool) (v : SpdmDigestStruct) : Prop :=
  if present then Digest_wf context v else v = SpdmDigestStruct_default.
Definition verify_wire (present : bool) (v : SpdmDigestStruct) : bytes :=
  if present then sized_bytes v else [].

#[local] Instance kp_verify_data_ok :
  SpdmCodecOk (kp_verify_data_codec context) (verify_wf (negb (in_clear_text context)))
    (verify_wire (negb (in_clear_text context))).
Proof. apply opt_codec_ok, _. Qed.
#[local] Instance fp_verify_data_ok :
  SpdmCodecOk (fp_verify_data_codec context) (verify_wf (in_clear_text context))
    (verify_wire (in_clear_text context)).
Proof. apply opt_codec_ok, _. Qed.
#[local] Instance kp_verify_data_parse `{!HashSelected context} :
  SpdmParseOk (kp_verify_data_codec context) (verify_wf (negb (in_clear_text context))).
Proof. apply opt_codec_parse, _. Qed.
#[local] Instance fp_verify_data_parse `{!HashSelected context} :
  SpdmParseOk (fp_verify_data_codec context) (verify_wf (in_clear_text context)).
Proof. apply opt_codec_parse, _. Qed.

Definition KeyExchangeRsp_wf (v : SpdmKeyExchangeResponsePayload) : Prop :=
  is_u8 (kp_heartbeat_period v) ∧ is_u16 (kp_rsp_session_id v) ∧
  flags_wf 8 7 (kp_mut_auth_req v) ∧ mut_auth_req_ok (kp_mut_auth_req v) = true ∧
  is_u8 (kp_req_slot_id v) ∧ array_wf SPDM_RANDOM_SIZE SPDM_RANDOM_SIZE (kp_random v) ∧
  Dhe_wf context (kp_exchange v) ∧ summary_wf context (kp_measurement_summary_hash v) ∧
  Opaque_wf (kp_opaque v) ∧ Signature_wf context (kp_signature v) ∧
  verify_wf (negb (in_clear_text context)) (kp_verify_data v).

Definition KeyExchangeRsp_wire (v : SpdmKeyExchangeResponsePayload) : bytes :=
  le_bytes 1 (kp_heartbeat_period v) ++ [0] ++ le_bytes 2 (kp_rsp_session_id v)
  ++ le_bytes 1 (kp_mut_auth_req v) ++ le_bytes 1 (kp_req_slot_id v) ++ kp_random v
  ++ sized_bytes (kp_exchange v) ++ summary_wire context (kp_measurement_summary_hash v)
  ++ Opaque_wire (kp_opaque v) ++ sized_bytes (kp_signature v)
  ++ verify_wire (negb (in_clear_text context)) (kp_verify_data v).

#[export] Instance SpdmKeyExchangeResponsePayload_ok :
  SpdmCodecOk (SpdmKeyExchangeResponsePayload_codec context)
    KeyExchangeRsp_wf KeyExchangeRsp_wire.
Proof.
  split; intros v (Hh&Hi&Hm&Hm'&Hs&Hr&Hx&Hsum&Ho&Hsig&Hv).
  - cbn [spdm_encode SpdmKeyExchangeResponsePayload_codec]. unfold KeyExchangeRsp_wire. encoded.
  - cbn [spdm_read SpdmKeyExchangeResponsePayload_codec]. unfold KeyExchangeRsp_wire.
    eapply reads_eq.
    + spdm_reads_with (kp_heartbeat_period v). spdm_reads_with 0.
      spdm_reads_with (kp_rsp_session_id v). spdm_reads_with (kp_mut_auth_req v).
      spdm_reads_with (kp_req_slot_id v). rewrite Hm'. cbn [negb].
      spdm_reads_with (kp_random v). spdm_reads_with (kp_exchange v).
      spdm_reads_with (kp_measurement_summary_hash v). spdm_reads_with (kp_opaque v).
      spdm_reads_with (kp_signature v). spdm_reads_with (kp_verify_data v). apply reads_ret.
    + by rewrite app_nil_r.
    + by destruct v.
Qed.

#[export] Instance SpdmKeyExchangeResponsePayload_parse
    `{!DheSelected context} `{!HashSelected context} `{!AsymSelected context} :
  SpdmParseOk (SpdmKeyExchangeResponsePayload_codec context) KeyExchangeRsp_wf.
Proof.
  cbv [SpdmParseOk]. cbn [spdm_read SpdmKeyExchangeResponsePayload_codec].
  do 5 (parse_plain; intros ? ?). parse_guard Hok. parse_plain; intros ? ?.
  do 5 (parse_spdm; intros ? ?). by apply parser_ret.
Qed.

(** *** Finish *)

Definition finish_signature_wf (attributes : Z) (v : SpdmSignatureStruct) : Prop :=
  if contains attributes SpdmFinishRequestAttributes.SIGNATURE_INCLUDED
  then Signature_wf context v else v = SpdmSignatureStruct_default.
Definition finish_signature_wire (attributes : Z) (v : SpdmSignatureStruct) : bytes :=
  if contains attributes SpdmFinishRequestAttributes.SIGNATURE_INCLUDED then sized_bytes v else [].

#[local] Instance finish_signature_ok attributes :
  SpdmCodecOk (finish_signature_codec context attributes) (finish_signature_wf attributes)
    (finish_signature_wire attributes).
Proof. apply opt_codec_ok, _. Qed.
#[local] Instance finish_signature_parse `{!AsymSelected context} attributes :
  SpdmParseOk (finish_signature_codec context attributes) (finish_signature_wf attributes).
Proof. apply opt_codec_parse, _. Qed.

Definition Finish_wf (v : SpdmFinishRequestPayload) : Prop :=
  flags_wf 8 1 (fq_finish_request_attributes v) ∧ is_u8 (fq_req_slot_id v) ∧
  finish_signature_wf (fq_finish_request_attributes v) (fq_signature v) ∧
  Digest_wf context (fq_verify_data v).
Definition Finish_wire (v : SpdmFinishRequestPayload) : bytes :=
  le_bytes 1 (fq_finish_request_attributes v) ++ le_bytes 1 (fq_req_slot_id v)
  ++ finish_signature_wire (fq_finish_request_attributes v) (fq_signature v)
  ++ sized_bytes (fq_verify_data v).

#[export] Instance SpdmFinishRequestPayload_ok :
  SpdmCodecOk (SpdmFinishRequestPayload_codec context) Finish_wf Finish_wire.
Proof.
  split; intros v (Ha&Hs&Hsig&Hv).
  - cbn [spdm_encode SpdmFinishRequestPayload_codec]. unfold Finish_wire. encoded.
  - cbn [spdm_read SpdmFinishRequestPayload_codec]. unfold Finish_wire. eapply reads_eq.
    + spdm_reads_with (fq_finish_request_attributes v). spdm_reads_with (fq_req_slot_id v).
      spdm_reads_with (fq_signature v). spdm_reads_with (fq_verify_data v). apply reads_ret.
    + by rewrite app_nil_r.
    + by destruct v.
Qed.

#[export] Instance SpdmFinishRequestPayload_parse
    `{!HashSelected context} `{!AsymSelected context} :
  SpdmParseOk (SpdmFinishRequestPayload_codec context) Finish_wf.
Proof.
  cbv [SpdmParseOk]. cbn [spdm_read SpdmFinishRequestPayload_codec].
  do 2 (parse_plain; intros ? ?). do 2 (parse_spdm; intros ? ?). by apply parser_ret.
Qed.

#[export] Instance SpdmFinishResponsePayload_ok :
  SpdmCodecOk (SpdmFinishResponsePayload_codec context)
    (λ v, verify_wf (in_clear_text context) (fp_verify_data v))
    (λ v, [0; 0] ++ verify_wire (in_clear_text context) (fp_verify_data v)).
Proof.
  split; intros v Hv.
  - cbn [spdm_encode SpdmFinishResponsePayload_codec]. encoded.
  - cbn [spdm_read SpdmFinishResponsePayload_codec]. eapply reads_eq.
    + spdm_reads_with 0. spdm_reads_with 0. spdm_reads_with (fp_verify_data v). apply reads_ret.
    + by rewrite app_nil_r.
    + by destruct v.
Qed.

#[export] Instance SpdmFinishResponsePayload_parse `{!HashSelected context} :
  SpdmParseOk (SpdmFinishResponsePayload_codec context)
    (λ v, verify_wf (in_clear_text context) (fp_verify_data v)).
Proof.
  cbv [SpdmParseOk]. cbn [spdm_read SpdmFinishResponsePayload_codec].
  do 2 (parse_plain; intros ? ?). parse_spdm; intros ? ?. by apply parser_ret.
Qed.

#[export] Instance SpdmPskFinishRequestPayload_ok :
  SpdmCodecOk (SpdmPskFinishRequestPayload_codec context)
    (λ v, Digest_wf context (pf_verify_data v)) (λ v, [0; 0] ++ sized_bytes (pf_verify_data v)).
Proof.
  split; intros v Hv.
  - cbn [spdm_encode SpdmPskFinishRequestPayload_codec]. encoded.
  - cbn [spdm_read SpdmPskFinishRequestPayload_codec]. eapply reads_eq.
    + spdm_reads_with 0. spdm_reads_with 0. spdm_reads_with (pf_verify_data v). apply reads_ret.
    + by rewrite app_nil_r.
    + by destruct v.
Qed.

#[export] Instance SpdmPskFinishRequestPayload_parse `{!HashSelected context} :
  SpdmParseOk (SpdmPskFinishRequestPayload_codec context)
    (λ v, Digest_wf context (pf_verify_data v)).
Proof.
  cbv [SpdmParseOk]. cbn [spdm_read SpdmPskFinishRequestPayload_codec].
  do 2 (parse_plain; intros ? ?). parse_spdm; intros ? ?. by apply parser_ret.
Qed.

(** *** Pre-shared keys *)

Lemma reads_read_size n max :
  Z.of_nat max ≤ 0xFFFF → (n ≤ max)%nat →
  reads (read_size max) (le_bytes 2 (Z.of_nat n)) n.
Proof.
  intros Hm Hn. unfold read_size. assert (is_u16 (Z.of_nat n)) by (split; lia).
  eapply reads_eq.
  - spdm_reads_with (Z.of_nat n). rewrite as_uint_id by (split; lia).
    rewrite (proj2 (Z.ltb_ge _ _)) by lia. rewrite Nat2Z.id. apply reads_ret.
  - by rewrite app_nil_r.
  - done.
Qed.

Lemma parser_read_size max : Z.of_nat max ≤ 0xFFFF → parser (read_size max) (λ n, (n ≤ max)%nat).
Proof.
  intros Hm. unfold read_size. parse_plain; intros n Hn.
  apply parser_if; [intros; apply parser_throw|]. rewrite as_uint_id by (split; lia).
  intros Hle%Z.ltb_ge. apply parser_ret. destruct Hn. lia.
Qed.

Lemma reads_read_data n max v :
  data_size v = n → sized_wf max v → reads (read_data n max) (sized_bytes v) v.
Proof.
  intros <- Hv. unfold read_data. eapply reads_eq.
  - eapply (reads_bind _ _ _ [] (data v)); [by apply reads_read_array|apply reads_ret].
  - by rewrite app_nil_r.
  - by destruct v.
Qed.

Lemma parser_read_data n max :
  (n ≤ max)%nat → parser (read_data n max) (λ v, data_size v = n ∧ sized_wf max v).
Proof.
  intros Hn. unfold read_data. eapply parser_bind; [by apply parser_read_array|].
  intros bs Hbs. by apply parser_ret.
Qed.

Lemma writes_enc_data max v :
  sized_wf max v →
  writes SPDM_STATUS_BUFFER_FULL (enc_data v) (sized_bytes v) (length (sized_bytes v)).
Proof. intros Hv. apply writes_enc_bytes. by apply (sized_bytes_u8 max). Qed.

#[local] Hint Resolve reads_read_size reads_read_data writes_enc_data : codec.

Lemma size_u16 max v : sized_wf max v → Z.of_nat max ≤ 0xFFFF → is_u16 (Z.of_nat (data_size v)).
Proof. intros (_&_&Hn&_) Hm. split; lia. Qed.

Definition PskExchange_wf (v : SpdmPskExchangeRequestPayload) : Prop :=
  SpdmMeasurementSummaryHashType_wf (pq_measurement_summary_hash_type v) ∧
  summary_hash_type_ok context (pq_measurement_summary_hash_type v) = true ∧
  is_u16 (pq_req_session_id v) ∧ sized_wf MAX_SPDM_PSK_HINT_SIZE (pq_psk_hint v) ∧
  sized_wf MAX_SPDM_PSK_CONTEXT_SIZE (pq_psk_context v) ∧
  sized_wf MAX_SPDM_OPAQUE_SIZE (pq_opaque v).

Definition PskExchange_wire (v : SpdmPskExchangeRequestPayload) : bytes :=
  le_bytes 1 (SpdmMeasurementSummaryHashType_get_u8 (pq_measurement_summary_hash_type v))
  ++ [0] ++ le_bytes 2 (pq_req_session_id v)
  ++ le_bytes 2 (Z.of_nat (data_size (pq_psk_hint v)))
  ++ le_bytes 2 (Z.of_nat (data_size (pq_psk_context v)))
  ++ le_bytes 2 (Z.of_nat (data_size (pq_opaque v)))
  ++ sized_bytes (pq_psk_hint v) ++ sized_bytes (pq_psk_context v) ++ sized_bytes (pq_opaque v).

#[export] Instance SpdmPskExchangeRequestPayload_ok `{!ConfigValid} :
  SpdmCodecOk (SpdmPskExchangeRequestPayload_codec context) PskExchange_wf PskExchange_wire.
Proof.
  destruct psk_sizes_u16 as [Hpc Hph].
  split; intros v (Ht&Hok&Hi&Hh&Hc&Ho);
    pose proof (size_u16 _ _ Hh Hph); pose proof (size_u16 _ _ Hc Hpc);
    assert (is_u16 (Z.of_nat (data_size (pq_opaque v)))) by (by eapply size_u16; [exact Ho|]);
    pose proof Hh as (_&_&Hhn&_); pose proof Hc as (_&_&Hcn&_); pose proof Ho as (_&_&Hon&_).
  - cbn [spdm_encode SpdmPskExchangeRequestPayload_codec]. unfold PskExchange_wire. encoded.
  - cbn [spdm_read SpdmPskExchangeRequestPayload_codec]. unfold PskExchange_wire. eapply reads_eq.
    + spdm_reads_with (pq_measurement_summary_hash_type v). rewrite Hok. cbn [negb].
      spdm_reads_with 0. spdm_reads_with (pq_req_session_id v).
      eapply (reads_bind _ _ _ _ (data_size (pq_psk_hint v))); [by apply reads_read_size|].
      eapply (reads_bind _ _ _ _ (data_size (pq_psk_context v))); [by apply reads_read_size|].
      eapply (reads_bind _ _ _ _ (data_size (pq_opaque v))); [by apply reads_read_size|].
      spdm_reads_with (pq_psk_hint v). spdm_reads_with (pq_psk_context v).
      spdm_reads_with (pq_opaque v). apply reads_ret.
    + by rewrite app_nil_r.
    + by destruct v.
Qed.

#[export] Instance SpdmPskExchangeRequestPayload_parse `{!ConfigValid} :
  SpdmParseOk (SpdmPskExchangeRequestPayload_codec context) PskExchange_wf.
Proof.
  destruct psk_sizes_u16 as [Hpc Hph].
  cbv [SpdmParseOk]. cbn [spdm_read SpdmPskExchangeRequestPayload_codec].
  parse_plain; intros t Ht. parse_guard Hok. do 2 (parse_plain; intros ? ?).
  eapply parser_bind; [by apply parser_read_size|]. intros n1 Hn1.
  eapply parser_bind; [by apply parser_read_size|]. intros n2 Hn2.
  eapply parser_bind; [by apply parser_read_size|]. intros n3 Hn3.
  eapply parser_bind; [by apply parser_read_data|]. intros v1 [_ Hv1].
  eapply parser_bind; [by apply parser_read_data|]. intros v2 [_ Hv2].
  eapply parser_bind; [by apply parser_read_data|]. intros v3 [_ Hv3]. by apply parser_ret.
Qed.

(** A responder without context sends none; one with context sends some. *)
Definition psk_context_wf (v : SpdmPskContextStruct) : Prop :=
  sized_wf MAX_SPDM_PSK_CONTEXT_SIZE v ∧
  (if psk_without_context context then data_size v = 0%nat else data_size v ≠ 0%nat).

Definition PskExchangeRsp_wf (v : SpdmPskExchangeResponsePayload) : Prop :=
  is_u8 (pp_heartbeat_period v) ∧ is_u16 (pp_rsp_session_id v) ∧
  summary_wf context (pp_measurement_summary_hash v) ∧ psk_context_wf (pp_psk_context v) ∧
  sized_wf MAX_SPDM_OPAQUE_SIZE (pp_opaque v) ∧ Digest_wf context (pp_verify_data v).

Definition PskExchangeRsp_wire (v : SpdmPskExchangeResponsePayload) : bytes :=
  le_bytes 1 (pp_heartbeat_period v) ++ [0] ++ le_bytes 2 (pp_rsp_session_id v) ++ [0; 0]
  ++ le_bytes 2 (Z.of_nat (data_size (pp_psk_context v)))
  ++ le_bytes 2 (Z.of_nat (data_size (pp_opaque v)))
  ++ summary_wire context (pp_measurement_summary_hash v)
  ++ sized_bytes (pp_psk_context v) ++ sized_bytes (pp_opaque v)
  ++ sized_bytes (pp_verify_data v).

Lemma writes_psk_context v :
  psk_context_wf v →
  (if psk_without_context context then 0 else Z.of_nat (data_size v)) = Z.of_nat (data_size v) ∧
  writes SPDM_STATUS_BUFFER_FULL
    (if negb (psk_without_context context) then enc_data v else ret 0%nat)
    (sized_bytes v) (length (sized_bytes v)).
Proof.
  intros [Hv Hc]. destruct (psk_without_context context); simpl in *.
  - rewrite Hc. split; [done|]. unfold sized_bytes. rewrite Hc. apply writes_ret.
  - split; [done|]. by eapply writes_enc_data.
Qed.

Lemma psk_context_guard v :
  psk_context_wf v → Z.of_nat MAX_SPDM_PSK_CONTEXT_SIZE ≤ 0xFFFF →
  let n := Z.of_nat (data_size v) in
  (psk_without_context context && negb (n =? 0)) || (negb (psk_without_context context) && (n =? 0))
  = false ∧ (as_u16 (Z.of_nat MAX_SPDM_PSK_CONTEXT_SIZE) <? n) = false.
Proof.
  intros [(_&_&Hn&_) Hc] Hm. cbv zeta. rewrite as_uint_id by (split; lia).
  rewrite Z.ltb_ge. split; [|lia].
  destruct (psk_without_context context); simpl in *.
  - by rewrite Hc.
  - apply Z.eqb_neq. lia.
Qed.

#[export] Instance SpdmPskExchangeResponsePayload_ok `{!ConfigValid} :
  SpdmCodecOk (SpdmPskExchangeResponsePayload_codec context)
    PskExchangeRsp_wf PskExchangeRsp_wire.
Proof.
  destruct psk_sizes_u16 as [Hpc _].
  split; intros v (Hh&Hi&Hs&Hc&Ho&Hv);
    destruct (writes_psk_context _ Hc) as [Hsz Hw];
    destruct (psk_context_guard _ Hc Hpc) as [Hg1 Hg2];
    pose proof (size_u16 _ _ (proj1 Hc) Hpc);
    assert (is_u16 (Z.of_nat (data_size (pp_opaque v)))) by (by eapply size_u16; [exact Ho|]);
    pose proof (proj1 Hc) as (_&_&Hcn&_); pose proof Ho as (_&_&Hon&_).
  - cbn [spdm_encode SpdmPskExchangeResponsePayload_codec]. unfold PskExchangeRsp_wire.
    rewrite Hsz. encoded.
  - cbn [spdm_read SpdmPskExchangeResponsePayload_codec]. unfold PskExchangeRsp_wire.
    eapply reads_eq.
    + spdm_reads_with (pp_heartbeat_period v). spdm_reads_with 0.
      spdm_reads_with (pp_rsp_session_id v). spdm_reads_with 0.
      spdm_reads_with (Z.of_nat (data_size (pp_psk_context v))). rewrite Hg1, Hg2, Nat2Z.id.
      eapply (reads_bind _ _ _ _ (data_size (pp_opaque v))); [by apply reads_read_size|].
      spdm_reads_with (pp_measurement_summary_hash v).
      eapply (reads_bind _ _ _ _ (pp_psk_context v)); [by apply reads_read_data; [|apply Hc]|].
      spdm_reads_with (pp_opaque v). spdm_reads_with (pp_verify_data v). apply reads_ret.
    + by rewrite app_nil_r.
    + by destruct v.
Qed.

#[export] Instance SpdmPskExchangeResponsePayload_parse
    `{!ConfigValid} `{!HashSelected context} :
  SpdmParseOk (SpdmPskExchangeResponsePayload_codec context) PskExchangeRsp_wf.
Proof.
  destruct psk_sizes_u16 as [Hpc _].
  cbv [SpdmParseOk]. cbn [spdm_read SpdmPskExchangeResponsePayload_codec].
  do 4 (parse_plain; intros ? ?). parse_plain; intros n Hn.
  apply parser_if; [intros; apply parser_throw|]. intros Hg.
  apply parser_if; [intros; apply parser_throw|]. rewrite as_uint_id by (split; lia).
  intros Hle%Z.ltb_ge.
  eapply parser_bind; [by apply parser_read_size|]. intros n3 Hn3.
  parse_spdm; intros s Hs.
  eapply parser_bind; [apply parser_read_data; lia|]. intros c [Hc Hwf].
  eapply parser_bind; [by apply parser_read_data|]. intros o [_ Ho].
  parse_spdm; intros vd Hvd. apply parser_ret. split_and!; try done. split; [done|].
  cbn [pp_psk_context]. rewrite Hc. destruct Hn.
  destruct (psk_without_context context); simpl in Hg.
  - rewrite orb_false_r in Hg. apply negb_false_iff, Z.eqb_eq in Hg. lia.
  - apply Z.eqb_neq in Hg. lia.
Qed.

End SessionMsgProofs.
