(* ===== verification/Message.v ===== *)
(** Model of spdmlib/src/message/mod.rs: the message header and the messages as one type,
    with the dispatch of the reader on the code of the header. *)

From S2P Require Import Prelude Config Codec Status Algo Protocol Crypto SpdmRing ToyRing KeySchedule Buffers Session Context ToyContext SpdmCodec Opaque MsgNegotiate MsgAuth MsgSession.

(*@ spdmlib/src/message/mod.rs 108-111 SpdmMessageHeader *)
Record SpdmMessageHeader := {
  hd_version : SpdmVersion;
  hd_request_response_code : SpdmRequestResponseCode;
}.

(*@ spdmlib/src/message/mod.rs 113-129 SpdmMessageHeader as Codec *)
Definition SpdmMessageHeader_codec : Codec SpdmMessageHeader := {|
  encode v :=
    let* n1 := encode SpdmVersion_codec (hd_version v) in
    let* n2 := encode SpdmRequestResponseCode_codec (hd_request_response_code v) in
    ret (n1 + n2)%nat;
  read :=
    let* version := read SpdmVersion_codec in
    let* code := read SpdmRequestResponseCode_codec in
    ret {| hd_version := version; hd_request_response_code := code |};
|}.

(*@ spdmlib/src/message/mod.rs 132-136 SpdmMessageGeneralPayload *)
Record SpdmMessageGeneralPayload := { gp_param1 : Z; gp_param2 : Z }.

(*@ spdmlib/src/message/mod.rs 138-151 SpdmMessageGeneralPayload as Codec *)
Definition SpdmMessageGeneralPayload_codec : Codec SpdmMessageGeneralPayload := {|
  encode v :=
    let* n1 := encode u8_codec (gp_param1 v) in
    let* n2 := encode u8_codec (gp_param2 v) in
    ret (n1 + n2)%nat;
  read :=
    let* p1 := read u8_codec in
    let* p2 := read u8_codec in
    ret {| gp_param1 := p1; gp_param2 := p2 |};
|}.

(** As a payload of a message its parameters are written as zero. *)
(*@ spdmlib/src/message/mod.rs 153-170 SpdmMessageGeneralPayload as SpdmCodec *)
Definition SpdmMessageGeneralPayload_spdm_codec : SpdmCodec SpdmMessageGeneralPayload := {|
  spdm_encode _ := enc u8_codec 0;; enc u8_codec 0;; ret 2%nat;
  spdm_read :=
    let* p1 := read u8_codec in
    let* p2 := read u8_codec in
    ret {| gp_param1 := p1; gp_param2 := p2 |};
|}.

Section Message.
Context `{cfg : Config} `{sec : Secret} `{dev : SpdmDeviceIo}.

(*@ spdmlib/src/message/mod.rs 184-242 SpdmMessagePayload *)
Inductive SpdmMessagePayload :=
| SpdmMessageGeneral (p : SpdmMessageGeneralPayload)
| SpdmVersionResponse (p : SpdmVersionResponsePayload)
| SpdmGetVersionRequest (p : SpdmGetVersionRequestPayload)
| SpdmCapabilitiesResponse (p : SpdmCapabilitiesResponsePayload)
| SpdmGetCapabilitiesRequest (p : SpdmGetCapabilitiesRequestPayload)
| SpdmAlgorithmsResponse (p : SpdmAlgorithmsResponsePayload)
| SpdmNegotiateAlgorithmsRequest (p : SpdmNegotiateAlgorithmsRequestPayload)
| SpdmDigestsResponse (p : SpdmDigestsResponsePayload)
| SpdmGetDigestsRequest (p : SpdmGetDigestsRequestPayload)
| SpdmCertificateResponse (p : SpdmCertificateResponsePayload)
| SpdmGetCertificateRequest (p : SpdmGetCertificateRequestPayload)
| SpdmChallengeAuthResponse (p : SpdmChallengeAuthResponsePayload)
| SpdmChallengeRequest (p : SpdmChallengeRequestPayload)
| SpdmMeasurementsResponse (p : SpdmMeasurementsResponsePayload)
| SpdmGetMeasurementsRequest (p : SpdmGetMeasurementsRequestPayload)
| SpdmKeyExchangeResponse (p : SpdmKeyExchangeResponsePayload)
| SpdmKeyExchangeRequest (p : SpdmKeyExchangeRequestPayload)
| SpdmFinishResponse (p : SpdmFinishResponsePayload)
| SpdmFinishRequest (p : SpdmFinishRequestPayload)
| SpdmPskExchangeResponse (p : SpdmPskExchangeResponsePayload)
| SpdmPskExchangeRequest (p : SpdmPskExchangeRequestPayload)
| SpdmPskFinishResponse (p : SpdmPskFinishResponsePayload)
| SpdmPskFinishRequest (p : SpdmPskFinishRequestPayload)
| SpdmHeartbeatResponse (p : SpdmHeartbeatResponsePayload)
| SpdmHeartbeatRequest (p : SpdmHeartbeatRequestPayload)
| SpdmKeyUpdateResponse (p : SpdmKeyUpdateResponsePayload)
| SpdmKeyUpdateRequest (p : SpdmKeyUpdateRequestPayload)
| SpdmEndSessionResponse (p : SpdmEndSessionResponsePayload)
| SpdmEndSessionRequest (p : SpdmEndSessionRequestPayload)
| SpdmErrorResponse (p : SpdmErrorResponsePayload)
| SpdmVendorDefinedRequest (p : SpdmVendorDefinedRequestPayload)
| SpdmVendorDefinedResponse (p : SpdmVendorDefinedResponsePayload).

(*@ spdmlib/src/message/mod.rs 173-176 SpdmMessage *)
Record SpdmMessage := {
  msg_header : SpdmMessageHeader;
  msg_payload : SpdmMessagePayload;
}.

Context (context : SpdmContext).

(*@ spdmlib/src/message/mod.rs 431-560 SpdmMessage::spdm_encode *)
Definition payload_encode (p : SpdmMessagePayload) : M Writer SpdmStatus nat :=
  match p with
  | SpdmMessageGeneral p => spdm_encode SpdmMessageGeneralPayload_spdm_codec p
  | SpdmVersionResponse p => spdm_encode SpdmVersionResponsePayload_codec p
  | SpdmGetVersionRequest p => spdm_encode SpdmGetVersionRequestPayload_codec p
  | SpdmCapabilitiesResponse p => spdm_encode (SpdmCapabilitiesResponsePayload_codec context) p
  | SpdmGetCapabilitiesRequest p => spdm_encode (SpdmGetCapabilitiesRequestPayload_codec context) p
  | SpdmAlgorithmsResponse p => spdm_encode (SpdmAlgorithmsResponsePayload_codec context) p
  | SpdmNegotiateAlgorithmsRequest p => spdm_encode (SpdmNegotiateAlgorithmsRequestPayload_codec context) p
  | SpdmDigestsResponse p => spdm_encode (SpdmDigestsResponsePayload_codec context) p
  | SpdmGetDigestsRequest p => spdm_encode SpdmGetDigestsRequestPayload_codec p
  | SpdmCertificateResponse p => spdm_encode SpdmCertificateResponsePayload_codec p
  | SpdmGetCertificateRequest p => spdm_encode SpdmGetCertificateRequestPayload_codec p
  | SpdmChallengeAuthResponse p => spdm_encode (SpdmChallengeAuthResponsePayload_codec context) p
  | SpdmChallengeRequest p => spdm_encode (SpdmChallengeRequestPayload_codec context) p
  | SpdmMeasurementsResponse p => spdm_encode (SpdmMeasurementsResponsePayload_codec context) p
  | SpdmGetMeasurementsRequest p => spdm_encode (SpdmGetMeasurementsRequestPayload_codec context) p
  | SpdmKeyExchangeResponse p => spdm_encode (SpdmKeyExchangeResponsePayload_codec context) p
  | SpdmKeyExchangeRequest p => spdm_encode (SpdmKeyExchangeRequestPayload_codec context) p
  | SpdmFinishResponse p => spdm_encode (SpdmFinishResponsePayload_codec context) p
  | SpdmFinishRequest p => spdm_encode (SpdmFinishRequestPayload_codec context) p
  | SpdmPskExchangeResponse p => spdm_encode (SpdmPskExchangeResponsePayload_codec context) p
  | SpdmPskExchangeRequest p => spdm_encode (SpdmPskExchangeRequestPayload_codec context) p
  | SpdmPskFinishResponse p => spdm_encode SpdmPskFinishResponsePayload_codec p
  | SpdmPskFinishRequest p => spdm_encode (SpdmPskFinishRequestPayload_codec context) p
  | SpdmHeartbeatResponse p => spdm_encode SpdmHeartbeatResponsePayload_codec p
  | SpdmHeartbeatRequest p => spdm_encode SpdmHeartbeatRequestPayload_codec p
  | SpdmKeyUpdateResponse p => spdm_encode SpdmKeyUpdateResponsePayload_codec p
  | SpdmKeyUpdateRequest p => spdm_encode SpdmKeyUpdateRequestPayload_codec p
  | SpdmEndSessionResponse p => spdm_encode SpdmEndSessionResponsePayload_codec p
  | SpdmEndSessionRequest p => spdm_encode SpdmEndSessionRequestPayload_codec p
  | SpdmErrorResponse p => spdm_encode SpdmErrorResponsePayload_codec p
  | SpdmVendorDefinedRequest p => spdm_encode SpdmVendorDefinedRequestPayload_codec p
  | SpdmVendorDefinedResponse p => spdm_encode SpdmVendorDefinedResponsePayload_codec p
  end.

(** A code without a case, VENDOR_DEFINED_REQUEST and _RESPONSE among them, is refused. *)
(*@ spdmlib/src/message/mod.rs 251-414 SpdmMessage::read_with_detailed_error *)
Definition payload_read (code : SpdmRequestResponseCode) : M Reader unit SpdmMessagePayload :=
  match code with
  | SpdmResponseVersion =>
      let* p := spdm_read SpdmVersionResponsePayload_codec in ret (SpdmVersionResponse p)
  | SpdmRequestGetVersion =>
      let* p := spdm_read SpdmGetVersionRequestPayload_codec in ret (SpdmGetVersionRequest p)
  | SpdmResponseCapabilities =>
      let* p := spdm_read (SpdmCapabilitiesResponsePayload_codec context) in ret (SpdmCapabilitiesResponse p)
  | SpdmRequestGetCapabilities =>
      let* p := spdm_read (SpdmGetCapabilitiesRequestPayload_codec context) in ret (SpdmGetCapabilitiesRequest p)
  | SpdmResponseAlgorithms =>
      let* p := spdm_read (SpdmAlgorithmsResponsePayload_codec context) in ret (SpdmAlgorithmsResponse p)
  | SpdmRequestNegotiateAlgorithms =>
      let* p := spdm_read (SpdmNegotiateAlgorithmsRequestPayload_codec context) in ret (SpdmNegotiateAlgorithmsRequest p)
  | SpdmResponseDigests =>
      let* p := spdm_read (SpdmDigestsResponsePayload_codec context) in ret (SpdmDigestsResponse p)
  | SpdmRequestGetDigests =>
      let* p := spdm_read SpdmGetDigestsRequestPayload_codec in ret (SpdmGetDigestsRequest p)
  | SpdmResponseCertificate =>
      let* p := spdm_read SpdmCertificateResponsePayload_codec in ret (SpdmCertificateResponse p)
  | SpdmRequestGetCertificate =>
      let* p := spdm_read SpdmGetCertificateRequestPayload_codec in ret (SpdmGetCertificateRequest p)
  | SpdmResponseChallengeAuth =>
      let* p := spdm_read (SpdmChallengeAuthResponsePayload_codec context) in ret (SpdmChallengeAuthResponse p)
  | SpdmRequestChallenge =>
      let* p := spdm_read (SpdmChallengeRequestPayload_codec context) in ret (SpdmChallengeRequest p)
  | SpdmResponseMeasurements =>
      let* p := spdm_read (SpdmMeasurementsResponsePayload_codec context) in ret (SpdmMeasurementsResponse p)
  | SpdmRequestGetMeasurements =>
      let* p := spdm_read (SpdmGetMeasurementsRequestPayload_codec context) in ret (SpdmGetMeasurementsRequest p)
  | SpdmResponseKeyExchangeRsp =>
      let* p := spdm_read (SpdmKeyExchangeResponsePayload_codec context) in ret (SpdmKeyExchangeResponse p)
  | SpdmRequestKeyExchange =>
      let* p := spdm_read (SpdmKeyExchangeRequestPayload_codec context) in ret (SpdmKeyExchangeRequest p)
  | SpdmResponseFinishRsp =>
      let* p := spdm_read (SpdmFinishResponsePayload_codec context) in ret (SpdmFinishResponse p)
  | SpdmRequestFinish =>
      let* p := spdm_read (SpdmFinishRequestPayload_codec context) in ret (SpdmFinishRequest p)
  | SpdmResponsePskExchangeRsp =>
      let* p := spdm_read (SpdmPskExchangeResponsePayload_codec context) in ret (SpdmPskExchangeResponse p)
  | SpdmRequestPskExchange =>
      let* p := spdm_read (SpdmPskExchangeRequestPayload_codec context) in ret (SpdmPskExchangeRequest p)
  | SpdmResponsePskFinishRsp =>
      let* p := spdm_read SpdmPskFinishResponsePayload_codec in ret (SpdmPskFinishResponse p)
  | SpdmRequestPskFinish =>
      let* p := spdm_read (SpdmPskFinishRequestPayload_codec context) in ret (SpdmPskFinishRequest p)
  | SpdmResponseHeartbeatAck =>
      let* p := spdm_read SpdmHeartbeatResponsePayload_codec in ret (SpdmHeartbeatResponse p)
  | SpdmRequestHeartbeat =>
      let* p := spdm_read SpdmHeartbeatRequestPayload_codec in ret (SpdmHeartbeatRequest p)
  | SpdmResponseKeyUpdateAck =>
      let* p := spdm_read SpdmKeyUpdateResponsePayload_codec in ret (SpdmKeyUpdateResponse p)
  | SpdmRequestKeyUpdate =>
      let* p := spdm_read SpdmKeyUpdateRequestPayload_codec in ret (SpdmKeyUpdateRequest p)
  | SpdmResponseEndSessionAck =>
      let* p := spdm_read SpdmEndSessionResponsePayload_codec in ret (SpdmEndSessionResponse p)
  | SpdmRequestEndSession =>
      let* p := spdm_read SpdmEndSessionRequestPayload_codec in ret (SpdmEndSessionRequest p)
  | SpdmResponseError =>
      let* p := spdm_read SpdmErrorResponsePayload_codec in ret (SpdmErrorResponse p)
  | _ => throw tt
  end.

(*@ spdmlib/src/message/mod.rs 245-417 SpdmMessage::read_with_detailed_error *)
Definition SpdmMessage_read : M Reader unit SpdmMessage :=
  let* header := read SpdmMessageHeader_codec in
  let* payload := payload_read (hd_request_response_code header) in
  ret {| msg_header := header; msg_payload := payload |}.

(*@ spdmlib/src/message/mod.rs 420-567 SpdmMessage as SpdmCodec *)
Definition SpdmMessage_codec : SpdmCodec SpdmMessage := {|
  spdm_encode v :=
    let* n1 := enc SpdmMessageHeader_codec (msg_header v) in
    let* n2 := payload_encode (msg_payload v) in
    ret (n1 + n2)%nat;
  spdm_read := SpdmMessage_read;
|}.

(** ** Properties *)

#[export] Instance SpdmMessageHeader_ok :
  CodecOk SpdmMessageHeader_codec
    (λ v, SpdmVersion_wf (hd_version v) ∧ SpdmRequestResponseCode_wf (hd_request_response_code v))
    (λ v, le_bytes 1 (SpdmVersion_get_u8 (hd_version v))
          ++ le_bytes 1 (SpdmRequestResponseCode_get_u8 (hd_request_response_code v))).
Proof.
  constructor; cbn [encode read SpdmMessageHeader_codec].
  - intros v [Hv Hc]. eapply writes_eq; [writes_steps|done|done].
  - intros v [Hv Hc]. eapply reads_eq;
      [reads_with (hd_version v); reads_with (hd_request_response_code v); apply reads_ret
      |done|by destruct v].
  - eapply parser_bind; [apply parse_ok|]. intros ver Hver.
    eapply parser_bind; [apply parse_ok|]. intros c Hc. by apply parser_ret.
Qed.

(** The payload that goes with a code, and its well-formedness. *)
Definition payload_wf (code : SpdmRequestResponseCode) (p : SpdmMessagePayload) : Prop :=
  match code, p with
  | SpdmResponseVersion, SpdmVersionResponse p => VersionResponse_wf p
  | SpdmRequestGetVersion, SpdmGetVersionRequest p => (λ v, v = MkSpdmGetVersionRequestPayload) p
  | SpdmResponseCapabilities, SpdmCapabilitiesResponse p => (Capabilities_wf context) p
  | SpdmRequestGetCapabilities, SpdmGetCapabilitiesRequest p => (GetCapabilities_wf context) p
  | SpdmResponseAlgorithms, SpdmAlgorithmsResponse p => (Algorithms_wf context) p
  | SpdmRequestNegotiateAlgorithms, SpdmNegotiateAlgorithmsRequest p => (NegotiateAlgorithms_wf context) p
  | SpdmResponseDigests, SpdmDigestsResponse p => (Digests_wf context) p
  | SpdmRequestGetDigests, SpdmGetDigestsRequest p => (λ v, v = MkSpdmGetDigestsRequestPayload) p
  | SpdmResponseCertificate, SpdmCertificateResponse p => Certificate_wf p
  | SpdmRequestGetCertificate, SpdmGetCertificateRequest p => GetCertificate_wf p
  | SpdmResponseChallengeAuth, SpdmChallengeAuthResponse p => (ChallengeAuth_wf context) p
  | SpdmRequestChallenge, SpdmChallengeRequest p => (Challenge_wf context) p
  | SpdmResponseMeasurements, SpdmMeasurementsResponse p => (Measurements_wf context) p
  | SpdmRequestGetMeasurements, SpdmGetMeasurementsRequest p => (GetMeasurements_wf context) p
  | SpdmResponseKeyExchangeRsp, SpdmKeyExchangeResponse p => (KeyExchangeRsp_wf context) p
  | SpdmRequestKeyExchange, SpdmKeyExchangeRequest p => (KeyExchange_writable context) p
  | SpdmResponseFinishRsp, SpdmFinishResponse p => (λ v, verify_wf context (in_clear_text context) (fp_verify_data v)) p
  | SpdmRequestFinish, SpdmFinishRequest p => (Finish_wf context) p
  | SpdmResponsePskExchangeRsp, SpdmPskExchangeResponse p => (PskExchangeRsp_wf context) p
  | SpdmRequestPskExchange, SpdmPskExchangeRequest p => (PskExchange_wf context) p
  | SpdmResponsePskFinishRsp, SpdmPskFinishResponse p => (λ v, v = MkSpdmPskFinishResponsePayload) p
  | SpdmRequestPskFinish, SpdmPskFinishRequest p => (λ v, Digest_wf context (pf_verify_data v)) p
  | SpdmResponseHeartbeatAck, SpdmHeartbeatResponse p => (λ v, v = MkSpdmHeartbeatResponsePayload) p
  | SpdmRequestHeartbeat, SpdmHeartbeatRequest p => (λ v, v = MkSpdmHeartbeatRequestPayload) p
  | SpdmResponseKeyUpdateAck, SpdmKeyUpdateResponse p => KeyUpdateResponse_wf p
  | SpdmRequestKeyUpdate, SpdmKeyUpdateRequest p => KeyUpdateRequest_wf p
  | SpdmResponseEndSessionAck, SpdmEndSessionResponse p => (λ v, v = MkSpdmEndSessionResponsePayload) p
  | SpdmRequestEndSession, SpdmEndSessionRequest p => (λ v, flags_wf 8 1 (es_attributes v)) p
  | SpdmResponseError, SpdmErrorResponse p => Error_wf p
  | _, _ => False
  end.

Definition payload_wire (p : SpdmMessagePayload) : bytes :=
  match p with
  | SpdmVersionResponse p => VersionResponse_wire p
  | SpdmGetVersionRequest p => (λ _, [0; 0]) p
  | SpdmCapabilitiesResponse p => (Capabilities_wire context) p
  | SpdmGetCapabilitiesRequest p => (GetCapabilities_wire context) p
  | SpdmAlgorithmsResponse p => (Algorithms_wire context) p
  | SpdmNegotiateAlgorithmsRequest p => (NegotiateAlgorithms_wire context) p
  | SpdmDigestsResponse p => Digests_wire p
  | SpdmGetDigestsRequest p => (λ _, [0; 0]) p
  | SpdmCertificateResponse p => Certificate_wire p
  | SpdmGetCertificateRequest p => GetCertificate_wire p
  | SpdmChallengeAuthResponse p => (ChallengeAuth_wire context) p
  | SpdmChallengeRequest p => Challenge_wire p
  | SpdmMeasurementsResponse p => (Measurements_wire context) p
  | SpdmGetMeasurementsRequest p => (GetMeasurements_wire context) p
  | SpdmKeyExchangeResponse p => (KeyExchangeRsp_wire context) p
  | SpdmKeyExchangeRequest p => KeyExchange_wire p
  | SpdmFinishResponse p => (λ v, [0; 0] ++ verify_wire (in_clear_text context) (fp_verify_data v)) p
  | SpdmFinishRequest p => Finish_wire p
  | SpdmPskExchangeResponse p => (PskExchangeRsp_wire context) p
  | SpdmPskExchangeRequest p => PskExchange_wire p
  | SpdmPskFinishResponse p => (λ _, [0; 0]) p
  | SpdmPskFinishRequest p => (λ v, [0; 0] ++ sized_bytes (pf_verify_data v)) p
  | SpdmHeartbeatResponse p => (λ _, [0; 0]) p
  | SpdmHeartbeatRequest p => (λ _, [0; 0]) p
  | SpdmKeyUpdateResponse p => KeyUpdateResponse_wire p
  | SpdmKeyUpdateRequest p => KeyUpdateRequest_wire p
  | SpdmEndSessionResponse p => (λ _, [0; 0]) p
  | SpdmEndSessionRequest p => (λ v, le_bytes 1 (es_attributes v) ++ [0]) p
  | SpdmErrorResponse p => Error_wire p
  | _ => []
  end.

Definition Message_wf (v : SpdmMessage) : Prop :=
  SpdmVersion_wf (hd_version (msg_header v)) ∧
  SpdmRequestResponseCode_wf (hd_request_response_code (msg_header v)) ∧
  payload_wf (hd_request_response_code (msg_header v)) (msg_payload v).

Definition Message_wire (v : SpdmMessage) : bytes :=
  le_bytes 1 (SpdmVersion_get_u8 (hd_version (msg_header v)))
  ++ le_bytes 1 (SpdmRequestResponseCode_get_u8 (hd_request_response_code (msg_header v)))
  ++ payload_wire (msg_payload v).

(** The messages without fields share one codec. *)
Ltac unfold_empty :=
  unfold SpdmGetVersionRequestPayload_codec, SpdmGetDigestsRequestPayload_codec,
    SpdmPskFinishResponsePayload_codec, SpdmHeartbeatResponsePayload_codec,
    SpdmHeartbeatRequestPayload_codec, SpdmEndSessionResponsePayload_codec.

(** What the receiver gets: the message itself, but for the number of measurements. *)
Definition payload_received (p : SpdmMessagePayload) : SpdmMessagePayload :=
  match p with
  | SpdmMeasurementsResponse p => SpdmMeasurementsResponse (measurements_received p)
  | p => p
  end.
Definition received_as (v : SpdmMessage) : SpdmMessage :=
  {| msg_header := msg_header v; msg_payload := payload_received (msg_payload v) |}.

Lemma writes_payload `{!ConfigValid} code p :
  payload_wf code p →
  writes SPDM_STATUS_BUFFER_FULL (payload_encode p) (payload_wire p) (length (payload_wire p)).
Proof.
  destruct p, code; intros Hp; try (by destruct Hp); cbn [payload_encode payload_wire];
    unfold_empty; first [by apply writes_measurements | match goal with
    |- writes _ (spdm_encode ?c ?p) _ _ => exact (spdm_encode_ok (c:=c) p Hp) end].
Qed.

Lemma reads_payload `{!ConfigValid} code p :
  payload_wf code p → reads (payload_read code) (payload_wire p) (payload_received p).
Proof.
  destruct code; intros Hp; try (by destruct p); destruct p; try done;
    cbn [payload_read payload_wire payload_received]; unfold_empty;
    match goal with |- reads (bind (spdm_read ?c) _) _ (_ ?p) =>
      eapply reads_eq; [eapply (reads_bind _ _ _ [] p);
                        [first [by apply reads_measurements|exact (spdm_read_ok (c:=c) p Hp)]|apply reads_ret]
                       |by rewrite app_nil_r|done] end.
Qed.

Lemma writes_message `{!ConfigValid} v :
  Message_wf v →
  writes SPDM_STATUS_BUFFER_FULL (spdm_encode SpdmMessage_codec v) (Message_wire v) (length (Message_wire v)).
Proof.
  intros (Hv&Hc&Hp); unfold Message_wire.
  pose proof (writes_payload _ _ Hp) as Hw. cbn [spdm_encode SpdmMessage_codec].
  eapply writes_eq.
  + eapply writes_bind; [eapply writes_enc; [apply SpdmMessageHeader_ok|done]|].
    eapply writes_bind; [exact Hw|]. apply writes_ret.
  + by rewrite app_nil_r, app_assoc.
  + by rewrite !length_app, !length_le_bytes.
Qed.
Lemma reads_message `{!ConfigValid} v :
  Message_wf v → reads (spdm_read SpdmMessage_codec) (Message_wire v) (received_as v).
Proof.
  intros (Hv&Hc&Hp); unfold Message_wire.
  cbn [spdm_read SpdmMessage_codec]. unfold SpdmMessage_read. eapply reads_eq.
  + eapply (reads_bind _ _ _ _ (msg_header v)); [by apply (read_ok (c:=SpdmMessageHeader_codec))|].
    eapply (reads_bind _ _ _ [] (payload_received (msg_payload v))); [by apply reads_payload|]. apply reads_ret.
  + by rewrite app_nil_r, app_assoc.
  + done.
Qed.

(** Reading a message from arbitrary bytes returns: it does not panic once an algorithm of
    each kind is selected. *)
Lemma parser_message `{!ConfigValid} `{!HashSelected context} `{!AsymSelected context}
    `{!DheSelected context} `{!MeasurementHashSelected context} :
  parser SpdmMessage_read (λ v, SpdmVersion_wf (hd_version (msg_header v))).
Proof.
  unfold SpdmMessage_read. eapply parser_bind; [apply (parse_ok (c:=SpdmMessageHeader_codec))|].
  intros h [Hv Hc]. eapply (parser_bind _ _ (λ _, True)); [|by intros p _; apply parser_ret].
  destruct (hd_request_response_code h); cbn [payload_read]; try apply parser_throw;
    unfold_empty; (eapply parser_bind; [apply spdm_parse_ok|]; intros ? _; by apply parser_ret).
Qed.

(** C7: Messages survive the wire.  Every well-formed message of any of the 29 kinds that can
    be read is encoded into a buffer that is large enough as exactly its wire format, and the
    bytes are read back, to the last byte, as the same message, with one exception: MEASUREMENTS
    with one measurement is written, and read, as one with none. *)
Theorem message_roundtrip `{!ConfigValid} m size :
  Message_wf m → (length (Message_wire m) ≤ size)%nat →
  ∃ w r, spdm_encode SpdmMessage_codec m (Writer_init (replicate size 0)) =
      (Ok (length (Message_wire m)), w) ∧
    Writer_used_slice w = Message_wire m ∧
    spdm_read SpdmMessage_codec (Reader_init (Writer_used_slice w)) = (Ok (received_as m), r) ∧
    Reader_any_left r = false ∧
    (received_as m = m ∨ ∃ p, msg_payload m = SpdmMeasurementsResponse p ∧ mr_number_of_measurement p = 1).
Proof.
  intros Hm Hl. pose proof (length_replicate size 0) as Hr.
  destruct (writes_used_slice _ _ _ _ (Writer_init (replicate size 0))
    (writes_message m Hm)) as (w&Hw&Hs);
    [unfold Writer_wf; simpl; lia|unfold Writer_left; cbn [Writer_init wr_buf wr_offs]; lia|].
  cbn in Hs. rewrite take_0 in Hs. eexists w, _. rewrite Hs. split_and!; [done|done| | |].
  - apply (reads_message m Hm _ []). by rewrite app_nil_r.
  - apply bool_decide_eq_false. cbn. lia.
  - destruct m as [h []]; try by left. unfold received_as, payload_received, measurements_received, measurements_param1.
    cbn. match goal with |- context [SpdmMeasurementsResponse ?p = _] => destruct p as [n] end. cbn.
    destruct (Z.eqb_spec n 1); [right; by eexists|by left].
Qed.

(** C19: Reading is total.  Once an algorithm of each kind is selected, reading a message from
    any bytes that a peer may send returns a message or an error; no index, subtraction or
    size lookup panics. *)
Theorem message_read_total `{!ConfigValid} `{!HashSelected context} `{!AsymSelected context}
    `{!DheSelected context} `{!MeasurementHashSelected context} bs :
  Forall is_u8 bs → (spdm_read SpdmMessage_codec (Reader_init bs)).1 ≠ Panic.
Proof.
  intros Hb. destruct (parser_message (Reader_init bs)) as (n&o&Ho&_&Hp).
  { split; [simpl; lia|done]. }
  cbn [spdm_read SpdmMessage_codec]. rewrite Ho. by destruct o.
Qed.

End Message.

(** ** Evaluated *)

Section Example.
#[local] Existing Instances default_config default_valid toy_crypto toy_secret toy_device.

Definition toy_finish : SpdmFinishRequestPayload := {|
  fq_finish_request_attributes := 0; fq_req_slot_id := 0;
  fq_signature := sized_default SPDM_MAX_ASYM_KEY_SIZE;
  fq_verify_data := toy_sized 48 SPDM_MAX_HASH_SIZE [3];
|}.
Definition toy_message : SpdmMessage := {|
  msg_header := {| hd_version := SpdmVersion12; hd_request_response_code := SpdmRequestFinish |};
  msg_payload := SpdmFinishRequest toy_finish;
|}.

Lemma toy_digest_wf : Digest_wf toy_context (fq_verify_data toy_finish).
Proof. split; [done|]. apply (bool_decide_unpack _). vm_compute. exact I. Qed.

Lemma message_roundtrip_witness :
  ∃ w r, spdm_encode (SpdmMessage_codec toy_context) toy_message
        (Writer_init (replicate 64 0)) = (Ok 52%nat, w) ∧
    Writer_used_slice w = Message_wire toy_context toy_message ∧
    spdm_read (SpdmMessage_codec toy_context) (Reader_init (Writer_used_slice w)) =
      (Ok (received_as toy_message), r) ∧ Reader_any_left r = false ∧
    (received_as toy_message = toy_message ∨
     ∃ p, msg_payload toy_message = SpdmMeasurementsResponse p ∧ mr_number_of_measurement p = 1).
Proof.
  apply (message_roundtrip toy_context toy_message 64).
  - split; [by split|]. split; [by split|]. change (Finish_wf toy_context toy_finish).
    split_and!; [by split..|done|exact toy_digest_wf].
  - apply (bool_decide_unpack _). vm_compute. exact I.
Defined.

#[local] Instance toy_hash_selected : HashSelected toy_context.
Proof. exists 48%nat. split; [lia|done]. Qed.
#[local] Instance toy_asym_selected : AsymSelected toy_context.
Proof. exists 96%nat. split; [lia|done]. Qed.
#[local] Instance toy_dhe_selected : DheSelected toy_context.
Proof. exists 96%nat. split; [lia|done]. Qed.
#[local] Instance toy_measurement_hash_selected : MeasurementHashSelected toy_context.
Proof. by exists 48%nat. Qed.

Lemma message_read_total_witness :
  (spdm_read (SpdmMessage_codec toy_context) (Reader_init [0x12; 0xE4; 0; 0; 1; 2; 3])).1 ≠ Panic.
Proof.
  apply (message_read_total toy_context).
  apply (bool_decide_unpack _). vm_compute. exact I.
Defined.

End Example.
