(* ===== verification/MsgEncap.v ===== *)
(** Model of message/encapsulated.rs: the messages that carry requests of the responder to the
    requester, with which the requester is authenticated in the other direction (feature
    mut-auth). *)

From S2P Require Import Prelude Config Codec Status Algo Protocol Crypto KeySchedule Buffers Session Context SpdmCodec Opaque MsgNegotiate MsgAuth MsgSession Message.

Abbreviation ENCAPSULATED_RESPONSE_ACK_HEADER_SIZE := 8%nat (only parsing).

(*@ spdmlib/src/message/encapsulated.rs 13-14 SpdmGetEncapsulatedRequestPayload *)
Inductive SpdmGetEncapsulatedRequestPayload := MkSpdmGetEncapsulatedRequestPayload.

(*@ spdmlib/src/message/encapsulated.rs 16-37 SpdmGetEncapsulatedRequestPayload as SpdmCodec *)
Definition SpdmGetEncapsulatedRequestPayload_codec : SpdmCodec SpdmGetEncapsulatedRequestPayload :=
  empty_codec MkSpdmGetEncapsulatedRequestPayload.

(*@ spdmlib/src/message/encapsulated.rs 39-42 SpdmEncapsulatedRequestPayload *)
Record SpdmEncapsulatedRequestPayload := { eq_request_id : Z }.

(*@ spdmlib/src/message/encapsulated.rs 44-68 SpdmEncapsulatedRequestPayload as SpdmCodec *)
Definition SpdmEncapsulatedRequestPayload_codec : SpdmCodec SpdmEncapsulatedRequestPayload := {|
  spdm_encode v :=
    let* n1 := enc u8_codec (eq_request_id v) in
    let* n2 := enc u8_codec 0 in
    ret (n1 + n2)%nat;
  spdm_read :=
    let* request_id := read u8_codec in
    read u8_codec;;
    ret {| eq_request_id := request_id |};
|}.

(*@ spdmlib/src/message/encapsulated.rs 70-73 SpdmDeliverEncapsulatedResponsePayload *)
Record SpdmDeliverEncapsulatedResponsePayload := { de_request_id : Z }.

(*@ spdmlib/src/message/encapsulated.rs 75-99 SpdmDeliverEncapsulatedResponsePayload as SpdmCodec *)
Definition SpdmDeliverEncapsulatedResponsePayload_codec
    : SpdmCodec SpdmDeliverEncapsulatedResponsePayload := {|
  spdm_encode v :=
    let* n1 := enc u8_codec (de_request_id v) in
    let* n2 := enc u8_codec 0 in
    ret (n1 + n2)%nat;
  spdm_read :=
    let* request_id := read u8_codec in
    read u8_codec;;
    ret {| de_request_id := request_id |};
|}.

(*@ spdmlib/src/message/encapsulated.rs 158-166 SpdmEncapsulatedResponseAckPayloadType *)
Inductive SpdmEncapsulatedResponseAckPayloadType :=
| Absent
| Present
| ReqSlotNumber
| AckPayloadType_Unknown (x : Z).

Definition AckPayloadType_get_u8 (v : SpdmEncapsulatedResponseAckPayloadType) : Z :=
  match v with
  | Absent => 0
  | Present => 1
  | ReqSlotNumber => 2
  | AckPayloadType_Unknown x => x
  end.
Definition AckPayloadType_from_u8 (x : Z) : SpdmEncapsulatedResponseAckPayloadType :=
  match x with
  | 0 => Absent
  | 1 => Present
  | 2 => ReqSlotNumber
  | x => AckPayloadType_Unknown x
  end.
Definition AckPayloadType_codec : Codec SpdmEncapsulatedResponseAckPayloadType :=
  enum_codec u8_codec AckPayloadType_get_u8 AckPayloadType_from_u8.

(*@ spdmlib/src/message/encapsulated.rs 101-106 SpdmEncapsulatedResponseAckPayload *)
Record SpdmEncapsulatedResponseAckPayload := {
  ea_request_id : Z;
  ea_payload_type : SpdmEncapsulatedResponseAckPayloadType;
  ea_ack_request_id : Z;
}.

Section Ack.
Context `{cfg : Config} `{cry : Crypto} `{dev : SpdmDeviceIo} (context : SpdmContext).

(*@ spdmlib/src/message/encapsulated.rs 108-156 SpdmEncapsulatedResponseAckPayload as SpdmCodec *)
Definition SpdmEncapsulatedResponseAckPayload_codec
    : SpdmCodec SpdmEncapsulatedResponseAckPayload := {|
  spdm_encode v :=
    let* n1 := enc u8_codec (ea_request_id v) in
    let* n2 := enc AckPayloadType_codec (ea_payload_type v) in
    if sel_ge12 context then
      let* n3 := enc u8_codec (ea_ack_request_id v) in
      let* n4 := enc u24_codec 0 in
      ret (n1 + n2 + n3 + n4)%nat
    else ret (n1 + n2)%nat;
  spdm_read :=
    let* request_id := read u8_codec in
    let* payload_type := read AckPayloadType_codec in
    if sel_ge12 context then
      let* ack_request_id := read u8_codec in
      read u24_codec;;
      ret {| ea_request_id := request_id; ea_payload_type := payload_type;
             ea_ack_request_id := ack_request_id |}
    else
      ret {| ea_request_id := request_id; ea_payload_type := payload_type;
             ea_ack_request_id := 0 |};
|}.
End Ack.

(** ** Round trips *)

#[export] Instance AckPayloadType_codec_ok :
  CodecOk AckPayloadType_codec (enum_wf 8 AckPayloadType_get_u8 AckPayloadType_from_u8)
    (λ v, le_bytes 1 (AckPayloadType_get_u8 v)).
Proof. apply enum_codec_ok; [apply _|]. solve_enum AckPayloadType_from_u8. Qed.

#[export] Instance SpdmEncapsulatedRequestPayload_ok :
  SpdmCodecOk SpdmEncapsulatedRequestPayload_codec (λ v, is_u8 (eq_request_id v))
    (λ v, le_bytes 1 (eq_request_id v) ++ [0]).
Proof.
  split; intros v Hv.
  - cbn [spdm_encode SpdmEncapsulatedRequestPayload_codec]. encoded.
  - cbn [spdm_read SpdmEncapsulatedRequestPayload_codec]. eapply reads_eq.
    + spdm_reads_with (eq_request_id v). spdm_reads_with 0. apply reads_ret.
    + done.
    + by destruct v.
Qed.

#[export] Instance SpdmDeliverEncapsulatedResponsePayload_ok :
  SpdmCodecOk SpdmDeliverEncapsulatedResponsePayload_codec (λ v, is_u8 (de_request_id v))
    (λ v, le_bytes 1 (de_request_id v) ++ [0]).
Proof.
  split; intros v Hv.
  - cbn [spdm_encode SpdmDeliverEncapsulatedResponsePayload_codec]. encoded.
  - cbn [spdm_read SpdmDeliverEncapsulatedResponsePayload_codec]. eapply reads_eq.
    + spdm_reads_with (de_request_id v). spdm_reads_with 0. apply reads_ret.
    + done.
    + by destruct v.
Qed.

Section AckOk.
Context `{cfg : Config} `{cry : Crypto} `{dev : SpdmDeviceIo} (context : SpdmContext).

(** Before version 1.2 the message has no place for the identifier that is acknowledged. *)
Definition Ack_wf (v : SpdmEncapsulatedResponseAckPayload) : Prop :=
  is_u8 (ea_request_id v) ∧
  enum_wf 8 AckPayloadType_get_u8 AckPayloadType_from_u8 (ea_payload_type v) ∧
  is_u8 (ea_ack_request_id v) ∧ (sel_ge12 context = false → ea_ack_request_id v = 0).
Definition Ack_wire (v : SpdmEncapsulatedResponseAckPayload) : bytes :=
  le_bytes 1 (ea_request_id v) ++ le_bytes 1 (AckPayloadType_get_u8 (ea_payload_type v)) ++
  if sel_ge12 context then le_bytes 1 (ea_ack_request_id v) ++ [0; 0; 0] else [].

#[export] Instance SpdmEncapsulatedResponseAckPayload_ok :
  SpdmCodecOk (SpdmEncapsulatedResponseAckPayload_codec context) Ack_wf Ack_wire.
Proof.
  split; intros v (Hr&Hp&Ha&H0); unfold Ack_wire.
  - cbn [spdm_encode SpdmEncapsulatedResponseAckPayload_codec]. destruct (sel_ge12 context); encoded.
  - cbn [spdm_read SpdmEncapsulatedResponseAckPayload_codec].
    destruct (sel_ge12 context); (eapply reads_eq;
      [spdm_reads_with (ea_request_id v); spdm_reads_with (ea_payload_type v)| |]).
    + spdm_reads_with (ea_ack_request_id v). spdm_reads_with 0. apply reads_ret.
    + done.
    + by destruct v.
    + apply reads_ret.
    + done.
    + destruct v. cbn in *. by rewrite H0.
Qed.
End AckOk.
