(* ===== verification/Endpoint.v ===== *)
(** What both ends of a connection share: the control flow of the source in the monad,
    writing a message of the negotiated version, the message that is signed, and sending to
    the device.

    A function of the source that fills a writer is a computation on [Rsp], the context and
    the writer.  [let? x := c else bad in k] is the early return of the source: [bad] runs
    when [c] failed. *)

From S2P Require Import Prelude Config Codec Status Algo Protocol Crypto KeySchedule Buffers Session Context SpdmCodec Opaque MsgNegotiate MsgAuth MsgSession Message.

Definition or_else {S E E' A B} (c : M S E A) (bad : M S E' B) (k : A → M S E' B) : M S E' B :=
  let* r := attempt c in match r with inr a => k a | inl _ => bad end.

Notation "'let?' x ':=' c 'else' bad 'in' k" := (or_else c bad (λ x, k))
  (at level 10, x pattern, c at level 200, bad at level 200, k at level 200) : spdm_scope.

(** [.unwrap()] on the result of a computation. *)
Definition expect {S E E' A} (c : M S E A) : M S E' A := or_else c panic ret.

(** A computation that goes on from a reader. *)
Definition resume {S E A} (r : Reader) (c : M Reader E A) : M S E (A * Reader) := λ st,
  match c r with
  | (Ok a, r') => (Ok (a, r'), st)
  | (Err e, _) => (Err e, st)
  | (Panic, _) => (Panic, st)
  end.

(** [a - b] on [usize], of which the result is used as an index. *)
Definition sub_usize {S E} (a b : nat) : M S E nat :=
  if (b <=? a)%nat then ret (a - b)%nat else panic.

Definition version_below (v : SpdmVersion) (w : SpdmVersion) : bool :=
  SpdmVersion_get_u8 v <? SpdmVersion_get_u8 w.

Section Endpoint.
Context `{cfg : Config} `{sec : Secret} `{dev : SpdmDeviceIo} `{tr : SpdmTransportEncap}.

Abbreviation Rsp := (SpdmContext * Writer)%type (only parsing).

Definition on_world {E A} : M world E A → M SpdmContext E A :=
  zoom crypto_world (λ w c, c <| crypto_world := w |>).

Definition negotiated_version (c : SpdmContext) : SpdmVersion :=
  spdm_version_sel (negotiate_info c).

(** Writing a message of the negotiated version. *)
Definition write_response (code : SpdmRequestResponseCode) (payload : SpdmMessagePayload)
    : SpdmM Rsp nat :=
  let* c := gets fst in
  on_snd (spdm_encode (SpdmMessage_codec c)
    {| msg_header := {| hd_version := negotiated_version c; hd_request_response_code := code |};
       msg_payload := payload |}).

(** A computation that fills a fresh transport buffer. *)
Definition with_transport_buffer {A} (c : SpdmM (SpdmContext * bytes) A)
    : SpdmM SpdmContext (A * bytes) := λ ctx,
  match c (ctx, replicate SENDER_BUFFER_SIZE 0) with
  | (Ok a, (ctx', buf)) => (Ok (a, buf), ctx')
  | (Err e, (ctx', _)) => (Err e, ctx')
  | (Panic, (ctx', _)) => (Panic, ctx')
  end.

Definition device_send (bs : bytes) : SpdmM SpdmContext unit :=
  zoom device_io (λ d c, c <| device_io := d |>) (io_send bs).

Definition read_header {S} (bs : bytes) : M S unit (SpdmMessageHeader * Reader) :=
  with_reader bs (read SpdmMessageHeader_codec).

(** [&bytes[..reader.used()]] *)
Definition consumed {S E} (bs : bytes) (r : Reader) : M S E bytes :=
  sub_slice 0 (Reader_used r) bs.

(** ** Signatures and random numbers *)

Fixpoint append_messages (l : list bytes) : SpdmM ManagedBuffer unit :=
  match l with
  | [] => ret tt
  | bs :: l => some_or SPDM_STATUS_BUFFER_FULL (append_message bs);; append_messages l
  end.

(** The message that is signed in SPDM 1.2: a prefix, a context padded to 36 bytes and the
    transcript hash. *)
Definition signing_message {S} (zeropad sign_context hash : bytes) : SpdmM S bytes := λ st,
  (((append_messages
      [SPDM_VERSION_1_2_SIGNING_PREFIX_CONTEXT; zeropad; sign_context; hash];;
    let* buf := gets (λ b, b) in
    mb_as_ref buf) ManagedBuffer12Sign).1, st).

(** The signature over a transcript hash. *)
Definition sign_transcript (zeropad sign_context : bytes) (hash : SpdmDigestStruct)
    : SpdmM SpdmContext SpdmSignatureStruct :=
  let* c := gets (λ c, c) in
  let n := negotiate_info c in
  if version_below (spdm_version_sel n) SpdmVersion12
  then throw SPDM_STATUS_INVALID_STATE_LOCAL else
  let* h := sized_as_ref hash in
  let* message := signing_message zeropad sign_context h in
  some_or SPDM_STATUS_CRYPTO_ERROR
    (on_world (asym_sign (base_hash_sel n) (base_asym_sel n) message)).

Definition random_array (n : nat) : SpdmM Rsp bytes :=
  let* (_, bs) := on_fst (on_world (get_random (replicate n 0))) in ret bs.

Definition empty_opaque : SpdmOpaqueStruct := sized_default MAX_SPDM_OPAQUE_SIZE.
Definition placeholder (size max : nat) (b : Z) : sized :=
  {| data_size := size; data := replicate max b |}.

(** ** Sessions *)

Definition session_id_of (rsp_session_id req_session_id : Z) : Z :=
  Z.shiftl rsp_session_id 16 + req_session_id.

(** What a new session takes over from the connection. *)
(*@ spdmlib/src/responder/key_exchange_rsp.rs 210-216 ResponderContext::write_spdm_key_exchange_response *)
Definition set_session_params (c : SpdmContext) (s : SpdmSession) : SpdmSession :=
  let n := negotiate_info c in
  SpdmSession_set_transport_param t_get_sequence_number_count t_get_max_random_count
    (SpdmSession_set_crypto_param (base_hash_sel n) (dhe_sel n) (aead_sel n)
       (key_schedule_sel n) s).

End Endpoint.

Abbreviation Rsp := (SpdmContext * Writer)%type (only parsing).
