(* ===== verification/Responder.v ===== *)
(** Model of the base of the responder: responder/error_rsp.rs, the sending half of
    responder/context.rs and the tables of callbacks of responder/app_message_handler.rs and
    message/vendor.rs.

    A function that fills a writer is a computation on [Rsp], one that sends is a computation
    on the context.  [mode] says whether integer overflow is checked. *)

From S2P Require Import Prelude Config Codec Status Algo Protocol Crypto KeySchedule Buffers Session Context SpdmCodec Opaque MsgNegotiate MsgAuth MsgSession Message Endpoint.

Section Responder.
Context `{cfg : Config} `{sec : Secret} `{dev : SpdmDeviceIo} `{tr : SpdmTransportEncap}.

(** The callbacks an integrator registers; without registration they are unimplemented. *)
(*@ spdmlib/src/responder/app_message_handler.rs 13-47 SpdmAppMessageHandler *)
Class SpdmHandlers := {
  vendor_defined_request_handler : sized → outcome SpdmStatus sized;
  dispatch_secured_app_message_cb (session_id : Z) (app_buffer auxiliary_app_data : bytes) :
    SpdmM SpdmContext (bytes * nat);
}.

(*@ spdmlib/src/responder/error_rsp.rs 11-31 ResponderContext::write_spdm_error *)
Definition write_spdm_error (error_code : SpdmErrorCode) (error_data : Z) : SpdmM Rsp unit :=
  attempt (write_response SpdmResponseError (SpdmErrorResponse
    {| er_error_code := error_code; er_error_data := error_data;
       er_extended_data := SpdmErrorExtDataNone |}));;
  ret tt.

(** [self.write_spdm_error(code, 0, writer); return;] and the same with an error. *)
Definition error (code : SpdmErrorCode) : SpdmM Rsp unit := write_spdm_error code 0.
Definition reject {A} (code : SpdmErrorCode) (status : SpdmStatus) : SpdmM Rsp A :=
  error code;; throw status.

(** A function that fills a fresh buffer of the size of a message; the result is what it
    wrote. *)
Definition with_send_buffer (c : SpdmM Rsp unit) : SpdmM SpdmContext bytes := λ ctx,
  match c (ctx, Writer_init (replicate MAX_SPDM_MSG_SIZE 0)) with
  | (Ok _, (ctx', w)) => (Ok (Writer_used_slice w), ctx')
  | (Err e, (ctx', _)) => (Err e, ctx')
  | (Panic, (ctx', _)) => (Panic, ctx')
  end.

Definition set_state (state : SpdmConnectionState) (c : SpdmContext) : SpdmContext :=
  c <| runtime_info ::= λ r, r <| connection_state := state |> |>.

(** The state moves on to [state] unless it is there already. *)
Definition raise_state (state : SpdmConnectionState) (c : SpdmContext) : SpdmContext :=
  if SpdmConnectionState_get_u8 (connection_state (runtime_info c))
     <? SpdmConnectionState_get_u8 state
  then set_state state c else c.

Definition establish (session_id : Z) : SpdmM SpdmContext unit :=
  with_session session_id panic (modify (λ s, s <| session_state := SpdmSessionEstablished |>)).

(** What sending a message with the code [opcode] changes. *)
(*@ spdmlib/src/responder/context.rs 49-91 ResponderContext::send_message *)
Definition after_send (opcode : Z) : SpdmM SpdmContext unit :=
  match SpdmRequestResponseCode_from_u8 opcode with
  | SpdmResponseVersion => modify (set_state SpdmConnectionAfterVersion)
  | SpdmResponseCapabilities => modify (set_state SpdmConnectionAfterCapabilities)
  | SpdmResponseAlgorithms => modify (set_state SpdmConnectionNegotiated)
  | SpdmResponseDigests => modify (raise_state SpdmConnectionAfterDigest)
  | SpdmResponseCertificate => modify (raise_state SpdmConnectionAfterCertificate)
  | SpdmResponseChallengeAuth => modify (set_state SpdmConnectionAuthenticated)
  | SpdmResponseFinishRsp =>
      let* c := gets (λ c, c) in
      let* id := unwrap (last_session_id (runtime_info c)) in
      establish id;;
      modify (λ c, c <| runtime_info ::= λ r, r <| last_session_id := None |> |>)
  | _ => ret tt
  end.

Definition exceeds_transfer_size (c : SpdmContext) (send_buffer : bytes) : bool :=
  let limit := req_data_transfer_size_sel (negotiate_info c) in
  negb (limit =? 0) && (limit <? Z.of_nat (length send_buffer)).

(** A response that is too large is replaced by an error, by a recursive call.  The depth of
    the recursion is bounded by [fuel]; running out of it is running out of stack. *)
(*@ spdmlib/src/responder/context.rs 35-93 ResponderContext::send_message *)
Fixpoint send_message_rec (fuel : nat) (send_buffer : bytes) : SpdmM SpdmContext unit :=
  let* c := gets (λ c, c) in
  if exceeds_transfer_size c send_buffer then
    match fuel with
    | O => panic
    | S fuel =>
        let* err := with_send_buffer (error SpdmErrorResponseTooLarge) in
        send_message_rec fuel err
    end
  else
    let* (used, transport_buffer) := with_transport_buffer (encap send_buffer) in
    let* bs := sub_slice 0 used transport_buffer in
    device_send bs;;
    let* opcode := unwrap (send_buffer !! 1%nat) in
    after_send opcode.

Definition send_message : bytes → SpdmM SpdmContext unit := send_message_rec 2.

(*@ spdmlib/src/responder/context.rs 119-133 ResponderContext::send_secured_message *)
Definition after_secured_send (session_id opcode : Z) : SpdmM SpdmContext unit :=
  (if opcode =? SpdmRequestResponseCode_get_u8 SpdmResponseEndSessionAck then
     with_session session_id panic (attempt (SpdmSession_teardown session_id);; ret tt)
   else ret tt);;
  (if (opcode =? SpdmRequestResponseCode_get_u8 SpdmResponseFinishRsp)
      || (opcode =? SpdmRequestResponseCode_get_u8 SpdmResponsePskFinishRsp) then
     establish session_id
   else ret tt).

Context (mode : overflow_mode).

(*@ spdmlib/src/responder/context.rs 95-137 ResponderContext::send_secured_message *)
Fixpoint send_secured_message_rec (fuel : nat) (session_id : Z) (send_buffer : bytes)
    (is_app_message : bool) : SpdmM SpdmContext unit :=
  let* c := gets (λ c, c) in
  if negb is_app_message && exceeds_transfer_size c send_buffer then
    match fuel with
    | O => panic
    | S fuel =>
        let* err := with_send_buffer (error SpdmErrorResponseTooLarge) in
        send_secured_message_rec fuel session_id err is_app_message
    end
  else
    let* (used, transport_buffer) := with_transport_buffer
      (encode_secured_message mode session_id send_buffer false is_app_message) in
    let* bs := sub_slice 0 used transport_buffer in
    device_send bs;;
    let* opcode := unwrap (send_buffer !! 1%nat) in
    after_secured_send session_id opcode.

Definition send_secured_message : Z → bytes → bool → SpdmM SpdmContext unit :=
  send_secured_message_rec 2.

(** In a session or outside, as the handlers that serve both do. *)
Definition send_response (session_id : option Z) (send_buffer : bytes) : SpdmM SpdmContext unit :=
  match session_id with
  | Some id => send_secured_message id send_buffer false
  | None => send_message send_buffer
  end.

(*@ spdmlib/src/responder/error_rsp.rs 33-39 ResponderContext::send_spdm_error *)
Definition send_spdm_error (error_code : SpdmErrorCode) (error_data : Z)
    : SpdmM SpdmContext unit :=
  let* bs := with_send_buffer (write_spdm_error error_code error_data) in
  attempt (E:=SpdmStatus) (send_message bs);;
  ret tt.

(** ** Requests *)

(** Reading a payload in the current context. *)
Definition read_payload {A} (codec : SpdmContext → SpdmCodec A) (r : Reader)
    : M Rsp unit (A * Reader) :=
  let* c := gets fst in resume r (spdm_read (codec c)).

Definition reset_buffers (code : SpdmRequestResponseCode) (session_id : option Z)
    : SpdmM Rsp unit :=
  on_fst (modify (reset_buffer_via_request_code code session_id)).

Definition state_below (state : SpdmConnectionState) (c : SpdmContext) : bool :=
  SpdmConnectionState_get_u8 (connection_state (runtime_info c))
  <? SpdmConnectionState_get_u8 state.

(*@ spdmlib/src/responder/error_rsp.rs 59-81 ResponderContext::write_error_response *)
Definition write_error_response (error_code : SpdmErrorCode) (bs : bytes) : SpdmM Rsp unit :=
  let? (header, _) := read_header bs else error SpdmErrorInvalidRequest in
  let* c := gets fst in
  if decide (hd_version header ≠ negotiated_version c) then error SpdmErrorVersionMismatch else
  write_spdm_error error_code
    (if decide (error_code = SpdmErrorUnsupportedRequest)
     then SpdmRequestResponseCode_get_u8 (hd_request_response_code header) else 0).

(*@ spdmlib/src/responder/error_rsp.rs 43-57 ResponderContext::handle_error_request *)
Definition handle_error_request (error_code : SpdmErrorCode) (session_id : option Z) (bs : bytes)
    : SpdmM SpdmContext unit :=
  let* rsp := with_send_buffer (write_error_response error_code bs) in
  send_response session_id rsp.

End Responder.
