(* ===== verification/Within.v ===== *)
(** A program logic for what computations may change.

    [within R c] says that whatever [c] returns, an error or a panic included, the state it
    ends in is related by [R] to the one it started in.  There is a rule for each operation of
    the monad; [within_steps] applies them, and the hint database [within] holds the lemmas on
    the operations of the program.  Invariants are the instances [preserves I], and what a
    function leaves alone is an instance too. *)

From Stdlib Require Import RelationClasses.
From S2P Require Import Prelude Config Codec Status Algo Protocol Crypto KeySchedule Buffers Session Context SpdmCodec Opaque MsgNegotiate MsgAuth MsgSession Message Endpoint Responder.

Definition within {S E A} (R : relation S) (c : M S E A) : Prop :=
  ∀ s r s', c s = (r, s') → R s s'.

(** The same from one state. *)
Definition within_at {S E A} (R : relation S) (c : M S E A) (s : S) : Prop :=
  ∀ r s', c s = (r, s') → R s s'.

Definition preserves {S} (I : S → Prop) : relation S := λ s s', I s → I s'.

#[export] Instance preserves_preorder {S} (I : S → Prop) : PreOrder (preserves I).
Proof. split; unfold preserves; [intros s|intros s s' s'']; auto. Qed.

(** Relations pulled back along the projections of a pair. *)
Definition on_first {S T} (R : relation S) : relation (S * T) := λ s s', R s.1 s'.1.
Definition on_second {S T} (R : relation T) : relation (S * T) := λ s s', R s.2 s'.2.

#[export] Instance on_first_preorder {S T} (R : relation S) `{!PreOrder R} :
  PreOrder (on_first (T:=T) R).
Proof. split; unfold on_first; [intros s; reflexivity|intros s s' s'' ??; by etrans]. Qed.
#[export] Instance on_second_preorder {S T} (R : relation T) `{!PreOrder R} :
  PreOrder (on_second (S:=S) R).
Proof. split; unfold on_second; [intros s; reflexivity|intros s s' s'' ??; by etrans]. Qed.

Definition both {S} (R R' : relation S) : relation S := λ s s', R s s' ∧ R' s s'.

#[export] Instance both_preorder {S} (R R' : relation S) `{!PreOrder R} `{!PreOrder R'} :
  PreOrder (both R R').
Proof. split; [intros s; split; reflexivity|intros s s' s'' [??] [??]; split; by etrans]. Qed.

(** No change at all. *)
Definition unchanged {S} : relation S := λ s s', s' = s.

#[export] Instance unchanged_preorder {S} : PreOrder (@unchanged S).
Proof. split; unfold unchanged; [done|intros s s' s'' ??; congruence]. Qed.

Section Rules.
Context {S : Type} (R : relation S) `{!PreOrder R}.

Lemma within_at_intro {E A : Type} (c : M S E A) : (∀ s, within_at R c s) → within R c.
Proof. intros H s r s'. apply H. Qed.

Lemma within_mono {E A : Type} (R' : relation S) (c : M S E A) :
  within R' c → (∀ s s', R' s s' → R s s') → within R c.
Proof. intros H Hi s r s' Hc. by eapply Hi, H. Qed.

Lemma within_ret {E A : Type} (a : A) : within R (ret (E:=E) a).
Proof. by intros s r s' [= <- <-]. Qed.
Lemma within_throw {E A : Type} (e : E) : within R (throw (A:=A) e).
Proof. by intros s r s' [= <- <-]. Qed.
Lemma within_panic {E A : Type} : within R (panic (E:=E) (A:=A)).
Proof. by intros s r s' [= <- <-]. Qed.
Lemma within_gets {E A : Type} (f : S → A) : within R (gets (E:=E) f).
Proof. by intros s r s' [= <- <-]. Qed.
Lemma within_of_outcome {E A : Type} (o : outcome E A) : within R (of_outcome o).
Proof. by intros s r s' [= <- <-]. Qed.
Lemma within_ok_or {E A : Type} (e : E) (o : option A) : within R (ok_or e o).
Proof. destruct o; [apply within_ret|apply within_throw]. Qed.
Lemma within_unwrap {E A : Type} (o : option A) : within R (unwrap (E:=E) o).
Proof. destruct o; [apply within_ret|apply within_panic]. Qed.

Lemma within_at_bind {E A B : Type} (c : M S E A) (k : A → M S E B) s :
  within_at R c s → (∀ a s', c s = (Ok a, s') → within_at R (k a) s') → within_at R (bind c k) s.
Proof.
  intros Hc Hk r s' Hb. unfold bind in Hb. destruct (c s) as [[a|e|] s1] eqn:Hcs.
  - etrans; [by eapply Hc|by eapply Hk].
  - injection Hb as <- <-. by eapply Hc.
  - injection Hb as <- <-. by eapply Hc.
Qed.

Lemma within_bind {E A B : Type} (c : M S E A) (k : A → M S E B) :
  within R c → (∀ a s s', c s = (Ok a, s') → within R (k a)) → within R (bind c k).
Proof.
  intros Hc Hk. apply within_at_intro. intros s. apply within_at_bind; [intros ??; apply Hc|].
  intros a s' Ha r s''. by apply (Hk a s s').
Qed.

Lemma within_if {E A : Type} (b : bool) (c1 c2 : M S E A) :
  (b = true → within R c1) → (b = false → within R c2) → within R (if b then c1 else c2).
Proof. destruct b; auto. Qed.
Lemma within_dec {E A : Type} {P} (d : Decision P) (c1 c2 : M S E A) :
  (P → within R c1) → (¬ P → within R c2) → within R (if d then c1 else c2).
Proof. destruct d; auto. Qed.

Lemma within_bind_sub {E B : Type} a b (k : nat → M S E B) :
  ((b ≤ a)%nat → within R (k (a - b)%nat)) → within R (bind (sub_usize a b) k).
Proof.
  intros Hk. unfold sub_usize. destruct (Nat.leb_spec b a) as [Hle|Hlt].
  - apply within_bind; [apply within_ret|]. intros ??? [= <- <-]. auto.
  - apply within_bind; [apply within_panic|done].
Qed.

Lemma within_modify {E : Type} (f : S → S) : (∀ s, R s (f s)) → within R (modify (E:=E) f).
Proof. by intros Hf s r s' [= <- <-]. Qed.
End Rules.

Section Rules2.
Context {S : Type} (R : relation S) `{!PreOrder R}.

Lemma within_map_err {E E' A : Type} (f : E → E') (c : M S E A) : within R c → within R (map_err f c).
Proof.
  intros Hc s r s' H. unfold map_err in H. destruct (c s) as [[] s1] eqn:Hcs;
    injection H as <- <-; by eapply Hc.
Qed.

Lemma within_at_attempt {E E' A : Type} (c : M S E A) s :
  within_at R c s → within_at R (attempt (E':=E') c) s.
Proof.
  intros Hc r s' H. unfold attempt in H. destruct (c s) as [[] s1] eqn:Hcs;
    injection H as <- <-; by eapply Hc.
Qed.
Lemma within_attempt {E E' A : Type} (c : M S E A) : within R c → within R (attempt (E':=E') c).
Proof. intros Hc. apply within_at_intro. intros s. apply within_at_attempt. intros ??. apply Hc. Qed.

Lemma within_at_or_else {E E' A B : Type} (c : M S E A) (bad : M S E' B) (k : A → M S E' B) s :
  within_at R c s →
  (∀ e s', c s = (Err e, s') → within_at R bad s') →
  (∀ a s', c s = (Ok a, s') → within_at R (k a) s') → within_at R (or_else c bad k) s.
Proof.
  intros Hc Hb Hk. unfold or_else. apply within_at_bind; [done|by apply within_at_attempt|].
  intros [e|a] s' H; unfold attempt in H; destruct (c s) as [[] s1] eqn:Hcs; simplify_eq;
    [by eapply Hb|by eapply Hk].
Qed.

Lemma within_or_else {E E' A B : Type} (c : M S E A) (bad : M S E' B) (k : A → M S E' B) :
  within R c → within R bad → (∀ a s s', c s = (Ok a, s') → within R (k a)) →
  within R (or_else c bad k).
Proof.
  intros Hc Hb Hk. apply within_at_intro. intros s. apply within_at_or_else.
  - intros ??. apply Hc.
  - intros ?????. by eapply Hb.
  - intros a s' Ha r s''. by eapply Hk.
Qed.

Lemma within_expect {E E' A : Type} (c : M S E A) : within R c → within R (expect (E':=E') c).
Proof.
  intros Hc. apply within_or_else; [done|by apply within_panic|]. intros. by apply within_ret.
Qed.
End Rules2.

Lemma within_zoom {S T E A} (R : relation S) (Q : relation T) (get : S → T) (put : T → S → S)
    (c : M T E A) :
  within Q c → (∀ s t, Q (get s) t → R s (put t s)) → within R (zoom get put c).
Proof.
  intros Hc Hp s r s' H. unfold zoom in H. destruct (c (get s)) as [o t] eqn:Hcs.
  injection H as <- <-. by eapply Hp, Hc.
Qed.

Lemma within_on_fst {S T E A} (R : relation S) (c : M S E A) :
  within R c → within (on_first (T:=T) R) (on_fst c).
Proof. intros Hc. by eapply within_zoom. Qed.
Lemma within_on_snd {S T E A} (R : relation T) (c : M T E A) :
  within R c → within (on_second (S:=S) R) (on_snd c).
Proof. intros Hc. by eapply within_zoom. Qed.

(** The other component is left alone. *)
Lemma within_on_snd_first {S T E A} (R : relation S) `{!PreOrder R} (c : M T E A) :
  within (S:=S * T) (on_first R) (on_snd c).
Proof.
  apply (within_zoom _ (λ _ _, True)); [done|]. intros [s t] t' _. unfold on_first. by simpl.
Qed.

Create HintDb within discriminated.
#[export] Hint Constants Opaque : within.
#[export] Hint Resolve within_ret within_throw within_panic within_gets within_of_outcome
  within_ok_or within_unwrap within_on_snd_first : within.

(** One rule; [within_steps] stops at [modify], [zoom] and calls it does not know. *)
Ltac within_step :=
  lazymatch goal with
  | |- within _ (bind (sub_usize _ _) _) => apply within_bind_sub; [apply _|intros ?]
  | |- within _ (bind _ _) => apply within_bind; [apply _| |intros ? ? ? _]
  | |- within _ (or_else _ _ _) => apply within_or_else; [apply _| | |intros ? ? ? _]
  | |- within _ (expect _) => apply within_expect; [apply _|]
  | |- within _ (attempt _) => apply within_attempt
  | |- within _ (map_err _ _) => apply within_map_err
  | |- within _ (some_or _ _) => apply within_map_err
  | |- within _ (if decide _ then _ else _) => apply within_dec; intros _
  | |- within _ (if ?b then _ else _) => destruct b
  | |- within _ (match ?x with _ => _ end) => destruct x
  | |- within _ (let '(_, _) := ?x in _) => destruct x
  | |- within _ (let _ := _ in _) => cbv zeta
  | |- within _ (modify _) => fail
  | |- within _ ((λ _, _) _) => cbv beta
  | |- _ => solve [auto with within nocore typeclass_instances]
  end.
Ltac within_steps := repeat within_step.

(** ** Operations that leave the state alone *)

Section Stateless.
Context {S : Type} (R : relation S) `{!PreOrder R}.

Lemma within_stateless {E A} (c : ∀ T, M T E A) : stateless c → within R (c S).
Proof. intros Hc s r s' H. rewrite (Hc S s) in H. injection H as <- <-. reflexivity. Qed.

Lemma within_sub_slice {E} lo hi arr : within R (sub_slice (E:=E) lo hi arr).
Proof. unfold sub_slice. within_steps. Qed.
Lemma within_slice_copy {E} arr pos bs : within R (slice_copy (E:=E) arr pos bs).
Proof. unfold slice_copy. within_steps. Qed.
Lemma within_sub_usize {E} a b : within R (sub_usize (E:=E) a b).
Proof. unfold sub_usize. within_steps. Qed.
Lemma within_sized_as_ref {E} v : within R (sized_as_ref (E:=E) v).
Proof. unfold sized_as_ref. within_steps. Qed.
Lemma within_sized_from {E} max v : within R (sized_from (E:=E) max v).
Proof. unfold sized_from. within_steps. Qed.
Lemma within_mb_as_ref {E} b : within R (mb_as_ref (E:=E) b).
Proof. unfold mb_as_ref. within_steps. Qed.
Lemma within_add_u8 {E} a b : within R (add_u8 (E:=E) a b).
Proof. unfold add_u8. within_steps. Qed.
Lemma within_add_u16 {E} mode a b : within R (add_u16 (E:=E) mode a b).
Proof. unfold add_u16. within_steps. Qed.
Lemma within_with_reader {E A} bs (c : M Reader E A) : within R (with_reader bs c).
Proof.
  intros s r s' H. unfold with_reader in H.
  destruct (c (Reader_init bs)) as [[] ?]; by injection H as <- <-.
Qed.
Lemma within_read_header bs : within R (read_header bs).
Proof. apply within_with_reader. Qed.
Lemma within_with_writer {E A} bs (c : M Writer E A) : within R (with_writer bs c).
Proof.
  intros s r s' H. unfold with_writer in H.
  destruct (c (Writer_init bs)) as [[] ?]; by injection H as <- <-.
Qed.
Lemma within_resume {E A} rd (c : M Reader E A) : within R (resume rd c).
Proof.
  intros s r s' H. unfold resume in H. destruct (c rd) as [[] ?]; by injection H as <- <-.
Qed.
Lemma within_with_buffer {A} n (c : SpdmM bytes A) : within R (with_buffer n c).
Proof.
  intros s r s' H. unfold with_buffer in H.
  destruct (c (replicate n 0)) as [[] ?]; by injection H as <- <-.
Qed.
End Stateless.

#[export] Hint Resolve within_sub_slice within_slice_copy within_sub_usize within_sized_as_ref
  within_sized_from within_mb_as_ref within_add_u8 within_add_u16 within_with_reader
  within_read_header within_with_writer within_resume within_with_buffer : within.

(** ** Encoders only append *)

(** What was written stays, and the offset stays inside the buffer. *)
Definition appended : relation Writer := λ w w',
  Writer_wf w →
  Writer_wf w' ∧ length (wr_buf w') = length (wr_buf w) ∧ (wr_offs w ≤ wr_offs w')%nat ∧
  take (wr_offs w) (wr_buf w') = take (wr_offs w) (wr_buf w).

#[export] Instance appended_preorder : PreOrder appended.
Proof.
  split; [by intros w Hw|]. intros w w' w'' H1 H2 Hw.
  destruct (H1 Hw) as (Hw'&Hl1&Ho1&Ht1). destruct (H2 Hw') as (Hw''&Hl2&Ho2&Ht2).
  split_and!; [done|congruence|lia|]. rewrite <- Ht1.
  assert (∀ l : bytes, take (wr_offs w) l = take (wr_offs w) (take (wr_offs w') l)) as Htt.
  { intros l. by rewrite take_take, Nat.min_l. }
  rewrite (Htt (wr_buf w'')), (Htt (wr_buf w')). by rewrite Ht2.
Qed.

Lemma appended_append w bs :
  (length bs ≤ Writer_left w)%nat → appended w (Writer_append w bs).
Proof.
  intros Hl Hw. split_and!; [by apply Writer_append_wf|..]; unfold Writer_wf, Writer_left in *;
    cbn [Writer_append wr_buf wr_offs].
  - apply length_splice. lia.
  - lia.
  - unfold splice. by rewrite take_app_le, take_take, Nat.min_id by (rewrite length_take; lia).
Qed.

Lemma within_extend bs : within appended (Writer_extend_from_slice bs).
Proof.
  intros w r w' H. unfold Writer_extend_from_slice in H. case_decide as Hd.
  - by injection H as <- <-.
  - injection H as <- <-. intros Hw. unfold Writer_wf, Writer_left in *.
    rewrite copy_loop_splice by lia.
    apply (appended_append w bs); unfold Writer_left; [lia|done].
Qed.

Lemma within_push v : within appended (Writer_push v).
Proof.
  intros w r w' H. unfold Writer_push in H. case_decide as Hd.
  - by injection H as <- <-.
  - injection H as <- <-. intros Hw. unfold Writer_wf, Writer_left in *.
    rewrite insert_splice by lia.
    apply (appended_append w [v]); unfold Writer_left; simpl; [lia|done].
Qed.
#[export] Hint Resolve within_extend within_push : within.
