(* ===== verification/RspWriter.v ===== *)
(** What the responder leaves in its send buffer: encoders only append, so that the second
    byte of the buffer is the code of the first message written, the response or an error.
    The state of connection and session changes by that byte when the message is sent. *)

From S2P Require Import Prelude Config Codec Status Algo Protocol Crypto KeySchedule Buffers Session Context SpdmCodec Opaque MsgNegotiate MsgAuth MsgSession Message Endpoint Responder Within.

(** ** Encoders only append *)

Class Forward {A} (c : Codec A) : Prop := forward v : within appended (encode c v).
Class SpdmForward {A} (c : SpdmCodec A) : Prop := spdm_forward v : within appended (spdm_encode c v).

Lemma within_encode_all {A E} (e : A → M Writer E nat) l :
  (∀ x, within appended (e x)) → within appended (encode_all e l).
Proof. intros He. induction l; cbn [encode_all]; within_steps; auto. Qed.

Ltac head t := lazymatch t with ?f _ => head f | _ => t end.

(** Codecs without an instance are unfolded. *)
Ltac forward_steps :=
  repeat first
    [ progress intros
    | lazymatch goal with
      | |- within _ (encode_all _ _) => apply within_encode_all
      | |- within _ (enc_data _) => unfold enc_data
      | |- within _ (enc _ _) => apply within_map_err
      | |- within _ (as_encode_err _) => apply within_map_err
      | |- within _ (encode ?c _) =>
          first [apply forward; apply _ | let h := head c in unfold h; cbn [encode]]
      | |- within _ (spdm_encode ?c _) =>
          first [apply spdm_forward; apply _ | let h := head c in unfold h; cbn [spdm_encode]]
      end
    | within_step ].

#[export] Instance u8_forward : Forward u8_codec.
Proof. intros v. cbn [encode u8_codec]. unfold encode_u8. forward_steps. Qed.
#[export] Instance u16_forward : Forward u16_codec.
Proof. intros v. cbn [encode u16_codec]. unfold encode_u16. forward_steps. Qed.
#[export] Instance u24_forward : Forward u24_codec.
Proof. intros v. cbn [encode u24_codec]. unfold encode_u24. forward_steps. Qed.
#[export] Instance u32_forward : Forward u32_codec.
Proof. intros v. cbn [encode u32_codec]. unfold encode_u32. forward_steps. Qed.
#[export] Instance u64_forward : Forward u64_codec.
Proof. intros v. cbn [encode u64_codec]. unfold encode_u64. forward_steps. Qed.
#[export] Instance enum_forward {A} base (get : A → Z) from `{!Forward base} :
  Forward (enum_codec base get from).
Proof. intros v. apply (forward (c:=base)). Qed.
#[export] Instance flags_forward base mask `{!Forward base} : Forward (flags_codec base mask).
Proof. intros v. apply (forward (c:=base)). Qed.
#[export] Instance strict_flags_forward mask : Forward (strict_flags_codec mask).
Proof. intros v. apply (forward (c:=u8_codec)). Qed.

Lemma within_encode_bytes bs : within appended (encode_bytes bs).
Proof. apply within_encode_all, forward. Qed.
Lemma within_enc_bytes bs : within appended (enc_bytes bs).
Proof. apply within_map_err, within_encode_bytes. Qed.
#[export] Hint Resolve within_encode_bytes within_enc_bytes : within.

Section Writer.
Context `{cfg : Config} `{cry : Crypto} `{sec : !Secret} `{dev : SpdmDeviceIo} `{tr : SpdmTransportEncap}.

Lemma within_alg_struct v : within appended (SpdmAlgStruct_encode v).
Proof. unfold SpdmAlgStruct_encode. forward_steps. Qed.
#[local] Hint Resolve within_alg_struct : within.

Lemma within_algorithms c p : within appended (SpdmAlgorithmsResponsePayload_encode c p).
Proof.
  unfold SpdmAlgorithmsResponsePayload_encode, enc_alg_count, alg_length, enc_opaque_support,
    alg_struct_size.
  forward_steps; apply within_alg_struct.
Qed.
Lemma within_negotiate c p : within appended (SpdmNegotiateAlgorithmsRequestPayload_encode c p).
Proof.
  unfold SpdmNegotiateAlgorithmsRequestPayload_encode, enc_alg_count, alg_length,
    enc_opaque_support, alg_struct_size.
  forward_steps; apply within_alg_struct.
Qed.
#[local] Hint Resolve within_algorithms within_negotiate : within.

Lemma within_payload c p : within appended (payload_encode c p).
Proof. destruct p; cbn [payload_encode]; forward_steps. Qed.

(** ** The code of the first message *)

(** The buffer is empty or starts with a message with the code [k], or an error. *)
Definition coded (k : Z) (w : Writer) : Prop :=
  Writer_wf w ∧ length (wr_buf w) = MAX_SPDM_MSG_SIZE ∧
  (wr_offs w = 0%nat ∨
   (2 ≤ wr_offs w)%nat ∧ (wr_buf w !! 1%nat = Some k ∨ wr_buf w !! 1%nat = Some 0x7F)).

Lemma coded_init k : coded k (Writer_init (replicate MAX_SPDM_MSG_SIZE 0)).
Proof. split; [|split; [apply length_replicate|by left]]. unfold Writer_wf. simpl. lia. Qed.

(** Appending after the first two bytes keeps the code. *)
Lemma coded_appended k w w' :
  coded k w → wr_offs w ≠ 0%nat → appended w w' → coded k w'.
Proof.
  intros (Hw&Hl&[?|[Ho Hk]]) Hne Happ; [done|].
  destruct (Happ Hw) as (Hw'&Hl'&Ho'&Ht). split; [done|]. split; [congruence|].
  right. split; [lia|].
  by rewrite <- (lookup_take_lt _ (wr_offs w)), Ht, lookup_take_lt by lia.
Qed.

Lemma encode_u8_room v w :
  (wr_offs w < length (wr_buf w))%nat →
  encode_u8 v w = (Ok 1%nat, {| wr_buf := <[wr_offs w := v]> (wr_buf w); wr_offs := wr_offs w + 1 |}).
Proof.
  intros Hl. unfold encode_u8, as_encode_err, map_err, Writer_push, bind.
  by rewrite decide_False by (unfold Writer_left; lia).
Qed.

Lemma header_at_start h w :
  wr_offs w = 0%nat → (2 ≤ length (wr_buf w))%nat →
  ∃ b, enc SpdmMessageHeader_codec h w = (Ok 2%nat,
    {| wr_buf := <[1%nat := SpdmRequestResponseCode_get_u8 (hd_request_response_code h)]>
                   (<[0%nat := b]> (wr_buf w)); wr_offs := 2 |}).
Proof.
  intros Ho Hl. exists (SpdmVersion_get_u8 (hd_version h)). unfold enc, map_err.
  cbn [encode SpdmMessageHeader_codec SpdmVersion_codec SpdmRequestResponseCode_codec enum_codec
       u8_codec].
  erewrite bind_step by (apply encode_u8_room; lia). rewrite Ho.
  erewrite bind_step by (apply encode_u8_room; cbn; rewrite length_insert; lia). done.
Qed.

Lemma within_message c m : within appended (spdm_encode (SpdmMessage_codec c) m).
Proof.
  cbn [spdm_encode SpdmMessage_codec]. forward_steps. apply within_payload.
Qed.

Lemma coded_message `{cv : !ConfigValid} k c m :
  (let code := SpdmRequestResponseCode_get_u8 (hd_request_response_code (msg_header m)) in
   code = k ∨ code = 0x7F) →
  within (preserves (coded k)) (spdm_encode (SpdmMessage_codec c) m).
Proof.
  intros Hk w r w' H Hc. destruct (decide (wr_offs w = 0%nat)) as [Ho|Ho].
  2: { eapply coded_appended; [done..|]. by eapply within_message. }
  destruct Hc as (Hw&Hl&_). pose proof min_msg_size as Hmin.
  destruct (header_at_start (msg_header m) w Ho ltac:(lia)) as [b Hh].
  cbn [spdm_encode SpdmMessage_codec] in H. unfold bind in H. rewrite Hh in H.
  set (w1 := {| wr_buf := _; wr_offs := 2 |}) in H.
  assert (coded k w1) as Hc1.
  { split; [unfold Writer_wf, w1; cbn; rewrite !length_insert; lia|].
    split; [unfold w1; cbn; by rewrite !length_insert|]. right. split; [done|].
    unfold w1; cbn. rewrite list_lookup_insert_eq by (rewrite length_insert; lia).
    destruct Hk as [->| ->]; auto. }
  destruct (payload_encode c (msg_payload m) w1) as [o w2] eqn:Hp.
  assert (w' = w2) as -> by (by destruct o; injection H as <- <-).
  eapply coded_appended; [exact Hc1|done|]. by eapply within_payload.
Qed.

(** ** Patches *)

Lemma coded_patch {E} k lo hi bs w r w' :
  Writer_patch (E:=E) lo hi bs w = (r, w') → (2 ≤ lo)%nat → coded k w → coded k w'.
Proof.
  unfold Writer_patch. case_decide as Hd; [|by intros [= <- <-]].
  intros [= <- <-] Hlo (Hw&Hl&Hk). unfold Writer_wf in *.
  rewrite copy_loop_splice by lia.
  split; [unfold Writer_wf; cbn; rewrite length_splice; lia|].
  split; [cbn; rewrite length_splice; lia|]. destruct Hk as [?|[Ho Hk]]; [by left|right].
  split; [done|]. cbn. unfold splice.
  by rewrite lookup_app_l, lookup_take_lt by (rewrite ?length_take; lia).
Qed.

(** ** How much an encoder writes *)

Definition grows {E A} (n : nat) (c : M Writer E A) : Prop :=
  ∀ w a w', c w = (Ok a, w') → Writer_wf w → (wr_offs w + n ≤ wr_offs w')%nat.

Lemma grows_appended {E A} (c : M Writer E A) : within appended c → grows 0 c.
Proof. intros Hc w a w' H Hw. destruct (Hc _ _ _ H Hw) as (_&_&?&_). lia. Qed.

Lemma grows_bind {E A B} n m (c : M Writer E A) (k : A → M Writer E B) :
  within appended c → grows n c → (∀ a, grows m (k a)) → grows (n + m) (bind c k).
Proof.
  intros Ha Hc Hk w b w' H Hw. apply bind_ok in H as (a&w1&H1&H2).
  pose proof (Hc _ _ _ H1 Hw). destruct (Ha _ _ _ H1 Hw) as [Hw1 _].
  pose proof (Hk _ _ _ _ H2 Hw1). lia.
Qed.

Lemma grows_le {E A} n m (c : M Writer E A) : grows n c → (m ≤ n)%nat → grows m c.
Proof. intros Hc Hle w a w' H Hw. pose proof (Hc _ _ _ H Hw). lia. Qed.

(** Skip a field. *)
Lemma grows_skip {E A B} m (c : M Writer E A) (k : A → M Writer E B) :
  within appended c → (∀ a, grows m (k a)) → grows m (bind c k).
Proof. intros Hc Hk. apply (grows_bind 0 m); [done|by apply grows_appended|done]. Qed.

Lemma grows_map_err {E E' A} (f : E → E') n (c : M Writer E A) :
  grows n c → grows n (map_err f c).
Proof. intros Hc w a w' H%map_err_ok. by eapply Hc. Qed.

Lemma grows_u8 v : grows 1 (encode_u8 v).
Proof.
  intros w a w' Hv Hw. unfold encode_u8, as_encode_err in Hv. minv.
  unfold Writer_push in *. case_decide; simplify_eq. simpl. lia.
Qed.

Lemma grows_encode_bytes bs : grows (length bs) (encode_bytes bs).
Proof.
  induction bs as [|b bs IH]; [intros ??? [= <- <-] ?; simpl; lia|].
  cbn [encode_bytes encode_all length].
  change (S (length bs)) with (1 + length bs)%nat.
  apply grows_bind; [apply forward| |].
  - apply grows_u8.
  - intros n. apply (grows_le (length bs + 0)); [|lia].
    apply grows_bind; [apply within_encode_bytes|exact IH|].
    intros m w a w' [= <- <-] _. lia.
Qed.

Lemma grows_enc_bytes bs : grows (length bs) (enc_bytes bs).
Proof. apply grows_map_err, grows_encode_bytes. Qed.

Lemma grows_ret {E A} (a : A) : grows 0 (ret (E:=E) a).
Proof. intros ??? [= <- <-] _. lia. Qed.

(** The value at the end of a message: it is written in full. *)
Lemma grows_last {E A} n (c : M Writer E nat) (f : nat → A) :
  within appended c → grows n c → grows n (let* m := c in ret (f m)).
Proof.
  intros Ha Hc. apply (grows_le (n + 0)); [|lia]. apply grows_bind; [done|done|].
  intros. apply grows_ret.
Qed.

Lemma grows_negotiated size max v :
  (data_size v ≤ length (data v))%nat →
  grows (data_size v) (spdm_encode (negotiated_codec size max) v).
Proof.
  intros Hl. cbn [spdm_encode negotiated_codec]. apply grows_skip; [forward_steps|]. intros n.
  apply grows_skip; [forward_steps|]. intros _. apply grows_last; [forward_steps|].
  apply (grows_le (length (take (data_size v) (data v)))); [apply grows_enc_bytes|].
  rewrite length_take. lia.
Qed.

Lemma grows_message c m n :
  grows n (payload_encode c (msg_payload m)) → grows (2 + n) (spdm_encode (SpdmMessage_codec c) m).
Proof.
  intros Hp. cbn [spdm_encode SpdmMessage_codec]. apply grows_bind; [forward_steps| |].
  - apply grows_map_err. cbn [encode SpdmMessageHeader_codec]. apply (grows_bind 1 1).
    1,2,3: cbn [encode SpdmVersion_codec SpdmRequestResponseCode_codec enum_codec].
    + apply forward.
    + apply (grows_le 1%nat); [exact (grows_u8 _)|done].
    + intros a. apply grows_last; [apply forward|exact (grows_u8 _)].
  - intros a. apply grows_last; [apply within_payload|done].
Qed.

Lemma grows_challenge c v :
  (data_size (ca_signature v) ≤ length (data (ca_signature v)))%nat →
  grows (data_size (ca_signature v)) (payload_encode c (SpdmChallengeAuthResponse v)).
Proof.
  intros Hl. cbn [payload_encode spdm_encode SpdmChallengeAuthResponsePayload_codec].
  do 7 (apply grows_skip; [forward_steps|intros ?]).
  apply grows_last; [forward_steps|by apply grows_negotiated].
Qed.

Lemma grows_measurements c v :
  need_signature c = true →
  (data_size (mr_signature v) ≤ length (data (mr_signature v)))%nat →
  grows (data_size (mr_signature v)) (payload_encode c (SpdmMeasurementsResponse v)).
Proof.
  intros Hn Hl. cbn [payload_encode spdm_encode SpdmMeasurementsResponsePayload_codec].
  do 5 (apply grows_skip; [forward_steps|intros ?]).
  apply grows_last; [forward_steps|].
  unfold measurements_signature_codec. cbn [spdm_encode opt_codec]. rewrite Hn.
  by apply grows_negotiated.
Qed.

Lemma grows_key_exchange c v :
  (data_size (kp_signature v) ≤ length (data (kp_signature v)))%nat →
  (data_size (kp_verify_data v) ≤ length (data (kp_verify_data v)))%nat →
  grows (data_size (kp_signature v) + if in_clear_text c then 0 else data_size (kp_verify_data v))
    (payload_encode c (SpdmKeyExchangeResponse v)).
Proof.
  intros Hs Hv. cbn [payload_encode spdm_encode SpdmKeyExchangeResponsePayload_codec].
  do 9 (apply grows_skip; [forward_steps|intros ?]).
  apply grows_bind; [forward_steps|by apply grows_negotiated|intros n].
  apply grows_last; [forward_steps|].
  unfold kp_verify_data_codec. cbn [spdm_encode opt_codec].
  destruct (in_clear_text c); cbn [negb]; [apply grows_ret|by apply grows_negotiated].
Qed.

Lemma grows_finish c v :
  in_clear_text c = true →
  (data_size (fp_verify_data v) ≤ length (data (fp_verify_data v)))%nat →
  grows (data_size (fp_verify_data v)) (payload_encode c (SpdmFinishResponse v)).
Proof.
  intros Hc Hv. cbn [payload_encode spdm_encode SpdmFinishResponsePayload_codec].
  do 2 (apply grows_skip; [forward_steps|intros ?]).
  apply grows_last; [forward_steps|].
  unfold fp_verify_data_codec. cbn [spdm_encode opt_codec]. rewrite Hc.
  by apply grows_negotiated.
Qed.

Lemma grows_psk_exchange c v :
  (data_size (pp_verify_data v) ≤ length (data (pp_verify_data v)))%nat →
  grows (data_size (pp_verify_data v)) (payload_encode c (SpdmPskExchangeResponse v)).
Proof.
  intros Hv. cbn [payload_encode spdm_encode SpdmPskExchangeResponsePayload_codec].
  do 9 (apply grows_skip; [forward_steps|intros ?]).
  apply grows_last; [forward_steps|by apply grows_negotiated].
Qed.

Lemma grows_digests c d n mask :
  (0 < slot_count mask)%nat → (0 < n)%nat → (data_size d ≤ length (data d))%nat →
  grows (data_size d)
    (payload_encode c (SpdmDigestsResponse {| dg_slot_mask := mask; dg_digests := replicate n d |})).
Proof.
  intros Hm Hn Hd. cbn [payload_encode spdm_encode SpdmDigestsResponsePayload_codec dg_slot_mask
    dg_digests].
  do 2 (apply grows_skip; [forward_steps|intros ?]). apply grows_last; [forward_steps|].
  destruct (slot_count mask) as [|k], n as [|n]; [lia..|]. cbn [replicate take encode_all].
  apply (grows_le (data_size d + 0)); [|lia].
  apply grows_bind; [forward_steps|by apply grows_negotiated|]. intros m.
  apply grows_appended. forward_steps.
Qed.

End Writer.
