(* ===== verification/Nonces.v ===== *)
(** The nonces of a session: what leaves [encode_spdm_secured_message] is sealed by the AEAD
    under nonces that do not repeat. *)

From S2P Require Import Prelude Config Codec Status Algo Protocol Crypto SpdmRing ToyRing KeySchedule Buffers Session SessionProofs Context SpdmCodec Endpoint Responder Within RspWriter.

Section Nonces.
Context `{cfg : Config} `{cry : Crypto} `{sec : !Secret} `{aead : !AeadLaws}.

(** ** What [encode_msg] hands to the AEAD *)

(** The packet carries the message [app]: it is some associated data, the cipher text and the
    tag of a call to the AEAD with that key and that nonce, on the length of the message and
    the message. *)
Definition sealed (alg : Z) (key : SpdmAeadKeyStruct) (iv : SpdmAeadIvStruct)
    (message : bytes * bytes) : Prop :=
  ∃ aad tag0 ct0 n tag ct,
    aead_encrypt alg key iv aad
      (le_bytes 2 (as_u16 (Z.of_nat (length message.1))) ++ message.1) tag0 ct0 =
      (Ok n, (tag, ct)) ∧
    message.2 = aad ++ ct ++ tag.

Lemma within_encode_sequence_number mode seq i count :
  within appended (encode_sequence_number mode seq i count).
Proof.
  revert i. induction count as [|count IH]; intros i; cbn [encode_sequence_number]; forward_steps.
  unfold shr_u64. destruct mode; forward_steps.
Qed.

Lemma assert_inv {S E} (b : bool) (s s' : S) u :
  (assert! b) s = (Ok (E:=E) u, s') → b = true ∧ s' = s.
Proof. destruct b; [by intros [= <- <-]|done]. Qed.

(** The bytes in front of the writer's position are as many as it says. *)
Lemma used_slice_length {S E A} bs (c : M Writer E A) (s s' : S) a w :
  within appended c → with_writer bs c s = (Ok (a, w), s') →
  s' = s ∧ length (Writer_used_slice w) = Writer_used w.
Proof.
  intros Hc H. unfold with_writer in H.
  destruct (c (Writer_init bs)) as [[a1|e|] w1] eqn:Hw; [|done|done]. injection H as <- <- <-.
  split; [done|]. apply Hc in Hw. destruct Hw as (Hw&_); [unfold Writer_wf; cbn; lia|].
  unfold Writer_used_slice, Writer_used. rewrite length_take. unfold Writer_wf in Hw. lia.
Qed.

(** The associated data, the cipher text and the tag, written one after the other. *)
Lemma packet_written aad ct tag (buf : bytes) :
  (length aad + length ct + length tag ≤ length buf)%nat →
  take (length aad + length ct + length tag)
    (splice (length aad + length ct) tag (splice 0 aad (splice (length aad) ct buf))) =
  aad ++ ct ++ tag.
Proof.
  intros Hl.
  destruct (split_buffer (length aad) (length ct) (length tag) buf) as (b1&b2&b3&Hsplit&H1&H2&H3); [lia|].
  rewrite Hsplit, splice_mid by done. 
  rewrite <- (app_nil_l (b1 ++ _)), (splice_mid 0 aad []), app_nil_l by done.
  rewrite (app_assoc aad ct), splice_mid by (rewrite ?length_app; lia).
  rewrite app_assoc, take_app_length' by (rewrite !length_app; lia). by rewrite app_assoc.
Qed.

Lemma plain_text_inv app buf (s s' : bytes) plain :
  (let* b := slice_copy (le_bytes 2 (as_u16 (Z.of_nat (length app))) ++ drop 2 buf) 2 app in
   sub_slice (E:=SpdmStatus) 0 (length app + 2) b) s = (Ok plain, s') →
  s' = s ∧ plain = le_bytes 2 (as_u16 (Z.of_nat (length app))) ++ app.
Proof.
  intros H. apply bind_ok in H as (b&s1&Hb&H).
  apply slice_copy_inv in Hb as (->&->&_). apply sub_slice_inv in H as (->&->&_).
  split; [done|]. rewrite drop_0, Nat.sub_0_r. unfold splice.
  rewrite (take_app_length' (le_bytes 2 _)), app_assoc by (by rewrite length_le_bytes).
  apply take_app_length'. rewrite length_app, length_le_bytes. lia.
Qed.

(** A tag that fills its buffer. *)
Lemma tag_whole tag size :
  (size ≤ 16)%nat → length tag = size → size = length (splice 0 tag (replicate 16 0)) →
  splice 0 tag (replicate 16 0) = tag.
Proof.
  intros Hs <- Hl. rewrite length_splice, length_replicate in Hl by (rewrite length_replicate; lia).
  unfold splice. rewrite take_0, drop_ge by (rewrite length_replicate; lia). apply app_nil_r.
Qed.

(** Whatever [encode_msg] accepts, what it leaves in the buffer is sealed under the nonce of
    the sequence number in force. *)
Lemma encode_msg_sealed mode s app sp buf n buf' :
  encode_msg mode s app sp buf = (Ok n, buf') →
  sealed (cp_aead_algo (crypto_param s)) (encryption_key sp) (nonce sp) (app, take n buf').
Proof.
  intros H. unfold encode_msg in H.
  apply bind_ok in H as (tag_size&?&[Htag <-]%of_outcome_ok&H).
  apply bind_ok in H as (len&b0&Hlen&H).
  assert (b0 = buf) as -> by (unfold add_u16 in Hlen; case_decide; [|destruct mode]; by inversion Hlen).
  destruct (sequence_number sp =? _); [done|].
  apply bind_ok in H as ([? w]&?&Hw&H). apply used_slice_length in Hw as [-> Haad].
  2: { forward_steps. apply within_encode_sequence_number. }
  cbn [snd] in H. rewrite <- Haad in H. apply bind_ok in H as ([]&?&[_ ->]%assert_inv&H).
  set (aad := Writer_used_slice w) in *.
  unfold bind at 1 in H. erewrite with_writer_cases in H
    by (apply writes_map_err, (encode_ok (c:=u16_codec)), as_uint_bound; lia).
  case_decide; [|done]. cbn [snd Writer_used wr_offs wr_buf] in H. rewrite length_le_bytes in H.
  erewrite bind_step in H by done. rewrite <- (bind_assoc (slice_copy _ _ _)) in H.
  apply bind_ok in H as (plain&?&[-> ->]%plain_text_inv&H).
  apply bind_ok in H as (tag0&?&(->&Htag0&_&Hts)%sub_slice_inv&H). rewrite length_replicate in Hts.
  erewrite bind_step in H by done.
  apply bind_ok in H as (ct0&?&(->&Hct0&_&Hcs)%sub_slice_inv&H).
  destruct (aead_encrypt _ _ _ _ _ _ _) as [res [tag ct]] eqn:Henc.
  apply aead_encrypt_length in Henc as Hlens. destruct Hlens as [Ht Hc].
  rewrite Htag0, length_take, drop_0, length_replicate in Ht.
  rewrite Hct0, length_take, length_drop in Hc.
  erewrite bind_step in H by done. apply bind_ok in H as ([c t]&?&[-> <-]%of_outcome_ok&H).
  do 2 (apply bind_ok in H as ([]&?&[_ ->]%assert_inv&H)).
  erewrite bind_step in H by done.
  apply bind_ok in H as (b1&?&(->&->&_)%slice_copy_inv&H).
  apply bind_ok in H as (?&?&(->&_&_&Hroom)%sub_slice_inv&H).
  apply bind_ok in H as ([]&?&[Hsize ->]%assert_inv&H).
  apply Nat.eqb_eq in Hsize. rewrite (tag_whole tag tag_size) in H by (exact Hsize || lia).
  apply bind_ok in H as (b2&?&(->&->&_)%slice_copy_inv&H). injection H as <- <-.
  exists aad, tag0, ct0, (c, t), tag, ct. split; [exact Henc|]. cbn [snd].
  replace (length app + 2)%nat with (length ct) by lia.
  replace tag_size with (length tag) by lia. apply packet_written.
  rewrite !length_splice in Hroom by (rewrite ?length_splice; lia). lia.
Qed.

(** ** The messages of a sender *)

(** What a sender that protects a list of messages hands to the transport: for each call that
    succeeds, the message and the packet.  A call that fails produces none; a panic is the end. *)
Fixpoint packets_sent (mode : overflow_mode) (is_requester : bool) (apps : list bytes)
    (s : SpdmSession) : list (bytes * bytes) :=
  match apps with
  | [] => []
  | app :: apps =>
      match encode_spdm_secured_message mode app is_requester
              (s, replicate SENDER_BUFFER_SIZE 0) with
      | (Ok n, (s', buf)) => (app, take n buf) :: packets_sent mode is_requester apps s'
      | (Err _, (s', _)) => packets_sent mode is_requester apps s'
      | (Panic, _) => []
      end
  end.

Lemma incr_u64_checked x : is_u64 x →
  incr_u64 Checked x = if x =? 0xFFFFFFFFFFFFFFFF then None else Some (x + 1).
Proof.
  unfold is_uint, incr_u64. intros Hx. case_decide as Hd; unfold is_uint in Hd;
    destruct (Z.eqb_spec x 0xFFFFFFFFFFFFFFFF); (done || lia).
Qed.

(** One call in a checked build: a panic, or the sequence number goes up by one and a packet is
    sealed under the nonce of the old one. *)
Lemma encode_step is_requester app s buf r s' buf' :
  session_active s = true → is_u64 (sequence_number (direction is_requester s)) →
  encode_spdm_secured_message Checked app is_requester (s, buf) = (r, (s', buf')) →
  r = Panic ∨
  (advanced is_requester s s' ∧ sequence_number (direction is_requester s) < 2 ^ 64 - 1 ∧
   ∀ n, r = Ok n → sealed (cp_aead_algo (crypto_param s)) (encryption_key (direction is_requester s))
                     (nonce (direction is_requester s)) (app, take n buf')).
Proof.
  intros Hact Hseq H. rewrite encode_protect in H by done.
  pose proof (incr_u64_checked _ Hseq) as Hincr. unfold is_uint in Hseq.
  destruct (Z.eqb_spec (sequence_number (direction is_requester s)) 0xFFFFFFFFFFFFFFFF) as [He|He].
  { left. pose proof (protect_overflow Checked is_requester s buf
      (λ s sp, encode_msg Checked s app sp) Hact Hincr) as Hp. by rewrite H in Hp. }
  destruct (protect_moved Checked is_requester _ s buf
    (λ s sp, encode_msg Checked s app sp) Hact Hincr) as (s1&Hmoved&Heq).
  rewrite Heq in H. destruct (encode_msg _ _ _ _ _) as [[n|e|] b] eqn:Henc;
    injection H as <- <- <-; [right|right|by left]; (split_and!; [exact Hmoved|lia|]); [|done].
  intros ? [= <-]. by eapply encode_msg_sealed.
Qed.

(** The packets are sealed under the nonces of distinct sequence numbers, none below the first. *)
Lemma packets_sealed is_requester apps s :
  session_active s = true → is_u64 (sequence_number (direction is_requester s)) →
  ∃ seqs, NoDup seqs ∧
    Forall (λ q, sequence_number (direction is_requester s) ≤ q < 2 ^ 64) seqs ∧
    Forall2 (λ q, sealed (cp_aead_algo (crypto_param s)) (encryption_key (direction is_requester s))
                    (nonce (direction is_requester s <| sequence_number := q |>)))
      seqs (packets_sent Checked is_requester apps s).
Proof.
  revert s. induction apps as [|app apps IH]; intros s Hact Hseq.
  { exists []. split_and!; constructor. }
  cbn [packets_sent].
  destruct (encode_spdm_secured_message _ _ _ _) as [r [s' buf]] eqn:Henc.
  destruct (encode_step _ _ _ _ _ _ _ Hact Hseq Henc) as [->|((_&Hcp&_&Hst&Hd)&Hlt&Hsealed)].
  { exists []. split_and!; constructor. }
  destruct (IH s') as (seqs&Hnd&Hge&Hall).
  { unfold session_active in *. by rewrite Hst. }
  { rewrite Hd. cbn. unfold is_uint in *. lia. }
  rewrite Hcp, Hd in *. cbn in Hge, Hall.
  assert (Forall (λ q, sequence_number (direction is_requester s) ≤ q < 2 ^ 64) seqs) as Hge'
    by (rewrite List.Forall_forall in *; intros q Hq%Hge; lia).
  destruct r as [n|e|]; [|by exists seqs|exists []; split_and!; constructor].
  exists (sequence_number (direction is_requester s) :: seqs). split_and!.
  - constructor; [|done]. intros Hin%list_elem_of_In. rewrite List.Forall_forall in Hge.
    specialize (Hge _ Hin). lia.
  - constructor; [unfold is_uint in Hseq; lia|done].
  - constructor; [|exact Hall].
    specialize (Hsealed n eq_refl). by destruct (direction is_requester s).
Qed.

(** ** The theorem *)

(** C20: No nonce seals two messages under one key.  Whatever messages a sender protects with
    [encode_spdm_secured_message], in whatever number and whether or not single calls fail, every
    packet it produces in a build with overflow checks is the output of the AEAD under the one
    key of the direction, on the message it stands for, and the nonces of these calls are
    pairwise distinct. *)
Theorem nonces_distinct is_requester apps s :
  session_active s = true → is_u64 (sequence_number (direction is_requester s)) →
  (8 ≤ length (data (salt (direction is_requester s))))%nat →
  ∃ nonces, NoDup nonces ∧
    Forall2 (sealed (cp_aead_algo (crypto_param s)) (encryption_key (direction is_requester s)))
      nonces (packets_sent Checked is_requester apps s).
Proof.
  intros Hact Hseq Hsalt. destruct (packets_sealed is_requester apps s Hact Hseq) as (seqs&Hnd&Hge&Hall).
  exists ((λ q, nonce (direction is_requester s <| sequence_number := q |>)) <$> seqs).
  split; [|by rewrite Forall2_fmap_l].
  apply NoDup_fmap_2_strong; [|done]. rewrite List.Forall_forall in Hge.
  intros x y Hx%list_elem_of_In%Hge Hy%list_elem_of_In%Hge Hn. unfold is_uint in Hseq.
  apply nonce_inj in Hn; cbn in *; unfold is_uint; auto; lia.
Qed.
End Nonces.

Section Example.
#[local] Existing Instances default_config toy_crypto toy_secret toy_aead_laws.

(** Two packets are sent before the sequence number runs out. *)
Lemma nonces_distinct_witness :
  (∃ nonces, NoDup nonces ∧
     Forall2 (sealed SpdmAeadAlgo.AES_256_GCM {| data_size := 32; data := replicate 32 5 |})
       nonces (packets_sent Checked false [[1]; [2]; [3]] (toy_session (2 ^ 64 - 3)))) ∧
  length (packets_sent Checked false [[1]; [2]; [3]] (toy_session (2 ^ 64 - 3))) = 2%nat.
Proof.
  split; [|vm_compute; reflexivity].
  apply (nonces_distinct false [[1]; [2]; [3]] (toy_session (2 ^ 64 - 3)));
    [done|unfold is_uint; cbn; lia|cbn; lia].
Defined.
End Example.
