(* ===== verification/RspConnect.v ===== *)
(** Model of the handlers of the responder that do not need a session: responder/version_rsp.rs,
    capability_rsp.rs, algorithm_rsp.rs, digest_rsp.rs, certificate_rsp.rs, challenge_rsp.rs,
    measurement_rsp.rs and vendor_rsp.rs.  Each [write_*] fills the response, each [handle_*]
    sends it. *)

From S2P Require Import Prelude Config Codec Status Algo Protocol Crypto KeySchedule Buffers Session Context SpdmCodec Opaque MsgNegotiate MsgAuth MsgSession Message Endpoint Responder.

Section Connect.
Context `{cfg : Config} `{sec : Secret} `{dev : SpdmDeviceIo} `{tr : SpdmTransportEncap}.
Context `{app : !SpdmHandlers}.
Context (mode : overflow_mode).

Definition append_a (bs : bytes) : SpdmM Rsp unit := on_fst (append_message_a bs).
Definition append_written_a : SpdmM Rsp unit :=
  let* w := gets snd in append_a (Writer_used_slice w).

(** Transcript B is kept outside sessions only. *)
Definition append_b (session_id : option Z) (bs : bytes) : SpdmM Rsp unit :=
  match session_id with None => on_fst (append_message_b bs) | Some _ => ret tt end.
Definition append_written_b (session_id : option Z) : SpdmM Rsp unit :=
  let* w := gets snd in append_b session_id (Writer_used_slice w).

(** The checks that most handlers start with: the connection state and the version. *)
Definition expect_negotiated (bs : bytes) (bad : SpdmErrorCode → SpdmM Rsp unit)
    (k : Reader → SpdmM Rsp unit) : SpdmM Rsp unit :=
  let* c := gets fst in
  if state_below SpdmConnectionNegotiated c then bad SpdmErrorUnexpectedRequest else
  let? (header, reader) := read_header bs else bad SpdmErrorInvalidRequest in
  if decide (hd_version header ≠ negotiated_version c) then bad SpdmErrorVersionMismatch else
  k reader.

(** ** VERSION *)

(*@ spdmlib/src/responder/version_rsp.rs 19-89 ResponderContext::write_spdm_version_response *)
Definition write_spdm_version_response (bs : bytes) : SpdmM Rsp unit :=
  let? (header, reader) := read_header bs else error SpdmErrorInvalidRequest in
  if decide (hd_version header ≠ SpdmVersion10) then error SpdmErrorVersionMismatch else
  reset_buffers SpdmRequestGetVersion None;;
  let? (_, reader) := read_payload (λ _, SpdmGetVersionRequestPayload_codec) reader
    else error SpdmErrorInvalidRequest in
  on_fst (modify reset_context);;
  let* request := consumed bs reader in
  let? _ := append_a request else error SpdmErrorUnspecified in
  let* c := gets fst in
  let* v0 := unwrap (config_spdm_version (config_info c) !! 0%nat) in
  let* v1 := unwrap (config_spdm_version (config_info c) !! 1%nat) in
  let* v2 := unwrap (config_spdm_version (config_info c) !! 2%nat) in
  let? _ := on_snd (spdm_encode (SpdmMessage_codec c)
      {| msg_header := {| hd_version := SpdmVersion10;
                          hd_request_response_code := SpdmResponseVersion |};
         msg_payload := SpdmVersionResponse
           {| version_number_entry_count := 3;
              versions := (λ v, {| vs_update := 0; vs_version := v |}) <$> [v0; v1; v2] |} |})
    else error SpdmErrorUnspecified in
  let? _ := append_written_a else error SpdmErrorUnspecified in
  ret tt.

(*@ spdmlib/src/responder/version_rsp.rs 12-17 ResponderContext::handle_spdm_version *)
Definition handle_spdm_version (bs : bytes) : SpdmM SpdmContext unit :=
  let* rsp := with_send_buffer (write_spdm_version_response bs) in send_message rsp.

(** ** CAPABILITIES *)

(** The capabilities of both sides as recorded in the context. *)
(*@ spdmlib/src/responder/capability_rsp.rs 54-72 ResponderContext::write_spdm_capability_response *)
Definition record_capabilities (q : SpdmGetCapabilitiesRequestPayload) (c : SpdmContext)
    : SpdmContext :=
  let config := config_info c in
  let c := c <| negotiate_info ::= λ n,
    n <| req_ct_exponent_sel := cq_ct_exponent q |> <| req_capabilities_sel := cq_flags q |>
      <| rsp_ct_exponent_sel := config_rsp_ct_exponent config |>
      <| rsp_capabilities_sel := config_rsp_capabilities config |> |> in
  if negb (version_below (negotiated_version c) SpdmVersion12) then
    c <| negotiate_info ::= λ n,
      n <| req_data_transfer_size_sel := cq_data_transfer_size q |>
        <| req_max_spdm_msg_size_sel := cq_max_spdm_msg_size q |>
        <| rsp_data_transfer_size_sel := config_data_transfer_size config |>
        <| rsp_max_spdm_msg_size_sel := config_max_spdm_msg_size config |> |>
  else c.

(*@ spdmlib/src/responder/capability_rsp.rs 20-112 ResponderContext::write_spdm_capability_response *)
Definition write_spdm_capability_response (bs : bytes) : SpdmM Rsp unit :=
  let* c := gets fst in
  if decide (connection_state (runtime_info c) ≠ SpdmConnectionAfterVersion)
  then error SpdmErrorUnexpectedRequest else
  let? (header, reader) := read_header bs else error SpdmErrorInvalidRequest in
  if version_below (hd_version header) SpdmVersion10 then error SpdmErrorInvalidRequest else
  on_fst (modify (λ c, c <| negotiate_info ::=
    λ n, n <| spdm_version_sel := hd_version header |> |>));;
  reset_buffers SpdmRequestGetCapabilities None;;
  let? (q, reader) := read_payload SpdmGetCapabilitiesRequestPayload_codec reader
    else error SpdmErrorInvalidRequest in
  on_fst (modify (record_capabilities q));;
  let* request := consumed bs reader in
  let? _ := append_a request else error SpdmErrorUnspecified in
  let* c := gets fst in
  let config := config_info c in
  let? _ := write_response SpdmResponseCapabilities (SpdmCapabilitiesResponse
      {| cp_ct_exponent := config_rsp_ct_exponent config;
         cp_flags := config_rsp_capabilities config;
         cp_data_transfer_size := config_data_transfer_size config;
         cp_max_spdm_msg_size := config_max_spdm_msg_size config |})
    else error SpdmErrorUnspecified in
  let? _ := append_written_a else error SpdmErrorUnspecified in
  ret tt.

(*@ spdmlib/src/responder/capability_rsp.rs 13-18 ResponderContext::handle_spdm_capability *)
Definition handle_spdm_capability (bs : bytes) : SpdmM SpdmContext unit :=
  let* rsp := with_send_buffer (write_spdm_capability_response bs) in send_message rsp.

(** ** ALGORITHMS *)

(*@ spdmlib/src/responder/algorithm_rsp.rs 60-68 ResponderContext::write_spdm_algorithm *)
Definition offer_alg (n : SpdmNegotiateInfo) (a : SpdmAlgStruct) : SpdmNegotiateInfo :=
  match alg_supported a with
  | SpdmAlgoDhe v => n <| dhe_sel := v |>
  | SpdmAlgoAead v => n <| aead_sel := v |>
  | SpdmAlgoReqAsym v => n <| req_asym_sel := v |>
  | SpdmAlgoKeySchedule v => n <| key_schedule_sel := v |>
  | SpdmAlgoUnknown => n
  end.

(** What the requester offers is recorded first ... *)
(*@ spdmlib/src/responder/algorithm_rsp.rs 50-69 ResponderContext::write_spdm_algorithm *)
Definition record_offer (q : SpdmNegotiateAlgorithmsRequestPayload) (n : SpdmNegotiateInfo)
    : SpdmNegotiateInfo :=
  fold_left offer_alg (take (Z.to_nat (nq_alg_struct_count q)) (nq_alg_struct q))
    (n <| measurement_specification_sel := nq_measurement_specification q |>
       <| base_hash_sel := nq_base_hash_algo q |>
       <| base_asym_sel := nq_base_asym_algo q |>).

(** ... and then replaced by the algorithm of each kind that is preferred. *)
(*@ spdmlib/src/responder/algorithm_rsp.rs 85-114 ResponderContext::write_spdm_algorithm *)
Definition select_algorithms (config : SpdmConfigInfo) (n : SpdmNegotiateInfo)
    : SpdmNegotiateInfo :=
  n <| measurement_specification_sel ::=
         λ v, SpdmMeasurementSpecification.prioritize v (config_measurement_specification config) |>
    <| measurement_hash_sel := config_measurement_hash_algo config |>
    <| base_hash_sel ::= λ v, SpdmBaseHashAlgo.prioritize v (config_base_hash_algo config) |>
    <| base_asym_sel ::= λ v, SpdmBaseAsymAlgo.prioritize v (config_base_asym_algo config) |>
    <| dhe_sel ::= λ v, SpdmDheAlgo.prioritize v (config_dhe_algo config) |>
    <| aead_sel ::= λ v, SpdmAeadAlgo.prioritize v (config_aead_algo config) |>
    <| req_asym_sel ::= λ v, SpdmReqAsymAlgo.prioritize v (config_req_asym_algo config) |>
    <| key_schedule_sel ::=
         λ v, SpdmKeyScheduleAlgo.prioritize v (config_key_schedule_algo config) |>.

(*@ spdmlib/src/responder/algorithm_rsp.rs 134-166 ResponderContext::write_spdm_algorithm *)
Definition algorithms_response (n : SpdmNegotiateInfo) : SpdmAlgorithmsResponsePayload := {|
  np_measurement_specification_sel := measurement_specification_sel n;
  np_other_params_selection := opaque_data_support n;
  np_measurement_hash_algo := measurement_hash_sel n;
  np_base_asym_sel := base_asym_sel n;
  np_base_hash_sel := base_hash_sel n;
  np_alg_struct_count := 4;
  np_alg_struct :=
    [{| alg_type := SpdmAlgTypeDHE; alg_supported := SpdmAlgoDhe (dhe_sel n) |};
     {| alg_type := SpdmAlgTypeAEAD; alg_supported := SpdmAlgoAead (aead_sel n) |};
     {| alg_type := SpdmAlgTypeReqAsym; alg_supported := SpdmAlgoReqAsym (req_asym_sel n) |};
     {| alg_type := SpdmAlgTypeKeySchedule;
        alg_supported := SpdmAlgoKeySchedule (key_schedule_sel n) |}];
|}.

(*@ spdmlib/src/responder/algorithm_rsp.rs 20-176 ResponderContext::write_spdm_algorithm *)
Definition write_spdm_algorithm (bs : bytes) : SpdmM Rsp unit :=
  let* c := gets fst in
  if decide (connection_state (runtime_info c) ≠ SpdmConnectionAfterCapabilities)
  then error SpdmErrorUnexpectedRequest else
  let? (header, reader) := read_header bs else error SpdmErrorInvalidRequest in
  if decide (hd_version header ≠ negotiated_version c) then error SpdmErrorVersionMismatch else
  reset_buffers SpdmRequestNegotiateAlgorithms None;;
  let? (q, reader) := read_payload SpdmNegotiateAlgorithmsRequestPayload_codec reader
    else error SpdmErrorInvalidRequest in
  on_fst (modify (λ c, c <| negotiate_info ::= record_offer q |>));;
  let* request := consumed bs reader in
  let? _ := append_a request else error SpdmErrorUnspecified in
  on_fst (modify (λ c, c <| negotiate_info ::= select_algorithms (config_info c) |>));;
  let? _ := on_fst (construct_my_cert_chain mode) else error SpdmErrorUnspecified in
  on_fst (modify (λ c, c <| negotiate_info ::= λ n, n <| opaque_data_support :=
    Z.land (config_opaque_support (config_info c)) (nq_other_params_support q) |> |>));;
  let* c := gets fst in
  let? _ := write_response SpdmResponseAlgorithms
      (SpdmAlgorithmsResponse (algorithms_response (negotiate_info c)))
    else error SpdmErrorUnspecified in
  let? _ := append_written_a else error SpdmErrorUnspecified in
  ret tt.

(*@ spdmlib/src/responder/algorithm_rsp.rs 13-18 ResponderContext::handle_spdm_algorithm *)
Definition handle_spdm_algorithm (bs : bytes) : SpdmM SpdmContext unit :=
  let* rsp := with_send_buffer (write_spdm_algorithm bs) in send_message rsp.

(** ** DIGESTS *)

(** [my_cert_chain[slot]] *)
Definition local_chain {S E} (c : SpdmContext) (slot : nat) : M S E (option SpdmCertChainBuffer) :=
  unwrap (my_cert_chain (provision_info c) !! slot).

(*@ spdmlib/src/responder/digest_rsp.rs 83-88 ResponderContext::write_spdm_digest_response *)
Fixpoint provisioned_mask {S E} (c : SpdmContext) (slots : list nat) : M S E Z :=
  match slots with
  | [] => ret 0
  | slot :: slots =>
      let* chain := local_chain c slot in
      let* mask := provisioned_mask c slots in
      ret (if decide (is_Some chain) then Z.lor mask (as_u8 (Z.shiftl 1 (Z.of_nat slot))) else mask)
  end.

(** Each chain that is provisioned overwrites the last digest of the message. *)
(*@ spdmlib/src/responder/digest_rsp.rs 113-129 ResponderContext::write_spdm_digest_response *)
Fixpoint patch_digests (c : SpdmContext) (slots : list nat) : SpdmM Rsp unit :=
  match slots with
  | [] => ret tt
  | slot :: slots =>
      let* chain := local_chain c slot in
      (match chain with
       | Some chain =>
           let* bs := sized_as_ref chain in
           let* h := expect (of_outcome (hash_all (base_hash_sel (negotiate_info c)) bs)) in
           let* w := gets snd in
           let* h := sized_as_ref h in
           let* at_ := sub_usize (Writer_used w) (length h) in
           on_snd (Writer_patch at_ (Writer_used w) h)
       | None => ret tt
       end);;
      patch_digests c slots
  end.

(*@ spdmlib/src/responder/digest_rsp.rs 29-139 ResponderContext::write_spdm_digest_response *)
Definition write_spdm_digest_response (session_id : option Z) (bs : bytes) : SpdmM Rsp unit :=
  expect_negotiated bs error (λ reader,
  reset_buffers SpdmRequestGetDigests session_id;;
  let? (_, reader) := read_payload (λ _, SpdmGetDigestsRequestPayload_codec) reader
    else error SpdmErrorInvalidRequest in
  let* request := consumed bs reader in
  let? _ := append_b session_id request else error SpdmErrorUnspecified in
  let* c := gets fst in
  let* digest_size := of_outcome (get_hash_size c) in
  let* slot_mask := provisioned_mask c (seq 0 SPDM_MAX_SLOT_NUMBER) in
  let? _ := write_response SpdmResponseDigests (SpdmDigestsResponse
      {| dg_slot_mask := slot_mask;
         dg_digests := replicate SPDM_MAX_SLOT_NUMBER
           {| data_size := digest_size; data := replicate SPDM_MAX_HASH_SIZE 0xff |} |})
    else error SpdmErrorUnspecified in
  patch_digests c (seq 0 SPDM_MAX_SLOT_NUMBER);;
  let? _ := append_written_b session_id else error SpdmErrorUnspecified in
  ret tt).

(*@ spdmlib/src/responder/digest_rsp.rs 17-27 ResponderContext::handle_spdm_digest *)
Definition handle_spdm_digest (bs : bytes) (session_id : option Z) : SpdmM SpdmContext unit :=
  let* rsp := with_send_buffer (write_spdm_digest_response session_id bs) in
  send_response mode session_id rsp.

(** ** CERTIFICATE *)

(** The portion of a chain of [size] bytes that answers a request: its length and what
    remains after it; [None] when the offset is past the end. *)
(*@ spdmlib/src/responder/certificate_rsp.rs 97-113 ResponderContext::write_spdm_certificate_response *)
Definition cert_portion (size offset length : Z) : option (Z * Z) :=
  let length := Z.min length (Z.of_nat MAX_SPDM_CERT_PORTION_LEN) in
  if size <? offset then None else
  let length := Z.min length (size - offset) in
  Some (length, size - (length + offset)).

(*@ spdmlib/src/responder/certificate_rsp.rs 25-147 ResponderContext::write_spdm_certificate_response *)
Definition write_spdm_certificate_response (session_id : option Z) (bs : bytes)
    : SpdmM Rsp unit :=
  expect_negotiated bs error (λ reader,
  reset_buffers SpdmRequestGetCertificate session_id;;
  let? (q, reader) := read_payload (λ _, SpdmGetCertificateRequestPayload_codec) reader
    else error SpdmErrorInvalidRequest in
  if negb (gc_slot_id q =? 0) then error SpdmErrorInvalidRequest else
  let* request := consumed bs reader in
  let? _ := append_b session_id request else error SpdmErrorUnspecified in
  let slot := Z.to_nat (gc_slot_id q) in
  if (SPDM_MAX_SLOT_NUMBER <=? slot)%nat then error SpdmErrorInvalidRequest else
  let* c := gets fst in
  let* chain := local_chain c slot in
  match chain with
  | None => error SpdmErrorInvalidRequest
  | Some chain =>
      match cert_portion (Z.of_nat (data_size chain)) (gc_offset q) (gc_length q) with
      | None => error SpdmErrorInvalidRequest
      | Some (portion, remainder) =>
          let offset := Z.to_nat (gc_offset q) in
          let* part := sub_slice offset (offset + Z.to_nat portion) (data chain) in
          let* cert_chain := slice_copy (replicate MAX_SPDM_CERT_PORTION_LEN 0) 0 part in
          let? _ := write_response SpdmResponseCertificate (SpdmCertificateResponse
              {| cr_slot_id := Z.of_nat slot; cr_portion_length := portion;
                 cr_remainder_length := remainder; cr_cert_chain := cert_chain |})
            else error SpdmErrorUnspecified in
          let? _ := append_written_b session_id else error SpdmErrorUnspecified in
          ret tt
      end
  end).

(*@ spdmlib/src/responder/certificate_rsp.rs 13-23 ResponderContext::handle_spdm_certificate *)
Definition handle_spdm_certificate (bs : bytes) (session_id : option Z) : SpdmM SpdmContext unit :=
  let* rsp := with_send_buffer (write_spdm_certificate_response session_id bs) in
  send_response mode session_id rsp.

(** ** CHALLENGE_AUTH *)

(** The summary of the measurements when the request asks for it.  [bad] is the early return
    when there is none. *)
(*@ spdmlib/src/responder/challenge_rsp.rs 58-83 ResponderContext::write_spdm_challenge_response *)
Definition summary_hash (t : SpdmMeasurementSummaryHashType) (bad : SpdmM Rsp unit)
    (k : SpdmDigestStruct → SpdmM Rsp unit) : SpdmM Rsp unit :=
  let wanted := bool_decide (t = SpdmMeasurementSummaryHashTypeTcb
                             ∨ t = SpdmMeasurementSummaryHashTypeAll) in
  on_fst (modify (λ c, c <| runtime_info ::=
    λ r, r <| need_measurement_summary_hash := wanted |> |>));;
  if wanted then
    let* c := gets fst in
    let n := negotiate_info c in
    let? h := on_fst (on_world (generate_measurement_summary_hash (spdm_version_sel n)
        (base_hash_sel n) (measurement_specification_sel n) (measurement_hash_sel n) t))
      else bad in
    if (data_size h =? 0)%nat then bad else k h
  else k SpdmDigestStruct_default.

(** The digest of a transcript without ending it. *)
Definition transcript_digest {S} (ctx : option SpdmHashCtx) : SpdmM S SpdmDigestStruct :=
  let* h := unwrap ctx in
  some_or SPDM_STATUS_CRYPTO_ERROR (of_outcome (hash_ctx_finalize h)).

(*@ spdmlib/src/responder/challenge_rsp.rs 187-228 ResponderContext::generate_challenge_auth_signature *)
Definition generate_challenge_auth_signature : SpdmM SpdmContext SpdmSignatureStruct :=
  let* c := gets (λ c, c) in
  let* h := transcript_digest (digest_context_m1m2 (runtime_info c)) in
  sign_transcript SPDM_VERSION_1_2_SIGNING_CONTEXT_ZEROPAD_4 SPDM_CHALLENGE_AUTH_SIGN_CONTEXT h.

(** When signing fails an error is sent at once, and the response is left as it is, with the
    placeholder for the signature. *)
(*@ spdmlib/src/responder/challenge_rsp.rs 31-184 ResponderContext::write_spdm_challenge_response *)
Definition write_spdm_challenge_response (bs : bytes) : SpdmM Rsp unit :=
  expect_negotiated bs error (λ reader,
  reset_buffers SpdmRequestChallenge None;;
  let? (q, reader) := read_payload SpdmChallengeRequestPayload_codec reader
    else error SpdmErrorInvalidRequest in
  summary_hash (ch_measurement_summary_hash_type q) (error SpdmErrorUnspecified) (λ summary,
  let slot := Z.to_nat (ch_slot_id q) in
  if (SPDM_MAX_SLOT_NUMBER <=? slot)%nat then error SpdmErrorInvalidRequest else
  let* c := gets fst in
  let* chain := local_chain c slot in
  match chain with
  | None => error SpdmErrorInvalidRequest
  | Some chain =>
      let* request := consumed bs reader in
      let? _ := on_fst (append_message_c request) else error SpdmErrorUnspecified in
      let* der := sized_as_ref chain in
      let* cert_chain_hash :=
        expect (of_outcome (hash_all (base_hash_sel (negotiate_info c)) der)) in
      let? nonce := random_array SPDM_NONCE_SIZE else error SpdmErrorUnspecified in
      let* asym_size := of_outcome (get_asym_key_size c) in
      let? _ := write_response SpdmResponseChallengeAuth (SpdmChallengeAuthResponse
          {| ca_slot_id := Z.of_nat slot; ca_slot_mask := 1; ca_challenge_auth_attribute := 0;
             ca_cert_chain_hash := cert_chain_hash; ca_nonce := nonce;
             ca_measurement_summary_hash := summary; ca_opaque := empty_opaque;
             ca_signature := placeholder asym_size SPDM_MAX_ASYM_KEY_SIZE 0xbb |})
        else error SpdmErrorUnspecified in
      let* w := gets snd in
      let used := Writer_used w in
      let* temp_used := sub_usize used asym_size in
      let* signed := sub_slice 0 temp_used (Writer_used_slice w) in
      let? _ := on_fst (append_message_c signed) else error SpdmErrorUnspecified in
      let? signature := on_fst generate_challenge_auth_signature
        else on_fst (send_spdm_error SpdmErrorUnspecified 0) in
      let* s := sized_as_ref signature in
      on_snd (Writer_patch temp_used used s);;
      on_fst (modify (λ c, reset_message_c (reset_message_b c)))
  end)).

(*@ spdmlib/src/responder/challenge_rsp.rs 24-29 ResponderContext::handle_spdm_challenge *)
Definition handle_spdm_challenge (bs : bytes) : SpdmM SpdmContext unit :=
  let* rsp := with_send_buffer (write_spdm_challenge_response bs) in send_message rsp.

(** ** MEASUREMENTS *)

(*@ spdmlib/src/responder/measurement_rsp.rs 252-309 ResponderContext::generate_measurement_signature *)
Definition generate_measurement_signature (session_id : option Z)
    : SpdmM SpdmContext SpdmSignatureStruct :=
  let* c := gets (λ c, c) in
  let* ctx :=
    match session_id with
    | Some id =>
        let* s := unwrap (get_immutable_session_via_id id c) in
        ret (s_digest_context_l1l2 (s_runtime_info s))
    | None => ret (digest_context_l1l2 (runtime_info c))
    end in
  let* h := transcript_digest ctx in
  sign_transcript SPDM_VERSION_1_2_SIGNING_CONTEXT_ZEROPAD_6 SPDM_MEASUREMENTS_SIGN_CONTEXT h.

Definition measure (operation : Z) : SpdmM Rsp SpdmMeasurementRecordStructure :=
  let* c := gets fst in
  let n := negotiate_info c in
  expect (on_fst (on_world (measurement_collection (spdm_version_sel n)
    (measurement_specification_sel n) (measurement_hash_sel n) operation))).

Definition record_default : SpdmMeasurementRecordStructure := {|
  number_of_blocks := 0; measurement_record_length := 0;
  measurement_record_data := replicate MAX_SPDM_MEASUREMENT_RECORD_SIZE 0 |}.

(** The number of measurements and the record of the response; [None] for an index that is
    too large. *)
(*@ spdmlib/src/responder/measurement_rsp.rs 120-164 ResponderContext::write_spdm_measurement_response *)
Definition collect_measurements (operation : SpdmMeasurementOperation)
    : SpdmM Rsp (option (Z * SpdmMeasurementRecordStructure)) :=
  let* total := measure (SpdmMeasurementOperation_get_u8 SpdmMeasurementQueryTotalNumber) in
  let real_count := number_of_blocks total in
  match operation with
  | SpdmMeasurementRequestAll =>
      let* r := measure (SpdmMeasurementOperation_get_u8 SpdmMeasurementRequestAll) in
      ret (Some (real_count, r))
  | SpdmMeasurementQueryTotalNumber => ret (Some (real_count, record_default))
  | SpdmMeasurementOperation_Unknown index =>
      if real_count <? index then ret None else
      let* r := measure index in ret (Some (1, r))
  end.

Abbreviation NOT_SUPPORTED := 0 (only parsing).

(*@ spdmlib/src/responder/measurement_rsp.rs 37-249 ResponderContext::write_spdm_measurement_response *)
Definition write_spdm_measurement_response (session_id : option Z) (bs : bytes) : SpdmM Rsp unit :=
  expect_negotiated bs error (λ reader,
  reset_buffers SpdmRequestGetMeasurements session_id;;
  let? (q, reader) := read_payload SpdmGetMeasurementsRequestPayload_codec reader
    else error SpdmErrorInvalidRequest in
  let slot := Z.to_nat (gm_slot_id q) in
  let signed := signature_requested (gm_measurement_attributes q) in
  let* c := gets fst in
  let* signature_size := of_outcome (get_asym_key_size c) in
  on_fst (modify (λ c, c <| runtime_info ::=
    λ r, r <| need_measurement_signature := signed |> |>));;
  let* refused :=
    if signed then
      if (SPDM_MAX_SLOT_NUMBER <=? slot)%nat then ret true else
      let* chain := local_chain c slot in ret (bool_decide (chain = None))
    else ret (negb (slot =? 0)%nat) in
  if (refused : bool) then error SpdmErrorInvalidRequest else
  let* request := consumed bs reader in
  let? _ := on_fst (append_message_m session_id request) else error SpdmErrorUnspecified in
  let* measured := collect_measurements (gm_measurement_operation q) in
  match measured with
  | None => error SpdmErrorInvalidRequest
  | Some (number, record) =>
      let content_changed :=
        if config_runtime_content_change_support (config_info c)
           && negb (version_below (negotiated_version c) SpdmVersion12)
        then content_changed (runtime_info c) else NOT_SUPPORTED in
      let? nonce := random_array SPDM_NONCE_SIZE else error SpdmErrorUnspecified in
      let? _ := write_response SpdmResponseMeasurements (SpdmMeasurementsResponse
          {| mr_number_of_measurement := number; mr_content_changed := content_changed;
             mr_slot_id := gm_slot_id q; mr_measurement_record := record; mr_nonce := nonce;
             mr_opaque := empty_opaque;
             mr_signature := placeholder signature_size SPDM_MAX_ASYM_KEY_SIZE 0x60 |})
        else error SpdmErrorUnspecified in
      let* w := gets snd in
      let used := Writer_used w in
      if signed then
        let* temp_used := sub_usize used signature_size in
        let* part := sub_slice 0 temp_used (Writer_used_slice w) in
        let? _ := on_fst (append_message_m session_id part) else error SpdmErrorUnspecified in
        let? signature := on_fst (generate_measurement_signature session_id)
          else on_fst (send_spdm_error SpdmErrorUnspecified 0) in
        let* s := sized_as_ref signature in
        on_snd (Writer_patch temp_used used s);;
        on_fst (modify (reset_message_m session_id))
      else
        let? _ := on_fst (append_message_m session_id (Writer_used_slice w))
          else error SpdmErrorUnspecified in
        ret tt
  end).

(*@ spdmlib/src/responder/measurement_rsp.rs 27-35 ResponderContext::handle_spdm_measurement *)
Definition handle_spdm_measurement (session_id : option Z) (bs : bytes) : SpdmM SpdmContext unit :=
  let* rsp := with_send_buffer (write_spdm_measurement_response session_id bs) in
  send_response mode session_id rsp.

(** ** VENDOR_DEFINED_RESPONSE *)

(** The version check of the handlers that do not look at the connection state. *)
Definition expect_version (bs : bytes) (bad : SpdmErrorCode → SpdmM Rsp unit)
    (k : Reader → SpdmM Rsp unit) : SpdmM Rsp unit :=
  let? (header, reader) := read_header bs else bad SpdmErrorInvalidRequest in
  let* c := gets fst in
  if decide (hd_version header ≠ negotiated_version c) then bad SpdmErrorVersionMismatch else
  k reader.

(*@ spdmlib/src/responder/vendor_rsp.rs 25-85 ResponderContext::write_spdm_vendor_defined_response *)
Definition write_spdm_vendor_defined_response (session_id : option Z) (bs : bytes)
    : SpdmM Rsp unit :=
  expect_version bs error (λ reader,
  reset_buffers SpdmRequestVendorDefinedRequest session_id;;
  let? (q, reader) := read_payload (λ _, SpdmVendorDefinedRequestPayload_codec) reader
    else error SpdmErrorInvalidRequest in
  let? rsp_payload := of_outcome (vendor_defined_request_handler (vq_req_payload q))
    else error SpdmErrorUnspecified in
  let? _ := write_response SpdmResponseVendorDefinedResponse (SpdmVendorDefinedResponse
      {| vp_standard_id := vq_standard_id q; vp_vendor_id := vq_vendor_id q;
         vp_rsp_payload := rsp_payload |})
    else error SpdmErrorUnspecified in
  ret tt).

(*@ spdmlib/src/responder/vendor_rsp.rs 11-23 ResponderContext::handle_spdm_vendor_defined_request *)
Definition handle_spdm_vendor_defined_request (session_id : option Z) (bs : bytes)
    : SpdmM SpdmContext unit :=
  let* rsp := with_send_buffer (write_spdm_vendor_defined_response session_id bs) in
  send_response mode session_id rsp.

End Connect.
