(* ===== verification/RspSession.v ===== *)
(** Model of the handlers of the responder that set up, use and end sessions:
    responder/key_exchange_rsp.rs, finish_rsp.rs, psk_exchange_rsp.rs, psk_finish_rsp.rs,
    heartbeat_rsp.rs, key_update_rsp.rs and end_session_rsp.rs.

    The handlers of KEY_EXCHANGE, FINISH, PSK_EXCHANGE and PSK_FINISH return an error after
    they have written an error response ([reject]). *)

From S2P Require Import Prelude Config Codec Status Algo Protocol Crypto KeySchedule Buffers Session Context SpdmCodec Opaque MsgNegotiate MsgAuth MsgSession Message Endpoint Responder RspConnect.

Section RspSession.
Context `{cfg : Config} `{sec : Secret} `{dev : SpdmDeviceIo} `{tr : SpdmTransportEncap}.
Context (mode : overflow_mode).

Definition on_session {E A} (id : Z) (c : M SpdmSession E A) : M Rsp E A :=
  on_fst (with_session id panic c).
Definition immutable_session {E} (id : Z) : M Rsp E SpdmSession :=
  let* c := gets fst in unwrap (get_immutable_session_via_id id c).

Definition append_k (id : Z) (bs : bytes) : SpdmM Rsp unit := on_fst (append_message_k id bs).
Definition append_f (id : Z) (bs : bytes) : SpdmM Rsp unit := on_fst (append_message_f false id bs).

(** The session is given up: [let _ = session.teardown(session_id)]. *)
Definition abandon (id : Z) : SpdmM Rsp unit :=
  on_session id (attempt (E:=SpdmStatus) (SpdmSession_teardown id);; ret tt).

Definition unspecified {A} : SpdmM Rsp A := reject SpdmErrorUnspecified SPDM_STATUS_CRYPTO_ERROR.
Definition invalid {A} : SpdmM Rsp A :=
  reject SpdmErrorInvalidRequest SPDM_STATUS_INVALID_MSG_FIELD.

(** The error of the checks on state and version. *)
Definition refuse (code : SpdmErrorCode) : SpdmM Rsp unit :=
  reject code (if decide (code = SpdmErrorUnexpectedRequest)
               then SPDM_STATUS_INVALID_STATE_PEER else SPDM_STATUS_INVALID_MSG_FIELD).

(** ** The version of secured messages *)

(** The opaque data of the response for one version both sides know. *)
(*@ spdmlib/src/responder/key_exchange_rsp.rs 120-158 ResponderContext::write_spdm_key_exchange_response *)
Definition version_selection (c : SpdmContext) (local_version : Z) : option SpdmOpaqueStruct :=
  let fill (bs : bytes) :=
    Some {| data_size := length bs;
            data := <[(length bs - 1)%nat := local_version]>
                      (bs ++ replicate (MAX_SPDM_OPAQUE_SIZE - length bs) 0) |} in
  if version_below (negotiated_version c) SpdmVersion12
  then fill RSP_DMTF_OPAQUE_DATA_VERSION_SELECTION_DSP0277
  else if opaque_data_support (negotiate_info c) =? SpdmOpaqueSupport.OPAQUE_DATA_FMT1
  then fill RSP_DMTF_OPAQUE_DATA_VERSION_SELECTION_DSP0274_FMT1
  else None.

(** The loops over the versions of the requester and of the responder; the last match wins. *)
Fixpoint match_local {S E} (c : SpdmContext) (version : Z) (locals : list Z)
    (acc : SpdmOpaqueStruct) : M S E (option SpdmOpaqueStruct) :=
  match locals with
  | [] => ret (Some acc)
  | l :: locals =>
      if version =? l then
        match version_selection c l with
        | Some o => match_local c version locals o
        | None => ret None
        end
      else match_local c version locals acc
  end.
Fixpoint match_versions {S E} (c : SpdmContext) (versions : list SecuredMessageVersion)
    (acc : SpdmOpaqueStruct) : M S E (option SpdmOpaqueStruct) :=
  match versions with
  | [] => ret (Some acc)
  | v :: versions =>
      let* version := get_secure_spdm_version v in
      let* o := match_local c version (config_secure_spdm_version (config_info c)) acc in
      match o with Some acc => match_versions c versions acc | None => ret None end
  end.

(** Opaque data that does not parse is ignored. *)
(*@ spdmlib/src/responder/key_exchange_rsp.rs 108-161 ResponderContext::write_spdm_key_exchange_response *)
Definition select_secured_version (o : SpdmOpaqueStruct) (k : SpdmOpaqueStruct → SpdmM Rsp unit)
    : SpdmM Rsp unit :=
  let* c := gets fst in
  let? l := rsp_get_dmtf_supported_secure_spdm_version_list c o else k empty_opaque in
  if Z.of_nat MAX_SECURE_SPDM_VERSION_COUNT <? version_count l then invalid else
  (assert! (Z.to_nat (version_count l) <=? length (versions_list l))%nat);;
  let* r := match_versions c (take (Z.to_nat (version_count l)) (versions_list l)) empty_opaque in
  match r with
  | Some o => k o
  | None => reject SpdmErrorUnsupportedRequest SPDM_STATUS_INVALID_MSG_FIELD
  end.

(** ** KEY_EXCHANGE *)

(*@ spdmlib/src/responder/key_exchange_rsp.rs 440-479 ResponderContext::generate_key_exchange_rsp_signature *)
Definition generate_key_exchange_rsp_signature (s : SpdmSession)
    : SpdmM SpdmContext SpdmSignatureStruct :=
  let* h := calc_rsp_transcript_hash s in
  sign_transcript SPDM_VERSION_1_2_SIGNING_CONTEXT_ZEROPAD_2
    SPDM_KEY_EXCHANGE_RESPONSE_SIGN_CONTEXT h.

(** The session of a key exchange is set up in a free entry of the table; without mutual
    authentication the attribute is empty.  [false] when the keys cannot be derived. *)
(*@ spdmlib/src/responder/key_exchange_rsp.rs 236-252 ResponderContext::write_spdm_key_exchange_response *)
Definition setup_dhe_session (c : SpdmContext) (session_id slot : Z)
    (final_key : SpdmDheFinalKeyStruct) (cert_chain_hash : SpdmDigestStruct)
    : SpdmM SpdmSession bool :=
  expect (SpdmSession_setup session_id);;
  modify (λ s, set_session_params c
    (s <| use_psk := false |> <| slot_id := slot |> <| mut_auth_requested := 0 |>));;
  let? _ := SpdmSession_set_dhe_secret (negotiated_version c) final_key
    else (attempt (E:=SpdmStatus) (SpdmSession_teardown session_id);; ret false) in
  modify (λ s, s <| s_runtime_info ::= λ r,
    r <| s_message_a := message_a (runtime_info c) |>
      <| rsp_cert_hash := Some cert_chain_hash |> <| req_cert_hash := None |> |>);;
  ret true.

(** Sign the transcript, derive the handshake keys and, unless the handshake is in the
    clear, authenticate the transcript and fill in signature and code. *)
(*@ spdmlib/src/responder/key_exchange_rsp.rs 306-417 ResponderContext::write_spdm_key_exchange_response *)
Definition finish_key_exchange (session_id : Z) (request : bytes) (in_clear : bool)
    (asym_size hash_size : nat) : SpdmM Rsp unit :=
  let* w := gets snd in
  let used := Writer_used w in
  let* before_sig := sub_usize used asym_size in
  let* temp_used := if in_clear then ret before_sig else sub_usize before_sig hash_size in
  let? _ := append_k session_id request else unspecified in
  let* part := sub_slice 0 temp_used (Writer_used_slice w) in
  let? _ := append_k session_id part else unspecified in
  let* s := immutable_session session_id in
  let? signature := on_fst (generate_key_exchange_rsp_signature s) else unspecified in
  let* sig := sized_as_ref signature in
  let? _ := append_k session_id sig else unspecified in
  let* s := immutable_session session_id in
  let? th1 := calc_rsp_transcript_hash s else unspecified in
  let* c := gets fst in
  on_session session_id (SpdmSession_generate_handshake_secret (negotiated_version c) th1);;
  if in_clear then ret tt else
  let* s := immutable_session session_id in
  let? th := calc_rsp_transcript_hash s else unspecified in
  let* th := sized_as_ref th in
  let? hmac := generate_hmac_with_response_finished_key s th
    else (abandon session_id;; unspecified) in
  let* mac := sized_as_ref hmac in
  let? _ := append_k session_id mac else (abandon session_id;; unspecified) in
  let* at_hmac := sub_usize used hash_size in
  on_snd (Writer_patch (at_hmac - asym_size) at_hmac sig);;
  on_snd (Writer_patch at_hmac used mac).

(** The period and the version that was selected, [o] being the opaque data sent. *)
(*@ spdmlib/src/responder/key_exchange_rsp.rs 419-426 ResponderContext::write_spdm_key_exchange_response *)
Definition set_session_version (c : SpdmContext) (o : SpdmOpaqueStruct) (s : SpdmSession)
    : SpdmSession :=
  let s := s <| heartbeat_period := config_heartbeat_period (config_info c) |> in
  if (data_size o =? 0)%nat then s
  else s <| secure_spdm_version_sel := default 0 (data o !! (data_size o - 1)%nat) |>.

(*@ spdmlib/src/responder/key_exchange_rsp.rs 32-437 ResponderContext::write_spdm_key_exchange_response *)
Definition write_spdm_key_exchange_response (bs : bytes) : SpdmM Rsp unit :=
  expect_negotiated bs refuse (λ reader,
  let* c := gets fst in
  if version_below (negotiated_version c) SpdmVersion11
  then reject SpdmErrorUnsupportedRequest SPDM_STATUS_INVALID_MSG_FIELD else
  reset_buffers SpdmRequestKeyExchange None;;
  let? (q, reader) := read_payload SpdmKeyExchangeRequestPayload_codec reader else invalid in
  summary_hash (kq_measurement_summary_hash_type q)
    (reject SpdmErrorUnspecified SPDM_STATUS_INVALID_MSG_FIELD) (λ summary,
  on_fst (modify (λ c, c <| negotiate_info ::= λ n, n <| termination_policy_set :=
    Z.land (kq_session_policy q) KEY_EXCHANGE_REQUESTER_SESSION_POLICY_TERMINATION_POLICY_MASK
    =? KEY_EXCHANGE_REQUESTER_SESSION_POLICY_TERMINATION_POLICY_VALUE |> |>));;
  select_secured_version (kq_opaque q) (λ return_opaque,
  let slot := Z.to_nat (kq_slot_id q) in
  if (SPDM_MAX_SLOT_NUMBER <=? slot)%nat then invalid else
  let* c := gets fst in
  let* chain := local_chain c slot in
  if decide (chain = None) then invalid else
  on_fst (modify (λ c, c <| runtime_info ::=
    λ r, r <| local_used_cert_chain_slot_id := kq_slot_id q |> |>));;
  let* (exchange, private) :=
    expect (on_fst (on_world (generate_key_pair (dhe_sel (negotiate_info c))))) in
  let? final_key := on_fst (on_world (compute_final_key private (kq_exchange q)))
    else unspecified in
  let? rsp_session_id := of_outcome (get_next_half_session_id false c)
    else reject SpdmErrorSessionLimitExceeded SPDM_STATUS_INVALID_STATE_LOCAL in
  let? cert_chain_hash := of_outcome (get_certchain_hash_local false slot c) else invalid in
  let id := session_id_of rsp_session_id (kq_req_session_id q) in
  let? ready := on_fst (with_next_avaiable_session (throw tt)
      (map_err (λ _, tt) (setup_dhe_session c id (kq_slot_id q) final_key cert_chain_hash)))
    else reject SpdmErrorSessionLimitExceeded SPDM_STATUS_INVALID_STATE_LOCAL in
  if negb ready then unspecified else
  let? random := random_array SPDM_RANDOM_SIZE else unspecified in
  let* c := gets fst in
  let* asym_size := of_outcome (get_asym_key_size c) in
  let* hash_size := of_outcome (get_hash_size c) in
  let? _ := write_response SpdmResponseKeyExchangeRsp (SpdmKeyExchangeResponse
      {| kp_heartbeat_period := config_heartbeat_period (config_info c);
         kp_rsp_session_id := rsp_session_id; kp_mut_auth_req := 0; kp_req_slot_id := 0;
         kp_random := random; kp_exchange := exchange; kp_measurement_summary_hash := summary;
         kp_opaque := return_opaque;
         kp_signature := placeholder asym_size SPDM_MAX_ASYM_KEY_SIZE 0xbb;
         kp_verify_data := placeholder hash_size SPDM_MAX_HASH_SIZE 0xcc |})
    else reject SpdmErrorUnspecified SPDM_STATUS_INVALID_STATE_LOCAL in
  let* request := consumed bs reader in
  finish_key_exchange id request (in_clear_text c) asym_size hash_size;;
  on_session id (modify (λ s, set_session_version c return_opaque s
    <| session_state := SpdmSessionHandshaking |>));;
  if in_clear_text c then
    on_fst (modify (λ c, c <| runtime_info ::= λ r, r <| last_session_id := Some id |> |>))
  else ret tt))).

(*@ spdmlib/src/responder/key_exchange_rsp.rs 25-30 ResponderContext::handle_spdm_key_exchange *)
Definition handle_spdm_key_exchange (bs : bytes) : SpdmM SpdmContext unit :=
  let* rsp := with_send_buffer (write_spdm_key_exchange_response bs) in send_message rsp.

(** ** FINISH *)

(*@ spdmlib/src/responder/finish_rsp.rs 346-396 ResponderContext::verify_finish_req_signature *)
Definition verify_finish_req_signature (signature : SpdmSignatureStruct) (s : SpdmSession)
    : SpdmM Rsp unit :=
  let* h := calc_rsp_transcript_hash s in
  let* c := gets fst in
  let n := negotiate_info c in
  let* chain := unwrap (peer_cert_chain (peer_info c)
    !! Z.to_nat (peer_used_cert_chain_slot_id (runtime_info c))) in
  let* chain := ok_or SPDM_STATUS_INVALID_PARAMETER chain in
  let* hash_size := of_outcome (get_hash_size c) in
  let* peer_cert := sub_slice (4 + hash_size) (data_size chain) (data chain) in
  if version_below (spdm_version_sel n) SpdmVersion12
  then throw SPDM_STATUS_INVALID_STATE_LOCAL else
  let* h := sized_as_ref h in
  let* message := signing_message SPDM_VERSION_1_2_SIGNING_CONTEXT_ZEROPAD_12
    SPDM_FINISH_SIGN_CONTEXT h in
  of_outcome (asym_verify (base_hash_sel n) (base_asym_sel n) peer_cert message signature).

(** The requester proves that it has the finished key: its code must verify. *)
(*@ spdmlib/src/responder/finish_rsp.rs 130-180 ResponderContext::write_spdm_finish_response *)
Definition check_finish (session_id : Z) (psk : bool) (verify_data : SpdmDigestStruct)
    : SpdmM Rsp unit :=
  let* s := immutable_session session_id in
  if negb (Bool.eqb (use_psk s) psk) then invalid else
  let? th := calc_rsp_transcript_hash s else unspecified in
  let* th := sized_as_ref th in
  let? _ := verify_hmac_with_request_finished_key s th verify_data
    else reject SpdmErrorDecryptError SPDM_STATUS_CRYPTO_ERROR in
  let* vd := sized_as_ref verify_data in
  let? _ := append_f session_id vd else unspecified in
  ret tt.

(** The keys for data, from the transcript up to here. *)
(*@ spdmlib/src/responder/finish_rsp.rs 277-295 ResponderContext::write_spdm_finish_response *)
Definition data_keys (session_id : Z) : SpdmM Rsp unit :=
  let* s := immutable_session session_id in
  let? th2 := calc_rsp_transcript_hash s else unspecified in
  let* c := gets fst in
  on_session session_id (SpdmSession_generate_data_secret (negotiated_version c) th2).

(*@ spdmlib/src/responder/finish_rsp.rs 219-275 ResponderContext::write_spdm_finish_response *)
Definition authenticate_finish_rsp (session_id : Z) (in_clear : bool) (hash_size : nat)
    : SpdmM Rsp unit :=
  let* w := gets snd in
  let used := Writer_used w in
  if in_clear then
    let* temp_used := sub_usize used hash_size in
    let* part := sub_slice 0 temp_used (Writer_used_slice w) in
    let? _ := append_f session_id part else unspecified in
    let* s := immutable_session session_id in
    let? th := calc_rsp_transcript_hash s else unspecified in
    let* th := sized_as_ref th in
    let? hmac := generate_hmac_with_response_finished_key s th else unspecified in
    let* mac := sized_as_ref hmac in
    let? _ := append_f session_id mac else unspecified in
    on_snd (Writer_patch temp_used used mac)
  else
    let* part := sub_slice 0 4 (Writer_used_slice w) in
    let? _ := append_f session_id part else unspecified in
    ret tt.

(*@ spdmlib/src/responder/finish_rsp.rs 44-296 ResponderContext::write_spdm_finish_response *)
Definition write_spdm_finish_response (session_id : Z) (bs : bytes) : SpdmM Rsp unit :=
  expect_version bs refuse (λ reader,
  reset_buffers SpdmRequestFinish (Some session_id);;
  let? (q, reader) := read_payload SpdmFinishRequestPayload_codec reader else invalid in
  let* start := sub_slice 0 4 bs in
  let? _ := append_f session_id start else unspecified in
  let* s := immutable_session session_id in
  let is_mut_auth := negb (mut_auth_requested s =? 0) in
  let signed := contains (fq_finish_request_attributes q)
    SpdmFinishRequestAttributes.SIGNATURE_INCLUDED in
  if (is_mut_auth && negb signed) || (negb is_mut_auth && signed) then invalid else
  (if is_mut_auth then
     let? _ := verify_finish_req_signature (fq_signature q) s
       else reject SpdmErrorDecryptError SPDM_STATUS_CRYPTO_ERROR in
     let* sig := sized_as_ref (fq_signature q) in
     let? _ := append_f session_id sig else unspecified in
     ret tt
   else ret tt);;
  let* c := gets fst in
  let* hash_size := of_outcome (get_hash_size c) in
  check_finish session_id false (fq_verify_data q);;
  let? _ := write_response SpdmResponseFinishRsp (SpdmFinishResponse
      {| fp_verify_data := placeholder hash_size SPDM_MAX_HASH_SIZE 0xcc |})
    else reject SpdmErrorUnspecified SPDM_STATUS_INVALID_STATE_LOCAL in
  authenticate_finish_rsp session_id (in_clear_text c) hash_size;;
  data_keys session_id).

(*@ spdmlib/src/responder/finish_rsp.rs 20-41 ResponderContext::handle_spdm_finish *)
Definition handle_spdm_finish (session_id : Z) (bs : bytes) : SpdmM SpdmContext unit :=
  let* c := gets (λ c, c) in
  let in_clear := in_clear_text c in
  let* rsp := with_send_buffer (write_spdm_finish_response session_id bs) in
  if in_clear then send_message rsp else send_secured_message mode session_id rsp false.

(** ** PSK_EXCHANGE *)

(** The session of a pre-shared key. *)
(*@ spdmlib/src/responder/psk_exchange_rsp.rs 189-218 ResponderContext::write_spdm_psk_exchange_response *)
Definition setup_psk_session (c : SpdmContext) (session_id : Z) (hint : SpdmPskHintStruct)
    : SpdmM SpdmSession unit :=
  expect (SpdmSession_setup session_id);;
  modify (λ s, set_session_params c (s <| use_psk := true |>));;
  modify (λ s, s <| s_runtime_info ::= λ r,
    r <| psk_hint := Some hint |> <| s_message_a := message_a (runtime_info c) |>
      <| rsp_cert_hash := None |> <| req_cert_hash := None |> |>).

(** Random bytes are drawn exactly when the context is not sent. *)
(*@ spdmlib/src/responder/psk_exchange_rsp.rs 162-179 ResponderContext::write_spdm_psk_exchange_response *)
Definition psk_response_context (c : SpdmContext) : SpdmM Rsp SpdmPskContextStruct :=
  let size := if psk_without_context c then 0%nat else MAX_SPDM_PSK_CONTEXT_SIZE in
  let* bs := if psk_without_context c then random_array MAX_SPDM_PSK_CONTEXT_SIZE
             else ret (replicate MAX_SPDM_PSK_CONTEXT_SIZE 0) in
  ret {| data_size := size; data := bs |}.

(*@ spdmlib/src/responder/psk_exchange_rsp.rs 249-329 ResponderContext::write_spdm_psk_exchange_response *)
Definition finish_psk_exchange (session_id : Z) (request : bytes) (hash_size : nat)
    : SpdmM Rsp unit :=
  let* w := gets snd in
  let used := Writer_used w in
  let* temp_used := sub_usize used hash_size in
  let? _ := append_k session_id request else unspecified in
  let* part := sub_slice 0 temp_used (Writer_used_slice w) in
  let? _ := append_k session_id part else unspecified in
  let* s := immutable_session session_id in
  let? th1 := calc_rsp_transcript_hash s else unspecified in
  let* c := gets fst in
  on_session session_id (SpdmSession_generate_handshake_secret (negotiated_version c) th1);;
  let* s := immutable_session session_id in
  let? th := calc_rsp_transcript_hash s else unspecified in
  let* th := sized_as_ref th in
  let? hmac := generate_hmac_with_response_finished_key s th
    else (abandon session_id;; unspecified) in
  let* mac := sized_as_ref hmac in
  let? _ := append_k session_id mac else (abandon session_id;; unspecified) in
  on_snd (Writer_patch temp_used used mac);;
  on_session session_id (modify (λ s, s <| session_state := SpdmSessionHandshaking |>)).

(*@ spdmlib/src/responder/psk_exchange_rsp.rs 32-365 ResponderContext::write_spdm_psk_exchange_response *)
Definition write_spdm_psk_exchange_response (bs : bytes) : SpdmM Rsp unit :=
  expect_negotiated bs refuse (λ reader,
  let* c := gets fst in
  if version_below (negotiated_version c) SpdmVersion11
  then reject SpdmErrorUnsupportedRequest SPDM_STATUS_INVALID_MSG_FIELD else
  reset_buffers SpdmRequestPskExchange None;;
  let? (q, reader) := read_payload SpdmPskExchangeRequestPayload_codec reader else invalid in
  summary_hash (pq_measurement_summary_hash_type q) unspecified (λ summary,
  select_secured_version (pq_opaque q) (λ return_opaque,
  let* c := gets fst in
  let? psk_context := psk_response_context c else unspecified in
  let? rsp_session_id := of_outcome (get_next_half_session_id false c)
    else reject SpdmErrorSessionLimitExceeded SPDM_STATUS_INVALID_STATE_LOCAL in
  let id := session_id_of rsp_session_id (pq_req_session_id q) in
  let? _ := on_fst (with_next_avaiable_session (throw tt)
      (map_err (λ _, tt) (setup_psk_session c id (pq_psk_hint q))))
    else reject SpdmErrorSessionLimitExceeded SPDM_STATUS_INVALID_STATE_LOCAL in
  let* hash_size := of_outcome (get_hash_size c) in
  let? _ := write_response SpdmResponsePskExchangeRsp (SpdmPskExchangeResponse
      {| pp_heartbeat_period := config_heartbeat_period (config_info c);
         pp_rsp_session_id := rsp_session_id; pp_measurement_summary_hash := summary;
         pp_psk_context := psk_context; pp_opaque := return_opaque;
         pp_verify_data := placeholder hash_size SPDM_MAX_HASH_SIZE 0xcc |})
    else reject SpdmErrorUnspecified SPDM_STATUS_INVALID_STATE_LOCAL in
  let* request := consumed bs reader in
  finish_psk_exchange id request hash_size;;
  (if psk_without_context c then
     let* s := immutable_session id in
     let? th2 := calc_rsp_transcript_hash s else unspecified in
     on_session id (expect (SpdmSession_generate_data_secret (negotiated_version c) th2));;
     on_session id (modify (λ s, s <| session_state := SpdmSessionEstablished |>))
   else ret tt);;
  on_session id (modify (set_session_version c return_opaque))))).

(*@ spdmlib/src/responder/psk_exchange_rsp.rs 25-30 ResponderContext::handle_spdm_psk_exchange *)
Definition handle_spdm_psk_exchange (bs : bytes) : SpdmM SpdmContext unit :=
  let* rsp := with_send_buffer (write_spdm_psk_exchange_response bs) in send_message rsp.

(** ** PSK_FINISH *)

(*@ spdmlib/src/responder/psk_finish_rsp.rs 23-170 ResponderContext::write_spdm_psk_finish_response *)
Definition write_spdm_psk_finish_response (session_id : Z) (bs : bytes) : SpdmM Rsp unit :=
  expect_version bs refuse (λ reader,
  reset_buffers SpdmRequestPskFinish (Some session_id);;
  let? (q, reader) := read_payload SpdmPskFinishRequestPayload_codec reader else invalid in
  let* c := gets fst in
  let* hash_size := of_outcome (get_hash_size c) in
  let* temp_used := sub_usize (Reader_used reader) hash_size in
  let* s := immutable_session session_id in
  if negb (use_psk s) then invalid else
  let* start := sub_slice 0 temp_used bs in
  let? _ := append_f session_id start else unspecified in
  check_finish session_id true (pf_verify_data q);;
  let? _ := write_response SpdmResponsePskFinishRsp
      (SpdmPskFinishResponse MkSpdmPskFinishResponsePayload)
    else reject SpdmErrorUnspecified SPDM_STATUS_INVALID_STATE_LOCAL in
  let* w := gets snd in
  let? _ := append_f session_id (Writer_used_slice w) else unspecified in
  data_keys session_id).

(*@ spdmlib/src/responder/psk_finish_rsp.rs 15-20 ResponderContext::handle_spdm_psk_finish *)
Definition handle_spdm_psk_finish (session_id : Z) (bs : bytes) : SpdmM SpdmContext unit :=
  let* rsp := with_send_buffer (write_spdm_psk_finish_response session_id bs) in
  send_secured_message mode session_id rsp false.

(** ** HEARTBEAT, KEY_UPDATE and END_SESSION *)

(*@ spdmlib/src/responder/heartbeat_rsp.rs 18-63 ResponderContext::write_spdm_heartbeat_response *)
Definition write_spdm_heartbeat_response (session_id : Z) (bs : bytes) : SpdmM Rsp unit :=
  expect_version bs error (λ reader,
  reset_buffers SpdmRequestHeartbeat (Some session_id);;
  let? _ := read_payload (λ _, SpdmHeartbeatRequestPayload_codec) reader
    else error SpdmErrorInvalidRequest in
  let? _ := write_response SpdmResponseHeartbeatAck
      (SpdmHeartbeatResponse MkSpdmHeartbeatResponsePayload)
    else error SpdmErrorUnspecified in
  ret tt).

(*@ spdmlib/src/responder/heartbeat_rsp.rs 11-16 ResponderContext::handle_spdm_heartbeat *)
Definition handle_spdm_heartbeat (session_id : Z) (bs : bytes) : SpdmM SpdmContext unit :=
  let* rsp := with_send_buffer (write_spdm_heartbeat_response session_id bs) in
  send_secured_message mode session_id rsp false.

(** What an update does to the session; failures to derive the new keys are ignored.
    [None] for an operation that is not known. *)
(*@ spdmlib/src/responder/key_update_rsp.rs 53-63 ResponderContext::write_spdm_key_update_response *)
Definition update_session_keys (version : SpdmVersion) (op : SpdmKeyUpdateOperation)
    : option (SpdmM SpdmSession unit) :=
  match op with
  | SpdmUpdateSingleKey =>
      Some (attempt (E:=SpdmStatus) (SpdmSession_create_data_secret_update version true false);;
            ret tt)
  | SpdmUpdateAllKeys =>
      Some (attempt (E:=SpdmStatus) (SpdmSession_create_data_secret_update version true true);;
            modify (SpdmSession_activate_data_secret_update true true true))
  | SpdmVerifyNewKey => Some (modify (SpdmSession_activate_data_secret_update true false true))
  | SpdmKeyUpdateOperation_Unknown _ => None
  end.

(*@ spdmlib/src/responder/key_update_rsp.rs 18-87 ResponderContext::write_spdm_key_update_response *)
Definition write_spdm_key_update_response (session_id : Z) (bs : bytes) : SpdmM Rsp unit :=
  expect_version bs error (λ reader,
  reset_buffers SpdmRequestKeyUpdate (Some session_id);;
  let? (q, _) := read_payload (λ _, SpdmKeyUpdateRequestPayload_codec) reader
    else error SpdmErrorInvalidRequest in
  let* c := gets fst in
  let op := uq_key_update_operation q in
  match update_session_keys (negotiated_version c) op with
  | None => on_session session_id (ret tt);; error SpdmErrorInvalidRequest
  | Some update =>
      on_session session_id update;;
      let? _ := write_response SpdmResponseKeyUpdateAck (SpdmKeyUpdateResponse
          {| up_key_update_operation := op; up_tag := uq_tag q |})
        else error SpdmErrorUnspecified in
      ret tt
  end).

(*@ spdmlib/src/responder/key_update_rsp.rs 11-16 ResponderContext::handle_spdm_key_update *)
Definition handle_spdm_key_update (session_id : Z) (bs : bytes) : SpdmM SpdmContext unit :=
  let* rsp := with_send_buffer (write_spdm_key_update_response session_id bs) in
  send_secured_message mode session_id rsp false.

(*@ spdmlib/src/responder/end_session_rsp.rs 18-64 ResponderContext::write_spdm_end_session_response *)
Definition write_spdm_end_session_response (session_id : Z) (bs : bytes) : SpdmM Rsp unit :=
  expect_version bs error (λ reader,
  let? _ := read_payload (λ _, SpdmEndSessionRequestPayload_codec) reader
    else error SpdmErrorInvalidRequest in
  reset_buffers SpdmRequestEndSession (Some session_id);;
  let? _ := write_response SpdmResponseEndSessionAck
      (SpdmEndSessionResponse MkSpdmEndSessionResponsePayload)
    else error SpdmErrorUnspecified in
  ret tt).

(*@ spdmlib/src/responder/end_session_rsp.rs 11-16 ResponderContext::handle_spdm_end_session *)
Definition handle_spdm_end_session (session_id : Z) (bs : bytes) : SpdmM SpdmContext unit :=
  let* rsp := with_send_buffer (write_spdm_end_session_response session_id bs) in
  send_secured_message mode session_id rsp false.

End RspSession.
