(* ===== verification/RspDispatch.v ===== *)
(** Model of the dispatch of responder/context.rs: receiving a message, deciding whether it
    belongs to a session, and calling the handler of its code.

    [process_message] is the entry point of the responder; one call handles one message. *)

From S2P Require Import Prelude Config Codec Status Algo Protocol Crypto KeySchedule Buffers Session Context SpdmCodec Opaque MsgNegotiate MsgAuth MsgSession Message Endpoint Responder RspConnect RspSession.

Section Dispatch.
Context `{cfg : Config} `{sec : Secret} `{dev : SpdmDeviceIo} `{tr : SpdmTransportEncap}.
Context `{handlers : !SpdmHandlers}.
Context (mode : overflow_mode).

(** The state is the context and the receive buffer. *)
(*@ spdmlib/src/responder/context.rs 206-225 ResponderContext::receive_message *)
Definition receive_message (timeout : Z) : M (SpdmContext * bytes) nat (nat * bool) :=
  let* used := zoom (λ s, (device_io s.1, s.2))
    (λ v s, (s.1 <| device_io := v.1 |>, v.2)) (io_receive timeout) in
  let* buf := gets snd in
  let* received := sub_slice 0 used buf in
  let* (r, transport_buffer) :=
    map_err (λ _, used) (with_buffer RECEIVER_BUFFER_SIZE (t_decap received)) in
  let '(used, secured_message) := r in
  let* message := sub_slice 0 used transport_buffer in
  let* buf := slice_copy buf 0 message in
  on_snd (modify (λ _, buf));;
  ret (used, secured_message).

(** During the handshake of a session only the messages that finish it are served. *)
(*@ spdmlib/src/responder/context.rs 237-302 ResponderContext::dispatch_secured_message *)
Definition dispatch_handshake (session_id : Z) (code : SpdmRequestResponseCode) (bs : bytes)
    : SpdmM SpdmContext unit :=
  match code with
  | SpdmRequestFinish => handle_spdm_finish mode session_id bs
  | SpdmRequestPskFinish => handle_spdm_psk_finish mode session_id bs
  | SpdmRequestVendorDefinedRequest =>
      handle_spdm_vendor_defined_request mode (Some session_id) bs
  | SpdmRequestGetVersion | SpdmRequestGetCapabilities | SpdmRequestNegotiateAlgorithms
  | SpdmRequestGetDigests | SpdmRequestGetCertificate | SpdmRequestChallenge
  | SpdmRequestGetMeasurements | SpdmRequestKeyExchange | SpdmRequestPskExchange
  | SpdmRequestHeartbeat | SpdmRequestKeyUpdate | SpdmRequestEndSession =>
      handle_error_request mode SpdmErrorUnexpectedRequest (Some session_id) bs
  | SpdmRequestResponseIfReady =>
      handle_error_request mode SpdmErrorUnsupportedRequest (Some session_id) bs
  | _ => throw SPDM_STATUS_UNSUPPORTED_CAP
  end.

(*@ spdmlib/src/responder/context.rs 303-357 ResponderContext::dispatch_secured_message *)
Definition dispatch_established (session_id : Z) (code : SpdmRequestResponseCode) (bs : bytes)
    : SpdmM SpdmContext unit :=
  match code with
  | SpdmRequestGetDigests => handle_spdm_digest mode bs (Some session_id)
  | SpdmRequestGetCertificate => handle_spdm_certificate mode bs (Some session_id)
  | SpdmRequestGetMeasurements => handle_spdm_measurement mode (Some session_id) bs
  | SpdmRequestHeartbeat => handle_spdm_heartbeat mode session_id bs
  | SpdmRequestKeyUpdate => handle_spdm_key_update mode session_id bs
  | SpdmRequestEndSession => handle_spdm_end_session mode session_id bs
  | SpdmRequestVendorDefinedRequest =>
      handle_spdm_vendor_defined_request mode (Some session_id) bs
  | SpdmRequestGetVersion | SpdmRequestGetCapabilities | SpdmRequestNegotiateAlgorithms
  | SpdmRequestChallenge | SpdmRequestKeyExchange | SpdmRequestPskExchange
  | SpdmRequestFinish | SpdmRequestPskFinish =>
      handle_error_request mode SpdmErrorUnexpectedRequest (Some session_id) bs
  | SpdmRequestResponseIfReady =>
      handle_error_request mode SpdmErrorUnsupportedRequest (Some session_id) bs
  | _ => throw SPDM_STATUS_UNSUPPORTED_CAP
  end.

(*@ spdmlib/src/responder/context.rs 227-361 ResponderContext::dispatch_secured_message *)
Definition dispatch_secured_message (session_id : Z) (bs : bytes) : SpdmM SpdmContext unit :=
  let* c := gets (λ c, c) in
  let* s := ok_or SPDM_STATUS_UNSUPPORTED_CAP (get_immutable_session_via_id session_id c) in
  match session_state s with
  | SpdmSessionHandshaking =>
      if in_clear_text c then throw SPDM_STATUS_UNSUPPORTED_CAP else
      let* (header, _) := some_or SPDM_STATUS_UNSUPPORTED_CAP (read_header bs) in
      dispatch_handshake session_id (hd_request_response_code header) bs
  | SpdmSessionEstablished =>
      let* (header, _) := some_or SPDM_STATUS_UNSUPPORTED_CAP (read_header bs) in
      dispatch_established session_id (hd_request_response_code header) bs
  | _ => throw SPDM_STATUS_UNSUPPORTED_CAP
  end.

(** Application data goes to the callback whatever the state of the session is. *)
(*@ spdmlib/src/responder/context.rs 363-374 ResponderContext::dispatch_secured_app_message *)
Definition dispatch_secured_app_message (session_id : Z) (bs auxiliary_app_data : bytes)
    : SpdmM SpdmContext unit :=
  let* (rsp, size) :=
    expect (dispatch_secured_app_message_cb session_id bs auxiliary_app_data) in
  let* rsp := sub_slice 0 size rsp in
  send_secured_message mode session_id rsp true.

(** FINISH outside a session is for a handshake in the clear. *)
(*@ spdmlib/src/responder/context.rs 411-441 ResponderContext::dispatch_message *)
Definition dispatch_finish (bs : bytes) : SpdmM SpdmContext unit :=
  let* c := gets (λ c, c) in
  let pending :=
    id ← last_session_id (runtime_info c);
    s ← get_immutable_session_via_id id c;
    if decide (session_state s = SpdmSessionHandshaking) then Some id else None in
  match in_clear_text c, pending with
  | true, Some id => handle_spdm_finish mode id bs
  | _, _ => handle_error_request mode SpdmErrorUnexpectedRequest None bs
  end.

(*@ spdmlib/src/responder/context.rs 375-460 ResponderContext::dispatch_message *)
Definition dispatch_message (bs : bytes) : SpdmM SpdmContext unit :=
  let* (header, _) := some_or SPDM_STATUS_UNSUPPORTED_CAP (read_header bs) in
  match hd_request_response_code header with
  | SpdmRequestGetVersion => handle_spdm_version bs
  | SpdmRequestGetCapabilities => handle_spdm_capability bs
  | SpdmRequestNegotiateAlgorithms => handle_spdm_algorithm mode bs
  | SpdmRequestGetDigests => handle_spdm_digest mode bs None
  | SpdmRequestGetCertificate => handle_spdm_certificate mode bs None
  | SpdmRequestChallenge => handle_spdm_challenge bs
  | SpdmRequestGetMeasurements => handle_spdm_measurement mode None bs
  | SpdmRequestKeyExchange => handle_spdm_key_exchange bs
  | SpdmRequestPskExchange => handle_spdm_psk_exchange bs
  | SpdmRequestVendorDefinedRequest => handle_spdm_vendor_defined_request mode None bs
  | SpdmRequestFinish => dispatch_finish bs
  | SpdmRequestPskFinish | SpdmRequestHeartbeat | SpdmRequestKeyUpdate
  | SpdmRequestEndSession => handle_error_request mode SpdmErrorUnexpectedRequest None bs
  | SpdmRequestResponseIfReady => handle_error_request mode SpdmErrorUnsupportedRequest None bs
  | _ => throw SPDM_STATUS_UNSUPPORTED_CAP
  end.

(** [x.is_ok()] *)
Definition is_ok {S E A} (c : SpdmM S A) : M S E bool :=
  let* r := attempt c in ret (match r with inr _ => true | inl _ => false end).

(** A message of a session: the packet [received] is decrypted with the keys of the session
    named in it and dispatched. *)
(*@ spdmlib/src/responder/context.rs 146-192 ResponderContext::process_message *)
Definition process_secured_message (received auxiliary_app_data : bytes)
    : M SpdmContext unit bool :=
  let* (session_id, _) := with_reader received (read u32_codec) in
  let* app := with_session session_id (throw tt)
    (map_err (λ _, tt) (session_decode mode received true)) in
  let* (r, spdm_buffer) := map_err (λ _, tt) (with_buffer MAX_SPDM_MSG_SIZE (t_decap_app app)) in
  let '(size, is_app_message) := r in
  let* message := sub_slice 0 size spdm_buffer in
  if negb is_app_message
  then is_ok (dispatch_secured_message session_id message)
  else is_ok (dispatch_secured_app_message session_id message auxiliary_app_data).

(** An error gives the packet back to the caller. *)
(*@ spdmlib/src/responder/context.rs 139-200 ResponderContext::process_message *)
Definition process_message (timeout : Z) (auxiliary_app_data : bytes)
    : M SpdmContext (nat * bytes) bool := λ c,
  match receive_message timeout (c, replicate RECEIVER_BUFFER_SIZE 0) with
  | (Ok (used, secured_message), (c, buf)) =>
      (let* message := sub_slice 0 used buf in
       if (secured_message : bool)
       then map_err (λ _, (used, buf)) (process_secured_message message auxiliary_app_data)
       else is_ok (dispatch_message message)) c
  | (Err used, (c, buf)) => (Err (used, buf), c)
  | (Panic, (c, _)) => (Panic, c)
  end.

End Dispatch.
