(* ===== verification/RspFrame.v ===== *)
(** What the operations of the context and the handlers of the responder leave alone.

    [quiet c c'] holds when the state of the connection, what was agreed in VERSION and
    CAPABILITIES and the identity, state and finished keys of every session are the same.
    Most of the responder is [within quiet]; the exceptions are treated in RspInv and
    RspState. *)

From Stdlib Require Import RelationClasses.
From S2P Require Import Prelude Config Codec Status Algo Protocol Crypto KeySchedule Buffers Session Context SpdmCodec Opaque MsgNegotiate MsgAuth MsgSession Message Endpoint Responder Within RspConnect RspSession RspDispatch RspWriter.

(** ** Stateless parts of the key exchange *)

Section Versions.
Context `{cfg : Config} `{sec : Secret} `{dev : SpdmDeviceIo} `{tr : SpdmTransportEncap}.
Context {S : Type} (Q : relation S) `{!PreOrder Q}.

Lemma within_get_secure_version {E} v : within Q (get_secure_spdm_version (E:=E) v).
Proof. unfold get_secure_spdm_version, nibbles. within_steps. Qed.
#[local] Hint Resolve within_get_secure_version : within.
Lemma within_match_local {E} c v l acc : within Q (match_local (E:=E) c v l acc).
Proof. revert acc. induction l; intros; cbn [match_local]; within_steps. Qed.
#[local] Hint Resolve within_match_local : within.
Lemma within_match_versions {E} c l acc : within Q (match_versions (E:=E) c l acc).
Proof. revert acc. induction l; intros; cbn [match_versions]; within_steps. Qed.
Lemma within_get_versions c o : within Q (rsp_get_dmtf_supported_secure_spdm_version_list c o).
Proof. unfold rsp_get_dmtf_supported_secure_spdm_version_list. within_steps. Qed.
End Versions.

Section Frame.
Context `{cfg : Config} `{cry : Crypto} `{sec : !Secret} `{dev : SpdmDeviceIo} `{tr : SpdmTransportEncap}.

(** ** Sessions *)

Definition session_base (s : SpdmSession) :=
  (session_id s, session_state s, use_psk s, mut_auth_requested s, crypto_param s).
Definition session_key (s : SpdmSession) :=
  (session_base s, request_finished_key (handshake_secret s),
   response_finished_key (handshake_secret s)).

Definition session_like : relation SpdmSession := λ s s', session_base s' = session_base s.
Definition session_quiet : relation SpdmSession := λ s s', session_key s' = session_key s.

#[export] Instance session_like_preorder : PreOrder session_like.
Proof. split; unfold session_like; [done|intros s s' s'' ??; congruence]. Qed.
#[export] Instance session_quiet_preorder : PreOrder session_quiet.
Proof. split; unfold session_quiet; [done|intros s s' s'' ??; congruence]. Qed.

Lemma quiet_like s s' : session_quiet s s' → session_like s s'.
Proof. unfold session_quiet, session_like, session_key. congruence. Qed.

Lemma on_th_quiet {E A} (c : M (option SpdmHashCtx) E A) : within session_quiet (on_th c).
Proof. apply (within_zoom _ (λ _ _, True)); done. Qed.
Lemma on_session_l1l2_quiet {E A} (c : M (option SpdmHashCtx) E A) :
  within session_quiet (on_session_l1l2 c).
Proof. apply (within_zoom _ (λ _ _, True)); done. Qed.
#[local] Hint Resolve on_th_quiet on_session_l1l2_quiet : within.

(** ** Derivations *)

Section Derivations.
Context {S : Type} (R : relation S) `{!PreOrder R}.

Lemma within_binconcat n v label context : within R (binconcat n v label context).
Proof. apply (within_stateless R (λ T, binconcat n v label context)), stateless_binconcat. Qed.
#[local] Hint Resolve within_binconcat : within.
Lemma within_expand_key h key info n : within R (expand_key h key info n).
Proof. unfold expand_key. within_steps. Qed.
#[local] Hint Resolve within_expand_key : within.
Lemma within_handshake_secret h key : within R (derive_handshake_secret h key).
Proof. unfold derive_handshake_secret. within_steps. Qed.
Lemma within_master_secret v h key : within R (derive_master_secret v h key).
Proof. unfold derive_master_secret. within_steps. Qed.
Lemma within_request_handshake psk v h key hint th :
  within R (derive_request_handshake_secret psk v h key hint th).
Proof. unfold derive_request_handshake_secret. within_steps. Qed.
Lemma within_response_handshake psk v h key hint th :
  within R (derive_response_handshake_secret psk v h key hint th).
Proof. unfold derive_response_handshake_secret. within_steps. Qed.
Lemma within_finished_key v h key : within R (derive_finished_key v h key).
Proof. unfold derive_finished_key. within_steps. Qed.
Lemma within_aead_key_iv v h a key : within R (derive_aead_key_iv v h a key).
Proof. unfold derive_aead_key_iv. within_steps. Qed.
Lemma within_request_data psk v h key hint th :
  within R (derive_request_data_secret psk v h key hint th).
Proof. unfold derive_request_data_secret. within_steps. Qed.
Lemma within_response_data psk v h key hint th :
  within R (derive_response_data_secret psk v h key hint th).
Proof. unfold derive_response_data_secret. within_steps. Qed.
Lemma within_export_master psk v h key hint :
  within R (derive_export_master_secret psk v h key hint).
Proof. unfold derive_export_master_secret. within_steps. Qed.
Lemma within_update_secret v h key : within R (derive_update_secret v h key).
Proof. unfold derive_update_secret. within_steps. Qed.
End Derivations.
#[local] Hint Resolve within_handshake_secret within_master_secret within_request_handshake
  within_response_handshake within_finished_key within_aead_key_iv within_request_data
  within_response_data within_export_master within_update_secret : within.

(** [session_steps] also discharges the updates of fields that do not matter. *)
Ltac session_steps :=
  repeat first [within_step | apply within_modify; intros; reflexivity | progress cbv zeta beta].

Lemma set_dhe_secret_quiet v k : within session_quiet (SpdmSession_set_dhe_secret v k).
Proof. unfold SpdmSession_set_dhe_secret. session_steps. Qed.
Lemma generate_handshake_secret_like v th :
  within session_like (SpdmSession_generate_handshake_secret v th).
Proof. unfold SpdmSession_generate_handshake_secret. session_steps. Qed.
Lemma generate_data_secret_quiet v th :
  within session_quiet (SpdmSession_generate_data_secret v th).
Proof. unfold SpdmSession_generate_data_secret. session_steps. Qed.
Lemma create_data_secret_update_quiet v q p :
  within session_quiet (SpdmSession_create_data_secret_update v q p).
Proof. unfold SpdmSession_create_data_secret_update. session_steps. Qed.
Lemma activate_data_secret_update_quiet q p n s :
  session_quiet s (SpdmSession_activate_data_secret_update q p n s).
Proof. unfold SpdmSession_activate_data_secret_update. by destruct n, q, p. Qed.

Lemma protect_quiet {A} mode get upd (c : SpdmSession → SpdmSessionSecretParam → SpdmM bytes A) :
  (∀ f s, session_quiet s (upd f s)) → within (on_first session_quiet) (protect mode get upd c).
Proof.
  intros Hu [s buf] r [s' buf'] Hp. unfold protect in Hp.
  destruct (c s (get s) buf) as [[] b]; repeat case_match; simplify_eq;
    unfold on_first; simpl; (reflexivity || apply Hu).
Qed.

Lemma encode_secured_quiet mode bs req :
  within (on_first session_quiet) (encode_spdm_secured_message mode bs req).
Proof.
  intros st r st' He. unfold encode_spdm_secured_message in He.
  repeat case_match; try (eapply protect_quiet; [|exact He]; done);
    by injection He as <- <-.
Qed.
Lemma decode_secured_quiet mode bs req :
  within (on_first session_quiet) (decode_spdm_secured_message mode bs req).
Proof.
  intros st r st' He. unfold decode_spdm_secured_message in He.
  repeat case_match; try (eapply protect_quiet; [|exact He]; done);
    by injection He as <- <-.
Qed.

Lemma session_encode_quiet mode bs req : within session_quiet (session_encode mode bs req).
Proof.
  intros s r s' He. unfold session_encode in He.
  destruct (encode_spdm_secured_message _ _ _ _) as [[] [s1 b]] eqn:Hs;
    pose proof (encode_secured_quiet _ _ _ _ _ _ Hs) as Hq; unfold on_first in Hq; simpl in Hq.
  - etrans; [exact Hq|]. by eapply within_sub_slice; [apply _|].
  - by injection He as <- <-.
  - by injection He as <- <-.
Qed.
Lemma session_decode_quiet mode bs req : within session_quiet (session_decode mode bs req).
Proof.
  intros s r s' He. unfold session_decode in He.
  destruct (decode_spdm_secured_message _ _ _ _) as [[] [s1 b]] eqn:Hs;
    pose proof (decode_secured_quiet _ _ _ _ _ _ Hs) as Hq; unfold on_first in Hq; simpl in Hq.
  - etrans; [exact Hq|]. by eapply within_sub_slice; [apply _|].
  - by injection He as <- <-.
  - by injection He as <- <-.
Qed.

#[local] Hint Resolve set_dhe_secret_quiet generate_data_secret_quiet
  create_data_secret_update_quiet session_encode_quiet session_decode_quiet : within.

(** ** Contexts *)

Definition neg_key (n : SpdmNegotiateInfo) :=
  (spdm_version_sel n, req_capabilities_sel n, rsp_capabilities_sel n,
   req_data_transfer_size_sel n).

(** What is fixed, apart from the sessions. *)
Definition context_key (c : SpdmContext) :=
  (config_info c, neg_key (negotiate_info c), connection_state (runtime_info c),
   last_session_id (runtime_info c), peer_info c, peer_root_cert_data (provision_info c)).

(** Only the sessions change, each by [R]. *)
Definition steady (R : relation SpdmSession) : relation SpdmContext := λ c c',
  context_key c' = context_key c ∧ Forall2 R (session c) (session c').

Definition quiet : relation SpdmContext := steady session_quiet.

#[export] Instance steady_preorder R `{!PreOrder R} : PreOrder (steady R).
Proof.
  split; unfold steady.
  - intros c. split; [done|]. apply Forall_Forall2_diag, Forall_true. reflexivity.
  - intros c c' c'' [Hk Hs] [Hk' Hs']. split; [congruence|]. by etrans.
Qed.
#[export] Instance quiet_preorder : PreOrder quiet.
Proof. unfold quiet. apply _. Qed.

Lemma steady_mono (R R' : relation SpdmSession) c c' :
  (∀ s s', R s s' → R' s s') → steady R c c' → steady R' c c'.
Proof. intros HR [Hk Hs]. split; [done|]. eapply Forall2_impl; [done|]. auto. Qed.

Section Steady.
Context (R : relation SpdmSession) `{!PreOrder R}.

(** A change that is not in the key and not in the sessions. *)
Lemma steady_same c c' : context_key c' = context_key c → session c' = session c → steady R c c'.
Proof.
  intros Hk Hs. split; [done|]. rewrite Hs. apply Forall_Forall2_diag, Forall_true. reflexivity.
Qed.

Lemma steady_update i s s' c :
  session c !! i = Some s → R s s' → steady R c (c <| session ::= <[i := s']> |>).
Proof.
  intros Hi HR. split; [done|]. cbn. apply Forall2_same_length_lookup_2.
  { by rewrite length_insert. }
  intros j x y Hx Hy. destruct (decide (i = j)) as [<-|Hne].
  - rewrite list_lookup_insert_eq in Hy by (by eapply lookup_lt_Some). by simplify_eq.
  - rewrite list_lookup_insert_ne in Hy by done. simplify_eq. reflexivity.
Qed.

Lemma steady_session {E A} id (otherwise : M SpdmContext E A) (body : M SpdmSession E A) :
  within (steady R) otherwise →
  (∀ s, session_id s = id → within_at R body s) →
  within (steady R) (with_session id otherwise body).
Proof.
  intros Ho Hb c r c' H. unfold with_session in H.
  destruct (list_find _ _) as [[i s]|] eqn:Hf; [|by eapply Ho].
  apply list_find_Some in Hf as (Hi&Hid&_). destruct (body s) as [o s'] eqn:Hs.
  injection H as <- <-. eapply steady_update; [done|]. by eapply Hb.
Qed.

Lemma within_steady_session {E A} id (otherwise : M SpdmContext E A) (body : M SpdmSession E A) :
  within (steady R) otherwise → within R body →
  within (steady R) (with_session id otherwise body).
Proof. intros Ho Hb. apply steady_session; [done|]. intros s _ r s'. apply Hb. Qed.

Lemma steady_world {E A} (c : M world E A) : within (steady R) (on_world c).
Proof. apply (within_zoom _ (λ _ _, True)); [done|]. intros. by apply steady_same. Qed.
Lemma steady_device bs : within (steady R) (device_send bs).
Proof. apply (within_zoom _ (λ _ _, True)); [done|]. intros. by apply steady_same. Qed.
Lemma steady_m1m2 {E A} (c : M (option SpdmHashCtx) E A) : within (steady R) (on_m1m2 c).
Proof. apply (within_zoom _ (λ _ _, True)); [done|]. intros. by apply steady_same. Qed.
Lemma steady_l1l2 {E A} (c : M (option SpdmHashCtx) E A) : within (steady R) (on_l1l2 c).
Proof. apply (within_zoom _ (λ _ _, True)); [done|]. intros. by apply steady_same. Qed.
Lemma steady_append_a bs : within (steady R) (append_message_a bs).
Proof.
  unfold append_message_a. apply within_bind; [apply _| |intros; within_steps].
  apply (within_zoom _ (λ _ _, True)); [done|]. intros. by apply steady_same.
Qed.
#[local] Hint Resolve steady_world steady_device steady_m1m2 steady_l1l2 : within.

Lemma steady_append_m1m2 e bs : within (steady R) (append_m1m2 e bs).
Proof. unfold append_m1m2. within_steps. Qed.
Lemma steady_append_b bs : within (steady R) (append_message_b bs).
Proof. apply steady_append_m1m2. Qed.
Lemma steady_append_c bs : within (steady R) (append_message_c bs).
Proof. apply steady_append_m1m2. Qed.

Lemma steady_construct_slot mode slot : within (steady R) (construct_slot mode slot).
Proof.
  unfold construct_slot. within_steps. all: apply within_modify; intros; by apply steady_same.
Qed.
Lemma steady_construct_my_cert_chain mode : within (steady R) (construct_my_cert_chain mode).
Proof.
  unfold construct_my_cert_chain. generalize (seq 0 SPDM_MAX_SLOT_NUMBER).
  induction l as [|slot l IH]; cbn [construct_slots]; within_steps.
  apply steady_construct_slot.
Qed.
End Steady.
#[local] Hint Resolve steady_world steady_device steady_m1m2 steady_l1l2 steady_append_a
  steady_append_b steady_append_c steady_construct_my_cert_chain : within.
#[local] Hint Extern 3 (within (steady _) (with_session _ _ _)) =>
  (apply within_steady_session; [apply _|within_steps|session_steps]) : within.
#[local] Hint Extern 4 (steady _ _ _) => (apply steady_same; [apply _|reflexivity..]) : within.

(** A relation that allows what happens inside transcripts. *)
Class Transcripts (R : relation SpdmSession) : Prop := {
  transcripts_preorder :: PreOrder R;
  transcripts_quiet s s' : session_quiet s s' → R s s';
}.

#[export] Instance transcripts_session_quiet : Transcripts session_quiet.
Proof. by split; [apply _|]. Qed.
#[export] Instance transcripts_session_like : Transcripts session_like.
Proof. split; [apply _|]. apply quiet_like. Qed.

Lemma within_quiet_steady R `{!Transcripts R} {E A} (c : M SpdmContext E A) :
  within quiet c → within (steady R) c.
Proof.
  intros Hc. eapply within_mono; [exact Hc|]. intros c1 c2. apply steady_mono, transcripts_quiet.
Qed.

Lemma quiet_append_m id bs : within quiet (append_message_m id bs).
Proof. unfold append_message_m, append_l1l2, quiet. within_steps. Qed.
Lemma quiet_append_k id bs : within quiet (append_message_k id bs).
Proof. unfold append_message_k, quiet. within_steps. Qed.
Lemma quiet_append_f b id bs : within quiet (append_message_f b id bs).
Proof. unfold append_message_f, mut_cert_digest, quiet. within_steps. Qed.

Lemma quiet_reset_message_m id c : quiet c (reset_message_m id c).
Proof.
  unfold reset_message_m. destruct id as [id|]; [|by apply steady_same; [apply _|..]].
  destruct (with_session _ _ _ c) as [r c'] eqn:Hw. cbn. revert Hw.
  apply within_steady_session; [apply _|within_steps|session_steps].
Qed.
Lemma quiet_reset_buffer code id c : quiet c (reset_buffer_via_request_code code id c).
Proof.
  unfold reset_buffer_via_request_code.
  etrans; [instantiate (1 := if decide (code ≠ SpdmRequestGetMeasurements)
                             then reset_message_m id c else c)|].
  - case_decide; [apply quiet_reset_message_m|reflexivity].
  - generalize (if decide (code ≠ SpdmRequestGetMeasurements) then reset_message_m id c else c).
    intros c'. destruct code; try reflexivity; try (destruct (_ <? _); [|reflexivity]);
      (apply steady_same; [apply _|done|done]).
Qed.


(** ** Handlers *)

Ltac rsp_steps :=
  repeat first
    [ within_step
    | lazymatch goal with
      | |- within (on_first _) (zoom fst _ _) => apply within_on_fst
      | |- within _ (modify _) => apply within_modify; intros; solve [auto with within nocore]
      end ].

Section Rsp.
Context (R : relation SpdmSession) `{!Transcripts R}.
Context `{handlers : !SpdmHandlers} (mode : overflow_mode).

Abbreviation frame := (on_first (T:=Writer) (steady R)) (only parsing).

#[local] Instance frame_preorder {T} : PreOrder (on_first (T:=T) (steady R)).
Proof. apply _. Qed.
#[local] Instance frame_steady : PreOrder (steady R).
Proof. apply _. Qed.

Lemma frame_append_m id bs : within (steady R) (append_message_m id bs).
Proof. apply within_quiet_steady; [apply _|apply quiet_append_m]. Qed.
Lemma frame_append_k id bs : within (steady R) (append_message_k id bs).
Proof. apply within_quiet_steady; [apply _|apply quiet_append_k]. Qed.
Lemma frame_append_f b id bs : within (steady R) (append_message_f b id bs).
Proof. apply within_quiet_steady; [apply _|apply quiet_append_f]. Qed.
Lemma frame_reset_buffer code id c : steady R c (reset_buffer_via_request_code code id c).
Proof. eapply steady_mono; [apply transcripts_quiet|apply quiet_reset_buffer]. Qed.
Lemma frame_reset_message_m id c : steady R c (reset_message_m id c).
Proof. eapply steady_mono; [apply transcripts_quiet|apply quiet_reset_message_m]. Qed.
#[local] Hint Resolve frame_append_m frame_append_k frame_append_f frame_reset_buffer
  frame_reset_message_m : within.

Lemma frame_read_payload {A} (codec : SpdmContext → SpdmCodec A) r :
  within frame (read_payload codec r).
Proof. unfold read_payload. rsp_steps. Qed.
Lemma frame_write_response code payload : within frame (write_response code payload).
Proof. unfold write_response. rsp_steps. Qed.
#[local] Hint Resolve frame_read_payload frame_write_response : within.
Lemma frame_write_spdm_error code e : within frame (write_spdm_error code e).
Proof. unfold write_spdm_error. rsp_steps. Qed.
#[local] Hint Resolve frame_write_spdm_error : within.
Lemma frame_error code : within frame (error code).
Proof. unfold error. rsp_steps. Qed.
#[local] Hint Resolve frame_error : within.
Lemma frame_reject {A} code status : within frame (reject (A:=A) code status).
Proof. unfold reject. rsp_steps. Qed.
Lemma frame_consumed {S} (Q : relation S) `{!PreOrder Q} {E} bs r : within Q (consumed (E:=E) bs r).
Proof. unfold consumed. within_steps. Qed.
Lemma frame_reset_buffers code id : within frame (reset_buffers code id).
Proof. unfold reset_buffers. rsp_steps. Qed.
Lemma frame_append_a bs : within frame (append_a bs).
Proof. unfold append_a. rsp_steps. Qed.
Lemma frame_append_b id bs : within frame (append_b id bs).
Proof. unfold append_b. rsp_steps. Qed.
#[local] Hint Resolve frame_reject frame_consumed frame_reset_buffers frame_append_a
  frame_append_b : within.
Lemma frame_append_written_a : within frame append_written_a.
Proof. unfold append_written_a. rsp_steps. Qed.
Lemma frame_append_written_b id : within frame (append_written_b id).
Proof. unfold append_written_b. rsp_steps. Qed.
Lemma frame_local_chain {S} (Q : relation S) `{!PreOrder Q} {E} c slot :
  within Q (local_chain (E:=E) c slot).
Proof. unfold local_chain. within_steps. Qed.
Lemma frame_random_array n : within frame (random_array n).
Proof. unfold random_array. rsp_steps. Qed.
#[local] Hint Resolve frame_append_written_a frame_append_written_b frame_local_chain
  frame_random_array : within.
Lemma frame_provisioned_mask {S} (Q : relation S) `{!PreOrder Q} {E} c slots :
  within Q (provisioned_mask (E:=E) c slots).
Proof. induction slots; cbn [provisioned_mask]; within_steps. Qed.
Lemma frame_patch_digests c slots : within frame (patch_digests c slots).
Proof. induction slots; cbn [patch_digests]; rsp_steps. Qed.
Lemma frame_measure op : within frame (measure op).
Proof. unfold measure. rsp_steps. Qed.
#[local] Hint Resolve frame_provisioned_mask frame_patch_digests frame_measure : within.
Lemma frame_collect op : within frame (collect_measurements op).
Proof. unfold collect_measurements. rsp_steps. Qed.

(** Combinators with a continuation. *)
Lemma frame_expect_negotiated bs bad k :
  (∀ e, within frame (bad e)) → (∀ r, within frame (k r)) →
  within frame (expect_negotiated bs bad k).
Proof. intros. unfold expect_negotiated. rsp_steps. Qed.
Lemma frame_expect_version bs bad k :
  (∀ e, within frame (bad e)) → (∀ r, within frame (k r)) →
  within frame (expect_version bs bad k).
Proof. intros. unfold expect_version. rsp_steps. Qed.
Lemma frame_summary_hash t bad k :
  within frame bad → (∀ h, within frame (k h)) → within frame (summary_hash t bad k).
Proof. intros. unfold summary_hash. rsp_steps. Qed.

(** The handlers that write nothing but transcripts.  Where a handler sends an error itself,
    [sends] is the frame of that. *)
#[local] Hint Resolve frame_collect : within.
#[local] Hint Extern 1 (within _ (expect_negotiated _ _ _)) =>
  (apply frame_expect_negotiated; [within_steps|intros; rsp_steps]) : within.
#[local] Hint Extern 1 (within _ (expect_version _ _ _)) =>
  (apply frame_expect_version; [within_steps|intros; rsp_steps]) : within.
#[local] Hint Extern 1 (within _ (summary_hash _ _ _)) =>
  (apply frame_summary_hash; [rsp_steps|intros; rsp_steps]) : within.

Lemma frame_error_response code bs : within frame (write_error_response code bs).
Proof. unfold write_error_response. rsp_steps. Qed.
Lemma frame_digest id bs : within frame (write_spdm_digest_response id bs).
Proof. unfold write_spdm_digest_response. rsp_steps. Qed.
Lemma frame_certificate id bs : within frame (write_spdm_certificate_response id bs).
Proof. unfold write_spdm_certificate_response. rsp_steps. Qed.
Lemma frame_vendor id bs : within frame (write_spdm_vendor_defined_response id bs).
Proof. unfold write_spdm_vendor_defined_response. rsp_steps. Qed.
Lemma neg_key_record_offer q n : neg_key (record_offer q n) = neg_key n.
Proof.
  unfold record_offer. generalize (take (Z.to_nat (nq_alg_struct_count q)) (nq_alg_struct q)).
  set (m := n <| measurement_specification_sel := _ |> <| base_hash_sel := _ |>
    <| base_asym_sel := _ |>). change (neg_key n) with (neg_key m). generalize m. clear m.
  intros m l. revert m. induction l as [|a l IH]; intros m; [done|]. cbn [fold_left].
  rewrite IH. unfold offer_alg. by destruct (alg_supported a).
Qed.
Lemma steady_record_offer q c : steady R c (c <| negotiate_info ::= record_offer q |>).
Proof.
  apply steady_same; [apply _| |done]. unfold context_key. cbn. by rewrite neg_key_record_offer.
Qed.
#[local] Hint Resolve steady_record_offer : within.
Lemma frame_algorithm bs : within frame (write_spdm_algorithm mode bs).
Proof. unfold write_spdm_algorithm. rsp_steps. Qed.

Lemma within_signing_message {S} (Q : relation S) `{!PreOrder Q} zeropad ctx h :
  within Q (signing_message zeropad ctx h).
Proof. by intros ??? [= <- <-]. Qed.
#[local] Hint Resolve within_signing_message : within.
Lemma frame_sign zeropad ctx h : within (steady R) (sign_transcript zeropad ctx h).
Proof. unfold sign_transcript. within_steps. Qed.
#[local] Hint Resolve frame_sign : within.
Lemma frame_challenge_signature : within (steady R) generate_challenge_auth_signature.
Proof. unfold generate_challenge_auth_signature, transcript_digest. within_steps. Qed.
Lemma frame_measurement_signature id : within (steady R) (generate_measurement_signature id).
Proof. unfold generate_measurement_signature, transcript_digest. within_steps. Qed.
#[local] Hint Resolve frame_challenge_signature frame_measurement_signature : within.

Section Sends.
Context (sends : within (steady R) (send_spdm_error SpdmErrorUnspecified 0)).
#[local] Hint Resolve sends : within.

Lemma frame_challenge bs : within frame (write_spdm_challenge_response bs).
Proof. unfold write_spdm_challenge_response. rsp_steps. Qed.
Lemma frame_measurement id bs : within frame (write_spdm_measurement_response id bs).
Proof. unfold write_spdm_measurement_response. rsp_steps. Qed.
End Sends.

(** The handlers of sessions. *)
Lemma frame_on_session {E A} id (c : M SpdmSession E A) :
  within R c → within frame (on_session id c).
Proof.
  intros Hc. apply within_on_fst, within_steady_session; [apply _|within_steps|done].
Qed.
Lemma frame_on_session_quiet {E A} id (c : M SpdmSession E A) :
  within session_quiet c → within frame (on_session id c).
Proof.
  intros Hc. apply frame_on_session. eapply within_mono; [exact Hc|]. apply transcripts_quiet.
Qed.
#[local] Hint Extern 3 (within _ (on_session _ _)) =>
  (apply frame_on_session_quiet; session_steps) : within.

Lemma frame_immutable {E} id : within frame (immutable_session (E:=E) id).
Proof. unfold immutable_session. rsp_steps. Qed.
Lemma frame_append_to_k id bs : within frame (append_k id bs).
Proof. unfold append_k. rsp_steps. Qed.
Lemma frame_append_to_f id bs : within frame (append_f id bs).
Proof. unfold append_f. rsp_steps. Qed.
Lemma frame_unspecified {A} : within frame (unspecified (A:=A)).
Proof. apply frame_reject. Qed.
Lemma frame_invalid {A} : within frame (invalid (A:=A)).
Proof. apply frame_reject. Qed.
Lemma frame_refuse code : within frame (refuse code).
Proof. apply frame_reject. Qed.
Lemma frame_transcript {S} (Q : relation S) `{!PreOrder Q} s :
  within Q (calc_rsp_transcript_hash s).
Proof. unfold calc_rsp_transcript_hash. within_steps. Qed.
Lemma frame_generate_hmac {S} (Q : relation S) `{!PreOrder Q} s h :
  within Q (generate_hmac_with_response_finished_key s h).
Proof. unfold generate_hmac_with_response_finished_key. within_steps. Qed.
Lemma frame_verify_hmac {S} (Q : relation S) `{!PreOrder Q} s h d :
  within Q (verify_hmac_with_request_finished_key s h d).
Proof. unfold verify_hmac_with_request_finished_key. within_steps. Qed.
#[local] Hint Resolve frame_immutable frame_append_to_k frame_append_to_f frame_unspecified
  frame_invalid frame_refuse frame_transcript frame_generate_hmac frame_verify_hmac : within.

Lemma frame_verify_finish sig s : within frame (verify_finish_req_signature sig s).
Proof. unfold verify_finish_req_signature. rsp_steps. Qed.
Lemma frame_check_finish id psk vd : within frame (check_finish id psk vd).
Proof. unfold check_finish. rsp_steps. Qed.
Lemma frame_data_keys id : within frame (data_keys id).
Proof. unfold data_keys. rsp_steps. Qed.
Lemma frame_authenticate id clear n : within frame (authenticate_finish_rsp id clear n).
Proof. unfold authenticate_finish_rsp. rsp_steps. Qed.
#[local] Hint Resolve frame_verify_finish frame_check_finish frame_data_keys
  frame_authenticate : within.

Lemma frame_finish id bs : within frame (write_spdm_finish_response id bs).
Proof. unfold write_spdm_finish_response. rsp_steps. Qed.
Lemma frame_psk_finish id bs : within frame (write_spdm_psk_finish_response id bs).
Proof. unfold write_spdm_psk_finish_response. rsp_steps. Qed.
Lemma frame_heartbeat id bs : within frame (write_spdm_heartbeat_response id bs).
Proof. unfold write_spdm_heartbeat_response. rsp_steps. Qed.
Lemma frame_end_session id bs : within frame (write_spdm_end_session_response id bs).
Proof. unfold write_spdm_end_session_response. rsp_steps. Qed.

Lemma frame_update_keys v op c : update_session_keys v op = Some c → within session_quiet c.
Proof.
  destruct op; intros [= <-]; session_steps;
    apply within_modify; intros; apply activate_data_secret_update_quiet.
Qed.
Lemma frame_key_update id bs : within frame (write_spdm_key_update_response id bs).
Proof.
  unfold write_spdm_key_update_response. apply frame_expect_version; [within_steps|].
  intros r. apply within_bind; [apply _|rsp_steps|intros _ _ _ _].
  apply within_or_else; [apply _|rsp_steps..|intros [q rd] _ _ _].
  apply within_bind; [apply _|rsp_steps|intros c _ _ _]. cbv zeta.
  destruct (update_session_keys _ _) as [u|] eqn:Hu; rsp_steps.
  apply frame_on_session_quiet. by eapply frame_update_keys.
Qed.
End Rsp.

(** ** Combinators with a continuation, for any relation that allows what is quiet *)

Lemma read_header_run {S} bs h rd (s s' : S) :
  read_header bs s = (Ok (h, rd), s') → s' = s ∧ run (read_header bs) = Ok (h, rd).
Proof.
  unfold read_header, with_reader, run. destruct (read _ _) as [[] ?]; intros; by simplify_eq.
Qed.

Section Above.
Context (Q : relation SpdmContext) `{!PreOrder Q} (above : ∀ c c', quiet c c' → Q c c').

Lemma above_quiet {E A} (m : M Rsp E A) :
  within (on_first (steady session_quiet)) m → within (on_first Q) m.
Proof. intros Hm. eapply within_mono; [exact Hm|]. intros s s'. apply above. Qed.
Lemma above_ctx {E A} (m : M SpdmContext E A) : within (steady session_quiet) m → within Q m.
Proof. intros Hm. eapply within_mono; [exact Hm|]. apply above. Qed.

Lemma above_expect_negotiated bs bad k :
  (∀ e, within (on_first Q) (bad e)) →
  (∀ h rd, run (read_header bs) = Ok (h, rd) → within (on_first Q) (k rd)) →
  within (on_first Q) (expect_negotiated bs bad k).
Proof.
  intros Hbad Hk. unfold expect_negotiated. apply within_bind; [apply _|within_steps|].
  intros c _ _ _. destruct (state_below _ c); [done|].
  apply within_or_else; [apply _|within_steps|done|]. intros [h rd] s s' Hr.
  apply read_header_run in Hr as [_ Hr]. case_decide; [done|]. by eapply Hk.
Qed.
Lemma above_summary_hash t bad k :
  within (on_first Q) bad → (∀ h, within (on_first Q) (k h)) →
  within (on_first Q) (summary_hash t bad k).
Proof.
  intros Hbad Hk. unfold summary_hash. rsp_steps.
  - apply within_modify. intros c. apply above. by apply steady_same; [apply _|..].
  - apply above_ctx, steady_world, _.
Qed.
Lemma above_select_version o K :
  (∀ o', within (on_first Q) (K o')) → within (on_first Q) (select_secured_version o K).
Proof.
  intros HK. unfold select_secured_version. rsp_steps;
    first [apply within_get_versions, _|apply within_match_versions, _|idtac].
  all: apply above_quiet, frame_reject, _.
Qed.
End Above.

End Frame.
