(* ===== verification/RspCode.v ===== *)
(** The code of the message in the send buffer of each handler of the responder: it is the
    code of the handler's response, or the code of an error.  What is filled in afterwards,
    digests, signatures and authentication codes, lies behind the header. *)

From Stdlib Require Import RelationClasses.
From stdpp Require Import sets.
From S2P Require Import Prelude Config Codec Status Algo Protocol Crypto KeySchedule Buffers Session Context SpdmCodec Opaque MsgNegotiate MsgAuth MsgSession Message Endpoint Responder Within RspWriter RspConnect RspSession RspDispatch RspFrame.

(** ** Rules from one state *)

Lemma within_at_of {S E A} (R : relation S) (c : M S E A) s : within R c → within_at R c s.
Proof. intros Hc r s'. apply Hc. Qed.

Lemma within_on_fst_second {S T E A} (R : relation T) `{!PreOrder R} (c : M S E A) :
  within (S:=S * T) (on_second R) (on_fst c).
Proof.
  apply (within_zoom _ (λ _ _, True)); [done|]. intros [s t] s' _. unfold on_second. by simpl.
Qed.

Section At.
Context {S : Type} (R : relation S) `{!PreOrder R}.

Lemma within_at_gets {E A B : Type} (f : S → A) (k : A → M S E B) s :
  within_at R (k (f s)) s → within_at R (bind (gets f) k) s.
Proof. intros Hk. apply within_at_bind; [done|by intros ?? [= <- <-]|by intros ?? [= <- <-]]. Qed.
Lemma within_at_ret {E A B : Type} (a : A) (k : A → M S E B) s :
  within_at R (k a) s → within_at R (bind (ret a) k) s.
Proof. intros Hk. apply within_at_bind; [done|by intros ?? [= <- <-]|by intros ?? [= <- <-]]. Qed.
Lemma within_at_sub_usize {E B : Type} a b (k : nat → M S E B) s :
  ((b ≤ a)%nat → within_at R (k (a - b)%nat) s) → within_at R (bind (sub_usize a b) k) s.
Proof.
  intros Hk. apply within_at_bind; [done|apply within_at_of, within_sub_usize; done|].
  unfold sub_usize. destruct (Nat.leb_spec b a); [|done]. intros ?? [= <- <-]. auto.
Qed.
Lemma within_at_of_outcome {E A B : Type} (o : outcome E A) (k : A → M S E B) s :
  (∀ a, o = Ok a → within_at R (k a) s) → within_at R (bind (of_outcome o) k) s.
Proof.
  intros Hk. apply within_at_bind; [done|apply within_at_of, within_of_outcome; done|].
  unfold of_outcome. intros a s' [= -> <-]. auto.
Qed.
Lemma within_at_step {E A B : Type} (c : M S E A) (k : A → M S E B) a s :
  c s = (Ok a, s) → within_at R (k a) s → within_at R (bind c k) s.
Proof.
  intros Hc Hk. apply within_at_bind; [done|by intros ?? Hr; rewrite Hc in Hr; simplify_eq|].
  intros a' s' Ha. rewrite Hc in Ha. by simplify_eq.
Qed.
Lemma within_at_sub_slice {E B : Type} lo hi bs (k : bytes → M S E B) s :
  (∀ bs', within_at R (k bs') s) → within_at R (bind (sub_slice lo hi bs) k) s.
Proof.
  intros Hk. apply within_at_bind; [done|apply within_at_of, within_sub_slice; done|].
  unfold sub_slice. case_decide; [|done]. intros ?? [= <- <-]. auto.
Qed.
Lemma within_at_consumed {E B : Type} bs r (k : bytes → M S E B) s :
  (∀ bs', within_at R (k bs') s) → within_at R (bind (consumed bs r) k) s.
Proof. apply within_at_sub_slice. Qed.
End At.

(** What an invariant says of the first state may be used. *)
Lemma within_at_preserves {S E A} (I : S → Prop) (c : M S E A) s :
  (I s → within_at (preserves I) c s) → within_at (preserves I) c s.
Proof. intros Hc r s' H Hs. by apply (Hc Hs r s'). Qed.

Section Codes.
Context `{cfg : Config} `{cry : Crypto} `{sec : !Secret} `{dev : SpdmDeviceIo} `{tr : SpdmTransportEncap}.
Context `{cv : !ConfigValid} `{handlers : !SpdmHandlers} (mode : overflow_mode).

Definition codes (k : Z) : relation Rsp := preserves (λ s, coded k s.2).

#[export] Instance codes_preorder k : PreOrder (codes k).
Proof. unfold codes. apply _. Qed.

Lemma codes_at {E A} k (c : M Rsp E A) s :
  (coded k s.2 → within_at (codes k) c s) → within_at (codes k) c s.
Proof. apply (within_at_preserves (λ s, coded k s.2)). Qed.

Section Code.
Context (k : Z).

Lemma codes_fst {E A} (c : M SpdmContext E A) : within (codes k) (on_fst c).
Proof.
  apply (within_mono _ (on_second (preserves (coded k)))); [by apply within_on_fst_second; apply _|].
  done.
Qed.
#[local] Hint Resolve codes_fst : within.

Lemma codes_read_payload {A} (codec : SpdmContext → SpdmCodec A) r :
  within (codes k) (read_payload codec r).
Proof. unfold read_payload. within_steps. Qed.
Lemma codes_encode c m :
  (let code := SpdmRequestResponseCode_get_u8 (hd_request_response_code (msg_header m)) in
   code = k ∨ code = 0x7F) →
  within (codes k) (on_snd (spdm_encode (SpdmMessage_codec c) m)).
Proof.
  intros Hk. apply (within_zoom _ (preserves (coded k))); [by apply coded_message|]. done.
Qed.
Lemma codes_write_response code payload :
  SpdmRequestResponseCode_get_u8 code = k → within (codes k) (write_response code payload).
Proof. intros Hk. unfold write_response. within_steps. apply codes_encode. by left. Qed.
Lemma codes_write_spdm_error code e : within (codes k) (write_spdm_error code e).
Proof.
  unfold write_spdm_error, write_response. within_steps. apply codes_encode. by right.
Qed.
#[local] Hint Resolve codes_read_payload codes_write_spdm_error : within.
Lemma codes_error code : within (codes k) (error code).
Proof. apply codes_write_spdm_error. Qed.
#[local] Hint Resolve codes_error : within.
Lemma codes_reject {A} code status : within (codes k) (reject (A:=A) code status).
Proof. unfold reject. within_steps. Qed.
Lemma codes_consumed {E} bs r : within (codes k) (consumed (E:=E) bs r).
Proof. unfold consumed. within_steps. Qed.
Lemma codes_reset_buffers code id : within (codes k) (reset_buffers code id).
Proof. apply codes_fst. Qed.
Lemma codes_append_a bs : within (codes k) (append_a bs).
Proof. apply codes_fst. Qed.
Lemma codes_append_b id bs : within (codes k) (append_b id bs).
Proof. unfold append_b. within_steps. Qed.
#[local] Hint Resolve codes_reject codes_consumed codes_reset_buffers codes_append_a
  codes_append_b : within.
Lemma codes_append_written_a : within (codes k) append_written_a.
Proof. unfold append_written_a. within_steps. Qed.
Lemma codes_append_written_b id : within (codes k) (append_written_b id).
Proof. unfold append_written_b. within_steps. Qed.
Lemma codes_local_chain {E} c slot : within (codes k) (local_chain (E:=E) c slot).
Proof. unfold local_chain. within_steps. Qed.
Lemma codes_random_array n : within (codes k) (random_array n).
Proof. unfold random_array. within_steps. Qed.
Lemma codes_measure op : within (codes k) (measure op).
Proof. unfold measure. within_steps. Qed.
#[local] Hint Resolve codes_append_written_a codes_append_written_b codes_local_chain
  codes_random_array codes_measure : within.
Lemma codes_collect op : within (codes k) (collect_measurements op).
Proof. unfold collect_measurements. within_steps. Qed.
Lemma codes_provisioned_mask {E} c slots : within (codes k) (provisioned_mask (E:=E) c slots).
Proof. apply frame_provisioned_mask, _. Qed.

Lemma codes_patch {E} lo hi bs :
  (2 ≤ lo)%nat → within (codes k) (on_snd (Writer_patch (E:=E) lo hi bs)).
Proof.
  intros Hlo. apply (within_zoom _ (preserves (coded k))); [|done].
  intros w r w' Hp Hc. by eapply coded_patch.
Qed.

(** A response of which the last [n] bytes are filled in later. *)
Lemma codes_written {E' B} code payload (bad : M Rsp E' B) K s n :
  SpdmRequestResponseCode_get_u8 code = k →
  grows n (payload_encode s.1 payload) →
  (∀ s', within_at (codes k) bad s') →
  (∀ a s', s'.1 = s.1 → (2 + n ≤ wr_offs s'.2)%nat → within_at (codes k) (K a) s') →
  within_at (codes k) (or_else (write_response code payload) bad K) s.
Proof.
  intros Hk Hg Hbad HK. apply codes_at. intros Hs.
  apply within_at_or_else; [apply _|by apply within_at_of, codes_write_response|auto|].
  intros a s' Hw. unfold write_response in Hw.
  apply bind_ok in Hw as (c&s1&Hc&Hw). apply gets_ok in Hc as [<- <-].
  unfold zoom in Hw. destruct (spdm_encode _ _ _) as [o w'] eqn:He. simplify_eq.
  apply HK; [done|]. cbn [snd].
  pose proof (grows_message _ {| msg_payload := payload |} n Hg _ _ _ He (proj1 Hs)). lia.
Qed.

Lemma Writer_patch_offs {E} lo hi bs w r w' :
  Writer_patch (E:=E) lo hi bs w = (r, w') → wr_offs w' = wr_offs w.
Proof. unfold Writer_patch. by case_decide; intros [= <- <-]. Qed.

(** Combinators with a continuation. *)
Lemma codes_expect_negotiated bs bad K :
  (∀ e, within (codes k) (bad e)) → (∀ r, within (codes k) (K r)) →
  within (codes k) (expect_negotiated bs bad K).
Proof. intros. unfold expect_negotiated. within_steps. Qed.
Lemma codes_expect_version bs bad K :
  (∀ e, within (codes k) (bad e)) → (∀ r, within (codes k) (K r)) →
  within (codes k) (expect_version bs bad K).
Proof. intros. unfold expect_version. within_steps. Qed.
Lemma codes_summary_hash t bad K :
  within (codes k) bad → (∀ h, within (codes k) (K h)) → within (codes k) (summary_hash t bad K).
Proof. intros. unfold summary_hash. within_steps. Qed.

Lemma codes_on_session {E A} id (c : M SpdmSession E A) : within (codes k) (on_session id c).
Proof. apply codes_fst. Qed.
Lemma codes_immutable {E} id : within (codes k) (immutable_session (E:=E) id).
Proof. unfold immutable_session. within_steps. Qed.
Lemma codes_append_k id bs : within (codes k) (append_k id bs).
Proof. apply codes_fst. Qed.
Lemma codes_append_f id bs : within (codes k) (append_f id bs).
Proof. apply codes_fst. Qed.
Lemma codes_unspecified {A} : within (codes k) (unspecified (A:=A)).
Proof. apply codes_reject. Qed.
Lemma codes_invalid {A} : within (codes k) (invalid (A:=A)).
Proof. apply codes_reject. Qed.
Lemma codes_refuse code : within (codes k) (refuse code).
Proof. apply codes_reject. Qed.
Lemma codes_abandon id : within (codes k) (abandon id).
Proof. apply codes_fst. Qed.
End Code.

#[local] Hint Resolve codes_fst codes_read_payload codes_write_spdm_error
  codes_error codes_reject codes_consumed codes_reset_buffers codes_append_a codes_append_b
  codes_append_written_a codes_append_written_b codes_local_chain codes_random_array
  codes_measure codes_collect codes_provisioned_mask codes_on_session codes_immutable
  codes_append_k codes_append_f codes_unspecified codes_invalid codes_refuse codes_abandon
  frame_transcript frame_generate_hmac frame_verify_hmac within_signing_message
  within_match_versions within_get_versions : within.
#[local] Hint Extern 2 (within (codes _) (write_response _ _)) =>
  (apply codes_write_response; reflexivity) : within.
#[local] Hint Extern 2 (within (codes _) (zoom snd _ (Writer_patch _ _ _))) =>
  (apply codes_patch; lia) : within.
#[local] Hint Extern 1 (within (codes _) (expect_negotiated _ _ _)) =>
  (apply codes_expect_negotiated; [intros; within_steps|intros; within_steps]) : within.
#[local] Hint Extern 1 (within (codes _) (expect_version _ _ _)) =>
  (apply codes_expect_version; [intros; within_steps|intros; within_steps]) : within.

(** ** Responses that are written at once *)

Abbreviation u8 := SpdmRequestResponseCode_get_u8 (only parsing).

Lemma version_coded bs : within (codes (u8 SpdmResponseVersion)) (write_spdm_version_response bs).
Proof. unfold write_spdm_version_response. within_steps. apply codes_encode. by left. Qed.
Lemma capability_coded bs :
  within (codes (u8 SpdmResponseCapabilities)) (write_spdm_capability_response bs).
Proof. unfold write_spdm_capability_response. within_steps. Qed.
Lemma algorithm_coded bs : within (codes (u8 SpdmResponseAlgorithms)) (write_spdm_algorithm mode bs).
Proof. unfold write_spdm_algorithm. within_steps. Qed.
Lemma certificate_coded id bs :
  within (codes (u8 SpdmResponseCertificate)) (write_spdm_certificate_response id bs).
Proof. unfold write_spdm_certificate_response. within_steps. Qed.
Lemma vendor_coded id bs :
  within (codes (u8 SpdmResponseVendorDefinedResponse)) (write_spdm_vendor_defined_response id bs).
Proof. unfold write_spdm_vendor_defined_response. within_steps. Qed.
Lemma error_coded k code bs : within (codes k) (write_error_response code bs).
Proof. unfold write_error_response. within_steps. Qed.
Lemma heartbeat_coded id bs :
  within (codes (u8 SpdmResponseHeartbeatAck)) (write_spdm_heartbeat_response id bs).
Proof. unfold write_spdm_heartbeat_response. within_steps. Qed.
Lemma key_update_coded id bs :
  within (codes (u8 SpdmResponseKeyUpdateAck)) (write_spdm_key_update_response id bs).
Proof. unfold write_spdm_key_update_response. within_steps. Qed.
Lemma end_session_coded id bs :
  within (codes (u8 SpdmResponseEndSessionAck)) (write_spdm_end_session_response id bs).
Proof. unfold write_spdm_end_session_response. within_steps. Qed.
Lemma check_finish_coded k id psk vd : within (codes k) (check_finish id psk vd).
Proof. unfold check_finish. within_steps. Qed.
Lemma data_keys_coded k id : within (codes k) (data_keys id).
Proof. unfold data_keys. within_steps. Qed.
#[local] Hint Resolve check_finish_coded data_keys_coded : within.
Lemma psk_finish_coded id bs :
  within (codes (u8 SpdmResponsePskFinishRsp)) (write_spdm_psk_finish_response id bs).
Proof. unfold write_spdm_psk_finish_response. within_steps. Qed.

(** ** Responses that are completed afterwards *)

(** [at_steps] follows a handler from one state up to the writing of the response. *)
Ltac at_step :=
  lazymatch goal with
  | |- within_at _ (or_else (write_response _ _) _ _) _ => fail
  | |- within_at _ (bind (check_finish _ _ _) _) _ => fail
  | |- within_at _ (bind (gets _) _) _ => apply within_at_gets; [apply _|]
  | |- within_at _ (bind (sub_usize _ _) _) _ => apply within_at_sub_usize; [apply _|intros ?]
  | |- within_at _ (bind (of_outcome _) _) _ => apply within_at_of_outcome; [apply _|intros ? ?]
  | |- within_at _ (bind _ _) _ =>
      apply within_at_bind; [apply _|apply within_at_of; within_steps|intros ? ? _]
  | |- within_at _ (or_else _ _ _) _ =>
      apply within_at_or_else;
        [apply _|apply within_at_of; within_steps|intros ? ? _; apply within_at_of; within_steps
        |intros ? ? _]
  | |- within_at _ (if decide _ then _ else _) _ => case_decide
  | |- within_at _ (if ?b then _ else _) _ => destruct b eqn:?
  | |- within_at _ (match ?x with _ => _ end) _ => destruct x eqn:?
  | |- within_at _ (let _ := _ in _) _ => cbv zeta
  | |- _ => apply within_at_of; solve [auto with within nocore typeclass_instances]
  end.
Ltac at_steps := repeat at_step.

Lemma asym_size_max {E} c n : get_asym_key_size (E:=E) c = Ok n → (n ≤ SPDM_MAX_ASYM_KEY_SIZE)%nat.
Proof. unfold get_asym_key_size, SpdmBaseAsymAlgo.get_size. repeat case_match; intros; simplify_eq; lia. Qed.
Lemma hash_size_max {E} c n : get_hash_size (E:=E) c = Ok n → (n ≤ SPDM_MAX_HASH_SIZE)%nat.
Proof. unfold get_hash_size, SpdmBaseHashAlgo.get_size. repeat case_match; intros; simplify_eq; lia. Qed.

Lemma hash_size_any {E E'} c n : get_hash_size (E:=E) c = Ok n → get_hash_size (E:=E') c = Ok n.
Proof. unfold get_hash_size, SpdmBaseHashAlgo.get_size. repeat case_match; intros; by simplify_eq. Qed.

Lemma challenge_coded bs :
  within (codes (u8 SpdmResponseChallengeAuth)) (write_spdm_challenge_response bs).
Proof.
  unfold write_spdm_challenge_response. apply codes_expect_negotiated; [within_steps|].
  intros r. within_steps. apply codes_summary_hash; [within_steps|]. intros h.
  apply within_at_intro. intros s2. at_steps.
  eapply codes_written; [done| |intros; at_steps|].
  { apply grows_challenge. cbn [ca_signature placeholder data_size data].
    rewrite length_replicate. by eapply asym_size_max. }
  intros ? ? _ Ho. cbn [ca_signature placeholder data_size] in Ho. cbv zeta.
  apply within_at_gets; [apply _|]. apply within_at_sub_usize; [apply _|]. intros _.
  unfold Writer_used in *. apply within_at_of. within_steps.
Qed.

(** The request for a signature is remembered until the response is written. *)
Definition keeps_need : relation SpdmContext := λ c c', need_signature c' = need_signature c.

#[local] Instance keeps_need_preorder : PreOrder keeps_need.
Proof. split; unfold keeps_need; [done|intros c c' c'' ??; congruence]. Qed.

Lemma need_session {E A} id (otherwise : M SpdmContext E A) (body : M SpdmSession E A) :
  within keeps_need otherwise → within keeps_need (with_session id otherwise body).
Proof.
  intros Ho c r c' H. unfold with_session in H. destruct (list_find _ _) as [[i s]|]; [|by eapply Ho].
  destruct (body s). by injection H as <- <-.
Qed.
Lemma need_world {E A} (c : M world E A) : within keeps_need (on_world c).
Proof. by apply (within_zoom _ (λ _ _, True)). Qed.
Lemma need_l1l2 {E A} (c : M (option SpdmHashCtx) E A) : within keeps_need (on_l1l2 c).
Proof. by apply (within_zoom _ (λ _ _, True)). Qed.
#[local] Hint Resolve need_world need_l1l2 : within.
#[local] Hint Extern 1 (within keeps_need (with_session _ _ _)) =>
  (apply need_session; within_steps) : within.
Lemma need_append_m id bs : within keeps_need (append_message_m id bs).
Proof. unfold append_message_m, append_l1l2. within_steps. Qed.

Abbreviation same_need := (on_first (T:=Writer) keeps_need) (only parsing).

Lemma need_measure op : within same_need (measure op).
Proof. unfold measure. within_steps. apply within_on_fst. within_steps. Qed.
#[local] Hint Resolve need_measure : within.
Lemma need_collect op : within same_need (collect_measurements op).
Proof. unfold collect_measurements. within_steps. Qed.
Lemma need_random n : within same_need (random_array n).
Proof. unfold random_array. within_steps. apply within_on_fst. within_steps. Qed.

Lemma need_bind k {E A B} b (c : M Rsp E A) (K : A → M Rsp E B) s :
  need_signature s.1 = b → within (codes k) c → within same_need c →
  (∀ a s', need_signature s'.1 = b → within_at (codes k) (K a) s') →
  within_at (codes k) (bind c K) s.
Proof.
  intros Hb Hc Hn HK. apply within_at_bind; [apply _|by apply within_at_of|].
  intros a s' Ha. apply HK. apply Hn in Ha. by rewrite <- Hb.
Qed.
Lemma need_or_else k {E E' A B} b (c : M Rsp E A) bad (K : A → M Rsp E' B) s :
  need_signature s.1 = b → within (codes k) c → within same_need c → within (codes k) bad →
  (∀ a s', need_signature s'.1 = b → within_at (codes k) (K a) s') →
  within_at (codes k) (or_else c bad K) s.
Proof.
  intros Hb Hc Hn Hbad HK. apply within_at_or_else; [apply _|by apply within_at_of| |].
  - intros. by apply within_at_of.
  - intros a s' Ha. apply HK. apply Hn in Ha. by rewrite <- Hb.
Qed.
#[local] Hint Resolve need_collect need_random frame_local_chain frame_consumed : within.

Lemma measurement_coded id bs :
  within (codes (u8 SpdmResponseMeasurements)) (write_spdm_measurement_response id bs).
Proof.
  unfold write_spdm_measurement_response. apply codes_expect_negotiated; [within_steps|].
  intros r. apply within_at_intro. intros s0.
  apply within_at_bind; [apply _|apply within_at_of; within_steps|intros _ s1 _].
  apply within_at_or_else;
    [apply _|apply within_at_of; within_steps|intros; apply within_at_of; within_steps|].
  intros [q rd] s2 _. cbv zeta. apply within_at_gets; [apply _|].
  apply within_at_of_outcome; [apply _|]. intros n Hn%asym_size_max.
  apply within_at_bind; [apply _|apply within_at_of; within_steps|]. intros [] s3 Hm.
  assert (need_signature s3.1 = signature_requested (gm_measurement_attributes q)) as Hneed.
  { unfold zoom in Hm. by injection Hm as <-. }
  clear Hm. destruct (signature_requested _); [|apply within_at_of; within_steps].
  apply (need_bind _ true); [done|within_steps..|]. clear s3 Hneed. intros [] s3 Hneed;
    [apply within_at_of; within_steps|].
  apply (need_bind _ true); [done|within_steps..|].
  clear s3 Hneed. intros request s3 Hneed.
  apply (need_or_else _ true); [done|within_steps|apply within_on_fst, need_append_m|within_steps|].
  clear s3 Hneed. intros _ s3 Hneed. apply (need_bind _ true); [done|within_steps..|].
  clear s3 Hneed. intros [[number record]|] s3 Hneed; [|apply within_at_of; within_steps].
  apply (need_or_else _ true); [done|within_steps..|]. clear s3 Hneed. intros nonce s3 Hneed.
  eapply codes_written; [done| |intros; apply within_at_of; within_steps|].
  { apply grows_measurements; [done|]. cbn [mr_signature placeholder data_size data].
    by rewrite length_replicate. }
  intros ? ? _ Ho. cbn [mr_signature placeholder data_size] in Ho.
  apply within_at_gets; [apply _|]. apply within_at_sub_usize; [apply _|]. intros _.
  unfold Writer_used in *. apply within_at_of. within_steps.
Qed.

(** Handshakes in the clear are agreed with the capabilities. *)
Lemma in_clear_key c c' : neg_key (negotiate_info c') = neg_key (negotiate_info c) →
  in_clear_text c' = in_clear_text c.
Proof. unfold in_clear_text, req_has, rsp_has, neg_key. by intros [= _ -> -> _]. Qed.

Lemma quiet_in_clear c c' : quiet c c' → in_clear_text c' = in_clear_text c.
Proof. intros [Hk _]. apply in_clear_key. unfold context_key in Hk. congruence. Qed.

Lemma authenticate_coded k id (clear : bool) n s :
  (if clear then 2 + n ≤ wr_offs s.2 else True)%nat →
  within_at (codes k) (authenticate_finish_rsp id clear n) s.
Proof.
  intros Hn. unfold authenticate_finish_rsp. apply within_at_gets; [apply _|]. cbv zeta.
  destruct clear; [|apply within_at_of; within_steps].
  apply within_at_sub_usize; [apply _|]. intros _. unfold Writer_used in *.
  apply within_at_of. within_steps.
Qed.

Lemma verify_finish_coded k sig s : within (codes k) (verify_finish_req_signature sig s).
Proof. unfold verify_finish_req_signature. within_steps. Qed.
#[local] Hint Resolve verify_finish_coded : within.

Lemma finish_coded id bs :
  within (codes (u8 SpdmResponseFinishRsp)) (write_spdm_finish_response id bs).
Proof.
  unfold write_spdm_finish_response. apply codes_expect_version; [within_steps|].
  intros r. apply within_at_intro. intros s0. 
  at_steps. apply within_at_bind; [apply _|apply within_at_of; within_steps|].
  intros [] s6 Hc. apply (frame_check_finish session_quiet), quiet_in_clear in Hc.
  rewrite <- Hc. eapply (codes_written _ _ _ _ _ _ (if in_clear_text s6.1 then _ else 0%nat));
    [done| |intros; at_steps|].
  - destruct (in_clear_text s6.1) eqn:Hclear; [|apply grows_appended, within_payload].
    apply grows_finish; [done|]. cbn [fp_verify_data placeholder data_size data].
    rewrite length_replicate. by eapply hash_size_max.
  - intros ? ? _ Ho. apply within_at_bind; [apply _| |intros; at_steps].
    apply authenticate_coded. by destruct (in_clear_text s6.1).
Qed.

Lemma codes_select_version k o K :
  (∀ o', within (codes k) (K o')) → within (codes k) (select_secured_version o K).
Proof.
  intros HK. unfold select_secured_version. within_steps.
Qed.

Lemma finish_psk_coded k id request n s :
  (2 + n ≤ wr_offs s.2)%nat → within_at (codes k) (finish_psk_exchange id request n) s.
Proof.
  intros Hn. unfold finish_psk_exchange. apply within_at_gets; [apply _|]. cbv zeta.
  apply within_at_sub_usize; [apply _|]. intros _. unfold Writer_used.
  apply within_at_of. within_steps.
Qed.

Lemma codes_psk_context k c : within (codes k) (psk_response_context c).
Proof. unfold psk_response_context. within_steps. Qed.
#[local] Hint Resolve codes_psk_context : within.

Lemma psk_exchange_coded bs :
  within (codes (u8 SpdmResponsePskExchangeRsp)) (write_spdm_psk_exchange_response bs).
Proof.
  unfold write_spdm_psk_exchange_response. apply codes_expect_negotiated; [within_steps|].
  intros r. within_steps. apply codes_summary_hash; [within_steps|]. intros h.
  apply codes_select_version. intros o. apply within_at_intro. intros ?. at_steps.
  eapply codes_written; [done| |intros; at_steps|].
  { apply grows_psk_exchange. cbn [pp_verify_data placeholder data_size data].
    rewrite length_replicate. by eapply hash_size_max. }
  intros ? ? _ Ho. cbn [pp_verify_data placeholder data_size] in Ho.
  apply within_at_consumed; [apply _|]. intros request.
  apply within_at_bind; [apply _|by apply finish_psk_coded|intros; at_steps].
Qed.

Lemma finish_key_coded k id request (clear : bool) n m s :
  (2 + n + (if clear then 0 else m) ≤ wr_offs s.2)%nat →
  within_at (codes k) (finish_key_exchange id request clear n m) s.
Proof.
  intros Hn. unfold finish_key_exchange. apply within_at_gets; [apply _|]. cbv zeta.
  apply within_at_sub_usize; [apply _|]. intros _. unfold Writer_used.
  destruct clear; [apply within_at_of; within_steps|].
  apply within_at_of. within_steps.
Qed.

Lemma key_exchange_coded bs :
  within (codes (u8 SpdmResponseKeyExchangeRsp)) (write_spdm_key_exchange_response bs).
Proof.
  unfold write_spdm_key_exchange_response. apply codes_expect_negotiated; [within_steps|].
  intros r. within_steps. apply codes_summary_hash; [within_steps|]. intros h. within_steps.
  apply codes_select_version. intros o. apply within_at_intro. intros ?. at_steps.
  eapply codes_written; [done| |intros; at_steps|].
  { apply grows_key_exchange; cbn [kp_signature kp_verify_data placeholder data_size data];
      rewrite length_replicate; [by eapply asym_size_max|by eapply hash_size_max]. }
  intros ? ? _ Ho. cbn [kp_signature kp_verify_data placeholder data_size] in Ho.
  apply within_at_consumed; [apply _|]. intros request.
  apply within_at_bind; [apply _|apply finish_key_coded; lia|intros; at_steps].
Qed.

(** *** Digests *)

Section Digests.
Context `{hl : !HashLaws}.

Lemma slot_bit mask slot :
  (slot < 8)%nat → Z.testbit mask (Z.of_nat slot) = true → (0 < slot_count mask)%nat.
Proof.
  intros Hs Hb. unfold slot_count.
  assert (Z.of_nat slot ∈ filter (λ i, Z.land mask (Z.shiftl 1 i) ≠ 0) [0; 1; 2; 3; 4; 5; 6; 7])
    as Hin.
  { apply list_elem_of_filter. split.
    - rewrite Z.shiftl_1_l, land_pow2, Hb by lia. apply Z.pow_nonzero; lia.
    - do 8 (destruct slot as [|slot]; [set_solver|]). lia. }
  destruct (filter _ _); [set_solver|simpl; lia].
Qed.

Lemma is_u8_pow2 slot : (slot < 8)%nat → is_u8 (2 ^ Z.of_nat slot).
Proof. intros Hs. do 8 (destruct slot as [|slot]; [done|]). lia. Qed.

Lemma provisioned_mask_bit {S E} c slots mask (s s' : S) slot chain :
  provisioned_mask (E:=E) c slots s = (Ok mask, s') →
  slot ∈ slots → (slot < 8)%nat → my_cert_chain (provision_info c) !! slot = Some (Some chain) →
  Z.testbit mask (Z.of_nat slot) = true.
Proof.
  revert mask s s'. induction slots as [|x slots IH]; intros mask s s'; [set_solver|].
  cbn [provisioned_mask]. intros Hm Hin Hlt Hc. unfold local_chain in Hm. minv.
  apply elem_of_cons in Hin as [<-|Hin]; repeat case_decide; simplify_eq.
  - rewrite Z.lor_spec, Z.shiftl_1_l, as_uint_id, Z.pow2_bits_true by (lia || apply is_u8_pow2; lia).
    apply orb_true_r.
  - by exfalso; eauto.
  - rewrite Z.lor_spec. by erewrite IH.
  - by eapply IH.
Qed.

(** A state whose message ends in at least [n] bytes of digests. *)
Definition digests_at (k : Z) (n : nat) (s : Rsp) : Prop :=
  coded k s.2 ∧ (2 + n ≤ wr_offs s.2)%nat.

Lemma expect_of_outcome {S E E' A} (o : outcome E A) a (s s' : S) :
  expect (E':=E') (of_outcome o) s = (Ok a, s') → o = Ok a.
Proof.
  unfold expect, or_else, attempt, bind, of_outcome, panic, ret.
  destruct o; intros He; congruence.
Qed.

Lemma patch_digests_coded k c slots n :
  get_hash_size (E:=unit) c = Ok n →
  within (preserves (digests_at k n)) (patch_digests c slots).
Proof.
  intros Hn. induction slots as [|slot slots IH]; cbn [patch_digests]; [within_steps|].
  apply within_bind; [apply _|apply frame_local_chain, _|intros chain _ _ _].
  apply within_bind; [apply _| |intros; exact IH]. destruct chain as [chain|]; [|within_steps].
  apply within_bind; [apply _|within_steps|intros bs _ _ _].
  apply within_bind; [apply _|within_steps|]. intros h s s' Hh%expect_of_outcome.
  apply hash_all_size in Hh as [Hwf Hsize]. unfold get_hash_size in Hn. rewrite Hn in Hsize.
  injection Hsize as Hsize. clear s s'. apply within_at_intro. intros s.
  apply within_at_preserves. intros [Hc Ho].
  apply within_at_gets; [apply _|].
  eapply within_at_step; [apply _|by eapply sized_as_ref_ok|].
  rewrite (length_sized_bytes _ _ Hwf), <- Hsize.
  apply within_at_sub_usize; [apply _|]. intros _ r s' Hp _. unfold zoom in Hp.
  destruct (Writer_patch _ _ _ _) as [o w'] eqn:Hw. injection Hp as <- <-.
  unfold Writer_used in *. split; cbn [snd fst].
  - eapply coded_patch; [exact Hw|lia|done].
  - apply Writer_patch_offs in Hw. lia.
Qed.

Lemma patch_digests_none {R : relation Rsp} `{!PreOrder R} c slots :
  (∀ slot chain, slot ∈ slots → my_cert_chain (provision_info c) !! slot ≠ Some (Some chain)) →
  within R (patch_digests c slots).
Proof.
  induction slots as [|slot slots IH]; intros Hno; cbn [patch_digests]; [within_steps|].
  apply within_bind; [apply _|apply frame_local_chain, _|]. unfold local_chain.
  intros [chain|] s s' Hc%unwrap_ok.
  - destruct Hc as [Hc _]. destruct (Hno slot chain); [by left|done].
  - within_steps. apply IH. intros. apply Hno. by right.
Qed.

Lemma digest_coded id bs :
  within (codes (u8 SpdmResponseDigests)) (write_spdm_digest_response id bs).
Proof.
  unfold write_spdm_digest_response. apply codes_expect_negotiated; [within_steps|].
  intros r. apply within_bind; [apply _|within_steps|intros _ _ _ _].
  apply within_or_else; [apply _|within_steps..|intros [q rd] _ _ _].
  apply within_bind; [apply _|within_steps|intros request _ _ _].
  apply within_or_else; [apply _|within_steps..|intros _ _ _ _].
  apply within_at_intro. intros s. apply within_at_gets; [apply _|].
  apply within_at_of_outcome; [apply _|]. intros n Hn.
  apply within_at_bind; [apply _|apply within_at_of; within_steps|]. intros mask s1 Hmask.
  destruct (decide (slot_count mask = 0%nat)) as [H0|H0].
  { apply within_at_of. within_steps. apply patch_digests_none. intros slot chain Hin Hc.
    apply elem_of_seq in Hin.
    pose proof (provisioned_mask_bit _ _ _ _ _ slot chain Hmask) as Hb.
    apply (slot_bit mask) in Hb; [lia|lia|by apply elem_of_seq|lia|done]. }
  eapply (codes_written _ _ _ _ _ _ n); [done| |intros; at_steps|].
  { apply (grows_digests _ {| data_size := n |}); [lia..|].
    cbn [data_size data]. rewrite length_replicate. by eapply hash_size_max. }
  intros ? s2 _ Ho. apply codes_at. intros Hc.
  apply within_at_bind; [apply _| |intros; at_steps].
  intros o s3 Hp _. by apply (patch_digests_coded _ _ _ n (hash_size_any _ _ Hn) _ _ _ Hp).
Qed.
End Digests.
End Codes.
