(* ===== verification/RspState.v ===== *)
(** The state of the connection.  A response changes the state when it is sent, by its code;
    with what RspCode shows about the codes, every request moves the state along [conn_step]
    or leaves it alone. *)

From Stdlib Require Import RelationClasses.
From S2P Require Import Prelude Config Codec Status Algo Protocol Crypto KeySchedule Buffers Session Context SpdmCodec Opaque MsgNegotiate MsgAuth MsgSession Message Endpoint Responder Within RspWriter RspConnect RspSession RspDispatch RspFrame RspCode.

Section State.
Context `{cfg : Config} `{cry : Crypto} `{sec : !Secret} `{dev : SpdmDeviceIo} `{tr : SpdmTransportEncap}.
Context `{cv : !ConfigValid} `{handlers : !SpdmHandlers} (mode : overflow_mode).

(** ** Buffers *)

Lemma within_send_buffer (R : relation SpdmContext) c :
  within (on_first R) c → within R (with_send_buffer c).
Proof.
  intros Hc s r s' H. unfold with_send_buffer in H.
  destruct (c (s, _)) as [[] [s1 w]] eqn:He; injection H as <- <-; exact (Hc _ _ _ He).
Qed.
Lemma within_transport_buffer {A} (R : relation SpdmContext) (c : SpdmM (SpdmContext * bytes) A) :
  within (on_first R) c → within R (with_transport_buffer c).
Proof.
  intros Hc s r s' H. unfold with_transport_buffer in H.
  destruct (c (s, _)) as [[] [s1 w]] eqn:He; injection H as <- <-; exact (Hc _ _ _ He).
Qed.

(** The message is empty or has one of the codes. *)
Definition has_code (k : Z) (bs : bytes) : Prop :=
  bs !! 1%nat = None ∨ bs !! 1%nat = Some k ∨ bs !! 1%nat = Some 0x7F.

Lemma send_buffer_code k c s bs s' :
  within (codes k) c → with_send_buffer c s = (Ok bs, s') → has_code k bs.
Proof.
  intros Hc H. unfold with_send_buffer in H.
  destruct (c (s, _)) as [[] [s1 w]] eqn:He; simplify_eq.
  destruct (Hc _ _ _ He (coded_init k)) as (Hw&Hl&Ho). cbn [snd] in *.
  unfold has_code, Writer_used_slice. destruct Ho as [->|[Ho Hk]]; [by left|].
  rewrite lookup_take_lt by lia. by right.
Qed.

(** ** Sending outside sessions *)

(** The state after a response was sent. *)
Definition next_state (code : Z) (st : SpdmConnectionState) : SpdmConnectionState :=
  let raise to :=
    if SpdmConnectionState_get_u8 st <? SpdmConnectionState_get_u8 to then to else st in
  match SpdmRequestResponseCode_from_u8 code with
  | SpdmResponseVersion => SpdmConnectionAfterVersion
  | SpdmResponseCapabilities => SpdmConnectionAfterCapabilities
  | SpdmResponseAlgorithms => SpdmConnectionNegotiated
  | SpdmResponseDigests => raise SpdmConnectionAfterDigest
  | SpdmResponseCertificate => raise SpdmConnectionAfterCertificate
  | SpdmResponseChallengeAuth => SpdmConnectionAuthenticated
  | _ => st
  end.

Definition conn_of (c : SpdmContext) : SpdmConnectionState := connection_state (runtime_info c).

(** The state of the connection stays, or moves as [code] says. *)
Definition conn_same : relation SpdmContext := λ c c', conn_of c' = conn_of c.
Definition moved (code : Z) : relation SpdmContext := λ c c',
  conn_of c' = conn_of c ∨ conn_of c' = next_state code (conn_of c).

Lemma next_state_idem code st : next_state code (next_state code st) = next_state code st.
Proof.
  unfold next_state. destruct (SpdmRequestResponseCode_from_u8 code); try done;
    by destruct (SpdmConnectionState_get_u8 st <? _) eqn:He; [|rewrite He].
Qed.

#[local] Instance conn_same_preorder : PreOrder conn_same.
Proof. split; unfold conn_same; [done|intros c c' c'' ??; congruence]. Qed.
#[local] Instance moved_preorder code : PreOrder (moved code).
Proof.
  split; unfold moved; [by left|]. intros c c' c'' [Hc|Hc] [Hc'|Hc']; rewrite Hc in *; auto.
  rewrite Hc', next_state_idem. auto.
Qed.

Lemma quiet_conn c c' : quiet c c' → conn_same c c'.
Proof. intros [Hk _]. unfold context_key in Hk. unfold conn_same, conn_of. congruence. Qed.
Lemma conn_moved code c c' : conn_same c c' → moved code c c'.
Proof. by left. Qed.

Lemma within_conn {E A} (c : M SpdmContext E A) :
  within (steady session_quiet) c → within conn_same c.
Proof. intros Hc. eapply within_mono; [exact Hc|apply quiet_conn]. Qed.
Lemma within_conn_rsp {E A} (c : M Rsp E A) :
  within (on_first (steady session_quiet)) c → within (on_first conn_same) c.
Proof. intros Hc. eapply within_mono; [exact Hc|]. intros s s'. apply quiet_conn. Qed.

Lemma conn_session {E A} id (otherwise : M SpdmContext E A) (body : M SpdmSession E A) :
  within conn_same otherwise → within conn_same (with_session id otherwise body).
Proof.
  intros Ho c r c' H. unfold with_session in H. destruct (list_find _ _) as [[i s]|]; [|by eapply Ho].
  destruct (body s). by injection H as <- <-.
Qed.
#[local] Hint Extern 1 (within conn_same (with_session _ _ _)) =>
  (apply conn_session; within_steps) : within.

Lemma after_send_moved code : within (moved code) (after_send code).
Proof.
  unfold after_send. destruct (SpdmRequestResponseCode_from_u8 code) eqn:He;
    try apply within_ret, _;
    try (apply within_modify; intros c; unfold moved, next_state, conn_of, raise_state; rewrite He;
         solve [by right|destruct (_ <? _); by auto]).
  eapply within_mono; [|apply conn_moved]. unfold establish. within_steps.
  by apply within_modify.
Qed.

Lemma quiet_encap bs : within quiet (with_transport_buffer (encap bs)).
Proof. apply within_transport_buffer. unfold encap. within_steps. Qed.
Lemma quiet_error code : within quiet (with_send_buffer (error code)).
Proof. apply within_send_buffer, frame_error, _. Qed.
Lemma quiet_device bs : within quiet (device_send bs).
Proof. apply steady_device, _. Qed.

Lemma error_code_any k c code s bs s' :
  c = with_send_buffer (error code) → c s = (Ok bs, s') → has_code k bs.
Proof. intros ->. apply send_buffer_code, codes_error. Qed.

Lemma send_message_within (R : relation SpdmContext) `{!PreOrder R} k fuel bs :
  (∀ c c', quiet c c' → R c c') → within R (after_send k) → within R (after_send 0x7F) →
  has_code k bs → within R (send_message_rec fuel bs).
Proof.
  intros HR Hk He. assert (∀ {A} (c : SpdmM SpdmContext A), within quiet c → within R c) as Hq.
  { intros A c Hc. by eapply within_mono. }
  revert bs. induction fuel as [|fuel IH]; intros bs Hbs; cbn [send_message_rec].
  all: apply within_bind; [done|within_steps|intros c _ _ _]; destruct (exceeds_transfer_size _ _).
  1: within_steps.
  2: { apply within_bind; [done|apply Hq, quiet_error|]. intros err s s' Herr.
       apply IH. by eapply error_code_any. }
  all: apply within_bind; [done|apply Hq, quiet_encap|intros [used buf] _ _ _];
    apply within_bind; [done|within_steps|intros ? _ _ _];
    apply within_bind; [done|apply Hq, quiet_device|intros _ _ _ _];
    apply within_bind; [done|within_steps|]; intros op s s' Hop%unwrap_ok;
    destruct Hop as [Hop _], Hbs as [Hbs|[Hbs|Hbs]]; rewrite Hbs in Hop; by simplify_eq.
Qed.


Lemma send_message_moved k bs : has_code k bs → within (moved k) (send_message bs).
Proof.
  apply send_message_within; [apply _| |apply after_send_moved|].
  - intros c c' Hq. by apply conn_moved, quiet_conn.
  - cbn. apply within_ret, _.
Qed.

(** An answer outside sessions. *)
Definition answer (w : SpdmM Rsp unit) : SpdmM SpdmContext unit :=
  let* rsp := with_send_buffer w in send_message rsp.

Lemma answer_moved k w :
  within (codes k) w → within (on_first conn_same) w → within (moved k) (answer w).
Proof.
  intros Hk Hc. unfold answer. apply within_bind; [apply _| |].
  - eapply within_mono; [by apply within_send_buffer|apply conn_moved].
  - intros rsp s s' Hs. apply send_message_moved. by eapply send_buffer_code.
Qed.

(** Where the first check fails, the answer is an error and the state stays. *)
Lemma answer_error_conn code : within conn_same (answer (error code)).
Proof.
  eapply within_mono; [apply (answer_moved 0x7F)|].
  - apply codes_error.
  - apply within_conn_rsp, frame_error, _.
  - intros c c' [H|H]; exact H.
Qed.

Lemma answer_ext w w' s :
  (∀ wr, w (s, wr) = w' (s, wr)) → answer w s = answer w' s.
Proof. intros He. unfold answer, bind, with_send_buffer. by rewrite He. Qed.

Lemma send_spdm_error_quiet code e : within quiet (send_spdm_error code e).
Proof.
  unfold send_spdm_error. apply within_bind; [apply _| |].
  - apply within_send_buffer, frame_write_spdm_error, _.
  - intros bs s s' Hs. within_steps. apply (send_message_within _ 0x7F); [done|..].
    1, 2: apply within_ret, _.
    eapply send_buffer_code; [|exact Hs]. apply codes_write_spdm_error.
Qed.

(** ** The handlers and the state *)

Abbreviation keeps := (on_first (T:=Writer) conn_same) (only parsing).

#[local] Hint Extern 4 (within conn_same _) =>
  (apply within_conn; solve [auto with within nocore typeclass_instances]) : within.
#[local] Hint Extern 4 (within (on_first conn_same) _) =>
  (apply within_conn_rsp; solve [auto with within nocore typeclass_instances]) : within.
#[local] Hint Resolve frame_read_payload frame_write_response frame_error
  frame_reset_buffers frame_append_a frame_append_written_a frame_local_chain frame_consumed
  frame_random_array frame_invalid frame_unspecified frame_refuse frame_reject
  frame_append_to_k frame_immutable frame_transcript frame_generate_hmac steady_world
  steady_append_a : within.
Ltac conn_steps :=
  repeat first
    [ within_step
    | lazymatch goal with
      | |- within (on_first _) (zoom fst _ _) => apply within_on_fst
      | |- within _ (modify _) => apply within_modify; intros; reflexivity
      end ].

Lemma capability_conn bs : within keeps (write_spdm_capability_response bs).
Proof.
  unfold write_spdm_capability_response. conn_steps.
  apply within_modify. intros c. unfold conn_same, conn_of, record_capabilities.
  by destruct (negb _).
Qed.

(** GET_VERSION starts the connection again. *)
Definition restarted : relation SpdmContext := λ c c',
  conn_of c' = conn_of c ∨ conn_of c' = SpdmConnectionNotStarted.

#[local] Instance restarted_preorder : PreOrder restarted.
Proof.
  split; unfold restarted; [by left|].
  intros c c' c'' [Hc|Hc] [Hc'|Hc']; [left|right..]; congruence.
Qed.

Lemma within_restarted {E A} (c : M Rsp E A) :
  within (on_first conn_same) c → within (on_first restarted) c.
Proof. intros Hc. eapply within_mono; [exact Hc|]. by left. Qed.
#[local] Hint Extern 5 (within (on_first restarted) _) =>
  (apply within_restarted; solve [auto with within nocore typeclass_instances]) : within.

Lemma version_conn bs : within (on_first restarted) (write_spdm_version_response bs).
Proof.
  unfold write_spdm_version_response. within_steps.
  apply within_on_fst, within_modify. by right.
Qed.

Lemma answer_restarts bs c r c' :
  handle_spdm_version bs c = (r, c') →
  conn_of c' = conn_of c ∨ conn_of c' = SpdmConnectionNotStarted ∨
  conn_of c' = SpdmConnectionAfterVersion.
Proof.
  set (v := SpdmRequestResponseCode_get_u8 SpdmResponseVersion).
  intros H. unfold handle_spdm_version, bind in H.
  destruct (with_send_buffer _ c) as [[bs'|e|] c1] eqn:Hw;
    pose proof (within_send_buffer _ _ (version_conn bs) _ _ _ Hw) as Hr.
  - apply (send_buffer_code v) in Hw; [|apply version_coded].
    apply (send_message_moved v _ Hw) in H. unfold restarted, moved in *.
    destruct Hr as [Hr|Hr], H as [H|H]; rewrite H, ?Hr; auto.
  - injection H as <- <-. destruct Hr; auto.
  - injection H as <- <-. destruct Hr; auto.
Qed.

Lemma conn_on_session {E A} id (c : M SpdmSession E A) : within keeps (on_session id c).
Proof. apply within_on_fst, conn_session. within_steps. Qed.
Lemma conn_abandon id : within keeps (abandon id).
Proof. apply conn_on_session. Qed.
#[local] Hint Resolve conn_on_session conn_abandon within_match_versions within_get_versions : within.
Lemma conn_key_signature s : within conn_same (generate_key_exchange_rsp_signature s).
Proof.
  unfold generate_key_exchange_rsp_signature. conn_steps. apply within_conn, frame_sign, _.
Qed.
#[local] Hint Resolve conn_key_signature : within.

Lemma key_exchange_conn bs : within keeps (write_spdm_key_exchange_response bs).
Proof.
  unfold write_spdm_key_exchange_response.
  apply above_expect_negotiated; [apply _|intros; conn_steps|intros h r _]. conn_steps.
  apply above_summary_hash; [apply _|apply quiet_conn|conn_steps|intros sh]. conn_steps.
  apply above_select_version; [apply _|apply quiet_conn|intros o]. unfold finish_key_exchange, with_next_avaiable_session.
  conn_steps.
Qed.

Lemma psk_exchange_conn bs : within keeps (write_spdm_psk_exchange_response bs).
Proof.
  unfold write_spdm_psk_exchange_response.
  apply above_expect_negotiated; [apply _|intros; conn_steps|intros h r _]. conn_steps.
  apply above_summary_hash; [apply _|apply quiet_conn|conn_steps|intros sh].
  apply above_select_version; [apply _|apply quiet_conn|intros o].
  unfold finish_psk_exchange, with_next_avaiable_session, psk_response_context. conn_steps.
Qed.

(** ** Sending in sessions *)

Lemma quiet_secured id bs is_app :
  within quiet (with_transport_buffer (encode_secured_message mode id bs false is_app)).
Proof.
  apply within_transport_buffer. unfold encode_secured_message. within_steps.
  apply within_on_fst, within_steady_session; [apply _|within_steps|apply session_encode_quiet].
Qed.

Lemma after_secured_conn id op : within conn_same (after_secured_send id op).
Proof. unfold after_secured_send, establish. within_steps. Qed.

Lemma send_secured_within (R : relation SpdmContext) `{!PreOrder R} k fuel id bs is_app :
  (∀ c c', quiet c c' → R c c') → within R (after_secured_send id k) →
  within R (after_secured_send id 0x7F) →
  has_code k bs → within R (send_secured_message_rec mode fuel id bs is_app).
Proof.
  intros HR Hk He. assert (∀ {A} (c : SpdmM SpdmContext A), within quiet c → within R c) as Hq.
  { intros A c Hc. by eapply within_mono. }
  revert bs. induction fuel as [|fuel IH]; intros bs Hbs; cbn [send_secured_message_rec].
  all: apply within_bind; [done|within_steps|intros c _ _ _]; destruct (_ && _).
  1: within_steps.
  2: { apply within_bind; [done|apply Hq, quiet_error|]. intros err s s' Herr.
       apply IH. by eapply error_code_any. }
  all: apply within_bind; [done|apply Hq, quiet_secured|intros [used buf] _ _ _];
    apply within_bind; [done|within_steps|intros ? _ _ _];
    apply within_bind; [done|apply Hq, quiet_device|intros _ _ _ _];
    apply within_bind; [done|within_steps|]; intros op s s' Hop%unwrap_ok;
    destruct Hop as [Hop _], Hbs as [Hbs|[Hbs|Hbs]]; rewrite Hbs in Hop; by simplify_eq.
Qed.

Lemma send_secured_conn id bs is_app : within conn_same (send_secured_message mode id bs is_app).
Proof.
  destruct (bs !! 1%nat) as [k|] eqn:Hk.
  - apply (send_secured_within _ k); [apply quiet_conn|apply after_secured_conn..|]. right. auto.
  - apply (send_secured_within _ 0); [apply quiet_conn|apply after_secured_conn..|]. by left.
Qed.

(** An answer in a session. *)
Lemma answer_secured_conn id w :
  within keeps w →
  within conn_same (let* rsp := with_send_buffer w in send_secured_message mode id rsp false).
Proof.
  intros Hw. apply within_bind; [apply _|by apply within_send_buffer|].
  intros. apply send_secured_conn.
Qed.

Lemma send_spdm_error_steady : within (steady session_quiet) (send_spdm_error SpdmErrorUnspecified 0).
Proof. apply send_spdm_error_quiet. Qed.

Lemma finish_conn id bs : within conn_same (handle_spdm_finish mode id bs).
Proof.
  unfold handle_spdm_finish. apply within_bind; [apply _|within_steps|intros c _ _ _].
  destruct (in_clear_text c).
  - eapply within_mono; [apply (answer_moved (SpdmRequestResponseCode_get_u8 SpdmResponseFinishRsp))|].
    + apply finish_coded.
    + apply within_conn_rsp, frame_finish, _.
    + by intros ?? [?|?].
  - apply answer_secured_conn, within_conn_rsp, frame_finish, _.
Qed.

(** In a session the state of the connection stays. *)
Lemma secured_conn id bs : within conn_same (dispatch_secured_message mode id bs).
Proof.
  unfold dispatch_secured_message. within_steps.
  all: match goal with
  | |- within _ (dispatch_handshake _ _ ?h _) => destruct h
  | |- within _ (dispatch_established _ _ ?h _) => destruct h
  | _ => idtac
  end; cbn [dispatch_handshake dispatch_established]; try apply within_throw, _;
    try apply within_panic, _; try apply finish_conn;
    apply answer_secured_conn, within_conn_rsp.
  all: first
    [ apply frame_error_response, _ | apply frame_vendor, _ | apply frame_psk_finish, _
    | apply frame_digest, _ | apply frame_certificate, _ | apply frame_heartbeat, _
    | apply frame_key_update, _ | apply frame_end_session, _
    | apply frame_measurement; [apply _|apply send_spdm_error_steady] ].
Qed.

(** ** The order of the requests *)

(** The code of a request. *)
Definition request_code (bs : bytes) : option SpdmRequestResponseCode :=
  match run (read_header bs) with
  | Ok (header, _) => Some (hd_request_response_code header)
  | _ => None
  end.

(** How a request may move the state of the connection. *)
Inductive conn_step :
  SpdmRequestResponseCode → SpdmConnectionState → SpdmConnectionState → Prop :=
| step_restart st : conn_step SpdmRequestGetVersion st SpdmConnectionNotStarted
| step_version st : conn_step SpdmRequestGetVersion st SpdmConnectionAfterVersion
| step_capabilities :
    conn_step SpdmRequestGetCapabilities SpdmConnectionAfterVersion SpdmConnectionAfterCapabilities
| step_algorithms :
    conn_step SpdmRequestNegotiateAlgorithms SpdmConnectionAfterCapabilities SpdmConnectionNegotiated
| step_digests st :
    SpdmConnectionState_get_u8 st = SpdmConnectionState_get_u8 SpdmConnectionNegotiated →
    conn_step SpdmRequestGetDigests st SpdmConnectionAfterDigest
| step_certificate st :
    SpdmConnectionState_get_u8 SpdmConnectionNegotiated ≤ SpdmConnectionState_get_u8 st <
      SpdmConnectionState_get_u8 SpdmConnectionAfterCertificate →
    conn_step SpdmRequestGetCertificate st SpdmConnectionAfterCertificate
| step_challenge st :
    SpdmConnectionState_get_u8 SpdmConnectionNegotiated ≤ SpdmConnectionState_get_u8 st →
    conn_step SpdmRequestChallenge st SpdmConnectionAuthenticated.

(** The state stays or moves along [conn_step]. *)
Definition conn_moves (req : SpdmRequestResponseCode) (c c' : SpdmContext) : Prop :=
  conn_of c' = conn_of c ∨ conn_step req (conn_of c) (conn_of c').

Lemma conn_same_moves req c c' : conn_same c c' → conn_moves req c c'.
Proof. by left. Qed.

(** The check of the connection state at the start of most handlers. *)
Lemma guard_negotiated w K bs c :
  (∀ wr, w (c, wr) = expect_negotiated bs error K (c, wr)) →
  state_below SpdmConnectionNegotiated c = true →
  answer w c = answer (error SpdmErrorUnexpectedRequest) c.
Proof.
  intros Hw Hb. apply answer_ext. intros wr. rewrite Hw. unfold expect_negotiated.
  erewrite bind_step by done. cbn [fst]. by rewrite Hb.
Qed.

Lemma guard_capability bs c :
  conn_of c ≠ SpdmConnectionAfterVersion →
  handle_spdm_capability bs c = answer (error SpdmErrorUnexpectedRequest) c.
Proof.
  intros Hc. apply (answer_ext (write_spdm_capability_response bs)). intros wr.
  unfold write_spdm_capability_response. erewrite bind_step by done.
  by rewrite decide_True.
Qed.
Lemma guard_algorithm bs c :
  conn_of c ≠ SpdmConnectionAfterCapabilities →
  handle_spdm_algorithm mode bs c = answer (error SpdmErrorUnexpectedRequest) c.
Proof.
  intros Hc. apply (answer_ext (write_spdm_algorithm mode bs)). intros wr.
  unfold write_spdm_algorithm. erewrite bind_step by done. by rewrite decide_True.
Qed.

(** A handler that first checks that the negotiation is over. *)
Lemma negotiated_moves req k w K bs c r c' :
  (∀ wr, w (c, wr) = expect_negotiated bs error K (c, wr)) →
  within (codes k) w → within keeps w →
  (SpdmConnectionState_get_u8 SpdmConnectionNegotiated ≤ SpdmConnectionState_get_u8 (conn_of c) →
   next_state k (conn_of c) = conn_of c ∨ conn_step req (conn_of c) (next_state k (conn_of c))) →
  answer w c = (r, c') → conn_moves req c c'.
Proof.
  intros Hw Hk Hc Hnext Ha. destruct (state_below SpdmConnectionNegotiated c) eqn:Hb.
  - rewrite (guard_negotiated _ _ _ _ Hw Hb) in Ha. apply answer_error_conn in Ha. by left.
  - apply Z.ltb_ge in Hb. apply (answer_moved k _ Hk Hc) in Ha as [Ha|Ha]; [by left|].
    unfold conn_moves. rewrite Ha. by apply Hnext.
Qed.

Context `{hl : !HashLaws}.

Lemma request_moves code bs c r c' :
  match code with
  | SpdmRequestGetVersion => handle_spdm_version bs
  | SpdmRequestGetCapabilities => handle_spdm_capability bs
  | SpdmRequestNegotiateAlgorithms => handle_spdm_algorithm mode bs
  | SpdmRequestGetDigests => handle_spdm_digest mode bs None
  | SpdmRequestGetCertificate => handle_spdm_certificate mode bs None
  | SpdmRequestChallenge => handle_spdm_challenge bs
  | _ => ret tt
  end c = (r, c') → conn_moves code c c'.
Proof.
  destruct code; try (intros [= <- <-]; by left); intros H.
  - eapply (negotiated_moves _ (SpdmRequestResponseCode_get_u8 SpdmResponseDigests)); [..|exact H].
    + done.
    + apply digest_coded.
    + apply within_conn_rsp, frame_digest, _.
    + intros Hb. unfold next_state. cbn -[Z.ltb]. destruct (Z.ltb_spec (SpdmConnectionState_get_u8 (conn_of c)) 4); [right|by left].
      constructor. cbn in *. lia.
  - eapply (negotiated_moves _ (SpdmRequestResponseCode_get_u8 SpdmResponseCertificate)); [..|exact H].
    + done.
    + apply certificate_coded.
    + apply within_conn_rsp, frame_certificate, _.
    + intros Hb. unfold next_state. cbn -[Z.ltb]. destruct (Z.ltb_spec (SpdmConnectionState_get_u8 (conn_of c)) 5); [right|by left].
      constructor. cbn in *. lia.
  - eapply (negotiated_moves _ (SpdmRequestResponseCode_get_u8 SpdmResponseChallengeAuth)); [..|exact H].
    + done.
    + apply challenge_coded.
    + apply within_conn_rsp, frame_challenge; [apply _|apply send_spdm_error_steady].
    + intros Hb. right. by constructor.
  - apply (answer_restarts bs) in H. unfold conn_moves.
    destruct H as [->|[->| ->]]; [by left|right; constructor..].
  - destruct (decide (conn_of c = SpdmConnectionAfterVersion)) as [Hc|Hc].
    + apply (answer_moved (SpdmRequestResponseCode_get_u8 SpdmResponseCapabilities)) in H as [H|H];
        [by left| |apply capability_coded|apply capability_conn].
      right. rewrite Hc, H. constructor.
    + rewrite guard_capability in H by done. apply answer_error_conn in H. by left.
  - destruct (decide (conn_of c = SpdmConnectionAfterCapabilities)) as [Hc|Hc].
    + apply (answer_moved (SpdmRequestResponseCode_get_u8 SpdmResponseAlgorithms)) in H as [H|H];
        [by left| |apply algorithm_coded|apply within_conn_rsp, frame_algorithm, _].
      right. rewrite Hc, H. constructor.
    + rewrite guard_algorithm in H by done. apply answer_error_conn in H. by left.
Qed.

Lemma error_request_conn code bs : within conn_same (handle_error_request mode code None bs).
Proof.
  eapply within_mono; [apply (answer_moved 0x7F (write_error_response code bs))|].
  - apply error_coded.
  - apply within_conn_rsp, frame_error_response, _.
  - by intros ?? [?|?].
Qed.
Lemma dispatch_finish_conn bs : within conn_same (dispatch_finish mode bs).
Proof.
  unfold dispatch_finish. within_steps; (apply finish_conn || apply error_request_conn).
Qed.

(** The requests whose responses do not touch the state. *)
Lemma answer_conn k w :
  (∀ st, next_state k st = st) → within (codes k) w → within keeps w →
  within conn_same (answer w).
Proof.
  intros Hn Hk Hc. eapply within_mono; [by apply (answer_moved k)|].
  intros c c' [?|H]; [done|]. unfold conn_same. by rewrite H, Hn.
Qed.

Lemma dispatch_moves bs c r c' :
  dispatch_message mode bs c = (r, c') →
  conn_of c' = conn_of c ∨
  ∃ req, request_code bs = Some req ∧ conn_step req (conn_of c) (conn_of c').
Proof.
  unfold dispatch_message, request_code, run, read_header, some_or, map_err, bind, with_reader.
  destruct (read SpdmMessageHeader_codec (Reader_init bs)) as [[header|e|] rd];
    try (intros [= <- <-]; by left).
  cbn [fst]. generalize (hd_request_response_code header) as code. clear header.
  intros code H.
  assert (conn_moves code c c') as [Hc|Hc]; [|by left|right; by exists code].
  destruct code; try (injection H as <- <-; by left);
    try (eapply request_moves; exact H); apply conn_same_moves; revert H.
  all: first
    [ apply error_request_conn | apply dispatch_finish_conn | idtac ].
  - apply (answer_conn (SpdmRequestResponseCode_get_u8 SpdmResponseMeasurements)); [done|..].
    + apply measurement_coded.
    + apply within_conn_rsp, frame_measurement; [apply _|apply send_spdm_error_steady].
  - apply (answer_conn (SpdmRequestResponseCode_get_u8 SpdmResponseVendorDefinedResponse)); [done|..].
    + apply vendor_coded.
    + apply within_conn_rsp, frame_vendor, _.
  - apply (answer_conn (SpdmRequestResponseCode_get_u8 SpdmResponseKeyExchangeRsp)); [done|..].
    + apply key_exchange_coded.
    + apply key_exchange_conn.
  - apply (answer_conn (SpdmRequestResponseCode_get_u8 SpdmResponsePskExchangeRsp)); [done|..].
    + apply psk_exchange_coded.
    + apply psk_exchange_conn.
Qed.

(** ** Whole messages *)

(** The callback for application data leaves the state of the connection alone. *)
Context (app_conn : ∀ id bs aux, within conn_same (dispatch_secured_app_message_cb id bs aux)).

Lemma receive_conn timeout : within (on_first conn_same) (receive_message timeout).
Proof.
  unfold receive_message. within_steps.
  by apply (within_zoom _ (λ _ _, True)).
Qed.

Lemma is_ok_within {S A E} (R : relation S) `{!PreOrder R} (c : SpdmM S A) :
  within R c → within R (is_ok (E:=E) c).
Proof. intros Hc. unfold is_ok. within_steps. Qed.

Lemma secured_message_conn bs aux : within conn_same (process_secured_message mode bs aux).
Proof.
  unfold process_secured_message. within_steps; apply is_ok_within; try apply _.
  - apply secured_conn.
  - unfold dispatch_secured_app_message. within_steps. apply send_secured_conn.
Qed.

Lemma process_moves timeout aux c r c' :
  process_message mode timeout aux c = (r, c') →
  conn_of c' = conn_of c ∨
  ∃ bs req, request_code bs = Some req ∧ conn_step req (conn_of c) (conn_of c').
Proof.
  unfold process_message. destruct (receive_message _ _) as [[[used secured]|e|] [c1 buf]] eqn:Hr;
    apply receive_conn in Hr; unfold on_first, conn_same in Hr; cbn [fst] in Hr;
    try (intros [= <- <-]; by left).
  intros H. rewrite <- Hr. unfold bind in H.
  destruct (sub_slice 0 used buf c1) as [[message|e|] c2] eqn:Hs;
    apply (within_sub_slice conn_same) in Hs; unfold conn_same in Hs; rewrite <- Hs;
    try (injection H as <- <-; by left).
  destruct secured.
  - left. exact (within_map_err conn_same _ _ (secured_message_conn message aux) _ _ _ H).
  - unfold is_ok, bind, attempt in H.
    destruct (dispatch_message mode message c2) as [[] c3] eqn:Hd; apply dispatch_moves in Hd;
      injection H as <- <-; (destruct Hd as [Hd|(req&Hq&Hst)]; [by left|right; by eauto]).
Qed.

(** The contexts of a responder, the last one first. *)
Inductive served : list SpdmContext → Prop :=
| served_new device w config provision :
    served [SpdmContext_new device w config provision]
| served_message timeout aux c h r c' :
    served (c :: h) → process_message mode timeout aux c = (r, c') → served (c' :: c :: h).

(** What must have happened before a state. *)
Definition before (st : SpdmConnectionState) : list SpdmConnectionState :=
  match st with
  | SpdmConnectionNotStarted => []
  | SpdmConnectionAfterVersion => [SpdmConnectionAfterVersion]
  | SpdmConnectionAfterCapabilities =>
      [SpdmConnectionAfterCapabilities; SpdmConnectionAfterVersion]
  | _ =>
      [SpdmConnectionNegotiated; SpdmConnectionAfterCapabilities; SpdmConnectionAfterVersion]
  end.

Lemma before_step req st st' l :
  conn_step req st st' → (∀ x, st ≠ SpdmConnectionState_Unknown x) →
  before st `sublist_of` (st :: l) →
  (∀ x, st' ≠ SpdmConnectionState_Unknown x) ∧ before st' `sublist_of` (st' :: st :: l).
Proof.
  intros Hst Hu Hb. destruct Hst; (split; [done|]); cbn [before] in *.
  1: apply sublist_nil_l.
  1: apply sublist_skip, sublist_nil_l.
  1, 2: by apply sublist_skip.
  all: apply sublist_cons; destruct st; cbn in *; (lia || done || by destruct (Hu x)).
Qed.

Lemma served_before h c :
  served (c :: h) →
  (∀ x, conn_of c ≠ SpdmConnectionState_Unknown x) ∧
  before (conn_of c) `sublist_of` (conn_of <$> c :: h).
Proof.
  intros Hs. remember (c :: h) as l eqn:Hl. revert c h Hl.
  induction Hs as [|timeout aux c0 h0 r c' Hs IH Hp]; intros c h [= <- <-].
  { split; [done|]. cbn. apply sublist_nil_l. }
  destruct (IH c0 h0 eq_refl) as [Hu Hb].
  apply process_moves in Hp as [Hc|(bs&req&_&Hst)].
  - rewrite Hc. split; [done|]. cbn. rewrite Hc. by apply sublist_cons.
  - by eapply before_step.
Qed.

(** C3: The negotiation cannot be skipped.  A responder that has served any sequence of
    packets and is in a state from Negotiated on has been, in this order, in the states after
    VERSION, after CAPABILITIES and after ALGORITHMS; no message, in the clear or in a
    session, well-formed or not, leads there in another way. *)
Theorem negotiation_precedes h c :
  served (c :: h) →
  SpdmConnectionState_get_u8 SpdmConnectionNegotiated ≤ SpdmConnectionState_get_u8 (conn_of c) →
  [SpdmConnectionNegotiated; SpdmConnectionAfterCapabilities; SpdmConnectionAfterVersion]
    `sublist_of` (conn_of <$> c :: h).
Proof.
  intros [Hu Hb]%served_before Hge. destruct (conn_of c); cbn in *; (lia || done || by destruct (Hu x)).
Qed.

(** C21: A request moves the state of the connection only along [conn_step], and only by a
    request of the code that the step names: GET_CAPABILITIES from after VERSION,
    NEGOTIATE_ALGORITHMS from after CAPABILITIES, GET_DIGESTS, GET_CERTIFICATE and CHALLENGE
    once algorithms are negotiated, and GET_VERSION from anywhere back to the start.  All
    other requests, malformed ones and failures to send leave it as it is. *)
Theorem connection_order bs c r c' :
  dispatch_message mode bs c = (r, c') →
  conn_of c' = conn_of c ∨
  ∃ req, request_code bs = Some req ∧ conn_step req (conn_of c) (conn_of c').
Proof. apply dispatch_moves. Qed.
End State.
