(* ===== verification/RspInv.v ===== *)
(** Invariants of the contexts of a responder, whatever messages it has served: the version
    and the transfer size are sensible, and the identifiers in the table of sessions name
    their entries.  From them it follows that sending ends after at most one replacement of a
    response that is too large, and that no two sessions share an identifier. *)

From Stdlib Require Import RelationClasses.
From S2P Require Import Prelude Config Codec Status Algo Protocol Crypto KeySchedule Buffers Session Context SpdmCodec Opaque MsgNegotiate MsgAuth MsgSession Message Endpoint Responder Within RspWriter RspConnect RspSession RspDispatch RspFrame RspCode RspState.

(** The responder's half of an identifier. *)
Lemma half_of_id r q :
  is_u16 r → is_u16 q → half_session_id false (session_id_of r q) = r.
Proof.
  unfold is_uint. intros Hr Hq. unfold half_session_id, session_id_of.
  rewrite Z.shiftr_land. change (Z.shiftr (Z.shiftl 0xFFFF 16) 16) with (Z.ones 16).
  rewrite Z.shiftr_div_pow2, Z.shiftl_mul_pow2 by lia.
  rewrite Z.div_add_l, (Z.div_small q), Z.add_0_r by lia.
  rewrite Z.land_ones by lia. change (2 ^ 16) with 65536 in *.
  rewrite (Z.mod_small r) by lia. apply as_uint_id. unfold is_uint. lia.
Qed.

Section Inv.
Context `{cfg : Config} `{cry : Crypto} `{sec : !Secret} `{dev : SpdmDeviceIo} `{tr : SpdmTransportEncap}.
Context `{cv : !ConfigValid} `{handlers : !SpdmHandlers} (mode : overflow_mode).

(** ** Sessions *)

(** An entry is free, or its identifier is that of its index with the requester's half. *)
Definition session_ok (i : nat) (s : SpdmSession) : Prop :=
  mut_auth_requested s = 0 ∧
  (session_id s = INVALID_SESSION_ID ∧ session_state s = SpdmSessionNotStarted ∨
   ∃ q, is_u16 q ∧ session_id s = session_id_of (INITIAL_SESSION_ID - Z.of_nat i) q).

(** What keeps entries that way. *)
Definition session_keeps : relation SpdmSession := λ s s', ∀ i, session_ok i s → session_ok i s'.

#[export] Instance session_keeps_transcripts : Transcripts session_keeps.
Proof.
  split.
  - split; unfold session_keeps; [intros s i; auto|intros s s' s'' ??]; eauto.
  - intros s s' Hq i. unfold session_quiet, session_key, session_base in Hq. unfold session_ok.
    injection Hq as Hi Hst _ Hm _ _ _. by rewrite Hi, Hst, Hm.
Qed.

Lemma session_like_keeps s s' : session_like s s' → session_keeps s s'.
Proof.
  intros Hq i. unfold session_like, session_base in Hq. unfold session_ok.
  injection Hq as Hi Hst _ Hm _. by rewrite Hi, Hst, Hm.
Qed.

Lemma set_default_ok i s : session_ok i (SpdmSession_set_default s).
Proof. split; [done|by left]. Qed.

(** A session that is in use may change its state. *)
Lemma session_keeps_state s f :
  session_id s ≠ INVALID_SESSION_ID →
  session_id (f s) = session_id s → mut_auth_requested (f s) = mut_auth_requested s →
  session_keeps s (f s).
Proof.
  intros Hne Hi Hm i [H0 [[Hid _]|Hq]]; [done|]. split; [by rewrite Hm|]. right. by rewrite Hi.
Qed.

(** ** Contexts *)

Record inv (c : SpdmContext) : Prop := {
  inv_version : SpdmVersion_wf (negotiated_version c);
  inv_limit : req_data_transfer_size_sel (negotiate_info c) = 0 ∨
              42 ≤ req_data_transfer_size_sel (negotiate_info c);
  inv_last id : last_session_id (runtime_info c) = Some id → id ≠ INVALID_SESSION_ID;
  inv_count : length (session c) = MAX_SPDM_SESSION_COUNT;
  inv_table i s : session c !! i = Some s → session_ok i s;
}.

Lemma steady_inv c c' : steady session_keeps c c' → inv c → inv c'.
Proof.
  intros [Hk Hs] [Hv Hl Hlast Hn Ht]. unfold context_key, neg_key in Hk.
  injection Hk as _ Hver _ _ Hsize _ Hlst _ _. split.
  - unfold negotiated_version in *. by rewrite Hver.
  - by rewrite Hsize.
  - intros id. rewrite Hlst. apply Hlast.
  - rewrite <- Hn. symmetry. by eapply Forall2_length.
  - intros i s' Hi. eapply Forall2_lookup_r in Hs as (s&Hsi&Hkeep); [|done].
    by apply Hkeep, Ht.
Qed.

Lemma quiet_inv c c' : quiet c c' → preserves inv c c'.
Proof.
  intros Hq Hc. eapply steady_inv; [|done]. eapply steady_mono; [apply transcripts_quiet|done].
Qed.

Lemma within_inv {E A} (c : M SpdmContext E A) :
  within (steady session_keeps) c → within (preserves inv) c.
Proof. intros Hc. eapply within_mono; [exact Hc|]. intros s s' Hs Hi. by eapply steady_inv. Qed.
Lemma within_inv_rsp {E A} (c : M Rsp E A) :
  within (on_first (steady session_keeps)) c → within (on_first (preserves inv)) c.
Proof. intros Hc. eapply within_mono; [exact Hc|]. intros s s' Hs Hi. by eapply steady_inv. Qed.

(** A change outside what the invariant is about. *)
Lemma inv_same c c' :
  negotiated_version c' = negotiated_version c →
  req_data_transfer_size_sel (negotiate_info c') = req_data_transfer_size_sel (negotiate_info c) →
  last_session_id (runtime_info c') = last_session_id (runtime_info c) →
  session c' = session c → inv c → inv c'.
Proof.
  intros Hv Hs Hl Hss [? ? ? ? ?]. split; rewrite ?Hv, ?Hs, ?Hl, ?Hss; auto.
Qed.

Lemma inv_modify {E} f :
  (∀ c, negotiated_version (f c) = negotiated_version c ∧
        req_data_transfer_size_sel (negotiate_info (f c)) =
          req_data_transfer_size_sel (negotiate_info c) ∧
        last_session_id (runtime_info (f c)) = last_session_id (runtime_info c) ∧
        session (f c) = session c) →
  within (preserves inv) (modify (E:=E) f).
Proof.
  intros Hf. apply within_modify. intros c Hc. destruct (Hf c) as (?&?&?&?). by apply (inv_same c).
Qed.

(** The session with the identifier [id], which is not that of free entries. *)
Lemma steady_in_use {E A} id (otherwise : M SpdmContext E A) (body : M SpdmSession E A) :
  id ≠ INVALID_SESSION_ID →
  within (steady session_keeps) otherwise →
  (∀ s, session_id s ≠ INVALID_SESSION_ID → session_id s = id → within_at session_keeps body s) →
  within (steady session_keeps) (with_session id otherwise body).
Proof.
  intros Hne Ho Hb. apply steady_session; [apply _|done|]. intros s Hs. apply Hb; congruence.
Qed.

Lemma establish_inv id :
  id ≠ INVALID_SESSION_ID → within (steady session_keeps) (establish id).
Proof.
  intros Hne. apply steady_in_use; [done|within_steps|]. intros s Hs _ r s' [= <- <-].
  by apply session_keeps_state.
Qed.
Lemma teardown_inv id :
  id ≠ INVALID_SESSION_ID →
  within (steady session_keeps)
    (with_session (E:=SpdmStatus) id panic (attempt (E:=SpdmStatus) (SpdmSession_teardown id);; ret tt)).
Proof.
  intros Hne. apply within_steady_session; [apply _|within_steps|].
  unfold SpdmSession_teardown. within_steps. apply within_modify. intros ? i _.
  apply set_default_ok.
Qed.

Lemma after_send_inv k : within (preserves inv) (after_send k).
Proof.
  unfold after_send. destruct (SpdmRequestResponseCode_from_u8 k); try apply within_ret, _;
    try (apply within_modify; intros c; unfold preserves, raise_state; repeat case_match;
         by apply inv_same).
  apply within_at_intro. intros c. apply within_at_preserves. intros Hc.
  apply within_at_gets; [apply _|].
  destruct (last_session_id (runtime_info c)) as [id|] eqn:Hid; [|by apply within_at_of, within_bind; [apply _|apply within_panic, _|]].
  pose proof (inv_last _ Hc id Hid) as Hne. apply within_at_ret; [apply _|].
  apply within_at_of. apply within_bind; [apply _|by apply within_inv, establish_inv|].
  intros _ _ _ _. apply within_modify. intros c1 [? ? ? ? ?]. by split.
Qed.

Lemma after_secured_inv id k :
  id ≠ INVALID_SESSION_ID → within (preserves inv) (after_secured_send id k).
Proof.
  intros Hne. unfold after_secured_send. within_steps.
  - by apply within_inv, teardown_inv.
  - by apply within_inv, establish_inv.
Qed.

(** ** Sending *)

Lemma send_message_inv bs : within (preserves inv) (send_message bs).
Proof.
  assert (∀ k, has_code k bs → within (preserves inv) (send_message bs)) as Hs.
  { intros k Hk. apply (send_message_within _ k); [apply quiet_inv|apply after_send_inv..|done]. }
  destruct (bs !! 1%nat) as [k|] eqn:Hk; [apply (Hs k)|apply (Hs 0)]; unfold has_code; auto.
Qed.

Lemma send_secured_inv id bs is_app :
  id ≠ INVALID_SESSION_ID → within (preserves inv) (send_secured_message mode id bs is_app).
Proof.
  intros Hne.
  assert (∀ k, has_code k bs → within (preserves inv) (send_secured_message mode id bs is_app)) as Hs.
  { intros k Hk. apply (send_secured_within mode _ k);
      [apply quiet_inv|by apply after_secured_inv..|done]. }
  destruct (bs !! 1%nat) as [k|] eqn:Hk; [apply (Hs k)|apply (Hs 0)]; unfold has_code; auto.
Qed.

(** ** Requests *)

Lemma parser_step {E A} (c : M Reader E A) P r v r' :
  parser c P → Reader_wf r → c r = (Ok v, r') → P v ∧ Reader_wf r'.
Proof.
  intros Hp Hr Hc. destruct (Hp r Hr) as (n&o&Ho&Hn&HP). rewrite Hc in Ho. injection Ho as <- ->.
  split; [done|]. by apply Reader_advance_wf.
Qed.

Lemma read_header_ok {S} bs h rd (s s' : S) :
  Forall is_u8 bs → read_header bs s = (Ok (h, rd), s') →
  SpdmVersion_wf (hd_version h) ∧ Reader_wf rd.
Proof.
  intros Hb Hr. unfold read_header, with_reader in Hr.
  destruct (read SpdmMessageHeader_codec (Reader_init bs)) as [[] rd'] eqn:He; simplify_eq.
  apply (parser_step _ _ _ _ _ parse_ok) in He as [[Hv _] Hw]; [done|].
  split; [simpl; lia|done].
Qed.

Lemma read_payload_ok {A} (codec : SpdmContext → SpdmCodec A) rd (s s' : Rsp) q rd' :
  read_payload codec rd s = (Ok (q, rd'), s') →
  s' = s ∧ spdm_read (codec s.1) rd = (Ok q, rd').
Proof.
  unfold read_payload, resume, bind, gets. destruct (spdm_read _ rd) as [[] ?];
    intros; by simplify_eq.
Qed.

Lemma key_exchange_req_id c rd q rd' :
  Reader_wf rd → spdm_read (SpdmKeyExchangeRequestPayload_codec c) rd = (Ok q, rd') →
  is_u16 (kq_req_session_id q).
Proof.
  intros Hw Hr. cbn [spdm_read SpdmKeyExchangeRequestPayload_codec] in Hr.
  apply bind_ok in Hr as (t&r1&H1&Hr). apply (parser_step _ _ _ _ _ parse_ok) in H1 as [_ Hw1]; [|done].
  destruct (negb _); [done|].
  apply bind_ok in Hr as (sl&r2&H2&Hr). apply (parser_step _ _ _ _ _ parse_ok) in H2 as [_ Hw2]; [|done].
  apply bind_ok in Hr as (id&r3&H3&Hr). apply (parser_step _ _ _ _ _ parse_ok) in H3 as [Hid _]; [|done].
  clear -Hid Hr. minv. done.
Qed.
Lemma psk_exchange_req_id c rd q rd' :
  Reader_wf rd → spdm_read (SpdmPskExchangeRequestPayload_codec c) rd = (Ok q, rd') →
  is_u16 (pq_req_session_id q).
Proof.
  intros Hw Hr. cbn [spdm_read SpdmPskExchangeRequestPayload_codec] in Hr.
  apply bind_ok in Hr as (t&r1&H1&Hr). apply (parser_step _ _ _ _ _ parse_ok) in H1 as [_ Hw1]; [|done].
  destruct (negb _); [done|].
  apply bind_ok in Hr as (sl&r2&H2&Hr). apply (parser_step _ _ _ _ _ parse_ok) in H2 as [_ Hw2]; [|done].
  apply bind_ok in Hr as (id&r3&H3&Hr). apply (parser_step _ _ _ _ _ parse_ok) in H3 as [Hid _]; [|done].
  clear -Hid Hr. minv. done.
Qed.

(** ** A new session *)

Definition session_fresh (id : Z) (s : SpdmSession) : Prop :=
  mut_auth_requested s = 0 ∧
  (session_id s = id ∨ session_id s = INVALID_SESSION_ID ∧ session_state s = SpdmSessionNotStarted).

Lemma like_fresh id s s' : session_like s s' → session_fresh id s → session_fresh id s'.
Proof.
  intros Hq. unfold session_like, session_base in Hq. unfold session_fresh.
  injection Hq as Hi Hst _ Hm _. by rewrite Hi, Hst, Hm.
Qed.
Lemma within_fresh {E A} id (c : M SpdmSession E A) :
  within session_quiet c → within (preserves (session_fresh id)) c.
Proof.
  intros Hc. eapply within_mono; [exact Hc|]. intros s s' Hs Hf. by eapply like_fresh; [apply quiet_like|].
Qed.

Lemma setup_fresh id : within (preserves (session_fresh id)) (SpdmSession_setup id).
Proof.
  unfold SpdmSession_setup. within_steps; apply within_modify; intros x Hx; [split; [done|by right]|].
  split; [apply Hx|by left].
Qed.
Lemma teardown_fresh id id' : within (preserves (session_fresh id)) (SpdmSession_teardown id').
Proof.
  unfold SpdmSession_teardown. within_steps. apply within_modify. intros x Hx.
  split; [done|by right].
Qed.
#[local] Hint Resolve setup_fresh teardown_fresh : within.

Lemma setup_dhe_fresh c id slot key h :
  within (preserves (session_fresh id)) (setup_dhe_session c id slot key h).
Proof.
  unfold setup_dhe_session. within_steps.
  - apply within_modify. intros x [_ Hx]. split; [done|exact Hx].
  - apply within_fresh, set_dhe_secret_quiet.
  - by apply within_modify; intros x Hx.
Qed.
Lemma setup_psk_fresh c id hint :
  within (preserves (session_fresh id)) (setup_psk_session c id hint).
Proof. unfold setup_psk_session. within_steps; by apply within_modify; intros x Hx. Qed.

(** ** The table of sessions *)

Context (count_bound : Z.of_nat MAX_SPDM_SESSION_COUNT ≤ 0xFFFC).

Lemma session_ok_free i s :
  (i < MAX_SPDM_SESSION_COUNT)%nat → session_ok i s →
  half_session_id false (session_id s) = 0 → session_id s = INVALID_SESSION_ID.
Proof.
  intros Hi [_ [[? _]|(q&Hq&->)]]; [done|]. rewrite half_of_id; [|unfold is_uint; lia|done].
  intros; lia.
Qed.

(** The free entry that is set up is the one the identifier was made for. *)
Lemma next_index c c' r i s :
  inv c → Forall2 session_quiet (session c) (session c') →
  get_next_half_session_id false c = Ok r →
  list_find (λ s, session_id s = INVALID_SESSION_ID) (session c') = Some (i, s) →
  r = INITIAL_SESSION_ID - Z.of_nat i ∧ (i < MAX_SPDM_SESSION_COUNT)%nat.
Proof.
  intros Hc Hss Hr Hf. unfold get_next_half_session_id in Hr.
  destruct (list_find _ (session c)) as [[j t]|] eqn:Hj; [|done]. injection Hr as <-.
  apply list_find_Some in Hf as (Hi&Hid&Hbefore). apply list_find_Some in Hj as (Hj&Ht&Hlow).
  destruct (Forall2_lookup_r _ _ _ _ _ Hss Hi) as (s0&Hs0&Hq0).
  destruct (Forall2_lookup_l _ _ _ _ _ Hss Hj) as (t'&Ht'&Hqt).
  assert (∀ a b, session_quiet a b → session_id b = session_id a) as Hids
    by (intros a b Hq; unfold session_quiet, session_key, session_base in Hq; congruence).
  assert (j < MAX_SPDM_SESSION_COUNT)%nat as Hjc
    by (rewrite <- (inv_count _ Hc); by eapply lookup_lt_Some).
  assert (i = j) as ->; [|done].
  assert (session_id t = 0) as Ht0.
  { apply (session_ok_free j); [done|by eapply inv_table|done]. }
  apply Hids in Hq0, Hqt. destruct (Nat.lt_total i j) as [Hlt|[->|Hlt]]; [|done|].
  - destruct (Hlow i s0 Hs0 Hlt). by rewrite <- Hq0, Hid.
  - destruct (Hbefore j t' Ht' Hlt). congruence.
Qed.

Lemma setup_inv {E A} c c' r q (otherwise : M SpdmContext E A) (body : M SpdmSession E A) :
  inv c → quiet c c' → get_next_half_session_id false c = Ok r → is_u16 q →
  within (preserves inv) otherwise →
  within (preserves (session_fresh (session_id_of r q))) body →
  within_at (preserves inv) (with_next_avaiable_session otherwise body) c'.
Proof.
  intros Hc Hq Hr Hqs Ho Hb o c2 Hw Hc'. unfold with_next_avaiable_session, with_session in Hw.
  destruct (list_find _ _) as [[i s]|] eqn:Hf; [|by eapply Ho].
  destruct (next_index c c' r i s Hc (proj2 Hq) Hr Hf) as [-> Hi].
  apply list_find_Some in Hf as (His&Hid&_). destruct (body s) as [o' s'] eqn:Hbs.
  injection Hw as <- <-. pose proof (inv_table _ Hc' i s His) as [Hm Hs].
  destruct (Hb _ _ _ Hbs) as [Hm' Hs'].
  { split; [done|]. right. split; [done|]. destruct Hs as [[_ ?]|(q'&Hq'&Hid')]; [done|].
    assert (half_session_id false (session_id s) = 0) as Hh by (by rewrite Hid).
    rewrite Hid', half_of_id in Hh; [lia|unfold is_uint; lia|done]. }
  destruct Hc' as [? ? ? Hn Ht]. split; cbn; [done..|by rewrite length_insert|].
  intros j x Hx. destruct (decide (i = j)) as [<-|Hne].
  - rewrite list_lookup_insert_eq in Hx by (by eapply lookup_lt_Some). simplify_eq.
    split; [done|]. destruct Hs' as [Hs'|Hs']; [right; by exists q|by left].
  - rewrite list_lookup_insert_ne in Hx by done. by apply Ht.
Qed.

(** A computation from the states that are [quiet]ly reached from [c]. *)
Definition tracked {E A} (c : SpdmContext) (m : M Rsp E A) : Prop :=
  ∀ s, quiet c s.1 → within_at (on_first (preserves inv)) m s.

Lemma track {E A} (k : SpdmContext → M Rsp E A) :
  (∀ c, inv c → tracked c (k c)) → within (on_first (preserves inv)) (let* c := gets fst in k c).
Proof.
  intros Hk s r s' H Hi. erewrite bind_step in H by done. exact (Hk s.1 Hi s ltac:(reflexivity) r s' H Hi).
Qed.
Lemma tracked_of {E A} c (m : M Rsp E A) : within (on_first (preserves inv)) m → tracked c m.
Proof. intros Hm s _ r s'. apply Hm. Qed.
Lemma tracked_bind {E A B} c (m : M Rsp E A) (k : A → M Rsp E B) :
  within (on_first (steady session_quiet)) m → (∀ a s s', m s = (Ok a, s') → tracked c (k a)) →
  tracked c (bind m k).
Proof.
  intros Hm Hk s Hs. apply within_at_bind; [apply _| |].
  - intros r s' H. by apply quiet_inv, (Hm _ _ _ H).
  - intros a s' H. apply (Hk a s s' H). etrans; [exact Hs|]. exact (Hm _ _ _ H).
Qed.
Lemma tracked_or_else {E E' A B} c (m : M Rsp E A) (bad : M Rsp E' B) (k : A → M Rsp E' B) :
  within (on_first (steady session_quiet)) m → tracked c bad →
  (∀ a s s', m s = (Ok a, s') → tracked c (k a)) → tracked c (or_else m bad k).
Proof.
  intros Hm Hb Hk s Hs. apply within_at_or_else; [apply _| | |].
  - intros r s' H. by apply quiet_inv, (Hm _ _ _ H).
  - intros e s' H. apply Hb. etrans; [exact Hs|]. exact (Hm _ _ _ H).
  - intros a s' H. apply (Hk a s s' H). etrans; [exact Hs|]. exact (Hm _ _ _ H).
Qed.

(** ** The exchanges *)

#[local] Instance keeps_preorder {T} : PreOrder (on_first (T:=T) (steady session_keeps)).
Proof. apply _. Qed.
#[local] Instance quiet_preorder' {T} : PreOrder (on_first (T:=T) (steady session_quiet)).
Proof. apply _. Qed.
#[local] Instance inv_preorder {T} : PreOrder (on_first (T:=T) (preserves inv)).
Proof. apply _. Qed.

#[local] Hint Resolve frame_read_payload frame_write_response frame_error
  frame_reset_buffers frame_append_a frame_append_written_a frame_local_chain frame_consumed
  frame_random_array frame_invalid frame_unspecified frame_refuse frame_reject
  frame_append_to_k frame_immutable frame_transcript frame_generate_hmac steady_world
  within_match_versions within_get_versions steady_append_a frame_sign : within.
#[local] Hint Extern 5 (within (preserves inv) _) =>
  (apply within_inv; solve [auto with within nocore typeclass_instances]) : within.
#[local] Hint Extern 5 (within (on_first (preserves inv)) _) =>
  (apply within_inv_rsp; solve [auto with within nocore typeclass_instances]) : within.
Ltac inv_steps :=
  repeat first
    [ within_step
    | lazymatch goal with
      | |- within (on_first _) (zoom fst _ _) => apply within_on_fst
      | |- within (preserves inv) (modify _) => apply inv_modify; intros; by split_and!
      | |- within (steady _) (modify _) =>
          apply within_modify; intros ?; (apply steady_same; [apply _|done|done])
      end ].

Lemma frame_key_signature R `{!Transcripts R} s :
  within (steady R) (generate_key_exchange_rsp_signature s).
Proof. unfold generate_key_exchange_rsp_signature. inv_steps. Qed.
Lemma abandon_keeps id : within (on_first (steady session_keeps)) (abandon id).
Proof.
  apply frame_on_session; [apply _|]. unfold SpdmSession_teardown. within_steps.
  apply within_modify. intros ? i _. apply set_default_ok.
Qed.
Lemma handshake_keeps v th id :
  within (on_first (steady session_keeps))
    (on_session id (SpdmSession_generate_handshake_secret v th)).
Proof.
  apply frame_on_session; [apply _|].
  eapply within_mono; [apply generate_handshake_secret_like|apply session_like_keeps].
Qed.
Lemma data_keeps {E} v th id :
  within (on_first (steady session_keeps))
    (on_session (E:=E) id (expect (SpdmSession_generate_data_secret v th))).
Proof.
  apply frame_on_session_quiet; [apply _|].
  apply within_expect; [apply _|apply generate_data_secret_quiet].
Qed.
Lemma state_keeps {E} id f :
  id ≠ INVALID_SESSION_ID →
  (∀ s, session_id (f s) = session_id s ∧ mut_auth_requested (f s) = mut_auth_requested s) →
  within (on_first (steady session_keeps)) (on_session (E:=E) id (modify f)).
Proof.
  intros Hne Hf. apply within_on_fst, steady_in_use; [done|within_steps|].
  intros s Hs _ r s' [= <- <-]. by apply session_keeps_state; [|apply Hf..].
Qed.
#[local] Hint Resolve frame_key_signature abandon_keeps handshake_keeps data_keeps : within.

Lemma finish_key_exchange_keeps id request clear n m :
  within (on_first (steady session_keeps)) (finish_key_exchange id request clear n m).
Proof. unfold finish_key_exchange. inv_steps. Qed.
Lemma finish_psk_exchange_keeps id request n :
  id ≠ INVALID_SESSION_ID →
  within (on_first (steady session_keeps)) (finish_psk_exchange id request n).
Proof. intros Hne. unfold finish_psk_exchange. inv_steps. by apply state_keeps. Qed.

Abbreviation safe := (on_first (T:=Writer) (preserves inv)) (only parsing).

Lemma inv_expect_negotiated bs bad k :
  Forall is_u8 bs → (∀ e, within safe (bad e)) → (∀ r, Reader_wf r → within safe (k r)) →
  within safe (expect_negotiated bs bad k).
Proof.
  intros Hbs Hbad Hk. apply above_expect_negotiated; [apply _|done|]. intros h rd Hr. apply Hk.
  unfold run in Hr. destruct (read_header bs tt) as [o []] eqn:He. cbn in Hr. subst o.
  by apply read_header_ok in He as [_ Hrd].
Qed.

Lemma tracked_quiet {E A} c (m : M Rsp E A) :
  within (on_first (steady session_quiet)) m → tracked c m.
Proof.
  intros Hm. apply tracked_of. eapply within_mono; [exact Hm|]. intros s s'. apply quiet_inv.
Qed.

(** The new identifier is not that of free entries. *)
Lemma new_id_valid c r q :
  inv c → get_next_half_session_id false c = Ok r → is_u16 q →
  session_id_of r q ≠ INVALID_SESSION_ID.
Proof.
  intros Hc Hr Hq. unfold get_next_half_session_id in Hr.
  destruct (list_find _ _) as [[j t]|] eqn:Hj; [|done]. injection Hr as <-.
  apply list_find_Some in Hj as (Hj&_). apply lookup_lt_Some in Hj. rewrite (inv_count _ Hc) in Hj.
  unfold session_id_of, is_uint in *. rewrite Z.shiftl_mul_pow2 by lia.
  change (2 ^ 16) with 65536 in *. intros H. lia.
Qed.

(** Setting up the session and what follows. *)
Lemma tracked_setup {A B} c r q (body : SpdmM SpdmSession A) bad (k : A → SpdmM Rsp B) :
  inv c → get_next_half_session_id false c = Ok r → is_u16 q →
  within (preserves (session_fresh (session_id_of r q))) body →
  within safe bad → (∀ a, session_id_of r q ≠ INVALID_SESSION_ID → within safe (k a)) →
  tracked c (let? a := on_fst (with_next_avaiable_session (throw tt) (map_err (λ _, tt) body))
             else bad in k a).
Proof.
  intros Hc Hr Hq Hb Hbad Hk s Hs. apply within_at_or_else; [apply _| | |].
  - intros o s' H. unfold zoom in H.
    destruct (with_next_avaiable_session _ _ s.1) as [o' c'] eqn:Hw. injection H as <- <-.
    unfold on_first. cbn [fst].
    eapply setup_inv; [exact Hc|exact Hs|exact Hr|exact Hq|..|exact Hw]; [within_steps|]. by apply within_map_err.
  - intros. apply within_at_of, Hbad.
  - intros. apply within_at_of, Hk. by eapply new_id_valid.
Qed.

Lemma psk_context_quiet c : within (on_first (steady session_quiet)) (psk_response_context c).
Proof. unfold psk_response_context. inv_steps. Qed.
#[local] Hint Resolve psk_context_quiet : within.

Lemma key_exchange_inv bs :
  Forall is_u8 bs → within safe (write_spdm_key_exchange_response bs).
Proof.
  intros Hbs. unfold write_spdm_key_exchange_response.
  apply inv_expect_negotiated; [done|inv_steps|intros rd Hrd].
  apply within_bind; [apply _|inv_steps|intros c _ _ _]. destruct (version_below _ _); [inv_steps|].
  apply within_bind; [apply _|inv_steps|intros _ _ _ _].
  apply within_or_else; [apply _|inv_steps..|intros [q rd'] s s' Hq].
  apply read_payload_ok in Hq as [_ Hq]. apply key_exchange_req_id in Hq; [|done]. clear c s s'.
  apply above_summary_hash; [apply _|apply quiet_inv|inv_steps|intros h].
  apply within_bind; [apply _|inv_steps|intros _ _ _ _].
  apply above_select_version; [apply _|apply quiet_inv|intros o]. cbv zeta. destruct (_ <=? _)%nat; [inv_steps|].
  apply track. intros c Hc.
  apply tracked_bind; [within_steps|intros chain _ _ _]. case_decide; [apply tracked_quiet; within_steps|].
  apply tracked_bind; [inv_steps|intros _ _ _ _].
  apply tracked_bind; [inv_steps|intros [x p] _ _ _].
  apply tracked_or_else; [inv_steps|apply tracked_quiet; inv_steps|intros key _ _ _].
  apply tracked_or_else; [inv_steps|apply tracked_quiet; inv_steps|].
  intros r s s' [Hr _]%of_outcome_ok.
  apply tracked_or_else; [inv_steps|apply tracked_quiet; inv_steps|intros hash _ _ _].
  eapply tracked_setup; [done..|apply setup_dhe_fresh|inv_steps|intros ready Hid].
  destruct (negb ready); [inv_steps|]. generalize dependent (session_id_of r (kq_req_session_id q)).
  intros id Hid. inv_steps; try by apply within_inv_rsp, finish_key_exchange_keeps.
  - apply within_inv_rsp, state_keeps; [done|]. intros x1. unfold set_session_version. by case_match.
  - apply within_modify. intros c2 [????]. split; [done..| |done|done]. by intros ? [= <-].
Qed.

Lemma psk_exchange_inv bs :
  Forall is_u8 bs → within safe (write_spdm_psk_exchange_response bs).
Proof.
  intros Hbs. unfold write_spdm_psk_exchange_response.
  apply inv_expect_negotiated; [done|inv_steps|intros rd Hrd].
  apply within_bind; [apply _|inv_steps|intros c _ _ _]. destruct (version_below _ _); [inv_steps|].
  apply within_bind; [apply _|inv_steps|intros _ _ _ _].
  apply within_or_else; [apply _|inv_steps..|intros [q rd'] s s' Hq].
  apply read_payload_ok in Hq as [_ Hq]. apply psk_exchange_req_id in Hq; [|done]. clear c s s'.
  apply above_summary_hash; [apply _|apply quiet_inv|inv_steps|intros h]. apply above_select_version; [apply _|apply quiet_inv|intros o].
  apply track. intros c Hc.
  apply tracked_or_else; [inv_steps|apply tracked_quiet; inv_steps|intros pc _ _ _].
  apply tracked_or_else; [inv_steps|apply tracked_quiet; inv_steps|].
  intros r s s' [Hr _]%of_outcome_ok.
  eapply tracked_setup; [done..|apply setup_psk_fresh|inv_steps|intros _ Hid].
  generalize dependent (session_id_of r (pq_req_session_id q)).
  intros id Hid. inv_steps; try by apply within_inv_rsp, finish_psk_exchange_keeps.
  - by apply within_inv_rsp, state_keeps.
  - apply within_inv_rsp, state_keeps; [done|]. intros x1. unfold set_session_version. by case_match.
Qed.

(** ** The negotiation *)

Lemma reset_inv c : length (session c) = MAX_SPDM_SESSION_COUNT → inv (reset_context c).
Proof.
  intros Hn. split; cbn; [done|by left|done|by rewrite length_fmap|].
  intros i s Hs. apply list_lookup_fmap_Some_1 in Hs as (s0&->&_). apply set_default_ok.
Qed.
Lemma new_inv device w config provision : inv (SpdmContext_new device w config provision).
Proof.
  split; cbn; [done|by left|done|by rewrite length_replicate|].
  intros i s [-> _]%lookup_replicate. split; [done|by left].
Qed.

Lemma version_inv bs : within safe (write_spdm_version_response bs).
Proof.
  unfold write_spdm_version_response. inv_steps.
  apply within_modify. intros c Hc. apply reset_inv, Hc.
Qed.

Lemma record_capabilities_inv c q :
  GetCapabilities_wf c q → inv c → inv (record_capabilities q c).
Proof.
  intros [_ Hs] [Hv Hl Hlast Hn Ht]. unfold record_capabilities, sizes_wf, sel_ge12 in *.
  destruct (negb _) eqn:Hb; split; cbn; try done. right. cbn in Hb.
  change (sel_version c) with (negotiated_version c) in Hs.
  replace (SpdmVersion_ge _ _) with true in Hs; [lia|]. symmetry.
  unfold SpdmVersion_ge, version_below, negotiated_version in *. lia.
Qed.

Lemma capability_inv bs : Forall is_u8 bs → within safe (write_spdm_capability_response bs).
Proof.
  intros Hbs. unfold write_spdm_capability_response.
  apply within_bind; [apply _|inv_steps|intros c _ _ _]. case_decide; [inv_steps|].
  apply within_or_else; [apply _|inv_steps..|]. intros [h rd] s s' Hh.
  apply read_header_ok in Hh as [Hv Hrd]; [|done]. clear s s'.
  destruct (version_below _ _); [inv_steps|].
  apply within_bind; [apply _| |intros _ _ _ _].
  { apply within_on_fst, within_modify. intros c1 [????]. by split. }
  apply within_bind; [apply _|inv_steps|intros _ _ _ _].
  apply within_at_intro. intros s. apply within_at_or_else; [apply _|..].
  { apply within_at_of. inv_steps. }
  { intros. apply within_at_of. inv_steps. }
  intros [q rd'] s' [-> Hq]%read_payload_ok.
  apply (parser_step _ _ _ _ _ spdm_parse_ok) in Hq as [Hq _]; [|done].
  apply within_at_bind; [apply _| |intros; apply within_at_of; inv_steps].
  intros r s1 [= <- <-]. intros Hi. by apply record_capabilities_inv.
Qed.

(** ** Requests outside sessions *)

Lemma answer_inv w :
  within safe w → within (preserves inv) (let* rsp := with_send_buffer w in send_message rsp).
Proof.
  intros Hw. apply within_bind; [apply _|by apply within_send_buffer|].
  intros. apply send_message_inv.
Qed.
Lemma answer_secured_inv id w :
  id ≠ INVALID_SESSION_ID → within (on_first (steady session_keeps)) w →
  within (preserves inv) (let* rsp := with_send_buffer w in send_secured_message mode id rsp false).
Proof.
  intros Hne Hw. apply within_bind; [apply _|by apply within_send_buffer, within_inv_rsp|].
  intros. by apply send_secured_inv.
Qed.

(** A session that is under way has an identifier. *)
Lemma active_id c id s :
  inv c → get_immutable_session_via_id id c = Some s → session_state s ≠ SpdmSessionNotStarted →
  id ≠ INVALID_SESSION_ID.
Proof.
  intros Hc Hs Hst. unfold get_immutable_session_via_id in Hs.
  apply fmap_Some in Hs as ([i s0]&Hf&->). apply list_find_Some in Hf as (Hi&<-&_).
  destruct (inv_table _ Hc i s0 Hi) as [_ [[_ ?]|(q&Hq&->)]]; [done|].
  apply lookup_lt_Some in Hi. rewrite (inv_count _ Hc) in Hi.
  unfold session_id_of, is_uint in *. rewrite Z.shiftl_mul_pow2 by lia.
  change (2 ^ 16) with 65536 in *. intros H. cbn [snd] in *. lia.
Qed.

Lemma handle_finish_inv id bs :
  id ≠ INVALID_SESSION_ID → within (preserves inv) (handle_spdm_finish mode id bs).
Proof.
  intros Hne. unfold handle_spdm_finish. apply within_bind; [apply _|within_steps|intros c _ _ _].
  destruct (in_clear_text c).
  - apply answer_inv, within_inv_rsp, frame_finish, _.
  - apply answer_secured_inv, frame_finish; [done|apply _].
Qed.
Lemma handle_error_inv code bs : within (preserves inv) (handle_error_request mode code None bs).
Proof. apply answer_inv, within_inv_rsp, frame_error_response, _. Qed.

Lemma dispatch_finish_inv bs : within (preserves inv) (dispatch_finish mode bs).
Proof.
  apply within_at_intro. intros c. apply within_at_preserves. intros Hc.
  apply within_at_gets; [apply _|]. cbv zeta. apply within_at_of.
  destruct (in_clear_text c); [|apply handle_error_inv].
  destruct (last_session_id (runtime_info c)) as [id|] eqn:Hid; [|apply handle_error_inv].
  cbn [mbind option_bind].
  destruct (get_immutable_session_via_id id c); [|apply handle_error_inv].
  cbn [mbind option_bind]. case_decide; [|apply handle_error_inv].
  apply handle_finish_inv. by apply (inv_last _ Hc).
Qed.

Lemma send_error_keeps : within (steady session_keeps) (send_spdm_error SpdmErrorUnspecified 0).
Proof. apply within_quiet_steady, send_spdm_error_quiet; apply _. Qed.

Lemma dispatch_inv bs : Forall is_u8 bs → within (preserves inv) (dispatch_message mode bs).
Proof.
  intros Hbs. unfold dispatch_message. apply within_bind; [apply _|within_steps|].
  intros [header rd] _ _ _. destruct (hd_request_response_code header);
    try apply within_throw, _; try apply handle_error_inv; try apply dispatch_finish_inv.
  1: apply answer_inv, within_inv_rsp, frame_digest, _.
  1: apply answer_inv, within_inv_rsp, frame_certificate, _.
  1: apply answer_inv, within_inv_rsp, frame_challenge;
       [apply _|apply send_error_keeps].
  1: apply answer_inv, version_inv.
  1: apply answer_inv, within_inv_rsp, frame_measurement;
       [apply _|apply send_error_keeps].
  1: by apply answer_inv, capability_inv.
  1: apply answer_inv, within_inv_rsp, frame_algorithm, _.
  1: apply answer_inv, within_inv_rsp, frame_vendor, _.
  1: by apply answer_inv, key_exchange_inv.
  1: by apply answer_inv, psk_exchange_inv.
Qed.

(** ** Requests in sessions *)

#[local] Hint Resolve frame_error_response frame_vendor frame_finish frame_psk_finish frame_digest
  frame_certificate frame_heartbeat frame_key_update frame_end_session frame_measurement
  send_error_keeps : within.

Lemma secured_inv id bs : within (preserves inv) (dispatch_secured_message mode id bs).
Proof.
  apply within_at_intro. intros c. apply within_at_preserves. intros Hc.
  unfold dispatch_secured_message. apply within_at_gets; [apply _|].
  destruct (get_immutable_session_via_id id c) as [s|] eqn:Hs; cbn [ok_or];
    [|by intros ?? [= <- <-]].
  apply within_at_ret; [apply _|].
  destruct (decide (session_state s = SpdmSessionNotStarted)) as [Hn|Hn].
  { rewrite Hn. apply within_at_of. within_steps. }
  pose proof (active_id c id s Hc Hs Hn) as Hne. apply within_at_of. clear Hs.
  within_steps.
  all: match goal with
  | |- within _ (dispatch_handshake _ _ ?h _) => destruct h
  | |- within _ (dispatch_established _ _ ?h _) => destruct h
  | _ => idtac
  end; cbn [dispatch_handshake dispatch_established]; try apply within_throw, _;
    try apply within_panic, _; try (by apply handle_finish_inv);
    (apply answer_secured_inv; [done|]).
  all: auto with within nocore typeclass_instances.
Qed.

(** ** The identifier names the entry *)

Lemma inv_half c i s :
  inv c → session c !! i = Some s → session_id s ≠ INVALID_SESSION_ID →
  half_session_id false (session_id s) = INITIAL_SESSION_ID - Z.of_nat i.
Proof.
  intros Hc Hi Hs. pose proof (lookup_lt_Some _ _ _ Hi) as Hlt. rewrite (inv_count _ Hc) in Hlt.
  destruct (inv_table _ Hc i s Hi) as [_ [[H _]|(q&Hq&->)]]; [congruence|].
  apply half_of_id; [unfold is_uint; lia|done].
Qed.
Lemma inv_index c i j s t :
  inv c → session c !! i = Some s → session c !! j = Some t →
  session_id s ≠ INVALID_SESSION_ID → session_id t = session_id s → j = i.
Proof.
  intros Hc Hi Hj Hs Ht. pose proof (inv_half c i s Hc Hi Hs) as H1.
  pose proof (inv_half c j t Hc Hj) as H2. rewrite Ht in H2. specialize (H2 Hs). lia.
Qed.
Lemma inv_find c i s :
  inv c → session c !! i = Some s → session_id s ≠ INVALID_SESSION_ID →
  list_find (λ t, session_id t = session_id s) (session c) = Some (i, s).
Proof.
  intros Hc Hi Hs. apply list_find_Some. split_and!; [done|done|]. intros k x Hk Hlt Hx.
  pose proof (inv_index c i k s x Hc Hi Hk Hs Hx). lia.
Qed.

(** ** Whole packets *)

(** The device and the transport deliver bytes; the callback for application data keeps the
    invariant. *)
Class Environment : Prop := {
  env_receive timeout d buf r d' buf' :
    io_receive timeout (d, buf) = (r, (d', buf')) → Forall is_u8 buf → Forall is_u8 buf';
  env_decap packet buf r buf' :
    t_decap packet buf = (r, buf') → Forall is_u8 packet → Forall is_u8 buf → Forall is_u8 buf';
  env_app id bs aux : within (preserves inv) (dispatch_secured_app_message_cb id bs aux);
}.
Context `{env : Environment}.

Lemma receive_inv timeout : within (on_first (preserves inv)) (receive_message timeout).
Proof.
  unfold receive_message. within_steps. apply (within_zoom _ (λ _ _, True)); [done|].
  intros s t _ Hc. by apply (inv_same s.1).
Qed.

Lemma sub_slice_Forall {S E} (P : Z → Prop) lo hi bs (s s' : S) b :
  sub_slice (E:=E) lo hi bs s = (Ok b, s') → Forall P bs → Forall P b ∧ s' = s.
Proof.
  unfold sub_slice. case_decide; intros [= <- <-] Hb. split; [|done].
  by apply Forall_take, Forall_drop.
Qed.
Lemma slice_copy_Forall {S E} (P : Z → Prop) arr pos bs (s s' : S) b :
  slice_copy (E:=E) arr pos bs s = (Ok b, s') → Forall P arr → Forall P bs → Forall P b ∧ s' = s.
Proof.
  unfold slice_copy. case_decide; intros [= <- <-] Ha Hb. split; [|done].
  unfold splice. rewrite !Forall_app. auto using Forall_take, Forall_drop.
Qed.

Lemma receive_octets timeout c buf n sm c' buf' :
  receive_message timeout (c, buf) = (Ok (n, sm), (c', buf')) → Forall is_u8 buf → Forall is_u8 buf'.
Proof.
  intros H Hb. unfold receive_message in H.
  apply bind_ok in H as (used&s1&H1&H). unfold zoom in H1. cbn [fst snd] in H1.
  destruct (io_receive timeout _) as [o [d1 b1]] eqn:Hr. injection H1 as -> <-.
  apply env_receive in Hr; [|done].
  apply bind_ok in H as (b&s2&[<- <-]%gets_ok&H). cbn [snd] in *.
  apply bind_ok in H as (rcv&s3&H3&H). apply (sub_slice_Forall is_u8) in H3 as [Hrcv ->]; [|done].
  apply bind_ok in H as ([[m k] tb]&s4&H4&H). unfold map_err, with_buffer in H4.
  destruct (t_decap _ _) as [[] tb'] eqn:Ht; [|done..]. injection H4 as -> -> <-.
  apply env_decap in Ht; [|done|by apply Forall_replicate].
  apply bind_ok in H as (msg&s5&H5&H). apply (sub_slice_Forall is_u8) in H5 as [Hmsg ->]; [|done].
  apply bind_ok in H as (b2&s6&H6&H). apply (slice_copy_Forall is_u8) in H6 as [Hb2 ->]; [|done..].
  by injection H as _ _ _ <-.
Qed.

(** What decrypts belongs to a session that is under way. *)
Lemma decode_active bs req s app s' :
  session_decode mode bs req s = (Ok app, s') → session_state s ≠ SpdmSessionNotStarted.
Proof.
  unfold session_decode, decode_spdm_secured_message. cbn [fst]. intros H Hs. by rewrite Hs in H.
Qed.

Lemma decode_session_inv id bs :
  within (preserves inv) (with_session id (throw tt) (map_err (λ _, tt) (session_decode mode bs true))).
Proof.
  apply within_inv, within_steady_session; [apply _|within_steps|]. apply within_map_err.
  eapply within_mono; [apply session_decode_quiet|apply transcripts_quiet].
Qed.
Lemma decode_session_id id bs app c c' :
  inv c →
  with_session id (throw tt) (map_err (λ _, tt) (session_decode mode bs true)) c = (Ok app, c') →
  id ≠ INVALID_SESSION_ID.
Proof.
  intros Hc H. unfold with_session in H.
  destruct (list_find _ _) as [[i s]|] eqn:Hf; [|done]. unfold map_err in H.
  destruct (session_decode mode bs true s) as [[] s1] eqn:Hd; simplify_eq.
  eapply (active_id c id s); [done| |by eapply decode_active].
  unfold get_immutable_session_via_id. by rewrite Hf.
Qed.

Lemma app_message_inv id bs aux :
  id ≠ INVALID_SESSION_ID → within (preserves inv) (dispatch_secured_app_message mode id bs aux).
Proof.
  intros Hne. unfold dispatch_secured_app_message. within_steps.
  - apply env_app.
  - by apply send_secured_inv.
Qed.

Lemma process_secured_inv bs aux : within (preserves inv) (process_secured_message mode bs aux).
Proof.
  apply within_at_intro. intros c. apply within_at_preserves. intros Hc.
  unfold process_secured_message.
  apply within_at_bind; [apply _|by apply within_at_of; within_steps|]. intros [id rd] c1 H1.
  assert (c1 = c) as -> by (unfold with_reader in H1; repeat case_match; congruence).
  apply within_at_bind; [apply _|apply within_at_of, decode_session_inv|]. intros app c2 H2.
  pose proof (decode_session_id _ _ _ _ _ Hc H2) as Hne.
  apply within_at_of. within_steps; apply is_ok_within; try apply _.
  - apply secured_inv.
  - by apply app_message_inv.
Qed.

Lemma process_inv timeout aux : within (preserves inv) (process_message mode timeout aux).
Proof.
  intros c r c' H Hc. unfold process_message in H.
  destruct (receive_message _ _) as [[[used secured]|e|] [c1 buf]] eqn:Hr;
    pose proof (receive_inv _ _ _ _ Hr Hc) as Hc1; cbn [fst] in Hc1; try by injection H as <- <-.
  apply receive_octets in Hr; [|by apply Forall_replicate].
  unfold bind in H. destruct (sub_slice 0 used buf c1) as [[message|e|] c2] eqn:Hs.
  - apply (sub_slice_Forall is_u8) in Hs as [Hm ->]; [|done]. revert H. destruct secured.
    + intros H. by apply (within_map_err _ _ _ (process_secured_inv message aux) _ _ _ H).
    + intros H. by apply (is_ok_within _ _ (dispatch_inv message Hm) _ _ _ H).
  - unfold sub_slice in Hs. by case_decide.
  - unfold sub_slice in Hs. case_decide; [done|]. injection Hs as <-. by injection H as <- <-.
Qed.

(** Every context of a responder. *)
Lemma served_inv h c : served mode (c :: h) → inv c.
Proof.
  intros Hs. remember (c :: h) as l eqn:Hl. revert c h Hl.
  induction Hs as [|timeout aux c0 h0 r c' Hs IH Hp]; intros c h [= <- <-]; [apply new_inv|].
  eapply process_inv; [exact Hp|by eapply IH].
Qed.
End Inv.
