(* ===== verification/RspSafe.v ===== *)
(** What the invariant of the responder gives: an error response is four bytes whose content is
    known, so sending ends after at most one replacement; requests that come too early are
    answered by such an error and change nothing else; no two sessions share an identifier. *)

From S2P Require Import Prelude Config Codec Status Algo Protocol Crypto KeySchedule Buffers Session Context SpdmCodec Opaque MsgNegotiate MsgAuth MsgSession Message Endpoint Responder Within RspWriter RspConnect RspSession RspDispatch RspFrame RspCode RspState RspInv.

Lemma le_bytes_one v : is_u8 v → le_bytes 1 v = [v].
Proof. intros Hv. unfold le_bytes. f_equal. by apply as_uint_id. Qed.

Section Safe.
Context `{cfg : Config} `{cry : Crypto} `{sec : !Secret} `{dev : SpdmDeviceIo} `{tr : SpdmTransportEncap}.
Context `{cv : !ConfigValid} `{handlers : !SpdmHandlers} (mode : overflow_mode).

(** ** Error responses *)

Definition error_bytes (c : SpdmContext) (code : SpdmErrorCode) (data : Z) : bytes :=
  [SpdmVersion_get_u8 (negotiated_version c);
   SpdmRequestResponseCode_get_u8 SpdmResponseError; SpdmErrorCode_get_u8 code; data].

(** The codes that the responder uses: without extended data. *)
Definition plain_error (code : SpdmErrorCode) : bool :=
  match code with
  | SpdmErrorResponseNotReady | SpdmErrorVendorDefined | SpdmErrorCode_Unknown _ => false
  | _ => true
  end.

Definition error_message (c : SpdmContext) (code : SpdmErrorCode) (d : Z) : SpdmMessage := {|
  msg_header := {| hd_version := negotiated_version c; hd_request_response_code := SpdmResponseError |};
  msg_payload := SpdmErrorResponse {| er_error_code := code; er_error_data := d;
                                      er_extended_data := SpdmErrorExtDataNone |};
|}.
Lemma error_message_wire c code d :
  SpdmVersion_wf (negotiated_version c) → plain_error code = true → is_u8 d →
  Message_wf c (error_message c code d) ∧ Message_wire c (error_message c code d) = error_bytes c code d.
Proof.
  intros Hv Hp Hd. split.
  - split; [done|]. split; [by split|]. cbn. split; [by destruct code|split; [done|by destruct code]].
  - unfold Message_wire, error_bytes. cbn [error_message msg_header msg_payload hd_version
      hd_request_response_code payload_wire]. unfold Error_wire. cbn [er_error_code er_error_data
      er_extended_data error_ext_wire]. rewrite !le_bytes_one; [done|done|by destruct code|done|apply Hv].
Qed.

Lemma write_error_bytes code d c :
  SpdmVersion_wf (negotiated_version c) → plain_error code = true → is_u8 d →
  with_send_buffer (write_spdm_error code d) c = (Ok (error_bytes c code d), c).
Proof.
  intros Hv Hp Hd. unfold with_send_buffer, write_spdm_error, write_response.
  destruct (error_message_wire c code d Hv Hp Hd) as [Hm Hw].
  destruct (writes_used_slice _ _ _ _ (Writer_init (replicate MAX_SPDM_MSG_SIZE 0))
    (writes_message _ (error_message c code d) Hm)) as (w&He&Hs).
  { unfold Writer_wf. simpl. lia. }
  { rewrite Hw. unfold Writer_left. cbn. rewrite length_replicate. pose proof min_msg_size. lia. }
  rewrite Hw in Hs. change (Writer_used_slice (Writer_init _)) with (take 0 (replicate MAX_SPDM_MSG_SIZE 0)) in Hs.
  rewrite take_0 in Hs. cbn [app] in Hs.
  unfold bind, gets, attempt, zoom. cbn [fst snd]. fold (error_message c code d). rewrite He. unfold ret. by rewrite Hs.
Qed.

(** ** Sending ends *)

Lemma error_fits c code d : inv c → exceeds_transfer_size c (error_bytes c code d) = false.
Proof.
  intros Hc. unfold exceeds_transfer_size. cbn [error_bytes length].
  destruct (inv_limit _ Hc) as [->|Hl]; [done|]. rewrite andb_false_iff. right.
  apply Z.ltb_ge. lia.
Qed.

Lemma send_fits fuel bs c :
  exceeds_transfer_size c bs = false → send_message_rec fuel bs c = send_message_rec 0 bs c.
Proof.
  intros He. destruct fuel; [done|]. cbn [send_message_rec].
  by erewrite !bind_step by done; rewrite He.
Qed.
Lemma send_secured_fits fuel id bs is_app c :
  negb is_app && exceeds_transfer_size c bs = false →
  send_secured_message_rec mode fuel id bs is_app c = send_secured_message_rec mode 0 id bs is_app c.
Proof.
  intros He. destruct fuel; [done|]. cbn [send_secured_message_rec].
  by erewrite !bind_step by done; rewrite He.
Qed.

(** A response that is too large is replaced once. *)
Lemma send_too_large fuel bs c :
  inv c → exceeds_transfer_size c bs = true →
  send_message_rec (S fuel) bs c =
  send_message_rec 0 (error_bytes c SpdmErrorResponseTooLarge 0) c.
Proof.
  intros Hc He. cbn [send_message_rec]. erewrite bind_step by done. rewrite He.
  erewrite bind_step by (apply write_error_bytes; [apply Hc|done|done]).
  apply send_fits. by apply error_fits.
Qed.
Lemma send_secured_too_large fuel id bs c :
  inv c → exceeds_transfer_size c bs = true →
  send_secured_message_rec mode (S fuel) id bs false c =
  send_secured_message_rec mode 0 id (error_bytes c SpdmErrorResponseTooLarge 0) false c.
Proof.
  intros Hc He. cbn [send_secured_message_rec]. erewrite bind_step by done. rewrite He. cbn [negb andb].
  erewrite bind_step by (apply write_error_bytes; [apply Hc|done|done]).
  apply send_secured_fits. by apply error_fits.
Qed.

(** ** Requests out of order *)

(** The states in which a request outside sessions is expected. *)
Definition in_order (code : SpdmRequestResponseCode) (st : SpdmConnectionState) : bool :=
  match code with
  | SpdmRequestGetCapabilities => bool_decide (st = SpdmConnectionAfterVersion)
  | SpdmRequestNegotiateAlgorithms => bool_decide (st = SpdmConnectionAfterCapabilities)
  | SpdmRequestGetDigests | SpdmRequestGetCertificate | SpdmRequestChallenge
  | SpdmRequestGetMeasurements | SpdmRequestKeyExchange | SpdmRequestPskExchange =>
      SpdmConnectionState_get_u8 SpdmConnectionNegotiated <=? SpdmConnectionState_get_u8 st
  | _ => true
  end.
Definition is_exchange (code : SpdmRequestResponseCode) : bool :=
  bool_decide (code = SpdmRequestKeyExchange ∨ code = SpdmRequestPskExchange).

Lemma answer_plain code c :
  SpdmVersion_wf (negotiated_version c) → plain_error code = true →
  answer (error code) c = send_message (error_bytes c code 0) c.
Proof.
  intros Hv Hp. unfold answer, error. by erewrite bind_step by (by apply write_error_bytes).
Qed.

(** An exchange that is refused writes an error response and drops it. *)
Lemma exchange_refused w K bs c :
  SpdmVersion_wf (negotiated_version c) →
  (∀ wr, w (c, wr) = expect_negotiated bs refuse K (c, wr)) →
  state_below SpdmConnectionNegotiated c = true →
  answer w c = (Err SPDM_STATUS_INVALID_STATE_PEER, c).
Proof.
  intros Hv Hw Hb. rewrite (answer_ext w (refuse SpdmErrorUnexpectedRequest)).
  - pose proof (write_error_bytes SpdmErrorUnexpectedRequest 0 c Hv eq_refl ltac:(done)) as He.
    unfold answer, refuse, reject, error, bind, with_send_buffer in *.
    destruct (write_spdm_error _ _ _) as [[u|e|] [c' wr]]; simplify_eq. by rewrite decide_True.
  - intros wr. rewrite Hw. unfold expect_negotiated. erewrite bind_step by done. cbn [fst].
    by rewrite Hb.
Qed.

Lemma dispatch_by_code bs c code :
  request_code bs = Some code →
  dispatch_message mode bs c =
  match code with
  | SpdmRequestGetCapabilities => handle_spdm_capability bs
  | SpdmRequestNegotiateAlgorithms => handle_spdm_algorithm mode bs
  | SpdmRequestGetDigests => handle_spdm_digest mode bs None
  | SpdmRequestGetCertificate => handle_spdm_certificate mode bs None
  | SpdmRequestChallenge => handle_spdm_challenge bs
  | SpdmRequestGetMeasurements => handle_spdm_measurement mode None bs
  | SpdmRequestKeyExchange => handle_spdm_key_exchange bs
  | SpdmRequestPskExchange => handle_spdm_psk_exchange bs
  | _ => dispatch_message mode bs
  end c.
Proof.
  intros Hr. unfold request_code, run, read_header, with_reader in Hr.
  unfold dispatch_message, some_or, map_err, bind, read_header, with_reader.
  destruct (read SpdmMessageHeader_codec (Reader_init bs)) as [[header|e|] rd]; cbn in Hr; simplify_eq.
  by destruct (hd_request_response_code header).
Qed.

(** C10: A request that comes out of order is refused.  GET_CAPABILITIES other than after
    VERSION, NEGOTIATE_ALGORITHMS other than after CAPABILITIES, and GET_DIGESTS,
    GET_CERTIFICATE, CHALLENGE and GET_MEASUREMENTS before the algorithms are negotiated are
    answered by exactly the four bytes of UnexpectedRequest, whatever else the request holds;
    KEY_EXCHANGE and PSK_EXCHANGE make the call fail with the context unchanged and nothing
    sent.  In particular no session is set up before the negotiation is over. *)
Theorem out_of_order_refused bs c code :
  SpdmVersion_wf (negotiated_version c) →
  request_code bs = Some code → in_order code (conn_of c) = false →
  dispatch_message mode bs c =
    if is_exchange code then (Err SPDM_STATUS_INVALID_STATE_PEER, c)
    else send_message (error_bytes c SpdmErrorUnexpectedRequest 0) c.
Proof.
  intros Hv Hr Ho. rewrite (dispatch_by_code bs c code Hr).
  assert (∀ b, (SpdmConnectionState_get_u8 SpdmConnectionNegotiated <=?
    SpdmConnectionState_get_u8 (conn_of c)) = b → state_below SpdmConnectionNegotiated c = negb b)
    as Hb by (intros b <-; unfold state_below; apply Z.ltb_antisym).
  destruct code; try discriminate Ho; cbn [in_order] in Ho; try apply Hb in Ho; cbv beta iota.
  1-4: rewrite <- answer_plain by done; by eapply guard_negotiated.
  1, 2: rewrite <- answer_plain by done; apply bool_decide_eq_false in Ho.
  - by apply guard_capability.
  - by apply guard_algorithm.
  - by eapply exchange_refused.
  - by eapply exchange_refused.
Qed.

Context (count_bound : Z.of_nat MAX_SPDM_SESSION_COUNT ≤ 0xFFFC).
Context `{env : !Environment}.

(** C18: Sending terminates.  In every context a responder can get into, [send_message] and
    [send_secured_message], which call themselves with an error when the response is too large
    for the requester, do so at most once: more depth makes no difference, and what is sent
    then is the four bytes of ResponseTooLarge.  The requester cannot drive the responder
    into unbounded recursion by the transfer size it declares. *)
Theorem send_terminates h c fuel id bs :
  served mode (c :: h) →
  let sent := if exceeds_transfer_size c bs
              then error_bytes c SpdmErrorResponseTooLarge 0 else bs in
  send_message_rec (S fuel) bs c = send_message_rec 0 sent c ∧
  send_secured_message_rec mode (S fuel) id bs false c =
    send_secured_message_rec mode 0 id sent false c ∧
  exceeds_transfer_size c sent = false.
Proof.
  intros Hc%served_inv; [|done..]. destruct (exceeds_transfer_size c bs) eqn:He; cbv zeta.
  - split_and!; [by apply send_too_large|by apply send_secured_too_large|by apply error_fits].
  - split_and!; [by apply send_fits|by apply send_secured_fits|done].
Qed.

(** C16: No two sessions share an identifier.  In every context a responder can get into, an
    entry of the table is free and not started, or its identifier has the half that belongs to
    its index and a half chosen by the requester; hence entries with the same identifier are
    the same entry and a lookup by identifier finds the session it was given for. *)
Theorem session_ids_unique h c i j s t :
  served mode (c :: h) → session c !! i = Some s → session c !! j = Some t →
  session_id s ≠ INVALID_SESSION_ID → session_id t = session_id s →
  i = j ∧ half_session_id false (session_id s) = INITIAL_SESSION_ID - Z.of_nat i ∧
  get_immutable_session_via_id (session_id s) c = Some s.
Proof.
  intros Hc%served_inv Hi Hj Hs Ht; [|done..]. split_and!.
  - symmetry. by eapply inv_index.
  - by apply (inv_half count_bound c).
  - unfold get_immutable_session_via_id. by rewrite (inv_find count_bound c i s).
Qed.

Lemma session_ok_u32 i s :
  (i < MAX_SPDM_SESSION_COUNT)%nat → session_ok i s → is_u32 (session_id s).
Proof.
  intros Hi [_ [[-> _]|(q&Hq&->)]]; [done|]. unfold session_id_of, is_uint in *.
  rewrite Z.shiftl_mul_pow2 by lia. change (2 ^ 16) with 65536 in *. change (2 ^ 32) with 4294967296. lia.
Qed.

(** C17: The state of a responder is well typed.  In every context a responder can get into, the
    negotiated version is one that has a byte on the wire, the transfer size of the requester is
    zero or at least the 42 bytes of the protocol, the table has exactly the configured number of
    sessions, and each of them has an identifier of 32 bits and is free and not started or has an
    identifier with the half that belongs to its place; the session of the last key exchange, if
    there is one, has a valid identifier. *)
Theorem context_well_typed h c :
  served mode (c :: h) →
  SpdmVersion_wf (negotiated_version c) ∧
  (req_data_transfer_size_sel (negotiate_info c) = 0 ∨ 42 ≤ req_data_transfer_size_sel (negotiate_info c)) ∧
  length (session c) = MAX_SPDM_SESSION_COUNT ∧
  (∀ i s, session c !! i = Some s → is_u32 (session_id s) ∧ session_ok i s) ∧
  (∀ id, last_session_id (runtime_info c) = Some id → id ≠ INVALID_SESSION_ID).
Proof.
  intros [Hv Hl Hlast Hn Ht]%served_inv; [|done..]. split_and!; [done..| |done].
  intros i s Hi. split; [|by apply Ht]. apply (session_ok_u32 i); [|by apply Ht].
  rewrite <- Hn. by eapply lookup_lt_Some.
Qed.
End Safe.
