(* ===== verification/RspEst.v ===== *)
(** How sessions become established: by a FINISH or PSK_FINISH whose verify data is the code of
    the transcript under the finished key of the requester, or by PSK_EXCHANGE when no context
    was agreed.  No other request, whatever its content, does it. *)

From Stdlib Require Import RelationClasses.
From S2P Require Import Prelude Config Codec Status Algo Protocol Crypto KeySchedule Buffers Session Context SpdmCodec Opaque MsgNegotiate MsgAuth MsgSession Message Endpoint Responder Within RspWriter RspConnect RspSession RspDispatch RspFrame RspCode RspState RspInv.

(** ** Early returns that are errors *)

Definition never_ok {S E A} (m : M S E A) : Prop := ∀ s a s', m s ≠ (Ok a, s').

Lemma or_else_ok {S E E' A B} (m : M S E A) (bad : M S E' B) (k : A → M S E' B) s b s' :
  never_ok bad → or_else m bad k s = (Ok b, s') → ∃ a s1, m s = (Ok a, s1) ∧ k a s1 = (Ok b, s').
Proof.
  intros Hb H. unfold or_else, bind, attempt in H. destruct (m s) as [[a|e|] s1].
  - eauto.
  - by destruct (Hb _ _ _ H).
  - done.
Qed.

Section Est.
Context `{cfg : Config} `{cry : Crypto} `{sec : !Secret} `{dev : SpdmDeviceIo} `{tr : SpdmTransportEncap}.
Context `{cv : !ConfigValid} `{handlers : !SpdmHandlers} (mode : overflow_mode).

Lemma reject_never {A} code st : never_ok (reject (A:=A) code st).
Proof.
  intros s a s' H. unfold reject, bind in H. by destruct (error code s) as [[] ?].
Qed.
Lemma unspecified_never {A} : never_ok (unspecified (A:=A)).
Proof. apply reject_never. Qed.
Lemma invalid_never {A} : never_ok (invalid (A:=A)).
Proof. apply reject_never. Qed.

(** ** Following one session *)

(** The session with the identifier [id], and where it is. *)
Definition at_ (id : Z) (c : SpdmContext) (i : nat) (s : SpdmSession) : Prop :=
  list_find (λ s, session_id s = id) (session c) = Some (i, s).

Lemma with_session_at {E A} id c i s (other : M SpdmContext E A) body :
  at_ id c i s →
  with_session id other body c =
  ((body s).1, c <| session ::= <[i := (body s).2]> |>).
Proof. intros Hs. unfold with_session, at_ in *. rewrite Hs. by destruct (body s). Qed.
Lemma at_update id c i s s' :
  at_ id c i s → session_id s' = session_id s → at_ id (c <| session ::= <[i := s']> |>) i s'.
Proof.
  intros Hs Hid. unfold at_ in *. cbn. apply list_find_Some in Hs as (Hi&<-&Hb).
  apply list_find_Some. split_and!; [|done|].
  - apply list_lookup_insert_eq. by eapply lookup_lt_Some.
  - intros j x Hx Hlt. rewrite list_lookup_insert_ne in Hx by lia. by eapply Hb.
Qed.
Lemma at_immutable {E} id (st st' : Rsp) i s a :
  at_ id st.1 i s → immutable_session (E:=E) id st = (Ok a, st') → a = s ∧ st' = st.
Proof.
  intros Hs H. unfold immutable_session in H. erewrite bind_step in H by done.
  unfold get_immutable_session_via_id in H. rewrite Hs in H. by injection H as <- <-.
Qed.

(** The same identity, keys and transcript. *)
Definition same_transcript (s s' : SpdmSession) : Prop :=
  session_quiet s s' ∧ digest_context_th (s_runtime_info s') = digest_context_th (s_runtime_info s).

Lemma reset_m_at id c i s :
  at_ id c i s → ∃ s', at_ id (reset_message_m (Some id) c) i s' ∧ same_transcript s s'.
Proof.
  intros Hs. unfold reset_message_m. rewrite (with_session_at _ _ _ _ _ _ Hs). cbn [snd fst modify].
  eexists. split; [by apply (at_update _ _ _ _ _ Hs)|done].
Qed.
Lemma reset_finish_at code id c i s :
  code = SpdmRequestFinish ∨ code = SpdmRequestPskFinish → at_ id c i s →
  ∃ s', at_ id (reset_buffer_via_request_code code (Some id) c) i s' ∧ same_transcript s s'.
Proof.
  intros Hc Hs. destruct (reset_m_at id c i s Hs) as (s'&Hs'&Hq). exists s'. split; [|done].
  unfold reset_buffer_via_request_code.
  destruct Hc as [-> | ->]; rewrite decide_True by done;
    destruct (_ <? _); exact Hs'.
Qed.

Lemma hash_absorb_ok bs o h' :
  hash_absorb bs o = (Ok tt, h') →
  ∃ h h1, o = Some h ∧ hash_ctx_update h bs = Ok h1 ∧ h' = Some h1.
Proof. unfold hash_absorb. intros H. minv. subst. by eauto. Qed.

(** Without mutual authentication an append just extends the transcript. *)
Lemma append_f_at id c i s bs c' :
  at_ id c i s → mut_auth_requested s = 0 →
  append_message_f false id bs c = (Ok tt, c') →
  ∃ h h1 s', digest_context_th (s_runtime_info s) = Some h ∧ hash_ctx_update h bs = Ok h1 ∧
    at_ id c' i s' ∧ session_quiet s s' ∧ digest_context_th (s_runtime_info s') = Some h1.
Proof.
  intros Hs Hm H. unfold append_message_f in H. erewrite bind_step in H by done.
  unfold get_immutable_session_via_id in H. rewrite Hs in H. cbn [fmap option_fmap option_map snd unwrap] in H.
  erewrite bind_step in H by done.
  destruct (digest_context_th (s_runtime_info s)) as [h|] eqn:Hh; [|done].
  assert (∃ s1 c1, at_ id c1 i s1 ∧ session_quiet s s1 ∧ digest_context_th (s_runtime_info s1) = Some h ∧
    with_session id panic (on_th (hash_absorb bs)) c1 = (Ok tt, c')) as (s1&c1&Hs1&Hq&Hh1&H1).
  { destruct (message_f_initialized (s_runtime_info s)); cbn [negb] in H.
    - erewrite bind_step in H by done. by exists s, c.
    - apply bind_ok in H as ([]&c1&H1&H). unfold mut_cert_digest in H1.
      rewrite Hm in H1. cbn [negb Z.eqb] in H1. rewrite andb_false_r in H1.
      erewrite bind_step in H1 by done. erewrite bind_step in H1 by done.
      rewrite (with_session_at _ _ _ _ _ _ Hs) in H1. injection H1 as <-.
      eexists _, _. split_and!; [| | |exact H]; [by apply (at_update _ _ _ _ _ Hs)|done|exact Hh]. }
  rewrite (with_session_at _ _ _ _ _ _ Hs1) in H1. unfold on_th, zoom in H1.
  destruct (hash_absorb bs _) as [o h'] eqn:Ha. cbn [fst snd] in H1. injection H1 as -> <-.
  apply hash_absorb_ok in Ha as (h0&h1&Hh0&Hu&->). rewrite Hh1 in Hh0. injection Hh0 as <-.
  exists h, h1. eexists. split_and!; [done|done|by apply (at_update _ _ _ _ _ Hs1)|exact Hq|done].
Qed.

(** ** The proof of the requester *)

Lemma transcript_hash_ok {S} s (st st' : S) th :
  calc_rsp_transcript_hash s st = (Ok th, st') →
  st' = st ∧ ∃ h, digest_context_th (s_runtime_info s) = Some h ∧ hash_ctx_finalize h = Ok th.
Proof. unfold calc_rsp_transcript_hash, some_or. intros H. minv. subst. eauto. Qed.

Lemma check_finish_ok id psk vd st st' i s :
  at_ id st.1 i s → check_finish id psk vd st = (Ok tt, st') →
  ∃ h th, digest_context_th (s_runtime_info s) = Some h ∧ hash_ctx_finalize h = Ok th ∧
    hmac_verify (cp_base_hash_algo (crypto_param s))
      (sized_bytes (request_finished_key (handshake_secret s))) (sized_bytes th) vd = Ok tt.
Proof.
  intros Hs H. unfold check_finish in H.
  apply bind_ok in H as (a&s1&H1&H). apply (at_immutable _ _ _ _ _ _ Hs) in H1 as [-> ->].
  destruct (negb _); [by destruct (invalid_never _ _ _ H)|].
  apply or_else_ok in H as (th&s2&H2&H); [|apply unspecified_never].
  apply transcript_hash_ok in H2 as (->&h&Hh&Hth).
  apply bind_ok in H as (b&s3&H3&H). unfold sized_as_ref in H3. case_decide; [|done].
  injection H3 as <- <-.
  apply or_else_ok in H as ([]&s4&H4&_); [|apply reject_never].
  unfold verify_hmac_with_request_finished_key in H4.
  apply bind_ok in H4 as (key&s5&H5&H4). unfold sized_as_ref in H5. case_decide; [|done].
  injection H5 as <- <-. apply of_outcome_ok in H4 as [H4 _]. by eauto.
Qed.

Context `{hl : !HashLaws}.

(** The verify data [vd] is the code, under the finished key of the requester, of the
    transcript of the session followed by [prefix]. *)
Definition finished_proof (s : SpdmSession) (prefix : bytes) (vd : SpdmDigestStruct) : Prop :=
  ∃ h th, digest_context_th (s_runtime_info s) = Some h ∧
    hash_all (hctx_data h).1 ((hctx_data h).2 ++ prefix) = Ok th ∧
    hmac_verify (cp_base_hash_algo (crypto_param s))
      (sized_bytes (request_finished_key (handshake_secret s))) (sized_bytes th) vd = Ok tt.

Lemma proof_intro id psk vd prefix st st' c i s :
  at_ id c i s → mut_auth_requested s = 0 → append_message_f false id prefix c = (Ok tt, st.1) →
  check_finish id psk vd st = (Ok tt, st') → finished_proof s prefix vd.
Proof.
  intros Hs Hm Ha Hc. destruct (append_f_at _ _ _ _ _ _ Hs Hm Ha) as (h&h1&s1&Hh&Hu&Hs1&Hq&Hh1).
  destruct (check_finish_ok _ _ _ _ _ _ _ Hs1 Hc) as (h2&th&Hh2&Hf&Hv).
  rewrite Hh1 in Hh2. injection Hh2 as <-. exists h, th. split_and!; [done| |].
  - apply hash_ctx_update_data in Hu. by rewrite <- Hf, hash_ctx_finalize_data, Hu.
  - unfold session_quiet, session_key, session_base in Hq. injection Hq as _ _ _ _ Hcp Hk _.
    by rewrite <- Hcp, <- Hk.
Qed.

Lemma proof_same s s1 p vd : same_transcript s s1 → finished_proof s1 p vd → finished_proof s p vd.
Proof.
  intros [Hq Ht] (h&th&Hh&Hth&Hv). exists h, th. rewrite Ht in Hh. split_and!; [done|done|].
  unfold session_quiet, session_key, session_base in Hq. injection Hq as _ _ _ _ Hcp Hk _.
  by rewrite <- Hcp, <- Hk.
Qed.
Lemma quiet_mut_auth s s' : session_quiet s s' → mut_auth_requested s' = mut_auth_requested s.
Proof. unfold session_quiet, session_key, session_base. congruence. Qed.

(** What a FINISH or PSK_FINISH holds: the part before the verify data, and the verify data. *)
Definition finish_request (id : Z) (bs : bytes) (c : SpdmContext)
    : option (bytes * SpdmDigestStruct) :=
  let c := reset_buffer_via_request_code SpdmRequestFinish (Some id) c in
  match run (read_header bs) with
  | Ok (_, rd) =>
      match spdm_read (SpdmFinishRequestPayload_codec c) rd with
      | (Ok q, _) => Some (take 4 bs, fq_verify_data q)
      | _ => None
      end
  | _ => None
  end.
Definition psk_finish_request (id : Z) (bs : bytes) (c : SpdmContext)
    : option (bytes * SpdmDigestStruct) :=
  let c := reset_buffer_via_request_code SpdmRequestPskFinish (Some id) c in
  match run (read_header bs), get_hash_size (E:=SpdmStatus) c with
  | Ok (_, rd), Ok hash_size =>
      match spdm_read (SpdmPskFinishRequestPayload_codec c) rd with
      | (Ok q, rd) => Some (take (Reader_used rd - hash_size) bs, pf_verify_data q)
      | _ => None
      end
  | _, _ => None
  end.

Lemma append_f_fst id bs (st st' : Rsp) :
  append_f id bs st = (Ok tt, st') → append_message_f false id bs st.1 = (Ok tt, st'.1).
Proof.
  unfold append_f, zoom. destruct (append_message_f _ _ _ _) as [o c'].
  by intros [= -> <-].
Qed.

(** The check of the version that the handlers of sessions start with. *)
Lemma expect_version_ok bs k st st' :
  expect_version bs refuse k st = (Ok tt, st') →
  ∃ h rd, run (read_header bs) = Ok (h, rd) ∧ k rd st = (Ok tt, st').
Proof.
  intros H. unfold expect_version in H.
  apply or_else_ok in H as ([h rd]&s1&H1&H); [|apply reject_never].
  apply read_header_run in H1 as [-> H1]. erewrite bind_step in H by done.
  destruct (decide _); [by destruct (reject_never _ _ _ _ _ H)|]. eauto.
Qed.

Lemma finish_ok id bs c w st i s :
  at_ id c i s → mut_auth_requested s = 0 →
  write_spdm_finish_response id bs (c, w) = (Ok tt, st) →
  ∃ p vd, finish_request id bs c = Some (p, vd) ∧ finished_proof s p vd.
Proof.
  intros Hs Hm H. unfold write_spdm_finish_response in H.
  apply expect_version_ok in H as (h&rd&Hh&H). erewrite bind_step in H by done.
  destruct (reset_finish_at SpdmRequestFinish id c i s ltac:(by left) Hs) as (s1&Hs1&Hq).
  cbn [fst snd] in H. remember (reset_buffer_via_request_code SpdmRequestFinish (Some id) c) as c1 eqn:Hc1.
  assert (mut_auth_requested s1 = 0) as Hm1 by (rewrite <- Hm; apply quiet_mut_auth, Hq).
  apply or_else_ok in H as ([q rd']&s2&H2&H); [|apply invalid_never].
  apply read_payload_ok in H2 as [-> H2]. cbn [fst] in H2.
  apply bind_ok in H as (start&s3&H3&H). unfold sub_slice in H3. case_decide; [|done].
  injection H3 as <- <-. apply or_else_ok in H as ([]&s4&H4&H); [|apply unspecified_never].
  apply append_f_fst in H4. cbn [fst] in H4. rewrite drop_0 in H4. change (4 - 0)%nat with 4%nat in H4.
  destruct (append_f_at _ _ _ _ _ _ Hs1 Hm1 H4) as (_&_&s5&_&_&Hs5&Hq5&_).
  apply bind_ok in H as (a&s6&H6&H). apply (at_immutable _ _ _ _ _ _ Hs5) in H6 as [-> ->].
  assert (mut_auth_requested s5 = 0) as Hm5 by (rewrite <- Hm1; by apply quiet_mut_auth).
  rewrite Hm5 in H. cbn [negb Z.eqb andb orb] in H.
  destruct (contains _ _); [by destruct (invalid_never _ _ _ H)|].
  erewrite bind_step in H by done. erewrite bind_step in H by done.
  apply bind_ok in H as (n&s7&[_ ->]%of_outcome_ok&H).
  apply bind_ok in H as ([]&s8&H8&_).
  exists (take 4 bs), (fq_verify_data q). split.
  - unfold finish_request. rewrite Hh, <- Hc1. cbv zeta. by rewrite H2.
  - by eapply proof_same, (proof_intro _ _ _ _ _ _ _ _ _ Hs1 Hm1 H4 H8).
Qed.

Lemma psk_finish_ok id bs c w st i s :
  at_ id c i s → mut_auth_requested s = 0 →
  write_spdm_psk_finish_response id bs (c, w) = (Ok tt, st) →
  ∃ p vd, psk_finish_request id bs c = Some (p, vd) ∧ finished_proof s p vd.
Proof.
  intros Hs Hm H. unfold write_spdm_psk_finish_response in H.
  apply expect_version_ok in H as (h&rd&Hh&H). erewrite bind_step in H by done.
  destruct (reset_finish_at SpdmRequestPskFinish id c i s ltac:(by right) Hs) as (s1&Hs1&Hq).
  cbn [fst snd] in H. remember (reset_buffer_via_request_code SpdmRequestPskFinish (Some id) c) as c1 eqn:Hc1.
  assert (mut_auth_requested s1 = 0) as Hm1 by (rewrite <- Hm; apply quiet_mut_auth, Hq).
  apply or_else_ok in H as ([q rd']&s2&H2&H); [|apply invalid_never].
  apply read_payload_ok in H2 as [-> H2]. cbn [fst] in H2. erewrite bind_step in H by done.
  apply bind_ok in H as (n&s3&[Hn <-]%of_outcome_ok&H). cbn [fst] in Hn.
  apply bind_ok in H as (used&s4&H4&H). unfold sub_usize in H4. destruct (_ <=? _)%nat; [|done].
  injection H4 as <- <-.
  apply bind_ok in H as (a&s6&H6&H). apply (at_immutable id (c1, w) _ i s1 _ Hs1) in H6 as [-> ->].
  destruct (negb _); [by destruct (invalid_never _ _ _ H)|].
  apply bind_ok in H as (start&s5&H5&H). unfold sub_slice in H5. case_decide; [|done].
  injection H5 as <- <-. apply or_else_ok in H as ([]&s7&H7&H); [|apply unspecified_never].
  apply append_f_fst in H7. cbn [fst] in H7. rewrite drop_0, Nat.sub_0_r in H7.
  apply bind_ok in H as ([]&s8&H8&_).
  eexists _, (pf_verify_data q). split.
  - unfold psk_finish_request. rewrite Hh, <- Hc1. cbv zeta. by rewrite Hn, H2.
  - by eapply proof_same, (proof_intro _ _ _ _ _ _ _ _ _ Hs1 Hm1 H7 H8).
Qed.

(** ** What does not establish sessions *)

(** No session becomes established. *)
Definition no_est : relation SpdmSession := λ s s',
  session_state s' = SpdmSessionEstablished → session_state s = SpdmSessionEstablished.
(** None but [id] does, and the identifiers stay. *)
Definition est_only (id : Z) : relation SpdmSession := λ s s',
  session_id s' = session_id s ∧
  (session_state s' = SpdmSessionEstablished →
   session_state s = SpdmSessionEstablished ∨ session_id s = id).

#[export] Instance no_est_transcripts : Transcripts no_est.
Proof.
  split.
  - split; unfold no_est; [intros s|intros s s' s'']; auto.
  - intros s s' Hq. unfold session_quiet, session_key, session_base in Hq. unfold no_est. congruence.
Qed.
#[export] Instance est_only_transcripts id : Transcripts (est_only id).
Proof.
  split.
  - split; unfold est_only; [intros s; auto|].
    intros s s' s'' [Hi He] [Hi' He']. split; [congruence|]. intros Hst.
    destruct (He' Hst) as [Hst'|Hid]; [by apply He|right; congruence].
  - intros s s' Hq. unfold session_quiet, session_key, session_base in Hq. split; [congruence|].
    intros. left. congruence.
Qed.

(** The sessions of two contexts. *)
Definition sessions (R : relation SpdmSession) : relation SpdmContext := λ c c',
  Forall2 R (session c) (session c').

#[export] Instance sessions_preorder R `{!PreOrder R} : PreOrder (sessions R).
Proof.
  split; unfold sessions.
  - intros c. apply Forall_Forall2_diag, Forall_true. reflexivity.
  - intros c c' c'' ??. by etrans.
Qed.

Section Sessions.
Context (R : relation SpdmSession) `{!Transcripts R}.

Lemma steady_sessions c c' : steady R c c' → sessions R c c'.
Proof. by intros [_ Hs]. Qed.
Lemma quiet_sessions c c' : quiet c c' → sessions R c c'.
Proof. intros Hq. eapply steady_sessions, steady_mono; [apply transcripts_quiet|exact Hq]. Qed.
Lemma same_sessions c c' : session c' = session c → sessions R c c'.
Proof. intros Hs. unfold sessions. rewrite Hs. apply Forall_Forall2_diag, Forall_true. reflexivity. Qed.
Lemma within_sessions {E A} (m : M SpdmContext E A) :
  within (steady R) m → within (sessions R) m.
Proof. intros Hm. eapply within_mono; [exact Hm|apply steady_sessions]. Qed.
Lemma within_sessions_rsp {E A} (m : M Rsp E A) :
  within (on_first (steady R)) m → within (on_first (sessions R)) m.
Proof. intros Hm. eapply within_mono; [exact Hm|]. intros s s'. apply steady_sessions. Qed.
Lemma sessions_with {E A} id (other : M SpdmContext E A) (body : M SpdmSession E A) :
  within (sessions R) other → within R body → within (sessions R) (with_session id other body).
Proof.
  intros Ho Hb c r c' H. unfold with_session in H.
  destruct (list_find _ _) as [[i s]|] eqn:Hf; [|by eapply Ho].
  apply list_find_Some in Hf as (Hi&_). destruct (body s) as [o s'] eqn:Hs. injection H as <- <-.
  eapply steady_sessions, steady_update; [apply _|done|]. by eapply Hb.
Qed.
End Sessions.

Lemma teardown_no_est id : within no_est (SpdmSession_teardown id).
Proof. unfold SpdmSession_teardown. within_steps. apply within_modify; by intros ??. Qed.
Lemma setup_no_est id : within no_est (SpdmSession_setup id).
Proof. unfold SpdmSession_setup. within_steps; (apply within_modify; by intros ??). Qed.
Lemma within_no_est {E A} (m : M SpdmSession E A) : within session_like m → within no_est m.
Proof.
  intros Hm. eapply within_mono; [exact Hm|]. intros s s' Hq.
  unfold session_like, session_base in Hq. unfold no_est. congruence.
Qed.
Lemma set_dhe_no_est v k : within no_est (SpdmSession_set_dhe_secret v k).
Proof.
  eapply within_mono; [apply set_dhe_secret_quiet|apply transcripts_quiet].
Qed.
#[local] Hint Resolve teardown_no_est setup_no_est set_dhe_no_est : within.
Lemma setup_dhe_no_est c id slot key h : within no_est (setup_dhe_session c id slot key h).
Proof. unfold setup_dhe_session. within_steps; (apply within_modify; by intros ??). Qed.
Lemma setup_psk_no_est c id hint : within no_est (setup_psk_session c id hint).
Proof. unfold setup_psk_session. within_steps; (apply within_modify; by intros ??). Qed.
#[local] Hint Resolve setup_dhe_no_est setup_psk_no_est : within.

(** ** The exchanges *)

#[local] Instance quiet_rsp {T} : PreOrder (on_first (T:=T) (steady no_est)).
Proof. apply _. Qed.
#[local] Instance sessions_rsp {T} : PreOrder (on_first (T:=T) (sessions no_est)).
Proof. apply _. Qed.
#[local] Instance steady_no_est : PreOrder (steady no_est).
Proof. apply _. Qed.

Lemma abandon_no_est id : within (on_first (steady no_est)) (abandon id).
Proof. apply frame_on_session; [apply _|]. within_steps. Qed.
Lemma handshake_no_est v th id :
  within (on_first (steady no_est)) (on_session id (SpdmSession_generate_handshake_secret v th)).
Proof. apply frame_on_session; [apply _|]. apply within_no_est, generate_handshake_secret_like. Qed.
Lemma state_no_est {E} id f :
  (∀ s, no_est s (f s)) → within (on_first (steady no_est)) (on_session (E:=E) id (modify f)).
Proof. intros Hf. apply frame_on_session; [apply _|]. by apply within_modify. Qed.
Lemma next_no_est {A} (body : SpdmM SpdmSession A) :
  within no_est body →
  within (steady no_est) (with_next_avaiable_session (throw tt) (map_err (λ _, tt) body)).
Proof.
  intros Hb. apply within_steady_session; [apply _|within_steps|by apply within_map_err].
Qed.
Lemma set_version_no_est c o s : no_est s (set_session_version c o s).
Proof. unfold set_session_version, no_est. by destruct (_ =? _)%nat. Qed.

#[local] Hint Resolve frame_read_payload frame_write_response frame_error
  frame_reset_buffers frame_append_a frame_append_written_a frame_local_chain frame_consumed
  frame_random_array frame_invalid frame_unspecified frame_refuse frame_reject
  frame_append_to_k frame_immutable frame_transcript frame_generate_hmac steady_world
  within_match_versions within_get_versions steady_append_a frame_sign frame_key_signature
  abandon_no_est handshake_no_est next_no_est : within.
#[local] Hint Extern 5 (within (on_first (sessions no_est)) _) =>
  (apply within_sessions_rsp; solve [auto with within nocore typeclass_instances]) : within.
#[local] Hint Extern 5 (within (sessions no_est) _) =>
  (apply within_sessions; solve [auto with within nocore typeclass_instances]) : within.
Ltac est_steps :=
  repeat first
    [ within_step
    | lazymatch goal with
      | |- within (on_first _) (zoom fst _ _) => apply within_on_fst
      | |- within (sessions _) (modify _) => 
          apply within_modify; intros ?; (apply same_sessions; [apply _|done])
      | |- within (steady _) (modify _) =>
          apply within_modify; intros ?; (apply steady_same; [apply _|done|done])
      end ].

Lemma finish_key_exchange_no_est id request clear n m :
  within (on_first (steady no_est)) (finish_key_exchange id request clear n m).
Proof. unfold finish_key_exchange. est_steps. Qed.
Lemma finish_psk_exchange_no_est id request n :
  within (on_first (steady no_est)) (finish_psk_exchange id request n).
Proof. unfold finish_psk_exchange. est_steps. apply state_no_est. by intros ??. Qed.
#[local] Hint Resolve finish_key_exchange_no_est finish_psk_exchange_no_est : within.

Lemma key_exchange_no_est bs :
  within (on_first (sessions no_est)) (write_spdm_key_exchange_response bs).
Proof.
  unfold write_spdm_key_exchange_response, expect_negotiated, summary_hash, select_secured_version.
  est_steps.
  all: apply within_sessions_rsp, state_no_est; by intros ??.
Qed.

(** PSK_EXCHANGE establishes a session only when no context was agreed. *)
Definition with_context : relation SpdmContext := λ c c',
  psk_without_context c = false → psk_without_context c' = false ∧ sessions no_est c c'.

#[local] Instance with_context_preorder : PreOrder with_context.
Proof.
  split; unfold with_context.
  - intros c Hc. split; [done|reflexivity].
  - intros c c' c'' H1 H2 Hc. destruct (H1 Hc) as [Hc' Hs]. destruct (H2 Hc') as [? ?].
    split; [done|]. by etrans.
Qed.
Lemma steady_context c c' : steady no_est c c' → with_context c c'.
Proof.
  intros [Hk Hs] Hc. split; [|done]. unfold context_key, neg_key in Hk.
  unfold psk_without_context, rsp_has in *. injection Hk as _ _ _ Hr _ _ _ _ _. by rewrite Hr.
Qed.
Lemma within_context {E A} (m : M Rsp E A) :
  within (on_first (steady no_est)) m → within (on_first with_context) m.
Proof. intros Hm. eapply within_mono; [exact Hm|]. intros s s'. apply steady_context. Qed.
#[local] Hint Extern 5 (within (on_first with_context) _) =>
  (apply within_context; solve [auto with within nocore typeclass_instances]) : within.

Lemma with_context_gets {A} (k : SpdmContext → SpdmM Rsp A) :
  (∀ c, psk_without_context c = false → within (on_first with_context) (k c)) →
  within (on_first with_context) (let* c := gets fst in k c).
Proof.
  intros Hk s r s' H Hc. erewrite bind_step in H by done. by eapply (Hk s.1 Hc).
Qed.

Lemma quiet_context c c' : quiet c c' → with_context c c'.
Proof. intros Hq. by eapply steady_context, steady_mono; [apply transcripts_quiet|]. Qed.
Lemma psk_context_no_est c : within (on_first (steady no_est)) (psk_response_context c).
Proof. unfold psk_response_context. est_steps. Qed.
#[local] Hint Resolve psk_context_no_est : within.
#[local] Hint Extern 5 (within with_context _) =>
  (eapply within_mono; [|apply steady_context]; solve [auto with within nocore typeclass_instances])
  : within.

Lemma psk_exchange_context bs :
  within (on_first with_context) (write_spdm_psk_exchange_response bs).
Proof.
  unfold write_spdm_psk_exchange_response.
  apply above_expect_negotiated; [apply _|est_steps|intros h rd _].
  apply with_context_gets. intros c1 _. destruct (version_below _ _); [est_steps|].
  apply within_bind; [apply _|est_steps|intros _ _ _ _].
  apply within_or_else; [apply _|est_steps..|intros [q rd'] _ _ _].
  apply above_summary_hash; [apply _|apply quiet_context|est_steps|intros sh].
  apply above_select_version; [apply _|apply quiet_context|intros o].
  apply with_context_gets. intros c Hc. rewrite Hc. est_steps.
  apply within_context, state_no_est. apply set_version_no_est.
Qed.

(** ** Sending *)

Lemma establish_only id : within (sessions (est_only id)) (establish id).
Proof.
  apply within_sessions, steady_session; [apply _|within_steps|].
  intros s Hs r s' [= <- <-]. split; [done|]. by right.
Qed.

Lemma after_send_no_est k :
  SpdmRequestResponseCode_from_u8 k ≠ SpdmResponseFinishRsp →
  within (sessions no_est) (after_send k).
Proof.
  intros Hk. unfold after_send. destruct (SpdmRequestResponseCode_from_u8 k); try done;
    try apply within_ret, _; apply within_modify; intros c; unfold raise_state;
    try case_match; (apply same_sessions; [apply _|done]).
Qed.
Lemma after_secured_no_est id k :
  k ≠ SpdmRequestResponseCode_get_u8 SpdmResponseFinishRsp →
  k ≠ SpdmRequestResponseCode_get_u8 SpdmResponsePskFinishRsp →
  within (sessions no_est) (after_secured_send id k).
Proof.
  intros H1 H2. unfold after_secured_send.
  rewrite (proj2 (Z.eqb_neq _ _) H1), (proj2 (Z.eqb_neq _ _) H2). cbn [orb]. within_steps.
  apply sessions_with; [apply _|within_steps..].
Qed.
Lemma after_secured_only id k :
  k ≠ SpdmRequestResponseCode_get_u8 SpdmResponseEndSessionAck →
  within (sessions (est_only id)) (after_secured_send id k).
Proof.
  intros H. unfold after_secured_send. rewrite (proj2 (Z.eqb_neq _ _) H). within_steps.
  apply establish_only.
Qed.

(** The answer to a request that does not finish a handshake. *)
Lemma answer_no_est k w :
  SpdmRequestResponseCode_from_u8 k ≠ SpdmResponseFinishRsp →
  within (codes k) w → within (on_first (sessions no_est)) w →
  within (sessions no_est) (let* rsp := with_send_buffer w in send_message rsp).
Proof.
  intros Hk Hc Hw. apply within_bind; [apply _|by apply within_send_buffer|].
  intros rsp s s' Hs. apply (send_message_within _ k).
  - apply quiet_sessions, _.
  - by apply after_send_no_est.
  - by apply after_send_no_est.
  - by eapply send_buffer_code.
Qed.
Lemma answer_secured_no_est k id w :
  k ≠ SpdmRequestResponseCode_get_u8 SpdmResponseFinishRsp →
  k ≠ SpdmRequestResponseCode_get_u8 SpdmResponsePskFinishRsp →
  within (codes k) w → within (on_first (steady no_est)) w →
  within (sessions no_est)
    (let* rsp := with_send_buffer w in send_secured_message mode id rsp false).
Proof.
  intros H1 H2 Hc Hw. apply within_bind; [apply _|by apply within_send_buffer, within_sessions_rsp|].
  intros rsp s s' Hs. apply (send_secured_within mode _ k).
  - apply quiet_sessions, _.
  - by apply after_secured_no_est.
  - by apply after_secured_no_est.
  - by eapply send_buffer_code.
Qed.

(** The response to FINISH establishes the session it is for. *)
Definition last_is (id : Z) : relation SpdmContext := λ c c',
  (∀ x, last_session_id (runtime_info c) = Some x → x = id) →
  (∀ x, last_session_id (runtime_info c') = Some x → x = id) ∧ sessions (est_only id) c c'.

#[local] Instance last_is_preorder id : PreOrder (last_is id).
Proof.
  split; unfold last_is.
  - intros c Hc. split; [done|reflexivity].
  - intros c c' c'' H1 H2 Hc. destruct (H1 Hc) as [Hc' Hs]. destruct (H2 Hc') as [? ?].
    split; [done|]. by etrans.
Qed.
Lemma quiet_last id c c' : quiet c c' → last_is id c c'.
Proof.
  intros Hq Hc. split; [|by apply quiet_sessions; [apply _|]].
  destruct Hq as [Hk _]. unfold context_key in Hk. injection Hk as _ _ _ _ _ _ -> _ _. done.
Qed.
Lemma after_send_last id k : within (last_is id) (after_send k).
Proof.
  unfold after_send. destruct (SpdmRequestResponseCode_from_u8 k); try apply within_ret, _;
    try (apply within_modify; intros c Hc; unfold raise_state; try case_match;
         (split; [done|apply same_sessions; [apply _|done]])).
  intros c r c' H Hc. erewrite bind_step in H by done.
  destruct (last_session_id (runtime_info c)) as [x|] eqn:Hx; [|by injection H as <- <-; rewrite Hx].
  assert (x = id) as -> by (by apply Hc). erewrite bind_step in H by done.
  assert (within (sessions (est_only id)) (establish id;; modify (λ c, c <| runtime_info ::=
    λ r, r <| last_session_id := None |> |>))) as Hw.
  { apply within_bind; [apply _|apply establish_only|intros _ _ _ _]. apply within_modify.
    intros c1. by apply same_sessions; [apply _|]. }
  split; [|by eapply Hw]. unfold bind in H.
  destruct (establish id c) as [[] c1] eqn:He; injection H as <- <-; cbn; try done.
  all: unfold establish, with_session in He; destruct (list_find _ _) as [[]|];
    try discriminate He; injection He as <-; cbn; congruence.
Qed.

Lemma send_message_last id bs : within (last_is id) (send_message bs).
Proof.
  assert (∀ k, has_code k bs → within (last_is id) (send_message bs)) as Hs.
  { intros k Hk. by apply (send_message_within _ k); [apply quiet_last|apply after_send_last..|]. }
  destruct (bs !! 1%nat) as [k|] eqn:Hk; [apply (Hs k)|apply (Hs 0)]; unfold has_code; auto.
Qed.
Lemma send_secured_only k id bs :
  k ≠ SpdmRequestResponseCode_get_u8 SpdmResponseEndSessionAck → has_code k bs →
  within (sessions (est_only id)) (send_secured_message mode id bs false).
Proof.
  intros Hk Hc. apply (send_secured_within mode _ k); [|by apply after_secured_only..|done].
  apply quiet_sessions, _.
Qed.

(** ** The requests that finish a handshake *)

Lemma quiet_no_est c c' : quiet c c' → sessions no_est c c'.
Proof. apply quiet_sessions, _. Qed.

(** Filling the response, then sending it. *)
Lemma answered (w : SpdmM Rsp unit) (send : bytes → SpdmM SpdmContext unit) (P : Prop) Q c r c' :
  within (on_first (steady session_quiet)) w →
  (∀ wr st, w (c, wr) = (Ok tt, st) → P) →
  (∀ bs c1, with_send_buffer w c = (Ok bs, c1) → within_at Q (send bs) c1) →
  (let* rsp := with_send_buffer w in send rsp) c = (r, c') →
  sessions no_est c c' ∨ P ∧ ∃ c1, quiet c c1 ∧ Q c1 c'.
Proof.
  intros Hw HP HQ H. unfold bind in H.
  destruct (with_send_buffer w c) as [[bs|e|] c1] eqn:Hb;
    pose proof (within_send_buffer _ _ Hw _ _ _ Hb) as Hq;
    try (injection H as <- <-; left; by apply quiet_no_est).
  right. split; [|exists c1; split; [done|]; by eapply HQ].
  unfold with_send_buffer in Hb. destruct (w _) as [[[]|e|] st] eqn:Hws; [by eapply HP|..];
    by destruct st.
Qed.

Definition proved (req : option (bytes * SpdmDigestStruct)) (s : SpdmSession) : Prop :=
  ∃ p vd, req = Some (p, vd) ∧ finished_proof s p vd.

Lemma handle_finish_est id bs c r c' i s :
  at_ id c i s → mut_auth_requested s = 0 →
  (in_clear_text c = true → last_session_id (runtime_info c) = Some id) →
  handle_spdm_finish mode id bs c = (r, c') →
  sessions no_est c c' ∨ proved (finish_request id bs c) s ∧ sessions (est_only id) c c'.
Proof.
  intros Hs Hm Hlast H. unfold handle_spdm_finish in H. erewrite bind_step in H by done.
  destruct (in_clear_text c).
  - eapply (answered _ _ (proved (finish_request id bs c) s) (last_is id)) in H as [H|[Hp (c1&Hq&H)]];
      [by left| |apply frame_finish, _|by intros; eapply finish_ok|
       intros; apply within_at_of, send_message_last].
    right. split; [done|]. etrans; [by apply quiet_sessions, Hq; apply _|].
    apply H. destruct Hq as [Hk _]. unfold context_key in Hk. injection Hk as _ _ _ _ _ _ -> _ _.
    rewrite (Hlast eq_refl). congruence.
  - eapply (answered _ _ (proved (finish_request id bs c) s) (sessions (est_only id)))
      in H as [H|[Hp (c1&Hq&H)]];
      [by left| |apply frame_finish, _|by intros; eapply finish_ok|].
    + right. split; [done|]. etrans; [by apply quiet_sessions, Hq; apply _|done].
    + intros rsp c1 Hb. apply within_at_of, (send_secured_only
        (SpdmRequestResponseCode_get_u8 SpdmResponseFinishRsp)); [done|].
      eapply send_buffer_code; [|exact Hb]. apply finish_coded.
Qed.
Lemma handle_psk_finish_est id bs c r c' i s :
  at_ id c i s → mut_auth_requested s = 0 →
  handle_spdm_psk_finish mode id bs c = (r, c') →
  sessions no_est c c' ∨ proved (psk_finish_request id bs c) s ∧ sessions (est_only id) c c'.
Proof.
  intros Hs Hm H. unfold handle_spdm_psk_finish in H.
  eapply (answered _ _ (proved (psk_finish_request id bs c) s) (sessions (est_only id)))
    in H as [H|[Hp (c1&Hq&H)]];
    [by left| |apply frame_psk_finish, _|by intros; eapply psk_finish_ok|].
  - right. split; [done|]. etrans; [by apply quiet_sessions, Hq; apply _|done].
  - intros rsp c1 Hb. apply within_at_of, (send_secured_only
      (SpdmRequestResponseCode_get_u8 SpdmResponsePskFinishRsp)); [done|].
    eapply send_buffer_code; [|exact Hb]. apply psk_finish_coded.
Qed.

(** ** The requests that do not *)

Lemma send_error_no_est : within (steady no_est) (send_spdm_error SpdmErrorUnspecified 0).
Proof. apply within_quiet_steady, send_spdm_error_quiet; apply _. Qed.
#[local] Hint Resolve frame_error_response frame_vendor frame_digest frame_certificate
  frame_heartbeat frame_key_update frame_end_session frame_measurement frame_challenge
  frame_algorithm send_error_no_est
  error_coded vendor_coded digest_coded certificate_coded heartbeat_coded key_update_coded
  end_session_coded measurement_coded challenge_coded algorithm_coded version_coded
  capability_coded key_exchange_coded psk_exchange_coded : within.

Lemma error_no_est id code bs :
  within (sessions no_est) (handle_error_request mode code (Some id) bs).
Proof.
  apply (answer_secured_no_est 0x7F); [done|done|..]; auto with within nocore typeclass_instances.
Qed.
Ltac answered_as code :=
  apply (answer_secured_no_est (SpdmRequestResponseCode_get_u8 code)); [done|done|..];
  auto with within nocore typeclass_instances.

Lemma established_no_est id code bs :
  within (sessions no_est) (dispatch_established mode id code bs).
Proof.
  destruct code; cbn [dispatch_established]; try apply within_throw, _; try apply error_no_est.
  - answered_as SpdmResponseDigests.
  - answered_as SpdmResponseCertificate.
  - answered_as SpdmResponseMeasurements.
  - answered_as SpdmResponseVendorDefinedResponse.
  - answered_as SpdmResponseHeartbeatAck.
  - answered_as SpdmResponseKeyUpdateAck.
  - answered_as SpdmResponseEndSessionAck.
Qed.
Lemma handshake_other id code bs :
  code ≠ SpdmRequestFinish → code ≠ SpdmRequestPskFinish →
  within (sessions no_est) (dispatch_handshake mode id code bs).
Proof.
  intros H1 H2. destruct code; cbn [dispatch_handshake]; try done; try apply within_throw, _;
    try apply error_no_est.
  answered_as SpdmResponseVendorDefinedResponse.
Qed.

Lemma capability_sessions bs :
  within (on_first (sessions no_est)) (write_spdm_capability_response bs).
Proof.
  unfold write_spdm_capability_response. est_steps.
  apply within_modify. intros c. apply same_sessions; [apply _|].
  unfold record_capabilities. by case_match.
Qed.
Lemma version_sessions bs : within (on_first (sessions no_est)) (write_spdm_version_response bs).
Proof.
  unfold write_spdm_version_response. est_steps. apply within_modify. intros c. unfold sessions.
  cbn. apply Forall2_fmap_r, Forall_Forall2_diag, Forall_true. by intros ??.
Qed.

Lemma clear_error_no_est code bs :
  within (sessions no_est) (handle_error_request mode code None bs).
Proof.
  apply (answer_no_est 0x7F); [done|..]; [auto with within nocore typeclass_instances|].
  apply within_sessions_rsp. auto with within nocore typeclass_instances.
Qed.

(** The requests outside sessions, apart from FINISH and PSK_EXCHANGE. *)
Lemma dispatch_other bs c r c' code :
  request_code bs = Some code → code ≠ SpdmRequestFinish → code ≠ SpdmRequestPskExchange →
  dispatch_message mode bs c = (r, c') → sessions no_est c c'.
Proof.
  intros Hr H1 H2. unfold request_code, run, read_header, with_reader in Hr.
  unfold dispatch_message, some_or, map_err, bind, read_header, with_reader.
  destruct (read SpdmMessageHeader_codec (Reader_init bs)) as [[header|e|] rd]; cbn in Hr; simplify_eq.
  revert H1 H2. generalize (hd_request_response_code header) as code. clear header.
  intros code H1 H2. destruct code; try done; try (intros [= <- <-]; reflexivity);
    try apply clear_error_no_est;
    [apply (answer_no_est (SpdmRequestResponseCode_get_u8 SpdmResponseDigests))
    |apply (answer_no_est (SpdmRequestResponseCode_get_u8 SpdmResponseCertificate))
    |apply (answer_no_est (SpdmRequestResponseCode_get_u8 SpdmResponseChallengeAuth))
    |apply (answer_no_est (SpdmRequestResponseCode_get_u8 SpdmResponseVersion))
    |apply (answer_no_est (SpdmRequestResponseCode_get_u8 SpdmResponseMeasurements))
    |apply (answer_no_est (SpdmRequestResponseCode_get_u8 SpdmResponseCapabilities))
    |apply (answer_no_est (SpdmRequestResponseCode_get_u8 SpdmResponseAlgorithms))
    |apply (answer_no_est (SpdmRequestResponseCode_get_u8 SpdmResponseVendorDefinedResponse))
    |apply (answer_no_est (SpdmRequestResponseCode_get_u8 SpdmResponseKeyExchangeRsp))]; try done.
  all: try solve [auto using version_sessions, capability_sessions, key_exchange_no_est with
    within nocore typeclass_instances].
Qed.

(** ** Theorems *)

Context (count_bound : Z.of_nat MAX_SPDM_SESSION_COUNT ≤ 0xFFFC).

Lemma sessions_lookup R c c' i s s' :
  sessions R c c' → session c !! i = Some s → session c' !! i = Some s' → R s s'.
Proof. intros H Hs Hs'. by eapply Forall2_lookup_lr. Qed.

(** The session that becomes established is the one the proof is about. *)
Lemma the_session req id c c' i s s' j t :
  inv c → at_ id c j t → id ≠ INVALID_SESSION_ID →
  session c !! i = Some s → session c' !! i = Some s' →
  session_state s ≠ SpdmSessionEstablished → session_state s' = SpdmSessionEstablished →
  sessions no_est c c' ∨ proved req t ∧ sessions (est_only id) c c' →
  session_id s = id ∧ t = s ∧ proved req s.
Proof.
  intros Hc Ht Hne Hi Hi' Hs Hs' [Hn|[Hp He]].
  { by destruct Hs; apply (sessions_lookup _ _ _ _ _ _ Hn Hi Hi'). }
  destruct (sessions_lookup _ _ _ _ _ _ He Hi Hi') as [_ [?|Hid]]; [done|done|].
  assert (t = s) as ->; [|done].
  pose proof (inv_find count_bound c i s Hc Hi) as Hf. rewrite Hid in Hf. specialize (Hf Hne).
  unfold at_ in Ht. congruence.
Qed.

Lemma read_header_code {S} bs h rd (c c' : S) :
  some_or SPDM_STATUS_UNSUPPORTED_CAP (read_header bs) c = (Ok (h, rd), c') →
  c' = c ∧ request_code bs = Some (hd_request_response_code h).
Proof.
  unfold some_or. intros H%map_err_ok. apply read_header_run in H as [-> H].
  split; [done|]. unfold request_code. by rewrite H.
Qed.

Lemma bind_inert {S E A B} (m : M S E A) (k : A → M S E B) s r s' :
  within unchanged m → bind m k s = (r, s') → s' = s ∨ ∃ a, m s = (Ok a, s) ∧ k a s = (r, s').
Proof.
  intros Hm H. unfold bind in H. destruct (m s) as [[a|e|] s1] eqn:Hms;
    pose proof (Hm _ _ _ Hms) as Hu; unfold unchanged in Hu; subst s1.
  - eauto.
  - injection H as <- <-. by left.
  - injection H as <- <-. by left.
Qed.

(** C1: Only a requester that holds the finished key gets a session established.  Whatever
    message arrives inside a session [id], if a session of the table becomes established by
    it, then it is the session [id] itself, it was in its handshake, and the message is a
    FINISH or PSK_FINISH whose verify data is, under the finished key of the requester, the
    code of the hash of the transcript of that session followed by the message up to the
    verify data. *)
Theorem established_in_session id bs c r c' i s s' :
  inv c → dispatch_secured_message mode id bs c = (r, c') →
  session c !! i = Some s → session c' !! i = Some s' →
  session_state s ≠ SpdmSessionEstablished → session_state s' = SpdmSessionEstablished →
  session_id s = id ∧ session_state s = SpdmSessionHandshaking ∧
  (request_code bs = Some SpdmRequestFinish ∧ proved (finish_request id bs c) s ∨
   request_code bs = Some SpdmRequestPskFinish ∧ proved (psk_finish_request id bs c) s).
Proof.
  intros Hc H Hi Hi' Hs Hs'.
  assert (¬ sessions no_est c c') as Hno
    by (intros Hn; by apply Hs, (sessions_lookup _ _ _ _ _ _ Hn Hi Hi')).
  assert (c' ≠ c) as Hcc by (intros ->; apply Hno; reflexivity).
  unfold dispatch_secured_message in H. erewrite bind_step in H by done.
  apply bind_inert in H as [H|(t&Ht&H)]; [done| |within_steps]. apply ok_or_ok in Ht as [Ht _].
  assert (∃ j, at_ id c j t) as (j&Hj).
  { apply fmap_Some in Ht as ([j t']&Hf&->). by exists j. }
  destruct (session_state t) eqn:Hst; try by injection H as <- <-.
  - destruct (in_clear_text c) eqn:Hclear; [by injection H as <- <-|].
    assert (id ≠ INVALID_SESSION_ID) as Hne by (eapply active_id; [done..|by rewrite Hst]).
    assert (mut_auth_requested t = 0) as Hm.
    { apply list_find_Some in Hj as [Hj _]. by apply (inv_table _ Hc j). }
    apply bind_inert in H as [H|([h rd]&Hh&H)]; [done| |within_steps].
    apply read_header_code in Hh as [_ Hh].
    destruct (decide (hd_request_response_code h = SpdmRequestFinish)) as [He|Hf].
    { rewrite He in *. apply (handle_finish_est id bs c r c' j t) in H; [|done|done|by rewrite Hclear].
      destruct (the_session _ _ _ _ _ _ _ _ _ Hc Hj Hne Hi Hi' Hs Hs' H) as (?&->&?). auto. }
    destruct (decide (hd_request_response_code h = SpdmRequestPskFinish)) as [He|Hpf].
    { rewrite He in *. apply (handle_psk_finish_est id bs c r c' j t) in H; [|done|done].
      destruct (the_session _ _ _ _ _ _ _ _ _ Hc Hj Hne Hi Hi' Hs Hs' H) as (?&->&?). auto. }
    by apply handshake_other in H.
  - apply bind_inert in H as [H|([h rd]&Hh&H)]; [done| |within_steps].
    by apply established_no_est in H.
Qed.

Lemma dispatch_finish_est bs c r c' :
  inv c → dispatch_finish mode bs c = (r, c') →
  sessions no_est c c' ∨
  ∃ id j t, in_clear_text c = true ∧ last_session_id (runtime_info c) = Some id ∧ at_ id c j t ∧
    session_state t = SpdmSessionHandshaking ∧
    (sessions no_est c c' ∨ proved (finish_request id bs c) t ∧ sessions (est_only id) c c').
Proof.
  intros Hc H. unfold dispatch_finish in H. erewrite bind_step in H by done. cbv zeta in H.
  destruct (in_clear_text c) eqn:Hclear; [|left; by apply clear_error_no_est in H].
  destruct (last_session_id (runtime_info c)) as [id|] eqn:Hid;
    [|left; by apply clear_error_no_est in H]. cbn [mbind option_bind] in H.
  destruct (get_immutable_session_via_id id c) as [t|] eqn:Ht;
    [|left; by apply clear_error_no_est in H]. cbn [mbind option_bind] in H.
  case_decide; [|left; by apply clear_error_no_est in H]. right.
  apply fmap_Some in Ht as ([j t']&Hj&->). exists id, j, t'. split_and!; [done..|].
  apply (handle_finish_est _ _ _ r _ j); [done| |done|done].
  apply list_find_Some in Hj as [Hj _]. by apply (inv_table _ Hc j).
Qed.

Lemma handle_psk_exchange_est bs c r c' :
  handle_spdm_psk_exchange bs c = (r, c') → psk_without_context c = false → sessions no_est c c'.
Proof.
  intros H Hc. unfold handle_spdm_psk_exchange, bind in H.
  destruct (with_send_buffer _ c) as [o c1] eqn:Hb.
  pose proof (within_send_buffer _ _ (psk_exchange_context bs) _ _ _ Hb Hc) as [_ H1].
  destruct o as [rsp|e|]; [|by injection H as <- <-..]. etrans; [exact H1|].
  eapply (send_message_within _ (SpdmRequestResponseCode_get_u8 SpdmResponsePskExchangeRsp));
    [apply quiet_sessions, _|by apply after_send_no_est..| |exact H].
  eapply send_buffer_code; [apply psk_exchange_coded|exact Hb].
Qed.

Lemma dispatch_code_cases bs c r c' :
  dispatch_message mode bs c = (r, c') →
  c' = c ∨ ∃ code, request_code bs = Some code ∧
    (code = SpdmRequestFinish → dispatch_finish mode bs c = (r, c')) ∧
    (code = SpdmRequestPskExchange → handle_spdm_psk_exchange bs c = (r, c')).
Proof.
  intros H. unfold dispatch_message in H.
  apply bind_inert in H as [H|([h rd]&Hh&H)]; [by left| |within_steps].
  apply read_header_code in Hh as [_ Hh]. right. exists (hd_request_response_code h).
  split; [done|]. split; intros He; by rewrite He in H.
Qed.

(** C5: The same outside sessions.  A message in the clear establishes a session only if it is
    a FINISH for the session whose KEY_EXCHANGE came last, both sides do the handshake in the
    clear and the verify data proves the finished key as above, or if it is a PSK_EXCHANGE and
    the responder declared that it does PSK without a context. *)
Theorem established_in_clear bs c r c' i s s' :
  inv c → dispatch_message mode bs c = (r, c') →
  session c !! i = Some s → session c' !! i = Some s' →
  session_state s ≠ SpdmSessionEstablished → session_state s' = SpdmSessionEstablished →
  (request_code bs = Some SpdmRequestFinish ∧ in_clear_text c = true ∧
   last_session_id (runtime_info c) = Some (session_id s) ∧
   session_state s = SpdmSessionHandshaking ∧
   proved (finish_request (session_id s) bs c) s) ∨
  (request_code bs = Some SpdmRequestPskExchange ∧ psk_without_context c = true).
Proof.
  intros Hc H Hi Hi' Hs Hs'.
  assert (¬ sessions no_est c c') as Hno
    by (intros Hn; by apply Hs, (sessions_lookup _ _ _ _ _ _ Hn Hi Hi')).
  destruct (dispatch_code_cases _ _ _ _ H) as [->|(code&Hcode&Hf&Hp)]; [destruct Hno; reflexivity|].
  destruct (decide (code = SpdmRequestFinish)) as [->|Hnf].
  - left. destruct (dispatch_finish_est _ _ _ _ Hc (Hf eq_refl)) as
      [Hn|(id&j&t&Hclear&Hid&Hj&Hst&He)]; [done|].
    pose proof (inv_last _ Hc id Hid) as Hne.
    destruct (the_session _ _ _ _ _ _ _ _ _ Hc Hj Hne Hi Hi' Hs Hs' He) as (<-&->&?). auto.
  - destruct (decide (code = SpdmRequestPskExchange)) as [->|Hnp].
    + right. split; [done|]. destruct (psk_without_context c) eqn:Hw; [done|]. destruct Hno.
      eapply handle_psk_exchange_est; [by apply Hp|done].
    + destruct Hno. by eapply dispatch_other.
Qed.
End Est.
