(* ===== verification/RspExample.v ===== *)
(** The theorems about the responder, evaluated on a concrete responder. *)

From S2P Require Import Prelude Config Codec Status Algo Protocol Crypto SpdmRing ToyRing KeySchedule Buffers Session Context Transport ToyContext SpdmCodec Opaque MsgNegotiate MsgAuth MsgSession Message Endpoint Responder Within RspWriter RspConnect RspSession RspDispatch RspFrame RspCode RspState RspInv RspSafe RspEst.

Section Example.
#[local] Existing Instances default_config default_valid toy_crypto toy_secret toy_device toy_hash_laws.

(** Callbacks that echo. *)
Definition toy_handlers : SpdmHandlers := {|
  vendor_defined_request_handler v := Ok v;
  dispatch_secured_app_message_cb _ bs _ := ret (bs, length bs);
|}.
#[local] Existing Instances toy_handlers MctpTransportEncap.

Definition toy_packet (m : SpdmMessage) : bytes := 5 :: Message_wire toy_context m.
Definition toy_header (v : SpdmVersion) (code : SpdmRequestResponseCode) : SpdmMessageHeader :=
  {| hd_version := v; hd_request_response_code := code |}.

Definition toy_get_version : SpdmMessage :=
  {| msg_header := toy_header SpdmVersion10 SpdmRequestGetVersion;
     msg_payload := SpdmGetVersionRequest MkSpdmGetVersionRequestPayload |}.
Definition toy_get_capabilities : SpdmMessage :=
  {| msg_header := toy_header SpdmVersion12 SpdmRequestGetCapabilities;
     msg_payload := SpdmGetCapabilitiesRequest
       {| cq_ct_exponent := 0; cq_flags := toy_req_capabilities;
          cq_data_transfer_size := 4096; cq_max_spdm_msg_size := 4096 |} |}.
Definition toy_negotiate : SpdmMessage :=
  {| msg_header := toy_header SpdmVersion12 SpdmRequestNegotiateAlgorithms;
     msg_payload := SpdmNegotiateAlgorithmsRequest
       {| nq_measurement_specification := SpdmMeasurementSpecification.DMTF;
          nq_other_params_support := 2;
          nq_base_asym_algo := SpdmBaseAsymAlgo.TPM_ALG_ECDSA_ECC_NIST_P384;
          nq_base_hash_algo := SpdmBaseHashAlgo.TPM_ALG_SHA_384;
          nq_alg_struct_count := 4;
          nq_alg_struct :=
            [{| alg_type := SpdmAlgTypeDHE; alg_supported := SpdmAlgoDhe SpdmDheAlgo.SECP_384_R1 |};
             {| alg_type := SpdmAlgTypeAEAD; alg_supported := SpdmAlgoAead SpdmAeadAlgo.AES_256_GCM |};
             {| alg_type := SpdmAlgTypeReqAsym;
                alg_supported := SpdmAlgoReqAsym SpdmReqAsymAlgo.TPM_ALG_RSAPSS_2048 |};
             {| alg_type := SpdmAlgTypeKeySchedule;
                alg_supported := SpdmAlgoKeySchedule SpdmKeyScheduleAlgo.SPDM_KEY_SCHEDULE |}] |} |}.

Definition toy_key_exchange : SpdmMessage :=
  {| msg_header := toy_header SpdmVersion12 SpdmRequestKeyExchange;
     msg_payload := SpdmKeyExchangeRequest
       {| kq_measurement_summary_hash_type := SpdmMeasurementSummaryHashTypeNone;
          kq_slot_id := 0; kq_req_session_id := 0xFFFE; kq_session_policy := 1;
          kq_random := replicate 32 3; kq_exchange := toy_sized 96 SPDM_MAX_DHE_KEY_SIZE [5];
          kq_opaque := empty_opaque |} |}.

Definition toy_inbox : list bytes :=
  toy_packet <$> [toy_get_version; toy_get_capabilities; toy_negotiate; toy_key_exchange].

Definition toy_step (c : SpdmContext) : SpdmContext := (process_message Checked 0 [] c).2.

(** The responder after 0 to 4 packets. *)
Definition toy_c0 : SpdmContext := toy_start toy_inbox.
Definition toy_c1 : SpdmContext := toy_step toy_c0.
Definition toy_c2 : SpdmContext := toy_step toy_c1.
Definition toy_c3 : SpdmContext := toy_step toy_c2.
Definition toy_c4 : SpdmContext := toy_step toy_c3.

Definition toy_id : Z := session_id_of 0xFFFD 0xFFFE.

(** FINISH with the verify data that proves the finished key. *)
Definition toy_proof (c : SpdmContext) (prefix : bytes) : SpdmDigestStruct :=
  match s ← get_immutable_session_via_id toy_id c; h ← digest_context_th (s_runtime_info s);
        Some (s, h) with
  | Some (s, h) =>
      match run (let* h := of_outcome (hash_ctx_update h prefix) in
                 let* th := some_or SPDM_STATUS_CRYPTO_ERROR (of_outcome (hash_ctx_finalize h)) in
                 some_or SPDM_STATUS_CRYPTO_ERROR
                   (of_outcome (hmac (cp_base_hash_algo (crypto_param s))
                   (sized_bytes (request_finished_key (handshake_secret s))) (sized_bytes th)))) with
      | Ok d => d
      | _ => SpdmDigestStruct_default
      end
  | None => SpdmDigestStruct_default
  end.
Definition toy_finish_bytes (c : SpdmContext) : bytes :=
  [0x12; 0xE5; 0; 0] ++ sized_bytes (toy_proof c [0x12; 0xE5; 0; 0]).

Definition toy_after_finish : SpdmContext :=
  (dispatch_secured_message Checked toy_id (toy_finish_bytes toy_c4) toy_c4).2.

(** ** What the toy environment provides *)

Lemma toy_count : Z.of_nat MAX_SPDM_SESSION_COUNT ≤ 0xFFFC.
Proof. done. Qed.

Lemma mctp_octets packet buf r buf' :
  mctp_decap packet buf = (r, buf') → Forall is_u8 packet → Forall is_u8 buf → Forall is_u8 buf'.
Proof.
  intros H Hp Hb. unfold mctp_decap, mctp_unwrap in H.
  apply bind_inert in H as [->|([t rd]&_&H)]; [done| |within_steps].
  apply bind_inert in H as [->|(a&_&H)]; [done| |within_steps].
  erewrite bind_step in H by done. destruct (_ <? _)%nat; [by injection H as <- <-|].
  apply bind_inert in H as [->|(payload&H1&H)]; [done| |within_steps].
  apply (sub_slice_Forall is_u8) in H1 as [Hpl _]; [|done].
  apply bind_inert in H as [->|(out&H2&H)]; [done| |within_steps].
  apply (slice_copy_Forall is_u8) in H2 as [Ho _]; [|done..]. by injection H as <- <-.
Qed.

#[local] Instance toy_environment : Environment.
Proof.
  split.
  - intros timeout [inbox outbox] buf r [inbox' outbox'] buf' H Hb. cbn in H.
    destruct inbox as [|bs inbox]; [by simplify_eq|]. case_decide; simplify_eq; [|done].
    unfold splice. rewrite !Forall_app. split_and!; auto using Forall_take, Forall_drop.
    apply Forall_fmap, Forall_true. intros x. apply as_uint_bound. lia.
  - apply mctp_octets.
  - intros id bs aux. cbn. apply within_ret, _.
Qed.
Lemma toy_app_conn id bs aux : within conn_same (dispatch_secured_app_message_cb id bs aux).
Proof. by intros c r c' [= <- <-]. Qed.

Lemma toy_served_step c h :
  served Checked (c :: h) → served Checked (toy_step c :: c :: h).
Proof. intros Hs. exact (served_message Checked 0 [] c h _ _ Hs (surjective_pairing _)). Qed.
Lemma toy_served : served Checked [toy_c4; toy_c3; toy_c2; toy_c1; toy_c0].
Proof. do 4 apply toy_served_step. apply served_new. Qed.
Lemma toy_inv : inv toy_c4.
Proof. exact (served_inv Checked toy_count _ _ toy_served). Qed.

(** ** Witnesses *)

Lemma negotiation_precedes_witness :
  [SpdmConnectionNegotiated; SpdmConnectionAfterCapabilities; SpdmConnectionAfterVersion]
    `sublist_of` (conn_of <$> [toy_c4; toy_c3; toy_c2; toy_c1; toy_c0]).
Proof.
  apply (negotiation_precedes Checked toy_app_conn); [exact toy_served|].
  apply (bool_decide_unpack _). vm_compute. exact I.
Defined.

Definition toy_negotiated_context : SpdmContext :=
  (dispatch_message Checked (Message_wire toy_context toy_negotiate) toy_c2).2.

Lemma connection_order_witness :
  conn_of toy_negotiated_context = conn_of toy_c2 ∨
  ∃ req, request_code (Message_wire toy_context toy_negotiate) = Some req ∧
    conn_step req (conn_of toy_c2) (conn_of toy_negotiated_context).
Proof. eapply (connection_order Checked). apply surjective_pairing. Defined.

Definition toy_large : bytes := replicate 5000 0.

Lemma send_terminates_witness :
  let sent := if exceeds_transfer_size toy_c4 toy_large
              then error_bytes toy_c4 SpdmErrorResponseTooLarge 0 else toy_large in
  send_message_rec 3 toy_large toy_c4 = send_message_rec 0 sent toy_c4 ∧
  send_secured_message_rec Checked 3 toy_id toy_large false toy_c4 =
    send_secured_message_rec Checked 0 toy_id sent false toy_c4 ∧
  exceeds_transfer_size toy_c4 sent = false.
Proof.
  refine (send_terminates Checked toy_count [toy_c3; toy_c2; toy_c1; toy_c0] toy_c4 2 toy_id
    toy_large _). exact toy_served.
Defined.

Definition toy_session_0 : SpdmSession := default SpdmSession_new (session toy_c4 !! 0%nat).

Lemma lookup_default {A} (l : list A) i d : (i < length l)%nat → l !! i = Some (default d (l !! i)).
Proof. intros [x ->]%lookup_lt_is_Some. done. Qed.
Lemma toy_session_at : session toy_c4 !! 0%nat = Some toy_session_0.
Proof. apply lookup_default. rewrite (inv_count _ toy_inv). apply Nat.ltb_lt. done. Qed.

Lemma session_ids_unique_witness :
  0%nat = 0%nat ∧ half_session_id false (session_id toy_session_0) = INITIAL_SESSION_ID - Z.of_nat 0 ∧
  get_immutable_session_via_id (session_id toy_session_0) toy_c4 = Some toy_session_0.
Proof.
  apply (session_ids_unique Checked toy_count _ toy_c4 0 0 _ _ toy_served toy_session_at toy_session_at);
    [|done]. apply Z.eqb_neq. vm_compute. reflexivity.
Defined.

Lemma context_well_typed_witness :
  length (session toy_c4) = MAX_SPDM_SESSION_COUNT ∧ is_u32 (session_id toy_session_0).
Proof.
  destruct (context_well_typed Checked toy_count _ toy_c4 toy_served) as (_&_&Hl&Ht&_).
  split; [exact Hl|]. exact (proj1 (Ht _ _ toy_session_at)).
Defined.

Lemma out_of_order_refused_witness :
  dispatch_message Checked (Message_wire toy_context toy_key_exchange) toy_c1 =
  (Err SPDM_STATUS_INVALID_STATE_PEER, toy_c1).
Proof.
  apply (out_of_order_refused Checked _ toy_c1 SpdmRequestKeyExchange).
  - apply (served_inv Checked toy_count [toy_c0] toy_c1). apply toy_served_step, served_new.
  - vm_compute. reflexivity.
  - vm_compute. reflexivity.
Defined.

(** The requester proves the finished key, and the session is established. *)
Definition toy_established_0 : SpdmSession :=
  default SpdmSession_new (session toy_after_finish !! 0%nat).

Lemma toy_established_at : session toy_after_finish !! 0%nat = Some toy_established_0.
Proof. apply lookup_default. apply Nat.ltb_lt. vm_compute. reflexivity. Qed.

Lemma established_in_session_witness :
  session_id toy_session_0 = toy_id ∧ session_state toy_session_0 = SpdmSessionHandshaking ∧
  (request_code (toy_finish_bytes toy_c4) = Some SpdmRequestFinish ∧
     proved (finish_request toy_id (toy_finish_bytes toy_c4) toy_c4) toy_session_0 ∨
   request_code (toy_finish_bytes toy_c4) = Some SpdmRequestPskFinish ∧
     proved (psk_finish_request toy_id (toy_finish_bytes toy_c4) toy_c4) toy_session_0).
Proof.
  apply (established_in_session Checked toy_count toy_id (toy_finish_bytes toy_c4) toy_c4
    (dispatch_secured_message Checked toy_id (toy_finish_bytes toy_c4) toy_c4).1 toy_after_finish 0
    toy_session_0 toy_established_0 toy_inv (surjective_pairing _) toy_session_at
    toy_established_at); apply (bool_decide_unpack _); vm_compute; exact I.
Defined.

(** A handshake in the clear. *)
Definition toy_in_clear (c : SpdmContext) : SpdmContext :=
  c <| negotiate_info ::= λ n,
              n <| req_capabilities_sel ::=
                     Z.lor SpdmRequestCapabilityFlags.HANDSHAKE_IN_THE_CLEAR_CAP |>
                <| rsp_capabilities_sel ::=
                     Z.lor SpdmResponseCapabilityFlags.HANDSHAKE_IN_THE_CLEAR_CAP |> |>
         <| runtime_info ::= λ r, r <| last_session_id := Some toy_id |> |>.
Definition toy_clear : SpdmContext := toy_in_clear toy_c4.
Definition toy_clear_after : SpdmContext :=
  (dispatch_message Checked (toy_finish_bytes toy_c4) toy_clear).2.
Definition toy_clear_established : SpdmSession :=
  default SpdmSession_new (session toy_clear_after !! 0%nat).

Lemma toy_clear_at : session toy_clear_after !! 0%nat = Some toy_clear_established.
Proof. apply lookup_default. apply Nat.ltb_lt. vm_compute. reflexivity. Qed.
Lemma toy_in_clear_inv c : inv c → inv (toy_in_clear c).
Proof. intros [Hv Hl _ Hn Ht]. split; [done|done| |done|done]. by intros id [= <-]. Qed.
Lemma toy_clear_inv : inv toy_clear.
Proof. apply toy_in_clear_inv, toy_inv. Qed.

Lemma toy_in_clear_session c : session (toy_in_clear c) = session c.
Proof. done. Qed.
Lemma toy_clear_session_at : session toy_clear !! 0%nat = Some toy_session_0.
Proof. unfold toy_clear. rewrite toy_in_clear_session. exact toy_session_at. Qed.

Lemma established_in_clear_witness :
  (request_code (toy_finish_bytes toy_c4) = Some SpdmRequestFinish ∧
   in_clear_text toy_clear = true ∧
   last_session_id (runtime_info toy_clear) = Some (session_id toy_session_0) ∧
   session_state toy_session_0 = SpdmSessionHandshaking ∧
   proved (finish_request (session_id toy_session_0) (toy_finish_bytes toy_c4) toy_clear)
     toy_session_0) ∨
  (request_code (toy_finish_bytes toy_c4) = Some SpdmRequestPskExchange ∧
   psk_without_context toy_clear = true).
Proof.
  apply (established_in_clear Checked toy_count (toy_finish_bytes toy_c4) toy_clear
    (dispatch_message Checked (toy_finish_bytes toy_c4) toy_clear).1 toy_clear_after 0
    toy_session_0 toy_clear_established toy_clear_inv (surjective_pairing _)
    toy_clear_session_at toy_clear_at); apply (bool_decide_unpack _); vm_compute; exact I.
Defined.
End Example.
