(* ===== verification/Requester.v ===== *)
(** Model of the base of the requester: sending and receiving of requester/context.rs and the
    handling of error responses of requester/handle_error_response_req.rs.

    The requester owns the same context as the responder.  [encode_*] functions of the source
    fill the send buffer and are computations on [Rsp]; everything else is a computation on the
    context.  A response handler is given the bytes received. *)

From S2P Require Import Prelude Config Codec Status Algo Protocol Crypto KeySchedule Buffers Session Context SpdmCodec Opaque MsgNegotiate MsgAuth MsgSession Message Endpoint.

Abbreviation ST1 := 1000000 (only parsing).

(** [2usize << k] on a 64-bit machine. *)
Definition shl_usize {S E} (mode : overflow_mode) (x k : Z) : M S E Z :=
  if k <? 64 then ret (as_u64 (Z.shiftl x k))
  else match mode with
       | Checked => panic
       | Wrapping => ret (as_u64 (Z.shiftl x (k `mod` 64)))
       end.

(** [a - b] on [u16]. *)
Definition sub_u16 {S E} (mode : overflow_mode) (a b : Z) : M S E Z :=
  if decide (is_u16 (a - b)) then ret (a - b)
  else match mode with Checked => panic | Wrapping => ret (as_u16 (a - b)) end.

Module RequesterContext.
Section RequesterContext.
Context `{cfg : Config} `{sec : Secret} `{dev : SpdmDeviceIo} `{tr : SpdmTransportEncap}.
Context (mode : overflow_mode).

(** ** Sending *)

Definition exceeds_transfer_size (c : SpdmContext) (send_buffer : bytes) : bool :=
  let limit := rsp_data_transfer_size_sel (negotiate_info c) in
  negb (limit =? 0) && (limit <? Z.of_nat (length send_buffer)).

(*@ spdmlib/src/requester/context.rs 65-74 RequesterContext::send_message *)
Definition send_message (send_buffer : bytes) : SpdmM SpdmContext unit :=
  let* c := gets (λ c, c) in
  if exceeds_transfer_size c send_buffer then throw SPDM_STATUS_SEND_FAIL else
  let* (used, transport_buffer) := with_transport_buffer (encap send_buffer) in
  let* bs := sub_slice 0 used transport_buffer in
  device_send bs.

(*@ spdmlib/src/requester/context.rs 76-97 RequesterContext::send_secured_message *)
Definition send_secured_message (session_id : Z) (send_buffer : bytes) (is_app_message : bool)
    : SpdmM SpdmContext unit :=
  let* c := gets (λ c, c) in
  if negb is_app_message && exceeds_transfer_size c send_buffer
  then throw SPDM_STATUS_SEND_FAIL else
  let* (used, transport_buffer) := with_transport_buffer
    (encode_secured_message mode session_id send_buffer true is_app_message) in
  let* bs := sub_slice 0 used transport_buffer in
  device_send bs.

(** ** Receiving *)

(** A computation that fills a fresh buffer of [size] bytes. *)
Definition with_receive_buffer {E A} (size : nat) (c : M (SpdmContext * bytes) E A)
    : M SpdmContext E (A * bytes) := λ ctx,
  match c (ctx, replicate size 0) with
  | (Ok a, (ctx', buf)) => (Ok (a, buf), ctx')
  | (Err e, (ctx', _)) => (Err e, ctx')
  | (Panic, (ctx', _)) => (Panic, ctx')
  end.

Definition device_receive (timeout : Z) : M (SpdmContext * bytes) nat nat :=
  zoom (λ s, (device_io s.1, s.2)) (λ v s, (s.1 <| device_io := v.1 |>, v.2))
    (io_receive timeout).

(** How long the responder may take; the exponent of its cryptographic timeout is what it
    declared itself. *)
(*@ spdmlib/src/requester/context.rs 106-110 RequesterContext::receive_message *)
Definition response_timeout (crypto_request : bool) : SpdmM SpdmContext Z :=
  let* c := gets (λ c, c) in
  if crypto_request then shl_usize mode 2 (rsp_ct_exponent_sel (negotiate_info c)) else ret ST1.

(** The packet that is received, and the message in the receive buffer that [decode] leaves. *)
Definition receive_with (decode : bytes → SpdmM (SpdmContext * bytes) nat)
    (crypto_request : bool) : SpdmM SpdmContext bytes :=
  let* timeout := response_timeout crypto_request in
  let* (used, transport_buffer) := map_err (λ _, SPDM_STATUS_RECEIVE_FAIL)
    (with_receive_buffer RECEIVER_BUFFER_SIZE (device_receive timeout)) in
  let* packet := sub_slice 0 used transport_buffer in
  let* (used, receive_buffer) := with_receive_buffer MAX_SPDM_MSG_SIZE (decode packet) in
  sub_slice 0 used receive_buffer.

(*@ spdmlib/src/requester/context.rs 99-120 RequesterContext::receive_message *)
Definition receive_message : bool → SpdmM SpdmContext bytes := receive_with decap.

(*@ spdmlib/src/requester/context.rs 122-148 RequesterContext::receive_secured_message *)
Definition receive_secured_message (session_id : Z) : bool → SpdmM SpdmContext bytes :=
  receive_with (decode_secured_message mode session_id).

(** The requests that go inside a session or outside. *)
Definition send_request (session_id : option Z) (bs : bytes) : SpdmM SpdmContext unit :=
  match session_id with
  | Some id => send_secured_message id bs false
  | None => send_message bs
  end.
Definition receive_response (session_id : option Z) (crypto_request : bool)
    : SpdmM SpdmContext bytes :=
  match session_id with
  | Some id => receive_secured_message id crypto_request
  | None => receive_message crypto_request
  end.

(** ** Requests *)

(** An [encode_*] function on a fresh send buffer. *)
Definition with_request_buffer {A} (c : SpdmM Rsp A) : SpdmM SpdmContext (A * bytes) := λ ctx,
  match c (ctx, Writer_init (replicate MAX_SPDM_MSG_SIZE 0)) with
  | (Ok a, (ctx', w)) => (Ok (a, wr_buf w), ctx')
  | (Err e, (ctx', _)) => (Err e, ctx')
  | (Panic, (ctx', _)) => (Panic, ctx')
  end.

(** [&send_buffer[..send_used]] *)
Definition encoded (c : SpdmM Rsp nat) : SpdmM SpdmContext bytes :=
  let* (used, buf) := with_request_buffer c in sub_slice 0 used buf.

Definition reset_buffers (code : SpdmRequestResponseCode) (session_id : option Z)
    : SpdmM SpdmContext unit := modify (reset_buffer_via_request_code code session_id).

(** ** Responses *)

(** Reading a payload in the current context. *)
Definition read_payload {A} (codec : SpdmContext → SpdmCodec A) (r : Reader)
    : M SpdmContext unit (A * Reader) :=
  let* c := gets (λ c, c) in resume r (spdm_read (codec c)).

Definition invalid_field {A} : SpdmM SpdmContext A := throw SPDM_STATUS_INVALID_MSG_FIELD.

(** The session is given up, if it is there. *)
Definition teardown_session (id : Z) (otherwise : SpdmM SpdmContext unit)
    : SpdmM SpdmContext unit :=
  with_session id otherwise (attempt (E:=SpdmStatus) (SpdmSession_teardown id);; ret tt).

(*@ spdmlib/src/requester/handle_error_response_req.rs 16-40 RequesterContext::spdm_handle_simple_error_response *)
Definition spdm_handle_simple_error_response (session_id : option Z) (error_code : Z)
    : SpdmM SpdmContext unit :=
  if error_code =? SpdmErrorCode_get_u8 SpdmErrorResponseNotReady
  then throw SPDM_STATUS_NOT_READY_PEER else
  if error_code =? SpdmErrorCode_get_u8 SpdmErrorBusy then throw SPDM_STATUS_BUSY_PEER else
  if error_code =? SpdmErrorCode_get_u8 SpdmErrorRequestResynch then
    (match session_id with
     | Some id => with_session id (throw SPDM_STATUS_INVALID_PARAMETER)
         (modify (λ s, s <| session_state := SpdmSessionNotStarted |>))
     | None => ret tt
     end);;
    throw SPDM_STATUS_INVALID_PARAMETER
  else throw SPDM_STATUS_ERROR_PEER.

(*@ spdmlib/src/requester/handle_error_response_req.rs 42-87 RequesterContext::spdm_handle_error_response_main *)
Definition spdm_handle_error_response_main (session_id : option Z) (response : bytes)
    : SpdmM SpdmContext unit :=
  let? (header, reader) := read_header response else invalid_field in
  let* c := gets (λ c, c) in
  if decide (hd_version header ≠ negotiated_version c) then invalid_field else
  if decide (hd_request_response_code header ≠ SpdmResponseError) then invalid_field else
  let* rest := sub_slice (Reader_used reader) (length response) response in
  let? (payload, _) := with_reader rest (read SpdmMessageGeneralPayload_codec)
    else invalid_field in
  if gp_param1 payload =? SpdmErrorCode_get_u8 SpdmErrorDecryptError then
    (match session_id with
     | Some id => teardown_session id (throw SPDM_STATUS_INVALID_PARAMETER)
     | None => ret tt
     end);;
    throw SPDM_STATUS_SESSION_MSG_ERROR
  else spdm_handle_simple_error_response session_id (gp_param1 payload).

(** The handler of a code, the one of error responses, or an error of the peer.  Where the
    handler returns something, success of the error handler would be an error too. *)
Definition select_response {A} (header : SpdmMessageHeader) (code : SpdmRequestResponseCode)
    (session_id : option Z) (bs : bytes) (k : SpdmM SpdmContext A) : SpdmM SpdmContext A :=
  if decide (hd_request_response_code header = code) then k else
  if decide (hd_request_response_code header = SpdmResponseError)
  then spdm_handle_error_response_main session_id bs;; throw SPDM_STATUS_ERROR_PEER
  else throw SPDM_STATUS_ERROR_PEER.

(** The checks of most response handlers: the header, the version and the code. *)
Definition expect_response {A} (code : SpdmRequestResponseCode) (session_id : option Z)
    (bs : bytes) (k : Reader → SpdmM SpdmContext A) : SpdmM SpdmContext A :=
  let? (header, reader) := read_header bs else invalid_field in
  let* c := gets (λ c, c) in
  if decide (hd_version header ≠ negotiated_version c) then invalid_field else
  select_response header code session_id bs (k reader).

(** ** Signatures of the responder *)

(** The certificates of a slot, behind length, reserved bytes and root hash. *)
Definition peer_certificates (slot_id : Z) : SpdmM SpdmContext bytes :=
  let* c := gets (λ c, c) in
  let* chain := unwrap (peer_cert_chain (peer_info c) !! Z.to_nat slot_id) in
  let* chain := ok_or SPDM_STATUS_INVALID_PARAMETER chain in
  let* hash_size := of_outcome (get_hash_size c) in
  sub_slice (4 + hash_size) (data_size chain) (data chain).

(** The signature over a transcript hash must verify with the certificates of the slot. *)
Definition verify_transcript (slot_id : Z) (zeropad sign_context : bytes)
    (hash : SpdmDigestStruct) (signature : SpdmSignatureStruct) : SpdmM SpdmContext unit :=
  let* cert_chain_data := peer_certificates slot_id in
  let* c := gets (λ c, c) in
  let n := negotiate_info c in
  if version_below (spdm_version_sel n) SpdmVersion12
  then throw SPDM_STATUS_INVALID_STATE_LOCAL else
  let* h := sized_as_ref hash in
  let* message := signing_message zeropad sign_context h in
  of_outcome (asym_verify (base_hash_sel n) (base_asym_sel n) cert_chain_data message signature).

(** The digest of a transcript without ending it. *)
Definition transcript_digest (ctx : option SpdmHashCtx) : SpdmM SpdmContext SpdmDigestStruct :=
  let* h := ok_or SPDM_STATUS_CRYPTO_ERROR ctx in
  some_or SPDM_STATUS_CRYPTO_ERROR (of_outcome (hash_ctx_finalize h)).

End RequesterContext.
End RequesterContext.
