(* ===== verification/ReqConnect.v ===== *)
(** Model of the requests that do not need a session: requester/get_version_req.rs,
    get_capabilities_req.rs, negotiate_algorithms_req.rs, get_digests_req.rs,
    get_certificate_req.rs, challenge_req.rs, get_measurements_req.rs and vendor_req.rs.  Each
    [encode_*] fills the request, each [handle_*] takes the response and each [send_receive_*]
    is one exchange. *)

From stdpp Require Import sorting.
From S2P Require Import Prelude Config Codec Status Algo Protocol Crypto KeySchedule Buffers Session Context SpdmCodec Opaque MsgNegotiate MsgAuth MsgSession Message Endpoint Requester.
Import RequesterContext.

Section ReqConnect.
Context `{cfg : Config} `{sec : Secret} `{dev : SpdmDeviceIo} `{tr : SpdmTransportEncap}.
Context (mode : overflow_mode).

(** The exchange of most requests: the request is sent, the response is handled. *)
Definition exchange {A} (session_id : option Z) (crypto_request : bool) (request : SpdmM Rsp nat)
    (handle : bytes → bytes → SpdmM SpdmContext A) : SpdmM SpdmContext A :=
  let* sent := encoded request in
  send_request mode session_id sent;;
  let* received := receive_response mode session_id crypto_request in
  handle sent received.

(** The two messages of an exchange go to transcript A. *)
Definition record_a (sent received : bytes) (reader : Reader) : SpdmM SpdmContext unit :=
  append_message_a sent;;
  let* response := consumed received reader in
  append_message_a response.
(** Transcript B is kept outside sessions only. *)
Definition record_b (session_id : option Z) (sent received : bytes) (reader : Reader)
    : SpdmM SpdmContext unit :=
  match session_id with
  | None =>
      append_message_b sent;;
      let* response := consumed received reader in
      append_message_b response
  | Some _ => ret tt
  end.

(** ** VERSION *)

(*@ spdmlib/src/requester/get_version_req.rs 26-36 RequesterContext::encode_spdm_version *)
Definition encode_spdm_version : SpdmM Rsp nat :=
  let* c := gets fst in
  on_snd (spdm_encode (SpdmMessage_codec c)
    {| msg_header := {| hd_version := SpdmVersion10;
                        hd_request_response_code := SpdmRequestGetVersion |};
       msg_payload := SpdmGetVersionRequest MkSpdmGetVersionRequestPayload |}).

(** The order of [sort_unstable_by]; entries of the same version differ in the field that is
    not looked at. *)
Definition newer (a b : SpdmVersionStruct) : Prop :=
  SpdmVersion_get_u8 (vs_version b) ≤ SpdmVersion_get_u8 (vs_version a).
#[export] Instance newer_dec : RelDecision newer.
Proof. intros a b. unfold newer. apply _. Defined.

(** The first of the sorted entries that is configured.  The whole array is sorted, the
    entries behind those received included. *)
(*@ spdmlib/src/requester/get_version_req.rs 53-77 RequesterContext::handle_spdm_version_response *)
Definition select_version (local : list SpdmVersion) (v : SpdmVersionResponsePayload)
    : SpdmVersion :=
  let sorted := take (Z.to_nat (version_number_entry_count v)) (merge_sort newer (versions v)) in
  match list_find (λ e, vs_version e ∈ local) sorted with
  | Some (_, e) => vs_version e
  | None => SpdmVersion_Unknown 0
  end.

(*@ spdmlib/src/requester/get_version_req.rs 38-117 RequesterContext::handle_spdm_version_response *)
Definition handle_spdm_version_response (sent received : bytes) : SpdmM SpdmContext unit :=
  let? (header, reader) := read_header received else invalid_field in
  select_response header SpdmResponseVersion (Some 0) received
    (let? (v, reader) := read_payload (λ _, SpdmVersionResponsePayload_codec) reader
       else invalid_field in
     modify (λ c, c <| negotiate_info ::= λ n,
       n <| spdm_version_sel := select_version (config_spdm_version (config_info c)) v |> |>);;
     let* c := gets (λ c, c) in
     match negotiated_version c with
     | SpdmVersion_Unknown _ => throw SPDM_STATUS_NEGOTIATION_FAIL
     | _ => modify reset_runtime_info;; record_a sent received reader
     end).

(*@ spdmlib/src/requester/get_version_req.rs 13-24 RequesterContext::send_receive_spdm_version *)
Definition send_receive_spdm_version : SpdmM SpdmContext unit :=
  reset_buffers SpdmRequestGetVersion None;;
  exchange None false encode_spdm_version handle_spdm_version_response.

(** ** CAPABILITIES *)

(*@ spdmlib/src/requester/get_capabilities_req.rs 25-42 RequesterContext::encode_spdm_capability *)
Definition encode_spdm_capability : SpdmM Rsp nat :=
  let* c := gets fst in
  let config := config_info c in
  write_response SpdmRequestGetCapabilities (SpdmGetCapabilitiesRequest
    {| cq_ct_exponent := config_req_ct_exponent config; cq_flags := config_req_capabilities config;
       cq_data_transfer_size := config_data_transfer_size config;
       cq_max_spdm_msg_size := config_max_spdm_msg_size config |}).

(*@ spdmlib/src/requester/get_capabilities_req.rs 65-84 RequesterContext::handle_spdm_capability_response *)
Definition accept_capabilities (p : SpdmCapabilitiesResponsePayload) (c : SpdmContext)
    : SpdmContext :=
  let config := config_info c in
  let c := c <| negotiate_info ::= λ n,
    n <| req_ct_exponent_sel := config_req_ct_exponent config |>
      <| req_capabilities_sel := config_req_capabilities config |>
      <| rsp_ct_exponent_sel := cp_ct_exponent p |> <| rsp_capabilities_sel := cp_flags p |> |> in
  if negb (version_below (negotiated_version c) SpdmVersion12) then
    c <| negotiate_info ::= λ n,
      n <| req_data_transfer_size_sel := config_data_transfer_size config |>
        <| req_max_spdm_msg_size_sel := config_max_spdm_msg_size config |>
        <| rsp_data_transfer_size_sel := cp_data_transfer_size p |>
        <| rsp_max_spdm_msg_size_sel := cp_max_spdm_msg_size p |> |>
  else c.

(*@ spdmlib/src/requester/get_capabilities_req.rs 44-108 RequesterContext::handle_spdm_capability_response *)
Definition handle_spdm_capability_response (sent received : bytes) : SpdmM SpdmContext unit :=
  expect_response SpdmResponseCapabilities (Some 0) received (λ reader,
  let? (p, reader) := read_payload SpdmCapabilitiesResponsePayload_codec reader
    else invalid_field in
  modify (accept_capabilities p);;
  record_a sent received reader).

(*@ spdmlib/src/requester/get_capabilities_req.rs 11-23 RequesterContext::send_receive_spdm_capability *)
Definition send_receive_spdm_capability : SpdmM SpdmContext unit :=
  reset_buffers SpdmRequestGetCapabilities None;;
  exchange None false encode_spdm_capability handle_spdm_capability_response.

(** ** ALGORITHMS *)

(*@ spdmlib/src/requester/negotiate_algorithms_req.rs 29-71 RequesterContext::encode_spdm_algorithm *)
Definition encode_spdm_algorithm : SpdmM Rsp nat :=
  let* c := gets fst in
  let config := config_info c in
  write_response SpdmRequestNegotiateAlgorithms (SpdmNegotiateAlgorithmsRequest
    {| nq_measurement_specification := config_measurement_specification config;
       nq_other_params_support := config_opaque_support config;
       nq_base_asym_algo := config_base_asym_algo config;
       nq_base_hash_algo := config_base_hash_algo config;
       nq_alg_struct_count := 4;
       nq_alg_struct :=
         [{| alg_type := SpdmAlgTypeDHE; alg_supported := SpdmAlgoDhe (config_dhe_algo config) |};
          {| alg_type := SpdmAlgTypeAEAD;
             alg_supported := SpdmAlgoAead (config_aead_algo config) |};
          {| alg_type := SpdmAlgTypeReqAsym;
             alg_supported := SpdmAlgoReqAsym (config_req_asym_algo config) |};
          {| alg_type := SpdmAlgTypeKeySchedule;
             alg_supported := SpdmAlgoKeySchedule (config_key_schedule_algo config) |}] |}).

(*@ spdmlib/src/requester/negotiate_algorithms_req.rs 114-128 RequesterContext::handle_spdm_algorithm_response *)
Definition accept_alg (n : SpdmNegotiateInfo) (a : SpdmAlgStruct) : SpdmNegotiateInfo :=
  match alg_supported a with
  | SpdmAlgoDhe v => n <| dhe_sel := v |>
  | SpdmAlgoAead v => n <| aead_sel := v |>
  | SpdmAlgoReqAsym v => n <| req_asym_sel := v |>
  | SpdmAlgoKeySchedule v => n <| key_schedule_sel := v |>
  | SpdmAlgoUnknown => n
  end.

Definition on_negotiated (f : SpdmNegotiateInfo → SpdmNegotiateInfo) : SpdmM SpdmContext unit :=
  modify (λ c, c <| negotiate_info ::= f |>).

(*@ spdmlib/src/requester/negotiate_algorithms_req.rs 73-151 RequesterContext::handle_spdm_algorithm_response *)
Definition handle_spdm_algorithm_response (sent received : bytes) : SpdmM SpdmContext unit :=
  expect_response SpdmResponseAlgorithms (Some 0) received (λ reader,
  let? (p, reader) := read_payload SpdmAlgorithmsResponsePayload_codec reader
    else invalid_field in
  on_negotiated (λ n,
    n <| measurement_specification_sel := np_measurement_specification_sel p |>
      <| opaque_data_support := np_other_params_selection p |>
      <| measurement_hash_sel := np_measurement_hash_algo p |>);;
  if np_base_hash_sel p =? 0 then throw SPDM_STATUS_NEGOTIATION_FAIL else
  on_negotiated (λ n, n <| base_hash_sel := np_base_hash_sel p |>);;
  if np_base_asym_sel p =? 0 then throw SPDM_STATUS_NEGOTIATION_FAIL else
  on_negotiated (λ n,
    fold_left accept_alg (take (Z.to_nat (np_alg_struct_count p)) (np_alg_struct p))
      (n <| base_asym_sel := np_base_asym_sel p |>));;
  record_a sent received reader).

(*@ spdmlib/src/requester/negotiate_algorithms_req.rs 14-27 RequesterContext::send_receive_spdm_algorithm *)
Definition send_receive_spdm_algorithm : SpdmM SpdmContext unit :=
  reset_buffers SpdmRequestNegotiateAlgorithms None;;
  exchange None false encode_spdm_algorithm handle_spdm_algorithm_response.

(*@ spdmlib/src/requester/context.rs 32-36 RequesterContext::init_connection *)
Definition init_connection : SpdmM SpdmContext unit :=
  send_receive_spdm_version;;
  send_receive_spdm_capability;;
  send_receive_spdm_algorithm.

(** ** DIGESTS *)

(*@ spdmlib/src/requester/get_digests_req.rs 44-54 RequesterContext::encode_spdm_digest *)
Definition encode_spdm_digest : SpdmM Rsp nat :=
  write_response SpdmRequestGetDigests (SpdmGetDigestsRequest MkSpdmGetDigestsRequestPayload).

(** The digests themselves are not looked at. *)
(*@ spdmlib/src/requester/get_digests_req.rs 56-102 RequesterContext::handle_spdm_digest_response *)
Definition handle_spdm_digest_response (session_id : option Z) (sent received : bytes)
    : SpdmM SpdmContext unit :=
  expect_response SpdmResponseDigests session_id received (λ reader,
  let? (_, reader) := read_payload SpdmDigestsResponsePayload_codec reader else invalid_field in
  record_b session_id sent received reader).

(*@ spdmlib/src/requester/get_digests_req.rs 10-42 RequesterContext::send_receive_spdm_digest *)
Definition send_receive_spdm_digest (session_id : option Z) : SpdmM SpdmContext unit :=
  reset_buffers SpdmRequestGetDigests session_id;;
  exchange session_id false encode_spdm_digest (handle_spdm_digest_response session_id).

(** ** CERTIFICATE *)

(*@ spdmlib/src/requester/get_certificate_req.rs 56-78 RequesterContext::encode_spdm_certificate_partial *)
Definition encode_spdm_certificate_partial (slot_id offset length : Z) : SpdmM Rsp nat :=
  write_response SpdmRequestGetCertificate (SpdmGetCertificateRequest
    {| gc_slot_id := slot_id; gc_offset := offset; gc_length := length |}).

Abbreviation MAX_CHAIN := (as_u16 (Z.of_nat MAX_SPDM_CERT_CHAIN_DATA_SIZE)) (only parsing).

(** The checks on a portion: it is no longer than asked for, it fits the buffer with what is
    left, the total does not change, and it is of the slot. *)
(*@ spdmlib/src/requester/get_certificate_req.rs 107-131 RequesterContext::handle_spdm_certificate_partial_response *)
Definition check_portion (slot_id total_size offset length : Z)
    (p : SpdmCertificateResponsePayload) : SpdmM SpdmContext unit :=
  let portion := cr_portion_length p in
  if length <? portion then invalid_field else
  let* room := sub_u16 mode MAX_CHAIN offset in
  if room <? portion then invalid_field else
  let* rest := sub_u16 mode room portion in
  if rest <=? cr_remainder_length p then invalid_field else
  let* wrong :=
    if total_size =? 0 then ret false else
    let* n := add_u16 mode offset portion in
    let* n := add_u16 mode n (cr_remainder_length p) in
    ret (negb (total_size =? n)) in
  if (wrong : bool) then invalid_field else
  if negb (cr_slot_id p =? slot_id) then invalid_field else ret tt.

(*@ spdmlib/src/requester/get_certificate_req.rs 80-180 RequesterContext::handle_spdm_certificate_partial_response *)
Definition handle_spdm_certificate_partial_response (session_id : option Z)
    (slot_id total_size offset length : Z) (sent received : bytes) : SpdmM SpdmContext (Z * Z) :=
  expect_response SpdmResponseCertificate session_id received (λ reader,
  let? (p, reader) := read_payload (λ _, SpdmCertificateResponsePayload_codec) reader
    else invalid_field in
  check_portion slot_id total_size offset length p;;
  let* c := gets (λ c, c) in
  let* temp := ok_or SPDM_STATUS_INVALID_STATE_LOCAL (peer_cert_chain_temp (peer_info c)) in
  let* portion := sub_slice 0 (Z.to_nat (cr_portion_length p)) (cr_cert_chain p) in
  let* chain := slice_copy (data temp) (Z.to_nat offset) portion in
  let* size := add_u16 mode offset (cr_portion_length p) in
  modify (λ c, c <| peer_info ::= λ i,
    i <| peer_cert_chain_temp := Some {| data_size := Z.to_nat size; data := chain |} |> |>);;
  record_b session_id sent received reader;;
  ret (cr_portion_length p, cr_remainder_length p)).

(*@ spdmlib/src/requester/get_certificate_req.rs 15-54 RequesterContext::send_receive_spdm_certificate_partial *)
Definition send_receive_spdm_certificate_partial (session_id : option Z)
    (slot_id total_size offset length : Z) : SpdmM SpdmContext (Z * Z) :=
  exchange session_id false (encode_spdm_certificate_partial slot_id offset length)
    (handle_spdm_certificate_partial_response session_id slot_id total_size offset length).

(** The loop over the portions.  The source does not bound it; [None] says that it has not
    ended after [turns] portions. *)
(*@ spdmlib/src/requester/get_certificate_req.rs 201-213 RequesterContext::send_receive_spdm_certificate *)
Fixpoint certificate_loop (turns : nat) (session_id : option Z)
    (slot_id total_size offset length : Z) : SpdmM SpdmContext (option Z) :=
  if length =? 0 then ret (Some total_size) else
  match turns with
  | O => ret None
  | S turns =>
      let* (portion, remainder) := send_receive_spdm_certificate_partial session_id slot_id
        total_size offset length in
      let* total_size :=
        if total_size =? 0 then add_u16 mode portion remainder else ret total_size in
      let* offset := add_u16 mode offset portion in
      certificate_loop turns session_id slot_id total_size offset
        (Z.min remainder (Z.of_nat MAX_SPDM_CERT_PORTION_LEN))
  end.

(** The certificates behind length, reserved bytes and root hash verify as a chain; the root
    hash is the one of the first of them, which is the provisioned one if there is one. *)
(*@ spdmlib/src/requester/get_certificate_req.rs 228-323 RequesterContext::verify_spdm_certificate_chain *)
Definition verify_spdm_certificate_chain : SpdmM SpdmContext unit :=
  let* c := gets (λ c, c) in
  let* chain := ok_or SPDM_STATUS_INVALID_PARAMETER (peer_cert_chain_temp (peer_info c)) in
  let* hash_size := of_outcome (get_hash_size c) in
  if (data_size chain <=? 4 + hash_size)%nat then throw SPDM_STATUS_INVALID_CERT else
  let* b0 := unwrap (data chain !! 0%nat) in
  let* b1 := unwrap (data chain !! 1%nat) in
  if negb (b0 + Z.shiftl b1 8 =? Z.of_nat (data_size chain))
  then throw SPDM_STATUS_INVALID_CERT else
  let size := (data_size chain - 4 - hash_size)%nat in
  let* certs := sub_slice (4 + hash_size) (data_size chain) (data chain) in
  let* data' := slice_copy (replicate MAX_SPDM_CERT_CHAIN_DATA_SIZE 0) 0 certs in
  let* der := sub_slice 0 size data' in
  let? _ := of_outcome (verify_cert_chain der) else throw SPDM_STATUS_INVALID_CERT in
  let* (root_begin, root_end) := of_outcome (get_cert_from_cert_chain der 0) in
  let* root_cert := sub_slice root_begin root_end data' in
  let* root_hash := some_or SPDM_STATUS_CRYPTO_ERROR
    (of_outcome (hash_all (base_hash_sel (negotiate_info c)) root_cert)) in
  let* actual := sized_as_ref root_hash in
  let* claimed := sub_slice 4 (4 + hash_size) (data chain) in
  if decide (actual ≠ claimed) then throw SPDM_STATUS_INVALID_CERT else
  match peer_root_cert_data (provision_info c) with
  | None => ret tt
  | Some root =>
      if negb (length root_cert =? data_size root)%nat then throw SPDM_STATUS_INVALID_CERT else
      let* provisioned := sub_slice 0 (data_size root) (data root) in
      if decide (root_cert ≠ provisioned) then throw SPDM_STATUS_INVALID_CERT else ret tt
  end.

Definition set_chain_temp (o : option SpdmCertChainBuffer) (c : SpdmContext) : SpdmContext :=
  c <| peer_info ::= λ i, i <| peer_cert_chain_temp := o |> |>.
Definition empty_chain : SpdmCertChainBuffer :=
  sized_default (4 + SPDM_MAX_HASH_SIZE + MAX_SPDM_CERT_CHAIN_DATA_SIZE).

(*@ spdmlib/src/requester/get_certificate_req.rs 214-226 RequesterContext::send_receive_spdm_certificate *)
Definition accept_chain (slot_id total_size : Z) : SpdmM SpdmContext unit :=
  if total_size =? 0 then modify (set_chain_temp None);; throw SPDM_STATUS_INVALID_CERT else
  let* r := attempt verify_spdm_certificate_chain in
  match r with
  | inr _ =>
      let* c := gets (λ c, c) in
      (assert! (Z.to_nat slot_id <? length (peer_cert_chain (peer_info c)))%nat);;
      modify (λ c, c <| peer_info ::= λ i,
        i <| peer_cert_chain ::= <[Z.to_nat slot_id := peer_cert_chain_temp i]> |> |>);;
      modify (set_chain_temp None)
  | inl e => modify (set_chain_temp None);; throw e
  end.

(** [None]: the loop has not ended after [turns] portions. *)
(*@ spdmlib/src/requester/get_certificate_req.rs 182-226 RequesterContext::send_receive_spdm_certificate *)
Definition send_receive_spdm_certificate (turns : nat) (session_id : option Z) (slot_id : Z)
    : SpdmM SpdmContext (option unit) :=
  if Z.of_nat SPDM_MAX_SLOT_NUMBER <=? slot_id then throw SPDM_STATUS_INVALID_STATE_LOCAL else
  reset_buffers SpdmRequestGetCertificate session_id;;
  modify (set_chain_temp (Some empty_chain));;
  let* total := certificate_loop turns session_id slot_id 0 0
    (Z.of_nat MAX_SPDM_CERT_PORTION_LEN) in
  match total with
  | None => ret None
  | Some total_size => accept_chain slot_id total_size;; ret (Some tt)
  end.

(** ** CHALLENGE_AUTH *)

(** A summary of the measurements is expected when the request asks for it. *)
Definition need_summary_hash (t : SpdmMeasurementSummaryHashType) : SpdmM SpdmContext unit :=
  let wanted := bool_decide (t = SpdmMeasurementSummaryHashTypeTcb
                             ∨ t = SpdmMeasurementSummaryHashTypeAll) in
  modify (λ c, c <| runtime_info ::= λ r, r <| need_measurement_summary_hash := wanted |> |>).

(*@ spdmlib/src/requester/challenge_req.rs 48-71 RequesterContext::encode_spdm_challenge *)
Definition encode_spdm_challenge (slot_id : Z) (t : SpdmMeasurementSummaryHashType)
    : SpdmM Rsp nat :=
  let* nonce := random_array SPDM_NONCE_SIZE in
  write_response SpdmRequestChallenge (SpdmChallengeRequest
    {| ch_slot_id := slot_id; ch_measurement_summary_hash_type := t; ch_nonce := nonce |}).

(*@ spdmlib/src/requester/challenge_req.rs 149-210 RequesterContext::verify_challenge_auth_signature *)
Definition verify_challenge_auth_signature (slot_id : Z) (signature : SpdmSignatureStruct)
    : SpdmM SpdmContext unit :=
  let* c := gets (λ c, c) in
  let* h := transcript_digest (digest_context_m1m2 (runtime_info c)) in
  verify_transcript slot_id SPDM_VERSION_1_2_SIGNING_CONTEXT_ZEROPAD_4
    SPDM_CHALLENGE_AUTH_SIGN_CONTEXT h signature.

(** The response without its signature goes to transcript C, whose hash the signature is of. *)
(*@ spdmlib/src/requester/challenge_req.rs 73-147 RequesterContext::handle_spdm_challenge_response *)
Definition handle_spdm_challenge_response (slot_id : Z) (t : SpdmMeasurementSummaryHashType)
    (sent received : bytes) : SpdmM SpdmContext unit :=
  need_summary_hash t;;
  expect_response SpdmResponseChallengeAuth (Some 0) received (λ reader,
  let? (p, reader) := read_payload SpdmChallengeAuthResponsePayload_codec reader
    else invalid_field in
  let* c := gets (λ c, c) in
  let* asym_size := of_outcome (get_asym_key_size c) in
  let* temp_used := sub_usize (Reader_used reader) asym_size in
  append_message_c sent;;
  let* part := sub_slice 0 temp_used received in
  append_message_c part;;
  let* r := attempt (E:=SpdmStatus) (verify_challenge_auth_signature slot_id (ca_signature p)) in
  modify (λ c, reset_message_c (reset_message_b c));;
  match r with inl _ => throw SPDM_STATUS_VERIF_FAIL | inr _ => ret tt end).

(*@ spdmlib/src/requester/challenge_req.rs 17-46 RequesterContext::send_receive_spdm_challenge *)
Definition send_receive_spdm_challenge (slot_id : Z) (t : SpdmMeasurementSummaryHashType)
    : SpdmM SpdmContext unit :=
  if Z.of_nat SPDM_MAX_SLOT_NUMBER <=? slot_id then throw SPDM_STATUS_INVALID_PARAMETER else
  reset_buffers SpdmRequestChallenge None;;
  exchange None true (encode_spdm_challenge slot_id t) (handle_spdm_challenge_response slot_id t).

(** ** MEASUREMENTS *)

(*@ spdmlib/src/requester/get_measurements_req.rs 72-98 RequesterContext::encode_spdm_measurement_record *)
Definition encode_spdm_measurement_record (attributes : Z) (operation : SpdmMeasurementOperation)
    (slot_id : Z) : SpdmM Rsp nat :=
  let* nonce := random_array SPDM_NONCE_SIZE in
  write_response SpdmRequestGetMeasurements (SpdmGetMeasurementsRequest
    {| gm_measurement_attributes := attributes; gm_measurement_operation := operation;
       gm_nonce := nonce; gm_slot_id := slot_id |}).

(*@ spdmlib/src/requester/get_measurements_req.rs 231-311 RequesterContext::verify_measurement_signature *)
Definition verify_measurement_signature (slot_id : Z) (session_id : option Z)
    (signature : SpdmSignatureStruct) : SpdmM SpdmContext unit :=
  let* c := gets (λ c, c) in
  let* ctx :=
    match session_id with
    | None => ret (digest_context_l1l2 (runtime_info c))
    | Some id =>
        let* s := ok_or SPDM_STATUS_INVALID_MSG_FIELD (get_immutable_session_via_id id c) in
        ret (s_digest_context_l1l2 (s_runtime_info s))
    end in
  let* h := transcript_digest ctx in
  verify_transcript slot_id SPDM_VERSION_1_2_SIGNING_CONTEXT_ZEROPAD_6
    SPDM_MEASUREMENTS_SIGN_CONTEXT h signature.

(** The number of blocks and the record; a signature that was asked for must verify. *)
(*@ spdmlib/src/requester/get_measurements_req.rs 100-209 RequesterContext::handle_spdm_measurement_record_response *)
Definition handle_spdm_measurement_record_response (session_id : option Z) (slot_id : Z)
    (attributes : Z) (operation : SpdmMeasurementOperation) (sent received : bytes)
    : SpdmM SpdmContext (Z * SpdmMeasurementRecordStructure) :=
  let signed := signature_requested attributes in
  modify (λ c, c <| runtime_info ::= λ r, r <| need_measurement_signature := signed |> |>);;
  expect_response SpdmResponseMeasurements session_id received (λ reader,
  let? (p, reader) := read_payload SpdmMeasurementsResponsePayload_codec reader
    else invalid_field in
  modify (λ c, if version_below (negotiated_version c) SpdmVersion12 then c
    else c <| runtime_info ::= λ r, r <| content_changed := mr_content_changed p |> |>);;
  let* c := gets (λ c, c) in
  let* asym_size := of_outcome (get_asym_key_size c) in
  let* temp_used := sub_usize (Reader_used reader) (if signed then asym_size else 0%nat) in
  append_message_m session_id sent;;
  let* part := sub_slice 0 temp_used received in
  append_message_m session_id part;;
  (if signed then
     let* r := attempt (E:=SpdmStatus)
       (verify_measurement_signature slot_id session_id (mr_signature p)) in
     modify (reset_message_m session_id);;
     match r with inl _ => throw SPDM_STATUS_VERIF_FAIL | inr _ => ret tt end
   else ret tt);;
  ret (match operation with
       | SpdmMeasurementQueryTotalNumber => mr_number_of_measurement p
       | _ => number_of_blocks (mr_measurement_record p)
       end, mr_measurement_record p)).

(*@ spdmlib/src/requester/get_measurements_req.rs 17-70 RequesterContext::send_receive_spdm_measurement_record *)
Definition send_receive_spdm_measurement_record (session_id : option Z) (attributes : Z)
    (operation : SpdmMeasurementOperation) (slot_id : Z)
    : SpdmM SpdmContext (Z * SpdmMeasurementRecordStructure) :=
  if Z.of_nat SPDM_MAX_SLOT_NUMBER <=? slot_id then throw SPDM_STATUS_INVALID_PARAMETER else
  reset_buffers SpdmRequestGetMeasurements session_id;;
  exchange session_id true (encode_spdm_measurement_record attributes operation slot_id)
    (handle_spdm_measurement_record_response session_id slot_id attributes operation).

(** The two results are the output parameters of the source, which keep their values when the
    call fails. *)
(*@ spdmlib/src/requester/get_measurements_req.rs 211-229 RequesterContext::send_receive_spdm_measurement *)
Definition send_receive_spdm_measurement (session_id : option Z) (slot_id attributes : Z)
    (operation : SpdmMeasurementOperation)
    : SpdmM SpdmContext (Z * SpdmMeasurementRecordStructure) :=
  send_receive_spdm_measurement_record session_id attributes operation slot_id.

(** ** VENDOR_DEFINED_RESPONSE *)

(*@ spdmlib/src/requester/vendor_req.rs 65-105 RequesterContext::handle_spdm_vendor_defined_respond *)
Definition handle_spdm_vendor_defined_respond (session_id : option Z) (received : bytes)
    : SpdmM SpdmContext sized :=
  expect_response SpdmResponseVendorDefinedResponse session_id received (λ reader,
  let? (p, _) := read_payload (λ _, SpdmVendorDefinedResponsePayload_codec) reader
    else invalid_field in
  ret (vp_rsp_payload p)).

(** The whole context is reset before the request is written. *)
(*@ spdmlib/src/requester/vendor_req.rs 10-63 RequesterContext::send_spdm_vendor_defined_request *)
Definition send_spdm_vendor_defined_request (session_id : option Z)
    (standard_id : RegistryOrStandardsBodyID) (vendor_id req_payload : sized)
    : SpdmM SpdmContext sized :=
  reset_buffers SpdmRequestVendorDefinedRequest session_id;;
  modify reset_context;;
  exchange session_id false
    (write_response SpdmRequestVendorDefinedRequest (SpdmVendorDefinedRequest
      {| vq_standard_id := standard_id; vq_vendor_id := vendor_id;
         vq_req_payload := req_payload |}))
    (λ _, handle_spdm_vendor_defined_respond session_id).

End ReqConnect.
