(* ===== verification/Encap.v ===== *)
(** Model of mutual authentication (feature mut-auth): the encapsulated requests with which the
    responder fetches the certificates of the requester, responder/encap_rsp.rs,
    encap_get_digest.rs and encap_get_certificate.rs, and the requester's side of them,
    requester/encap_req.rs, encap_digest.rs, encap_certificate.rs, encap_error.rs and
    mutual_authenticate.rs.

    In this build the context has one more part, [SpdmEncapContext], which stands beside the
    context here.  Functions that fill a writer are computations on [Wr], the two and the writer. *)

From S2P Require Import Prelude Config Codec Status Algo Protocol Crypto KeySchedule Buffers Session Context SpdmCodec Opaque MsgNegotiate MsgAuth MsgSession Message MsgEncap Endpoint Responder RspConnect RspSession RspDispatch Requester ReqConnect.

(*@ spdmlib/src/common/mod.rs 1484-1490 SpdmEncapContext *)
Record SpdmEncapContext := MkSpdmEncapContext {
  req_slot_id : Z;
  request_id : Z;
  encap_cert_size : Z;
}.
Definition SpdmEncapContext_default : SpdmEncapContext :=
  {| req_slot_id := 0; request_id := 0; encap_cert_size := 0 |}.
Definition set_cert_size (size : Z) (e : SpdmEncapContext) : SpdmEncapContext :=
  {| req_slot_id := req_slot_id e; request_id := request_id e; encap_cert_size := size |}.

Section Encap.
Context `{cfg : Config} `{sec : Secret} `{dev : SpdmDeviceIo} `{tr : SpdmTransportEncap}.
Context (mode : overflow_mode).

#[local] Abbreviation MAX_CHAIN := (as_u16 (Z.of_nat MAX_SPDM_CERT_CHAIN_DATA_SIZE)) (only parsing).
Abbreviation Ctx := (SpdmContext * SpdmEncapContext)%type (only parsing).
Abbreviation Wr := (SpdmContext * SpdmEncapContext * Writer)%type (only parsing).

(** A computation on the context and the writer. *)
Definition on_rsp {E A} : M (SpdmContext * Writer) E A → M Wr E A :=
  zoom (λ s, (s.1.1, s.2)) (λ v s, ((v.1, s.1.2), v.2)).

(** [SpdmMessage { header, payload }.spdm_encode(..)] for the messages of [MsgEncap]. *)
(*@ spdmlib/src/message/mod.rs 533-548 SpdmMessage as SpdmCodec *)
Definition write_encap {A} (code : SpdmRequestResponseCode) (codec : SpdmContext → SpdmCodec A)
    (payload : A) : SpdmM (SpdmContext * Writer) nat :=
  let* c := gets fst in
  on_snd (let* n1 := enc SpdmMessageHeader_codec
            {| hd_version := negotiated_version c; hd_request_response_code := code |} in
          let* n2 := spdm_encode (codec c) payload in
          ret (n1 + n2)%nat).

(** A function that fills a fresh send buffer. *)
Definition with_encap_buffer (c : SpdmM Wr unit) : SpdmM Ctx bytes := λ s,
  match c (s, Writer_init (replicate MAX_SPDM_MSG_SIZE 0)) with
  | (Ok _, (s', w)) => (Ok (Writer_used_slice w), s')
  | (Err e, (s', _)) => (Err e, s')
  | (Panic, (s', _)) => (Panic, s')
  end.

Definition encap_capable (c : SpdmContext) : bool :=
  req_has c SpdmRequestCapabilityFlags.ENCAP_CAP && rsp_has c SpdmResponseCapabilityFlags.ENCAP_CAP.

(** ** The responder *)

(** Nothing stops the caller after an error. *)
(*@ spdmlib/src/responder/encap_rsp.rs 122-159 ResponderContext::encap_check_version_cap_state *)
Definition encap_check_version_cap_state (request_response_code : Z)
    : SpdmM (SpdmContext * Writer) unit :=
  let* c := gets fst in
  (if version_below (negotiated_version c) SpdmVersion11
   then on_fst (send_spdm_error SpdmErrorUnsupportedRequest request_response_code) else ret tt);;
  let* c := gets fst in
  if negb (encap_capable c)
  then write_spdm_error SpdmErrorUnsupportedRequest request_response_code else
  if state_below SpdmConnectionAfterCertificate c then error SpdmErrorUnexpectedRequest else ret tt.

(*@ spdmlib/src/responder/encap_get_digest.rs 14-26 ResponderContext::encode_encap_request_get_digest *)
Definition encode_encap_request_get_digest : SpdmM (SpdmContext * Writer) unit :=
  write_response SpdmRequestGetDigests (SpdmGetDigestsRequest MkSpdmGetDigestsRequestPayload);;
  ret tt.

(*@ spdmlib/src/responder/encap_rsp.rs 39-75 ResponderContext::write_encap_request_response *)
Definition write_encap_request_response (bs : bytes) : SpdmM Wr unit :=
  let* s := gets fst in
  let c := s.1 in
  on_rsp (
    let? (header, _) := read_header bs else error SpdmErrorInvalidRequest in
    if decide (hd_version header ≠ negotiated_version c) then error SpdmErrorVersionMismatch else
    let? _ := write_encap SpdmResponseEncapsulatedRequest (λ _, SpdmEncapsulatedRequestPayload_codec)
        {| eq_request_id := request_id s.2 |} else error SpdmErrorUnspecified in
    let? _ := encode_encap_request_get_digest else error SpdmErrorInvalidResponseCode in
    ret tt).

(*@ spdmlib/src/responder/encap_rsp.rs 26-37 ResponderContext::handle_get_encapsulated_request *)
Definition handle_get_encapsulated_request (session_id : Z) (bs : bytes) : SpdmM Ctx unit :=
  let* rsp := with_encap_buffer
    (on_rsp (encap_check_version_cap_state
       (SpdmRequestResponseCode_get_u8 SpdmRequestGetEncapsulatedRequest));;
     write_encap_request_response bs) in
  on_fst (send_secured_message mode session_id rsp false).

(*@ spdmlib/src/responder/encap_get_digest.rs 28-53 ResponderContext::handle_encap_response_digest *)
Definition handle_encap_response_digest (encap_response : bytes) : SpdmM SpdmContext unit :=
  let bad := throw SPDM_STATUS_INVALID_MSG_FIELD in
  let? (header, reader) := read_header encap_response else bad in
  let* c := gets (λ c, c) in
  if decide (hd_version header ≠ negotiated_version c) then bad else
  if decide (hd_request_response_code header ≠ SpdmResponseDigests) then bad else
  let? _ := RequesterContext.read_payload SpdmDigestsResponsePayload_codec reader else bad in
  ret tt.

(*@ spdmlib/src/responder/encap_get_certificate.rs 26-59 ResponderContext::encode_encap_requst_get_certificate *)
Definition encode_encap_requst_get_certificate : SpdmM Wr unit :=
  on_rsp (on_fst (modify (λ c,
    match peer_cert_chain_temp (peer_info c) with
    | None => set_chain_temp (Some empty_chain) c
    | Some _ => c
    end)));;
  let* s := gets fst in
  let* temp := unwrap (peer_cert_chain_temp (peer_info s.1)) in
  on_rsp (write_response SpdmRequestGetCertificate (SpdmGetCertificateRequest
    {| gc_slot_id := req_slot_id s.2; gc_offset := Z.of_nat (data_size temp);
       gc_length := Z.of_nat MAX_SPDM_CERT_PORTION_LEN |}));;
  ret tt.

(*@ spdmlib/src/responder/encap_rsp.rs 228-234 ResponderContext::handle_encap_error_response_main *)
Definition handle_encap_error_response_main {S A} (error_code : Z) : SpdmM S A :=
  if error_code =? SpdmErrorCode_get_u8 SpdmErrorResponseNotReady
  then throw SPDM_STATUS_NOT_READY_PEER else throw SPDM_STATUS_UNSUPPORTED_CAP.

(** The checks on a portion of the certificates and the size of all of them. *)
(*@ spdmlib/src/responder/encap_get_certificate.rs 88-119 ResponderContext::handle_encap_response_certificate *)
Definition check_encap_portion (offset : Z) (p : SpdmCertificateResponsePayload) : SpdmM Ctx unit :=
  let bad := throw SPDM_STATUS_INVALID_MSG_FIELD in
  let portion := cr_portion_length p in
  let remainder := cr_remainder_length p in
  if Z.of_nat MAX_SPDM_CERT_PORTION_LEN <? portion then bad else
  let* room := sub_u16 mode MAX_CHAIN offset in
  if room <? portion then bad else
  let* rest := sub_u16 mode room portion in
  if rest <=? remainder then bad else
  let* s := gets (λ s, s) in
  if negb (cr_slot_id p =? req_slot_id s.2) then bad else
  (if offset =? 0
   then let* n := add_u16 mode portion remainder in on_snd (modify (set_cert_size n))
   else ret tt);;
  let* s := gets (λ s, s) in
  if encap_cert_size s.2 =? 0 then ret tt else
  let* n := add_u16 mode offset portion in
  let* n := add_u16 mode n remainder in
  if negb (encap_cert_size s.2 =? n) then bad else ret tt.

(** The checks are those of the requester. *)
(*@ spdmlib/src/responder/encap_get_certificate.rs 165-260 ResponderContext::verify_spdm_certificate_chain *)
Definition encap_verify_spdm_certificate_chain : SpdmM SpdmContext unit :=
  verify_spdm_certificate_chain.

(** What follows when the last portion has come. *)
(*@ spdmlib/src/responder/encap_get_certificate.rs 152-162 ResponderContext::handle_encap_response_certificate *)
Definition accept_encap_chain : SpdmM Ctx bool :=
  let* s := gets (λ s, s) in
  let slot := req_slot_id s.2 in
  on_fst (
    let* r := attempt encap_verify_spdm_certificate_chain in
    match r with
    | inr _ =>
        let* c := gets (λ c, c) in
        (assert! (Z.to_nat slot <? length (peer_cert_chain (peer_info c)))%nat);;
        modify (λ c, c <| peer_info ::= λ i,
          i <| peer_cert_chain ::= <[Z.to_nat slot := peer_cert_chain_temp i]> |> |>);;
        modify (λ c, c <| runtime_info ::= λ r, r <| peer_used_cert_chain_slot_id := slot |> |>);;
        modify (set_chain_temp None);;
        ret false
    | inl e => modify (set_chain_temp None);; throw e
    end).

(** A portion of the certificates; the result says whether more are to come. *)
(*@ spdmlib/src/responder/encap_get_certificate.rs 61-163 ResponderContext::handle_encap_response_certificate *)
Definition handle_encap_response_certificate (encap_response : bytes) : SpdmM Ctx bool :=
  let bad := throw SPDM_STATUS_INVALID_MSG_FIELD in
  let? (header, reader) := read_header encap_response else bad in
  let* s := gets (λ s, s) in
  if decide (hd_version header ≠ negotiated_version s.1) then bad else
  if decide (hd_request_response_code header = SpdmResponseCertificate) then
    let? (p, _) := resume reader (spdm_read SpdmCertificateResponsePayload_codec) else bad in
    let* temp := ok_or SPDM_STATUS_INVALID_STATE_LOCAL (peer_cert_chain_temp (peer_info s.1)) in
    let offset := Z.of_nat (data_size temp) in
    check_encap_portion offset p;;
    let* portion := sub_slice 0 (Z.to_nat (cr_portion_length p)) (cr_cert_chain p) in
    let* chain := slice_copy (data temp) (Z.to_nat offset) portion in
    let* size := add_u16 mode offset (cr_portion_length p) in
    on_fst (modify (set_chain_temp (Some {| data_size := Z.to_nat size; data := chain |})));;
    let* s := gets (λ s, s) in
    if encap_cert_size s.2 =? 0
    then on_fst (modify (set_chain_temp None));; throw SPDM_STATUS_INVALID_CERT else
    if negb (cr_remainder_length p =? 0) then ret true else
    accept_encap_chain
  else if decide (hd_request_response_code header = SpdmResponseError) then
    let* (payload, _) := map_err (λ _, SPDM_STATUS_INVALID_MSG_SIZE)
      (resume reader (read SpdmMessageGeneralPayload_codec)) in
    handle_encap_error_response_main (gp_param1 payload)
  else throw SPDM_STATUS_ERROR_PEER.

Definition write_ack (ack_request_id : Z) (t : SpdmEncapsulatedResponseAckPayloadType) : SpdmM Wr nat :=
  let* s := gets fst in
  on_rsp (let* c := gets fst in
          on_snd (spdm_encode (SpdmEncapsulatedResponseAckPayload_codec c)
            {| ea_request_id := request_id s.2; ea_payload_type := t; ea_ack_request_id := ack_request_id |})).

(*@ spdmlib/src/responder/encap_rsp.rs 161-226 ResponderContext::process_encapsulated_response *)
Definition process_encapsulated_response (ack_request_id : Z) (encap_response : bytes)
    : SpdmM Wr unit :=
  let? (header, _) := read_header encap_response else throw SPDM_STATUS_INVALID_MSG_SIZE in
  let* s := gets fst in
  if decide (hd_version header ≠ negotiated_version s.1)
  then throw SPDM_STATUS_INVALID_MSG_FIELD else
  attempt (on_snd (encode SpdmMessageHeader_codec
    {| hd_version := negotiated_version s.1;
       hd_request_response_code := SpdmResponseEncapsulatedResponseAck |}));;
  match hd_request_response_code header with
  | SpdmResponseDigests =>
      on_fst (on_fst (handle_encap_response_digest encap_response));;
      attempt (write_ack ack_request_id Present);;
      encode_encap_requst_get_certificate
  | SpdmResponseCertificate =>
      let* r := attempt (on_fst (handle_encap_response_certificate encap_response)) in
      match r with
      | inr true => write_ack ack_request_id Present;; encode_encap_requst_get_certificate
      | inr false =>
          write_ack ack_request_id ReqSlotNumber;;
          let* s := gets fst in
          on_snd (enc u8_codec (req_slot_id s.2));;
          ret tt
      | inl e =>
          if decide (e = SPDM_STATUS_NOT_READY_PEER)
          then write_ack ack_request_id Absent;; ret tt else throw e
      end
  | _ => throw SPDM_STATUS_UNSUPPORTED_CAP
  end.

(*@ spdmlib/src/responder/encap_rsp.rs 94-120 ResponderContext::write_encap_response_ack_response *)
Definition write_encap_response_ack_response (bs : bytes) : SpdmM Wr unit :=
  let? (header, reader) := read_header bs else on_rsp (error SpdmErrorInvalidRequest) in
  let* s := gets fst in
  if decide (hd_version header ≠ negotiated_version s.1)
  then on_rsp (error SpdmErrorVersionMismatch) else
  let? (p, reader) := resume reader (spdm_read SpdmDeliverEncapsulatedResponsePayload_codec)
    else on_rsp (error SpdmErrorInvalidRequest) in
  let* encap_response := sub_slice (Reader_used reader) (length bs) bs in
  let? _ := process_encapsulated_response (de_request_id p) encap_response
    else on_rsp (error SpdmErrorInvalidResponseCode) in
  ret tt.

(** What is sent in return: the acknowledgement. *)
(*@ spdmlib/src/responder/encap_rsp.rs 82-89 ResponderContext::handle_deliver_encapsulated_reponse *)
Definition encap_response_ack (bs : bytes) : SpdmM Ctx bytes :=
  with_encap_buffer
    (on_rsp (encap_check_version_cap_state
       (SpdmRequestResponseCode_get_u8 SpdmRequestGetEncapsulatedRequest));;
     write_encap_response_ack_response bs).

(*@ spdmlib/src/responder/encap_rsp.rs 77-92 ResponderContext::handle_deliver_encapsulated_reponse *)
Definition handle_deliver_encapsulated_reponse (session_id : Z) (bs : bytes) : SpdmM Ctx unit :=
  let* rsp := encap_response_ack bs in
  on_fst (send_secured_message mode session_id rsp false).

(** ** The requester *)

(*@ spdmlib/src/requester/encap_error.rs 19-39 RequesterContext::encode_encap_error_response *)
Definition encode_encap_error_response (error_code : SpdmErrorCode) (error_data : Z)
    : SpdmM (SpdmContext * Writer) unit :=
  attempt (write_response SpdmResponseError (SpdmErrorResponse
    {| er_error_code := error_code; er_error_data := error_data;
       er_extended_data := SpdmErrorExtDataNone |}));;
  ret tt.

(** The checks that both encapsulated requests begin with. *)
(*@ spdmlib/src/requester/encap_digest.rs 27-61 RequesterContext::encap_handle_get_digest *)
Definition expect_encap (encap_request : bytes)
    (k : Reader → SpdmM (SpdmContext * Writer) unit) : SpdmM (SpdmContext * Writer) unit :=
  let* c := gets fst in
  if negb (req_has c SpdmRequestCapabilityFlags.CERT_CAP)
  then encode_encap_error_response SpdmErrorUnsupportedRequest 0 else
  let? (header, reader) := read_header encap_request
    else encode_encap_error_response SpdmErrorInvalidRequest 0 in
  if decide (hd_version header ≠ negotiated_version c)
  then encode_encap_error_response SpdmErrorVersionMismatch 0 else k reader.

(*@ spdmlib/src/requester/encap_digest.rs 26-128 RequesterContext::encap_handle_get_digest *)
Definition encap_handle_get_digest (encap_request : bytes) : SpdmM (SpdmContext * Writer) unit :=
  expect_encap encap_request (λ reader,
  let? _ := resume reader (spdm_read SpdmGetDigestsRequestPayload_codec)
    else encode_encap_error_response SpdmErrorInvalidRequest 0 in
  let* c := gets fst in
  let* slot_mask := provisioned_mask c (seq 0 SPDM_MAX_SLOT_NUMBER) in
  let* digest_size := of_outcome (get_hash_size c) in
  let? _ := write_response SpdmResponseDigests (SpdmDigestsResponse
      {| dg_slot_mask := slot_mask;
         dg_digests := replicate SPDM_MAX_SLOT_NUMBER
           {| data_size := digest_size; data := replicate SPDM_MAX_HASH_SIZE 0xff |} |})
    else encode_encap_error_response SpdmErrorUnspecified 0 in
  patch_digests c (seq 0 SPDM_MAX_SLOT_NUMBER)).

(*@ spdmlib/src/requester/encap_certificate.rs 20-140 RequesterContext::encap_handle_get_certificate *)
Definition encap_handle_get_certificate (encap_request : bytes)
    : SpdmM (SpdmContext * Writer) unit :=
  let bad := encode_encap_error_response SpdmErrorInvalidRequest 0 in
  expect_encap encap_request (λ reader,
  let? (q, _) := resume reader (spdm_read SpdmGetCertificateRequestPayload_codec) else bad in
  if negb (gc_slot_id q =? 0) then bad else
  let slot := Z.to_nat (gc_slot_id q) in
  if (SPDM_MAX_SLOT_NUMBER <=? slot)%nat then bad else
  let* c := gets fst in
  let* chain := local_chain c slot in
  match chain with
  | None => bad
  | Some chain =>
      match cert_portion (Z.of_nat (data_size chain)) (gc_offset q) (gc_length q) with
      | None => bad
      | Some (portion, remainder) =>
          let offset := Z.to_nat (gc_offset q) in
          let* part := sub_slice offset (offset + Z.to_nat portion) (data chain) in
          let* cert_chain := slice_copy (replicate MAX_SPDM_CERT_PORTION_LEN 0) 0 part in
          attempt (write_response SpdmResponseCertificate (SpdmCertificateResponse
            {| cr_slot_id := Z.of_nat slot; cr_portion_length := portion;
               cr_remainder_length := remainder; cr_cert_chain := cert_chain |}));;
          ret tt
      end
  end).

(** What is sent in return: the response in a DELIVER_ENCAPSULATED_RESPONSE. *)
(*@ spdmlib/src/requester/encap_req.rs 181-213 RequesterContext::process_encapsulated_request *)
Definition encapsulated_answer (request_id : Z) (encap_request : bytes) : SpdmM SpdmContext bytes :=
  with_send_buffer (
    write_encap SpdmRequestDeliverEncapsulatedResponse
      (λ _, SpdmDeliverEncapsulatedResponsePayload_codec) {| de_request_id := request_id |};;
    let? (header, _) := read_header encap_request else throw SPDM_STATUS_INVALID_MSG_FIELD in
    match hd_request_response_code header with
    | SpdmRequestGetDigests => encap_handle_get_digest encap_request
    | SpdmRequestGetCertificate => encap_handle_get_certificate encap_request
    | _ => encode_encap_error_response SpdmErrorUnexpectedRequest 0
    end).

(*@ spdmlib/src/requester/encap_req.rs 175-216 RequesterContext::process_encapsulated_request *)
Definition process_encapsulated_request (session_id request_id : Z) (encap_request : bytes)
    : SpdmM SpdmContext unit :=
  let* rsp := encapsulated_answer request_id encap_request in
  RequesterContext.send_secured_message mode session_id rsp false.

(** The size of the message received and the whole buffer, from which the source reads. *)
Definition receive_secured_buffer (session_id : Z) : SpdmM SpdmContext (nat * bytes) :=
  let* timeout := RequesterContext.response_timeout mode false in
  let* (used, transport_buffer) := map_err (λ _, SPDM_STATUS_RECEIVE_FAIL)
    (RequesterContext.with_receive_buffer RECEIVER_BUFFER_SIZE
       (RequesterContext.device_receive timeout)) in
  let* packet := sub_slice 0 used transport_buffer in
  RequesterContext.with_receive_buffer MAX_SPDM_MSG_SIZE
    (decode_secured_message mode session_id packet).

(** The header of what the responder sends must have the code. *)
Definition expect_from_responder (code : SpdmRequestResponseCode) (bs : bytes)
    : SpdmM SpdmContext Reader :=
  let* (header, reader) := map_err (λ _, SPDM_STATUS_INVALID_MSG_SIZE) (read_header bs) in
  let* c := gets (λ c, c) in
  if bool_decide (negotiated_version c ≠ hd_version header) ||
     bool_decide (hd_request_response_code header ≠ code)
  then throw SPDM_STATUS_INVALID_MSG_FIELD else ret reader.

(*@ spdmlib/src/requester/encap_req.rs 82-97 RequesterContext::send_get_encapsulated_request *)
Definition send_get_encapsulated_request (session_id : Z) : SpdmM SpdmContext unit :=
  let* rsp := λ c,
    match write_encap SpdmRequestGetEncapsulatedRequest
            (λ _, SpdmGetEncapsulatedRequestPayload_codec) MkSpdmGetEncapsulatedRequestPayload
            (c, Writer_init (replicate 4 0)) with
    | (Ok _, (c', w)) => (Ok (Writer_used_slice w), c')
    | (Err e, (c', _)) => (Err e, c')
    | (Panic, (c', _)) => (Panic, c')
    end in
  RequesterContext.send_secured_message mode session_id rsp false.

(*@ spdmlib/src/requester/encap_req.rs 99-121 RequesterContext::receive_encapsulated_request *)
Definition receive_encapsulated_request (session_id : Z) : SpdmM SpdmContext unit :=
  let* (_, buf) := receive_secured_buffer session_id in
  let* reader := expect_from_responder SpdmResponseEncapsulatedRequest buf in
  let* (p, reader) := map_err (λ _, SPDM_STATUS_INVALID_MSG_SIZE)
    (resume reader (spdm_read SpdmEncapsulatedRequestPayload_codec)) in
  let* rest := sub_slice (Reader_used reader) (length buf) buf in
  process_encapsulated_request session_id (eq_request_id p) rest.

(** An acknowledgement of [size] bytes in the buffer: the next encapsulated request, with its
    identifier, or none. *)
(*@ spdmlib/src/requester/encap_req.rs 126-171 RequesterContext::receive_encapsulated_response_ack *)
Definition read_response_ack (size : nat) (buf : bytes) : SpdmM SpdmContext (option (Z * bytes)) :=
  let* reader := expect_from_responder SpdmResponseEncapsulatedResponseAck buf in
  let* c := gets (λ c, c) in
  let* (p, reader) := map_err (λ _, SPDM_STATUS_INVALID_MSG_SIZE)
    (resume reader (spdm_read (SpdmEncapsulatedResponseAckPayload_codec c))) in
  match ea_payload_type p with
  | Absent =>
      if (size =? ENCAPSULATED_RESPONSE_ACK_HEADER_SIZE)%nat then ret None
      else throw SPDM_STATUS_INVALID_MSG_SIZE
  | ReqSlotNumber =>
      if (size =? ENCAPSULATED_RESPONSE_ACK_HEADER_SIZE + 1)%nat then
        let* (slot, _) := map_err (λ _, SPDM_STATUS_INVALID_MSG_SIZE)
          (resume reader (read u8_codec)) in
        if Z.of_nat SPDM_MAX_SLOT_NUMBER <=? slot then throw SPDM_STATUS_INVALID_MSG_FIELD else
        modify (λ c, c <| runtime_info ::= λ r, r <| local_used_cert_chain_slot_id := slot |> |>);;
        ret None
      else throw SPDM_STATUS_INVALID_MSG_SIZE
  | _ =>
      let* rest := sub_slice (Reader_used reader) (length buf) buf in
      ret (Some (ea_request_id p, rest))
  end.

(** The result says whether another response is to be awaited. *)
(*@ spdmlib/src/requester/encap_req.rs 123-173 RequesterContext::receive_encapsulated_response_ack *)
Definition receive_encapsulated_response_ack (session_id : Z) : SpdmM SpdmContext bool :=
  let* (size, buf) := receive_secured_buffer session_id in
  let* next := read_response_ack size buf in
  match next with
  | None => ret false
  | Some (request_id, request) =>
      process_encapsulated_request session_id request_id request;;
      ret true
  end.

(** [while ..? {}]; the source does not bound it, [None] says that it has not ended after [turns]
    messages. *)
(*@ spdmlib/src/requester/encap_req.rs 78-78 RequesterContext::get_encapsulated_request_response *)
Fixpoint ack_loop (turns : nat) (session_id : Z) : SpdmM SpdmContext (option unit) :=
  match turns with
  | O => ret None
  | S turns =>
      let* more := receive_encapsulated_response_ack session_id in
      if (more : bool) then ack_loop turns session_id else ret (Some tt)
  end.

(*@ spdmlib/src/requester/encap_req.rs 29-80 RequesterContext::get_encapsulated_request_response *)
Definition get_encapsulated_request_response (turns : nat) (session_id mut_auth_requested : Z)
    : SpdmM SpdmContext (option unit) :=
  let* c := gets (λ c, c) in
  if version_below (negotiated_version c) SpdmVersion11 then throw SPDM_STATUS_UNSUPPORTED_CAP else
  if negb (encap_capable c) then throw SPDM_STATUS_UNSUPPORTED_CAP else
  (if mut_auth_requested =? SpdmKeyExchangeMutAuthAttributes.MUT_AUTH_REQ_WITH_GET_DIGESTS then
     let* request := λ c,
       match write_response SpdmRequestGetDigests
               (SpdmGetDigestsRequest MkSpdmGetDigestsRequestPayload)
               (c, Writer_init (replicate 4 0)) with
       | (Ok _, (c', w)) => (Ok (wr_buf w), c')
       | (Err e, (c', _)) => (Err e, c')
       | (Panic, (c', _)) => (Panic, c')
       end in
     process_encapsulated_request session_id 0 request
   else
     send_get_encapsulated_request session_id;;
     receive_encapsulated_request session_id);;
  ack_loop turns session_id.

(*@ spdmlib/src/requester/mutual_authenticate.rs 13-31 RequesterContext::session_based_mutual_authenticate *)
Definition session_based_mutual_authenticate (turns : nat) (session_id : Z)
    : SpdmM SpdmContext (option unit) :=
  construct_my_cert_chain mode;;
  let* c := gets (λ c, c) in
  match get_immutable_session_via_id session_id c with
  | None => throw SPDM_STATUS_INVALID_STATE_LOCAL
  | Some s =>
      let m := mut_auth_requested s in
      if m =? SpdmKeyExchangeMutAuthAttributes.MUT_AUTH_REQ then ret (Some tt) else
      if (m =? SpdmKeyExchangeMutAuthAttributes.MUT_AUTH_REQ_WITH_ENCAP_REQUEST)
         || (m =? SpdmKeyExchangeMutAuthAttributes.MUT_AUTH_REQ_WITH_GET_DIGESTS)
      then get_encapsulated_request_response turns session_id m
      else throw SPDM_STATUS_INVALID_MSG_FIELD
  end.

(** ** Secured messages of a responder with mutual authentication *)

Context `{handlers : !SpdmHandlers}.

(*@ spdmlib/src/responder/context.rs 254-261 ResponderContext::dispatch_secured_message *)
Definition encap_dispatch_handshake (session_id : Z) (code : SpdmRequestResponseCode) (bs : bytes)
    : SpdmM Ctx unit :=
  match code with
  | SpdmRequestGetEncapsulatedRequest => handle_get_encapsulated_request session_id bs
  | SpdmRequestDeliverEncapsulatedResponse => handle_deliver_encapsulated_reponse session_id bs
  | _ => on_fst (dispatch_handshake mode session_id code bs)
  end.

(*@ spdmlib/src/responder/context.rs 227-361 ResponderContext::dispatch_secured_message *)
Definition encap_dispatch_secured_message (session_id : Z) (bs : bytes) : SpdmM Ctx unit :=
  let* s := gets fst in
  match session_state <$> get_immutable_session_via_id session_id s with
  | Some SpdmSessionHandshaking =>
      if in_clear_text s then throw SPDM_STATUS_UNSUPPORTED_CAP else
      let* (header, _) := some_or SPDM_STATUS_UNSUPPORTED_CAP (read_header bs) in
      encap_dispatch_handshake session_id (hd_request_response_code header) bs
  | _ => on_fst (dispatch_secured_message mode session_id bs)
  end.

End Encap.
