(* ===== verification/ReqSession.v ===== *)
(** Model of the requests that set up, use and end sessions: requester/key_exchange_req.rs,
    finish_req.rs, psk_exchange_req.rs, psk_finish_req.rs, heartbeat_req.rs, key_update_req.rs
    and end_session_req.rs, and of [start_session] and [end_session] of requester/context.rs. *)

From S2P Require Import Prelude Config Codec Status Algo Protocol Crypto KeySchedule Buffers Session Context SpdmCodec Opaque MsgNegotiate MsgAuth MsgSession Message Endpoint Requester ReqConnect.
Import RequesterContext.

Section ReqSession.
Context `{cfg : Config} `{sec : Secret} `{dev : SpdmDeviceIo} `{tr : SpdmTransportEncap}.
Context (mode : overflow_mode).

(** [get_immutable_session_via_id(id).unwrap()] and [get_session_via_id(id).unwrap()]. *)
Definition the_session (id : Z) : SpdmM SpdmContext SpdmSession :=
  let* c := gets (λ c, c) in unwrap (get_immutable_session_via_id id c).
Definition on_the_session {A} (id : Z) (c : SpdmM SpdmSession A) : SpdmM SpdmContext A :=
  with_session id panic c.

(** The session is given up and the call fails. *)
Definition abandon_session {A} (id : Z) (e : SpdmStatus) : SpdmM SpdmContext A :=
  teardown_session id panic;; throw e.

(** The hash of the transcript of a session. *)
Definition transcript_hash (id : Z) : SpdmM SpdmContext SpdmDigestStruct :=
  let* s := the_session id in calc_req_transcript_hash s.

(** The versions of secured messages that the requester offers. *)
(*@ spdmlib/src/requester/key_exchange_req.rs 85-112 RequesterContext::encode_spdm_key_exchange *)
Definition version_list (c : SpdmContext) : SpdmM Rsp SpdmOpaqueStruct :=
  let fill (bs : bytes) : SpdmM Rsp SpdmOpaqueStruct :=
    let* d := slice_copy (data empty_opaque) 0 bs in
    ret {| data_size := length bs; data := d |} in
  if version_below (negotiated_version c) SpdmVersion12
  then fill REQ_DMTF_OPAQUE_DATA_SUPPORT_VERSION_LIST_DSP0277
  else if opaque_data_support (negotiate_info c) =? SpdmOpaqueSupport.OPAQUE_DATA_FMT1
  then fill REQ_DMTF_OPAQUE_DATA_SUPPORT_VERSION_LIST_DSP0274_FMT1
  else throw SPDM_STATUS_UNSUPPORTED_CAP.

(** The version the responder selected; opaque data that does not parse selects 0. *)
(*@ spdmlib/src/requester/key_exchange_req.rs 200-208 RequesterContext::handle_spdm_key_exhcange_response *)
Definition selected_version (o : SpdmOpaqueStruct) : SpdmM SpdmContext Z :=
  let* c := gets (λ c, c) in
  let? v := req_get_dmtf_secure_spdm_version_selection c o else ret 0 in
  get_secure_spdm_version v.

(** ** KEY_EXCHANGE *)

(*@ spdmlib/src/requester/key_exchange_req.rs 67-131 RequesterContext::encode_spdm_key_exchange *)
Definition encode_spdm_key_exchange (req_session_id slot_id : Z)
    (t : SpdmMeasurementSummaryHashType) : SpdmM Rsp (DhePrivate * nat) :=
  let* random := random_array SPDM_RANDOM_SIZE in
  let* c := gets fst in
  let* (exchange, private) := some_or SPDM_STATUS_CRYPTO_ERROR
    (on_fst (on_world (generate_key_pair (dhe_sel (negotiate_info c))))) in
  let* opaque := version_list c in
  write_response SpdmRequestKeyExchange (SpdmKeyExchangeRequest
    {| kq_measurement_summary_hash_type := t; kq_slot_id := slot_id;
       kq_req_session_id := req_session_id;
       kq_session_policy := config_session_policy (config_info c);
       kq_random := random; kq_exchange := exchange; kq_opaque := opaque |});;
  let* w := gets snd in
  ret (private, Writer_used w).

(*@ spdmlib/src/requester/key_exchange_req.rs 418-474 RequesterContext::verify_key_exchange_rsp_signature *)
Definition verify_key_exchange_rsp_signature (slot_id : Z) (s : SpdmSession)
    (signature : SpdmSignatureStruct) : SpdmM SpdmContext unit :=
  let* h := calc_req_transcript_hash s in
  verify_transcript slot_id SPDM_VERSION_1_2_SIGNING_CONTEXT_ZEROPAD_2
    SPDM_KEY_EXCHANGE_RESPONSE_SIGN_CONTEXT h signature.

(** The session in a free entry of the table.  When the keys cannot be derived the entry stays
    taken. *)
(*@ spdmlib/src/requester/key_exchange_req.rs 251-271 RequesterContext::handle_spdm_key_exhcange_response *)
Definition start_dhe_session (c : SpdmContext) (session_id mut_auth_req : Z)
    (final_key : SpdmDheFinalKeyStruct) (cert_chain_hash : SpdmDigestStruct)
    : SpdmM SpdmSession unit :=
  SpdmSession_setup session_id;;
  modify (λ s, set_session_params c
    (s <| use_psk := false |> <| mut_auth_requested := mut_auth_req |>));;
  SpdmSession_set_dhe_secret (negotiated_version c) final_key;;
  modify (λ s, s <| s_runtime_info ::= λ r,
    r <| s_message_a := message_a (runtime_info c) |>
      <| rsp_cert_hash := Some cert_chain_hash |> <| req_cert_hash := None |> |>).

(** The response proves, unless the handshake is in the clear, that the responder has the
    handshake keys; otherwise the session is given up. *)
(*@ spdmlib/src/requester/key_exchange_req.rs 335-374 RequesterContext::handle_spdm_key_exhcange_response *)
Definition check_response_hmac (session_id : Z) (verify_data : SpdmDigestStruct)
    : SpdmM SpdmContext unit :=
  let* th := transcript_hash session_id in
  let* s := the_session session_id in
  let* th := sized_as_ref th in
  let? _ := verify_hmac_with_response_finished_key s th verify_data
    else abandon_session session_id SPDM_STATUS_VERIF_FAIL in
  let* vd := sized_as_ref verify_data in
  let? _ := append_message_k session_id vd
    else abandon_session session_id SPDM_STATUS_BUFFER_FULL in
  ret tt.

(** The transcript of the session gets the request and the response up to the signature, which
    must be of its hash; the signature goes in as well, and the keys are derived. *)
(*@ spdmlib/src/requester/key_exchange_req.rs 273-327 RequesterContext::handle_spdm_key_exhcange_response *)
Definition authenticate_key_exchange (session_id slot_id : Z) (in_clear : bool)
    (signature : SpdmSignatureStruct) (sent received : bytes) (reader : Reader)
    : SpdmM SpdmContext unit :=
  let* c := gets (λ c, c) in
  let* asym_size := of_outcome (get_asym_key_size c) in
  let* hash_size := of_outcome (get_hash_size c) in
  let* before_sig := sub_usize (Reader_used reader) asym_size in
  let* temp_used := if in_clear then ret before_sig else sub_usize before_sig hash_size in
  append_message_k session_id sent;;
  let* part := sub_slice 0 temp_used received in
  append_message_k session_id part;;
  let* s := the_session session_id in
  let? _ := verify_key_exchange_rsp_signature slot_id s signature
    else throw SPDM_STATUS_VERIF_FAIL in
  let* sig := sized_as_ref signature in
  append_message_k session_id sig;;
  let* th1 := transcript_hash session_id in
  on_the_session session_id
    (SpdmSession_generate_handshake_secret (negotiated_version c) th1).

(*@ spdmlib/src/requester/key_exchange_req.rs 133-416 RequesterContext::handle_spdm_key_exhcange_response *)
Definition handle_spdm_key_exhcange_response (req_session_id slot_id : Z)
    (t : SpdmMeasurementSummaryHashType) (private : DhePrivate) (sent received : bytes)
    : SpdmM SpdmContext Z :=
  need_summary_hash t;;
  expect_response SpdmResponseKeyExchangeRsp None received (λ reader,
  let? (p, reader) := read_payload SpdmKeyExchangeResponsePayload_codec reader
    else invalid_field in
  let* final_key := some_or SPDM_STATUS_CRYPTO_ERROR
    (on_world (compute_final_key private (kp_exchange p))) in
  let* secure_version := selected_version (kp_opaque p) in
  let id := session_id_of (kp_rsp_session_id p) req_session_id in
  let* c := gets (λ c, c) in
  let? cert_chain_hash := of_outcome (get_certchain_hash_peer false (Z.to_nat slot_id) c)
    else invalid_field in
  with_next_avaiable_session (throw SPDM_STATUS_SESSION_NUMBER_EXCEED)
    (start_dhe_session c id (kp_mut_auth_req p) final_key cert_chain_hash);;
  authenticate_key_exchange id slot_id (in_clear_text c) (kp_signature p) sent received reader;;
  (if in_clear_text c then ret tt else check_response_hmac id (kp_verify_data p));;
  on_the_session id (modify (λ s,
    s <| secure_spdm_version_sel := secure_version |>
      <| heartbeat_period := kp_heartbeat_period p |>
      <| session_state := SpdmSessionHandshaking |>));;
  (if in_clear_text c then
     modify (λ c, c <| runtime_info ::= λ r, r <| last_session_id := Some id |> |>)
   else ret tt);;
  ret id).

(*@ spdmlib/src/requester/key_exchange_req.rs 29-65 RequesterContext::send_receive_spdm_key_exchange *)
Definition send_receive_spdm_key_exchange (slot_id : Z) (t : SpdmMeasurementSummaryHashType)
    : SpdmM SpdmContext Z :=
  if Z.of_nat SPDM_MAX_SLOT_NUMBER <=? slot_id then throw SPDM_STATUS_INVALID_PARAMETER else
  let* c := gets (λ c, c) in
  let* req_session_id := of_outcome (get_next_half_session_id true c) in
  reset_buffers SpdmRequestKeyExchange None;;
  let* (r, buf) := with_request_buffer (encode_spdm_key_exchange req_session_id slot_id t) in
  let '(private, used) := r in
  let* sent := sub_slice 0 used buf in
  send_message sent;;
  let* received := receive_message mode false in
  handle_spdm_key_exhcange_response req_session_id slot_id t private sent received.

(** ** FINISH *)

(** The signature of the requester is checked before it is sent; a failure is a panic. *)
(*@ spdmlib/src/requester/finish_req.rs 352-413 RequesterContext::generate_finish_req_signature *)
Definition generate_finish_req_signature (s : SpdmSession) : SpdmM SpdmContext SpdmSignatureStruct :=
  let* h := calc_req_transcript_hash s in
  let* c := gets (λ c, c) in
  let n := negotiate_info c in
  if version_below (spdm_version_sel n) SpdmVersion12
  then throw SPDM_STATUS_INVALID_STATE_LOCAL else
  let* h := sized_as_ref h in
  let* message := signing_message SPDM_VERSION_1_2_SIGNING_CONTEXT_ZEROPAD_12
    SPDM_FINISH_SIGN_CONTEXT h in
  let* signature := some_or SPDM_STATUS_CRYPTO_ERROR
    (on_world (asym_sign (base_hash_sel n) (base_asym_sel n) message)) in
  let slot := Z.to_nat (local_used_cert_chain_slot_id (runtime_info c)) in
  let* mine := unwrap (my_cert_chain (provision_info c) !! slot) in
  let* mine := ok_or SPDM_STATUS_INVALID_PARAMETER mine in
  let* hash_size := of_outcome (get_hash_size c) in
  let* theirs := unwrap (peer_cert_chain (peer_info c) !! slot) in
  let* theirs := ok_or SPDM_STATUS_INVALID_PARAMETER theirs in
  let* peer_cert := sub_slice (4 + hash_size) (data_size theirs) (data mine) in
  expect (of_outcome (asym_verify (base_hash_sel n) (base_asym_sel n) peer_cert message signature));;
  ret signature.

(*@ spdmlib/src/requester/finish_req.rs 106-183 RequesterContext::encode_spdm_finish *)
Definition encode_spdm_finish (session_id req_slot_id : Z) : SpdmM Rsp nat :=
  let* c := gets fst in
  let* s := ok_or SPDM_STATUS_INVALID_STATE_LOCAL (get_immutable_session_via_id session_id c) in
  let is_mut_auth := negb (mut_auth_requested s =? 0) in
  let* sig_size :=
    if is_mut_auth then of_outcome (SpdmReqAsymAlgo.get_size (req_asym_sel (negotiate_info c)))
    else ret 0%nat in
  let* hash_size := of_outcome (get_hash_size c) in
  let* send_used := write_response SpdmRequestFinish (SpdmFinishRequest
    {| fq_finish_request_attributes :=
         if is_mut_auth then SpdmFinishRequestAttributes.SIGNATURE_INCLUDED else 0;
       fq_req_slot_id := req_slot_id;
       fq_signature := placeholder sig_size SPDM_MAX_ASYM_KEY_SIZE 0;
       fq_verify_data := placeholder hash_size SPDM_MAX_HASH_SIZE 0xcc |}) in
  let* w := gets snd in
  let* header := sub_slice 0 4 (wr_buf w) in
  on_fst (append_message_f true session_id header);;
  let* c := gets fst in
  let* s := ok_or SPDM_STATUS_INVALID_STATE_LOCAL (get_immutable_session_via_id session_id c) in
  (if negb (mut_auth_requested s =? 0) then
     let* signature := on_fst (generate_finish_req_signature s) in
     let* sig := sized_as_ref signature in
     on_snd (Writer_patch 4 (4 + data_size signature) sig);;
     on_fst (append_message_f true session_id sig)
   else ret tt);;
  let* th := on_fst (transcript_hash session_id) in
  let* s := on_fst (the_session session_id) in
  let* th := sized_as_ref th in
  let* hmac := generate_hmac_with_request_finished_key s th in
  let* mac := sized_as_ref hmac in
  on_fst (append_message_f true session_id mac);;
  let* at_hmac := sub_usize send_used hash_size in
  on_snd (Writer_patch at_hmac send_used mac);;
  ret send_used.

(** In the clear the response carries the proof that the responder has the handshake keys. *)
(*@ spdmlib/src/requester/finish_req.rs 222-267 RequesterContext::handle_spdm_finish_response *)
Definition check_finish_response (session_id : Z) (in_clear : bool)
    (verify_data : SpdmDigestStruct) (hash_size : nat) (received : bytes) (reader : Reader)
    : SpdmM SpdmContext unit :=
  if in_clear then
    let* temp_used := sub_usize (Reader_used reader) hash_size in
    let* part := sub_slice 0 temp_used received in
    append_message_f true session_id part;;
    let* s := the_session session_id in
    let* th := calc_req_transcript_hash s in
    let* th := sized_as_ref th in
    let? _ := verify_hmac_with_response_finished_key s th verify_data
      else throw SPDM_STATUS_VERIF_FAIL in
    let* vd := sized_as_ref verify_data in
    append_message_f true session_id vd
  else
    let* response := consumed received reader in
    append_message_f true session_id response.

(** The keys for data from the transcript up to here, and the session is established. *)
(*@ spdmlib/src/requester/finish_req.rs 269-293 RequesterContext::handle_spdm_finish_response *)
Definition establish_session (session_id : Z) : SpdmM SpdmContext unit :=
  let* th2 := transcript_hash session_id in
  let* c := gets (λ c, c) in
  on_the_session session_id
    (SpdmSession_generate_data_secret (negotiated_version c) th2;;
     modify (λ s, s <| session_state := SpdmSessionEstablished |>)).

(** The version of the response is not compared. *)
(*@ spdmlib/src/requester/finish_req.rs 185-313 RequesterContext::handle_spdm_finish_response *)
Definition handle_spdm_finish_response (session_id : Z) (received : bytes)
    : SpdmM SpdmContext unit :=
  let* c := gets (λ c, c) in
  let in_clear := in_clear_text c in
  let* _ := ok_or SPDM_STATUS_INVALID_STATE_LOCAL (get_immutable_session_via_id session_id c) in
  let? (header, reader) := read_header received else invalid_field in
  select_response header SpdmResponseFinishRsp (Some session_id) received
    (let? (p, reader) := read_payload SpdmFinishResponsePayload_codec reader else invalid_field in
     let* hash_size := of_outcome (get_hash_size c) in
     check_finish_response session_id in_clear (fp_verify_data p) hash_size received reader;;
     establish_session session_id;;
     modify (λ c, c <| runtime_info ::= λ r, r <| last_session_id := None |> |>)).

(** A step of finishing the handshake; when it fails the session is given up. *)
Definition or_abandon {A} (session_id : Z) (otherwise : SpdmM SpdmContext unit)
    (c : SpdmM SpdmContext A) : SpdmM SpdmContext A :=
  let* r := attempt c in
  match r with
  | inr a => ret a
  | inl e => teardown_session session_id otherwise;; throw e
  end.

(*@ spdmlib/src/requester/finish_req.rs 14-104 RequesterContext::send_receive_spdm_finish *)
Definition send_receive_spdm_finish (req_slot_id : option Z) (session_id : Z)
    : SpdmM SpdmContext unit :=
  let* c := gets (λ c, c) in
  let in_clear := in_clear_text c in
  let* req_slot_id :=
    match req_slot_id with
    | Some slot =>
        if Z.of_nat SPDM_MAX_SLOT_NUMBER <=? slot then throw SPDM_STATUS_INVALID_STATE_LOCAL else
        let* chain := unwrap (my_cert_chain (provision_info c) !! Z.to_nat slot) in
        let* _ := ok_or SPDM_STATUS_INVALID_STATE_LOCAL chain in
        ret slot
    | None => ret 0
    end in
  let* _ := ok_or SPDM_STATUS_INVALID_PARAMETER (get_immutable_session_via_id session_id c) in
  reset_buffers SpdmRequestFinish (Some session_id);;
  let* sent := or_abandon session_id panic (encoded (encode_spdm_finish session_id req_slot_id)) in
  let channel := if in_clear then None else Some session_id in
  or_abandon session_id panic (send_request mode channel sent);;
  let* received := or_abandon session_id panic (receive_response mode channel false) in
  or_abandon session_id (ret tt) (handle_spdm_finish_response session_id received).

(** ** PSK_EXCHANGE *)

(*@ spdmlib/src/requester/psk_exchange_req.rs 60-118 RequesterContext::encode_spdm_psk_exchange *)
Definition encode_spdm_psk_exchange (half_session_id : Z) (t : SpdmMeasurementSummaryHashType)
    (psk_hint : SpdmPskHintStruct) : SpdmM Rsp nat :=
  let* psk_context := random_array MAX_SPDM_PSK_CONTEXT_SIZE in
  let* c := gets fst in
  let* opaque := version_list c in
  let* hash_size := of_outcome (get_hash_size c) in
  write_response SpdmRequestPskExchange (SpdmPskExchangeRequest
    {| pq_measurement_summary_hash_type := t; pq_req_session_id := half_session_id;
       pq_psk_hint := psk_hint;
       pq_psk_context := {| data_size := hash_size; data := psk_context |};
       pq_opaque := opaque |}).

(*@ spdmlib/src/requester/psk_exchange_req.rs 179-199 RequesterContext::handle_spdm_psk_exchange_response *)
Definition start_psk_session (c : SpdmContext) (session_id : Z) (hint : SpdmPskHintStruct)
    : SpdmM SpdmSession unit :=
  SpdmSession_setup session_id;;
  modify (λ s, set_session_params c (s <| use_psk := true |>));;
  modify (λ s, s <| s_runtime_info ::= λ r,
    r <| psk_hint := Some hint |> <| s_message_a := message_a (runtime_info c) |>
      <| rsp_cert_hash := None |> <| req_cert_hash := None |> |>).

(*@ spdmlib/src/requester/psk_exchange_req.rs 201-227 RequesterContext::handle_spdm_psk_exchange_response *)
Definition derive_psk_handshake (session_id : Z) (sent received : bytes) (reader : Reader)
    : SpdmM SpdmContext unit :=
  let* c := gets (λ c, c) in
  let* hash_size := of_outcome (get_hash_size c) in
  let* temp_used := sub_usize (Reader_used reader) hash_size in
  append_message_k session_id sent;;
  let* part := sub_slice 0 temp_used received in
  append_message_k session_id part;;
  let* th1 := transcript_hash session_id in
  on_the_session session_id
    (SpdmSession_generate_handshake_secret (negotiated_version c) th1).

(** A responder without context is done; the handshake with the other ones goes on with
    PSK_FINISH. *)
(*@ spdmlib/src/requester/psk_exchange_req.rs 120-338 RequesterContext::handle_spdm_psk_exchange_response *)
Definition handle_spdm_psk_exchange_response (half_session_id : Z)
    (t : SpdmMeasurementSummaryHashType) (hint : SpdmPskHintStruct) (sent received : bytes)
    : SpdmM SpdmContext Z :=
  need_summary_hash t;;
  expect_response SpdmResponsePskExchangeRsp None received (λ reader,
  let? (p, reader) := read_payload SpdmPskExchangeResponsePayload_codec reader
    else invalid_field in
  let* secure_version := selected_version (pp_opaque p) in
  let id := session_id_of (pp_rsp_session_id p) half_session_id in
  let* c := gets (λ c, c) in
  with_next_avaiable_session (throw SPDM_STATUS_SESSION_NUMBER_EXCEED)
    (start_psk_session c id hint);;
  derive_psk_handshake id sent received reader;;
  check_response_hmac id (pp_verify_data p);;
  on_the_session id (modify (λ s, s <| session_state := SpdmSessionHandshaking |>));;
  (if psk_without_context c then establish_session id else ret tt);;
  on_the_session id (modify (λ s,
    s <| secure_spdm_version_sel := secure_version |>
      <| heartbeat_period := pp_heartbeat_period p |>));;
  ret id).

(*@ spdmlib/src/requester/psk_exchange_req.rs 21-58 RequesterContext::send_receive_spdm_psk_exchange *)
Definition send_receive_spdm_psk_exchange (t : SpdmMeasurementSummaryHashType)
    (psk_hint : option SpdmPskHintStruct) : SpdmM SpdmContext Z :=
  let hint := default (sized_default MAX_SPDM_PSK_HINT_SIZE) psk_hint in
  reset_buffers SpdmRequestPskExchange None;;
  let* c := gets (λ c, c) in
  let* half_session_id := of_outcome (get_next_half_session_id true c) in
  exchange mode None false (encode_spdm_psk_exchange half_session_id t hint)
    (handle_spdm_psk_exchange_response half_session_id t hint).

(** ** PSK_FINISH *)

(*@ spdmlib/src/requester/psk_finish_req.rs 69-110 RequesterContext::encode_spdm_psk_finish *)
Definition encode_spdm_psk_finish (session_id : Z) : SpdmM Rsp nat :=
  let* c := gets fst in
  let* hash_size := of_outcome (get_hash_size c) in
  let* send_used := write_response SpdmRequestPskFinish (SpdmPskFinishRequest
    {| pf_verify_data := placeholder hash_size SPDM_MAX_HASH_SIZE 0xcc |}) in
  let* temp_used := sub_usize send_used hash_size in
  let* w := gets snd in
  let* part := sub_slice 0 temp_used (wr_buf w) in
  on_fst (append_message_f true session_id part);;
  let* th := on_fst (transcript_hash session_id) in
  let* s := on_fst (the_session session_id) in
  let* th := sized_as_ref th in
  let* hmac := generate_hmac_with_request_finished_key s th in
  let* mac := sized_as_ref hmac in
  on_fst (append_message_f true session_id mac);;
  on_snd (Writer_patch temp_used send_used mac);;
  ret send_used.

(*@ spdmlib/src/requester/psk_finish_req.rs 112-176 RequesterContext::handle_spdm_psk_finish_response *)
Definition handle_spdm_psk_finish_response (session_id : Z) (received : bytes)
    : SpdmM SpdmContext unit :=
  expect_response SpdmResponsePskFinishRsp (Some session_id) received (λ reader,
  let? (_, reader) := read_payload (λ _, SpdmPskFinishResponsePayload_codec) reader
    else invalid_field in
  let* response := consumed received reader in
  append_message_f true session_id response;;
  establish_session session_id).

(*@ spdmlib/src/requester/psk_finish_req.rs 16-67 RequesterContext::send_receive_spdm_psk_finish *)
Definition send_receive_spdm_psk_finish (session_id : Z) : SpdmM SpdmContext unit :=
  let* c := gets (λ c, c) in
  let* _ := ok_or SPDM_STATUS_INVALID_PARAMETER (get_immutable_session_via_id session_id c) in
  reset_buffers SpdmRequestPskFinish (Some session_id);;
  let* sent := or_abandon session_id panic (encoded (encode_spdm_psk_finish session_id)) in
  or_abandon session_id panic (send_secured_message mode session_id sent false);;
  let* received := or_abandon session_id panic (receive_secured_message mode session_id false) in
  or_abandon session_id (ret tt) (handle_spdm_psk_finish_response session_id received).

(*@ spdmlib/src/requester/context.rs 38-59 RequesterContext::start_session *)
Definition start_session (use_psk : bool) (slot_id : Z) (t : SpdmMeasurementSummaryHashType)
    : SpdmM SpdmContext Z :=
  if negb use_psk then
    let* session_id := send_receive_spdm_key_exchange slot_id t in
    send_receive_spdm_finish None session_id;;
    ret session_id
  else
    let* session_id := send_receive_spdm_psk_exchange t None in
    send_receive_spdm_psk_finish session_id;;
    ret session_id.

(** ** HEARTBEAT, KEY_UPDATE and END_SESSION *)

(*@ spdmlib/src/requester/heartbeat_req.rs 28-38 RequesterContext::encode_spdm_heartbeat *)
Definition encode_spdm_heartbeat : SpdmM Rsp nat :=
  write_response SpdmRequestHeartbeat (SpdmHeartbeatRequest MkSpdmHeartbeatRequestPayload).

(*@ spdmlib/src/requester/heartbeat_req.rs 40-75 RequesterContext::handle_spdm_heartbeat_response *)
Definition handle_spdm_heartbeat_response (session_id : Z) (received : bytes)
    : SpdmM SpdmContext unit :=
  expect_response SpdmResponseHeartbeatAck (Some session_id) received (λ reader,
  let? _ := read_payload (λ _, SpdmHeartbeatResponsePayload_codec) reader else invalid_field in
  ret tt).

(*@ spdmlib/src/requester/heartbeat_req.rs 10-26 RequesterContext::send_receive_spdm_heartbeat *)
Definition send_receive_spdm_heartbeat (session_id : Z) : SpdmM SpdmContext unit :=
  reset_buffers SpdmRequestHeartbeat (Some session_id);;
  exchange mode (Some session_id) false encode_spdm_heartbeat
    (λ _, handle_spdm_heartbeat_response session_id).

(*@ spdmlib/src/requester/key_update_req.rs 52-70 RequesterContext::encode_spdm_key_update_op *)
Definition encode_spdm_key_update_op (op : SpdmKeyUpdateOperation) (tag : Z) : SpdmM Rsp nat :=
  write_response SpdmRequestKeyUpdate (SpdmKeyUpdateRequest
    {| uq_key_update_operation := op; uq_tag := tag |}).

(** An acknowledgement that does not parse takes the update back. *)
(*@ spdmlib/src/requester/key_update_req.rs 72-127 RequesterContext::handle_spdm_key_update_op_response *)
Definition handle_spdm_key_update_op_response (session_id : Z)
    (update_requester update_responder : bool) (received : bytes) : SpdmM SpdmContext unit :=
  expect_response SpdmResponseKeyUpdateAck (Some session_id) received (λ reader,
  let* r := attempt (E:=unit) (read_payload (λ _, SpdmKeyUpdateResponsePayload_codec) reader) in
  let use_new := match r with inr _ => true | inl _ => false end in
  with_session session_id (throw SPDM_STATUS_INVALID_PARAMETER)
    (modify (SpdmSession_activate_data_secret_update update_requester update_responder use_new));;
  if use_new then ret tt else invalid_field).

(*@ spdmlib/src/requester/key_update_req.rs 13-50 RequesterContext::send_receive_spdm_key_update_op *)
Definition send_receive_spdm_key_update_op (session_id : Z) (op : SpdmKeyUpdateOperation)
    (tag : Z) : SpdmM SpdmContext unit :=
  reset_buffers SpdmRequestKeyUpdate (Some session_id);;
  let* sent := encoded (encode_spdm_key_update_op op tag) in
  send_secured_message mode session_id sent false;;
  let* c := gets (λ c, c) in
  let update_requester := bool_decide (op = SpdmUpdateSingleKey ∨ op = SpdmUpdateAllKeys) in
  let update_responder := bool_decide (op = SpdmUpdateAllKeys) in
  with_session session_id (throw SPDM_STATUS_INVALID_PARAMETER)
    (SpdmSession_create_data_secret_update (negotiated_version c)
       update_requester update_responder);;
  let* received := receive_secured_message mode session_id false in
  handle_spdm_key_update_op_response session_id update_requester update_responder received.

(*@ spdmlib/src/requester/key_update_req.rs 129-145 RequesterContext::send_receive_spdm_key_update *)
Definition send_receive_spdm_key_update (session_id : Z) (op : SpdmKeyUpdateOperation)
    : SpdmM SpdmContext unit :=
  if bool_decide (op ≠ SpdmUpdateAllKeys ∧ op ≠ SpdmUpdateSingleKey)
  then throw SPDM_STATUS_INVALID_MSG_FIELD else
  send_receive_spdm_key_update_op session_id op 1;;
  send_receive_spdm_key_update_op session_id SpdmVerifyNewKey 2.

(*@ spdmlib/src/requester/end_session_req.rs 30-43 RequesterContext::encode_spdm_end_session *)
Definition encode_spdm_end_session : SpdmM Rsp nat :=
  write_response SpdmRequestEndSession (SpdmEndSessionRequest {| es_attributes := 0 |}).

(*@ spdmlib/src/requester/end_session_req.rs 45-89 RequesterContext::handle_spdm_end_session_response *)
Definition handle_spdm_end_session_response (session_id : Z) (received : bytes)
    : SpdmM SpdmContext unit :=
  expect_response SpdmResponseEndSessionAck (Some session_id) received (λ reader,
  let? _ := read_payload (λ _, SpdmEndSessionResponsePayload_codec) reader else invalid_field in
  with_session session_id (throw SPDM_STATUS_INVALID_PARAMETER)
    (SpdmSession_teardown session_id)).

(*@ spdmlib/src/requester/end_session_req.rs 13-28 RequesterContext::send_receive_spdm_end_session *)
Definition send_receive_spdm_end_session (session_id : Z) : SpdmM SpdmContext unit :=
  reset_buffers SpdmRequestEndSession (Some session_id);;
  exchange mode (Some session_id) false encode_spdm_end_session
    (λ _, handle_spdm_end_session_response session_id).

(*@ spdmlib/src/requester/context.rs 61-63 RequesterContext::end_session *)
Definition end_session : Z → SpdmM SpdmContext unit := send_receive_spdm_end_session.

End ReqSession.
