(* ===== verification/Loopback.v ===== *)
(** A requester and a responder joined back to back.

    The device of the requester holds a whole responder: what the requester sends is put into
    the inbox of the responder, which processes it at once, and what the requester receives is
    what the responder has sent.  Requester and responder share the build configuration, the
    transport binding and the cryptography; their contexts are separate. *)

From S2P Require Import Prelude Config Codec Status Algo Protocol Crypto KeySchedule Buffers Session Context Transport ToyContext SpdmCodec Opaque MsgNegotiate MsgAuth MsgSession Message Endpoint Responder RspConnect RspSession RspDispatch.

(** The device of the responder is a pair of queues. *)
Abbreviation queues := toy_device (only parsing).

Section Loopback.
Context `{cfg : Config} `{cry : Crypto} `{sec : !Secret} `{tr : SpdmTransportEncap}.
#[local] Existing Instance toy_device.
Context `{handlers : !SpdmHandlers} (mode : overflow_mode).

(** One packet for the responder; its answers are appended to its outbox. *)
Definition deliver (packet : bytes) (r : SpdmContext) : outcome (nat * bytes) bool * SpdmContext :=
  process_message mode 0 [] (r <| device_io ::= λ d, ([packet], d.2) |>).

(** A responder that panics takes the requester with it; any other failure of the responder
    shows in that it sends nothing. *)
Definition loopback : SpdmDeviceIo := {|
  io := SpdmContext;
  io_send packet := λ r,
    match deliver packet r with
    | (Panic, r') => (Panic, r')
    | (_, r') => (Ok tt, r')
    end;
  io_receive _ := λ st,
    match (device_io st.1).2 with
    | [] => (Err 0%nat, st)
    | packet :: outbox =>
        let r := st.1 <| device_io ::= λ d, (d.1, outbox) |> in
        if decide (length packet ≤ length st.2)%nat
        then (Ok (length packet), (r, splice 0 packet st.2))
        else (Err 0%nat, (r, st.2))
    end;
  io_flush_all := ret tt;
|}.

End Loopback.
