(* ===== verification/ReqFrame.v ===== *)
(** What the requester leaves alone: outside the negotiation and the retrieval of certificates
    no request changes the configuration, what was negotiated, the certificates of either side
    or transcript A. *)

From Stdlib Require Import RelationClasses.
From S2P Require Import Prelude Config Codec Status Algo Protocol Crypto KeySchedule Buffers Session Context SpdmCodec Opaque MsgNegotiate MsgAuth MsgSession Message Endpoint Responder Within RspConnect RspFrame Requester ReqConnect ReqSession.
Import RequesterContext.

Section ReqFrame.
Context `{cfg : Config} `{cry : Crypto} `{sec : !Secret} `{dev : SpdmDeviceIo} `{tr : SpdmTransportEncap}.
Context (mode : overflow_mode).

Definition core (c : SpdmContext) :=
  (config_info c, negotiate_info c, provision_info c, peer_info c, message_a (runtime_info c)).

(** ** Sessions *)

(** A session keeps its identifier or is given up. *)
Definition shrink : relation SpdmSession := λ s s',
  session_id s' = session_id s ∨ session_id s' = INVALID_SESSION_ID.
#[export] Instance shrink_preorder : PreOrder shrink.
Proof. split; unfold shrink; [by left|]. intros s s1 s2 [-> | ->] [-> | ->]; auto. Qed.
Lemma quiet_shrink {E A} (m : M SpdmSession E A) : within session_quiet m → within shrink m.
Proof.
  intros Hm. eapply within_mono; [exact Hm|]. intros s s' H. left.
  unfold session_quiet, session_key, session_base in H. congruence.
Qed.

Lemma shrink_th {E A} (m : M (option SpdmHashCtx) E A) : within shrink (on_th m).
Proof. apply quiet_shrink, on_th_quiet. Qed.
Lemma shrink_l1l2 {E A} (m : M (option SpdmHashCtx) E A) : within shrink (on_session_l1l2 m).
Proof. apply quiet_shrink, on_session_l1l2_quiet. Qed.
Lemma shrink_encode bs r : within shrink (session_encode mode bs r).
Proof. apply quiet_shrink, session_encode_quiet. Qed.
Lemma shrink_decode bs r : within shrink (session_decode mode bs r).
Proof. apply quiet_shrink, session_decode_quiet. Qed.
Lemma shrink_handshake v th : within shrink (SpdmSession_generate_handshake_secret v th).
Proof.
  eapply within_mono; [apply generate_handshake_secret_like|]. intros s s' H. left.
  unfold session_like, session_base in H. congruence.
Qed.
Lemma shrink_data v th : within shrink (SpdmSession_generate_data_secret v th).
Proof. apply quiet_shrink, generate_data_secret_quiet. Qed.
Lemma shrink_create_update v q p : within shrink (SpdmSession_create_data_secret_update v q p).
Proof. apply quiet_shrink, create_data_secret_update_quiet. Qed.
Lemma shrink_teardown id : within shrink (SpdmSession_teardown id).
Proof.
  unfold SpdmSession_teardown. within_steps. apply within_modify. intros ?. by right.
Qed.
Lemma shrink_activate q p n s : shrink s (SpdmSession_activate_data_secret_update q p n s).
Proof. left. unfold SpdmSession_activate_data_secret_update. by destruct n, q, p. Qed.
#[local] Hint Resolve shrink_th shrink_l1l2 shrink_encode shrink_decode shrink_handshake
  shrink_data shrink_create_update shrink_teardown shrink_activate : within.
#[local] Hint Extern 4 (shrink _ _) => (left; reflexivity) : within.

Ltac shrink_steps :=
  repeat first [within_step
    | apply within_modify; intros; solve [auto with within nocore] | progress cbv zeta beta].

(** A relation that allows every change outside the core, of sessions those by [R]. *)
Class Free (R : relation SpdmSession) (Q : relation SpdmContext) : Prop := {
  free_sessions : PreOrder R;
  free_preorder : PreOrder Q;
  free c c' : core c' = core c → Forall2 R (session c) (session c') → Q c c';
}.
Lemma free_same R Q `{!Free R Q} c c' : core c' = core c → session c' = session c → Q c c'.
Proof.
  pose proof (free_sessions (Free:=_ : Free R Q)).
  intros Hc Hs. apply (free c c' Hc). rewrite Hs. apply Forall_Forall2_diag, Forall_true. reflexivity.
Qed.

Definition core_same : relation SpdmContext := λ c c', core c' = core c.
#[export] Instance core_same_free : Free (λ _ _, True) core_same.
Proof.
  split; [done| |done]. split; unfold core_same; [done|]. intros ??? -> ->. done.
Qed.
(** The same core, and sessions related by [R]. *)
Definition apart (R : relation SpdmSession) : relation SpdmContext := λ c c',
  core c' = core c ∧ Forall2 R (session c) (session c').
#[export] Instance apart_free R `{!PreOrder R} : Free R (apart R).
Proof.
  split; [done| |done]. split; unfold apart.
  - intros c. split; [done|]. apply Forall_Forall2_diag, Forall_true. reflexivity.
  - intros c c' c'' [Hk Hs] [Hk' Hs']. split; [congruence|]. by etrans.
Qed.

Lemma within_selected_version (R : relation SpdmContext) `{!PreOrder R} o :
  within R (selected_version o).
Proof.
  unfold selected_version, req_get_dmtf_secure_spdm_version_selection, get_secure_spdm_version,
    nibbles. within_steps.
Qed.

Section Q.
Context (R : relation SpdmSession) (Q : relation SpdmContext) `{free_inst : !Free R Q}.
#[local] Instance preorder_of_sessions : PreOrder R := free_sessions (Free:=free_inst).
#[local] Instance preorder_of_free : PreOrder Q := free_preorder (Free:=free_inst).
Abbreviation on_rsp := (on_first (T:=Writer) Q) (only parsing).
Abbreviation on_buf := (on_first (T:=bytes) Q) (only parsing).

#[local] Hint Extern 4 (Q _ _) =>
  (first [apply (free_same R Q); reflexivity|apply (free_same R Q); case_match; reflexivity]) : within.

Lemma free_world {E A} (m : M world E A) : within Q (on_world m).
Proof. apply (within_zoom _ (λ _ _, True)); [done|]. intros. by apply (free_same R Q). Qed.
Lemma free_device bs : within Q (device_send bs).
Proof. apply (within_zoom _ (λ _ _, True)); [done|]. intros. by apply (free_same R Q). Qed.
Lemma free_m1m2 {E A} (m : M (option SpdmHashCtx) E A) : within Q (on_m1m2 m).
Proof. apply (within_zoom _ (λ _ _, True)); [done|]. intros. by apply (free_same R Q). Qed.
Lemma free_l1l2 {E A} (m : M (option SpdmHashCtx) E A) : within Q (on_l1l2 m).
Proof. apply (within_zoom _ (λ _ _, True)); [done|]. intros. by apply (free_same R Q). Qed.
Lemma free_receive t : within on_buf (device_receive t).
Proof.
  apply (within_zoom _ (λ _ _, True)); [done|]. intros [c b] v _. unfold on_first. by apply (free_same R Q).
Qed.
Lemma free_with_session {E A} id (otherwise : M SpdmContext E A) body :
  within Q otherwise → within R body → within Q (with_session id otherwise body).
Proof.
  intros Ho Hb c r c' H. unfold with_session in H.
  destruct (list_find _ _) as [[i s]|] eqn:Hf; [|by eapply Ho].
  apply list_find_Some in Hf as (Hi&_&_). destruct (body s) as [o s'] eqn:Hs.
  injection H as <- <-. apply (free c _); [done|]. cbn. apply Hb in Hs.
  apply Forall2_same_length_lookup_2; [by rewrite length_insert|].
  intros j x y Hx Hy. destruct (decide (i = j)) as [<-|Hne].
  - rewrite list_lookup_insert_eq in Hy by (by eapply lookup_lt_Some). by simplify_eq.
  - rewrite list_lookup_insert_ne in Hy by done. simplify_eq. reflexivity.
Qed.
#[local] Hint Resolve free_world free_device free_m1m2 free_l1l2 free_receive : within.

Lemma free_append_m1m2 e bs : within Q (append_m1m2 e bs).
Proof. unfold append_m1m2. within_steps. Qed.
Lemma free_append_b bs : within Q (append_message_b bs).
Proof. apply free_append_m1m2. Qed.
Lemma free_append_c bs : within Q (append_message_c bs).
Proof. apply free_append_m1m2. Qed.
#[local] Hint Resolve free_append_b free_append_c : within.

Ltac free_steps :=
  repeat first
    [ within_step
    | lazymatch goal with
      | |- within (on_first _) (zoom fst _ _) => apply within_on_fst
      | |- within _ (modify _) => apply within_modify; intros; solve [auto with within nocore]
      end ].

(** ** Without sessions *)

Lemma free_transport_buffer {A} (m : SpdmM (SpdmContext * bytes) A) :
  within on_buf m → within Q (with_transport_buffer m).
Proof.
  intros Hm c r c' H. unfold with_transport_buffer in H.
  destruct (m _) as [[] [c1 b]] eqn:Hr; apply Hm in Hr; by injection H as <- <-.
Qed.
Lemma free_receive_buffer {E A} n (m : M (SpdmContext * bytes) E A) :
  within on_buf m → within Q (with_receive_buffer n m).
Proof.
  intros Hm c r c' H. unfold with_receive_buffer in H.
  destruct (m _) as [[] [c1 b]] eqn:Hr; apply Hm in Hr; by injection H as <- <-.
Qed.
Lemma free_request_buffer {A} (m : SpdmM Rsp A) : within on_rsp m → within Q (with_request_buffer m).
Proof.
  intros Hm c r c' H. unfold with_request_buffer in H.
  destruct (m _) as [[] [c1 b]] eqn:Hr; apply Hm in Hr; by injection H as <- <-.
Qed.
Lemma free_encoded m : within on_rsp m → within Q (encoded m).
Proof.
  intros Hm. unfold encoded. apply within_bind; [apply _|by apply free_request_buffer|].
  intros [] ? ? _. within_steps.
Qed.
Lemma free_send_message bs : within Q (send_message bs).
Proof.
  unfold send_message. free_steps. apply free_transport_buffer. unfold encap. free_steps.
Qed.
Lemma free_receive_with decode b :
  (∀ bs, within on_buf (decode bs)) → within Q (receive_with mode decode b).
Proof.
  intros Hd. unfold receive_with, response_timeout, shl_usize.
  free_steps; apply free_receive_buffer; first [apply free_receive|apply Hd].
Qed.
Lemma free_receive_message b : within Q (receive_message mode b).
Proof. apply free_receive_with. intros bs. unfold decap. free_steps. Qed.
Lemma free_write code payload : within on_rsp (write_response code payload).
Proof. unfold write_response. free_steps. Qed.
Lemma free_random n : within on_rsp (random_array n).
Proof. unfold random_array. free_steps. Qed.
Lemma free_version_list c : within on_rsp (version_list c).
Proof. unfold version_list. free_steps. Qed.
Lemma free_the_session id : within Q (the_session id).
Proof. unfold the_session. free_steps. Qed.
Lemma free_calc {S} (P : relation S) `{!PreOrder P} s : within P (calc_req_transcript_hash s).
Proof. unfold calc_req_transcript_hash. free_steps. Qed.
#[local] Hint Resolve free_send_message free_receive_message free_write free_random
  free_version_list free_the_session free_calc : within.
Lemma free_transcript_hash id : within Q (transcript_hash id).
Proof. unfold transcript_hash. free_steps. Qed.
Lemma free_signing {S} (P : relation S) `{!PreOrder P} z x h : within P (signing_message z x h).
Proof. by intros ??? [= <- <-]. Qed.
Lemma free_hmac_req {S} (P : relation S) `{!PreOrder P} s h :
  within P (generate_hmac_with_request_finished_key s h).
Proof. unfold generate_hmac_with_request_finished_key. free_steps. Qed.
Lemma free_hmac_rsp {S} (P : relation S) `{!PreOrder P} s h d :
  within P (verify_hmac_with_response_finished_key s h d).
Proof. unfold verify_hmac_with_response_finished_key. free_steps. Qed.
#[local] Hint Resolve free_transcript_hash free_signing free_hmac_req free_hmac_rsp : within.
Lemma free_finish_signature s : within Q (generate_finish_req_signature s).
Proof. unfold generate_finish_req_signature. free_steps. Qed.
Lemma free_encode_key_exchange q slot t : within on_rsp (encode_spdm_key_exchange q slot t).
Proof. unfold encode_spdm_key_exchange. free_steps. Qed.
Lemma free_encode_psk_exchange q t h : within on_rsp (encode_spdm_psk_exchange q t h).
Proof. unfold encode_spdm_psk_exchange. free_steps. Qed.
Lemma free_payload {A} (codec : SpdmContext → SpdmCodec A) rd :
  within Q (RequesterContext.read_payload codec rd).
Proof. unfold RequesterContext.read_payload. free_steps. Qed.
Lemma free_invalid {A} : within Q (invalid_field (A:=A)).
Proof. apply within_throw, _. Qed.
Lemma free_consumed {E} bs rd : within Q (consumed (E:=E) bs rd).
Proof. unfold consumed. free_steps. Qed.
Lemma free_verify_transcript slot z x h sg : within Q (verify_transcript slot z x h sg).
Proof. unfold verify_transcript, peer_certificates. free_steps. Qed.
Lemma free_digest_of o : within Q (RequesterContext.transcript_digest o).
Proof. unfold RequesterContext.transcript_digest. free_steps. Qed.
#[local] Hint Resolve within_selected_version free_finish_signature free_encode_key_exchange
  free_encode_psk_exchange free_payload free_invalid free_consumed free_verify_transcript
  free_digest_of : within.
Lemma free_record_b id sent received rd : within Q (record_b id sent received rd).
Proof. unfold record_b. free_steps. Qed.
Lemma free_need_summary t : within Q (need_summary_hash t).
Proof. unfold need_summary_hash. free_steps. Qed.
Lemma free_reset_none code : within Q (reset_buffers code None).
Proof.
  apply within_modify. intros c. unfold reset_buffer_via_request_code, reset_message_m.
  apply (free_same R Q); case_decide; destruct code; try reflexivity; by destruct (_ <? _).
Qed.
#[local] Hint Resolve free_record_b free_need_summary free_reset_none : within.

(** ** With sessions *)

Section Lenient.
Context (lenient : ∀ s s', shrink s s' → R s s').

Lemma free_session {E A} id (otherwise : M SpdmContext E A) body :
  within Q otherwise → within shrink body → within Q (with_session id otherwise body).
Proof. intros Ho Hb. apply free_with_session; [done|]. by eapply within_mono. Qed.
#[local] Hint Extern 3 (within Q (with_session _ _ _)) =>
  (apply free_session; [within_steps|shrink_steps]) : within.
#[local] Hint Extern 3 (within Q (on_the_session _ _)) =>
  (apply free_session; [within_steps|shrink_steps]) : within.

Lemma free_append_m id bs : within Q (append_message_m id bs).
Proof. unfold append_message_m, append_l1l2. within_steps. Qed.
Lemma free_append_k id bs : within Q (append_message_k id bs).
Proof. unfold append_message_k. within_steps. Qed.
Lemma free_append_f b id bs : within Q (append_message_f b id bs).
Proof. unfold append_message_f, mut_cert_digest. within_steps. Qed.
Lemma free_reset_m id c : Q c (reset_message_m id c).
Proof.
  unfold reset_message_m. destruct id as [id|]; [|by apply (free_same R Q)].
  destruct (with_session _ _ _ c) as [r c'] eqn:Hw. cbn. revert Hw.
  apply free_session; [within_steps|shrink_steps].
Qed.
Lemma free_reset_buffer code id c : Q c (reset_buffer_via_request_code code id c).
Proof.
  unfold reset_buffer_via_request_code.
  etrans; [instantiate (1 := if decide (code ≠ SpdmRequestGetMeasurements)
                             then reset_message_m id c else c)|].
  - case_decide; [apply free_reset_m|reflexivity].
  - generalize (if decide (code ≠ SpdmRequestGetMeasurements) then reset_message_m id c else c).
    intros c'. destruct code; try reflexivity; try (destruct (_ <? _); [|reflexivity]);
      by apply (free_same R Q).
Qed.
#[local] Hint Resolve free_append_m free_append_k free_append_f free_reset_m
  free_reset_buffer : within.
Lemma free_encode_secured id bs r app : within on_buf (encode_secured_message mode id bs r app).
Proof. unfold encode_secured_message. free_steps. Qed.
Lemma free_decode_secured id bs : within on_buf (decode_secured_message mode id bs).
Proof. unfold decode_secured_message. free_steps. Qed.
Lemma free_send_secured id bs app : within Q (send_secured_message mode id bs app).
Proof.
  unfold send_secured_message. free_steps. apply free_transport_buffer, free_encode_secured.
Qed.
Lemma free_receive_secured id b : within Q (receive_secured_message mode id b).
Proof. apply free_receive_with. intros bs. apply free_decode_secured. Qed.
#[local] Hint Resolve free_send_secured free_receive_secured : within.
Lemma free_send_request id bs : within Q (send_request mode id bs).
Proof. unfold send_request. free_steps. Qed.
Lemma free_receive_response id b : within Q (receive_response mode id b).
Proof. unfold receive_response. free_steps. Qed.
Lemma free_exchange {A} id b request (handle : bytes → bytes → SpdmM SpdmContext A) :
  within on_rsp request → (∀ sent received, within Q (handle sent received)) →
  within Q (exchange mode id b request handle).
Proof.
  intros Hr Hh. unfold exchange. apply within_bind; [apply _|by apply free_encoded|intros ? ? ? _].
  apply within_bind; [apply _|apply free_send_request|intros ? ? ? _].
  apply within_bind; [apply _|apply free_receive_response|intros ? ? ? _]. apply Hh.
Qed.
#[local] Hint Resolve free_send_request free_receive_response : within.

(** ** Requests *)

Lemma free_encode_finish id slot : within on_rsp (encode_spdm_finish id slot).
Proof. unfold encode_spdm_finish. free_steps. Qed.
Lemma free_encode_psk_finish id : within on_rsp (encode_spdm_psk_finish id).
Proof. unfold encode_spdm_psk_finish. free_steps. Qed.

(** ** Responses *)

Lemma free_teardown id m : within Q m → within Q (teardown_session id m).
Proof. intros Hm. unfold teardown_session. free_steps. Qed.
#[local] Hint Extern 3 (within Q (teardown_session _ _)) => (apply free_teardown; within_steps) : within.
Lemma free_simple_error id e : within Q (spdm_handle_simple_error_response id e).
Proof. unfold spdm_handle_simple_error_response. free_steps. Qed.
#[local] Hint Resolve free_simple_error : within.
Lemma free_error_main id bs : within Q (spdm_handle_error_response_main id bs).
Proof. unfold spdm_handle_error_response_main, invalid_field. free_steps. Qed.
#[local] Hint Resolve free_error_main : within.
Lemma free_select {A} h code id bs (k : SpdmM SpdmContext A) :
  within Q k → within Q (select_response h code id bs k).
Proof. intros Hk. unfold select_response. free_steps. Qed.
Lemma free_expect {A} code id bs (k : Reader → SpdmM SpdmContext A) :
  (∀ rd, within Q (k rd)) → within Q (expect_response code id bs k).
Proof.
  intros Hk. unfold expect_response, invalid_field. free_steps. by apply free_select.
Qed.
#[local] Hint Extern 1 (within Q (expect_response _ _ _ _)) =>
  (apply free_expect; intros; free_steps) : within.

Lemma free_digest_rsp id sent received : within Q (handle_spdm_digest_response id sent received).
Proof. unfold handle_spdm_digest_response. free_steps. Qed.
Lemma free_challenge_rsp slot t sent received :
  within Q (handle_spdm_challenge_response slot t sent received).
Proof.
  unfold handle_spdm_challenge_response, verify_challenge_auth_signature. free_steps.
Qed.
Lemma free_measurement_rsp id slot a op sent received :
  within Q (handle_spdm_measurement_record_response id slot a op sent received).
Proof.
  unfold handle_spdm_measurement_record_response, verify_measurement_signature. free_steps.
Qed.

(** ** Sessions *)

Lemma free_abandon {A} id e : within Q (abandon_session (A:=A) id e).
Proof. unfold abandon_session. free_steps. Qed.
#[local] Hint Resolve free_abandon : within.
Lemma free_check_hmac id vd : within Q (check_response_hmac id vd).
Proof. unfold check_response_hmac. free_steps. Qed.
Lemma free_authenticate id slot clear sg sent received rd :
  within Q (authenticate_key_exchange id slot clear sg sent received rd).
Proof. unfold authenticate_key_exchange, verify_key_exchange_rsp_signature. free_steps. Qed.
Lemma free_establish id : within Q (establish_session id).
Proof. unfold establish_session. free_steps. Qed.
Lemma free_derive_psk id sent received rd : within Q (derive_psk_handshake id sent received rd).
Proof. unfold derive_psk_handshake. free_steps. Qed.
Lemma free_check_finish id clear vd n received rd :
  within Q (check_finish_response id clear vd n received rd).
Proof. unfold check_finish_response. free_steps. Qed.
Lemma free_or_abandon {A} id m (k : SpdmM SpdmContext A) :
  within Q m → within Q k → within Q (or_abandon id m k).
Proof. intros Hm Hk. unfold or_abandon. free_steps. Qed.
#[local] Hint Resolve free_check_hmac free_authenticate free_establish free_derive_psk
  free_check_finish : within.

Lemma free_finish_rsp id received : within Q (handle_spdm_finish_response id received).
Proof. unfold handle_spdm_finish_response. free_steps. apply free_select. free_steps. Qed.
Lemma free_psk_finish_rsp id received : within Q (handle_spdm_psk_finish_response id received).
Proof. unfold handle_spdm_psk_finish_response. free_steps. Qed.
Lemma free_heartbeat_rsp id received : within Q (handle_spdm_heartbeat_response id received).
Proof. unfold handle_spdm_heartbeat_response. free_steps. Qed.
Lemma free_key_update_rsp id a b received :
  within Q (handle_spdm_key_update_op_response id a b received).
Proof. unfold handle_spdm_key_update_op_response. free_steps. Qed.
Lemma free_end_session_rsp id received : within Q (handle_spdm_end_session_response id received).
Proof. unfold handle_spdm_end_session_response. free_steps. Qed.
#[local] Hint Resolve free_digest_rsp free_challenge_rsp free_measurement_rsp
  free_finish_rsp free_psk_finish_rsp
  free_heartbeat_rsp free_key_update_rsp free_end_session_rsp free_encode_finish
  free_encode_psk_finish : within.
#[local] Hint Extern 1 (within Q (exchange _ _ _ _ _)) =>
  (apply free_exchange; [free_steps|intros; free_steps]) : within.
#[local] Hint Extern 1 (within Q (encoded _)) => (apply free_encoded; free_steps) : within.
#[local] Hint Extern 1 (within Q (with_request_buffer _)) =>
  (apply free_request_buffer; free_steps) : within.
#[local] Hint Extern 1 (within Q (or_abandon _ _ _)) =>
  (apply free_or_abandon; free_steps) : within.

(** ** The requests *)

Lemma free_reset code id : within Q (reset_buffers code id).
Proof. unfold reset_buffers. free_steps. Qed.
#[local] Hint Resolve free_reset : within.

Lemma free_digest id : within Q (send_receive_spdm_digest mode id).
Proof. unfold send_receive_spdm_digest, encode_spdm_digest. free_steps. Qed.
Lemma free_challenge slot t : within Q (send_receive_spdm_challenge mode slot t).
Proof. unfold send_receive_spdm_challenge, encode_spdm_challenge. free_steps. Qed.
Lemma free_measurement id slot a op : within Q (send_receive_spdm_measurement mode id slot a op).
Proof.
  unfold send_receive_spdm_measurement, send_receive_spdm_measurement_record,
    encode_spdm_measurement_record. free_steps.
Qed.
Lemma free_finish slot id : within Q (send_receive_spdm_finish mode slot id).
Proof. unfold send_receive_spdm_finish. free_steps. Qed.
Lemma free_psk_finish id : within Q (send_receive_spdm_psk_finish mode id).
Proof. unfold send_receive_spdm_psk_finish. free_steps. Qed.
Lemma free_heartbeat id : within Q (send_receive_spdm_heartbeat mode id).
Proof. unfold send_receive_spdm_heartbeat, encode_spdm_heartbeat. free_steps. Qed.
Lemma free_key_update_op id op tag : within Q (send_receive_spdm_key_update_op mode id op tag).
Proof. unfold send_receive_spdm_key_update_op, encode_spdm_key_update_op. free_steps. Qed.
Lemma free_end_session id : within Q (end_session mode id).
Proof. unfold end_session, send_receive_spdm_end_session, encode_spdm_end_session. free_steps. Qed.
#[local] Hint Resolve free_finish free_psk_finish free_key_update_op : within.
Lemma free_key_update id op : within Q (send_receive_spdm_key_update mode id op).
Proof. unfold send_receive_spdm_key_update. free_steps. Qed.

(** What follows the start of a session. *)
Lemma free_after_dhe id slot clear p v sent received rd :
  within Q
    (authenticate_key_exchange id slot clear (kp_signature p) sent received rd;;
     (if clear then ret tt else check_response_hmac id (kp_verify_data p));;
     on_the_session id (modify (λ s,
       s <| secure_spdm_version_sel := v |> <| heartbeat_period := kp_heartbeat_period p |>
         <| session_state := SpdmSessionHandshaking |>));;
     (if clear then
        modify (λ c, c <| runtime_info ::= λ r, r <| last_session_id := Some id |> |>)
      else ret tt);;
     ret id).
Proof. free_steps. Qed.
Lemma free_after_psk id p c v sent received rd :
  within Q
    (derive_psk_handshake id sent received rd;;
     check_response_hmac id (pp_verify_data p);;
     on_the_session id (modify (λ s, s <| session_state := SpdmSessionHandshaking |>));;
     (if psk_without_context c then establish_session id else ret tt);;
     on_the_session id (modify (λ s,
       s <| secure_spdm_version_sel := v |> <| heartbeat_period := pp_heartbeat_period p |>));;
     ret id).
Proof. free_steps. Qed.

(** New sessions must be allowed by [R]. *)
Section Starting.
Context (dhe_allowed : ∀ c id m k h, within R (start_dhe_session c id m k h)).
Context (psk_allowed : ∀ c id h, within R (start_psk_session c id h)).

Lemma free_next {A} e (body : SpdmM SpdmSession A) :
  within R body → within Q (with_next_avaiable_session (throw e) body).
Proof. apply free_with_session, within_throw, _. Qed.
#[local] Hint Resolve free_next dhe_allowed psk_allowed : within.

Lemma free_key_exchange_rsp q slot t private sent received :
  within Q (handle_spdm_key_exhcange_response q slot t private sent received).
Proof. unfold handle_spdm_key_exhcange_response. free_steps. Qed.
Lemma free_psk_exchange_rsp q t hint sent received :
  within Q (handle_spdm_psk_exchange_response q t hint sent received).
Proof. unfold handle_spdm_psk_exchange_response. free_steps. Qed.
#[local] Hint Resolve free_key_exchange_rsp free_psk_exchange_rsp : within.
Lemma free_key_exchange slot t : within Q (send_receive_spdm_key_exchange mode slot t).
Proof. unfold send_receive_spdm_key_exchange. free_steps. Qed.
Lemma free_psk_exchange t h : within Q (send_receive_spdm_psk_exchange mode t h).
Proof. unfold send_receive_spdm_psk_exchange. free_steps. Qed.
#[local] Hint Resolve free_key_exchange free_psk_exchange : within.
Lemma free_start_session psk slot t : within Q (start_session mode psk slot t).
Proof. unfold start_session. free_steps. Qed.
End Starting.

(** The negotiation changes neither the certificates nor the sessions. *)
Section Negotiating.
Context (negotiable : ∀ c c', provision_info c' = provision_info c → peer_info c' = peer_info c →
  session c' = session c → Q c c').
#[local] Hint Extern 5 (Q _ _) => (apply negotiable; reflexivity) : within.

Lemma free_append_a bs : within Q (append_message_a bs).
Proof.
  unfold append_message_a. apply within_bind; [apply _| |intros; within_steps].
  apply (within_zoom _ (λ _ _, True)); [done|]. intros. by apply negotiable.
Qed.
#[local] Hint Resolve free_append_a : within.
Lemma free_record_a sent received rd : within Q (record_a sent received rd).
Proof. unfold record_a. free_steps. Qed.
#[local] Hint Resolve free_record_a : within.
Lemma free_version_rsp sent received : within Q (handle_spdm_version_response sent received).
Proof.
  unfold handle_spdm_version_response. free_steps. apply free_select. free_steps.
Qed.
Lemma accept_capabilities_free p c : Q c (accept_capabilities p c).
Proof. apply negotiable; unfold accept_capabilities; by destruct (negb _). Qed.
#[local] Hint Resolve accept_capabilities_free : within.
Lemma free_capability_rsp sent received : within Q (handle_spdm_capability_response sent received).
Proof. unfold handle_spdm_capability_response. free_steps. Qed.
Lemma free_algorithm_rsp sent received : within Q (handle_spdm_algorithm_response sent received).
Proof. unfold handle_spdm_algorithm_response, on_negotiated. free_steps. Qed.
#[local] Hint Resolve free_version_rsp free_capability_rsp free_algorithm_rsp : within.
Lemma free_version : within Q (send_receive_spdm_version mode).
Proof. unfold send_receive_spdm_version, encode_spdm_version. free_steps. Qed.
Lemma free_capability : within Q (send_receive_spdm_capability mode).
Proof. unfold send_receive_spdm_capability, encode_spdm_capability. free_steps. Qed.
Lemma free_algorithm : within Q (send_receive_spdm_algorithm mode).
Proof. unfold send_receive_spdm_algorithm, encode_spdm_algorithm. free_steps. Qed.
End Negotiating.

(** Certificates are collected aside. *)
Section Fetching.
Context (fetchable : ∀ c c', provision_info c' = provision_info c →
  peer_cert_chain (peer_info c') = peer_cert_chain (peer_info c) → session c' = session c → Q c c').
#[local] Hint Extern 5 (Q _ _) => (apply fetchable; reflexivity) : within.

Lemma within_sub_u16 {S E} (P : relation S) `{!PreOrder P} a b : within P (sub_u16 (E:=E) mode a b).
Proof. unfold sub_u16. within_steps. Qed.
#[local] Hint Resolve within_sub_u16 : within.
Lemma free_check_portion slot total offset len p : within Q (check_portion mode slot total offset len p).
Proof. unfold check_portion. free_steps. Qed.
#[local] Hint Resolve free_check_portion : within.
Lemma free_partial_rsp id slot total offset len sent received :
  within Q (handle_spdm_certificate_partial_response mode id slot total offset len sent received).
Proof. unfold handle_spdm_certificate_partial_response. free_steps. Qed.
#[local] Hint Resolve free_partial_rsp : within.
Lemma free_partial id slot total offset len :
  within Q (send_receive_spdm_certificate_partial mode id slot total offset len).
Proof.
  unfold send_receive_spdm_certificate_partial, encode_spdm_certificate_partial. free_steps.
Qed.
#[local] Hint Resolve free_partial : within.
Lemma free_certificate_loop turns id slot total offset len :
  within Q (certificate_loop mode turns id slot total offset len).
Proof.
  revert total offset len. induction turns as [|turns IH]; intros; cbn [certificate_loop]; free_steps.
Qed.
Lemma free_verify_chain : within Q verify_spdm_certificate_chain.
Proof. unfold verify_spdm_certificate_chain. free_steps. Qed.
#[local] Hint Resolve free_certificate_loop : within.
Lemma free_certificate turns id slot :
  (∀ total, within Q (accept_chain slot total)) →
  within Q (send_receive_spdm_certificate mode turns id slot).
Proof.
  intros Ha. unfold send_receive_spdm_certificate, set_chain_temp. free_steps.
Qed.
End Fetching.

Lemma free_vendor_rsp id received : within Q (handle_spdm_vendor_defined_respond id received).
Proof. unfold handle_spdm_vendor_defined_respond. free_steps. Qed.
#[local] Hint Resolve free_vendor_rsp : within.
Lemma free_vendor id standard vendor payload :
  (∀ c, Q c (reset_context c)) →
  within Q (send_spdm_vendor_defined_request mode id standard vendor payload).
Proof. intros Hr. unfold send_spdm_vendor_defined_request. free_steps. Qed.
End Lenient.
End Q.
End ReqFrame.
