(* ===== verification/ReqAuth.v ===== *)
(** What the requester has verified when a request succeeds: CHALLENGE and signed
    GET_MEASUREMENTS return only when the signature of the responder is over the transcript up
    to it, and a key exchange only when, besides, the responder has proved the handshake keys. *)

From Stdlib Require Import RelationClasses.
From S2P Require Import Prelude Config Codec Status Algo Protocol Crypto KeySchedule Buffers Session Context SpdmCodec Opaque MsgNegotiate MsgAuth MsgSession Message Endpoint Responder Within RspConnect RspSession RspFrame RspInv RspEst Requester ReqConnect ReqSession ReqFrame.
Import RequesterContext.

(** ** Early returns *)

Lemma throw_never {S E A} (e : E) : never_ok (throw (S:=S) (A:=A) e).
Proof. by intros s a s'. Qed.
Lemma then_never {S E A B} (m : M S E A) (e : E) : never_ok (m;; throw (A:=B) e).
Proof. intros s a s' H. unfold bind in H. by destruct (m s) as [[] ?]. Qed.
#[export] Hint Resolve throw_never then_never : within.

(** [attempt] of a computation of which the failure is turned into another error. *)
Lemma attempt_ok {S E E' A B} (m : M S E A) (k : E + A → M S E' B) s b s' :
  bind (attempt m) k s = (Ok b, s') →
  ∃ o s1, m s = (o, s1) ∧
    match o with Ok a => k (inr a) s1 | Err e => k (inl e) s1 | Panic => (Panic, s1) end = (Ok b, s').
Proof. unfold bind, attempt. destruct (m s) as [[a|e|] s1]; intros H; eauto. Qed.

Lemma sub_usize_inv {S E} a b (s s' : S) n :
  sub_usize (E:=E) a b s = (Ok n, s') → s' = s ∧ n = (a - b)%nat ∧ (b ≤ a)%nat.
Proof. unfold sub_usize. destruct (Nat.leb_spec b a); [|done]. by intros [= <- <-]. Qed.
Lemma mb_as_ref_inv {S E} m (s s' : S) b :
  mb_as_ref (E:=E) m s = (Ok b, s') → s' = s ∧ b = mb_contents m.
Proof. unfold mb_as_ref. case_decide; [|done]. by intros [= <- <-]. Qed.
Lemma some_or_ok {S A} e (m : M S unit A) s a s' :
  some_or e m s = (Ok a, s') → m s = (Ok a, s').
Proof. apply map_err_ok. Qed.

(** ** The message that is signed *)

Lemma append_messages_ok capacity l b b' :
  mb_wf capacity b → append_messages l b = (Ok tt, b') →
  mb_wf capacity b' ∧ mb_contents b' = mb_contents b ++ concat l.
Proof.
  revert b. induction l as [|bs l IH]; intros b Hb H; cbn [append_messages] in H.
  - injection H as <-. by rewrite app_nil_r.
  - apply bind_ok in H as (n&b1&H1%some_or_ok&H).
    apply (append_message_ok _ _ _ _ _ Hb) in H1 as (_&Hb1&Hc).
    destruct (IH _ Hb1 H) as [Hb' Hc']. split; [done|]. cbn [concat]. by rewrite Hc', Hc, app_assoc.
Qed.

Lemma buffered_ok l capacity m :
  ((append_messages l;; let* buf := gets (λ b, b) in mb_as_ref buf) (managed_buffer capacity)).1
    = Ok m → m = concat l.
Proof.
  intros H%outcome_state. apply bind_ok in H as ([]&b&H1&H).
  apply (append_messages_ok _ _ _ _ (managed_buffer_wf _)) in H1 as [_ Hc].
  erewrite bind_step in H by done. by apply mb_as_ref_inv in H as [_ ->].
Qed.

Definition signed_message (zeropad sign_context hash : bytes) : bytes :=
  SPDM_VERSION_1_2_SIGNING_PREFIX_CONTEXT ++ zeropad ++ sign_context ++ hash.

Lemma signing_message_ok {S} zeropad sign_context hash (s s' : S) m :
  signing_message zeropad sign_context hash s = (Ok m, s') →
  s' = s ∧ m = signed_message zeropad sign_context hash.
Proof.
  intros H. pose proof (f_equal snd H) as Hs. split; [by symmetry|]. apply (f_equal fst) in H.
  rewrite (buffered_ok [_; zeropad; sign_context; hash] _ m H).
  unfold signed_message. cbn [concat]. by rewrite app_nil_r.
Qed.

Section Auth.
Context `{cfg : Config} `{cry : Crypto} `{sec : !Secret} `{dev : SpdmDeviceIo} `{tr : SpdmTransportEncap}.
Context (mode : overflow_mode).

(** ** Responses that are accepted *)

Lemma simple_error_never id code : never_ok (spdm_handle_simple_error_response id code).
Proof. unfold spdm_handle_simple_error_response. repeat case_match; auto with within. Qed.
Lemma error_main_never id bs : never_ok (spdm_handle_error_response_main id bs).
Proof.
  intros c a c' H. unfold spdm_handle_error_response_main in H.
  apply or_else_ok in H as ([h rd]&s1&H1&H); [|apply throw_never].
  apply bind_ok in H as (c1&s2&_&H). do 2 (case_decide; [done|]).
  apply bind_ok in H as (rest&s3&_&H).
  apply or_else_ok in H as ([p rd']&s4&_&H); [|apply throw_never].
  destruct (_ =? _); [by destruct (then_never _ _ _ _ _ H)|by destruct (simple_error_never _ _ _ _ _ H)].
Qed.

(** The payload of a response and the number of bytes it takes with the header. *)
Definition response_payload {A} (codec : SpdmContext → SpdmCodec A) (c : SpdmContext) (bs : bytes)
    : option (A * nat) :=
  match run (read_header bs) with
  | Ok (_, rd) =>
      match spdm_read (codec c) rd with (Ok p, rd') => Some (p, Reader_used rd') | _ => None end
  | _ => None
  end.

Lemma select_response_ok {A} h code id bs (k : SpdmM SpdmContext A) c a c' :
  select_response h code id bs k c = (Ok a, c') →
  hd_request_response_code h = code ∧ k c = (Ok a, c').
Proof.
  unfold select_response. case_decide; [done|].
  case_decide; intros Hr; [|done]. by destruct (then_never _ _ _ _ _ Hr).
Qed.
Lemma expect_response_ok {A} code id bs (k : Reader → SpdmM SpdmContext A) c a c' :
  expect_response code id bs k c = (Ok a, c') →
  ∃ h rd, run (read_header bs) = Ok (h, rd) ∧ hd_version h = negotiated_version c ∧
    k rd c = (Ok a, c').
Proof.
  intros H. unfold expect_response in H.
  apply or_else_ok in H as ([h rd]&s1&H1&H); [|apply throw_never].
  apply read_header_run in H1 as [-> H1]. erewrite bind_step in H by done.
  case_decide as Hv; [done|]. apply select_response_ok in H as [_ H]. eauto.
Qed.
Lemma payload_ok {A B} (codec : SpdmContext → SpdmCodec A) rd (k : A * Reader → SpdmM SpdmContext B)
    c b c' :
  or_else (RequesterContext.read_payload codec rd) invalid_field k c = (Ok b, c') →
  ∃ p rd', spdm_read (codec c) rd = (Ok p, rd') ∧ k (p, rd') c = (Ok b, c').
Proof.
  intros H. apply or_else_ok in H as ([p rd']&c1&H1&H); [|apply throw_never].
  unfold RequesterContext.read_payload, resume, bind, gets in H1.
  destruct (spdm_read _ rd) as [[] ?] eqn:Hr; simplify_eq. eauto.
Qed.

Lemma payload_intro {A} (codec : SpdmContext → SpdmCodec A) c bs h rd p rd' :
  run (read_header bs) = Ok (h, rd) → spdm_read (codec c) rd = (Ok p, rd') →
  response_payload codec c bs = Some (p, Reader_used rd').
Proof. intros Hh Hp. unfold response_payload. by rewrite Hh, Hp. Qed.

(** ** Signatures *)

Lemma verify_transcript_signed slot_id zeropad sign_context th sg c c' :
  verify_transcript slot_id zeropad sign_context th sg c = (Ok tt, c') →
  c' = c ∧ ∃ chain hash_size,
    peer_cert_chain (peer_info c) !! Z.to_nat slot_id = Some (Some chain) ∧
    get_hash_size (E:=SpdmStatus) c = Ok hash_size ∧
    asym_verify (base_hash_sel (negotiate_info c)) (base_asym_sel (negotiate_info c))
      (take (data_size chain - (4 + hash_size)) (drop (4 + hash_size) (data chain)))
      (signed_message zeropad sign_context (sized_bytes th)) sg = Ok tt.
Proof.
  intros H. unfold verify_transcript, peer_certificates in H.
  apply bind_ok in H as (certs&s1&H1&H). erewrite bind_step in H1 by done.
  apply bind_ok in H1 as (o&s2&[Ho ->]%unwrap_ok&H1).
  apply bind_ok in H1 as (chain&s3&[-> ->]%ok_or_ok&H1).
  apply bind_ok in H1 as (n&s4&[Hn ->]%of_outcome_ok&H1).
  apply sub_slice_inv in H1 as (->&->&_). erewrite bind_step in H by done.
  destruct (version_below _ _); [done|].
  apply bind_ok in H as (hb&s5&[-> ->]%sized_as_ref_inv&H).
  apply bind_ok in H as (m&s6&[-> ->]%signing_message_ok&H).
  apply of_outcome_ok in H as [Hv <-]. split; [done|]. by exists chain, n.
Qed.

Context `{hl : !HashLaws}.

(** The signature is, by the certificates of the slot, of the hash of [transcript]. *)
Definition signed_by_peer (c : SpdmContext) (slot_id : Z) (zeropad sign_context : bytes)
    (transcript : Z * bytes) (signature : SpdmSignatureStruct) : Prop :=
  ∃ th chain hash_size,
    hash_all transcript.1 transcript.2 = Ok th ∧
    peer_cert_chain (peer_info c) !! Z.to_nat slot_id = Some (Some chain) ∧
    get_hash_size (E:=SpdmStatus) c = Ok hash_size ∧
    asym_verify (base_hash_sel (negotiate_info c)) (base_asym_sel (negotiate_info c))
      (take (data_size chain - (4 + hash_size)) (drop (4 + hash_size) (data chain)))
      (signed_message zeropad sign_context (sized_bytes th)) signature = Ok tt.

Lemma verify_transcript_ok slot_id zeropad sign_context h th sg c c' :
  hash_ctx_finalize h = Ok th →
  verify_transcript slot_id zeropad sign_context th sg c = (Ok tt, c') →
  c' = c ∧ signed_by_peer c slot_id zeropad sign_context (hctx_data h) sg.
Proof.
  intros Hf (->&chain&n&Hc&Hn&Hv)%verify_transcript_signed. split; [done|].
  exists th, chain, n. split_and!; [|done..]. by rewrite <- hash_ctx_finalize_data.
Qed.
Lemma digest_ok o c h c' :
  RequesterContext.transcript_digest o c = (Ok h, c') →
  c' = c ∧ ∃ ctx, o = Some ctx ∧ hash_ctx_finalize ctx = Ok h.
Proof.
  unfold RequesterContext.transcript_digest. intros H.
  apply bind_ok in H as (ctx&s1&[-> ->]%ok_or_ok&H). apply some_or_ok in H.
  apply of_outcome_ok in H as [Hf <-]. eauto.
Qed.

(** ** Transcripts *)

(** What transcripts B and C have absorbed so far, or will have before the next message. *)
Definition m1m2_data (c : SpdmContext) : Z * bytes :=
  match digest_context_m1m2 (runtime_info c) with
  | Some h => hctx_data h
  | None => (base_hash_sel (negotiate_info c), mb_contents (message_a (runtime_info c)))
  end.
Definition extended (d : Z * bytes) (bs : bytes) : Z * bytes := (d.1, d.2 ++ bs).

Lemma hash_absorb_data bs o o' :
  hash_absorb bs o = (Ok tt, o') →
  ∃ h h', o = Some h ∧ o' = Some h' ∧ hctx_data h' = extended (hctx_data h) bs.
Proof.
  intros (h&h1&->&Hu&->)%hash_absorb_ok. exists h, h1. split_and!; [done|done|].
  by apply hash_ctx_update_data in Hu.
Qed.
Lemma hash_start_data alg e o o' :
  hash_start alg e o = (Ok tt, o') → ∃ h, o' = Some h ∧ hctx_data h = (alg, []).
Proof.
  unfold hash_start. intros H. apply bind_ok in H as (h&s1&H1%some_or_ok&H).
  apply of_outcome_ok in H1 as [Hi <-]. injection H as <-. exists h. split; [done|].
  by apply hash_ctx_init_data.
Qed.

(** What the transcripts are kept in aside, nothing changes. *)
Definition but_m1m2 (c c' : SpdmContext) : Prop :=
  c' = c <| runtime_info ::= λ r, r <| digest_context_m1m2 :=
         digest_context_m1m2 (runtime_info c') |> |>.

Lemma on_m1m2_but {E A} (m : M (option SpdmHashCtx) E A) c r c' :
  on_m1m2 m c = (r, c') →
  but_m1m2 c c' ∧ m (digest_context_m1m2 (runtime_info c)) = (r, digest_context_m1m2 (runtime_info c')).
Proof.
  unfold on_m1m2, zoom. destruct (m _) as [o v]. intros [= <- <-]. by split.
Qed.
Lemma but_m1m2_trans c c1 c2 : but_m1m2 c c1 → but_m1m2 c1 c2 → but_m1m2 c c2.
Proof. unfold but_m1m2. intros H1 H2. rewrite H2 at 1. rewrite H1. reflexivity. Qed.

Lemma append_m1m2_ok e bs c c' :
  append_m1m2 e bs c = (Ok tt, c') →
  but_m1m2 c c' ∧
  ∃ h, digest_context_m1m2 (runtime_info c') = Some h ∧ hctx_data h = extended (m1m2_data c) bs.
Proof.
  intros H. unfold append_m1m2 in H. erewrite bind_step in H by done.
  apply bind_ok in H as ([]&c1&H1&H). apply on_m1m2_but in H as [Hb2 H].
  apply hash_absorb_data in H as (h&h'&Hh&Hh'&Hd).
  assert (but_m1m2 c c1 ∧ hctx_data h = m1m2_data c) as [Hb1 Hd1].
  { unfold m1m2_data. destruct (digest_context_m1m2 (runtime_info c)) as [h0|] eqn:H0.
    - injection H1 as <-. split; [|congruence]. unfold but_m1m2. by destruct c as [???? []].
    - apply bind_ok in H1 as ([]&c2&H2&H1). apply on_m1m2_but in H2 as [Hb H2].
      apply hash_start_data in H2 as (h1&Hh1&Hd1).
      apply bind_ok in H1 as (a&s3&[-> ->]%mb_as_ref_inv&H1). apply on_m1m2_but in H1 as [Hb' H1].
      apply hash_absorb_data in H1 as (h2&h3&Hh2&Hh3&Hd3). split; [by eapply but_m1m2_trans|].
      rewrite Hh1 in Hh2. injection Hh2 as <-. rewrite Hh in Hh3. injection Hh3 as <-.
      by rewrite Hd3, Hd1. }
  split; [by eapply but_m1m2_trans|]. exists h'. by rewrite Hd, Hd1.
Qed.
Lemma but_m1m2_signed c c' slot z x d sg :
  but_m1m2 c c' → signed_by_peer c' slot z x d sg → signed_by_peer c slot z x d sg.
Proof. intros ->. done. Qed.

(** ** CHALLENGE *)

Definition summary_wanted (t : SpdmMeasurementSummaryHashType) (c : SpdmContext) : SpdmContext :=
  (need_summary_hash t c).2.

(** C13: A CHALLENGE of the requester succeeds only when the signature of the response verifies,
    with the certificates stored for the slot, over the messages exchanged since the connection
    was negotiated, the challenge and the response up to the signature. *)
Theorem challenge_authenticated slot_id t sent received c c' :
  handle_spdm_challenge_response slot_id t sent received c = (Ok tt, c') →
  ∃ p used size,
    response_payload SpdmChallengeAuthResponsePayload_codec (summary_wanted t c) received
      = Some (p, used) ∧
    get_asym_key_size (E:=SpdmStatus) c = Ok size ∧ (size ≤ used)%nat ∧
    signed_by_peer c slot_id SPDM_VERSION_1_2_SIGNING_CONTEXT_ZEROPAD_4
      SPDM_CHALLENGE_AUTH_SIGN_CONTEXT
      (extended (m1m2_data c) (sent ++ take (used - size) received)) (ca_signature p).
Proof.
  intros H. unfold handle_spdm_challenge_response in H. erewrite bind_step in H by done.
  apply expect_response_ok in H as (h&rd&Hh&_&H).
  apply payload_ok in H as (p&rd'&Hp&H). erewrite bind_step in H by done.
  apply bind_ok in H as (size&c1&[Hsize <-]%of_outcome_ok&H).
  apply bind_ok in H as (n&c2&(->&->&Hle)%sub_usize_inv&H).
  apply bind_ok in H as ([]&c3&H3&H).
  apply bind_ok in H as (part&c4&(->&->&_)%sub_slice_inv&H).
  apply bind_ok in H as ([]&c5&H5&H).
  apply append_m1m2_ok in H3 as (B3&h3&Hh3&Hd3), H5 as (B5&h5&Hh5&Hd5).
  apply attempt_ok in H as (o&c6&Ho&H). destruct o as [[]|e|]; [|by destruct (then_never _ _ _ _ _ H)|done].
  unfold verify_challenge_auth_signature in Ho. erewrite bind_step in Ho by done.
  apply bind_ok in Ho as (th&c7&(->&ctx&Hctx&Hf)%digest_ok&Ho).
  apply (verify_transcript_ok _ _ _ _ _ _ _ _ Hf) in Ho as [_ Hs].
  rewrite Hh5 in Hctx. injection Hctx as <-.
  apply (but_m1m2_signed _ _ _ _ _ _ _ B5), (but_m1m2_signed _ _ _ _ _ _ _ B3) in Hs.
  exists p, (Reader_used rd'), size.
  split_and!; [by apply (payload_intro _ _ _ h rd)|done|done|].
  unfold m1m2_data in Hd5 at 1. rewrite Hh3 in Hd5. rewrite Hd5, Hd3 in Hs.
  unfold extended in Hs |- *. cbn [fst snd] in Hs. rewrite drop_0, Nat.sub_0_r, <- app_assoc in Hs.
  exact Hs.
Qed.

(** ** MEASUREMENTS *)

(** The digest context of the measurements, of the connection or of a session. *)
Definition measured (session_id : option Z) (c : SpdmContext) : option (option SpdmHashCtx) :=
  match session_id with
  | None => Some (digest_context_l1l2 (runtime_info c))
  | Some id => s_digest_context_l1l2 ∘ s_runtime_info <$> get_immutable_session_via_id id c
  end.
Definition l1l2_data (c : SpdmContext) (old : option SpdmHashCtx) : Z * bytes :=
  let n := negotiate_info c in
  match old with
  | Some h => hctx_data h
  | None => (base_hash_sel n, if SpdmVersion_ge (spdm_version_sel n) SpdmVersion12
                              then mb_contents (message_a (runtime_info c)) else [])
  end.
Lemma append_l1l2_ok {S} (on : ∀ A, SpdmM (option SpdmHashCtx) A → SpdmM S A) get c bs s s' :
  (∀ A m s r s', on A m s = (r, s') → m (get s) = (r, get s')) →
  append_l1l2 on (get s) (negotiate_info c) (message_a (runtime_info c)) bs s = (Ok tt, s') →
  ∃ h, get s' = Some h ∧ hctx_data h = extended (l1l2_data c (get s)) bs.
Proof.
  intros Hon H. unfold append_l1l2 in H. apply bind_ok in H as ([]&s1&H1&H).
  apply Hon, hash_absorb_data in H as (h&h'&Hh&Hh'&Hd). exists h'. split; [done|]. rewrite Hd. f_equal.
  unfold l1l2_data. destruct (get s) as [h0|] eqn:H0; [injection H1 as <-; congruence|].
  apply bind_ok in H1 as ([]&s2&H2&H1). apply Hon, hash_start_data in H2 as (h2&Hh2&Hd2).
  destruct (SpdmVersion_ge _ _); [|injection H1 as <-; congruence].
  apply bind_ok in H1 as (a&s3&[-> ->]%mb_as_ref_inv&H1).
  apply Hon, hash_absorb_data in H1 as (h3&h4&Hh3&Hh4&Hd4).
  assert (h4 = h) as -> by congruence. assert (h3 = h2) as -> by congruence. by rewrite Hd4, Hd2.
Qed.
Lemma on_l1l2_only {E A} (m : M (option SpdmHashCtx) E A) c r c' :
  on_l1l2 m c = (r, c') →
  m (digest_context_l1l2 (runtime_info c)) = (r, digest_context_l1l2 (runtime_info c')).
Proof. unfold on_l1l2, zoom. destruct (m _). by intros [= <- <-]. Qed.
Lemma on_session_l1l2_only {E A} (m : M (option SpdmHashCtx) E A) s r s' :
  on_session_l1l2 m s = (r, s') →
  m (s_digest_context_l1l2 (s_runtime_info s)) = (r, s_digest_context_l1l2 (s_runtime_info s')).
Proof. unfold on_session_l1l2, zoom. destruct (m _). by intros [= <- <-]. Qed.
Lemma append_session_l1l2_id old n a bs :
  within session_quiet (append_l1l2 (λ _, on_session_l1l2) old n a bs).
Proof.
  unfold append_l1l2. within_steps; apply on_session_l1l2_quiet.
Qed.
Lemma append_m_ok id bs c c' :
  append_message_m id bs c = (Ok tt, c') →
  core_same c c' ∧ ∃ o h, measured id c = Some o ∧ measured id c' = Some (Some h) ∧
    hctx_data h = extended (l1l2_data c o) bs.
Proof.
  intros H. split; [exact (free_append_m (λ _ _, True) core_same (λ _ _ _, I) _ _ _ _ _ H)|]. unfold append_message_m in H.
  erewrite bind_step in H by done. destruct id as [id|].
  - unfold measured, get_immutable_session_via_id.
    destruct (list_find (λ s, session_id s = id) (session c)) as [[i s]|] eqn:Hs;
      [|unfold with_session in H; by rewrite Hs in H].
    rewrite (with_session_at _ _ _ _ _ _ Hs) in H. erewrite bind_step in H by done.
    destruct (append_l1l2 _ _ _ _ _ s) as [r s'] eqn:Ha. injection H as -> <-.
    pose proof (append_session_l1l2_id _ _ _ _ _ _ _ Ha) as Hq.
    apply (append_l1l2_ok _ (λ s, s_digest_context_l1l2 (s_runtime_info s))) in Ha as (h&Hh&Hd);
      [|intros; by apply on_session_l1l2_only].
    assert (session_id s' = session_id s) as Hid by (unfold session_quiet, session_key, session_base in Hq; congruence).
    pose proof (at_update _ _ _ _ _ Hs Hid) as Hs'. unfold at_ in Hs'. cbn [snd].
    rewrite Hs'. exists (s_digest_context_l1l2 (s_runtime_info s)), h. split_and!; [done| |done].
    cbn. by rewrite Hh.
  - apply (append_l1l2_ok _ (λ c, digest_context_l1l2 (runtime_info c))) in H as (h&Hh&Hd);
      [|intros; by apply on_l1l2_only].
    exists (digest_context_l1l2 (runtime_info c)), h. split_and!; [done| |done]. cbn. by rewrite Hh.
Qed.
Lemma core_signed c c' slot z x d sg :
  core_same c c' → signed_by_peer c' slot z x d sg → signed_by_peer c slot z x d sg.
Proof.
  unfold core_same, core. intros [= _ Hn _ Hp _] H. unfold signed_by_peer, get_hash_size in *.
  by rewrite Hn, Hp in H.
Qed.
Lemma core_l1l2 c c' o : core_same c c' → l1l2_data c' o = l1l2_data c o.
Proof. unfold core_same, core, l1l2_data. by intros [= _ -> _ _ ->]. Qed.

Definition signature_wanted (attributes : Z) (c : SpdmContext) : SpdmContext :=
  c <| runtime_info ::= λ r, r <| need_measurement_signature := signature_requested attributes |> |>.

Lemma verify_measurement_ok slot id sg c c' h :
  measured id c = Some (Some h) → verify_measurement_signature slot id sg c = (Ok tt, c') →
  signed_by_peer c slot SPDM_VERSION_1_2_SIGNING_CONTEXT_ZEROPAD_6 SPDM_MEASUREMENTS_SIGN_CONTEXT
    (hctx_data h) sg.
Proof.
  intros Hm H. unfold verify_measurement_signature in H. erewrite bind_step in H by done.
  apply bind_ok in H as (o&c1&Ho&H).
  assert (o = Some h ∧ c1 = c) as [-> ->].
  { destruct id as [id|]; cbn in Hm; [|injection Hm as Hm; by injection Ho as <- <-].
    destruct (get_immutable_session_via_id id c); [|done].
    erewrite bind_step in Ho by done. cbn in Hm. injection Hm as Hm. by injection Ho as <- <-. }
  apply bind_ok in H as (th&c2&(->&ctx&[= <-]&Hf)%digest_ok&H).
  by apply (verify_transcript_ok _ _ _ _ _ _ _ _ Hf) in H as [_ H].
Qed.

(** C14: GET_MEASUREMENTS with a signature returns the record of the response only when the
    signature verifies, with the certificates stored for the slot, over the transcript of the
    measurements, the request and the response up to the signature; in a session the transcript
    is the one of the session. *)
Theorem measurement_authenticated session_id slot_id attributes operation sent received c n record c' :
  signature_requested attributes = true →
  handle_spdm_measurement_record_response session_id slot_id attributes operation sent received c
    = (Ok (n, record), c') →
  ∃ p used size o,
    response_payload SpdmMeasurementsResponsePayload_codec (signature_wanted attributes c) received
      = Some (p, used) ∧
    record = mr_measurement_record p ∧
    get_asym_key_size (E:=SpdmStatus) c = Ok size ∧ (size ≤ used)%nat ∧
    measured session_id c = Some o ∧
    signed_by_peer c slot_id SPDM_VERSION_1_2_SIGNING_CONTEXT_ZEROPAD_6
      SPDM_MEASUREMENTS_SIGN_CONTEXT
      (extended (l1l2_data c o) (sent ++ take (used - size) received)) (mr_signature p).
Proof.
  intros Hsig H. unfold handle_spdm_measurement_record_response in H. cbv zeta in H.
  erewrite bind_step in H by done. apply expect_response_ok in H as (h&rd&Hh&_&H).
  apply payload_ok in H as (p&rd'&Hp&H). apply bind_ok in H as ([]&c0&[= <-]&H).
  set (c0 := if version_below _ _ then _ else _) in H.
  assert (core_same c c0 ∧ measured session_id c0 = measured session_id c) as [K0 M0]
    by (unfold c0; destruct (version_below _ _), session_id; done).
  clearbody c0. erewrite bind_step in H by done.
  apply bind_ok in H as (size&c1&[Hsize <-]%of_outcome_ok&H). rewrite Hsig in H.
  apply bind_ok in H as (k&c2&(->&->&Hle)%sub_usize_inv&H).
  apply bind_ok in H as ([]&c3&(K3&o&h3&Ho&Hm3&Hd3)%append_m_ok&H).
  apply bind_ok in H as (part&c4&(->&->&_)%sub_slice_inv&H).
  apply bind_ok in H as ([]&c5&(K5&o5&h5&Ho5&Hm5&Hd5)%append_m_ok&H).
  apply bind_ok in H as ([]&c6&H6&H). injection H as _ <- _.
  apply attempt_ok in H6 as (r&c7&Hr&H6). destruct r as [[]|e|]; [|by destruct (then_never _ _ _ _ _ H6)|done].
  apply (verify_measurement_ok _ _ _ _ _ _ Hm5) in Hr.
  apply (core_signed _ _ _ _ _ _ _ K5), (core_signed _ _ _ _ _ _ _ K3), (core_signed _ _ _ _ _ _ _ K0) in Hr.
  rewrite M0 in Ho. exists p, (Reader_used rd'), size, o.
  split_and!; [by apply (payload_intro _ _ _ h rd)|done| |done|done|].
  - rewrite <- Hsize. unfold get_asym_key_size. injection K0 as _ Hn _ _ _. by rewrite Hn.
  - assert (o5 = Some h3) as -> by congruence. rewrite Hd5 in Hr. unfold l1l2_data at 1 in Hr.
    rewrite Hd3, (core_l1l2 _ _ _ K0) in Hr. unfold extended in Hr |- *. cbn [fst snd] in Hr.
    by rewrite drop_0, Nat.sub_0_r, <- app_assoc in Hr.
Qed.

(** ** KEY_EXCHANGE *)

(** What the transcript of a session has absorbed so far, or will have before the next
    message. *)
Definition th_data (s : SpdmSession) : Z * bytes :=
  let r := s_runtime_info s in
  match digest_context_th r with
  | Some h => hctx_data h
  | None => (cp_base_hash_algo (crypto_param s),
             mb_contents (s_message_a r) ++ default [] (sized_bytes <$> rsp_cert_hash r))
  end.

(** Only the transcript of the session changes. *)
Definition but_th (s s' : SpdmSession) : Prop :=
  s' = s <| s_runtime_info ::= λ r, r <| digest_context_th := digest_context_th (s_runtime_info s') |> |>.
Lemma on_th_but {E A} (m : M (option SpdmHashCtx) E A) s r s' :
  on_th m s = (r, s') →
  but_th s s' ∧ m (digest_context_th (s_runtime_info s)) = (r, digest_context_th (s_runtime_info s')).
Proof. unfold on_th, zoom. destruct (m _) as [o v]. intros [= <- <-]. by split. Qed.
#[local] Instance but_th_preorder : PreOrder but_th.
Proof.
  split; unfold but_th; [intros s; by destruct s as [?????????? []]|].
  intros s s1 s2 H1 H2. rewrite H2 at 1. rewrite H1. reflexivity.
Qed.

Lemma append_k_at id c i s bs c' :
  at_ id c i s → append_message_k id bs c = (Ok tt, c') →
  ∃ s' h, c' = c <| session ::= <[i := s']> |> ∧ at_ id c' i s' ∧ but_th s s' ∧
    digest_context_th (s_runtime_info s') = Some h ∧ hctx_data h = extended (th_data s) bs.
Proof.
  intros Hs H. unfold append_message_k in H. rewrite (with_session_at _ _ _ _ _ _ Hs) in H.
  destruct (bind _ _ s) as [r s'] eqn:Hb. injection H as -> <-. cbn [snd].
  erewrite bind_step in Hb by done. cbv zeta in Hb. apply bind_ok in Hb as ([]&s1&H1&H).
  apply on_th_but in H as [B1 (h&h'&Hh&Hh'&Hd)%hash_absorb_data].
  assert (but_th s s1 ∧ hctx_data h = th_data s) as [B Hd1].
  { unfold th_data. destruct (digest_context_th (s_runtime_info s)) as [h0|] eqn:H0.
    { injection H1 as <-. split; [reflexivity|congruence]. }
    apply bind_ok in H1 as ([]&s2&[B2 (h2&Hh2&Hd2)%hash_start_data]%on_th_but&H1).
    apply bind_ok in H1 as (a&s3&[-> ->]%mb_as_ref_inv&H1).
    apply bind_ok in H1 as ([]&s4&[B4 (h3&h4&Hh3&Hh4&Hd4)%hash_absorb_data]%on_th_but&H1).
    assert (h3 = h2) as -> by congruence.
    destruct (rsp_cert_hash (s_runtime_info s)) as [ch|]; cbn.
    - apply bind_ok in H1 as (b&s5&[-> ->]%sized_as_ref_inv&H1).
      apply on_th_but in H1 as [B5 (h5&h6&Hh5&Hh6&Hd6)%hash_absorb_data].
      assert (h5 = h4) as -> by congruence. assert (h6 = h) as -> by congruence.
      split; [by etrans; [etrans; [exact B2|exact B4]|exact B5]|]. by rewrite Hd6, Hd4, Hd2.
    - injection H1 as <-. assert (h4 = h) as -> by congruence.
      split; [by etrans; [exact B2|exact B4]|]. by rewrite Hd4, Hd2, app_nil_r. }
  assert (but_th s s') as B' by (by etrans).
  exists s', h'. split_and!; [done| |done|done|by rewrite Hd, Hd1].
  apply (at_update _ _ _ _ _ Hs). by rewrite B'.
Qed.
Lemma th_data_some s h : digest_context_th (s_runtime_info s) = Some h → th_data s = hctx_data h.
Proof. unfold th_data. by intros ->. Qed.

(** *** The new session *)

Lemma set_dhe_ok v key s s' :
  SpdmSession_set_dhe_secret v key s = (Ok tt, s') →
  s' = s <| dhe_secret_root := dhe_secret_root s' |> ∧ dhe_secret (dhe_secret_root s') = key.
Proof.
  intros H. unfold SpdmSession_set_dhe_secret in H. erewrite bind_step in H by done.
  erewrite bind_step in H by done. cbv zeta in H.
  apply bind_ok in H as (hs&s1&H1%some_or_ok&H).
  apply (within_handshake_secret eq) in H1 as <-.
  apply bind_ok in H as (ms&s2&H2%some_or_ok&H).
  apply (within_master_secret eq) in H2 as <-. by injection H as <-.
Qed.
Lemma start_dhe_ok c id m key ch s0 s :
  start_dhe_session c id m key ch s0 = (Ok tt, s) →
  session_id s = id ∧ use_psk s = false ∧ mut_auth_requested s = m ∧
  cp_base_hash_algo (crypto_param s) = base_hash_sel (negotiate_info c) ∧
  dhe_secret (dhe_secret_root s) = key ∧
  th_data s = (base_hash_sel (negotiate_info c),
               mb_contents (message_a (runtime_info c)) ++ sized_bytes ch).
Proof.
  intros H. unfold start_dhe_session in H. apply bind_ok in H as ([]&s1&H1&H).
  unfold SpdmSession_setup in H1. erewrite bind_step in H1 by done.
  destruct (_ =? _); [|done]. injection H1 as <-.
  apply bind_ok in H as ([]&s2&[= <-]&H). apply bind_ok in H as ([]&s3&[H3 Hk]%set_dhe_ok&H).
  injection H as <-. rewrite H3. by split_and!.
Qed.

Lemma half_session_id_of r q : is_u16 q → half_session_id true (session_id_of r q) = q.
Proof.
  unfold half_session_id, session_id_of, is_u16, is_uint, as_u16, as_uint. intros Hq.
  rewrite Z.shiftl_0_r, Z.shiftr_0_r.
  change 0xFFFF with (Z.ones 16). rewrite Z.land_ones by lia. rewrite Z.shiftl_mul_pow2 by lia.
  rewrite Z.add_comm, Z.mod_add, Z.mod_mod by lia. by apply Z.mod_small.
Qed.
Lemma next_session_ok {A} q r c (body : SpdmM SpdmSession A) e a c' :
  is_u16 q → Forall (λ s, half_session_id true (session_id s) ≠ q) (session c) →
  with_next_avaiable_session (throw e) body c = (Ok a, c') →
  ∃ i s0 s, body s0 = (Ok a, s) ∧ c' = c <| session ::= <[i := s]> |> ∧
    (session_id s = session_id_of r q → at_ (session_id_of r q) c' i s).
Proof.
  intros Hq Hf H. unfold with_next_avaiable_session, with_session in H.
  destruct (list_find _ _) as [[i s0]|] eqn:Hl; [|done].
  destruct (body s0) as [o s] eqn:Hb. injection H as -> <-. exists i, s0, s. split_and!; [done..|].
  intros Hid. apply list_find_Some in Hl as (Hi&_&_). unfold at_. cbn. apply list_find_Some.
  split_and!; [by apply list_lookup_insert_eq; eapply lookup_lt_Some|done|].
  intros j x Hx Hlt Hxid. rewrite list_lookup_insert_ne in Hx by lia.
  eapply Forall_lookup_1 in Hf; [|exact Hx]. by rewrite Hxid, half_session_id_of in Hf.
Qed.

(** *** The signature and the proof of the keys *)

Lemma the_session_ok id c i s c' a :
  at_ id c i s → the_session id c = (Ok a, c') → a = s ∧ c' = c.
Proof.
  intros Hs H. unfold the_session, get_immutable_session_via_id in H.
  erewrite bind_step in H by done. rewrite Hs in H. by injection H as <- <-.
Qed.
Lemma req_transcript_ok {S} s (st st' : S) th :
  calc_req_transcript_hash s st = (Ok th, st') →
  st' = st ∧ ∃ h, digest_context_th (s_runtime_info s) = Some h ∧ hash_ctx_finalize h = Ok th.
Proof.
  unfold calc_req_transcript_hash. intros H. apply bind_ok in H as (h&s1&[-> ->]%ok_or_ok&H).
  apply some_or_ok, of_outcome_ok in H as [Hf <-]. eauto.
Qed.

Definition but_handshake (s s' : SpdmSession) : Prop :=
  s' = s <| handshake_secret := handshake_secret s' |>.
#[local] Instance but_handshake_preorder : PreOrder but_handshake.
Proof.
  split; unfold but_handshake; [intros s; by destruct s|].
  intros s s1 s2 H1 H2. rewrite H2 at 1. rewrite H1. reflexivity.
Qed.
#[local] Hint Resolve within_request_handshake within_response_handshake within_finished_key
  within_aead_key_iv : within.
Lemma generate_handshake_but v th :
  within but_handshake (SpdmSession_generate_handshake_secret v th).
Proof.
  assert (∀ f, within but_handshake
    (modify (E:=SpdmStatus) (λ s, s <| handshake_secret ::= f |>))) as Hm
    by (intros f s r s' H; by injection H as <- <-).
  unfold SpdmSession_generate_handshake_secret. within_steps; apply Hm.
Qed.
Lemma on_the_session_ok {A} id c i s (body : SpdmM SpdmSession A) a c' :
  at_ id c i s → on_the_session id body c = (Ok a, c') →
  ∃ s', body s = (Ok a, s') ∧ c' = c <| session ::= <[i := s']> |>.
Proof.
  intros Hs H. unfold on_the_session in H. rewrite (with_session_at _ _ _ _ _ _ Hs) in H.
  destruct (body s) as [o s']. injection H as -> <-. eauto.
Qed.

(** Where the response is cut: before the signature, and the verify data if there is one. *)
Definition key_exchange_cut (c : SpdmContext) (used : nat) : option nat :=
  match get_asym_key_size (E:=SpdmStatus) c, get_hash_size (E:=SpdmStatus) c with
  | Ok a, Ok h => Some (used - a - (if in_clear_text c then 0 else h))%nat
  | _, _ => None
  end.

Lemma authenticate_ok id slot sg sent received rd c c' i s :
  at_ id c i s →
  authenticate_key_exchange id slot (in_clear_text c) sg sent received rd c = (Ok tt, c') →
  ∃ cut s',
    key_exchange_cut c (Reader_used rd) = Some cut ∧
    let d := extended (th_data s) (sent ++ take cut received) in
    signed_by_peer c slot SPDM_VERSION_1_2_SIGNING_CONTEXT_ZEROPAD_2
      SPDM_KEY_EXCHANGE_RESPONSE_SIGN_CONTEXT d sg ∧
    at_ id c' i s' ∧ core_same c c' ∧ th_data s' = extended d (sized_bytes sg) ∧
    session_base s' = session_base s ∧ dhe_secret_root s' = dhe_secret_root s.
Proof.
  intros Hs H. pose proof (free_authenticate (λ _ _, True) core_same (λ _ _ _, I) _ _ _ _ _ _ _ _ _ _ H) as K.
  unfold authenticate_key_exchange in H. erewrite bind_step in H by done.
  apply bind_ok in H as (asym&c1&[Ha <-]%of_outcome_ok&H).
  apply bind_ok in H as (hash&c2&[Hn <-]%of_outcome_ok&H).
  apply bind_ok in H as (n&c3&(->&->&_)%sub_usize_inv&H).
  apply bind_ok in H as (cut&c4&H4&H).
  assert (key_exchange_cut c (Reader_used rd) = Some cut ∧ c4 = c) as [Hcut ->].
  { unfold key_exchange_cut. rewrite Ha, Hn. destruct (in_clear_text c).
    - injection H4 as <- <-. split; [f_equal; lia|done].
    - by apply sub_usize_inv in H4 as (->&->&_). }
  apply bind_ok in H as ([]&c5&(s5&h5&->&Hs5&B5&Hh5&Hd5)%(append_k_at _ _ _ _ _ _ Hs)&H).
  apply bind_ok in H as (part&c6&(->&->&_)%sub_slice_inv&H).
  apply bind_ok in H as ([]&c7&(s7&h7&->&Hs7&B7&Hh7&Hd7)%(append_k_at _ _ _ _ _ _ Hs5)&H).
  apply bind_ok in H as (a&c8&[-> ->]%(the_session_ok _ _ _ _ _ _ Hs7)&H).
  apply or_else_ok in H as ([]&c9&H9&H); [|apply throw_never].
  unfold verify_key_exchange_rsp_signature in H9.
  apply bind_ok in H9 as (th&c10&(->&h&Hh&Hf)%req_transcript_ok&H9).
  apply (verify_transcript_ok _ _ _ _ _ _ _ _ Hf) in H9 as [-> Hsig].
  assert (h = h7) as -> by congruence.
  apply bind_ok in H as (b&c11&[-> ->]%sized_as_ref_inv&H).
  apply bind_ok in H as ([]&c12&(s12&h12&->&Hs12&B12&Hh12&Hd12)%(append_k_at _ _ _ _ _ _ Hs7)&H).
  apply bind_ok in H as (th1&c13&H13&H). unfold transcript_hash in H13.
  apply bind_ok in H13 as (a&c14&[-> ->]%(the_session_ok _ _ _ _ _ _ Hs12)&(->&_)%req_transcript_ok).
  apply (on_the_session_ok _ _ _ _ _ _ _ Hs12) in H as (s'&Hg&->).
  apply generate_handshake_but in Hg. exists cut, s'.
  rewrite (th_data_some _ _ Hh5), Hd5 in Hd7. rewrite (th_data_some _ _ Hh7), Hd7 in Hd12.
  rewrite Hd7 in Hsig. unfold extended in *. cbn [fst snd] in *.
  rewrite drop_0, Nat.sub_0_r in *. rewrite <- (app_assoc _ sent) in Hsig, Hd12.
  split_and!; [done|exact Hsig| |done| | |].
  - apply (at_update _ _ _ _ _ Hs12). by rewrite Hg.
  - rewrite <- Hd12, <- (th_data_some _ _ Hh12), Hg. reflexivity.
  - rewrite Hg, B12, B7, B5. reflexivity.
  - rewrite Hg, B12, B7, B5. reflexivity.
Qed.

(** The verify data proves that the responder has the handshake keys: it is the code of the
    hash of the transcript under the finished key of the responder. *)
Definition keys_proved (s : SpdmSession) (transcript : Z * bytes) (verify_data : SpdmDigestStruct)
    : Prop :=
  ∃ th, hash_all transcript.1 transcript.2 = Ok th ∧
    hmac_verify (cp_base_hash_algo (crypto_param s))
      (sized_bytes (response_finished_key (handshake_secret s))) (sized_bytes th) verify_data = Ok tt.

Lemma verify_response_hmac_ok {S} s h vd (st st' : S) :
  verify_hmac_with_response_finished_key s h vd st = (Ok tt, st') →
  st' = st ∧ hmac_verify (cp_base_hash_algo (crypto_param s))
    (sized_bytes (response_finished_key (handshake_secret s))) h vd = Ok tt.
Proof.
  unfold verify_hmac_with_response_finished_key. intros H.
  apply bind_ok in H as (k&s1&[-> ->]%sized_as_ref_inv&H). by apply of_outcome_ok in H as [H <-].
Qed.
Lemma check_hmac_ok id vd c c' i s :
  at_ id c i s → check_response_hmac id vd c = (Ok tt, c') →
  keys_proved s (th_data s) vd ∧ ∃ s', at_ id c' i s' ∧ but_th s s' ∧
    th_data s' = extended (th_data s) (sized_bytes vd).
Proof.
  intros Hs H. unfold check_response_hmac, transcript_hash in H.
  apply bind_ok in H as (th&c1&H1&H).
  apply bind_ok in H1 as (a&c2&[-> ->]%(the_session_ok _ _ _ _ _ _ Hs)&(->&h&Hh&Hf)%req_transcript_ok).
  apply bind_ok in H as (a&c2&[-> ->]%(the_session_ok _ _ _ _ _ _ Hs)&H).
  apply bind_ok in H as (b&c3&[-> ->]%sized_as_ref_inv&H).
  apply or_else_ok in H as ([]&c4&[-> Hv]%verify_response_hmac_ok&H); [|apply then_never].
  apply bind_ok in H as (b&c5&[-> ->]%sized_as_ref_inv&H).
  apply or_else_ok in H as ([]&c6&H6&H); [|apply then_never]. injection H as <-.
  destruct (append_k_at _ _ _ _ _ _ Hs H6) as (s'&h'&_&Hs'&B&Hh'&Hd).
  split; [|exists s'; split_and!; [done|done|]; by rewrite (th_data_some _ _ Hh')].
  exists th. split; [|done]. by rewrite (th_data_some _ _ Hh), <- hash_ctx_finalize_data.
Qed.

(** What the requester knows when the response to a key exchange has been handled in [c]: the
    signature of the response is, by the certificates stored for the slot, over transcript A, the
    digest of the certificate chain, the request and the response up to the signature; unless the
    handshake is in the clear, the verify data of the response proves the handshake keys over the
    transcript extended by that signature.  The session is in handshake, with the Diffie-Hellman
    secret of the two public keys. *)
Definition key_exchange_evidence (req_session_id slot_id : Z) (t : SpdmMeasurementSummaryHashType)
    (private : DhePrivate) (sent received : bytes) (c : SpdmContext) (id : Z) (c' : SpdmContext)
    : Prop :=
  ∃ p used key cert_hash cut i s,
    response_payload SpdmKeyExchangeResponsePayload_codec (summary_wanted t c) received
      = Some (p, used) ∧
    id = session_id_of (kp_rsp_session_id p) req_session_id ∧
    (compute_final_key private (kp_exchange p) (crypto_world c)).1 = Ok key ∧
    get_certchain_hash_peer false (Z.to_nat slot_id) c = Ok cert_hash ∧
    key_exchange_cut c used = Some cut ∧
    let d := (base_hash_sel (negotiate_info c),
      mb_contents (message_a (runtime_info c)) ++ sized_bytes cert_hash
        ++ sent ++ take cut received) in
    signed_by_peer c slot_id SPDM_VERSION_1_2_SIGNING_CONTEXT_ZEROPAD_2
      SPDM_KEY_EXCHANGE_RESPONSE_SIGN_CONTEXT d (kp_signature p) ∧
    at_ id c' i s ∧ session_state s = SpdmSessionHandshaking ∧ use_psk s = false ∧
    dhe_secret (dhe_secret_root s) = key ∧
    (in_clear_text c = false →
       keys_proved s (extended d (sized_bytes (kp_signature p))) (kp_verify_data p)).

Lemma on_world_ok {E A} (m : M world E A) c a c' :
  on_world m c = (Ok a, c') → ∃ w, m (crypto_world c) = (Ok a, w) ∧ c' = c <| crypto_world := w |>.
Proof. unfold on_world, zoom. destruct (m _) as [o w]. intros [= -> <-]. by exists w. Qed.

Lemma key_exchange_handled req_session_id slot_id t private sent received c id c' :
  is_u16 req_session_id →
  Forall (λ s, half_session_id true (session_id s) ≠ req_session_id) (session c) →
  handle_spdm_key_exhcange_response req_session_id slot_id t private sent received c = (Ok id, c') →
  key_exchange_evidence req_session_id slot_id t private sent received c id c'.
Proof.
  intros Hq Hf H. unfold handle_spdm_key_exhcange_response in H. 
  rewrite (bind_step (need_summary_hash t) _ _ (summary_wanted t c) tt) in H by reflexivity.
  apply expect_response_ok in H as (h&rd&Hh&_&H). apply payload_ok in H as (p&rd'&Hp&H).
  apply bind_ok in H as (key&c1&Hkey%some_or_ok&H). apply on_world_ok in Hkey as (w&Hkey&->).
  apply bind_ok in H as (v&c2&H2&H).
  apply (within_selected_version eq) in H2 as <-. cbv zeta in H. erewrite bind_step in H by done.
  apply or_else_ok in H as (ch&c3&[Hch <-]%of_outcome_ok&H); [|apply throw_never].
  apply bind_ok in H as ([]&c4&H4&H). eapply next_session_ok in H4 as (i&s0&s4&H4&->&Hs4); [|done..].
  apply start_dhe_ok in H4 as (Hid&Hpsk&_&Halg&Hdhe&Hth). specialize (Hs4 Hid).
  apply bind_ok in H as ([]&c5&H5&H).
  apply (authenticate_ok _ _ _ _ _ _ _ _ _ _ Hs4) in H5 as (cut&s5&Hcut&Hsig&Hs5&_&Hth5&Hb5&Hd5).
  apply bind_ok in H as ([]&c6&H6&H).
  assert (∃ s6, at_ (session_id_of (kp_rsp_session_id p) req_session_id) c6 i s6 ∧ but_th s5 s6 ∧
    (in_clear_text c = false → keys_proved s6 (th_data s5) (kp_verify_data p))) as (s6&Hs6&B6&Hkeys).
  { change (in_clear_text (summary_wanted t c <| crypto_world := w |>)) with (in_clear_text c) in H6.
    destruct (in_clear_text c) eqn:Hclear; [injection H6 as <-; by exists s5|].
    apply (check_hmac_ok _ _ _ _ _ _ Hs5) in H6 as [Hk (s6&Hs6&B6&_)].
    exists s6. split_and!; [done|done|]. intros _. by rewrite B6. }
  apply bind_ok in H as ([]&c7&(s7&H7&->)%(on_the_session_ok _ _ _ _ _ _ _ Hs6)&H).
  apply bind_ok in H as ([]&c8&H8&H). injection H as <- <-. injection H7 as <-.
  set (s7 := _ : SpdmSession) in H8.
  assert (at_ (session_id_of (kp_rsp_session_id p) req_session_id) c8 i s7) as Hs8.
  { apply (at_update _ _ _ _ s7) in Hs6; [|done]. destruct (in_clear_text _); by injection H8 as <-. }
  rewrite Hth in Hsig, Hth5. unfold extended in Hsig, Hth5. cbn [fst snd] in Hsig, Hth5.
  rewrite <- app_assoc in Hsig. rewrite <- !app_assoc in Hth5.
  exists p, (Reader_used rd'), key, ch, cut, i, s7. cbv zeta.
  split_and!; [by apply (payload_intro _ _ _ h rd)|done|exact (f_equal fst Hkey)|done|exact Hcut|exact Hsig|done|done|..].
  - cbn. rewrite B6. unfold session_base in Hb5. change (use_psk s5 = false). congruence.
  - cbn. rewrite B6. change (dhe_secret (dhe_secret_root s5) = key). congruence.
  - intros Hc. rewrite Hth5 in Hkeys. unfold extended. cbn [fst snd]. rewrite <- !app_assoc.
    exact (Hkeys Hc).
Qed.
End Auth.
