(* ===== verification/ReqSafe.v ===== *)
(** Safety of the requester over every sequence of requests and against every peer: the
    certificates it stores are verified, sessions keep the identifiers of their places in the
    table, and a key exchange is authenticated whenever it succeeds. *)

From Stdlib Require Import RelationClasses.
From stdpp Require Import relations.
From S2P Require Import Prelude Config Codec Status Algo Protocol Crypto KeySchedule Buffers Session Context SpdmCodec Opaque MsgNegotiate MsgAuth MsgSession Message Endpoint Responder Within RspConnect RspSession RspFrame RspInv RspEst Requester ReqConnect ReqSession ReqFrame ReqAuth.
Import RequesterContext.

Section ReqSafe.
Context `{cfg : Config} `{cry : Crypto} `{sec : !Secret} `{dev : SpdmDeviceIo} `{tr : SpdmTransportEncap}.
Context (mode : overflow_mode).

(** ** Requests *)

(** What the user of a requester context may call. *)
Inductive request :=
  | GetVersion | GetCapabilities | NegotiateAlgorithms
  | GetDigests (session_id : option Z)
  | GetCertificate (turns : nat) (session_id : option Z) (slot_id : Z)
  | Challenge (slot_id : Z) (t : SpdmMeasurementSummaryHashType)
  | GetMeasurements (session_id : option Z) (slot_id attributes : Z) (op : SpdmMeasurementOperation)
  | KeyExchange (slot_id : Z) (t : SpdmMeasurementSummaryHashType)
  | Finish (req_slot_id : option Z) (session_id : Z)
  | PskExchange (t : SpdmMeasurementSummaryHashType) (hint : option SpdmPskHintStruct)
  | PskFinish (session_id : Z)
  | Heartbeat (session_id : Z)
  | KeyUpdate (session_id : Z) (op : SpdmKeyUpdateOperation)
  | EndSession (session_id : Z)
  | VendorDefined (session_id : option Z) (standard_id : RegistryOrStandardsBodyID)
      (vendor_id payload : sized).

Definition perform (r : request) : SpdmM SpdmContext unit :=
  match r with
  | GetVersion => send_receive_spdm_version mode
  | GetCapabilities => send_receive_spdm_capability mode
  | NegotiateAlgorithms => send_receive_spdm_algorithm mode
  | GetDigests id => send_receive_spdm_digest mode id
  | GetCertificate turns id slot => send_receive_spdm_certificate mode turns id slot;; ret tt
  | Challenge slot t => send_receive_spdm_challenge mode slot t
  | GetMeasurements id slot a op => send_receive_spdm_measurement mode id slot a op;; ret tt
  | KeyExchange slot t => send_receive_spdm_key_exchange mode slot t;; ret tt
  | Finish slot id => send_receive_spdm_finish mode slot id
  | PskExchange t h => send_receive_spdm_psk_exchange mode t h;; ret tt
  | PskFinish id => send_receive_spdm_psk_finish mode id
  | Heartbeat id => send_receive_spdm_heartbeat mode id
  | KeyUpdate id op => send_receive_spdm_key_update mode id op
  | EndSession id => end_session mode id
  | VendorDefined id s v p => send_spdm_vendor_defined_request mode id s v p;; ret tt
  end.

(** One request, whatever the peer answers and whether or not it succeeds; the peer is in the
    device, of which nothing is assumed. *)
Definition requested (c c' : SpdmContext) : Prop := ∃ r o, perform r c = (o, c').

Lemma requested_invariant (I : SpdmContext → Prop) c c' :
  (∀ r, within (λ c c', I c → I c') (perform r)) → I c → rtc requested c c' → I c'.
Proof.
  intros Hp Hi H. induction H as [|c c1 c2 (r&o&Hr) _ IH]; [done|]. apply IH. by eapply Hp.
Qed.

(** A request is within a relation that allows what happens outside the core when the steps
    that touch certificates or start a session are. *)
Lemma perform_free R Q `{!Free R Q} :
  (∀ s s', shrink s s' → R s s') →
  (∀ c c', provision_info c' = provision_info c →
    peer_cert_chain (peer_info c') = peer_cert_chain (peer_info c) → session c' = session c → Q c c') →
  (∀ slot total, within Q (accept_chain slot total)) →
  (∀ slot t, within Q (send_receive_spdm_key_exchange mode slot t)) →
  (∀ t h, within Q (send_receive_spdm_psk_exchange mode t h)) →
  (∀ c, Q c (reset_context c)) →
  ∀ r, within Q (perform r).
Proof.
  intros HR HF Haccept Hke Hpsk Hreset r.
  pose proof (free_preorder : PreOrder Q) as HQ.
  assert (∀ c c', provision_info c' = provision_info c → peer_info c' = peer_info c →
    session c' = session c → Q c c') as HN by (intros c c' Hp Hi Hs; apply HF; [done|by rewrite Hi|done]).
  assert (∀ A (m : SpdmM SpdmContext A), within Q m → within Q (m;; ret tt)) as Hret
    by (intros; apply within_bind; [done..|]; intros ? ? ? _; by apply within_ret).
  destruct r; cbn [perform]; try apply Hret; auto.
  - by apply (free_version _ R Q).
  - by apply (free_capability _ R Q).
  - by apply (free_algorithm _ R Q).
  - by apply (free_digest _ R Q).
  - apply (free_certificate _ R Q); auto.
  - by apply (free_challenge _ R Q).
  - by apply (free_measurement _ R Q).
  - by apply (free_finish _ R Q).
  - by apply (free_psk_finish _ R Q).
  - by apply (free_heartbeat _ R Q).
  - by apply (free_key_update _ R Q).
  - by apply (free_end_session _ R Q).
  - by apply (free_vendor _ R Q).
Qed.

(** ** Certificates of the peer *)

(** The chain, with root hashes of [alg], is of certificates that verify; it declares its own
    length, its root hash is the one of the first certificate, and that is the provisioned root if
    there is one. *)
Definition authentic_with (alg : Z) (root : option SpdmCertChainData) (chain : SpdmCertChainBuffer)
    : Prop :=
  ∃ size first last digest,
    SpdmBaseHashAlgo.get_size (E:=SpdmStatus) alg = Ok size ∧ (4 + size < data_size chain)%nat ∧
    (∃ b0 b1, data chain !! 0%nat = Some b0 ∧ data chain !! 1%nat = Some b1 ∧
      b0 + Z.shiftl b1 8 = Z.of_nat (data_size chain)) ∧
    let certs := take (data_size chain - (4 + size)) (drop (4 + size) (data chain)) in
    let root_cert := take (last - first) (drop first
      (splice 0 certs (replicate MAX_SPDM_CERT_CHAIN_DATA_SIZE 0))) in
    verify_cert_chain certs = Ok tt ∧ get_cert_from_cert_chain certs 0 = Ok (first, last) ∧
    hash_all alg root_cert = Ok digest ∧
    sized_bytes digest = take size (drop 4 (data chain)) ∧
    match root with
    | None => True
    | Some root => root_cert = take (data_size root) (data root)
    end.
Definition authentic (root : option SpdmCertChainData) (chain : SpdmCertChainBuffer) : Prop :=
  ∃ alg, authentic_with alg root chain.

Lemma root_check_ok {S} (root : option SpdmCertChainData) cert (s s' : S) :
  match root with
  | None => ret tt
  | Some root =>
      if negb (length cert =? data_size root)%nat then throw SPDM_STATUS_INVALID_CERT else
      let* provisioned := sub_slice 0 (data_size root) (data root) in
      if decide (cert ≠ provisioned) then throw SPDM_STATUS_INVALID_CERT else ret tt
  end s = (Ok tt, s') →
  s' = s ∧ match root with None => True | Some root => cert = take (data_size root) (data root) end.
Proof.
  destruct root as [root|]; [|by intros [= <-]]. destruct (negb _); [done|]. intros H.
  apply bind_ok in H as (b&s1&(->&->&_)%sub_slice_inv&H). rewrite drop_0, Nat.sub_0_r in H.
  case_decide as Hc; [done|]. injection H as <-. done.
Qed.
Lemma verify_chain_ok c c' :
  verify_spdm_certificate_chain c = (Ok tt, c') →
  c' = c ∧ ∃ chain, peer_cert_chain_temp (peer_info c) = Some chain ∧
    authentic (peer_root_cert_data (provision_info c)) chain.
Proof.
  intros H. unfold verify_spdm_certificate_chain in H. erewrite bind_step in H by done.
  apply bind_ok in H as (chain&c1&[Hc ->]%ok_or_ok&H).
  apply bind_ok in H as (size&c2&[Hsize <-]%of_outcome_ok&H).
  destruct (Nat.leb_spec (data_size chain) (4 + size)) as [|Hlt]; [done|].
  apply bind_ok in H as (b0&c3&[H0 ->]%unwrap_ok&H).
  apply bind_ok in H as (b1&c4&[H1 ->]%unwrap_ok&H).
  destruct (Z.eqb_spec (b0 + Z.shiftl b1 8) (Z.of_nat (data_size chain))) as [Hl|]; [|done].
  cbn [negb] in H. cbv zeta in H.
  apply bind_ok in H as (certs&c5&(->&->&Hb)%sub_slice_inv&H).
  apply bind_ok in H as (data'&c6&(->&->&_)%slice_copy_inv&H).
  apply bind_ok in H as (der&c7&(->&->&_)%sub_slice_inv&H).
  set (certs := take (data_size chain - (4 + size)) (drop (4 + size) (data chain))) in *.
  assert (length certs = (data_size chain - (4 + size))%nat) as Hcl.
  { unfold certs. rewrite length_take, length_drop. lia. }
  rewrite drop_0, Nat.sub_0_r in H.
  assert (take (data_size chain - 4 - size) (splice 0 certs (replicate MAX_SPDM_CERT_CHAIN_DATA_SIZE 0))
    = certs) as Hder.
  { unfold splice. rewrite take_0. cbn [app]. rewrite take_app_le by lia. apply take_ge. lia. }
  rewrite Hder in H.
  apply or_else_ok in H as ([]&c8&[Hv <-]%of_outcome_ok&H); [|apply throw_never].
  apply bind_ok in H as ([first last]&c9&[Hr <-]%of_outcome_ok&H).
  apply bind_ok in H as (root_cert&c10&(->&->&_)%sub_slice_inv&H).
  apply bind_ok in H as (digest&c11&[Hd <-]%some_or_ok%of_outcome_ok&H).
  apply bind_ok in H as (actual&c12&[-> ->]%sized_as_ref_inv&H).
  apply bind_ok in H as (claimed&c13&(->&->&_)%sub_slice_inv&H).
  case_decide as Heq; [done|]. destruct (root_check_ok _ _ _ _ H) as [-> Hroot].
  split; [done|]. exists chain. split; [done|].
  eexists _, size, first, last, digest. cbv zeta. fold certs.
  replace (take size (drop 4 (data chain))) with (sized_bytes digest)
    by (rewrite Heq; f_equal; lia).
  split_and!; [done|done|by exists b0, b1|done..].
Qed.

Definition certificates_authentic (c : SpdmContext) : Prop :=
  ∀ slot chain, peer_cert_chain (peer_info c) !! slot = Some (Some chain) →
    authentic (peer_root_cert_data (provision_info c)) chain.

Abbreviation anything := (λ _ _ : SpdmSession, True) (only parsing).
Definition still_authentic : relation SpdmContext := λ c c',
  certificates_authentic c → certificates_authentic c'.
Lemma certificates_kept c c' :
  peer_root_cert_data (provision_info c') = peer_root_cert_data (provision_info c) →
  peer_cert_chain (peer_info c') = peer_cert_chain (peer_info c) → still_authentic c c'.
Proof. intros Hp Hc H slot chain. rewrite Hp, Hc. apply H. Qed.
#[local] Instance still_authentic_preorder : PreOrder still_authentic.
Proof. split; [intros c H; exact H|]. intros c c1 c2 H1 H2 H. apply H2, H1, H. Qed.
#[local] Instance still_authentic_free : Free anything still_authentic.
Proof.
  split; [done|apply _|]. intros c c' Hc _. injection Hc as _ _ Hp Hi _.
  apply certificates_kept; [by rewrite Hp|by rewrite Hi].
Qed.

(** A chain that has been verified may be stored. *)
Lemma verified_stored c c1 c' slot :
  verify_spdm_certificate_chain c = (Ok tt, c1) → provision_info c' = provision_info c →
  peer_cert_chain (peer_info c') =
    <[slot := peer_cert_chain_temp (peer_info c)]> (peer_cert_chain (peer_info c)) →
  still_authentic c c'.
Proof.
  intros (_&chain&Hchain&Ha)%verify_chain_ok Hp Hs Hc i ch. rewrite Hs, Hp, Hchain.
  intros [(_&Hch)|(_&Hl)]%list_lookup_insert_Some; [|by eapply Hc].
  by destruct Hch as [[= <-] _].
Qed.
Lemma accept_authentic slot_id total : within still_authentic (accept_chain slot_id total).
Proof.
  intros c r c' H. unfold accept_chain in H.
  destruct (total =? 0); [injection H as <- <-; by apply certificates_kept|].
  unfold bind at 1, attempt in H. destruct (verify_spdm_certificate_chain c) as [o c1] eqn:Hv.
  destruct o as [[]|e|].
  - destruct (verify_chain_ok _ _ Hv) as [-> _]. erewrite bind_step in H by done.
    destruct (_ <? _)%nat; [|by injection H as <- <-].
    injection H as <- <-. by eapply verified_stored.
  - injection H as <- <-. apply (free_verify_chain anything still_authentic) in Hv.
    etrans; [exact Hv|]. by apply certificates_kept.
  - injection H as <- <-. by apply (free_verify_chain anything still_authentic) in Hv.
Qed.

Lemma no_certificates c : peer_info c = SpdmPeerInfo_default → certificates_authentic c.
Proof. intros Hc slot chain. rewrite Hc. by intros [[= ] _]%lookup_replicate. Qed.
Lemma perform_authentic r : within still_authentic (perform r).
Proof.
  apply (perform_free anything still_authentic); [done|..].
  - intros c c' Hp Hc _. by apply certificates_kept; [rewrite Hp|].
  - apply accept_authentic.
  - intros. by apply (free_key_exchange _ anything still_authentic).
  - intros. by apply (free_psk_exchange _ anything still_authentic).
  - intros c _. by apply no_certificates.
Qed.

Lemma requested_authentic device w config provision c :
  rtc requested (SpdmContext_new device w config provision) c → certificates_authentic c.
Proof.
  intros Hr. eapply requested_invariant; [exact perform_authentic| |exact Hr]. by apply no_certificates.
Qed.

(** C8: Whatever requests are made and whatever the peer answers, every certificate chain that
    the requester has stored for a slot verified as a chain, declares its own length, begins with
    the root certificate of its root hash, and that root is the provisioned one if there is one. *)
Theorem certificates_always_authentic device w config provision c slot chain :
  rtc requested (SpdmContext_new device w config provision) c →
  peer_cert_chain (peer_info c) !! slot = Some (Some chain) →
  authentic (peer_root_cert_data (provision_info c)) chain.
Proof.
  intros Hr. by apply (requested_authentic _ _ _ _ _ Hr).
Qed.

(** ** Identifiers of sessions *)

Context (count_bound : Z.of_nat MAX_SPDM_SESSION_COUNT ≤ 0xFFFC).

(** The identifier of a session has the requester's half of its place in the table. *)
Record placed (c : SpdmContext) : Prop := {
  placed_count : length (session c) = MAX_SPDM_SESSION_COUNT;
  placed_half i s : session c !! i = Some s → session_id s = INVALID_SESSION_ID ∨
    half_session_id true (session_id s) = INITIAL_SESSION_ID - Z.of_nat i;
}.
Definition still_placed : relation SpdmContext := λ c c', placed c → placed c'.
#[local] Instance still_placed_preorder : PreOrder still_placed.
Proof. split; [intros c H; exact H|]. intros c c1 c2 H1 H2 H. apply H2, H1, H. Qed.
Lemma shrink_placed c c' : Forall2 shrink (session c) (session c') → still_placed c c'.
Proof.
  intros Hs [Hn Hh]. split; [by apply Forall2_length in Hs as <-|].
  intros i s' Hi. destruct (Forall2_lookup_r _ _ _ _ _ Hs Hi) as (s&Hsi&[-> | ->]); [|by left].
  by apply Hh.
Qed.
#[local] Instance still_placed_free : Free shrink still_placed.
Proof. split; [apply _..|]. intros c c' _. apply shrink_placed. Qed.
Lemma same_placed c c' : session c' = session c → still_placed c c'.
Proof. intros Hs [Hn Hh]. split; by rewrite Hs. Qed.

Lemma placed_free c i s :
  placed c → session c !! i = Some s → half_session_id true (session_id s) = 0 →
  session_id s = INVALID_SESSION_ID.
Proof.
  intros [Hn Hh] Hi H0. destruct (Hh i s Hi) as [|Hp]; [done|].
  apply lookup_lt_Some in Hi. lia.
Qed.
(** The half that the next session gets is the one of the place it will have. *)
Lemma next_place c q :
  placed c → get_next_half_session_id true c = Ok q →
  ∃ i s, list_find (λ s, session_id s = INVALID_SESSION_ID) (session c) = Some (i, s) ∧
    q = INITIAL_SESSION_ID - Z.of_nat i ∧ (i < MAX_SPDM_SESSION_COUNT)%nat.
Proof.
  intros Hc Hq. unfold get_next_half_session_id in Hq.
  destruct (list_find _ (session c)) as [[i s]|] eqn:Hf; [|done]. injection Hq as <-.
  apply list_find_Some in Hf as (Hi&H0&Hlow). exists i, s. split_and!; [|done|].
  - apply list_find_Some. split_and!; [done|by eapply placed_free|].
    intros j t Hj Hlt Ht. apply (Hlow j t Hj Hlt). by rewrite Ht.
  - rewrite <- (placed_count _ Hc). by eapply lookup_lt_Some.
Qed.
Lemma next_half_fresh c q :
  placed c → get_next_half_session_id true c = Ok q →
  is_u16 q ∧ Forall (λ s, half_session_id true (session_id s) ≠ q) (session c).
Proof.
  intros Hc Hq. destruct (next_place c q Hc Hq) as (i&s&Hf&->&Hi). split; [unfold is_uint; lia|].
  apply Forall_lookup_2. intros j t Hj Hh. pose proof (lookup_lt_Some _ _ _ Hj) as Hlt.
  destruct (placed_half _ Hc j t Hj) as [Ht|Ht]; [rewrite Ht in Hh; change (0 = INITIAL_SESSION_ID - Z.of_nat i) in Hh; lia|].
  assert (j = i) as -> by lia. apply list_find_Some in Hf as (His&Hid&_). simplify_eq.
  rewrite Hid in Ht. change (0 = INITIAL_SESSION_ID - Z.of_nat i) in Ht. lia.
Qed.

(** A computation that starts at most one session, with the half that was next. *)
Definition starts {A} (q : Z) (m : SpdmM SpdmContext A) : Prop := ∀ c r c',
  placed c → get_next_half_session_id true c = Ok q → m c = (r, c') → placed c'.
Definition same_sessions : relation SpdmContext := λ c c', session c' = session c.
#[local] Instance same_sessions_preorder : PreOrder same_sessions.
Proof. split; unfold same_sessions; [done|]. congruence. Qed.
#[local] Instance same_sessions_free : Free eq same_sessions.
Proof.
  split; [apply _..|]. intros c c' _ Hs. symmetry. by apply list_eq_Forall2.
Qed.

Lemma starts_within {A} q (m : SpdmM SpdmContext A) : within still_placed m → starts q m.
Proof. intros Hm c r c' Hc _ H. by eapply Hm. Qed.
Lemma starts_after {A B} q (m : SpdmM SpdmContext A) (k : A → SpdmM SpdmContext B) :
  within same_sessions m → (∀ a, starts q (k a)) → starts q (bind m k).
Proof.
  intros Hm Hk c r c' Hc Hq H. unfold bind in H. destruct (m c) as [o c1] eqn:H1.
  apply Hm in H1. assert (placed c1) as Hc1 by (by eapply same_placed).
  destruct o as [a|e|]; [|by injection H as <- <-..].
  eapply Hk; [exact Hc1| |exact H]. unfold get_next_half_session_id in *. by rewrite H1.
Qed.
Lemma starts_or_else {E A B} q (m : M SpdmContext E A) (bad : SpdmM SpdmContext B) k :
  within same_sessions m → starts q bad → (∀ a, starts q (k a)) → starts q (or_else m bad k).
Proof.
  intros Hm Hbad Hk. unfold or_else. apply starts_after; [by apply within_attempt|].
  intros [e|a]; auto.
Qed.
Lemma starts_expect {A} q code id bs (k : Reader → SpdmM SpdmContext A) :
  (∀ rd, starts q (k rd)) → starts q (expect_response code id bs k).
Proof.
  intros Hk. unfold expect_response.
  apply starts_or_else; [apply within_read_header, _|apply starts_within, within_throw, _|].
  intros [h rd]. apply starts_after; [apply within_gets, _|]. intros c.
  case_decide; [apply starts_within, within_throw, _|]. unfold select_response.
  case_decide; [apply Hk|]. apply starts_within.
  case_decide; [|apply within_throw, _]. apply within_bind; [apply _| |intros; apply within_throw, _].
  by apply (free_error_main shrink still_placed).
Qed.
Lemma starts_next {A} q x e (body : SpdmM SpdmSession unit) (rest : SpdmM SpdmContext A) :
  within (λ s s', session_id s' = session_id s ∨ session_id s' = session_id_of x q) body →
  within still_placed rest →
  starts q (with_next_avaiable_session (throw e) body;; rest).
Proof.
  intros Hb Hrest c r c' Hc Hq H. destruct (next_place c q Hc Hq) as (i&s&Hf&Hqi&Hi).
  destruct (next_half_fresh c q Hc Hq) as [Hu _].
  unfold bind, with_next_avaiable_session, with_session in H. rewrite Hf in H.
  destruct (body s) as [o s'] eqn:Hs. apply Hb in Hs. apply list_find_Some in Hf as (His&Hid&_).
  assert (placed (c <| session ::= <[i := s']> |>)) as Hc'.
  { destruct Hc as [Hn Hh]. split; cbn; [by rewrite length_insert|].
    intros j t [(<-&->&_)|[_ Hj]]%list_lookup_insert_Some; [|by apply Hh].
    destruct Hs as [->| ->]; [by left|right]. rewrite half_session_id_of; [done|done]. }
  destruct o as [[]|e'|]; [|by injection H as <- <-..]. by eapply Hrest.
Qed.

Definition takes_id (id : Z) : relation SpdmSession := λ s s',
  session_id s' = session_id s ∨ session_id s' = id.
#[local] Instance takes_id_preorder id : PreOrder (takes_id id).
Proof. split; unfold takes_id; [by left|]. intros s s1 s2 [-> | ->] [-> | ->]; auto. Qed.
Lemma setup_takes id : within (takes_id id) (SpdmSession_setup id).
Proof.
  intros s r s' H. unfold SpdmSession_setup in H. erewrite bind_step in H by done.
  destruct (_ =? _); injection H as <- <-; [by right|by left].
Qed.
Lemma set_dhe_takes id v k : within (takes_id id) (SpdmSession_set_dhe_secret v k).
Proof.
  eapply within_mono; [apply set_dhe_secret_quiet|]. intros s s' H. left.
  unfold session_quiet, session_key, session_base in H. congruence.
Qed.
#[local] Hint Resolve setup_takes set_dhe_takes : within.
Lemma start_dhe_takes c id m key h : within (takes_id id) (start_dhe_session c id m key h).
Proof. unfold start_dhe_session. within_steps; apply within_modify; intros ?; by left. Qed.
Lemma start_psk_takes c id h : within (takes_id id) (start_psk_session c id h).
Proof. unfold start_psk_session. within_steps; apply within_modify; intros ?; by left. Qed.

Lemma key_exchange_starts q slot t private sent received :
  starts q (handle_spdm_key_exhcange_response q slot t private sent received).
Proof.
  unfold handle_spdm_key_exhcange_response.
  apply starts_after; [by apply (free_need_summary eq same_sessions)|intros _].
  apply starts_expect. intros rd.
  apply starts_or_else; [by apply (free_payload eq same_sessions)|apply starts_within, within_throw, _|].
  intros [p rd']. apply starts_after; [by apply within_map_err, (free_world eq same_sessions)|intros key].
  apply starts_after; [apply within_selected_version, _|intros v]. cbv zeta.
  apply starts_after; [apply within_gets, _|intros c].
  apply starts_or_else; [apply within_of_outcome, _|apply starts_within, within_throw, _|intros ch].
  eapply starts_next; [apply start_dhe_takes|]. by apply (free_after_dhe shrink still_placed).
Qed.
Lemma psk_exchange_starts q t hint sent received :
  starts q (handle_spdm_psk_exchange_response q t hint sent received).
Proof.
  unfold handle_spdm_psk_exchange_response.
  apply starts_after; [by apply (free_need_summary eq same_sessions)|intros _].
  apply starts_expect. intros rd.
  apply starts_or_else; [by apply (free_payload eq same_sessions)|apply starts_within, within_throw, _|].
  intros [p rd']. apply starts_after; [apply within_selected_version, _|intros v]. cbv zeta.
  apply starts_after; [apply within_gets, _|intros c].
  eapply starts_next; [apply start_psk_takes|]. by apply (free_after_psk shrink still_placed).
Qed.

(** *** Requests that start a session *)

(** The handler of the response runs in a context with the same core and sessions, or nothing
    changed in these and the request failed. *)
Definition handled {X A} (c : SpdmContext) (handle : X → Z → bytes → bytes → SpdmM SpdmContext A)
    (r : outcome SpdmStatus A) (c' : SpdmContext) : Prop :=
  (apart eq c c' ∧ ∀ a, r ≠ Ok a) ∨
  ∃ x q sent received c1, get_next_half_session_id true c = Ok q ∧ apart eq c c1 ∧
    handle x q sent received c1 = (r, c').

Lemma bind_cases {S E A B} (P : relation S) (m : M S E A) (k : A → M S E B) c r c' :
  within P m → bind m k c = (r, c') →
  (P c c' ∧ ∀ b, r ≠ Ok b) ∨ ∃ a c1, P c c1 ∧ m c = (Ok a, c1) ∧ k a c1 = (r, c').
Proof.
  intros Hm H. unfold bind in H. destruct (m c) as [[a|e|] c1] eqn:H1.
  - right. exists a, c1. split_and!; [by eapply Hm|done|done].
  - left. injection H as <- <-. split; [by eapply Hm|done].
  - left. injection H as <- <-. split; [by eapply Hm|done].
Qed.
Lemma handled_placed {X A} c (handle : X → Z → bytes → bytes → SpdmM SpdmContext A) r c' :
  (∀ x q sent received, starts q (handle x q sent received)) →
  handled c handle r c' → still_placed c c'.
Proof.
  intros Hh [[[_ Hs] _]|(x&q&sent&received&c1&Hq&[_ Hs]&H)] Hc; apply list_eq_Forall2 in Hs.
  - by apply (same_placed c).
  - eapply Hh; [by apply (same_placed c)| |exact H].
    unfold get_next_half_session_id in *. by rewrite <- Hs.
Qed.

Lemma key_exchange_cases slot_id t c r c' :
  send_receive_spdm_key_exchange mode slot_id t c = (r, c') →
  handled c (λ private q sent received,
    handle_spdm_key_exhcange_response q slot_id t private sent received) r c'.
Proof.
  intros H. pose proof (free_preorder : PreOrder (apart eq)) as HP.
  unfold send_receive_spdm_key_exchange in H.
  destruct (_ <=? _); [left; by injection H as <- <-|]. erewrite bind_step in H by done.
  apply (bind_cases (apart eq)) in H as [|(q&c1&K1&Hq&H)]; [by left| |by apply within_of_outcome].
  apply of_outcome_ok in Hq as [Hq <-].
  apply (bind_cases (apart eq)) in H as [|(?&c2&K2&_&H)]; [by left| |by apply (free_reset_none eq (apart eq))].
  apply (bind_cases (apart eq)) in H as [[? ?]|([[private used] buf]&c3&K3&_&H)];
    [left; split; [by etrans|done]| |by apply (free_request_buffer (apart eq)), (free_encode_key_exchange eq (apart eq))].
  apply (bind_cases (apart eq)) in H as [[? ?]|(sent&c4&K4&_&H)];
    [left; split; [by do 2 (etrans; [eassumption|])|done]| |by apply within_sub_slice].
  apply (bind_cases (apart eq)) in H as [[? ?]|([]&c5&K5&_&H)];
    [left; split; [by do 3 (etrans; [eassumption|])|done]| |by apply (free_send_message eq (apart eq))].
  apply (bind_cases (apart eq)) in H as [[? ?]|(received&c6&K6&_&H)];
    [left; split; [by do 4 (etrans; [eassumption|])|done]| |by apply (free_receive_message _ eq (apart eq))].
  right. exists private, q, sent, received, c6. split_and!; [done| |done].
  by do 4 (etrans; [eassumption|]).
Qed.
Lemma psk_exchange_cases t hint c r c' :
  send_receive_spdm_psk_exchange mode t hint c = (r, c') →
  ∃ c0, apart eq c c0 ∧ handled c0 (λ _ : unit, λ q sent received,
    handle_spdm_psk_exchange_response q t
      (default (sized_default MAX_SPDM_PSK_HINT_SIZE) hint) sent received) r c'.
Proof.
  intros H. pose proof (free_preorder : PreOrder (apart eq)) as HP.
  unfold send_receive_spdm_psk_exchange in H. cbv zeta in H.
  apply (bind_cases (apart eq)) in H as [[? ?]|([]&c0&K0&_&H)];
    [exists c; split; [done|by left]| |by apply (free_reset_none eq (apart eq))].
  exists c0. split; [done|]. erewrite bind_step in H by done.
  apply (bind_cases (apart eq)) in H as [|(q&c1&K1&Hq&H)]; [by left| |by apply within_of_outcome].
  apply of_outcome_ok in Hq as [Hq <-]. unfold exchange in H.
  apply (bind_cases (apart eq)) in H as [|(sent&c2&K2&_&H)];
    [by left| |by apply (free_encoded eq (apart eq)), (free_encode_psk_exchange eq (apart eq))].
  apply (bind_cases (apart eq)) in H as [[? ?]|([]&c3&K3&_&H)];
    [left; split; [by etrans|done]| |by apply (free_send_message eq (apart eq))].
  apply (bind_cases (apart eq)) in H as [[? ?]|(received&c4&K4&_&H)];
    [left; split; [by do 2 (etrans; [eassumption|])|done]| |by apply (free_receive_message _ eq (apart eq))].
  right. exists tt, q, sent, received, c4. split_and!; [done| |done].
  by do 2 (etrans; [eassumption|]).
Qed.

Lemma accept_sessions slot total : within same_sessions (accept_chain slot total).
Proof.
  unfold accept_chain. within_steps; try (apply within_modify; intros ?; reflexivity).
  apply (free_verify_chain eq same_sessions).
Qed.
Lemma perform_placed r : within still_placed (perform r).
Proof.
  apply (perform_free shrink still_placed); [done|..].
  - intros c c' _ _. apply same_placed.
  - intros slot total. eapply within_mono; [apply accept_sessions|intros c c'; apply same_placed].
  - intros slot t c o c' H%key_exchange_cases. eapply handled_placed; [|exact H].
    intros. apply key_exchange_starts.
  - intros t h c o c' H. apply psk_exchange_cases in H as (c0&[_ Hs]&H).
    apply list_eq_Forall2 in Hs. etrans; [by apply same_placed|]. eapply handled_placed; [|exact H].
    intros. apply psk_exchange_starts.
  - intros c. apply shrink_placed. cbn. apply Forall2_fmap_r, Forall_Forall2_diag, Forall_true.
    by right.
Qed.
Lemma new_placed device w config provision : placed (SpdmContext_new device w config provision).
Proof.
  split; [apply length_replicate|]. intros i s [-> _]%lookup_replicate. by left.
Qed.
Lemma requested_placed device w config provision c :
  rtc requested (SpdmContext_new device w config provision) c → placed c.
Proof. apply requested_invariant; [exact perform_placed|apply new_placed]. Qed.

(** C35: However requests are interleaved, no two sessions of a requester have the same
    identifier: a session in use at place [i] of the table has the requester's half
    [INITIAL_SESSION_ID - i]. *)
Theorem session_ids_distinct device w config provision c i j s s' :
  rtc requested (SpdmContext_new device w config provision) c →
  session c !! i = Some s → session c !! j = Some s' →
  session_id s ≠ INVALID_SESSION_ID → session_id s = session_id s' → i = j.
Proof.
  intros Hr%requested_placed Hi Hj Hs Heq. destruct Hr as [_ Hh].
  destruct (Hh i s Hi) as [|H1]; [done|]. destruct (Hh j s' Hj) as [H2|H2]; [congruence|].
  rewrite <- Heq in H2. lia.
Qed.

Context `{hl : !HashLaws}.

(** The messages of a key exchange: the request that was encoded with a new key pair and sent, and
    the response that was received. *)
Definition key_exchange_messages (slot_id : Z) (t : SpdmMeasurementSummaryHashType) (q : Z)
    (c : SpdmContext) (private : DhePrivate) (sent received : bytes) (c' : SpdmContext) : Prop :=
  ∃ c1 used buf c2 c3,
    reset_buffers SpdmRequestKeyExchange None c = (Ok tt, c1) ∧
    with_request_buffer (encode_spdm_key_exchange q slot_id t) c1 = (Ok ((private, used), buf), c2) ∧
    sent = take used buf ∧ send_message sent c2 = (Ok tt, c3) ∧
    receive_message mode false c3 = (Ok received, c').

Lemma key_exchange_run slot_id t c id c' :
  send_receive_spdm_key_exchange mode slot_id t c = (Ok id, c') →
  ∃ q private sent received c1, get_next_half_session_id true c = Ok q ∧
    key_exchange_messages slot_id t q c private sent received c1 ∧ apart eq c c1 ∧
    handle_spdm_key_exhcange_response q slot_id t private sent received c1 = (Ok id, c').
Proof.
  intros H. pose proof (free_preorder : PreOrder (apart eq)) as HP.
  unfold send_receive_spdm_key_exchange in H. destruct (_ <=? _); [done|].
  erewrite bind_step in H by done. apply bind_ok in H as (q&c1&[Hq <-]%of_outcome_ok&H).
  apply bind_ok in H as ([]&c2&H2&H). apply bind_ok in H as ([[private used] buf]&c3&H3&H).
  apply bind_ok in H as (sent&c4&(->&->&_)%sub_slice_inv&H). rewrite drop_0, Nat.sub_0_r in H.
  apply bind_ok in H as ([]&c5&H5&H). apply bind_ok in H as (received&c6&H6&H).
  exists q, private, (take used buf), received, c6. split_and!; [done| | |done].
  { by exists c2, used, buf, c3, c5. }
  apply (free_reset_none eq (apart eq)) in H2.
  apply (free_request_buffer (apart eq)) in H3; [|by apply (free_encode_key_exchange eq (apart eq))].
  apply (free_send_message eq (apart eq)) in H5. apply (free_receive_message _ eq (apart eq)) in H6.
  by do 3 (etrans; [eassumption|]).
Qed.

(** C6: After whatever requests, a key exchange that succeeds was authenticated: the signature of
    the response that was received covers transcript A, the certificate chain, the request that was
    sent and the response up to the signature, and it is by the certificates stored before; unless
    the handshake is in the clear, the verify data of the response proves the handshake keys.  The
    new session is in handshake, with the secret of the key pair that was generated. *)
Theorem key_exchange_authenticated device w config provision slot_id t c id c' :
  rtc requested (SpdmContext_new device w config provision) c →
  send_receive_spdm_key_exchange mode slot_id t c = (Ok id, c') →
  ∃ q private sent received c1, get_next_half_session_id true c = Ok q ∧
    key_exchange_messages slot_id t q c private sent received c1 ∧ core c1 = core c ∧
    key_exchange_evidence q slot_id t private sent received c1 id c'.
Proof.
  intros Hr%requested_placed H%key_exchange_run.
  destruct H as (q&private&sent&received&c1&Hq&Hm&[Hk Hs]&H).
  destruct (next_half_fresh c q Hr Hq) as [Hu Hf]. apply list_eq_Forall2 in Hs. rewrite Hs in Hf.
  exists q, private, sent, received, c1. split_and!; [done|done|done|]. by apply key_exchange_handled.
Qed.
End ReqSafe.
