(* ===== verification/EncapProofs.v ===== *)
(** Mutual authentication: the certificates of the requester arrive at the responder as they are,
    only chains that verify are stored, and the checks that the handlers begin with do not stop
    them. *)

From Stdlib Require Import RelationClasses.
From stdpp Require Import relations.
From S2P Require Import Prelude Config Codec Status Algo Protocol Crypto KeySchedule Buffers Session SessionProofs Context SpdmCodec Opaque MsgNegotiate MsgAuth MsgSession Message MsgEncap Endpoint Responder Within RspConnect RspSession RspFrame RspInv RspSafe RspEst Requester ReqConnect ReqSession ReqFrame ReqAuth ReqSafe Encap.

Section EncapProofs.
Context `{cfg : Config} `{cry : Crypto} `{sec : !Secret} `{dev : SpdmDeviceIo} `{tr : SpdmTransportEncap}.
Context `{cv : !ConfigValid} (mode : overflow_mode).

Abbreviation MAX_CHAIN := (as_u16 (Z.of_nat MAX_SPDM_CERT_CHAIN_DATA_SIZE)) (only parsing).
Abbreviation CHAIN_BUFFER := (4 + SPDM_MAX_HASH_SIZE + MAX_SPDM_CERT_CHAIN_DATA_SIZE)%nat (only parsing).

Lemma or_else_step {S E E' A B} (m : M S E A) (bad : M S E' B) (k : A → M S E' B) a s s' :
  m s = (Ok a, s') → or_else m bad k s = k a s'.
Proof. intros H. unfold or_else, bind, attempt. by rewrite H. Qed.

(** ** Messages *)

Definition header_wire (v : SpdmVersion) (code : SpdmRequestResponseCode) : bytes :=
  le_bytes 1 (SpdmVersion_get_u8 v) ++ le_bytes 1 (SpdmRequestResponseCode_get_u8 code).

Lemma header_read {S} v code rest (s : S) :
  SpdmVersion_wf v → SpdmRequestResponseCode_wf code →
  read_header (header_wire v code ++ rest) s =
  (Ok ({| hd_version := v; hd_request_response_code := code |},
       Reader_advance (Reader_init (header_wire v code ++ rest)) 2), s).
Proof.
  intros Hv Hc. unfold read_header, with_reader.
  by rewrite (read_ok {| hd_version := v; hd_request_response_code := code |} (conj Hv Hc) _ rest).
Qed.

Lemma payload_resumed {S A} (codec : SpdmCodec A) wf wire `{!SpdmCodecOk codec wf wire} v code p rest (s : S) :
  wf p →
  let bs := header_wire v code ++ wire p ++ rest in
  resume (Reader_advance (Reader_init bs) 2) (spdm_read codec) s =
  (Ok (p, Reader_advance (Reader_advance (Reader_init bs) 2) (length (wire p))), s).
Proof.
  intros Hp bs. unfold resume. rewrite (spdm_read_ok p Hp _ rest); [done|].
  by rewrite (Reader_input_advance _ (header_wire v code) (wire p ++ rest)).
Qed.

(** ** Writers *)

(** The writer after [out]. *)
Definition wrote (out : bytes) : Writer := Writer_append (Writer_init (replicate MAX_SPDM_MSG_SIZE 0)) out.

Lemma wrote_more {E A} (err : E) (c : M Writer E A) out bs v :
  writes err c bs v → (length out + length bs ≤ MAX_SPDM_MSG_SIZE)%nat →
  c (wrote out) = (Ok v, wrote (out ++ bs)).
Proof.
  intros H Hl. unfold wrote.
  assert (Writer_wf (Writer_init (replicate MAX_SPDM_MSG_SIZE 0))) as Hw by (unfold Writer_wf; simpl; lia).
  assert (Writer_left (Writer_init (replicate MAX_SPDM_MSG_SIZE 0)) = MAX_SPDM_MSG_SIZE) as Hleft
    by (unfold Writer_left; cbn; rewrite length_replicate; lia).
  rewrite <- Writer_append_append by (try done; lia).
  apply H; [apply Writer_append_wf; [lia|done]|]. rewrite Writer_append_left by (try done; lia). lia.
Qed.

Lemma message_more out code payload c :
  let m := {| msg_header := {| hd_version := negotiated_version c; hd_request_response_code := code |};
              msg_payload := payload |} in
  Message_wf c m → (length out + length (Message_wire c m) ≤ MAX_SPDM_MSG_SIZE)%nat →
  write_response code payload (c, wrote out) =
  (Ok (length (Message_wire c m)), (c, wrote (out ++ Message_wire c m))).
Proof.
  intros m Hm Hl. unfold write_response, bind, gets, zoom. cbn [fst snd]. fold m.
  by rewrite (wrote_more _ _ _ _ _ (writes_message _ m Hm) Hl).
Qed.

Lemma error_more out code d c :
  SpdmVersion_wf (negotiated_version c) → plain_error code = true → is_u8 d →
  (4 + length out ≤ MAX_SPDM_MSG_SIZE)%nat →
  write_spdm_error code d (c, wrote out) = (Ok tt, (c, wrote (out ++ error_bytes c code d))).
Proof.
  intros Hv Hp Hd Hl. destruct (error_message_wire c code d Hv Hp Hd) as [Hm Hw].
  unfold write_spdm_error. unfold bind, attempt.
  rewrite (message_more out SpdmResponseError _ c Hm).
  - fold (error_message c code d). by rewrite Hw.
  - fold (error_message c code d). rewrite Hw. cbn. lia.
Qed.

Lemma fresh_writer : Writer_init (replicate MAX_SPDM_MSG_SIZE 0) = wrote [].
Proof. unfold wrote. by rewrite Writer_append_nil. Qed.
Lemma wrote_used out : (length out ≤ MAX_SPDM_MSG_SIZE)%nat → Writer_used_slice (wrote out) = out.
Proof. intros Hl. apply Writer_init_append_used_slice. by rewrite length_replicate. Qed.

Lemma message_wire_header v code payload c :
  Message_wire c {| msg_header := {| hd_version := v; hd_request_response_code := code |}; msg_payload := payload |} =
  header_wire v code ++ payload_wire c payload.
Proof. unfold header_wire. by rewrite <- app_assoc. Qed.

Lemma header_more v code out :
  SpdmVersion_wf v → SpdmRequestResponseCode_wf code → (2 + length out ≤ MAX_SPDM_MSG_SIZE)%nat →
  encode SpdmMessageHeader_codec {| hd_version := v; hd_request_response_code := code |} (wrote out) =
  (Ok 2%nat, wrote (out ++ header_wire v code)).
Proof.
  intros Hv Hc Hl. apply (wrote_more MkEncodeErr); [|cbn; lia].
  exact (encode_ok (c:=SpdmMessageHeader_codec)
    {| hd_version := v; hd_request_response_code := code |} (conj Hv Hc)).
Qed.

Lemma encap_more {A} code (codec : SpdmCodec A) wf wire `{!SpdmCodecOk codec wf wire} p c out :
  SpdmVersion_wf (negotiated_version c) → SpdmRequestResponseCode_wf code → wf p →
  (2 + length (wire p) + length out ≤ MAX_SPDM_MSG_SIZE)%nat →
  write_encap code (λ _, codec) p (c, wrote out) =
  (Ok (2 + length (wire p))%nat,
   (c, wrote (out ++ header_wire (negotiated_version c) code ++ wire p))).
Proof.
  intros Hv Hc Hp Hl. unfold write_encap, bind at 1, gets, zoom. cbn [fst snd].
  erewrite bind_step by (unfold enc, map_err; rewrite header_more; [reflexivity|done|done|lia]).
  erewrite bind_step.
  2: { eapply wrote_more; [by apply spdm_encode_ok|].
       unfold header_wire. rewrite !length_app, !length_le_bytes. lia. }
  unfold ret. by rewrite <- app_assoc.
Qed.

(** ** The transfer of a chain *)

(** What one side delivers and the other acknowledges, without the securing and sending of the
    messages.  The responder handles a DELIVER_ENCAPSULATED_RESPONSE; the requester has the
    acknowledgement in its buffer, zero behind it, and answers the request in it if there is one. *)
Definition exchange (delivered : bytes)
    : SpdmM (SpdmContext * (SpdmContext * SpdmEncapContext)) (option bytes) :=
  let* ack := on_snd (encap_response_ack mode delivered) in
  on_fst (
    let* next := read_response_ack (length ack)
      (ack ++ replicate (MAX_SPDM_MSG_SIZE - length ack) 0) in
    match next with
    | None => ret None
    | Some (request_id, request) =>
        let* answer := encapsulated_answer request_id request in
        ret (Some answer)
    end).

(** At most [turns] of them; the result says whether the exchange has come to its end. *)
Fixpoint exchange_all (turns : nat) (delivered : bytes)
    : SpdmM (SpdmContext * (SpdmContext * SpdmEncapContext)) bool :=
  match turns with
  | O => ret false
  | S turns =>
      let* next := exchange delivered in
      match next with
      | None => ret true
      | Some answer => exchange_all turns answer
      end
  end.

Section Transfer.
Context (q : SpdmContext) (chain : SpdmCertChainBuffer).
Context (version : SpdmVersion_wf (negotiated_version q)).
Context (capable : req_has q SpdmRequestCapabilityFlags.CERT_CAP = true).
Context (provisioned : my_cert_chain (provision_info q) !! 0%nat = Some (Some chain)).
Context (octets : Forall is_u8 (data chain)).
Abbreviation size := (data_size chain).
Context (complete : (0 < size ≤ length (data chain))%nat) (fits : Z.of_nat size < MAX_CHAIN).
Context (room : (12 + MAX_SPDM_CERT_PORTION_LEN ≤ MAX_SPDM_MSG_SIZE)%nat).

(** What the responder has of the chain after [offset] bytes. *)
Definition assembled (offset : nat) : SpdmCertChainBuffer :=
  {| data_size := offset; data := take offset (data chain) ++ replicate (CHAIN_BUFFER - offset) 0 |}.
Definition holding (offset : nat) (r : SpdmContext) : SpdmContext :=
  set_chain_temp (Some (assembled offset)) r.

(** The responder has [offset] bytes and asks for the slot 0. *)
Definition at_offset (offset : nat) (s : SpdmContext * SpdmEncapContext) : Prop :=
  negotiated_version s.1 = negotiated_version q ∧ req_slot_id s.2 = 0 ∧
  (if decide (offset = 0%nat) then peer_cert_chain_temp (peer_info s.1) = None ∨
     peer_cert_chain_temp (peer_info s.1) = Some (assembled 0)
   else peer_cert_chain_temp (peer_info s.1) = Some (assembled offset) ∧
        encap_cert_size s.2 = Z.of_nat size).

Definition request_bytes (offset : nat) : bytes :=
  header_wire (negotiated_version q) SpdmRequestGetCertificate ++
  GetCertificate_wire {| gc_slot_id := 0; gc_offset := Z.of_nat offset;
                         gc_length := Z.of_nat MAX_SPDM_CERT_PORTION_LEN |}.

Lemma chain_size_u16 : Z.of_nat size < 2 ^ 16.
Proof. pose proof (Z.mod_pos_bound (Z.of_nat MAX_SPDM_CERT_CHAIN_DATA_SIZE) (2 ^ 16)). unfold as_uint in fits. lia. Qed.

Lemma assembled_0 : assembled 0 = empty_chain.
Proof. unfold assembled, empty_chain, sized_default. by rewrite Nat.sub_0_r. Qed.

Lemma holding_same offset r :
  peer_cert_chain_temp (peer_info r) = Some (assembled offset) → holding offset r = r.
Proof.
  intros H. destruct r as [? ? ? ? ? ? [? t] ?]. cbn in H. subst t. done.
Qed.

Lemma request_more offset r e out :
  (offset ≤ size)%nat → at_offset offset (r, e) → (8 + length out ≤ MAX_SPDM_MSG_SIZE)%nat →
  encode_encap_requst_get_certificate (r, e, wrote out) =
  (Ok tt, (holding offset r, e, wrote (out ++ request_bytes offset))).
Proof.
  intros Ho (Hv&Hs&Ht) Hout. cbn [fst snd] in *. unfold encode_encap_requst_get_certificate.
  erewrite (bind_step _ _ _ (holding offset r, e, _)).
  2: { unfold on_rsp, zoom, modify. cbn [fst snd]. do 4 f_equal. case_decide as Hz.
    - subst offset. destruct Ht as [Ht|Ht].
      + rewrite Ht. unfold holding. by rewrite assembled_0.
      + rewrite Ht. by rewrite (holding_same _ _ Ht).
    - destruct Ht as [Ht _]. rewrite Ht. by rewrite (holding_same _ _ Ht). }
  erewrite bind_step by done. cbn [fst snd]. erewrite bind_step by done. rewrite Hs.
  cbn [data_size assembled]. unfold bind, on_rsp, zoom. cbn [fst snd].
  pose proof chain_size_u16. rewrite message_more.
  - rewrite message_wire_header. cbn [fst snd payload_wire].
    change (negotiated_version (holding offset r)) with (negotiated_version r). by rewrite Hv.
  - split; [|split; [done|]]; cbn [msg_header msg_payload hd_version].
    + change (negotiated_version (holding offset r)) with (negotiated_version r). by rewrite Hv.
    + split_and!; [done| |done]. cbn. unfold is_uint. lia.
  - unfold Message_wire. cbn. lia.
Qed.

(** The portion that follows [offset]. *)
Definition portion_size (offset : nat) : nat := Nat.min MAX_SPDM_CERT_PORTION_LEN (size - offset).
Definition portion_at (offset : nat) : SpdmCertificateResponsePayload :=
  let part := take (portion_size offset) (drop offset (data chain)) in
  {| cr_slot_id := 0; cr_portion_length := Z.of_nat (portion_size offset);
     cr_remainder_length := Z.of_nat (size - (offset + portion_size offset));
     cr_cert_chain := part ++ replicate (MAX_SPDM_CERT_PORTION_LEN - portion_size offset) 0 |}.
Definition response_bytes (offset : nat) : bytes :=
  header_wire (negotiated_version q) SpdmResponseCertificate ++ Certificate_wire (portion_at offset).

Lemma portion_bound offset : (portion_size offset ≤ 512 ∧ portion_size offset ≤ size - offset)%nat.
Proof. unfold portion_size. lia. Qed.
Lemma part_length offset :
  (offset ≤ size)%nat → length (take (portion_size offset) (drop offset (data chain))) = portion_size offset.
Proof. intros Ho. pose proof (portion_bound offset). rewrite length_take, length_drop. lia. Qed.

Lemma portion_wf offset : (offset ≤ size)%nat → Certificate_wf (portion_at offset).
Proof.
  intros Ho. pose proof (portion_bound offset) as [Hb Hs]. pose proof chain_size_u16.
  split_and!; cbn [cr_slot_id cr_portion_length cr_remainder_length cr_cert_chain portion_at];
    [done|unfold is_uint; lia|unfold is_uint; lia|].
  rewrite Nat2Z.id. split_and!.
  - rewrite length_app, length_replicate, part_length by done. lia.
  - apply Forall_app_2; [by apply Forall_take, Forall_drop|]. by apply Forall_replicate.
  - lia.
  - rewrite drop_app_length'; [done|]. by rewrite part_length.
Qed.

Lemma response_more offset rest out :
  (offset ≤ size)%nat → (length out ≤ 4)%nat →
  encap_handle_get_certificate (request_bytes offset ++ rest) (q, wrote out) =
  (Ok tt, (q, wrote (out ++ response_bytes offset))).
Proof.
  intros Ho Hout. unfold encap_handle_get_certificate, expect_encap.
  pose proof (portion_bound offset) as [Hb Hs]. pose proof chain_size_u16.
  erewrite bind_step by done. cbn [fst]. rewrite capable. cbn [negb].
  unfold request_bytes. rewrite <- app_assoc.
  erewrite or_else_step by (by apply header_read). cbv beta iota.
  rewrite decide_False by (intros Hn; by apply Hn).
  set (p := {| gc_slot_id := 0; gc_offset := Z.of_nat offset;
               gc_length := Z.of_nat MAX_SPDM_CERT_PORTION_LEN |}).
  erewrite or_else_step.
  2: { apply (payload_resumed SpdmGetCertificateRequestPayload_codec _ _ _ _ p).
       split_and!; [done| |done]. cbn. unfold is_uint. lia. }
  cbv beta iota.
  unfold p. cbn [gc_slot_id gc_offset gc_length Z.eqb negb]. change (Z.to_nat 0) with 0%nat. cbn [Nat.leb].
  erewrite bind_step by done. cbn [fst].
  erewrite bind_step by (unfold local_chain; rewrite provisioned; done). cbv beta iota.
  assert (cert_portion (Z.of_nat size) (Z.of_nat offset) (Z.of_nat MAX_SPDM_CERT_PORTION_LEN) =
    Some (Z.of_nat (portion_size offset), Z.of_nat (size - (offset + portion_size offset)))) as ->.
  { unfold cert_portion. rewrite Z.min_id.
    rewrite (proj2 (Z.ltb_ge _ _)) by lia. unfold portion_size. do 2 f_equal; lia. }
  cbv beta iota. rewrite !Nat2Z.id.
  erewrite bind_step by (apply sub_slice_ok; lia). replace (offset + portion_size offset - offset)%nat
    with (portion_size offset) by lia.
  pose proof (slice_copy_next (E:=SpdmStatus) [] (take (portion_size offset) (drop offset (data chain)))
    (replicate 512 0) (q, wrote out)) as Hsc.
  rewrite part_length, length_replicate, drop_replicate in Hsc by done. cbn [app length] in Hsc.
  rewrite (bind_step _ _ _ _ _ (Hsc Hb)). fold (portion_at offset).
  unfold bind, attempt. change (Z.of_nat 0) with 0. fold (portion_at offset).
  rewrite message_more; [by rewrite message_wire_header| |].
  - split; [done|split; [done|]]. by apply portion_wf.
  - rewrite message_wire_header. cbn [payload_wire]. unfold Certificate_wire, header_wire.
    pose proof (portion_wf offset Ho) as (_&_&_&Hl&_).
    rewrite !length_app, !length_le_bytes, length_take. cbn [length portion_at cr_portion_length].
    rewrite Nat2Z.id. lia.
Qed.

Lemma sub_u16_in {S E} a b (s : S) : is_u16 (a - b) → sub_u16 (E:=E) mode a b s = (Ok (a - b), s).
Proof. intros H. unfold sub_u16. by rewrite decide_True. Qed.
Lemma portion_checked offset r e :
  (offset ≤ size)%nat → at_offset offset (r, e) →
  check_encap_portion mode (Z.of_nat offset) (portion_at offset) (holding offset r, e) =
  (Ok tt, (holding offset r, set_cert_size (Z.of_nat size) e)).
Proof.
  intros Ho (_&Hs&Ht). cbn [fst snd] in *. pose proof (portion_bound offset) as [Hb Hsz]. pose proof chain_size_u16.
  assert (MAX_CHAIN < 2 ^ 16) by (unfold as_uint; by apply Z.mod_pos_bound).
  unfold check_encap_portion. cbn [portion_at cr_slot_id cr_portion_length cr_remainder_length].
  rewrite (proj2 (Z.ltb_ge _ _)) by lia.
  erewrite bind_step by (apply sub_u16_in; unfold is_uint; lia).
  rewrite (proj2 (Z.ltb_ge _ _)) by lia.
  erewrite bind_step by (apply sub_u16_in; unfold is_uint; lia).
  rewrite (proj2 (Z.leb_gt _ _)) by lia.
  erewrite bind_step by done. cbn [snd]. rewrite Hs. cbn [Z.eqb negb].
  assert ((if Z.of_nat offset =? 0
    then let* n := add_u16 mode (Z.of_nat (portion_size offset))
           (Z.of_nat (size - (offset + portion_size offset))) in on_snd (modify (set_cert_size n))
    else ret tt) (holding offset r, e) =
    (Ok tt, (holding offset r, set_cert_size (Z.of_nat size) e)) :> (outcome SpdmStatus unit * _)) as He.
  { case_decide as Hz.
    - subst offset. change (Z.of_nat 0 =? 0) with true. cbv iota. erewrite bind_step by (apply add_u16_ok; unfold is_uint; lia).
      unfold zoom, modify. cbn [fst snd]. do 4 f_equal. lia.
    - destruct Ht as [_ <-]. rewrite (proj2 (Z.eqb_neq _ _)) by lia. by destruct e. }
  rewrite (bind_step _ _ _ _ _ He). erewrite bind_step by done. cbn [snd encap_cert_size set_cert_size].
  rewrite (proj2 (Z.eqb_neq _ _)) by lia.
  erewrite bind_step by (apply add_u16_ok; unfold is_uint; lia).
  erewrite bind_step by (apply add_u16_ok; unfold is_uint; lia).
  by rewrite (proj2 (Z.eqb_eq _ _)) by lia.
Qed.

Lemma assembled_next offset :
  (offset ≤ size)%nat →
  (take offset (data chain) ++ take (portion_size offset) (drop offset (data chain))) ++
    drop (portion_size offset) (replicate (CHAIN_BUFFER - offset) 0) =
  data (assembled (offset + portion_size offset)).
Proof.
  intros Ho. pose proof (portion_bound offset). rewrite take_take_drop, drop_replicate. cbn [data assembled].
  do 2 f_equal. lia.
Qed.

Lemma portion_handled offset r e :
  (offset < size)%nat → at_offset offset (r, e) →
  let s' := (holding (offset + portion_size offset) r, set_cert_size (Z.of_nat size) e) in
  handle_encap_response_certificate mode (response_bytes offset) (holding offset r, e) =
  if decide (offset + portion_size offset < size)%nat then (Ok true, s') else accept_encap_chain s'.
Proof.
  intros Ho Hat. pose proof (portion_bound offset) as [Hb Hsz]. pose proof chain_size_u16.
  unfold handle_encap_response_certificate.
  erewrite or_else_step by (unfold response_bytes; by apply header_read). cbv beta iota.
  erewrite bind_step by done. cbn [fst hd_version hd_request_response_code].
  rewrite decide_False by (intros Hn; apply Hn; symmetry; apply Hat). rewrite decide_True by done.
  erewrite or_else_step.
  2: { unfold response_bytes. rewrite <- (app_nil_r (Certificate_wire _)).
       apply (payload_resumed SpdmCertificateResponsePayload_codec _ _ _ _ (portion_at offset)).
       apply portion_wf. lia. }
  cbv beta iota.
  erewrite bind_step by done. cbn [data_size assembled].
  rewrite (bind_step _ _ _ _ _ (portion_checked offset r e ltac:(lia) Hat)).
  pose proof (part_length offset ltac:(lia)) as Hpl. rewrite Nat2Z.id.
  rewrite (bind_step _ _ _ (holding offset r, set_cert_size (Z.of_nat size) e)
    (take (portion_size offset) (drop offset (data chain)))).
  2: { cbn [portion_at cr_portion_length cr_cert_chain]. rewrite Nat2Z.id.
       rewrite sub_slice_ok, Nat.sub_0_r, drop_0, take_app_length'; try done; [lia|].
       rewrite length_app. lia. }
  pose proof (slice_copy_next (E:=SpdmStatus) (take offset (data chain))
    (take (portion_size offset) (drop offset (data chain))) (replicate (CHAIN_BUFFER - offset) 0)
    (holding offset r, set_cert_size (Z.of_nat size) e)) as Hc.
  rewrite Hpl, length_replicate, length_take, Nat.min_l, assembled_next in Hc by lia.
  assert (Z.of_nat size < Z.of_nat CHAIN_BUFFER).
  { unfold as_uint in fits. pose proof (Z.mod_le (Z.of_nat MAX_SPDM_CERT_CHAIN_DATA_SIZE) (2 ^ 16)). lia. }
  rewrite (bind_step _ _ _ _ _ (Hc ltac:(lia))). cbn [portion_at cr_portion_length cr_remainder_length].
  erewrite bind_step by (apply add_u16_ok; unfold is_uint; lia).
  rewrite <- Nat2Z.inj_add, Nat2Z.id. erewrite bind_step by done. erewrite bind_step by done.
  cbn [snd encap_cert_size set_cert_size]. rewrite (proj2 (Z.eqb_neq _ _)) by lia.
  case_decide; [rewrite (proj2 (Z.eqb_neq _ _)) by lia|rewrite (proj2 (Z.eqb_eq _ _)) by lia]; done.
Qed.

Lemma accept_ends s : accept_encap_chain s = (let* _ := accept_encap_chain in ret false) s.
Proof.
  unfold bind. destruct (accept_encap_chain s) as [[b|x|] s'] eqn:H; try done. unfold ret. do 2 f_equal.
  unfold accept_encap_chain in H. apply bind_ok in H as (s1&s2&_&H). unfold zoom in H.
  destruct (bind _ _ _) as [o c] eqn:Hb in H. injection H as -> _.
  apply attempt_ok in Hb as (o&c1&_&Hb). destruct o as [[]|y|]; [|done|done].
  apply bind_ok in Hb as (?&?&_&Hb). apply bind_ok in Hb as (?&?&_&Hb).
  apply bind_ok in Hb as (?&?&_&Hb). apply bind_ok in Hb as (?&?&_&Hb).
  apply bind_ok in Hb as (?&?&_&Hb). by injection Hb as <- _.
Qed.

Lemma within_verify_chain : within eq verify_spdm_certificate_chain.
Proof. unfold verify_spdm_certificate_chain. within_steps. Qed.
Lemma verify_chain_frame c : (verify_spdm_certificate_chain c).2 = c.
Proof.
  destruct (verify_spdm_certificate_chain c) as [o c'] eqn:H.
  by apply within_verify_chain in H as <-.
Qed.
Definition stored (c : SpdmContext) : SpdmContext :=
  set_chain_temp None (c <| peer_info ::= λ i, i <| peer_cert_chain ::= <[0%nat := peer_cert_chain_temp i]> |> |>
    <| runtime_info ::= λ r, r <| peer_used_cert_chain_slot_id := 0 |> |>).
Lemma accept_spec c e :
  req_slot_id e = 0 → (0 < length (peer_cert_chain (peer_info c)))%nat →
  accept_encap_chain (c, e) =
  match verify_spdm_certificate_chain c with
  | (Ok _, _) => (Ok false, (stored c, e))
  | (Err x, c') => (Err x, (set_chain_temp None c', e))
  | (Panic, c') => (Panic, (c', e))
  end.
Proof.
  intros Hs Hp. unfold accept_encap_chain. erewrite bind_step by done. cbn [snd]. rewrite Hs.
  change (Z.to_nat 0) with 0%nat. unfold zoom, encap_verify_spdm_certificate_chain. cbn [fst snd].
  unfold bind at 1, attempt. destruct (verify_spdm_certificate_chain c) as [[[]|x|] c'] eqn:Hvc; [|done|done].
  apply verify_chain_ok in Hvc as (->&_). erewrite bind_step by done.
  by rewrite (proj2 (Nat.ltb_lt _ _)) by done.
Qed.


(** *** The frames *)

Definition deliver (id : Z) (response : bytes) : bytes :=
  header_wire (negotiated_version q) SpdmRequestDeliverEncapsulatedResponse ++
  (le_bytes 1 id ++ [0]) ++ response.
Abbreviation ack_header :=
  (header_wire (negotiated_version q) SpdmResponseEncapsulatedResponseAck) (only parsing).
Definition ack_bytes (id ack_id : Z) (t : SpdmEncapsulatedResponseAckPayloadType) : bytes :=
  ack_header ++
  Ack_wire q {| ea_request_id := id; ea_payload_type := t;
                ea_ack_request_id := if sel_ge12 q then ack_id else 0 |}.

Lemma answer_started id :
  is_u8 id →
  write_encap SpdmRequestDeliverEncapsulatedResponse
    (λ _, SpdmDeliverEncapsulatedResponsePayload_codec) {| de_request_id := id |} (q, wrote []) =
  (Ok 4%nat, (q, wrote (deliver id []))).
Proof.
  intros Hid. rewrite (encap_more _ SpdmDeliverEncapsulatedResponsePayload_codec (λ v, is_u8 (de_request_id v))
    (λ v, le_bytes 1 (de_request_id v) ++ [0])) by (first [done|cbn; lia]).
  unfold deliver. by rewrite app_nil_r.
Qed.

Lemma deliver_app id bs : deliver id [] ++ bs = deliver id bs.
Proof. unfold deliver. by rewrite app_nil_r, <- !app_assoc. Qed.
Lemma length_deliver id bs : length (deliver id bs) = (4 + length bs)%nat.
Proof. unfold deliver, header_wire. rewrite !length_app, !length_le_bytes. cbn [length]. lia. Qed.
Lemma deliver_rest {S E} id bs (s : S) :
  sub_slice (E:=E) 4 (length (deliver id bs)) (deliver id bs) s = (Ok bs, s).
Proof. rewrite <- deliver_app, length_app. by apply sub_slice_tail. Qed.
Lemma length_response offset : (offset ≤ size)%nat → (length (response_bytes offset) ≤ 520)%nat.
Proof.
  intros Ho. pose proof (portion_bound offset). unfold response_bytes, header_wire, Certificate_wire.
  rewrite !length_app, !length_le_bytes, length_take. cbn [length portion_at cr_portion_length].
  rewrite Nat2Z.id. lia.
Qed.

Lemma certificate_answered id offset rest :
  is_u8 id → (offset ≤ size)%nat →
  encapsulated_answer id (request_bytes offset ++ rest) q = (Ok (deliver id (response_bytes offset)), q).
Proof.
  intros Hid Ho. unfold encapsulated_answer, with_send_buffer. rewrite fresh_writer.
  erewrite bind_step by (by apply answer_started).
  erewrite or_else_step by (unfold request_bytes; rewrite <- app_assoc; by apply header_read).
  cbv beta iota. cbn [hd_request_response_code].
  rewrite response_more by (first [done|by rewrite length_deliver]). rewrite deliver_app.
  pose proof (length_response offset Ho). by rewrite wrote_used by (rewrite length_deliver; lia).
Qed.

(** A request with an unknown code is answered by an error. *)
Lemma answered_error id v rest :
  is_u8 id → SpdmVersion_wf v →
  encapsulated_answer id (header_wire v (SpdmRequestResponseCode_Unknown 0) ++ rest) q =
  (Ok (deliver id (error_bytes q SpdmErrorUnexpectedRequest 0)), q).
Proof.
  intros Hid Hv. unfold encapsulated_answer, with_send_buffer. rewrite fresh_writer.
  erewrite bind_step by (by apply answer_started).
  erewrite or_else_step by (by apply header_read). cbv beta iota. cbn [hd_request_response_code].
  change (encode_encap_error_response SpdmErrorUnexpectedRequest 0)
    with (write_spdm_error SpdmErrorUnexpectedRequest 0).
  rewrite error_more by (first [done|rewrite length_deliver; cbn; lia]). rewrite deliver_app.
  by rewrite wrote_used by (rewrite length_deliver; cbn; lia).
Qed.

(** *** The responder *)

(** The responder has negotiated the version of the requester and has reached the state for
    mutual authentication. *)
Definition ready (r : SpdmContext) : Prop :=
  negotiated_version r = negotiated_version q ∧
  version_below (negotiated_version r) SpdmVersion11 = false ∧
  encap_capable r = true ∧ state_below SpdmConnectionAfterCertificate r = false.

Lemma delivered_read id response r e :
  ready r → is_u8 id →
  encap_response_ack mode (deliver id response) (r, e) =
  with_encap_buffer
    (or_else (process_encapsulated_response mode id response)
       (on_rsp (error SpdmErrorInvalidResponseCode)) (λ _, ret tt)) (r, e).
Proof.
  intros (Hv&Hver&Hcap&Hst) Hid. unfold encap_response_ack, with_encap_buffer.
  erewrite bind_step.
  2: { unfold on_rsp, zoom, encap_check_version_cap_state, bind, gets. cbn [fst snd].
       rewrite Hver. unfold ret. cbn [fst snd]. by rewrite Hcap, Hst. }
  unfold write_encap_response_ack_response.
  erewrite or_else_step by (by apply header_read). cbv beta iota.
  erewrite bind_step by done. cbn [fst snd hd_version].
  rewrite decide_False by (intros Hn; by apply Hn).
  erewrite or_else_step.
  2: { exact (payload_resumed SpdmDeliverEncapsulatedResponsePayload_codec _ _ _ _
         {| de_request_id := id |} response _ Hid). }
  cbv beta iota. erewrite bind_step; [reflexivity|]. exact (deliver_rest id response _).
Qed.

Lemma length_ack id ack_id t :
  length (ack_bytes id ack_id t) = if sel_ge12 q then 8%nat else 4%nat.
Proof.
  unfold ack_bytes, Ack_wire, header_wire. rewrite !length_app, !length_le_bytes. by destruct (sel_ge12 q).
Qed.

Lemma ack_more t ack_id r e :
  ready r → is_u8 (request_id e) → is_u8 ack_id →
  enum_wf 8 AckPayloadType_get_u8 AckPayloadType_from_u8 t →
  ∃ n, write_ack ack_id t (r, e, wrote ack_header) =
    (Ok n, (r, e, wrote (ack_bytes (request_id e) ack_id t))).
Proof.
  intros (Hv&_) Hid Hack Ht. unfold write_ack. erewrite bind_step by done. cbn [fst snd].
  set (p := {| ea_request_id := request_id e; ea_payload_type := t;
               ea_ack_request_id := if sel_ge12 q then ack_id else 0 |}).
  assert (sel_ge12 r = sel_ge12 q) as Hsel by (unfold sel_ge12, sel_version; exact (f_equal (λ v, SpdmVersion_ge v SpdmVersion12) Hv)).
  assert (Ack_wf r p) as Hp.
  { split_and!; [done|done| |]; unfold p; cbn [ea_ack_request_id]; rewrite ?Hsel;
      destruct (sel_ge12 q); done. }
  assert (ack_header ++ Ack_wire r p = ack_bytes (request_id e) ack_id t) as Hw.
  { unfold ack_bytes, Ack_wire, p. by rewrite Hsel. }
  assert (length (Ack_wire r p) ≤ 6)%nat.
  { unfold Ack_wire. rewrite !length_app, !length_le_bytes. destruct (sel_ge12 r); cbn; lia. }
  eexists. unfold on_rsp, zoom, bind, gets. cbn [fst snd].
  replace (spdm_encode (SpdmEncapsulatedResponseAckPayload_codec r) _)
    with (spdm_encode (SpdmEncapsulatedResponseAckPayload_codec r) p).
  2: { unfold p. cbn [spdm_encode SpdmEncapsulatedResponseAckPayload_codec ea_request_id ea_payload_type
         ea_ack_request_id]. rewrite <- Hsel. by destruct (sel_ge12 r). }
  rewrite (wrote_more _ _ _ _ _ (spdm_encode_ok p Hp))
    by (change (length ack_header) with 2%nat; lia).
  by rewrite Hw.
Qed.

(** What the responder does with a response begins with the header of the acknowledgement. *)
Ltac process_response Hv :=
  unfold process_encapsulated_response; rewrite fresh_writer;
  erewrite or_else_step by (by apply header_read); cbv beta iota;
  erewrite bind_step by done; cbn [fst snd hd_version hd_request_response_code];
  rewrite decide_False by (intros Hn; by apply Hn); rewrite Hv;
  erewrite bind_step by (unfold attempt, zoom; cbn [fst snd];
    rewrite header_more by (first [done|cbn; lia]); reflexivity);
  cbn [fst snd app].

Lemma within_digest bs : within eq (handle_encap_response_digest bs).
Proof. unfold handle_encap_response_digest, RequesterContext.read_payload. within_steps. Qed.
Lemma encap_digest_ok bs r :
  (handle_encap_response_digest bs r).1 = Ok tt → handle_encap_response_digest bs r = (Ok tt, r).
Proof.
  destruct (handle_encap_response_digest bs r) as [o r'] eqn:H. apply within_digest in H as <-.
  cbn. by intros ->.
Qed.

Lemma digests_processed id rest r e :
  ready r → at_offset 0 (r, e) → is_u8 id → is_u8 (request_id e) →
  (handle_encap_response_digest (header_wire (negotiated_version q) SpdmResponseDigests ++ rest) r).1 = Ok tt →
  process_encapsulated_response mode id
    (header_wire (negotiated_version q) SpdmResponseDigests ++ rest)
    (r, e, Writer_init (replicate MAX_SPDM_MSG_SIZE 0)) =
  (Ok tt, (holding 0 r, e, wrote (ack_bytes (request_id e) id Present ++ request_bytes 0))).
Proof.
  intros Hr Hat Hid Hre Hd%encap_digest_ok. pose proof Hr as (Hv&_). process_response Hv.
  erewrite bind_step by (unfold zoom; cbn [fst snd]; rewrite Hd; reflexivity). cbn [fst snd].
  destruct (ack_more Present id r e Hr Hre Hid) as [n Hn]; [done|].
  erewrite bind_step by (unfold attempt; rewrite Hn; reflexivity).
  apply request_more; [lia|done|]. rewrite length_ack. destruct (sel_ge12 q); lia.
Qed.

(** The three ends of the certificates: more are to come, all have come, or they are refused. *)
Lemma certificate_processed id offset r e :
  ready r → is_u8 id → is_u8 (request_id e) →
  process_encapsulated_response mode id (response_bytes offset)
    (r, e, Writer_init (replicate MAX_SPDM_MSG_SIZE 0)) =
  match handle_encap_response_certificate mode (response_bytes offset) (r, e) with
  | (Ok true, s) => (write_ack id Present;; encode_encap_requst_get_certificate) (s, wrote ack_header)
  | (Ok false, s) =>
      (write_ack id ReqSlotNumber;; let* s := gets fst in on_snd (enc u8_codec (req_slot_id s.2));; ret tt)
        (s, wrote ack_header)
  | (Err x, s) =>
      (if decide (x = SPDM_STATUS_NOT_READY_PEER) then write_ack id Absent;; ret tt else throw x)
        (s, wrote ack_header)
  | (Panic, s) => (Panic, (s, wrote ack_header))
  end.
Proof.
  intros (Hv&_) Hid Hre. unfold response_bytes at 1. process_response Hv.
  fold (response_bytes offset). unfold bind at 1, attempt, zoom. cbn [fst snd].
  by destruct (handle_encap_response_certificate mode (response_bytes offset) (r, e)) as [[[]|x|] s].
Qed.

(** Anything but digests and certificates is refused. *)
Lemma error_processed id r e :
  ready r →
  process_encapsulated_response mode id (error_bytes q SpdmErrorUnexpectedRequest 0)
    (r, e, Writer_init (replicate MAX_SPDM_MSG_SIZE 0)) =
  (Err SPDM_STATUS_UNSUPPORTED_CAP, (r, e, wrote ack_header)).
Proof.
  intros (Hv&_).
  assert (error_bytes q SpdmErrorUnexpectedRequest 0 =
    header_wire (negotiated_version q) SpdmResponseError ++ [SpdmErrorCode_get_u8 SpdmErrorUnexpectedRequest; 0]) as ->.
  { unfold header_wire. rewrite !le_bytes_one; [done|done|apply version]. }
  by process_response Hv.
Qed.

(** *** The requester *)

Lemma ack_wf id ack_id t :
  is_u8 id → is_u8 ack_id → enum_wf 8 AckPayloadType_get_u8 AckPayloadType_from_u8 t →
  Ack_wf q {| ea_request_id := id; ea_payload_type := t;
              ea_ack_request_id := if sel_ge12 q then ack_id else 0 |}.
Proof. intros Hid Hack Ht. split_and!; try done; cbn [ea_ack_request_id]; by destruct (sel_ge12 q). Qed.

(** Reading an acknowledgement begins with its header and its parameters. *)
Ltac acknowledged Hwf :=
  unfold read_response_ack, expect_from_responder, ack_bytes; rewrite bind_assoc, <- app_assoc;
  erewrite bind_step by (unfold map_err; rewrite header_read by done; reflexivity);
  cbv beta iota; rewrite bind_assoc; erewrite bind_step by done;
  cbn [hd_version hd_request_response_code];
  rewrite !bool_decide_eq_false_2 by (intros Hn; by apply Hn); cbn [orb];
  erewrite bind_step by done; erewrite bind_step by done;
  erewrite bind_step by (unfold map_err; rewrite (payload_resumed _ _ _ _ _ _ _ _ Hwf); reflexivity);
  cbv beta iota; cbn [ea_payload_type ea_request_id].

Lemma ack_request_read t id ack_id n rest :
  is_u8 id → is_u8 ack_id → enum_wf 8 AckPayloadType_get_u8 AckPayloadType_from_u8 t →
  t ≠ Absent → t ≠ ReqSlotNumber →
  read_response_ack n (ack_bytes id ack_id t ++ rest) q = (Ok (Some (id, rest)), q).
Proof.
  intros Hid Hack Ht Ha Hr. pose proof (ack_wf id ack_id t Hid Hack Ht) as Hwf. acknowledged Hwf.
  destruct t; try done.
  all: erewrite bind_step; [reflexivity|]; rewrite app_assoc; apply sub_slice_tail;
    [done|by rewrite length_app].
Qed.
Lemma ack_absent_read id ack_id n rest :
  is_u8 id → is_u8 ack_id →
  read_response_ack n (ack_bytes id ack_id Absent ++ rest) q =
  (if (n =? ENCAPSULATED_RESPONSE_ACK_HEADER_SIZE)%nat then Ok None else Err SPDM_STATUS_INVALID_MSG_SIZE, q).
Proof.
  intros Hid Hack. pose proof (ack_wf id ack_id Absent Hid Hack ltac:(done)) as Hwf. acknowledged Hwf.
  by destruct (n =? _)%nat.
Qed.
Definition slot_used : SpdmContext :=
  q <| runtime_info ::= λ r, r <| local_used_cert_chain_slot_id := 0 |> |>.
Lemma ack_slot_read id ack_id n rest :
  is_u8 id → is_u8 ack_id →
  read_response_ack n (ack_bytes id ack_id ReqSlotNumber ++ 0 :: rest) q =
  if (n =? ENCAPSULATED_RESPONSE_ACK_HEADER_SIZE + 1)%nat then (Ok None, slot_used)
  else (Err SPDM_STATUS_INVALID_MSG_SIZE, q).
Proof.
  intros Hid Hack. pose proof (ack_wf id ack_id ReqSlotNumber Hid Hack ltac:(done)) as Hwf. acknowledged Hwf.
  destruct (n =? _)%nat; [|done]. assert (is_u8 0) as H0 by done.
  erewrite bind_step.
  2: unfold map_err, resume; rewrite (read_ok (c:=u8_codec) 0 H0 _ rest); [reflexivity|].
  { reflexivity. }
  apply Reader_input_advance, (Reader_input_advance (Reader_init _) ack_header). done.
Qed.

(** *** A failure *)

(** The error follows the header of the acknowledgement. *)
Definition failed_ack : bytes := ack_header ++ error_bytes q SpdmErrorInvalidResponseCode 0.
(** What the requester then delivers. *)
Definition failure : bytes :=
  deliver (SpdmVersion_get_u8 (negotiated_version q)) (error_bytes q SpdmErrorUnexpectedRequest 0).

(** To the requester the error is an acknowledgement with some payload, and the buffer behind it
    is a request. *)
Lemma failed_ack_read :
  ∃ id v rest, is_u8 id ∧ SpdmVersion_wf v ∧ id = SpdmVersion_get_u8 (negotiated_version q) ∧
    failed_ack ++ replicate (MAX_SPDM_MSG_SIZE - length failed_ack) 0 =
    ack_bytes id (SpdmErrorCode_get_u8 SpdmErrorInvalidResponseCode) (AckPayloadType_Unknown 0x7F) ++
      header_wire v (SpdmRequestResponseCode_Unknown 0) ++ rest.
Proof.
  change (length failed_ack) with 6%nat.
  assert (∃ n, MAX_SPDM_MSG_SIZE - 6 = S (S (S (S n))))%nat as [n ->].
  { exists (MAX_SPDM_MSG_SIZE - 10)%nat. lia. }
  exists (SpdmVersion_get_u8 (negotiated_version q)).
  unfold failed_ack, ack_bytes, Ack_wire. cbn [ea_request_id ea_payload_type ea_ack_request_id].
  destruct (sel_ge12 q);
    [exists (SpdmVersion_Unknown 0), (replicate n 0)
    |exists (SpdmVersion_Unknown (SpdmErrorCode_get_u8 SpdmErrorInvalidResponseCode)), (replicate (S (S (S (S n)))) 0)].
  all: split_and!; [apply version|done|done|].
  all: rewrite <- !app_assoc; f_equal; rewrite (le_bytes_one (SpdmVersion_get_u8 _)) by apply version; done.
Qed.

Lemma failed_turn delivered s s' :
  encap_response_ack mode delivered s = (Ok failed_ack, s') →
  exchange delivered (q, s) = (Ok (Some failure), (q, s')).
Proof.
  intros H. unfold exchange. erewrite bind_step by (unfold zoom; cbn [fst snd]; rewrite H; reflexivity).
  unfold zoom. cbn [fst snd]. destruct failed_ack_read as (id&v&rest&Hid&Hv&->&Heq). rewrite Heq.
  erewrite bind_step by (by apply ack_request_read). cbv beta iota.
  by erewrite bind_step by (by apply answered_error).
Qed.

Lemma refused id response r e r' e' x :
  ready r → ready r' → is_u8 id →
  process_encapsulated_response mode id response (r, e, Writer_init (replicate MAX_SPDM_MSG_SIZE 0)) =
    (Err x, (r', e', wrote ack_header)) →
  encap_response_ack mode (deliver id response) (r, e) = (Ok failed_ack, (r', e')).
Proof.
  intros Hr (Hv&_) Hid H. rewrite delivered_read by done. unfold with_encap_buffer, or_else, bind, attempt.
  rewrite H. unfold on_rsp, zoom, error. cbn [fst snd].
  rewrite error_more by (first [done|by rewrite Hv|cbn; lia]). cbn [fst snd].
  unfold error_bytes. rewrite Hv. by rewrite wrote_used by (cbn; lia).
Qed.

(** From then on both sides answer errors with errors. *)
Lemma failure_forever turns r e :
  ready r → exchange_all turns failure (q, (r, e)) = (Ok false, (q, (r, e))).
Proof.
  intros Hr. induction turns as [|turns IH]; [done|]. cbn [exchange_all].
  rewrite (bind_step _ _ _ (q, (r, e)) (Some failure)); [exact IH|]. apply failed_turn. unfold failure.
  eapply refused; [done|done|apply version|by apply error_processed].
Qed.

(** *** The turns *)

(** An acknowledgement with another request in it. *)
Lemma request_turn id response offset r e s' :
  ready r → is_u8 id → is_u8 (request_id e) → (offset ≤ size)%nat →
  process_encapsulated_response mode id response (r, e, Writer_init (replicate MAX_SPDM_MSG_SIZE 0)) =
    (Ok tt, (s', wrote (ack_bytes (request_id e) id Present ++ request_bytes offset))) →
  exchange (deliver id response) (q, (r, e)) =
    (Ok (Some (deliver (request_id e) (response_bytes offset))), (q, s')).
Proof.
  intros Hr Hid Hre Ho H. unfold exchange.
  assert (length (ack_bytes (request_id e) id Present ++ request_bytes offset) ≤ 16)%nat as Hl.
  { rewrite length_app, length_ack. change (length (request_bytes offset)) with 8%nat.
    destruct (sel_ge12 q); lia. }
  erewrite bind_step.
  2: { unfold zoom at 1. cbn [fst snd]. rewrite delivered_read by done. unfold with_encap_buffer.
       erewrite or_else_step by exact H. unfold ret. rewrite wrote_used by lia. reflexivity. }
  unfold zoom. cbn [fst snd]. rewrite <- app_assoc.
  erewrite bind_step by (by apply ack_request_read). cbv beta iota.
  by erewrite bind_step by (by apply certificate_answered).
Qed.

Lemma portion_turn id offset r e :
  ready r → is_u8 id → is_u8 (request_id e) → at_offset offset (r, e) →
  (offset + portion_size offset < size)%nat →
  exchange (deliver id (response_bytes offset)) (q, (holding offset r, e)) =
  (Ok (Some (deliver (request_id e) (response_bytes (offset + portion_size offset)))),
   (q, (holding (offset + portion_size offset) r, set_cert_size (Z.of_nat size) e))).
Proof.
  intros Hr Hid Hre Hat Ho. set (next := (offset + portion_size offset)%nat) in *.
  assert (0 < next)%nat by (unfold next, portion_size in *; lia).
  apply request_turn; [done|done|done|lia|]. rewrite certificate_processed by done.
  rewrite portion_handled by (first [unfold next in *; lia|done]). fold next. rewrite decide_True by done.
  destruct (ack_more Present id (holding next r) (set_cert_size (Z.of_nat size) e)) as [n Hn]; [done..|].
  rewrite (bind_step _ _ _ _ _ Hn).
  rewrite (request_more next (holding next r)); [done|lia| |].
  - destruct Hat as (Hv&Hs&_). split_and!; [done|done|]. by rewrite decide_False by lia.
  - rewrite length_ack. destruct (sel_ge12 q); lia.
Qed.

(** After enough turns the last portion is on its way. *)
Lemma last_portion turns offset id r e :
  ready r → is_u8 id → is_u8 (request_id e) → at_offset offset (holding offset r, e) →
  (offset < size ≤ offset + turns * MAX_SPDM_CERT_PORTION_LEN)%nat →
  ∃ turns' last id' e', is_u8 id' ∧ request_id e' = request_id e ∧
    set_cert_size (Z.of_nat size) e' = set_cert_size (Z.of_nat size) e ∧
    at_offset last (holding last r, e') ∧ (last < size ∧ last + portion_size last = size)%nat ∧
    exchange_all turns (deliver id (response_bytes offset)) (q, (holding offset r, e)) =
    exchange_all (S turns') (deliver id' (response_bytes last)) (q, (holding last r, e')).
Proof.
  revert offset id e. induction turns as [|turns IH]; intros offset id e Hr Hid Hre Hat Ho; [lia|].
  destruct (decide (offset + portion_size offset < size)%nat) as [Hlt|Hge].
  - pose proof (portion_turn id offset (holding offset r) e Hr Hid Hre Hat Hlt) as Hturn.
    destruct (IH (offset + portion_size offset)%nat (request_id e) (set_cert_size (Z.of_nat size) e))
      as (turns'&last&id'&e'&Hid'&Hre'&Hsz&Hlat&Hlast&Heq); [done|done|done| | |].
    + destruct Hat as (Hv&Hslot&_). split_and!; [done|done|].
      rewrite decide_False by (unfold portion_size; lia). done.
    + unfold portion_size in *. lia.
    + exists turns', last, id', e'. split_and!; try done; [lia|lia|]. rewrite <- Heq. cbn [exchange_all].
      exact (bind_step _ _ _ _ _ Hturn).
  - exists turns, offset, id, e. pose proof (portion_bound offset). split_and!; try done; lia.
Qed.

Abbreviation completed e := (set_cert_size (Z.of_nat size) e) (only parsing).

(** The last portion: the responder decides. *)
Lemma last_processed id last r e :
  ready r → is_u8 id → is_u8 (request_id e) → at_offset last (holding last r, e) →
  (last < size ∧ last + portion_size last = size)%nat → req_slot_id e = 0 →
  (0 < length (peer_cert_chain (peer_info r)))%nat →
  process_encapsulated_response mode id (response_bytes last)
    (holding last r, e, Writer_init (replicate MAX_SPDM_MSG_SIZE 0)) =
  match verify_spdm_certificate_chain (holding size r) with
  | (Ok _, _) => (Ok tt, (stored (holding size r), completed e,
                    wrote (ack_bytes (request_id e) id ReqSlotNumber ++ [0])))
  | (Err x, _) =>
      if decide (x = SPDM_STATUS_NOT_READY_PEER)
      then (Ok tt, (set_chain_temp None r, completed e, wrote (ack_bytes (request_id e) id Absent)))
      else (Err x, (set_chain_temp None r, completed e, wrote ack_header))
  | (Panic, _) => (Panic, (holding size r, completed e, wrote ack_header))
  end.
Proof.
  intros Hr Hid Hre Hat [Hlt Hlast] Hs Hp. rewrite certificate_processed by done.
  pose proof (portion_handled last (holding last r) e Hlt Hat) as Hh. cbv zeta in Hh.
  rewrite Hlast, decide_False in Hh by lia.
  change (holding last (holding last r)) with (holding last r) in Hh.
  change (holding size (holding last r)) with (holding size r) in Hh.
  rewrite Hh, accept_spec by done. pose proof (verify_chain_frame (holding size r)) as Hframe.
  destruct (verify_spdm_certificate_chain (holding size r)) as [[[]|x|] c']; cbn [snd] in Hframe; subst c'.
  - destruct (ack_more ReqSlotNumber id (stored (holding size r)) (completed e)) as [n Hn]; [done..|].
    rewrite (bind_step _ _ _ _ _ Hn). erewrite bind_step by done. cbn [fst snd].
    change (req_slot_id (completed e)) with (req_slot_id e). rewrite Hs.
    erewrite bind_step; [reflexivity|]. unfold zoom, enc, map_err. cbn [fst snd].
    rewrite (wrote_more MkEncodeErr _ _ [0] 1%nat); [done|by apply (encode_ok (c:=u8_codec) (wire:=le_bytes 1) 0)|].
    rewrite length_ack. destruct (sel_ge12 q); cbn; lia.
  - case_decide; [|done].
    destruct (ack_more Absent id (set_chain_temp None r) (completed e)) as [n Hn]; [done..|].
    exact (bind_step _ _ _ _ _ Hn).
  - done.
Qed.

Lemma final_ack id response r e r' e' out :
  ready r → is_u8 id → (length out ≤ MAX_SPDM_MSG_SIZE)%nat →
  process_encapsulated_response mode id response (r, e, Writer_init (replicate MAX_SPDM_MSG_SIZE 0)) =
    (Ok tt, (r', e', wrote out)) →
  encap_response_ack mode (deliver id response) (r, e) = (Ok out, (r', e')).
Proof.
  intros Hr Hid Hl H. rewrite delivered_read by done. unfold with_encap_buffer.
  erewrite or_else_step by exact H. unfold ret. by rewrite wrote_used.
Qed.

(** How the exchange ends. *)
Lemma last_turn turns id last r e :
  ready r → is_u8 id → is_u8 (request_id e) → at_offset last (holding last r, e) →
  (last < size ∧ last + portion_size last = size)%nat → req_slot_id e = 0 →
  (0 < length (peer_cert_chain (peer_info r)))%nat →
  exchange_all (S turns) (deliver id (response_bytes last)) (q, (holding last r, e)) =
  match verify_spdm_certificate_chain (holding size r) with
  | (Ok _, _) =>
      if sel_ge12 q then (Ok true, (slot_used, (stored (holding size r), completed e)))
      else (Err SPDM_STATUS_INVALID_MSG_SIZE, (q, (stored (holding size r), completed e)))
  | (Err x, _) =>
      (if decide (x = SPDM_STATUS_NOT_READY_PEER)
       then if sel_ge12 q then Ok true else Err SPDM_STATUS_INVALID_MSG_SIZE
       else Ok false, (q, (set_chain_temp None r, completed e)))
  | (Panic, _) => (Panic, (q, (holding size r, completed e)))
  end.
Proof.
  intros Hr Hid Hre Hat Hlast Hs Hp. cbn [exchange_all].
  pose proof (last_processed id last r e Hr Hid Hre Hat Hlast Hs Hp) as Hproc.
  destruct (verify_spdm_certificate_chain (holding size r)) as [[[]|x|] c']; [|case_decide|].
  - apply final_ack in Hproc; [|done|done|rewrite length_app, length_ack; destruct (sel_ge12 q); cbn; lia].
    unfold exchange, bind, zoom. cbn [fst snd]. rewrite Hproc, <- app_assoc. cbn [app fst snd].
    rewrite ack_slot_read, length_app, length_ack by done. by destruct (sel_ge12 q).
  - apply final_ack in Hproc; [|done|done|rewrite length_ack; destruct (sel_ge12 q); lia].
    unfold exchange, bind, zoom. cbn [fst snd]. rewrite Hproc. cbn [fst snd].
    rewrite ack_absent_read, length_ack by done. by destruct (sel_ge12 q).
  - apply refused in Hproc; [|done..]. rewrite (bind_step _ _ _ _ _ (failed_turn _ _ _ Hproc)).
    by apply failure_forever.
  - unfold exchange, bind, zoom. cbn [fst snd]. rewrite delivered_read by done.
    unfold with_encap_buffer, or_else, bind, attempt. by rewrite Hproc.
Qed.

(** C12: In mutual authentication the certificates of the requester arrive.  The responder asks for
    them by GET_CERTIFICATE requests in its acknowledgements, the requester delivers its answers;
    after the digests, one acknowledgement for every 512 bytes is enough, and the chain that the
    responder then has is the chain of the requester.  If it verifies, it is stored in the slot and
    nothing else changes in the chains that are stored; from version 1.2 on the exchange ends with
    both sides at that slot, while the requester of version 1.1 refuses the last acknowledgement.
    If the chain does not verify, the chains that are stored are those of before; but the
    exchange does not end: each side answers the errors of the other. *)
Theorem encap_chain_transferred turns id digests r e :
  ready r → is_u8 id → is_u8 (request_id e) →
  (handle_encap_response_digest (header_wire (negotiated_version q) SpdmResponseDigests ++ digests) r).1 = Ok tt →
  peer_cert_chain_temp (peer_info r) = None → (0 < length (peer_cert_chain (peer_info r)))%nat →
  req_slot_id e = 0 → (size ≤ turns * MAX_SPDM_CERT_PORTION_LEN)%nat →
  let transfer := exchange_all (S turns)
    (deliver id (header_wire (negotiated_version q) SpdmResponseDigests ++ digests)) (q, (r, e)) in
  sized_bytes (assembled size) = sized_bytes chain ∧
  match verify_spdm_certificate_chain (holding size r) with
  | (Ok _, _) => ∃ r',
      transfer = (if sel_ge12 q then (Ok true, (slot_used, (r', completed e)))
                  else (Err SPDM_STATUS_INVALID_MSG_SIZE, (q, (r', completed e)))) ∧
      peer_cert_chain (peer_info r') = <[0%nat := Some (assembled size)]> (peer_cert_chain (peer_info r)) ∧
      peer_used_cert_chain_slot_id (runtime_info r') = 0
  | (Err x, _) => ∃ o r',
      transfer = (o, (q, (r', completed e))) ∧
      (x ≠ SPDM_STATUS_NOT_READY_PEER → o = Ok false) ∧
      peer_cert_chain (peer_info r') = peer_cert_chain (peer_info r) ∧
      peer_cert_chain_temp (peer_info r') = None
  | (Panic, _) => transfer.1 = Panic
  end.
Proof.
  intros Hr Hid Hre Hd Ht Hp Hs Hturns transfer. pose proof Hr as (Hv&_). split.
  { unfold sized_bytes. cbn [data data_size assembled]. rewrite take_app_length'; [done|].
    rewrite length_take. lia. }
  assert (at_offset 0 (r, e)) as Hat by (split_and!; [done|done|by left]).
  assert (at_offset 0 (holding 0 r, e)) as Hat0 by (split_and!; [done|done|by right]).
  destruct (last_portion turns 0 (request_id e) r e Hr Hre Hre Hat0)
    as (turns'&last&id'&e'&Hid'&Hre'&Hsz&Hlat&Hlast&Heq); [lia|].
  assert (transfer = exchange_all (S turns') (deliver id' (response_bytes last)) (q, (holding last r, e'))) as ->.
  { rewrite <- Heq. unfold transfer. cbn [exchange_all].
    rewrite (bind_step _ _ _ (q, (holding 0 r, e)) (Some (deliver (request_id e) (response_bytes 0)))); [done|].
    apply request_turn; [done..|lia|]. by apply digests_processed. }
  rewrite last_turn, Hsz by (first [done|by rewrite Hre'|by apply Hlat]).
  destruct (verify_spdm_certificate_chain (holding size r)) as [[[]|x|] c']; [| |done].
  - by eexists.
  - eexists _, _. split_and!; [done| |done|done]. intros Hx. by rewrite decide_False.
Qed.
End Transfer.

(** ** The checks of the responder *)

(** The error that the checks of the responder write. *)
Definition refusal (c : SpdmContext) : bytes :=
  if encap_capable c then error_bytes c SpdmErrorUnexpectedRequest 0
  else error_bytes c SpdmErrorUnsupportedRequest
         (SpdmRequestResponseCode_get_u8 SpdmRequestGetEncapsulatedRequest).

Lemma checks_refuse c code :
  SpdmVersion_wf (negotiated_version c) → version_below (negotiated_version c) SpdmVersion11 = false →
  encap_capable c && negb (state_below SpdmConnectionAfterCertificate c) = false →
  code = SpdmRequestResponseCode_get_u8 SpdmRequestGetEncapsulatedRequest →
  encap_check_version_cap_state code (c, wrote []) = (Ok tt, (c, wrote (refusal c))).
Proof.
  intros Hv Hver Hcap ->. unfold encap_check_version_cap_state. pose proof min_msg_size.
  erewrite bind_step by done. cbn [fst]. rewrite Hver. erewrite bind_step by done.
  erewrite bind_step by done. cbn [fst]. unfold refusal.
  destruct (encap_capable c); cbn [andb negb] in *; [apply negb_false_iff in Hcap; rewrite Hcap|].
  all: unfold error; by rewrite error_more by (try done; cbn; lia).
Qed.

Lemma refusal_written c e bs :
  SpdmVersion_wf (negotiated_version c) → version_below (negotiated_version c) SpdmVersion11 = false →
  is_u8 (request_id e) →
  encap_capable c && negb (state_below SpdmConnectionAfterCertificate c) = false →
  let version := SpdmVersion_get_u8 (negotiated_version c) in
  with_encap_buffer
    (on_rsp (encap_check_version_cap_state
       (SpdmRequestResponseCode_get_u8 SpdmRequestGetEncapsulatedRequest));;
     write_encap_request_response
       (header_wire (negotiated_version c) SpdmRequestGetEncapsulatedRequest ++ bs)) (c, e) =
  (Ok (refusal c ++ [version; 0x6A; request_id e; 0] ++ [version; 0x81; 0; 0]), (c, e)).
Proof.
  intros Hv Hver Hid Hcap version. unfold with_encap_buffer. pose proof min_msg_size.
  assert (Writer_init (replicate MAX_SPDM_MSG_SIZE 0) = wrote []) as -> by (unfold wrote; by rewrite Writer_append_nil).
  assert (length (refusal c) = 4%nat) as Hlen by (unfold refusal; by destruct (encap_capable c)).
  erewrite bind_step.
  2: { unfold on_rsp, zoom. cbn [fst snd]. by rewrite checks_refuse. }
  unfold write_encap_request_response. erewrite bind_step by done. cbn [fst snd].
  unfold on_rsp, zoom. cbn [fst snd].
  erewrite or_else_step by (by apply header_read). cbv beta iota. cbn [hd_version].
  rewrite decide_False by (intros Hn; by apply Hn).
  assert (write_encap SpdmResponseEncapsulatedRequest (λ _, SpdmEncapsulatedRequestPayload_codec)
    {| eq_request_id := request_id e |} (c, wrote (refusal c)) =
    (Ok 4%nat, (c, wrote (refusal c ++ [version; 0x6A; request_id e; 0])))) as Hq.
  { rewrite (encap_more _ SpdmEncapsulatedRequestPayload_codec (λ v, is_u8 (eq_request_id v))
      (λ v, le_bytes 1 (eq_request_id v) ++ [0])) by (first [done|rewrite Hlen; cbn; lia]).
    unfold header_wire. cbn [eq_request_id]. by rewrite !le_bytes_one by (first [done|apply Hv]). }
  rewrite (or_else_step _ _ _ _ _ _ Hq). cbv beta. rewrite (or_else_step _ _ _ tt _ (c, wrote ((refusal c ++ [version; 0x6A; request_id e; 0]) ++ [version; 0x81; 0; 0]))).
  - unfold ret, wrote. cbn [fst snd]. rewrite Writer_init_append_used_slice; [by rewrite <- app_assoc|].
    rewrite length_replicate, !length_app. cbn. lia.
  - unfold encode_encap_request_get_digest.
    erewrite bind_step.
    2: { apply (message_more _ SpdmRequestGetDigests (SpdmGetDigestsRequest MkSpdmGetDigestsRequestPayload)).
         - by split; [|split].
         - unfold Message_wire. rewrite !length_app, !length_le_bytes. cbn. lia. }
    unfold ret. do 4 f_equal. unfold Message_wire. cbn [msg_header msg_payload hd_version hd_request_response_code].
    rewrite !le_bytes_one; [done|done|apply Hv].
Qed.

(** C40: The checks of the responder do not stop an encapsulated request.  When one of the sides
    has not declared the capability, or the connection is not in the state for it, the responder
    writes the error, goes on, and answers GET_ENCAPSULATED_REQUEST all the same: the encapsulated
    GET_DIGESTS follows the error in the same buffer. *)
Theorem encap_refusal_answered session_id c e bs :
  SpdmVersion_wf (negotiated_version c) → version_below (negotiated_version c) SpdmVersion11 = false →
  is_u8 (request_id e) →
  encap_capable c && negb (state_below SpdmConnectionAfterCertificate c) = false →
  let version := SpdmVersion_get_u8 (negotiated_version c) in
  handle_get_encapsulated_request mode session_id
    (header_wire (negotiated_version c) SpdmRequestGetEncapsulatedRequest ++ bs) (c, e) =
  on_fst (send_secured_message mode session_id
    (refusal c ++ [version; 0x6A; request_id e; 0] ++ [version; 0x81; 0; 0]) false) (c, e).
Proof.
  intros Hv Hver Hid Hcap version. unfold handle_get_encapsulated_request.
  by rewrite (bind_step _ _ _ _ _ (refusal_written c e bs Hv Hver Hid Hcap)).
Qed.
End EncapProofs.
