(* ===== verification/EncapAuth.v ===== *)
(** Mutual authentication: every chain that the responder has stored for the requester is authentic,
    whatever encapsulated responses are delivered. *)

From Stdlib Require Import RelationClasses.
From stdpp Require Import relations.
From S2P Require Import Prelude Config Codec Status Algo Protocol Crypto KeySchedule Buffers Session SessionProofs Context SpdmCodec Opaque MsgNegotiate MsgAuth MsgSession Message MsgEncap Endpoint Responder Within RspConnect RspSession RspDispatch RspFrame RspState RspInv RspSafe RspEst Requester ReqConnect ReqSession ReqFrame ReqAuth ReqSafe Encap.

Section EncapAuth.
Context `{cfg : Config} `{cry : Crypto} `{sec : !Secret} `{dev : SpdmDeviceIo} `{tr : SpdmTransportEncap}.
Context `{cv : !ConfigValid} `{handlers : !SpdmHandlers} (mode : overflow_mode).

Abbreviation anything := (λ _ _ : SpdmSession, True) (only parsing).
Abbreviation kept := (on_first (T:=Writer) still_authentic) (only parsing).
Abbreviation encap_kept := (on_first (T:=SpdmEncapContext) still_authentic) (only parsing).
Abbreviation answer_kept := (on_first (T:=Writer) encap_kept) (only parsing).
#[local] Existing Instance still_authentic_preorder.
#[local] Existing Instance still_authentic_free.

#[local] Hint Extern 4 (still_authentic _ _) =>
  (first [by apply certificates_kept|apply certificates_kept; case_match; reflexivity]) : within.
#[local] Hint Extern 4 (on_first still_authentic _ _) =>
  (unfold on_first; by apply certificates_kept) : within.
Ltac encap_steps :=
  repeat first
    [ within_step
    | lazymatch goal with
      | |- within (on_first _) (zoom fst _ _) => apply within_on_fst
      | |- within _ (modify _) => apply within_modify; intros; solve [auto with within nocore]
      end ].

(** ** Sending *)

Lemma kept_device bs : within still_authentic (device_send bs).
Proof. apply (free_device anything still_authentic). Qed.
Lemma kept_session {A} id (otherwise : SpdmM SpdmContext A) body :
  within still_authentic otherwise → within still_authentic (with_session id otherwise body).
Proof. intros Ho. by apply (free_with_session anything still_authentic). Qed.
#[local] Hint Resolve kept_device : within.
#[local] Hint Extern 3 (within _ (with_session _ _ _)) => (apply kept_session, within_panic; apply _) : within.
Lemma kept_establish id : within still_authentic (establish id).
Proof. unfold establish. encap_steps. Qed.
#[local] Hint Resolve kept_establish : within.
Lemma kept_write_response code payload : within kept (write_response code payload).
Proof. unfold write_response. encap_steps. Qed.
#[local] Hint Resolve kept_write_response : within.
Lemma kept_spdm_error code d : within kept (write_spdm_error code d).
Proof. unfold write_spdm_error. encap_steps. Qed.
#[local] Hint Resolve kept_spdm_error : within.
Lemma kept_error code : within kept (error code).
Proof. unfold error. encap_steps. Qed.
#[local] Hint Resolve kept_error : within.
Lemma kept_after_send opcode : within still_authentic (after_send opcode).
Proof. unfold after_send, raise_state. encap_steps. Qed.
Lemma kept_after_secured id opcode : within still_authentic (after_secured_send id opcode).
Proof. unfold after_secured_send. encap_steps. Qed.
#[local] Hint Resolve kept_after_send kept_after_secured : within.

Lemma kept_send_message fuel bs : within still_authentic (send_message_rec fuel bs).
Proof.
  revert bs. induction fuel as [|fuel IH]; intros bs; cbn [send_message_rec]; encap_steps;
    try (apply within_transport_buffer; unfold encap; encap_steps); try apply IH.
  apply within_send_buffer. encap_steps.
Qed.
Lemma kept_send_secured fuel id bs app :
  within still_authentic (send_secured_message_rec mode fuel id bs app).
Proof.
  revert bs. induction fuel as [|fuel IH]; intros bs; cbn [send_secured_message_rec]; encap_steps;
    try (by apply within_transport_buffer, (free_encode_secured _ anything still_authentic)); try apply IH.
  apply within_send_buffer. encap_steps.
Qed.
Lemma kept_send_error code d : within still_authentic (send_spdm_error code d).
Proof.
  unfold send_spdm_error. encap_steps; [apply within_send_buffer; encap_steps|].
  apply kept_send_message.
Qed.
#[local] Hint Resolve kept_send_error : within.

(** ** The handlers *)

Lemma kept_on_rsp {E A} (m : M (SpdmContext * Writer) E A) : within kept m → within answer_kept (on_rsp m).
Proof. intros Hm. eapply within_zoom; [exact Hm|]. by intros [[c e] w] [c' w']. Qed.
Lemma kept_encap_buffer m : within answer_kept m → within encap_kept (with_encap_buffer m).
Proof.
  intros Hm s r s' H. unfold with_encap_buffer in H.
  destruct (m _) as [[] [s1 w]] eqn:Hr; apply Hm in Hr; by injection H as <- <-.
Qed.
#[local] Hint Extern 3 (within _ (on_rsp _)) => (apply kept_on_rsp; encap_steps) : within.

Lemma kept_checks code : within kept (encap_check_version_cap_state code).
Proof. unfold encap_check_version_cap_state. encap_steps. Qed.
Lemma kept_write_encap {A} code codec (p : A) : within kept (write_encap code codec p).
Proof. unfold write_encap. encap_steps. Qed.
Lemma kept_get_digest : within kept encode_encap_request_get_digest.
Proof. unfold encode_encap_request_get_digest. encap_steps. Qed.
#[local] Hint Resolve kept_checks kept_write_encap kept_get_digest : within.
Lemma kept_encap_request bs : within answer_kept (write_encap_request_response bs).
Proof. unfold write_encap_request_response. encap_steps. Qed.
Lemma kept_response_digest bs : within still_authentic (handle_encap_response_digest bs).
Proof. unfold handle_encap_response_digest, RequesterContext.read_payload. encap_steps. Qed.
Lemma kept_get_certificate : within answer_kept encode_encap_requst_get_certificate.
Proof. unfold encode_encap_requst_get_certificate. encap_steps. Qed.
Lemma kept_sub_u16 {S E} (R : relation S) `{!PreOrder R} a b : within R (sub_u16 (E:=E) mode a b).
Proof. by apply within_sub_u16. Qed.
#[local] Hint Resolve kept_response_digest kept_get_certificate kept_sub_u16 : within.
Lemma kept_portion offset p : within encap_kept (check_encap_portion mode offset p).
Proof. unfold check_encap_portion. encap_steps. Qed.

Lemma kept_accept : within encap_kept accept_encap_chain.
Proof.
  unfold accept_encap_chain. within_step; [encap_steps|]. apply within_on_fst. intros c r c' H.
  unfold bind at 1, attempt in H. destruct (encap_verify_spdm_certificate_chain c) as [o c1] eqn:Hv.
  destruct o as [[]|e|].
  - destruct (verify_chain_ok _ _ Hv) as [-> _]. erewrite bind_step in H by done.
    destruct (_ <? _)%nat; [|by injection H as <- <-].
    injection H as <- <-. by eapply verified_stored.
  - injection H as <- <-. apply (free_verify_chain anything still_authentic) in Hv.
    etrans; [exact Hv|]. by apply certificates_kept.
  - injection H as <- <-. by apply (free_verify_chain anything still_authentic) in Hv.
Qed.
#[local] Hint Resolve kept_portion kept_accept : within.
Lemma kept_certificate bs : within encap_kept (handle_encap_response_certificate mode bs).
Proof. unfold handle_encap_response_certificate, handle_encap_error_response_main. encap_steps. Qed.
#[local] Hint Resolve kept_certificate : within.
Lemma kept_ack id t : within answer_kept (write_ack id t).
Proof. unfold write_ack. encap_steps. Qed.
#[local] Hint Resolve kept_ack : within.
Lemma kept_process id bs : within answer_kept (process_encapsulated_response mode id bs).
Proof. unfold process_encapsulated_response. encap_steps. Qed.
#[local] Hint Resolve kept_process : within.
Lemma kept_encap_ack bs : within answer_kept (write_encap_response_ack_response mode bs).
Proof. unfold write_encap_response_ack_response. encap_steps. Qed.

Lemma kept_encapsulated id bs :
  within encap_kept (handle_get_encapsulated_request mode id bs) ∧
  within encap_kept (handle_deliver_encapsulated_reponse mode id bs).
Proof.
  split; unfold handle_get_encapsulated_request, handle_deliver_encapsulated_reponse, encap_response_ack;
    encap_steps;
    try apply kept_send_secured; apply kept_encap_buffer; encap_steps;
    [apply kept_encap_request|apply kept_encap_ack].
Qed.

(** ** Every secured message *)

Lemma quiet_kept c c' : quiet c c' → still_authentic c c'.
Proof.
  intros [Hk _]. unfold context_key in Hk. injection Hk as _ _ _ _ _ _ _ Hp Hr.
  apply certificates_kept; [done|]. by rewrite Hp.
Qed.
Lemma kept_quiet {E A} (m : M SpdmContext E A) :
  within (steady session_quiet) m → within still_authentic m.
Proof. intros Hm. eapply within_mono; [exact Hm|apply quiet_kept]. Qed.
Lemma kept_answer id w :
  within (on_first (steady session_quiet)) w →
  within still_authentic (let* rsp := with_send_buffer w in send_secured_message mode id rsp false).
Proof.
  intros Hw. apply within_bind; [apply _| |intros; apply kept_send_secured].
  by apply kept_quiet, within_send_buffer.
Qed.
Lemma kept_finish id bs : within still_authentic (handle_spdm_finish mode id bs).
Proof.
  unfold handle_spdm_finish. encap_steps; try apply kept_send_message; try apply kept_send_secured.
  all: apply kept_quiet, within_send_buffer, frame_finish, _.
Qed.
Lemma kept_secured id bs : within still_authentic (dispatch_secured_message mode id bs).
Proof.
  unfold dispatch_secured_message. within_steps.
  all: match goal with
  | |- within _ (dispatch_handshake _ _ ?h _) => destruct h
  | |- within _ (dispatch_established _ _ ?h _) => destruct h
  | _ => idtac
  end; cbn [dispatch_handshake dispatch_established]; try apply within_throw, _;
    try apply within_panic, _; try apply kept_finish; apply kept_answer.
  all: first
    [ apply frame_error_response, _ | apply frame_vendor, _ | apply frame_psk_finish, _
    | apply frame_digest, _ | apply frame_certificate, _ | apply frame_heartbeat, _
    | apply frame_key_update, _ | apply frame_end_session, _
    | apply frame_measurement; [apply _|apply send_spdm_error_steady] ].
Qed.
Lemma kept_handshake id code bs : within still_authentic (dispatch_handshake mode id code bs).
Proof.
  destruct code; cbn [dispatch_handshake]; try apply within_throw, _; try apply kept_finish; apply kept_answer.
  all: first [apply frame_error_response, _|apply frame_vendor, _|apply frame_psk_finish, _].
Qed.

Definition encap_served (s s' : SpdmContext * SpdmEncapContext) : Prop :=
  ∃ session_id bs o, encap_dispatch_secured_message mode session_id bs s = (o, s').
Lemma kept_served id bs : within encap_kept (encap_dispatch_secured_message mode id bs).
Proof.
  unfold encap_dispatch_secured_message. encap_steps; try apply kept_secured.
  all: match goal with
  | |- within _ (encap_dispatch_handshake _ _ ?code _) => destruct code
  end; cbn [encap_dispatch_handshake]; try apply kept_encapsulated; apply within_on_fst, kept_handshake.
Qed.

(** C11: Whatever messages a requester sends in sessions of a responder with mutual
    authentication, in whatever order, every certificate chain that the responder then has stored
    for it verified as a chain, declares its own length, begins with the root certificate of its
    root hash, and that root is the provisioned one if there is one, provided that this held of
    what was stored before, as it does of a context without stored chains. *)
Theorem encap_chains_authentic s s' slot chain :
  rtc encap_served s s' →
  peer_info s.1 = SpdmPeerInfo_default ∨ certificates_authentic s.1 →
  peer_cert_chain (peer_info s'.1) !! slot = Some (Some chain) →
  authentic (peer_root_cert_data (provision_info s'.1)) chain.
Proof.
  intros Hr H0 Hl. assert (certificates_authentic s.1) as H by (destruct H0; [by apply no_certificates|done]).
  clear H0. assert (certificates_authentic s'.1) as Hs; [|by eapply Hs].
  clear Hl. induction Hr as [s|s s1 s' (id&bs&o&Hm) _ IH]; [done|].
  apply IH. by apply (kept_served id bs _ _ _ Hm).
Qed.
End EncapAuth.
