(* ===== verification/ReqFinish.v ===== *)
(** How a handshake of the requester ends: FINISH and PSK_FINISH establish the session or give it
    up.  Also the ends of the other exchanges: the loop over the portions of a certificate chain,
    the choice of the version, and what a vendor-defined request does to the context. *)

From Stdlib Require Import RelationClasses.
From stdpp Require Import relations sorting.
From S2P Require Import Prelude Config Codec Status Algo Protocol Crypto KeySchedule Buffers Session Context SpdmCodec Opaque MsgNegotiate MsgAuth MsgSession Message Endpoint Responder Within RspConnect RspSession RspFrame RspInv RspEst Requester ReqConnect ReqSession ReqFrame ReqAuth ReqSafe.
Import RequesterContext.

Section Finish.
Context `{cfg : Config} `{cry : Crypto} `{sec : !Secret} `{dev : SpdmDeviceIo} `{tr : SpdmTransportEncap}.
Context (mode : overflow_mode).
Context (count_bound : Z.of_nat MAX_SPDM_SESSION_COUNT ≤ 0xFFFC).

(** ** The end of a handshake *)

Definition gone (id : Z) (c : SpdmContext) : Prop := get_immutable_session_via_id id c = None.
Definition established (id : Z) (c : SpdmContext) : Prop :=
  ∃ s, get_immutable_session_via_id id c = Some s ∧ session_state s = SpdmSessionEstablished.

Lemma gone_iff id c : gone id c ↔ ∀ i s, session c !! i = Some s → session_id s ≠ id.
Proof.
  unfold gone, get_immutable_session_via_id. split.
  - intros H i s Hi Hid. destruct (list_find _ _) eqn:Hf; [done|].
    apply list_find_None in Hf. eapply Forall_lookup_1 in Hf; [|exact Hi]. done.
  - intros H. apply fmap_None, list_find_None, Forall_lookup_2, H.
Qed.

Lemma teardown_gone id otherwise c r c' :
  placed c → id ≠ INVALID_SESSION_ID → (otherwise = ret tt ∨ otherwise = panic) →
  teardown_session id otherwise c = (r, c') → r ≠ Panic → gone id c'.
Proof.
  intros Hc Hid Ho H Hr. unfold teardown_session, with_session in H.
  destruct (list_find _ _) as [[i s]|] eqn:Hf.
  - apply list_find_Some in Hf as (Hi&Hs&_). unfold bind, attempt, SpdmSession_teardown in H.
    cbn in H. rewrite Hs, Z.eqb_refl in H. injection H as <- <-. apply gone_iff. cbn.
    intros j t [(_&<-&_)|[Hne Hj]]%list_lookup_insert_Some; [by cbn|]. intros Ht.
    destruct (placed_half _ Hc i s Hi) as [|H1]; [congruence|].
    destruct (placed_half _ Hc j t Hj) as [|H2]; [congruence|]. rewrite Hs in H1. rewrite Ht in H2. lia.
  - destruct Ho as [-> | ->]; [|by injection H as <- <-]. injection H as <- <-.
    unfold gone, get_immutable_session_via_id. by rewrite Hf.
Qed.
Lemma or_abandon_gone {A} id otherwise (m : SpdmM SpdmContext A) c e c' :
  placed c → id ≠ INVALID_SESSION_ID → (otherwise = ret tt ∨ otherwise = panic) →
  within still_placed m → or_abandon id otherwise m c = (Err e, c') → gone id c'.
Proof.
  intros Hc Hid Ho Hm H. unfold or_abandon, bind at 1, attempt in H.
  destruct (m c) as [[a|e1|] c1] eqn:H1; [done| |done]. apply Hm in H1.
  unfold bind in H. destruct (teardown_session _ _ _) as [o c2] eqn:Ht.
  assert (o ≠ Panic ∧ c2 = c') as [Hp ->] by (destruct o; [by injection H|by injection H|done]).
  eapply teardown_gone; [| | |exact Ht|]; [by apply H1|done..].
Qed.

Lemma establish_established id c c' :
  establish_session id c = (Ok tt, c') → ∃ i s, at_ id c' i s ∧ session_state s = SpdmSessionEstablished.
Proof.
  intros H. unfold establish_session in H. apply bind_ok in H as (th&c1&_&H).
  erewrite bind_step in H by done. unfold on_the_session in H.
  destruct (list_find (λ s, session_id s = id) (session c1)) as [[i s]|] eqn:Hs;
    [|unfold with_session in H; by rewrite Hs in H].
  rewrite (with_session_at _ _ _ _ _ _ Hs) in H.
  destruct (bind _ _ s) as [r s'] eqn:Hb. injection H as -> <-.
  apply bind_ok in Hb as ([]&s1&Hd&[= <-]). apply generate_data_secret_quiet in Hd.
  exists i. eexists. split; [apply (at_update _ _ _ _ _ Hs)|done].
  unfold session_quiet, session_key, session_base in Hd. cbn. congruence.
Qed.
Lemma at_established id c i s :
  at_ id c i s → session_state s = SpdmSessionEstablished → established id c.
Proof. intros Hs He. exists s. split; [|done]. unfold get_immutable_session_via_id. by rewrite Hs. Qed.
Lemma or_abandon_ok {A} id otherwise (m : SpdmM SpdmContext A) c a c' :
  or_abandon id otherwise m c = (Ok a, c') → m c = (Ok a, c').
Proof.
  unfold or_abandon. intros H. apply attempt_ok in H as ([b|e|]&c1&Hm&H); [|by destruct (then_never _ _ _ _ _ H)|done].
  by injection H as <- <-.
Qed.

(** A step of which the failure gives the session up. *)
Lemma abandoning {A B} id otherwise (m : SpdmM SpdmContext A) (k : A → SpdmM SpdmContext B) c r c' :
  placed c → id ≠ INVALID_SESSION_ID → (otherwise = ret tt ∨ otherwise = panic) →
  within still_placed m → (let* a := or_abandon id otherwise m in k a) c = (r, c') → r ≠ Panic →
  ((∃ e, r = Err e) ∧ gone id c') ∨ ∃ a c1, placed c1 ∧ k a c1 = (r, c').
Proof.
  intros Hc Hid Ho Hm H Hr. unfold bind in H at 1.
  destruct (or_abandon id otherwise m c) as [[a|e|] c1] eqn:Ha.
  - apply or_abandon_ok in Ha. right. exists a, c1. split; [|exact H]. eapply Hm; [exact Ha|done].
  - injection H as <- <-. left. split; [by eexists|]. by eapply or_abandon_gone.
  - by injection H as <- <-.
Qed.

(** The result of a call that ends a handshake. *)
Definition all_or_nothing (id : Z) (r : outcome SpdmStatus unit) (c' : SpdmContext) : Prop :=
  match r with Ok _ => established id c' | Err _ => gone id c' | Panic => True end.

Lemma nothing id r c' : (∃ e, r = Err e) → gone id c' → all_or_nothing id r c'.
Proof. by intros [e ->]. Qed.
Lemma last_step id otherwise m c r c' :
  placed c → id ≠ INVALID_SESSION_ID → (otherwise = ret tt ∨ otherwise = panic) →
  within still_placed m → (∀ c1 c2, m c1 = (Ok tt, c2) → established id c2) →
  or_abandon id otherwise m c = (r, c') → all_or_nothing id r c'.
Proof.
  intros Hc Hid Ho Hm He H. destruct r as [[]|e|]; [|by eapply or_abandon_gone|done].
  apply or_abandon_ok in H. by eapply He.
Qed.

Lemma handle_finish_established id bs c c' :
  handle_spdm_finish_response id bs c = (Ok tt, c') → established id c'.
Proof.
  intros H. unfold handle_spdm_finish_response in H. erewrite bind_step in H by done. cbv zeta in H.
  apply bind_ok in H as (s&c1&_&H).
  apply or_else_ok in H as ([h rd]&c2&_&H); [|apply throw_never].
  apply select_response_ok in H as [_ H]. apply payload_ok in H as (p&rd'&_&H).
  apply bind_ok in H as (n&c3&_&H). apply bind_ok in H as ([]&c4&_&H).
  apply bind_ok in H as ([]&c5&(i&s5&Hs&He)%establish_established&H). injection H as <-.
  by eapply at_established.
Qed.
Lemma handle_psk_finish_established id bs c c' :
  handle_spdm_psk_finish_response id bs c = (Ok tt, c') → established id c'.
Proof.
  intros H. unfold handle_spdm_psk_finish_response in H.
  apply expect_response_ok in H as (h&rd&_&_&H). apply payload_ok in H as (p&rd'&_&H).
  apply bind_ok in H as (n&c3&_&H). apply bind_ok in H as ([]&c4&_&H).
  apply establish_established in H as (i&s5&Hs&He). by eapply at_established.
Qed.

#[local] Existing Instance still_placed_free.
Ltac next_step H Hc tac :=
  let Hc' := fresh "Hc" in let c' := fresh "c" in
  apply abandoning in H as [[? ?]|(?&c'&Hc'&H)];
    [by apply nothing| |exact Hc|done|by right|tac|done].

(** The slot of the requester's certificates is out of range or has none. *)
Definition unusable_slot (slot : option Z) (c : SpdmContext) : bool :=
  match slot with
  | Some slot => (Z.of_nat SPDM_MAX_SLOT_NUMBER <=? slot)
      || bool_decide (my_cert_chain (provision_info c) !! Z.to_nat slot = Some None)
  | None => false
  end.

Lemma finish_ends slot id c r c' :
  placed c → id ≠ INVALID_SESSION_ID → send_receive_spdm_finish mode slot id c = (r, c') →
  if unusable_slot slot c then r = Err SPDM_STATUS_INVALID_STATE_LOCAL ∧ c' = c
  else all_or_nothing id r c'.
Proof.
  intros Hc Hid H. unfold send_receive_spdm_finish in H. erewrite bind_step in H by done. cbv zeta in H.
  assert (unusable_slot slot c = true ∧ r = Err SPDM_STATUS_INVALID_STATE_LOCAL ∧ c' = c ∨
    unusable_slot slot c = false ∧ (r = Panic ∨ ∃ slot',
    (let* _ := ok_or SPDM_STATUS_INVALID_PARAMETER (get_immutable_session_via_id id c) in
     reset_buffers SpdmRequestFinish (Some id);;
     let* sent := or_abandon id panic (encoded (encode_spdm_finish id slot')) in
     let channel := if in_clear_text c then None else Some id in
     or_abandon id panic (send_request mode channel sent);;
     let* received := or_abandon id panic (receive_response mode channel false) in
     or_abandon id (ret tt) (handle_spdm_finish_response id received)) c = (r, c')))
    as [(->&->&->)|[-> [-> |[slot' H']]]]; [|done|done|].
  { unfold unusable_slot. destruct slot as [slot|]; [|right; split; [done|]; right; exists 0; exact H].
    destruct (_ <=? slot); [left; by injection H as <- <-|]. cbn [orb].
    unfold bind in H at 1 2 3. destruct (_ !! _) as [[chain|]|] eqn:Hl; cbn [unwrap ok_or ret] in H.
    - right. split; [by apply bool_decide_eq_false|]. right. by exists slot.
    - left. split; [by apply bool_decide_eq_true|]. by injection H as <- <-.
    - right. split; [by apply bool_decide_eq_false|]. left. by injection H as <- <-. }
  clear H. rename H' into H.
  assert (r = Panic ∨ r ≠ Panic) as [->|Hr] by (destruct r; auto); [done|].
  unfold bind in H at 1. destruct (get_immutable_session_via_id id c) eqn:Hs; [|by injection H as <- <-].
  cbn [ok_or ret] in H. erewrite bind_step in H by done. cbv zeta in H.
  pose proof (free_reset_buffer shrink still_placed (λ _ _ H, H) SpdmRequestFinish (Some id) c Hc) as Hc1.
  next_step H Hc1 ltac:(by apply (free_encoded shrink still_placed), (free_encode_finish shrink still_placed)).
  next_step H Hc0 ltac:(by apply (free_send_request _ shrink still_placed)).
  next_step H Hc2 ltac:(by apply (free_receive_response _ shrink still_placed)).
  eapply last_step; [exact Hc3|done|by left| | |exact H]; [|apply handle_finish_established].
  by apply (free_finish_rsp shrink still_placed).
Qed.
Lemma psk_finish_ends id c r c' :
  placed c → id ≠ INVALID_SESSION_ID → send_receive_spdm_psk_finish mode id c = (r, c') →
  all_or_nothing id r c'.
Proof.
  intros Hc Hid H. assert (r = Panic ∨ r ≠ Panic) as [->|Hr] by (destruct r; auto); [done|].
  unfold send_receive_spdm_psk_finish in H. erewrite bind_step in H by done.
  unfold bind in H at 1. destruct (get_immutable_session_via_id id c) eqn:Hs; [|by injection H as <- <-].
  cbn [ok_or ret] in H. erewrite bind_step in H by done.
  pose proof (free_reset_buffer shrink still_placed (λ _ _ H, H) SpdmRequestPskFinish (Some id) c Hc) as Hc1.
  next_step H Hc1 ltac:(by apply (free_encoded shrink still_placed), (free_encode_psk_finish shrink still_placed)).
  next_step H Hc0 ltac:(by apply (free_send_secured _ shrink still_placed)).
  next_step H Hc2 ltac:(by apply (free_receive_secured _ shrink still_placed)).
  eapply last_step; [exact Hc3|done|by left| | |exact H]; [|apply handle_psk_finish_established].
  by apply (free_psk_finish_rsp shrink still_placed).
Qed.

(** C15: FINISH and PSK_FINISH establish the session when they succeed and leave no session with
    the identifier when they fail, whatever requests came before, with one exception: FINISH with a
    slot of the requester's certificates that is out of range or empty fails at once and leaves the
    context, with the session in handshake, as it is. *)
Theorem finish_establishes_or_gives_up device w config provision (psk : bool) slot id c r c' :
  rtc (requested mode) (SpdmContext_new device w config provision) c →
  id ≠ INVALID_SESSION_ID →
  (if psk then send_receive_spdm_psk_finish mode id
   else send_receive_spdm_finish mode slot id) c = (r, c') →
  if negb psk && unusable_slot slot c then r = Err SPDM_STATUS_INVALID_STATE_LOCAL ∧ c' = c
  else all_or_nothing id r c'.
Proof.
  intros Hc%requested_placed Hid H; [|done].
  destruct psk; [by eapply psk_finish_ends|by eapply finish_ends].
Qed.
End Finish.

(** ** The version *)

Definition newer_version (v w : SpdmVersion) : Prop := SpdmVersion_get_u8 w ≤ SpdmVersion_get_u8 v.
#[export] Instance newer_version_trans : Transitive newer_version.
Proof. unfold newer_version. intros x y z. lia. Qed.
#[export] Instance newer_trans : Transitive newer.
Proof. unfold newer. intros x y z. lia. Qed.
#[export] Instance newer_total : Total newer.
Proof. unfold newer. intros x y. lia. Qed.

Lemma Forall_elem {A} (P : A → Prop) l x : Forall P l → x ∈ l → P x.
Proof. intros H Hx%list_elem_of_In. by eapply Forall_forall. Qed.

(** The entries that were received, in front of the filling of the array. *)
Definition offered (v : SpdmVersionResponsePayload) : list SpdmVersion :=
  vs_version <$> take (Z.to_nat (version_number_entry_count v)) (versions v).

Lemma newer_anti v w :
  SpdmVersion_wf v → SpdmVersion_wf w → newer_version v w → newer_version w v → v = w.
Proof.
  unfold enum_wf, newer_version. intros [_ Hv] [_ Hw] H1 H2.
  assert (SpdmVersion_get_u8 v = SpdmVersion_get_u8 w) as E by lia. congruence.
Qed.
Lemma sorted_versions l : StronglySorted newer l → StronglySorted newer_version (vs_version <$> l).
Proof.
  induction 1 as [|x l Hl IH Hx]; cbn; constructor; [done|]. by apply Forall_fmap.
Qed.

Lemma all_versions v :
  VersionResponse_wf v →
  vs_version <$> versions v =
    offered v ++ replicate (MAX_SPDM_VERSION_COUNT - Z.to_nat (version_number_entry_count v)) SpdmVersion10.
Proof.
  intros (_&(_&_&Hd)&_). unfold offered.
  rewrite <- (take_drop (Z.to_nat (version_number_entry_count v)) (versions v)) at 1.
  by rewrite Hd, fmap_app, fmap_replicate.
Qed.
Lemma offered_wf v : VersionResponse_wf v → Forall SpdmVersion_wf (offered v).
Proof.
  intros (_&_&Hv). unfold offered. apply Forall_fmap. eapply Forall_impl; [|exact Hv]. by intros x [_ Hx].
Qed.

(** Behind entries of version 1.0 or later the filling stays behind. *)
Lemma sorted_entries v :
  VersionResponse_wf v → Forall (λ w, 0x10 ≤ SpdmVersion_get_u8 w) (offered v) →
  let sorted := vs_version <$> take (Z.to_nat (version_number_entry_count v))
    (merge_sort newer (versions v)) in
  StronglySorted newer_version sorted ∧ sorted ≡ₚ offered v.
Proof.
  intros Hwf Hlow. pose proof (offered_wf v Hwf) as Hof. pose proof (all_versions v Hwf) as Hav.
  set (n := Z.to_nat (version_number_entry_count v)) in *.
  set (front := vs_version <$> merge_sort newer (take n (versions v))).
  assert (front ≡ₚ offered v) as Hp by (unfold front; by rewrite merge_sort_Permutation).
  assert (StronglySorted newer_version front) as Hs
    by (apply sorted_versions, StronglySorted_merge_sort; apply _).
  assert ((vs_version <$> merge_sort newer (versions v))
    = front ++ replicate (MAX_SPDM_VERSION_COUNT - n) SpdmVersion10) as Hall.
  { assert (Forall SpdmVersion_wf (offered v ++ replicate (MAX_SPDM_VERSION_COUNT - n) SpdmVersion10)) as Hw.
    { apply Forall_app; split; [done|]. apply Forall_replicate. split; [unfold is_uint; cbn; lia|done]. }
    apply (StronglySorted_unique_strong newer_version).
    - intros x y Hx Hy. rewrite merge_sort_Permutation, Hav in Hx. rewrite Hp in Hy.
      intros. by apply newer_anti; [exact (Forall_elem _ _ _ Hw Hx)|exact (Forall_elem _ _ _ Hw Hy)|..].
    - apply sorted_versions, StronglySorted_merge_sort; apply _.
    - apply StronglySorted_app. split_and!; [|done|].
      + intros x y Hx [-> _]%elem_of_replicate. rewrite Hp in Hx.
        exact (Forall_elem _ _ _ Hlow Hx).
      + generalize (MAX_SPDM_VERSION_COUNT - n)%nat as k.
        induction k; cbn [replicate]; constructor; [done|]. by apply Forall_replicate.
    - by rewrite merge_sort_Permutation, Hav, Hp. }
  assert (length front = n) as Hl.
  { unfold front. rewrite length_fmap, (Permutation_length (merge_sort_Permutation _ _)).
    destruct Hwf as (_&Hf&_). by apply filled_take in Hf. }
  cbv zeta. rewrite fmap_take, Hall, take_app_length' by done. done.
Qed.

Lemma StronglySorted_lookup {A} (R : relation A) l i j x y :
  StronglySorted R l → l !! i = Some x → l !! j = Some y → (i < j)%nat → R x y.
Proof.
  intros Hl. revert i j. induction Hl as [|z l Hl IH Hz]; intros [|i] [|j] Hi Hj Hlt; try done; try lia.
  - injection Hi as <-. eapply Forall_lookup_1; [exact Hz|exact Hj].
  - eapply IH; [exact Hi|exact Hj|lia].
Qed.

(** The requester selects the highest version that it is configured for and that the
    responder offers, provided the responder offers nothing below version 1.0; without a common
    version it selects none. *)
Theorem select_version_highest local v :
  VersionResponse_wf v → Forall (λ w, 0x10 ≤ SpdmVersion_get_u8 w) (offered v) →
  let r := select_version local v in
  (r ∈ local ∧ r ∈ offered v ∧
     ∀ w, w ∈ local → w ∈ offered v → SpdmVersion_get_u8 w ≤ SpdmVersion_get_u8 r) ∨
  (r = SpdmVersion_Unknown 0 ∧ ∀ w, w ∈ offered v → w ∉ local).
Proof.
  intros Hwf Hlow. destruct (sorted_entries v Hwf Hlow) as [Hs Hp]. unfold select_version. cbv zeta in *.
  set (l := take _ _) in *.
  destruct (list_find _ l) as [[i e]|] eqn:Hf.
  - left. apply list_find_Some in Hf as (Hi&Hl&Hb). split_and!; [done| |].
    + rewrite <- Hp. apply list_elem_of_fmap_2, list_elem_of_lookup. by exists i.
    + intros w Hw Ho. rewrite <- Hp in Ho. apply list_elem_of_lookup in Ho as [j Hj].
      destruct (Nat.lt_total j i) as [Hlt|[->|Hlt]].
      * rewrite list_lookup_fmap in Hj. destruct (l !! j) as [e'|] eqn:Hj'; [|done].
        injection Hj as <-. by destruct (Hb j e' Hj' Hlt).
      * rewrite list_lookup_fmap, Hi in Hj. by injection Hj as <-.
      * eapply (StronglySorted_lookup newer_version); [exact Hs| |exact Hj|exact Hlt].
        by rewrite list_lookup_fmap, Hi.
  - right. split; [done|]. intros w Ho. rewrite <- Hp in Ho.
    apply list_elem_of_fmap in Ho as (e&->&He). apply list_find_None in Hf.
    exact (Forall_elem _ _ _ Hf He).
Qed.

(** ** Certificate chains *)

Section Certificates.
Context `{cfg : Config} `{cv : !ConfigValid} `{cry : Crypto} `{sec : !Secret} `{dev : SpdmDeviceIo} `{tr : SpdmTransportEncap}.
Context (mode : overflow_mode).

Abbreviation MAX_CHAIN := (as_u16 (Z.of_nat MAX_SPDM_CERT_CHAIN_DATA_SIZE)) (only parsing).

Lemma sub_u16_ok {S E} a b (s s' : S) n :
  0 ≤ b ≤ a → a < 2 ^ 16 → sub_u16 (E:=E) mode a b s = (Ok n, s') → n = a - b ∧ s' = s.
Proof.
  intros Hb Ha. unfold sub_u16. rewrite decide_True by (unfold is_uint; lia). by intros [= <- <-].
Qed.
Lemma add_u16_state {S E} a b (s s' : S) n : add_u16 (E:=E) mode a b s = (Ok n, s') → s' = s.
Proof. unfold add_u16. case_decide; [by intros [= _ <-]|]. destruct mode; [done|by intros [= _ <-]]. Qed.
Lemma max_chain_bounds : 0 ≤ MAX_CHAIN < 2 ^ 16.
Proof. unfold as_uint. apply Z.mod_pos_bound. lia. Qed.

(** A portion that is accepted ends within the buffer. *)
Lemma check_portion_ok slot total offset len p c c' :
  0 ≤ offset ≤ MAX_CHAIN → check_portion mode slot total offset len p c = (Ok tt, c') →
  offset + cr_portion_length p ≤ MAX_CHAIN.
Proof.
  pose proof max_chain_bounds. intros Ho H'. unfold check_portion in H'.
  destruct (len <? _); [done|]. apply bind_ok in H' as (room&c1&[-> ->]%sub_u16_ok&H'); [|lia..].
  destruct (Z.ltb_spec (MAX_CHAIN - offset) (cr_portion_length p)); [done|]. lia.
Qed.
Lemma partial_ok session slot total offset len c portion rest c' :
  0 ≤ offset ≤ MAX_CHAIN →
  send_receive_spdm_certificate_partial mode session slot total offset len c
    = (Ok (portion, rest), c') →
  offset + portion ≤ MAX_CHAIN.
Proof.
  intros Ho H. unfold send_receive_spdm_certificate_partial, exchange in H.
  apply bind_ok in H as (sent&c1&_&H). apply bind_ok in H as ([]&c2&_&H).
  apply bind_ok in H as (received&c3&_&H). unfold handle_spdm_certificate_partial_response in H.
  apply expect_response_ok in H as (h&rd&_&_&H). apply payload_ok in H as (p&rd'&_&H).
  apply bind_ok in H as ([]&c4&Hp%check_portion_ok&H); [|done].
  do 7 (apply bind_ok in H as (?&?&_&H)). injection H as <- _ _. done.
Qed.

(** The variables of the loop and the context. *)
Record loop_state := MkLoop { l_total : Z; l_offset : Z; l_length : Z; l_context : SpdmContext }.
Definition loop_from (turns : nat) (session : option Z) (slot_id : Z) (s : loop_state)
    : outcome SpdmStatus (option Z) * SpdmContext :=
  certificate_loop mode turns session slot_id (l_total s) (l_offset s) (l_length s) (l_context s).

(** A turn of the loop: the request that it makes in [s] is answered with [portion] bytes, and the
    loop goes on from [s']. *)
Definition turn (session : option Z) (slot_id : Z) (s : loop_state) (portion : Z) (s' : loop_state) : Prop :=
  (∃ rest, send_receive_spdm_certificate_partial mode session slot_id (l_total s) (l_offset s)
     (l_length s) (l_context s) = (Ok (portion, rest), l_context s')) ∧
  ∀ turns, loop_from (S turns) session slot_id s = loop_from turns session slot_id s'.
Definition filled_turn (session : option Z) (slot_id : Z) : relation loop_state := λ s s',
  ∃ portion, 0 < portion ∧ turn session slot_id s portion s'.

(** One turn of a run that has not ended after [turns] and one more. *)
Lemma loop_turn turns session slot_id s c' :
  loop_from (S turns) session slot_id s = (Ok None, c') →
  ∃ portion s', turn session slot_id s portion s' ∧ loop_from turns session slot_id s' = (Ok None, c') ∧
    (0 < portion → 0 ≤ l_offset s ≤ MAX_CHAIN → l_offset s < l_offset s' ≤ MAX_CHAIN).
Proof.
  intros Hrun. assert (Hrun' := Hrun). destruct s as [total offset len c].
  unfold loop_from in Hrun. cbn [certificate_loop l_total l_offset l_length l_context] in Hrun.
  destruct (len =? 0) eqn:Hlen; [done|].
  apply bind_ok in Hrun as ([portion rest]&c1&H1&H). cbv beta iota in H.
  apply bind_ok in H as (total'&c2&H2&H). apply bind_ok in H as (offset'&c3&H3&H).
  assert (c2 = c1) as -> by (destruct (total =? 0); [by eapply add_u16_state|by injection H2 as _ <-]).
  pose proof (add_u16_state _ _ _ _ _ H3) as ->.
  exists portion, (MkLoop total' offset' (Z.min rest (Z.of_nat MAX_SPDM_CERT_PORTION_LEN)) c1).
  split_and!; [split; [by exists rest|]|exact H|].
  - intros n. unfold loop_from. cbn [certificate_loop l_total l_offset l_length l_context]. rewrite Hlen.
    rewrite (bind_step _ _ _ _ _ H1). cbv beta iota. rewrite (bind_step _ _ _ _ _ H2).
    by rewrite (bind_step _ _ _ _ _ H3).
  - cbn [l_offset]. intros Hp Ho. apply partial_ok in H1; [|done]. pose proof max_chain_bounds.
    unfold add_u16 in H3. rewrite decide_True in H3 by (unfold is_uint; lia). injection H3 as <-. lia.
Qed.

Lemma loop_ends turns session slot_id s c' :
  0 ≤ l_offset s ≤ MAX_CHAIN → (Z.to_nat (MAX_CHAIN - l_offset s) < turns)%nat →
  loop_from turns session slot_id s = (Ok None, c') →
  ∃ s1 portion s2, rtc (filled_turn session slot_id) s s1 ∧
    turn session slot_id s1 portion s2 ∧ portion ≤ 0.
Proof.
  revert s. induction turns as [|turns IH]; intros s Ho Ht H; [lia|].
  apply loop_turn in H as (portion&s'&Hturn&H&Hoff).
  destruct (Z.le_gt_cases portion 0) as [Hp|Hp]; [by exists s, portion, s'|].
  specialize (Hoff Hp Ho). destruct (IH s') as (s1&p1&s2&Hs&H1&Hp1); [lia|lia|done|].
  exists s1, p1, s2. split; [|done]. eapply rtc_l; [|exact Hs]. by exists portion.
Qed.

(** C34: The loop that fetches a certificate chain ends within one turn per byte of the buffer,
    successfully or not, unless in this run, after some turns that bring bytes, the responder
    answers a request of the loop with an empty portion. *)
Theorem certificate_loop_ends session slot_id len c n :
  (certificate_loop mode (S (Z.to_nat MAX_CHAIN) + n) session slot_id 0 0 len c).1 ≠ Ok None ∨
  ∃ s portion s', rtc (filled_turn session slot_id) (MkLoop 0 0 len c) s ∧
    turn session slot_id s portion s' ∧ portion ≤ 0.
Proof.
  destruct (certificate_loop _ _ _ _ _ _ _ c) as [[[t|]|e|] c'] eqn:H; [by left| |by left..].
  right. pose proof max_chain_bounds. eapply (loop_ends _ _ _ (MkLoop 0 0 len c)); [| |exact H]; cbn [l_offset]; lia.
Qed.

(** ** Vendor-defined requests *)

(** No session and nothing negotiated. *)
Definition wiped (c : SpdmContext) : Prop :=
  Forall (λ s, session_id s = INVALID_SESSION_ID) (session c) ∧
  negotiate_info c = SpdmNegotiateInfo_default.
Definition still_wiped : relation SpdmContext := λ c c', wiped c → wiped c'.
#[local] Instance still_wiped_free : Free shrink still_wiped.
Proof.
  split; [apply _| |].
  - split; [intros c H; exact H|]. intros c c1 c2 H1 H2 H. apply H2, H1, H.
  - intros c c' Hk Hs [Hw Hn]. injection Hk as _ Hk _ _ _. split; [|congruence].
    apply Forall_lookup_2. intros i s' Hi. destruct (Forall2_lookup_r _ _ _ _ _ Hs Hi) as (s&Hi'&Hss).
    eapply Forall_lookup_1 in Hw; [|exact Hi']. destruct Hss as [-> | ->]; done.
Qed.
Lemma reset_wiped c : wiped (reset_context c).
Proof. split; [|done]. cbn. apply Forall_fmap, Forall_true. done. Qed.

(** Nothing can be sent in a session that is not there. *)
Lemma send_wiped id bs c c' :
  id ≠ INVALID_SESSION_ID → wiped c → send_request mode (Some id) bs c ≠ (Ok tt, c').
Proof.
  intros Hid [Hw _] H. cbn [send_request] in H. unfold send_secured_message in H.
  erewrite bind_step in H by done. cbn [negb andb] in H. destruct (exceeds_transfer_size _ _); [done|].
  apply bind_ok in H as ([used buf]&c1&H1&_). unfold with_transport_buffer in H1.
  destruct (encode_secured_message _ _ _ _ _ _) as [[n|e|] [c2 b2]] eqn:He; [|done..].
  unfold encode_secured_message in He.
  apply bind_ok in He as ([n1 b1]&[c3 b3]&H3&He).
  assert (c3 = c) as -> by (unfold with_buffer in H3; destruct (t_encap_app _ _ _) as [[] ?]; by simplify_eq).
  apply bind_ok in He as (app&s4&(->&_&_)%sub_slice_inv&He).
  apply bind_ok in He as (secured&s5&H5&_). unfold on_fst, zoom in H5. cbn [fst] in H5.
  unfold with_session in H5. destruct (list_find _ _) as [[i s]|] eqn:Hf; [|done].
  apply list_find_Some in Hf as (Hi&Hs&_). eapply Forall_lookup_1 in Hw; [|exact Hi]. congruence.
Qed.

(** A vendor-defined request inside a session never succeeds: the request resets the whole
    context first, and with it every session and all that was negotiated, so that the message
    cannot be protected any more. *)
Theorem vendor_request_wipes id standard_id vendor_id payload c r c' :
  id ≠ INVALID_SESSION_ID →
  send_spdm_vendor_defined_request mode (Some id) standard_id vendor_id payload c = (r, c') →
  (∀ rsp, r ≠ Ok rsp) ∧ wiped c'.
Proof.
  intros Hid H. unfold send_spdm_vendor_defined_request in H. do 2 erewrite bind_step in H by done.
  set (c0 := reset_context _) in H. assert (wiped c0) as H0 by apply reset_wiped.
  split.
  - intros rsp ->. unfold exchange in H. apply bind_ok in H as (sent&c1&H1&H).
    apply bind_ok in H as ([]&c2&H2&_).
    apply (free_encoded shrink still_wiped) in H1; [|by apply (free_write shrink still_wiped)].
    by apply (send_wiped id sent c1 c2 Hid (H1 H0)).
  - revert H0. revert H. apply (free_exchange _ shrink still_wiped); [done|..].
    + by apply (free_write shrink still_wiped).
    + intros. by apply (free_vendor_rsp shrink still_wiped).
Qed.

(** ** The timeout of cryptographic requests *)

(** In a build with overflow checks, an exponent of 64 or more in the CAPABILITIES of the
    responder makes the next cryptographic request panic before anything is received. *)
Theorem timeout_exponent_panics session c :
  64 ≤ rsp_ct_exponent_sel (negotiate_info c) →
  receive_response Checked session true c = (Panic, c).
Proof.
  intros Hc. assert ((rsp_ct_exponent_sel (negotiate_info c) <? 64) = false) as Hlt by lia.
  destruct session as [id|]; cbn [receive_response];
    unfold receive_secured_message, receive_message, receive_with, response_timeout, shl_usize,
      bind, gets; by rewrite Hlt.
Qed.
End Certificates.
