(* ===== verification/ReqTrust.v ===== *)
(** The requester on top of the callbacks of the ring build: whose signatures it accepts, from the
    certificates that the peer sent down to what webpki verified. *)

From stdpp Require Import relations.
From S2P Require Import Prelude Config Codec Status Algo Protocol Crypto SpdmRing CertOps CertTrust KeySchedule Buffers Session Context SpdmCodec Opaque MsgNegotiate MsgAuth MsgSession Message Endpoint Responder Within RspConnect RspSession RspFrame RspInv RspEst Requester ReqConnect ReqSession ReqFrame ReqAuth ReqSafe.
Import RequesterContext.

Section ReqTrust.
Context `{cfg : Config} `{ring : Ring} `{pki : Webpki} `{laws : !WebpkiLaws} (timestamp : option Z).
#[local] Instance cry : Crypto := spdm_ring timestamp.
Context `{sec : !Secret} `{dev : SpdmDeviceIo} `{tr : SpdmTransportEncap}.
Context (mode : overflow_mode).

Lemma returned_ok {E A} (o : outcome E (option A)) a : returned o = Ok a → o = Ok (Some a).
Proof. by destruct o as [[]| |]; intros [= ->]. Qed.

(** What follows the length, the reserved bytes and the root hash of [n] bytes. *)
Definition certs_behind (n : nat) (chain : SpdmCertChainBuffer) : bytes :=
  take (data_size chain - (4 + n)) (drop (4 + n) (data chain)).

(** C4: Whatever requests were made, the signatures of responses that the requester accepts are
    those of the key of the last certificate of a chain that it stored.  The chain begins with the
    provisioned root, if there is one, and webpki verified its certificates, which follow a root
    hash of the algorithm that was negotiated when it was stored.  The certificates that are used
    follow a root hash of the algorithm that is negotiated now: when the two hashes have the same
    size, which a new negotiation may change, and the DER reader takes the whole chain, the
    certificate that signs is the end entity that webpki verified. *)
Theorem peer_signature_trusted device w config provision slot_id zeropad sign_context th sg c c' :
  rtc (requested mode) (SpdmContext_new device w config provision) c →
  verify_transcript slot_id zeropad sign_context th sg c = (Ok tt, c') →
  ∃ chain alg stored_size size front leaf,
    let n := negotiate_info c in
    let verified := certs_behind stored_size chain in
    peer_cert_chain (peer_info c) !! Z.to_nat slot_id = Some (Some chain) ∧
    authentic_with alg (peer_root_cert_data (provision_info c)) chain ∧
    SpdmBaseHashAlgo.get_size (E:=SpdmStatus) alg = Ok stored_size ∧
    chain_verified timestamp (split_certs (length verified) verified) ∧
    get_hash_size (E:=SpdmStatus) c = Ok size ∧
    certs_behind size chain = concat front ++ leaf ∧
    signed_with leaf (base_hash_sel n) (base_asym_sel n)
      (signed_message zeropad sign_context (sized_bytes th)) sg ∧
    (size = stored_size → concat (split_certs (length verified) verified) = verified →
     split_certs (length verified) verified = front ++ [leaf]).
Proof.
  intros Hr (->&chain&size&Hc&Hs&Hv)%verify_transcript_signed.
  pose proof (requested_authentic _ _ _ _ _ _ Hr _ _ Hc) as [alg Ha].
  apply returned_ok, asym_verify_found in Hv as (front&leaf&Heq&Hf&Hl&Hw).
  pose proof Ha as (stored_size&?&?&?&Hs'&_&_&Hch&_).
  exists chain, alg, stored_size, size, front, leaf.
  split_and!; [done|done|done|exact (proj1 (verify_cert_chain_ok _ _) Hch)|done..|].
  intros <-. by apply split_certs_leaf.
Qed.
End ReqTrust.
