(* ===== verification/ReqExample.v ===== *)
(** The theorems about the requester, evaluated on a requester that talks to the responder of
    [RspExample] back to back. *)

From stdpp Require Import relations.
From S2P Require Import Prelude Config Codec Status Algo Protocol Crypto SpdmRing CertOps CertTrust ToyRing KeySchedule Buffers Session Context Transport ToyContext SpdmCodec Opaque MsgNegotiate MsgAuth MsgSession Message Endpoint Responder Within RspConnect RspSession RspDispatch RspExample Requester ReqConnect ReqSession Loopback ReqFrame ReqAuth ReqSafe ReqFinish ReqTrust.

(** The value of a successful computation. *)
Definition value {S E A} (a : A) (x : outcome E A * S) : A := match x.1 with Ok v => v | _ => a end.
Lemma value_ok {S E A} (a : A) (x : outcome E A * S) : Prelude.is_ok x.1 = true → x = (Ok (value a x), x.2).
Proof. by destruct x as [[] ?]. Qed.
Lemma value_pair_ok {S E A B} (a : A * B) (x : outcome E (A * B) * S) :
  Prelude.is_ok x.1 = true → x = (Ok ((value a x).1, (value a x).2), x.2).
Proof. by destruct x as [[[]| |] ?]. Qed.

Section Example.
#[local] Existing Instances default_config default_valid toy_crypto toy_secret toy_hash_laws toy_handlers MctpTransportEncap.

Definition toy_peer : SpdmContext (dev:=toy_device) :=
  SpdmContext_new (dev:=toy_device) ([], []) 1 toy_config_info toy_provision.
Definition toy_loopback : SpdmDeviceIo := loopback Checked.
#[local] Existing Instance toy_loopback.

(** The requester after each of its requests. *)
Definition toy_after (r : request) (c : SpdmContext) : SpdmContext := (perform Checked r c).2.
Definition toy_q0 : SpdmContext := SpdmContext_new toy_peer 1000 toy_config_info toy_provision.
Definition toy_q1 : SpdmContext := toy_after GetVersion toy_q0.
Definition toy_q2 : SpdmContext := toy_after GetCapabilities toy_q1.
Definition toy_q3 : SpdmContext := toy_after NegotiateAlgorithms toy_q2.
Definition toy_q4 : SpdmContext := toy_after (GetDigests None) toy_q3.
Definition toy_q5 : SpdmContext := toy_after (GetCertificate 10 None 0) toy_q4.
Definition toy_q6 : SpdmContext := toy_after (KeyExchange 0 SpdmMeasurementSummaryHashTypeNone) toy_q5.

Lemma toy_requested r c : requested Checked c (toy_after r c).
Proof. exists r, (perform Checked r c).1. apply surjective_pairing. Qed.
Lemma toy_requests5 : rtc (requested Checked) toy_q0 toy_q5.
Proof.
  apply (rtc_l _ _ toy_q1); [exact (toy_requested GetVersion toy_q0)|].
  apply (rtc_l _ _ toy_q2); [exact (toy_requested GetCapabilities toy_q1)|].
  apply (rtc_l _ _ toy_q3); [exact (toy_requested NegotiateAlgorithms toy_q2)|].
  apply (rtc_l _ _ toy_q4); [exact (toy_requested (GetDigests None) toy_q3)|].
  apply (rtc_l _ _ toy_q5); [exact (toy_requested (GetCertificate 10 None 0) toy_q4)|].
  apply rtc_refl.
Qed.
Lemma toy_requests6 : rtc (requested Checked) toy_q0 toy_q6.
Proof.
  exact (rtc_r _ _ _ toy_requests5
           (toy_requested (KeyExchange 0 SpdmMeasurementSummaryHashTypeNone) toy_q5)).
Qed.

(** A request and its response, without the handling of the response. *)
Definition toy_exchanged (code : SpdmRequestResponseCode) (encode : SpdmM Rsp nat)
    : outcome SpdmStatus (bytes * bytes) * SpdmContext :=
  (RequesterContext.reset_buffers code None;;
   exchange Checked None true encode (λ sent received, ret (sent, received)))
    toy_q5.
Definition toy_messages (x : outcome SpdmStatus (bytes * bytes) * SpdmContext) : bytes * bytes :=
  match x.1 with Ok m => m | _ => ([], []) end.

Definition toy_challenged : outcome SpdmStatus (bytes * bytes) * SpdmContext :=
  toy_exchanged SpdmRequestChallenge (encode_spdm_challenge 0 SpdmMeasurementSummaryHashTypeNone).
Definition toy_measured : outcome SpdmStatus (bytes * bytes) * SpdmContext :=
  toy_exchanged SpdmRequestGetMeasurements
    (encode_spdm_measurement_record 1 SpdmMeasurementRequestAll 0).

Lemma toy_challenge_ok :
  (handle_spdm_challenge_response 0 SpdmMeasurementSummaryHashTypeNone
     (toy_messages toy_challenged).1 (toy_messages toy_challenged).2 toy_challenged.2).1 = Ok tt.
Proof. vm_compute. reflexivity. Qed.

Lemma challenge_authenticated_witness :
  ∃ p used size,
    response_payload SpdmChallengeAuthResponsePayload_codec
      (summary_wanted SpdmMeasurementSummaryHashTypeNone toy_challenged.2)
      (toy_messages toy_challenged).2 = Some (p, used) ∧
    get_asym_key_size (E:=SpdmStatus) toy_challenged.2 = Ok size ∧ (size ≤ used)%nat ∧
    signed_by_peer toy_challenged.2 0 SPDM_VERSION_1_2_SIGNING_CONTEXT_ZEROPAD_4
      SPDM_CHALLENGE_AUTH_SIGN_CONTEXT
      (extended (m1m2_data toy_challenged.2)
         ((toy_messages toy_challenged).1 ++
          take (used - size) (toy_messages toy_challenged).2)) (ca_signature p).
Proof.
  exact (challenge_authenticated _ _ _ _ _ _ (outcome_state _ _ toy_challenge_ok)).
Defined.


Abbreviation toy_measurement :=
  (handle_spdm_measurement_record_response None 0 1 SpdmMeasurementRequestAll
     (toy_messages toy_measured).1 (toy_messages toy_measured).2 toy_measured.2).
Lemma toy_measurement_ok : Prelude.is_ok toy_measurement.1 = true.
Proof. vm_compute. reflexivity. Qed.

Lemma measurement_authenticated_witness :
  ∃ p used size o,
    response_payload SpdmMeasurementsResponsePayload_codec (signature_wanted 1 toy_measured.2)
      (toy_messages toy_measured).2 = Some (p, used) ∧
    (value (0, SpdmMeasurementRecordStructure_default)
       toy_measurement).2 = mr_measurement_record p ∧
    get_asym_key_size (E:=SpdmStatus) toy_measured.2 = Ok size ∧ (size ≤ used)%nat ∧
    measured None toy_measured.2 = Some o ∧
    signed_by_peer toy_measured.2 0 SPDM_VERSION_1_2_SIGNING_CONTEXT_ZEROPAD_6
      SPDM_MEASUREMENTS_SIGN_CONTEXT
      (extended (l1l2_data toy_measured.2 o)
         ((toy_messages toy_measured).1 ++ take (used - size) (toy_messages toy_measured).2))
      (mr_signature p).
Proof.
  exact (measurement_authenticated None 0 1 _ _ _ _ _ _ _ eq_refl
           (value_pair_ok _ _ toy_measurement_ok)).
Defined.

(** *** Certificates and sessions *)

Definition toy_stored (c : SpdmContext) : bool :=
  match peer_cert_chain (peer_info c) !! 0%nat with Some (Some _) => true | _ => false end.
Lemma stored_chain c :
  toy_stored c = true → ∃ chain, peer_cert_chain (peer_info c) !! 0%nat = Some (Some chain).
Proof. unfold toy_stored. intros H. destruct (_ !! _) as [[]|]; by eauto. Qed.
Lemma toy_chain_stored : toy_stored toy_q5 = true.
Proof. vm_compute. reflexivity. Qed.

Lemma certificates_always_authentic_witness :
  ∃ chain, peer_cert_chain (peer_info toy_q5) !! 0%nat = Some (Some chain) ∧
    authentic (peer_root_cert_data (provision_info toy_q5)) chain.
Proof.
  destruct (stored_chain toy_q5 toy_chain_stored) as [chain Hc]. exists chain. split; [exact Hc|].
  exact (certificates_always_authentic Checked _ _ _ _ _ _ _ toy_requests5 Hc).
Defined.

Definition toy_digest : SpdmDigestStruct := toy_sized 48 SPDM_MAX_HASH_SIZE [].
Definition toy_response_signature : SpdmSignatureStruct := {|
  data_size := 96;
  data := toy_signature 7 (signed_message SPDM_VERSION_1_2_SIGNING_CONTEXT_ZEROPAD_4
            SPDM_CHALLENGE_AUTH_SIGN_CONTEXT (sized_bytes toy_digest)) ++
          replicate (SPDM_MAX_ASYM_KEY_SIZE - 96) 0;
|}.
Lemma toy_transcript_ok :
  (RequesterContext.verify_transcript 0 SPDM_VERSION_1_2_SIGNING_CONTEXT_ZEROPAD_4
     SPDM_CHALLENGE_AUTH_SIGN_CONTEXT toy_digest toy_response_signature toy_q5).1 = Ok tt.
Proof. vm_compute. reflexivity. Qed.

Lemma peer_signature_trusted_witness :
  ∃ leaf, signed_with (pki:=toy_webpki) leaf
    (base_hash_sel (negotiate_info toy_q5)) (base_asym_sel (negotiate_info toy_q5))
    (signed_message SPDM_VERSION_1_2_SIGNING_CONTEXT_ZEROPAD_4 SPDM_CHALLENGE_AUTH_SIGN_CONTEXT
       (sized_bytes toy_digest)) toy_response_signature.
Proof.
  destruct (peer_signature_trusted (laws:=toy_webpki_laws) toy_time Checked _ _ _ _ _ _ _ _ _ _ _
    toy_requests5 (outcome_state _ _ toy_transcript_ok)) as (?&?&?&?&?&leaf&?&?&?&?&?&?&Hs&?).
  exists leaf. exact Hs.
Defined.

Definition toy_q7 : SpdmContext := toy_after (KeyExchange 0 SpdmMeasurementSummaryHashTypeNone) toy_q6.
Lemma toy_requests7 : rtc (requested Checked) toy_q0 toy_q7.
Proof.
  exact (rtc_r _ _ _ toy_requests6
           (toy_requested (KeyExchange 0 SpdmMeasurementSummaryHashTypeNone) toy_q6)).
Qed.
(** The session at a place of the table, when it is in use. *)
Definition toy_used (i : nat) (c : SpdmContext) : bool :=
  match session c !! i with Some s => negb (session_id s =? INVALID_SESSION_ID) | None => false end.
Lemma used_two c :
  toy_used 0 c && toy_used 1 c = true →
  ∃ s s', session c !! 0%nat = Some s ∧ session c !! 1%nat = Some s' ∧
    session_id s ≠ INVALID_SESSION_ID ∧ session_id s' ≠ INVALID_SESSION_ID.
Proof.
  unfold toy_used. intros H.
  destruct (session c !! 0%nat) as [s|]; [|done].
  destruct (session c !! 1%nat) as [s'|]; [|by rewrite andb_comm in H].
  apply andb_true_iff in H as [Hs%negb_true_iff%Z.eqb_neq Hs'%negb_true_iff%Z.eqb_neq]. by eauto 10.
Qed.
Lemma toy_two_sessions : toy_used 0 toy_q7 && toy_used 1 toy_q7 = true.
Proof. vm_compute. reflexivity. Qed.

Lemma session_ids_distinct_witness :
  ∃ s s', session toy_q7 !! 0%nat = Some s ∧ session toy_q7 !! 1%nat = Some s' ∧
    session_id s ≠ INVALID_SESSION_ID ∧ session_id s' ≠ INVALID_SESSION_ID ∧
    session_id s ≠ session_id s'.
Proof.
  destruct (used_two toy_q7 toy_two_sessions) as (s&s'&H0&H1&Hs&Hs'). exists s, s'.
  split_and!; [exact H0|exact H1|exact Hs|exact Hs'|]. intros Heq.
  discriminate (session_ids_distinct Checked toy_count _ _ _ _ _ 0 1 s s' toy_requests7 H0 H1 Hs Heq).
Defined.

Abbreviation toy_exchange :=
  (send_receive_spdm_key_exchange Checked 0 SpdmMeasurementSummaryHashTypeNone toy_q5).
Lemma toy_exchange_ok : Prelude.is_ok toy_exchange.1 = true.
Proof. vm_compute. reflexivity. Qed.

Lemma key_exchange_authenticated_witness :
  ∃ q private sent received c1, get_next_half_session_id true toy_q5 = Ok q ∧
    key_exchange_messages Checked 0 SpdmMeasurementSummaryHashTypeNone q toy_q5 private sent received c1 ∧
    core c1 = core toy_q5 ∧
    key_exchange_evidence q 0 SpdmMeasurementSummaryHashTypeNone private sent received c1
      (value 0 toy_exchange) toy_exchange.2.
Proof.
  exact (key_exchange_authenticated Checked toy_count _ _ _ _ _ _ _ _ _ toy_requests5
           (value_ok 0 _ toy_exchange_ok)).
Defined.

Definition toy_session : Z := 0xFFFDFFFD.

Lemma finish_establishes_or_gives_up_witness :
  Prelude.is_ok (send_receive_spdm_finish Checked None toy_session toy_q6).1 = true ∧
  all_or_nothing toy_session (send_receive_spdm_finish Checked None toy_session toy_q6).1
    (send_receive_spdm_finish Checked None toy_session toy_q6).2.
Proof.
  split; [vm_compute; reflexivity|].
  pose proof (finish_establishes_or_gives_up Checked toy_count _ _ _ _ false None toy_session toy_q6
    (send_receive_spdm_finish Checked None toy_session toy_q6).1
    (send_receive_spdm_finish Checked None toy_session toy_q6).2 toy_requests6
    ltac:(done) (surjective_pairing _)) as H.
  cbn [negb andb unusable_slot] in H. exact H.
Defined.

(** Fetching the chain again: it comes, all 344 bytes of it, within the bound. *)
Abbreviation toy_turns := (S (Z.to_nat (as_u16 (Z.of_nat MAX_SPDM_CERT_CHAIN_DATA_SIZE))) + 0)%nat.
Definition toy_fetching : SpdmContext := set_chain_temp (Some empty_chain) toy_q5.
Lemma certificate_loop_ends_witness :
  (certificate_loop Checked toy_turns None 0 0 0 512 toy_fetching).1 = Ok (Some 344) ∧
  ((certificate_loop Checked toy_turns None 0 0 0 512 toy_fetching).1 ≠ Ok None ∨
   ∃ s portion s', rtc (filled_turn Checked None 0) (MkLoop 0 0 512 toy_fetching) s ∧
     turn Checked None 0 s portion s' ∧ portion ≤ 0).
Proof.
  split; [vm_compute; reflexivity|]. exact (certificate_loop_ends Checked None 0 512 toy_fetching 0).
Defined.

(** *** Negotiation and failures *)

(** The responder offers 1.1 and 1.2 to a requester for 1.0 and 1.1. *)
Definition toy_offer : SpdmVersionResponsePayload :=
  {| version_number_entry_count := 2;
     versions := [{| vs_update := 0; vs_version := SpdmVersion11 |};
                  {| vs_update := 0; vs_version := SpdmVersion12 |}] ++
                 replicate (MAX_SPDM_VERSION_COUNT - 2) SpdmVersionStruct_10 |}.
Lemma select_version_highest_witness :
  select_version [SpdmVersion10; SpdmVersion11] toy_offer = SpdmVersion11.
Proof.
  destruct (select_version_highest [SpdmVersion10; SpdmVersion11] toy_offer) as [(Hl&Ho&_)|(_&Hn)].
  - split_and!; [done|done|split_and!; [done|cbn; lia|done]|].
    repeat (apply Forall_cons_2; [done|]). by apply Forall_nil_2.
  - repeat (apply Forall_cons_2; [done|]). by apply Forall_nil_2.
  - set (v := select_version _ _) in *. clearbody v.
    change (v ∈ [SpdmVersion11; SpdmVersion12]) in Ho. rewrite !elem_of_cons, elem_of_nil in Hl, Ho. intuition congruence.
  - destruct (Hn SpdmVersion11); [|right]; apply list_elem_of_here.
Defined.

Lemma vendor_request_wipes_witness :
  let run := send_spdm_vendor_defined_request Checked (Some toy_session) Registry_PCISIG
               (sized_default 8) (sized_default 8) toy_q6 in
  (∀ rsp, run.1 ≠ Ok rsp) ∧ wiped run.2.
Proof.
  exact (vendor_request_wipes Checked toy_session _ _ _ _ _ _ ltac:(done) (surjective_pairing _)).
Defined.

Definition toy_slow : SpdmContext := toy_q0 <| negotiate_info ::= λ n, n <| rsp_ct_exponent_sel := 64 |> |>.
Lemma timeout_exponent_panics_witness :
  RequesterContext.receive_response Checked None true toy_slow = (Panic, toy_slow).
Proof. apply timeout_exponent_panics. vm_compute. discriminate. Defined.
End Example.
