(* ===== verification/EncapExample.v ===== *)
(** The theorems about mutual authentication, evaluated on a requester that has one chain of
    certificates and a responder that asks for it. *)

From stdpp Require Import relations.
From S2P Require Import Prelude Config Codec Status Algo Protocol Crypto SpdmRing CertOps ToyRing KeySchedule Buffers Session Context Transport ToyContext SpdmCodec Opaque MsgNegotiate MsgAuth MsgSession Message MsgEncap Endpoint Responder RspConnect RspDispatch RspExample Requester ReqConnect ReqSafe Encap EncapProofs EncapAuth.

Section Example.
#[local] Existing Instances default_config default_valid toy_crypto toy_secret toy_device toy_handlers MctpTransportEncap.

(** The chain of the requester: its length, the hash of the root, and the certificate. *)
Definition toy_encap_chain : SpdmCertChainBuffer :=
  {| data_size := 344;
     data := [88; 1; 0; 0] ++ checksum 48 (toy_cert 7) ++ toy_cert 7 ++ replicate 3820 0 |}.
Definition toy_encap_requester : SpdmContext :=
  toy_context <| negotiate_info ::= λ n, n <| req_capabilities_sel := SpdmRequestCapabilityFlags.CERT_CAP |> |>
    <| provision_info ::= λ p, p <| my_cert_chain := Some toy_encap_chain :: replicate 7 None |> |>.

Lemma toy_octets : Forall is_u8 (data toy_encap_chain).
Proof. apply (bool_decide_unpack _). vm_compute. exact I. Qed.
Lemma toy_complete : (0 < 344 ≤ length (data toy_encap_chain))%nat.
Proof. split; apply Nat.leb_le; vm_compute; reflexivity. Qed.
(** A responder that has the capabilities and has reached the state for mutual authentication. *)
Definition toy_encap_responder : SpdmContext :=
  toy_context
    <| negotiate_info ::= λ n, n <| req_capabilities_sel := SpdmRequestCapabilityFlags.ENCAP_CAP |>
         <| rsp_capabilities_sel := SpdmResponseCapabilityFlags.ENCAP_CAP |> |>
    <| runtime_info ::= λ i, i <| connection_state := SpdmConnectionAfterCertificate |> |>.

Lemma toy_verified :
  (verify_spdm_certificate_chain (holding toy_encap_chain 344 toy_encap_responder)).1 = Ok tt.
Proof. vm_compute. reflexivity. Qed.
Lemma toy_slots : (0 < length (peer_cert_chain (peer_info toy_encap_responder)))%nat.
Proof. apply Nat.leb_le. vm_compute. reflexivity. Qed.
Lemma toy_room : (12 + MAX_SPDM_CERT_PORTION_LEN ≤ MAX_SPDM_MSG_SIZE)%nat.
Proof. apply Nat.leb_le. vm_compute. reflexivity. Qed.
Lemma toy_encap_fits : Z.of_nat 344 < as_u16 (Z.of_nat MAX_SPDM_CERT_CHAIN_DATA_SIZE).
Proof. apply Z.ltb_lt. vm_compute. reflexivity. Qed.
Lemma toy_ready : ready toy_encap_requester toy_encap_responder.
Proof. by split_and!. Qed.
Lemma toy_digests_accepted :
  (handle_encap_response_digest
     (header_wire (negotiated_version toy_encap_requester) SpdmResponseDigests ++ [0; 1] ++ replicate 48 9)
     toy_encap_responder).1 = Ok tt.
Proof. vm_compute. reflexivity. Qed.

Lemma encap_chain_transferred_witness :
  ∃ r', exchange_all Checked 2
      (deliver toy_encap_requester 0
         (header_wire (negotiated_version toy_encap_requester) SpdmResponseDigests ++ [0; 1] ++ replicate 48 9))
      (toy_encap_requester, (toy_encap_responder, SpdmEncapContext_default)) =
      (Ok true, (slot_used toy_encap_requester, (r', set_cert_size (Z.of_nat 344) SpdmEncapContext_default))) ∧
    peer_cert_chain (peer_info r') =
      <[0%nat := Some (assembled toy_encap_chain 344)]> (peer_cert_chain (peer_info toy_encap_responder)) ∧
    peer_used_cert_chain_slot_id (runtime_info r') = 0.
Proof.
  assert (SpdmVersion_wf (negotiated_version toy_encap_requester)) as Hver by done.
  assert (is_u8 0) as H0 by done.
  assert (data_size toy_encap_chain ≤ 1 * MAX_SPDM_CERT_PORTION_LEN)%nat as Hturns
    by (apply Nat.leb_le; reflexivity).
  pose proof (encap_chain_transferred Checked toy_encap_requester toy_encap_chain Hver eq_refl eq_refl
    toy_octets toy_complete toy_encap_fits toy_room 1 0 ([0; 1] ++ replicate 48 9) toy_encap_responder
    SpdmEncapContext_default toy_ready H0 H0 toy_digests_accepted eq_refl toy_slots eq_refl Hturns) as H.
  cbv zeta in H. destruct H as [_ H].
  change (data_size toy_encap_chain) with 344%nat in H. pose proof toy_verified as Hv.
  destruct (verify_spdm_certificate_chain (holding toy_encap_chain 344 toy_encap_responder)) as [[[]| |] c'];
    [exact H|discriminate Hv..].
Defined.

Lemma encap_refusal_answered_witness :
  handle_get_encapsulated_request Checked 7
    (header_wire (negotiated_version toy_context) SpdmRequestGetEncapsulatedRequest ++ [0; 0])
    (toy_context, SpdmEncapContext_default) =
  on_fst (send_secured_message Checked 7
    (refusal toy_context ++ [0x12; 0x6A; 0; 0] ++ [0x12; 0x81; 0; 0]) false)
    (toy_context, SpdmEncapContext_default) ∧
  refusal toy_context = [0x12; 0x7F; 7; 0xEA].
Proof.
  assert (SpdmVersion_wf (negotiated_version toy_context)) as Hver by done.
  assert (is_u8 (request_id SpdmEncapContext_default)) as Hid by done.
  split; [|vm_compute; reflexivity].
  exact (encap_refusal_answered Checked 7 toy_context SpdmEncapContext_default [0; 0] Hver eq_refl Hid eq_refl).
Defined.

(** A responder in the handshake of the session 7. *)
Definition toy_handshake : SpdmContext * SpdmEncapContext :=
  (toy_context <| session ::= <[0%nat := SpdmSession_new <| session_id := 7 |>
                                  <| session_state := SpdmSessionHandshaking |>]> |>,
   SpdmEncapContext_default).

(** DELIVER_ENCAPSULATED_RESPONSE with the digests, and with the one portion of the chain. *)
Definition toy_deliver (response : bytes) : bytes := [0x12; 0xEB; 0; 0] ++ response.
Definition toy_digests : bytes := toy_deliver ([0x12; 0x01; 0; 1] ++ replicate 48 9).
Definition toy_portion : bytes :=
  toy_deliver ([0x12; 0x02; 0; 0; 88; 1; 0; 0] ++ take 344 (data toy_encap_chain)).
Definition toy_served (bs : bytes) (s : SpdmContext * SpdmEncapContext) : SpdmContext * SpdmEncapContext :=
  (encap_dispatch_secured_message Checked 7 bs s).2.
Definition toy_delivered : SpdmContext * SpdmEncapContext :=
  toy_served toy_portion (toy_served toy_digests toy_handshake).

Lemma toy_encap_step bs s : encap_served Checked s (toy_served bs s).
Proof. exists 7, bs, (encap_dispatch_secured_message Checked 7 bs s).1. apply surjective_pairing. Qed.
Lemma toy_handled : rtc (encap_served Checked) toy_handshake toy_delivered.
Proof. eapply rtc_l; [|apply rtc_once]; apply toy_encap_step. Qed.
Lemma toy_delivered_chain :
  bool_decide (peer_cert_chain (peer_info toy_delivered.1) !! 0%nat =
               Some (Some (assembled toy_encap_chain 344))) = true.
Proof. vm_compute. reflexivity. Qed.

Lemma encap_chains_authentic_witness :
  authentic (peer_root_cert_data (provision_info toy_delivered.1)) (assembled toy_encap_chain 344).
Proof.
  assert (peer_cert_chain (peer_info toy_delivered.1) !! 0%nat =
          Some (Some (assembled toy_encap_chain 344))) as Hl
    by exact (proj1 (bool_decide_eq_true _) toy_delivered_chain).
  exact (encap_chains_authentic Checked toy_handshake toy_delivered 0
    (assembled toy_encap_chain 344) toy_handled (or_introl eq_refl) Hl).
Defined.
End Example.
