(* ===== verification/Tdisp.v ===== *)
(** Model of tdisp/src/message.rs, tdisp_codec.rs, config.rs and state_machine.rs: the messages
    of the TEE device interface security protocol, which are the payload of vendor-defined
    SPDM messages.

    The crate is written against integer codecs whose [encode] returns nothing: a field that
    does not fit the buffer is skipped and the next one is tried.  So [put] drops the result of
    an encoder.  Its readers stop at the first field that cannot be read.  Payloads that are
    empty on the wire are [unit]. *)

From S2P Require Import Prelude Codec Status Algo MsgNegotiate.

(** ** Constants *)

(*@ tdisp/src/config.rs 5-12 MAX_VERSION_COUNT *)
Definition MAX_VERSION_COUNT : nat := 2.
Abbreviation MAX_MMIO_RANGE_COUNT := 2%nat (only parsing).
Abbreviation MAX_VENDOR_ID_LEN := 32%nat (only parsing).
Abbreviation NONCE_LENGTH := 32%nat (only parsing).
Abbreviation PROTOCOL_ID := 1 (only parsing).
(** The lengths that are [0xA000] in the source. *)
Definition MAX_BUFFER : nat := Z.to_nat 0xA000.
Abbreviation MAX_MESSAGE_INTERNAL_BUFFER_SIZE := MAX_BUFFER (only parsing).
Abbreviation MAX_DEVICE_SPECIFIC_INFORMATION_LENGTH := MAX_BUFFER (only parsing).
Abbreviation MAX_EXTENDED_ERROR_DATA_LENGTH := MAX_BUFFER (only parsing).
Definition MAX_TDISP_MESSAGE_SIZE : nat := Z.to_nat 0x1000.

(** ** Codecs *)

(*@ tdisp/src/tdisp_codec.rs 11-20 TdispCodec *)
Record TdispCodec (A : Type) := {
  tdisp_encode : A → M Writer SpdmStatus unit;
  tdisp_read : M Reader unit A;
}.
Arguments tdisp_encode {A} c v : rename.
Arguments tdisp_read {A} c : rename.

(** [v.encode(bytes);] *)
Definition put {A} (c : Codec A) (v : A) : M Writer SpdmStatus unit := λ w,
  match encode c v w with (Panic, w') => (Panic, w') | (_, w') => (Ok tt, w') end.

Fixpoint put_all {A} (enc : A → M Writer SpdmStatus unit) (l : list A) : M Writer SpdmStatus unit :=
  match l with [] => ret tt | v :: l => enc v;; put_all enc l end.
Definition put_bytes : bytes → M Writer SpdmStatus unit := put_all (put u8_codec).

(** A payload without fields. *)
(*@ tdisp/src/message.rs 282-296 MessagePayloadDummy as TdispCodec *)
Definition empty_payload : TdispCodec unit := {|
  tdisp_encode _ := ret tt;
  tdisp_read := ret tt;
|}.

(** ** Request and error codes *)

(*@ tdisp/src/message.rs 22-53 TdispRequestResponseCode *)
Inductive TdispRequestResponseCode :=
| RequestGetTdispVersion | RequestGetTdispCapabilities | RequestLockInterfaceRequest
| RequestGetDeviceInterfaceReport | RequestGetDeviceInterfaceState
| RequestStartInterfaceRequest | RequestStopInterfaceRequest | RequestBindP2pStreamRequest
| RequestUnbindP2pStreamRequest | RequestSetMmioAttributeRequest | RequestVdmRequest
| ResponseTdispVersion | ResponseTdispCapabilities | ResponseLockInterfaceResponse
| ResponseDeviceInterfaceReport | ResponseDeviceInterfaceState
| ResponseStartInterfaceResponse | ResponseStopInterfaceResponse
| ResponseBindP2pStreamResponse | ResponseUnbindP2pStreamResponse
| ResponseSetMmioAttributeResponse | ResponseVdmResponse | ResponseTdispError
| TdispCode_Unknown (x : Z).

Definition TdispRequestResponseCode_get_u8 (c : TdispRequestResponseCode) : Z :=
  match c with
  | RequestGetTdispVersion => 0x81 | RequestGetTdispCapabilities => 0x82
  | RequestLockInterfaceRequest => 0x83 | RequestGetDeviceInterfaceReport => 0x84
  | RequestGetDeviceInterfaceState => 0x85 | RequestStartInterfaceRequest => 0x86
  | RequestStopInterfaceRequest => 0x87 | RequestBindP2pStreamRequest => 0x88
  | RequestUnbindP2pStreamRequest => 0x89 | RequestSetMmioAttributeRequest => 0x8A
  | RequestVdmRequest => 0x8B
  | ResponseTdispVersion => 0x01 | ResponseTdispCapabilities => 0x02
  | ResponseLockInterfaceResponse => 0x03 | ResponseDeviceInterfaceReport => 0x04
  | ResponseDeviceInterfaceState => 0x05 | ResponseStartInterfaceResponse => 0x06
  | ResponseStopInterfaceResponse => 0x07 | ResponseBindP2pStreamResponse => 0x08
  | ResponseUnbindP2pStreamResponse => 0x09 | ResponseSetMmioAttributeResponse => 0x0A
  | ResponseVdmResponse => 0x0B | ResponseTdispError => 0x7F
  | TdispCode_Unknown x => x
  end.

Definition TdispRequestResponseCode_from_u8 (x : Z) : TdispRequestResponseCode :=
  match x with
  | 0x81 => RequestGetTdispVersion | 0x82 => RequestGetTdispCapabilities
  | 0x83 => RequestLockInterfaceRequest | 0x84 => RequestGetDeviceInterfaceReport
  | 0x85 => RequestGetDeviceInterfaceState | 0x86 => RequestStartInterfaceRequest
  | 0x87 => RequestStopInterfaceRequest | 0x88 => RequestBindP2pStreamRequest
  | 0x89 => RequestUnbindP2pStreamRequest | 0x8A => RequestSetMmioAttributeRequest
  | 0x8B => RequestVdmRequest
  | 0x01 => ResponseTdispVersion | 0x02 => ResponseTdispCapabilities
  | 0x03 => ResponseLockInterfaceResponse | 0x04 => ResponseDeviceInterfaceReport
  | 0x05 => ResponseDeviceInterfaceState | 0x06 => ResponseStartInterfaceResponse
  | 0x07 => ResponseStopInterfaceResponse | 0x08 => ResponseBindP2pStreamResponse
  | 0x09 => ResponseUnbindP2pStreamResponse | 0x0A => ResponseSetMmioAttributeResponse
  | 0x0B => ResponseVdmResponse | 0x7F => ResponseTdispError
  | x => TdispCode_Unknown x
  end.

Definition TdispRequestResponseCode_codec : Codec TdispRequestResponseCode :=
  enum_codec u8_codec TdispRequestResponseCode_get_u8 TdispRequestResponseCode_from_u8.

#[global] Instance TdispRequestResponseCode_eq_dec : EqDecision TdispRequestResponseCode.
Proof. solve_decision. Defined.

(*@ tdisp/src/message.rs 55-71 GenericErrorResponseCode *)
Inductive GenericErrorResponseCode :=
| InvalidRequest | Busy | InvalidInterfaceState | Unspecified | UnsupportedRequest
| VersionMismatch | VendorSpecificError | InvalidInterface | InvalidNonce
| InsufficientEntropy | InvalidDeviceConfiguration
| GenericError_Unknown (x : Z).

Definition GenericErrorResponseCode_get_u16 (c : GenericErrorResponseCode) : Z :=
  match c with
  | InvalidRequest => 0x0001 | Busy => 0x0003 | InvalidInterfaceState => 0x0004
  | Unspecified => 0x0005 | UnsupportedRequest => 0x0007 | VersionMismatch => 0x0041
  | VendorSpecificError => 0x00FF | InvalidInterface => 0x0101 | InvalidNonce => 0x0102
  | InsufficientEntropy => 0x0103 | InvalidDeviceConfiguration => 0x0104
  | GenericError_Unknown x => x
  end.

Definition GenericErrorResponseCode_from_u16 (x : Z) : GenericErrorResponseCode :=
  match x with
  | 0x0001 => InvalidRequest | 0x0003 => Busy | 0x0004 => InvalidInterfaceState
  | 0x0005 => Unspecified | 0x0007 => UnsupportedRequest | 0x0041 => VersionMismatch
  | 0x00FF => VendorSpecificError | 0x0101 => InvalidInterface | 0x0102 => InvalidNonce
  | 0x0103 => InsufficientEntropy | 0x0104 => InvalidDeviceConfiguration
  | x => GenericError_Unknown x
  end.

Definition GenericErrorResponseCode_codec : Codec GenericErrorResponseCode :=
  enum_codec u16_codec GenericErrorResponseCode_get_u16 GenericErrorResponseCode_from_u16.

#[global] Instance GenericErrorResponseCode_eq_dec : EqDecision GenericErrorResponseCode.
Proof. solve_decision. Defined.

(** ** The state of an interface *)

(*@ tdisp/src/state_machine.rs 7-39 TDIState *)
Inductive TDIState :=
| ConfigUnlocked | ConfigLocked | Run | Error
| TDIState_Unknown (x : Z).

Definition TDIState_get_u8 (s : TDIState) : Z :=
  match s with
  | ConfigUnlocked => 0x00 | ConfigLocked => 0x01 | Run => 0x02 | Error => 0x03
  | TDIState_Unknown x => x
  end.

Definition TDIState_from_u8 (x : Z) : TDIState :=
  match x with
  | 0x00 => ConfigUnlocked | 0x01 => ConfigLocked | 0x02 => Run | 0x03 => Error
  | x => TDIState_Unknown x
  end.

(*@ tdisp/src/state_machine.rs 46-56 TdispStateMachine as Codec *)
Definition TDIState_codec : Codec TDIState := enum_codec u8_codec TDIState_get_u8 TDIState_from_u8.

#[global] Instance TDIState_eq_dec : EqDecision TDIState.
Proof. solve_decision. Defined.

(** ** Headers *)

(*@ tdisp/src/message.rs 92-97 FunctionId *)
Record FunctionId := {
  requester_id : Z;
  requester_segment : Z;
  requester_segment_valid : bool;
}.

(*@ tdisp/src/message.rs 101-107 FunctionId::get_requester_segment *)
Definition get_requester_segment (f : FunctionId) : option Z :=
  if requester_segment_valid f then Some (requester_segment f) else None.
(*@ tdisp/src/message.rs 110-119 FunctionId::set_requester_segment *)
Definition set_requester_segment (segment : Z) : M FunctionId unit unit :=
  let* f := gets (λ f, f) in
  if requester_segment_valid f then
    modify (λ f, {| requester_id := requester_id f; requester_segment := segment;
                    requester_segment_valid := requester_segment_valid f |})
  else throw tt.

(*@ tdisp/src/message.rs 122-186 FunctionId as TdispCodec *)
Definition FunctionId_codec : TdispCodec FunctionId := {|
  tdisp_encode f :=
    put u16_codec (requester_id f);;
    if requester_segment_valid f then put u8_codec (requester_segment f);; put u8_codec 1
    else put u16_codec 0;
  tdisp_read :=
    let* id := read u16_codec in
    let* segment := read u8_codec in
    let* valid := read u8_codec in
    if valid =? 1 then
      ret {| requester_id := id; requester_segment := segment; requester_segment_valid := true |}
    else if valid =? 0 then
      ret {| requester_id := id; requester_segment := 0; requester_segment_valid := false |}
    else throw tt;
|}.

(*@ tdisp/src/message.rs 193-219 InterfaceId as TdispCodec *)
Definition InterfaceId_codec : TdispCodec FunctionId := {|
  tdisp_encode i := tdisp_encode FunctionId_codec i;; put u32_codec 0;
  tdisp_read := let* f := tdisp_read FunctionId_codec in read u32_codec;; ret f;
|}.

(*@ tdisp/src/message.rs 223-228 TdispMessageHeader *)
Record TdispMessageHeader := {
  tdisp_version : Z;
  message_type : TdispRequestResponseCode;
  interface_id : FunctionId;
}.

(*@ tdisp/src/message.rs 230-277 TdispMessageHeader as TdispCodec *)
Definition TdispMessageHeader_codec : TdispCodec TdispMessageHeader := {|
  tdisp_encode h :=
    put u8_codec (tdisp_version h);;
    put TdispRequestResponseCode_codec (message_type h);;
    put u16_codec 0;;
    tdisp_encode InterfaceId_codec (interface_id h);
  tdisp_read :=
    let* version := read u8_codec in
    let* type := read TdispRequestResponseCode_codec in
    read u16_codec;;
    let* id := tdisp_read InterfaceId_codec in
    ret {| tdisp_version := version; message_type := type; interface_id := id |};
|}.

(** Header and payload behind the identifier of the protocol, which readers do not check. *)
(*@ tdisp/src/message.rs 298-305 TdispMessage *)
Record TdispMessage (T : Type) := {
  tdisp_message_header : TdispMessageHeader;
  tdisp_message_payload : T;
}.
Arguments tdisp_message_header {T}.
Arguments tdisp_message_payload {T}.

(*@ tdisp/src/message.rs 307-327 TdispMessage as TdispCodec *)
Definition TdispMessage_codec {T} (payload : TdispCodec T) : TdispCodec (TdispMessage T) := {|
  tdisp_encode m :=
    put u8_codec PROTOCOL_ID;;
    tdisp_encode TdispMessageHeader_codec (tdisp_message_header m);;
    tdisp_encode payload (tdisp_message_payload m);
  tdisp_read :=
    read u8_codec;;
    let* h := tdisp_read TdispMessageHeader_codec in
    let* p := tdisp_read payload in
    ret {| tdisp_message_header := h; tdisp_message_payload := p |};
|}.

(** ** Payloads *)

(*@ tdisp/src/message.rs 340-344 MessagePayloadResponseVersion *)
Record MessagePayloadResponseVersion := {
  version_num_count : Z;
  version_num_entry : bytes;
}.

(*@ tdisp/src/message.rs 346-373 MessagePayloadResponseVersion as TdispCodec *)
Definition MessagePayloadResponseVersion_codec : TdispCodec MessagePayloadResponseVersion := {|
  tdisp_encode v :=
    put u8_codec (version_num_count v);;
    put_bytes (take (Z.to_nat (version_num_count v)) (version_num_entry v));
  tdisp_read :=
    let* count := read u8_codec in
    let* entries := read_array (Z.to_nat count) MAX_VERSION_COUNT in
    ret {| version_num_count := count; version_num_entry := entries |};
|}.

(*@ tdisp/src/message.rs 380-390 MessagePayloadRequestGetCapabilities as TdispCodec *)
Definition MessagePayloadRequestGetCapabilities_codec : TdispCodec Z := {|
  tdisp_encode tsm_caps := put u32_codec tsm_caps;
  tdisp_read := read u32_codec;
|}.

(*@ tdisp/src/message.rs 392-400 MessagePayloadResponseCapabilities *)
Record MessagePayloadResponseCapabilities := {
  dsm_caps : Z;
  req_msgs_supported : Z;
  lock_interface_flags_supported : Z;
  dev_addr_width : Z;
  num_req_this : Z;
  num_req_all : Z;
}.

(*@ tdisp/src/message.rs 402-431 MessagePayloadResponseCapabilities as TdispCodec *)
Definition MessagePayloadResponseCapabilities_codec
    : TdispCodec MessagePayloadResponseCapabilities := {|
  tdisp_encode v :=
    put u32_codec (dsm_caps v);;
    put u128_codec (req_msgs_supported v);;
    put u16_codec (lock_interface_flags_supported v);;
    put u24_codec 0;;
    put u8_codec (dev_addr_width v);;
    put u8_codec (num_req_this v);;
    put u8_codec (num_req_all v);
  tdisp_read :=
    let* caps := read u32_codec in
    let* msgs := read u128_codec in
    let* flags := read u16_codec in
    read u24_codec;;
    let* width := read u8_codec in
    let* this := read u8_codec in
    let* all := read u8_codec in
    ret {| dsm_caps := caps; req_msgs_supported := msgs;
           lock_interface_flags_supported := flags; dev_addr_width := width;
           num_req_this := this; num_req_all := all |};
|}.

Abbreviation LockInterfaceFlag_ALL := 0x1F (only parsing).
(** [from_bits] refuses bits that are no flag. *)
Definition exact_flags (base : Codec Z) (mask : Z) : TdispCodec Z := {|
  tdisp_encode v := put base v;
  tdisp_read := let* bits := read base in if Z.land bits mask =? bits then ret bits else throw tt;
|}.

(*@ tdisp/src/message.rs 433-454 LockInterfaceFlag as TdispCodec *)
Definition LockInterfaceFlag_codec : TdispCodec Z := exact_flags u16_codec LockInterfaceFlag_ALL.

(*@ tdisp/src/message.rs 456-462 MessagePayloadRequestLockInterface *)
Record MessagePayloadRequestLockInterface := {
  lock_flags : Z;
  stream_id_for_default_stream : Z;
  mmio_reporting_offset : Z;
  bind_p2p_address_mask : Z;
}.

(*@ tdisp/src/message.rs 464-486 MessagePayloadRequestLockInterface as TdispCodec *)
Definition MessagePayloadRequestLockInterface_codec
    : TdispCodec MessagePayloadRequestLockInterface := {|
  tdisp_encode v :=
    tdisp_encode LockInterfaceFlag_codec (lock_flags v);;
    put u8_codec (stream_id_for_default_stream v);;
    put u8_codec 0;;
    put u64_codec (mmio_reporting_offset v);;
    put u64_codec (bind_p2p_address_mask v);
  tdisp_read :=
    let* flags := tdisp_read LockInterfaceFlag_codec in
    let* stream := read u8_codec in
    read u8_codec;;
    let* offset := read u64_codec in
    let* mask := read u64_codec in
    ret {| lock_flags := flags; stream_id_for_default_stream := stream;
           mmio_reporting_offset := offset; bind_p2p_address_mask := mask |};
|}.

(*@ tdisp/src/message.rs 488-504 MessagePayloadResponseLockInterface as TdispCodec *)
Definition MessagePayloadResponseLockInterface_codec : TdispCodec Z := {|
  tdisp_encode start_interface_nonce := put u128_codec start_interface_nonce;
  tdisp_read := read u128_codec;
|}.

(** Offset and length of the portion that is asked for. *)
(*@ tdisp/src/message.rs 506-523 MessagePayloadRequestGetDeviceInterfaceReport as TdispCodec *)
Definition MessagePayloadRequestGetDeviceInterfaceReport_codec : TdispCodec (Z * Z) := {|
  tdisp_encode v := put u16_codec v.1;; put u16_codec v.2;
  tdisp_read :=
    let* offset := read u16_codec in
    let* length := read u16_codec in
    ret (offset, length);
|}.

(*@ tdisp/src/message.rs 525-530 MessagePayloadResponseDeviceInterfaceReport *)
Record MessagePayloadResponseDeviceInterfaceReport := {
  report_portion_length : Z;
  report_reminder_length : Z;
  report_bytes : bytes;
}.

(*@ tdisp/src/message.rs 532-556 MessagePayloadResponseDeviceInterfaceReport as TdispCodec *)
Definition MessagePayloadResponseDeviceInterfaceReport_codec
    : TdispCodec MessagePayloadResponseDeviceInterfaceReport := {|
  tdisp_encode v :=
    put u16_codec (report_portion_length v);;
    put u16_codec (report_reminder_length v);;
    put_bytes (take (Z.to_nat (report_portion_length v)) (report_bytes v));
  tdisp_read :=
    let* portion := read u16_codec in
    let* reminder := read u16_codec in
    let* report := read_array (Z.to_nat portion) MAX_MESSAGE_INTERNAL_BUFFER_SIZE in
    ret {| report_portion_length := portion; report_reminder_length := reminder;
           report_bytes := report |};
|}.

(*@ tdisp/src/message.rs 568-589 InterfaceInfo as TdispCodec *)
Definition InterfaceInfo_codec : TdispCodec Z := exact_flags u16_codec 0x1F.
(*@ tdisp/src/message.rs 591-612 MMIORangeAttribute as TdispCodec *)
Definition MMIORangeAttribute_codec : TdispCodec Z := exact_flags u16_codec 0x1F.

(*@ tdisp/src/message.rs 614-620 MMIORange *)
Record MMIORange := {
  first_4k_page_with_offset_added : Z;
  number_of_4k_pages : Z;
  range_attribute : Z;
  range_id : Z;
}.
Definition MMIORange_default : MMIORange :=
  {| first_4k_page_with_offset_added := 0; number_of_4k_pages := 0; range_attribute := 0;
     range_id := 0 |}.

(*@ tdisp/src/message.rs 622-643 MMIORange as TdispCodec *)
Definition MMIORange_codec : TdispCodec MMIORange := {|
  tdisp_encode v :=
    put u64_codec (first_4k_page_with_offset_added v);;
    put u32_codec (number_of_4k_pages v);;
    tdisp_encode MMIORangeAttribute_codec (range_attribute v);;
    put u16_codec (range_id v);
  tdisp_read :=
    let* first := read u64_codec in
    let* number := read u32_codec in
    let* attribute := tdisp_read MMIORangeAttribute_codec in
    let* id := read u16_codec in
    ret {| first_4k_page_with_offset_added := first; number_of_4k_pages := number;
           range_attribute := attribute; range_id := id |};
|}.

(*@ tdisp/src/message.rs 645-655 TDIReport *)
Record TDIReport := {
  interface_info : Z;
  msi_x_message_control : Z;
  lnr_control : Z;
  tph_control : Z;
  mmio_range_count : Z;
  mmio_range : list MMIORange;
  device_specific_info_len : Z;
  device_specific_info : bytes;
}.

(*@ tdisp/src/message.rs 657-709 TDIReport as TdispCodec *)
Definition TDIReport_codec : TdispCodec TDIReport := {|
  tdisp_encode v :=
    tdisp_encode InterfaceInfo_codec (interface_info v);;
    put u16_codec (msi_x_message_control v);;
    put u16_codec (lnr_control v);;
    put u32_codec (tph_control v);;
    put u32_codec (mmio_range_count v);;
    put_all (tdisp_encode MMIORange_codec) (take (Z.to_nat (mmio_range_count v)) (mmio_range v));;
    put u32_codec (device_specific_info_len v);;
    put_bytes (take (Z.to_nat (device_specific_info_len v)) (device_specific_info v));
  tdisp_read :=
    let* info := tdisp_read InterfaceInfo_codec in
    let* msi := read u16_codec in
    let* lnr := read u16_codec in
    let* tph := read u32_codec in
    let* count := read u32_codec in
    let* ranges := read_into (tdisp_read MMIORange_codec) (Z.to_nat count)
      (replicate MAX_MMIO_RANGE_COUNT MMIORange_default) in
    let* len := read u32_codec in
    let* specific := read_array (Z.to_nat len) MAX_DEVICE_SPECIFIC_INFORMATION_LENGTH in
    ret {| interface_info := info; msi_x_message_control := msi; lnr_control := lnr;
           tph_control := tph; mmio_range_count := count; mmio_range := ranges;
           device_specific_info_len := len; device_specific_info := specific |};
|}.

(*@ tdisp/src/message.rs 737-751 MessagePayloadResponseDeviceInterfaceState as TdispCodec *)
Definition MessagePayloadResponseDeviceInterfaceState_codec : TdispCodec TDIState := {|
  tdisp_encode v := put TDIState_codec v;
  tdisp_read := read TDIState_codec;
|}.

(*@ tdisp/src/message.rs 755-776 MessagePayloadRequestStartInterface as TdispCodec *)
Definition MessagePayloadRequestStartInterface_codec : TdispCodec bytes := {|
  tdisp_encode v := put_bytes (take NONCE_LENGTH v);
  tdisp_read := read_array NONCE_LENGTH NONCE_LENGTH;
|}.

(*@ tdisp/src/message.rs 811-825 MessagePayloadRequestBindP2pStream as TdispCodec *)
Definition MessagePayloadRequestBindP2pStream_codec : TdispCodec Z := {|
  tdisp_encode p2p_stream_id := put u8_codec p2p_stream_id;
  tdisp_read := read u8_codec;
|}.
(*@ tdisp/src/message.rs 838-852 MessagePayloadRequestUnbindP2pStream as TdispCodec *)
Definition MessagePayloadRequestUnbindP2pStream_codec : TdispCodec Z := {|
  tdisp_encode p2p_stream_id := put u8_codec p2p_stream_id;
  tdisp_read := read u8_codec;
|}.

(*@ tdisp/src/message.rs 865-879 MessagePayloadRequestSetMmioAttribute as TdispCodec *)
Definition MessagePayloadRequestSetMmioAttribute_codec : TdispCodec MMIORange := {|
  tdisp_encode v := tdisp_encode MMIORange_codec v;
  tdisp_read := tdisp_read MMIORange_codec;
|}.

(** The registry, the identifier of a vendor and, in errors, its data. *)
(*@ tdisp/src/message.rs 73-90 ExtendedErrorData *)
Record ExtendedErrorData := {
  registry_id : Z;
  vendor_id_len : Z;
  vendor_id : bytes;
  vendor_err_data : bytes;
}.
Definition ExtendedErrorData_default : ExtendedErrorData :=
  {| registry_id := 0; vendor_id_len := 0; vendor_id := replicate MAX_VENDOR_ID_LEN 0;
     vendor_err_data := replicate MAX_EXTENDED_ERROR_DATA_LENGTH 0 |}.

(*@ tdisp/src/message.rs 892-897 MessagePayloadResponseTdispError *)
Record MessagePayloadResponseTdispError := {
  error_code : GenericErrorResponseCode;
  error_data : Z;
  extended_error_data : ExtendedErrorData;
}.

(*@ tdisp/src/message.rs 899-956 MessagePayloadResponseTdispError as TdispCodec *)
Definition MessagePayloadResponseTdispError_codec
    : TdispCodec MessagePayloadResponseTdispError := {|
  tdisp_encode v :=
    put u32_codec (GenericErrorResponseCode_get_u16 (error_code v));;
    put u32_codec (error_data v);;
    let e := extended_error_data v in
    if decide (error_code v = VendorSpecificError) then
      put u8_codec (registry_id e);;
      put u8_codec (vendor_id_len e);;
      put_bytes (take (Z.to_nat (vendor_id_len e)) (vendor_id e));;
      put_bytes (take (Z.to_nat (error_data v)) (vendor_err_data e))
    else ret tt;
  tdisp_read :=
    let* code := read u32_codec in
    let* error_data := read u32_codec in
    let* extended :=
      if code =? GenericErrorResponseCode_get_u16 VendorSpecificError then
        let* registry := read u8_codec in
        let* len := read u8_codec in
        let* vendor := read_array (Z.to_nat len) MAX_VENDOR_ID_LEN in
        let* err := read_array (Z.to_nat error_data) MAX_EXTENDED_ERROR_DATA_LENGTH in
        ret {| registry_id := registry; vendor_id_len := len; vendor_id := vendor;
               vendor_err_data := err |}
      else ret ExtendedErrorData_default in
    let* error_code := of_outcome (read_bytes GenericErrorResponseCode_codec (le_bytes 4 code)) in
    ret {| error_code := error_code; error_data := error_data; extended_error_data := extended |};
|}.

(*@ tdisp/src/message.rs 958-974 MessagePayloadRequestVDM *)
Record MessagePayloadVDM := {
  vdm_registry_id : Z;
  vdm_vendor_id_len : Z;
  vdm_vendor_id : bytes;
}.

(** The payload of requests and of responses. *)
(*@ tdisp/src/message.rs 976-1042 MessagePayloadRequestVDM as TdispCodec *)
Definition MessagePayloadVDM_codec : TdispCodec MessagePayloadVDM := {|
  tdisp_encode v :=
    put u8_codec (vdm_registry_id v);;
    put u8_codec (vdm_vendor_id_len v);;
    put_bytes (take (Z.to_nat (vdm_vendor_id_len v)) (vdm_vendor_id v));
  tdisp_read :=
    let* registry := read u8_codec in
    let* len := read u8_codec in
    let* vendor := read_array (Z.to_nat len) MAX_VENDOR_ID_LEN in
    ret {| vdm_registry_id := registry; vdm_vendor_id_len := len; vdm_vendor_id := vendor |};
|}.

(** ** Properties *)

(** What a payload codec promises: with enough room it appends [wire v], it reads [v] back from
    there, and on any input it returns. *)
Class TdispCodecOk {A} (c : TdispCodec A) (wf : A → Prop) (wire : A → bytes) : Prop := {
  tdisp_encode_ok v : wf v → appends (tdisp_encode c v) (wire v) tt;
  tdisp_read_ok v : wf v → reads (tdisp_read c) (wire v) v;
  tdisp_parse_ok : parser (tdisp_read c) (λ _, True);
}.

Lemma put_ok {A} (c : Codec A) wf wire `{!CodecOk c wf wire} v :
  wf v → appends (put c v) (wire v) tt.
Proof.
  intros Hv w Hw Hl. unfold put. by rewrite (writes_appends _ _ _ _ (encode_ok v Hv) w Hw Hl).
Qed.
Lemma put_all_ok {A} (enc : A → M Writer SpdmStatus unit) (wire : A → bytes) l :
  Forall (λ x, appends (enc x) (wire x) tt) l → appends (put_all enc l) (concat (map wire l)) tt.
Proof.
  induction 1 as [|x l Hx _ IH]; [apply appends_ret|]. by eapply appends_bind.
Qed.
Lemma put_bytes_ok bs : Forall is_u8 bs → appends (put_bytes bs) bs tt.
Proof.
  intros Hb. rewrite <- (concat_singletons bs Hb) at 2. apply put_all_ok.
  eapply Forall_impl; [|exact Hb]. intros b H. exact (put_ok u8_codec is_u8 (le_bytes 1) b H).
Qed.
Lemma put_array_ok n max arr : array_wf n max arr → appends (put_bytes (take n arr)) (take n arr) tt.
Proof. intros (_&Hu&_). by apply put_bytes_ok, Forall_take. Qed.
Lemma appends_eq {E A} (c : M Writer E A) bs bs' v : appends c bs v → bs = bs' → appends c bs' v.
Proof. by intros H <-. Qed.
Lemma parser_any {A} (c : Codec A) wf wire `{!CodecOk c wf wire} : parser (read c) (λ _, True).
Proof. eapply parser_weaken; [apply parse_ok|done]. Qed.
Lemma parser_any_array n max : parser (read_array n max) (λ _, True).
Proof.
  unfold read_array, read_into. eapply parser_bind; [apply parser_read_all, parse_ok|].
  intros l _. by apply parser_ret.
Qed.
#[local] Hint Resolve put_bytes_ok put_array_ok reads_read_array parser_any_array : codec.

(** [put_steps] follows the fields of an encoder, [get x] reads the next field, [skim] follows a
    reader over any input. *)
Ltac put_field :=
  first [apply appends_ret | eapply put_ok; [apply _|codec_side] | apply tdisp_encode_ok; codec_side
        | codec_side].
Ltac put_steps :=
  eapply appends_eq;
  [repeat (eapply appends_bind; [solve [put_field]|cbv beta]); solve [put_field]
  |rewrite ?app_nil_r, <- ?app_assoc; try reflexivity].
Ltac get x :=
  eapply (reads_bind _ _ _ _ x);
  [first [apply read_ok; codec_side | apply tdisp_read_ok; codec_side | codec_side]|cbv beta].
Ltac skim :=
  repeat first
    [ by apply parser_ret | apply parser_throw
    | eapply parser_bind;
        [first [eapply parser_any, _ | apply tdisp_parse_ok | solve [eauto 4 with codec]]|intros ? _]
    | apply parser_if; intros ? ];
  try solve [eapply parser_any, _ | apply tdisp_parse_ok | eauto 4 with codec].

#[export] Instance TdispRequestResponseCode_codec_ok :
  CodecOk TdispRequestResponseCode_codec
    (enum_wf 8 TdispRequestResponseCode_get_u8 TdispRequestResponseCode_from_u8)
    (λ c, le_bytes 1 (TdispRequestResponseCode_get_u8 c)).
Proof. apply enum_codec_ok; [apply _|]. solve_enum TdispRequestResponseCode_from_u8. Qed.
#[export] Instance GenericErrorResponseCode_codec_ok :
  CodecOk GenericErrorResponseCode_codec
    (enum_wf 16 GenericErrorResponseCode_get_u16 GenericErrorResponseCode_from_u16)
    (λ c, le_bytes 2 (GenericErrorResponseCode_get_u16 c)).
Proof. apply enum_codec_ok; [apply _|]. solve_enum GenericErrorResponseCode_from_u16. Qed.
#[export] Instance TDIState_codec_ok :
  CodecOk TDIState_codec (enum_wf 8 TDIState_get_u8 TDIState_from_u8)
    (λ s, le_bytes 1 (TDIState_get_u8 s)).
Proof. apply enum_codec_ok; [apply _|]. solve_enum TDIState_from_u8. Qed.

#[export] Instance empty_payload_ok : TdispCodecOk empty_payload (λ _, True) (λ _, []).
Proof. split; [intros [] _; apply appends_ret|intros [] _; apply reads_ret|by apply parser_ret]. Qed.

Definition FunctionId_wf (f : FunctionId) : Prop :=
  is_u16 (requester_id f) ∧ is_u8 (requester_segment f) ∧
  (requester_segment_valid f = false → requester_segment f = 0).
Definition FunctionId_wire (f : FunctionId) : bytes :=
  le_bytes 2 (requester_id f) ++ le_bytes 1 (requester_segment f) ++
  le_bytes 1 (if requester_segment_valid f then 1 else 0).
#[export] Instance FunctionId_ok : TdispCodecOk FunctionId_codec FunctionId_wf FunctionId_wire.
Proof.
  assert (is_u8 0 ∧ is_u8 1 ∧ is_u16 0) as (?&?&?) by (by vm_compute).
  split; cbn [tdisp_encode tdisp_read FunctionId_codec].
  - intros [id segment valid] (Hi&Hs&Hv). cbn in Hi, Hs, Hv. destruct valid; cbn [requester_id requester_segment requester_segment_valid].
    + put_steps.
    + rewrite Hv by done. put_steps.
  - intros [id segment valid] (Hi&Hs&Hv). cbn in Hi, Hs, Hv. destruct valid.
    + eapply reads_eq; [get id; get segment; get 1; apply reads_ret|done|done].
    + rewrite Hv by done. eapply reads_eq; [get id; get 0; get 0; apply reads_ret|done|done].
  - skim.
Qed.

Lemma zeros_ok : is_u8 0 ∧ is_u16 0 ∧ is_u32 0 ∧ is_uint 24 0 ∧ is_u8 PROTOCOL_ID.
Proof. by vm_compute. Qed.
(** The reserved fields. *)
#[local] Hint Extern 1 (is_uint _ 0) => (apply zeros_ok) : codec.
#[local] Hint Extern 1 (is_uint 8 PROTOCOL_ID) => (apply zeros_ok) : codec.

#[export] Instance InterfaceId_ok :
  TdispCodecOk InterfaceId_codec FunctionId_wf (λ i, FunctionId_wire i ++ le_bytes 4 0).
Proof.
  split; cbn [tdisp_encode tdisp_read InterfaceId_codec].
  - intros i Hi. put_steps.
  - intros i Hi. eapply reads_eq; [get i; get 0; apply reads_ret|by rewrite app_nil_r|done].
  - skim.
Qed.

Definition TdispMessageHeader_wf (h : TdispMessageHeader) : Prop :=
  is_u8 (tdisp_version h) ∧
  enum_wf 8 TdispRequestResponseCode_get_u8 TdispRequestResponseCode_from_u8 (message_type h) ∧
  FunctionId_wf (interface_id h).
Definition TdispMessageHeader_wire (h : TdispMessageHeader) : bytes :=
  le_bytes 1 (tdisp_version h) ++ le_bytes 1 (TdispRequestResponseCode_get_u8 (message_type h)) ++
  le_bytes 2 0 ++ FunctionId_wire (interface_id h) ++ le_bytes 4 0.
#[export] Instance TdispMessageHeader_ok :
  TdispCodecOk TdispMessageHeader_codec TdispMessageHeader_wf TdispMessageHeader_wire.
Proof.
  split; cbn [tdisp_encode tdisp_read TdispMessageHeader_codec].
  - intros h (Hv&Ht&Hi). put_steps.
  - intros h (Hv&Ht&Hi). eapply reads_eq.
    + get (tdisp_version h). get (message_type h). get 0. get (interface_id h). apply reads_ret.
    + by rewrite app_nil_r.
    + by destruct h.
  - skim.
Qed.

#[export] Instance TdispMessage_ok {T} (c : TdispCodec T) wf wire `{!TdispCodecOk c wf wire} :
  TdispCodecOk (TdispMessage_codec c)
    (λ m, TdispMessageHeader_wf (tdisp_message_header m) ∧ wf (tdisp_message_payload m))
    (λ m, le_bytes 1 PROTOCOL_ID ++ TdispMessageHeader_wire (tdisp_message_header m) ++
          wire (tdisp_message_payload m)).
Proof.
  split; cbn [tdisp_encode tdisp_read TdispMessage_codec].
  - intros m (Hh&Hp). put_steps.
  - intros m (Hh&Hp). eapply reads_eq.
    + get 1. get (tdisp_message_header m). get (tdisp_message_payload m). apply reads_ret.
    + by rewrite app_nil_r.
    + by destruct m.
  - skim.
Qed.

Definition ResponseVersion_wf (v : MessagePayloadResponseVersion) : Prop :=
  is_u8 (version_num_count v) ∧
  array_wf (Z.to_nat (version_num_count v)) MAX_VERSION_COUNT (version_num_entry v).
#[export] Instance MessagePayloadResponseVersion_ok :
  TdispCodecOk MessagePayloadResponseVersion_codec ResponseVersion_wf
    (λ v, le_bytes 1 (version_num_count v) ++
          take (Z.to_nat (version_num_count v)) (version_num_entry v)).
Proof.
  split; cbn [tdisp_encode tdisp_read MessagePayloadResponseVersion_codec].
  - intros v (Hc&He). put_steps.
  - intros v (Hc&He). eapply reads_eq.
    + get (version_num_count v). get (version_num_entry v). apply reads_ret.
    + by rewrite app_nil_r.
    + by destruct v.
  - skim.
Qed.

(** A payload that is one field. *)
Lemma plain_payload_ok {A} (base : Codec A) wf wire `{!CodecOk base wf wire} (c : TdispCodec A) :
  c = {| tdisp_encode v := put base v; tdisp_read := read base |} → TdispCodecOk c wf wire.
Proof.
  intros ->. split; cbn [tdisp_encode tdisp_read].
  - intros v Hv. by eapply put_ok.
  - intros v Hv. by apply read_ok.
  - by eapply parser_any.
Qed.
#[export] Instance MessagePayloadRequestGetCapabilities_ok :
  TdispCodecOk MessagePayloadRequestGetCapabilities_codec is_u32 (le_bytes 4).
Proof. exact (plain_payload_ok u32_codec _ _ _ eq_refl). Qed.
#[export] Instance MessagePayloadResponseLockInterface_ok :
  TdispCodecOk MessagePayloadResponseLockInterface_codec (is_uint 128) (le_bytes 16).
Proof. exact (plain_payload_ok u128_codec _ _ _ eq_refl). Qed.
#[export] Instance MessagePayloadRequestBindP2pStream_ok :
  TdispCodecOk MessagePayloadRequestBindP2pStream_codec is_u8 (le_bytes 1).
Proof. exact (plain_payload_ok u8_codec _ _ _ eq_refl). Qed.
#[export] Instance MessagePayloadRequestUnbindP2pStream_ok :
  TdispCodecOk MessagePayloadRequestUnbindP2pStream_codec is_u8 (le_bytes 1).
Proof. exact (plain_payload_ok u8_codec _ _ _ eq_refl). Qed.
#[export] Instance MessagePayloadResponseDeviceInterfaceState_ok :
  TdispCodecOk MessagePayloadResponseDeviceInterfaceState_codec
    (enum_wf 8 TDIState_get_u8 TDIState_from_u8) (λ s, le_bytes 1 (TDIState_get_u8 s)).
Proof. exact (plain_payload_ok TDIState_codec _ _ _ eq_refl). Qed.

Definition exact_wf (mask v : Z) : Prop := is_u16 v ∧ Z.land v mask = v.
#[export] Instance exact_flags_ok mask :
  TdispCodecOk (exact_flags u16_codec mask) (exact_wf mask) (le_bytes 2).
Proof.
  split; cbn [tdisp_encode tdisp_read exact_flags].
  - intros v [Hv _]. put_steps.
  - intros v [Hv Hm]. eapply reads_eq; [get v; rewrite Hm, Z.eqb_refl; apply reads_ret|by rewrite app_nil_r|done].
  - skim.
Qed.
#[local] Instance LockInterfaceFlag_ok :
  TdispCodecOk LockInterfaceFlag_codec (exact_wf LockInterfaceFlag_ALL) (le_bytes 2) :=
  exact_flags_ok _.
#[local] Instance InterfaceInfo_ok :
  TdispCodecOk InterfaceInfo_codec (exact_wf 0x1F) (le_bytes 2) := exact_flags_ok _.
#[local] Instance MMIORangeAttribute_ok :
  TdispCodecOk MMIORangeAttribute_codec (exact_wf 0x1F) (le_bytes 2) := exact_flags_ok _.

Definition ResponseCapabilities_wf (v : MessagePayloadResponseCapabilities) : Prop :=
  is_u32 (dsm_caps v) ∧ is_uint 128 (req_msgs_supported v) ∧
  is_u16 (lock_interface_flags_supported v) ∧ is_u8 (dev_addr_width v) ∧
  is_u8 (num_req_this v) ∧ is_u8 (num_req_all v).
#[export] Instance MessagePayloadResponseCapabilities_ok :
  TdispCodecOk MessagePayloadResponseCapabilities_codec ResponseCapabilities_wf
    (λ v, le_bytes 4 (dsm_caps v) ++ le_bytes 16 (req_msgs_supported v) ++
          le_bytes 2 (lock_interface_flags_supported v) ++ le_bytes 3 0 ++
          le_bytes 1 (dev_addr_width v) ++ le_bytes 1 (num_req_this v) ++
          le_bytes 1 (num_req_all v)).
Proof.
  split; cbn [tdisp_encode tdisp_read MessagePayloadResponseCapabilities_codec].
  - intros v (?&?&?&?&?&?). put_steps.
  - intros v (?&?&?&?&?&?). eapply reads_eq.
    + get (dsm_caps v). get (req_msgs_supported v). get (lock_interface_flags_supported v). get 0.
      get (dev_addr_width v). get (num_req_this v). get (num_req_all v). apply reads_ret.
    + by rewrite app_nil_r.
    + by destruct v.
  - skim.
Qed.

Definition RequestLockInterface_wf (v : MessagePayloadRequestLockInterface) : Prop :=
  exact_wf LockInterfaceFlag_ALL (lock_flags v) ∧ is_u8 (stream_id_for_default_stream v) ∧
  is_u64 (mmio_reporting_offset v) ∧ is_u64 (bind_p2p_address_mask v).
#[export] Instance MessagePayloadRequestLockInterface_ok :
  TdispCodecOk MessagePayloadRequestLockInterface_codec RequestLockInterface_wf
    (λ v, le_bytes 2 (lock_flags v) ++ le_bytes 1 (stream_id_for_default_stream v) ++
          le_bytes 1 0 ++ le_bytes 8 (mmio_reporting_offset v) ++
          le_bytes 8 (bind_p2p_address_mask v)).
Proof.
  split; cbn [tdisp_encode tdisp_read MessagePayloadRequestLockInterface_codec].
  - intros v (?&?&?&?). put_steps.
  - intros v (?&?&?&?). eapply reads_eq.
    + get (lock_flags v). get (stream_id_for_default_stream v). get 0.
      get (mmio_reporting_offset v). get (bind_p2p_address_mask v). apply reads_ret.
    + by rewrite app_nil_r.
    + by destruct v.
  - skim.
Qed.

#[export] Instance MessagePayloadRequestGetDeviceInterfaceReport_ok :
  TdispCodecOk MessagePayloadRequestGetDeviceInterfaceReport_codec
    (λ v, is_u16 v.1 ∧ is_u16 v.2) (λ v, le_bytes 2 v.1 ++ le_bytes 2 v.2).
Proof.
  split; cbn [tdisp_encode tdisp_read MessagePayloadRequestGetDeviceInterfaceReport_codec].
  - intros v (?&?). put_steps.
  - intros v (?&?). eapply reads_eq; [get (v.1); get (v.2); apply reads_ret|by rewrite app_nil_r|by destruct v].
  - skim.
Qed.

Definition ResponseDeviceInterfaceReport_wf (v : MessagePayloadResponseDeviceInterfaceReport) : Prop :=
  is_u16 (report_portion_length v) ∧ is_u16 (report_reminder_length v) ∧
  array_wf (Z.to_nat (report_portion_length v)) MAX_MESSAGE_INTERNAL_BUFFER_SIZE (report_bytes v).
#[export] Instance MessagePayloadResponseDeviceInterfaceReport_ok :
  TdispCodecOk MessagePayloadResponseDeviceInterfaceReport_codec ResponseDeviceInterfaceReport_wf
    (λ v, le_bytes 2 (report_portion_length v) ++ le_bytes 2 (report_reminder_length v) ++
          take (Z.to_nat (report_portion_length v)) (report_bytes v)).
Proof.
  split; cbn [tdisp_encode tdisp_read MessagePayloadResponseDeviceInterfaceReport_codec].
  - intros v (?&?&?). put_steps.
  - intros v (?&?&?). eapply reads_eq.
    + get (report_portion_length v). get (report_reminder_length v). get (report_bytes v). apply reads_ret.
    + by rewrite app_nil_r.
    + by destruct v.
  - skim.
Qed.

Definition MMIORange_wf (v : MMIORange) : Prop :=
  is_u64 (first_4k_page_with_offset_added v) ∧ is_u32 (number_of_4k_pages v) ∧
  exact_wf 0x1F (range_attribute v) ∧ is_u16 (range_id v).
Definition MMIORange_wire (v : MMIORange) : bytes :=
  le_bytes 8 (first_4k_page_with_offset_added v) ++ le_bytes 4 (number_of_4k_pages v) ++
  le_bytes 2 (range_attribute v) ++ le_bytes 2 (range_id v).
#[export] Instance MMIORange_ok : TdispCodecOk MMIORange_codec MMIORange_wf MMIORange_wire.
Proof.
  split; cbn [tdisp_encode tdisp_read MMIORange_codec].
  - intros v (?&?&?&?). put_steps.
  - intros v (?&?&?&?). eapply reads_eq.
    + get (first_4k_page_with_offset_added v). get (number_of_4k_pages v). get (range_attribute v).
      get (range_id v). apply reads_ret.
    + by rewrite app_nil_r.
    + by destruct v.
  - skim.
Qed.
#[export] Instance MessagePayloadRequestSetMmioAttribute_ok :
  TdispCodecOk MessagePayloadRequestSetMmioAttribute_codec MMIORange_wf MMIORange_wire.
Proof. apply MMIORange_ok. Qed.

Definition TDIReport_wf (v : TDIReport) : Prop :=
  exact_wf 0x1F (interface_info v) ∧ is_u16 (msi_x_message_control v) ∧ is_u16 (lnr_control v) ∧
  is_u32 (tph_control v) ∧ is_u32 (mmio_range_count v) ∧
  filled MMIORange_default (Z.to_nat (mmio_range_count v)) MAX_MMIO_RANGE_COUNT (mmio_range v) ∧
  Forall MMIORange_wf (take (Z.to_nat (mmio_range_count v)) (mmio_range v)) ∧
  is_u32 (device_specific_info_len v) ∧
  array_wf (Z.to_nat (device_specific_info_len v)) MAX_DEVICE_SPECIFIC_INFORMATION_LENGTH
    (device_specific_info v).
Lemma put_ranges_ok l :
  Forall MMIORange_wf l →
  appends (put_all (tdisp_encode MMIORange_codec) l) (concat (map MMIORange_wire l)) tt.
Proof. intros Hl. apply put_all_ok. eapply Forall_impl; [|exact Hl]. intros x. apply tdisp_encode_ok. Qed.
Lemma read_ranges_ok n max l :
  filled MMIORange_default n max l → Forall MMIORange_wf (take n l) →
  reads (read_into (tdisp_read MMIORange_codec) n (replicate max MMIORange_default))
    (concat (map MMIORange_wire (take n l))) l.
Proof.
  intros Hf Hl. apply reads_read_into; [done|]. eapply Forall_impl; [|exact Hl].
  intros x. apply tdisp_read_ok.
Qed.
Lemma skim_ranges n arr : parser (read_into (tdisp_read MMIORange_codec) n arr) (λ _, True).
Proof.
  unfold read_into. eapply parser_bind; [apply parser_read_all, tdisp_parse_ok|].
  intros l _. by apply parser_ret.
Qed.
#[local] Hint Resolve put_ranges_ok read_ranges_ok skim_ranges : codec.
#[export] Instance TDIReport_ok :
  TdispCodecOk TDIReport_codec TDIReport_wf
    (λ v, le_bytes 2 (interface_info v) ++ le_bytes 2 (msi_x_message_control v) ++
          le_bytes 2 (lnr_control v) ++ le_bytes 4 (tph_control v) ++
          le_bytes 4 (mmio_range_count v) ++
          concat (map MMIORange_wire (take (Z.to_nat (mmio_range_count v)) (mmio_range v))) ++
          le_bytes 4 (device_specific_info_len v) ++
          take (Z.to_nat (device_specific_info_len v)) (device_specific_info v)).
Proof.
  split; cbn [tdisp_encode tdisp_read TDIReport_codec].
  - intros v (?&?&?&?&?&?&?&?&?). put_steps.
  - intros v (?&?&?&?&?&?&?&?&?). eapply reads_eq.
    + get (interface_info v). get (msi_x_message_control v). get (lnr_control v).
      get (tph_control v). get (mmio_range_count v). get (mmio_range v).
      get (device_specific_info_len v). get (device_specific_info v). apply reads_ret.
    + by rewrite app_nil_r.
    + by destruct v.
  - skim.
Qed.

#[export] Instance MessagePayloadRequestStartInterface_ok :
  TdispCodecOk MessagePayloadRequestStartInterface_codec
    (array_wf NONCE_LENGTH NONCE_LENGTH) (λ v, take NONCE_LENGTH v).
Proof.
  split; cbn [tdisp_encode tdisp_read MessagePayloadRequestStartInterface_codec].
  - intros v Hv. put_steps.
  - intros v Hv. by apply reads_read_array.
  - skim.
Qed.

#[export] Instance MessagePayloadVDM_ok :
  TdispCodecOk MessagePayloadVDM_codec
    (λ v, is_u8 (vdm_registry_id v) ∧ is_u8 (vdm_vendor_id_len v) ∧
          array_wf (Z.to_nat (vdm_vendor_id_len v)) MAX_VENDOR_ID_LEN (vdm_vendor_id v))
    (λ v, le_bytes 1 (vdm_registry_id v) ++ le_bytes 1 (vdm_vendor_id_len v) ++
          take (Z.to_nat (vdm_vendor_id_len v)) (vdm_vendor_id v)).
Proof.
  split; cbn [tdisp_encode tdisp_read MessagePayloadVDM_codec].
  - intros v (?&?&?). put_steps.
  - intros v (?&?&?). eapply reads_eq.
    + get (vdm_registry_id v). get (vdm_vendor_id_len v). get (vdm_vendor_id v). apply reads_ret.
    + by rewrite app_nil_r.
    + by destruct v.
  - skim.
Qed.

(** Errors other than vendor-specific ones have no extended data. *)
Definition ResponseTdispError_wf (v : MessagePayloadResponseTdispError) : Prop :=
  enum_wf 16 GenericErrorResponseCode_get_u16 GenericErrorResponseCode_from_u16 (error_code v) ∧
  is_u32 (error_data v) ∧
  let e := extended_error_data v in
  if decide (error_code v = VendorSpecificError) then
    is_u8 (registry_id e) ∧ is_u8 (vendor_id_len e) ∧
    array_wf (Z.to_nat (vendor_id_len e)) MAX_VENDOR_ID_LEN (vendor_id e) ∧
    array_wf (Z.to_nat (error_data v)) MAX_EXTENDED_ERROR_DATA_LENGTH (vendor_err_data e)
  else e = ExtendedErrorData_default.
Definition ResponseTdispError_wire (v : MessagePayloadResponseTdispError) : bytes :=
  let e := extended_error_data v in
  le_bytes 4 (GenericErrorResponseCode_get_u16 (error_code v)) ++ le_bytes 4 (error_data v) ++
  if decide (error_code v = VendorSpecificError) then
    le_bytes 1 (registry_id e) ++ le_bytes 1 (vendor_id_len e) ++
    take (Z.to_nat (vendor_id_len e)) (vendor_id e) ++
    take (Z.to_nat (error_data v)) (vendor_err_data e)
  else [].

Lemma le_bytes_prefix v : le_bytes 4 v = le_bytes 2 v ++ le_bytes 2 (Z.shiftr v 16).
Proof. simpl. by rewrite !Z.shiftr_shiftr by lia. Qed.

(** The code of an error is written as 32 bits, of which 16 are read back. *)
Lemma read_error_code c :
  enum_wf 16 GenericErrorResponseCode_get_u16 GenericErrorResponseCode_from_u16 c →
  reads (of_outcome (read_bytes GenericErrorResponseCode_codec
                       (le_bytes 4 (GenericErrorResponseCode_get_u16 c)))) [] c.
Proof.
  intros Hc r tl _. unfold of_outcome, read_bytes. rewrite le_bytes_prefix.
  rewrite (read_ok (c:=GenericErrorResponseCode_codec) c Hc _ (le_bytes 2 _)) by done.
  by rewrite Reader_advance_0.
Qed.

Lemma is_vendor_specific c :
  enum_wf 16 GenericErrorResponseCode_get_u16 GenericErrorResponseCode_from_u16 c →
  (GenericErrorResponseCode_get_u16 c =? GenericErrorResponseCode_get_u16 VendorSpecificError) =
  bool_decide (c = VendorSpecificError).
Proof.
  intros [_ Hc]. apply eq_bool_prop_intro. rewrite Is_true_true, Z.eqb_eq, bool_decide_spec.
  split; [|by intros ->]. intros Heq. by rewrite <- Hc, Heq.
Qed.

Lemma skim_error_code v :
  parser (of_outcome (read_bytes GenericErrorResponseCode_codec (le_bytes 4 v))) (λ _, True).
Proof.
  intros r Hr. exists 0%nat. eexists. rewrite Reader_advance_0. split; [done|]. split; [lia|].
  destruct (parser_any GenericErrorResponseCode_codec _ _ (Reader_init (le_bytes 4 v)))
    as (n&o&Heq&_&Ho); [split; [simpl; lia|apply le_bytes_u8]|].
  unfold read_bytes. by rewrite Heq.
Qed.
#[local] Hint Resolve skim_error_code : codec.

#[export] Instance MessagePayloadResponseTdispError_ok :
  TdispCodecOk MessagePayloadResponseTdispError_codec ResponseTdispError_wf
    ResponseTdispError_wire.
Proof.
  split; cbn [tdisp_encode tdisp_read MessagePayloadResponseTdispError_codec];
    unfold ResponseTdispError_wf, ResponseTdispError_wire.
  - intros v (Hc&?&He). pose proof Hc as [? _].
    assert (is_u32 (GenericErrorResponseCode_get_u16 (error_code v)))
      by (by eapply is_uint_weaken; [|done]).
    case_decide; [destruct He as (?&?&?&?)|]; put_steps.
  - intros v (Hc&?&He). pose proof Hc as [? _].
    assert (is_u32 (GenericErrorResponseCode_get_u16 (error_code v)))
      by (by eapply is_uint_weaken; [|done]).
    eapply reads_eq.
    + get (GenericErrorResponseCode_get_u16 (error_code v)). get (error_data v).
      eapply (reads_bind _ _ _ [] (extended_error_data v)).
      * rewrite is_vendor_specific by done.
        instantiate (1 := if decide (error_code v = VendorSpecificError) then _ else []).
        destruct (decide (error_code v = VendorSpecificError)) as [Hv|Hv];
          [rewrite bool_decide_true by done|rewrite bool_decide_false, He by done; apply reads_ret].
        destruct He as (?&?&?&?). eapply reads_eq.
        -- get (registry_id (extended_error_data v)). get (vendor_id_len (extended_error_data v)).
           get (vendor_id (extended_error_data v)). get (vendor_err_data (extended_error_data v)).
           apply reads_ret.
        -- by rewrite app_nil_r.
        -- by destruct (extended_error_data v).
      * apply (reads_bind _ _ _ [] _ _ (read_error_code _ Hc)). apply reads_ret.
    + by rewrite !app_nil_r.
    + by destruct v.
  - do 2 (eapply parser_bind; [eapply parser_any, _|intros ? _]).
    eapply (parser_bind _ _ (λ _, True)); [apply parser_if; intros _; skim|intros ? _]. skim.
Qed.

(** ** Round trip *)

(** The payloads of the protocol, each with the values of its fields that it can carry. *)
Inductive tdisp_payload : ∀ {T}, TdispCodec T → (T → Prop) → Prop :=
| payload_none : tdisp_payload empty_payload (λ _, True)
| payload_version : tdisp_payload MessagePayloadResponseVersion_codec ResponseVersion_wf
| payload_get_capabilities : tdisp_payload MessagePayloadRequestGetCapabilities_codec is_u32
| payload_capabilities :
    tdisp_payload MessagePayloadResponseCapabilities_codec ResponseCapabilities_wf
| payload_lock_request :
    tdisp_payload MessagePayloadRequestLockInterface_codec RequestLockInterface_wf
| payload_lock_response : tdisp_payload MessagePayloadResponseLockInterface_codec (is_uint 128)
| payload_get_report :
    tdisp_payload MessagePayloadRequestGetDeviceInterfaceReport_codec
      (λ v, is_u16 v.1 ∧ is_u16 v.2)
| payload_report_portion :
    tdisp_payload MessagePayloadResponseDeviceInterfaceReport_codec ResponseDeviceInterfaceReport_wf
| payload_report : tdisp_payload TDIReport_codec TDIReport_wf
| payload_state :
    tdisp_payload MessagePayloadResponseDeviceInterfaceState_codec
      (enum_wf 8 TDIState_get_u8 TDIState_from_u8)
| payload_start :
    tdisp_payload MessagePayloadRequestStartInterface_codec (array_wf NONCE_LENGTH NONCE_LENGTH)
| payload_bind : tdisp_payload MessagePayloadRequestBindP2pStream_codec is_u8
| payload_unbind : tdisp_payload MessagePayloadRequestUnbindP2pStream_codec is_u8
| payload_set_mmio : tdisp_payload MessagePayloadRequestSetMmioAttribute_codec MMIORange_wf
| payload_error : tdisp_payload MessagePayloadResponseTdispError_codec ResponseTdispError_wf
| payload_vdm :
    tdisp_payload MessagePayloadVDM_codec
      (λ v, is_u8 (vdm_registry_id v) ∧ is_u8 (vdm_vendor_id_len v) ∧
            array_wf (Z.to_nat (vdm_vendor_id_len v)) MAX_VENDOR_ID_LEN (vdm_vendor_id v)).

Lemma tdisp_payload_ok {T} (c : TdispCodec T) wf :
  tdisp_payload c wf → ∃ wire, TdispCodecOk c wf wire.
Proof. intros []; eexists; apply _. Qed.

(** C33: Every TDISP message survives the wire.  For each payload of the protocol, a message whose
    header and payload are well formed has wire bytes that begin with the protocol identifier;
    with room for them the encoder writes exactly these bytes, and reading any buffer that starts
    with them gives the message back. *)
Theorem tdisp_message_roundtrip {T} (c : TdispCodec T) wf (m : TdispMessage T) :
  tdisp_payload c wf →
  TdispMessageHeader_wf (tdisp_message_header m) → wf (tdisp_message_payload m) →
  ∃ out, head out = Some PROTOCOL_ID ∧
    ∀ buf rest, (length out ≤ length buf)%nat →
    ∃ w, tdisp_encode (TdispMessage_codec c) m (Writer_init buf) = (Ok tt, w) ∧
         Writer_used_slice w = out ∧
         (tdisp_read (TdispMessage_codec c) (Reader_init (out ++ rest))).1 = Ok m.
Proof.
  intros [wire Hc]%tdisp_payload_ok Hh Hp.
  exists (le_bytes 1 PROTOCOL_ID ++ TdispMessageHeader_wire (tdisp_message_header m) ++
          wire (tdisp_message_payload m)).
  split; [done|]. intros buf rest Hl.
  pose proof (tdisp_encode_ok (c:=TdispMessage_codec c) m (conj Hh Hp) (Writer_init buf)) as He.
  eexists. split_and!.
  - apply He; [unfold Writer_wf|unfold Writer_left]; simpl in Hl |- *; lia.
  - by apply Writer_init_append_used_slice.
  - by rewrite (tdisp_read_ok (c:=TdispMessage_codec c) m (conj Hh Hp) _ rest).
Qed.

(** The answer to GET_TDISP_VERSION. *)
Definition version_answer : TdispMessage MessagePayloadResponseVersion :=
  {| tdisp_message_header :=
       {| tdisp_version := 0x10; message_type := ResponseTdispVersion;
          interface_id := {| requester_id := 0x1234; requester_segment := 7;
                             requester_segment_valid := true |} |};
     tdisp_message_payload := {| version_num_count := 1; version_num_entry := [0x10; 0] |} |}.

Lemma tdisp_message_roundtrip_witness :
  ∃ out : bytes, head out = Some PROTOCOL_ID ∧
    ∀ buf rest, (length out ≤ length buf)%nat →
    ∃ w, tdisp_encode (TdispMessage_codec MessagePayloadResponseVersion_codec) version_answer
           (Writer_init buf) = (Ok tt, w) ∧
         Writer_used_slice w = out ∧
         (tdisp_read (TdispMessage_codec MessagePayloadResponseVersion_codec)
            (Reader_init (out ++ rest))).1 = Ok version_answer.
Proof.
  apply (tdisp_message_roundtrip MessagePayloadResponseVersion_codec ResponseVersion_wf).
  - constructor.
  - repeat split; done.
  - split; [done|]. apply (bool_decide_unpack _). by vm_compute.
Defined.
