(* ===== verification/TdispState.v ===== *)
(** Model of tdisp/src/context.rs, device.rs, common.rs, tdisp_responder/ and tdisp_requester/: the
    state machine of a TEE device interface (TDI), driven by the requests it receives inside
    vendor-defined SPDM messages.

    The crate is outside the cargo workspace and three things it names are not in the sources: the
    capacity of a vendor-defined payload under [spdmlib::config] ([payload_size]), the default
    value of its request codes ([default_code]) and the vendor-defined request that takes a plain
    session id ([VendorChannel]).  The size of the header in memory ([header_size]) is the
    compiler's.  They are parameters. *)

From S2P Require Import Prelude Codec Status Algo MsgNegotiate Opaque MsgSession Tdisp.

(** ** The device *)

(*@ tdisp/src/common.rs 7-17 InternalError *)
Inductive InternalError :=
| Succ | Unimpl | Violation | Unrecoverable | ErrStr (msg : bytes) | CustomErr.
Abbreviation TdispResult := (InternalError + unit)%type.

(*@ tdisp/src/device.rs 8-18 TdispConfiguration *)
Class TdispConfiguration := {
  tdisp_config : Type;
  init_config : tdisp_config → TdispResult * tdisp_config;
  lock_config : tdisp_config → TdispResult * tdisp_config;
  unlock_config : tdisp_config → TdispResult * tdisp_config;
  erase_confidential_config : tdisp_config → TdispResult * tdisp_config;
  track_config_changes : tdisp_config → TdispResult * tdisp_config;
}.

Section Model.
Context `{device : TdispConfiguration}.
Context (payload_size header_size : nat) (default_code : TdispRequestResponseCode).

(*@ tdisp/src/context.rs 14-31 TdispContext *)
Record TdispContext := {
  version_sel : Z;
  tdi : FunctionId;
  current_state : TDIState;
  configuration : tdisp_config;
  spdm_session_id : Z;
  request_message : bytes;
  request_code : TdispRequestResponseCode;
  response_message : bytes;
  response_code : TdispRequestResponseCode;
}.

Definition set_state (s : TDIState) (c : TdispContext) : TdispContext :=
  {| version_sel := version_sel c; tdi := tdi c; current_state := s;
     configuration := configuration c; spdm_session_id := spdm_session_id c;
     request_message := request_message c; request_code := request_code c;
     response_message := response_message c; response_code := response_code c |}.
Definition set_configuration (d : tdisp_config) (c : TdispContext) : TdispContext :=
  {| version_sel := version_sel c; tdi := tdi c; current_state := current_state c;
     configuration := d; spdm_session_id := spdm_session_id c;
     request_message := request_message c; request_code := request_code c;
     response_message := response_message c; response_code := response_code c |}.
Definition set_request (bs : bytes) (code : TdispRequestResponseCode) (c : TdispContext)
    : TdispContext :=
  {| version_sel := version_sel c; tdi := tdi c; current_state := current_state c;
     configuration := configuration c; spdm_session_id := spdm_session_id c;
     request_message := bs; request_code := code;
     response_message := response_message c; response_code := response_code c |}.
Definition set_response (bs : bytes) (code : TdispRequestResponseCode) (c : TdispContext)
    : TdispContext :=
  {| version_sel := version_sel c; tdi := tdi c; current_state := current_state c;
     configuration := configuration c; spdm_session_id := spdm_session_id c;
     request_message := request_message c; request_code := request_code c;
     response_message := bs; response_code := code |}.

(*@ tdisp/src/state_machine.rs 59-63 TdispStateMachine::new *)
Definition initial_state : TDIState := ConfigUnlocked.

(*@ tdisp/src/context.rs 34-53 TdispContext::new *)
Definition TdispContext_new (interface_id : FunctionId) (d : tdisp_config) (session : Z)
    : outcome InternalError TdispContext :=
  match init_config d with
  | (inr _, d') =>
      Ok {| version_sel := 0x10; tdi := interface_id; current_state := initial_state;
            configuration := d'; spdm_session_id := session;
            request_message := replicate MAX_TDISP_MESSAGE_SIZE 0;
            request_code := TdispCode_Unknown 0;
            response_message := replicate MAX_TDISP_MESSAGE_SIZE 0;
            response_code := TdispCode_Unknown 0 |}
  | (inl _, _) => Panic
  end.

(*@ tdisp/src/context.rs 55-58 TdispContext::zero_request_message *)
Definition zero_request_message : TdispContext → TdispContext :=
  set_request (replicate MAX_TDISP_MESSAGE_SIZE 0) (TdispCode_Unknown 0).
(*@ tdisp/src/context.rs 60-63 TdispContext::zero_response_message *)
Definition zero_response_message : TdispContext → TdispContext :=
  set_response (replicate MAX_TDISP_MESSAGE_SIZE 0) (TdispCode_Unknown 0).
(*@ tdisp/src/context.rs 65-68 TdispContext::zero_messages *)
Definition zero_messages (c : TdispContext) : TdispContext :=
  zero_response_message (zero_request_message c).

(** A call of the device. *)
Definition call {E} (op : tdisp_config → TdispResult * tdisp_config)
    : M TdispContext E TdispResult := λ c,
  let '(r, d) := op (configuration c) in (Ok r, set_configuration d c).
(** The same followed by [?]. *)
Definition call_ok (op : tdisp_config → TdispResult * tdisp_config)
    : M TdispContext InternalError unit :=
  let* r := call op in match r with inr _ => ret tt | inl e => throw e end.

(*@ tdisp/src/context.rs 71-81 TdispContext::to_state_config_unlocked *)
Definition to_state_config_unlocked : M TdispContext InternalError unit :=
  let* code := gets request_code in
  if decide (code ≠ RequestStopInterfaceRequest) then throw Violation
  else
    call_ok erase_confidential_config;;
    call_ok unlock_config;;
    modify (set_state ConfigUnlocked).

(*@ tdisp/src/context.rs 83-94 TdispContext::to_state_config_locked *)
Definition to_state_config_locked (from : TDIState) : M TdispContext InternalError unit :=
  let* code := gets request_code in
  if decide (from ≠ ConfigUnlocked ∨ code ≠ RequestLockInterfaceRequest) then throw Violation
  else
    call_ok lock_config;;
    modify (set_state ConfigLocked).

(*@ tdisp/src/context.rs 96-104 TdispContext::to_state_run *)
Definition to_state_run (from : TDIState) : M TdispContext InternalError unit :=
  let* code := gets request_code in
  if decide (from ≠ ConfigLocked ∨ code ≠ RequestStartInterfaceRequest) then throw Violation
  else modify (set_state Run).

(*@ tdisp/src/context.rs 106-109 TdispContext::to_state_error *)
Definition to_state_error : M TdispContext InternalError unit := modify (set_state Error).

(** ** The responder *)

(** Reads header and payload with one reader; both reads are tried. *)
Definition read_request {A} (payload : TdispCodec A) (bs : bytes)
    : M TdispContext SpdmStatus (option A) :=
  of_outcome
    ((let* h := attempt (tdisp_read TdispMessageHeader_codec) in
      let* p := attempt (tdisp_read payload) in
      ret match h, p with inr _, inr v => Some v | _, _ => None end) (Reader_init bs)).1.

(** The response with the given code and payload; its length stays 0. *)
Definition answer {A} (code : TdispRequestResponseCode) (payload : TdispCodec A) (v : A)
    : M TdispContext SpdmStatus sized :=
  let* c := gets (λ c, c) in
  let* (_, w) :=
    with_writer (replicate payload_size 0)
      (tdisp_encode TdispMessageHeader_codec
         {| tdisp_version := version_sel c; message_type := code; interface_id := tdi c |};;
       tdisp_encode payload v) in
  ret {| data_size := 0; data := wr_buf w |}.

(** The errors of tdisp_responder/mod.rs: a code without data. *)
(*@ tdisp/src/tdisp_responder/mod.rs 155-266 MESSAGE_PAYLOAD_RESPONSE_TDISP_ERROR_INVALID_REQUEST *)
Definition tdisp_error (code : GenericErrorResponseCode) : MessagePayloadResponseTdispError :=
  {| error_code := code; error_data := 0; extended_error_data := ExtendedErrorData_default |}.

(** The source also reads the header of the request here and does not use it. *)
(*@ tdisp/src/tdisp_responder/tdisp_error_rsp.rs 12-52 TdispResponder::handle_tdisp_error *)
Definition handle_tdisp_error (error : MessagePayloadResponseTdispError)
    : M TdispContext SpdmStatus sized :=
  let* response := answer ResponseTdispError MessagePayloadResponseTdispError_codec error in
  let* erased := call erase_confidential_config in
  match erased with
  | inr _ => modify (set_state Error);; ret response
  | inl _ => panic
  end.

(** [if tmh.is_none() || mpr.is_none() { error } else { k }]. *)
Definition on_request {A} (payload : TdispCodec A) (req : sized)
    (k : A → M TdispContext SpdmStatus sized) : M TdispContext SpdmStatus sized :=
  let* mpr := read_request payload (data req) in
  match mpr with
  | None => handle_tdisp_error (tdisp_error InvalidRequest)
  | Some v => k v
  end.

(** [else if current_state ... { error } else { k }]. *)
Definition unless_state (bad : TDIState → bool) (k : M TdispContext SpdmStatus sized)
    : M TdispContext SpdmStatus sized :=
  let* s := gets current_state in
  if bad s then handle_tdisp_error (tdisp_error InvalidInterfaceState) else k.

(** [match op() { Ok(_) => k, Err(_) => error }]. *)
Definition on_device (op : tdisp_config → TdispResult * tdisp_config)
    (k : M TdispContext SpdmStatus sized) : M TdispContext SpdmStatus sized :=
  let* r := call op in
  match r with
  | inr _ => k
  | inl _ => handle_tdisp_error (tdisp_error InvalidDeviceConfiguration)
  end.

(*@ tdisp/src/tdisp_responder/tdisp_version_rsp.rs 15-58 TdispResponder::handle_tdisp_version *)
Definition handle_tdisp_version (req : sized) : M TdispContext SpdmStatus sized :=
  on_request empty_payload req (λ _,
    let* version := gets version_sel in
    answer ResponseTdispVersion MessagePayloadResponseVersion_codec
      {| version_num_count := 1; version_num_entry := replicate MAX_VERSION_COUNT version |}).

(*@ tdisp/src/tdisp_responder/tdisp_capabilities_rsp.rs 12-57 TdispResponder::handle_tdisp_capabilities *)
Definition handle_tdisp_capabilities (req : sized) : M TdispContext SpdmStatus sized :=
  on_request MessagePayloadRequestGetCapabilities_codec req (λ _,
    answer ResponseTdispCapabilities MessagePayloadResponseCapabilities_codec
      {| dsm_caps := 0; req_msgs_supported := 0; lock_interface_flags_supported := 0;
         dev_addr_width := 0; num_req_this := 0; num_req_all := 0 |}).

(*@ tdisp/src/tdisp_responder/lock_interface_request_rsp.rs 42-105 TdispResponder::handle_lock_interface_request *)
Definition handle_lock_interface_request (req : sized) : M TdispContext SpdmStatus sized :=
  on_request MessagePayloadRequestLockInterface_codec req (λ _,
    unless_state (λ s, bool_decide (s ≠ ConfigUnlocked))
      (let* response :=
         answer ResponseLockInterfaceResponse MessagePayloadResponseLockInterface_codec 0 in
       on_device init_config
         (on_device lock_config (modify (set_state ConfigLocked);; ret response)))).

(*@ tdisp/src/tdisp_responder/device_interface_report_rsp.rs 21-71 TdispResponder::handle_device_interface_report *)
Definition handle_device_interface_report (req : sized) : M TdispContext SpdmStatus sized :=
  on_request MessagePayloadRequestGetDeviceInterfaceReport_codec req (λ _,
    unless_state (λ s, bool_decide (s ≠ Run) || bool_decide (s ≠ ConfigLocked))
      (answer ResponseDeviceInterfaceReport MessagePayloadResponseDeviceInterfaceReport_codec
         {| report_portion_length := 0; report_reminder_length := 0;
            report_bytes := replicate MAX_MESSAGE_INTERNAL_BUFFER_SIZE 0 |})).

(*@ tdisp/src/tdisp_responder/device_interface_state_rsp.rs 19-63 TdispResponder::handle_device_interface_state *)
Definition handle_device_interface_state (req : sized) : M TdispContext SpdmStatus sized :=
  on_request empty_payload req (λ _,
    let* s := gets current_state in
    answer ResponseDeviceInterfaceState MessagePayloadResponseDeviceInterfaceState_codec s).

(*@ tdisp/src/tdisp_responder/start_interface_request_rsp.rs 18-77 TdispResponder::handle_start_interface_request *)
Definition handle_start_interface_request (req : sized) : M TdispContext SpdmStatus sized :=
  on_request MessagePayloadRequestStartInterface_codec req (λ _,
    unless_state (λ s, bool_decide (s ≠ ConfigLocked))
      (let* response := answer ResponseStartInterfaceResponse empty_payload tt in
       on_device track_config_changes (modify (set_state Run);; ret response))).

(*@ tdisp/src/tdisp_responder/stop_interface_request_rsp.rs 23-84 TdispResponder::handle_stop_interface_request *)
Definition handle_stop_interface_request (req : sized) : M TdispContext SpdmStatus sized :=
  on_request empty_payload req (λ _,
    let* response := answer ResponseStopInterfaceResponse empty_payload tt in
    on_device erase_confidential_config
      (on_device unlock_config (modify (set_state ConfigUnlocked);; ret response))).

(*@ tdisp/src/tdisp_responder/bind_p2p_stream_request_rsp.rs 23-68 TdispResponder::handle_bind_p2p_stream_request *)
Definition handle_bind_p2p_stream_request (req : sized) : M TdispContext SpdmStatus sized :=
  on_request MessagePayloadRequestBindP2pStream_codec req (λ _,
    unless_state (λ s, bool_decide (s ≠ Run))
      (answer ResponseBindP2pStreamResponse empty_payload tt)).

(*@ tdisp/src/tdisp_responder/unbind_p2p_stream_request_rsp.rs 20-65 TdispResponder::handle_unbind_p2p_stream_request *)
Definition handle_unbind_p2p_stream_request (req : sized) : M TdispContext SpdmStatus sized :=
  on_request MessagePayloadRequestUnbindP2pStream_codec req (λ _,
    unless_state (λ s, bool_decide (s ≠ Run))
      (answer ResponseUnbindP2pStreamResponse empty_payload tt)).

(*@ tdisp/src/tdisp_responder/set_mmio_attribute_request_rsp.rs 23-68 TdispResponder::handle_set_mmio_attribute_request *)
Definition handle_set_mmio_attribute_request (req : sized) : M TdispContext SpdmStatus sized :=
  on_request MessagePayloadRequestSetMmioAttribute_codec req (λ _,
    unless_state (λ s, bool_decide (s ≠ Run))
      (answer ResponseSetMmioAttributeResponse empty_payload tt)).

(*@ tdisp/src/tdisp_responder/vdm_response.rs 11-53 TdispResponder::handle_vdm_request *)
Definition handle_vdm_request (req : sized) : M TdispContext SpdmStatus sized :=
  on_request MessagePayloadVDM_codec req (λ _,
    answer ResponseVdmResponse MessagePayloadVDM_codec
      {| vdm_registry_id := 0; vdm_vendor_id_len := 0;
         vdm_vendor_id := replicate MAX_VENDOR_ID_LEN 0 |}).

(** The handler of each request. *)
Definition handler_of (code : TdispRequestResponseCode) (req : sized)
    : M TdispContext SpdmStatus sized :=
  match code with
  | RequestGetTdispVersion => handle_tdisp_version req
  | RequestGetTdispCapabilities => handle_tdisp_capabilities req
  | RequestLockInterfaceRequest => handle_lock_interface_request req
  | RequestGetDeviceInterfaceReport => handle_device_interface_report req
  | RequestGetDeviceInterfaceState => handle_device_interface_state req
  | RequestStartInterfaceRequest => handle_start_interface_request req
  | RequestStopInterfaceRequest => handle_stop_interface_request req
  | RequestBindP2pStreamRequest => handle_bind_p2p_stream_request req
  | RequestUnbindP2pStreamRequest => handle_unbind_p2p_stream_request req
  | RequestSetMmioAttributeRequest => handle_set_mmio_attribute_request req
  | RequestVdmRequest => handle_vdm_request req
  | _ => throw SPDM_STATUS_INVALID_MSG_FIELD
  end.

(** [TDISP_RESPONDER.as_mut().unwrap()]. *)
Definition with_responder {A} (c : M TdispContext SpdmStatus A)
    : M (option TdispContext) SpdmStatus A := λ s,
  match s with
  | Some r => let '(o, r') := c r in (o, Some r')
  | None => (Panic, None)
  end.

(** The state is the static [TDISP_RESPONDER]. *)
(*@ tdisp/src/tdisp_responder/mod.rs 43-135 vendor_defined_request_handler *)
Definition vendor_defined_request_handler (req : sized)
    : M (option TdispContext) SpdmStatus sized :=
  let* responder := gets (λ s, s) in
  if bool_decide (data_size req < header_size)%nat then throw SPDM_STATUS_INVALID_MSG_FIELD
  else if bool_decide (responder = None) then throw SPDM_STATUS_INVALID_MSG_FIELD
  else
    match (tdisp_read TdispMessageHeader_codec (Reader_init (data req))).1 with
    | Ok tmh => with_responder (handler_of (message_type tmh) req)
    | Err _ => throw SPDM_STATUS_INVALID_MSG_FIELD
    | Panic => panic
    end.

(*@ tdisp/src/tdisp_responder/mod.rs 137-151 TdispResponder::new *)
Definition TdispResponder_new : FunctionId → tdisp_config → Z → outcome InternalError TdispContext :=
  TdispContext_new.

(** ** The requester *)

Section Requester.
(** [RequesterContext::send_spdm_vendor_defined_request] with the session, the registry, the
    vendor id and the payload. *)
Context {spdm : Type}.
Context (send_spdm_vendor_defined_request :
  Z → RegistryOrStandardsBodyID → sized → sized → M spdm SpdmStatus sized).

(*@ tdisp/src/common.rs 21-24 PCI_VENDOR_ID_STRUCT *)
Definition PCI_VENDOR_ID_STRUCT : sized :=
  {| data_size := 0; data := replicate MAX_SPDM_VENDOR_DEFINED_VENDOR_ID_LEN 0 |}.

(** [TdispMessage::<T>::default()] with the interface and the version filled in. *)
Definition request_message_of {A} (c : TdispContext) (v : A) : TdispMessage A :=
  {| tdisp_message_header :=
       {| tdisp_version := version_sel c; message_type := default_code; interface_id := tdi c |};
     tdisp_message_payload := v |}.

(** [a.copy_from_slice(bs)] for an array of [MAX_TDISP_MESSAGE_SIZE] bytes. *)
Definition message_slice {S} (bs : bytes) : M S InternalError bytes :=
  if bool_decide (length bs = MAX_TDISP_MESSAGE_SIZE) then ret bs else panic.

(** The body that the eleven requests share. *)
(*@ tdisp/src/tdisp_requester/lock_interface_request_req.rs 23-77 TdispRequester::send_receive_lock_interface_request *)
Definition send_receive {A} (payload : TdispCodec A) (v : A)
    (request response : TdispRequestResponseCode) : M (TdispContext * spdm) InternalError unit :=
  let* c := gets fst in
  let* (_, w) :=
    map_err (λ _, Unrecoverable)
      (with_writer (replicate payload_size 0)
         (tdisp_encode (TdispMessage_codec payload) (request_message_of c v))) in
  if bool_decide (wr_offs w ≤ Z.to_nat 0xFFFF)%nat then
    let* bs := message_slice (wr_buf w) in
    modify (λ s, (set_request bs request s.1, s.2));;
    let* r := attempt (on_snd (send_spdm_vendor_defined_request (spdm_session_id c)
                        Registry_PCISIG PCI_VENDOR_ID_STRUCT
                        {| data_size := wr_offs w; data := wr_buf w |})) in
    match r with
    | inr vdrp =>
        modify (λ s, (set_response (response_message s.1) response s.1, s.2));;
        let* bs := message_slice (data vdrp) in
        modify (λ s, (set_response bs response s.1, s.2))
    | inl _ => throw Unrecoverable
    end
  else panic.

(*@ tdisp/src/tdisp_requester/get_tdisp_version_req.rs 23-77 TdispRequester::send_receive_get_tdisp_version *)
Definition send_receive_get_tdisp_version :=
  send_receive empty_payload tt RequestGetTdispVersion ResponseTdispVersion.
(*@ tdisp/src/tdisp_requester/get_tdisp_capabilities_req.rs 23-77 TdispRequester::send_receive_get_tdisp_capabilities *)
Definition send_receive_get_tdisp_capabilities :=
  send_receive MessagePayloadRequestGetCapabilities_codec 0
    RequestGetTdispCapabilities ResponseTdispCapabilities.
(*@ tdisp/src/tdisp_requester/lock_interface_request_req.rs 23-77 TdispRequester::send_receive_lock_interface_request *)
Definition send_receive_lock_interface_request :=
  send_receive MessagePayloadRequestLockInterface_codec
    {| lock_flags := 0; stream_id_for_default_stream := 0; mmio_reporting_offset := 0;
       bind_p2p_address_mask := 0 |} RequestLockInterfaceRequest ResponseLockInterfaceResponse.
(*@ tdisp/src/tdisp_requester/get_device_interface_report_req.rs 25-80 TdispRequester::send_receive_get_device_interface_report *)
Definition send_receive_get_device_interface_report :=
  send_receive MessagePayloadRequestGetDeviceInterfaceReport_codec (0, 0)
    RequestGetDeviceInterfaceReport ResponseDeviceInterfaceReport.
(*@ tdisp/src/tdisp_requester/get_device_interface_state_req.rs 25-80 TdispRequester::send_receive_get_device_interface_state *)
Definition send_receive_get_device_interface_state :=
  send_receive empty_payload tt RequestGetDeviceInterfaceState ResponseDeviceInterfaceState.
(*@ tdisp/src/tdisp_requester/start_interface_request_req.rs 23-77 TdispRequester::send_receive_start_interface *)
Definition send_receive_start_interface :=
  send_receive MessagePayloadRequestStartInterface_codec (replicate NONCE_LENGTH 0)
    RequestStartInterfaceRequest ResponseStartInterfaceResponse.
(*@ tdisp/src/tdisp_requester/stop_interface_request_req.rs 23-77 TdispRequester::send_receive_stop_interface *)
Definition send_receive_stop_interface :=
  send_receive empty_payload tt RequestStopInterfaceRequest ResponseStopInterfaceResponse.
(*@ tdisp/src/tdisp_requester/bind_p2p_stream_request_req.rs 23-77 TdispRequester::send_receive_bind_p2p_stream *)
Definition send_receive_bind_p2p_stream :=
  send_receive MessagePayloadRequestBindP2pStream_codec 0
    RequestBindP2pStreamRequest ResponseBindP2pStreamResponse.
(*@ tdisp/src/tdisp_requester/unbind_p2p_stream_request_req.rs 23-77 TdispRequester::send_receive_unbind_p2p_stream *)
Definition send_receive_unbind_p2p_stream :=
  send_receive MessagePayloadRequestUnbindP2pStream_codec 0
    RequestUnbindP2pStreamRequest ResponseUnbindP2pStreamResponse.
(*@ tdisp/src/tdisp_requester/set_mmio_attribute_request_req.rs 23-77 TdispRequester::send_receive_set_mmio_attribute *)
Definition send_receive_set_mmio_attribute :=
  send_receive MessagePayloadRequestSetMmioAttribute_codec MMIORange_default
    RequestSetMmioAttributeRequest ResponseSetMmioAttributeResponse.
(*@ tdisp/src/tdisp_requester/vdm_request.rs 23-76 TdispRequester::send_receive_vdm_request *)
Definition send_receive_vdm_request :=
  send_receive MessagePayloadVDM_codec
    {| vdm_registry_id := 0; vdm_vendor_id_len := 0;
       vdm_vendor_id := replicate MAX_VENDOR_ID_LEN 0 |} RequestVdmRequest ResponseVdmResponse.

End Requester.
End Model.
