(* ===== verification/TdispProofs.v ===== *)
(** What the TDISP responder does with any request: the automaton of interface states that it
    implements, the confidential configuration it erases, how an interface is brought to work, and
    two requests that never succeed. *)

From stdpp Require Import relations.
From S2P Require Import Prelude Codec Status Algo MsgNegotiate Opaque MsgSession Tdisp TdispState.

(** ** The automaton of interface states *)

(** The requests that are answered in every state, and those that need a running interface. *)
Inductive tdi_query : TdispRequestResponseCode → TdispRequestResponseCode → Prop :=
| query_version : tdi_query RequestGetTdispVersion ResponseTdispVersion
| query_capabilities : tdi_query RequestGetTdispCapabilities ResponseTdispCapabilities
| query_state : tdi_query RequestGetDeviceInterfaceState ResponseDeviceInterfaceState
| query_vdm : tdi_query RequestVdmRequest ResponseVdmResponse.
Inductive tdi_running : TdispRequestResponseCode → TdispRequestResponseCode → Prop :=
| running_bind : tdi_running RequestBindP2pStreamRequest ResponseBindP2pStreamResponse
| running_unbind : tdi_running RequestUnbindP2pStreamRequest ResponseUnbindP2pStreamResponse
| running_mmio : tdi_running RequestSetMmioAttributeRequest ResponseSetMmioAttributeResponse.

(** [tdi_step s q a s']: in state [s] request [q] is answered with [a] and leads to [s']. *)
Inductive tdi_step : TDIState → TdispRequestResponseCode → TdispRequestResponseCode → TDIState → Prop :=
| step_query s q a : tdi_query q a → tdi_step s q a s
| step_running q a : tdi_running q a → tdi_step Run q a Run
| step_lock :
    tdi_step ConfigUnlocked RequestLockInterfaceRequest ResponseLockInterfaceResponse ConfigLocked
| step_start :
    tdi_step ConfigLocked RequestStartInterfaceRequest ResponseStartInterfaceResponse Run
| step_stop s :
    tdi_step s RequestStopInterfaceRequest ResponseStopInterfaceResponse ConfigUnlocked
| step_fail s q : tdi_step s q ResponseTdispError Error.
Create HintDb tdisp.
#[local] Hint Constructors tdi_query tdi_running tdi_step : tdisp.

(** The code of a message. *)
Definition code_of (bs : bytes) : option TdispRequestResponseCode :=
  match (tdisp_read TdispMessageHeader_codec (Reader_init bs)).1 with
  | Ok h => Some (message_type h)
  | _ => None
  end.

Section Responder.
Context `{device : TdispConfiguration}.
Context (payload_size header_size : nat).
(** The longest response is the one with the capabilities. *)
Context (room : (40 ≤ payload_size)%nat).

Abbreviation handler := (vendor_defined_request_handler payload_size header_size).

(** *** Reading requests and writing responses *)

Lemma attempt_parser {E A} (c : M Reader unit A) (r : Reader) :
  parser c (λ _, True) → Reader_wf r → ∃ o r', attempt (E':=E) c r = (Ok o, r') ∧ Reader_wf r'.
Proof.
  intros Hc Hr. destruct (Hc r Hr) as (n&[a|e|]&Heq&Hn&Ho); [| |done];
    unfold attempt; rewrite Heq; do 2 eexists; (split; [done|by apply Reader_advance_wf]).
Qed.

Lemma read_request_returns {A} (c : TdispCodec A) wf wire `{!TdispCodecOk c wf wire} bs cx :
  Forall is_u8 bs → ∃ o, read_request c bs cx = (Ok o, cx).
Proof.
  intros Hbs. unfold read_request, of_outcome.
  destruct (attempt_parser (E:=SpdmStatus) (tdisp_read TdispMessageHeader_codec) (Reader_init bs))
    as (h&r&Hh&Hr); [apply tdisp_parse_ok|by split; [simpl; lia|]|].
  destruct (attempt_parser (E:=SpdmStatus) (tdisp_read c) r) as (p&r'&Hp&_); [apply tdisp_parse_ok|done|].
  rewrite (bind_step _ _ _ _ _ Hh), (bind_step _ _ _ _ _ Hp). by eexists.
Qed.

Lemma read_request_some {A} (c : TdispCodec A) wf wire `{!TdispCodecOk c wf wire} h v rest cx :
  TdispMessageHeader_wf h → wf v →
  read_request c (TdispMessageHeader_wire h ++ wire v ++ rest) cx = (Ok (Some v), cx).
Proof.
  intros Hh Hv. unfold read_request, of_outcome.
  set (r := Reader_init _).
  assert (attempt (E':=SpdmStatus) (tdisp_read TdispMessageHeader_codec) r =
          (Ok (inr h), Reader_advance r (length (TdispMessageHeader_wire h)))) as H1.
  { unfold attempt. by rewrite (tdisp_read_ok h Hh r (wire v ++ rest)). }
  rewrite (bind_step _ _ _ _ _ H1). set (r1 := Reader_advance _ _).
  assert (attempt (E':=SpdmStatus) (tdisp_read c) r1 =
          (Ok (inr v), Reader_advance r1 (length (wire v)))) as H2.
  { unfold attempt. rewrite (tdisp_read_ok v Hv r1 rest); [done|]. by apply Reader_input_advance. }
  by rewrite (bind_step _ _ _ _ _ H2).
Qed.

(** The states of the protocol, and those in which the device must hold no confidential data. *)
Definition known (s : TDIState) : Prop := match s with TDIState_Unknown _ => False | _ => True end.
Definition cleared (s : TDIState) : Prop :=
  match s with ConfigUnlocked | Error => True | _ => False end.

(** What every context keeps. *)
Definition context_wf (c : TdispContext) : Prop :=
  version_sel c = 0x10 ∧ FunctionId_wf (tdi c) ∧
  known (current_state c).

Lemma header_length h : length (TdispMessageHeader_wire h) = 12%nat.
Proof. done. Qed.

Lemma answer_written {A} code (c : TdispCodec A) wf wire `{!TdispCodecOk c wf wire} v cx :
  enum_wf 8 TdispRequestResponseCode_get_u8 TdispRequestResponseCode_from_u8 code → wf v →
  (12 + length (wire v) ≤ payload_size)%nat → context_wf cx →
  let h := {| tdisp_version := version_sel cx; message_type := code; interface_id := tdi cx |} in
  ∃ rest, answer payload_size code c v cx =
    (Ok {| data_size := 0; data := TdispMessageHeader_wire h ++ wire v ++ rest |}, cx).
Proof.
  intros Hcode Hv Hl (Hver&Hid&_) h.
  assert (TdispMessageHeader_wf h) as Hh by (split_and!; [simpl; by rewrite Hver|done|done]).
  pose proof (appends_bind _ (λ _, tdisp_encode c v) _ _ _ _ (tdisp_encode_ok h Hh)
                (tdisp_encode_ok v Hv)) as Happ.
  apply (with_writer_append (S:=TdispContext) (replicate payload_size 0) _ _ _ cx) in Happ as Hw;
    [|rewrite length_app, length_replicate; exact Hl].
  unfold answer. rewrite (bind_step _ _ cx cx cx) by done. cbv beta.
  rewrite (bind_step _ _ _ _ _ Hw). by eexists.
Qed.

Lemma code_of_wire h rest :
  TdispMessageHeader_wf h → code_of (TdispMessageHeader_wire h ++ rest) = Some (message_type h).
Proof. intros Hh. unfold code_of. by rewrite (tdisp_read_ok h Hh _ rest). Qed.

Lemma tdisp_answered {A} code (c : TdispCodec A) wf wire `{!TdispCodecOk c wf wire} v cx :
  enum_wf 8 TdispRequestResponseCode_get_u8 TdispRequestResponseCode_from_u8 code → wf v →
  (12 + length (wire v) ≤ payload_size)%nat → context_wf cx →
  ∃ rsp, answer payload_size code c v cx = (Ok rsp, cx) ∧ code_of (data rsp) = Some code.
Proof.
  intros Hcode Hv Hl Hcx. destruct (answer_written code c wf wire v cx Hcode Hv Hl Hcx) as [rest Ha].
  eexists. split; [exact Ha|]. destruct Hcx as (Hver&Hid&_). cbn [data].
  rewrite code_of_wire; [done|]. split_and!; [cbn; by rewrite Hver|done|done].
Qed.

(** *** The specification of a handler *)

(** [clean d]: the device holds no confidential configuration. *)
Context (clean : tdisp_config → Prop).
Class DeviceLaws : Prop := {
  erase_clean d d' : erase_confidential_config d = (inr tt, d') → clean d';
  unlock_clean d d' : clean d → unlock_config d = (inr tt, d') → clean d';
  init_clean d d' : init_config d = (inr tt, d') → clean d';
}.
Context (laws : DeviceLaws).

Definition secure (c : TdispContext) : Prop :=
  context_wf c ∧ (cleared (current_state c) → clean (configuration c)).

(** A request [q] on interface [id] in state [s] ends well: the response is the one of the
    automaton, or the device could not be erased and the responder stopped. *)
Definition ends_well (id : FunctionId) (s : TDIState) (q : TdispRequestResponseCode)
    (r : outcome SpdmStatus sized * TdispContext) : Prop :=
  match r with
  | (Ok rsp, cx') =>
      secure cx' ∧ tdi cx' = id ∧
      ∃ a, code_of (data rsp) = Some a ∧ tdi_step s q a (current_state cx')
  | (Err _, _) => False
  | (Panic, _) => ∃ d e d', erase_confidential_config d = (inl e, d')
  end.

Lemma context_wf_device d cx : context_wf cx → context_wf (set_configuration d cx).
Proof. done. Qed.
Lemma context_wf_state s cx :
  known s → context_wf cx → context_wf (set_state s cx).
Proof. intros Hs (?&?&_). by split_and!. Qed.

(** The step that only answers. *)
Lemma answer_ends_well {A} code (c : TdispCodec A) wf wire `{!TdispCodecOk c wf wire} v cx s q :
  enum_wf 8 TdispRequestResponseCode_get_u8 TdispRequestResponseCode_from_u8 code → wf v →
  (12 + length (wire v) ≤ payload_size)%nat → secure cx → tdi_step s q code (current_state cx) →
  ends_well (tdi cx) s q (answer payload_size code c v cx).
Proof.
  intros Hcode Hv Hl [Hcx Hc] Hstep.
  destruct (tdisp_answered code c wf wire v cx Hcode Hv Hl Hcx) as (rsp&->&Hrsp).
  split; [done|]. split; [done|]. by exists code.
Qed.

Lemma error_ends_well e cx s q :
  e ≠ VendorSpecificError →
  enum_wf 16 GenericErrorResponseCode_get_u16 GenericErrorResponseCode_from_u16 e →
  context_wf cx → ends_well (tdi cx) s q (handle_tdisp_error payload_size (tdisp_error e) cx).
Proof.
  intros He Hwf Hcx.
  destruct (tdisp_answered ResponseTdispError MessagePayloadResponseTdispError_codec _ _
              (tdisp_error e) cx) as (rsp&Ha&Hrsp); [done|..|done|].
  { split_and!; [done|done|]. by rewrite decide_False. }
  { unfold ResponseTdispError_wire. cbn [error_code tdisp_error]. rewrite decide_False by done.
    cbn. lia. }
  unfold handle_tdisp_error. rewrite (bind_step _ _ _ _ _ Ha). unfold bind, call.
  destruct (erase_confidential_config (configuration cx)) as [[err|[]] d'] eqn:Herase; [by do 3 eexists|].
  cbn. split; [|split; [done|]].
  - split; [by apply context_wf_state|]. intros _.
    by eapply erase_clean.
  - exists ResponseTdispError. split; [done|constructor].
Qed.

Lemma on_request_ends_well {A} (c : TdispCodec A) wf wire `{!TdispCodecOk c wf wire} req k cx s q :
  Forall is_u8 (data req) → context_wf cx → (∀ v, ends_well (tdi cx) s q (k v cx)) →
  ends_well (tdi cx) s q (on_request payload_size c req k cx).
Proof.
  intros Hreq Hcx Hk. unfold on_request.
  destruct (read_request_returns c _ _ (data req) cx Hreq) as [o Ho].
  rewrite (bind_step _ _ _ _ _ Ho). destruct o as [v|]; [apply Hk|by apply error_ends_well].
Qed.

Lemma unless_state_ends_well bad k cx q :
  context_wf cx → (bad (current_state cx) = false → ends_well (tdi cx) (current_state cx) q (k cx)) →
  ends_well (tdi cx) (current_state cx) q (unless_state payload_size bad k cx).
Proof.
  intros Hcx Hk. unfold unless_state, bind, gets.
  destruct (bad _); [by apply error_ends_well|by apply Hk].
Qed.

Lemma on_device_ends_well op k cx s q :
  context_wf cx →
  (∀ d, op (configuration cx) = (inr tt, d) → ends_well (tdi cx) s q (k (set_configuration d cx))) →
  ends_well (tdi cx) s q (on_device payload_size op k cx).
Proof.
  intros Hcx Hk. unfold on_device, call, bind.
  destruct (op (configuration cx)) as [[e|[]] d]; [|by apply Hk].
  by apply (error_ends_well _ (set_configuration d cx)).
Qed.

Lemma moved_ends_well {A} code (c : TdispCodec A) wf wire `{!TdispCodecOk c wf wire} v cx s q k :
  enum_wf 8 TdispRequestResponseCode_get_u8 TdispRequestResponseCode_from_u8 code → wf v →
  (12 + length (wire v) ≤ payload_size)%nat → context_wf cx →
  (∀ rsp, code_of (data rsp) = Some code → ends_well (tdi cx) s q (k rsp cx)) →
  ends_well (tdi cx) s q (bind (answer payload_size code c v) k cx).
Proof.
  intros Hcode Hv Hl Hcx Hk. destruct (tdisp_answered code c wf wire v cx Hcode Hv Hl Hcx) as (rsp&Ha&Hrsp).
  rewrite (bind_step _ _ _ _ _ Ha). by apply Hk.
Qed.

(** The eleven requests. *)
Definition is_request (q : TdispRequestResponseCode) : bool :=
  match q with
  | RequestGetTdispVersion | RequestGetTdispCapabilities | RequestLockInterfaceRequest
  | RequestGetDeviceInterfaceReport | RequestGetDeviceInterfaceState
  | RequestStartInterfaceRequest | RequestStopInterfaceRequest | RequestBindP2pStreamRequest
  | RequestUnbindP2pStreamRequest | RequestSetMmioAttributeRequest | RequestVdmRequest => true
  | _ => false
  end.

Ltac answers := eapply answer_ends_well; [apply _|done| |simpl; lia|done|eauto with tdisp].
Ltac moves := eapply moved_ends_well; [apply _|done|done|simpl; lia|done|intros rsp Hrsp].
Ltac device d Hd :=
  match goal with |- ends_well _ _ _ (on_device _ _ _ ?c) => apply (on_device_ends_well _ _ c) end;
  [done|intros d Hd].
Ltac arrives :=
  split; [split; [by apply context_wf_state|]|split; [done|eexists; split; [done|eauto with tdisp]]].

Lemma queries_end_well q a req cx :
  tdi_query q a → Forall is_u8 (data req) → secure cx →
  ends_well (tdi cx) (current_state cx) q (handler_of payload_size q req cx).
Proof.
  intros Hq Hreq Hcx. pose proof Hcx as [(Hver&Hid&Hs) _].
  destruct Hq; (eapply on_request_ends_well; [apply _|done|apply Hcx|intros v]).
  - unfold bind, gets. rewrite Hver.
    change (answer _ _ _ _ cx) with
      (answer payload_size ResponseTdispVersion MessagePayloadResponseVersion_codec
         {| version_num_count := 1; version_num_entry := [0x10; 0] |} cx).
    answers. split; [done|]. apply (bool_decide_unpack _). by vm_compute.
  - answers. by vm_compute.
  - unfold bind, gets. answers. by destruct (current_state cx).
  - answers. split_and!; [done..|]. apply (bool_decide_unpack _). by vm_compute.
Qed.

Lemma running_end_well q a req cx :
  tdi_running q a → Forall is_u8 (data req) → secure cx →
  ends_well (tdi cx) (current_state cx) q (handler_of payload_size q req cx).
Proof.
  intros Hq Hreq Hcx. pose proof Hcx as [Hwf _].
  destruct Hq; (eapply on_request_ends_well; [apply _|done|done|intros v]);
    apply unless_state_ends_well; try done; intros Hs%bool_decide_eq_false;
    apply dec_stable in Hs;
    (eapply answer_ends_well; [apply _|done|done|simpl; lia|done|rewrite Hs; eauto with tdisp]).
Qed.

Lemma lock_ends_well req cx :
  Forall is_u8 (data req) → secure cx →
  ends_well (tdi cx) (current_state cx) RequestLockInterfaceRequest
    (handle_lock_interface_request payload_size req cx).
Proof.
  intros Hreq [Hwf Hc]. eapply on_request_ends_well; [apply _|done|done|intros v].
  apply unless_state_ends_well; [done|]. intros Hs%bool_decide_eq_false. apply dec_stable in Hs.
  moves. device d1 H1. device d2 H2. rewrite Hs. arrives. done.
Qed.

Lemma start_ends_well req cx :
  Forall is_u8 (data req) → secure cx →
  ends_well (tdi cx) (current_state cx) RequestStartInterfaceRequest
    (handle_start_interface_request payload_size req cx).
Proof.
  intros Hreq [Hwf Hc]. eapply on_request_ends_well; [apply _|done|done|intros v].
  apply unless_state_ends_well; [done|]. intros Hs%bool_decide_eq_false. apply dec_stable in Hs.
  moves. device d1 H1. rewrite Hs. arrives. done.
Qed.

Lemma stop_ends_well req cx :
  Forall is_u8 (data req) → secure cx →
  ends_well (tdi cx) (current_state cx) RequestStopInterfaceRequest
    (handle_stop_interface_request payload_size req cx).
Proof.
  intros Hreq [Hwf Hc]. eapply on_request_ends_well; [apply _|done|done|intros v].
  moves. device d1 H1. device d2 H2. arrives. intros _. eapply unlock_clean; [|done].
  by eapply erase_clean.
Qed.

Lemma report_ends_well req cx :
  Forall is_u8 (data req) → secure cx →
  ends_well (tdi cx) (current_state cx) RequestGetDeviceInterfaceReport
    (handle_device_interface_report payload_size req cx).
Proof.
  intros Hreq [Hwf Hc]. eapply on_request_ends_well; [apply _|done|done|intros v].
  apply unless_state_ends_well; [done|]. intros Hs. exfalso.
  by destruct (current_state cx).
Qed.

Lemma handler_ends_well q req cx :
  Forall is_u8 (data req) → secure cx → is_request q = true →
  ends_well (tdi cx) (current_state cx) q (handler_of payload_size q req cx).
Proof.
  intros Hreq Hcx Hq. destruct q; try done;
    first [by eapply queries_end_well; [constructor|..] | by eapply running_end_well; [constructor|..]
          | by apply lock_ends_well | by apply start_ends_well | by apply stop_ends_well
          | by apply report_ends_well].
Qed.

(** *** The dispatcher *)

(** Requests that the dispatcher refuses: too short, or not the code of a request. *)
Definition refused (req : sized) : Prop :=
  (data_size req < header_size)%nat ∨
  match code_of (data req) with Some q => is_request q = false | None => True end.

Lemma refused_handled req cx :
  Forall is_u8 (data req) → refused req →
  handler req (Some cx) = (Err SPDM_STATUS_INVALID_MSG_FIELD, Some cx).
Proof.
  intros Hreq Hr. unfold vendor_defined_request_handler. rewrite (bind_step _ _ _ (Some cx) (Some cx)) by done.
  case_bool_decide; [done|]. destruct Hr as [Hr|Hr]; [lia|]. cbn [bool_decide]. unfold code_of in Hr.
  destruct (tdisp_parse_ok (c:=TdispMessageHeader_codec) (Reader_init (data req)))
    as (n&o&Ho&_&Hp); [by split; [simpl; lia|]|].
  rewrite Ho in Hr |- *. cbn [fst] in *. destruct o as [h|e|]; [|done|done].
  unfold with_responder. by destruct (message_type h).
Qed.

Lemma accepted_handled req cx q :
  (header_size ≤ data_size req)%nat → code_of (data req) = Some q →
  handler req (Some cx) = let '(o, cx') := handler_of payload_size q req cx in (o, Some cx').
Proof.
  intros Hl Hq. unfold vendor_defined_request_handler. rewrite (bind_step _ _ _ (Some cx) (Some cx)) by done.
  case_bool_decide; [lia|]. unfold code_of in Hq.
  destruct (tdisp_read _ _) as [[h|e|] r]; [|done|done]. cbn [fst] in *. by injection Hq as ->.
Qed.

Lemma refused_or_accepted req :
  refused req ∨
  (header_size ≤ data_size req)%nat ∧ ∃ q, code_of (data req) = Some q ∧ is_request q = true.
Proof.
  unfold refused. destruct (decide (data_size req < header_size)%nat); [by left; left|].
  destruct (code_of (data req)) as [q|]; [|by left; right].
  destruct (is_request q) eqn:Hq; [|by left; right]. right. split; [lia|]. by exists q.
Qed.

(** A request with code [q] and a payload that can be read. *)
Definition well_formed_request {A} (q : TdispRequestResponseCode) (c : TdispCodec A) (req : sized)
    : Prop :=
  Forall is_u8 (data req) ∧ (header_size ≤ data_size req)%nat ∧ code_of (data req) = Some q ∧
  ∀ cx, ∃ v, read_request c (data req) cx = (Ok (Some v), cx).

Lemma on_request_some {A} q (c : TdispCodec A) req cx :
  well_formed_request q c req → ∃ v, ∀ k, on_request payload_size c req k cx = k v cx.
Proof.
  intros (_&_&_&Hr). destruct (Hr cx) as [v Hv]. exists v. intros k. unfold on_request.
  by rewrite (bind_step _ _ _ _ _ Hv).
Qed.

(** A device on which every operation succeeds. *)
Definition reliable : Prop :=
  ∀ d, (init_config d).1 = inr tt ∧ (lock_config d).1 = inr tt ∧ (unlock_config d).1 = inr tt ∧
       (erase_confidential_config d).1 = inr tt ∧ (track_config_changes d).1 = inr tt.

Lemma on_device_ok op k cx :
  (op (configuration cx)).1 = inr tt →
  on_device payload_size op k cx = k (set_configuration (op (configuration cx)).2 cx).
Proof.
  intros Hop. unfold on_device, bind, call. destruct (op _) as [r d]. simpl in Hop. by subst.
Qed.

(** The request was accepted and led to state [s]. *)
Definition moved_to (s : TDIState) (a : TdispRequestResponseCode)
    (r : outcome SpdmStatus sized * option TdispContext) : Prop :=
  ∃ rsp cx, r = (Ok rsp, Some cx) ∧ context_wf cx ∧ current_state cx = s ∧
            code_of (data rsp) = Some a.

Lemma stop_moves req cx :
  reliable → well_formed_request RequestStopInterfaceRequest empty_payload req → context_wf cx →
  moved_to ConfigUnlocked ResponseStopInterfaceResponse (handler req (Some cx)).
Proof.
  intros Hd Hreq Hcx. destruct (Hreq) as (_&Hl&Hq&_). rewrite (accepted_handled _ _ _ Hl Hq).
  cbn [handler_of]. unfold handle_stop_interface_request.
  destruct (on_request_some _ _ _ cx Hreq) as [v ->].
  destruct (tdisp_answered ResponseStopInterfaceResponse empty_payload _ _ tt cx) as (rsp&Ha&Hrsp);
    [done|done|simpl; lia|done|].
  rewrite (bind_step _ _ _ _ _ Ha), on_device_ok, on_device_ok by apply Hd.
  do 2 eexists. split; [reflexivity|]. split; [by apply context_wf_state|done].
Qed.

Lemma lock_moves req cx :
  reliable → well_formed_request RequestLockInterfaceRequest MessagePayloadRequestLockInterface_codec req →
  context_wf cx → current_state cx = ConfigUnlocked →
  moved_to ConfigLocked ResponseLockInterfaceResponse (handler req (Some cx)).
Proof.
  intros Hd Hreq Hcx Hs. destruct (Hreq) as (_&Hl&Hq&_). rewrite (accepted_handled _ _ _ Hl Hq).
  cbn [handler_of]. unfold handle_lock_interface_request.
  destruct (on_request_some _ _ _ cx Hreq) as [v ->].
  unfold unless_state. rewrite (bind_step _ _ cx cx ConfigUnlocked) by (unfold gets; by rewrite Hs).
  rewrite bool_decide_false by (intros []; done).
  destruct (tdisp_answered ResponseLockInterfaceResponse MessagePayloadResponseLockInterface_codec _ _ 0 cx)
    as (rsp&Ha&Hrsp); [done|done|simpl; lia|done|].
  rewrite (bind_step _ _ _ _ _ Ha), on_device_ok, on_device_ok by apply Hd.
  do 2 eexists. split; [reflexivity|]. split; [by apply context_wf_state|done].
Qed.

Lemma start_moves req cx :
  reliable → well_formed_request RequestStartInterfaceRequest MessagePayloadRequestStartInterface_codec req →
  context_wf cx → current_state cx = ConfigLocked →
  moved_to Run ResponseStartInterfaceResponse (handler req (Some cx)).
Proof.
  intros Hd Hreq Hcx Hs. destruct (Hreq) as (_&Hl&Hq&_). rewrite (accepted_handled _ _ _ Hl Hq).
  cbn [handler_of]. unfold handle_start_interface_request.
  destruct (on_request_some _ _ _ cx Hreq) as [v ->].
  unfold unless_state. rewrite (bind_step _ _ cx cx ConfigLocked) by (unfold gets; by rewrite Hs).
  rewrite bool_decide_false by (intros []; done).
  destruct (tdisp_answered ResponseStartInterfaceResponse empty_payload _ _ tt cx)
    as (rsp&Ha&Hrsp); [done|done|simpl; lia|done|].
  rewrite (bind_step _ _ _ _ _ Ha), on_device_ok by apply Hd.
  do 2 eexists. split; [reflexivity|]. split; [by apply context_wf_state|done].
Qed.
End Responder.

(** ** The properties *)

Section Theorems.
Context `{device : TdispConfiguration}.
Context (payload_size header_size : nat).

Abbreviation handler := (vendor_defined_request_handler payload_size header_size).

(** C9: The responder implements the automaton [tdi_step].  From any context, on any request: an
    answer carries the code of a step of the automaton for the request's code, and the context has
    moved along that step with the same interface; a refusal leaves the context alone and happens
    only for requests that are too short or carry no request code; and the responder panics only
    when the device could not erase its confidential configuration. *)
Theorem tdisp_refines (req : sized) (cx : TdispContext) :
  (40 ≤ payload_size)%nat → Forall is_u8 (data req) → context_wf cx →
  match handler req (Some cx) with
  | (Ok rsp, s') =>
      ∃ cx' q a, s' = Some cx' ∧ context_wf cx' ∧ tdi cx' = tdi cx ∧
        code_of (data req) = Some q ∧ code_of (data rsp) = Some a ∧
        tdi_step (current_state cx) q a (current_state cx')
  | (Err e, s') => e = SPDM_STATUS_INVALID_MSG_FIELD ∧ s' = Some cx ∧ refused header_size req
  | (Panic, _) => ∃ d e d', erase_confidential_config d = (inl e, d')
  end.
Proof.
  intros room Hreq Hcx.
  destruct (refused_or_accepted payload_size header_size room req) as [Hr|(Hl&q&Hq&Hi)].
  - by rewrite (refused_handled _ _ room _ _ Hreq Hr).
  - rewrite (accepted_handled _ _ room _ _ _ Hl Hq).
    assert (DeviceLaws (λ _, True)) as laws by done.
    pose proof (handler_ends_well payload_size room (λ _, True) laws q req cx Hreq) as Hw.
    unfold ends_well in Hw.
    destruct (handler_of payload_size q req cx) as [[rsp|e|] cx']; [|by destruct Hw|by apply Hw].
    destruct Hw as ([Hcx' _]&Hid&a&Ha&Hstep); [done|done|]. by exists cx', q, a.
Qed.

(** One request is served and the responder lives on. *)
Definition served (cx cx' : TdispContext) : Prop :=
  ∃ req o, Forall is_u8 (data req) ∧ handler req (Some cx) = (o, Some cx') ∧ o ≠ Panic.

Lemma served_secure clean (laws : DeviceLaws clean) cx cx' :
  (40 ≤ payload_size)%nat → served cx cx' → secure clean cx → secure clean cx'.
Proof.
  intros room (req&o&Hreq&Heq&Ho) Hcx.
  destruct (refused_or_accepted payload_size header_size room req) as [Hr|(Hl&q&Hq&Hi)].
  - rewrite (refused_handled _ _ room _ _ Hreq Hr) in Heq. apply (f_equal snd) in Heq. cbn in Heq.
    by injection Heq as <-.
  - rewrite (accepted_handled _ _ room _ _ _ Hl Hq) in Heq.
    pose proof (handler_ends_well payload_size room clean laws q req cx Hreq Hcx Hi) as Hw.
    destruct (handler_of payload_size q req cx) as [[rsp|e|] cx1]; [|by destruct Hw|congruence].
    apply (f_equal snd) in Heq. cbn in Heq. injection Heq as <-. apply Hw.
Qed.

(** C23: No confidential data outside a locked interface.  Take a device that holds no confidential
    configuration ([clean]) after it was initialised or erased, and stays so when unlocked.  After
    any sequence of requests to a fresh responder, whenever the interface is in CONFIG_UNLOCKED or
    ERROR the device is clean; and the state is always one of the four of the protocol. *)
Theorem confidential_erased clean (laws : DeviceLaws clean) id d session cx0 cx :
  (40 ≤ payload_size)%nat → FunctionId_wf id →
  TdispResponder_new id d session = Ok cx0 → rtc served cx0 cx →
  known (current_state cx) ∧ (cleared (current_state cx) → clean (configuration cx)).
Proof.
  intros room Hid Hnew Hrun. unfold TdispResponder_new, TdispContext_new in Hnew.
  destruct (init_config d) as [[e|[]] d'] eqn:Hinit; [done|].
  assert (secure clean cx0) as H0.
  { injection Hnew as <-. split; [done|]. intros _. by eapply init_clean. }
  cut (secure clean cx); [intros [(_&_&?) ?]; done|]. clear Hnew.
  induction Hrun as [|cx1 cx2 cx3 Hs _ IH]; [done|]. by eapply IH, served_secure.
Qed.

(** C24: A working interface can always be brought to RUN.  On a device whose operations succeed,
    STOP, LOCK and START requests with readable payloads, sent in this order in any state, are all
    accepted, and they lead through CONFIG_UNLOCKED and CONFIG_LOCKED to RUN. *)
Theorem interface_brought_up (stop lock start : sized) (cx : TdispContext) :
  (40 ≤ payload_size)%nat → reliable → context_wf cx →
  well_formed_request header_size RequestStopInterfaceRequest empty_payload stop →
  well_formed_request header_size RequestLockInterfaceRequest
    MessagePayloadRequestLockInterface_codec lock →
  well_formed_request header_size RequestStartInterfaceRequest
    MessagePayloadRequestStartInterface_codec start →
  moved_to Run ResponseStartInterfaceResponse
    ((handler stop;; handler lock;; handler start) (Some cx)).
Proof.
  intros room Hd Hcx H1 H2 H3.
  destruct (stop_moves _ _ room stop cx Hd H1 Hcx) as (r1&c1&E1&Hc1&Hs1&_).
  destruct (lock_moves _ _ room lock c1 Hd H2 Hc1 Hs1) as (r2&c2&E2&Hc2&Hs2&_).
  rewrite (bind_step _ _ _ _ _ E1), (bind_step _ _ _ _ _ E2). by apply start_moves.
Qed.

(** The interface report can never be obtained.  In every state, RUN and CONFIG_LOCKED
    included, a GET_DEVICE_INTERFACE_REPORT request that is answered is answered with a TDISP
    error, and it moves the interface to ERROR. *)
Theorem report_never_answered (req : sized) (cx : TdispContext) :
  (40 ≤ payload_size)%nat →
  well_formed_request header_size RequestGetDeviceInterfaceReport
    MessagePayloadRequestGetDeviceInterfaceReport_codec req → context_wf cx →
  match handler req (Some cx) with
  | (Ok rsp, s') =>
      code_of (data rsp) = Some ResponseTdispError ∧
      ∃ cx', s' = Some cx' ∧ current_state cx' = Error
  | (Err _, _) => False
  | (Panic, _) => ∃ d e d', erase_confidential_config d = (inl e, d')
  end.
Proof.
  intros room (Hreq&Hl&Hq&_) Hcx. rewrite (accepted_handled _ _ room _ _ _ Hl Hq).
  assert (DeviceLaws (λ _, True)) as laws by done.
  pose proof (report_ends_well payload_size room (λ _, True) laws req cx Hreq) as Hw.
  cbn [handler_of]. unfold ends_well in Hw.
  destruct (handle_device_interface_report payload_size req cx) as [[rsp|e|] cx'];
    [|by apply Hw|by apply Hw].
  destruct Hw as (_&_&a&Ha&Hstep); [done|].
  inversion Hstep as [? ? ? Hi|? ? Hi| | | |]; subst; try inversion Hi. by eauto.
Qed.
End Theorems.

(** ** The two roles together *)

Lemma code_of_second b0 b1 bs q :
  is_u8 b0 → is_u8 b1 → code_of (b0 :: b1 :: bs) = Some q → q = TdispRequestResponseCode_from_u8 b1.
Proof.
  intros H0 H1 Hq.
  assert (∀ b, is_u8 b → le_bytes 1 b = [b]) as Hle
    by (intros b Hb; cbn [le_bytes]; by rewrite as_uint_id).
  assert (read u8_codec (Reader_init (b0 :: b1 :: bs)) =
          (Ok b0, Reader_advance (Reader_init (b0 :: b1 :: bs)) 1)) as E0.
  { rewrite (read_ok (c:=u8_codec) b0 H0 _ (b1 :: bs)); [done|by rewrite Hle]. }
  assert (read u8_codec (Reader_advance (Reader_init (b0 :: b1 :: bs)) 1) =
          (Ok b1, Reader_advance (Reader_init (b0 :: b1 :: bs)) 2)) as E1.
  { rewrite (read_ok (c:=u8_codec) b1 H1 _ bs); [done|by rewrite Hle]. }
  unfold code_of in Hq. destruct (tdisp_read _ _) as [[h|e|] r'] eqn:Hr; [|done|done].
  cbn [tdisp_read TdispMessageHeader_codec] in Hr. rewrite (bind_step _ _ _ _ _ E0) in Hr.
  apply bind_ok in Hr as (t&r2&Ht&Hr). cbn [read TdispRequestResponseCode_codec enum_codec] in Ht.
  rewrite (bind_step _ _ _ _ _ E1) in Ht. apply ret_ok in Ht as [<- <-].
  apply bind_ok in Hr as (z&r3&_&Hr). apply bind_ok in Hr as (id&r4&_&[<- _]%ret_ok).
  cbn in Hq. congruence.
Qed.

Section Together.
Context `{device : TdispConfiguration}.
Context (payload_size header_size : nat) (default_code : TdispRequestResponseCode).

(** A channel that hands every payload to the responder. *)
Definition direct (session : Z) (registry : RegistryOrStandardsBodyID) (vendor req : sized)
    : M (option TdispContext) SpdmStatus sized :=
  vendor_defined_request_handler payload_size header_size req.

(** The responder takes the protocol identifier for the version and the version for the code. *)
Lemma prefixed_refused n h bs :
  TdispMessageHeader_wf h → tdisp_version h = 0x10 →
  refused header_size {| data_size := n; data := le_bytes 1 1 ++ TdispMessageHeader_wire h ++ bs |}.
Proof.
  intros Hh Hver. right. cbn [data]. destruct (code_of _) as [q|] eqn:Hq; [|done].
  unfold TdispMessageHeader_wire in Hq. rewrite Hver in Hq. cbn in Hq.
  by apply code_of_second in Hq as ->.
Qed.

Lemma send_receive_refused {A} (c : TdispCodec A) wf wire `{!TdispCodecOk c wf wire} v q a cx rcx :
  (40 ≤ payload_size)%nat → (13 + length (wire v) ≤ payload_size)%nat →
  enum_wf 8 TdispRequestResponseCode_get_u8 TdispRequestResponseCode_from_u8 default_code →
  wf v → Forall is_u8 (wire v) → context_wf cx →
  let '(o, s) := send_receive payload_size default_code direct c v q a (cx, Some rcx) in
  o ≠ Ok tt ∧ s.2 = Some rcx.
Proof.
  intros room Hl Hdef Hv Hv8 (Hver&Hid&_). set (m := request_message_of default_code cx v).
  assert (TdispMessageHeader_wf (tdisp_message_header m)) as Hh
    by (split_and!; [cbn; by rewrite Hver|done|done]).
  pose proof (tdisp_encode_ok (c:=TdispMessage_codec c) m (conj Hh Hv)) as He.
  apply (with_writer_append (S:=TdispContext * option TdispContext) (replicate payload_size 0)
           _ _ _ (cx, Some rcx)) in He; [|rewrite length_replicate; exact Hl].
  set (w := Writer_append _ _) in He.
  assert (wr_buf w = le_bytes 1 1 ++ TdispMessageHeader_wire (tdisp_message_header m) ++
            (wire v ++ drop (13 + length (wire v)) (replicate payload_size 0))) as Hw by done.
  assert (handler_refuses : direct (spdm_session_id cx) Registry_PCISIG PCI_VENDOR_ID_STRUCT
            {| data_size := wr_offs w; data := wr_buf w |} (Some rcx) =
          (Err SPDM_STATUS_INVALID_MSG_FIELD, Some rcx)).
  { apply refused_handled; [done| |rewrite Hw; by apply prefixed_refused].
    cbn [data]. rewrite Hw, !Forall_app. split_and!; [by apply le_bytes_u8| |done|].
    - repeat apply Forall_app_2; apply le_bytes_u8.
    - apply Forall_drop, Forall_replicate. done. }
  unfold send_receive. rewrite (bind_step _ _ _ (cx, Some rcx) cx) by done. cbv beta.
  rewrite (bind_step _ _ _ (cx, Some rcx) (tt, w)) by (unfold map_err; fold m; by rewrite He).
  clearbody w. case_bool_decide; [|done]. unfold message_slice. case_bool_decide; [|done].
  unfold bind, ret, modify, attempt, zoom. cbn [fst snd]. by rewrite handler_refuses.
Qed.

(** The eleven requests of the requester. *)
Definition tdisp_requests : list (M (TdispContext * option TdispContext) InternalError unit) :=
  [send_receive_get_tdisp_version payload_size default_code direct;
   send_receive_get_tdisp_capabilities payload_size default_code direct;
   send_receive_lock_interface_request payload_size default_code direct;
   send_receive_get_device_interface_report payload_size default_code direct;
   send_receive_get_device_interface_state payload_size default_code direct;
   send_receive_start_interface payload_size default_code direct;
   send_receive_stop_interface payload_size default_code direct;
   send_receive_bind_p2p_stream payload_size default_code direct;
   send_receive_unbind_p2p_stream payload_size default_code direct;
   send_receive_set_mmio_attribute payload_size default_code direct;
   send_receive_vdm_request payload_size default_code direct].

(** Requester and responder of the crate do not understand each other.  The requester puts the
    protocol identifier in front of the header and the responder reads the header without it.  So
    with a channel that hands each payload to the responder unchanged, none of the eleven requests
    succeeds, in any state, and the responder's state never changes. *)
Theorem tdisp_requests_fail request cx rcx :
  (64 ≤ payload_size)%nat →
  enum_wf 8 TdispRequestResponseCode_get_u8 TdispRequestResponseCode_from_u8 default_code →
  context_wf cx → request ∈ tdisp_requests →
  let '(o, s) := request (cx, Some rcx) in o ≠ Ok tt ∧ s.2 = Some rcx.
Proof.
  intros room Hdef Hcx Hin. unfold tdisp_requests in Hin.
  repeat (apply elem_of_cons in Hin as [->|Hin]; [eapply send_receive_refused;
    [apply _|lia|simpl; lia|done| | |done]|]); [..|by apply elem_of_nil in Hin].
  all: try (apply (bool_decide_unpack _); by vm_compute); repeat split; try done.
Qed.
End Together.

(** ** Witnesses *)

Module Toy.
(** A device that remembers whether it holds confidential data, which it gets with START. *)
#[local] Instance toy_device : TdispConfiguration := {|
  tdisp_config := bool;
  init_config _ := (inr tt, false);
  lock_config d := (inr tt, d);
  unlock_config d := (inr tt, d);
  erase_confidential_config _ := (inr tt, false);
  track_config_changes _ := (inr tt, true);
|}.
Definition toy_clean (d : bool) : Prop := d = false.
#[local] Instance toy_laws : DeviceLaws toy_clean.
Proof. by split; [intros ? ? [= <-]|intros ? ? ? [= <-]|intros ? ? [= <-]]. Qed.

Definition toy_id : FunctionId :=
  {| requester_id := 0x0100; requester_segment := 0; requester_segment_valid := false |}.
Definition toy_context (s : TDIState) (d : bool) : TdispContext :=
  {| version_sel := 0x10; tdi := toy_id; current_state := s; configuration := d;
     spdm_session_id := 7; request_message := []; request_code := TdispCode_Unknown 0;
     response_message := []; response_code := TdispCode_Unknown 0 |}.
Definition toy_request (code : TdispRequestResponseCode) (payload : bytes) : sized :=
  let bs := TdispMessageHeader_wire
              {| tdisp_version := 0x10; message_type := code; interface_id := toy_id |} ++ payload in
  {| data_size := length bs; data := bs |}.
Definition toy_stop := toy_request RequestStopInterfaceRequest [].
Definition toy_lock := toy_request RequestLockInterfaceRequest (replicate 20 0).
Definition toy_start := toy_request RequestStartInterfaceRequest (replicate 32 0).
Definition toy_report := toy_request RequestGetDeviceInterfaceReport (replicate 4 0).

Lemma toy_well_formed {A} q (c : TdispCodec A) bs v :
  let req := toy_request q bs in
  bool_decide (Forall is_u8 (data req)) = true → code_of (data req) = Some q →
  (read_request c (data req) (toy_context Run true)).1 = Ok (Some v) →
  well_formed_request 12 q c req.
Proof.
  intros req H8 Hq Hr. split_and!; [by eapply bool_decide_eq_true_1|unfold req; cbn; lia|done|].
  intros cx. exists v. unfold read_request, of_outcome in *. by f_equal.
Qed.

Lemma tdisp_refines_witness :
  ∃ rsp cx', vendor_defined_request_handler 64 12 toy_lock (Some (toy_context ConfigUnlocked false)) =
    (Ok rsp, Some cx') ∧ current_state cx' = ConfigLocked ∧
    tdi_step ConfigUnlocked RequestLockInterfaceRequest ResponseLockInterfaceResponse ConfigLocked.
Proof.
  pose proof (tdisp_refines 64 12 toy_lock (toy_context ConfigUnlocked false)) as H.
  vm_compute (vendor_defined_request_handler _ _ _ _) in H.
  destruct H as (cx'&q&a&Hs&_&_&Hq&Ha&Hstep);
    [lia|apply (bool_decide_unpack _); by vm_compute|by split_and!|].
  do 2 eexists. split; [vm_compute; reflexivity|]. split; [done|].
  vm_compute in Hq, Ha. injection Hq as <-. injection Ha as <-. injection Hs as <-. exact Hstep.
Defined.

(** A fresh responder that is locked, started and then asked for its report. *)
Definition toy_new : TdispContext :=
  match TdispResponder_new toy_id true 7 with Ok c => c | _ => toy_context Run true end.
Definition toy_step (req : sized) (cx : TdispContext) : TdispContext :=
  default cx (vendor_defined_request_handler 64 12 req (Some cx)).2.
Definition toy_failed : TdispContext :=
  toy_step toy_report (toy_step toy_start (toy_step toy_lock toy_new)).

Lemma toy_request_served q bs cx :
  bool_decide (Forall is_u8 (data (toy_request q bs))) = true →
  match vendor_defined_request_handler 64 12 (toy_request q bs) (Some cx) with
  | (Panic, _) | (_, None) => False
  | _ => True
  end → served 64 12 cx (toy_step (toy_request q bs) cx).
Proof.
  intros H8 Hr. exists (toy_request q bs). unfold toy_step.
  destruct (vendor_defined_request_handler _ _ _ _) as [[] []]; try done;
    eexists; (split_and!; [by eapply bool_decide_eq_true_1|reflexivity|done]).
Qed.

Lemma confidential_erased_witness :
  current_state (toy_step toy_start (toy_step toy_lock toy_new)) = Run ∧
  configuration (toy_step toy_start (toy_step toy_lock toy_new)) = true ∧
  current_state toy_failed = Error ∧ toy_clean (configuration toy_failed).
Proof.
  split_and!; [by vm_compute..|].
  eapply (confidential_erased (device:=toy_device) 64 12 toy_clean toy_laws toy_id true 7 toy_new);
    [lia|done|by vm_compute| |by vm_compute].
  eapply rtc_l; [|eapply rtc_l; [|eapply rtc_l; [|apply rtc_refl]]];
    (apply toy_request_served; by vm_compute).
Defined.

Lemma toy_stop_well_formed : well_formed_request 12 RequestStopInterfaceRequest empty_payload toy_stop.
Proof. by eapply toy_well_formed; vm_compute. Qed.
Lemma toy_lock_well_formed :
  well_formed_request 12 RequestLockInterfaceRequest MessagePayloadRequestLockInterface_codec toy_lock.
Proof. by eapply toy_well_formed; vm_compute. Qed.
Lemma toy_start_well_formed :
  well_formed_request 12 RequestStartInterfaceRequest MessagePayloadRequestStartInterface_codec
    toy_start.
Proof. by eapply toy_well_formed; vm_compute. Qed.
Lemma toy_report_well_formed :
  well_formed_request 12 RequestGetDeviceInterfaceReport
    MessagePayloadRequestGetDeviceInterfaceReport_codec toy_report.
Proof. by eapply toy_well_formed; vm_compute. Qed.

Lemma interface_brought_up_witness :
  moved_to Run ResponseStartInterfaceResponse
    ((vendor_defined_request_handler 64 12 toy_stop;; vendor_defined_request_handler 64 12 toy_lock;;
      vendor_defined_request_handler 64 12 toy_start) (Some (toy_context Error true))).
Proof.
  apply (interface_brought_up 64 12);
    [lia|done|by split_and!|apply toy_stop_well_formed|apply toy_lock_well_formed
    |apply toy_start_well_formed].
Defined.

Lemma report_never_answered_witness :
  match vendor_defined_request_handler 64 12 toy_report (Some (toy_context Run true)) with
  | (Ok rsp, _) => code_of (data rsp) = Some ResponseTdispError
  | _ => False
  end.
Proof.
  pose proof (report_never_answered 64 12 toy_report (toy_context Run true) ltac:(lia)
                toy_report_well_formed ltac:(by split_and!)) as H.
  destruct (vendor_defined_request_handler _ _ _ _) as [[rsp|e|] s];
    [apply H|done|by destruct H as (?&?&?&[=])].
Defined.

Lemma tdisp_requests_fail_witness :
  let '(o, _) := send_receive_lock_interface_request MAX_TDISP_MESSAGE_SIZE (TdispCode_Unknown 0)
     (direct MAX_TDISP_MESSAGE_SIZE 12)
     (toy_context ConfigUnlocked false, Some (toy_context ConfigUnlocked false)) in
  o ≠ Ok tt.
Proof.
  pose proof (tdisp_requests_fail MAX_TDISP_MESSAGE_SIZE 12 (TdispCode_Unknown 0)
    (send_receive_lock_interface_request MAX_TDISP_MESSAGE_SIZE (TdispCode_Unknown 0)
       (direct MAX_TDISP_MESSAGE_SIZE 12)) (toy_context ConfigUnlocked false)
    (toy_context ConfigUnlocked false)) as H.
  destruct (send_receive_lock_interface_request _ _ _ _) as [o s]. apply H.
  - unfold MAX_TDISP_MESSAGE_SIZE. lia.
  - by vm_compute.
  - by split_and!.
  - unfold tdisp_requests. do 2 apply list_elem_of_further. apply list_elem_of_here.
Defined.
End Toy.
